(* ===== verification/_CoqProject ===== *)
-Q . S2P
Prelude.v
CondWait.v
QemuEvent.v
KvmMem.v
KvmIrq.v
KvmIo.v
MemOperand.v
PageWalk.v
MsrSync.v
ByteLayout.v
XSave.v
Apic.v
DisasTypes.v
DisasTables.v
DisasOps.v
DisasOperands.v
Disas.v
DisasFacts.v
OperandText.v
EffectiveAddr.v
CpuState.v
HwBreakpoint.v
KvmBreakpoint.v
RegState.v
RegSync.v
RegTypes.v
CpuReset.v
WorkQueue.v
VcpuThread.v
Hypercall.v
InsnAccess.v
KvmExec.v
RaceSched.v
KvmRun.v
Machine.v
ExecRace.v
ExecProg.v
