(* ===== verification/Prelude.v ===== *)
(** * Verification of Razzer's race-triggering hypervisor and guest executor

    Razzer (src/) finds data races in a guest kernel.  Its fuzzer proposes two
    system calls and two kernel instructions that may race; a modified QEMU 2.5.0
    (src/tools/qemu-2.5.0) lets the two virtual CPUs of the guest meet at these
    instructions, decides whether they access the same memory, and orders the two
    accesses.  In the guest an executor (executor/ in the syzkaller fork,
    src/tools/race-syzkaller) runs the system calls and talks to the hypervisor.  This
    library models that hypervisor code and the executor.

    The parts and how they work together:

    - The guest asks for a breakpoint with a hypercall: it stops at a fixed kernel
      address with a command in its registers (hypercall.c).
    - Breakpoints are per-CPU tables turned into debug registers for KVM
      (target-i386/kvm.c, kvm-all.c).
    - The execution loop (kvm_cpu_exec in kvm-all.c) runs the guest and dispatches
      debug exits to the hypercall handlers.
    - When a CPU stops at its breakpoint, wait_race (hypercall.c) disassembles the
      instruction at rip (disas_get_mem in disas/i386.c), evaluates the operand texts
      on the guest's registers (get_mem_addr in include/race/utils.h), records the
      address as read or written, and waits for the other CPU; a futex then lets the
      CPU named by the schedule go first.
    - Around KVM_RUN the loop moves the register file between QEMU and the kernel when
      one of them is out of date, and hands over interrupts (target-i386/kvm.c,
      hw/i386/kvm/apic.c); Razzer's own copy of the general registers is separate from
      this.
    - The threads of the virtual CPUs (cpus.c) call kvm_cpu_exec in a loop, can be
      paused, and run functions other threads hand over to them.  An attached debugger
      sets its own breakpoints for all CPUs (kvm-all.c), which patches guest memory
      through the guest's page tables (exec.c, target-i386/helper.c).
    - Beneath this, kvm-all.c tells the kernel about guest memory and interrupt routes,
      and carries out the I/O that the kernel hands back.
    - The executor decodes the program it is sent, gives the calls to two threads that
      start the hypercalls around the racing ones and meet at a barrier, and reports the
      verdict and the coverage (executor.h, common.h).

    The files:

    - [Prelude]: outcomes of partial operations ([res]), machine integers, C strings
      and printf conversions, shared tactics.
    - [CondWait]: the deadline of qemu_cond_timedwait (util/qemu-thread-posix.c) and the
      barrier (target-i386/sync.c).
    - [QemuEvent]: the other wrappers of util/qemu-thread-posix.c and the events; the
      threads that use an event are a transition relation over its atomic accesses.
    - [KvmMem]: the memory slots and dirty logs of kvm-all.c.  [KvmIrq]: its interrupt
      routes (with hw/i386/kvm/ioapic.c).  [KvmIo]: its ioeventfds, coalesced writes and
      port I/O.
    - [MemOperand]: include/race/utils.h.  [get_mem_addr] and its loop; termination.
    - [DisasTypes], [DisasTables], [DisasOps], [DisasOperands], [Disas]:
      disas/i386.c.  The file-level variables are the record [dis_state], the operand
      functions run in the state and error monad [DM], the tables are lists, and
      [disas_get_mem] is the entry point Razzer added.
    - [DisasFacts]: what every function of the disassembler keeps intact; termination.
    - [OperandText], [EffectiveAddr]: from the bytes of an operand over its text to
      the address.
    - [InsnAccess]: whole instructions, from the bytes at rip to the recorded access.
    - [PageWalk]: x86_cpu_get_phys_page_debug and cpu_memory_rw_debug, on guest memory
      as a function from physical addresses to bytes.
    - [ByteLayout]: little-endian fields at fixed offsets of a memory area.
    - [MsrSync], [XSave], [Apic], [RegState]: target-i386/kvm.c and hw/i386/kvm/apic.c.
      The two directions of each part of the register file: model-specific registers,
      the floating-point and vector area, the local APIC, and general, segment, control
      and debug registers with pending events.  The fields of struct CPUX86State are
      spread over the records [msr_env], [fpu_env], [x86_env] and [X86CPU].
    - [RegSync], [RegTypes]: kvm_arch_put_registers, kvm_arch_get_registers and the
      synchronisation functions of kvm-all.c.
    - [CpuReset]: x86_cpu_reset (target-i386/cpu.c) and do_cpu_init.
    - [CpuState]: the fields of struct CPUState and struct kvm_guest_debug.
    - [HwBreakpoint]: breakpoint tables, debug registers and the per-CPU operations.
    - [KvmBreakpoint]: software breakpoints, the global table of hardware breakpoints
      and the debugger's entry points.
    - [WorkQueue]: run_on_cpu, async_run_on_cpu and flush_queued_work; the queue of
      linked items and the threads that share it.
    - [VcpuThread]: the loop of the CPUs' threads, kicking, pausing and resuming.
    - [Hypercall]: hypercall.c.
    - [KvmExec]: a round of kvm_cpu_exec as struct CPUState sees it, kvm_handle_debug,
      kvm_arch_handle_exit.
    - [RaceSched]: the threads of the two virtual CPUs as a transition relation, and
      an executable scheduler for it.
    - [KvmRun]: kvm_cpu_exec on the whole virtual CPU, with asynchronous events, register
      transfer and injection.
    - [Machine]: the two threads with whole virtual CPUs, inside and outside
      kvm_cpu_exec.
    - [ExecRace]: the main thread and the two workers of the executor as a transition
      relation, the request and the verdict.
    - [ExecProg]: the program format, arguments, bit fields, checksums, results and
      coverage signals of the executor.

    What the theorems show:

    - Addresses ([EffectiveAddr]): the text printed for a memory operand evaluates to
      the effective address the processor computes from the operand's bytes, with two
      exceptions, which are shown to give wrong addresses.
    - Instructions ([DisasFacts], [InsnAccess]): the disassembler ends on all input
      with its arrays intact; for the common instruction forms the access recorded is
      the one the processor makes.  A compare counts as a write, and x87 opcodes end in
      a NULL dereference.
    - Guest memory ([PageWalk]): the page walk computes the translation of the x86-64
      manual and stays in range; reading page by page is reading byte by byte; the
      constant offset of get_phys_addr is right for a kernel that is not relocated.
    - Breakpoints ([HwBreakpoint]): the table of a CPU is a set of at most four
      addresses, and the debug registers arm exactly this set.
    - The debugger ([KvmBreakpoint]): on a kernel that accepts every setting, software
      breakpoints in text that is mapped one to one are a map of use counts with
      guest memory patched exactly at its addresses; hardware breakpoints are a set of
      triples that no CPU is armed with; removing all breakpoints leaves the software
      ones.
    - Threads ([WorkQueue], [VcpuThread]): work is run once and in order, no item is
      used after its end, callers return after their work and none sleeps for ever;
      after a pause no CPU runs the guest, a pause finishes by steps that need no luck (KVM_RUN
      returns only for a pending signal, sleepers wake only when signalled) and no request is
      lost.
    - Commands and stops ([Hypercall], [KvmExec]): the functional behaviour of each
      handler on its branches, the round trip of start and end, the way of the verdict
      back into the guest's registers; a skipped hit is lost.
    - Two CPUs ([RaceSched]): never both threads wait, a waiting thread can always
      continue and no assertion on the wait flag fails, a reported race is a conflict,
      the two verdicts agree, and the second access waits for the first.
    - The register file ([MsrSync], [XSave], [Apic], [RegState], [RegSync], [RegTypes],
      [CpuReset]): each part, and the transfer as a whole, is restored by a round trip
      through a kernel that answers each KVM_GET ioctl with what the last KVM_SET ioctl of its
      kind gave it; a transfer follows a fixed order and stops at the first error;
      values stay within their widths; the mode flags agree with the registers they are
      computed from, after a transfer and after a reset; a pending SMI is lost in a
      transfer.
    - The loop in full ([KvmRun]): the guest always resumes with the right one of the
      copies of its registers, requests are injected once and none is lost, and nothing
      is left over on return; debug exits never reach an attached debugger, and the mode
      flags are dropped after each run.
    - Waiting ([CondWait]): the deadline of a timed wait is exact and normalised; a meeting
      at the barrier aborts one of its threads.
    - Events ([QemuEvent]): the word of an event follows its protocol, no wake-up is lost
      and a set event wakes all; a wake-up that is late ends a wait it is not for.
    - Guest memory of the kernel ([KvmMem]): on a kernel that accepts every call the regions it
      was told are the map that the added and removed sections describe, with two slots per
      section and without dirty logging; host addresses are translated back; a
      dirty log marks the pages of the kernel's bitmap when a section is one slot, and
      wrong ones when it is two.
    - Interrupts ([KvmIrq]): table, bitmap and hash table refine a map from numbers to
      messages, and a message that is sent is the one that the kernel delivers; an abort occurs
      only when the kernel refuses a table or a line.
    - I/O ([KvmIo]): pending writes and port accesses are made once and in order.
    - The race in the guest ([ExecRace]): both breakpoints are requested before either
      racing call is made, the calls of a worker are made in order, the outcome is that of
      one verdict per worker, and when the racing calls differ every execution ends: it has
      passed finish_race, has ended after a failed hypercall, or is blocked inside a system call
      that does not return; the
      exchange of the two sides keeps the breakpoints and not the order, and a test that
      ends early is reported with an old verdict.
    - Programs ([ExecProg]): running the words of an encoded program has the effect of its
      instructions, any input ends, a bit field is set and nothing else, the checksum is the
      Internet checksum, and no coverage signal is lost.
    - Composition ([Machine]): the system with whole virtual CPUs refines the one of
      [RaceSched].

    Conventions.  A w-bit integer is a [Z]; conversions and wrap-around are written
    out ([u64], [s64], ...).  A char array is the NUL-terminated string it holds.
    Signed overflow in the number loop of get_mem_addr wraps.  A NULL dereference, an
    access outside an array, the use of an unwritten variable, panic, abort, exit and
    a failed assert are errors of [res].  The loops of the code that are not
    structural run with fuel; the fuel is the length of the text
    (get_mem_addr, putop), of the instruction buffer (ckprefix) plus one, of the
    bytes to access (cpu_memory_rw_debug) or the number of queued items
    (flush_queued_work), of the slots (kvm_set_phys_mem), of the ring of 170 coalesced
    writes, of the words of a program, and each round but the last consumes one; it is
    proved that the fuel does not run out.  Carries of the checksum are folded twice.
    Pages have 4096 bytes; two free slots per call suffice for any split.  The loop of kvm_cpu_exec has no bound: it is run on a list
    of rounds, and theorems about its result are about lists on which it ends.  Messages to stderr are not modelled.
    In disas_get_mem no bytes are fetched beyond the 15-byte buffer; the size of its output
    buffers (100 bytes each) is not modelled.  The result of KVM_SET_REGS in update_registers, which the
    code ignores, is success.  A test program is the list of instructions that the fuzzer
    encodes, run by the thread that decodes it; what its threaded mode adds is in [ExecRace].

    Parameters.  KVM's ioctls, the guest's physical memory, the guest's execution, the
    random number that skips a hit, the address of the hypercall instruction (a build
    constant), the host's clock and the interrupt controller in QEMU (apic_poll_irq,
    do_cpu_sipi, apic_handle_tpr_access_report), which is unused with a controller in the
    kernel, device models, eventfds, the system calls of a program, what an interrupted
    memcpy leaves behind and shifts past the width of their operand are arguments of the definitions that use them.  [RaceSched] leaves the
    transfer of the registers open as well, under the condition that it does not touch
    Razzer's fields, which [Machine] discharges.  A critical section under qemu_race_mutex is one atomic
    step; the timed wait may end by broadcast, timeout or spuriously, the futex by
    wake-up or timeout.  Code under the global mutex or under work_mutex is one step up
    to the point where the mutex is given away.  The arrays of hypercall.c have two entries and the guest two
    CPUs.

    Not modelled: the rest of QEMU (devices and what they do on an I/O exit, TCG,
    migration, other targets), the upstream printing entry points of the disassembler, the
    probing of KVM's capabilities at start-up (their results are [caps] and [kvm_config]),
    pausing from a CPU's own thread, thread creation, the pseudo system calls and isolation
    modes of the executor, its fault injection, sorted coverage and filter of comparisons, and the
    parts of Razzer in other languages (the fuzzer in Go, of which only the program format is
    translated, and the SVF analysis in C++). *)

From Stdlib Require Import ZArith Lia Bool Ascii String.
From stdpp Require Import base list.

Open Scope Z_scope.

(** ** Abnormal outcomes of the C code

    Every partial operation of the models returns a [res]; the constructors of
    [error] are the ways in which the C program stops or leaves its defined
    behaviour. *)

Inductive error :=
  | Panic          (* the panic() macro of race/log.h: message, backtrace, exit *)
  | Aborted        (* abort() *)
  | Exited         (* exit() with an error status *)
  | AssertFail     (* a failed assert() *)
  | NullDeref      (* a NULL pointer is dereferenced *)
  | OutOfBounds    (* a read or write outside the object *)
  | Uninit         (* an indeterminate value is read *)
  | Bailout        (* siglongjmp to the bailout point of the disassembler *)
  | OutOfFuel.     (* the bound of a model loop is exhausted, never reached by the code *)

#[export] Instance error_eq_dec : EqDecision error.
Proof. solve_decision. Defined.

Inductive res (A : Type) :=
  | Ok (a : A)
  | Err (e : error).
Arguments Ok {A} a.
Arguments Err {A} e.

Definition rbind {A B} (m : res A) (f : A -> res B) : res B :=
  match m with Ok a => f a | Err e => Err e end.

Definition of_option {A} (e : error) (o : option A) : res A :=
  match o with Some a => Ok a | None => Err e end.

Declare Scope razzer_scope.
Delimit Scope razzer_scope with rz.

Notation "'let?' x ':=' m 'in' k" := (rbind m (fun x => k))
  (at level 10, x pattern, m at level 100, k at level 200)
  : razzer_scope.

Lemma rbind_ok {A B} (m : res A) (f : A -> res B) b :
  rbind m f = Ok b <-> exists a, m = Ok a /\ f a = Ok b.
Proof. destruct m; simpl; split; [eauto | intros (? & [= ->] & ?) | discriminate | intros (? & ? & ?)]; congruence. Qed.

(** ** Machine integers

    A w-bit unsigned integer is a [Z] in [0, 2^w); [u64] and [u32] are the
    conversions of C, [s64] the signed reading of a 64-bit pattern. *)

Definition u8 (z : Z) : Z := z mod 2 ^ 8.
Definition u32 (z : Z) : Z := z mod 2 ^ 32.
Definition u64 (z : Z) : Z := z mod 2 ^ 64.
Definition s32 (z : Z) : Z := let x := u32 z in if x <? 2 ^ 31 then x else x - 2 ^ 32.
Definition s64 (z : Z) : Z := let x := u64 z in if x <? 2 ^ 63 then x else x - 2 ^ 64.

(** The error numbers of Linux. *)
Definition ENOENT : Z := 2.
Definition ESRCH : Z := 3.
Definition EINTR : Z := 4.
Definition ENXIO : Z := 6.
Definition EAGAIN : Z := 11.
Definition EEXIST : Z := 17.
Definition EINVAL : Z := 22.
Definition ENOSPC : Z := 28.
Definition ENOSYS : Z := 38.
Definition ENOBUFS : Z := 105.
Definition ETIMEDOUT : Z := 110.

(** [bits x m] is the C condition [x & m]. *)
Definition bits (x m : Z) : bool := negb (Z.land x m =? 0).

Lemma u64_range z : 0 <= u64 z < 2 ^ 64.
Proof. apply Z.mod_pos_bound; lia. Qed.

Lemma u64_small z : 0 <= z < 2 ^ 64 -> u64 z = z.
Proof. apply Z.mod_small. Qed.

Lemma s32_small z : 0 <= z < 2 ^ 31 -> s32 z = z.
Proof.
  intros H. unfold s32, u32. rewrite Z.mod_small by lia. rewrite (proj2 (Z.ltb_lt _ _)) by lia. reflexivity.
Qed.

Lemma s64_small z : - 2 ^ 63 <= z < 2 ^ 63 -> s64 z = z.
Proof.
  intros Hz. unfold s64, u64. destruct (Z.lt_ge_cases z 0) as [Hn | Hn].
  - rewrite <- (Z_mod_plus_full z 1), Z.mod_small by lia. destruct (Z.ltb_spec (z + 1 * 2 ^ 64) (2 ^ 63)); lia.
  - rewrite Z.mod_small by lia. destruct (Z.ltb_spec z (2 ^ 63)); lia.
Qed.

Lemma u64_idemp z : u64 (u64 z) = u64 z.
Proof. apply Z.mod_mod; lia. Qed.

Lemma u64_add_l a b : u64 (u64 a + b) = u64 (a + b).
Proof. unfold u64. apply Zplus_mod_idemp_l. Qed.

Lemma u64_add_r a b : u64 (a + u64 b) = u64 (a + b).
Proof. unfold u64. apply Zplus_mod_idemp_r. Qed.

Lemma u64_mul_l a b : u64 (u64 a * b) = u64 (a * b).
Proof. unfold u64. apply Zmult_mod_idemp_l. Qed.

Lemma u64_mul_r a b : u64 (a * u64 b) = u64 (a * b).
Proof. unfold u64. apply Zmult_mod_idemp_r. Qed.

Lemma u64_opp z : u64 (- u64 z) = u64 (- z).
Proof.
  replace (- u64 z) with (-1 * u64 z) by lia.
  rewrite u64_mul_r. f_equal; lia.
Qed.

Lemma u64_sub_r a b : u64 (a - u64 b) = u64 (a - b).
Proof. rewrite <- !Z.add_opp_r, <- u64_add_r, u64_opp, u64_add_r. reflexivity. Qed.

Lemma s64_range z : - 2 ^ 63 <= s64 z < 2 ^ 63.
Proof. unfold s64. pose proof (u64_range z). destruct (Z.ltb_spec (u64 z) (2 ^ 63)); lia. Qed.

Lemma u64_s64 z : u64 (s64 z) = u64 z.
Proof.
  unfold s64. destruct (Z.ltb_spec (u64 z) (2 ^ 63)); [apply u64_idemp |].
  replace (u64 z - 2 ^ 64) with (u64 z + (-1) * 2 ^ 64) by lia.
  unfold u64 at 1. rewrite Z.mod_add by lia. apply u64_idemp.
Qed.

Create Rewrite HintDb wrap.
Create Rewrite HintDb str.
#[export] Hint Rewrite u64_idemp u64_add_l u64_add_r u64_mul_l u64_mul_r u64_opp
  u64_sub_r u64_s64 : wrap.

(** Decides equalities modulo 2^64 between ring expressions. *)
Ltac wrap_ring := autorewrite with wrap; f_equal; ring.

(** ** Lists *)

(** A sum over a list of which one element is replaced. *)
Lemma sum_insert {A} (f : A -> nat) l i x y : l !! i = Some x ->
  (sum_list_with f (<[i := y]> l) + f x = sum_list_with f l + f y)%nat.
Proof.
  revert i. induction l as [|z l IH]; intros [|i] L; simpl in *; try discriminate.
  - injection L as ->. lia.
  - specialize (IH i L). lia.
Qed.

(** ** Bit fields *)

Lemma land7 x : Z.land x 7 = x mod 8.
Proof. change 7 with (Z.ones 3). apply Z.land_ones. lia. Qed.

Lemma land3 x : Z.land x 3 = x mod 4.
Proof. change 3 with (Z.ones 2). apply Z.land_ones. lia. Qed.

Lemma shiftr_div x n : 0 <= n -> Z.shiftr x n = x / 2 ^ n.
Proof. apply Z.shiftr_div_pow2. Qed.

(** A number below [2 ^ k] shares no bit with a multiple of it. *)
Lemma land_disjoint lo hi k : 0 <= k -> 0 <= lo < 2 ^ k -> Z.land lo (hi * 2 ^ k) = 0.
Proof.
  intros Hk Hl. apply Z.bits_inj'. intros n Hn. rewrite Z.land_spec, Z.bits_0.
  destruct (Z.lt_ge_cases n k).
  - rewrite Z.mul_pow2_bits_low by lia. apply andb_false_r.
  - destruct (Z.eq_dec lo 0) as [->|]; [rewrite Z.bits_0; reflexivity |].
    rewrite (Z.bits_above_log2 lo n); [reflexivity | lia |].
    apply Z.log2_lt_pow2; [lia |]. pose proof (Z.pow_le_mono_r 2 k n ltac:(lia) ltac:(lia)). lia.
Qed.

(** Joining a low part and a shifted high part. *)
Lemma lor_add lo hi k : 0 <= k -> 0 <= lo < 2 ^ k ->
  Z.lor lo (Z.shiftl hi k) = lo + 2 ^ k * hi.
Proof.
  intros Hk Hl. rewrite Z.shiftl_mul_pow2 by lia.
  pose proof (Z.add_lor_land lo (hi * 2 ^ k)) as E.
  rewrite land_disjoint in E by assumption. lia.
Qed.

(** ** Strings and characters *)

(** The character at the head of a C string: NUL at its end. *)
Definition head (s : string) : ascii :=
  match s with EmptyString => "000"%char | String c _ => c end.

Fixpoint sdrop (n : nat) (s : string) : string :=
  match n, s with
  | O, _ => s
  | S n, String _ s => sdrop n s
  | S _, EmptyString => EmptyString
  end.

Fixpoint stake (n : nat) (s : string) : string :=
  match n, s with
  | S n, String c s => String c (stake n s)
  | _, _ => EmptyString
  end.

Lemma append_nil_r s : String.append s EmptyString = s.
Proof. induction s; simpl; congruence. Qed.

Lemma append_assoc s t u :
  String.append (String.append s t) u = String.append s (String.append t u).
Proof. induction s; simpl; congruence. Qed.

Lemma length_append s t :
  String.length (String.append s t) = (String.length s + String.length t)%nat.
Proof. induction s; simpl; congruence. Qed.

Lemma stake_append s t : stake (String.length s) (String.append s t) = s.
Proof. induction s; simpl; [destruct t |]; congruence. Qed.

Lemma stake_all s : stake (String.length s) s = s.
Proof. rewrite <- (append_nil_r s) at 2. apply stake_append. Qed.

#[export] Hint Rewrite append_nil_r append_assoc length_append stake_append stake_all : str.

(** ** printf conversions

    [hex_string] is the conversion ["%lx"] of a 64-bit value, [dec_string] the
    conversion ["%d"] of a non-negative value; the fuel is the largest number of
    digits of a 64-bit value in that base. *)

Definition digit_char (d : Z) : ascii :=
  ascii_of_N (Z.to_N (if d <? 10 then 48 + d else 87 + d)).

Fixpoint digits_aux (base : Z) (fuel : nat) (n : Z) (acc : string) : string :=
  match fuel with
  | O => acc
  | S fuel =>
      let acc := String (digit_char (n mod base)) acc in
      if n / base =? 0 then acc else digits_aux base fuel (n / base) acc
  end.

Definition hex_string (n : Z) : string := digits_aux 16 16 (u64 n) EmptyString.
Definition dec_string (n : Z) : string := digits_aux 10 20 n EmptyString.

Lemma digits_aux_append base fuel : forall n acc rest,
  String.append (digits_aux base fuel n acc) rest
  = digits_aux base fuel n (String.append acc rest).
Proof.
  induction fuel as [|fuel IH]; intros; simpl; [reflexivity|].
  destruct (_ =? 0); [reflexivity | apply IH].
Qed.

(** ** Proof automation *)

(** Splits the first [if] or [match] of the goal whose scrutinee is not itself
    a case analysis, keeping the equation. *)
Ltac simple_scrutinee scrut :=
  lazymatch scrut with
  | context [match _ with _ => _ end] => fail
  | _ => idtac
  end.

Ltac case_goal :=
  match goal with
  | [ |- context [match ?scrut with _ => _ end] ] => simple_scrutinee scrut; destruct scrut eqn:?
  end.

Ltac case_hyp H :=
  match type of H with
  | context [match ?scrut with _ => _ end] => simple_scrutinee scrut; destruct scrut eqn:?
  end.

(** Turns boolean comparisons in the context into propositions. *)
Ltac bool_props :=
  repeat match goal with
  | E : (_ =? _) = true |- _ => apply Z.eqb_eq in E
  | E : (_ =? _) = false |- _ => apply Z.eqb_neq in E
  | E : (_ <=? _) = true |- _ => apply Z.leb_le in E
  | E : (_ <=? _) = false |- _ => apply Z.leb_gt in E
  | E : (_ <? _) = true |- _ => apply Z.ltb_lt in E
  | E : (_ <? _) = false |- _ => apply Z.ltb_ge in E
  | E : negb _ = false |- _ => apply negb_false_iff in E
  | E : negb _ = true |- _ => apply negb_true_iff in E
  | E : (_ && _)%bool = true |- _ => apply andb_prop in E as [? ?]
  | E : (_ || _)%bool = false |- _ => apply orb_false_elim in E as [? ?]
  end.
