(* ===== verification/CondWait.v ===== *)
(** * Timed waits and the barrier (util/qemu-thread-posix.c, target-i386/sync.c)

    The deadlines computed for pthread_cond_timedwait, by [qemu_cond_timedwait], which
    [wait_race] uses, and by [compute_abs_deadline], which the semaphores use, and the
    translation of the results of the pthread calls.  The calls and the clock are
    represented by their results. *)

From Stdlib Require Import ZArith Lia Bool.
From stdpp Require Import base list.
From S2P Require Import Prelude.

Open Scope Z_scope.

Record timespec := mk_timespec { tv_sec : Z; tv_nsec : Z }.

Definition PTHREAD_BARRIER_SERIAL_THREAD : Z := -1.

(** The deadline [ms] milliseconds after [now]. *)
Definition cond_deadline (now : timespec) (ms : Z) : timespec :=
  let sec := s64 (tv_sec now + Z.quot ms 1000) in
  let nsec := s64 (tv_nsec now + s32 (s32 (Z.rem ms 1000 * 1000) * 1000)) in
  mk_timespec (s64 (sec + Z.quot nsec (1000 * 1000 * 1000))) (Z.rem nsec (1000 * 1000 * 1000)).

(** [err] is the result of pthread_cond_timedwait. *)
Definition qemu_cond_timedwait (err : Z) : res bool :=
  if err =? ETIMEDOUT then Ok false else if negb (err =? 0) then Err Aborted else Ok true.

(** The clock has microseconds here. *)
Definition compute_abs_deadline (sec usec ms : Z) : timespec :=
  let nsec := s64 (usec * 1000 + s32 (Z.rem ms 1000 * 1000000)) in
  let sec := s64 (sec + Z.quot ms 1000) in
  if 1000000000 <=? nsec then mk_timespec (s64 (sec + 1)) (nsec - 1000000000) else mk_timespec sec nsec.

Definition qemu_barrier_wait (err : Z) : res () := if negb (err =? 0) then Err Aborted else Ok tt.
Definition qemu_barrier_init (err : Z) : res () := if negb (err =? 0) then Err Aborted else Ok tt.

(** ** Facts *)

Definition nanoseconds (t : timespec) : Z := tv_sec t * 1000000000 + tv_nsec t.

(** A time of a clock, up to the year 10^11. *)
Record clock_ok (t : timespec) : Prop := {
  co_sec : 0 <= tv_sec t < 2 ^ 62; co_nsec : 0 <= tv_nsec t < 1000000000 }.

(** The parts of a time-out that is an [int] and not negative. *)
Lemma split_ms ms : 0 <= ms < 2 ^ 31 ->
  Z.quot ms 1000 = ms / 1000 /\ Z.rem ms 1000 = ms mod 1000 /\ 0 <= ms / 1000 < 2 ^ 31 /\ 0 <= ms mod 1000 < 1000.
Proof.
  intros Hm. rewrite Z.quot_div_nonneg, Z.rem_mod_nonneg by lia. pose proof (Z.mod_pos_bound ms 1000).
  pose proof (Z.div_pos ms 1000). pose proof (Z.div_le_upper_bound ms 1000 ms). lia.
Qed.

(** The deadline is normalised, as pthread_cond_timedwait demands, and exactly [ms]
    milliseconds away: no conversion loses anything. *)
Theorem cond_deadline_correct now ms : clock_ok now -> 0 <= ms < 2 ^ 31 ->
  0 <= tv_nsec (cond_deadline now ms) < 1000000000 /\
  nanoseconds (cond_deadline now ms) = nanoseconds now + ms * 1000000.
Proof.
  intros [Hs Hn] Hm. destruct (split_ms ms Hm) as (Eq & Er & Hd & Hr). pose proof (Z.div_mod ms 1000 ltac:(lia)) as Em.
  unfold cond_deadline, nanoseconds. cbv zeta. cbn [tv_sec tv_nsec]. rewrite Eq, Er.
  rewrite (s32_small (ms mod 1000 * 1000)), s32_small by lia.
  set (d := ms / 1000) in *. set (m := ms mod 1000) in *. change (1000 * 1000 * 1000) with 1000000000.
  rewrite (s64_small (tv_sec now + d)), (s64_small (tv_nsec now + _)) by lia.
  set (n := tv_nsec now + m * 1000 * 1000). rewrite Z.quot_div_nonneg, Z.rem_mod_nonneg by lia.
  pose proof (Z.mod_pos_bound n 1000000000 ltac:(lia)) as Hb. pose proof (Z.div_mod n 1000000000 ltac:(lia)) as En.
  assert (0 <= n / 1000000000 < 2) as Hq by (split; [apply Z.div_pos; lia | apply Z.div_lt_upper_bound; lia]).
  rewrite s64_small by lia. lia.
Qed.

(** The two ways of computing a deadline agree on a clock of microseconds. *)
Theorem deadlines_agree sec usec ms : 0 <= sec < 2 ^ 62 -> 0 <= usec < 1000000 -> 0 <= ms < 2 ^ 31 ->
  compute_abs_deadline sec usec ms = cond_deadline (mk_timespec sec (usec * 1000)) ms.
Proof.
  intros Hs Hu Hm. destruct (split_ms ms Hm) as (Eq & Er & Hd & Hr).
  unfold compute_abs_deadline, cond_deadline. cbv zeta. cbn [tv_sec tv_nsec]. rewrite Eq, Er.
  set (d := ms / 1000) in *. set (m := ms mod 1000) in *. change (1000 * 1000 * 1000) with 1000000000.
  rewrite (s32_small (m * 1000000)), (s32_small (m * 1000)), (s32_small (m * 1000 * 1000)) by lia.
  replace (m * 1000000) with (m * 1000 * 1000) by lia. set (n := usec * 1000 + m * 1000 * 1000).
  rewrite (s64_small n), (s64_small (sec + d)) by lia. rewrite Z.quot_div_nonneg, Z.rem_mod_nonneg by lia.
  destruct (Z.leb_spec 1000000000 n) as [Hn | Hn].
  - rewrite (Z.div_unique_pos n 1000000000 1 (n - 1000000000)), (Z.mod_unique_pos n 1000000000 1 (n - 1000000000)) at 1 by lia.
    reflexivity.
  - rewrite Z.div_small, Z.mod_small, Z.add_0_r, s64_small by lia. reflexivity.
Qed.

(** pthread_barrier_wait returns PTHREAD_BARRIER_SERIAL_THREAD to one of the threads and 0
    to the others. *)
Definition barrier_results (l : list Z) : Prop :=
  exists l1 l2, l = l1 ++ PTHREAD_BARRIER_SERIAL_THREAD :: l2 /\ Forall (fun r => r = 0) (l1 ++ l2).

(** So a meeting at the barrier aborts in exactly one of the threads. *)
Theorem barrier_aborts_one l : barrier_results l ->
  exists l1 l2, qemu_barrier_wait <$> l = l1 ++ Err Aborted :: l2 /\ Forall (fun r => r = Ok tt) (l1 ++ l2).
Proof.
  intros (l1 & l2 & -> & F). exists (qemu_barrier_wait <$> l1), (qemu_barrier_wait <$> l2).
  rewrite fmap_app, fmap_cons. split; [reflexivity|]. rewrite <- fmap_app, Forall_fmap.
  eapply Forall_impl; [exact F|]. intros r ->. reflexivity.
Qed.

(** The time-out of [wait_race] at a clock near the end of its second. *)
Lemma cond_deadline_example : cond_deadline (mk_timespec 1500000000 990000000) 20 = mk_timespec 1500000001 10000000.
Proof. reflexivity. Qed.
