(* ===== verification/QemuEvent.v ===== *)
(** * Mutexes, semaphores and events (util/qemu-thread-posix.c)

    The wrappers of the pthread and semaphore calls, which turn errors into [abort], and the
    QemuEvent, a flag that threads can wait for without a lock.  The calls are represented by
    their results, as in [CondWait].

    An event is one word.  Its operations are cut at their atomic accesses (reads with barriers,
    exchange, or, compare-and-exchange, and the two futex calls), and any number of threads run
    them in any interleaving. *)

From Stdlib Require Import ZArith Lia Bool.
From stdpp Require Import base list relations.
From S2P Require Import Prelude CondWait.

Open Scope Z_scope.

(** ** Wrappers *)

(** [error_exit] on an error. *)
Definition check (err : Z) : res () := if negb (err =? 0) then Err Aborted else Ok tt.

Definition qemu_mutex_init : Z -> res () := check.
Definition qemu_mutex_destroy : Z -> res () := check.
Definition qemu_mutex_lock : Z -> res () := check.
Definition qemu_mutex_trylock (err : Z) : Z := err.
Definition qemu_mutex_unlock : Z -> res () := check.
Definition qemu_cond_init : Z -> res () := check.
Definition qemu_cond_destroy : Z -> res () := check.
Definition qemu_cond_signal : Z -> res () := check.
Definition qemu_cond_broadcast : Z -> res () := check.
Definition qemu_cond_wait : Z -> res () := check.

(** The semaphores report errors by a negative result and errno. *)
Definition check_rc (rc : Z) : res () := if rc <? 0 then Err Aborted else Ok tt.

Definition qemu_sem_init : Z -> res () := check_rc.
Definition qemu_sem_destroy : Z -> res () := check_rc.
Definition qemu_sem_post : Z -> res () := check_rc.

(** [do ... while (rc == -1 && errno == EINTR)] on the results of the calls in turn; the
    thread is still blocked when they are used up. *)
Fixpoint retry (results : list (Z * Z)) : res (Z * Z) :=
  match results with
  | [] => Err OutOfFuel
  | (rc, errno) :: results => if (rc =? -1) && (errno =? EINTR) then retry results else Ok (rc, errno)
  end.

Open Scope rz.

Definition qemu_sem_timedwait (ms : Z) (results : list (Z * Z)) : res Z :=
  let? (rc, errno) := retry results in
  if (rc =? -1) && (errno =? (if ms <=? 0 then EAGAIN else ETIMEDOUT)) then Ok (-1)
  else let? _ := check_rc rc in Ok 0.

Definition qemu_sem_wait (results : list (Z * Z)) : res () := let? (rc, _) := retry results in check_rc rc.

(** ** Events *)

Definition EV_SET : Z := 0.
Definition EV_FREE : Z := 1.
Definition EV_BUSY : Z := u32 (-1).

Definition qemu_event_init (init : bool) : Z := if init then EV_SET else EV_FREE.

(** Where a thread is: outside, or before an atomic access; [Asleep] is in FUTEX_WAIT. *)
Inductive pc :=
  | Idle
  | SetRead | SetXchg | SetWake
  | ResetRead | ResetOr
  | WaitRead | WaitCas | WaitFutex | Asleep.

#[export] Instance pc_eq_dec : EqDecision pc.
Proof. solve_decision. Defined.

(** The atomic accesses: the new word, the next place, and whether all sleepers are woken. *)
Definition qemu_event_set (v : Z) (p : pc) : Z * pc * bool :=
  match p with
  | SetRead => (v, if negb (v =? EV_SET) then SetXchg else Idle, false)
  | SetXchg => (EV_SET, if v =? EV_BUSY then SetWake else Idle, false)
  | _ => (v, Idle, true)
  end.

Definition qemu_event_reset (v : Z) (p : pc) : Z * pc * bool :=
  match p with
  | ResetRead => (v, if v =? EV_SET then ResetOr else Idle, false)
  | _ => (Z.lor v EV_FREE, Idle, false)
  end.

(** FUTEX_WAIT fails with EWOULDBLOCK when the word is not the expected one. *)
Definition futex_wait (v val : Z) : pc := if v =? val then Asleep else Idle.

Definition qemu_event_wait (v : Z) (p : pc) : Z * pc * bool :=
  match p with
  | WaitRead => (v, if negb (v =? EV_SET) then (if v =? EV_FREE then WaitCas else WaitFutex) else Idle, false)
  | WaitCas => (if v =? EV_FREE then EV_BUSY else v, if v =? EV_SET then Idle else WaitFutex, false)
  | _ => (v, futex_wait v EV_BUSY, false)
  end.

Definition ev_access (v : Z) (p : pc) : Z * pc * bool :=
  match p with
  | SetRead | SetXchg | SetWake => qemu_event_set v p
  | ResetRead | ResetOr => qemu_event_reset v p
  | _ => qemu_event_wait v p
  end.

Definition runs (p : pc) : bool := match p with Idle | Asleep => false | _ => true end.
Definition begins (p : pc) : bool := match p with SetRead | ResetRead | WaitRead => true | _ => false end.
Definition waits (p : pc) : bool := match p with WaitRead | WaitCas | WaitFutex | Asleep => true | _ => false end.

(** A thread is its place, and whether the event has been set since its call began. *)
Record thread := mk_thread { at_pc : pc; seen : bool }.
Record QemuEvent := mk_event { value : Z; threads : list thread }.

Definition futex_wake (l : list thread) : list thread :=
  (fun t => if decide (at_pc t = Asleep) then mk_thread Idle (seen t) else t) <$> l.

(** The threads learn of the new value. *)
Definition observe (v : Z) (l : list thread) : list thread :=
  (fun t => mk_thread (at_pc t) (seen t || (v =? EV_SET))) <$> l.

(** The event with the result of an access of thread [i]. *)
Definition ev_after (e : QemuEvent) (i : nat) (t : thread) : QemuEvent :=
  let '(v, p, wake) := ev_access (value e) (at_pc t) in
  let l := <[i := mk_thread p (seen t)]> (threads e) in
  mk_event v (observe v (if wake then futex_wake l else l)).

Inductive ev_step (e : QemuEvent) : QemuEvent -> Prop :=
  | step_call i t p : threads e !! i = Some t -> at_pc t = Idle -> begins p = true ->
      ev_step e (mk_event (value e) (<[i := mk_thread p (value e =? EV_SET)]> (threads e)))
  | step_access i t : threads e !! i = Some t -> runs (at_pc t) = true -> ev_step e (ev_after e i t)
  (** FUTEX_WAIT is interrupted by a signal, and tried again. *)
  | step_eintr i t : threads e !! i = Some t -> at_pc t = Asleep ->
      ev_step e (mk_event (value e) (<[i := mk_thread WaitFutex (seen t)]> (threads e))).

Definition ev_start (init : bool) (n : nat) : QemuEvent := mk_event (qemu_event_init init) (replicate n (mk_thread Idle true)).
Definition ev_reach (init : bool) (n : nat) : QemuEvent -> Prop := rtc ev_step (ev_start init n).

(** ** Semaphores *)

(** An interrupted call is tried again; the first other result decides. *)
Definition interrupted (r : Z * Z) : Prop := r.1 = -1 /\ r.2 = EINTR.

Lemma retry_spec l r rest : Forall interrupted l -> ~ interrupted r -> retry (l ++ r :: rest) = Ok r.
Proof.
  intros F N. induction F as [|[rc en] l [H1 H2] F IH]; simpl.
  - destruct r as [rc en]. destruct (Z.eqb_spec rc (-1)), (Z.eqb_spec en EINTR); try reflexivity. destruct N. split; assumption.
  - simpl in *. subst. exact IH.
Qed.

(** However often a wait for a semaphore is interrupted, it returns 0 when the semaphore is
    taken, -1 when the time is over, and aborts on any other error. *)
Theorem sem_timedwait_result ms l rc errno rest : Forall interrupted l -> ~ interrupted (rc, errno) -> -1 <= rc <= 0 ->
  qemu_sem_timedwait ms (l ++ (rc, errno) :: rest) =
    if rc =? 0 then Ok 0 else if errno =? (if ms <=? 0 then EAGAIN else ETIMEDOUT) then Ok (-1) else Err Aborted.
Proof.
  intros F N Hr. unfold qemu_sem_timedwait. rewrite retry_spec by assumption. cbn [rbind].
  assert (rc = 0 \/ rc = -1) as [-> | ->] by lia; [reflexivity|]. cbn [Z.eqb Pos.eqb andb]. destruct (errno =? _); reflexivity.
Qed.

(** ** Events: the protocol *)

Definition ev_value (v : Z) : Prop := v = EV_SET \/ v = EV_FREE \/ v = EV_BUSY.

(** The transitions that the comment in the source allows. *)
Inductive transition : Z -> Z -> Prop :=
  | tr_same v : transition v v
  | tr_free_set : transition EV_FREE EV_SET
  | tr_busy_set : transition EV_BUSY EV_SET
  | tr_set_free : transition EV_SET EV_FREE
  | tr_free_busy : transition EV_FREE EV_BUSY.

Lemma ev_access_transition v p : ev_value v -> runs p = true ->
  ev_value (ev_access v p).1.1 /\ transition v (ev_access v p).1.1.
Proof. intros [-> | [-> | ->]]; destruct p; try discriminate; intros _; (split; [unfold ev_value; auto | constructor]). Qed.

Lemma ev_after_value e i t : value (ev_after e i t) = (ev_access (value e) (at_pc t)).1.1.
Proof. unfold ev_after. destruct (ev_access _ _) as [[v p] w]. reflexivity. Qed.

Lemma ev_step_transition e e' : ev_step e e' -> ev_value (value e) -> ev_value (value e') /\ transition (value e) (value e').
Proof.
  intros [i t p _ _ _ | i t _ Hr | i t _ _] Hv; try (split; [exact Hv | constructor]).
  rewrite ev_after_value. apply ev_access_transition; assumption.
Qed.

Lemma reach_ev_value init n e : ev_reach init n e -> ev_value (value e).
Proof.
  intros H. apply (rtc_ind_r (R := ev_step) (fun e => ev_value (value e)) (ev_start init n)); [| | exact H].
  - unfold ev_value. destruct init; simpl; auto.
  - intros e1 e2 _ Hs Hv. apply (ev_step_transition e1 e2 Hs Hv).
Qed.

(** A thread after an access of thread [i]. *)
Lemma ev_after_lookup e i t j u : threads e !! i = Some t -> threads (ev_after e i t) !! j = Some u ->
  let '(v, p, wake) := ev_access (value e) (at_pc t) in
  exists w, <[i := mk_thread p (seen t)]> (threads e) !! j = Some w /\ seen u = seen w || (v =? EV_SET) /\
    at_pc u = if wake && bool_decide (at_pc w = Asleep) then Idle else at_pc w.
Proof.
  intros Hi. unfold ev_after. destruct (ev_access _ _) as [[v p] wake]. simpl. unfold observe.
  rewrite list_lookup_fmap. intros (w & Hw & ->)%fmap_Some. destruct wake.
  - unfold futex_wake in Hw. rewrite list_lookup_fmap in Hw. apply fmap_Some in Hw as (x & Hx & ->).
    exists x. split; [exact Hx|]. simpl. case_decide as D; [rewrite (bool_decide_true _ D)|rewrite (bool_decide_false _ D)]; auto.
  - exists w. auto.
Qed.

Definition has (p : pc) (e : QemuEvent) : Prop := exists i t, threads e !! i = Some t /\ at_pc t = p.

Lemma ev_after_forward e i t j w : <[i := mk_thread (ev_access (value e) (at_pc t)).1.2 (seen t)]> (threads e) !! j = Some w ->
  at_pc w <> Asleep -> exists u, threads (ev_after e i t) !! j = Some u /\ at_pc u = at_pc w.
Proof.
  unfold ev_after. destruct (ev_access _ _) as [[v p] wake]. simpl. intros Hw N. unfold observe. rewrite list_lookup_fmap.
  destruct wake; [unfold futex_wake; rewrite list_lookup_fmap|]; rewrite Hw; simpl; eexists; (split; [reflexivity|]); [|reflexivity].
  simpl. rewrite decide_False by assumption. reflexivity.
Qed.

Lemma insert_here (l : list thread) i t u : l !! i = Some t -> <[i := u]> l !! i = Some u.
Proof. intros H. apply list_lookup_insert_eq. eapply lookup_lt_Some, H. Qed.

(** Nobody sleeps on an event that is not busy, but for those that a thread is about to wake. *)
Definition no_lost (e : QemuEvent) : Prop := has Asleep e -> value e = EV_BUSY \/ has SetWake e.

Lemma no_lost_other e l i p t : no_lost e -> threads e !! i = Some t -> at_pc t <> SetWake -> p <> Asleep ->
  l = <[i := mk_thread p (seen t)]> (threads e) \/ l = <[i := mk_thread p (value e =? EV_SET)]> (threads e) ->
  no_lost (mk_event (value e) l).
Proof.
  intros H Hi N Np El (j & u & Hj & Eu). assert (exists b, l = <[i := mk_thread p b]> (threads e)) as [b ->] by (destruct El; eauto).
  simpl in *. rewrite list_lookup_insert_Some in Hj. destruct Hj as [(_ & <- & _) | [Nj Hj]]; [simpl in Eu; contradiction|].
  destruct H as [? | (k & w & Hk & Ew)]; [exists j, u; auto | auto |]. right. exists k, w. split; [|exact Ew].
  simpl. rewrite list_lookup_insert_ne; [exact Hk|]. intros ->. rewrite Hi in Hk. injection Hk as ->. contradiction.
Qed.

Lemma no_lost_step e e' : ev_step e e' -> ev_value (value e) -> no_lost e -> no_lost e'.
Proof.
  intros [i t p Hi Ei Hb | i t Hi Hr | i t Hi Ei] Hv H.
  - apply (no_lost_other e _ i p t); auto; [congruence | destruct p; discriminate].
  - intros (j & u & Hj & Eu). pose proof (ev_after_lookup e i t j u Hi Hj) as L. rewrite ev_after_value.
    pose proof (ev_after_forward e i t) as Fw. destruct (ev_access _ _) as [[v p] wake] eqn:Ea. simpl in *.
    destruct L as (w & Hw & _ & Ep). rewrite Eu in Ep. destruct wake; simpl in Ep; [case_bool_decide; congruence|].
    (* a thread that sleeps now, did so before, or has found the word busy *)
    assert (value e = EV_BUSY \/ (has SetWake e /\ at_pc t <> SetWake)) as [Eb | [(k & x & Hk & Ex) Nt]].
    { rewrite list_lookup_insert_Some in Hw. destruct Hw as [(-> & <- & _) | [Nj Hw]].
      - left. simpl in Ep. destruct Hv as [Ev | [Ev | Ev]]; [| | exact Ev]; rewrite Ev in Ea; destruct (at_pc t); try discriminate; vm_compute in Ea; congruence.
      - destruct (H ltac:(exists j, w; auto)) as [? | ?]; [auto|]. right. split; [assumption|]. intros Et. rewrite Et in Ea. discriminate. }
    + destruct (decide (at_pc t = SetXchg)) as [Et | Nt].
      * right. rewrite Et, Eb in Ea. injection Ea as <- <-. destruct (Fw i _ (insert_here _ _ _ _ Hi)) as (y & Hy & Ey); [discriminate|].
        exists i, y. auto.
      * left. rewrite Eb in Ea. destruct (at_pc t); try discriminate; try contradiction; vm_compute in Ea; injection Ea as <- _; reflexivity.
    + right. destruct (decide (k = i)) as [-> | Nk]; [congruence|].
      destruct (Fw k x) as (y & Hy & Ey); [rewrite list_lookup_insert_ne by congruence; exact Hk | congruence |]. exists k, y. split; congruence.
  - apply (no_lost_other e _ i WaitFutex t); auto; congruence.
Qed.

Lemma no_lost_reach init n e : ev_reach init n e -> no_lost e.
Proof.
  intros H. enough (ev_value (value e) /\ no_lost e) by tauto.
  apply (rtc_ind_r (R := ev_step) (fun e => ev_value (value e) /\ no_lost e) (ev_start init n)); [| | exact H].
  - split; [apply (reach_ev_value init n), rtc_refl|]. intros (i & t & Hi & Et). simpl in Hi. apply lookup_replicate in Hi as [-> _]. discriminate.
  - intros e1 e2 _ Hs [Hv Hn]. split; [apply (ev_step_transition e1 e2 Hs Hv) | eapply no_lost_step; eassumption].
Qed.

(** C13: in every interleaving the word of an event changes as the protocol says; in particular
    it never goes from busy to free, nor from set to busy, and no wake-up is lost: when a thread
    sleeps, the event is busy, so that the next [qemu_event_set] wakes it, or a thread in
    [qemu_event_set] is about to. *)
Theorem event_protocol init n e e' : ev_reach init n e -> ev_step e e' ->
  transition (value e) (value e') /\ (has Asleep e' -> value e' = EV_BUSY \/ has SetWake e').
Proof.
  intros H Hs. split; [apply (ev_step_transition e e' Hs), (reach_ev_value init n e H)|].
  apply (no_lost_reach init n). eapply rtc_r; eassumption.
Qed.

(** The wake-up reaches every sleeper. *)
Lemma wake_clears e i t : threads e !! i = Some t -> at_pc t = SetWake -> ~ has Asleep (ev_after e i t).
Proof.
  intros Hi Et (j & u & Hj & Eu). pose proof (ev_after_lookup e i t j u Hi Hj) as L. rewrite Et in L. simpl in L.
  destruct L as (w & _ & _ & Ep). rewrite Eu in Ep. case_bool_decide; congruence.
Qed.

(** Accesses of the threads that are in [qemu_event_set]; all other threads stand still, and
    no FUTEX_WAIT is interrupted. *)
Definition in_set (p : pc) : bool := match p with SetRead | SetXchg | SetWake => true | _ => false end.

Inductive set_step (e : QemuEvent) : QemuEvent -> Prop :=
  | set_access i t : threads e !! i = Some t -> in_set (at_pc t) = true -> set_step e (ev_after e i t).

Lemma set_step_ev e e' : set_step e e' -> ev_step e e'.
Proof. intros [i t Hi Ht]. constructor; [exact Hi | destruct (at_pc t); reflexivity || discriminate]. Qed.

Definition setting (e : QemuEvent) : Prop := exists i t, threads e !! i = Some t /\ in_set (at_pc t) = true.

(** Accesses that the calls of [qemu_event_set] under way can still make. *)
Definition set_rank (t : thread) : nat :=
  match at_pc t with SetRead => 3 | SetXchg => 2 | SetWake => 1 | _ => 0 end%nat.
Definition sets_left (e : QemuEvent) : nat := sum_list_with set_rank (threads e).

Lemma observe_rank v l : sum_list_with set_rank (observe v l) = sum_list_with set_rank l.
Proof. induction l as [|t l IH]; [reflexivity|]. simpl. f_equal. exact IH. Qed.

Lemma futex_wake_rank l : sum_list_with set_rank (futex_wake l) = sum_list_with set_rank l.
Proof.
  induction l as [|t l IH]; [reflexivity|]. simpl. f_equal; [|exact IH].
  case_decide as D; unfold set_rank; [rewrite D|]; reflexivity.
Qed.

Lemma set_step_left e e' : set_step e e' -> (sets_left e' < sets_left e)%nat.
Proof.
  intros [i t Hi Ht]. unfold sets_left, ev_after.
  assert (set_rank (mk_thread (ev_access (value e) (at_pc t)).1.2 (seen t)) < set_rank t)%nat as R.
  { unfold set_rank. destruct (at_pc t); try discriminate Ht; simpl; [destruct (negb _) | destruct (_ =? _) |]; simpl; lia. }
  destruct (ev_access _ _) as [[v p] wake]. simpl in *. rewrite observe_rank.
  pose proof (sum_insert set_rank (threads e) i t (mk_thread p (seen t)) Hi).
  destruct wake; [rewrite futex_wake_rank|]; lia.
Qed.

Lemma set_step_acc e : Acc (flip set_step) e.
Proof.
  induction e as [e IH] using (induction_ltof1 _ sets_left). constructor. intros e' S1. apply IH, set_step_left, S1.
Qed.

(** While a thread sleeps, a set that has begun is not over. *)
Lemma set_step_setting e e' : no_lost e' -> set_step e e' -> has Asleep e' -> setting e'.
Proof.
  intros N S1 A. specialize (N A). destruct S1 as [i t Hi Ht]. destruct N as [Ev | (k & x & Hk & Ex)]; [|exists k, x; rewrite Ex; auto].
  destruct (decide (at_pc t = SetWake)) as [Et | Nt]; [destruct (wake_clears e i t Hi Et A)|].
  rewrite ev_after_value in Ev. destruct (at_pc t) eqn:Et; try discriminate; try contradiction.
  simpl in Ev. pose proof (ev_after_forward e i t i _ (insert_here _ _ _ _ Hi)) as (u & Hu & Eu).
  { rewrite Et, Ev. discriminate. }
  exists i, u. split; [exact Hu|]. rewrite Eu, Et, Ev. reflexivity.
Qed.

Lemma ev_after_length e i t : length (threads (ev_after e i t)) = length (threads e).
Proof.
  unfold ev_after, observe, futex_wake. destruct (ev_access _ _) as [[v p] []]; simpl; rewrite !length_fmap, length_insert; reflexivity.
Qed.

(** A thread asleep stays so until it is woken. *)
Definition sleeps_or_woken (p : pc) : Prop := p = Asleep \/ p = Idle.

Lemma set_step_sleeper e e' j u : set_step e e' -> threads e !! j = Some u -> sleeps_or_woken (at_pc u) ->
  exists u', threads e' !! j = Some u' /\ sleeps_or_woken (at_pc u').
Proof.
  intros [i t Hi Ht] Hj Hu. assert (i <> j) as Nj by (intros ->; replace u with t in Hu by congruence; destruct Hu as [E | E]; rewrite E in Ht; discriminate).
  destruct (lookup_lt_is_Some_2 (threads (ev_after e i t)) j) as [u' Hu']; [rewrite ev_after_length; eapply lookup_lt_Some, Hj|].
  exists u'. split; [exact Hu'|]. pose proof (ev_after_lookup e i t j u' Hi Hu') as L. destruct (ev_access _ _) as [[v p] wake].
  destruct L as (w & Hw & _ & ->). rewrite list_lookup_insert_ne in Hw by exact Nj. replace w with u by congruence.
  destruct (wake && _); [right; reflexivity | exact Hu].
Qed.

(** C31: [qemu_event_set] wakes all threads that sleep in [qemu_event_wait]: from a reachable
    state in which some thread is inside [qemu_event_set], let only the threads that are inside
    [qemu_event_set] take steps (no other thread moves, no signal interrupts a sleeper).  Every
    such execution is finite, and when it has come to its end every thread that slept in the
    beginning has returned from FUTEX_WAIT. *)
Theorem set_wakes_all init n e i t : ev_reach init n e -> threads e !! i = Some t -> in_set (at_pc t) = true ->
  Acc (flip set_step) e /\
  forall e', rtc set_step e e' -> (forall e'', ~ set_step e' e'') ->
    forall j u, threads e !! j = Some u -> at_pc u = Asleep -> exists u', threads e' !! j = Some u' /\ at_pc u' = Idle.
Proof.
  intros R Hi Ht. split; [apply set_step_acc|]. intros e' Se Q j u Hj Eu.
  assert (setting e \/ ~ has Asleep e) as G by (left; exists i, t; auto).
  assert (sleeps_or_woken (at_pc u)) as Hu by (left; exact Eu). clear i t Hi Ht Eu.
  revert u Hj Hu. induction Se as [e|e e1 e' S1 _ IH]; intros u Hj Hu.
  - exists u. split; [exact Hj|]. destruct Hu as [Eu|]; [|assumption].
    destruct G as [(i & t & Hi & Ht) | G]; [destruct (Q _ (set_access e i t Hi Ht)) | destruct G; exists j, u; auto].
  - assert (ev_reach init n e1) as R1 by (eapply rtc_r; [exact R | exact (set_step_ev e e1 S1)]).
    destruct (set_step_sleeper e e1 j u S1 Hj Hu) as (u1 & Hj1 & Hu1). refine (IH R1 Q _ u1 Hj1 Hu1).
    destruct (decide (Exists (fun w => at_pc w = Asleep) (threads e1))) as [A | A].
    + left. apply (set_step_setting e e1 (no_lost_reach init n e1 R1) S1).
      apply Exists_exists in A as (w & [k Hk]%list_elem_of_lookup & Ew). exists k, w. auto.
    + right. intros (k & w & Hk & Ew). apply A, Exists_exists. exists w. split; [eapply list_elem_of_lookup_2, Hk | exact Ew].
Qed.

(** ** What a return of [qemu_event_wait] means *)

(** No reset falls between the exchange and the wake-up of a set. *)
Definition calm (e e' : QemuEvent) : Prop := ev_step e e' /\ (value e = EV_SET -> value e' = EV_FREE -> ~ has SetWake e).

Record sees (e : QemuEvent) : Prop := {
  s_set : forall j u, threads e !! j = Some u -> waits (at_pc u) = true -> value e = EV_SET -> seen u = true;
  s_busy : forall j u, threads e !! j = Some u -> at_pc u = WaitFutex \/ at_pc u = Asleep -> seen u = true \/ value e = EV_BUSY;
  s_wake : has SetWake e -> value e = EV_SET }.

(** The thread is replaced by one that begins a call or that FUTEX_WAIT has sent back. *)
Lemma sees_replace e i t u : sees e -> threads e !! i = Some t ->
  (waits (at_pc u) = true -> value e = EV_SET -> seen u = true) ->
  (at_pc u = WaitFutex \/ at_pc u = Asleep -> seen u = true \/ value e = EV_BUSY) -> at_pc u <> SetWake ->
  sees (mk_event (value e) (<[i := u]> (threads e))).
Proof.
  intros [H1 H2 H3] Hi A B C. split; simpl.
  - intros j w. rewrite list_lookup_insert_Some. intros [(_ & <- & _) | [_ Hj]]; eauto.
  - intros j w. rewrite list_lookup_insert_Some. intros [(_ & <- & _) | [_ Hj]]; eauto.
  - intros (j & w & Hj & Ew). simpl in Hj. rewrite list_lookup_insert_Some in Hj. destruct Hj as [(_ & <- & _) | [_ Hj]]; [done|].
    apply H3. exists j, w. auto.
Qed.

(** The thread that makes the access: its word is busy, or it has seen the event set. *)
Lemma access_busy v p p' v' wake s : ev_value v -> ev_access v p = (v', p', wake) -> p' = WaitFutex \/ p' = Asleep ->
  (p = WaitFutex \/ p = Asleep -> s = true \/ v = EV_BUSY) -> s = true \/ v' = EV_BUSY.
Proof.
  intros [-> | [-> | ->]] E Hp Hs; destruct p; vm_compute in E; injection E as <- <- <-;
    try (destruct Hp; discriminate); auto; destruct Hs as [? | ?]; auto.
Qed.

(** A thread comes to the wake-up only by setting the event, and while one is there the event
    stays set in calm steps. *)
Lemma access_wake v p v' p' wake : ev_value v -> ev_access v p = (v', p', wake) -> runs p = true -> p' = SetWake -> v' = EV_SET.
Proof. intros [-> | [-> | ->]] E Hr Hp; destruct p; try discriminate Hr; vm_compute in E; injection E as <- <- <-; discriminate || reflexivity. Qed.

Lemma sees_access e i t : ev_value (value e) -> sees e -> threads e !! i = Some t -> runs (at_pc t) = true ->
  (value e = EV_SET -> value (ev_after e i t) = EV_FREE -> ~ has SetWake e) -> sees (ev_after e i t).
Proof.
  intros Hv [H1 H2 H3] Hi Hr Hc. rewrite ev_after_value in Hc. pose proof (fun j u => ev_after_lookup e i t j u Hi) as L.
  pose proof (proj2 (ev_access_transition (value e) (at_pc t) Hv Hr)) as TR.
  destruct (ev_access (value e) (at_pc t)) as [[v p] wake] eqn:Ea. simpl in TR, Hc. split; rewrite ev_after_value, Ea; simpl.
  - intros j u Hj _ ->. destruct (L j u Hj) as (w & _ & -> & _). apply orb_true_r.
  - intros j u Hj Pu. destruct (L j u Hj) as (w & Hw & -> & Ep). destruct (Z.eqb_spec v EV_SET) as [-> | Nv]; [left; apply orb_true_r|].
    rewrite orb_false_r. assert (at_pc w = WaitFutex \/ at_pc w = Asleep) as Pw.
    { rewrite Ep in Pu. destruct (wake && _); [destruct Pu; discriminate | exact Pu]. }
    rewrite list_lookup_insert_Some in Hw. destruct Hw as [(-> & <- & _) | [Nj Hw]].
    + simpl in *. eapply access_busy; eauto.
    + destruct (H2 j w Hw Pw) as [? | Eb]; [auto|]. rewrite Eb in TR. inversion TR; subst; auto; try contradiction; discriminate.
  - intros (j & u & Hj & Eu). destruct (L j u Hj) as (w & Hw & _ & Ep). rewrite Eu in Ep.
    assert (at_pc w = SetWake) as Ew by (destruct (wake && _); congruence).
    rewrite list_lookup_insert_Some in Hw. destruct Hw as [(-> & <- & _) | [Nj Hw]].
    + eapply access_wake; eauto.
    + assert (has SetWake e) as HW by (exists j, w; auto). specialize (H3 HW). rewrite H3 in TR, Hc.
      inversion TR; subst; auto. destruct (Hc eq_refl eq_refl HW).
Qed.

Lemma sees_step e e' : ev_value (value e) -> sees e -> calm e e' -> sees e'.
Proof.
  intros Hv S2 [[i t p Hi Ei Hb | i t Hi Hr | i t Hi Ei] Hc].
  - eapply sees_replace; eauto; simpl; [intros _ ->; reflexivity | destruct p; try discriminate; intros [|]; discriminate | destruct p; discriminate].
  - apply sees_access; assumption.
  - pose proof (s_set e S2 i t Hi) as A. pose proof (s_busy e S2 i t Hi) as B. rewrite Ei in A, B.
    eapply sees_replace; eauto.
Qed.

Lemma sees_reach init n e : rtc calm (ev_start init n) e -> ev_value (value e) /\ sees e.
Proof.
  intros H. apply (rtc_ind_r (R := calm) (fun e => ev_value (value e) /\ sees e) (ev_start init n)); [| | exact H].
  - split; [apply (reach_ev_value init n), rtc_refl|].
    assert (forall j u, threads (ev_start init n) !! j = Some u -> at_pc u = Idle) as I.
    { intros j u Hj. simpl in Hj. apply lookup_replicate in Hj as [-> _]. reflexivity. }
    split.
    + intros j u Hj. rewrite (I j u Hj). discriminate.
    + intros j u Hj. rewrite (I j u Hj). intros [|]; discriminate.
    + intros (j & u & Hj & Eu). rewrite (I j u Hj) in Eu. discriminate.
  - intros e1 e2 _ Hs [Hv Hn]. split; [apply (ev_step_transition e1 e2 (proj1 Hs) Hv) | eapply sees_step; eassumption].
Qed.

(** The access with which a wait returns. *)
Lemma access_returns v p v' p' wake s : ev_value v -> ev_access v p = (v', p', wake) -> waits p = true -> runs p = true -> p' = Idle ->
  (v = EV_SET -> s = true) -> (p = WaitFutex -> s = true \/ v = EV_BUSY) -> s = true.
Proof.
  intros [-> | [-> | ->]] E Hw Hr Hp H1 H2; destruct p; try discriminate Hw; try discriminate Hr; vm_compute in E;
    injection E as <- <- <-; try discriminate Hp; auto; destruct H2; auto; discriminate.
Qed.

(** [qemu_event_wait] returns only when the event has been set since the call, in every run
    in which no reset falls between the two halves of a [qemu_event_set]. *)
Theorem wait_returns_when_set init n e e' i t t' : rtc calm (ev_start init n) e -> ev_step e e' ->
  threads e !! i = Some t -> waits (at_pc t) = true -> threads e' !! i = Some t' -> at_pc t' = Idle -> seen t' = true.
Proof.
  intros H Hs Ht Wt Ht' Et'. destruct (sees_reach init n e H) as [Hv [H1 H2 H3]].
  destruct Hs as [j u p Hj Ej Hb | j u Hj Hr | j u Hj Ej].
  - simpl in Ht'. rewrite list_lookup_insert_Some in Ht'. destruct Ht' as [(-> & <- & _) | [Nj Ht']].
    + rewrite Ht in Hj. injection Hj as <-. rewrite Ej in Wt. discriminate.
    + rewrite Ht in Ht'. injection Ht' as <-. rewrite Et' in Wt. discriminate.
  - pose proof (ev_after_lookup e j u i t' Hj Ht') as L. destruct (ev_access _ _) as [[v p] wake] eqn:Ea.
    destruct L as (w & Hw & -> & Ep). rewrite Et' in Ep. rewrite list_lookup_insert_Some in Hw. destruct Hw as [(-> & <- & _) | [Nj Hw]].
    + rewrite Ht in Hj. injection Hj as <-. simpl in *. 
      assert (wake = false) as -> by (destruct (at_pc t); try discriminate Wt; simpl in Ea; congruence). simpl in Ep. subst p.
      rewrite (access_returns _ _ _ _ _ (seen t) Hv Ea Wt Hr eq_refl);
        [reflexivity | exact (H1 i t Ht Wt) | intros Ew; apply (H2 i t Ht); auto].
    + rewrite Ht in Hw. injection Hw as <-. destruct wake; simpl in Ep.
      * assert (at_pc u = SetWake) as Eu by (destruct (at_pc u); try discriminate Hr; try reflexivity; simpl in Ea; discriminate).
        rewrite (H1 i t Ht Wt); [reflexivity|]. apply H3. exists j, u. auto.
      * rewrite <- Ep in Wt. discriminate.
  - simpl in Ht'. rewrite list_lookup_insert_Some in Ht'. destruct Ht' as [(-> & <- & _) | [Nj Ht']]; [discriminate|].
    rewrite Ht in Ht'. injection Ht' as <-. rewrite Et' in Wt. discriminate.
Qed.

(** ** Executions *)

(** A schedule: a thread begins a call, or makes its next access. *)
Definition ev_exec1 (c : nat * option pc) (e : QemuEvent) : option QemuEvent :=
  t ← threads e !! c.1;
  match c.2 with
  | Some p => if bool_decide (at_pc t = Idle) && begins p
              then Some (mk_event (value e) (<[c.1 := mk_thread p (value e =? EV_SET)]> (threads e))) else None
  | None => if runs (at_pc t) then Some (ev_after e c.1 t) else None
  end.

Fixpoint ev_exec (l : list (nat * option pc)) (e : QemuEvent) : option QemuEvent :=
  match l with [] => Some e | c :: l => e ← ev_exec1 c e; ev_exec l e end.

Lemma ev_exec1_step c e e' : ev_exec1 c e = Some e' -> ev_step e e'.
Proof.
  unfold ev_exec1. destruct (threads e !! c.1) as [t|] eqn:Ht; [|discriminate]. simpl. destruct c.2 as [p|].
  - destruct (_ && _) eqn:C; [|discriminate]. apply andb_true_iff in C as [C1%bool_decide_eq_true C2]. intros [= <-]. econstructor; eassumption.
  - destruct (runs _) eqn:R; [|discriminate]. intros [= <-]. constructor; assumption.
Qed.

Lemma ev_exec_reach l : forall e e', ev_exec l e = Some e' -> rtc ev_step e e'.
Proof.
  induction l as [|c l IH]; intros e e'; simpl; [intros [= <-]; apply rtc_refl|].
  destruct (ev_exec1 c e) as [e1|] eqn:E; [|discriminate]. intros H. eapply rtc_l; [eapply ev_exec1_step, E | apply IH, H].
Qed.

(** Thread 1 sleeps; thread 0 sets the event and is delayed before its wake-up; thread 2 resets
    the event and waits. *)
Definition delayed_set : list (nat * option pc) :=
  [(1, Some WaitRead); (1, None); (1, None); (1, None); (0, Some SetRead); (0, None); (0, None);
   (2, Some ResetRead); (2, None); (2, None); (2, Some WaitRead); (2, None); (2, None); (2, None)]%nat.

(** The wake-up of a set that was overtaken by a reset makes a later [qemu_event_wait] return
    though the event was never set during it: FUTEX_WAIT returns 0 and the word is not looked at
    again. *)
Theorem stale_wakeup : exists e e' t t', ev_reach false 3 e /\ ev_step e e' /\ value e' = EV_BUSY /\
  threads e !! 2%nat = Some t /\ at_pc t = Asleep /\ threads e' !! 2%nat = Some t' /\ at_pc t' = Idle /\ seen t' = false.
Proof.
  destruct (ev_exec delayed_set (ev_start false 3)) as [e|] eqn:E; [|vm_compute in E; discriminate].
  pose proof (ev_exec_reach _ _ _ E) as R. vm_compute in E. injection E as <-.
  eexists _, _, _, _. split; [exact R|]. split; [apply (ev_exec1_step (0%nat, None)); reflexivity|]. repeat split.
Qed.

Lemma event_protocol_witness : exists e e', ev_reach false 2 e /\ ev_step e e' /\
  (transition (value e) (value e') /\ (has Asleep e' -> value e' = EV_BUSY \/ has SetWake e')).
Proof.
  destruct (ev_exec [(1, Some WaitRead); (1, None); (1, None)]%nat (ev_start false 2)) as [e|] eqn:E; [|discriminate].
  pose proof (ev_exec_reach _ _ _ E) as R. vm_compute in E. injection E as E.
  destruct (ev_exec1 (1%nat, None) e) as [e'|] eqn:E'; [|subst e; discriminate]. pose proof (ev_exec1_step _ _ _ E') as S1.
  exists e, e'. split; [exact R|]. split; [exact S1|]. exact (event_protocol false 2 e e' R S1).
Defined.

(** Thread 1 sleeps and thread 0 has begun a [qemu_event_set]: its three accesses wake it. *)
Definition sleeper : QemuEvent := mk_event EV_BUSY [mk_thread SetRead false; mk_thread Asleep false].
Definition woken : QemuEvent := mk_event EV_SET [mk_thread Idle true; mk_thread Idle true].

Lemma sleeper_reached : ev_reach false 2 sleeper.
Proof.
  apply (ev_exec_reach [(1, Some WaitRead); (1, None); (1, None); (1, None); (0, Some SetRead)]%nat). reflexivity.
Qed.

Lemma sleeper_runs : rtc set_step sleeper woken.
Proof.
  eapply rtc_l; [apply (set_access _ 0%nat (mk_thread SetRead false)); reflexivity|].
  eapply rtc_l; [apply (set_access _ 0%nat (mk_thread SetXchg false)); reflexivity|].
  eapply rtc_l; [apply (set_access _ 0%nat (mk_thread SetWake true)); reflexivity | apply rtc_refl].
Qed.

Lemma woken_quiet e : ~ set_step woken e.
Proof. intros [[|[|i]] t Hi Ht]; simpl in Hi; try discriminate; injection Hi as <-; discriminate. Qed.

Lemma set_wakes_all_witness : Acc (flip set_step) sleeper /\ exists u', threads woken !! 1%nat = Some u' /\ at_pc u' = Idle.
Proof.
  destruct (set_wakes_all false 2 sleeper 0 (mk_thread SetRead false) sleeper_reached eq_refl eq_refl) as [A F].
  split; [exact A | exact (F woken sleeper_runs woken_quiet 1%nat (mk_thread Asleep false) eq_refl eq_refl)].
Defined.

(** The wait of thread 1 returns at once. *)
Lemma wait_returns_when_set_witness : exists e e' t', rtc calm (ev_start true 2) e /\ ev_step e e' /\
  threads e' !! 1%nat = Some t' /\ seen t' = true.
Proof.
  pose (e := mk_event EV_SET [mk_thread Idle true; mk_thread WaitRead true]).
  assert (rtc calm (ev_start true 2) e) as R.
  { apply rtc_once. split; [apply (ev_exec1_step (1%nat, Some WaitRead)); reflexivity | discriminate]. }
  assert (ev_step e (mk_event EV_SET [mk_thread Idle true; mk_thread Idle true])) as S1 by (apply (ev_exec1_step (1%nat, None)); reflexivity).
  eexists e, _, _. split; [exact R|]. split; [exact S1|]. split; [reflexivity|].
  apply (wait_returns_when_set true 2 e _ 1 (mk_thread WaitRead true) _ R S1); reflexivity.
Defined.
