(* ===== verification/KvmMem.v ===== *)
(** * Guest memory: the memory slots of the virtual machine (kvm-all.c)

    QEMU tells the kernel which ranges of guest physical addresses are backed by which host
    memory.  Its memory core calls [kvm_region_add] and [kvm_region_del] for the sections of
    the guest's address space; [kvm_set_phys_mem] cuts them to whole pages, splits the slots
    they overlap, and registers the result with KVM_SET_USER_MEMORY_REGION.  The kernel's log
    of dirty pages is merged into QEMU's bitmap before a slot goes.

    A slot is an entry of a fixed array, free when its size is 0.  The calls of
    KVM_SET_USER_MEMORY_REGION are kept in a list, newest first, and [code] gives the result
    of a call from this list; KVM_GET_DIRTY_LOG is [dirty_log].  Addresses of the guest
    (hwaddr) and of the host are 64-bit numbers. *)

From Stdlib Require Import ZArith Lia Bool.
From stdpp Require Import base list gmap sets.
From S2P Require Import Prelude.

Open Scope Z_scope.
Open Scope rz.

(** ** Data *)

(** The page size of an x86-64 host, and of the guest. *)
Definition PAGE_SIZE : Z := 4096.
Definition TARGET_PAGE_BITS : Z := 12.
Definition qemu_real_host_page_mask : Z := u64 (- PAGE_SIZE).

Definition KVM_MEM_LOG_DIRTY_PAGES : Z := Z.shiftl 1 0.
Definition KVM_MEM_READONLY : Z := Z.shiftl 1 1.
Definition DIRTY_MEMORY_MIGRATION : Z := 2.

Record KVMSlot := mk_slot { start_addr : Z; memory_size : Z; ram : Z; slot : Z; slot_flags : Z }.

(** struct kvm_userspace_memory_region *)
Record user_region := mk_region { um_slot : Z; um_flags : Z; um_gpa : Z; um_size : Z; um_uva : Z }.

(** The fields of a MemoryRegion that are used; [mr_host] is memory_region_get_ram_ptr. *)
Record MemoryRegion := mk_mr {
  mr_is_ram : bool; mr_readonly : bool; rom_device : bool; romd_mode : bool; dirty_log_mask : Z; mr_host : Z; mr_ram_addr : Z }.

Record MemoryRegionSection := mk_section {
  sec_mr : MemoryRegion; offset_within_region : Z; offset_within_address_space : Z; sec_size : Z }.

(** The listener with its slots, the calls made, and the pages QEMU knows to be dirty. *)
Record KVMMemoryListener := mk_kml { slots : list KVMSlot; as_id : Z; vm_calls : list user_region; dirty : gset Z }.

Definition set_slots (l : list KVMSlot) (k : KVMMemoryListener) : KVMMemoryListener := mk_kml l (as_id k) (vm_calls k) (dirty k).
Definition set_slot (i : nat) (m : KVMSlot) (k : KVMMemoryListener) : KVMMemoryListener := set_slots (<[i := m]> (slots k)) k.
Definition set_size (n : Z) (m : KVMSlot) : KVMSlot := mk_slot (start_addr m) n (ram m) (slot m) (slot_flags m).
Definition set_slot_flags (f : Z) (m : KVMSlot) : KVMSlot := mk_slot (start_addr m) (memory_size m) (ram m) (slot m) f.

(** The address behind a slot. *)
Definition slot_end (m : KVMSlot) : Z := u64 (start_addr m + memory_size m).

(** ** Looking for slots *)

Definition kvm_get_free_slot (l : list KVMSlot) : option nat := fst <$> list_find (fun m => memory_size m = 0) l.

Definition kvm_alloc_slot (l : list KVMSlot) : res nat := of_option Aborted (kvm_get_free_slot l).

Definition kvm_lookup_matching_slot (l : list KVMSlot) (start end_ : Z) : option (nat * KVMSlot) :=
  list_find (fun m => start = start_addr m /\ end_ = slot_end m) l.

(** The loop from slot [i] on; [found] is the best one so far. *)
Fixpoint overlap_loop (l : list KVMSlot) (i : nat) (found : option (nat * KVMSlot)) (start end_ : Z) : option (nat * KVMSlot) :=
  match l with
  | [] => found
  | m :: l =>
      let skip := (memory_size m =? 0) || match found with Some (_, f) => start_addr f <? start_addr m | None => false end in
      let found := if negb skip && (start_addr m <? end_) && (start <? slot_end m) then Some (i, m) else found in
      overlap_loop l (S i) found start end_
  end.

Definition kvm_lookup_overlapping_slot (l : list KVMSlot) (start end_ : Z) : option (nat * KVMSlot) :=
  overlap_loop l 0 None start end_.

(** The guest address of a host address. *)
Definition kvm_physical_memory_addr_from_host (l : list KVMSlot) (host : Z) : option Z :=
  (fun p => u64 (start_addr p.2 + (host - ram p.2))) <$>
    list_find (fun m => ram m <= host /\ host < u64 (ram m + memory_size m)) l.

(** ** Registering *)

Section memory.
Variables (code : list user_region -> Z) (dirty_log : Z -> Z * (nat -> Z)).
(** Capabilities of the kernel and the global flag of the migration. *)
Variables (broken_set_mem_region kvm_readonly_mem_allowed global_dirty_log : bool).

Definition vm_ioctl (m : user_region) (k : KVMMemoryListener) : Z * KVMMemoryListener :=
  (code (m :: vm_calls k), mk_kml (slots k) (as_id k) (m :: vm_calls k) (dirty k)).

Definition kernel_id (k : KVMMemoryListener) (m : KVMSlot) : Z := u32 (Z.lor (slot m) (Z.shiftl (as_id k) 16)).

Definition kvm_set_user_memory_region (m : KVMSlot) (k : KVMMemoryListener) : Z * KVMMemoryListener :=
  let mem n := mk_region (kernel_id k m) (slot_flags m) (start_addr m) n (ram m) in
  let k := if negb (memory_size m =? 0) && bits (slot_flags m) KVM_MEM_READONLY then (vm_ioctl (mem 0) k).2 else k in
  vm_ioctl (mem (memory_size m)) k.

Definition memory_region_get_dirty_log_mask (mr : MemoryRegion) : Z :=
  if global_dirty_log then Z.lor (dirty_log_mask mr) (Z.shiftl 1 DIRTY_MEMORY_MIGRATION) else dirty_log_mask mr.

Definition kvm_mem_flags (mr : MemoryRegion) : Z :=
  let readonly := mr_readonly mr || (rom_device mr && romd_mode mr) in
  Z.lor (if negb (memory_region_get_dirty_log_mask mr =? 0) then KVM_MEM_LOG_DIRTY_PAGES else 0)
    (if readonly && kvm_readonly_mem_allowed then KVM_MEM_READONLY else 0).

Definition kvm_slot_update_flags (i : nat) (m : KVMSlot) (mr : MemoryRegion) (k : KVMMemoryListener) : Z * KVMMemoryListener :=
  let m' := set_slot_flags (kvm_mem_flags mr) m in
  let k := set_slot i m' k in
  if slot_flags m' =? slot_flags m then (0, k) else kvm_set_user_memory_region m' k.

Definition kvm_section_update_flags (s : MemoryRegionSection) (k : KVMMemoryListener) : Z * KVMMemoryListener :=
  let phys := offset_within_address_space s in
  match kvm_lookup_matching_slot (slots k) phys (u64 (phys + sec_size s)) with
  | None => (0, k)
  | Some (i, m) => kvm_slot_update_flags i m (sec_mr s) k
  end.

(** [kvm_log_start] and [kvm_log_stop]; the argument is [old] and [new]. *)
Definition kvm_log_change (mask : Z) (s : MemoryRegionSection) (k : KVMMemoryListener) : res KVMMemoryListener :=
  if negb (mask =? 0) then Ok k
  else let '(r, k) := kvm_section_update_flags s k in if r <? 0 then Err Aborted else Ok k.

(** ** Dirty pages *)

(** [cpu_physical_memory_set_dirty_range]: the pages that a range touches. *)
Definition pages_of (start len : Z) : list Z :=
  let page := Z.shiftr start TARGET_PAGE_BITS in
  let end_ := Z.shiftr (Z.land (start + len + (PAGE_SIZE - 1)) qemu_real_host_page_mask) TARGET_PAGE_BITS in
  (fun n => page + Z.of_nat n) <$> seq 0 (Z.to_nat (end_ - page)).

(** The set bits of word [i], as offsets from the start of the bitmap. *)
Definition word_bits (i : nat) (w : Z) : list Z :=
  (fun j => Z.of_nat i * 64 + Z.of_nat j) <$> filter (fun j => Z.testbit w (Z.of_nat j) = true) (seq 0 64).

(** Words are or-ed into the bitmap when [start] is at the start of a word of it; else the
    bits are set one by one. *)
Definition word_pages (start : Z) (i : nat) (w : Z) : list Z :=
  let page := Z.shiftr start TARGET_PAGE_BITS / 64 in
  if page * 64 * PAGE_SIZE =? start then (fun b => page * 64 + b) <$> word_bits i w
  else word_bits i w ≫= fun b => pages_of (start + b * PAGE_SIZE) PAGE_SIZE.

Fixpoint lebitmap_loop (bitmap : list Z) (start : Z) (i len : nat) (d : gset Z) : res (gset Z) :=
  match len with
  | O => Ok d
  | S len =>
      let? w := of_option OutOfBounds (bitmap !! i) in
      lebitmap_loop bitmap start (S i) len (list_to_set (word_pages start i w) ∪ d)
  end.

Definition cpu_physical_memory_set_dirty_lebitmap (bitmap : list Z) (start pages : Z) (d : gset Z) : res (gset Z) :=
  lebitmap_loop bitmap start 0 (Z.to_nat ((pages + 63) / 64)) d.

Definition kvm_get_dirty_pages_log_range (s : MemoryRegionSection) (bitmap : list Z) (k : KVMMemoryListener) : res KVMMemoryListener :=
  let start := u64 (offset_within_region s + mr_ram_addr (sec_mr s)) in
  let? d := cpu_physical_memory_set_dirty_lebitmap bitmap start (sec_size s / PAGE_SIZE) (dirty k) in
  Ok (mk_kml (slots k) (as_id k) (vm_calls k) d).

(** [ALIGN(memory_size >> TARGET_PAGE_BITS, 64) / 8] in words. *)
Definition bitmap_words (m : KVMSlot) : nat := Z.to_nat ((Z.shiftr (memory_size m) TARGET_PAGE_BITS + 63) / 64).

(** The buffer after [memset] and the ioctl; [old] is the buffer and the size recorded for it. *)
Definition fill_bitmap (n : nat) (words : nat -> Z) (old : option (list Z * nat)) : list Z :=
  let filled := words <$> seq 0 n in
  match old with
  | Some (b, allocated) => if (allocated <? n)%nat then filled else filled ++ drop n b
  | None => filled
  end.

Fixpoint sync_loop (fuel : nat) (s : MemoryRegionSection) (start end_ : Z) (buf : option (list Z * nat)) (k : KVMMemoryListener) :
    res (Z * KVMMemoryListener) :=
  match fuel with
  | O => Err OutOfFuel
  | S fuel =>
      if negb (start <? end_) then Ok (0, k)
      else match kvm_lookup_overlapping_slot (slots k) start end_ with
      | None => Ok (0, k)
      | Some (_, m) =>
          let '(ret, words) := dirty_log (kernel_id k m) in
          let n := bitmap_words m in
          if ret =? -1 then Ok (-1, k)
          else
            let bitmap := fill_bitmap n words buf in
            let? k := kvm_get_dirty_pages_log_range s bitmap k in
            sync_loop fuel s (slot_end m) end_ (Some (bitmap, n)) k
      end
  end.

Definition kvm_physical_sync_dirty_bitmap (s : MemoryRegionSection) (k : KVMMemoryListener) : res (Z * KVMMemoryListener) :=
  let start := offset_within_address_space s in
  sync_loop (S (length (slots k))) s start (u64 (start + sec_size s)) None k.

Definition kvm_log_sync (s : MemoryRegionSection) (k : KVMMemoryListener) : res KVMMemoryListener :=
  let? (r, k) := kvm_physical_sync_dirty_bitmap s k in if r <? 0 then Err Aborted else Ok k.

(** ** Adding and removing memory *)

(** A slot is taken, filled in and made known to the kernel. *)
Definition register_slot (start size host flags : Z) (k : KVMMemoryListener) : res KVMMemoryListener :=
  let? i := kvm_alloc_slot (slots k) in
  let? old := of_option OutOfBounds (slots k !! i) in
  let m := mk_slot start size host (slot old) flags in
  let '(err, k) := kvm_set_user_memory_region m (set_slot i m k) in
  if negb (err =? 0) then Err Aborted else Ok k.

(** The overlapping slot goes, after its dirty pages are saved. *)
Definition unregister_slot (s : MemoryRegionSection) (i : nat) (m : KVMSlot) (k : KVMMemoryListener) : res KVMMemoryListener :=
  let? k := if bits (slot_flags m) KVM_MEM_LOG_DIRTY_PAGES
            then let? (_, k) := kvm_physical_sync_dirty_bitmap s k in Ok k else Ok k in
  let m := set_size 0 m in
  let '(err, k) := kvm_set_user_memory_region m (set_slot i m k) in
  if negb (err =? 0) then Err Aborted else Ok k.

(** What is left of slot [old] before and behind the range. *)
Definition keep_prefix (start flags : Z) (old : KVMSlot) (k : KVMMemoryListener) : res KVMMemoryListener :=
  if start_addr old <? start then register_slot (start_addr old) (u64 (start - start_addr old)) (ram old) flags k else Ok k.

Definition keep_suffix (end_ flags : Z) (old : KVMSlot) (k : KVMMemoryListener) : res KVMMemoryListener :=
  if end_ <? slot_end old then
    let delta := u64 (end_ - start_addr old) in
    register_slot end_ (u64 (memory_size old - delta)) (u64 (ram old + delta)) flags k
  else Ok k.

(** The range that is still to be registered. *)
Record range := mk_range { rg_start : Z; rg_size : Z; rg_ram : Z }.
Definition rg_end (r : range) : Z := u64 (rg_start r + rg_size r).

(** Whether the range lies in slot [m] with the same host memory. *)
Definition fits (r : range) (m : KVMSlot) : bool :=
  (start_addr m <=? rg_start r) && (rg_end r <=? slot_end m) && (u64 (rg_ram r - rg_start r) =? u64 (ram m - start_addr m)).

(** The loop over the overlapping slots; [None]: the function has returned in it. *)
Fixpoint overlap_step (fuel : nat) (s : MemoryRegionSection) (add : bool) (r : range) (k : KVMMemoryListener) :
    res (option range * KVMMemoryListener) :=
  match fuel with
  | O => Err OutOfFuel
  | S fuel =>
      match kvm_lookup_overlapping_slot (slots k) (rg_start r) (rg_end r) with
      | None => Ok (Some r, k)
      | Some (i, m) =>
          let flags := kvm_mem_flags (sec_mr s) in
          if add && fits r m then Ok (None, (kvm_slot_update_flags i m (sec_mr s) k).2)
          else
            let? k := unregister_slot s i m k in
            if broken_set_mem_region && (start_addr m =? rg_start r) && (memory_size m <? rg_size r) && add then
              let? k := register_slot (start_addr m) (memory_size m) (ram m) flags k in
              overlap_step fuel s add
                (mk_range (u64 (rg_start r + memory_size m)) (u64 (rg_size r - memory_size m)) (u64 (rg_ram r + memory_size m))) k
            else
              let? k := keep_prefix (rg_start r) flags m k in
              let? k := keep_suffix (rg_end r) flags m k in
              overlap_step fuel s add r k
      end
  end.

(** The section cut to whole pages, if a page is left. *)
Definition section_range (s : MemoryRegionSection) : option range :=
  let start := offset_within_address_space s in
  let delta := Z.land (u32 (PAGE_SIZE - Z.land start (PAGE_SIZE - 1))) (PAGE_SIZE - 1) in
  if sec_size s <? delta then None
  else
    let start := u64 (start + delta) in
    let size := Z.land (sec_size s - delta) qemu_real_host_page_mask in
    if (size =? 0) || negb (Z.land start (PAGE_SIZE - 1) =? 0) then None
    else Some (mk_range start size (u64 (mr_host (sec_mr s) + offset_within_region s + delta))).

(** Whether the section is backed by a slot at all, and then whether it is added. *)
Definition section_add (s : MemoryRegionSection) (add : bool) : option bool :=
  let mr := sec_mr s in
  if mr_is_ram mr then Some add
  else if (negb (mr_readonly mr) && negb (rom_device mr)) || negb kvm_readonly_mem_allowed then None
  else Some (add && romd_mode mr).

Definition kvm_set_phys_mem (s : MemoryRegionSection) (add : bool) (k : KVMMemoryListener) : res KVMMemoryListener :=
  match section_range s, section_add s add with
  | Some r, Some add =>
      let? (o, k) := overlap_step (S (length (slots k))) s add r k in
      match o with
      | None => Ok k
      | Some r =>
          if (rg_size r =? 0) || negb add then Ok k
          else register_slot (rg_start r) (rg_size r) (rg_ram r) (kvm_mem_flags (sec_mr s)) k
      end
  | _, _ => Ok k
  end.

Definition kvm_region_add (s : MemoryRegionSection) : KVMMemoryListener -> res KVMMemoryListener := kvm_set_phys_mem s true.
Definition kvm_region_del (s : MemoryRegionSection) : KVMMemoryListener -> res KVMMemoryListener := kvm_set_phys_mem s false.
End memory.

(** [kvm_memory_listener_register] *)
Definition kvm_memory_listener_register (nr_slots : nat) (id : Z) : KVMMemoryListener :=
  mk_kml ((fun i => mk_slot 0 0 0 (Z.of_nat i) 0) <$> seq 0 nr_slots) id [] ∅.

(** ** The map of the guest's memory *)

(** The slot is in use and [a] is in it. *)
Definition covers (m : KVMSlot) (a : Z) : Prop := start_addr m <= a < start_addr m + memory_size m.
#[export] Instance covers_dec m a : Decision (covers m a).
Proof. apply and_dec; [apply Z.le_dec | apply Z.lt_dec]. Defined.

(** The host address behind a guest address. *)
Definition translate (l : list KVMSlot) (a : Z) : option Z :=
  (fun p => ram p.2 + (a - start_addr p.2)) <$> list_find (fun m => covers m a) l.

(** What the kernel has in slot [id] after the calls, of which those with result 0 count. *)
Fixpoint kernel_slot (code : list user_region -> Z) (calls : list user_region) (id : Z) : option user_region :=
  match calls with
  | [] => None
  | m :: calls =>
      if (code (m :: calls) =? 0) && (um_slot m =? id) then (if um_size m =? 0 then None else Some m)
      else kernel_slot code calls id
  end.

(** ** Counting slots *)

Notation count P l := (length (filter P l)).

Lemma count_insert {A} (P : A -> Prop) `{!forall x, Decision (P x)} (l : list A) i x y :
  l !! i = Some x ->
  (count P (<[i := y]> l) + (if decide (P x) then 1 else 0) = count P l + (if decide (P y) then 1 else 0))%nat.
Proof.
  intros Hi. rewrite <- (take_drop_middle l i x Hi) at 2.
  rewrite insert_take_drop by (eapply lookup_lt_Some; eassumption).
  rewrite !filter_app, !filter_cons. repeat case_decide; rewrite !length_app; simpl; lia.
Qed.

Lemma count_pos {A} (P : A -> Prop) `{!forall x, Decision (P x)} (l : list A) i x :
  l !! i = Some x -> P x -> (0 < count P l)%nat.
Proof.
  intros Hi Hx. rewrite <- (take_drop_middle l i x Hi), filter_app, filter_cons.
  case_decide; [|done]. rewrite length_app. simpl. lia.
Qed.

(** At most one element has a property that no two elements share. *)
Lemma count_le_1 {A} (P : A -> Prop) `{!forall x, Decision (P x)} (l : list A) :
  (forall i j x y, l !! i = Some x -> l !! j = Some y -> P x -> P y -> i = j) -> (count P l <= 1)%nat.
Proof.
  induction l as [|x l IH]; intros U; [simpl; lia|]. rewrite filter_cons.
  assert (count P l <= 1)%nat as Hl by (apply IH; intros i j y z Hi Hj Hy Hz; apply Nat.succ_inj, (U (S i) (S j) y z); assumption).
  case_decide as Hx; [|exact Hl]. simpl. destruct (filter P l) as [|y t] eqn:E; [simpl; lia|].
  assert (y ∈ filter P l) as Hy by (rewrite E; left). apply list_elem_of_filter in Hy as [Hy Hin].
  apply list_elem_of_lookup in Hin as [j Hj]. discriminate (U 0%nat (S j) x y eq_refl Hj Hx Hy).
Qed.

(** ** Slots that make sense *)

Record slot_wf (m : KVMSlot) : Prop := {
  wf_start : 0 <= start_addr m; wf_size : 0 <= memory_size m; wf_end : start_addr m + memory_size m < 2 ^ 64;
  wf_ram : 0 <= ram m; wf_ram_end : ram m + memory_size m < 2 ^ 64 }.

Definition disjoint_slots (l : list KVMSlot) : Prop :=
  forall i j m n a, l !! i = Some m -> l !! j = Some n -> covers m a -> covers n a -> i = j.

Record slots_ok (l : list KVMSlot) : Prop := {
  ok_wf : forall i m, l !! i = Some m -> slot_wf m;
  ok_disjoint : disjoint_slots l;
  ok_id : forall i m, l !! i = Some m -> slot m = Z.of_nat i }.

Lemma slot_end_wf m : slot_wf m -> slot_end m = start_addr m + memory_size m.
Proof. intros [? ? ? ? ?]. apply u64_small. lia. Qed.

Lemma translate_Some l a h : disjoint_slots l ->
  translate l a = Some h <-> exists i m, l !! i = Some m /\ covers m a /\ h = ram m + (a - start_addr m).
Proof.
  intros D. unfold translate. split.
  - intros ([i m] & (Hi & Hc & _)%list_find_Some & ->)%fmap_Some. eauto 6.
  - intros (i & m & Hi & Hc & ->). destruct (list_find (fun m => covers m a) l) as [[j n]|] eqn:E.
    + apply list_find_Some in E as (Hj & Hn & _). rewrite (D j i n m a Hj Hi Hn Hc) in Hj.
      rewrite Hj in Hi. injection Hi as ->. reflexivity.
    + apply list_find_None in E. rewrite Forall_lookup in E. destruct (E i m Hi Hc).
Qed.

Lemma translate_None l a : translate l a = None <-> forall i m, l !! i = Some m -> ~ covers m a.
Proof. unfold translate. rewrite fmap_None, list_find_None, Forall_lookup. reflexivity. Qed.

Lemma translate_covers l i m a : disjoint_slots l -> l !! i = Some m -> covers m a ->
  translate l a = Some (ram m + (a - start_addr m)).
Proof. intros D Hi Hc. apply translate_Some; eauto 6. Qed.

(** Slot [i] is replaced by one whose addresses are not in use otherwise. *)
Definition fresh_at (l : list KVMSlot) (i : nat) (m : KVMSlot) : Prop :=
  forall j n a, l !! j = Some n -> j <> i -> covers m a -> ~ covers n a.

Lemma disjoint_insert l i m : disjoint_slots l -> fresh_at l i m -> disjoint_slots (<[i := m]> l).
Proof.
  intros D F j k x y a Hj Hk Hx Hy. rewrite list_lookup_insert_Some in Hj, Hk.
  destruct Hj as [(-> & <- & _) | [Nj Hj]], Hk as [(? & <- & _) | [Nk Hk]]; [congruence | | |].
  - destruct (F k y a Hk ltac:(congruence) Hx Hy).
  - subst k. destruct (F j x a Hj ltac:(congruence) Hy Hx).
  - eapply D; eassumption.
Qed.

Lemma ok_insert l i x m : slots_ok l -> l !! i = Some x -> slot m = slot x -> slot_wf m -> fresh_at l i m ->
  slots_ok (<[i := m]> l).
Proof.
  intros [W D I] Hi Hs Hw F. split.
  - intros j n. rewrite list_lookup_insert_Some. intros [(_ & <- & _) | [_ Hj]]; eauto.
  - apply disjoint_insert; assumption.
  - intros j n. rewrite list_lookup_insert_Some. intros [(-> & <- & _) | [_ Hj]]; [rewrite Hs|]; eauto.
Qed.

Lemma translate_insert l i x m a : slots_ok l -> l !! i = Some x -> fresh_at l i m ->
  translate (<[i := m]> l) a =
  if decide (covers m a) then Some (ram m + (a - start_addr m)) else if decide (covers x a) then None else translate l a.
Proof.
  intros [W D I] Hi F. pose proof (disjoint_insert l i m D F) as D'.
  assert (<[i := m]> l !! i = Some m) as Hm by (apply list_lookup_insert_eq; eapply lookup_lt_Some; eassumption).
  case_decide as Hc; [eapply translate_covers; eassumption|]. case_decide as Hx.
  - apply translate_None. intros j n. rewrite list_lookup_insert_Some. intros [(_ & <- & _) | [Nj Hj]]; [exact Hc|].
    intros Hn. apply Nj. eapply D; eassumption.
  - apply option_eq. intros h. rewrite !translate_Some by assumption. split; intros (j & n & Hj & Hn & ->).
    + rewrite list_lookup_insert_Some in Hj. destruct Hj as [(_ & <- & _) | [Nj Hj]]; [done | eauto 6].
    + destruct (decide (j = i)) as [-> |]; [congruence|]. exists j, n. rewrite list_lookup_insert_ne by congruence. auto.
Qed.

(** ** The slot that is found *)

(** The slot is in use and has an address from [start] up to [end_]. *)
Definition overlaps (start end_ : Z) (m : KVMSlot) : Prop :=
  memory_size m <> 0 /\ start_addr m < end_ /\ start < slot_end m.
#[export] Instance overlaps_dec start end_ m : Decision (overlaps start end_ m).
Proof. unfold overlaps. apply _. Defined.

Lemma overlap_loop_spec start end_ l : forall i found,
  match overlap_loop l i found start end_ with
  | None => found = None /\ forall n x, l !! n = Some x -> ~ overlaps start end_ x
  | Some (j, m) =>
      (found = Some (j, m) \/ exists n, l !! n = Some m /\ j = (i + n)%nat /\ overlaps start end_ m) /\
      (forall f, found = Some f -> start_addr m <= start_addr f.2) /\
      (forall n x, l !! n = Some x -> overlaps start end_ x -> start_addr m <= start_addr x)
  end.
Proof.
  induction l as [|m l IH]; intros i found.
  { simpl. destruct found as [[j f]|]; [|split; [reflexivity | intros n x [=]]].
    split; [auto|]. split; [intros ? [= <-]; simpl; lia | intros n x [=]]. }
  cbn [overlap_loop]. set (skip := _ || _). destruct (negb skip && _ && _) eqn:Hit.
  - assert (overlaps start end_ m /\ forall f, found = Some f -> start_addr m <= start_addr f.2) as [Hm Hf].
    { unfold skip in Hit. bool_props. repeat split; try assumption. intros [? f] ->. bool_props. simpl. lia. }
    specialize (IH (S i) (Some (i, m))). destruct (overlap_loop _ _ _ _ _) as [[j y]|]; [|destruct IH; discriminate].
    destruct IH as (H1 & H2 & H3). specialize (H2 _ eq_refl). simpl in H2. split; [|split].
    + right. destruct H1 as [[= <- <-] | (n & Hn & -> & Ho)]; [exists 0%nat | exists (S n)]; split; auto; lia.
    + intros f E. specialize (Hf f E). lia.
    + intros [|n] x Hx Ho; [injection Hx as <-; exact H2 | eauto].
  - assert (overlaps start end_ m -> exists f, found = Some f /\ start_addr f.2 < start_addr m) as Hs.
    { intros (Hz & Hlo & Hhi). unfold skip in Hit. destruct (Z.eqb_spec (memory_size m) 0); [done|].
      rewrite (proj2 (Z.ltb_lt _ _) Hlo), (proj2 (Z.ltb_lt _ _) Hhi), !andb_true_r in Hit.
      destruct found as [[j f]|]; [|discriminate]. simpl in Hit. bool_props. eexists; split; [reflexivity|]. simpl. lia. }
    specialize (IH (S i) found). destruct (overlap_loop _ _ _ _ _) as [[j y]|].
    + destruct IH as (H1 & H2 & H3). split; [|split; [exact H2|]].
      * destruct H1 as [? | (n & Hn & -> & Ho)]; [auto | right; exists (S n); split; [exact Hn | split; [lia | exact Ho]]].
      * intros [|n] x Hx Ho; [injection Hx as <- | eauto]. destruct (Hs Ho) as (f & Ef & ?). specialize (H2 f Ef). lia.
    + destruct IH as [-> H2]. split; [reflexivity|]. intros [|n] x Hx; [injection Hx as <- | eauto].
      intros Ho. destruct (Hs Ho) as (? & [=] & _).
Qed.

Lemma overlapping_Some l start end_ i m : kvm_lookup_overlapping_slot l start end_ = Some (i, m) ->
  l !! i = Some m /\ overlaps start end_ m /\ (forall n x, l !! n = Some x -> overlaps start end_ x -> start_addr m <= start_addr x).
Proof.
  unfold kvm_lookup_overlapping_slot. intros E. pose proof (overlap_loop_spec start end_ l 0 None) as H. rewrite E in H.
  destruct H as ([[=] | (n & Hn & -> & Ho)] & _ & Hl). auto.
Qed.

Lemma overlapping_None l start end_ : kvm_lookup_overlapping_slot l start end_ = None ->
  forall i m, l !! i = Some m -> ~ overlaps start end_ m.
Proof.
  unfold kvm_lookup_overlapping_slot. intros E. pose proof (overlap_loop_spec start end_ l 0 None) as H. rewrite E in H.
  apply H.
Qed.

Lemma overlaps_covers start end_ m : slot_wf m -> start < end_ ->
  overlaps start end_ m <-> exists a, covers m a /\ start <= a < end_.
Proof.
  intros W Hr. unfold overlaps, covers. rewrite slot_end_wf by assumption. destruct W. split.
  - intros (? & ? & ?). exists (Z.max start (start_addr m)). lia.
  - intros (a & ? & ?). lia.
Qed.

(** ** The kernel knows the slots *)

Section accepting.
Variables (code : list user_region -> Z) (dirty_log : Z -> Z * (nat -> Z)).
Variables (kvm_readonly_mem_allowed global_dirty_log : bool).
(** The kernel accepts every call. *)
Hypothesis accepts : forall calls, code calls = 0.

Notation flags_of := (kvm_mem_flags kvm_readonly_mem_allowed global_dirty_log).

(** The region that stands for slot [m] in the kernel. *)
Definition kernel_view (k : KVMMemoryListener) (m : KVMSlot) : option user_region :=
  if memory_size m =? 0 then None
  else Some (mk_region (kernel_id k m) (slot_flags m) (start_addr m) (memory_size m) (ram m)).

Record kml_ok (k : KVMMemoryListener) : Prop := {
  ok_slots : slots_ok (slots k);
  ok_len : (length (slots k) <= Z.to_nat (2 ^ 16))%nat;
  ok_as : 0 <= as_id k < 2 ^ 16;
  ok_kernel : forall i m, slots k !! i = Some m -> kernel_slot code (vm_calls k) (kernel_id k m) = kernel_view k m }.

Lemma kernel_id_eq k i m : kml_ok k -> (i < length (slots k))%nat -> slot m = Z.of_nat i ->
  kernel_id k m = Z.of_nat i + 2 ^ 16 * as_id k.
Proof.
  intros [_ L A _] Hi E. unfold kernel_id. rewrite E, lor_add by lia. apply Z.mod_small. lia.
Qed.

(** Two slots are different in the kernel. *)
Lemma kernel_id_inj k i j m n : kml_ok k -> slots k !! i = Some m -> slots k !! j = Some n ->
  kernel_id k m = kernel_id k n -> i = j.
Proof.
  intros K Hi Hj. pose proof (ok_id _ (ok_slots _ K)) as I.
  rewrite (kernel_id_eq k i), (kernel_id_eq k j) by (eauto using lookup_lt_Some). lia.
Qed.

Lemma set_region_calls m k : exists l,
  kvm_set_user_memory_region code m k =
    (0, mk_kml (slots k) (as_id k) (mk_region (kernel_id k m) (slot_flags m) (start_addr m) (memory_size m) (ram m) :: l ++ vm_calls k) (dirty k)) /\
  Forall (fun r => um_slot r = kernel_id k m) l.
Proof.
  unfold kvm_set_user_memory_region, vm_ioctl. cbv zeta. rewrite accepts. destruct (_ && _).
  - exists [mk_region (kernel_id k m) (slot_flags m) (start_addr m) 0 (ram m)]. simpl. rewrite Forall_singleton. auto.
  - exists []. auto.
Qed.

(** Calls about slot [id] do not touch another slot. *)
Lemma kernel_slot_other id id' calls l : Forall (fun r => um_slot r = id) l -> id <> id' ->
  kernel_slot code (l ++ calls) id' = kernel_slot code calls id'.
Proof.
  intros F N. induction F as [|r l Hr F IH]; [reflexivity|]. simpl. rewrite accepts, Hr, (proj2 (Z.eqb_neq _ _) N). exact IH.
Qed.

(** [m] has taken the place of slot [x]. *)
Record replaced (k k' : KVMMemoryListener) (x m : KVMSlot) : Prop := {
  rep_ok : kml_ok k; rep_ok' : kml_ok k';
  rep_at : exists i, slots k !! i = Some x /\ slots k' = <[i := m]> (slots k) /\ fresh_at (slots k) i m }.

Lemma replace_slot k i x m : kml_ok k -> slots k !! i = Some x -> slot m = slot x -> slot_wf m -> fresh_at (slots k) i m ->
  exists k', kvm_set_user_memory_region code m (set_slot i m k) = (0, k') /\ replaced k k' x m /\ dirty k' = dirty k.
Proof.
  intros K Hi Hs W F. destruct (set_region_calls m (set_slot i m k)) as (l & E & Fl). rewrite E.
  eexists; split; [reflexivity|]. split; [|reflexivity]. split; [exact K | | exists i; auto].
  change (kernel_id (set_slot i m k)) with (kernel_id k) in *. split; simpl.
  - eapply ok_insert; eauto using ok_slots.
  - rewrite length_insert. apply (ok_len _ K).
  - apply (ok_as _ K).
  - intros j n Hj. change (kernel_id _ n) with (kernel_id k n). unfold kernel_view. change (kernel_id _ n) with (kernel_id k n).
    rewrite accepts. simpl. rewrite list_lookup_insert_Some in Hj. destruct Hj as [(-> & <- & _) | [Nj Hj]].
    + rewrite Z.eqb_refl. reflexivity.
    + assert (kernel_id k m <> kernel_id k n) as N.
      { intros E'. apply Nj. apply (kernel_id_inj k i j x n K Hi Hj). rewrite <- E'. unfold kernel_id. rewrite Hs. reflexivity. }
      rewrite (proj2 (Z.eqb_neq _ _) N), (kernel_slot_other _ _ _ _ Fl N). apply (ok_kernel _ K j n Hj).
Qed.

Lemma replaced_translate k k' x m a : replaced k k' x m ->
  translate (slots k') a =
  if decide (covers m a) then Some (ram m + (a - start_addr m)) else if decide (covers x a) then None else translate (slots k) a.
Proof. intros [K _ (i & Hi & -> & F)]. apply translate_insert; auto using ok_slots. Qed.

Lemma replaced_count (P : KVMSlot -> Prop) `{!forall x, Decision (P x)} k k' x m : replaced k k' x m ->
  (count P (slots k') + (if decide (P x) then 1 else 0) = count P (slots k) + (if decide (P m) then 1 else 0))%nat.
Proof. intros [_ _ (i & Hi & -> & _)]. apply count_insert, Hi. Qed.

Lemma replaced_lookup k k' x m i y : replaced k k' x m -> slots k' !! i = Some y -> y = m \/ slots k !! i = Some y.
Proof. intros [_ _ (j & Hj & -> & _)]. rewrite list_lookup_insert_Some. intros [(_ & <- & _) | [_ ?]]; auto. Qed.

Notation free l := (count (fun m => memory_size m = 0) l).

Lemma free_slot l : (0 < free l)%nat -> exists i x, kvm_get_free_slot l = Some i /\ l !! i = Some x /\ memory_size x = 0.
Proof.
  intros Hf. unfold kvm_get_free_slot. destruct (list_find (fun m => memory_size m = 0) l) as [[i x]|] eqn:E.
  - apply list_find_Some in E as (Hi & Hx & _). eauto.
  - apply list_find_None in E. rewrite Forall_lookup in E.
    destruct (filter _ l) as [|y t] eqn:F; [simpl in Hf; lia|].
    assert (y ∈ filter (fun m => memory_size m = 0) l) as Hy by (rewrite F; left).
    apply list_elem_of_filter in Hy as [Hy [j Hj]%list_elem_of_lookup]. destruct (E j y Hj Hy).
Qed.

Lemma fresh_unused l i m : (forall a, covers m a -> translate l a = None) -> fresh_at l i m.
Proof. intros H j n a Hj _ Hc. apply (proj1 (translate_None l a) (H a Hc) j n Hj). Qed.

Lemma register_ok start size host flags k :
  kml_ok k -> (0 < free (slots k))%nat -> (forall id, slot_wf (mk_slot start size host id flags)) ->
  (forall a, start <= a < start + size -> translate (slots k) a = None) ->
  exists k' x, register_slot code start size host flags k = Ok k' /\ memory_size x = 0 /\
    replaced k k' x (mk_slot start size host (slot x) flags).
Proof.
  intros K Hf W H. destruct (free_slot _ Hf) as (i & x & Ei & Hi & Hx). unfold register_slot, kvm_alloc_slot.
  rewrite Ei. cbn [of_option rbind]. rewrite Hi. cbn [of_option rbind].
  destruct (replace_slot k i x (mk_slot start size host (slot x) flags) K Hi eq_refl (W _)) as (k' & E & R & _).
  { apply fresh_unused. exact H. }
  rewrite E. simpl. eauto.
Qed.

(** A slot that is not logged goes. *)
Lemma unregister_ok s i m k :
  kml_ok k -> slots k !! i = Some m -> bits (slot_flags m) KVM_MEM_LOG_DIRTY_PAGES = false ->
  exists k', unregister_slot code dirty_log s i m k = Ok k' /\ replaced k k' m (set_size 0 m).
Proof.
  intros K Hi Hl. pose proof (ok_wf _ (ok_slots _ K) _ _ Hi) as W. unfold unregister_slot. rewrite Hl. cbn [rbind].
  destruct (replace_slot k i m (set_size 0 m) K Hi eq_refl) as (k' & E & R & _).
  - destruct W. split; simpl; lia.
  - intros j n a _ _ [H1 H2]. simpl in *. lia.
  - rewrite E. simpl. eauto.
Qed.

(** ** Splitting a slot *)

(** The range is not empty and neither its addresses nor its host memory wrap around. *)
Record range_ok (r : range) : Prop := {
  rk_start : 0 <= rg_start r; rk_size : 0 < rg_size r; rk_end : rg_start r + rg_size r < 2 ^ 64;
  rk_ram : 0 <= rg_ram r; rk_ram_end : rg_ram r + rg_size r < 2 ^ 64 }.

Lemma rg_end_ok r : range_ok r -> rg_end r = rg_start r + rg_size r.
Proof. intros []. apply u64_small. lia. Qed.

Section split.
Variables (r : range) (flags : Z).
Hypothesis R : range_ok r.

Definition in_range (a : Z) : Prop := rg_start r <= a < rg_start r + rg_size r.

Notation hit := (overlaps (rg_start r) (rg_end r)).
(** Slots that reach over the start and over the end of the range. *)
Definition over_start (m : KVMSlot) : Prop := covers m (rg_start r - 1) /\ covers m (rg_start r).
Definition over_end (m : KVMSlot) : Prop := covers m (rg_end r - 1) /\ covers m (rg_end r).

(** A slot that does not meet the range changes the number of free slots only. *)
Lemma side_counts k k' x m : replaced k k' x m -> memory_size x = 0 -> slot_wf m -> 0 < memory_size m ->
  slot_end m <= rg_start r \/ rg_end r <= start_addr m ->
  count hit (slots k') = count hit (slots k) /\ S (free (slots k')) = free (slots k) /\
  count over_start (slots k') = count over_start (slots k) /\ count over_end (slots k') = count over_end (slots k).
Proof.
  intros Re Hx W Hm Hd. pose proof (rg_end_ok r R) as Er. destruct R. rewrite slot_end_wf in Hd by assumption.
  pose proof (replaced_count hit _ _ _ _ Re) as H1. pose proof (replaced_count over_start _ _ _ _ Re) as H2.
  pose proof (replaced_count over_end _ _ _ _ Re) as H3.
  pose proof (replaced_count (fun m => memory_size m = 0) _ _ _ _ Re) as H4.
  rewrite decide_False in H1 by (intros (? & _); lia).
  rewrite decide_False in H1 by (intros (_ & ? & ?); rewrite slot_end_wf in * by assumption; lia).
  rewrite !decide_False in H2 by (intros [[? ?] [? ?]]; lia). rewrite !decide_False in H3 by (intros [[? ?] [? ?]]; lia).
  rewrite decide_True in H4 by lia. rewrite decide_False in H4 by lia. lia.
Qed.

(** A slot that meets the range is given up. *)
Lemma gone_counts k k' m : replaced k k' m (set_size 0 m) -> slot_wf m -> hit m ->
  S (count hit (slots k')) = count hit (slots k) /\ free (slots k') = S (free (slots k)) /\
  (count over_start (slots k') + (if (start_addr m <? rg_start r)%Z then 1 else 0) = count over_start (slots k))%nat /\
  (count over_end (slots k') + (if (rg_end r <? slot_end m)%Z then 1 else 0) = count over_end (slots k))%nat.
Proof.
  intros Re W Hh. pose proof (rg_end_ok r R) as Er. destruct R.
  pose proof (replaced_count hit _ _ _ _ Re) as H1. pose proof (replaced_count over_start _ _ _ _ Re) as H2.
  pose proof (replaced_count over_end _ _ _ _ Re) as H3.
  pose proof (replaced_count (fun m => memory_size m = 0) _ _ _ _ Re) as H4.
  rewrite decide_True in H1 by assumption. rewrite decide_False in H1 by (intros (? & _); simpl in *; lia).
  destruct Hh as (Hz & Ha & Hb). rewrite decide_False in H4 by assumption. rewrite decide_True in H4 by reflexivity.
  rewrite (decide_False (P := over_start (set_size 0 m))) in H2 by (intros [[? ?] _]; simpl in *; lia).
  rewrite (decide_False (P := over_end (set_size 0 m))) in H3 by (intros [[? ?] _]; simpl in *; lia).
  rewrite slot_end_wf in * by assumption. destruct W. split; [lia|]. split; [lia|]. split.
  - destruct (decide (over_start m)) as [[[? ?] [? ?]] | N]; destruct (Z.ltb_spec (start_addr m) (rg_start r)); try lia.
    destruct N. split; split; lia.
  - destruct (decide (over_end m)) as [[[? ?] [? ?]] | N]; destruct (Z.ltb_spec (rg_end r) (start_addr m + memory_size m)); try lia.
    destruct N. split; split; lia.
Qed.

(** The addresses from [lo] up to [hi] of slot [old], a part of it outside the range, are kept
    in a slot of their own, if there are any. *)
Record part (old : KVMSlot) (lo hi : Z) (k k' : KVMMemoryListener) : Prop := {
  pt_ok : kml_ok k';
  pt_translate : forall a, translate (slots k') a =
    if decide (lo <= a < hi) then Some (ram old + (a - start_addr old)) else translate (slots k) a;
  pt_hits : count hit (slots k') = count hit (slots k);
  pt_free : (free (slots k') + (if (lo <? hi)%Z then 1 else 0) = free (slots k))%nat;
  pt_start : count over_start (slots k') = count over_start (slots k);
  pt_end : count over_end (slots k') = count over_end (slots k);
  pt_slots : forall j y, slots k' !! j = Some y -> (slot_flags y = flags /\ ~ hit y) \/ slots k !! j = Some y }.

Lemma part_empty old lo hi k : kml_ok k -> hi <= lo -> part old lo hi k k.
Proof.
  intros K Hl. split; auto.
  - intros a. rewrite decide_False by lia. reflexivity.
  - rewrite (proj2 (Z.ltb_ge _ _) Hl). lia.
Qed.

Lemma part_register old lo hi k :
  kml_ok k -> slot_wf old -> lo < hi -> start_addr old <= lo -> hi <= slot_end old -> hi <= rg_start r \/ rg_end r <= lo ->
  (0 < free (slots k))%nat -> (forall a, lo <= a < hi -> translate (slots k) a = None) ->
  exists k', register_slot code lo (hi - lo) (ram old + (lo - start_addr old)) flags k = Ok k' /\ part old lo hi k k'.
Proof.
  intros K W Hl H1 H2 Hd Hf N. rewrite slot_end_wf in H2 by assumption.
  destruct (register_ok lo (hi - lo) (ram old + (lo - start_addr old)) flags k K Hf) as (k' & x & E & Hx & Hr).
  { intros id. destruct W. split; simpl; lia. }
  { intros a Ha. apply N. lia. }
  exists k'. split; [exact E|]. set (m := mk_slot _ _ _ _ _) in Hr.
  assert (slot_wf m) as Wm by (destruct W; split; simpl; lia).
  assert (slot_end m = hi) as Em by (rewrite slot_end_wf by assumption; simpl; lia).
  destruct (side_counts k k' x m Hr Hx Wm) as (C1 & C2 & C3 & C4); [simpl; lia | rewrite Em; exact Hd|].
  split; try assumption.
  - apply (rep_ok' _ _ _ _ Hr).
  - intros a. rewrite (replaced_translate _ _ _ _ a Hr). destruct (decide (covers m a)) as [[C1' C2'] | C]; simpl in *.
    + rewrite decide_True by lia. f_equal. lia.
    + unfold covers in C. simpl in C. rewrite !decide_False by (try intros [? ?]; lia). reflexivity.
  - rewrite (proj2 (Z.ltb_lt _ _) Hl). lia.
  - intros j y Hy. destruct (replaced_lookup _ _ _ _ _ _ Hr Hy) as [-> | ?]; [left | auto].
    split; [reflexivity|]. intros (_ & Ha & Hb). rewrite Em in Hb. simpl in Ha. lia.
Qed.

Lemma keep_prefix_ok old k : kml_ok k -> slot_wf old -> hit old ->
  (forall a, covers old a -> translate (slots k) a = None) ->
  (start_addr old < rg_start r -> (0 < free (slots k))%nat) ->
  exists k', keep_prefix code (rg_start r) flags old k = Ok k' /\ part old (start_addr old) (rg_start r) k k'.
Proof.
  intros K W H N F. unfold keep_prefix. destruct (Z.ltb_spec (start_addr old) (rg_start r)) as [L | L]; [|eauto using part_empty].
  destruct H as (Hz & H1 & H2). destruct R. pose proof (slot_end_wf old W) as Ew. rewrite u64_small by (destruct W; lia).
  destruct (part_register old (start_addr old) (rg_start r) k) as (k' & E & P); try lia; auto.
  - intros a Ha. apply N. split; lia.
  - rewrite Z.sub_diag, Z.add_0_r in E. eauto.
Qed.

Lemma keep_suffix_ok old k : kml_ok k -> slot_wf old -> hit old ->
  (forall a, covers old a -> rg_end r <= a -> translate (slots k) a = None) ->
  (rg_end r < slot_end old -> (0 < free (slots k))%nat) ->
  exists k', keep_suffix code (rg_end r) flags old k = Ok k' /\ part old (rg_end r) (slot_end old) k k'.
Proof.
  intros K W H N F. pose proof (rg_end_ok r R) as Er. unfold keep_suffix.
  destruct (Z.ltb_spec (rg_end r) (slot_end old)) as [L | L]; [|eauto using part_empty].
  destruct H as (Hz & H1 & H2). destruct R. pose proof (slot_end_wf old W) as Ew. pose proof W as [].
  rewrite (u64_small (rg_end r - _)) by lia. rewrite !u64_small by lia.
  replace (memory_size old - (rg_end r - start_addr old)) with (slot_end old - rg_end r) by lia.
  apply part_register; try lia; auto. intros a Ha. apply N; [split|]; lia.
Qed.

(** What an iteration of the loop achieves. *)
Record split_post (k k' : KVMMemoryListener) : Prop := {
  sp_ok : kml_ok k';
  sp_translate : forall a, ~ in_range a -> translate (slots k') a = translate (slots k) a;
  sp_hits : S (count hit (slots k')) = count hit (slots k);
  sp_budget : forall c, (count over_start (slots k) + count over_end (slots k) + c <= S (free (slots k)))%nat ->
    (count over_start (slots k') + count over_end (slots k') + c <= free (slots k'))%nat;
  sp_slots : forall j y, slots k' !! j = Some y ->
    (slot_flags y = flags /\ ~ hit y) \/ exists j' y', slots k !! j' = Some y' /\ slot_flags y = slot_flags y' /\ (hit y -> hit y') }.

Lemma split_ok s i m k : kml_ok k -> slots k !! i = Some m -> hit m -> bits (slot_flags m) KVM_MEM_LOG_DIRTY_PAGES = false ->
  (count over_start (slots k) + count over_end (slots k) <= S (free (slots k)))%nat ->
  exists k1 k2 k', unregister_slot code dirty_log s i m k = Ok k1 /\ keep_prefix code (rg_start r) flags m k1 = Ok k2 /\
    keep_suffix code (rg_end r) flags m k2 = Ok k' /\ split_post k k'.
Proof.
  intros K Hi Hh Hl Hb. pose proof (ok_wf _ (ok_slots _ K) _ _ Hi) as W. pose proof (rg_end_ok r R) as Er.
  destruct (unregister_ok s i m k K Hi Hl) as (k1 & E1 & R1). destruct (gone_counts k k1 m R1 W Hh) as (G1 & G2 & G3 & G4).
  assert (forall a, translate (slots k1) a = if decide (covers m a) then None else translate (slots k) a) as T1.
  { intros a. rewrite (replaced_translate _ _ _ _ a R1), decide_False by (intros [? ?]; simpl in *; lia). reflexivity. }
  destruct (keep_prefix_ok m k1 (rep_ok' _ _ _ _ R1) W Hh) as (k2 & E2 & [P1 P2 P3 P4 P5 P6 P7]).
  { intros a Ha. rewrite T1, decide_True by assumption. reflexivity. }
  { intros _. lia. }
  destruct (keep_suffix_ok m k2 P1 W Hh) as (k3 & E3 & [Q1 Q2 Q3 Q4 Q5 Q6 Q7]).
  { intros a Ha Hge. destruct R. rewrite P2, decide_False, T1, decide_True by (assumption || lia). reflexivity. }
  { intros L. rewrite (proj2 (Z.ltb_lt _ _) L) in G4. destruct (start_addr m <? rg_start r); lia. }
  exists k1, k2, k3. split; [exact E1|]. split; [exact E2|]. split; [exact E3|]. split; auto; try lia.
  - intros a Ha. unfold in_range in Ha. rewrite Q2, P2, T1. pose proof (slot_end_wf m W).
    destruct (decide (covers m a)) as [C | C].
    + rewrite (translate_covers _ _ _ _ (ok_disjoint _ (ok_slots _ K)) Hi C). destruct C. repeat case_decide; auto; lia.
    + unfold covers in C. destruct Hh as (? & ? & ?). rewrite !decide_False by lia. reflexivity.
  - intros j y Hy. destruct (Q7 j y Hy) as [? | Hy2]; [auto|]. destruct (P7 j y Hy2) as [? | Hy1]; [auto|]. right.
    destruct (replaced_lookup _ _ _ _ _ _ R1 Hy1) as [-> | Hy0]; [|eauto 6].
    exists i, m. split; [exact Hi|]. split; [reflexivity|]. intros (Hz & _). destruct (Hz eq_refl).
Qed.

(** Slots that overlap the range are not logged. *)
Definition quiet (k : KVMMemoryListener) : Prop :=
  forall j y, slots k !! j = Some y -> hit y -> bits (slot_flags y) KVM_MEM_LOG_DIRTY_PAGES = false.

Lemma split_quiet k k' : split_post k k' -> quiet k -> quiet k'.
Proof. intros SP Q j y Hy Hh. destruct (sp_slots _ _ SP j y Hy) as [[_ N] | (j' & y' & H' & -> & Hi)]; [done | eauto]. Qed.

(** A property of flags that holds of the new ones holds of all slots still. *)
Lemma split_flags (P : Z -> Prop) k k' : split_post k k' -> P flags ->
  (forall j y, slots k !! j = Some y -> P (slot_flags y)) -> forall j y, slots k' !! j = Some y -> P (slot_flags y).
Proof. intros SP Hp H j y Hy. destruct (sp_slots _ _ SP j y Hy) as [[-> _] | (j' & y' & H' & -> & _)]; eauto. Qed.
End split.

Lemma u64_shift x y a : u64 x = u64 y -> 0 <= x + a < 2 ^ 64 -> 0 <= y + a < 2 ^ 64 -> x + a = y + a.
Proof.
  intros E Hx Hy. rewrite <- (u64_small (x + a) Hx), <- (u64_small (y + a) Hy), <- (u64_add_l x), <- (u64_add_l y), E. reflexivity.
Qed.

Lemma update_flags_ok i m mr k : kml_ok k -> slots k !! i = Some m -> exists k',
  kvm_slot_update_flags code kvm_readonly_mem_allowed global_dirty_log i m mr k = (0, k') /\
  replaced k k' m (set_slot_flags (flags_of mr) m).
Proof.
  intros K Hi. pose proof (ok_wf _ (ok_slots _ K) _ _ Hi) as W. unfold kvm_slot_update_flags. cbv zeta.
  assert (fresh_at (slots k) i (set_slot_flags (flags_of mr) m)) as F.
  { intros j n a Hj N Hc Hn. apply N. eapply (ok_disjoint _ (ok_slots _ K)); eauto. }
  destruct (Z.eqb_spec (slot_flags (set_slot_flags (flags_of mr) m)) (slot_flags m)) as [E | E].
  - assert (set_slot_flags (flags_of mr) m = m) as -> by (destruct m; simpl in *; subst; reflexivity).
    eexists; split; [reflexivity|]. assert (set_slot i m k = k) as ->.
    { destruct k. unfold set_slot, set_slots. simpl in *. rewrite list_insert_id by assumption. reflexivity. }
    split; try assumption. exists i. rewrite list_insert_id by assumption. split; [assumption|]. split; [reflexivity|].
    intros j n a Hj N Hc Hn. apply N. eapply (ok_disjoint _ (ok_slots _ K)); eauto.
  - destruct (replace_slot k i m (set_slot_flags (flags_of mr) m) K Hi eq_refl) as (k' & E' & Hr & _); eauto.
    destruct W. split; assumption.
Qed.

(** ** The loop *)

Notation overlap := (overlap_step code dirty_log false kvm_readonly_mem_allowed global_dirty_log).

(** The result of the loop: the range is taken out of the map, or it is in it already. *)
Record loop_post (r : range) (F : Z) (add : bool) (c : nat) (k : KVMMemoryListener) (o : option range) (k' : KVMMemoryListener) : Prop := {
  lp_ok : kml_ok k';
  lp_outside : forall a, ~ in_range r a -> translate (slots k') a = translate (slots k) a;
  lp_flags : forall P : Z -> Prop, P F -> (forall j y, slots k !! j = Some y -> P (slot_flags y)) ->
    forall j y, slots k' !! j = Some y -> P (slot_flags y);
  lp_range : match o with
    | Some r' => r' = r /\ (c <= free (slots k'))%nat /\ forall a, in_range r a -> translate (slots k') a = None
    | None => add = true /\ (c <= S (free (slots k')))%nat /\
        forall a, in_range r a -> translate (slots k') a = Some (rg_ram r + (a - rg_start r))
    end }.

Lemma fits_loop s r k i m c : range_ok r -> kml_ok k -> slots k !! i = Some m -> fits r m = true -> (c <= S (free (slots k)))%nat ->
  loop_post r (flags_of (sec_mr s)) true c k None (kvm_slot_update_flags code kvm_readonly_mem_allowed global_dirty_log i m (sec_mr s) k).2.
Proof.
  intros R K Hi Hf Hc. destruct (update_flags_ok i m (sec_mr s) k K Hi) as (k' & -> & Hr). simpl.
  pose proof (ok_wf _ (ok_slots _ K) _ _ Hi) as W. pose proof (ok_disjoint _ (ok_slots _ K)) as D.
  assert (forall a, translate (slots k') a = translate (slots k) a) as T.
  { intros a. rewrite (replaced_translate _ _ _ _ a Hr).
    destruct (decide (covers (set_slot_flags (flags_of (sec_mr s)) m) a)) as [C | C].
    - rewrite (translate_covers _ _ _ _ D Hi C). reflexivity.
    - rewrite decide_False by exact C. reflexivity. }
  unfold fits in Hf. rewrite slot_end_wf, rg_end_ok in Hf by assumption. bool_props. split.
  - apply (rep_ok' _ _ _ _ Hr).
  - intros a _. apply T.
  - intros P HP H' j y Hy. destruct (replaced_lookup _ _ _ _ _ _ Hr Hy) as [-> | ?]; eauto.
  - split; [reflexivity|]. split.
    + pose proof (replaced_count (fun m => memory_size m = 0) _ _ _ _ Hr) as Hn. simpl in Hn. lia.
    + intros a [Ha1 Ha2]. rewrite T, (translate_covers _ _ _ a D Hi) by (split; lia). f_equal. destruct W, R.
      pose proof (u64_shift (rg_ram r - rg_start r) (ram m - start_addr m) a). lia.
Qed.

Lemma loop_trans r F add c k k1 o k' : split_post r F k k1 -> loop_post r F add c k1 o k' -> loop_post r F add c k o k'.
Proof.
  intros SP [L1 L2 L3 L4]. split; auto.
  - intros a Ha. rewrite L2 by assumption. apply (sp_translate _ _ _ _ SP a Ha).
  - intros P HP H. apply L3; [exact HP|]. apply (split_flags r F P k k1 SP HP H).
Qed.

(** Enough free slots let the loop end, with [c] of them left; each iteration removes an
    overlapping slot. *)
Lemma overlap_step_ok s add r c : range_ok r -> forall fuel k, kml_ok k -> quiet r k ->
  (count (overlaps (rg_start r) (rg_end r)) (slots k) < fuel)%nat ->
  (count (over_start r) (slots k) + count (over_end r) (slots k) + c <= S (free (slots k)))%nat ->
  (count (overlaps (rg_start r) (rg_end r)) (slots k) = 0%nat -> (c <= free (slots k))%nat) ->
  exists o k', overlap fuel s add r k = Ok (o, k') /\ loop_post r (flags_of (sec_mr s)) add c k o k'.
Proof.
  intros R. pose proof (rg_end_ok r R) as Er. induction fuel as [|fuel IH]; intros k K Q Hn Hb Hz; [lia|]. cbn [overlap_step].
  destruct (kvm_lookup_overlapping_slot _ _ _) as [[i m]|] eqn:E.
  - apply overlapping_Some in E as (Hi & Hh & _). destruct (add && fits r m) eqn:Hf.
    + apply andb_true_iff in Hf as [-> Hf]. eexists _, _; split; [reflexivity|]. apply fits_loop; auto. lia.
    + destruct (split_ok r (flags_of (sec_mr s)) R s i m k K Hi Hh (Q i m Hi Hh)) as (k1 & k2 & k3 & E1 & E2 & E3 & SP); [lia|].
      rewrite E1. cbn [rbind andb]. rewrite E2. cbn [rbind]. rewrite E3. cbn [rbind].
      pose proof (sp_hits _ _ _ _ SP). pose proof (sp_budget _ _ _ _ SP c Hb).
      destruct (IH k3) as (o & k' & E' & L); [apply (sp_ok _ _ _ _ SP) | eapply split_quiet; eassumption | lia | lia | lia |].
      exists o, k'. split; [exact E'|]. eapply loop_trans; eassumption.
  - eexists _, _; split; [reflexivity|]. pose proof (overlapping_None _ _ _ E) as N. split; auto.
    split; [reflexivity|]. split.
    + apply Hz. destruct (filter _ (slots k)) as [|y t] eqn:Fe; [reflexivity|].
      assert (y ∈ filter (overlaps (rg_start r) (rg_end r)) (slots k)) as Hy by (rewrite Fe; left).
      apply list_elem_of_filter in Hy as [Hy [j Hj]%list_elem_of_lookup]. destruct (N j y Hj Hy).
    + intros a [Ha1 Ha2]. apply translate_None. intros j y Hj Hc. apply (N j y Hj). apply overlaps_covers; [|lia|].
      * apply (ok_wf _ (ok_slots _ K) _ _ Hj).
      * exists a. split; [exact Hc | lia].
Qed.

(** ** The section in whole pages *)

(** The section and its host memory lie below the end of the address spaces. *)
Record section_ok (s : MemoryRegionSection) : Prop := {
  so_start : 0 <= offset_within_address_space s; so_size : 0 <= sec_size s;
  so_end : offset_within_address_space s + sec_size s < 2 ^ 64;
  so_host : 0 <= mr_host (sec_mr s) + offset_within_region s;
  so_host_end : mr_host (sec_mr s) + offset_within_region s + sec_size s < 2 ^ 64 }.

Definition page_up (a : Z) : Z := (a + (PAGE_SIZE - 1)) / PAGE_SIZE * PAGE_SIZE.
Definition page_down (a : Z) : Z := a / PAGE_SIZE * PAGE_SIZE.

Definition first_page (s : MemoryRegionSection) : Z := page_up (offset_within_address_space s).
Definition last_page (s : MemoryRegionSection) : Z := page_down (offset_within_address_space s + sec_size s).
(** The host memory of address [a] of the section. *)
Definition section_host (s : MemoryRegionSection) (a : Z) : Z :=
  mr_host (sec_mr s) + offset_within_region s + (a - offset_within_address_space s).

Lemma land_page_mask a : 0 <= a < 2 ^ 64 -> Z.land a qemu_real_host_page_mask = page_down a.
Proof.
  intros Ha. unfold page_down, PAGE_SIZE. change 4096 with (2 ^ 12). rewrite <- Z.shiftr_div_pow2, <- Z.shiftl_mul_pow2 by lia.
  rewrite <- Z.ldiff_ones_r by lia. apply Z.bits_inj'. intros n Hn. rewrite Z.land_spec, Z.ldiff_spec.
  destruct (Z.lt_ge_cases n 64) as [L | L].
  - f_equal. change qemu_real_host_page_mask with (Z.ldiff (Z.ones 64) (Z.ones 12)).
    rewrite Z.ldiff_spec, Z.ones_spec_low by lia. reflexivity.
  - rewrite (Z.bits_above_log2 a n); [reflexivity | lia |]. destruct (Z.eq_dec a 0) as [-> |]; [simpl; lia|].
    apply Z.log2_lt_pow2; [lia|]. pose proof (Z.pow_le_mono_r 2 64 n ltac:(lia) ltac:(lia)). lia.
Qed.

Lemma land_page_offset a : Z.land a (PAGE_SIZE - 1) = a mod PAGE_SIZE.
Proof. change (PAGE_SIZE - 1) with (Z.ones 12). apply Z.land_ones. lia. Qed.

(** The distance to the next page. *)
Lemma page_delta a : Z.land (u32 (PAGE_SIZE - Z.land a (PAGE_SIZE - 1))) (PAGE_SIZE - 1) = page_up a - a.
Proof.
  rewrite !land_page_offset. unfold page_up, u32, PAGE_SIZE. pose proof (Z.mod_pos_bound a 4096 ltac:(lia)).
  rewrite (Z.mod_small (4096 - a mod 4096)) by lia. Z.div_mod_to_equations. lia.
Qed.

(** [section_range] yields the pages that lie in the section as a whole. *)
Lemma section_range_spec s : section_ok s ->
  section_range s = if first_page s <? last_page s
    then Some (mk_range (first_page s) (last_page s - first_page s) (section_host s (first_page s))) else None.
Proof.
  intros []. unfold section_range, first_page, last_page, section_host. cbv zeta. rewrite page_delta.
  set (a := offset_within_address_space s) in *. set (n := sec_size s) in *.
  assert (a <= page_up a < a + 4096) as Hu by (unfold page_up, PAGE_SIZE; Z.div_mod_to_equations; lia).
  assert (a + n - 4096 < page_down (a + n) <= a + n) as Hd by (unfold page_down, PAGE_SIZE; Z.div_mod_to_equations; lia).
  destruct (Z.ltb_spec n (page_up a - a)) as [L | L]; [destruct (Z.ltb_spec (page_up a) (page_down (a + n))); [lia | reflexivity]|].
  replace (a + (page_up a - a)) with (page_up a) by lia. rewrite (u64_small (page_up a)) by lia.
  rewrite land_page_mask, land_page_offset by lia.
  assert (page_down (n - (page_up a - a)) = page_down (a + n) - page_up a) as ->.
  { unfold page_down, page_up, PAGE_SIZE. set (q := (a + (4096 - 1)) / 4096).
    replace (n - (q * 4096 - a)) with (a + n + (- q) * 4096) by lia. rewrite Z.div_add by lia. lia. }
  assert (page_up a mod PAGE_SIZE = 0) as -> by (unfold page_up; apply Z.mod_mul; discriminate).
  cbn [Z.eqb negb]. rewrite orb_false_r. rewrite (u64_small (_ + (page_up a - a))) by lia.
  assert (page_up a <= page_down (a + n)) as Hle.
  { unfold page_up, page_down, PAGE_SIZE in *. Z.div_mod_to_equations. lia. }
  destruct (Z.eqb_spec (page_down (a + n) - page_up a) 0), (Z.ltb_spec (page_up a) (page_down (a + n))); try lia; reflexivity.
Qed.

(** ** The map of the guest's memory *)

Notation set_phys_mem := (kvm_set_phys_mem code dirty_log false kvm_readonly_mem_allowed global_dirty_log).

(** The map of the guest's memory with the whole pages of the section added or removed. *)
Definition section_map (s : MemoryRegionSection) (add : bool) (M : Z -> option Z) (a : Z) : option Z :=
  match section_add kvm_readonly_mem_allowed s add with
  | Some b => if decide (first_page s <= a < last_page s) then (if b then Some (section_host s a) else None) else M a
  | None => M a
  end.

(** An operation has been done: the map is updated, and no more than two slots are used up. *)
Record mem_post (s : MemoryRegionSection) (add : bool) (k k' : KVMMemoryListener) : Prop := {
  mp_ok : kml_ok k';
  mp_map : forall a, translate (slots k') a = section_map s add (translate (slots k)) a;
  mp_free : (free (slots k) <= free (slots k') + 2)%nat;
  mp_flags : forall P : Z -> Prop, P (flags_of (sec_mr s)) -> (forall j y, slots k !! j = Some y -> P (slot_flags y)) ->
    forall j y, slots k' !! j = Some y -> P (slot_flags y) }.

Lemma mem_post_refl s add k : kml_ok k -> (forall a, section_map s add (translate (slots k)) a = translate (slots k) a) ->
  mem_post s add k k.
Proof. intros K H. split; auto; lia. Qed.

Lemma section_pages s : section_ok s -> first_page s < last_page s ->
  range_ok (mk_range (first_page s) (last_page s - first_page s) (section_host s (first_page s))).
Proof.
  intros [] Hl. unfold first_page, last_page, section_host in *. set (a := offset_within_address_space s) in *.
  assert (a <= page_up a) by (unfold page_up, PAGE_SIZE; Z.div_mod_to_equations; lia).
  assert (page_down (a + sec_size s) <= a + sec_size s) by (unfold page_down, PAGE_SIZE; Z.div_mod_to_equations; lia).
  split; simpl; lia.
Qed.

(** The range that the loop has cleared is registered. *)
Lemma register_range r F add c k k' : range_ok r -> kml_ok k -> loop_post r F add c k (Some r) k' ->
  (0 < free (slots k'))%nat ->
  exists k'', register_slot code (rg_start r) (rg_size r) (rg_ram r) F k' = Ok k'' /\ kml_ok k'' /\ S (free (slots k'')) = free (slots k') /\
    (forall a, translate (slots k'') a = if decide (in_range r a) then Some (rg_ram r + (a - rg_start r)) else translate (slots k) a) /\
    (forall P : Z -> Prop, P F -> (forall j y, slots k !! j = Some y -> P (slot_flags y)) ->
      forall j y, slots k'' !! j = Some y -> P (slot_flags y)).
Proof.
  intros R K [L1 L2 L3 (_ & L4 & L5)] Hf. pose proof R as [].
  destruct (register_ok (rg_start r) (rg_size r) (rg_ram r) F k' L1 Hf) as (k'' & x & E & Hx & Hr).
  { intros id. split; simpl; lia. }
  { exact L5. }
  exists k''. split; [exact E|]. split; [apply (rep_ok' _ _ _ _ Hr)|]. split; [|split].
  - pose proof (replaced_count (fun m => memory_size m = 0) _ _ _ _ Hr) as Hn.
    rewrite decide_True in Hn by assumption. rewrite decide_False in Hn by (simpl; lia). lia.
  - intros a. rewrite (replaced_translate _ _ _ _ a Hr). unfold in_range at 1. destruct (decide (covers _ a)) as [C | C].
    + rewrite decide_True by exact C. reflexivity.
    + rewrite decide_False by (intros [? ?]; lia). rewrite decide_False by exact C. apply L2. exact C.
  - intros P HP H j y Hy. destruct (replaced_lookup _ _ _ _ _ _ Hr Hy) as [-> | ?]; [exact HP | eapply L3; eauto].
Qed.

Lemma set_phys_mem_ok s add k : kml_ok k -> section_ok s -> (2 <= free (slots k))%nat ->
  quiet (mk_range (first_page s) (last_page s - first_page s) (section_host s (first_page s))) k ->
  exists k', set_phys_mem s add k = Ok k' /\ mem_post s add k k'.
Proof.
  intros K S2 Hf Q. unfold kvm_set_phys_mem. rewrite section_range_spec by assumption.
  destruct (Z.ltb_spec (first_page s) (last_page s)) as [L | L].
  2: { exists k. split; [reflexivity|]. apply mem_post_refl; [exact K|]. intros a. unfold section_map.
       destruct (section_add _ s add); [rewrite decide_False by lia|]; reflexivity. }
  set (r := mk_range _ _ _) in *. destruct (section_add _ s add) as [b|] eqn:Eb.
  2: { exists k. split; [reflexivity|]. apply mem_post_refl; [exact K|]. intros a. unfold section_map. rewrite Eb. reflexivity. }
  pose proof (section_pages s S2 L) as R. fold r in R. pose proof (ok_disjoint _ (ok_slots _ K)) as D.
  assert (count (over_start r) (slots k) <= 1)%nat as C1.
  { apply count_le_1. intros i j x y Hi Hj [_ Hx] [_ Hy]. eapply D; eassumption. }
  assert (count (over_end r) (slots k) <= 1)%nat as C2.
  { apply count_le_1. intros i j x y Hi Hj [_ Hx] [_ Hy]. eapply D; eassumption. }
  destruct (overlap_step_ok s b r (pred (free (slots k))) R (S (length (slots k))) k K Q) as (o & k1 & E & LP); try lia.
  { pose proof (length_filter (overlaps (rg_start r) (rg_end r)) (slots k)). lia. }
  rewrite E. cbn [rbind]. destruct o as [r'|]; pose proof LP as [P1 P2 P3 P4].
  - destruct P4 as (-> & Hc & Hn). rewrite (proj2 (Z.eqb_neq (rg_size r) 0)) by (simpl; lia). cbn [orb]. destruct b; cbn [negb].
    + destruct (register_range r _ _ _ k k1 R K LP ltac:(lia)) as (k2 & E2 & K2 & F2 & T2 & G2).
      exists k2. split; [exact E2|]. split; auto; [|lia]. intros a. rewrite T2. unfold section_map. rewrite Eb.
      unfold in_range. simpl. destruct (decide (first_page s <= a < last_page s)).
      * rewrite decide_True by lia. f_equal. unfold section_host. lia.
      * rewrite decide_False by lia. reflexivity.
    + exists k1. split; [reflexivity|]. split; auto; [|lia]. intros a. unfold section_map. rewrite Eb.
      destruct (decide (first_page s <= a < last_page s)); [apply Hn | apply P2]; unfold in_range; simpl; lia.
  - destruct P4 as (-> & Hc & Hn). exists k1. split; [reflexivity|]. split; auto; [|lia]. intros a. unfold section_map. rewrite Eb.
    destruct (decide (first_page s <= a < last_page s)).
    + rewrite Hn by (unfold in_range; simpl; lia). f_equal. simpl. unfold section_host. lia.
    + apply P2. unfold in_range. simpl. lia.
Qed.

(** The kernel backs guest address [a] with host address [h]. *)
Definition kernel_maps (k : KVMMemoryListener) (a h : Z) : Prop :=
  exists i r, (i < length (slots k))%nat /\ kernel_slot code (vm_calls k) (Z.of_nat i + 2 ^ 16 * as_id k) = Some r /\
    um_gpa r <= a < um_gpa r + um_size r /\ h = um_uva r + (a - um_gpa r).

Lemma kernel_agrees k a h : kml_ok k -> translate (slots k) a = Some h <-> kernel_maps k a h.
Proof.
  intros K. rewrite translate_Some by apply (ok_disjoint _ (ok_slots _ K)). split.
  - intros (i & m & Hi & [H1 H2] & ->). exists i. pose proof (lookup_lt_Some _ _ _ Hi) as Hl.
    rewrite <- (kernel_id_eq k i m K Hl (ok_id _ (ok_slots _ K) i m Hi)), (ok_kernel _ K i m Hi).
    unfold kernel_view. rewrite (proj2 (Z.eqb_neq _ _)) by lia. eexists. split; [exact Hl|]. split; [reflexivity|]. simpl. auto.
  - intros (i & r & Hl & E & H1 & ->). destruct (lookup_lt_is_Some_2 (slots k) i Hl) as [m Hi].
    rewrite <- (kernel_id_eq k i m K Hl (ok_id _ (ok_slots _ K) i m Hi)), (ok_kernel _ K i m Hi) in E.
    unfold kernel_view in E. destruct (memory_size m =? 0); [discriminate|]. injection E as <-. exists i, m. auto.
Qed.

Lemma register_listener_ok nr id : (nr <= Z.to_nat (2 ^ 16))%nat -> 0 <= id < 2 ^ 16 ->
  kml_ok (kvm_memory_listener_register nr id) /\ free (slots (kvm_memory_listener_register nr id)) = nr /\
  forall i m, slots (kvm_memory_listener_register nr id) !! i = Some m -> m = mk_slot 0 0 0 (Z.of_nat i) 0.
Proof.
  intros Hn Hid. assert (forall i m, slots (kvm_memory_listener_register nr id) !! i = Some m -> m = mk_slot 0 0 0 (Z.of_nat i) 0) as L.
  { intros i m. cbn [slots kvm_memory_listener_register]. rewrite list_lookup_fmap, fmap_Some. intros (j & [-> _]%lookup_seq & ->). reflexivity. }
  split; [|split; [|exact L]].
  - split; [split | | exact Hid |].
    + intros i m ->%L. split; simpl; lia.
    + intros i j m n a ->%L _ [H1 H2] _. simpl in *. lia.
    + intros i m ->%L. reflexivity.
    + simpl. rewrite length_fmap, length_seq. exact Hn.
    + intros i m ->%L. reflexivity.
  - cbn [slots kvm_memory_listener_register]. clear. generalize 0%nat as j. induction nr as [|nr IH]; intros j; [reflexivity|].
    cbn [seq]. rewrite fmap_cons, filter_cons_True by reflexivity. cbn [length]. f_equal. apply IH.
Qed.

(** Calls of [kvm_region_add] and [kvm_region_del], in order. *)
Fixpoint update_memory (ops : list (MemoryRegionSection * bool)) (k : KVMMemoryListener) : res KVMMemoryListener :=
  match ops with
  | [] => Ok k
  | (s, add) :: ops => let? k := set_phys_mem s add k in update_memory ops k
  end.

Definition memory_map (ops : list (MemoryRegionSection * bool)) (M : Z -> option Z) : Z -> option Z :=
  foldl (fun M op => section_map op.1 op.2 M) M ops.

Definition unlogged (f : Z) : Prop := bits f KVM_MEM_LOG_DIRTY_PAGES = false.

Lemma section_map_ext s add M M' : (forall a, M a = M' a) -> forall a, section_map s add M a = section_map s add M' a.
Proof. intros E a. unfold section_map. destruct (section_add _ s add) as [[]|]; try case_decide; auto. Qed.

Lemma memory_map_ext ops : forall M M', (forall a, M a = M' a) -> forall a, memory_map ops M a = memory_map ops M' a.
Proof. induction ops as [|[s add] ops IH]; intros M M' E a; [apply E|]. apply IH. apply section_map_ext, E. Qed.

Lemma update_memory_ok ops : Forall (fun op => section_ok op.1 /\ unlogged (flags_of (sec_mr op.1))) ops -> forall k, kml_ok k ->
  (forall j y, slots k !! j = Some y -> unlogged (slot_flags y)) -> (2 * length ops <= free (slots k))%nat ->
  exists k', update_memory ops k = Ok k' /\ kml_ok k' /\ forall a, translate (slots k') a = memory_map ops (translate (slots k)) a.
Proof.
  induction 1 as [|[s add] ops [Hs Hu] _ IH]; intros k K U Hf; [exists k; auto|]. simpl in Hf, Hs, Hu.
  destruct (set_phys_mem_ok s add k K Hs) as (k1 & E & [M1 M2 M3 M4]); [lia | intros j y Hy _; eapply U; eassumption |].
  destruct (IH k1 M1 (M4 unlogged Hu U)) as (k' & E' & K' & T'); [lia|].
  exists k'. cbn [update_memory]. rewrite E. split; [exact E'|]. split; [exact K'|]. intros a. rewrite T'. apply (memory_map_ext ops), M2.
Qed.

(** C9: from the registration of the listener on, any sequence of added and removed sections,
    none of them with dirty logging, at most half as many as there are slots, succeeds on a kernel
    that accepts every call (and is not one of the old kernels with broken_set_mem_region); it
    then backs a guest address with host memory exactly as the last section over it says:
    slots are split, joined and given up such that the rest of the map is unchanged. *)
Theorem memory_refines nr id ops :
  (nr <= Z.to_nat (2 ^ 16))%nat -> 0 <= id < 2 ^ 16 -> (2 * length ops <= nr)%nat ->
  Forall (fun op => section_ok op.1 /\ unlogged (flags_of (sec_mr op.1))) ops ->
  exists k, update_memory ops (kvm_memory_listener_register nr id) = Ok k /\
    forall a h, kernel_maps k a h <-> memory_map ops (fun _ => None) a = Some h.
Proof.
  intros Hn Hid Hl F. destruct (register_listener_ok nr id Hn Hid) as (K & Hf & L).
  destruct (update_memory_ok ops F _ K) as (k & E & K' & T); [intros j y ->%L; reflexivity | rewrite Hf; exact Hl |].
  exists k. split; [exact E|]. intros a h. rewrite <- kernel_agrees, T by assumption.
  rewrite (memory_map_ext ops _ (fun _ => None)); [reflexivity|].
  intros b. apply translate_None. intros i m ->%L [H1 H2]. simpl in *. lia.
Qed.

(** Two free slots are enough for one call, whatever is mapped: it succeeds, keeps the
    slots disjoint and known to the kernel, and changes the map on the whole pages of the
    section only. *)
Theorem set_phys_mem_maps s add k : kml_ok k -> section_ok s -> (2 <= free (slots k))%nat ->
  quiet (mk_range (first_page s) (last_page s - first_page s) (section_host s (first_page s))) k ->
  exists k', set_phys_mem s add k = Ok k' /\ kml_ok k' /\
    forall a, translate (slots k') a = section_map s add (translate (slots k)) a.
Proof. intros K S2 Hf Q. destruct (set_phys_mem_ok s add k K S2 Hf Q) as (k' & E & []). eauto. Qed.
End accepting.

(** ** Host addresses *)

(** No host memory is used twice. *)
Definition host_disjoint (l : list KVMSlot) : Prop :=
  forall i j m n h, l !! i = Some m -> l !! j = Some n ->
    ram m <= h < ram m + memory_size m -> ram n <= h < ram n + memory_size n -> i = j.

(** C39: a guest address that is found for a host address is backed by it; and the guest address
    of mapped memory is found again from its host address, if no host memory is used twice. *)
Theorem addr_from_host_inverse l : slots_ok l ->
  (forall h a, kvm_physical_memory_addr_from_host l h = Some a -> translate l a = Some h) /\
  (host_disjoint l -> forall a h, translate l a = Some h -> kvm_physical_memory_addr_from_host l h = Some a).
Proof.
  intros [W D _]. unfold kvm_physical_memory_addr_from_host. split.
  - intros h a ([i m] & (Hi & [H1 H2] & _)%list_find_Some & ->)%fmap_Some. simpl. destruct (W i m Hi).
    rewrite u64_small in H2 by lia. rewrite u64_small by lia.
    rewrite (translate_covers l i m _ D Hi) by (split; lia). f_equal. lia.
  - intros HD a h (i & m & Hi & [C1 C2] & ->)%translate_Some; [|exact D]. pose proof (W i m Hi) as [].
    destruct (list_find _ l) as [[j n]|] eqn:E.
    + apply list_find_Some in E as (Hj & [H1 H2] & _). pose proof (W j n Hj) as []. rewrite u64_small in H2 by lia.
      assert (j = i) as -> by (eapply HD; [exact Hj | exact Hi | split; eassumption | lia]).
      rewrite Hj in Hi. injection Hi as ->. simpl. f_equal. rewrite u64_small; lia.
    + apply list_find_None in E. rewrite Forall_lookup in E. destruct (E i m Hi). rewrite u64_small by lia. lia.
Qed.

(** ** Dirty pages *)

Lemma word_bits_spec i w b : b ∈ word_bits i w <->
  exists j, (j < 64)%nat /\ Z.testbit w (Z.of_nat j) = true /\ b = Z.of_nat i * 64 + Z.of_nat j.
Proof.
  unfold word_bits. rewrite list_elem_of_fmap. setoid_rewrite list_elem_of_filter. setoid_rewrite elem_of_seq.
  split; intros (j & H); exists j; intuition lia.
Qed.

Lemma pages_of_one q : 0 <= q -> (q + 2) * PAGE_SIZE < 2 ^ 64 -> pages_of (q * PAGE_SIZE) PAGE_SIZE = [q].
Proof.
  intros Hq Hm. unfold pages_of. cbv zeta. rewrite land_page_mask by (unfold PAGE_SIZE in *; lia).
  rewrite !Z.shiftr_div_pow2 by (unfold TARGET_PAGE_BITS; lia). change (2 ^ TARGET_PAGE_BITS) with PAGE_SIZE.
  unfold page_down. rewrite !Z.div_mul by discriminate.
  replace ((q * PAGE_SIZE + PAGE_SIZE + (PAGE_SIZE - 1)) / PAGE_SIZE) with (q + 1)
    by (unfold PAGE_SIZE; Z.div_mod_to_equations; lia).
  replace (q + 1 - q) with 1 by lia. simpl. f_equal. lia.
Qed.

(** Both ways of merging a word of the bitmap set the same pages. *)
Lemma word_pages_spec q i w p : 0 <= q -> (q + (Z.of_nat i + 1) * 64 + 2) * PAGE_SIZE < 2 ^ 64 ->
  p ∈ word_pages (q * PAGE_SIZE) i w <->
  exists j, (j < 64)%nat /\ Z.testbit w (Z.of_nat j) = true /\ p = q + Z.of_nat i * 64 + Z.of_nat j.
Proof.
  intros Hq Hm. unfold word_pages. cbv zeta. rewrite Z.shiftr_div_pow2 by (unfold TARGET_PAGE_BITS; lia).
  change (2 ^ TARGET_PAGE_BITS) with PAGE_SIZE. rewrite Z.div_mul by discriminate.
  destruct (Z.eqb_spec (q / 64 * 64 * PAGE_SIZE) (q * PAGE_SIZE)) as [E | E].
  - assert (q / 64 * 64 = q) as -> by (unfold PAGE_SIZE in E; lia).
    rewrite list_elem_of_fmap. setoid_rewrite word_bits_spec. split.
    + intros (b & -> & j & Hj & Ht & ->). exists j. intuition lia.
    + intros (j & Hj & Ht & ->). eexists. split; [|eauto]. lia.
  - rewrite list_elem_of_bind. setoid_rewrite word_bits_spec. split.
    + intros (b & Hb & j & Hj & Ht & ->). exists j. replace (q * PAGE_SIZE + _) with ((q + (Z.of_nat i * 64 + Z.of_nat j)) * PAGE_SIZE) in Hb by lia.
      rewrite pages_of_one, list_elem_of_singleton in Hb by (unfold PAGE_SIZE in *; lia). intuition lia.
    + intros (j & Hj & Ht & ->). eexists. split; [|eauto].
      replace (q * PAGE_SIZE + _) with ((q + (Z.of_nat i * 64 + Z.of_nat j)) * PAGE_SIZE) by lia.
      rewrite pages_of_one by (unfold PAGE_SIZE in *; lia). apply list_elem_of_singleton. lia.
Qed.

Lemma lebitmap_loop_spec bitmap start len : forall i d, (i + len <= length bitmap)%nat ->
  exists d', lebitmap_loop bitmap start i len d = Ok d' /\
    forall p, p ∈ d' <-> p ∈ d \/ exists n w, (i <= n < i + len)%nat /\ bitmap !! n = Some w /\ p ∈ word_pages start n w.
Proof.
  induction len as [|len IH]; intros i d Hl; cbn [lebitmap_loop].
  - exists d. split; [reflexivity|]. intros p. split; [auto|]. intros [? | (n & w & ? & _)]; [assumption | lia].
  - destruct (lookup_lt_is_Some_2 bitmap i) as [w Hw]; [lia|]. rewrite Hw. cbn [of_option rbind].
    destruct (IH (S i) (list_to_set (word_pages start i w) ∪ d)) as (d' & E & H); [lia|].
    exists d'. split; [exact E|]. intros p. rewrite H, elem_of_union, elem_of_list_to_set. split.
    + intros [[? | ?] | (n & w' & ? & ?)]; [right; exists i, w; intuition lia | auto | right; exists n, w'; intuition lia].
    + intros [? | (n & w' & Hn & Hw' & Hp)]; [auto|]. destruct (decide (n = i)) as [-> |].
      * rewrite Hw in Hw'. injection Hw' as ->. auto.
      * right. exists n, w'. intuition lia.
Qed.

(** The section is one slot: the only one that overlaps it. *)
Lemma lookup_exact l i m : slots_ok l -> l !! i = Some m -> 0 < memory_size m ->
  kvm_lookup_overlapping_slot l (start_addr m) (slot_end m) = Some (i, m).
Proof.
  intros [W D _] Hi Hm. pose proof (W i m Hi) as Wm. pose proof (slot_end_wf m Wm) as Em.
  destruct (kvm_lookup_overlapping_slot _ _ _) as [[j n]|] eqn:E.
  - apply overlapping_Some in E as (Hj & Ho & _). apply overlaps_covers in Ho as (a & Hn & Ha); [|eauto|lia].
    assert (j = i) as -> by (eapply D; [exact Hj | exact Hi | exact Hn | split; lia]).
    rewrite Hj in Hi. injection Hi as ->. reflexivity.
  - destruct (overlapping_None _ _ _ E i m Hi). split; lia.
Qed.

(** The section is slot [m], in whole pages; [q] is its first page in the memory of QEMU. *)
Record whole_slot (s : MemoryRegionSection) (m : KVMSlot) (q : Z) : Prop := {
  ws_start : start_addr m = offset_within_address_space s;
  ws_size : memory_size m = sec_size s; ws_pos : 0 < sec_size s;
  ws_page : offset_within_region s + mr_ram_addr (sec_mr s) = q * PAGE_SIZE;
  ws_low : 0 <= q; ws_high : q * PAGE_SIZE + sec_size s + 2 ^ 20 < 2 ^ 64 }.

(** The log of a slot is merged in full: after a synchronisation of its section the pages
    known to be dirty are those known before and those whose bit is set in the log, whether
    QEMU's bitmap is written word by word or page by page; the slots are left alone. *)
Theorem sync_exact dirty_log s k i m q ret words : slots_ok (slots k) -> slots k !! i = Some m -> whole_slot s m q ->
  dirty_log (kernel_id k m) = (ret, words) -> ret <> -1 ->
  exists k', kvm_physical_sync_dirty_bitmap dirty_log s k = Ok (0, k') /\ slots k' = slots k /\
    forall p, p ∈ dirty k' <-> p ∈ dirty k \/
      exists n j, (n < bitmap_words m)%nat /\ (j < 64)%nat /\ Z.testbit (words n) (Z.of_nat j) = true /\ p = q + Z.of_nat n * 64 + Z.of_nat j.
Proof.
  intros S2 Hi [E1 E2 Hp Eq Hq Hh] Ed Hr. pose proof (ok_wf _ S2 _ _ Hi) as W. pose proof (slot_end_wf m W) as Em.
  unfold kvm_physical_sync_dirty_bitmap. cbv zeta. rewrite <- E1, <- E2. fold (slot_end m).
  pose proof (lookup_lt_Some _ _ _ Hi) as Hl. destruct (length (slots k)) as [|len] eqn:El; [lia|]. cbn [sync_loop].
  rewrite (proj2 (Z.ltb_lt _ _)) by lia. cbn [negb]. rewrite (lookup_exact _ i m S2 Hi) by lia. rewrite Ed.
  rewrite (proj2 (Z.eqb_neq _ _) Hr). unfold fill_bitmap, kvm_get_dirty_pages_log_range, cpu_physical_memory_set_dirty_lebitmap.
  cbv zeta. rewrite Eq, <- E2. rewrite u64_small by (unfold PAGE_SIZE in *; lia).
  assert (bitmap_words m = Z.to_nat ((memory_size m / PAGE_SIZE + 63) / 64)) as Eb.
  { unfold bitmap_words. rewrite Z.shiftr_div_pow2 by (unfold TARGET_PAGE_BITS; lia). reflexivity. }
  rewrite <- Eb. destruct (lebitmap_loop_spec (words <$> seq 0 (bitmap_words m)) (q * PAGE_SIZE) (bitmap_words m) 0 (dirty k)) as (d & -> & H).
  { rewrite length_fmap, length_seq. lia. }
  cbn [rbind slots]. rewrite Z.ltb_irrefl. cbn [negb]. eexists; split; [reflexivity|]. split; [reflexivity|].
  intros p. cbn [dirty]. rewrite H.
  assert (forall n, (n < bitmap_words m)%nat -> (q + (Z.of_nat n + 1) * 64 + 2) * PAGE_SIZE < 2 ^ 64) as B.
  { intros n Hn. rewrite Eb in Hn. unfold PAGE_SIZE in *. Z.div_mod_to_equations. lia. }
  split; (intros [? | H']; [auto | right]).
  - destruct H' as (n & w & Hn & Hw & Hpg). rewrite list_lookup_fmap, fmap_Some in Hw. destruct Hw as (n' & [-> _]%lookup_seq & ->).
    apply word_pages_spec in Hpg as (j & Hj & Ht & ->); [|lia | apply B; lia]. exists n, j. simpl in *. intuition lia.
  - destruct H' as (n & j & Hn & Hj & Ht & ->). exists n, (words n). split; [lia|]. split.
    + rewrite list_lookup_fmap, (proj2 (lookup_seq 0 (bitmap_words m) n n)) by lia. reflexivity.
    + apply word_pages_spec; [lia | apply B; lia |]. eauto.
Qed.

(** ** Examples *)

Module Demo.
Definition accept (calls : list user_region) : Z := 0.
(** Every page of a slot with an even id is clean; the first page of the others is dirty. *)
Definition log (id : Z) : Z * (nat -> Z) := (0, fun _ => id mod 2).
Definition ram_mr : MemoryRegion := mk_mr true false false false 0 0x7f0000000000 0.
Definition rom_mr : MemoryRegion := mk_mr false true false true 0 0x7f8000000000 0x10000000.
(** Four pages of memory, the ROM over the second of them, and a hole with a cut page. *)
Definition ram_section : MemoryRegionSection := mk_section ram_mr 0 0 0x4000.
Definition rom_section : MemoryRegionSection := mk_section rom_mr 0 0x1000 0x1000.
Definition hole_section : MemoryRegionSection := mk_section ram_mr 0x2800 0x2800 0x1800.
Definition ops : list (MemoryRegionSection * bool) := [(ram_section, true); (rom_section, true); (hole_section, false)].
Definition slot_list (k : KVMMemoryListener) : list (Z * Z * Z * Z) :=
  (fun m => (start_addr m, memory_size m, ram m, slot_flags m)) <$> filter (fun m => memory_size m <> 0) (slots k).

Definition after_ram : KVMMemoryListener :=
  mk_kml [mk_slot 0 0x4000 0x7f0000000000 0 0; mk_slot 0 0 0 1 0; mk_slot 0 0 0 2 0] 0
    [mk_region 0 0 0 0x4000 0x7f0000000000] ∅.
End Demo.

(** The parts of the memory beside the ROM are registered with its flags: they are read-only
    for the guest, though the memory is not. *)
Theorem split_takes_flags :
  (let? k := update_memory Demo.accept Demo.log true false [(Demo.ram_section, true); (Demo.rom_section, true)]
               (kvm_memory_listener_register 8 0) in Ok (Demo.slot_list k)) =
  Ok [(0, 0x1000, 0x7f0000000000, KVM_MEM_READONLY); (0x2000, 0x2000, 0x7f0000002000, KVM_MEM_READONLY);
      (0x1000, 0x1000, 0x7f8000000000, KVM_MEM_READONLY)].
Proof. vm_compute. reflexivity. Qed.

(** A section of two slots: the log of the second slot, whose first page is dirty, is merged
    at the start of the section; the first page is taken to be dirty, the second is lost. *)
Theorem sync_two_slots :
  (let? (r, k) := kvm_physical_sync_dirty_bitmap Demo.log (mk_section Demo.ram_mr 0 0 0x2000)
     (mk_kml [mk_slot 0 0x1000 0x7f0000000000 0 1; mk_slot 0x1000 0x1000 0x7f0000001000 1 1] 0 [] ∅) in
   Ok (r, elements (dirty k))) = Ok (0, [0]).
Proof. vm_compute. reflexivity. Qed.

Lemma memory_refines_witness :
  exists k, update_memory Demo.accept Demo.log true false Demo.ops (kvm_memory_listener_register 8 0) = Ok k /\
    forall a h, kernel_maps Demo.accept k a h <-> memory_map true Demo.ops (fun _ => None) a = Some h.
Proof.
  apply (memory_refines Demo.accept Demo.log true false (fun _ => eq_refl) 8 0 Demo.ops); [apply Nat.leb_le; vm_compute; reflexivity | lia | vm_compute; lia |].
  repeat constructor; simpl; lia.
Defined.

Lemma after_ram_ok : kml_ok Demo.accept Demo.after_ram.
Proof.
  assert (forall i m, slots Demo.after_ram !! i = Some m -> i = 0%nat \/ memory_size m = 0) as Z.
  { intros [|[|[|]]] m; simpl; [auto | intros [= <-]; auto | intros [= <-]; auto | discriminate]. }
  split; [split | apply Nat.leb_le; vm_compute; reflexivity | simpl; lia |].
  - intros [|[|[|]]] m; simpl; [intros [= <-] .. | discriminate]; split; simpl; lia.
  - intros i j m n a Hi Hj [C1 C2] [D1 D2]. destruct (Z i m Hi), (Z j n Hj); lia.
  - intros [|[|[|]]] m; simpl; [intros [= <-] .. | discriminate]; reflexivity.
  - intros [|[|[|]]] m; simpl; [intros [= <-] .. | discriminate]; reflexivity.
Qed.

Lemma set_phys_mem_maps_witness : exists k',
  kvm_set_phys_mem Demo.accept Demo.log false true false Demo.hole_section false Demo.after_ram = Ok k' /\ kml_ok Demo.accept k' /\
  forall a, translate (slots k') a = section_map true Demo.hole_section false (translate (slots Demo.after_ram)) a.
Proof.
  apply (set_phys_mem_maps Demo.accept Demo.log true false (fun _ => eq_refl)); [exact after_ram_ok | split; simpl; lia | vm_compute; lia |].
  intros [|[|[|]]] m; simpl; [intros [= <-] .. | discriminate]; reflexivity.
Defined.

Lemma addr_from_host_inverse_witness :
  slots_ok (slots Demo.after_ram) /\ (forall h a, kvm_physical_memory_addr_from_host (slots Demo.after_ram) h = Some a -> translate (slots Demo.after_ram) a = Some h).
Proof. split; [apply after_ram_ok|]. apply (addr_from_host_inverse (slots Demo.after_ram)). apply after_ram_ok. Defined.

Lemma sync_exact_witness : exists k', kvm_physical_sync_dirty_bitmap (fun _ => (0, fun _ => 5)) Demo.ram_section Demo.after_ram = Ok (0, k') /\
  slots k' = slots Demo.after_ram /\ forall p, p ∈ dirty k' <-> p ∈ dirty Demo.after_ram \/
    exists n j, (n < 1)%nat /\ (j < 64)%nat /\ Z.testbit 5 (Z.of_nat j) = true /\ p = 0 + Z.of_nat n * 64 + Z.of_nat j.
Proof.
  apply (sync_exact (fun _ => (0, fun _ => 5)) Demo.ram_section Demo.after_ram 0 (mk_slot 0 0x4000 0x7f0000000000 0 0) 0 0 (fun _ => 5));
    [apply after_ram_ok | reflexivity | split; simpl; lia | reflexivity | lia].
Defined.
