(* ===== verification/KvmIrq.v ===== *)
(** * Interrupt routing (kvm-all.c, hw/i386/kvm/ioapic.c)

    With the interrupt controllers in the kernel, an interrupt is a number (GSI) that a table
    routes to a pin of a controller or to a message (MSI).  QEMU keeps the table and hands it to
    the kernel as a whole (KVM_SET_GSI_ROUTING); a bitmap tells which numbers are in use.
    Devices take a route for each of their vectors; messages that are sent without one get a
    route from a hash table, which is emptied when the table is full.

    The state is the part of struct KVMState for this; [entries] are the [nr] entries of
    [irq_routes] in use.  [committed] is the table the kernel has, and [lines] the interrupts
    raised with KVM_IRQ_LINE, newest first.  The results of the ioctls are parameters. *)

From Stdlib Require Import ZArith Lia Bool.
From stdpp Require Import base list gmap.
From S2P Require Import Prelude.

Open Scope Z_scope.
Open Scope rz.

(** ** Data *)

Definition KVM_MSI_HASHTAB_SIZE : nat := 256.
Definition KVM_IRQCHIP_PIC_MASTER : Z := 0.
Definition KVM_IRQCHIP_PIC_SLAVE : Z := 1.
Definition KVM_IRQCHIP_IOAPIC : Z := 2.

Record MSIMessage := mk_msg { address : Z; data : Z }.

(** The union of an entry, with the type it goes with: KVM_IRQ_ROUTING_IRQCHIP, _MSI and
    _S390_ADAPTER. *)
Inductive target :=
  | To_irqchip (irqchip pin : Z)
  | To_msi (address_lo address_hi msi_data : Z)
  | To_adapter (summary_addr ind_addr summary_offset ind_offset adapter_id : Z).

Record kvm_irq_routing_entry := mk_entry { gsi : Z; u : target }.

#[export] Instance target_eq_dec : EqDecision target.
Proof. solve_decision. Defined.
#[export] Instance entry_eq_dec : EqDecision kvm_irq_routing_entry.
Proof. solve_decision. Defined.

Record KVMState := mk_state {
  entries : list kvm_irq_routing_entry; nr_allocated_irq_routes : Z; used_gsi_bitmap : list Z; gsi_count : Z;
  msi_hashtab : list (list kvm_irq_routing_entry); gsimap : gmap Z Z;
  committed : list kvm_irq_routing_entry; lines : list (Z * Z) }.

Definition set_entries (l : list kvm_irq_routing_entry) (s : KVMState) : KVMState :=
  mk_state l (nr_allocated_irq_routes s) (used_gsi_bitmap s) (gsi_count s) (msi_hashtab s) (gsimap s) (committed s) (lines s).
Definition set_allocated (n : Z) (s : KVMState) : KVMState :=
  mk_state (entries s) n (used_gsi_bitmap s) (gsi_count s) (msi_hashtab s) (gsimap s) (committed s) (lines s).
Definition set_bitmap (b : list Z) (s : KVMState) : KVMState :=
  mk_state (entries s) (nr_allocated_irq_routes s) b (gsi_count s) (msi_hashtab s) (gsimap s) (committed s) (lines s).
Definition set_hashtab (h : list (list kvm_irq_routing_entry)) (s : KVMState) : KVMState :=
  mk_state (entries s) (nr_allocated_irq_routes s) (used_gsi_bitmap s) (gsi_count s) h (gsimap s) (committed s) (lines s).
Definition set_committed (l : list kvm_irq_routing_entry) (s : KVMState) : KVMState :=
  mk_state (entries s) (nr_allocated_irq_routes s) (used_gsi_bitmap s) (gsi_count s) (msi_hashtab s) (gsimap s) l (lines s).
Definition set_lines (l : list (Z * Z)) (s : KVMState) : KVMState :=
  mk_state (entries s) (nr_allocated_irq_routes s) (used_gsi_bitmap s) (gsi_count s) (msi_hashtab s) (gsimap s) (committed s) l.

(** ** The bitmap *)

Definition set_gsi (g : Z) (s : KVMState) : res KVMState :=
  let? w := of_option OutOfBounds (used_gsi_bitmap s !! Z.to_nat (g / 32)) in
  Ok (set_bitmap (<[Z.to_nat (g / 32) := Z.lor w (Z.shiftl 1 (g mod 32))]> (used_gsi_bitmap s)) s).

Definition clear_gsi (g : Z) (s : KVMState) : res KVMState :=
  let? w := of_option OutOfBounds (used_gsi_bitmap s !! Z.to_nat (g / 32)) in
  Ok (set_bitmap (<[Z.to_nat (g / 32) := Z.land w (u32 (Z.lnot (Z.shiftl 1 (g mod 32))))]> (used_gsi_bitmap s)) s).

(** [ALIGN(n, 32)] *)
Definition align32 (n : Z) : Z := Z.land (n + 31) (Z.lnot 31).

(** [for (i = gsi_count; i < gsi_bits; i++)] *)
Fixpoint mark_above (n : nat) (i : Z) (s : KVMState) : res KVMState :=
  match n with
  | O => Ok s
  | S n => let? s := set_gsi i s in mark_above n (i + 1) s
  end.

(** [count] is the answer to KVM_CAP_IRQ_ROUTING. *)
Definition kvm_init_irq_routing (count : Z) : res KVMState :=
  let s := mk_state [] 0 [] 0 (replicate KVM_MSI_HASHTAB_SIZE []) ∅ [] [] in
  let gsi_count := count - 1 in
  if 0 <? gsi_count then
    let gsi_bits := align32 gsi_count in
    mark_above (Z.to_nat (gsi_bits - gsi_count)) gsi_count
      (mk_state [] 0 (replicate (Z.to_nat (gsi_bits / 32)) 0) gsi_count (replicate KVM_MSI_HASHTAB_SIZE []) ∅ [] [])
  else Ok s.

Definition ctz32 (v : Z) : Z :=
  match list_find (fun n => Z.testbit v (Z.of_nat n) = true) (seq 0 32) with Some (_, n) => Z.of_nat n | None => 32 end.

(** The search for the lowest number that is not in use, in the [n] words from word [i] on. *)
Fixpoint free_gsi (bitmap : list Z) (n i : nat) : res Z :=
  match n with
  | O => Ok (- ENOSPC)
  | S n =>
      let? w := of_option OutOfBounds (bitmap !! i) in
      let zeroes := ctz32 (u32 (Z.lnot w)) in
      if zeroes =? 32 then free_gsi bitmap n (S i) else Ok (zeroes + Z.of_nat i * 32)
  end.

(** ** The table *)

Section routing.
(** Results of KVM_SET_GSI_ROUTING, of KVM_IRQ_LINE with the status it returns, and of
    KVM_SIGNAL_MSI and KVM_IRQFD. *)
Variables (routing_ret : list kvm_irq_routing_entry -> Z) (line_ret : Z -> Z -> Z * Z) (signal_msi : Z -> Z -> Z -> Z) (irqfd_ret : Z -> Z -> Z -> Z -> Z).
(** Whether irq_set_ioctl is KVM_IRQ_LINE_STATUS, and the properties of the machine. *)
Variables (line_status kvm_direct_msi_allowed kvm_gsi_direct_mapping kvm_gsi_routing_enabled kvm_irqchip_in_kernel kvm_irqfds_enabled kvm_async_interrupts_enabled : bool).

Definition kvm_set_irq (irq level : Z) (s : KVMState) : res (Z * KVMState) :=
  if negb kvm_async_interrupts_enabled then Err Aborted else
  let '(ret, status) := line_ret irq level in
  if ret <? 0 then Err Aborted else Ok (if line_status then status else 1, set_lines ((irq, level) :: lines s) s).

Definition kvm_irqchip_commit_routes (s : KVMState) : res KVMState :=
  if routing_ret (entries s) =? 0 then Ok (set_committed (entries s) s) else Err Aborted.

Definition kvm_add_routing_entry (e : kvm_irq_routing_entry) (s : KVMState) : res KVMState :=
  let nr := Z.of_nat (length (entries s)) in
  let s := if nr =? nr_allocated_irq_routes s
           then let n := nr_allocated_irq_routes s * 2 in set_allocated (if n <? 64 then 64 else n) s else s in
  let s := set_entries (entries s ++ [e]) s in
  set_gsi (gsi e) s.

(** The loop over the entries; [pre] are those before. *)
Fixpoint update_loop (new : kvm_irq_routing_entry) (pre l : list kvm_irq_routing_entry) (s : KVMState) : res (Z * KVMState) :=
  match l with
  | [] => Ok (- ESRCH, s)
  | e :: l =>
      if negb (gsi e =? gsi new) then update_loop new (pre ++ [e]) l s
      else if bool_decide (e = new) then Ok (0, s)
      else let? s := kvm_irqchip_commit_routes (set_entries (pre ++ new :: l) s) in Ok (0, s)
  end.

Definition kvm_update_routing_entry (new : kvm_irq_routing_entry) (s : KVMState) : res (Z * KVMState) :=
  update_loop new [] (entries s) s.

Definition kvm_irqchip_add_irq_route (irq irqchip pin : Z) (s : KVMState) : res KVMState :=
  if pin <? gsi_count s then kvm_add_routing_entry (mk_entry irq (To_irqchip irqchip pin)) s else Err Aborted.

(** The last entry takes the place of entry [i]. *)
Definition swap_remove (i : nat) (l : list kvm_irq_routing_entry) : list kvm_irq_routing_entry :=
  let n := pred (length l) in
  match l !! n with Some e => take n (<[i := e]> l) | None => l end.

(** [for (i = 0; i < nr; i++)], where [nr] may shrink; [n] bounds what is left. *)
Fixpoint release_loop (virq : Z) (n i : nat) (l : list kvm_irq_routing_entry) : list kvm_irq_routing_entry :=
  match n with
  | O => l
  | S n =>
      match l !! i with
      | None => l
      | Some e => release_loop virq n (S i) (if gsi e =? virq then swap_remove i l else l)
      end
  end.

Definition kvm_irqchip_release_virq (virq : Z) (s : KVMState) : res KVMState :=
  if kvm_gsi_direct_mapping then Ok s
  else clear_gsi virq (set_entries (release_loop virq (length (entries s)) 0 (entries s)) s).

Definition kvm_hash_msi (d : Z) : nat := Z.to_nat (Z.land d 0xff).

(** The routes [b] of bucket [h] go, first to last. *)
Fixpoint flush_bucket (h : nat) (b : list kvm_irq_routing_entry) (s : KVMState) : res KVMState :=
  match b with
  | [] => Ok s
  | r :: b =>
      let? s := kvm_irqchip_release_virq (gsi r) s in
      flush_bucket h b (set_hashtab (<[h := b]> (msi_hashtab s)) s)
  end.

(** The [n] buckets from [h] on. *)
Fixpoint flush_from (h n : nat) (s : KVMState) : res KVMState :=
  match n with
  | O => Ok s
  | S n =>
      let? b := of_option OutOfBounds (msi_hashtab s !! h) in
      let? s := flush_bucket h b s in flush_from (S h) n s
  end.

Definition kvm_flush_dynamic_msi_routes : KVMState -> res KVMState := flush_from 0 KVM_MSI_HASHTAB_SIZE.

Definition kvm_irqchip_get_virq (s : KVMState) : res (Z * KVMState) :=
  let? s := if negb kvm_direct_msi_allowed && (Z.of_nat (length (entries s)) =? gsi_count s)
            then kvm_flush_dynamic_msi_routes s else Ok s in
  let? virq := free_gsi (used_gsi_bitmap s) (Z.to_nat (align32 (gsi_count s) / 32)) 0 in Ok (virq, s).

(** ** Messages *)

(** The entry of a message; the guest and the host have the same byte order. *)
Definition msi_entry (virq : Z) (msg : MSIMessage) : kvm_irq_routing_entry :=
  mk_entry virq (To_msi (u32 (address msg)) (u32 (Z.shiftr (address msg) 32)) (data msg)).

Definition is_msg (msg : MSIMessage) (e : kvm_irq_routing_entry) : bool :=
  match u e with
  | To_msi lo hi d => (lo =? u32 (address msg)) && (hi =? Z.shiftr (address msg) 32) && (d =? data msg)
  | _ => false
  end.

Definition kvm_lookup_msi_route (msg : MSIMessage) (s : KVMState) : res (option kvm_irq_routing_entry) :=
  let? b := of_option OutOfBounds (msi_hashtab s !! kvm_hash_msi (data msg)) in
  Ok (snd <$> list_find (fun e => is_msg msg e = true) b).

Definition kvm_irqchip_send_msi (msg : MSIMessage) (s : KVMState) : res (Z * KVMState) :=
  if kvm_direct_msi_allowed then Ok (signal_msi (u32 (address msg)) (u32 (Z.shiftr (address msg) 32)) (data msg), s)
  else
    let? o := kvm_lookup_msi_route msg s in
    match o with
    | Some route => match u route with To_msi _ _ _ => kvm_set_irq (gsi route) 1 s | _ => Err Aborted end
    | None =>
        let? (virq, s) := kvm_irqchip_get_virq s in
        if virq <? 0 then Ok (virq, s)
        else
          let route := msi_entry virq msg in
          let? s := kvm_add_routing_entry route s in
          let? s := kvm_irqchip_commit_routes s in
          let? b := of_option OutOfBounds (msi_hashtab s !! kvm_hash_msi (data msg)) in
          kvm_set_irq (gsi route) 1 (set_hashtab (<[kvm_hash_msi (data msg) := b ++ [route]]> (msi_hashtab s)) s)
    end.

(** No fix-up is needed on x86, and there is no direct mapping. *)
Definition kvm_arch_fixup_msi_route (e : kvm_irq_routing_entry) : Z := 0.
Definition kvm_arch_msi_data_to_gsi (d : Z) : res Z := Err Aborted.

Definition kvm_irqchip_add_msi_route (msg : MSIMessage) (s : KVMState) : res (Z * KVMState) :=
  if kvm_gsi_direct_mapping then let? g := kvm_arch_msi_data_to_gsi (data msg) in Ok (g, s)
  else if negb kvm_gsi_routing_enabled then Ok (- ENOSYS, s)
  else
    let? (virq, s) := kvm_irqchip_get_virq s in
    if virq <? 0 then Ok (virq, s)
    else
      let kroute := msi_entry virq msg in
      if negb (kvm_arch_fixup_msi_route kroute =? 0)
      then let? s := kvm_irqchip_release_virq virq s in Ok (- EINVAL, s)
      else
        let? s := kvm_add_routing_entry kroute s in
        let? s := kvm_irqchip_commit_routes s in Ok (virq, s).

Definition kvm_irqchip_update_msi_route (virq : Z) (msg : MSIMessage) (s : KVMState) : res (Z * KVMState) :=
  if kvm_gsi_direct_mapping then Ok (0, s)
  else if negb kvm_irqchip_in_kernel then Ok (- ENOSYS, s)
  else
    let kroute := msi_entry virq msg in
    if negb (kvm_arch_fixup_msi_route kroute =? 0) then Ok (- EINVAL, s) else kvm_update_routing_entry kroute s.

Definition kvm_irqchip_add_adapter_route (summary_addr ind_addr summary_offset ind_offset adapter_id : Z) (s : KVMState) : res (Z * KVMState) :=
  if negb kvm_gsi_routing_enabled then Ok (- ENOSYS, s)
  else
    let? (virq, s) := kvm_irqchip_get_virq s in
    if virq <? 0 then Ok (virq, s)
    else let? s := kvm_add_routing_entry (mk_entry virq (To_adapter summary_addr ind_addr summary_offset ind_offset adapter_id)) s in
         Ok (virq, s).

(** ** Event notifiers *)

Definition KVM_IRQFD_FLAG_DEASSIGN : Z := 1.
Definition KVM_IRQFD_FLAG_RESAMPLE : Z := 2.

Definition kvm_irqchip_assign_irqfd (fd rfd virq : Z) (assign : bool) : Z :=
  let flags := if assign then 0 else KVM_IRQFD_FLAG_DEASSIGN in
  let '(flags, resamplefd) := if negb (rfd =? -1) then (Z.lor flags KVM_IRQFD_FLAG_RESAMPLE, rfd) else (flags, 0) in
  if negb kvm_irqfds_enabled then - ENOSYS else irqfd_ret fd virq flags resamplefd.

(** A notifier is its file descriptor. *)
Definition kvm_irqchip_add_irqfd_notifier_gsi (n : Z) (rn : option Z) (virq : Z) : Z :=
  kvm_irqchip_assign_irqfd n (default (-1) rn) virq true.
Definition kvm_irqchip_remove_irqfd_notifier_gsi (n virq : Z) : Z := kvm_irqchip_assign_irqfd n (-1) virq false.

(** The pin [irq] of a device is represented by its pointer. *)
Definition kvm_irqchip_add_irqfd_notifier (n : Z) (rn : option Z) (irq : Z) (s : KVMState) : Z :=
  match gsimap s !! irq with None => - ENXIO | Some g => kvm_irqchip_add_irqfd_notifier_gsi n rn g end.
Definition kvm_irqchip_remove_irqfd_notifier (n irq : Z) (s : KVMState) : Z :=
  match gsimap s !! irq with None => - ENXIO | Some g => kvm_irqchip_remove_irqfd_notifier_gsi n g end.

(** ** The routes of a PC *)

(** The interrupt controllers: the two PICs, and the I/O APIC with the timer on its pin 2. *)
Definition pc_routes (pci_enabled : bool) : list (Z * Z * Z) :=
  ((fun i => (Z.of_nat i, KVM_IRQCHIP_PIC_MASTER, Z.of_nat i)) <$> filter (fun i => i <> 2%nat) (seq 0 8)) ++
  ((fun i => (Z.of_nat i, KVM_IRQCHIP_PIC_SLAVE, Z.of_nat i - 8)) <$> seq 8 8) ++
  (if pci_enabled
   then (fun i => (Z.of_nat i, KVM_IRQCHIP_IOAPIC, if (i =? 0)%nat then 2 else Z.of_nat i)) <$> filter (fun i => i <> 2%nat) (seq 0 24)
   else []).

Fixpoint add_irq_routes (l : list (Z * Z * Z)) (s : KVMState) : res KVMState :=
  match l with
  | [] => Ok s
  | (irq, chip, pin) :: l => let? s := kvm_irqchip_add_irq_route irq chip pin s in add_irq_routes l s
  end.

(** [count] is the answer to KVM_CAP_IRQ_ROUTING. *)
Definition kvm_pc_setup_irq_routing (count : Z) (pci_enabled : bool) (s : KVMState) : res KVMState :=
  if negb (count =? 0) then let? s := add_irq_routes (pc_routes pci_enabled) s in kvm_irqchip_commit_routes s else Ok s.
End routing.

Definition kvm_irqchip_set_qemuirq_gsi (irq g : Z) (s : KVMState) : KVMState :=
  mk_state (entries s) (nr_allocated_irq_routes s) (used_gsi_bitmap s) (gsi_count s) (msi_hashtab s) (<[irq := g]> (gsimap s)) (committed s) (lines s).

(** ** The bitmap as a set *)

Definition used (b : list Z) (g : Z) : bool :=
  match b !! Z.to_nat (g / 32) with Some w => Z.testbit w (g mod 32) | None => false end.

Notation words_ok b := (Forall (fun w => 0 <= w < 2 ^ 32) b).
Notation capacity b := (32 * Z.of_nat (length b)).

Lemma gsi_word (b : list Z) g : 0 <= g < capacity b -> exists w, b !! Z.to_nat (g / 32) = Some w.
Proof.
  intros Hg. apply lookup_lt_is_Some_2. assert (g / 32 < Z.of_nat (length b)) by (apply Z.div_lt_upper_bound; lia).
  pose proof (Z.div_pos g 32). lia.
Qed.

(** A number is given by its word and its bit. *)
Lemma gsi_eq g h : 0 <= g -> 0 <= h -> Z.to_nat (g / 32) = Z.to_nat (h / 32) -> g mod 32 = h mod 32 -> g = h.
Proof.
  intros Hg Hh E1 E2. pose proof (Z.div_pos g 32 Hg ltac:(lia)). pose proof (Z.div_pos h 32 Hh ltac:(lia)).
  rewrite (Z.div_mod g 32), (Z.div_mod h 32) by lia. lia.
Qed.

(** A word in which bit [g mod 32] gets the value [v]. *)
Lemma used_insert (b : list Z) g w w' v h : 0 <= g < capacity b -> b !! Z.to_nat (g / 32) = Some w -> 0 <= h ->
  (forall n, 0 <= n < 32 -> Z.testbit w' n = if n =? g mod 32 then v else Z.testbit w n) ->
  used (<[Z.to_nat (g / 32) := w']> b) h = if h =? g then v else used b h.
Proof.
  intros Hg Hw Hh Hb. unfold used. pose proof (Z.mod_pos_bound h 32 ltac:(lia)) as Hm.
  destruct (decide (Z.to_nat (h / 32) = Z.to_nat (g / 32))) as [E | N].
  - rewrite E, list_lookup_insert_eq by (eapply lookup_lt_Some, Hw). rewrite Hb, Hw by exact Hm.
    destruct (Z.eqb_spec (h mod 32) (g mod 32)) as [E' | N'], (Z.eqb_spec h g) as [-> | Nh]; auto; [|congruence].
    destruct Nh. apply gsi_eq; lia.
  - rewrite list_lookup_insert_ne by congruence. destruct (Z.eqb_spec h g) as [-> | _]; [congruence | reflexivity].
Qed.

Lemma word_bound w : 0 <= w -> (forall n, 32 <= n -> Z.testbit w n = false) -> w < 2 ^ 32.
Proof.
  intros H0 Hb. destruct (Z.lt_ge_cases w (2 ^ 32)) as [|G]; [assumption|].
  assert (32 <= Z.log2 w) by (apply Z.log2_le_pow2; lia). pose proof (Z.bit_log2 w ltac:(lia)) as B. rewrite Hb in B by lia. discriminate.
Qed.

Lemma high_bits w n : 0 <= w < 2 ^ 32 -> 32 <= n -> Z.testbit w n = false.
Proof.
  intros Hw Hn. destruct (Z.eq_dec w 0) as [-> |]; [apply Z.bits_0|]. apply Z.bits_above_log2; [lia|].
  enough (Z.log2 w < 32) by lia. apply Z.log2_lt_pow2; lia.
Qed.

Lemma set_gsi_ok g s : words_ok (used_gsi_bitmap s) -> 0 <= g < capacity (used_gsi_bitmap s) ->
  exists b, set_gsi g s = Ok (set_bitmap b s) /\ words_ok b /\ length b = length (used_gsi_bitmap s) /\
    forall h, 0 <= h -> used b h = if h =? g then true else used (used_gsi_bitmap s) h.
Proof.
  intros W Hg. destruct (gsi_word _ g Hg) as [w Hw]. unfold set_gsi. rewrite Hw. cbn [of_option rbind].
  pose proof (Z.mod_pos_bound g 32 ltac:(lia)) as Hm. pose proof (proj1 (Forall_lookup _ _) W _ _ Hw) as Bw. simpl in Bw.
  eexists. split; [reflexivity|]. split; [|split].
  - apply Forall_insert; [exact W|]. split; [apply Z.lor_nonneg; split; [lia | apply Z.shiftl_nonneg; lia]|].
    apply word_bound; [apply Z.lor_nonneg; split; [lia | apply Z.shiftl_nonneg; lia]|]. intros n Hn.
    rewrite Z.lor_spec, (high_bits w n Bw Hn), Z.shiftl_1_l, Z.pow2_bits_false by lia. reflexivity.
  - apply length_insert.
  - intros h Hh. apply (used_insert _ g w); auto. intros n Hn. rewrite Z.lor_spec, Z.shiftl_1_l, Z.pow2_bits_eqb by lia.
    rewrite (Z.eqb_sym n). destruct (g mod 32 =? n); [apply orb_true_r | apply orb_false_r].
Qed.

Lemma clear_gsi_ok g s : words_ok (used_gsi_bitmap s) -> 0 <= g < capacity (used_gsi_bitmap s) ->
  exists b, clear_gsi g s = Ok (set_bitmap b s) /\ words_ok b /\ length b = length (used_gsi_bitmap s) /\
    forall h, 0 <= h -> used b h = if h =? g then false else used (used_gsi_bitmap s) h.
Proof.
  intros W Hg. destruct (gsi_word _ g Hg) as [w Hw]. unfold clear_gsi. rewrite Hw. cbn [of_option rbind].
  pose proof (Z.mod_pos_bound g 32 ltac:(lia)) as Hm. pose proof (proj1 (Forall_lookup _ _) W _ _ Hw) as Bw. simpl in Bw.
  eexists. split; [reflexivity|]. split; [|split].
  - apply Forall_insert; [exact W|]. split; [apply Z.land_nonneg; left; lia|].
    apply word_bound; [apply Z.land_nonneg; left; lia|]. intros n Hn. rewrite Z.land_spec, (high_bits w n Bw Hn). reflexivity.
  - apply length_insert.
  - intros h Hh. apply (used_insert _ g w); auto. intros n Hn. unfold u32.
    rewrite Z.land_spec, Z.mod_pow2_bits_low, Z.lnot_spec, Z.shiftl_1_l, Z.pow2_bits_eqb by lia.
    rewrite (Z.eqb_sym n). destruct (g mod 32 =? n); [apply andb_false_r | apply andb_true_r].
Qed.

Lemma ctz32_spec v :
  (ctz32 v = 32 /\ forall n, 0 <= n < 32 -> Z.testbit v n = false) \/
  (0 <= ctz32 v < 32 /\ Z.testbit v (ctz32 v) = true /\ forall n, 0 <= n < ctz32 v -> Z.testbit v n = false).
Proof.
  unfold ctz32. destruct (list_find (fun n => Z.testbit v (Z.of_nat n) = true) (seq 0 32)) as [[i n]|] eqn:E.
  - apply list_find_Some in E as (Hi & Hn & Hb). apply lookup_seq in Hi as [-> Hi]. rewrite Nat.add_0_l in *. right. split; [lia|]. split; [exact Hn|].
    intros m Hm. destruct (Z.testbit v m) eqn:Em; [|reflexivity]. destruct (Hb (Z.to_nat m) (Z.to_nat m)); [|lia|].
    + apply lookup_seq. lia.
    + rewrite Z2Nat.id by lia. exact Em.
  - left. split; [reflexivity|]. intros m Hm. apply list_find_None in E. rewrite Forall_lookup in E.
    specialize (E (Z.to_nat m) (Z.to_nat m)). rewrite Z2Nat.id in E by lia. apply not_true_is_false, E, lookup_seq. lia.
Qed.

(** The bits of a word that are not set. *)
Lemma free_bits w n : 0 <= n < 32 -> Z.testbit (u32 (Z.lnot w)) n = negb (Z.testbit w n).
Proof. intros Hn. unfold u32. rewrite Z.mod_pow2_bits_low, Z.lnot_spec by lia. reflexivity. Qed.

Lemma used_word b i w n : b !! i = Some w -> 0 <= n < 32 -> used b (n + Z.of_nat i * 32) = Z.testbit w n.
Proof.
  intros Hw Hn. unfold used. rewrite Z.div_add, Z.div_small, Z.mod_add, Z.mod_small by lia. rewrite Z.add_0_l, Nat2Z.id, Hw. reflexivity.
Qed.

(** The search finds the lowest number that is not in use. *)
Lemma free_gsi_spec b n : forall i, (i + n = length b)%nat -> (forall g, 0 <= g < Z.of_nat i * 32 -> used b g = true) ->
  exists v, free_gsi b n i = Ok v /\
    ((v = - ENOSPC /\ forall g, 0 <= g < capacity b -> used b g = true) \/
     (0 <= v < capacity b /\ used b v = false /\ forall g, 0 <= g < v -> used b g = true)).
Proof.
  induction n as [|n IH]; intros i Hl Hu; cbn [free_gsi].
  - eexists. split; [reflexivity|]. left. split; [reflexivity|]. intros g Hg. apply Hu. lia.
  - destruct (lookup_lt_is_Some_2 b i) as [w Hw]; [lia|]. rewrite Hw. cbn [of_option rbind]. cbv zeta.
    destruct (ctz32_spec (u32 (Z.lnot w))) as [[-> Hz] | (Hc & Ht & Hz)].
    + rewrite Z.eqb_refl. apply IH; [lia|]. intros g Hg. destruct (Z.lt_ge_cases g (Z.of_nat i * 32)); [apply Hu; lia|].
      replace g with (g - Z.of_nat i * 32 + Z.of_nat i * 32) by lia. rewrite (used_word b i w) by (assumption || lia).
      specialize (Hz (g - Z.of_nat i * 32) ltac:(lia)). rewrite free_bits in Hz by lia. apply negb_false_iff, Hz.
    + rewrite (proj2 (Z.eqb_neq _ _)) by lia. set (z := ctz32 _) in *. eexists. split; [reflexivity|]. right.
      split; [lia|]. rewrite (used_word b i w) by assumption. rewrite free_bits in Ht by assumption. split; [apply negb_true_iff, Ht|].
      intros g Hg. destruct (Z.lt_ge_cases g (Z.of_nat i * 32)); [apply Hu; lia|].
      replace g with (g - Z.of_nat i * 32 + Z.of_nat i * 32) by lia. rewrite (used_word b i w) by (assumption || lia).
      specialize (Hz (g - Z.of_nat i * 32) ltac:(lia)). rewrite free_bits in Hz by lia. apply negb_false_iff, Hz.
Qed.

(** ** Taking an entry out *)

Notation routes_of v l := (filter (fun e => gsi e = v) l).

Lemma swap_remove_perm i e l : l !! i = Some e -> e :: swap_remove i l ≡ₚ l.
Proof.
  intros Hi. unfold swap_remove. destruct l as [|x l] using rev_ind; [discriminate|]. clear IHl.
  rewrite length_app. cbn [length]. rewrite Nat.add_1_r. cbn [pred]. rewrite list_lookup_middle by reflexivity.
  destruct (decide (i = length l)) as [-> | N].
  - rewrite list_lookup_middle in Hi by reflexivity. injection Hi as ->.
    rewrite list_insert_id by (apply list_lookup_middle; reflexivity). rewrite take_app_length. apply Permutation_cons_append.
  - assert (i < length l)%nat as Hl by (apply lookup_lt_Some in Hi; rewrite length_app in Hi; simpl in Hi; lia).
    rewrite insert_app_l, take_app_length' by (rewrite ?length_insert; lia). rewrite lookup_app_l in Hi by exact Hl.
    rewrite <- (take_drop_middle l i e Hi) at 2. rewrite insert_take_drop by exact Hl. rewrite <- !app_assoc. simpl.
    rewrite Permutation_middle. do 2 f_equiv. apply Permutation_cons_append.
Qed.

Lemma release_none v n : forall i l, (forall j e, (i <= j)%nat -> l !! j = Some e -> gsi e <> v) -> release_loop v n i l = l.
Proof.
  induction n as [|n IH]; intros i l H; cbn [release_loop]; [reflexivity|]. destruct (l !! i) as [e|] eqn:E; [|reflexivity].
  rewrite (proj2 (Z.eqb_neq _ _)) by (eapply H; [|eassumption]; lia). apply IH. intros j x Hj. apply H. lia.
Qed.

(** The only entry of a number is taken out, and no other. *)
Lemma release_one v e n : forall i l, (length l <= i + n)%nat -> routes_of v l = [e] ->
  (forall j x, (j < i)%nat -> l !! j = Some x -> gsi x <> v) -> e :: release_loop v n i l ≡ₚ l.
Proof.
  intros i l. revert i. intros i Hn Hr Hp.
  assert (e ∈ l /\ gsi e = v) as [[k Hk]%list_elem_of_lookup Ev].
  { assert (e ∈ routes_of v l) as [? ?]%list_elem_of_filter by (rewrite Hr; left). auto. }
  revert i Hn Hp. induction n as [|n IH]; intros i Hn Hp.
  - destruct (Hp k e); auto. apply lookup_lt_Some in Hk. lia.
  - cbn [release_loop]. destruct (l !! i) as [x|] eqn:Ex.
    2: { destruct (Hp k e); auto. apply lookup_lt_Some in Hk. apply lookup_ge_None in Ex. lia. }
    destruct (Z.eqb_spec (gsi x) v) as [E | N].
    + assert (x = e) as ->.
      { assert (x ∈ routes_of v l) as Hx by (apply list_elem_of_filter; split; [exact E | eapply list_elem_of_lookup_2, Ex]).
        rewrite Hr in Hx. apply list_elem_of_singleton in Hx. exact Hx. }
      pose proof (swap_remove_perm i e l Ex) as P. rewrite release_none; [exact P|]. intros j y _ Hy Gy.
      assert (routes_of v (swap_remove i l) = []) as F.
      { assert (routes_of v (e :: swap_remove i l) ≡ₚ [e]) as Q by (rewrite P, Hr; reflexivity).
        rewrite filter_cons_True in Q by exact Ev. apply Permutation_length in Q. apply nil_length_inv. simpl in Q. lia. }
      assert (y ∈ routes_of v (swap_remove i l)) as Hin by (apply list_elem_of_filter; split; [exact Gy | eapply list_elem_of_lookup_2, Hy]).
      rewrite F in Hin. inversion Hin.
    + apply IH; [lia|]. intros j y Hj Hy. destruct (decide (j = i)) as [-> |]; [congruence | eapply Hp; [|exact Hy]; lia].
Qed.

(** ** The invariant *)

Definition is_msi (e : kvm_irq_routing_entry) : Prop := match u e with To_msi _ _ _ => True | _ => False end.

(** The bitmap holds the numbers of the table, and those beyond the last; a number that is routed
    to a message is routed nowhere else. *)
Record table_ok (s : KVMState) : Prop := {
  t_count : 0 <= gsi_count s;
  t_len : length (used_gsi_bitmap s) = Z.to_nat (align32 (gsi_count s) / 32);
  t_words : words_ok (used_gsi_bitmap s);
  t_used : forall g, 0 <= g < capacity (used_gsi_bitmap s) ->
    used (used_gsi_bitmap s) g = true <-> gsi_count s <= g \/ exists e, e ∈ entries s /\ gsi e = g;
  t_gsi : forall e, e ∈ entries s -> 0 <= gsi e < capacity (used_gsi_bitmap s);
  t_msi : forall e, e ∈ entries s -> is_msi e -> routes_of (gsi e) (entries s) = [e] /\ gsi e < gsi_count s;
  t_alloc : Z.of_nat (length (entries s)) <= nr_allocated_irq_routes s }.

Definition msg_ok (m : MSIMessage) : Prop := 0 <= address m < 2 ^ 64 /\ 0 <= data m < 2 ^ 32.

(** The kernel has the routes of all messages.  The hash table holds routes that are in the
    table, each in the bucket of its message. *)
Record hash_ok (s : KVMState) : Prop := {
  h_kernel : forall e, e ∈ entries s -> is_msi e -> routes_of (gsi e) (committed s) = [e];
  h_len : length (msi_hashtab s) = KVM_MSI_HASHTAB_SIZE;
  h_dup : NoDup (concat (msi_hashtab s));
  h_route : forall h b r, msi_hashtab s !! h = Some b -> r ∈ b ->
    r ∈ entries s /\ exists m, msg_ok m /\ r = msi_entry (gsi r) m /\ kvm_hash_msi (data m) = h }.

Lemma align32_div n : 0 <= n -> n <= 32 * (align32 n / 32) < n + 32 /\ 0 <= align32 n / 32.
Proof.
  intros Hn. assert (align32 n = (n + 31) / 32 * 32) as ->.
  { unfold align32. change (Z.lnot 31) with (Z.lnot (Z.ones 5)). rewrite <- Z.ldiff_land, Z.ldiff_ones_r by lia.
    rewrite Z.shiftl_mul_pow2, Z.shiftr_div_pow2 by lia. reflexivity. }
  rewrite Z.div_mul by lia. Z.div_mod_to_equations. lia.
Qed.

Lemma capacity_ok s : table_ok s -> gsi_count s <= capacity (used_gsi_bitmap s).
Proof. intros [C L _ _ _ _ _]. rewrite L. pose proof (align32_div (gsi_count s) C). lia. Qed.

(** A route of a message is the only one with its number. *)
Lemma msi_unique s e x : table_ok s -> e ∈ entries s -> is_msi e -> x ∈ entries s -> gsi x = gsi e -> x = e.
Proof.
  intros T He Hm Hx Eg. destruct (t_msi s T e He Hm) as [R _].
  assert (x ∈ routes_of (gsi e) (entries s)) as Hin by (apply list_elem_of_filter; auto).
  rewrite R in Hin. apply list_elem_of_singleton in Hin. exact Hin.
Qed.

Lemma routes_perm v e (l l' : list kvm_irq_routing_entry) : l ≡ₚ l' -> routes_of v l = [e] -> routes_of v l' = [e].
Proof. intros P R. apply Permutation_singleton_r. rewrite <- P, R. reflexivity. Qed.

(** An MSI entry leaves the table. *)
Lemma table_without s e l b : table_ok s -> is_msi e -> entries s ≡ₚ e :: l ->
  words_ok b -> length b = length (used_gsi_bitmap s) ->
  (forall h, 0 <= h -> used b h = if h =? gsi e then false else used (used_gsi_bitmap s) h) -> table_ok (set_bitmap b (set_entries l s)).
Proof.
  intros T Hm P W Lb U. pose proof T as [C L _ Hu Hg Hs Ha].
  assert (forall x, x ∈ l -> x ∈ entries s) as Hl by (intros x Hx; rewrite P; right; exact Hx).
  assert (e ∈ entries s) as He by (rewrite P; left). destruct (Hs e He Hm) as [Re Ce].
  assert (forall x, x ∈ l -> gsi x <> gsi e) as Ne.
  { intros x Hx Ex. apply (routes_perm _ _ _ _ P) in Re. rewrite filter_cons_True in Re by reflexivity. injection Re as Re.
    assert (x ∈ routes_of (gsi e) l) as Hin by (apply list_elem_of_filter; auto). rewrite Re in Hin. inversion Hin. }
  split; simpl; auto.
  - congruence.
  - rewrite Lb. intros g Hr. rewrite U by lia. destruct (Z.eqb_spec g (gsi e)) as [-> | N].
    + split; [discriminate|]. intros [? | (x & Hx & Ex)]; [lia | destruct (Ne x Hx Ex)].
    + rewrite Hu by exact Hr. setoid_rewrite P. split; (intros [? | (x & Hx & Ex)]; [auto | right; exists x]).
      * apply elem_of_cons in Hx as [-> | Hx]; [congruence | auto].
      * split; [right; exact Hx | exact Ex].
  - rewrite Lb. auto.
  - intros x Hx Mx. destruct (Hs x (Hl x Hx) Mx) as [R ?]. split; [|assumption]. apply (routes_perm _ _ _ _ P) in R.
    rewrite filter_cons_False in R by (intros E; apply (Ne x Hx); congruence). exact R.
  - apply Permutation_length in P. simpl in P. lia.
Qed.

(** A message entry with a number that is not in use enters the table. *)
Lemma table_with s e b n : table_ok s -> 0 <= gsi e < gsi_count s -> (forall x, x ∈ entries s -> gsi x <> gsi e) ->
  words_ok b -> length b = length (used_gsi_bitmap s) ->
  (forall h, 0 <= h -> used b h = if h =? gsi e then true else used (used_gsi_bitmap s) h) ->
  Z.of_nat (length (entries s)) < n -> table_ok (set_bitmap b (set_entries (entries s ++ [e]) (set_allocated n s))).
Proof.
  intros T He Hf W Lb U Hn. pose proof (capacity_ok s T) as Hc. pose proof T as [C L _ Hu Hg Hs Ha].
  assert (routes_of (gsi e) (entries s) = []) as R0.
  { destruct (filter _ _) as [|x t] eqn:E; [reflexivity|].
    assert (x ∈ routes_of (gsi e) (entries s)) as [Ex Hx]%list_elem_of_filter by (rewrite E; left). destruct (Hf x Hx Ex). }
  split; simpl; auto.
  - congruence.
  - rewrite Lb. intros g Hr. rewrite U by lia. setoid_rewrite elem_of_app. setoid_rewrite list_elem_of_singleton.
    destruct (Z.eqb_spec g (gsi e)) as [-> | N]; [split; eauto|]. rewrite Hu by exact Hr. split.
    + intros [? | (x & Hx & Ex)]; eauto.
    + intros [? | (x & [Hx | ->] & Ex)]; [auto | eauto | congruence].
  - rewrite Lb. intros x [Hx | ->%list_elem_of_singleton]%elem_of_app; [auto | lia].
  - intros x [Hx | ->%list_elem_of_singleton]%elem_of_app Mx; rewrite filter_app.
    + destruct (Hs x Hx Mx) as [R ?]. split; [|assumption]. rewrite R, filter_cons_False; [reflexivity|]. intros E. apply (Hf x Hx). congruence.
    + rewrite R0, filter_cons_True by reflexivity. split; [reflexivity | lia].
  - rewrite length_app. simpl. lia.
Qed.

(** There is room for one more entry after the array has grown. *)
Lemma grow_ok s : table_ok s -> exists n,
  (if Z.of_nat (length (entries s)) =? nr_allocated_irq_routes s
   then set_allocated (if nr_allocated_irq_routes s * 2 <? 64 then 64 else nr_allocated_irq_routes s * 2) s else s) = set_allocated n s /\
  Z.of_nat (length (entries s)) < n.
Proof.
  intros T. pose proof (t_alloc s T). destruct (Z.eqb_spec (Z.of_nat (length (entries s))) (nr_allocated_irq_routes s)) as [E | N].
  - eexists. split; [reflexivity|]. destruct (Z.ltb_spec (nr_allocated_irq_routes s * 2) 64); lia.
  - exists (nr_allocated_irq_routes s). split; [destruct s; reflexivity | lia].
Qed.

Lemma add_entry_ok s e : table_ok s -> 0 <= gsi e < gsi_count s -> (forall x, x ∈ entries s -> gsi x <> gsi e) ->
  exists b n, kvm_add_routing_entry e s = Ok (set_bitmap b (set_entries (entries s ++ [e]) (set_allocated n s))) /\
    table_ok (set_bitmap b (set_entries (entries s ++ [e]) (set_allocated n s))).
Proof.
  intros T He Hf. pose proof (capacity_ok s T) as Hc. unfold kvm_add_routing_entry. cbv zeta. destruct (grow_ok s T) as (n & -> & Hn).
  destruct (set_gsi_ok (gsi e) (set_entries (entries s ++ [e]) (set_allocated n s))) as (b & E & W & Lb & U); [apply (t_words s T) | simpl; lia|].
  exists b, n. split; [exact E|]. eapply table_with; eauto.
Qed.

Section working.
(** The kernel is any: it may refuse a table, upon which [kvm_irqchip_commit_routes] aborts, and
    an interrupt, upon which [kvm_set_irq] does.  The machine is a PC with its controllers. *)
Variables (routing_ret : list kvm_irq_routing_entry -> Z) (line_ret : Z -> Z -> Z * Z) (signal_msi : Z -> Z -> Z -> Z) (line_status : bool).

(** Reasons of an abort: the kernel does not take a table with at most one entry more than the
    present one, or does not raise the line of a number that has a route. *)
Definition table_refused (s : KVMState) : Prop := exists l, (length l <= S (length (entries s)))%nat /\ routing_ret l <> 0.
Definition line_refused (s : KVMState) : Prop := exists v, 0 <= v < capacity (used_gsi_bitmap s) /\ (line_ret v 1).1 < 0.

Notation release := (kvm_irqchip_release_virq false).
Notation get_virq := (kvm_irqchip_get_virq false false).
Notation send_msi := (kvm_irqchip_send_msi routing_ret line_ret signal_msi line_status false false true).
Notation add_msi_route := (kvm_irqchip_add_msi_route routing_ret false false true).
Notation update_msi_route := (kvm_irqchip_update_msi_route routing_ret false true).

Lemma release_ok s e : table_ok s -> e ∈ entries s -> is_msi e ->
  exists b l, release (gsi e) s = Ok (set_bitmap b (set_entries l s)) /\ table_ok (set_bitmap b (set_entries l s)) /\ entries s ≡ₚ e :: l.
Proof.
  intros T He Hm. destruct (t_msi s T e He Hm) as [R _]. unfold kvm_irqchip_release_virq.
  pose proof (release_one (gsi e) e (length (entries s)) 0 (entries s) ltac:(lia) R ltac:(intros; lia)) as P.
  set (l := release_loop _ _ _ _) in *.
  destruct (clear_gsi_ok (gsi e) (set_entries l s)) as (b & E & W & Lb & U); [apply (t_words s T) | apply (t_gsi s T e He)|].
  symmetry in P. exists b, l. split; [exact E|]. split; [|exact P]. exact (table_without s e l b T Hm P W Lb U).
Qed.

(** ** Emptying the hash table *)

(** A state in which [gone] has left the table, and the hash table is [tab]. *)
Record without (s s' : KVMState) (gone : list kvm_irq_routing_entry) (tab : list (list kvm_irq_routing_entry)) : Prop := {
  w_table : table_ok s';
  w_entries : entries s ≡ₚ gone ++ entries s';
  w_tab : msi_hashtab s' = tab;
  w_count : gsi_count s' = gsi_count s; w_committed : committed s' = committed s; w_lines : lines s' = lines s }.

Lemma flush_bucket_ok h b : forall s, table_ok s -> msi_hashtab s !! h = Some b -> NoDup b ->
  (forall r, r ∈ b -> r ∈ entries s /\ is_msi r) ->
  exists s', flush_bucket false h b s = Ok s' /\ without s s' b (<[h := []]> (msi_hashtab s)).
Proof.
  induction b as [|r b IH]; intros s T Hh Nd Hb; cbn [flush_bucket].
  - exists s. split; [reflexivity|]. split; auto. symmetry. apply list_insert_id, Hh.
  - apply NoDup_cons in Nd as [Nr Nd]. destruct (Hb r ltac:(left)) as [Hr Mr].
    destruct (release_ok s r T Hr Mr) as (bm & l & E & T' & P). rewrite E. cbn [rbind].
    set (s1 := set_hashtab _ _). destruct (IH s1) as (s' & E' & [W1 W2 W3 W4 W5 W6]).
    + destruct T'. split; assumption.
    + simpl. rewrite list_lookup_insert_eq by (eapply lookup_lt_Some, Hh). reflexivity.
    + exact Nd.
    + intros x Hx. destruct (Hb x ltac:(right; exact Hx)) as [Hin Mx]. split; [|exact Mx]. simpl. rewrite P in Hin.
      apply elem_of_cons in Hin as [-> | ?]; [contradiction | assumption].
    + exists s'. split; [exact E'|]. split; auto.
      * rewrite P. simpl. f_equiv. exact W2.
      * rewrite W3. simpl. apply list_insert_insert_eq.
Qed.

Lemma flush_from_ok n : forall h s, table_ok s -> length (msi_hashtab s) = (h + n)%nat -> NoDup (concat (drop h (msi_hashtab s))) ->
  (forall r, r ∈ concat (drop h (msi_hashtab s)) -> r ∈ entries s /\ is_msi r) ->
  exists s', flush_from false h n s = Ok s' /\
    without s s' (concat (drop h (msi_hashtab s))) (take h (msi_hashtab s) ++ replicate n []).
Proof.
  induction n as [|n IH]; intros h s T Hl Nd Hr; cbn [flush_from].
  - exists s. split; [reflexivity|]. rewrite drop_ge by lia. split; auto. rewrite take_ge, app_nil_r by lia. reflexivity.
  - destruct (lookup_lt_is_Some_2 (msi_hashtab s) h) as [b Hb]; [lia|]. rewrite Hb. cbn [of_option rbind].
    rewrite (drop_S _ _ _ Hb) in *. cbn [concat] in *. apply NoDup_app in Nd as (N1 & N2 & N3).
    destruct (flush_bucket_ok h b s T Hb N1) as (s1 & E1 & [W1 W2 W3 W4 W5 W6]); [intros r Hin; apply Hr, elem_of_app; auto|].
    rewrite E1. cbn [rbind]. assert (drop (S h) (msi_hashtab s1) = drop (S h) (msi_hashtab s)) as Ed.
    { rewrite W3. apply drop_insert_lt. lia. }
    destruct (IH (S h) s1) as (s' & E' & [V1 V2 V3 V4 V5 V6]).
    + exact W1.
    + rewrite W3, length_insert. lia.
    + rewrite Ed. exact N3.
    + rewrite Ed. intros r Hin. destruct (Hr r ltac:(apply elem_of_app; auto)) as [He Mr]. split; [|exact Mr].
      rewrite W2, elem_of_app in He. destruct He as [Hb' | ?]; [destruct (N2 r Hb' Hin) | assumption].
    + exists s'. split; [exact E'|]. split; try congruence.
      * rewrite W2, V2, Ed, app_assoc. reflexivity.
      * rewrite V3, W3. rewrite (take_S_r _ h []) by (apply list_lookup_insert_eq; eapply lookup_lt_Some, Hb).
        rewrite take_insert_ge by lia. rewrite <- app_assoc. reflexivity.
Qed.

Lemma in_hashtab s r : r ∈ concat (msi_hashtab s) <-> exists h b, msi_hashtab s !! h = Some b /\ r ∈ b.
Proof.
  rewrite list_elem_of_In, in_concat. setoid_rewrite <- list_elem_of_In. split.
  - intros (b & [h Hh]%list_elem_of_lookup & Hr). eauto.
  - intros (h & b & Hh & Hr). exists b. split; [eapply list_elem_of_lookup_2, Hh | exact Hr].
Qed.

Lemma hashtab_route s r : hash_ok s -> r ∈ concat (msi_hashtab s) -> r ∈ entries s /\ is_msi r.
Proof. intros H (h & b & Hh & Hr)%in_hashtab. destruct (h_route s H h b r Hh Hr) as (He & m & _ & E & _). split; [exact He | rewrite E; exact I]. Qed.

(** The routes that the devices hold: those of messages that are not in the hash table. *)
Definition represents (s : KVMState) (M : gmap Z MSIMessage) : Prop :=
  forall v m, M !! v = Some m <-> msg_ok m /\ msi_entry v m ∈ entries s /\ msi_entry v m ∉ concat (msi_hashtab s).

Lemma msi_entry_inj v v' m m' : msg_ok m -> msg_ok m' -> msi_entry v m = msi_entry v' m' -> v = v' /\ m = m'.
Proof.
  intros [A D] [A' D'] [= -> E1 E2 E3]. split; [reflexivity|]. destruct m as [a d], m' as [a' d']. simpl in *. f_equal; [|exact E3].
  unfold u32 in *. rewrite !Z.shiftr_div_pow2 in E2 by lia.
  rewrite (Z.mod_small (a / _)), (Z.mod_small (a' / _)) in E2 by (split; [apply Z.div_pos | apply Z.div_lt_upper_bound]; lia).
  rewrite (Z.div_mod a (2 ^ 32)), (Z.div_mod a' (2 ^ 32)) by lia. congruence.
Qed.

(** The hash table is emptied; the devices keep their routes. *)
Lemma flush_ok s : table_ok s -> hash_ok s -> exists s', kvm_flush_dynamic_msi_routes false s = Ok s' /\ table_ok s' /\ hash_ok s' /\
  gsi_count s' = gsi_count s /\ committed s' = committed s /\ lines s' = lines s /\ concat (msi_hashtab s') = [] /\
  (length (entries s') <= length (entries s))%nat /\ forall M, represents s M -> represents s' M.
Proof.
  intros T H. destruct (flush_from_ok KVM_MSI_HASHTAB_SIZE 0 s T) as (s' & E & [W1 W2 W3 W4 W5 W6]); rewrite ?drop_0 in *.
  - apply (h_len s H).
  - apply (h_dup s H).
  - intros r Hr. apply hashtab_route; assumption.
  - rewrite take_0 in W3. cbn [app] in W3. exists s'. split; [exact E|]. split; [exact W1|].
    assert (concat (msi_hashtab s') = []) as Ec by (rewrite W3; reflexivity).
    assert (forall e, e ∈ entries s' -> e ∈ entries s) as Sub by (intros e He; rewrite W2, elem_of_app; auto).
    split; [|split; [exact W4|]; split; [exact W5|]; split; [exact W6|]; split; [exact Ec|]; split; [rewrite W2, length_app; lia|]].
    + split.
      * intros e He Me. rewrite W5. apply (h_kernel s H); auto.
      * rewrite W3. reflexivity.
      * rewrite Ec. constructor.
      * intros h b r Hb Hr. assert (r ∈ concat (msi_hashtab s')) as Hin by (apply in_hashtab; eauto). rewrite Ec in Hin. inversion Hin.
    + intros M R v m. rewrite (R v m), Ec. split; intros (Hm & He & Hn); (split; [exact Hm|]); split.
      * rewrite W2, elem_of_app in He. destruct He; [contradiction | assumption].
      * intros Hx. inversion Hx.
      * auto.
      * intros Hc. destruct (t_msi s T (msi_entry v m) (Sub _ He) I) as [R1 _]. apply (routes_perm _ _ _ _ W2) in R1.
        rewrite filter_app in R1. apply (f_equal length) in R1. rewrite length_app in R1. simpl in R1.
        assert (forall l, msi_entry v m ∈ l -> (0 < length (routes_of v l))%nat) as Pos.
        { intros l Hl. assert (msi_entry v m ∈ routes_of v l) as Hin by (apply list_elem_of_filter; auto).
          destruct (filter _ l); [inversion Hin | simpl; lia]. }
        pose proof (Pos _ He). pose proof (Pos _ Hc). simpl in *. lia.
Qed.

(** Numbers that all have an entry are not more than the entries. *)
Lemma all_used_length (l : list kvm_irq_routing_entry) n :
  (forall g, 0 <= g < n -> exists e, e ∈ l /\ gsi e = g) -> n <= Z.of_nat (length l).
Proof.
  intros H. destruct (Z.lt_ge_cases n 0) as [|Hn]; [lia|].
  assert (seqZ 0 n ⊆+ (gsi <$> l)) as S1.
  { apply NoDup_submseteq; [apply NoDup_seqZ|]. intros g Hg%elem_of_seqZ. destruct (H g ltac:(lia)) as (e & He & <-).
    apply list_elem_of_fmap. eauto. }
  apply submseteq_length in S1. rewrite length_seqZ, length_fmap in S1. lia.
Qed.

(** The number that a new route gets. *)
Definition virq_full (s s' : KVMState) : Prop :=
  (forall g, 0 <= g < gsi_count s -> exists e, e ∈ entries s' /\ gsi e = g) /\
  (Z.of_nat (length (entries s)) <= gsi_count s -> concat (msi_hashtab s') = []).

Lemma get_virq_ok s : table_ok s -> hash_ok s -> exists v s', get_virq s = Ok (v, s') /\ table_ok s' /\ hash_ok s' /\
  gsi_count s' = gsi_count s /\ lines s' = lines s /\ (length (entries s') <= length (entries s))%nat /\
  (forall M, represents s M -> represents s' M) /\
  ((v = - ENOSPC /\ virq_full s s') \/ (0 <= v < gsi_count s /\ forall x, x ∈ entries s' -> gsi x <> v)).
Proof.
  intros T H. unfold kvm_irqchip_get_virq. cbn [negb andb].
  assert (exists s1, (if Z.of_nat (length (entries s)) =? gsi_count s then kvm_flush_dynamic_msi_routes false s else Ok s) = Ok s1 /\
    table_ok s1 /\ hash_ok s1 /\ gsi_count s1 = gsi_count s /\ lines s1 = lines s /\ (length (entries s1) <= length (entries s))%nat /\
    (concat (msi_hashtab s1) = [] \/ Z.of_nat (length (entries s)) <> gsi_count s /\ s1 = s) /\
    forall M, represents s M -> represents s1 M)
    as (s1 & -> & T1 & H1 & C1 & L1 & N1 & F1 & R1).
  { destruct (Z.eqb_spec (Z.of_nat (length (entries s))) (gsi_count s)); [|exists s; auto 12].
    destruct (flush_ok s T H) as (s1 & E & ? & ? & ? & ? & ? & ? & ? & ?). exists s1. auto 12. }
  cbn [rbind]. pose proof (capacity_ok s1 T1) as Hc.
  destruct (free_gsi_spec (used_gsi_bitmap s1) (Z.to_nat (align32 (gsi_count s1) / 32)) 0) as (v & E & Hv).
  { rewrite (t_len s1 T1). lia. }
  { intros g Hg. lia. }
  rewrite E. cbn [rbind]. exists v, s1. repeat (split; [assumption || reflexivity|]). unfold virq_full. rewrite <- C1.
  destruct Hv as [[-> Hu] | (Hv & Hu & _)]; [left | right].
  - split; [reflexivity|].
    assert (forall g, 0 <= g < gsi_count s1 -> exists e, e ∈ entries s1 /\ gsi e = g) as Full.
    { intros g Hg. destruct (proj1 (t_used s1 T1 g ltac:(lia)) (Hu g ltac:(lia))) as [? | ?]; [lia | assumption]. }
    split; [exact Full|]. intros Hl. destruct F1 as [|[Ne ->]]; [assumption|]. pose proof (all_used_length _ _ Full). lia.
  - assert (~ (gsi_count s1 <= v \/ exists e, e ∈ entries s1 /\ gsi e = v)) as N by (rewrite <- (t_used s1 T1 v Hv), Hu; discriminate).
    split; [destruct (Z.lt_ge_cases v (gsi_count s1)); [lia | tauto]|]. intros x Hx Ex. apply N. eauto.
Qed.

(** ** The operations on routes *)

(** A new route is in the table and in the kernel, unless the kernel refuses the table; the hash
    table is not concerned. *)
Lemma add_commit_ok s v m : table_ok s -> hash_ok s -> 0 <= v < gsi_count s -> (forall x, x ∈ entries s -> gsi x <> v) ->
  exists s1, kvm_add_routing_entry (msi_entry v m) s = Ok s1 /\
    ((exists s', kvm_irqchip_commit_routes routing_ret s1 = Ok s' /\ table_ok s' /\ hash_ok s' /\
       entries s' = entries s ++ [msi_entry v m] /\ msi_hashtab s' = msi_hashtab s /\ lines s' = lines s /\ committed s' = entries s' /\
       length (used_gsi_bitmap s') = length (used_gsi_bitmap s)) \/
     (kvm_irqchip_commit_routes routing_ret s1 = Err Aborted /\ table_refused s)).
Proof.
  intros T H Hv Hf. destruct (add_entry_ok s (msi_entry v m) T Hv Hf) as (b & n & E & T1). set (s1 := set_bitmap _ _) in *.
  exists s1. split; [exact E|]. unfold kvm_irqchip_commit_routes. destruct (Z.eqb_spec (routing_ret (entries s1)) 0) as [Hr | Hr]; [left|right].
  - exists (set_committed (entries s1) s1). split; [reflexivity|]. pose proof (t_len s1 T1) as Lb. rewrite (t_len s T).
    split; [destruct T1; split; assumption|]. split; [|auto 10]. destruct H as [H1 H2 H3 H4]. split; auto.
    + intros e He Me. apply (t_msi s1 T1 e He Me).
    + intros h bk r Hh Hrr. destruct (H4 h bk r Hh Hrr) as [He Hx]. split; [|exact Hx]. simpl. apply elem_of_app. auto.
  - split; [reflexivity|]. exists (entries s1). split; [|exact Hr]. simpl. rewrite length_app. simpl. lia.
Qed.

Lemma refused_le s s1 : (length (entries s1) <= length (entries s))%nat -> table_refused s1 -> table_refused s.
Proof. intros Hl (l & Hn & Hr). exists l. split; [lia | exact Hr]. Qed.

Lemma add_msi_route_ok s msg M : table_ok s -> hash_ok s -> msg_ok msg -> represents s M ->
  (exists v s', add_msi_route msg s = Ok (v, s') /\ table_ok s' /\ hash_ok s' /\
    ((v = - ENOSPC /\ represents s' M /\ virq_full s s') \/
     (0 <= v < gsi_count s /\ M !! v = None /\ represents s' (<[v := msg]> M)))) \/
  (add_msi_route msg s = Err Aborted /\ table_refused s).
Proof.
  intros T H Hm R. unfold kvm_irqchip_add_msi_route. cbn [negb]. destruct (get_virq_ok s T H) as (v & s1 & E & T1 & H1 & C1 & _ & N1 & R1 & Hv).
  rewrite E. cbn [rbind]. specialize (R1 M R). destruct Hv as [[-> Hfull] | [Hv Hf]].
  - left. cbn. exists (- ENOSPC), s1. auto 10.
  - rewrite (proj2 (Z.ltb_ge v 0)) by lia. cbv zeta. cbn [kvm_arch_fixup_msi_route Z.eqb negb].
    destruct (add_commit_ok s1 v msg T1 H1 ltac:(lia) Hf) as (s2 & E2 & [(s' & E3 & T' & H' & En & Eh & _ & _) | [E3 Ref]]);
      rewrite E2; cbn [rbind]; rewrite E3; cbn [rbind]; [left | right; split; [reflexivity | exact (refused_le s s1 N1 Ref)]].
    exists v, s'. split; [reflexivity|]. split; [exact T'|]. split; [exact H'|]. right.
    split; [exact Hv|]. assert (forall m, msi_entry v m ∉ entries s1) as Nv by (intros m Hin; apply (Hf _ Hin); reflexivity).
    split; [destruct (M !! v) as [m|] eqn:Em; [apply R1 in Em as (_ & Hin & _); destruct (Nv m Hin) | reflexivity]|].
    intros v' m. rewrite En, Eh, elem_of_app, list_elem_of_singleton. destruct (decide (v' = v)) as [-> | N].
    + rewrite lookup_insert_eq. split.
      * intros [= <-]. split; [exact Hm|]. split; [auto|]. intros Hc. apply (Nv msg), (hashtab_route s1 _ H1 Hc).
      * intros (Hm' & [Hin | Ee] & _); [destruct (Nv m Hin)|]. apply msi_entry_inj in Ee as [_ ->]; auto.
    + rewrite lookup_insert_ne, (R1 v' m) by congruence. split; [intros (? & ? & ?); auto|].
      intros (Hm' & [Hin | Ee] & Hn); [auto|]. injection Ee as -> _. contradiction.
Qed.

Lemma insert_bucket_perm (tab : list (list kvm_irq_routing_entry)) h b r : tab !! h = Some b -> concat (<[h := b ++ [r]]> tab) ≡ₚ r :: concat tab.
Proof.
  intros Hh. rewrite <- (take_drop_middle tab h b Hh) at 2. rewrite insert_take_drop by (eapply lookup_lt_Some, Hh).
  rewrite !concat_app. cbn [concat]. rewrite <- app_assoc. cbn [app]. rewrite <- !Permutation_middle. reflexivity.
Qed.

Lemma bucket_of s d : hash_ok s -> exists b, msi_hashtab s !! kvm_hash_msi d = Some b.
Proof.
  intros H. apply lookup_lt_is_Some_2. rewrite (h_len s H). unfold kvm_hash_msi. change 0xff with (Z.ones 8). rewrite Z.land_ones by lia.
  pose proof (Z.mod_pos_bound d (2 ^ 8)). unfold KVM_MSI_HASHTAB_SIZE. lia.
Qed.

(** The route that is found is the one of the message. *)
Lemma lookup_msi s msg : hash_ok s -> msg_ok msg -> exists o, kvm_lookup_msi_route msg s = Ok o /\
  forall r, o = Some r -> r ∈ entries s /\ r = msi_entry (gsi r) msg.
Proof.
  intros H Hm. unfold kvm_lookup_msi_route. destruct (bucket_of s (data msg) H) as [b Hb].
  rewrite Hb. cbn [of_option rbind]. eexists. split; [reflexivity|]. intros r ([i x] & (Hi & Hx & _)%list_find_Some & ->)%fmap_Some.
  cbn [snd]. destruct (h_route s H _ b x Hb ltac:(eapply list_elem_of_lookup_2, Hi)) as (He & m & Hok & Ex & _). split; [exact He|].
  rewrite Ex in Hx. unfold is_msg in Hx. cbn [u msi_entry] in Hx. apply andb_true_iff in Hx as [[H1%Z.eqb_eq H2%Z.eqb_eq]%andb_true_iff H3%Z.eqb_eq].
  rewrite Ex at 1. unfold msi_entry. rewrite H1, H2, H3. do 2 f_equal. symmetry. apply Z.mod_small. rewrite Z.shiftr_div_pow2 by lia.
  destruct Hm. split; [apply Z.div_pos | apply Z.div_lt_upper_bound]; lia.
Qed.

(** The route of a message that is sent goes to the hash table. *)
Lemma hash_insert s r b m : table_ok s -> hash_ok s -> r ∈ entries s -> r ∉ concat (msi_hashtab s) -> msg_ok m -> r = msi_entry (gsi r) m ->
  msi_hashtab s !! kvm_hash_msi (data m) = Some b ->
  hash_ok (set_hashtab (<[kvm_hash_msi (data m) := b ++ [r]]> (msi_hashtab s)) s).
Proof.
  intros T [H1 H2 H3 H4] Hr Nr Hm Er Hb. split; simpl; auto.
  - rewrite length_insert. exact H2.
  - rewrite (insert_bucket_perm _ _ _ r Hb). apply NoDup_cons. auto.
  - intros h b' x. rewrite list_lookup_insert_Some. intros [(<- & <- & _) | [_ Hh]] Hx; [|eauto].
    apply elem_of_app in Hx as [Hx | ->%list_elem_of_singleton]; [eauto|]. split; [exact Hr|]. exists m. auto.
Qed.

Lemma raise_ok v s : (exists r, kvm_set_irq line_ret line_status true v 1 s = Ok (r, set_lines ((v, 1) :: lines s) s)) \/
  (kvm_set_irq line_ret line_status true v 1 s = Err Aborted /\ (line_ret v 1).1 < 0).
Proof.
  unfold kvm_set_irq. cbn [negb]. destruct (line_ret v 1) as [ret st]. simpl.
  destruct (Z.ltb_spec ret 0); [right; auto | left; eauto].
Qed.

(** The outcome of [kvm_irqchip_send_msi] when it returns. *)
Definition sent (msg : MSIMessage) (s : KVMState) (r : Z) (s' : KVMState) : Prop :=
  (r = - ENOSPC /\ lines s' = lines s /\ virq_full s s') \/
  exists v, lines s' = (v, 1) :: lines s /\ routes_of v (committed s') = [msi_entry v msg].

Lemma send_known s r msg M : table_ok s -> hash_ok s -> represents s M -> r ∈ entries s -> r = msi_entry (gsi r) msg ->
  (exists x s', kvm_set_irq line_ret line_status true (gsi r) 1 s = Ok (x, s') /\ table_ok s' /\ hash_ok s' /\ represents s' M /\ sent msg s x s') \/
  (kvm_set_irq line_ret line_status true (gsi r) 1 s = Err Aborted /\ line_refused s).
Proof.
  intros T H R Hr Er. destruct (raise_ok (gsi r) s) as [[x ->] | [-> L]]; [left | right; split; [reflexivity|]].
  - eexists _, _. split; [reflexivity|]. split; [destruct T; split; assumption|]. split; [destruct H; split; assumption|]. split; [exact R|].
    right. exists (gsi r). split; [reflexivity|]. cbn [committed set_lines]. rewrite <- Er. apply (h_kernel s H r Hr). rewrite Er. exact I.
  - exists (gsi r). split; [apply (t_gsi s T r Hr) | exact L].
Qed.

(** The route of a message that is sent for the first time: the devices' routes stay. *)
Lemma represents_dynamic s s1 v msg M b : represents s1 M -> (forall x, x ∈ entries s1 -> gsi x <> v) ->
  entries s = entries s1 ++ [msi_entry v msg] -> msi_hashtab s = msi_hashtab s1 -> msi_hashtab s !! kvm_hash_msi (data msg) = Some b ->
  represents (set_hashtab (<[kvm_hash_msi (data msg) := b ++ [msi_entry v msg]]> (msi_hashtab s)) s) M.
Proof.
  intros R1 Hf En Eh Hb v' m. set (r := msi_entry v msg) in *.
  assert (r ∉ entries s1) as Nr by (intros Hin; apply (Hf _ Hin); reflexivity).
  cbn [entries msi_hashtab set_hashtab]. rewrite (insert_bucket_perm _ _ _ r Hb), Eh, En.
  rewrite elem_of_cons, elem_of_app, list_elem_of_singleton, (R1 v' m). split.
  - intros (Hm' & Hin & Hn). split; [exact Hm'|]. split; [auto|]. intros [Ee | ?]; [rewrite Ee in Hin; contradiction | contradiction].
  - intros (Hm' & [Hin | Ee] & Hn); [tauto|]. destruct Hn. auto.
Qed.

Lemma send_msi_ok s msg M : table_ok s -> hash_ok s -> msg_ok msg -> represents s M ->
  (exists r s', send_msi msg s = Ok (r, s') /\ table_ok s' /\ hash_ok s' /\ represents s' M /\ sent msg s r s') \/
  (send_msi msg s = Err Aborted /\ (table_refused s \/ line_refused s)).
Proof.
  intros T H Hm R. unfold kvm_irqchip_send_msi. destruct (lookup_msi s msg H Hm) as (o & Eo & Ho). rewrite Eo. cbn [rbind].
  destruct o as [r|].
  - destruct (Ho r eq_refl) as [Hr Er]. rewrite Er. cbn [u gsi msi_entry].
    destruct (send_known s r msg M T H R Hr Er) as [? | [? ?]]; auto.
  - destruct (get_virq_ok s T H) as (v & s1 & E & T1 & H1 & C1 & L1 & N1 & R1 & Hv). rewrite E. cbn [rbind]. specialize (R1 M R).
    destruct Hv as [[-> Hfull] | [Hv Hf]]; [left; cbn; eexists _, s1; unfold sent; auto 10|].
    rewrite (proj2 (Z.ltb_ge v 0)) by lia. cbv zeta.
    destruct (add_commit_ok s1 v msg T1 H1 ltac:(lia) Hf) as (s2 & E2 & [(s3 & E3 & T3 & H3 & En & Eh & El & Ec & Lb) | [E3 Ref]]);
      rewrite E2; cbn [rbind]; rewrite E3; cbn [rbind]; [|right; split; [reflexivity | left; exact (refused_le s s1 N1 Ref)]].
    set (r := msi_entry v msg) in *. destruct (bucket_of s3 (data msg) H3) as [b Hb]. rewrite Hb. cbn [of_option rbind].
    assert (r ∈ entries s3) as Hr by (rewrite En, elem_of_app, list_elem_of_singleton; auto).
    assert (r ∉ concat (msi_hashtab s3)) as Nc.
    { rewrite Eh. intros Hc. apply (Hf r); [apply (hashtab_route s1 _ H1 Hc) | reflexivity]. }
    pose proof (hash_insert s3 r b msg T3 H3 Hr Nc Hm eq_refl Hb) as H4.
    pose proof (represents_dynamic s3 s1 v msg M b R1 Hf En Eh Hb) as R4. fold r in R4. set (s4 := set_hashtab _ _) in *.
    assert (table_ok s4) as T4 by (destruct T3; split; assumption).
    destruct (send_known s4 r msg M T4 H4 R4 Hr eq_refl) as [(x & s' & Ex & T' & H' & R' & Sn) | [Ex Ref]]; [left | right].
    + exists x, s'. split; [exact Ex|]. repeat (split; [assumption|]). destruct Sn as [(-> & Ln & Fu) | (w & Lw & Rw)].
      * exfalso. destruct (raise_ok (gsi r) s4) as [[y Ey] | [Ey _]]; rewrite Ey in Ex; [|discriminate]. injection Ex as _ <-.
        cbn in Ln. apply (f_equal length) in Ln. simpl in Ln. lia.
      * right. exists w. split; [|exact Rw]. rewrite Lw. cbn [lines set_hashtab s4]. rewrite El, L1. reflexivity.
    + split; [exact Ex|]. right. destruct Ref as (w & Hw & Lw). exists w. split; [|exact Lw].
      cbn [used_gsi_bitmap set_hashtab s4] in Hw. rewrite Lb, (t_len s1 T1), C1, <- (t_len s T) in Hw. exact Hw.
Qed.

(** A device gives its route back. *)
Lemma release_msi_ok s v m M : table_ok s -> hash_ok s -> represents s M -> M !! v = Some m -> exists s',
  release v s = Ok s' /\ table_ok s' /\ hash_ok s' /\ represents s' (delete v M).
Proof.
  intros T H R Hv. apply R in Hv as (Hm & He & Hn). destruct (release_ok s _ T He I) as (b & l & E & T' & P).
  eexists. split; [exact E|]. split; [exact T'|]. set (e := msi_entry v m) in *.
  assert (forall x, x ∈ l -> x ∈ entries s) as Sub by (intros x Hx; rewrite P; right; exact Hx).
  assert (forall x, x ∈ l -> gsi x <> v) as Ne.
  { intros x Hx Ex. pose proof (proj1 (t_msi s T e He I)) as Re. apply (routes_perm _ _ _ _ P) in Re. rewrite filter_cons_True in Re by reflexivity.
    injection Re as Re. assert (x ∈ routes_of v l) as Hin by (apply list_elem_of_filter; auto). rewrite Re in Hin. inversion Hin. }
  split.
  - destruct H as [H1 H2 H3 H4]. split; simpl; auto. intros h bk r Hh Hr. destruct (H4 h bk r Hh Hr) as [Hin Hx]. split; [|exact Hx].
    rewrite P, elem_of_cons in Hin. destruct Hin as [-> | ?]; [|assumption]. destruct Hn. apply in_hashtab. eauto.
  - intros v' m'. cbn [entries msi_hashtab set_bitmap set_entries]. destruct (decide (v' = v)) as [-> | N].
    + rewrite lookup_delete_eq. split; [discriminate|]. intros (_ & Hin & _). destruct (Ne _ Hin eq_refl).
    + rewrite lookup_delete_ne, (R v' m') by congruence. split; intros (Hm' & Hin & Hn'); (split; [exact Hm'|]; split; [|exact Hn']); [|auto].
      rewrite P, elem_of_cons in Hin. destruct Hin as [Ee | ?]; [injection Ee as -> _; contradiction | assumption].
Qed.

Lemma update_loop_ok new e s : gsi e = gsi new -> forall l pre, routes_of (gsi new) l = [e] -> exists l1 l2, l = l1 ++ e :: l2 /\
  update_loop routing_ret new pre l s =
    if bool_decide (e = new) then Ok (0, s)
    else let? s := kvm_irqchip_commit_routes routing_ret (set_entries (pre ++ l1 ++ new :: l2) s) in Ok (0, s).
Proof.
  intros Eg. induction l as [|x l IH]; intros pre R; [discriminate|]. rewrite filter_cons in R. cbn [update_loop].
  destruct (decide (gsi x = gsi new)) as [E | N].
  - injection R as -> R. exists [], l. split; [reflexivity|]. rewrite E, Z.eqb_refl. reflexivity.
  - destruct (IH (pre ++ [x]) R) as (l1 & l2 & -> & El). exists (x :: l1), l2. split; [reflexivity|].
    rewrite (proj2 (Z.eqb_neq _ _) N). cbn [negb]. rewrite El, <- app_assoc. reflexivity.
Qed.

(** An MSI entry is replaced by another with its number. *)
Lemma table_replace s e new l1 l2 : table_ok s -> entries s = l1 ++ e :: l2 -> is_msi e -> gsi new = gsi e ->
  table_ok (set_entries (l1 ++ new :: l2) s).
Proof.
  intros T El Me Eg. pose proof T as [C L W Hu Hg Hs Ha].
  assert (forall x, x ∈ l1 ++ new :: l2 -> x = new \/ (x ∈ entries s /\ x <> e) \/ x = e /\ x ∈ entries s) as Cases.
  { intros x. rewrite El, !elem_of_app, !elem_of_cons. destruct (decide (x = e)); tauto. }
  assert (e ∈ entries s) as He by (rewrite El, elem_of_app, elem_of_cons; auto).
  destruct (Hs e He Me) as [Re Ce]. rewrite El, filter_app, filter_cons_True in Re by reflexivity.
  assert (routes_of (gsi e) l1 = [] /\ routes_of (gsi e) l2 = []) as [R1 R2].
  { pose proof (f_equal length Re) as Hl. rewrite length_app in Hl. simpl in Hl.
    split; apply nil_length_inv; lia. }
  split; simpl; auto.
  - intros g Hr. rewrite Hu by exact Hr. rewrite El. setoid_rewrite elem_of_app. setoid_rewrite elem_of_cons.
    split; (intros [? | (x & Hx & Ex)]; [auto | right]); destruct Hx as [Hx | [-> | Hx]]; [| exists new | | | exists e |]; eauto; split; auto; congruence.
  - intros x Hx. destruct (Cases x Hx) as [-> | [[Hin _] | [_ Hin]]]; [rewrite Eg|..]; auto.
  - intros x Hx Mx. rewrite filter_app, filter_cons. destruct (decide (gsi x = gsi e)) as [E | N].
    + rewrite E, R1, R2. rewrite decide_True by exact Eg. split; [|lia]. simpl. f_equal.
      rewrite elem_of_app, elem_of_cons in Hx. destruct Hx as [Hx | [-> | Hx]]; [|reflexivity|];
        [assert (x ∈ routes_of (gsi e) l1) as Hin | assert (x ∈ routes_of (gsi e) l2) as Hin]; try (apply list_elem_of_filter; auto);
        [rewrite R1 in Hin | rewrite R2 in Hin]; inversion Hin.
    + rewrite decide_False by congruence. assert (x ∈ entries s) as Hin.
      { destruct (Cases x Hx) as [-> | [[Hin _] | [_ Hin]]]; [congruence | assumption..]. }
      destruct (Hs x Hin Mx) as [R ?]. rewrite El, filter_app, filter_cons_False in R by congruence. auto.
  - rewrite length_app. rewrite El, length_app in Ha. exact Ha.
Qed.

Lemma update_msi_ok s v m0 m M : table_ok s -> hash_ok s -> msg_ok m -> represents s M -> M !! v = Some m0 ->
  (exists s', update_msi_route v m s = Ok (0, s') /\ table_ok s' /\ hash_ok s' /\ represents s' (<[v := m]> M)) \/
  (update_msi_route v m s = Err Aborted /\ table_refused s).
Proof.
  intros T H Hm R Hv. pose proof Hv as Hv'. apply R in Hv' as (Hm0 & He & Hn). unfold kvm_irqchip_update_msi_route, kvm_update_routing_entry.
  cbn [negb kvm_arch_fixup_msi_route Z.eqb]. set (e := msi_entry v m0) in *. set (new := msi_entry v m).
  destruct (update_loop_ok new e s eq_refl (entries s) []) as (l1 & l2 & El & ->); [apply (t_msi s T e He I)|].
  case_bool_decide as Ee.
  - left. exists s. split; [reflexivity|]. split; [exact T|]. split; [exact H|]. apply msi_entry_inj in Ee as [_ <-]; auto.
    rewrite insert_id by exact Hv. exact R.
  - unfold kvm_irqchip_commit_routes. set (s1 := set_entries _ s). cbn [app] in s1.
    destruct (Z.eqb_spec (routing_ret (entries s1)) 0) as [Hz | Hz]; cbn [rbind]; [left|right].
    2: { split; [reflexivity|]. exists (entries s1). split; [|exact Hz]. unfold s1. cbn [entries set_entries]. rewrite El, !length_app. cbn [length]. lia. }
    pose proof (table_replace s e new l1 l2 T El I eq_refl) as T1. fold s1 in T1.
    assert (forall x, x ∈ entries s1 <-> x = new \/ (x ∈ entries s /\ x <> e)) as In1.
    { intros x. unfold s1. cbn [entries set_entries]. rewrite El, !elem_of_app, !elem_of_cons. destruct (decide (x = e)) as [-> |]; [|tauto].
      assert (new ∈ entries s1) as Hnew by (unfold s1; simpl; rewrite elem_of_app, elem_of_cons; auto).
      split; [|tauto]. intros Hx. left. apply (msi_unique s1 new e T1 Hnew I); [|reflexivity]. unfold s1. simpl.
      rewrite elem_of_app, elem_of_cons. tauto. }
    eexists. split; [reflexivity|]. split; [destruct T1; split; assumption|]. split.
    + destruct H as [H1 H2 H3 H4]. split; auto.
      * intros x Hx Mx. apply (t_msi s1 T1 x Hx Mx).
      * intros h b r Hh Hr. destruct (H4 h b r Hh Hr) as [Hin Hx]. split; [|exact Hx]. apply In1. right. split; [exact Hin|].
        intros ->. apply Hn, in_hashtab. eauto.
    + intros v' m'. change (entries (set_committed _ s1)) with (entries s1). change (msi_hashtab (set_committed _ s1)) with (msi_hashtab s).
      rewrite In1. destruct (decide (v' = v)) as [-> | N].
      * rewrite lookup_insert_eq. split.
        -- intros [= <-]. split; [exact Hm|]. split; [auto|]. intros Hc. destruct (hashtab_route s _ H Hc) as [Hin _].
           apply Ee. symmetry. apply (msi_unique s e new T He I Hin eq_refl).
        -- intros (Hm' & [E' | [Hin Ne]] & _); [apply msi_entry_inj in E' as [_ ->]; auto|].
           destruct Ne. apply (msi_unique s e _ T He I Hin eq_refl).
      * rewrite lookup_insert_ne, (R v' m') by congruence. split; intros (Hm' & Hin & Hn'); (split; [exact Hm'|]; split; [|exact Hn']).
        -- right. split; [exact Hin|]. intros E'. injection E' as -> _. contradiction.
        -- destruct Hin as [E' | [? _]]; [injection E' as -> _; contradiction | assumption].
Qed.

(** ** Sequences of operations *)

Inductive route_op :=
  | Add_route (m : MSIMessage)
  | Update_route (v : Z) (m : MSIMessage)
  | Release_route (v : Z)
  | Send_msi (m : MSIMessage).

Definition route_run (o : route_op) (s : KVMState) : res (Z * KVMState) :=
  match o with
  | Add_route m => add_msi_route m s
  | Update_route v m => update_msi_route v m s
  | Release_route v => let? s := release v s in Ok (0, s)
  | Send_msi m => send_msi m s
  end.

(** What an operation does to the routes that the devices hold, and its result. *)
Inductive route_spec : route_op -> Z -> gmap Z MSIMessage -> gmap Z MSIMessage -> Prop :=
  | spec_add m v M : 0 <= v -> M !! v = None -> route_spec (Add_route m) v M (<[v := m]> M)
  | spec_full m M : route_spec (Add_route m) (- ENOSPC) M M
  | spec_update v m m0 M : M !! v = Some m0 -> route_spec (Update_route v m) 0 M (<[v := m]> M)
  | spec_release v M : route_spec (Release_route v) 0 M (delete v M)
  | spec_send m r M : route_spec (Send_msi m) r M M.

(** The devices use the routes they hold, and messages of the width of the registers. *)
Definition route_valid (o : route_op) (M : gmap Z MSIMessage) : Prop :=
  match o with
  | Add_route m | Send_msi m => msg_ok m
  | Update_route v m => msg_ok m /\ is_Some (M !! v)
  | Release_route v => is_Some (M !! v)
  end.

(** The state stands for the routes [M], and the kernel has them. *)
Record routes_ok (s : KVMState) (M : gmap Z MSIMessage) : Prop := {
  ro_table : table_ok s; ro_hash : hash_ok s; ro_rep : represents s M }.

Lemma routes_ok_kernel s M v m : routes_ok s M -> M !! v = Some m -> routes_of v (committed s) = [msi_entry v m].
Proof. intros [T H R] Hv. apply R in Hv as (_ & He & _). apply (h_kernel s H _ He I). Qed.

(** Why an operation may abort. *)
Definition refused (o : route_op) (s : KVMState) : Prop :=
  match o with
  | Add_route _ | Update_route _ _ => table_refused s
  | Release_route _ => False
  | Send_msi _ => table_refused s \/ line_refused s
  end.


End working.

(** ** The start *)

Lemma mark_above_ok n : forall i s, words_ok (used_gsi_bitmap s) -> 0 <= i -> i + Z.of_nat n <= capacity (used_gsi_bitmap s) ->
  exists b, mark_above n i s = Ok (set_bitmap b s) /\ words_ok b /\ length b = length (used_gsi_bitmap s) /\
    forall h, 0 <= h -> used b h = ((i <=? h) && (h <? i + Z.of_nat n)) || used (used_gsi_bitmap s) h.
Proof.
  induction n as [|n IH]; intros i s W Hi Hc; cbn [mark_above].
  - exists (used_gsi_bitmap s). split; [destruct s; reflexivity|]. split; [exact W|]. split; [reflexivity|]. intros h Hh.
    destruct (Z.leb_spec i h), (Z.ltb_spec h (i + Z.of_nat 0)); try reflexivity. lia.
  - destruct (set_gsi_ok i s W) as (b & E & Wb & Lb & U); [lia|]. rewrite E. cbn [rbind].
    destruct (IH (i + 1) (set_bitmap b s)) as (b' & E' & W' & L' & U'); [exact Wb | lia | simpl; rewrite Lb; lia|].
    exists b'. split; [exact E'|]. split; [exact W'|]. split; [simpl in L'; congruence|]. intros h Hh. rewrite U' by exact Hh. simpl. rewrite U by exact Hh.
    destruct (Z.eqb_spec h i), (Z.leb_spec i h), (Z.ltb_spec h (i + Z.of_nat (S n))), (Z.leb_spec (i + 1) h), (Z.ltb_spec h (i + 1 + Z.of_nat n));
      simpl; rewrite ?orb_true_r; try reflexivity; lia.
Qed.

Lemma used_replicate n h : used (replicate n 0) h = false.
Proof. unfold used. destruct (replicate n 0 !! _) as [w|] eqn:E; [|reflexivity]. apply lookup_replicate in E as [-> _]. apply Z.bits_0. Qed.

(** Only routes to the interrupt controllers are in the table. *)
Definition chips_only (s : KVMState) : Prop := forall e, e ∈ entries s -> ~ is_msi e.

Lemma init_ok count : 1 < count -> exists s, kvm_init_irq_routing count = Ok s /\ table_ok s /\ entries s = [] /\ gsi_count s = count - 1 /\
  msi_hashtab s = replicate KVM_MSI_HASHTAB_SIZE [].
Proof.
  intros Hc. unfold kvm_init_irq_routing. cbv zeta. rewrite (proj2 (Z.ltb_lt 0 (count - 1))) by lia.
  pose proof (align32_div (count - 1) ltac:(lia)) as [Ha Hp]. set (w := align32 (count - 1) / 32) in *.
  assert (align32 (count - 1) = 32 * w) as Ea.
  { unfold w, align32. change (Z.lnot 31) with (Z.lnot (Z.ones 5)). rewrite <- Z.ldiff_land, Z.ldiff_ones_r by lia.
    rewrite Z.shiftl_mul_pow2 by lia. change (2 ^ 5) with 32. rewrite Z.div_mul by lia. lia. }
  rewrite Ea. set (s0 := mk_state _ _ _ _ _ _ _ _).
  destruct (mark_above_ok (Z.to_nat (32 * w - (count - 1))) (count - 1) s0) as (b & E & Wb & Lb & U).
  - simpl. apply Forall_forall. intros x [-> _]%elem_of_replicate. lia.
  - lia.
  - simpl. rewrite length_replicate. lia.
  - simpl in Lb. rewrite length_replicate in Lb. eexists. split; [exact E|]. split; [|auto].
    split; simpl; [lia | exact Lb | exact Wb | | intros e He; inversion He | intros e He; inversion He | lia].
    intros g Hg. rewrite U by lia. simpl. rewrite used_replicate, orb_false_r. rewrite Lb in Hg.
    split.
    + intros [H1%Z.leb_le H2%Z.ltb_lt]%andb_true_iff. auto.
    + intros [H1 | (e & He & _)]; [|inversion He]. apply andb_true_iff. split; [apply Z.leb_le | apply Z.ltb_lt]; lia.
Qed.

Lemma add_irq_route_ok irq chip pin s : table_ok s -> chips_only s -> 0 <= irq < gsi_count s -> pin < gsi_count s -> exists s',
  kvm_irqchip_add_irq_route irq chip pin s = Ok s' /\ table_ok s' /\ chips_only s' /\ gsi_count s' = gsi_count s /\
  entries s' = entries s ++ [mk_entry irq (To_irqchip chip pin)] /\ msi_hashtab s' = msi_hashtab s.
Proof.
  intros T O Hi Hp. pose proof (capacity_ok s T) as Hc. unfold kvm_irqchip_add_irq_route, kvm_add_routing_entry.
  rewrite (proj2 (Z.ltb_lt _ _) Hp). cbv zeta. set (e := mk_entry irq _). destruct (grow_ok s T) as (n & -> & Hn).
  destruct (set_gsi_ok (gsi e) (set_entries (entries s ++ [e]) (set_allocated n s))) as (b & E & W & Lb & U); [apply (t_words s T) | simpl; lia|].
  eexists. split; [exact E|]. pose proof T as [C L _ Hu Hg Hs Ha].
  assert (chips_only (set_bitmap b (set_entries (entries s ++ [e]) (set_allocated n s)))) as O'.
  { intros x. cbn [entries set_bitmap set_entries]. rewrite elem_of_app, list_elem_of_singleton. intros [Hx | ->]; [apply O, Hx | intros []]. }
  split; [|auto]. simpl in Lb. split; simpl; auto.
  - congruence.
  - rewrite Lb. intros g Hr. rewrite U by lia. cbn [set_entries set_allocated used_gsi_bitmap]. setoid_rewrite elem_of_app. setoid_rewrite list_elem_of_singleton.
    destruct (Z.eqb_spec g (gsi e)) as [-> | N]; [split; eauto|]. rewrite Hu by exact Hr. split.
    + intros [? | (x & Hx & Ex)]; eauto.
    + intros [? | (x & [Hx | ->] & Ex)]; [auto | eauto | congruence].
  - rewrite Lb. intros x [Hx | ->%list_elem_of_singleton]%elem_of_app; [auto | simpl; lia].
  - intros x Hx Mx. destruct (O' x Hx Mx).
  - rewrite length_app. simpl. lia.
Qed.

Lemma add_irq_routes_ok l : forall s, table_ok s -> chips_only s -> Forall (fun p => 0 <= p.1.1 < gsi_count s /\ p.2 < gsi_count s) l ->
  exists s', add_irq_routes l s = Ok s' /\ table_ok s' /\ chips_only s' /\ msi_hashtab s' = msi_hashtab s /\
    entries s' = entries s ++ ((fun p => mk_entry p.1.1 (To_irqchip p.1.2 p.2)) <$> l).
Proof.
  induction l as [|[[irq chip] pin] l IH]; intros s T O F; cbn [add_irq_routes].
  - exists s. rewrite app_nil_r. auto 10.
  - apply Forall_cons in F as [[Hi Hp] F]. destruct (add_irq_route_ok irq chip pin s T O Hi Hp) as (s1 & -> & T1 & O1 & C1 & E1 & H1).
    cbn [rbind]. destruct (IH s1 T1 O1) as (s' & E & T' & O' & H' & Ee); [rewrite C1; exact F|].
    exists s'. split; [exact E|]. split; [exact T'|]. split; [exact O'|]. split; [congruence|]. rewrite Ee, E1, <- app_assoc. reflexivity.
Qed.

Lemma pc_routes_small pci : Forall (fun p => 0 <= p.1.1 < 24 /\ p.2 < 24) (pc_routes pci).
Proof. destruct pci; vm_compute; repeat constructor; discriminate. Qed.

(** Without messages there is nothing that the devices hold. *)
Lemma chips_routes_ok s : table_ok s -> chips_only s -> msi_hashtab s = replicate KVM_MSI_HASHTAB_SIZE [] -> routes_ok s ∅.
Proof.
  intros T O Eh. assert (concat (msi_hashtab s) = []) as E0 by (rewrite Eh; reflexivity). split; [exact T | split|].
  - intros e He Me. destruct (O e He Me).
  - rewrite Eh. reflexivity.
  - rewrite E0. constructor.
  - intros h b r Hb Hin. assert (r ∈ concat (msi_hashtab s)) as Hx by (apply in_hashtab; eauto). rewrite E0 in Hx. inversion Hx.
  - intros v m. rewrite lookup_empty. split; [discriminate|]. intros (_ & He & _). destruct (O _ He I).
Qed.

(** After [kvm_init_irq_routing] and [kvm_pc_setup_irq_routing] the kernel has the routes of
    the PICs and of the I/O APIC, no message is routed, and the invariant holds; this needs
    24 numbers at least. *)
Theorem irq_setup routing_ret count pci : (forall l, routing_ret l = 0) -> 25 <= count -> exists s s',
  kvm_init_irq_routing count = Ok s /\ kvm_pc_setup_irq_routing routing_ret count pci s = Ok s' /\ routes_ok s' ∅ /\
  committed s' = (fun p => mk_entry p.1.1 (To_irqchip p.1.2 p.2)) <$> pc_routes pci.
Proof.
  intros Hr Hc. destruct (init_ok count ltac:(lia)) as (s & E & T & En & Ec & Eh). exists s.
  destruct (add_irq_routes_ok (pc_routes pci) s T) as (s1 & E1 & T1 & O1 & H1 & Ee).
  { intros e. rewrite En. intros He. inversion He. }
  { eapply Forall_impl; [apply pc_routes_small|]. simpl. intros p Hp. lia. }
  rewrite En in Ee. cbn [app] in Ee. exists (set_committed (entries s1) s1). split; [exact E|]. unfold kvm_pc_setup_irq_routing.
  rewrite (proj2 (Z.eqb_neq count 0)) by lia. cbn [negb]. rewrite E1. cbn [rbind]. unfold kvm_irqchip_commit_routes. rewrite Hr.
  split; [reflexivity|]. split; [|exact Ee].
  apply chips_routes_ok; [destruct T1; split; assumption | exact O1 | exact (eq_trans H1 Eh)].
Qed.

(** ** Examples *)

Lemma swap_remove_last2 a b (l : list kvm_irq_routing_entry) : swap_remove (length l) (l ++ [a; b]) = l ++ [b].
Proof.
  unfold swap_remove. rewrite length_app. cbn [length]. replace (pred (length l + 2)) with (length l + 1)%nat by lia.
  rewrite lookup_app_r by lia. replace (length l + 1 - length l)%nat with 1%nat by lia. cbn [lookup list_lookup].
  replace (<[length l := b]> (l ++ [a; b])) with ((l ++ [b]) ++ [b]).
  - apply take_app_length'. rewrite length_app. reflexivity.
  - rewrite insert_app_r_alt by lia. rewrite Nat.sub_diag, <- app_assoc. reflexivity.
Qed.

(** When two entries at the end of the table have the number that is released, the second takes
    the place of the first and is not looked at: it stays in the table, though its number is
    marked as free. *)
Theorem release_skips_moved a b l v : (forall e, e ∈ l -> gsi e <> v) -> gsi a = v -> gsi b = v ->
  release_loop v (length (l ++ [a; b])) 0 (l ++ [a; b]) = l ++ [b].
Proof.
  intros Hl Ha Hb. assert (forall n i, (i <= length l)%nat -> (length l - i + 1 <= n)%nat -> release_loop v n i (l ++ [a; b]) = l ++ [b]) as G.
  { induction n as [|n IH]; intros i Hi Hn; [lia|]. cbn [release_loop]. destruct (decide (i = length l)) as [-> | N].
    - rewrite list_lookup_middle by reflexivity. rewrite Ha, Z.eqb_refl, swap_remove_last2. apply release_none.
      intros j e Hj He. apply lookup_lt_Some in He. rewrite length_app in He. simpl in He. lia.
    - destruct (lookup_lt_is_Some_2 l i) as [e He]; [lia|]. rewrite (lookup_app_l_Some _ _ _ _ He).
      rewrite (proj2 (Z.eqb_neq _ _)) by (apply Hl; eapply list_elem_of_lookup_2, He). apply IH; lia. }
  apply G; rewrite ?length_app; simpl; lia.
Qed.

Definition demo_msg : MSIMessage := mk_msg 0xfee01000 0x4031.

Lemma demo_routes : exists s, kvm_init_irq_routing 1025 = Ok s /\ entries s = [] /\ routes_ok s ∅.
Proof.
  destruct (init_ok 1025 ltac:(lia)) as (s & E & T & En & _ & Eh). exists s. split; [exact E|]. split; [exact En|].
  apply chips_routes_ok; auto. intros e He. rewrite En in He. inversion He.
Qed.

(** A kernel that takes tables of up to 4096 entries. *)
Definition demo_routing (l : list kvm_irq_routing_entry) : Z := if (length l <=? 4096)%nat then 0 else - EINVAL.

Lemma demo_not_refused s : (length (entries s) < 4096)%nat -> ~ table_refused demo_routing s.
Proof. intros Hs (l & Hl & Hr). apply Hr. unfold demo_routing. rewrite (proj2 (Nat.leb_le _ _)) by lia. reflexivity. Qed.



Lemma irq_setup_witness : exists s s', kvm_init_irq_routing 1025 = Ok s /\ kvm_pc_setup_irq_routing (fun _ => 0) 1025 true s = Ok s' /\
  routes_ok s' ∅ /\ committed s' = (fun p => mk_entry p.1.1 (To_irqchip p.1.2 p.2)) <$> pc_routes true.
Proof. apply (irq_setup (fun _ => 0) 1025 true); [reflexivity | lia]. Defined.
