(* ===== verification/KvmIo.v ===== *)
(** * I/O between guest and QEMU (kvm-all.c)

    The wrappers of the ioctls and of the capability checks, the eventfds that the kernel signals
    on writes of the guest (ioeventfd), the ring of coalesced MMIO writes, and the port accesses
    of an I/O exit.  The results of ioctls are parameters; device memory is a parameter [phys_write]
    on a state of the devices. *)

From Stdlib Require Import ZArith Lia Bool.
From stdpp Require Import base list.
From S2P Require Import Prelude.

Open Scope Z_scope.
Open Scope rz.

(** ** ioctls and capabilities *)

(** [kvm_ioctl], [kvm_vm_ioctl], [kvm_vcpu_ioctl], [kvm_device_ioctl] *)
Definition kvm_ioctl (ret errno : Z) : Z := if ret =? -1 then - errno else ret.

Definition kvm_check_extension (ret : Z) : Z := if ret <? 0 then 0 else ret.
Definition kvm_vm_check_extension (vm global : Z) : Z := if vm <? 0 then kvm_check_extension global else vm.

(** The first capability that is missing. *)
Definition kvm_check_extension_list (check_extension : Z -> Z) (l : list Z) : option Z :=
  snd <$> list_find (fun c => check_extension c = 0) l.

Definition kvm_recommended_vcpus (nr_vcpus : Z) : Z := if negb (nr_vcpus =? 0) then nr_vcpus else 4.
Definition kvm_max_vcpus (max_vcpus nr_vcpus : Z) : Z := if negb (max_vcpus =? 0) then max_vcpus else kvm_recommended_vcpus nr_vcpus.

(** ** ioeventfds *)

Definition KVM_IOEVENTFD_FLAG_DATAMATCH : Z := 1.
Definition KVM_IOEVENTFD_FLAG_PIO : Z := 2.
Definition KVM_IOEVENTFD_FLAG_DEASSIGN : Z := 4.

Record kvm_ioeventfd := mk_iofd { datamatch : Z; io_addr : Z; io_len : Z; io_fd : Z; io_flags : Z }.

(** Guest and host have the same byte order. *)
Definition adjust_ioeventfd_endianness (val size : Z) : Z := val.

Definition iofd_flags (base : Z) (assign match_data : bool) : Z :=
  let flags := if match_data then Z.lor base KVM_IOEVENTFD_FLAG_DATAMATCH else base in
  if assign then flags else Z.lor flags KVM_IOEVENTFD_FLAG_DEASSIGN.

(** The requests; the value is a uint32_t and a uint16_t. *)
Definition iofd_mmio (fd addr val : Z) (assign : bool) (size : Z) (match_data : bool) : kvm_ioeventfd :=
  mk_iofd (if match_data then adjust_ioeventfd_endianness (u32 val) size else 0) addr (u32 size) fd (iofd_flags 0 assign match_data).
Definition iofd_pio (fd addr val : Z) (assign : bool) (size : Z) (match_data : bool) : kvm_ioeventfd :=
  mk_iofd (if match_data then adjust_ioeventfd_endianness (val mod 2 ^ 16) size else 0) (addr mod 2 ^ 16) (u32 size) fd
    (iofd_flags KVM_IOEVENTFD_FLAG_PIO assign match_data).

Section ioeventfd.
(** The result of KVM_IOEVENTFD, from the requests made so far, newest first. *)
Variable iofd_ret : list kvm_ioeventfd -> Z.
Variable kvm_enabled : bool.

Definition iofd_ioctl (r : kvm_ioeventfd) (calls : list kvm_ioeventfd) : Z * list kvm_ioeventfd :=
  if negb kvm_enabled then (- ENOSYS, calls)
  else let ret := iofd_ret (r :: calls) in (if ret <? 0 then ret else 0, r :: calls).

Definition kvm_set_ioeventfd_mmio (fd addr val : Z) (assign : bool) (size : Z) (match_data : bool) :
    list kvm_ioeventfd -> Z * list kvm_ioeventfd := iofd_ioctl (iofd_mmio fd addr val assign size match_data).
Definition kvm_set_ioeventfd_pio (fd addr val : Z) (assign : bool) (size : Z) (match_data : bool) :
    list kvm_ioeventfd -> Z * list kvm_ioeventfd := iofd_ioctl (iofd_pio fd addr val assign size match_data).

(** The listeners: [kvm_mem_ioeventfd_add], [kvm_mem_ioeventfd_del], [kvm_io_ioeventfd_add] and
    [kvm_io_ioeventfd_del]. *)
Definition kvm_mem_ioeventfd (assign : bool) (fd addr data size : Z) (match_data : bool) (calls : list kvm_ioeventfd) : res (list kvm_ioeventfd) :=
  let '(r, calls) := kvm_set_ioeventfd_mmio fd addr data assign size match_data calls in if r <? 0 then Err Aborted else Ok calls.
Definition kvm_io_ioeventfd (assign : bool) (fd addr data size : Z) (match_data : bool) (calls : list kvm_ioeventfd) : res (list kvm_ioeventfd) :=
  let '(r, calls) := kvm_set_ioeventfd_pio fd addr data assign size match_data calls in if r <? 0 then Err Aborted else Ok calls.

(** The probe: [fds] are the results of eventfd.  The number of descriptors in use at the end of
    the first loop, the requests, and the descriptors closed. *)
Fixpoint probe_loop (fds : list Z) (i : Z) (calls : list kvm_ioeventfd) : list Z * list kvm_ioeventfd * list Z :=
  match fds with
  | [] => ([], calls, [])
  | fd :: fds =>
      if fd <? 0 then ([], calls, [])
      else
        let '(ret, calls) := kvm_set_ioeventfd_pio fd 0 i true 2 true calls in
        if ret <? 0 then ([], calls, [fd])
        else let '(open, calls, closed) := probe_loop fds (i + 1) calls in (fd :: open, calls, closed)
  end.

(** [while (i-- > 0)]: [open] is what is left, [n] its length. *)
Fixpoint unwind (open : list Z) (i : Z) (calls : list kvm_ioeventfd) (closed : list Z) : list kvm_ioeventfd * list Z :=
  match open with
  | [] => (calls, closed)
  | fd :: open =>
      let '(calls, closed) := unwind open (i + 1) calls closed in
      ((kvm_set_ioeventfd_pio fd 0 i false 2 true calls).2, fd :: closed)
  end.

Definition kvm_check_many_ioeventfds (fds : list Z) (calls : list kvm_ioeventfd) : Z * list kvm_ioeventfd * list Z :=
  let '(open, calls, closed) := probe_loop fds 0 calls in
  let ret := if (length open =? length fds)%nat then 1 else 0 in
  let '(calls, closed) := unwind open 0 calls closed in (ret, calls, closed).
End ioeventfd.

(** ** Coalesced MMIO *)

(** [(PAGE_SIZE - sizeof(struct kvm_coalesced_mmio_ring)) / sizeof(struct kvm_coalesced_mmio)] *)
Definition KVM_COALESCED_MMIO_MAX : Z := (4096 - 8) / 24.

Record kvm_coalesced_mmio := mk_mmio { phys_addr : Z; mmio_len : Z; mmio_data : list Z }.
Record kvm_coalesced_mmio_ring := mk_ring { first : Z; last : Z; coalesced_mmio : list kvm_coalesced_mmio }.

Section coalesced.
Context {D : Type}.
Variable phys_write : Z -> list Z -> D -> D.

Fixpoint ring_loop (fuel : nat) (r : kvm_coalesced_mmio_ring) (d : D) : res (kvm_coalesced_mmio_ring * D) :=
  match fuel with
  | O => Err OutOfFuel
  | S fuel =>
      if negb (first r =? last r) then
        let? ent := of_option OutOfBounds (coalesced_mmio r !! Z.to_nat (first r)) in
        let d := phys_write (phys_addr ent) (take (Z.to_nat (mmio_len ent)) (mmio_data ent)) d in
        ring_loop fuel (mk_ring ((first r + 1) mod KVM_COALESCED_MMIO_MAX) (last r) (coalesced_mmio r)) d
      else Ok (r, d)
  end.

(** [busy] is coalesced_flush_in_progress; there is no ring without the capability. *)
Definition kvm_flush_coalesced_mmio_buffer (busy : bool) (ring : option kvm_coalesced_mmio_ring) (d : D) : res (option kvm_coalesced_mmio_ring * D) :=
  if busy then Ok (ring, d)
  else match ring with
       | None => Ok (None, d)
       | Some r => let? (r, d) := ring_loop (Z.to_nat KVM_COALESCED_MMIO_MAX) r d in Ok (Some r, d)
       end.
End coalesced.

(** ** Port I/O *)

Section ports.
Context {D : Type}.
(** address_space_rw on the I/O ports. *)
Variables (io_write : Z -> list Z -> D -> D) (io_read : Z -> nat -> D -> list Z * D).

(** [ptr] runs over the data in steps of [size]. *)
Fixpoint io_loop (n : nat) (port : Z) (out : bool) (size ptr : nat) (data : list Z) (d : D) : res (list Z * D) :=
  match n with
  | O => Ok (data, d)
  | S n =>
      if (ptr + size <=? length data)%nat then
        if out then io_loop n port out size (ptr + size) data (io_write port (take size (drop ptr data)) d)
        else let '(bytes, d) := io_read port size d in
             io_loop n port out size (ptr + size) (take ptr data ++ bytes ++ drop (ptr + size) data) d
      else Err OutOfBounds
  end.

Definition kvm_handle_io (port : Z) (data : list Z) (out : bool) (size count : nat) (d : D) : res (list Z * D) :=
  io_loop count port out size 0 data d.
End ports.

(** ** Facts *)

(** The values of a port eventfd are cut to 16 bits: a value of four bytes is matched as the
    number of its two low bytes. *)
Theorem pio_match_truncated fd addr assign v : 0 <= v < 2 ^ 32 ->
  datamatch (iofd_pio fd addr v assign 4 true) = v <-> v < 2 ^ 16.
Proof.
  intros Hv. cbn [iofd_pio datamatch]. unfold adjust_ioeventfd_endianness. split.
  - intros <-. apply Z.mod_pos_bound. lia.
  - intros Hs. apply Z.mod_small. lia.
Qed.

(** What the probe takes back, first descriptor first. *)
Fixpoint take_back (open : list Z) (i : Z) : list kvm_ioeventfd :=
  match open with [] => [] | fd :: open => iofd_pio fd 0 i false 2 true :: take_back open (i + 1) end.

Lemma unwind_spec ret open : forall i calls closed,
  unwind ret true open i calls closed = (take_back open i ++ calls, open ++ closed).
Proof.
  induction open as [|fd open IH]; intros i calls closed; [reflexivity|]. cbn [unwind take_back]. rewrite IH. reflexivity.
Qed.

(** The requests that the first loop makes, newest first, when [open] of them succeed and
    perhaps one more fails. *)
Lemma probe_spec ret fds : forall i calls, exists open closed made,
  probe_loop ret true fds i calls = (open, made ++ calls, closed) /\ exists rest, fds = open ++ closed ++ rest /\
  (length closed <= 1)%nat /\ length made = (length open + length closed)%nat.
Proof.
  induction fds as [|fd fds IH]; intros i calls; cbn [probe_loop]; [exists [], [], []; split; [reflexivity|]; exists []; auto|].
  destruct (fd <? 0); [exists [], [], []; split; [reflexivity|]; exists (fd :: fds); auto|].
  unfold kvm_set_ioeventfd_pio, iofd_ioctl. cbn [negb]. set (r := iofd_pio fd 0 i true 2 true). destruct (_ <? 0) eqn:E.
  - exists [], [fd], [r]. split; [reflexivity|]. exists fds. auto.
  - destruct (IH (i + 1) (r :: calls)) as (open & closed & made & -> & rest & -> & H1 & H2).
    exists (fd :: open), closed, (made ++ [r]). rewrite <- app_assoc. split; [reflexivity|]. exists rest.
    split; [reflexivity|]. split; [exact H1|]. rewrite length_app. simpl. lia.
Qed.

(** The probe leaves nothing behind: every descriptor it got is closed, and every request that
    succeeded is undone; the answer is 1 exactly when all of them succeeded. *)
Theorem many_ioeventfds_clean ret fds calls : exists open closed made rest,
  kvm_check_many_ioeventfds ret true fds calls =
    (if (length open =? length fds)%nat then 1 else 0, take_back open 0 ++ made ++ calls, open ++ closed) /\
  fds = open ++ closed ++ rest /\ (length closed <= 1)%nat /\ length made = (length open + length closed)%nat.
Proof.
  unfold kvm_check_many_ioeventfds. destruct (probe_spec ret fds 0 calls) as (open & closed & made & -> & rest & E & H).
  rewrite unwind_spec. exists open, closed, made, rest. auto.
Qed.

(** ** The ring *)

Record ring_ok (r : kvm_coalesced_mmio_ring) : Prop := {
  rk_first : 0 <= first r < KVM_COALESCED_MMIO_MAX; rk_last : 0 <= last r < KVM_COALESCED_MMIO_MAX;
  rk_len : length (coalesced_mmio r) = Z.to_nat KVM_COALESCED_MMIO_MAX }.

(** The entries between [first] and [last], around the end of the array. *)
Definition pending (r : kvm_coalesced_mmio_ring) : list kvm_coalesced_mmio :=
  if first r <=? last r then take (Z.to_nat (last r - first r)) (drop (Z.to_nat (first r)) (coalesced_mmio r))
  else drop (Z.to_nat (first r)) (coalesced_mmio r) ++ take (Z.to_nat (last r)) (coalesced_mmio r).

Definition advance (r : kvm_coalesced_mmio_ring) : kvm_coalesced_mmio_ring :=
  mk_ring ((first r + 1) mod KVM_COALESCED_MMIO_MAX) (last r) (coalesced_mmio r).

Lemma max_eq : KVM_COALESCED_MMIO_MAX = 170. Proof. reflexivity. Qed.

Lemma pending_nil r : first r = last r -> pending r = [].
Proof. intros E. unfold pending. rewrite E, Z.leb_refl, Z.sub_diag. reflexivity. Qed.

Lemma pending_step r e : ring_ok r -> first r <> last r -> coalesced_mmio r !! Z.to_nat (first r) = Some e ->
  pending r = e :: pending (advance r) /\ ring_ok (advance r).
Proof.
  intros [Hf Hl Hn] N He. rewrite max_eq in *. pose proof (drop_S _ _ _ He) as D.
  assert (ring_ok (advance r)) as K.
  { split; simpl; rewrite ?max_eq; auto. apply Z.mod_pos_bound. lia. }
  split; [|exact K]. unfold pending, advance. cbn [first last coalesced_mmio]. rewrite max_eq, D.
  destruct (Z.eq_dec (first r) 169) as [E | Ne].
  - rewrite E. change ((169 + 1) mod 170) with 0. rewrite (proj2 (Z.leb_gt 169 (last r))), (proj2 (Z.leb_le 0 (last r))) by lia.
    rewrite drop_ge by lia. rewrite Z.sub_0_r, drop_0. reflexivity.
  - rewrite Z.mod_small by lia. replace (Z.to_nat (first r + 1)) with (S (Z.to_nat (first r))) by lia.
    destruct (Z.leb_spec (first r) (last r)).
    + rewrite (proj2 (Z.leb_le (first r + 1) (last r))) by lia.
      replace (Z.to_nat (last r - first r)) with (S (Z.to_nat (last r - (first r + 1)))) by lia. reflexivity.
    + rewrite (proj2 (Z.leb_gt (first r + 1) (last r))) by lia. reflexivity.
Qed.

Section flush.
Context {D : Type}.
Variable phys_write : Z -> list Z -> D -> D.

Definition write_entry (d : D) (e : kvm_coalesced_mmio) : D :=
  phys_write (phys_addr e) (take (Z.to_nat (mmio_len e)) (mmio_data e)) d.

Lemma ring_loop_ok fuel : forall r d, ring_ok r -> (length (pending r) < fuel)%nat ->
  ring_loop phys_write fuel r d = Ok (mk_ring (last r) (last r) (coalesced_mmio r), foldl write_entry d (pending r)).
Proof.
  induction fuel as [|fuel IH]; intros r d K Hn; [lia|]. cbn [ring_loop]. destruct (Z.eqb_spec (first r) (last r)) as [E | N]; cbn [negb].
  - rewrite (pending_nil r E). destruct r as [f l c]. simpl in *. subst. reflexivity.
  - pose proof K as [Hf _ Hl]. destruct (lookup_lt_is_Some_2 (coalesced_mmio r) (Z.to_nat (first r))) as [e He].
    { rewrite Hl. apply Z2Nat.inj_lt; lia. }
    rewrite He. cbn [of_option rbind]. destruct (pending_step r e K N He) as [P K']. rewrite P in Hn |- *. simpl in Hn. apply (IH (advance r)); [exact K' | lia].
Qed.

Lemma pending_length r : ring_ok r -> (length (pending r) < Z.to_nat KVM_COALESCED_MMIO_MAX)%nat \/ first r > last r /\ length (pending r) = (Z.to_nat KVM_COALESCED_MMIO_MAX - Z.to_nat (first r) + Z.to_nat (last r))%nat.
Proof.
  intros [Hf Hl Hn]. rewrite max_eq in *. unfold pending. destruct (Z.leb_spec (first r) (last r)).
  - left. rewrite length_take, length_drop. lia.
  - right. rewrite length_app, length_take, length_drop. lia.
Qed.

(** C40: a flush writes the pending entries in their order and leaves the ring empty; it ends
    within one round of the ring. *)
Theorem flush_writes_pending r d : ring_ok r ->
  kvm_flush_coalesced_mmio_buffer phys_write false (Some r) d =
    Ok (Some (mk_ring (last r) (last r) (coalesced_mmio r)), foldl write_entry d (pending r)).
Proof.
  intros K. unfold kvm_flush_coalesced_mmio_buffer. rewrite ring_loop_ok; [reflexivity | exact K|].
  destruct (pending_length r K) as [? | [? ->]]; [assumption|]. destruct K. lia.
Qed.
End flush.

(** ** Port accesses *)

Section port_facts.
Context {D : Type}.
Variables (io_write : Z -> list Z -> D -> D) (io_read : Z -> nat -> D -> list Z * D).
Hypothesis reads_size : forall port size d, length (io_read port size d).1 = size.

Definition chunk (size i : nat) (data : list Z) : list Z := take size (drop (i * size) data).

(** [n] reads of a port. *)
Fixpoint port_reads (n : nat) (port : Z) (size : nat) (d : D) : list Z * D :=
  match n with
  | O => ([], d)
  | S n => let '(b, d) := io_read port size d in let '(l, d) := port_reads n port size d in (b ++ l, d)
  end.

Lemma io_loop_out n port size data : forall i d, ((i + n) * size <= length data)%nat ->
  io_loop io_write io_read n port true size (i * size) data d =
    Ok (data, foldl (fun d j => io_write port (chunk size j data) d) d (seq i n)).
Proof.
  induction n as [|n IH]; intros i d Hl; cbn [io_loop]; [reflexivity|]. rewrite (proj2 (Nat.leb_le _ _)) by lia.
  replace (i * size + size)%nat with (S i * size)%nat by lia. rewrite IH by lia. reflexivity.
Qed.

Lemma io_loop_in n port size : forall ptr data d, (ptr + n * size <= length data)%nat ->
  io_loop io_write io_read n port false size ptr data d =
    Ok (take ptr data ++ (port_reads n port size d).1 ++ drop (ptr + n * size) data, (port_reads n port size d).2).
Proof.
  induction n as [|n IH]; intros ptr data d Hl; cbn [io_loop port_reads].
  - rewrite Nat.add_0_r. cbn [fst snd app]. rewrite take_drop. reflexivity.
  - rewrite (proj2 (Nat.leb_le _ _)) by lia. pose proof (reads_size port size d) as Hb. destruct (io_read port size d) as [b d1]. simpl in Hb.
    assert (length (take ptr data) = ptr) as Ht by (rewrite length_take; lia).
    rewrite IH by (rewrite !length_app, length_drop, Ht, Hb; lia). destruct (port_reads n port size d1) as [l d2]. cbn [fst snd]. f_equal. f_equal.
    replace (take (ptr + size) (take ptr data ++ b ++ drop (ptr + size) data)) with (take ptr data ++ b).
    2: { rewrite app_assoc. symmetry. apply take_app_length'. rewrite length_app. lia. }
    rewrite <- app_assoc. f_equal. rewrite <- app_assoc. f_equal. f_equal.
    rewrite app_assoc, drop_app_ge by (rewrite length_app; lia). rewrite drop_drop, length_app. f_equal. lia.
Qed.

(** An I/O exit with [count] items of [size] bytes makes [count] accesses of the port in order:
    writes take the items of the buffer one by one and leave it alone, reads fill it from its
    start and leave the rest alone. *)
Theorem handle_io_in_order port size count data d : (count * size <= length data)%nat ->
  kvm_handle_io io_write io_read port data true size count d =
    Ok (data, foldl (fun d j => io_write port (chunk size j data) d) d (seq 0 count)) /\
  kvm_handle_io io_write io_read port data false size count d =
    Ok ((port_reads count port size d).1 ++ drop (count * size) data, (port_reads count port size d).2).
Proof. intros Hl. split; [apply (io_loop_out count port size data 0 d Hl) | apply (io_loop_in count port size 0 data d Hl)]. Qed.
End port_facts.

(** Two entries around the end of the ring. *)
Lemma flush_writes_pending_witness :
  let r := mk_ring 169 1 (replicate 170 (mk_mmio 0xfeb00000 4 [1; 2; 3; 4; 0; 0; 0; 0])) in
  kvm_flush_coalesced_mmio_buffer (fun a l d => (a, l) :: d) false (Some r) [] =
    Ok (Some (mk_ring 1 1 (coalesced_mmio r)), [(0xfeb00000, [1; 2; 3; 4]); (0xfeb00000, [1; 2; 3; 4])]).
Proof.
  intros r. apply (flush_writes_pending (fun a l d => (a, l) :: d) r []). split; [vm_compute; split; discriminate || reflexivity .. |].
  apply length_replicate.
Defined.

Lemma handle_io_in_order_witness :
  kvm_handle_io (fun p l d => d ++ l) (fun _ n d => (replicate n 7, d)) 0x60 [1; 2; 3; 4] true 2 2 [] = Ok ([1; 2; 3; 4], [1; 2; 3; 4]) /\
  kvm_handle_io (fun p l d => d ++ l) (fun _ n d => (replicate n 7, d)) 0x60 [1; 2; 3; 4] false 1 3 [] = Ok ([7; 7; 7; 4], []).
Proof.
  split.
  - apply (handle_io_in_order (fun p l d => d ++ l) (fun _ n d => (replicate n 7, d))); [intros; apply length_replicate | simpl; lia].
  - apply (handle_io_in_order (fun p l d => d ++ l) (fun _ n d => (replicate n 7, d))); [intros; apply length_replicate | simpl; lia].
Defined.
