(* ===== verification/MemOperand.v ===== *)
(** * Evaluating a printed memory operand (include/race/utils.h)

    [wait_race] learns the address an instruction accesses by disassembling it
    into AT&T text and evaluating each operand text on the guest registers:
    [get_mem_addr] parses ["disp(base,index,scale)"] and returns the effective
    address, or 0 for an operand that is no memory reference.  This file models
    the helpers of include/race/utils.h and the register file of the KVM
    interface (linux-headers/asm-x86/kvm.h).

    A C string is a [string] whose end is the terminating NUL; advancing the
    pointer is [sdrop].  Moving past the NUL is the error [Uninit]: the operand
    buffers of [wait_race] are larger than their text. *)

From Stdlib Require Import ZArith Lia Bool Ascii String.
From stdpp Require Import base list.
From S2P Require Import Prelude.

Open Scope Z_scope.

(** struct kvm_regs *)
Record kvm_regs := mk_kvm_regs {
  rax : Z; rbx : Z; rcx : Z; rdx : Z;
  rsi : Z; rdi : Z; rsp : Z; rbp : Z;
  r8 : Z; r9 : Z; r10 : Z; r11 : Z;
  r12 : Z; r13 : Z; r14 : Z; r15 : Z;
  rip : Z; rflags : Z }.

Definition TEXT_START : Z := 0xffffffff81000000.
Definition PHYS_START : Z := 0x01000000.

(** Physical address of a kernel text address. *)
Definition get_phys_addr (vaddr : Z) : Z := u64 (u64 (vaddr - TEXT_START) + PHYS_START).

(** Character codes, so that the comparisons of the C code can be written on
    integers. *)
Definition code (c : ascii) : Z := Z.of_N (N_of_ascii c).

Definition is_digit (c : ascii) : bool := (code "0" <=? code c) && (code c <=? code "9").
Definition is_af (c : ascii) : bool := (code "a" <=? code c) && (code c <=? code "f").
Definition is_hex (c : ascii) : bool := is_digit c || is_af c.

Definition dec_val (c : ascii) : res Z :=
  if is_digit c then Ok (code c - code "0")
  else if is_af c then Ok (code c - code "a" + 10)
  else Err Panic.

Fixpoint last_char (prev : ascii) (s : string) : ascii :=
  match s with EmptyString => prev | String c s => last_char c s end.

Definition ceq (a b : ascii) : bool := Ascii.eqb a b.

(** The width of the register, from the first character of its name or the last
    character of the whole remaining text: the mask and the text after the width
    prefix.  The character before the text is the ['%'] the caller has skipped,
    which is what [len - 1] reads when the text is empty. *)
Definition reg_mask (fmt : string) : res (Z * string) :=
  let last := last_char "%" fmt in
  if ceq (head fmt) "r" then Ok (0xffffffffffffffff, sdrop 1 fmt)
  else if ceq (head fmt) "e" then Ok (0x00000000ffffffff, sdrop 1 fmt)
  else if ceq last "x" then Ok (0x000000000000ffff, fmt)
  else if ceq last "l" then Ok (0x00000000000000ff, fmt)
  else if ceq last "h" then Ok (0x000000000000ff00, fmt)
  else Err Panic.

(** The register named by the two characters at the pointer. *)
Definition reg_select (c0 c1 : ascii) (regs : kvm_regs) (insn_size : Z) : res Z :=
  if ceq c0 "a" then Ok (rax regs)
  else if ceq c0 "b" && negb (ceq c1 "p") then Ok (rbx regs)
  else if ceq c0 "c" then Ok (rcx regs)
  else if ceq c0 "d" && negb (ceq c1 "i") then Ok (rdx regs)
  else if ceq c0 "s" && ceq c1 "i" then Ok (rsi regs)
  else if ceq c0 "d" && ceq c1 "i" then Ok (rdi regs)
  else if ceq c0 "s" && ceq c1 "p" then Ok (rsp regs)
  else if ceq c0 "b" && ceq c1 "p" then Ok (rbp regs)
  else if ceq c0 "i" && ceq c1 "p" then Ok (u64 (rip regs + insn_size))
  else if ceq c0 "8" then Ok (r8 regs)
  else if ceq c0 "9" then Ok (r9 regs)
  else if ceq c0 "1" && ceq c1 "0" then Ok (r10 regs)
  else if ceq c0 "1" && ceq c1 "1" then Ok (r11 regs)
  else if ceq c0 "1" && ceq c1 "2" then Ok (r12 regs)
  else if ceq c0 "1" && ceq c1 "3" then Ok (r13 regs)
  else if ceq c0 "1" && ceq c1 "4" then Ok (r14 regs)
  else if ceq c0 "1" && ceq c1 "5" then Ok (r15 regs)
  else Err Panic.

(** The value of the register at the pointer, and the advanced pointer
    ([*fmtp += 2] after the width prefix). *)
Definition get_reg_val (fmt : string) (regs : kvm_regs) (insn_size : Z) : res (Z * string) :=
  (let? (mask, p) := reg_mask fmt in
  let? v := reg_select (head p) (head (sdrop 1 p)) regs insn_size in
  if (String.length p <? 2)%nat then Err Uninit
  else Ok (Z.land v mask, sdrop 2 p))%rz.

(** The locals of [get_mem_addr]; [m_val] and [m_off] are the 64-bit patterns of
    the signed variables. *)
Record ma_state := mk_ma {
  m_val : Z; m_off : Z; m_reg : Z; m_base : Z; m_idx : Z;
  m_base_flag : bool; m_sign : Z }.

Definition ma_init : ma_state := mk_ma 0 0 0 0 1 false 1.

(** The inner [while] loop: the digits at the pointer. *)
Fixpoint parse_hex (val : Z) (fmt : string) : res (Z * string) :=
  match fmt with
  | String c rest =>
      if is_hex c
      then (let? d := dec_val c in parse_hex (u64 (val * 16 + d)) rest)%rz
      else Ok (val, fmt)
  | EmptyString => Ok (val, EmptyString)
  end.

(** The [case '0'...'f'] branch, entered at a hexadecimal digit. *)
Definition number_case (fmt : string) (m : ma_state) : res (string * ma_state) :=
  (let fmt1 := if ceq (head fmt) "0" && ceq (head (sdrop 1 fmt)) "x" then sdrop 2 fmt else fmt in
  let? (v, fmt2) := parse_hex 0 fmt1 in
  let v := u64 (v * m_sign m) in
  Ok (fmt2, mk_ma v (m_off m) (m_reg m) (m_base m) (if m_base_flag m then v else m_idx m)
                  (m_base_flag m) 1))%rz.

(** The [for(;!stop;)] loop; [fuel] bounds its iterations. *)
Fixpoint get_mem_addr_loop (fuel : nat) (fmt : string) (m : ma_state)
    (regs : kvm_regs) (insn_size : Z) : res Z :=
  match fuel with
  | O => Err OutOfFuel
  | S fuel =>
      let c := head fmt in
      match fmt with
      | EmptyString => Ok (m_val m)
      | String _ rest =>
          if ceq c "-" then
            get_mem_addr_loop fuel rest
              (mk_ma (m_val m) (m_off m) (m_reg m) (m_base m) (m_idx m) (m_base_flag m) (-1)) regs insn_size
          else if is_hex c then
            let? (fmt', m') := number_case fmt m in
            get_mem_addr_loop fuel fmt' m' regs insn_size
          else if ceq c "(" then
            get_mem_addr_loop fuel rest
              (mk_ma 0 (m_val m) (m_reg m) (m_base m) (m_idx m) (m_base_flag m) (m_sign m)) regs insn_size
          else if ceq c "%" then
            let? (v, fmt') := get_reg_val rest regs insn_size in
            get_mem_addr_loop fuel fmt'
              (mk_ma (m_val m) (m_off m) v (m_base m) (m_idx m) (m_base_flag m) (m_sign m)) regs insn_size
          else if ceq c ")" then
            Ok (u64 (m_base m + m_reg m * m_idx m + m_off m))
          else if ceq c "," then
            get_mem_addr_loop fuel rest
              (if m_base_flag m then m
               else mk_ma (m_val m) (m_off m) (m_reg m) (m_reg m) (m_idx m) true (m_sign m)) regs insn_size
          else Err Panic
      end
  end%rz.

Definition get_mem_addr (fmt : string) (regs : kvm_regs) (insn_size : Z) : res Z :=
  let fmt := if ceq (head fmt) "*" then sdrop 1 fmt else fmt in
  if ceq (head fmt) "%" || ceq (head fmt) "$" then Ok 0
  else get_mem_addr_loop (S (String.length fmt)) fmt ma_init regs insn_size.

(** ** Termination *)

(** One run of the loop with the bound [get_mem_addr] gives it. *)
Definition run_loop (fmt : string) (m : ma_state) (regs : kvm_regs) (n : Z) : res Z :=
  get_mem_addr_loop (S (String.length fmt)) fmt m regs n.

Lemma length_sdrop k s : String.length (sdrop k s) = (String.length s - k)%nat.
Proof. revert s. induction k; intros [|c s]; simpl; auto. Qed.

Lemma dec_val_hex c : is_hex c = true ->
  exists d, dec_val c = Ok d /\ 0 <= d < 16.
Proof.
  unfold is_hex, dec_val. intros H.
  destruct (is_digit c) eqn:E; [|destruct (is_af c) eqn:E2; [|discriminate]];
    eexists; (split; [reflexivity|]);
    unfold is_digit, is_af in *; bool_props;
    change (code "0") with 48 in *; change (code "9") with 57 in *;
    change (code "a") with 97 in *; change (code "f") with 102 in *; lia.
Qed.

Lemma parse_hex_ok fmt : forall v,
  exists v' fmt', parse_hex v fmt = Ok (v', fmt') /\ (String.length fmt' <= String.length fmt)%nat.
Proof.
  induction fmt as [|c fmt IH]; intros v; simpl; [eauto|].
  destruct (is_hex c) eqn:E; [|simpl; eauto].
  destruct (dec_val_hex c E) as (d & -> & _); simpl.
  destruct (IH (u64 (v * 16 + d))) as (v' & fmt' & -> & ?). eauto with lia.
Qed.

Lemma parse_hex_progress c fmt v : is_hex c = true ->
  exists v' fmt', parse_hex v (String c fmt) = Ok (v', fmt') /\ (String.length fmt' <= String.length fmt)%nat.
Proof.
  intros E. simpl. rewrite E. destruct (dec_val_hex c E) as (d & -> & _); simpl.
  apply parse_hex_ok.
Qed.

(** Every number consumes at least the character it starts with. *)
Lemma number_case_ok c rest m : is_hex c = true ->
  exists fmt' m', number_case (String c rest) m = Ok (fmt', m') /\
                  (String.length fmt' <= String.length rest)%nat.
Proof.
  intros E. unfold number_case.
  destruct (_ && _) eqn:Ex.
  - destruct (parse_hex_ok (sdrop 2 (String c rest)) 0) as (v & fmt' & -> & Hl); simpl.
    rewrite length_sdrop in Hl. simpl in Hl. eauto with lia.
  - destruct (parse_hex_progress c rest 0 E) as (v & fmt' & -> & Hl); simpl. eauto.
Qed.

Lemma reg_mask_cases fmt :
  reg_mask fmt = Err Panic \/
  exists mask p, reg_mask fmt = Ok (mask, p) /\ (String.length p <= String.length fmt)%nat.
Proof.
  unfold reg_mask.
  repeat case_goal; auto; right; do 2 eexists; (split; [reflexivity|]);
    rewrite ?length_sdrop; lia.
Qed.

Lemma reg_select_cases c0 c1 regs n :
  reg_select c0 c1 regs n = Err Panic \/ exists v, reg_select c0 c1 regs n = Ok v.
Proof. unfold reg_select. repeat case_goal; eauto. Qed.

(** A register either ends the process, runs past the text, or consumes some of it. *)
Lemma get_reg_val_cases fmt regs n :
  get_reg_val fmt regs n = Err Panic \/ get_reg_val fmt regs n = Err Uninit \/
  exists v fmt', get_reg_val fmt regs n = Ok (v, fmt') /\
                 (String.length fmt' <= String.length fmt)%nat.
Proof.
  unfold get_reg_val.
  destruct (reg_mask_cases fmt) as [-> | (mask & p & -> & Hp)]; cbn [rbind]; [auto|].
  destruct (reg_select_cases (head p) (head (sdrop 1 p)) regs n) as [-> | (v & ->)]; cbn [rbind]; [auto|].
  destruct (_ <? _)%nat; [auto|].
  right; right. do 2 eexists. split; [reflexivity|]. rewrite length_sdrop. lia.
Qed.

(** More fuel does not change the result once it covers the text. *)
Lemma loop_fuel f1 : forall f2 fmt m regs n,
  (String.length fmt < f1)%nat -> (String.length fmt < f2)%nat ->
  get_mem_addr_loop f1 fmt m regs n = get_mem_addr_loop f2 fmt m regs n.
Proof.
  induction f1 as [|f1 IH]; intros [|f2] fmt m regs n H1 H2; try lia.
  destruct fmt as [|c rest]; [reflexivity|]. simpl in H1, H2.
  cbn [get_mem_addr_loop head].
  destruct (ceq c "-"); [apply IH; lia|].
  destruct (is_hex c) eqn:E.
  { destruct (number_case_ok c rest m E) as (fmt' & m' & -> & ?); simpl. apply IH; lia. }
  destruct (ceq c "("); [apply IH; lia|].
  destruct (ceq c "%").
  { destruct (get_reg_val_cases rest regs n) as [-> | [-> | (v & fmt' & -> & ?)]]; simpl;
      [reflexivity..|]. apply IH; lia. }
  destruct (ceq c ")"); [reflexivity|].
  destruct (ceq c ","); [apply IH; lia | reflexivity].
Qed.

Lemma loop_no_fuel_error fuel : forall fmt m regs n,
  (String.length fmt < fuel)%nat ->
  get_mem_addr_loop fuel fmt m regs n <> Err OutOfFuel.
Proof.
  induction fuel as [|fuel IH]; intros fmt m regs n Hl; [lia|].
  destruct fmt as [|c rest]; [discriminate|]. simpl in Hl.
  cbn [get_mem_addr_loop head].
  destruct (ceq c "-"); [apply IH; lia|].
  destruct (is_hex c) eqn:E.
  { destruct (number_case_ok c rest m E) as (fmt' & m' & -> & ?); simpl. apply IH; lia. }
  destruct (ceq c "("); [apply IH; lia|].
  destruct (ceq c "%").
  { destruct (get_reg_val_cases rest regs n) as [-> | [-> | (v & fmt' & -> & ?)]]; simpl;
      [discriminate..|]. apply IH; lia. }
  destruct (ceq c ")"); [discriminate|].
  destruct (ceq c ","); [apply IH; lia | discriminate].
Qed.

(** ** The loop on the pieces of an operand

    [run_loop] equations for each kind of token, used to evaluate a whole text
    piece by piece. *)

Lemma digit_char_hex d : 0 <= d < 16 -> is_hex (digit_char d) = true /\ dec_val (digit_char d) = Ok d.
Proof.
  intros H.
  assert (C : d = 0 \/ d = 1 \/ d = 2 \/ d = 3 \/ d = 4 \/ d = 5 \/ d = 6 \/ d = 7 \/
              d = 8 \/ d = 9 \/ d = 10 \/ d = 11 \/ d = 12 \/ d = 13 \/ d = 14 \/ d = 15) by lia.
  repeat (destruct C as [-> | C]; [split; reflexivity|]). subst. split; reflexivity.
Qed.

Lemma parse_hex_digit d v acc : 0 <= d < 16 ->
  parse_hex v (String (digit_char d) acc) = parse_hex (u64 (v * 16 + d)) acc.
Proof. intros H. simpl. destruct (digit_char_hex d H) as [-> ->]. reflexivity. Qed.

(** Reading back the digits printed for [n]. *)
Lemma parse_hex_digits fuel : forall n acc,
  0 <= n < 16 ^ Z.of_nat fuel -> (0 < fuel)%nat ->
  parse_hex 0 (digits_aux 16 fuel n acc) = parse_hex (u64 n) acc.
Proof.
  induction fuel as [|fuel IH]; intros n acc Hn Hf; [lia|].
  cbn [digits_aux].
  pose proof (Z.mod_pos_bound n 16 ltac:(lia)) as Hm.
  pose proof (Z.div_mod n 16 ltac:(lia)) as Hd.
  destruct (Z.eqb_spec (n / 16) 0) as [Hz|Hz].
  - rewrite parse_hex_digit by lia. f_equal. f_equal. lia.
  - assert (0 <= n / 16 < 16 ^ Z.of_nat fuel).
    { rewrite Nat2Z.inj_succ, Z.pow_succ_r in Hn by lia.
      split; [apply Z.div_pos; lia | apply Z.div_lt_upper_bound; lia]. }
    destruct fuel as [|fuel']; [simpl in *; lia|].
    rewrite IH by (auto; lia). rewrite parse_hex_digit by lia.
    f_equal. rewrite <- u64_add_l, u64_mul_l, u64_add_l. f_equal. lia.
Qed.

Definition not_hex_head (s : string) : Prop :=
  match s with EmptyString => True | String c _ => is_hex c = false end.

Lemma parse_hex_stop v s : not_hex_head s -> parse_hex v s = Ok (v, s).
Proof. destruct s as [|c s]; simpl; [reflexivity|]. intros ->. reflexivity. Qed.

Lemma parse_hex_string n rest : not_hex_head rest ->
  parse_hex 0 (String.append (hex_string n) rest) = Ok (u64 n, rest).
Proof.
  intros H. unfold hex_string. rewrite digits_aux_append. simpl (String.append EmptyString rest).
  rewrite parse_hex_digits; [|apply u64_range | lia].
  rewrite u64_idemp. apply parse_hex_stop, H.
Qed.

(** The text of a signed displacement, as printed in AT&T syntax. *)
Definition disp_text (d : Z) : string :=
  if d <? 0 then String "-" (String "0" (String "x" (hex_string (- d))))
  else String "0" (String "x" (hex_string d)).

Lemma run_loop_number rest n m regs k :
  not_hex_head rest ->
  run_loop (String "0" (String "x" (String.append (hex_string n) rest))) m regs k
  = run_loop rest (mk_ma (u64 (u64 n * m_sign m)) (m_off m) (m_reg m) (m_base m)
       (if m_base_flag m then u64 (u64 n * m_sign m) else m_idx m) (m_base_flag m) 1) regs k.
Proof.
  intros H. unfold run_loop at 1. cbn [get_mem_addr_loop head].
  change (ceq "0" "-") with false. change (is_hex "0") with true. cbn match.
  unfold number_case. cbn [head sdrop]. change (ceq "0" "0" && ceq "x" "x") with true. cbn match.
  rewrite parse_hex_string by assumption. cbn [rbind].
  apply loop_fuel; cbn [String.length]; rewrite ?length_append; lia.
Qed.

Lemma run_loop_minus rest m regs k :
  run_loop (String "-" rest) m regs k
  = run_loop rest (mk_ma (m_val m) (m_off m) (m_reg m) (m_base m) (m_idx m) (m_base_flag m) (-1)) regs k.
Proof. reflexivity. Qed.

Lemma run_loop_disp rest d m regs k :
  not_hex_head rest -> - 2 ^ 63 <= d < 2 ^ 63 -> m_sign m = 1 -> m_base_flag m = false ->
  run_loop (String.append (disp_text d) rest) m regs k
  = run_loop rest (mk_ma (u64 d) (m_off m) (m_reg m) (m_base m) (m_idx m) false 1) regs k.
Proof.
  intros Hr Hd Hs Hf. unfold disp_text. destruct (Z.ltb_spec d 0); cbn [String.append].
  - rewrite run_loop_minus, run_loop_number by assumption.
    cbn [m_sign m_base_flag m_val m_off m_reg m_base m_idx]. rewrite Hf. do 2 f_equal. wrap_ring.
  - rewrite run_loop_number by assumption. rewrite Hs, Hf. do 2 f_equal. wrap_ring.
Qed.

Lemma run_loop_open rest m regs k :
  run_loop (String "(" rest) m regs k
  = run_loop rest (mk_ma 0 (m_val m) (m_reg m) (m_base m) (m_idx m) (m_base_flag m) (m_sign m)) regs k.
Proof. reflexivity. Qed.

Lemma run_loop_comma rest m regs k :
  run_loop (String "," rest) m regs k
  = run_loop rest (if m_base_flag m then m
       else mk_ma (m_val m) (m_off m) (m_reg m) (m_reg m) (m_idx m) true (m_sign m)) regs k.
Proof. reflexivity. Qed.

Lemma run_loop_close m regs k rest :
  run_loop (String ")" rest) m regs k = Ok (u64 (m_base m + m_reg m * m_idx m + m_off m)).
Proof. reflexivity. Qed.

Lemma run_loop_reg rest m regs k v rest' :
  get_reg_val rest regs k = Ok (v, rest') -> (String.length rest' <= String.length rest)%nat ->
  run_loop (String "%" rest) m regs k
  = run_loop rest' (mk_ma (m_val m) (m_off m) v (m_base m) (m_idx m) (m_base_flag m) (m_sign m)) regs k.
Proof.
  intros H Hl. unfold run_loop at 1. cbn [get_mem_addr_loop head].
  change (ceq "%" "-") with false. change (is_hex "%") with false.
  change (ceq "%" "(") with false. change (ceq "%" "%") with true. cbn match.
  rewrite H. cbn [rbind]. apply loop_fuel; cbn [String.length]; lia.
Qed.
