(* ===== verification/PageWalk.v ===== *)
(** * Guest memory behind virtual addresses (target-i386/helper.c, exec.c)

    [x86_cpu_get_phys_page_debug] walks the guest's page tables for the debugger,
    and [cpu_memory_rw_debug] accesses guest memory through it, page by page.
    wait_race does not use them: it reads the instruction at rip from the physical
    address [get_phys_addr] computes with a constant offset, under a comment that
    asks whether this is always true.

    Physical memory is a function from addresses to bytes; memory-mapped devices
    are not distinguished from RAM.  Reads of table entries are little-endian. *)

From Stdlib Require Import ZArith Lia Bool.
From stdpp Require Import base list.
From S2P Require Import Prelude MemOperand.

Open Scope Z_scope.

(** ** Physical memory *)

Definition mem : Type := Z -> Z.

Definition mem_ok (m : mem) : Prop := forall a, 0 <= m a < 256.

(** A little-endian number of [n] bytes. *)
Fixpoint le (m : mem) (a : Z) (n : nat) : Z :=
  match n with O => 0 | S n => m a + 256 * le m (a + 1) n end.

Definition x86_ldq_phys (m : mem) (a : Z) : Z := le m a 8.
Definition x86_ldl_phys (m : mem) (a : Z) : Z := le m a 4.

Lemma le_range m a n : mem_ok m -> 0 <= le m a n < 256 ^ Z.of_nat n.
Proof.
  intros H. revert a. induction n as [|n IH]; intros a; [cbn; lia|].
  cbn [le]. rewrite Nat2Z.inj_succ, Z.pow_succ_r by lia. specialize (IH (a + 1)). specialize (H a). lia.
Qed.

(** ** The page walk *)

Definition PG_PRESENT_MASK : Z := 1.
Definition PG_PSE_MASK : Z := 0x80.
Definition PG_ADDRESS_MASK : Z := 0x000ffffffffff000.
Definition CR0_PG_MASK : Z := Z.shiftl 1 31.
Definition CR4_PSE_MASK : Z := 0x10.
Definition CR4_PAE_MASK : Z := 0x20.
Definition HF_LMA_MASK : Z := 0x4000.
Definition TARGET_PAGE_SIZE : Z := 4096.
Definition TARGET_PAGE_MASK : Z := - TARGET_PAGE_SIZE.

(** The fields of CPUX86State the walk reads; [a20_mask] is signed. *)
Record paging := mk_paging { cr0 : Z; cr3 : Z; cr4 : Z; hflags : Z; a20_mask : Z }.

(** [(hwaddr) -1] *)
Definition NO_PAGE : Z := 2 ^ 64 - 1.

(** The label [out]. *)
Definition walk_out (addr pte page_size : Z) : Z :=
  let pte := Z.land pte (Z.land PG_ADDRESS_MASK (Z.lnot (page_size - 1))) in
  let page_offset := Z.land (Z.land addr TARGET_PAGE_MASK) (page_size - 1) in
  Z.lor pte page_offset.

Section walk.
Variables (env : paging) (m : mem).

Definition present (e : Z) : bool := bits e PG_PRESENT_MASK.
Definition large (e : Z) : bool := bits e PG_PSE_MASK.
Definition a20 (x : Z) : Z := u64 (Z.land x (a20_mask env)).
(** The address of the entry for the nine bits of [addr] above [shift]. *)
Definition entry_addr (table addr shift : Z) : Z :=
  a20 (u64 (table + Z.shiftl (Z.land (Z.shiftr addr shift) 0x1ff) 3)).

(** The page directory and the page table under PAE. *)
Definition walk_pde (pdpe addr : Z) : Z :=
  let pde := x86_ldq_phys m (entry_addr (Z.land pdpe PG_ADDRESS_MASK) addr 21) in
  if negb (present pde) then NO_PAGE
  else if large pde then walk_out addr pde (2048 * 1024)
  else
    let pte := x86_ldq_phys m (entry_addr (Z.land pde PG_ADDRESS_MASK) addr 12) in
    if negb (present pte) then NO_PAGE else walk_out addr pte 4096.

(** Long mode: the two upper levels. *)
Definition walk_long (addr : Z) : Z :=
  let sext := Z.shiftr (s64 addr) 47 in
  if negb (sext =? 0) && negb (sext =? -1) then NO_PAGE
  else
    let pml4e := x86_ldq_phys m (entry_addr (Z.land (cr3 env) (Z.lnot 0xfff)) addr 39) in
    if negb (present pml4e) then NO_PAGE
    else
      let pdpe := x86_ldq_phys m (entry_addr (Z.land pml4e PG_ADDRESS_MASK) addr 30) in
      if negb (present pdpe) then NO_PAGE
      else if large pdpe then walk_out addr pdpe (1024 * 1024 * 1024)
      else walk_pde pdpe addr.

(** PAE without long mode. *)
Definition walk_pae (addr : Z) : Z :=
  let pdpe := x86_ldq_phys m (a20 (u64 (Z.land (cr3 env) (Z.lnot 0x1f) + Z.land (Z.shiftr addr 27) 0x18))) in
  if negb (present pdpe) then NO_PAGE else walk_pde pdpe addr.

(** 32-bit paging; [pde] is a uint32_t, so the shift of its bits loses them. *)
Definition walk_legacy (addr : Z) : Z :=
  let pde := x86_ldl_phys m (a20 (u64 (Z.land (cr3 env) (Z.lnot 0xfff) + Z.land (Z.shiftr addr 20) 0xffc))) in
  if negb (present pde) then NO_PAGE
  else if large pde && bits (cr4 env) CR4_PSE_MASK then
    let pte := Z.lor pde (u32 (Z.shiftl (Z.land pde 0x1fe000) (32 - 13))) in
    walk_out addr (a20 pte) (4096 * 1024)
  else
    let pte := x86_ldl_phys m (a20 (u64 (u32 (Z.land pde (Z.lnot 0xfff)) + Z.land (Z.shiftr addr 10) 0xffc))) in
    if negb (present pte) then NO_PAGE else walk_out addr (a20 pte) 4096.

Definition x86_cpu_get_phys_page_debug (addr : Z) : Z :=
  if negb (bits (cr0 env) CR0_PG_MASK) then walk_out addr (a20 addr) 4096
  else if bits (cr4 env) CR4_PAE_MASK then
    if bits (hflags env) HF_LMA_MASK then walk_long addr else walk_pae addr
  else walk_legacy addr.

End walk.

(** ** Access through the page tables *)

Definition store (m : mem) (a v : Z) : mem := fun x => if x =? a then v else m x.

Definition read_bytes (m : mem) (a : Z) (n : nat) : list Z := (fun i => m (a + Z.of_nat i)) <$> seq 0 n.

Fixpoint write_bytes (m : mem) (a : Z) (bs : list Z) : mem :=
  match bs with [] => m | b :: bs => write_bytes (store m a b) (a + 1) bs end.

(** The number of bytes up to the end of the page or of the request. *)
Definition chunk (addr : Z) (len : nat) : nat :=
  let page := Z.land addr TARGET_PAGE_MASK in
  let l := s32 (u64 (u64 (page + TARGET_PAGE_SIZE) - addr)) in
  Z.to_nat (if Z.of_nat len <? l then Z.of_nat len else l).

(** The loop over the pages; the buffer holds the bytes still to be accessed. *)
Fixpoint rw_debug_loop (fuel : nat) (env : paging) (m : mem) (addr : Z) (buf : list Z) (is_write : bool) :
    res (Z * list Z * mem) :=
  match buf with
  | [] => Ok (0, [], m)
  | _ =>
      match fuel with
      | O => Err OutOfFuel
      | S fuel =>
          let page := Z.land addr TARGET_PAGE_MASK in
          let phys_addr := x86_cpu_get_phys_page_debug env m page in
          if phys_addr =? NO_PAGE then Ok (-1, buf, m)
          else
            let l := chunk addr (length buf) in
            let phys_addr := u64 (phys_addr + Z.land addr (Z.lnot TARGET_PAGE_MASK)) in
            let now := if is_write then take l buf else read_bytes m phys_addr l in
            let m := if is_write then write_bytes m phys_addr now else m in
            let? (r, m') := rw_debug_loop fuel env m (u64 (addr + Z.of_nat l)) (drop l buf) is_write in
            Ok (r.1, (now ++ r.2)%list, m')
      end
  end%rz.

Definition cpu_memory_rw_debug (env : paging) (m : mem) (addr : Z) (buf : list Z) (is_write : bool) :
    res (Z * list Z * mem) := rw_debug_loop (length buf) env m addr buf is_write.

(** ** Four-level paging as the processor defines it *)

(** The bits of an entry from [k] to 51: the address of a frame of [2 ^ k] bytes. *)
Definition frame (e k : Z) : Z := 2 ^ k * ((e / 2 ^ k) mod 2 ^ (52 - k)).

(** The entry number at the level that translates the bits from [k] on. *)
Definition index (va k : Z) : Z := (va / 2 ^ k) mod 512.

(** The levels below the root: the bits they translate, and whether an entry can
    map a page of that size itself. *)
Fixpoint isa_walk (m : mem) (table va : Z) (levels : list (Z * bool)) : option Z :=
  match levels with
  | [] => None
  | (k, may_map) :: rest =>
      let e := le m (table + 8 * index va k) 8 in
      if negb (Z.odd e) then None
      else if (may_map && Z.testbit e 7) || bool_decide (rest = []) then Some (frame e k + va mod 2 ^ k)
      else isa_walk m (frame e 12) va rest
  end.

Definition canonical (va : Z) : bool := (va <? 2 ^ 47) || (2 ^ 64 - 2 ^ 47 <=? va).

Definition isa_translate (m : mem) (root va : Z) : option Z :=
  if canonical va then isa_walk m (frame root 12) va [(39, false); (30, true); (21, true); (12, false)] else None.

(** ** Bits of addresses and entries *)

Lemma frame_bits e k i : 0 <= k <= 52 -> 0 <= i ->
  Z.testbit (frame e k) i = (k <=? i) && (i <? 52) && Z.testbit e i.
Proof.
  intros Hk Hi. unfold frame. rewrite (Z.mul_comm (2 ^ k)).
  destruct (Z.leb_spec k i) as [L|L]; cbn [andb]; [|apply Z.mul_pow2_bits_low; exact L].
  rewrite Z.mul_pow2_bits, <- Z.land_ones, Z.land_spec, Z.div_pow2_bits by lia.
  replace (i - k + k) with i by lia. rewrite andb_comm. f_equal.
  destruct (Z.ltb_spec i 52).
  - apply Z.ones_spec_low. lia.
  - apply Z.ones_spec_high. lia.
Qed.

Lemma frame_range e k : 0 <= k <= 52 -> 0 <= frame e k <= 2 ^ 52 - 2 ^ k.
Proof.
  intros Hk. unfold frame. pose proof (Z.mod_pos_bound (e / 2 ^ k) (2 ^ (52 - k)) ltac:(lia)) as B.
  assert (P : 2 ^ 52 = 2 ^ k * 2 ^ (52 - k)) by (rewrite <- Z.pow_add_r by lia; f_equal; lia).
  pose proof (Z.pow_pos_nonneg 2 k ltac:(lia) ltac:(lia)). nia.
Qed.

Lemma address_mask_bits i : 0 <= i -> Z.testbit PG_ADDRESS_MASK i = (12 <=? i) && (i <? 52).
Proof.
  intros Hi. change PG_ADDRESS_MASK with (Z.shiftl (Z.ones 40) 12). rewrite Z.shiftl_spec by lia.
  destruct (Z.leb_spec 12 i) as [L|L]; cbn [andb]; [|apply Z.testbit_neg_r; lia].
  destruct (Z.ltb_spec i 52); [apply Z.ones_spec_low; lia | apply Z.ones_spec_high; lia].
Qed.

Lemma land_address e : Z.land e PG_ADDRESS_MASK = frame e 12.
Proof.
  apply Z.bits_inj'. intros i Hi.
  rewrite Z.land_spec, frame_bits, address_mask_bits by lia. rewrite andb_comm. reflexivity.
Qed.

Lemma low_mask_bits k i : 0 <= k -> 0 <= i -> Z.testbit (Z.lnot (2 ^ k - 1)) i = (k <=? i).
Proof.
  intros Hk Hi. rewrite Z.lnot_spec by lia. replace (2 ^ k - 1) with (Z.ones k) by (rewrite Z.ones_equiv; lia).
  destruct (Z.leb_spec k i); [rewrite Z.ones_spec_high by lia | rewrite Z.ones_spec_low by lia]; reflexivity.
Qed.

Lemma land_frame e k : 12 <= k <= 52 -> Z.land e (Z.land PG_ADDRESS_MASK (Z.lnot (2 ^ k - 1))) = frame e k.
Proof.
  intros Hk. apply Z.bits_inj'. intros i Hi.
  rewrite !Z.land_spec, frame_bits, address_mask_bits, low_mask_bits by lia.
  destruct (Z.leb_spec 12 i), (Z.leb_spec k i), (i <? 52), (Z.testbit e i); cbn; lia || reflexivity.
Qed.

Lemma page_mask x : Z.land x TARGET_PAGE_MASK = x - x mod 4096.
Proof.
  change TARGET_PAGE_MASK with (Z.lnot (Z.ones 12)). rewrite <- Z.ldiff_land, Z.ldiff_ones_r by lia.
  rewrite Z.shiftl_mul_pow2, shiftr_div by lia. pose proof (Z.div_mod x (2 ^ 12) ltac:(lia)).
  change (2 ^ 12) with 4096 in *. lia.
Qed.

Lemma page_offset_mask x : Z.land x (Z.lnot TARGET_PAGE_MASK) = x mod 4096.
Proof. change (Z.lnot TARGET_PAGE_MASK) with (Z.ones 12). apply Z.land_ones. lia. Qed.

(** The page an address lies in. *)
Definition page_of (x : Z) : Z := x - x mod 4096.

Lemma page_divides k : 12 <= k -> 2 ^ k = 2 ^ (k - 12) * 4096.
Proof. intros H. change 4096 with (2 ^ 12). rewrite <- Z.pow_add_r by lia. f_equal. lia. Qed.

Lemma mod_page x k : 12 <= k -> (x mod 2 ^ k) mod 4096 = x mod 4096.
Proof.
  intros H. symmetry. apply Znumtheory.Zmod_div_mod; [lia | lia |]. exists (2 ^ (k - 12)). apply page_divides, H.
Qed.

Lemma page_of_split x k : 12 <= k ->
  page_of x / 2 ^ k = x / 2 ^ k /\ page_of x mod 2 ^ k = x mod 2 ^ k - x mod 4096.
Proof.
  intros Hk. pose proof (Z.mod_pos_bound x 4096 ltac:(lia)) as B1.
  pose proof (Z.mod_pos_bound x (2 ^ k) ltac:(lia)) as B2.
  pose proof (Z.div_mod x (2 ^ k) ltac:(lia)) as D.
  assert (E : x mod 4096 <= x mod 2 ^ k).
  { rewrite <- (mod_page x k Hk). apply Z.mod_le; lia. }
  unfold page_of. split.
  - symmetry. apply (Z.div_unique _ _ _ (x mod 2 ^ k - x mod 4096)); lia.
  - symmetry. apply (Z.mod_unique _ _ (x / 2 ^ k)); lia.
Qed.

Lemma page_of_index x k : 12 <= k -> index (page_of x) k = index x k.
Proof. intros H. unfold index. rewrite (proj1 (page_of_split x k H)). reflexivity. Qed.

(** The common end of the walks. *)
Lemma walk_out_frame addr pte k : 12 <= k <= 52 ->
  walk_out addr pte (2 ^ k) = frame pte k + page_of addr mod 2 ^ k.
Proof.
  intros Hk. unfold walk_out. cbv zeta. rewrite land_frame by exact Hk.
  replace (2 ^ k - 1) with (Z.ones k) by (rewrite Z.ones_equiv; lia).
  rewrite page_mask, Z.land_ones by lia. fold (page_of addr).
  set (lo := page_of addr mod 2 ^ k). pose proof (Z.mod_pos_bound (page_of addr) (2 ^ k) ltac:(lia)) as B. fold lo in B.
  rewrite Z.lor_comm. unfold frame. rewrite (Z.mul_comm (2 ^ k)), <- Z.shiftl_mul_pow2, lor_add by lia. 
  rewrite Z.shiftl_mul_pow2 by lia. ring.
Qed.

Lemma page_off_aligned x k : 12 <= k -> (4096 | page_of x mod 2 ^ k).
Proof.
  intros Hk. exists (page_of x mod 2 ^ k / 4096).
  assert (E : (page_of x mod 2 ^ k) mod 4096 = 0).
  { rewrite (mod_page _ k Hk). unfold page_of. rewrite Zminus_mod_idemp_r, Z.sub_diag. reflexivity. }
  pose proof (Z.div_mod (page_of x mod 2 ^ k) 4096 ltac:(lia)). lia.
Qed.

(** A page address: below [2 ^ 52] and aligned. *)
Definition page_frame (p : Z) : Prop := 0 <= p < 2 ^ 52 /\ (4096 | p).

Lemma walk_out_page addr pte k : 12 <= k <= 52 -> page_frame (walk_out addr pte (2 ^ k)).
Proof.
  intros Hk. rewrite walk_out_frame by exact Hk. pose proof (frame_range pte k ltac:(lia)).
  pose proof (Z.mod_pos_bound (page_of addr) (2 ^ k) ltac:(lia)). split; [lia|].
  apply Z.divide_add_r; [|apply page_off_aligned; lia].
  unfold frame. exists (2 ^ (k - 12) * ((pte / 2 ^ k) mod 2 ^ (52 - k))).
  rewrite (page_divides k) at 1 by lia. ring.
Qed.

Lemma walk_out_4k addr pte : page_frame (walk_out addr pte 4096).
Proof. apply (walk_out_page addr pte 12). lia. Qed.

Lemma walk_out_2m addr pte : page_frame (walk_out addr pte (2048 * 1024)).
Proof. apply (walk_out_page addr pte 21). lia. Qed.

Lemma walk_out_4m addr pte : page_frame (walk_out addr pte (4096 * 1024)).
Proof. apply (walk_out_page addr pte 22). lia. Qed.

Lemma walk_out_1g addr pte : page_frame (walk_out addr pte (1024 * 1024 * 1024)).
Proof. apply (walk_out_page addr pte 30). lia. Qed.

Create HintDb walk.
#[export] Hint Resolve walk_out_4k walk_out_2m walk_out_4m walk_out_1g : walk.

Lemma walk_page env m addr :
  x86_cpu_get_phys_page_debug env m addr = NO_PAGE \/ page_frame (x86_cpu_get_phys_page_debug env m addr).
Proof.
  unfold x86_cpu_get_phys_page_debug, walk_long, walk_pae, walk_legacy, walk_pde. cbv zeta.
  repeat case_goal; auto with walk.
Qed.

(** ** Long mode *)

(** Long mode with paging on and A20 enabled; the root is a page frame. *)
Record long_mode (env : paging) : Prop := {
  lm_pg : bits (cr0 env) CR0_PG_MASK = true;
  lm_pae : bits (cr4 env) CR4_PAE_MASK = true;
  lm_lma : bits (hflags env) HF_LMA_MASK = true;
  lm_a20 : a20_mask env = -1;
  lm_root : 0 <= cr3 env < 2 ^ 52 }.

Lemma cr3_frame x : 0 <= x < 2 ^ 52 -> Z.land x (Z.lnot 0xfff) = frame x 12.
Proof.
  intros H. change (Z.lnot 0xfff) with TARGET_PAGE_MASK. rewrite page_mask. unfold frame.
  rewrite (Z.mod_small (x / 2 ^ 12)) by (split; [apply Z.div_pos | apply Z.div_lt_upper_bound]; change (2 ^ 12) with 4096; lia).
  pose proof (Z.div_mod x 4096 ltac:(lia)). change (2 ^ 12) with 4096. lia.
Qed.

Lemma entry_addr_index env e addr k : long_mode env -> 0 <= k ->
  entry_addr env (frame e 12) addr k = frame e 12 + 8 * index addr k.
Proof.
  intros L Hk. unfold entry_addr, a20. rewrite (lm_a20 _ L), Z.land_m1_r.
  change 0x1ff with (Z.ones 9). rewrite Z.land_ones, shiftr_div, Z.shiftl_mul_pow2 by lia.
  change (2 ^ 9) with 512. change (2 ^ 3) with 8. fold (index addr k).
  pose proof (frame_range e 12 ltac:(lia)). pose proof (Z.mod_pos_bound (addr / 2 ^ k) 512 ltac:(lia)) as B.
  fold (index addr k) in B. rewrite u64_idemp, u64_small by lia. lia.
Qed.

Lemma present_odd e : present e = Z.odd e.
Proof.
  unfold present, bits. change PG_PRESENT_MASK with (Z.ones 1). rewrite Z.land_ones by lia.
  change (2 ^ 1) with 2. rewrite Zmod_odd. destruct (Z.odd e); reflexivity.
Qed.

Lemma bits_pow2 x k : 0 <= k -> bits x (2 ^ k) = Z.testbit x k.
Proof.
  intros Hk. unfold bits. rewrite (Z.testbit_odd x k), shiftr_div by lia.
  assert (E : Z.land x (2 ^ k) = (if Z.odd (x / 2 ^ k) then 2 ^ k else 0)).
  { apply Z.bits_inj'. intros i Hi. rewrite Z.land_spec, Z.pow2_bits_eqb by lia.
    destruct (Z.eqb_spec k i) as [<-|N].
    - rewrite andb_true_r, <- (Z.add_0_l k) at 1. rewrite <- Z.div_pow2_bits, Z.bit0_odd by lia.
      destruct (Z.odd _); [rewrite Z.pow2_bits_true by lia | rewrite Z.bits_0]; reflexivity.
    - rewrite andb_false_r. destruct (Z.odd _); [rewrite Z.pow2_bits_false by lia | rewrite Z.bits_0]; reflexivity. }
  rewrite E. destruct (Z.odd _); [|reflexivity].
  pose proof (Z.pow_pos_nonneg 2 k ltac:(lia) Hk). destruct (Z.eqb_spec (2 ^ k) 0); [lia | reflexivity].
Qed.

Lemma large_bit e : large e = Z.testbit e 7.
Proof. apply (bits_pow2 e 7). lia. Qed.

Lemma sext_canonical addr : 0 <= addr < 2 ^ 64 ->
  negb (Z.shiftr (s64 addr) 47 =? 0) && negb (Z.shiftr (s64 addr) 47 =? -1) = negb (canonical addr).
Proof.
  intros H. rewrite shiftr_div by lia. unfold s64, canonical. rewrite u64_small by exact H.
  destruct (Z.ltb_spec addr (2 ^ 63)) as [S|S].
  - destruct (Z.eqb_spec (addr / 2 ^ 47) 0) as [E|E]; destruct (Z.ltb_spec addr (2 ^ 47)) as [L|L].
    all: destruct (Z.leb_spec (2 ^ 64 - 2 ^ 47) addr), (Z.eqb_spec (addr / 2 ^ 47) (-1)); cbn; try reflexivity; exfalso.
    all: pose proof (Z.div_mod addr (2 ^ 47) ltac:(lia)); pose proof (Z.mod_pos_bound addr (2 ^ 47) ltac:(lia)); nia.
  - destruct (Z.eqb_spec ((addr - 2 ^ 64) / 2 ^ 47) 0) as [E|E], (Z.ltb_spec addr (2 ^ 47)) as [L|L],
      (Z.leb_spec (2 ^ 64 - 2 ^ 47) addr), (Z.eqb_spec ((addr - 2 ^ 64) / 2 ^ 47) (-1)); cbn; try reflexivity; exfalso.
    all: pose proof (Z.div_mod (addr - 2 ^ 64) (2 ^ 47) ltac:(lia));
         pose proof (Z.mod_pos_bound (addr - 2 ^ 64) (2 ^ 47) ltac:(lia)); nia.
Qed.

Lemma canonical_page addr : 0 <= addr -> canonical (page_of addr) = canonical addr.
Proof.
  intros H. unfold canonical, page_of. pose proof (Z.div_mod addr 4096 ltac:(lia)).
  pose proof (Z.mod_pos_bound addr 4096 ltac:(lia)).
  destruct (Z.ltb_spec addr (2 ^ 47)), (Z.ltb_spec (addr - addr mod 4096) (2 ^ 47)),
    (Z.leb_spec (2 ^ 64 - 2 ^ 47) addr), (Z.leb_spec (2 ^ 64 - 2 ^ 47) (addr - addr mod 4096)); cbn; lia || reflexivity.
Qed.

(** The last two levels. *)
Lemma walk_pde_isa env m pdpe addr : long_mode env ->
  walk_pde env m pdpe addr
  = default NO_PAGE (isa_walk m (frame pdpe 12) (page_of addr) [(21, true); (12, false)]).
Proof.
  intros L. unfold walk_pde. cbv zeta. rewrite !land_address, !entry_addr_index by (try exact L; lia).
  cbn [isa_walk]. unfold x86_ldq_phys. rewrite !page_of_index, !present_odd, !large_bit by lia.
  set (pde := le m (frame pdpe 12 + 8 * index addr 21) 8).
  destruct (Z.odd pde); cbn [negb]; [|reflexivity].
  cbn [andb]. rewrite bool_decide_eq_false_2 by discriminate. rewrite orb_false_r.
  destruct (Z.testbit pde 7); [exact (walk_out_frame addr pde 21 ltac:(lia))|].
  set (pte := le m (frame pde 12 + 8 * index addr 12) 8).
  destruct (Z.odd pte); cbn [negb andb orb]; [|reflexivity].
  rewrite bool_decide_eq_true_2 by reflexivity. exact (walk_out_frame addr pte 12 ltac:(lia)).
Qed.

Lemma walk_is_translate env m addr : long_mode env -> 0 <= addr < 2 ^ 64 ->
  x86_cpu_get_phys_page_debug env m addr = default NO_PAGE (isa_translate m (cr3 env) (page_of addr)).
Proof.
  intros L Ha. unfold x86_cpu_get_phys_page_debug, isa_translate, walk_long.
  rewrite (lm_pg _ L), (lm_pae _ L), (lm_lma _ L). cbn [negb].
  rewrite sext_canonical, canonical_page by lia. destruct (canonical addr); cbn [negb]; [|reflexivity].
  rewrite (cr3_frame _ (lm_root _ L)), !land_address, !entry_addr_index by (try exact L; lia).
  cbn [isa_walk]. unfold x86_ldq_phys. rewrite !page_of_index, !present_odd, !large_bit by lia.
  set (e4 := le m (frame (cr3 env) 12 + 8 * index addr 39) 8).
  destruct (Z.odd e4); cbn [negb]; [|reflexivity].
  cbn [andb orb]. rewrite bool_decide_eq_false_2 by discriminate.
  set (e3 := le m (frame e4 12 + 8 * index addr 30) 8).
  destruct (Z.odd e3); cbn [negb]; [|reflexivity].
  rewrite bool_decide_eq_false_2, orb_false_r by discriminate.
  destruct (Z.testbit e3 7); [exact (walk_out_frame addr e3 30 ltac:(lia))|].
  rewrite (walk_pde_isa env m e3 addr L). cbn [isa_walk]. rewrite !page_of_index by lia. reflexivity.
Qed.

(** C7: in long mode the page walk of the debugger is the address translation of the
    processor: for every virtual address it returns the physical address to which
    four-level paging, with its 1 GB, 2 MB and 4 KB pages, maps the address's page,
    and -1 exactly when the address is not canonical or not mapped. *)
Theorem long_mode_walk env m addr : long_mode env -> 0 <= addr < 2 ^ 64 ->
  x86_cpu_get_phys_page_debug env m addr = default NO_PAGE (isa_translate m (cr3 env) (page_of addr)).
Proof. apply walk_is_translate. Qed.

(** ** Reading through the page tables *)

(** The reference: every byte is translated on its own. *)
Definition vphys (env : paging) (m : mem) (a : Z) : option Z :=
  let p := x86_cpu_get_phys_page_debug env m (page_of a) in
  if p =? NO_PAGE then None else Some (p + a mod 4096).

Fixpoint vread (env : paging) (m : mem) (a : Z) (n : nat) : option (list Z) :=
  match n with
  | O => Some []
  | S n => match vphys env m a, vread env m (a + 1) n with
           | Some p, Some bs => Some (m p :: bs)
           | _, _ => None
           end
  end.

Lemma vread_app env m n1 : forall a n2,
  vread env m a (n1 + n2)
  = match vread env m a n1, vread env m (a + Z.of_nat n1) n2 with
    | Some x, Some y => Some (x ++ y)%list
    | _, _ => None
    end.
Proof.
  induction n1 as [|n1 IH]; intros a n2; cbn [vread Nat.add].
  - rewrite Z.add_0_r. destruct (vread env m a n2); reflexivity.
  - rewrite IH. replace (a + Z.of_nat (S n1)) with (a + 1 + Z.of_nat n1) by lia.
    destruct (vphys env m a), (vread env m (a + 1) n1), (vread env m (a + 1 + Z.of_nat n1) n2); reflexivity.
Qed.

Lemma read_bytes_S m a n : read_bytes m a (S n) = m a :: read_bytes m (a + 1) n.
Proof.
  unfold read_bytes. cbn [seq fmap list_fmap]. rewrite Z.add_0_r, <- seq_shift. f_equal.
  rewrite <- list_fmap_compose. apply list_fmap_ext. intros i x _. cbn. f_equal. lia.
Qed.

Lemma page_next a : a mod 4096 < 4095 -> page_of (a + 1) = page_of a /\ (a + 1) mod 4096 = a mod 4096 + 1.
Proof.
  intros H. pose proof (Z.div_mod a 4096 ltac:(lia)). pose proof (Z.mod_pos_bound a 4096 ltac:(lia)).
  assert (E : (a + 1) mod 4096 = a mod 4096 + 1) by (symmetry; apply (Z.mod_unique _ _ (a / 4096)); lia).
  split; [|exact E]. unfold page_of. lia.
Qed.

(** Within a page, one translation serves all bytes. *)
Lemma vread_page env m p l : forall a, (Z.of_nat l <= 4096 - a mod 4096) ->
  x86_cpu_get_phys_page_debug env m (page_of a) = p -> p <> NO_PAGE ->
  vread env m a l = Some (read_bytes m (p + a mod 4096) l).
Proof.
  induction l as [|l IH]; intros a Hl Hp Hn; [reflexivity|].
  cbn [vread]. unfold vphys. rewrite Hp, (proj2 (Z.eqb_neq _ _) Hn), read_bytes_S.
  destruct l as [|l]; [reflexivity|].
  destruct (page_next a ltac:(lia)) as [E1 E2].
  rewrite (IH (a + 1)), E2 by (rewrite ?E1, ?E2; assumption || lia). do 3 f_equal. lia.
Qed.

Lemma vread_unmapped env m a l : x86_cpu_get_phys_page_debug env m (page_of a) = NO_PAGE ->
  vread env m a (S l) = None.
Proof. intros H. cbn [vread]. unfold vphys. rewrite H, Z.eqb_refl. reflexivity. Qed.

Lemma chunk_ok addr len : 0 <= addr < 2 ^ 64 ->
  chunk addr len = Nat.min len (Z.to_nat (4096 - addr mod 4096)).
Proof.
  intros Ha. unfold chunk. cbv zeta. rewrite page_mask. change TARGET_PAGE_SIZE with 4096.
  pose proof (Z.mod_pos_bound addr 4096 ltac:(lia)).
  rewrite <- Z.add_opp_r, u64_add_l.
  replace (addr - addr mod 4096 + 4096 + - addr) with (4096 - addr mod 4096) by lia.
  rewrite u64_small by lia. unfold s32, u32. rewrite Z.mod_small by lia.
  destruct (Z.ltb_spec (4096 - addr mod 4096) (2 ^ 31)); [|lia].
  destruct (Z.ltb_spec (Z.of_nat len) (4096 - addr mod 4096)); lia.
Qed.

Lemma rw_debug_read_ok env m fuel : forall addr buf, (length buf <= fuel)%nat ->
  0 <= addr -> addr + Z.of_nat (length buf) <= 2 ^ 64 ->
  match vread env m addr (length buf) with
  | Some bs => rw_debug_loop fuel env m addr buf false = Ok (0, bs, m)
  | None => exists bs, rw_debug_loop fuel env m addr buf false = Ok (-1, bs, m)
  end.
Proof.
  induction fuel as [|fuel IH]; intros addr buf Hf Ha Hl.
  { destruct buf; [reflexivity | cbn in Hf; lia]. }
  destruct buf as [|b buf]; [reflexivity|]. set (B := b :: buf) in *.
  assert (Hpos : (0 < length B)%nat) by (cbn; lia).
  cbn [rw_debug_loop]. fold B. rewrite page_mask, page_offset_mask. fold (page_of addr).
  set (p := x86_cpu_get_phys_page_debug env m (page_of addr)).
  destruct (Z.eqb_spec p NO_PAGE) as [En|En].
  { destruct (length B) as [|n] eqn:El; [lia|]. rewrite (vread_unmapped env m addr n En). eauto. }
  destruct (walk_page env m (page_of addr)) as [W|[Wr _]]; [contradiction|]. fold p in Wr.
  pose proof (Z.mod_pos_bound addr 4096 ltac:(lia)) as Hm.
  assert (Ec : chunk addr (length B) = Nat.min (length B) (Z.to_nat (4096 - addr mod 4096))) by (apply chunk_ok; lia).
  set (l := chunk addr (length B)) in *. rewrite (u64_small (p + addr mod 4096)) by lia.
  assert (Sp : length B = (l + length (drop l B))%nat) by (rewrite length_drop; lia).
  rewrite Sp, vread_app, (vread_page env m p l addr) by (reflexivity || assumption || lia).
  assert (Next : drop l B = [] \/ u64 (addr + Z.of_nat l) = addr + Z.of_nat l).
  { destruct (decide (length (drop l B) = 0%nat)) as [E0|E0]; [left; apply nil_length_inv, E0|].
    right. apply u64_small. lia. }
  destruct Next as [Nx|Nx].
  - rewrite Nx. destruct fuel; cbn [rw_debug_loop vread length rbind fst snd]; reflexivity.
  - rewrite Nx. specialize (IH (addr + Z.of_nat l) (drop l B) ltac:(lia) ltac:(lia) ltac:(lia)).
    destruct (vread env m (addr + Z.of_nat l) (length (drop l B))) as [bs|].
    + rewrite IH. reflexivity.
    + destruct IH as (bs & E). rewrite E. cbn [rbind fst snd]. eauto.
Qed.

(** Reading guest memory page by page is reading it byte by byte: the debugger's
    access returns the bytes at the translation of every single address, or -1 when
    one of them is not mapped, and it always terminates and leaves memory as it is. *)
Theorem debug_read_bytewise env m addr buf : 0 <= addr -> addr + Z.of_nat (length buf) <= 2 ^ 64 ->
  match vread env m addr (length buf) with
  | Some bs => cpu_memory_rw_debug env m addr buf false = Ok (0, bs, m)
  | None => exists bs, cpu_memory_rw_debug env m addr buf false = Ok (-1, bs, m)
  end.
Proof. intros Ha Hl. apply rw_debug_read_ok; [reflexivity | exact Ha | exact Hl]. Qed.

(** C30: whatever the page tables hold, and in every paging mode, the walk answers -1
    or a page-aligned physical address of at most 52 bits. *)
Theorem walk_bounds env m addr :
  x86_cpu_get_phys_page_debug env m addr = NO_PAGE \/ page_frame (x86_cpu_get_phys_page_debug env m addr).
Proof. apply walk_page. Qed.

(** ** Kernel text *)

(** The mapping of a kernel image that is not relocated: 512 MB from
    [KERNEL_MAP] on, in pages of 2 MB, at physical address 0. *)
Definition KERNEL_MAP : Z := 0xffffffff80000000.

Record kernel_tables (m : mem) (root e4 e3 : Z) : Prop := {
  kt_e4 : le m (frame root 12 + 8 * 511) 8 = e4 /\ Z.odd e4 = true;
  kt_e3 : le m (frame e4 12 + 8 * 510) 8 = e3 /\ Z.odd e3 = true /\ Z.testbit e3 7 = false;
  kt_e2 : forall i, 0 <= i < 256 ->
    let e2 := le m (frame e3 12 + 8 * i) 8 in
    Z.odd e2 = true /\ Z.testbit e2 7 = true /\ frame e2 21 = i * 2 ^ 21 }.

Lemma kernel_index va : KERNEL_MAP <= va < KERNEL_MAP + 2 ^ 29 ->
  index va 39 = 511 /\ index va 30 = 510 /\ index va 21 = (va - KERNEL_MAP) / 2 ^ 21 /\
  va mod 2 ^ 21 = (va - KERNEL_MAP) mod 2 ^ 21.
Proof.
  intros H. unfold index, KERNEL_MAP in *.
  split; [|split; [|split]].
  - replace (va / 2 ^ 39) with 33554431; [reflexivity|].
    apply (Z.div_unique _ _ _ (va - 33554431 * 2 ^ 39)); lia.
  - replace (va / 2 ^ 30) with 17179869182; [reflexivity|].
    apply (Z.div_unique _ _ _ (va - 17179869182 * 2 ^ 30)); lia.
  - replace (va / 2 ^ 21) with (8796093021184 + (va - 0xffffffff80000000) / 2 ^ 21).
    2: { rewrite <- Z.div_add_l by lia. f_equal. lia. }
    pose proof (Z.div_pos (va - 0xffffffff80000000) (2 ^ 21) ltac:(lia) ltac:(lia)).
    pose proof (Z.div_lt_upper_bound (va - 0xffffffff80000000) (2 ^ 21) 256 ltac:(lia) ltac:(lia)).
    replace (8796093021184 + (va - 0xffffffff80000000) / 2 ^ 21)
      with ((va - 0xffffffff80000000) / 2 ^ 21 + 17179869182 * 512) by lia.
    rewrite Z.mod_add, Z.mod_small by lia. reflexivity.
  - replace va with ((va - 0xffffffff80000000) + 8796093021184 * 2 ^ 21) at 1 by lia. apply Z.mod_add. lia.
Qed.

Lemma kernel_translate m root e4 e3 va : kernel_tables m root e4 e3 ->
  KERNEL_MAP <= va < KERNEL_MAP + 2 ^ 29 -> isa_translate m root va = Some (va - KERNEL_MAP).
Proof.
  intros [[T4 O4] (T3 & O3 & N3) T2] H. destruct (kernel_index va H) as (I4 & I3 & I2 & Io).
  unfold isa_translate.
  assert (C : canonical va = true).
  { unfold canonical, KERNEL_MAP in *. apply orb_true_iff. right. apply Z.leb_le. lia. }
  rewrite C. cbn [isa_walk]. rewrite I4, T4, O4. cbn [negb andb orb]. rewrite bool_decide_eq_false_2 by discriminate.
  rewrite I3, T3, O3, N3. cbn [negb andb orb]. rewrite bool_decide_eq_false_2 by discriminate.
  pose proof (Z.div_pos (va - KERNEL_MAP) (2 ^ 21) ltac:(lia) ltac:(lia)).
  pose proof (Z.div_lt_upper_bound (va - KERNEL_MAP) (2 ^ 21) 256 ltac:(lia) ltac:(lia)).
  destruct (T2 ((va - KERNEL_MAP) / 2 ^ 21) ltac:(lia)) as (O2 & L2 & F2).
  rewrite I2, O2, L2, F2, Io. cbn [negb andb orb]. f_equal.
  pose proof (Z.div_mod (va - KERNEL_MAP) (2 ^ 21) ltac:(lia)). lia.
Qed.

Lemma get_phys_addr_linear va : KERNEL_MAP <= va < KERNEL_MAP + 2 ^ 29 -> get_phys_addr va = va - KERNEL_MAP.
Proof.
  unfold KERNEL_MAP, get_phys_addr, TEXT_START, PHYS_START. intros H. rewrite u64_add_l, u64_small by lia. lia.
Qed.

Lemma kernel_page va : KERNEL_MAP <= va < KERNEL_MAP + 2 ^ 29 ->
  KERNEL_MAP <= page_of va < KERNEL_MAP + 2 ^ 29 /\ 0 <= page_of va < 2 ^ 64.
Proof.
  unfold page_of, KERNEL_MAP. intros H. pose proof (Z.div_mod va 4096 ltac:(lia)).
  pose proof (Z.mod_pos_bound va 4096 ltac:(lia)).
  pose proof (Z.div_le_mono 0xffffffff80000000 va 4096 ltac:(lia) ltac:(lia)) as D.
  change (0xffffffff80000000 / 4096) with (0xffffffff80000) in D. lia.
Qed.

Lemma page_of_idemp x : page_of (page_of x) = page_of x.
Proof.
  unfold page_of at 1. assert (E : page_of x mod 4096 = 0) by
    (unfold page_of; rewrite Zminus_mod_idemp_r, Z.sub_diag; reflexivity). lia.
Qed.

Lemma kernel_vphys env m e4 e3 va : long_mode env -> kernel_tables m (cr3 env) e4 e3 ->
  KERNEL_MAP <= va < KERNEL_MAP + 2 ^ 29 -> vphys env m va = Some (va - KERNEL_MAP).
Proof.
  intros L K H. unfold vphys. destruct (kernel_page va H) as [Hp Hr].
  rewrite walk_is_translate, page_of_idemp, (kernel_translate m _ e4 e3 _ K Hp) by assumption. cbn [default].
  unfold id. destruct (Z.eqb_spec (page_of va - KERNEL_MAP) NO_PAGE) as [E|E].
  - unfold KERNEL_MAP, NO_PAGE in *. lia.
  - f_equal. unfold page_of. lia.
Qed.

Lemma kernel_vread env m e4 e3 n : long_mode env -> kernel_tables m (cr3 env) e4 e3 -> forall va,
  KERNEL_MAP <= va -> va + Z.of_nat n <= KERNEL_MAP + 2 ^ 29 ->
  vread env m va n = Some (read_bytes m (va - KERNEL_MAP) n).
Proof.
  intros L K. induction n as [|n IH]; intros va H1 H2; [reflexivity|].
  cbn [vread]. rewrite (kernel_vphys env m e4 e3 va L K), IH, read_bytes_S by lia.
  do 3 f_equal. lia.
Qed.

(** C14: the constant offset of [get_phys_addr] is right for a kernel that is not
    relocated: when the page tables map the 512 MB of the kernel image at physical
    address 0, the bytes wait_race reads from the physical address of rip are the
    ones the processor fetches at rip, which the page walk finds as well. *)
Theorem text_bytes_at_rip env m e4 e3 rip : long_mode env -> kernel_tables m (cr3 env) e4 e3 ->
  KERNEL_MAP <= rip -> rip + 15 <= KERNEL_MAP + 2 ^ 29 ->
  cpu_memory_rw_debug env m rip (replicate 15 0) false = Ok (0, read_bytes m (get_phys_addr rip) 15, m).
Proof.
  intros L K H1 H2.
  assert (R : rip + Z.of_nat 15 <= 2 ^ 64) by (unfold KERNEL_MAP in *; lia).
  pose proof (rw_debug_read_ok env m 15 rip (replicate 15 0) (le_n _) ltac:(unfold KERNEL_MAP in *; lia) R) as E.
  rewrite length_replicate, (kernel_vread env m e4 e3 15 L K) in E by lia.
  rewrite get_phys_addr_linear by lia. exact E.
Qed.

(** ** A sample memory *)

(** Byte [j] of a little-endian number. *)
Definition byte_of (v : Z) (j : Z) : Z := (v / 256 ^ j) mod 256.

(** Tables at 0x1000, 0x2000 and 0x3000 that map the kernel image; zero elsewhere. *)
Definition kernel_mem : mem := fun a =>
  let w := a / 8 * 8 in
  byte_of (if w =? 0x1000 + 8 * 511 then 0x2063
           else if w =? 0x2000 + 8 * 510 then 0x3063
           else if (0x3000 <=? w) && (w <? 0x3000 + 8 * 256) then (w - 0x3000) / 8 * 2 ^ 21 + 0xe3
           else 0) (a - w).

Definition kernel_env : paging := mk_paging 0x80050033 0x1000 0x6f0 0x4000 (-1).

Lemma kernel_env_long : long_mode kernel_env.
Proof. split; vm_compute; congruence || reflexivity || (split; congruence). Qed.

Lemma kernel_mem_tables : kernel_tables kernel_mem (cr3 kernel_env) 0x2063 0x3063.
Proof.
  split; [split; reflexivity | repeat split; reflexivity|].
  intros i Hi.
  assert (A : forallb (fun k => let e := le kernel_mem (frame 0x3063 12 + 8 * Z.of_nat k) 8 in
                Z.odd e && Z.testbit e 7 && (frame e 21 =? Z.of_nat k * 2 ^ 21)) (seq 0 256) = true)
    by (vm_compute; reflexivity).
  rewrite forallb_forall in A. specialize (A (Z.to_nat i) ltac:(apply in_seq; lia)). cbv zeta in A.
  rewrite Z2Nat.id in A by lia. cbv zeta. bool_props. auto.
Qed.

Lemma long_mode_walk_witness :
  x86_cpu_get_phys_page_debug kernel_env kernel_mem 0xffffffff81001234 = 0x1001000 /\
  default NO_PAGE (isa_translate kernel_mem (cr3 kernel_env) (page_of 0xffffffff81001234)) = 0x1001000.
Proof.
  pose proof (long_mode_walk kernel_env kernel_mem 0xffffffff81001234 kernel_env_long ltac:(lia)) as E.
  split; [vm_compute; reflexivity|]. rewrite <- E. vm_compute. reflexivity.
Defined.

Lemma debug_read_bytewise_witness :
  cpu_memory_rw_debug kernel_env kernel_mem 0xffffffff80001ffe [0; 0; 0] false = Ok (0, [0; 0; 0], kernel_mem).
Proof.
  exact (debug_read_bytewise kernel_env kernel_mem 0xffffffff80001ffe [0; 0; 0] ltac:(lia) ltac:(vm_compute; congruence)).
Defined.

Lemma text_bytes_at_rip_witness :
  cpu_memory_rw_debug kernel_env kernel_mem 0xffffffff81001234 (replicate 15 0) false
  = Ok (0, read_bytes kernel_mem 0x1001234 15, kernel_mem).
Proof.
  exact (text_bytes_at_rip kernel_env kernel_mem 0x2063 0x3063 0xffffffff81001234 kernel_env_long kernel_mem_tables
    ltac:(vm_compute; congruence) ltac:(vm_compute; congruence)).
Defined.
