(* ===== verification/MsrSync.v ===== *)
(** * Model-specific registers between QEMU and the kernel (target-i386/kvm.c)

    [kvm_put_msrs] and [kvm_get_msrs] move the model-specific registers of a virtual
    CPU.  The fields of the environment (struct CPUX86State, target-i386/cpu.h) that
    hold them are a function [msr] from the names of the fields, an array field with
    its index, to their values; the fields of uint32_t are truncated when they are
    written.  The has_msr_ flags the code sets once at start-up are the record
    [caps].

    KVM_SET_MSRS and KVM_GET_MSRS are represented by the entries passed to them and by
    the answer: the list of indices and values, and the number of entries and the
    values the kernel returns. *)

From Stdlib Require Import ZArith Lia Bool.
From stdpp Require Import base list sets.
From S2P Require Import Prelude.

Open Scope Z_scope.

(** ** Registers *)

Definition MSR_IA32_TSC : Z := 0x10.
Definition MSR_KVM_WALL_CLOCK : Z := 0x11.
Definition MSR_KVM_SYSTEM_TIME : Z := 0x12.
Definition MSR_IA32_FEATURE_CONTROL : Z := 0x3a.
Definition MSR_TSC_ADJUST : Z := 0x3b.
Definition MSR_IA32_SMBASE : Z := 0x9e.
Definition MSR_P6_PERFCTR0 : Z := 0xc1.
Definition MSR_IA32_SYSENTER_CS : Z := 0x174.
Definition MSR_IA32_SYSENTER_ESP : Z := 0x175.
Definition MSR_IA32_SYSENTER_EIP : Z := 0x176.
Definition MSR_MCG_STATUS : Z := 0x17a.
Definition MSR_MCG_CTL : Z := 0x17b.
Definition MSR_P6_EVNTSEL0 : Z := 0x186.
Definition MSR_IA32_PERF_STATUS : Z := 0x198.
Definition MSR_IA32_MISC_ENABLE : Z := 0x1a0.
Definition MSR_MTRRphysBase (reg : Z) : Z := 0x200 + 2 * reg.
Definition MSR_MTRRphysMask (reg : Z) : Z := 0x200 + 2 * reg + 1.
Definition MSR_MTRRphysIndex (addr : Z) : Z := (Z.land addr (Z.lnot 1) - 0x200) / 2.
Definition MSR_MTRRfix64K_00000 : Z := 0x250.
Definition MSR_MTRRfix16K_80000 : Z := 0x258.
Definition MSR_MTRRfix16K_A0000 : Z := 0x259.
Definition MSR_MTRRfix4K_C0000 : Z := 0x268.
Definition MSR_MTRRfix4K_C8000 : Z := 0x269.
Definition MSR_MTRRfix4K_D0000 : Z := 0x26a.
Definition MSR_MTRRfix4K_D8000 : Z := 0x26b.
Definition MSR_MTRRfix4K_E0000 : Z := 0x26c.
Definition MSR_MTRRfix4K_E8000 : Z := 0x26d.
Definition MSR_MTRRfix4K_F0000 : Z := 0x26e.
Definition MSR_MTRRfix4K_F8000 : Z := 0x26f.
Definition MSR_PAT : Z := 0x277.
Definition MSR_MTRRdefType : Z := 0x2ff.
Definition MSR_CORE_PERF_FIXED_CTR0 : Z := 0x309.
Definition MSR_CORE_PERF_FIXED_CTR_CTRL : Z := 0x38d.
Definition MSR_CORE_PERF_GLOBAL_STATUS : Z := 0x38e.
Definition MSR_CORE_PERF_GLOBAL_CTRL : Z := 0x38f.
Definition MSR_CORE_PERF_GLOBAL_OVF_CTRL : Z := 0x390.
Definition MSR_MC0_CTL : Z := 0x400.
Definition MSR_IA32_TSCDEADLINE : Z := 0x6e0.
Definition MSR_IA32_BNDCFGS : Z := 0xd90.
Definition MSR_IA32_XSS : Z := 0xda0.
Definition HV_X64_MSR_GUEST_OS_ID : Z := 0x40000000.
Definition HV_X64_MSR_HYPERCALL : Z := 0x40000001.
Definition HV_X64_MSR_VP_RUNTIME : Z := 0x40000010.
Definition HV_X64_MSR_REFERENCE_TSC : Z := 0x40000021.
Definition HV_X64_MSR_APIC_ASSIST_PAGE : Z := 0x40000073.
Definition HV_X64_MSR_CRASH_P0 : Z := 0x40000100.
Definition HV_X64_MSR_CRASH_P4 : Z := 0x40000104.
Definition HV_X64_MSR_CRASH_CTL : Z := 0x40000105.
Definition HV_X64_MSR_CRASH_CTL_NOTIFY : Z := 2 ^ 63.
Definition MSR_KVM_ASYNC_PF_EN : Z := 0x4b564d02.
Definition MSR_KVM_STEAL_TIME : Z := 0x4b564d03.
Definition MSR_KVM_PV_EOI_EN : Z := 0x4b564d04.
Definition MSR_STAR : Z := 0xc0000081.
Definition MSR_LSTAR : Z := 0xc0000082.
Definition MSR_CSTAR : Z := 0xc0000083.
Definition MSR_FMASK : Z := 0xc0000084.
Definition MSR_KERNELGSBASE : Z := 0xc0000102.
Definition MSR_TSC_AUX : Z := 0xc0000103.
Definition MSR_VM_HSAVE_PA : Z := 0xc0010117.

Definition MAX_FIXED_COUNTERS : nat := 3.
Definition MAX_GP_COUNTERS : nat := Z.to_nat (MSR_IA32_PERF_STATUS - MSR_P6_EVNTSEL0).
Definition MSR_MTRRcap_VCNT : nat := 8.
Definition HV_X64_MSR_CRASH_PARAMS : nat := 5.
Definition MCE_BANKS_DEF : nat := 10.

(** Levels of [kvm_arch_put_registers]. *)
Definition KVM_PUT_RUNTIME_STATE : Z := 1.
Definition KVM_PUT_RESET_STATE : Z := 2.
Definition KVM_PUT_FULL_STATE : Z := 3.

(** ** The environment *)

Inductive msr_field :=
  | sysenter_cs | sysenter_esp | sysenter_eip | pat | star | vm_hsave | tsc_aux | tsc_adjust
  | tsc_deadline | msr_ia32_misc_enable | smbase | msr_ia32_feature_control | msr_bndcfgs | xss
  | tsc | cstar | kernelgsbase | fmask | lstar | system_time_msr | wall_clock_msr
  | async_pf_en_msr | pv_eoi_en_msr | steal_time_msr
  | msr_fixed_ctr_ctrl | msr_global_ctrl | msr_global_status | msr_global_ovf_ctrl
  | msr_fixed_counters (i : nat) | msr_gp_counters (i : nat) | msr_gp_evtsel (i : nat)
  | mcg_status | mcg_ctl | mce_banks (i : nat)
  | msr_hv_hypercall | msr_hv_guest_os_id | msr_hv_vapic | msr_hv_tsc
  | msr_hv_crash_params (i : nat) | msr_hv_runtime
  | mtrr_deftype | mtrr_fixed (i : nat) | mtrr_var_base (i : nat) | mtrr_var_mask (i : nat).

#[export] Instance msr_field_eq_dec : EqDecision msr_field.
Proof. solve_decision. Defined.

(** The index is inside the array. *)
Definition in_array (f : msr_field) : bool :=
  match f with
  | msr_fixed_counters i => i <? MAX_FIXED_COUNTERS
  | msr_gp_counters i | msr_gp_evtsel i => i <? MAX_GP_COUNTERS
  | mce_banks i => i <? MCE_BANKS_DEF * 4
  | msr_hv_crash_params i => i <? HV_X64_MSR_CRASH_PARAMS
  | mtrr_fixed i => i <? 11
  | mtrr_var_base i | mtrr_var_mask i => i <? MSR_MTRRcap_VCNT
  | _ => true
  end%nat.

(** The conversion to the type of the field. *)
Definition to_field (f : msr_field) (v : Z) : Z :=
  match f with sysenter_cs | smbase => u32 v | _ => u64 v end.

Record msr_env := mk_msr { msr : msr_field -> Z; mcg_cap : Z; tsc_valid : bool }.

Definition set_msr (f : msr_field) (v : Z) (e : msr_env) : res msr_env :=
  if in_array f
  then Ok (mk_msr (fun g => if decide (g = f) then to_field f v else msr e g) (mcg_cap e) (tsc_valid e))
  else Err OutOfBounds.

Record caps := mk_caps {
  has_msr_star : bool; has_msr_hsave_pa : bool; has_msr_tsc_aux : bool; has_msr_tsc_adjust : bool;
  has_msr_tsc_deadline : bool; has_msr_feature_control : bool; has_msr_async_pf_en : bool;
  has_msr_pv_eoi_en : bool; has_msr_misc_enable : bool; has_msr_smbase : bool; has_msr_bndcfgs : bool;
  has_msr_kvm_steal_time : bool; lm_capable_kernel : bool; has_msr_hv_hypercall : bool;
  has_msr_hv_vapic : bool; has_msr_hv_tsc : bool; has_msr_hv_crash : bool; has_msr_hv_runtime : bool;
  has_msr_mtrr : bool; has_msr_xss : bool; has_msr_architectural_pmu : bool;
  num_architectural_pmu_counters : nat }.

(** ** Writing *)

(** The value of an entry: a field or a constant. *)
Inductive msr_value := Field (f : msr_field) | Const (v : Z).

#[export] Instance msr_value_eq_dec : EqDecision msr_value.
Proof. solve_decision. Defined.

Definition when {A} (b : bool) (l : list A) : list A := if b then l else [].

Definition banks (e : msr_env) : nat := Z.to_nat (Z.land (mcg_cap e) 0xff * 4).

Section put.
Variables (c : caps) (e : msr_env).

Definition mce_entries : list (Z * msr_value) :=
  when (negb (mcg_cap e =? 0))
    ([(MSR_MCG_STATUS, Field mcg_status); (MSR_MCG_CTL, Field mcg_ctl)] ++
     ((fun i => (MSR_MC0_CTL + Z.of_nat i, Field (mce_banks i))) <$> seq 0 (banks e))).

Definition pmu_stop : list (Z * msr_value) :=
  [(MSR_CORE_PERF_FIXED_CTR_CTRL, Const 0); (MSR_CORE_PERF_GLOBAL_CTRL, Const 0)].

Definition pmu_set : list (Z * msr_value) :=
  ((fun i => (MSR_CORE_PERF_FIXED_CTR0 + Z.of_nat i, Field (msr_fixed_counters i))) <$> seq 0 MAX_FIXED_COUNTERS) ++
  (seq 0 (num_architectural_pmu_counters c) ≫= fun i =>
     [(MSR_P6_PERFCTR0 + Z.of_nat i, Field (msr_gp_counters i));
      (MSR_P6_EVNTSEL0 + Z.of_nat i, Field (msr_gp_evtsel i))]) ++
  [(MSR_CORE_PERF_GLOBAL_STATUS, Field msr_global_status);
   (MSR_CORE_PERF_GLOBAL_OVF_CTRL, Field msr_global_ovf_ctrl);
   (MSR_CORE_PERF_FIXED_CTR_CTRL, Field msr_fixed_ctr_ctrl);
   (MSR_CORE_PERF_GLOBAL_CTRL, Field msr_global_ctrl)].

Definition mtrr_fixed_regs : list (Z * msr_value) :=
  [(MSR_MTRRfix64K_00000, Field (mtrr_fixed 0)); (MSR_MTRRfix16K_80000, Field (mtrr_fixed 1));
   (MSR_MTRRfix16K_A0000, Field (mtrr_fixed 2)); (MSR_MTRRfix4K_C0000, Field (mtrr_fixed 3));
   (MSR_MTRRfix4K_C8000, Field (mtrr_fixed 4)); (MSR_MTRRfix4K_D0000, Field (mtrr_fixed 5));
   (MSR_MTRRfix4K_D8000, Field (mtrr_fixed 6)); (MSR_MTRRfix4K_E0000, Field (mtrr_fixed 7));
   (MSR_MTRRfix4K_E8000, Field (mtrr_fixed 8)); (MSR_MTRRfix4K_F0000, Field (mtrr_fixed 9));
   (MSR_MTRRfix4K_F8000, Field (mtrr_fixed 10))].

(** Before the performance counters are stopped. *)
Definition put_first (level : Z) : list (Z * msr_value) :=
  [(MSR_IA32_SYSENTER_CS, Field sysenter_cs); (MSR_IA32_SYSENTER_ESP, Field sysenter_esp);
   (MSR_IA32_SYSENTER_EIP, Field sysenter_eip); (MSR_PAT, Field pat)] ++
  when (has_msr_star c) [(MSR_STAR, Field star)] ++
  when (has_msr_hsave_pa c) [(MSR_VM_HSAVE_PA, Field vm_hsave)] ++
  when (has_msr_tsc_aux c) [(MSR_TSC_AUX, Field tsc_aux)] ++
  when (has_msr_tsc_adjust c) [(MSR_TSC_ADJUST, Field tsc_adjust)] ++
  when (has_msr_misc_enable c) [(MSR_IA32_MISC_ENABLE, Field msr_ia32_misc_enable)] ++
  when (has_msr_smbase c) [(MSR_IA32_SMBASE, Field smbase)] ++
  when (has_msr_bndcfgs c) [(MSR_IA32_BNDCFGS, Field msr_bndcfgs)] ++
  when (has_msr_xss c) [(MSR_IA32_XSS, Field xss)] ++
  when (lm_capable_kernel c)
    [(MSR_CSTAR, Field cstar); (MSR_KERNELGSBASE, Field kernelgsbase);
     (MSR_FMASK, Field fmask); (MSR_LSTAR, Field lstar)] ++
  when (KVM_PUT_RESET_STATE <=? level)
    ([(MSR_IA32_TSC, Field tsc); (MSR_KVM_SYSTEM_TIME, Field system_time_msr);
      (MSR_KVM_WALL_CLOCK, Field wall_clock_msr)] ++
     when (has_msr_async_pf_en c) [(MSR_KVM_ASYNC_PF_EN, Field async_pf_en_msr)] ++
     when (has_msr_pv_eoi_en c) [(MSR_KVM_PV_EOI_EN, Field pv_eoi_en_msr)] ++
     when (has_msr_kvm_steal_time c) [(MSR_KVM_STEAL_TIME, Field steal_time_msr)]).

(** From there on. *)
Definition put_rest (level : Z) : list (Z * msr_value) :=
  when (KVM_PUT_RESET_STATE <=? level)
    (when (has_msr_architectural_pmu c) pmu_set ++
     when (has_msr_hv_hypercall c)
       [(HV_X64_MSR_GUEST_OS_ID, Field msr_hv_guest_os_id); (HV_X64_MSR_HYPERCALL, Field msr_hv_hypercall)] ++
     when (has_msr_hv_vapic c) [(HV_X64_MSR_APIC_ASSIST_PAGE, Field msr_hv_vapic)] ++
     when (has_msr_hv_tsc c) [(HV_X64_MSR_REFERENCE_TSC, Field msr_hv_tsc)] ++
     when (has_msr_hv_crash c)
       (((fun j => (HV_X64_MSR_CRASH_P0 + Z.of_nat j, Field (msr_hv_crash_params j))) <$> seq 0 HV_X64_MSR_CRASH_PARAMS) ++
        [(HV_X64_MSR_CRASH_CTL, Const HV_X64_MSR_CRASH_CTL_NOTIFY)]) ++
     when (has_msr_hv_runtime c) [(HV_X64_MSR_VP_RUNTIME, Field msr_hv_runtime)] ++
     when (has_msr_mtrr c)
       ((MSR_MTRRdefType, Field mtrr_deftype) :: mtrr_fixed_regs ++
        (seq 0 MSR_MTRRcap_VCNT ≫= fun i =>
           [(MSR_MTRRphysBase (Z.of_nat i), Field (mtrr_var_base i));
            (MSR_MTRRphysMask (Z.of_nat i), Field (mtrr_var_mask i))]))) ++
  mce_entries.

Definition put_plan (level : Z) : list (Z * msr_value) :=
  put_first level ++ when ((KVM_PUT_RESET_STATE <=? level) && has_msr_architectural_pmu c) pmu_stop ++ put_rest level.

Definition value (v : msr_value) : res Z :=
  match v with
  | Const z => Ok z
  | Field f => if in_array f then Ok (msr e f) else Err OutOfBounds
  end.

(** The entries built in an array of the given size. *)
Fixpoint build (plan : list (Z * msr_value)) : res (list (Z * Z)) :=
  match plan with
  | [] => Ok []
  | (i, v) :: plan => let? x := value v in let? l := build plan in Ok ((i, x) :: l)
  end%rz.

Definition kvm_put_msrs (level : Z) : res (list (Z * Z)) :=
  let plan := put_plan level in
  if (150 <? length plan)%nat then Err OutOfBounds else build plan.

Definition kvm_put_tscdeadline_msr : list (Z * Z) :=
  when (has_msr_tsc_deadline c) [(MSR_IA32_TSCDEADLINE, msr e tsc_deadline)].

Definition kvm_put_msr_feature_control : list (Z * Z) :=
  [(MSR_IA32_FEATURE_CONTROL, msr e msr_ia32_feature_control)].
End put.

(** ** Reading *)

Section get.
Variables (c : caps) (running : bool).

Definition get_plan (e : msr_env) : list Z :=
  [MSR_IA32_SYSENTER_CS; MSR_IA32_SYSENTER_ESP; MSR_IA32_SYSENTER_EIP; MSR_PAT] ++
  when (has_msr_star c) [MSR_STAR] ++
  when (has_msr_hsave_pa c) [MSR_VM_HSAVE_PA] ++
  when (has_msr_tsc_aux c) [MSR_TSC_AUX] ++
  when (has_msr_tsc_adjust c) [MSR_TSC_ADJUST] ++
  when (has_msr_tsc_deadline c) [MSR_IA32_TSCDEADLINE] ++
  when (has_msr_misc_enable c) [MSR_IA32_MISC_ENABLE] ++
  when (has_msr_smbase c) [MSR_IA32_SMBASE] ++
  when (has_msr_feature_control c) [MSR_IA32_FEATURE_CONTROL] ++
  when (has_msr_bndcfgs c) [MSR_IA32_BNDCFGS] ++
  when (has_msr_xss c) [MSR_IA32_XSS] ++
  when (negb (tsc_valid e)) [MSR_IA32_TSC] ++
  when (lm_capable_kernel c) [MSR_CSTAR; MSR_KERNELGSBASE; MSR_FMASK; MSR_LSTAR] ++
  [MSR_KVM_SYSTEM_TIME; MSR_KVM_WALL_CLOCK] ++
  when (has_msr_async_pf_en c) [MSR_KVM_ASYNC_PF_EN] ++
  when (has_msr_pv_eoi_en c) [MSR_KVM_PV_EOI_EN] ++
  when (has_msr_kvm_steal_time c) [MSR_KVM_STEAL_TIME] ++
  when (has_msr_architectural_pmu c)
    ([MSR_CORE_PERF_FIXED_CTR_CTRL; MSR_CORE_PERF_GLOBAL_CTRL; MSR_CORE_PERF_GLOBAL_STATUS;
      MSR_CORE_PERF_GLOBAL_OVF_CTRL] ++
     ((fun i => MSR_CORE_PERF_FIXED_CTR0 + Z.of_nat i) <$> seq 0 MAX_FIXED_COUNTERS) ++
     (seq 0 (num_architectural_pmu_counters c) ≫= fun i =>
        [MSR_P6_PERFCTR0 + Z.of_nat i; MSR_P6_EVNTSEL0 + Z.of_nat i])) ++
  when (negb (mcg_cap e =? 0))
    ([MSR_MCG_STATUS; MSR_MCG_CTL] ++ ((fun i => MSR_MC0_CTL + Z.of_nat i) <$> seq 0 (banks e))) ++
  when (has_msr_hv_hypercall c) [HV_X64_MSR_HYPERCALL; HV_X64_MSR_GUEST_OS_ID] ++
  when (has_msr_hv_vapic c) [HV_X64_MSR_APIC_ASSIST_PAGE] ++
  when (has_msr_hv_tsc c) [HV_X64_MSR_REFERENCE_TSC] ++
  when (has_msr_hv_crash c) ((fun j => HV_X64_MSR_CRASH_P0 + Z.of_nat j) <$> seq 0 HV_X64_MSR_CRASH_PARAMS) ++
  when (has_msr_hv_runtime c) [HV_X64_MSR_VP_RUNTIME] ++
  when (has_msr_mtrr c)
    ([MSR_MTRRdefType; MSR_MTRRfix64K_00000; MSR_MTRRfix16K_80000; MSR_MTRRfix16K_A0000; MSR_MTRRfix4K_C0000;
      MSR_MTRRfix4K_C8000; MSR_MTRRfix4K_D0000; MSR_MTRRfix4K_D8000; MSR_MTRRfix4K_E0000; MSR_MTRRfix4K_E8000;
      MSR_MTRRfix4K_F0000; MSR_MTRRfix4K_F8000] ++
     (seq 0 MSR_MTRRcap_VCNT ≫= fun i => [MSR_MTRRphysBase (Z.of_nat i); MSR_MTRRphysMask (Z.of_nat i)])).

(** The cases of the switch with one value. *)
Definition msr_cases : list (Z * msr_field) :=
  [(MSR_IA32_SYSENTER_CS, sysenter_cs); (MSR_IA32_SYSENTER_ESP, sysenter_esp); (MSR_IA32_SYSENTER_EIP, sysenter_eip);
   (MSR_PAT, pat); (MSR_STAR, star); (MSR_CSTAR, cstar); (MSR_KERNELGSBASE, kernelgsbase); (MSR_FMASK, fmask);
   (MSR_LSTAR, lstar); (MSR_IA32_TSC, tsc); (MSR_TSC_AUX, tsc_aux); (MSR_TSC_ADJUST, tsc_adjust);
   (MSR_IA32_TSCDEADLINE, tsc_deadline); (MSR_VM_HSAVE_PA, vm_hsave); (MSR_KVM_SYSTEM_TIME, system_time_msr);
   (MSR_KVM_WALL_CLOCK, wall_clock_msr); (MSR_MCG_STATUS, mcg_status); (MSR_MCG_CTL, mcg_ctl);
   (MSR_IA32_MISC_ENABLE, msr_ia32_misc_enable); (MSR_IA32_SMBASE, smbase);
   (MSR_IA32_FEATURE_CONTROL, msr_ia32_feature_control); (MSR_IA32_BNDCFGS, msr_bndcfgs); (MSR_IA32_XSS, xss);
   (MSR_KVM_ASYNC_PF_EN, async_pf_en_msr); (MSR_KVM_PV_EOI_EN, pv_eoi_en_msr); (MSR_KVM_STEAL_TIME, steal_time_msr);
   (MSR_CORE_PERF_FIXED_CTR_CTRL, msr_fixed_ctr_ctrl); (MSR_CORE_PERF_GLOBAL_CTRL, msr_global_ctrl);
   (MSR_CORE_PERF_GLOBAL_STATUS, msr_global_status); (MSR_CORE_PERF_GLOBAL_OVF_CTRL, msr_global_ovf_ctrl);
   (HV_X64_MSR_HYPERCALL, msr_hv_hypercall); (HV_X64_MSR_GUEST_OS_ID, msr_hv_guest_os_id);
   (HV_X64_MSR_APIC_ASSIST_PAGE, msr_hv_vapic); (HV_X64_MSR_REFERENCE_TSC, msr_hv_tsc);
   (HV_X64_MSR_VP_RUNTIME, msr_hv_runtime); (MSR_MTRRdefType, mtrr_deftype);
   (MSR_MTRRfix64K_00000, mtrr_fixed 0); (MSR_MTRRfix16K_80000, mtrr_fixed 1); (MSR_MTRRfix16K_A0000, mtrr_fixed 2);
   (MSR_MTRRfix4K_C0000, mtrr_fixed 3); (MSR_MTRRfix4K_C8000, mtrr_fixed 4); (MSR_MTRRfix4K_D0000, mtrr_fixed 5);
   (MSR_MTRRfix4K_D8000, mtrr_fixed 6); (MSR_MTRRfix4K_E0000, mtrr_fixed 7); (MSR_MTRRfix4K_E8000, mtrr_fixed 8);
   (MSR_MTRRfix4K_F0000, mtrr_fixed 9); (MSR_MTRRfix4K_F8000, mtrr_fixed 10)].

Definition in_range (lo : Z) (n : nat) (i : Z) : bool := (lo <=? i) && (i <? lo + Z.of_nat n).

(** The switch over the index; its default is the last case here. *)
Definition msr_switch (e : msr_env) (i : Z) : option msr_field :=
  match list_find (fun p => p.1 = i) msr_cases with
  | Some (_, (_, f)) => Some f
  | None =>
      if in_range MSR_CORE_PERF_FIXED_CTR0 MAX_FIXED_COUNTERS i
      then Some (msr_fixed_counters (Z.to_nat (i - MSR_CORE_PERF_FIXED_CTR0)))
      else if in_range MSR_P6_PERFCTR0 MAX_GP_COUNTERS i then Some (msr_gp_counters (Z.to_nat (i - MSR_P6_PERFCTR0)))
      else if in_range MSR_P6_EVNTSEL0 MAX_GP_COUNTERS i then Some (msr_gp_evtsel (Z.to_nat (i - MSR_P6_EVNTSEL0)))
      else if (HV_X64_MSR_CRASH_P0 <=? i) && (i <=? HV_X64_MSR_CRASH_P4)
      then Some (msr_hv_crash_params (Z.to_nat (i - HV_X64_MSR_CRASH_P0)))
      else if (MSR_MTRRphysBase 0 <=? i) && (i <=? MSR_MTRRphysMask (Z.of_nat MSR_MTRRcap_VCNT - 1)) then
        Some (if bits i 1 then mtrr_var_mask (Z.to_nat (MSR_MTRRphysIndex i))
              else mtrr_var_base (Z.to_nat (MSR_MTRRphysIndex i)))
      else if in_range MSR_MC0_CTL (banks e) i then Some (mce_banks (Z.to_nat (i - MSR_MC0_CTL)))
      else None
  end.

Fixpoint store_msrs (l : list (Z * Z)) (e : msr_env) : res msr_env :=
  match l with
  | [] => Ok e
  | (i, x) :: l =>
      let? e := match msr_switch e i with Some f => set_msr f x e | None => Ok e end in
      store_msrs l e
  end%rz.

(** [answer] is the result of KVM_GET_MSRS: a negative error, or the number of entries
    the kernel filled in, and the values. *)
Definition kvm_get_msrs (answer : list Z -> Z * list Z) (e : msr_env) : res (Z * msr_env) :=
  (let plan := get_plan e in
  if (150 <? length plan)%nat then Err OutOfBounds
  else
    let e := mk_msr (msr e) (mcg_cap e) (if tsc_valid e then true else negb running) in
    let '(ret, data) := answer plan in
    if ret <? 0 then Ok (ret, e)
    else
      let? e := store_msrs (take (Z.to_nat ret) (zip plan data)) e in Ok (0, e))%rz.
End get.

(** ** Indices and fields *)

(** The register a field holds. *)
Definition msr_index (f : msr_field) : Z :=
  match f with
  | msr_fixed_counters i => MSR_CORE_PERF_FIXED_CTR0 + Z.of_nat i
  | msr_gp_counters i => MSR_P6_PERFCTR0 + Z.of_nat i
  | msr_gp_evtsel i => MSR_P6_EVNTSEL0 + Z.of_nat i
  | mce_banks i => MSR_MC0_CTL + Z.of_nat i
  | msr_hv_crash_params i => HV_X64_MSR_CRASH_P0 + Z.of_nat i
  | mtrr_var_base i => MSR_MTRRphysBase (Z.of_nat i)
  | mtrr_var_mask i => MSR_MTRRphysMask (Z.of_nat i)
  | f => match list_find (fun p => p.2 = f) msr_cases with Some (_, (i, _)) => i | None => 0 end
  end.

(** The field is there: its index is in the array and, for a bank, in use. *)
Definition field_ok (e : msr_env) (f : msr_field) : Prop :=
  in_array f = true /\ match f with mce_banks i => (i < banks e)%nat | _ => True end.

Definition clear_of (lo hi : Z) : bool := forallb (fun p => (p.1 <? lo) || (hi <=? p.1)) msr_cases.

Lemma no_case lo hi i : clear_of lo hi = true -> lo <= i < hi ->
  list_find (fun p : Z * msr_field => p.1 = i) msr_cases = None.
Proof.
  intros H Hi. apply list_find_None, Forall_forall. intros p Hp%list_elem_of_In E.
  unfold clear_of in H. rewrite forallb_forall in H. specialize (H p Hp). bool_props. lia.
Qed.

Lemma range_case e lo hi i : clear_of lo hi = true -> lo <= i < hi ->
  msr_switch e i =
    (if in_range MSR_CORE_PERF_FIXED_CTR0 MAX_FIXED_COUNTERS i
     then Some (msr_fixed_counters (Z.to_nat (i - MSR_CORE_PERF_FIXED_CTR0)))
     else if in_range MSR_P6_PERFCTR0 MAX_GP_COUNTERS i then Some (msr_gp_counters (Z.to_nat (i - MSR_P6_PERFCTR0)))
     else if in_range MSR_P6_EVNTSEL0 MAX_GP_COUNTERS i then Some (msr_gp_evtsel (Z.to_nat (i - MSR_P6_EVNTSEL0)))
     else if (HV_X64_MSR_CRASH_P0 <=? i) && (i <=? HV_X64_MSR_CRASH_P4)
     then Some (msr_hv_crash_params (Z.to_nat (i - HV_X64_MSR_CRASH_P0)))
     else if (MSR_MTRRphysBase 0 <=? i) && (i <=? MSR_MTRRphysMask (Z.of_nat MSR_MTRRcap_VCNT - 1)) then
       Some (if bits i 1 then mtrr_var_mask (Z.to_nat (MSR_MTRRphysIndex i))
             else mtrr_var_base (Z.to_nat (MSR_MTRRphysIndex i)))
     else if in_range MSR_MC0_CTL (banks e) i then Some (mce_banks (Z.to_nat (i - MSR_MC0_CTL)))
     else None).
Proof. intros H Hi. unfold msr_switch. rewrite (no_case lo hi i H Hi). reflexivity. Qed.

(** The bounds of the ranges as numbers. *)
Ltac msr_numbers :=
  cbv [MSR_CORE_PERF_FIXED_CTR0 MSR_P6_PERFCTR0 MSR_P6_EVNTSEL0 MSR_MC0_CTL HV_X64_MSR_CRASH_P0 HV_X64_MSR_CRASH_P4
       MSR_MTRRcap_VCNT HV_X64_MSR_CRASH_PARAMS MAX_FIXED_COUNTERS] in *;
  change MAX_GP_COUNTERS with 18%nat in *; change (MCE_BANKS_DEF * 4)%nat with 40%nat in *;
  change (MSR_MTRRphysBase 0) with 0x200 in *; change (MSR_MTRRphysMask (Z.of_nat 8 - 1)) with 0x20f in *.

(** Which of the ranges an index is in. *)
Ltac range_test := unfold in_range;
  repeat match goal with
  | |- context [?a && ?b] =>
      let E := fresh in
      first [ assert (E : a && b = true) by (apply andb_true_iff; rewrite !Z.leb_le, ?Z.ltb_lt; lia)
            | assert (E : a && b = false) by (apply andb_false_iff; rewrite !Z.leb_gt, ?Z.ltb_ge; lia) ];
      rewrite E; clear E
  end.

Lemma switch_index e f : field_ok e f -> msr_switch e (msr_index f) = Some f.
Proof.
  intros [A B]. destruct f; try reflexivity; cbn [msr_index in_array] in *; apply Nat.ltb_lt in A; msr_numbers.
  - rewrite (range_case e 0x309 0x30c) by (reflexivity || lia). msr_numbers. range_test. do 2 f_equal. lia.
  - rewrite (range_case e 0xc1 0xd3) by (reflexivity || lia). msr_numbers. range_test. do 2 f_equal. lia.
  - rewrite (range_case e 0x186 0x198) by (reflexivity || lia). msr_numbers. range_test. do 2 f_equal. lia.
  - rewrite (range_case e 0x400 0x428) by (reflexivity || lia). msr_numbers. range_test. do 2 f_equal. lia.
  - rewrite (range_case e 0x40000100 0x40000105) by (reflexivity || lia). msr_numbers. range_test. do 2 f_equal. lia.
  - do 11 (destruct i as [|i]; [reflexivity|]). lia.
  - do 8 (destruct i as [|i]; [reflexivity|]). lia.
  - do 8 (destruct i as [|i]; [reflexivity|]). lia.
Qed.

Lemma index_inj e f g : field_ok e f -> field_ok e g -> msr_index f = msr_index g -> f = g.
Proof. intros F G E. apply switch_index in F, G. congruence. Qed.

(** ** The plans *)

(** What start-up guarantees: [kvm_arch_init_vcpu] limits the number of counters and
    [mce_init] the number of banks. *)
Record config_ok (c : caps) (e : msr_env) : Prop := {
  co_pmu : (num_architectural_pmu_counters c <= MAX_GP_COUNTERS)%nat;
  co_banks : (banks e <= MCE_BANKS_DEF * 4)%nat }.

Definition entry_ok (e : msr_env) (p : Z * msr_value) : Prop :=
  match p.2 with
  | Field f => p.1 = msr_index f /\ field_ok e f
  | Const _ => msr_switch e p.1 = None
  end.

Lemma Forall_when {A} (P : A -> Prop) b l : (b = true -> Forall P l) -> Forall P (when b l).
Proof. destruct b; [auto | constructor]. Qed.

Lemma length_when {A} b (l : list A) : (length (when b l) <= length l)%nat.
Proof. destruct b; cbn; lia. Qed.

Lemma Forall_seq {A} (P : A -> Prop) (f : nat -> A) n : (forall i, (i < n)%nat -> P (f i)) -> Forall P (f <$> seq 0 n).
Proof. intros H. apply Forall_fmap, Forall_forall. intros i Hi%elem_of_seq. apply H. lia. Qed.

Lemma Forall_seq_bind {A} (P : A -> Prop) (f : nat -> list A) n :
  (forall i, (i < n)%nat -> Forall P (f i)) -> Forall P (seq 0 n ≫= f).
Proof.
  intros H. apply Forall_forall. intros x (i & Hx & Hi)%list_elem_of_bind. apply elem_of_seq in Hi.
  specialize (H i ltac:(lia)). rewrite Forall_forall in H. auto.
Qed.

Lemma length_seq_bind {A} (f : nat -> list A) k n m : (forall i, length (f i) = k) -> length (seq n m ≫= f) = (k * m)%nat.
Proof. intros H. revert n. induction m as [|m IH]; intros n; cbn; [lia|]. rewrite length_app, H, IH. lia. Qed.

Create HintDb msr.
#[export] Hint Resolve Forall_when Forall_seq Forall_seq_bind : msr.

Ltac plan_step :=
  match goal with
  | |- Forall _ (_ ++ _) => apply Forall_app; split
  | |- Forall _ (when _ _) => apply Forall_when; intros ?
  | |- Forall _ (_ <$> seq 0 _) => apply Forall_seq; intros ? ?
  | |- Forall _ (seq 0 _ ≫= _) => apply Forall_seq_bind; intros ? ?
  | |- Forall _ (_ :: _) => apply Forall_cons; split
  | |- Forall _ [] => apply Forall_nil; exact I
  | |- entry_ok _ (_, Field _) => split; [reflexivity|]; split; [|try exact I]
  | |- in_array _ = true => try reflexivity; cbn [in_array]; apply Nat.ltb_lt; msr_numbers
  end.

(** The length of a plan, with every optional part counted. *)
Ltac plan_length :=
  repeat (rewrite ?length_app, ?length_fmap, ?length_seq in *; try rewrite (length_seq_bind _ 2) in * by reflexivity;
          cbn [length pmu_stop] in *;
          match goal with
          | |- context [length (when ?b ?l)] =>
              pose proof (length_when b l); generalize dependent (length (when b l)); intros
          | _ : context [length (when ?b ?l)] |- _ =>
              pose proof (length_when b l); generalize dependent (length (when b l)); intros
          end);
  rewrite ?length_app, ?length_fmap, ?length_seq in *; try rewrite (length_seq_bind _ 2) in * by reflexivity;
  cbn [length pmu_stop] in *.

Section plans.
Variables (c : caps) (e : msr_env).
Hypothesis H : config_ok c e.

Lemma put_first_ok level : Forall (entry_ok e) (put_first c level).
Proof. unfold put_first. repeat plan_step. Qed.

Lemma crash_ctl_none : msr_switch e HV_X64_MSR_CRASH_CTL = None.
Proof.
  destruct H as [_ B]. rewrite (range_case e 0x40000105 0x40000106) by (reflexivity || (cbv [HV_X64_MSR_CRASH_CTL]; lia)).
  cbv [HV_X64_MSR_CRASH_CTL]. msr_numbers. range_test. reflexivity.
Qed.

Lemma put_rest_ok level : Forall (entry_ok e) (put_rest c e level).
Proof.
  destruct H as [P B]. unfold put_rest, pmu_set, mtrr_fixed_regs, mce_entries.
  repeat plan_step; try lia; cbn; msr_numbers; try lia. exact crash_ctl_none.
Qed.

Lemma pmu_set_has : 
  (MSR_CORE_PERF_FIXED_CTR_CTRL, Field msr_fixed_ctr_ctrl) ∈ pmu_set c /\
  (MSR_CORE_PERF_GLOBAL_CTRL, Field msr_global_ctrl) ∈ pmu_set c.
Proof. unfold pmu_set. rewrite !elem_of_app, !elem_of_cons. auto 10. Qed.

Lemma put_plan_length level : (length (put_plan c e level) <= 148)%nat.
Proof.
  destruct H as [P B]. msr_numbers. unfold put_plan, put_first, put_rest, pmu_set, mce_entries, mtrr_fixed_regs.
  plan_length. msr_numbers. lia.
Qed.
End plans.

(** ** The effect of the entries *)

(** KVM_SET_MSRS sets the registers in the order of the entries. *)
Fixpoint apply_msrs (l : list (Z * Z)) (k : Z -> Z) : Z -> Z :=
  match l with
  | [] => k
  | (i, x) :: l => apply_msrs l (fun j => if j =? i then x else k j)
  end.

Lemma apply_app l1 l2 k : apply_msrs (l1 ++ l2) k = apply_msrs l2 (apply_msrs l1 k).
Proof. revert k. induction l1 as [|[i x] l1 IH]; intros k; [reflexivity | apply IH]. Qed.

(** If all entries for [i] agree, they decide its value. *)
Lemma apply_same l k i x : (forall y, (i, y) ∈ l -> y = x) -> apply_msrs l k i = x \/ apply_msrs l k i = k i.
Proof.
  revert k. induction l as [|[j y] l IH]; intros k A; [auto|]. cbn [apply_msrs].
  destruct (IH (fun z => if z =? j then y else k z)) as [E|E].
  - intros z Hz. apply A, list_elem_of_further, Hz.
  - auto.
  - rewrite E. destruct (Z.eqb_spec i j) as [->|]; [left; apply A, list_elem_of_here | auto].
Qed.

Lemma apply_entry l k i x : (forall y, (i, y) ∈ l -> y = x) -> (i, x) ∈ l -> apply_msrs l k i = x.
Proof.
  revert k. induction l as [|[j y] l IH]; intros k A Hx; [apply elem_of_nil in Hx; contradiction|]. cbn [apply_msrs].
  assert (A' : forall z, (i, z) ∈ l -> z = x) by (intros z Hz; apply A, list_elem_of_further, Hz).
  apply elem_of_cons in Hx as [[= <- <-]|Hx]; [|apply IH; assumption].
  destruct (apply_same l (fun z => if z =? i then x else k z) i x A') as [E|E]; [exact E|]. rewrite E, Z.eqb_refl. reflexivity.
Qed.

Lemma apply_none l k i : i ∉ l.*1 -> apply_msrs l k i = k i.
Proof.
  revert k. induction l as [|[j y] l IH]; intros k N; [reflexivity|]. cbn [apply_msrs]. cbn in N.
  rewrite IH by set_solver. destruct (Z.eqb_spec i j) as [->|]; [set_solver | reflexivity].
Qed.

(** ** Reading back *)

Definition env_ok (e : msr_env) : Prop := forall f, to_field f (msr e f) = msr e f.

Definition sent (e : msr_env) (p : Z * msr_value) : Z * Z :=
  (p.1, match p.2 with Field f => msr e f | Const x => x end).

Lemma build_ok e plan : Forall (fun p => match p.2 with Field f => in_array f = true | Const _ => True end) plan ->
  build e plan = Ok (sent e <$> plan).
Proof.
  induction 1 as [|[i v] plan Hp Hl IH]; [reflexivity|]. cbn [build]. cbn in Hp.
  assert (E : value e v = Ok (match v with Field f => msr e f | Const x => x end)) by (destruct v; cbn; [rewrite Hp|]; reflexivity).
  rewrite E. cbn [rbind]. rewrite IH. reflexivity.
Qed.

Lemma entry_in_array e plan : Forall (entry_ok e) plan ->
  Forall (fun p => match p.2 with Field f => in_array f = true | Const _ => True end) plan.
Proof.
  intros O. eapply Forall_impl; [exact O|]. intros [i [f|x]]; cbn; [intros [_ [A _]]; exact A | auto].
Qed.

(** Entries for the register of a field carry the value of the field. *)
Lemma sent_agrees e plan f y : Forall (entry_ok e) plan -> field_ok e f ->
  (msr_index f, y) ∈ sent e <$> plan -> y = msr e f.
Proof.
  intros O F ([i v] & [= <- ->] & Hp)%list_elem_of_fmap. rewrite Forall_forall in O. specialize (O _ Hp).
  destruct v as [g|x]; cbn in O.
  - destruct O as [E G]. rewrite (index_inj e f g F G E). reflexivity.
  - rewrite (switch_index e f F) in O. discriminate.
Qed.

Section put_facts.
Variables (c : caps) (e : msr_env) (level : Z).
Hypothesis H : config_ok c e.

Lemma kvm_put_msrs_ok : kvm_put_msrs c e level = Ok (sent e <$> put_plan c e level).
Proof.
  unfold kvm_put_msrs. pose proof (put_plan_length c e H level). rewrite (proj2 (Nat.ltb_ge _ _)) by lia.
  apply build_ok. unfold put_plan. apply Forall_app. split; [apply (entry_in_array e), put_first_ok|].
  apply Forall_app. split; [|apply (entry_in_array e), put_rest_ok, H].
  apply Forall_when. intros _. repeat constructor.
Qed.

(** The registers of the fields that are written hold the fields' values, the last
    write of a register being that of its field. *)
Lemma put_written f k : field_ok e f -> (msr_index f, Field f) ∈ put_plan c e level ->
  apply_msrs (sent e <$> put_plan c e level) k (msr_index f) = msr e f.
Proof.
  intros F Hf. unfold put_plan. rewrite !fmap_app, !apply_app.
  set (k1 := apply_msrs _ k). set (k2 := apply_msrs _ k1).
  pose proof (put_first_ok c e level) as O1. pose proof (put_rest_ok c e H level) as O2.
  assert (R : forall k', (msr_index f, Field f) ∈ put_rest c e level ->
                apply_msrs (sent e <$> put_rest c e level) k' (msr_index f) = msr e f).
  { intros k' Hr. apply apply_entry; [intros y; apply sent_agrees; assumption|].
    apply list_elem_of_fmap. exists (msr_index f, Field f). auto. }
  destruct (decide ((msr_index f, Field f) ∈ put_rest c e level)) as [Hr|Nr]; [apply R, Hr|].
  assert (Hr : (msr_index f, Field f) ∈ put_first c level).
  { unfold put_plan in Hf. rewrite !elem_of_app in Hf. destruct Hf as [Hf|[Hf|Hf]]; [exact Hf | | contradiction].
    unfold when, pmu_stop in Hf. destruct (_ && _); [|apply elem_of_nil in Hf; contradiction].
    rewrite !elem_of_cons in Hf. destruct Hf as [E|[E|E]]; [discriminate E | discriminate E | apply elem_of_nil in E; contradiction]. }
  destruct (apply_same (sent e <$> put_rest c e level) k2 (msr_index f) (msr e f)) as [-> | ->];
    [intros y; apply sent_agrees; assumption | reflexivity |].
  unfold k2. rewrite apply_none.
  - apply apply_entry; [intros y; apply sent_agrees; assumption|].
    apply list_elem_of_fmap. exists (msr_index f, Field f). auto.
  - intros Hp. unfold when, pmu_stop in Hp. destruct ((KVM_PUT_RESET_STATE <=? level) && has_msr_architectural_pmu c) eqn:E;
      [|apply elem_of_nil in Hp; contradiction].
    apply Nr. apply andb_true_iff in E as [E1 E2]. unfold put_rest. rewrite E1, E2. cbn [when]. rewrite !elem_of_app. left. left.
    destruct (pmu_set_has c) as [P1 P2]. cbn in Hp. rewrite !elem_of_cons in Hp.
    destruct Hp as [Hp|[Hp|Hp]]; [| |apply elem_of_nil in Hp; contradiction].
    + assert (f = msr_fixed_ctr_ctrl) as -> by (apply (index_inj e); [exact F | split; [reflexivity | exact I] | exact Hp]). exact P1.
    + assert (f = msr_global_ctrl) as -> by (apply (index_inj e); [exact F | split; [reflexivity | exact I] | exact Hp]). exact P2.
Qed.
End put_facts.

(** The kernel's answer: all entries, with the values of [k]. *)
Definition answer (k : Z -> Z) (ids : list Z) : Z * list Z := (Z.of_nat (length ids), k <$> ids).

Definition index_ok (e : msr_env) (i : Z) : Prop := exists f, i = msr_index f /\ field_ok e f.

Lemma case_index e i : bool_decide (i ∈ msr_cases.*1) = true -> index_ok e i.
Proof.
  intros ([j f] & -> & Hp)%bool_decide_eq_true_1%list_elem_of_fmap. exists f. cbn [fst].
  assert (A : Forall (fun p : Z * msr_field => p.1 = msr_index p.2 /\ field_ok e p.2) msr_cases)
    by (repeat constructor).
  rewrite Forall_forall in A. apply (A (j, f) Hp).
Qed.

Ltac array_index f := exists f; split; [reflexivity | split; [cbn [in_array]; apply Nat.ltb_lt; msr_numbers; lia | exact I || lia]].

Lemma get_plan_ok c e : config_ok c e -> Forall (index_ok e) (get_plan c e).
Proof.
  intros [P B]. unfold get_plan. repeat plan_step;
    try match goal with |- index_ok _ ?i => is_const i; apply case_index; vm_compute; reflexivity end.
  - array_index (msr_fixed_counters i).
  - array_index (msr_gp_counters i).
  - array_index (msr_gp_evtsel i).
  - array_index (mce_banks i).
  - array_index (msr_hv_crash_params i).
  - array_index (mtrr_var_base i).
  - array_index (mtrr_var_mask i).
Qed.

Lemma get_plan_length c e : config_ok c e -> (length (get_plan c e) <= 147)%nat.
Proof. intros [P B]. msr_numbers. unfold get_plan. plan_length. msr_numbers. lia. Qed.

Lemma zip_map (k : Z -> Z) ids : zip ids (k <$> ids) = (fun i => (i, k i)) <$> ids.
Proof. induction ids as [|i ids IH]; cbn; [reflexivity | f_equal; exact IH]. Qed.

(** The loop over the answer. *)
Lemma store_ok e ids k : Forall (index_ok e) ids ->
  exists e', store_msrs ((fun i => (i, k i)) <$> ids) e = Ok e' /\ mcg_cap e' = mcg_cap e /\ tsc_valid e' = tsc_valid e /\
    forall f, field_ok e f -> msr e' f = if decide (msr_index f ∈ ids) then to_field f (k (msr_index f)) else msr e f.
Proof.
  intros O. revert e O. induction ids as [|i ids IH]; intros e O.
  - exists e. split; [reflexivity|]. split; [reflexivity|]. split; [reflexivity|]. intros f _.
    rewrite decide_False by (intros Hf%elem_of_nil; contradiction). reflexivity.
  - inversion O as [|? ? (f & -> & F) O']; subst. cbn [fmap list_fmap store_msrs].
    rewrite (switch_index e f F). unfold set_msr. rewrite (proj1 F). cbn [rbind].
    set (e1 := mk_msr _ _ _). destruct (IH e1) as (e' & E & M & T & V); [exact O'|].
    exists e'. split; [exact E|]. split; [exact M|]. split; [exact T|]. intros g G. rewrite (V g G).
    destruct (decide (msr_index g ∈ ids)) as [D|D].
    + rewrite decide_True by (apply list_elem_of_further, D). reflexivity.
    + cbn [e1 msr]. destruct (decide (g = f)) as [->|N].
      * rewrite decide_True by apply list_elem_of_here. reflexivity.
      * rewrite decide_False; [reflexivity|]. intros [E2|E2]%elem_of_cons; [|contradiction].
        apply N, (index_inj e g f G F E2).
Qed.

Lemma kvm_get_msrs_ok c running k e : config_ok c e ->
  exists e', kvm_get_msrs c running (answer k) e = Ok (0, e') /\
    mcg_cap e' = mcg_cap e /\ tsc_valid e' = (if tsc_valid e then true else negb running) /\
    forall f, field_ok e f ->
      msr e' f = if decide (msr_index f ∈ get_plan c e) then to_field f (k (msr_index f)) else msr e f.
Proof.
  intros H. unfold kvm_get_msrs. pose proof (get_plan_length c e H). rewrite (proj2 (Nat.ltb_ge _ _)) by lia.
  unfold answer. rewrite (proj2 (Z.ltb_ge _ _)) by lia. rewrite zip_map, take_ge by (rewrite length_fmap; lia).
  destruct (store_ok (mk_msr (msr e) (mcg_cap e) (if tsc_valid e then true else negb running)) (get_plan c e) k)
    as (e' & E & M & T & V); [exact (get_plan_ok c e H)|].
  rewrite E. cbn [rbind]. exists e'. auto.
Qed.

(** *** What is read at reset was written *)

Lemma elem_of_fst {A B} (l : list (A * B)) a b : (a, b) ∈ l -> a ∈ l.*1.
Proof. intros H. apply list_elem_of_fmap. exists (a, b). auto. Qed.

Lemma elem_of_seq_map {A} (f : nat -> A) i n : (i < n)%nat -> f i ∈ f <$> seq 0 n.
Proof. intros H. apply list_elem_of_fmap. exists i. split; [reflexivity | apply elem_of_seq; lia]. Qed.

Lemma elem_of_seq_bind {A} (f : nat -> list A) i n x : (i < n)%nat -> x ∈ f i -> x ∈ seq 0 n ≫= f.
Proof. intros H Hx. apply list_elem_of_bind. exists i. split; [exact Hx | apply elem_of_seq; lia]. Qed.

(** Looks for an entry in the parts of a plan that are there. *)
Ltac find_in :=
  match goal with
  | |- _ ∈ _ ++ _ => apply elem_of_app; first [left; find_in | right; find_in]
  | |- _ ∈ when true _ => unfold when; find_in
  | |- _ ∈ _ :: _ => first [apply list_elem_of_here | apply list_elem_of_further; find_in]
  | H : (?i < ?n)%nat |- _ ∈ ?f <$> seq 0 ?n => exact (elem_of_seq_map f i n H)
  | H : (?i < ?n)%nat |- _ ∈ seq 0 ?n ≫= ?f => apply (elem_of_seq_bind f i n _ H); cbn beta; find_in
  end.

Lemma read_is_written c e e0 level : mcg_cap e0 = mcg_cap e -> KVM_PUT_RESET_STATE <= level ->
  Forall (fun i => i = MSR_IA32_TSCDEADLINE \/ i = MSR_IA32_FEATURE_CONTROL \/
                   i ∈ (put_first c level ++ put_rest c e level).*1) (get_plan c e0).
Proof.
  intros M L. apply Z.leb_le in L. unfold get_plan, banks. rewrite M. fold (banks e).
  unfold put_first, put_rest, mce_entries, pmu_set, mtrr_fixed_regs. rewrite L.
  repeat plan_step;
    try (left; reflexivity); try (right; left; reflexivity); right; right; eapply elem_of_fst;
    repeat match goal with E : ?b = true |- context [when ?b] => rewrite E end; find_in.
Qed.

(** The other two places a register is written from. *)
Lemma index_elsewhere e f : field_ok e f ->
  (msr_index f = MSR_IA32_TSCDEADLINE -> f = tsc_deadline) /\
  (msr_index f = MSR_IA32_FEATURE_CONTROL -> f = msr_ia32_feature_control).
Proof.
  intros F. split; intros E.
  - apply (index_inj e f tsc_deadline F); [repeat split | exact E].
  - apply (index_inj e f msr_ia32_feature_control F); [repeat split | exact E].
Qed.

Lemma written_plan c e level f : config_ok c e -> field_ok e f ->
  msr_index f ∈ (put_first c level ++ put_rest c e level).*1 -> (msr_index f, Field f) ∈ put_plan c e level.
Proof.
  intros H F ([i v] & E & Hp)%list_elem_of_fmap. cbn in E. subst i.
  assert (O : Forall (entry_ok e) (put_first c level ++ put_rest c e level))
    by (apply Forall_app; split; [apply put_first_ok | apply put_rest_ok, H]).
  rewrite Forall_forall in O. specialize (O _ Hp). unfold entry_ok in O. cbn in O. destruct v as [g|x].
  - destruct O as [E G]. rewrite (index_inj e f g F G E) in *. unfold put_plan. rewrite !elem_of_app. rewrite elem_of_app in Hp. tauto.
  - rewrite (switch_index e f F) in O. discriminate.
Qed.

Lemma not_written c e level : config_ok c e ->
  Forall (fun p => p.1 <> MSR_IA32_TSCDEADLINE /\ p.1 <> MSR_IA32_FEATURE_CONTROL) (put_plan c e level).
Proof.
  intros [P B]. unfold put_plan, put_first, put_rest, mce_entries, pmu_stop, pmu_set, mtrr_fixed_regs.
  repeat plan_step; cbn [fst]; cbv [MSR_IA32_TSCDEADLINE MSR_IA32_FEATURE_CONTROL MSR_MTRRphysBase MSR_MTRRphysMask];
    msr_numbers; try (split; discriminate); lia.
Qed.

(** The two registers are read only where they are there. *)
Lemma get_guard c e : config_ok c e -> (msr_index tsc_deadline ∈ get_plan c e -> has_msr_tsc_deadline c = true) /\
  (msr_index msr_ia32_feature_control ∈ get_plan c e -> has_msr_feature_control c = true).
Proof.
  intros [P B].
  assert (G : Forall (fun i => (i = MSR_IA32_TSCDEADLINE -> has_msr_tsc_deadline c = true) /\
                               (i = MSR_IA32_FEATURE_CONTROL -> has_msr_feature_control c = true)) (get_plan c e)).
  { unfold get_plan. repeat plan_step; split; intros E; try assumption; try discriminate E; exfalso;
      cbv [MSR_IA32_TSCDEADLINE MSR_IA32_FEATURE_CONTROL MSR_MTRRphysBase MSR_MTRRphysMask] in E; msr_numbers; lia. }
  rewrite Forall_forall in G. split; intros D; apply (G _ D); reflexivity.
Qed.

(** ** Properties *)

(** All writes of [kvm_arch_put_registers] to model-specific registers, in their order. *)
Definition put_all (c : caps) (e : msr_env) (level : Z) (k : Z -> Z) : res (Z -> Z) :=
  (let? l := kvm_put_msrs c e level in
  Ok (apply_msrs (kvm_put_tscdeadline_msr c e)
       (apply_msrs l
         (apply_msrs (when ((KVM_PUT_RESET_STATE <=? level) && has_msr_feature_control c) (kvm_put_msr_feature_control e)) k))))%rz.

Lemma put_all_value c e level k f : config_ok c e -> KVM_PUT_RESET_STATE <= level -> field_ok e f ->
  (f = tsc_deadline -> has_msr_tsc_deadline c = true) ->
  (f = msr_ia32_feature_control -> has_msr_feature_control c = true) ->
  f = tsc_deadline \/ f = msr_ia32_feature_control \/ (msr_index f, Field f) ∈ put_plan c e level ->
  exists k', put_all c e level k = Ok k' /\ k' (msr_index f) = msr e f.
Proof.
  intros H L F Hd Hc Hf. unfold put_all. rewrite kvm_put_msrs_ok by exact H. cbn [rbind].
  eexists. split; [reflexivity|]. pose proof (not_written c e level H) as N.
  assert (Nd : forall i, i = MSR_IA32_TSCDEADLINE \/ i = MSR_IA32_FEATURE_CONTROL -> i ∉ (sent e <$> put_plan c e level).*1).
  { intros i Hi (p & -> & (q & -> & Hq)%list_elem_of_fmap)%list_elem_of_fmap. rewrite Forall_forall in N.
    destruct (N q Hq). cbn in Hi. tauto. }
  unfold kvm_put_tscdeadline_msr, kvm_put_msr_feature_control.
  destruct Hf as [->|[->|Hf]].
  - rewrite (Hd eq_refl). reflexivity.
  - rewrite apply_none by (unfold when; destruct (has_msr_tsc_deadline c); cbn; [intros [E|E]%elem_of_cons; [discriminate E | apply elem_of_nil in E; contradiction] | apply not_elem_of_nil]).
    rewrite apply_none by (apply Nd; right; reflexivity).
    rewrite (proj2 (Z.leb_le _ _) L), (Hc eq_refl). reflexivity.
  - rewrite apply_none; [apply put_written; assumption|].
    unfold when. destruct (has_msr_tsc_deadline c); cbn; [|apply not_elem_of_nil]. intros [E|E]%elem_of_cons; [|apply elem_of_nil in E; contradiction].
    apply (Nd (msr_index f)); [left; exact E|]. apply list_elem_of_fmap. exists (sent e (msr_index f, Field f)).
    split; [reflexivity|]. apply list_elem_of_fmap. exists (msr_index f, Field f). auto.
Qed.

(** Reading back what was written. *)
Lemma msrs_back c e e0 level k running : config_ok c e -> env_ok e -> mcg_cap e0 = mcg_cap e ->
  KVM_PUT_RESET_STATE <= level ->
  exists k' e', put_all c e level k = Ok k' /\ kvm_get_msrs c running (answer k') e0 = Ok (0, e') /\
    forall f, field_ok e f -> msr e' f = if decide (msr_index f ∈ get_plan c e0) then msr e f else msr e0 f.
Proof.
  intros H W M L. assert (H0 : config_ok c e0) by (destruct H; split; [assumption | unfold banks; rewrite M; assumption]).
  destruct (put_all c e level k) as [k'|] eqn:Ek;
    [|unfold put_all in Ek; rewrite kvm_put_msrs_ok in Ek by exact H; discriminate Ek].
  destruct (kvm_get_msrs_ok c running k' e0 H0) as (e' & E & _ & _ & V). exists k', e'.
  split; [reflexivity|]. split; [exact E|]. intros f F.
  assert (F0 : field_ok e0 f) by (destruct F as [A B]; split; [exact A | unfold banks in *; rewrite M; exact B]).
  rewrite (V f F0). destruct (decide (msr_index f ∈ get_plan c e0)) as [D|D]; [|reflexivity].
  pose proof (read_is_written c e e0 level M L) as R. rewrite Forall_forall in R. specialize (R _ D).
  destruct (index_elsewhere e f F) as [I1 I2].
  destruct (put_all_value c e level k f H L F) as (k2 & Ek2 & Ev).
  - intros ->. apply (get_guard c e0 H0), D.
  - intros ->. apply (get_guard c e0 H0), D.
  - destruct R as [R|[R|R]]; [left; auto | right; left; auto | right; right; apply written_plan; assumption].
  - assert (k2 = k') as -> by congruence. rewrite Ev. apply W.
Qed.

(** C26: the model-specific registers survive a transfer: after QEMU has written them at
    reset level and reads them back, every field the kernel supports has the value that
    was written, whatever was in the environment and in the kernel before, and every
    other field is left alone; the counters that are stopped first get their values. *)
Theorem msr_roundtrip c e e0 level k running : config_ok c e -> env_ok e -> mcg_cap e0 = mcg_cap e ->
  KVM_PUT_RESET_STATE <= level ->
  exists k' e', put_all c e level k = Ok k' /\ kvm_get_msrs c running (answer k') e0 = Ok (0, e') /\
    forall f, field_ok e f -> msr e' f = if decide (msr_index f ∈ get_plan c e0) then msr e f else msr e0 f.
Proof. apply msrs_back. Qed.

(** The arrays are large enough: with the limits that start-up sets on the counters
    and banks, writing and reading fill at most 148 of the 150 entries and stay inside
    every array of the environment. *)
Theorem msr_bounds c e level k running : config_ok c e ->
  (exists l, kvm_put_msrs c e level = Ok l /\ (length l <= 148)%nat) /\
  (length (get_plan c e) <= 147)%nat /\ exists r, kvm_get_msrs c running (answer k) e = Ok r.
Proof.
  intros H. split; [|split].
  - exists (sent e <$> put_plan c e level). split; [apply kvm_put_msrs_ok, H|]. rewrite length_fmap. apply put_plan_length, H.
  - apply get_plan_length, H.
  - destruct (kvm_get_msrs_ok c running k e H) as (e' & E & _). eauto.
Qed.

(** A kernel that has all registers, four counters and ten banks. *)
Definition all_caps : caps :=
  mk_caps true true true true true true true true true true true true true true true true true true true true true 4.

Definition sample_msrs (v : Z) : msr_env := mk_msr (fun _ => v) 10 false.

Lemma sample_config v : config_ok all_caps (sample_msrs v).
Proof. split; vm_compute; lia. Qed.

Lemma msr_roundtrip_witness :
  exists k' e', put_all all_caps (sample_msrs 5) KVM_PUT_RESET_STATE (fun _ => 9) = Ok k' /\
    kvm_get_msrs all_caps true (answer k') (sample_msrs 0) = Ok (0, e') /\
    msr e' lstar = 5 /\ msr e' msr_global_ctrl = 5 /\ msr e' (mce_banks 39) = 5 /\ msr e' (mtrr_var_mask 7) = 5.
Proof.
  destruct (msr_roundtrip all_caps (sample_msrs 5) (sample_msrs 0) KVM_PUT_RESET_STATE (fun _ => 9) true
    (sample_config 5) ltac:(intros []; reflexivity) eq_refl ltac:(vm_compute; discriminate)) as (k' & e' & P & G & V).
  exists k', e'. split; [exact P|]. split; [exact G|].
  assert (F : forall f, in_array f = true -> msr_index f ∈ get_plan all_caps (sample_msrs 0) -> msr e' f = 5).
  { intros f A D. rewrite V by (split; [exact A | destruct f; try exact I; apply Nat.ltb_lt in A; vm_compute in A |- *; lia]).
    rewrite decide_True by exact D. reflexivity. }
  repeat split; apply F; try reflexivity; apply (bool_decide_eq_true_1 _); vm_compute; reflexivity.
Defined.

Lemma msr_bounds_witness :
  exists l, kvm_put_msrs all_caps (sample_msrs 5) KVM_PUT_FULL_STATE = Ok l /\ (length l <= 148)%nat.
Proof. exact (proj1 (msr_bounds all_caps (sample_msrs 5) KVM_PUT_FULL_STATE (fun _ => 0) true (sample_config 5))). Defined.
