(* ===== verification/ByteLayout.v ===== *)
(** * Structures laid out in memory

    The areas that QEMU passes to the kernel hold numbers at fixed offsets, in the
    little-endian order of host and target.  A store is an offset with the bytes that go
    there; stores to fields that do not overlap can all be read back. *)

From Stdlib Require Import ZArith Lia Bool.
From stdpp Require Import base list.
From S2P Require Import Prelude PageWalk.

Open Scope Z_scope.

(** ** Numbers as bytes *)

Fixpoint to_le (n : nat) (v : Z) : list Z :=
  match n with O => [] | S n => v mod 256 :: to_le n (v / 256) end.

Fixpoint of_le (l : list Z) : Z :=
  match l with [] => 0 | b :: l => b + 256 * of_le l end.

Lemma length_to_le n v : length (to_le n v) = n.
Proof. revert v. induction n as [|n IH]; intros v; cbn; [reflexivity | rewrite IH; reflexivity]. Qed.

Lemma of_to_le n v : of_le (to_le n v) = v mod 256 ^ Z.of_nat n.
Proof.
  revert v. induction n as [|n IH]; intros v; [cbn; rewrite Z.mod_1_r; reflexivity|].
  cbn [to_le of_le]. rewrite IH, Nat2Z.inj_succ, Z.pow_succ_r, Z.rem_mul_r by lia. lia.
Qed.

Lemma of_to_le_small n v : 0 <= v < 256 ^ Z.of_nat n -> of_le (to_le n v) = v.
Proof. intros H. rewrite of_to_le. apply Z.mod_small, H. Qed.

(** ** Bit fields *)

Lemma bits_below n x : 0 <= n -> (forall i, n <= i -> Z.testbit x i = false) -> 0 <= x < 2 ^ n.
Proof.
  intros Hn H. replace x with (x mod 2 ^ n); [apply Z.mod_pos_bound; lia|].
  apply Z.bits_inj'. intros i Hi. destruct (Z.lt_ge_cases i n).
  - apply Z.mod_pow2_bits_low; lia.
  - rewrite Z.mod_pow2_bits_high, H by lia. reflexivity.
Qed.

Lemma testbit_above n x i : 0 <= x < 2 ^ n -> n <= i -> Z.testbit x i = false.
Proof.
  intros Hx Hi. destruct (Z.lt_ge_cases n 0); [rewrite Z.pow_neg_r in Hx by lia; lia|].
  rewrite <- (Z.mod_small x (2 ^ n)) by exact Hx. apply Z.mod_pow2_bits_high. lia.
Qed.

Lemma land_ffff x : Z.land x 0xffff = x mod 2 ^ 16.
Proof. change 0xffff with (Z.ones 16). apply Z.land_ones. lia. Qed.

(** Two 16-bit words in one 32-bit word. *)
Lemma pack_words hi lo : 0 <= hi < 2 ^ 16 -> 0 <= lo < 2 ^ 16 ->
  let w := u32 (u32 (Z.shiftl hi 16) + lo) in
  0 <= w < 2 ^ 32 /\ Z.land w 0xffff = lo /\ Z.land (Z.shiftr w 16) 0xffff = hi.
Proof.
  intros Hh Hl w. assert (w = hi * 2 ^ 16 + lo) as ->.
  { unfold w, u32. rewrite Z.shiftl_mul_pow2 by lia. rewrite (Z.mod_small (hi * 2 ^ 16)) by lia. apply Z.mod_small. lia. }
  rewrite !land_ffff, shiftr_div by lia. split_and!; [lia | lia | | ].
  - rewrite Z.add_comm, Z.mod_add by lia. apply Z.mod_small, Hl.
  - rewrite Z.div_add_l, Z.div_small, Z.add_0_r by lia. apply Z.mod_small, Hh.
Qed.

(** ** Stores and loads *)

Definition u64s (l : list Z) : Prop := Forall (fun v => 0 <= v < 2 ^ 64) l.

(** memcpy of an array of 64-bit numbers *)
Definition quads (o : Z) (l : list Z) : list (Z * list Z) := imap (fun j v => (o + 8 * Z.of_nat j, to_le 8 v)) l.

Fixpoint store_all (l : list (Z * list Z)) (m : mem) : mem :=
  match l with [] => m | (o, bs) :: l => store_all l (write_bytes m o bs) end.

(** [ldq_p] and the 32-bit load *)
Definition ldq (m : mem) (o : Z) : Z := of_le (read_bytes m o 8).
Definition ldl (m : mem) (o : Z) : Z := of_le (read_bytes m o 4).
Definition ldqs (m : mem) (o : Z) (n : nat) : list Z := (fun j => ldq m (o + 8 * Z.of_nat j)) <$> seq 0 n.

(** ** Stores to separate fields *)

(** The bytes [bs] are at offset [o]. *)
Definition holds (m : mem) (f : Z * list Z) : Prop := read_bytes m f.1 (length f.2) = f.2.

Definition apart (f g : Z * nat) : bool := (f.1 + Z.of_nat f.2 <=? g.1) || (g.1 + Z.of_nat g.2 <=? f.1).

Fixpoint all_apart (l : list (Z * nat)) : bool :=
  match l with [] => true | f :: l => forallb (apart f) l && all_apart l end.

Definition layout (l : list (Z * list Z)) : list (Z * nat) := (fun f => (f.1, length f.2)) <$> l.

Lemma write_bytes_other bs m a x : x < a \/ a + Z.of_nat (length bs) <= x -> write_bytes m a bs x = m x.
Proof.
  revert m a. induction bs as [|b bs IH]; intros m a H; [reflexivity|]. cbn [write_bytes length] in *.
  rewrite IH by lia. unfold store. rewrite (proj2 (Z.eqb_neq _ _)) by lia. reflexivity.
Qed.

Lemma read_bytes_ext m m' a n : (forall x, a <= x < a + Z.of_nat n -> m x = m' x) -> read_bytes m a n = read_bytes m' a n.
Proof.
  intros H. apply list_fmap_ext. intros i x Hi. apply lookup_seq in Hi as [-> ?]. apply H. lia.
Qed.

Lemma read_write bs m a : read_bytes (write_bytes m a bs) a (length bs) = bs.
Proof.
  revert m a. induction bs as [|b bs IH]; intros m a; [reflexivity|].
  cbn [length write_bytes]. rewrite read_bytes_S, IH. f_equal.
  rewrite write_bytes_other by lia. unfold store. rewrite Z.eqb_refl. reflexivity.
Qed.

Lemma holds_write f g m : apart (f.1, length f.2) (g.1, length g.2) = true -> holds m f -> holds (write_bytes m g.1 g.2) f.
Proof.
  unfold holds, apart. cbn. intros Ha%orb_prop H.
  rewrite <- H at 2. apply read_bytes_ext. intros x Hx. apply write_bytes_other.
  destruct Ha as [Ha | Ha]; apply Z.leb_le in Ha; lia.
Qed.

Lemma holds_store_all l f m :
  forallb (apart (f.1, length f.2)) (layout l) = true -> holds m f -> holds (store_all l m) f.
Proof.
  revert m. induction l as [|[o bs] l IH]; intros m H Hf; [exact Hf|].
  cbn in H. apply andb_prop in H as [Ha H]. cbn [store_all].
  apply IH; [exact H|]. apply (holds_write f (o, bs)); assumption.
Qed.

(** Fields that do not overlap hold what was stored in them. *)
Lemma store_all_holds l m : all_apart (layout l) = true -> Forall (holds (store_all l m)) l.
Proof.
  revert m. induction l as [|[o bs] l IH]; intros m H; [constructor|].
  cbn in H. apply andb_prop in H as [Ha H]. cbn [store_all]. constructor; [|apply IH, H].
  apply holds_store_all; [exact Ha | apply read_write].
Qed.

(** Only the bytes of the area matter. *)
Lemma holds_within l m m' n : (forall x, 0 <= x < n -> m x = m' x) ->
  Forall (fun f : Z * nat => 0 <= f.1 /\ f.1 + Z.of_nat f.2 <= n) (layout l) ->
  Forall (holds m') l -> Forall (holds m) l.
Proof.
  intros Hm Hb H. unfold layout in Hb. rewrite Forall_fmap in Hb. rewrite Forall_forall in *.
  intros f Hf. specialize (H f Hf). specialize (Hb f Hf). cbn in Hb.
  unfold holds in *. rewrite <- H at 2. apply read_bytes_ext. intros x Hx. apply Hm. lia.
Qed.

Lemma ldq_holds m o v : 0 <= v < 2 ^ 64 -> holds m (o, to_le 8 v) -> ldq m o = v.
Proof.
  unfold holds, ldq. cbn [fst snd]. rewrite length_to_le. intros Hv ->. apply of_to_le_small, Hv.
Qed.

Lemma ldl_holds m o v : 0 <= v < 2 ^ 32 -> holds m (o, to_le 4 v) -> ldl m o = v.
Proof.
  unfold holds, ldl. cbn [fst snd]. rewrite length_to_le. intros Hv ->. apply of_to_le_small, Hv.
Qed.

Lemma quads_cons o v l : quads o (v :: l) = (o, to_le 8 v) :: quads (o + 8) l.
Proof.
  unfold quads. cbn [imap]. f_equal; [f_equal; lia|]. apply imap_ext. intros i x _. cbn [compose]. f_equal; lia.
Qed.

Lemma quads_app o l k : quads o (l ++ k) = quads o l ++ quads (o + 8 * Z.of_nat (length l)) k.
Proof.
  revert o. induction l as [|v l IH]; intros o.
  - change ([] ++ k) with k. change (quads o []) with (@nil (Z * list Z)). cbn [app length]. f_equal; lia.
  - cbn [app length]. rewrite !quads_cons, IH. cbn [app]. do 3 f_equal. lia.
Qed.

Lemma layout_quads o l : layout (quads o l) = (fun j => (o + 8 * Z.of_nat j, 8%nat)) <$> seq 0 (length l).
Proof.
  unfold layout. revert o. induction l as [|v l IH]; intros o; [reflexivity|].
  rewrite quads_cons. cbn [length seq fmap list_fmap]. f_equal; [cbn; f_equal; lia|].
  rewrite IH, <- seq_shift. rewrite <- (list_fmap_compose S). apply list_fmap_ext. intros i x _. cbn [compose]. f_equal; lia.
Qed.

Lemma ldqs_S m o n : ldqs m o (S n) = ldq m o :: ldqs m (o + 8) n.
Proof.
  unfold ldqs. cbn [seq fmap list_fmap]. f_equal; [f_equal; lia|].
  rewrite <- seq_shift. rewrite <- (list_fmap_compose S). apply list_fmap_ext. intros i x _. cbn [compose]. f_equal; lia.
Qed.

Lemma ldqs_quads m l o : u64s l -> Forall (holds m) (quads o l) -> ldqs m o (length l) = l.
Proof.
  revert o. induction l as [|v l IH]; intros o Hu H; [reflexivity|].
  rewrite quads_cons in H. apply Forall_cons in H as [Hv H]. apply Forall_cons in Hu as [Hr Hu].
  cbn [length]. rewrite ldqs_S, (ldq_holds _ _ v), IH by assumption. reflexivity.
Qed.

Lemma rows_quads m rows o :
  Forall (fun r => length r = 8%nat /\ u64s r) rows -> Forall (holds m) (quads o (mjoin rows)) ->
  (fun i => ldqs m (o + 64 * Z.of_nat i) 8) <$> seq 0 (length rows) = rows.
Proof.
  revert o. induction rows as [|r rows IH]; intros o Hr H; [reflexivity|].
  apply Forall_cons in Hr as [[Hl Hu] Hr]. cbn [mjoin list_join] in H.
  rewrite quads_app, Forall_app, Hl in H. destruct H as [H0 H].
  cbn [length seq fmap list_fmap]. f_equal.
  - rewrite <- Hl at 1. replace (o + 64 * Z.of_nat 0) with o by lia. apply ldqs_quads; assumption.
  - rewrite <- (IH (o + 64) Hr) at 2 by exact H. rewrite <- seq_shift, <- (list_fmap_compose S).
    apply list_fmap_ext. intros i x _. cbn [compose]. f_equal; lia.
Qed.

Lemma layout_app l k : layout (l ++ k) = layout l ++ layout k.
Proof. apply fmap_app. Qed.

Lemma forall_bool {A} (f : A -> bool) (P : A -> Prop) l :
  (forall a, f a = true -> P a) -> forallb f l = true -> Forall P l.
Proof. intros H Hl. apply Forall_forall. intros a Ha%list_elem_of_In. rewrite forallb_forall in Hl. auto. Qed.

Definition u64b (v : Z) : bool := (0 <=? v) && (v <? 2 ^ 64).

Lemma u64s_bool l : forallb u64b l = true -> u64s l.
Proof. apply forall_bool. unfold u64b. intros v H. lia. Qed.
