(* ===== verification/XSave.v ===== *)
(** * Floating-point and vector state between QEMU and the kernel (target-i386/kvm.c)

    [kvm_put_xsave] lays the state out in the XSAVE area, a region of 4096 bytes, and
    [kvm_get_xsave] takes it out again; without XSAVE, [kvm_put_fpu] and [kvm_get_fpu]
    use struct kvm_fpu, which has no room for the upper halves of the vector registers.

    The region is a memory of bytes.  A store or a memcpy is an offset with the bytes
    that go there; a memcpy of an array of 64-bit numbers is the sequence of its
    elements, host and target being little-endian.  The sixteen bytes of each of the
    x87 registers are kept as bytes. *)

From Stdlib Require Import ZArith Lia Bool.
From stdpp Require Import base list.
From S2P Require Import Prelude PageWalk ByteLayout.

Open Scope Z_scope.

(** ** The state *)

Definition CPU_NB_REGS : nat := 16.

(** The fields of CPUX86State.  [fpregs] are the 128 bytes of the x87 registers,
    [xmm_regs] the eight quadwords of each of the 32 registers, [bnd_regs] the bounds
    lb, ub of each of the four registers. *)
Record fpu_env := mk_fpu_env {
  fpstt : Z; fpus : Z; fpuc : Z; fptags : list Z; fpregs : list Z;
  fpop : Z; fpip : Z; fpdp : Z; mxcsr : Z; xmm_regs : list (list Z);
  xstate_bv : Z; bnd_regs : list Z; bndcs_regs : list Z; opmask_regs : list Z }.

(** Array lengths and widths as in the struct. *)
Record fpu_ok (e : fpu_env) : Prop := {
  fo_stt : 0 <= fpstt e < 8;
  fo_us : 0 <= fpus e < 2 ^ 16;
  fo_uc : 0 <= fpuc e < 2 ^ 16;
  fo_tags : length (fptags e) = 8%nat /\ Forall (fun t => t = 0 \/ t = 1) (fptags e);
  fo_regs : length (fpregs e) = 128%nat;
  fo_op : 0 <= fpop e < 2 ^ 16;
  fo_ip : 0 <= fpip e < 2 ^ 64;
  fo_dp : 0 <= fpdp e < 2 ^ 64;
  fo_mxcsr : 0 <= mxcsr e < 2 ^ 32;
  fo_xmm : length (xmm_regs e) = 32%nat /\ Forall (fun r => length r = 8%nat /\ u64s r) (xmm_regs e);
  fo_bv : 0 <= xstate_bv e < 2 ^ 64;
  fo_bnd : length (bnd_regs e) = 8%nat /\ u64s (bnd_regs e);
  fo_bndcs : length (bndcs_regs e) = 2%nat /\ u64s (bndcs_regs e);
  fo_opmask : length (opmask_regs e) = 8%nat /\ u64s (opmask_regs e) }.

(** [XMM_Q(j)] of register [i] *)
Definition XMM_Q (e : fpu_env) (i j : nat) : Z := nth j (nth i (xmm_regs e) []) 0.

(** [env->fpus & ~(7 << 11) | (env->fpstt & 7) << 11] *)
Definition status_word (e : fpu_env) : Z :=
  Z.lor (Z.land (fpus e) (Z.lnot (Z.shiftl 7 11))) (Z.shiftl (Z.land (fpstt e) 7) 11).

(** [for (i = 0; i < 8; ++i) twd |= (!env->fptags[i]) << i;] *)
Fixpoint tag_word (i : Z) (tags : list Z) (twd : Z) : Z :=
  match tags with
  | [] => twd
  | t :: tags => tag_word (i + 1) tags (Z.lor twd (Z.shiftl (if t =? 0 then 1 else 0) i))
  end.

(** [env->fptags[i] = !((twd >> i) & 1)] *)
Definition tags_of (twd : Z) : list Z :=
  (fun i => if Z.land (Z.shiftr twd (Z.of_nat i)) 1 =? 0 then 1 else 0) <$> seq 0 8.

(** ** struct kvm_fpu *)

Record kvm_fpu := mk_kvm_fpu {
  fpr : list Z; fcw : Z; fsw : Z; ftwx : Z; last_opcode : Z; last_ip : Z; last_dp : Z;
  xmm : list (list Z); k_mxcsr : Z }.

Definition kvm_put_fpu (e : fpu_env) : kvm_fpu :=
  mk_kvm_fpu (fpregs e) (fpuc e) (status_word e) (tag_word 0 (fptags e) 0) (fpop e) (fpip e) (fpdp e)
    ((fun i => to_le 8 (XMM_Q e i 0) ++ to_le 8 (XMM_Q e i 1)) <$> seq 0 CPU_NB_REGS) (mxcsr e).

(** The first two quadwords of a register replaced. *)
Definition set_low (q0 q1 : Z) (r : list Z) : list Z := <[1%nat := q1]> (<[0%nat := q0]> r).

(** The kernel's answer is a return code with the struct it filled in. *)
Definition kvm_get_fpu (answer : Z * kvm_fpu) (e : fpu_env) : Z * fpu_env :=
  let '(ret, f) := answer in
  if ret <? 0 then (ret, e) else
  (0, mk_fpu_env (Z.land (Z.shiftr (fsw f) 11) 7) (fsw f) (fcw f) (tags_of (ftwx f)) (fpr f)
    (last_opcode f) (last_ip f) (last_dp f) (k_mxcsr f)
    (imap (fun i r => if (i <? CPU_NB_REGS)%nat
                      then set_low (of_le (take 8 (nth i (xmm f) []))) (of_le (take 8 (drop 8 (nth i (xmm f) [])))) r
                      else r) (xmm_regs e))
    (xstate_bv e) (bnd_regs e) (bndcs_regs e) (opmask_regs e)).

(** ** The XSAVE area *)

Definition XSAVE_FCW_FSW : Z := 0.
Definition XSAVE_FTW_FOP : Z := 1.
Definition XSAVE_CWD_RIP : Z := 2.
Definition XSAVE_CWD_RDP : Z := 4.
Definition XSAVE_MXCSR : Z := 6.
Definition XSAVE_ST_SPACE : Z := 8.
Definition XSAVE_XMM_SPACE : Z := 40.
Definition XSAVE_XSTATE_BV : Z := 128.
Definition XSAVE_YMMH_SPACE : Z := 144.
Definition XSAVE_BNDREGS : Z := 240.
Definition XSAVE_BNDCSR : Z := 256.
Definition XSAVE_OPMASK : Z := 272.
Definition XSAVE_ZMM_Hi256 : Z := 288.
Definition XSAVE_Hi16_ZMM : Z := 416.

(** [&xsave->region[r]] as an offset in bytes *)
Definition region (r : Z) : Z := 4 * r.

(** One turn of the loop over the registers. *)
Definition xmm_stores (e : fpu_env) (i : nat) : list (Z * list Z) :=
  let xmm := region XSAVE_XMM_SPACE + 16 * Z.of_nat i in
  let ymmh := region XSAVE_YMMH_SPACE + 16 * Z.of_nat i in
  let zmmh := region XSAVE_ZMM_Hi256 + 32 * Z.of_nat i in
  [(xmm, to_le 8 (XMM_Q e i 0)); (xmm + 8, to_le 8 (XMM_Q e i 1));
   (ymmh, to_le 8 (XMM_Q e i 2)); (ymmh + 8, to_le 8 (XMM_Q e i 3));
   (zmmh, to_le 8 (XMM_Q e i 4)); (zmmh + 8, to_le 8 (XMM_Q e i 5));
   (zmmh + 16, to_le 8 (XMM_Q e i 6)); (zmmh + 24, to_le 8 (XMM_Q e i 7))].

Definition xsave_stores (e : fpu_env) : list (Z * list Z) :=
  [(region XSAVE_FCW_FSW, to_le 4 (u32 (u32 (Z.shiftl (status_word e) 16) + fpuc e)));
   (region XSAVE_FTW_FOP, to_le 4 (u32 (u32 (Z.shiftl (fpop e) 16) + tag_word 0 (fptags e) 0)));
   (region XSAVE_CWD_RIP, to_le 8 (fpip e));
   (region XSAVE_CWD_RDP, to_le 8 (fpdp e));
   (region XSAVE_ST_SPACE, fpregs e);
   (region XSAVE_MXCSR, to_le 4 (mxcsr e));
   (region XSAVE_XSTATE_BV, to_le 8 (xstate_bv e))] ++
  quads (region XSAVE_BNDREGS) (bnd_regs e) ++
  quads (region XSAVE_BNDCSR) (bndcs_regs e) ++
  quads (region XSAVE_OPMASK) (opmask_regs e) ++
  (seq 0 CPU_NB_REGS ≫= xmm_stores e) ++
  quads (region XSAVE_Hi16_ZMM) (mjoin (drop 16 (xmm_regs e))).

(** The area after the memset and the stores. *)
Definition xsave_area (e : fpu_env) : mem := store_all (xsave_stores e) (fun _ => 0).

(** The ioctl that is made: KVM_SET_FPU or KVM_SET_XSAVE. *)
Inductive fpu_set := SET_FPU (f : kvm_fpu) | SET_XSAVE (xsave : mem).

Definition kvm_put_xsave (has_xsave : bool) (e : fpu_env) : fpu_set :=
  if negb has_xsave then SET_FPU (kvm_put_fpu e) else SET_XSAVE (xsave_area e).

Definition xmm_loads (m : mem) (i : nat) : list Z :=
  let xmm := region XSAVE_XMM_SPACE + 16 * Z.of_nat i in
  let ymmh := region XSAVE_YMMH_SPACE + 16 * Z.of_nat i in
  let zmmh := region XSAVE_ZMM_Hi256 + 32 * Z.of_nat i in
  [ldq m xmm; ldq m (xmm + 8); ldq m ymmh; ldq m (ymmh + 8);
   ldq m zmmh; ldq m (zmmh + 8); ldq m (zmmh + 16); ldq m (zmmh + 24)].

(** The answers of the kernel to KVM_GET_FPU and KVM_GET_XSAVE. *)
Record fpu_kernel := { GET_FPU : Z * kvm_fpu; GET_XSAVE : Z * mem }.

Definition xsave_env (m : mem) : fpu_env :=
  let cwd := Z.land (ldl m (region XSAVE_FCW_FSW)) 0xffff in
  let swd := Z.land (Z.shiftr (ldl m (region XSAVE_FCW_FSW)) 16) 0xffff in
  let twd := Z.land (ldl m (region XSAVE_FTW_FOP)) 0xffff in
  mk_fpu_env (Z.land (Z.shiftr swd 11) 7) swd cwd (tags_of twd)
    (read_bytes m (region XSAVE_ST_SPACE) 128)
    (Z.land (Z.shiftr (ldl m (region XSAVE_FTW_FOP)) 16) 0xffff)
    (ldq m (region XSAVE_CWD_RIP)) (ldq m (region XSAVE_CWD_RDP)) (ldl m (region XSAVE_MXCSR))
    ((xmm_loads m <$> seq 0 CPU_NB_REGS) ++
     ((fun i => ldqs m (region XSAVE_Hi16_ZMM + 64 * Z.of_nat i) 8) <$> seq 0 16))
    (ldq m (region XSAVE_XSTATE_BV))
    (ldqs m (region XSAVE_BNDREGS) 8) (ldqs m (region XSAVE_BNDCSR) 2) (ldqs m (region XSAVE_OPMASK) 8).

Definition kvm_get_xsave (has_xsave : bool) (k : fpu_kernel) (e : fpu_env) : Z * fpu_env :=
  if negb has_xsave then kvm_get_fpu (GET_FPU k) e else
  let '(ret, m) := GET_XSAVE k in
  if ret <? 0 then (ret, e) else (0, xsave_env m).

(** ** The control words *)

Section Words.
Context (e : fpu_env) (OK : fpu_ok e).

Lemma status_word_range : 0 <= status_word e < 2 ^ 16.
Proof using OK.
  apply bits_below; [lia|]. intros i Hi. unfold status_word.
  rewrite Z.lor_spec, Z.land_spec, Z.shiftl_spec, Z.land_spec by lia.
  rewrite (testbit_above 16 (fpus e)), (testbit_above 3 7) by (apply OK || lia).
  rewrite andb_false_r. reflexivity.
Qed.

(** The register stack pointer is in bits 11 to 13 of the status word. *)
Lemma status_word_top : Z.land (Z.shiftr (status_word e) 11) 7 = fpstt e.
Proof using OK.
  replace (Z.land (Z.shiftr (status_word e) 11) 7) with (Z.land (fpstt e) 7);
    [rewrite land7; apply Z.mod_small, OK|].
  apply Z.bits_inj'. intros i Hi. unfold status_word.
  rewrite !Z.land_spec, Z.shiftr_spec, Z.lor_spec, Z.land_spec, Z.shiftl_spec, Z.land_spec by lia.
  replace (i + 11 - 11) with i by lia.
  destruct (Z.lt_ge_cases i 3); [|rewrite (testbit_above 3 7) by lia; rewrite !andb_false_r; reflexivity].
  replace (Z.testbit (Z.lnot (Z.shiftl 7 11)) (i + 11)) with false.
  - rewrite andb_false_r. destruct (Z.testbit (fpstt e) i), (Z.testbit 7 i); reflexivity.
  - assert (i = 0 \/ i = 1 \/ i = 2) as [-> | [-> | ->]] by lia; reflexivity.
Qed.

Lemma tags_codec : tags_of (tag_word 0 (fptags e) 0) = fptags e /\ 0 <= tag_word 0 (fptags e) 0 < 2 ^ 8.
Proof using OK.
  destruct (fo_tags e OK) as [Hl Hb]. revert Hl Hb. generalize (fptags e). intros l Hl Hb.
  do 8 (destruct l as [|? l]; [discriminate|]). destruct l; [|discriminate].
  rewrite !Forall_cons in Hb.
  decompose [and or] Hb; subst; (split; [reflexivity | split; [discriminate | reflexivity]]).
Qed.
End Words.

(** ** Round trips *)

(** What a round trip returns: the stack pointer is also in the status word. *)
Definition with_status (e : fpu_env) : fpu_env :=
  mk_fpu_env (fpstt e) (status_word e) (fpuc e) (fptags e) (fpregs e) (fpop e) (fpip e) (fpdp e) (mxcsr e)
    (xmm_regs e) (xstate_bv e) (bnd_regs e) (bndcs_regs e) (opmask_regs e).

(** The fields of the area, as offset and size. *)
Definition xsave_layout : list (Z * nat) :=
  [(0, 4%nat); (4, 4%nat); (8, 8%nat); (16, 8%nat); (32, 128%nat); (24, 4%nat); (512, 8%nat)] ++
  ((fun j => (960 + 8 * Z.of_nat j, 8%nat)) <$> seq 0 8) ++ ((fun j => (1024 + 8 * Z.of_nat j, 8%nat)) <$> seq 0 2) ++
  ((fun j => (1088 + 8 * Z.of_nat j, 8%nat)) <$> seq 0 8) ++
  (seq 0 16 ≫= fun i => [(160 + 16 * Z.of_nat i, 8%nat); (160 + 16 * Z.of_nat i + 8, 8%nat);
    (576 + 16 * Z.of_nat i, 8%nat); (576 + 16 * Z.of_nat i + 8, 8%nat);
    (1152 + 32 * Z.of_nat i, 8%nat); (1152 + 32 * Z.of_nat i + 8, 8%nat);
    (1152 + 32 * Z.of_nat i + 16, 8%nat); (1152 + 32 * Z.of_nat i + 24, 8%nat)]) ++
  ((fun j => (1664 + 8 * Z.of_nat j, 8%nat)) <$> seq 0 128).

Lemma xsave_layout_apart : all_apart xsave_layout = true.
Proof. vm_compute. reflexivity. Qed.

Lemma layout_xmm e l : layout (l ≫= xmm_stores e) = l ≫= fun i => layout (xmm_stores e i).
Proof. induction l as [|i l IH]; [reflexivity|]. cbn [mbind list_bind]. rewrite layout_app. f_equal. exact IH. Qed.

Lemma length_join8 (rows : list (list Z)) : Forall (fun r => length r = 8%nat /\ u64s r) rows ->
  length (mjoin rows) = (8 * length rows)%nat.
Proof.
  induction 1 as [|r rows [Hr _] _ IH]; [reflexivity|]. change (length (r ++ mjoin rows) = (8 * S (length rows))%nat).
  rewrite length_app, Hr, IH. lia.
Qed.

Section RoundTrip.
Context (e : fpu_env) (OK : fpu_ok e).

Lemma high_rows : length (drop 16 (xmm_regs e)) = 16%nat /\
  Forall (fun r => length r = 8%nat /\ u64s r) (drop 16 (xmm_regs e)).
Proof using OK.
  destruct (fo_xmm e OK) as [Hl Hr]. rewrite length_drop, Hl. split; [reflexivity | apply Forall_drop, Hr].
Qed.

Lemma xsave_stores_layout : layout (xsave_stores e) = xsave_layout.
Proof using OK.
  unfold xsave_stores, xsave_layout. rewrite !layout_app, layout_xmm, !layout_quads.
  rewrite (proj1 (fo_bnd e OK)), (proj1 (fo_bndcs e OK)), (proj1 (fo_opmask e OK)).
  rewrite length_join8, (proj1 high_rows) by apply high_rows.
  cbn [layout fmap list_fmap fst snd]. rewrite (fo_regs e OK). reflexivity.
Qed.

Lemma xsave_area_holds m : (forall x, 0 <= x < 4096 -> m x = xsave_area e x) -> Forall (holds m) (xsave_stores e).
Proof using OK.
  intros Hm. pose proof (store_all_holds (xsave_stores e) (fun _ => 0)) as H.
  rewrite xsave_stores_layout in H. specialize (H xsave_layout_apart).
  refine (holds_within _ _ _ _ Hm _ H). rewrite xsave_stores_layout.
  apply (forall_bool (fun f : Z * nat => (0 <=? f.1) && (f.1 + Z.of_nat f.2 <=? 4096)));
    [intros f Hf; lia | vm_compute; reflexivity].
Qed.

Lemma xmm_row i : (i < 32)%nat -> exists r, xmm_regs e !! i = Some r /\ u64s r /\ r = (XMM_Q e i <$> seq 0 8).
Proof using OK.
  intros Hi. destruct (fo_xmm e OK) as [Hl Hr].
  destruct (lookup_lt_is_Some_2 (xmm_regs e) i) as [r Er]; [lia|]. exists r.
  destruct (Forall_lookup_1 _ _ _ _ Hr Er) as [H8 Hu]. split_and!; [exact Er | exact Hu |].
  unfold XMM_Q. rewrite (nth_lookup_Some _ _ [] r Er). do 8 (destruct r as [|? r]; [discriminate|]).
  destruct r; [reflexivity | discriminate].
Qed.

Lemma XMM_Q_range i j : (i < 32)%nat -> (j < 8)%nat -> 0 <= XMM_Q e i j < 2 ^ 64.
Proof using OK.
  intros Hi Hj. destruct (xmm_row i Hi) as (r & _ & Hu & ->). unfold u64s in Hu. rewrite Forall_fmap, Forall_forall in Hu.
  apply (Hu j), elem_of_seq. lia.
Qed.

Lemma xmm_loads_row m i : (i < 16)%nat -> Forall (holds m) (xmm_stores e i) -> Some (xmm_loads m i) = xmm_regs e !! i.
Proof using OK.
  intros Hi H. destruct (xmm_row i ltac:(lia)) as (r & -> & _ & ->). f_equal. unfold xmm_stores in H.
  rewrite !Forall_cons in H. destruct H as (H0 & H1 & H2 & H3 & H4 & H5 & H6 & H7 & _).
  unfold xmm_loads. cbn [seq fmap list_fmap].
  apply ldq_holds in H0, H1, H2, H3, H4, H5, H6, H7; try (apply XMM_Q_range; lia).
  rewrite H0, H1, H2, H3, H4, H5, H6, H7. reflexivity.
Qed.

Lemma xmm_loads_low m : Forall (holds m) (seq 0 CPU_NB_REGS ≫= xmm_stores e) ->
  xmm_loads m <$> seq 0 CPU_NB_REGS = take 16 (xmm_regs e).
Proof using OK.
  intros H. rewrite Forall_bind in H. apply list_eq. intros i. rewrite list_lookup_fmap.
  destruct (Nat.lt_ge_cases i 16) as [Hi | Hi].
  - rewrite lookup_seq_lt, lookup_take_lt by (unfold CPU_NB_REGS; lia). cbn [fmap option_fmap option_map].
    apply xmm_loads_row; [exact Hi|]. rewrite Forall_forall in H. apply H, elem_of_seq. unfold CPU_NB_REGS. lia.
  - rewrite lookup_seq_ge, lookup_take_ge by (unfold CPU_NB_REGS; lia). reflexivity.
Qed.

Lemma xsave_env_area m : (forall x, 0 <= x < 4096 -> m x = xsave_area e x) -> xsave_env m = with_status e.
Proof using OK.
  intros Hm. pose proof (xsave_area_holds m Hm) as H. unfold xsave_stores in H.
  rewrite !Forall_app, !Forall_cons in H.
  destruct H as ((Hfsw & Hfop & Hip & Hdp & Hst & Hmx & Hbv & _) & Hbnd & Hbndcs & Hop & Hlow & Hhigh).
  pose proof (status_word_range e OK) as Hsw. pose proof (status_word_top e OK) as Htop.
  destruct (tags_codec e OK) as [Htags Htw].
  destruct (pack_words (status_word e) (fpuc e) Hsw (fo_uc e OK)) as (Hr1 & Elo1 & Ehi1).
  destruct (pack_words (fpop e) (tag_word 0 (fptags e) 0) (fo_op e OK) ltac:(lia)) as (Hr2 & Elo2 & Ehi2).
  apply ldl_holds in Hfsw, Hfop, Hmx; [|apply OK | assumption | assumption].
  apply ldq_holds in Hip, Hdp, Hbv; [|apply OK | apply OK | apply OK].
  unfold holds in Hst. cbn [fst snd] in Hst. rewrite (fo_regs e OK) in Hst.
  apply ldqs_quads in Hbnd, Hbndcs, Hop; [|apply OK | apply OK | apply OK].
  rewrite (proj1 (fo_bnd e OK)) in Hbnd. rewrite (proj1 (fo_bndcs e OK)) in Hbndcs.
  rewrite (proj1 (fo_opmask e OK)) in Hop.
  apply xmm_loads_low in Hlow. apply rows_quads in Hhigh; [|apply high_rows].
  rewrite (proj1 high_rows) in Hhigh.
  unfold xsave_env, with_status. rewrite Hfsw, Hfop, Elo1, Ehi1, Elo2, Ehi2, Htop, Htags, Hst, Hip, Hdp, Hmx, Hbv.
  rewrite Hbnd, Hbndcs, Hop, Hlow, Hhigh, take_drop. reflexivity.
Qed.
End RoundTrip.

(** Without XSAVE only the x87 state and the low halves of the first sixteen registers
    travel; the rest stays what it was in [e0]. *)
Definition legacy_part (e e0 : fpu_env) : fpu_env :=
  mk_fpu_env (fpstt e) (status_word e) (fpuc e) (fptags e) (fpregs e) (fpop e) (fpip e) (fpdp e) (mxcsr e)
    (imap (fun i r => if (i <? 16)%nat then [XMM_Q e i 0; XMM_Q e i 1] ++ drop 2 r else r) (xmm_regs e0))
    (xstate_bv e0) (bnd_regs e0) (bndcs_regs e0) (opmask_regs e0).

Lemma set_low_drop q0 q1 r : length r = 8%nat -> set_low q0 q1 r = [q0; q1] ++ drop 2 r.
Proof. intros H. do 2 (destruct r as [|? r]; [discriminate|]). reflexivity. Qed.

Lemma fpu_env_legacy e e0 : fpu_ok e -> fpu_ok e0 -> kvm_get_fpu (0, kvm_put_fpu e) e0 = (0, legacy_part e e0).
Proof.
  intros OK OK0. unfold kvm_get_fpu, kvm_put_fpu. cbn [fsw fcw ftwx fpr last_opcode last_ip last_dp k_mxcsr xmm].
  rewrite (status_word_top e OK), (proj1 (tags_codec e OK)). change (0 <? 0) with false. cbv iota.
  unfold legacy_part. do 2 f_equal. apply imap_ext. intros i r Hr. change CPU_NB_REGS with 16%nat.
  destruct (Nat.ltb_spec i 16) as [Hi|]; [|reflexivity].
  rewrite (nth_lookup_Some _ _ [] (to_le 8 (XMM_Q e i 0) ++ to_le 8 (XMM_Q e i 1))).
  2: { rewrite list_lookup_fmap, lookup_seq_lt by exact Hi. reflexivity. }
  rewrite take_app_length', drop_app_length', take_ge by (rewrite length_to_le; lia).
  rewrite !of_to_le_small by (apply (XMM_Q_range e OK); lia).
  apply set_low_drop. exact (proj1 (Forall_lookup_1 _ _ _ _ (proj2 (fo_xmm e0 OK0)) Hr)).
Qed.

(** The kernel returns what it was last given, in the 4096 bytes of the area. *)
Definition fpu_returned (s : fpu_set) (k : fpu_kernel) : Prop :=
  match s with
  | SET_FPU f => GET_FPU k = (0, f)
  | SET_XSAVE m => (GET_XSAVE k).1 = 0 /\ forall x, 0 <= x < 4096 -> (GET_XSAVE k).2 x = m x
  end.

Lemma xsave_back has_xsave e e0 k :
  fpu_ok e -> fpu_ok e0 -> fpu_returned (kvm_put_xsave has_xsave e) k ->
  kvm_get_xsave has_xsave k e0 = (0, if has_xsave then with_status e else legacy_part e e0).
Proof.
  intros OK OK0 Hk. unfold kvm_get_xsave, kvm_put_xsave in *. destruct has_xsave; cbn in Hk |- *.
  - destruct Hk as [Hret Hm]. destruct (GET_XSAVE k) as [ret m]. cbn in Hret, Hm. subst ret. cbn.
    rewrite (xsave_env_area e OK m Hm). reflexivity.
  - rewrite Hk. apply fpu_env_legacy; assumption.
Qed.

(** C25: The floating-point and vector state read back from the kernel with kvm_get_xsave is the
    one that kvm_put_xsave wrote, if the kernel returns the 4096 bytes it was given: every field
    of the area is stored and loaded at the same place and no two fields overlap.  The stack
    pointer is in addition found in the status word.  Without XSAVE the same holds of the x87
    state and the low 128 bits of the first sixteen registers, and the rest is not touched. *)
Theorem xsave_roundtrip has_xsave e e0 k :
  fpu_ok e -> fpu_ok e0 -> fpu_returned (kvm_put_xsave has_xsave e) k ->
  kvm_get_xsave has_xsave k e0 = (0, if has_xsave then with_status e else legacy_part e e0).
Proof. apply xsave_back. Qed.

(** A state with all registers in use. *)
Definition fpu_example : fpu_env :=
  mk_fpu_env 5 0x3a81 0x37f [0; 1; 1; 0; 1; 1; 1; 0] ((fun i => Z.of_nat i) <$> seq 0 128) 0x7de
    0x7ffff7a01234 0x7fffffffe0a8 0x1f80
    ((fun i => (fun j => 2 ^ 40 * Z.of_nat i + Z.of_nat j) <$> seq 0 8) <$> seq 0 32)
    7 ((fun j => Z.of_nat j) <$> seq 0 8) [1; 2] ((fun j => Z.of_nat j) <$> seq 1 8).

Lemma fpu_example_ok : fpu_ok fpu_example.
Proof.
  constructor; try (cbn; lia); try reflexivity; (split; [reflexivity|]).
  - cbn. rewrite !Forall_cons. naive_solver.
  - apply (forall_bool (fun r => (length r =? 8)%nat && forallb u64b r)); [|vm_compute; reflexivity].
    intros r [Hl%Nat.eqb_eq Hr%u64s_bool]%andb_prop. auto.
  - apply u64s_bool. reflexivity.
  - apply u64s_bool. reflexivity.
  - apply u64s_bool. reflexivity.
Qed.

Lemma xsave_roundtrip_witness :
  kvm_get_xsave true {| GET_FPU := (0, kvm_put_fpu fpu_example); GET_XSAVE := (0, xsave_area fpu_example) |} fpu_example
    = (0, with_status fpu_example) /\
  kvm_get_xsave false {| GET_FPU := (0, kvm_put_fpu fpu_example); GET_XSAVE := (0, xsave_area fpu_example) |} fpu_example
    = (0, legacy_part fpu_example fpu_example) /\ fpus (with_status fpu_example) = 0x2a81.
Proof.
  split_and!; [| |reflexivity].
  - apply (xsave_roundtrip true fpu_example fpu_example); [apply fpu_example_ok | apply fpu_example_ok|].
    split; [reflexivity | intros x _; reflexivity].
  - apply (xsave_roundtrip false fpu_example fpu_example); [apply fpu_example_ok | apply fpu_example_ok | reflexivity].
Defined.
