(* ===== verification/Apic.v ===== *)
(** * The local interrupt controller in the kernel (hw/i386/kvm/apic.c, hw/intc/apic_common.c)

    With the interrupt controllers in the kernel, QEMU keeps a copy of the registers of
    each local APIC.  [kvm_put_apic_state] lays it out in the register page, one
    32-bit register every sixteen bytes, and [kvm_get_apic_state] reads it back and works
    out when the timer expires next.  The class methods are those of kvm-apic.

    Arrays of the struct are lists of their length ([apic_ok]).  Times are in
    nanoseconds of the virtual clock, an argument where the code reads it. *)

From Stdlib Require Import ZArith Lia Bool.
From stdpp Require Import base list.
From S2P Require Import Prelude PageWalk ByteLayout.

Open Scope Z_scope.

Definition APIC_LVT_TIMER : nat := 0.
Definition APIC_LVT_LINT1 : nat := 4.
Definition APIC_LVT_NB : nat := 6.
Definition APIC_DM_NMI : Z := 4.
Definition APIC_LVT_TIMER_PERIODIC : Z := Z.shiftl 1 17.
Definition APIC_LVT_MASKED : Z := Z.shiftl 1 16.
Definition MSR_IA32_APICBASE_BSP : Z := Z.shiftl 1 8.
Definition MSR_IA32_APICBASE_ENABLE : Z := Z.shiftl 1 11.
Definition APIC_DEFAULT_ADDRESS : Z := 0xfee00000.
Definition KVM_APIC_REG_SIZE : Z := 0x400.

Record APICCommonState := mk_apic {
  apicbase : Z; apic_id : Z; arb_id : Z; tpr : Z; spurious_vec : Z; log_dest : Z; dest_mode : Z;
  isr : list Z; tmr : list Z; irr : list Z; lvt : list Z; esr : Z; icr : list Z;
  divide_conf : Z; count_shift : Z; initial_count : Z; initial_count_load_time : Z;
  next_time : Z; timer_expiry : Z; wait_for_sipi : Z; vapic_paddr : Z }.

Definition u32s (n : nat) (l : list Z) : Prop := length l = n /\ Forall (fun v => 0 <= v < 2 ^ 32) l.

Record apic_ok (s : APICCommonState) : Prop := {
  ao_base : 0 <= apicbase s < 2 ^ 32;
  ao_id : 0 <= apic_id s < 2 ^ 8;
  ao_arb : 0 <= arb_id s < 2 ^ 8;
  ao_tpr : 0 <= tpr s < 2 ^ 8;
  ao_spurious : 0 <= spurious_vec s < 2 ^ 32;
  ao_log : 0 <= log_dest s < 2 ^ 8;
  ao_mode : 0 <= dest_mode s < 2 ^ 8;
  ao_isr : u32s 8 (isr s);
  ao_tmr : u32s 8 (tmr s);
  ao_irr : u32s 8 (irr s);
  ao_lvt : u32s APIC_LVT_NB (lvt s);
  ao_esr : 0 <= esr s < 2 ^ 32;
  ao_icr : u32s 2 (icr s);
  ao_divide : 0 <= divide_conf s < 2 ^ 32;
  ao_shift : 0 <= count_shift s < 8;
  ao_count : 0 <= initial_count s < 2 ^ 32 }.

(** ** The register page *)

(** [kvm_apic_set_reg] as offset and bytes, [kvm_apic_get_reg] *)
Definition kvm_apic_set_reg (reg_id val : Z) : Z * list Z := (Z.shiftl reg_id 4, to_le 4 (u32 val)).
Definition kvm_apic_get_reg (kapic : mem) (reg_id : Z) : Z := ldl kapic (Z.shiftl reg_id 4).

Definition kvm_put_apic_regs (s : APICCommonState) : list (Z * list Z) :=
  [kvm_apic_set_reg 0x2 (Z.shiftl (apic_id s) 24);
   kvm_apic_set_reg 0x8 (tpr s);
   kvm_apic_set_reg 0xd (Z.shiftl (log_dest s) 24);
   kvm_apic_set_reg 0xe (Z.lor (Z.shiftl (dest_mode s) 28) 0x0fffffff);
   kvm_apic_set_reg 0xf (spurious_vec s)] ++
  (seq 0 8 ≫= fun i =>
     [kvm_apic_set_reg (0x10 + Z.of_nat i) (nth i (isr s) 0);
      kvm_apic_set_reg (0x18 + Z.of_nat i) (nth i (tmr s) 0);
      kvm_apic_set_reg (0x20 + Z.of_nat i) (nth i (irr s) 0)]) ++
  [kvm_apic_set_reg 0x28 (esr s);
   kvm_apic_set_reg 0x30 (nth 0 (icr s) 0);
   kvm_apic_set_reg 0x31 (nth 1 (icr s) 0)] ++
  ((fun i => kvm_apic_set_reg (0x32 + Z.of_nat i) (nth i (lvt s) 0)) <$> seq 0 APIC_LVT_NB) ++
  [kvm_apic_set_reg 0x38 (initial_count s);
   kvm_apic_set_reg 0x3e (divide_conf s)].

Definition kvm_put_apic_state (s : APICCommonState) : mem := store_all (kvm_put_apic_regs s) (fun _ => 0).

(** ** The timer *)

Definition set_timer (next expiry : Z) (s : APICCommonState) : APICCommonState :=
  mk_apic (apicbase s) (apic_id s) (arb_id s) (tpr s) (spurious_vec s) (log_dest s) (dest_mode s)
    (isr s) (tmr s) (irr s) (lvt s) (esr s) (icr s) (divide_conf s) (count_shift s) (initial_count s)
    (initial_count_load_time s) next expiry (wait_for_sipi s) (vapic_paddr s).

(** [s->next_time = s->initial_count_load_time + (d << s->count_shift)] and the expiry *)
Definition arm_timer (d : Z) (s : APICCommonState) : bool * APICCommonState :=
  let next := s64 (initial_count_load_time s + s64 (Z.shiftl d (count_shift s))) in
  (true, set_timer next next s).

Definition apic_next_timer (s : APICCommonState) (current_time : Z) : bool * APICCommonState :=
  let s := set_timer (next_time s) (-1) s in
  let timer := nth APIC_LVT_TIMER (lvt s) 0 in
  if bits timer APIC_LVT_MASKED then (false, s)
  else
    let d := Z.shiftr (s64 (current_time - initial_count_load_time s)) (count_shift s) in
    if bits timer APIC_LVT_TIMER_PERIODIC then
      if initial_count s =? 0 then (false, s)
      else arm_timer (s64 ((u64 d / (initial_count s + 1) + 1) * (initial_count s + 1))) s
    else
      if initial_count s <=? d then (false, s)
      else arm_timer (initial_count s + 1) s.

(** ** Reading the registers back *)

(** [v = (s->divide_conf & 3) | ((s->divide_conf >> 1) & 4); (v + 1) & 7] *)
Definition shift_of (divide_conf : Z) : Z :=
  Z.land (Z.lor (Z.land divide_conf 3) (Z.land (Z.shiftr divide_conf 1) 4) + 1) 7.

Definition kvm_get_apic_state (s : APICCommonState) (kapic : mem) (now : Z) : APICCommonState :=
  let reg := kvm_apic_get_reg kapic in
  let s := mk_apic (apicbase s)
    (u8 (Z.shiftr (reg 0x2) 24)) (u8 (reg 0x9)) (u8 (reg 0x8)) (reg 0xf)
    (u8 (Z.shiftr (reg 0xd) 24)) (u8 (Z.shiftr (reg 0xe) 28))
    ((fun i => reg (0x10 + Z.of_nat i)) <$> seq 0 8)
    ((fun i => reg (0x18 + Z.of_nat i)) <$> seq 0 8)
    ((fun i => reg (0x20 + Z.of_nat i)) <$> seq 0 8)
    ((fun i => reg (0x32 + Z.of_nat i)) <$> seq 0 APIC_LVT_NB)
    (reg 0x28) [reg 0x30; reg 0x31] (reg 0x3e) (shift_of (reg 0x3e)) (reg 0x38) now
    (next_time s) (timer_expiry s) (wait_for_sipi s) (vapic_paddr s) in
  snd (apic_next_timer s now).

(** ** Base address and task priority *)

Definition set_base_tpr (base v : Z) (s : APICCommonState) : APICCommonState :=
  mk_apic base (apic_id s) (arb_id s) v (spurious_vec s) (log_dest s) (dest_mode s)
    (isr s) (tmr s) (irr s) (lvt s) (esr s) (icr s) (divide_conf s) (count_shift s) (initial_count s)
    (initial_count_load_time s) (next_time s) (timer_expiry s) (wait_for_sipi s) (vapic_paddr s).

Definition kvm_apic_set_base (val : Z) (s : APICCommonState) : APICCommonState := set_base_tpr (u32 val) (tpr s) s.
Definition kvm_apic_set_tpr (val : Z) (s : APICCommonState) : APICCommonState :=
  set_base_tpr (apicbase s) (u8 (Z.shiftl (Z.land val 0x0f) 4)) s.
Definition kvm_apic_get_tpr (s : APICCommonState) : Z := Z.shiftr (tpr s) 4.

(** The controller of a CPU; [None] is a NULL pointer. *)
Definition cpu_set_apic_base (val : Z) (dev : option APICCommonState) : option APICCommonState := kvm_apic_set_base val <$> dev.
Definition cpu_get_apic_base (dev : option APICCommonState) : Z :=
  match dev with Some s => apicbase s | None => MSR_IA32_APICBASE_BSP end.
Definition cpu_set_apic_tpr (val : Z) (dev : option APICCommonState) : option APICCommonState := kvm_apic_set_tpr val <$> dev.
Definition cpu_get_apic_tpr (dev : option APICCommonState) : Z :=
  match dev with Some s => kvm_apic_get_tpr s | None => 0 end.

Definition cpu_is_bsp (dev : option APICCommonState) : bool := bits (cpu_get_apic_base dev) MSR_IA32_APICBASE_BSP.

(** ** Reset *)

(** [apic_init_reset] with the reset method of kvm-apic, which clears wait_for_sipi. *)
Definition apic_init_reset (dev : option APICCommonState) : option APICCommonState :=
  (fun s => mk_apic (apicbase s) (apic_id s) (arb_id s) 0 0xff 0 0xf (replicate 8 0) (replicate 8 0) (replicate 8 0)
    (replicate APIC_LVT_NB APIC_LVT_MASKED) 0 (replicate 2 0) 0 0 0 0 0 (-1) 0 (vapic_paddr s)) <$> dev.

Definition apic_designate_bsp (bsp : bool) (dev : option APICCommonState) : option APICCommonState :=
  (fun s => set_base_tpr (if bsp then Z.lor (apicbase s) MSR_IA32_APICBASE_BSP
                          else u32 (Z.land (apicbase s) (Z.lnot MSR_IA32_APICBASE_BSP))) (tpr s) s) <$> dev.

(** [apic_reset_common]; [ret] is the result of KVM_SET_VAPIC_ADDR, which clears the
    address in the kernel as well. *)
Definition apic_reset_common (ret : Z) (s : APICCommonState) : res (option APICCommonState) :=
  if ret <? 0 then Err Aborted else
  let bsp := Z.land (apicbase s) MSR_IA32_APICBASE_BSP in
  let s := set_base_tpr (Z.lor (Z.lor APIC_DEFAULT_ADDRESS bsp) MSR_IA32_APICBASE_ENABLE) (tpr s) s in
  Ok (apic_init_reset (Some (mk_apic (apicbase s) (apic_id s) (arb_id s) (tpr s) (spurious_vec s) (log_dest s)
    (dest_mode s) (isr s) (tmr s) (irr s) (lvt s) (esr s) (icr s) (divide_conf s) (count_shift s) (initial_count s)
    (initial_count_load_time s) (next_time s) (timer_expiry s) (wait_for_sipi s) 0))).

(** [do_inject_external_nmi] after the synchronisation: whether KVM_NMI is issued. *)
Definition do_inject_external_nmi (s : APICCommonState) : bool :=
  let lint1 := nth APIC_LVT_LINT1 (lvt s) 0 in
  negb (bits lint1 APIC_LVT_MASKED) && (Z.land (Z.shiftr lint1 8) 7 =? APIC_DM_NMI).

(** ** Facts *)

Lemma get_set_reg m r v : holds m (kvm_apic_set_reg r v) -> kvm_apic_get_reg m r = u32 v.
Proof. apply ldl_holds. apply Z.mod_pos_bound. lia. Qed.

Definition apic_layout : list (Z * nat) :=
  (fun r => (16 * r, 4%nat)) <$>
    [2; 8; 13; 14; 15; 16; 24; 32; 17; 25; 33; 18; 26; 34; 19; 27; 35; 20; 28; 36; 21; 29; 37; 22; 30; 38; 23; 31; 39;
     40; 48; 49; 50; 51; 52; 53; 54; 55; 56; 62].

Lemma apic_regs_layout s : layout (kvm_put_apic_regs s) = apic_layout.
Proof. reflexivity. Qed.

Lemma u32_small v : 0 <= v < 2 ^ 32 -> u32 v = v.
Proof. apply Z.mod_small. Qed.

Lemma u8_small v : 0 <= v < 2 ^ 8 -> u8 v = v.
Proof. apply Z.mod_small. Qed.

Lemma nth_u32s n l i : u32s n l -> 0 <= nth i l 0 < 2 ^ 32.
Proof.
  intros [_ H]. destruct (nth_in_or_default i l 0) as [Hi | ->]; [|lia].
  rewrite Forall_forall in H. apply H, list_elem_of_In, Hi.
Qed.

(** A list from the registers that hold its elements. *)
Lemma regs_list m r n l : u32s n l ->
  (forall i, (i < n)%nat -> holds m (kvm_apic_set_reg (r + Z.of_nat i) (nth i l 0))) ->
  (fun i => kvm_apic_get_reg m (r + Z.of_nat i)) <$> seq 0 n = l.
Proof.
  intros Hl H. apply list_eq. intros i. rewrite list_lookup_fmap. destruct (Nat.lt_ge_cases i n) as [Hi | Hi].
  - rewrite lookup_seq_lt by exact Hi. cbn [fmap option_fmap option_map Nat.add]. rewrite (get_set_reg _ _ _ (H i Hi)).
    rewrite u32_small by apply (nth_u32s n l i Hl). destruct Hl as [Hl _].
    destruct (nth_lookup_or_length l i 0) as [E | ?]; [rewrite E; reflexivity | lia].
  - rewrite lookup_seq_ge by exact Hi. symmetry. apply lookup_ge_None. destruct Hl as [-> _]. exact Hi.
Qed.

Lemma byte_high v : 0 <= v < 2 ^ 8 -> u8 (Z.shiftr (u32 (Z.shiftl v 24)) 24) = v.
Proof.
  intros H. rewrite Z.shiftl_mul_pow2, u32_small, shiftr_div, Z.div_mul by lia. apply u8_small, H.
Qed.

(** The destination format register has room for four bits of the mode. *)
Lemma mode_high v : 0 <= v < 2 ^ 8 -> u8 (Z.shiftr (u32 (Z.lor (Z.shiftl v 28) 0x0fffffff)) 28) = v mod 16.
Proof.
  intros H. rewrite Z.lor_comm, (lor_add 0x0fffffff v 28), shiftr_div by lia. unfold u32.
  replace (268435455 + 2 ^ 28 * v) with (268435455 + 2 ^ 28 * (v mod 16) + (v / 16) * 2 ^ 32)
    by (pose proof (Z.div_mod v 16); lia).
  pose proof (Z.mod_pos_bound v 16 ltac:(lia)).
  rewrite Z.mod_add, Z.mod_small by lia. rewrite Z.add_comm, Z.mul_comm, Z.div_add_l, Z.div_small, Z.add_0_r by lia.
  apply u8_small. lia.
Qed.

(** The registers as they come back: the arbitration id is not sent, the destination mode
    has four bits; the rest of [s0] is not in the page. *)
Definition apic_copy (s s0 : APICCommonState) (now : Z) : APICCommonState :=
  mk_apic (apicbase s0) (apic_id s) 0 (tpr s) (spurious_vec s) (log_dest s) (dest_mode s mod 16)
    (isr s) (tmr s) (irr s) (lvt s) (esr s) (icr s) (divide_conf s) (shift_of (divide_conf s)) (initial_count s) now
    (next_time s0) (timer_expiry s0) (wait_for_sipi s0) (vapic_paddr s0).

Lemma apic_page_holds s m : (forall x, 0 <= x < KVM_APIC_REG_SIZE -> m x = kvm_put_apic_state s x) ->
  Forall (holds m) (kvm_put_apic_regs s) /\ kvm_apic_get_reg m 0x9 = 0.
Proof.
  intros Hm. split.
  - pose proof (store_all_holds (kvm_put_apic_regs s) (fun _ => 0)) as H.
    rewrite apic_regs_layout in H. specialize (H eq_refl).
    assert (Forall (fun f : Z * nat => 0 <= f.1 /\ f.1 + Z.of_nat f.2 <= KVM_APIC_REG_SIZE) (layout (kvm_put_apic_regs s))) as Hb.
    { rewrite apic_regs_layout. apply (forall_bool (fun f : Z * nat => (0 <=? f.1) && (f.1 + Z.of_nat f.2 <=? KVM_APIC_REG_SIZE)));
        [intros f Hf; lia | reflexivity]. }
    exact (holds_within _ _ _ _ Hm Hb H).
  - unfold kvm_apic_get_reg, ldl. change (Z.shiftl 0x9 4) with 0x90.
    rewrite (read_bytes_ext m (kvm_put_apic_state s)) by (intros x Hx; apply Hm; unfold KVM_APIC_REG_SIZE; lia).
    unfold kvm_put_apic_state.
    rewrite (holds_store_all (kvm_put_apic_regs s) (0x90, [0; 0; 0; 0]) (fun _ => 0)); reflexivity.
Qed.

(** ** The next expiry of the timer *)

(** The timer counts down from the initial count to zero and restarts: one period is
    initial_count + 1 ticks of 2^count_shift nanoseconds. *)
Definition period (s : APICCommonState) : Z := (initial_count s + 1) * 2 ^ count_shift s.

Definition timer_masked (s : APICCommonState) : bool := bits (nth APIC_LVT_TIMER (lvt s) 0) APIC_LVT_MASKED.
Definition timer_periodic (s : APICCommonState) : bool := bits (nth APIC_LVT_TIMER (lvt s) 0) APIC_LVT_TIMER_PERIODIC.

Lemma period_bounds s : apic_ok s -> 1 <= period s <= 2 ^ 39.
Proof.
  intros OK. pose proof (ao_count s OK). pose proof (ao_shift s OK). unfold period.
  assert (1 <= 2 ^ count_shift s <= 2 ^ 7) by (split; [change 1 with (2 ^ 0) | ]; apply Z.pow_le_mono_r; lia). nia.
Qed.

Section Timer.
Context (s : APICCommonState) (OK : apic_ok s) (now : Z).
Context (Hload : 0 <= initial_count_load_time s <= now) (Hnow : now < 2 ^ 62).

Lemma ticks : Z.shiftr (s64 (now - initial_count_load_time s)) (count_shift s)
  = (now - initial_count_load_time s) / 2 ^ count_shift s.
Proof using OK Hload Hnow.
  rewrite s64_small by lia. apply Z.shiftr_div_pow2, OK.
Qed.

Lemma arm_timer_at k : 1 <= k -> initial_count_load_time s + k * period s <= now + period s ->
  arm_timer (k * (initial_count s + 1)) s
  = (true, set_timer (initial_count_load_time s + k * period s) (initial_count_load_time s + k * period s) s).
Proof using OK Hload Hnow.
  intros Hk Hp. pose proof (period_bounds s OK). unfold arm_timer. cbv zeta.
  rewrite Z.shiftl_mul_pow2 by apply OK. rewrite <- Z.mul_assoc. fold (period s).
  assert (0 <= k * period s) by nia.
  rewrite (s64_small (k * period s)), s64_small by lia. reflexivity.
Qed.

(** The number of periods up to the next expiry of a periodic timer. *)
Lemma periods_passed : u64 ((now - initial_count_load_time s) / 2 ^ count_shift s) / (initial_count s + 1) + 1
  = (now - initial_count_load_time s) / period s + 1.
Proof using OK Hload Hnow.
  pose proof (ao_count s OK). pose proof (ao_shift s OK).
  assert (1 <= 2 ^ count_shift s) by (change 1 with (2 ^ 0); apply Z.pow_le_mono_r; lia).
  rewrite u64_small.
  - rewrite Z.div_div by lia. unfold period. f_equal. f_equal. lia.
  - split; [apply Z.div_pos; lia|]. apply Z.div_lt_upper_bound; nia.
Qed.

Lemma next_expiry (k := (now - initial_count_load_time s) / period s + 1) :
  1 <= k /\ now < initial_count_load_time s + k * period s <= now + period s.
Proof using OK Hload Hnow.
  pose proof (period_bounds s OK). subst k.
  pose proof (Z.div_pos (now - initial_count_load_time s) (period s)).
  pose proof (Z.mul_div_le (now - initial_count_load_time s) (period s)).
  pose proof (Z.mul_succ_div_gt (now - initial_count_load_time s) (period s)). nia.
Qed.

Lemma periodic_timer : timer_masked s = false -> timer_periodic s = true -> initial_count s <> 0 ->
  let next := initial_count_load_time s + ((now - initial_count_load_time s) / period s + 1) * period s in
  apic_next_timer s now = (true, set_timer next next s).
Proof using OK Hload Hnow.
  intros Hm Hp Hc. unfold apic_next_timer. cbv zeta. cbn [lvt set_timer initial_count initial_count_load_time count_shift].
  unfold timer_masked in Hm. unfold timer_periodic in Hp. rewrite Hm, Hp, (proj2 (Z.eqb_neq _ _) Hc).
  rewrite ticks, periods_passed. pose proof next_expiry as (Hk & Hn). pose proof (period_bounds s OK). pose proof (ao_count s OK).
  set (k := _ / period s + 1) in *.
  assert (0 <= k * (initial_count s + 1) < 2 ^ 63) by (pose proof (ao_shift s OK); unfold period in *; 
    assert (1 <= 2 ^ count_shift s) by (change 1 with (2 ^ 0); apply Z.pow_le_mono_r; lia); nia).
  rewrite s64_small by lia. pose proof (arm_timer_at k Hk ltac:(lia)) as E. unfold arm_timer in *. cbn in E |- *.
  injection E as E _. rewrite E. reflexivity.
Qed.
End Timer.

(** What [apic_next_timer] has to find: [None] if the timer will not fire. *)
Inductive next_fire (s : APICCommonState) (now : Z) : option Z -> Prop :=
  | nf_masked : timer_masked s = true -> next_fire s now None
  | nf_stopped : timer_masked s = false -> timer_periodic s = true -> initial_count s = 0 -> next_fire s now None
  | nf_periodic k : timer_masked s = false -> timer_periodic s = true -> initial_count s <> 0 -> 1 <= k ->
      now < initial_count_load_time s + k * period s <= now + period s ->
      next_fire s now (Some (initial_count_load_time s + k * period s))
  | nf_expired : timer_masked s = false -> timer_periodic s = false ->
      initial_count_load_time s + initial_count s * 2 ^ count_shift s <= now -> next_fire s now None
  | nf_oneshot : timer_masked s = false -> timer_periodic s = false ->
      now < initial_count_load_time s + initial_count s * 2 ^ count_shift s ->
      next_fire s now (Some (initial_count_load_time s + period s)).

Lemma oneshot_timer s now : apic_ok s -> 0 <= initial_count_load_time s <= now -> now < 2 ^ 62 ->
  timer_masked s = false -> timer_periodic s = false ->
  apic_next_timer s now =
    if now <? initial_count_load_time s + initial_count s * 2 ^ count_shift s
    then (true, set_timer (initial_count_load_time s + period s) (initial_count_load_time s + period s) s)
    else (false, set_timer (next_time s) (-1) s).
Proof.
  intros OK Hl Hn Hm Hp. unfold apic_next_timer. cbv zeta.
  cbn [lvt set_timer initial_count initial_count_load_time count_shift].
  unfold timer_masked in Hm. unfold timer_periodic in Hp. rewrite Hm, Hp, (ticks s OK now Hl Hn).
  pose proof (ao_shift s OK). assert (1 <= 2 ^ count_shift s) by (change 1 with (2 ^ 0); apply Z.pow_le_mono_r; lia).
  destruct (Z.ltb_spec now (initial_count_load_time s + initial_count s * 2 ^ count_shift s)) as [Hd | Hd].
  - rewrite (proj2 (Z.leb_gt _ _)) by (apply Z.div_lt_upper_bound; lia).
    pose proof (arm_timer_at s OK now Hl Hn 1 ltac:(lia) ltac:(lia)) as E. rewrite !Z.mul_1_l in E.
    unfold arm_timer in *. cbn in E |- *. injection E as E _. rewrite E. reflexivity.
  - rewrite (proj2 (Z.leb_le _ _)) by (apply Z.div_le_lower_bound; lia). reflexivity.
Qed.

(** Apic_next_timer finds the time at which the local APIC timer fires next: for a periodic
    timer the first end of a period after the current time, for a one-shot timer the end of its
    only period unless the count has run down, and no time at all for a masked or stopped timer.
    Nothing else of the controller changes, and the arithmetic stays within 64 bits. *)
Theorem next_timer_correct s now :
  apic_ok s -> 0 <= initial_count_load_time s <= now -> now < 2 ^ 62 ->
  exists fire, next_fire s now fire /\
    apic_next_timer s now =
      match fire with Some t => (true, set_timer t t s) | None => (false, set_timer (next_time s) (-1) s) end.
Proof.
  intros OK Hl Hn. destruct (timer_masked s) eqn:Hm.
  { exists None. split; [constructor; assumption|]. unfold apic_next_timer. unfold timer_masked in Hm.
    cbv zeta. cbn [lvt set_timer]. rewrite Hm. reflexivity. }
  destruct (timer_periodic s) eqn:Hp.
  - destruct (Z.eq_dec (initial_count s) 0) as [Hc | Hc].
    + exists None. split; [constructor 2; assumption|]. unfold apic_next_timer. unfold timer_masked in Hm. unfold timer_periodic in Hp.
      cbv zeta. cbn [lvt set_timer initial_count]. rewrite Hm, Hp, Hc. reflexivity.
    + eexists (Some _). rewrite (periodic_timer s OK now Hl Hn Hm Hp Hc).
      split; [constructor; [assumption.. | |]; apply (next_expiry s OK now Hl Hn) | reflexivity].
  - rewrite (oneshot_timer s now OK Hl Hn Hm Hp).
    destruct (Z.ltb_spec now (initial_count_load_time s + initial_count s * 2 ^ count_shift s)).
    + eexists (Some _). split; [apply nf_oneshot; assumption | reflexivity].
    + exists None. split; [apply nf_expired; assumption | reflexivity].
Qed.

(** A controller with a periodic timer that is divided by sixteen. *)
Definition apic_example : APICCommonState :=
  mk_apic 0xfee00900 1 0 0x20 0x1ff 2 0xf (replicate 8 0) (replicate 8 0) [0; 0; 0; 0x400; 0; 0; 0; 0]
    [0x200ef; 0x10000; 0x10000; 0x10000; 0x400; 0xfe] 0 [0x8fd; 0x1000000] 3 4 1000 5000 0 0 0 0.

Lemma u32s_bool n l : (length l =? n)%nat && forallb (fun v => (0 <=? v) && (v <? 2 ^ 32)) l = true -> u32s n l.
Proof.
  intros [Hl%Nat.eqb_eq Hf]%andb_prop. split; [exact Hl|]. revert Hf. apply forall_bool. intros v Hv. lia.
Qed.

Lemma apic_example_ok : apic_ok apic_example.
Proof. constructor; try (cbn; lia); apply u32s_bool; reflexivity. Qed.

Lemma next_timer_correct_witness :
  apic_next_timer apic_example 60000 = (true, set_timer 69064 69064 apic_example) /\
  exists fire, next_fire apic_example 60000 fire.
Proof.
  split; [reflexivity|].
  destruct (next_timer_correct apic_example 60000 apic_example_ok ltac:(cbn; lia) ltac:(lia)) as (f & Hf & _).
  exists f. exact Hf.
Defined.

(** The divider: the configuration register encodes 2, 4, ..., 128 and 1. *)
Lemma divisor v : 0 <= v < 16 -> bits v 4 = false ->
  2 ^ shift_of v = nth (Z.to_nat (Z.land v 3 + 4 * Z.land (Z.shiftr v 3) 1)) [2; 4; 8; 16; 32; 64; 128; 1] 0.
Proof.
  intros Hv Hb. assert (v ∈ (Z.of_nat <$> seq 0 16)) as H.
  { apply list_elem_of_fmap. exists (Z.to_nat v). split; [lia | apply elem_of_seq; lia]. }
  cbn in H. rewrite !elem_of_cons in H. decompose [or] H; subst; try reflexivity; try discriminate.
  match goal with H : _ ∈ [] |- _ => inversion H end.
Qed.

(** ** Round trip *)

Lemma list2 (l : list Z) : length l = 2%nat -> l = [nth 0 l 0; nth 1 l 0].
Proof. intros H. do 2 (destruct l as [|? l]; [discriminate|]). destruct l; [reflexivity | discriminate]. Qed.

Lemma apic_regs_read s s0 m now : apic_ok s -> Forall (holds m) (kvm_put_apic_regs s) -> kvm_apic_get_reg m 0x9 = 0 ->
  kvm_get_apic_state s0 m now = snd (apic_next_timer (apic_copy s s0 now) now).
Proof.
  intros OK H H9. unfold kvm_put_apic_regs in H. rewrite !Forall_app, !Forall_bind, !Forall_fmap in H.
  destruct H as (Ha & Hb & Hc & Hd & He).
  assert (forall i, (i < 8)%nat -> holds m (kvm_apic_set_reg (0x10 + Z.of_nat i) (nth i (isr s) 0)) /\
    holds m (kvm_apic_set_reg (0x18 + Z.of_nat i) (nth i (tmr s) 0)) /\
    holds m (kvm_apic_set_reg (0x20 + Z.of_nat i) (nth i (irr s) 0))) as Hb'.
  { intros i Hi. rewrite Forall_forall in Hb. specialize (Hb i ltac:(apply elem_of_seq; lia)). cbn [compose] in Hb.
    rewrite !Forall_cons in Hb. tauto. }
  assert (forall i, (i < APIC_LVT_NB)%nat -> holds m (kvm_apic_set_reg (0x32 + Z.of_nat i) (nth i (lvt s) 0))) as Hd'.
  { intros i Hi. rewrite Forall_forall in Hd. apply (Hd i), elem_of_seq. lia. }
  rewrite !Forall_cons in Ha; rewrite !Forall_cons in Hc; rewrite !Forall_cons in He. destruct Ha as (Hid & Htpr & Hlog & Hmode & Hsp & _).
  destruct Hc as (Hesr & Hicr0 & Hicr1 & _). destruct He as (Hcount & Hdiv & _).
  apply get_set_reg in Hid, Htpr, Hlog, Hmode, Hsp, Hesr, Hicr0, Hicr1, Hcount, Hdiv.
  pose proof (nth_u32s 2 (icr s) 0 (ao_icr s OK)) as R0. pose proof (nth_u32s 2 (icr s) 1 (ao_icr s OK)) as R1.
  rewrite u32_small in Hsp by apply OK. rewrite u32_small in Hesr by apply OK. rewrite u32_small in Hicr0 by exact R0.
  rewrite u32_small in Hicr1 by exact R1. rewrite u32_small in Hcount by apply OK. rewrite u32_small in Hdiv by apply OK.
  pose proof (ao_tpr s OK) as Ht. rewrite u32_small in Htpr by lia.
  unfold kvm_get_apic_state. cbv zeta. f_equal. f_equal. unfold apic_copy.
  rewrite Hid, Htpr, Hlog, Hmode, Hsp, Hesr, Hicr0, Hicr1, Hcount, Hdiv, H9.
  rewrite !byte_high, mode_high by apply OK. change (u8 0) with 0. rewrite (u8_small (tpr s)) by exact Ht.
  rewrite (regs_list m 0x10 8 (isr s) (ao_isr s OK)) by (intros i Hi; apply Hb'; exact Hi).
  rewrite (regs_list m 0x18 8 (tmr s) (ao_tmr s OK)) by (intros i Hi; apply Hb'; exact Hi).
  rewrite (regs_list m 0x20 8 (irr s) (ao_irr s OK)) by (intros i Hi; apply Hb'; exact Hi).
  rewrite (regs_list m 0x32 APIC_LVT_NB (lvt s) (ao_lvt s OK)) by exact Hd'.
  rewrite <- (list2 (icr s) (proj1 (ao_icr s OK))). reflexivity.
Qed.

(** The time at which the timer of a copy read at [now] fires. *)
Definition fires_at (s : APICCommonState) (now : Z) : Z :=
  if timer_masked s || (initial_count s =? 0) then -1 else now + (initial_count s + 1) * 2 ^ shift_of (divide_conf s).

Lemma shift_of_range v : 0 <= shift_of v < 8.
Proof. unfold shift_of. rewrite land7. apply Z.mod_pos_bound. lia. Qed.

Lemma copy_timer s s0 now : apic_ok s -> apic_ok s0 -> 0 <= now < 2 ^ 62 ->
  timer_expiry (snd (apic_next_timer (apic_copy s s0 now) now)) = fires_at s now /\
  exists t e, snd (apic_next_timer (apic_copy s s0 now) now) = set_timer t e (apic_copy s s0 now).
Proof.
  intros OK OK0 Hn. set (c := apic_copy s s0 now).
  assert (apic_ok c) as OKc.
  { pose proof (Z.mod_pos_bound (dest_mode s) 16 ltac:(lia)). destruct OK, OK0. constructor; cbn; try assumption; try lia.
    apply shift_of_range. }
  pose proof (shift_of_range (divide_conf s)) as Hs. pose proof (ao_count s OK) as Hc.
  assert (1 <= 2 ^ shift_of (divide_conf s)) by (change 1 with (2 ^ 0); apply Z.pow_le_mono_r; lia).
  unfold fires_at. change (timer_masked s) with (timer_masked c). change (initial_count s) with (initial_count c) in *.
  change (shift_of (divide_conf s)) with (count_shift c) in *. assert (initial_count_load_time c = now) as El by reflexivity.
  destruct (timer_masked c) eqn:Hm.
  { unfold apic_next_timer. unfold timer_masked in Hm. cbv zeta. cbn [lvt set_timer]. rewrite Hm. cbn. eauto. }
  cbn [orb]. destruct (timer_periodic c) eqn:Hp.
  - destruct (Z.eqb_spec (initial_count c) 0) as [E | E].
    + unfold apic_next_timer. unfold timer_masked in Hm. unfold timer_periodic in Hp. cbv zeta.
      cbn [lvt set_timer initial_count]. rewrite Hm, Hp, E. cbn. eauto.
    + rewrite (periodic_timer c OKc now ltac:(lia) ltac:(lia) Hm Hp E). rewrite El, Z.sub_diag, Z.div_0_l by (pose proof (period_bounds c OKc); lia).
      cbn [snd timer_expiry set_timer]. unfold period. split; [lia | eauto].
  - rewrite (oneshot_timer c now OKc ltac:(lia) ltac:(lia) Hm Hp), El.
    destruct (Z.eqb_spec (initial_count c) 0) as [E | E].
    + rewrite E, (proj2 (Z.ltb_ge _ _)) by lia. cbn. eauto.
    + rewrite (proj2 (Z.ltb_lt _ _)) by nia. cbn [snd timer_expiry set_timer]. unfold period. split; [lia | eauto].
Qed.

(** The registers of the local APIC that kvm_get_apic_state reads are those that
    kvm_put_apic_state wrote, if the kernel returns the register page it was given: all registers
    sit at different places of the page.  The arbitration id is not transferred and the
    destination mode keeps its four bits; the time of the next timer interrupt is worked out
    from the registers. *)
Theorem apic_roundtrip s s0 kapic now :
  apic_ok s -> apic_ok s0 -> 0 <= now < 2 ^ 62 ->
  (forall x, 0 <= x < KVM_APIC_REG_SIZE -> kapic x = kvm_put_apic_state s x) ->
  exists next, kvm_get_apic_state s0 kapic now = set_timer next (fires_at s now) (apic_copy s s0 now).
Proof.
  intros OK OK0 Hn Hm. destruct (apic_page_holds s kapic Hm) as [H H9].
  rewrite (apic_regs_read s s0 kapic now OK H H9).
  destruct (copy_timer s s0 now OK OK0 Hn) as [E (t & e & E')]. rewrite E' in *. cbn in E. subst e. eauto.
Qed.

Lemma apic_roundtrip_witness :
  exists next, kvm_get_apic_state apic_example (kvm_put_apic_state apic_example) 7000
    = set_timer next 23016 (apic_copy apic_example apic_example 7000).
Proof.
  apply (apic_roundtrip apic_example apic_example (kvm_put_apic_state apic_example) 7000);
    [apply apic_example_ok | apply apic_example_ok | lia | reflexivity].
Defined.
