(* ===== verification/DisasTypes.v ===== *)
(** * Data and output primitives of the x86 disassembler (disas/i386.c)

    The disassembler keeps its state in file-level variables of disas/i386.c;
    [dis_state] is the record of those variables and [DM] the state-and-error
    monad in which the operand functions run.

    Output buffers.  [obuf] and [op_out[i]] are [char[100]] arrays written
    through the cursor [obufp].  A buffer is modelled by the C string it holds
    (its bytes up to the NUL), the cursor by the buffer it points into and an
    offset.  A write at the cursor replaces everything after it: each function
    terminates what it writes (oappend copies the NUL, the single-character
    writes are followed by [*obufp = 0] or by an oappend), so the bytes beyond
    the last write are never part of a string that is read. *)

From Stdlib Require Import ZArith Lia Bool Ascii String.
From stdpp Require Import base list.
From S2P Require Import Prelude.

Open Scope Z_scope.

(** ** Constants *)

Definition MAX_OPERANDS : nat := 4.
Definition MAX_MNEM_SIZE : nat := 16.

Definition FWAIT_OPCODE : Z := 0x9b.

Definition REX_OPCODE : Z := 0x40.
Definition REX_W : Z := 8.
Definition REX_R : Z := 4.
Definition REX_X : Z := 2.
Definition REX_B : Z := 1.

Definition PREFIX_REPZ : Z := 1.
Definition PREFIX_REPNZ : Z := 2.
Definition PREFIX_LOCK : Z := 4.
Definition PREFIX_CS : Z := 8.
Definition PREFIX_SS : Z := 0x10.
Definition PREFIX_DS : Z := 0x20.
Definition PREFIX_ES : Z := 0x40.
Definition PREFIX_FS : Z := 0x80.
Definition PREFIX_GS : Z := 0x100.
Definition PREFIX_DATA : Z := 0x200.
Definition PREFIX_ADDR : Z := 0x400.
Definition PREFIX_FWAIT : Z := 0x800.
Definition PREFIX_VEX_0F : Z := 0x1000.
Definition PREFIX_VEX_0F38 : Z := 0x2000.
Definition PREFIX_VEX_0F3A : Z := 0x4000.

Definition SUFFIX_ALWAYS : Z := 4.
Definition AFLAG : Z := 2.
Definition DFLAG : Z := 1.

Definition b_mode : Z := 1.
Definition v_mode : Z := 2.
Definition w_mode : Z := 3.
Definition d_mode : Z := 4.
Definition q_mode : Z := 5.
Definition t_mode : Z := 6.
Definition x_mode : Z := 7.
Definition m_mode : Z := 8.
Definition cond_jump_mode : Z := 9.
Definition loop_jcxz_mode : Z := 10.
Definition dq_mode : Z := 11.
Definition dqw_mode : Z := 12.
Definition f_mode : Z := 13.
Definition const_1_mode : Z := 14.
Definition stack_v_mode : Z := 15.
Definition z_mode : Z := 16.
Definition o_mode : Z := 17.
Definition dqb_mode : Z := 18.
Definition dqd_mode : Z := 19.

Definition es_reg : Z := 100.
Definition cs_reg : Z := 101.
Definition ss_reg : Z := 102.
Definition ds_reg : Z := 103.
Definition fs_reg : Z := 104.
Definition gs_reg : Z := 105.
Definition eAX_reg : Z := 108.
Definition eCX_reg : Z := 109.
Definition eDX_reg : Z := 110.
Definition eBX_reg : Z := 111.
Definition eSP_reg : Z := 112.
Definition eBP_reg : Z := 113.
Definition eSI_reg : Z := 114.
Definition eDI_reg : Z := 115.
Definition al_reg : Z := 116.
Definition cl_reg : Z := 117.
Definition dl_reg : Z := 118.
Definition bl_reg : Z := 119.
Definition ah_reg : Z := 120.
Definition ch_reg : Z := 121.
Definition dh_reg : Z := 122.
Definition bh_reg : Z := 123.
Definition ax_reg : Z := 124.
Definition cx_reg : Z := 125.
Definition dx_reg : Z := 126.
Definition bx_reg : Z := 127.
Definition sp_reg : Z := 128.
Definition bp_reg : Z := 129.
Definition si_reg : Z := 130.
Definition di_reg : Z := 131.
Definition rAX_reg : Z := 132.
Definition rCX_reg : Z := 133.
Definition rDX_reg : Z := 134.
Definition rBX_reg : Z := 135.
Definition rSP_reg : Z := 136.
Definition rBP_reg : Z := 137.
Definition rSI_reg : Z := 138.
Definition rDI_reg : Z := 139.
Definition z_mode_ax_reg : Z := 149.
Definition indir_dx_reg : Z := 150.

Definition FLOATCODE : Z := 1.
Definition USE_GROUPS : Z := 2.
Definition USE_PREFIX_USER_TABLE : Z := 3.
Definition X86_64_SPECIAL : Z := 4.
Definition IS_3BYTE_OPCODE : Z := 5.

(** enum address_mode *)
Inductive amode := mode_16bit | mode_32bit | mode_64bit.

#[export] Instance amode_eq_dec : EqDecision amode.
Proof. solve_decision. Defined.

Definition is64 (m : amode) : bool := match m with mode_64bit => true | _ => false end.

(** ** Instruction descriptions *)

(** The functions an operand of a [struct dis386] can point to. *)
Inductive op_rtn :=
  | OP_ST_rtn | OP_STi_rtn | OP_indirE_rtn | OP_E_rtn | OP_G_rtn | OP_vvvv_rtn
  | OP_REG_rtn | OP_IMREG_rtn | OP_I_rtn | OP_I64_rtn | OP_sI_rtn | OP_J_rtn
  | OP_SEG_rtn | OP_DIR_rtn | OP_OFF_rtn | OP_OFF64_rtn | OP_ESreg_rtn | OP_DSreg_rtn
  | OP_C_rtn | OP_D_rtn | OP_T_rtn | OP_R_rtn | OP_MMX_rtn | OP_XMM_rtn | OP_EM_rtn
  | OP_EX_rtn | OP_EMC_rtn | OP_MXC_rtn | OP_MS_rtn | OP_XS_rtn | OP_M_rtn | OP_VMX_rtn
  | OP_0fae_rtn | OP_0f07_rtn | NOP_Fixup1_rtn | NOP_Fixup2_rtn | OP_3DNowSuffix_rtn
  | OP_SIMD_Suffix_rtn | SIMD_Fixup_rtn | PNI_Fixup_rtn | SVME_Fixup_rtn
  | INVLPG_Fixup_rtn | VMX_Fixup_rtn | REP_Fixup_rtn | CMPXCHG8B_Fixup_rtn
  | XMM_Fixup_rtn | CRC32_Fixup_rtn.

Definition operand : Type := option op_rtn * Z.

(** struct dis386: the operands not given in an initialiser are [{ NULL, 0 }]. *)
Record dis386_t := mk_dis386 { di_name : option string; di_ops : list operand }.

Definition di_op (d : dis386_t) (i : nat) : operand := default (None, 0) (di_ops d !! i).

(** ** The state of the disassembler *)

(** The register-name tables and punctuation selected for AT&T or Intel syntax. *)
Record syntax := mk_syntax {
  intel_syntax : bool;
  names64 : list string; names32 : list string; names16 : list string;
  names8 : list string; names8rex : list string; names_seg : list string;
  index16 : list string;
  open_char : ascii; close_char : ascii; separator_char : ascii; scale_char : ascii }.

(** The buffer [obufp] points into. *)
Inductive bufid := Obuf | OpOut (i : nat).

Record dis_state := mk_dis {
  address_mode : amode;
  prefixes : Z;
  rex : Z;
  rex_used : Z;
  used_prefixes : Z;
  vex_reg : Z;
  obuf : string;
  op_out : list string;
  obufp : bufid * nat;
  the_buffer : list (option Z);
  codep : nat;
  insn_codep : nat;
  modrm_mod : Z;
  modrm_reg : Z;
  modrm_rm : Z;
  need_modrm : bool;
  syn : syntax;
  op_ad : nat;
  op_index : list Z;
  op_address : list Z;
  op_riprel : list Z;
  two_source_ops : bool;
  start_pc : Z;
  fetch : bool;
  max_fetched : nat;
  insn_start : Z;
  read_memory_func : Z -> nat -> option (list Z) }.

Definition set_address_mode (v : amode) (s : dis_state) : dis_state :=
  mk_dis v (prefixes s) (rex s) (rex_used s) (used_prefixes s) (vex_reg s) (obuf s) (op_out s)
    (obufp s) (the_buffer s) (codep s) (insn_codep s) (modrm_mod s) (modrm_reg s) (modrm_rm s)
    (need_modrm s) (syn s) (op_ad s) (op_index s) (op_address s) (op_riprel s)
    (two_source_ops s) (start_pc s) (fetch s) (max_fetched s) (insn_start s)
    (read_memory_func s).
Definition set_prefixes (v : Z) (s : dis_state) : dis_state :=
  mk_dis (address_mode s) v (rex s) (rex_used s) (used_prefixes s) (vex_reg s) (obuf s) (op_out s)
    (obufp s) (the_buffer s) (codep s) (insn_codep s) (modrm_mod s) (modrm_reg s) (modrm_rm s)
    (need_modrm s) (syn s) (op_ad s) (op_index s) (op_address s) (op_riprel s)
    (two_source_ops s) (start_pc s) (fetch s) (max_fetched s) (insn_start s)
    (read_memory_func s).
Definition set_rex (v : Z) (s : dis_state) : dis_state :=
  mk_dis (address_mode s) (prefixes s) v (rex_used s) (used_prefixes s) (vex_reg s) (obuf s)
    (op_out s) (obufp s) (the_buffer s) (codep s) (insn_codep s) (modrm_mod s) (modrm_reg s)
    (modrm_rm s) (need_modrm s) (syn s) (op_ad s) (op_index s) (op_address s) (op_riprel s)
    (two_source_ops s) (start_pc s) (fetch s) (max_fetched s) (insn_start s)
    (read_memory_func s).
Definition set_rex_used (v : Z) (s : dis_state) : dis_state :=
  mk_dis (address_mode s) (prefixes s) (rex s) v (used_prefixes s) (vex_reg s) (obuf s) (op_out s)
    (obufp s) (the_buffer s) (codep s) (insn_codep s) (modrm_mod s) (modrm_reg s) (modrm_rm s)
    (need_modrm s) (syn s) (op_ad s) (op_index s) (op_address s) (op_riprel s)
    (two_source_ops s) (start_pc s) (fetch s) (max_fetched s) (insn_start s)
    (read_memory_func s).
Definition set_used_prefixes (v : Z) (s : dis_state) : dis_state :=
  mk_dis (address_mode s) (prefixes s) (rex s) (rex_used s) v (vex_reg s) (obuf s) (op_out s)
    (obufp s) (the_buffer s) (codep s) (insn_codep s) (modrm_mod s) (modrm_reg s) (modrm_rm s)
    (need_modrm s) (syn s) (op_ad s) (op_index s) (op_address s) (op_riprel s)
    (two_source_ops s) (start_pc s) (fetch s) (max_fetched s) (insn_start s)
    (read_memory_func s).
Definition set_vex_reg (v : Z) (s : dis_state) : dis_state :=
  mk_dis (address_mode s) (prefixes s) (rex s) (rex_used s) (used_prefixes s) v (obuf s) (op_out s)
    (obufp s) (the_buffer s) (codep s) (insn_codep s) (modrm_mod s) (modrm_reg s) (modrm_rm s)
    (need_modrm s) (syn s) (op_ad s) (op_index s) (op_address s) (op_riprel s)
    (two_source_ops s) (start_pc s) (fetch s) (max_fetched s) (insn_start s)
    (read_memory_func s).
Definition set_obuf (v : string) (s : dis_state) : dis_state :=
  mk_dis (address_mode s) (prefixes s) (rex s) (rex_used s) (used_prefixes s) (vex_reg s) v
    (op_out s) (obufp s) (the_buffer s) (codep s) (insn_codep s) (modrm_mod s) (modrm_reg s)
    (modrm_rm s) (need_modrm s) (syn s) (op_ad s) (op_index s) (op_address s) (op_riprel s)
    (two_source_ops s) (start_pc s) (fetch s) (max_fetched s) (insn_start s)
    (read_memory_func s).
Definition set_op_out (v : list string) (s : dis_state) : dis_state :=
  mk_dis (address_mode s) (prefixes s) (rex s) (rex_used s) (used_prefixes s) (vex_reg s) (obuf s)
    v (obufp s) (the_buffer s) (codep s) (insn_codep s) (modrm_mod s) (modrm_reg s)
    (modrm_rm s) (need_modrm s) (syn s) (op_ad s) (op_index s) (op_address s) (op_riprel s)
    (two_source_ops s) (start_pc s) (fetch s) (max_fetched s) (insn_start s)
    (read_memory_func s).
Definition set_obufp (v : bufid * nat) (s : dis_state) : dis_state :=
  mk_dis (address_mode s) (prefixes s) (rex s) (rex_used s) (used_prefixes s) (vex_reg s) (obuf s)
    (op_out s) v (the_buffer s) (codep s) (insn_codep s) (modrm_mod s) (modrm_reg s)
    (modrm_rm s) (need_modrm s) (syn s) (op_ad s) (op_index s) (op_address s) (op_riprel s)
    (two_source_ops s) (start_pc s) (fetch s) (max_fetched s) (insn_start s)
    (read_memory_func s).
Definition set_the_buffer (v : list (option Z)) (s : dis_state) : dis_state :=
  mk_dis (address_mode s) (prefixes s) (rex s) (rex_used s) (used_prefixes s) (vex_reg s) (obuf s)
    (op_out s) (obufp s) v (codep s) (insn_codep s) (modrm_mod s) (modrm_reg s) (modrm_rm s)
    (need_modrm s) (syn s) (op_ad s) (op_index s) (op_address s) (op_riprel s)
    (two_source_ops s) (start_pc s) (fetch s) (max_fetched s) (insn_start s)
    (read_memory_func s).
Definition set_codep (v : nat) (s : dis_state) : dis_state :=
  mk_dis (address_mode s) (prefixes s) (rex s) (rex_used s) (used_prefixes s) (vex_reg s) (obuf s)
    (op_out s) (obufp s) (the_buffer s) v (insn_codep s) (modrm_mod s) (modrm_reg s)
    (modrm_rm s) (need_modrm s) (syn s) (op_ad s) (op_index s) (op_address s) (op_riprel s)
    (two_source_ops s) (start_pc s) (fetch s) (max_fetched s) (insn_start s)
    (read_memory_func s).
Definition set_insn_codep (v : nat) (s : dis_state) : dis_state :=
  mk_dis (address_mode s) (prefixes s) (rex s) (rex_used s) (used_prefixes s) (vex_reg s) (obuf s)
    (op_out s) (obufp s) (the_buffer s) (codep s) v (modrm_mod s) (modrm_reg s) (modrm_rm s)
    (need_modrm s) (syn s) (op_ad s) (op_index s) (op_address s) (op_riprel s)
    (two_source_ops s) (start_pc s) (fetch s) (max_fetched s) (insn_start s)
    (read_memory_func s).
Definition set_modrm_mod (v : Z) (s : dis_state) : dis_state :=
  mk_dis (address_mode s) (prefixes s) (rex s) (rex_used s) (used_prefixes s) (vex_reg s) (obuf s)
    (op_out s) (obufp s) (the_buffer s) (codep s) (insn_codep s) v (modrm_reg s) (modrm_rm s)
    (need_modrm s) (syn s) (op_ad s) (op_index s) (op_address s) (op_riprel s)
    (two_source_ops s) (start_pc s) (fetch s) (max_fetched s) (insn_start s)
    (read_memory_func s).
Definition set_modrm_reg (v : Z) (s : dis_state) : dis_state :=
  mk_dis (address_mode s) (prefixes s) (rex s) (rex_used s) (used_prefixes s) (vex_reg s) (obuf s)
    (op_out s) (obufp s) (the_buffer s) (codep s) (insn_codep s) (modrm_mod s) v (modrm_rm s)
    (need_modrm s) (syn s) (op_ad s) (op_index s) (op_address s) (op_riprel s)
    (two_source_ops s) (start_pc s) (fetch s) (max_fetched s) (insn_start s)
    (read_memory_func s).
Definition set_modrm_rm (v : Z) (s : dis_state) : dis_state :=
  mk_dis (address_mode s) (prefixes s) (rex s) (rex_used s) (used_prefixes s) (vex_reg s) (obuf s)
    (op_out s) (obufp s) (the_buffer s) (codep s) (insn_codep s) (modrm_mod s) (modrm_reg s) v
    (need_modrm s) (syn s) (op_ad s) (op_index s) (op_address s) (op_riprel s)
    (two_source_ops s) (start_pc s) (fetch s) (max_fetched s) (insn_start s)
    (read_memory_func s).
Definition set_need_modrm (v : bool) (s : dis_state) : dis_state :=
  mk_dis (address_mode s) (prefixes s) (rex s) (rex_used s) (used_prefixes s) (vex_reg s) (obuf s)
    (op_out s) (obufp s) (the_buffer s) (codep s) (insn_codep s) (modrm_mod s) (modrm_reg s)
    (modrm_rm s) v (syn s) (op_ad s) (op_index s) (op_address s) (op_riprel s)
    (two_source_ops s) (start_pc s) (fetch s) (max_fetched s) (insn_start s)
    (read_memory_func s).
Definition set_syn (v : syntax) (s : dis_state) : dis_state :=
  mk_dis (address_mode s) (prefixes s) (rex s) (rex_used s) (used_prefixes s) (vex_reg s) (obuf s)
    (op_out s) (obufp s) (the_buffer s) (codep s) (insn_codep s) (modrm_mod s) (modrm_reg s)
    (modrm_rm s) (need_modrm s) v (op_ad s) (op_index s) (op_address s) (op_riprel s)
    (two_source_ops s) (start_pc s) (fetch s) (max_fetched s) (insn_start s)
    (read_memory_func s).
Definition set_op_ad (v : nat) (s : dis_state) : dis_state :=
  mk_dis (address_mode s) (prefixes s) (rex s) (rex_used s) (used_prefixes s) (vex_reg s) (obuf s)
    (op_out s) (obufp s) (the_buffer s) (codep s) (insn_codep s) (modrm_mod s) (modrm_reg s)
    (modrm_rm s) (need_modrm s) (syn s) v (op_index s) (op_address s) (op_riprel s)
    (two_source_ops s) (start_pc s) (fetch s) (max_fetched s) (insn_start s)
    (read_memory_func s).
Definition set_op_index (v : list Z) (s : dis_state) : dis_state :=
  mk_dis (address_mode s) (prefixes s) (rex s) (rex_used s) (used_prefixes s) (vex_reg s) (obuf s)
    (op_out s) (obufp s) (the_buffer s) (codep s) (insn_codep s) (modrm_mod s) (modrm_reg s)
    (modrm_rm s) (need_modrm s) (syn s) (op_ad s) v (op_address s) (op_riprel s)
    (two_source_ops s) (start_pc s) (fetch s) (max_fetched s) (insn_start s)
    (read_memory_func s).
Definition set_op_address (v : list Z) (s : dis_state) : dis_state :=
  mk_dis (address_mode s) (prefixes s) (rex s) (rex_used s) (used_prefixes s) (vex_reg s) (obuf s)
    (op_out s) (obufp s) (the_buffer s) (codep s) (insn_codep s) (modrm_mod s) (modrm_reg s)
    (modrm_rm s) (need_modrm s) (syn s) (op_ad s) (op_index s) v (op_riprel s)
    (two_source_ops s) (start_pc s) (fetch s) (max_fetched s) (insn_start s)
    (read_memory_func s).
Definition set_op_riprel (v : list Z) (s : dis_state) : dis_state :=
  mk_dis (address_mode s) (prefixes s) (rex s) (rex_used s) (used_prefixes s) (vex_reg s) (obuf s)
    (op_out s) (obufp s) (the_buffer s) (codep s) (insn_codep s) (modrm_mod s) (modrm_reg s)
    (modrm_rm s) (need_modrm s) (syn s) (op_ad s) (op_index s) (op_address s) v
    (two_source_ops s) (start_pc s) (fetch s) (max_fetched s) (insn_start s)
    (read_memory_func s).
Definition set_two_source_ops (v : bool) (s : dis_state) : dis_state :=
  mk_dis (address_mode s) (prefixes s) (rex s) (rex_used s) (used_prefixes s) (vex_reg s) (obuf s)
    (op_out s) (obufp s) (the_buffer s) (codep s) (insn_codep s) (modrm_mod s) (modrm_reg s)
    (modrm_rm s) (need_modrm s) (syn s) (op_ad s) (op_index s) (op_address s) (op_riprel s) v
    (start_pc s) (fetch s) (max_fetched s) (insn_start s) (read_memory_func s).
Definition set_start_pc (v : Z) (s : dis_state) : dis_state :=
  mk_dis (address_mode s) (prefixes s) (rex s) (rex_used s) (used_prefixes s) (vex_reg s) (obuf s)
    (op_out s) (obufp s) (the_buffer s) (codep s) (insn_codep s) (modrm_mod s) (modrm_reg s)
    (modrm_rm s) (need_modrm s) (syn s) (op_ad s) (op_index s) (op_address s) (op_riprel s)
    (two_source_ops s) v (fetch s) (max_fetched s) (insn_start s) (read_memory_func s).
Definition set_fetch (v : bool) (s : dis_state) : dis_state :=
  mk_dis (address_mode s) (prefixes s) (rex s) (rex_used s) (used_prefixes s) (vex_reg s) (obuf s)
    (op_out s) (obufp s) (the_buffer s) (codep s) (insn_codep s) (modrm_mod s) (modrm_reg s)
    (modrm_rm s) (need_modrm s) (syn s) (op_ad s) (op_index s) (op_address s) (op_riprel s)
    (two_source_ops s) (start_pc s) v (max_fetched s) (insn_start s) (read_memory_func s).
Definition set_max_fetched (v : nat) (s : dis_state) : dis_state :=
  mk_dis (address_mode s) (prefixes s) (rex s) (rex_used s) (used_prefixes s) (vex_reg s) (obuf s)
    (op_out s) (obufp s) (the_buffer s) (codep s) (insn_codep s) (modrm_mod s) (modrm_reg s)
    (modrm_rm s) (need_modrm s) (syn s) (op_ad s) (op_index s) (op_address s) (op_riprel s)
    (two_source_ops s) (start_pc s) (fetch s) v (insn_start s) (read_memory_func s).
Definition set_insn_start (v : Z) (s : dis_state) : dis_state :=
  mk_dis (address_mode s) (prefixes s) (rex s) (rex_used s) (used_prefixes s) (vex_reg s) (obuf s)
    (op_out s) (obufp s) (the_buffer s) (codep s) (insn_codep s) (modrm_mod s) (modrm_reg s)
    (modrm_rm s) (need_modrm s) (syn s) (op_ad s) (op_index s) (op_address s) (op_riprel s)
    (two_source_ops s) (start_pc s) (fetch s) (max_fetched s) v (read_memory_func s).
Definition set_read_memory_func (v : Z -> nat -> option (list Z)) (s : dis_state) : dis_state :=
  mk_dis (address_mode s) (prefixes s) (rex s) (rex_used s) (used_prefixes s) (vex_reg s) (obuf s)
    (op_out s) (obufp s) (the_buffer s) (codep s) (insn_codep s) (modrm_mod s) (modrm_reg s)
    (modrm_rm s) (need_modrm s) (syn s) (op_ad s) (op_index s) (op_address s) (op_riprel s)
    (two_source_ops s) (start_pc s) (fetch s) (max_fetched s) (insn_start s) v.


(** ** The monad of the operand functions *)

Definition DM (A : Type) : Type := dis_state -> res (A * dis_state).

Definition dret {A} (a : A) : DM A := fun s => Ok (a, s).
Definition dbind {A B} (m : DM A) (f : A -> DM B) : DM B :=
  fun s => match m s with Ok (a, s') => f a s' | Err e => Err e end.
Definition dfail {A} (e : error) : DM A := fun _ => Err e.
Definition gets {A} (f : dis_state -> A) : DM A := fun s => Ok (f s, s).
Definition modify (f : dis_state -> dis_state) : DM unit := fun s => Ok (tt, f s).

Declare Scope dm_scope.
Delimit Scope dm_scope with dm.
Bind Scope dm_scope with DM.

Notation "x <- m ;; k" := (dbind m (fun x => k))
  (at level 100, m at next level, right associativity) : dm_scope.
Notation "m ;; k" := (dbind m (fun _ => k))
  (at level 100, right associativity) : dm_scope.
Definition when (b : bool) (m : DM unit) : DM unit := if b then m else dret tt.

Open Scope dm_scope.

(** ** Primitives *)

(** A byte of the instruction buffer. *)
Definition getb (i : nat) : DM Z := fun s =>
  match the_buffer s !! i with
  | Some (Some b) => Ok (b, s)
  | Some None => Err Uninit
  | None => Err OutOfBounds
  end.

(** [*codep] *)
Definition peek : DM Z := i <- gets codep ;; getb i.
Definition advance (n : nat) : DM unit := modify (fun s => set_codep (codep s + n)%nat s).
(** [*codep++] *)
Definition next : DM Z := b <- peek ;; advance 1 ;; dret b.
(** [codep[-1]] *)
Definition prev_byte : DM Z :=
  i <- gets codep ;; match i with O => dfail OutOfBounds | S j => getb j end.

(** Stores [bs] at [off] in the buffer. *)
Fixpoint store_bytes (off : nat) (bs : list Z) (b : list (option Z)) : list (option Z) :=
  match bs with
  | [] => b
  | x :: bs => store_bytes (S off) bs (<[off := Some x]> b)
  end.

Definition fetch_data2 (addr : nat) : DM unit := fun s =>
  let start := u64 (insn_start s + Z.of_nat (max_fetched s)) in
  if (addr <=? MAX_MNEM_SIZE)%nat
  then match read_memory_func s start (addr - max_fetched s)%nat with
       | Some bs => Ok (tt, set_max_fetched addr
                            (set_the_buffer (store_bytes (max_fetched s) bs (the_buffer s)) s))
       | None => Err Bailout
       end
  else Err Bailout.

(** [fetch_data (the_info, codep + n)] *)
Definition fetch_data (n : nat) : DM unit := fun s =>
  if negb (fetch s) then Ok (tt, s)
  else if (codep s + n <=? max_fetched s)%nat then Ok (tt, s)
  else fetch_data2 (codep s + n) s.

(** *** Output buffers *)

Definition buf_get (b : bufid) (s : dis_state) : string :=
  match b with
  | Obuf => obuf s
  | OpOut i => default EmptyString (op_out s !! i)
  end.

Definition buf_set (b : bufid) (t : string) (s : dis_state) : dis_state :=
  match b with
  | Obuf => set_obuf t s
  | OpOut i => set_op_out (<[i := t]> (op_out s)) s
  end.

(** Copies [t] and a NUL to the cursor and moves the cursor to the NUL.  The buffers of the
    disassembler have 100 bytes each; this size is not modelled, a text is as long as it gets. *)
Definition oappend (t : string) : DM unit := fun s =>
  let '(b, off) := obufp s in
  Ok (tt, set_obufp (b, (off + String.length t)%nat)
            (buf_set b (String.append (stake off (buf_get b s)) t) s)).

(** [*obufp++ = c] *)
Definition emit (c : ascii) : DM unit := oappend (String c EmptyString).

(** [*obufp = 0] *)
Definition terminate : DM unit := oappend EmptyString.

(** [oappend (t + intel_syntax)]: Intel syntax drops the leading ['%']. *)
Definition oappend_att (t : string) : DM unit :=
  i <- gets (fun s => intel_syntax (syn s)) ;;
  oappend (if i : bool then sdrop 1 t else t).

(** [strcpy (obuf + strlen (obuf) - n, t)] *)
Definition obuf_overwrite_tail (n : nat) (t : string) : DM unit := fun s =>
  let len := String.length (obuf s) in
  if (len <? n)%nat then Err OutOfBounds
  else Ok (tt, set_obuf (String.append (stake (len - n) (obuf s)) t) s).

(** [strcpy (op_out[i], t)] *)
Definition strcpy_op_out (i : nat) (t : string) : DM unit :=
  modify (fun s => set_op_out (<[i := t]> (op_out s)) s).

(** [obufp = obuf + strlen (obuf)] *)
Definition obufp_to_end : DM unit :=
  modify (fun s => set_obufp (Obuf, String.length (obuf s)) s).

(** An entry of a name table. *)
Definition name_at (t : syntax -> list string) (i : Z) : DM string := fun s =>
  if i <? 0 then Err OutOfBounds
  else match t (syn s) !! Z.to_nat i with
       | Some n => Ok (n, s)
       | None => Err OutOfBounds
       end.

Definition oappend_name (t : syntax -> list string) (i : Z) : DM unit :=
  n <- name_at t i ;; oappend n.

(** *** Flags *)

Definition prefix (m : Z) : DM bool := gets (fun s => bits (prefixes s) m).
Definition rex_has (m : Z) : DM bool := gets (fun s => bits (rex s) m).

(** [used_prefixes |= m] *)
Definition use_mask (m : Z) : DM unit :=
  modify (fun s => set_used_prefixes (Z.lor (used_prefixes s) m) s).

(** [used_prefixes |= (prefixes & m)] *)
Definition use_prefix (m : Z) : DM unit :=
  modify (fun s => set_used_prefixes (Z.lor (used_prefixes s) (Z.land (prefixes s) m)) s).

Definition USED_REX (value : Z) : DM unit :=
  modify (fun s =>
    if negb (value =? 0)
    then if bits (rex s) value
         then set_rex_used (Z.lor (rex_used s) (Z.lor value REX_OPCODE)) s
         else s
    else set_rex_used (Z.lor (rex_used s) REX_OPCODE) s).

(** Reaching for mod/rm/reg without a mod/rm byte is a bug of the tables. *)
Definition MODRM_CHECK : DM unit :=
  n <- gets need_modrm ;; if n : bool then dret tt else dfail Aborted.

Definition mode64 : DM bool := gets (fun s => is64 (address_mode s)).
Definition intel : DM bool := gets (fun s => intel_syntax (syn s)).

Definition INTERNAL_DISASSEMBLER_ERROR : string := "<internal disassembler error>".
