(* ===== verification/DisasTables.v ===== *)
(** * The opcode tables of the x86 disassembler (disas/i386.c)

    A transcription of the operand and group macros, of the opcode tables, of the
    prefix and mod/rm usage tables and of the register-name tables of
    disas/i386.c.  A table longer than a screen is cut into consecutive pieces,
    whose concatenation carries the table's name.  Operand macros keep their
    names in module [Op], entry macros ([GRP1a], [PREGRP0], ...) in module
    [Entry]. *)

From Stdlib Require Import ZArith Bool Ascii String.
From stdpp Require Import base list.
From S2P Require Import Prelude DisasTypes.

Open Scope Z_scope.
Open Scope string_scope.
Open Scope list_scope.

(** ** Operand macros *)

Module Op.

Definition XX : operand := (None, 0).
Definition Bv : operand := (Some OP_vvvv_rtn, v_mode).
Definition Eb : operand := (Some OP_E_rtn, b_mode).
Definition Ev : operand := (Some OP_E_rtn, v_mode).
Definition Ed : operand := (Some OP_E_rtn, d_mode).
Definition Edq : operand := (Some OP_E_rtn, dq_mode).
Definition Edqw : operand := (Some OP_E_rtn, dqw_mode).
Definition Edqb : operand := (Some OP_E_rtn, dqb_mode).
Definition Edqd : operand := (Some OP_E_rtn, dqd_mode).
Definition indirEv : operand := (Some OP_indirE_rtn, stack_v_mode).
Definition indirEp : operand := (Some OP_indirE_rtn, f_mode).
Definition stackEv : operand := (Some OP_E_rtn, stack_v_mode).
Definition Em : operand := (Some OP_E_rtn, m_mode).
Definition Ew : operand := (Some OP_E_rtn, w_mode).
Definition M : operand := (Some OP_M_rtn, 0).
Definition Ma : operand := (Some OP_M_rtn, v_mode).
Definition Mp : operand := (Some OP_M_rtn, f_mode).
Definition Mq : operand := (Some OP_M_rtn, q_mode).
Definition Gb : operand := (Some OP_G_rtn, b_mode).
Definition Gv : operand := (Some OP_G_rtn, v_mode).
Definition Gd : operand := (Some OP_G_rtn, d_mode).
Definition Gdq : operand := (Some OP_G_rtn, dq_mode).
Definition Gm : operand := (Some OP_G_rtn, m_mode).
Definition Gw : operand := (Some OP_G_rtn, w_mode).
Definition Rd : operand := (Some OP_R_rtn, d_mode).
Definition Rm : operand := (Some OP_R_rtn, m_mode).
Definition Ib : operand := (Some OP_I_rtn, b_mode).
Definition sIb : operand := (Some OP_sI_rtn, b_mode).
Definition Iv : operand := (Some OP_I_rtn, v_mode).
Definition Iq : operand := (Some OP_I_rtn, q_mode).
Definition Iv64 : operand := (Some OP_I64_rtn, v_mode).
Definition Iw : operand := (Some OP_I_rtn, w_mode).
Definition I1 : operand := (Some OP_I_rtn, const_1_mode).
Definition Jb : operand := (Some OP_J_rtn, b_mode).
Definition Jv : operand := (Some OP_J_rtn, v_mode).
Definition Cm : operand := (Some OP_C_rtn, m_mode).
Definition Dm : operand := (Some OP_D_rtn, m_mode).
Definition Td : operand := (Some OP_T_rtn, d_mode).
Definition RMeAX : operand := (Some OP_REG_rtn, eAX_reg).
Definition RMeBX : operand := (Some OP_REG_rtn, eBX_reg).
Definition RMeCX : operand := (Some OP_REG_rtn, eCX_reg).
Definition RMeDX : operand := (Some OP_REG_rtn, eDX_reg).
Definition RMeSP : operand := (Some OP_REG_rtn, eSP_reg).
Definition RMeBP : operand := (Some OP_REG_rtn, eBP_reg).
Definition RMeSI : operand := (Some OP_REG_rtn, eSI_reg).
Definition RMeDI : operand := (Some OP_REG_rtn, eDI_reg).
Definition RMrAX : operand := (Some OP_REG_rtn, rAX_reg).
Definition RMrBX : operand := (Some OP_REG_rtn, rBX_reg).
Definition RMrCX : operand := (Some OP_REG_rtn, rCX_reg).
Definition RMrDX : operand := (Some OP_REG_rtn, rDX_reg).
Definition RMrSP : operand := (Some OP_REG_rtn, rSP_reg).
Definition RMrBP : operand := (Some OP_REG_rtn, rBP_reg).
Definition RMrSI : operand := (Some OP_REG_rtn, rSI_reg).
Definition RMrDI : operand := (Some OP_REG_rtn, rDI_reg).
Definition RMAL : operand := (Some OP_REG_rtn, al_reg).
Definition RMCL : operand := (Some OP_REG_rtn, cl_reg).
Definition RMDL : operand := (Some OP_REG_rtn, dl_reg).
Definition RMBL : operand := (Some OP_REG_rtn, bl_reg).
Definition RMAH : operand := (Some OP_REG_rtn, ah_reg).
Definition RMCH : operand := (Some OP_REG_rtn, ch_reg).
Definition RMDH : operand := (Some OP_REG_rtn, dh_reg).
Definition RMBH : operand := (Some OP_REG_rtn, bh_reg).
Definition RMAX : operand := (Some OP_REG_rtn, ax_reg).
Definition RMDX : operand := (Some OP_REG_rtn, dx_reg).
Definition eAX : operand := (Some OP_IMREG_rtn, eAX_reg).
Definition eBX : operand := (Some OP_IMREG_rtn, eBX_reg).
Definition eCX : operand := (Some OP_IMREG_rtn, eCX_reg).
Definition eDX : operand := (Some OP_IMREG_rtn, eDX_reg).
Definition eSP : operand := (Some OP_IMREG_rtn, eSP_reg).
Definition eBP : operand := (Some OP_IMREG_rtn, eBP_reg).
Definition eSI : operand := (Some OP_IMREG_rtn, eSI_reg).
Definition eDI : operand := (Some OP_IMREG_rtn, eDI_reg).
Definition AL : operand := (Some OP_IMREG_rtn, al_reg).
Definition CL : operand := (Some OP_IMREG_rtn, cl_reg).
Definition DL : operand := (Some OP_IMREG_rtn, dl_reg).
Definition BL : operand := (Some OP_IMREG_rtn, bl_reg).
Definition AH : operand := (Some OP_IMREG_rtn, ah_reg).
Definition CH : operand := (Some OP_IMREG_rtn, ch_reg).
Definition DH : operand := (Some OP_IMREG_rtn, dh_reg).
Definition BH : operand := (Some OP_IMREG_rtn, bh_reg).
Definition AX : operand := (Some OP_IMREG_rtn, ax_reg).
Definition DX : operand := (Some OP_IMREG_rtn, dx_reg).
Definition zAX : operand := (Some OP_IMREG_rtn, z_mode_ax_reg).
Definition indirDX : operand := (Some OP_IMREG_rtn, indir_dx_reg).
Definition Sw : operand := (Some OP_SEG_rtn, w_mode).
Definition Sv : operand := (Some OP_SEG_rtn, v_mode).
Definition Ap : operand := (Some OP_DIR_rtn, 0).
Definition Ob : operand := (Some OP_OFF64_rtn, b_mode).
Definition Ov : operand := (Some OP_OFF64_rtn, v_mode).
Definition Xb : operand := (Some OP_DSreg_rtn, eSI_reg).
Definition Xv : operand := (Some OP_DSreg_rtn, eSI_reg).
Definition Xz : operand := (Some OP_DSreg_rtn, eSI_reg).
Definition Yb : operand := (Some OP_ESreg_rtn, eDI_reg).
Definition Yv : operand := (Some OP_ESreg_rtn, eDI_reg).
Definition DSBX : operand := (Some OP_DSreg_rtn, eBX_reg).
Definition es : operand := (Some OP_REG_rtn, es_reg).
Definition ss : operand := (Some OP_REG_rtn, ss_reg).
Definition cs : operand := (Some OP_REG_rtn, cs_reg).
Definition ds : operand := (Some OP_REG_rtn, ds_reg).
Definition fs : operand := (Some OP_REG_rtn, fs_reg).
Definition gs : operand := (Some OP_REG_rtn, gs_reg).
Definition MX : operand := (Some OP_MMX_rtn, 0).
Definition XM : operand := (Some OP_XMM_rtn, 0).
Definition EM : operand := (Some OP_EM_rtn, v_mode).
Definition EMd : operand := (Some OP_EM_rtn, d_mode).
Definition EMq : operand := (Some OP_EM_rtn, q_mode).
Definition EXd : operand := (Some OP_EX_rtn, d_mode).
Definition EXq : operand := (Some OP_EX_rtn, q_mode).
Definition EXx : operand := (Some OP_EX_rtn, x_mode).
Definition MS : operand := (Some OP_MS_rtn, v_mode).
Definition XS : operand := (Some OP_XS_rtn, v_mode).
Definition EMC : operand := (Some OP_EMC_rtn, v_mode).
Definition MXC : operand := (Some OP_MXC_rtn, 0).
Definition VM : operand := (Some OP_VMX_rtn, q_mode).
Definition OPSUF : operand := (Some OP_3DNowSuffix_rtn, 0).
Definition OPSIMD : operand := (Some OP_SIMD_Suffix_rtn, 0).
Definition XMM0 : operand := (Some XMM_Fixup_rtn, 0).
Definition Xbr : operand := (Some REP_Fixup_rtn, eSI_reg).
Definition Xvr : operand := (Some REP_Fixup_rtn, eSI_reg).
Definition Ybr : operand := (Some REP_Fixup_rtn, eDI_reg).
Definition Yvr : operand := (Some REP_Fixup_rtn, eDI_reg).
Definition Yzr : operand := (Some REP_Fixup_rtn, eDI_reg).
Definition indirDXr : operand := (Some REP_Fixup_rtn, indir_dx_reg).
Definition ALr : operand := (Some REP_Fixup_rtn, al_reg).
Definition eAXr : operand := (Some REP_Fixup_rtn, eAX_reg).
Definition cond_jump_flag : operand := (None, cond_jump_mode).
Definition loop_jcxz_flag : operand := (None, loop_jcxz_mode).
Definition ST : operand := (Some OP_ST_rtn, 0).
Definition STi : operand := (Some OP_STi_rtn, 0).

End Op.

(** ** Entry macros *)

Module Entry.

Definition FLOAT : dis386_t := mk_dis386 None [(None, FLOATCODE)].
Definition GRP1a : dis386_t := mk_dis386 None [(None, USE_GROUPS); (None, 0)].
Definition GRP1b : dis386_t := mk_dis386 None [(None, USE_GROUPS); (None, 1)].
Definition GRP1S : dis386_t := mk_dis386 None [(None, USE_GROUPS); (None, 2)].
Definition GRP1Ss : dis386_t := mk_dis386 None [(None, USE_GROUPS); (None, 3)].
Definition GRP2b : dis386_t := mk_dis386 None [(None, USE_GROUPS); (None, 4)].
Definition GRP2S : dis386_t := mk_dis386 None [(None, USE_GROUPS); (None, 5)].
Definition GRP2b_one : dis386_t := mk_dis386 None [(None, USE_GROUPS); (None, 6)].
Definition GRP2S_one : dis386_t := mk_dis386 None [(None, USE_GROUPS); (None, 7)].
Definition GRP2b_cl : dis386_t := mk_dis386 None [(None, USE_GROUPS); (None, 8)].
Definition GRP2S_cl : dis386_t := mk_dis386 None [(None, USE_GROUPS); (None, 9)].
Definition GRP3b : dis386_t := mk_dis386 None [(None, USE_GROUPS); (None, 10)].
Definition GRP3S : dis386_t := mk_dis386 None [(None, USE_GROUPS); (None, 11)].
Definition GRP4 : dis386_t := mk_dis386 None [(None, USE_GROUPS); (None, 12)].
Definition GRP5 : dis386_t := mk_dis386 None [(None, USE_GROUPS); (None, 13)].
Definition GRP6 : dis386_t := mk_dis386 None [(None, USE_GROUPS); (None, 14)].
Definition GRP7 : dis386_t := mk_dis386 None [(None, USE_GROUPS); (None, 15)].
Definition GRP8 : dis386_t := mk_dis386 None [(None, USE_GROUPS); (None, 16)].
Definition GRP9 : dis386_t := mk_dis386 None [(None, USE_GROUPS); (None, 17)].
Definition GRP11_C6 : dis386_t := mk_dis386 None [(None, USE_GROUPS); (None, 18)].
Definition GRP11_C7 : dis386_t := mk_dis386 None [(None, USE_GROUPS); (None, 19)].
Definition GRP12 : dis386_t := mk_dis386 None [(None, USE_GROUPS); (None, 20)].
Definition GRP13 : dis386_t := mk_dis386 None [(None, USE_GROUPS); (None, 21)].
Definition GRP14 : dis386_t := mk_dis386 None [(None, USE_GROUPS); (None, 22)].
Definition GRP15 : dis386_t := mk_dis386 None [(None, USE_GROUPS); (None, 23)].
Definition GRP16 : dis386_t := mk_dis386 None [(None, USE_GROUPS); (None, 24)].
Definition GRPAMD : dis386_t := mk_dis386 None [(None, USE_GROUPS); (None, 25)].
Definition GRPPADLCK1 : dis386_t := mk_dis386 None [(None, USE_GROUPS); (None, 26)].
Definition GRPPADLCK2 : dis386_t := mk_dis386 None [(None, USE_GROUPS); (None, 27)].
Definition PREGRP0 : dis386_t := mk_dis386 None [(None, USE_PREFIX_USER_TABLE); (None, 0)].
Definition PREGRP1 : dis386_t := mk_dis386 None [(None, USE_PREFIX_USER_TABLE); (None, 1)].
Definition PREGRP2 : dis386_t := mk_dis386 None [(None, USE_PREFIX_USER_TABLE); (None, 2)].
Definition PREGRP3 : dis386_t := mk_dis386 None [(None, USE_PREFIX_USER_TABLE); (None, 3)].
Definition PREGRP4 : dis386_t := mk_dis386 None [(None, USE_PREFIX_USER_TABLE); (None, 4)].
Definition PREGRP5 : dis386_t := mk_dis386 None [(None, USE_PREFIX_USER_TABLE); (None, 5)].
Definition PREGRP6 : dis386_t := mk_dis386 None [(None, USE_PREFIX_USER_TABLE); (None, 6)].
Definition PREGRP7 : dis386_t := mk_dis386 None [(None, USE_PREFIX_USER_TABLE); (None, 7)].
Definition PREGRP8 : dis386_t := mk_dis386 None [(None, USE_PREFIX_USER_TABLE); (None, 8)].
Definition PREGRP9 : dis386_t := mk_dis386 None [(None, USE_PREFIX_USER_TABLE); (None, 9)].
Definition PREGRP10 : dis386_t := mk_dis386 None [(None, USE_PREFIX_USER_TABLE); (None, 10)].
Definition PREGRP11 : dis386_t := mk_dis386 None [(None, USE_PREFIX_USER_TABLE); (None, 11)].
Definition PREGRP12 : dis386_t := mk_dis386 None [(None, USE_PREFIX_USER_TABLE); (None, 12)].
Definition PREGRP13 : dis386_t := mk_dis386 None [(None, USE_PREFIX_USER_TABLE); (None, 13)].
Definition PREGRP14 : dis386_t := mk_dis386 None [(None, USE_PREFIX_USER_TABLE); (None, 14)].
Definition PREGRP15 : dis386_t := mk_dis386 None [(None, USE_PREFIX_USER_TABLE); (None, 15)].
Definition PREGRP16 : dis386_t := mk_dis386 None [(None, USE_PREFIX_USER_TABLE); (None, 16)].
Definition PREGRP17 : dis386_t := mk_dis386 None [(None, USE_PREFIX_USER_TABLE); (None, 17)].
Definition PREGRP18 : dis386_t := mk_dis386 None [(None, USE_PREFIX_USER_TABLE); (None, 18)].
Definition PREGRP19 : dis386_t := mk_dis386 None [(None, USE_PREFIX_USER_TABLE); (None, 19)].
Definition PREGRP20 : dis386_t := mk_dis386 None [(None, USE_PREFIX_USER_TABLE); (None, 20)].
Definition PREGRP21 : dis386_t := mk_dis386 None [(None, USE_PREFIX_USER_TABLE); (None, 21)].
Definition PREGRP22 : dis386_t := mk_dis386 None [(None, USE_PREFIX_USER_TABLE); (None, 22)].
Definition PREGRP23 : dis386_t := mk_dis386 None [(None, USE_PREFIX_USER_TABLE); (None, 23)].
Definition PREGRP24 : dis386_t := mk_dis386 None [(None, USE_PREFIX_USER_TABLE); (None, 24)].
Definition PREGRP25 : dis386_t := mk_dis386 None [(None, USE_PREFIX_USER_TABLE); (None, 25)].
Definition PREGRP26 : dis386_t := mk_dis386 None [(None, USE_PREFIX_USER_TABLE); (None, 26)].
Definition PREGRP27 : dis386_t := mk_dis386 None [(None, USE_PREFIX_USER_TABLE); (None, 27)].
Definition PREGRP28 : dis386_t := mk_dis386 None [(None, USE_PREFIX_USER_TABLE); (None, 28)].
Definition PREGRP29 : dis386_t := mk_dis386 None [(None, USE_PREFIX_USER_TABLE); (None, 29)].
Definition PREGRP30 : dis386_t := mk_dis386 None [(None, USE_PREFIX_USER_TABLE); (None, 30)].
Definition PREGRP31 : dis386_t := mk_dis386 None [(None, USE_PREFIX_USER_TABLE); (None, 31)].
Definition PREGRP32 : dis386_t := mk_dis386 None [(None, USE_PREFIX_USER_TABLE); (None, 32)].
Definition PREGRP33 : dis386_t := mk_dis386 None [(None, USE_PREFIX_USER_TABLE); (None, 33)].
Definition PREGRP34 : dis386_t := mk_dis386 None [(None, USE_PREFIX_USER_TABLE); (None, 34)].
Definition PREGRP35 : dis386_t := mk_dis386 None [(None, USE_PREFIX_USER_TABLE); (None, 35)].
Definition PREGRP36 : dis386_t := mk_dis386 None [(None, USE_PREFIX_USER_TABLE); (None, 36)].
Definition PREGRP37 : dis386_t := mk_dis386 None [(None, USE_PREFIX_USER_TABLE); (None, 37)].
Definition PREGRP38 : dis386_t := mk_dis386 None [(None, USE_PREFIX_USER_TABLE); (None, 38)].
Definition PREGRP39 : dis386_t := mk_dis386 None [(None, USE_PREFIX_USER_TABLE); (None, 39)].
Definition PREGRP40 : dis386_t := mk_dis386 None [(None, USE_PREFIX_USER_TABLE); (None, 40)].
Definition PREGRP41 : dis386_t := mk_dis386 None [(None, USE_PREFIX_USER_TABLE); (None, 41)].
Definition PREGRP42 : dis386_t := mk_dis386 None [(None, USE_PREFIX_USER_TABLE); (None, 42)].
Definition PREGRP43 : dis386_t := mk_dis386 None [(None, USE_PREFIX_USER_TABLE); (None, 43)].
Definition PREGRP44 : dis386_t := mk_dis386 None [(None, USE_PREFIX_USER_TABLE); (None, 44)].
Definition PREGRP45 : dis386_t := mk_dis386 None [(None, USE_PREFIX_USER_TABLE); (None, 45)].
Definition PREGRP46 : dis386_t := mk_dis386 None [(None, USE_PREFIX_USER_TABLE); (None, 46)].
Definition PREGRP47 : dis386_t := mk_dis386 None [(None, USE_PREFIX_USER_TABLE); (None, 47)].
Definition PREGRP48 : dis386_t := mk_dis386 None [(None, USE_PREFIX_USER_TABLE); (None, 48)].
Definition PREGRP49 : dis386_t := mk_dis386 None [(None, USE_PREFIX_USER_TABLE); (None, 49)].
Definition PREGRP50 : dis386_t := mk_dis386 None [(None, USE_PREFIX_USER_TABLE); (None, 50)].
Definition PREGRP51 : dis386_t := mk_dis386 None [(None, USE_PREFIX_USER_TABLE); (None, 51)].
Definition PREGRP52 : dis386_t := mk_dis386 None [(None, USE_PREFIX_USER_TABLE); (None, 52)].
Definition PREGRP53 : dis386_t := mk_dis386 None [(None, USE_PREFIX_USER_TABLE); (None, 53)].
Definition PREGRP54 : dis386_t := mk_dis386 None [(None, USE_PREFIX_USER_TABLE); (None, 54)].
Definition PREGRP55 : dis386_t := mk_dis386 None [(None, USE_PREFIX_USER_TABLE); (None, 55)].
Definition PREGRP56 : dis386_t := mk_dis386 None [(None, USE_PREFIX_USER_TABLE); (None, 56)].
Definition PREGRP57 : dis386_t := mk_dis386 None [(None, USE_PREFIX_USER_TABLE); (None, 57)].
Definition PREGRP58 : dis386_t := mk_dis386 None [(None, USE_PREFIX_USER_TABLE); (None, 58)].
Definition PREGRP59 : dis386_t := mk_dis386 None [(None, USE_PREFIX_USER_TABLE); (None, 59)].
Definition PREGRP60 : dis386_t := mk_dis386 None [(None, USE_PREFIX_USER_TABLE); (None, 60)].
Definition PREGRP61 : dis386_t := mk_dis386 None [(None, USE_PREFIX_USER_TABLE); (None, 61)].
Definition PREGRP62 : dis386_t := mk_dis386 None [(None, USE_PREFIX_USER_TABLE); (None, 62)].
Definition PREGRP63 : dis386_t := mk_dis386 None [(None, USE_PREFIX_USER_TABLE); (None, 63)].
Definition PREGRP64 : dis386_t := mk_dis386 None [(None, USE_PREFIX_USER_TABLE); (None, 64)].
Definition PREGRP65 : dis386_t := mk_dis386 None [(None, USE_PREFIX_USER_TABLE); (None, 65)].
Definition PREGRP66 : dis386_t := mk_dis386 None [(None, USE_PREFIX_USER_TABLE); (None, 66)].
Definition PREGRP67 : dis386_t := mk_dis386 None [(None, USE_PREFIX_USER_TABLE); (None, 67)].
Definition PREGRP68 : dis386_t := mk_dis386 None [(None, USE_PREFIX_USER_TABLE); (None, 68)].
Definition PREGRP69 : dis386_t := mk_dis386 None [(None, USE_PREFIX_USER_TABLE); (None, 69)].
Definition PREGRP70 : dis386_t := mk_dis386 None [(None, USE_PREFIX_USER_TABLE); (None, 70)].
Definition PREGRP71 : dis386_t := mk_dis386 None [(None, USE_PREFIX_USER_TABLE); (None, 71)].
Definition PREGRP72 : dis386_t := mk_dis386 None [(None, USE_PREFIX_USER_TABLE); (None, 72)].
Definition PREGRP73 : dis386_t := mk_dis386 None [(None, USE_PREFIX_USER_TABLE); (None, 73)].
Definition PREGRP74 : dis386_t := mk_dis386 None [(None, USE_PREFIX_USER_TABLE); (None, 74)].
Definition PREGRP75 : dis386_t := mk_dis386 None [(None, USE_PREFIX_USER_TABLE); (None, 75)].
Definition PREGRP76 : dis386_t := mk_dis386 None [(None, USE_PREFIX_USER_TABLE); (None, 76)].
Definition PREGRP77 : dis386_t := mk_dis386 None [(None, USE_PREFIX_USER_TABLE); (None, 77)].
Definition PREGRP78 : dis386_t := mk_dis386 None [(None, USE_PREFIX_USER_TABLE); (None, 78)].
Definition PREGRP79 : dis386_t := mk_dis386 None [(None, USE_PREFIX_USER_TABLE); (None, 79)].
Definition PREGRP80 : dis386_t := mk_dis386 None [(None, USE_PREFIX_USER_TABLE); (None, 80)].
Definition PREGRP81 : dis386_t := mk_dis386 None [(None, USE_PREFIX_USER_TABLE); (None, 81)].
Definition PREGRP82 : dis386_t := mk_dis386 None [(None, USE_PREFIX_USER_TABLE); (None, 82)].
Definition PREGRP83 : dis386_t := mk_dis386 None [(None, USE_PREFIX_USER_TABLE); (None, 83)].
Definition PREGRP84 : dis386_t := mk_dis386 None [(None, USE_PREFIX_USER_TABLE); (None, 84)].
Definition PREGRP85 : dis386_t := mk_dis386 None [(None, USE_PREFIX_USER_TABLE); (None, 85)].
Definition PREGRP86 : dis386_t := mk_dis386 None [(None, USE_PREFIX_USER_TABLE); (None, 86)].
Definition PREGRP87 : dis386_t := mk_dis386 None [(None, USE_PREFIX_USER_TABLE); (None, 87)].
Definition PREGRP88 : dis386_t := mk_dis386 None [(None, USE_PREFIX_USER_TABLE); (None, 88)].
Definition PREGRP89 : dis386_t := mk_dis386 None [(None, USE_PREFIX_USER_TABLE); (None, 89)].
Definition PREGRP90 : dis386_t := mk_dis386 None [(None, USE_PREFIX_USER_TABLE); (None, 90)].
Definition PREGRP91 : dis386_t := mk_dis386 None [(None, USE_PREFIX_USER_TABLE); (None, 91)].
Definition PREGRP92 : dis386_t := mk_dis386 None [(None, USE_PREFIX_USER_TABLE); (None, 92)].
Definition PREGRP93 : dis386_t := mk_dis386 None [(None, USE_PREFIX_USER_TABLE); (None, 93)].
Definition PREGRP94 : dis386_t := mk_dis386 None [(None, USE_PREFIX_USER_TABLE); (None, 94)].
Definition PREGRP95 : dis386_t := mk_dis386 None [(None, USE_PREFIX_USER_TABLE); (None, 95)].
Definition PREGRP96 : dis386_t := mk_dis386 None [(None, USE_PREFIX_USER_TABLE); (None, 96)].
Definition PREGRP97 : dis386_t := mk_dis386 None [(None, USE_PREFIX_USER_TABLE); (None, 97)].
Definition PREGRP98 : dis386_t := mk_dis386 None [(None, USE_PREFIX_USER_TABLE); (None, 98)].
Definition PREGRP99 : dis386_t := mk_dis386 None [(None, USE_PREFIX_USER_TABLE); (None, 99)].
Definition PREGRP100 : dis386_t := mk_dis386 None [(None, USE_PREFIX_USER_TABLE); (None, 100)].
Definition PREGRP101 : dis386_t := mk_dis386 None [(None, USE_PREFIX_USER_TABLE); (None, 101)].
Definition PREGRP102 : dis386_t := mk_dis386 None [(None, USE_PREFIX_USER_TABLE); (None, 102)].
Definition PREGRP103 : dis386_t := mk_dis386 None [(None, USE_PREFIX_USER_TABLE); (None, 103)].
Definition PREGRP104 : dis386_t := mk_dis386 None [(None, USE_PREFIX_USER_TABLE); (None, 104)].
Definition PREGRP105 : dis386_t := mk_dis386 None [(None, USE_PREFIX_USER_TABLE); (None, 105)].
Definition PREGRP106 : dis386_t := mk_dis386 None [(None, USE_PREFIX_USER_TABLE); (None, 106)].
Definition X86_64_0 : dis386_t := mk_dis386 None [(None, X86_64_SPECIAL); (None, 0)].
Definition X86_64_1 : dis386_t := mk_dis386 None [(None, X86_64_SPECIAL); (None, 1)].
Definition X86_64_2 : dis386_t := mk_dis386 None [(None, X86_64_SPECIAL); (None, 2)].
Definition X86_64_3 : dis386_t := mk_dis386 None [(None, X86_64_SPECIAL); (None, 3)].
Definition THREE_BYTE_0 : dis386_t := mk_dis386 None [(None, IS_3BYTE_OPCODE); (None, 0)].
Definition THREE_BYTE_1 : dis386_t := mk_dis386 None [(None, IS_3BYTE_OPCODE); (None, 1)].
Definition FGRPd9_2 : dis386_t := mk_dis386 None [(None, 0)].
Definition FGRPd9_4 : dis386_t := mk_dis386 None [(None, 1)].
Definition FGRPd9_5 : dis386_t := mk_dis386 None [(None, 2)].
Definition FGRPd9_6 : dis386_t := mk_dis386 None [(None, 3)].
Definition FGRPd9_7 : dis386_t := mk_dis386 None [(None, 4)].
Definition FGRPda_5 : dis386_t := mk_dis386 None [(None, 5)].
Definition FGRPdb_4 : dis386_t := mk_dis386 None [(None, 6)].
Definition FGRPde_3 : dis386_t := mk_dis386 None [(None, 7)].
Definition FGRPdf_4 : dis386_t := mk_dis386 None [(None, 8)].

End Entry.

Import Op Entry.

(** ** One-byte opcodes *)

Definition dis386_0 : list dis386_t :=
  [ mk_dis386 (Some "addB") [Eb; Gb];
    mk_dis386 (Some "addS") [Ev; Gv];
    mk_dis386 (Some "addB") [Gb; Eb];
    mk_dis386 (Some "addS") [Gv; Ev];
    mk_dis386 (Some "addB") [AL; Ib];
    mk_dis386 (Some "addS") [eAX; Iv];
    mk_dis386 (Some "push{T|}") [es];
    mk_dis386 (Some "pop{T|}") [es];
    mk_dis386 (Some "orB") [Eb; Gb];
    mk_dis386 (Some "orS") [Ev; Gv];
    mk_dis386 (Some "orB") [Gb; Eb];
    mk_dis386 (Some "orS") [Gv; Ev];
    mk_dis386 (Some "orB") [AL; Ib];
    mk_dis386 (Some "orS") [eAX; Iv];
    mk_dis386 (Some "push{T|}") [cs];
    mk_dis386 (Some "(bad)") [XX];
    mk_dis386 (Some "adcB") [Eb; Gb];
    mk_dis386 (Some "adcS") [Ev; Gv];
    mk_dis386 (Some "adcB") [Gb; Eb];
    mk_dis386 (Some "adcS") [Gv; Ev];
    mk_dis386 (Some "adcB") [AL; Ib];
    mk_dis386 (Some "adcS") [eAX; Iv];
    mk_dis386 (Some "push{T|}") [ss];
    mk_dis386 (Some "pop{T|}") [ss];
    mk_dis386 (Some "sbbB") [Eb; Gb];
    mk_dis386 (Some "sbbS") [Ev; Gv];
    mk_dis386 (Some "sbbB") [Gb; Eb];
    mk_dis386 (Some "sbbS") [Gv; Ev];
    mk_dis386 (Some "sbbB") [AL; Ib];
    mk_dis386 (Some "sbbS") [eAX; Iv];
    mk_dis386 (Some "push{T|}") [ds];
    mk_dis386 (Some "pop{T|}") [ds];
    mk_dis386 (Some "andB") [Eb; Gb];
    mk_dis386 (Some "andS") [Ev; Gv];
    mk_dis386 (Some "andB") [Gb; Eb];
    mk_dis386 (Some "andS") [Gv; Ev];
    mk_dis386 (Some "andB") [AL; Ib];
    mk_dis386 (Some "andS") [eAX; Iv];
    mk_dis386 (Some "(bad)") [XX];
    mk_dis386 (Some "daa{|}") [XX];
    mk_dis386 (Some "subB") [Eb; Gb];
    mk_dis386 (Some "subS") [Ev; Gv];
    mk_dis386 (Some "subB") [Gb; Eb];
    mk_dis386 (Some "subS") [Gv; Ev];
    mk_dis386 (Some "subB") [AL; Ib];
    mk_dis386 (Some "subS") [eAX; Iv];
    mk_dis386 (Some "(bad)") [XX];
    mk_dis386 (Some "das{|}") [XX];
    mk_dis386 (Some "xorB") [Eb; Gb];
    mk_dis386 (Some "xorS") [Ev; Gv];
    mk_dis386 (Some "xorB") [Gb; Eb];
    mk_dis386 (Some "xorS") [Gv; Ev];
    mk_dis386 (Some "xorB") [AL; Ib];
    mk_dis386 (Some "xorS") [eAX; Iv];
    mk_dis386 (Some "(bad)") [XX];
    mk_dis386 (Some "aaa{|}") [XX];
    mk_dis386 (Some "cmpB") [Eb; Gb];
    mk_dis386 (Some "cmpS") [Ev; Gv];
    mk_dis386 (Some "cmpB") [Gb; Eb];
    mk_dis386 (Some "cmpS") [Gv; Ev];
    mk_dis386 (Some "cmpB") [AL; Ib];
    mk_dis386 (Some "cmpS") [eAX; Iv];
    mk_dis386 (Some "(bad)") [XX];
    mk_dis386 (Some "aas{|}") [XX];
    mk_dis386 (Some "inc{S|}") [RMeAX];
    mk_dis386 (Some "inc{S|}") [RMeCX];
    mk_dis386 (Some "inc{S|}") [RMeDX];
    mk_dis386 (Some "inc{S|}") [RMeBX];
    mk_dis386 (Some "inc{S|}") [RMeSP];
    mk_dis386 (Some "inc{S|}") [RMeBP];
    mk_dis386 (Some "inc{S|}") [RMeSI];
    mk_dis386 (Some "inc{S|}") [RMeDI];
    mk_dis386 (Some "dec{S|}") [RMeAX];
    mk_dis386 (Some "dec{S|}") [RMeCX];
    mk_dis386 (Some "dec{S|}") [RMeDX];
    mk_dis386 (Some "dec{S|}") [RMeBX];
    mk_dis386 (Some "dec{S|}") [RMeSP];
    mk_dis386 (Some "dec{S|}") [RMeBP];
    mk_dis386 (Some "dec{S|}") [RMeSI];
    mk_dis386 (Some "dec{S|}") [RMeDI];
    mk_dis386 (Some "pushV") [RMrAX];
    mk_dis386 (Some "pushV") [RMrCX];
    mk_dis386 (Some "pushV") [RMrDX];
    mk_dis386 (Some "pushV") [RMrBX];
    mk_dis386 (Some "pushV") [RMrSP];
    mk_dis386 (Some "pushV") [RMrBP];
    mk_dis386 (Some "pushV") [RMrSI];
    mk_dis386 (Some "pushV") [RMrDI];
    mk_dis386 (Some "popV") [RMrAX];
    mk_dis386 (Some "popV") [RMrCX];
    mk_dis386 (Some "popV") [RMrDX];
    mk_dis386 (Some "popV") [RMrBX];
    mk_dis386 (Some "popV") [RMrSP];
    mk_dis386 (Some "popV") [RMrBP];
    mk_dis386 (Some "popV") [RMrSI];
    mk_dis386 (Some "popV") [RMrDI];
    X86_64_0;
    X86_64_1;
    X86_64_2;
    X86_64_3;
    mk_dis386 (Some "(bad)") [XX];
    mk_dis386 (Some "(bad)") [XX];
    mk_dis386 (Some "(bad)") [XX];
    mk_dis386 (Some "(bad)") [XX];
    mk_dis386 (Some "pushT") [Iq];
    mk_dis386 (Some "imulS") [Gv; Ev; Iv];
    mk_dis386 (Some "pushT") [sIb];
    mk_dis386 (Some "imulS") [Gv; Ev; sIb];
    mk_dis386 (Some "ins{b||b|}") [Ybr; indirDX];
    mk_dis386 (Some "ins{R||G|}") [Yzr; indirDX];
    mk_dis386 (Some "outs{b||b|}") [indirDXr; Xb];
    mk_dis386 (Some "outs{R||G|}") [indirDXr; Xz];
    mk_dis386 (Some "joH") [Jb; XX; cond_jump_flag];
    mk_dis386 (Some "jnoH") [Jb; XX; cond_jump_flag];
    mk_dis386 (Some "jbH") [Jb; XX; cond_jump_flag];
    mk_dis386 (Some "jaeH") [Jb; XX; cond_jump_flag];
    mk_dis386 (Some "jeH") [Jb; XX; cond_jump_flag];
    mk_dis386 (Some "jneH") [Jb; XX; cond_jump_flag];
    mk_dis386 (Some "jbeH") [Jb; XX; cond_jump_flag];
    mk_dis386 (Some "jaH") [Jb; XX; cond_jump_flag];
    mk_dis386 (Some "jsH") [Jb; XX; cond_jump_flag];
    mk_dis386 (Some "jnsH") [Jb; XX; cond_jump_flag];
    mk_dis386 (Some "jpH") [Jb; XX; cond_jump_flag] ].

Definition dis386_1 : list dis386_t :=
  [ mk_dis386 (Some "jnpH") [Jb; XX; cond_jump_flag];
    mk_dis386 (Some "jlH") [Jb; XX; cond_jump_flag];
    mk_dis386 (Some "jgeH") [Jb; XX; cond_jump_flag];
    mk_dis386 (Some "jleH") [Jb; XX; cond_jump_flag];
    mk_dis386 (Some "jgH") [Jb; XX; cond_jump_flag];
    GRP1b;
    GRP1S;
    mk_dis386 (Some "(bad)") [XX];
    GRP1Ss;
    mk_dis386 (Some "testB") [Eb; Gb];
    mk_dis386 (Some "testS") [Ev; Gv];
    mk_dis386 (Some "xchgB") [Eb; Gb];
    mk_dis386 (Some "xchgS") [Ev; Gv];
    mk_dis386 (Some "movB") [Eb; Gb];
    mk_dis386 (Some "movS") [Ev; Gv];
    mk_dis386 (Some "movB") [Gb; Eb];
    mk_dis386 (Some "movS") [Gv; Ev];
    mk_dis386 (Some "movD") [Sv; Sw];
    mk_dis386 (Some "leaS") [Gv; M];
    mk_dis386 (Some "movD") [Sw; Sv];
    GRP1a;
    PREGRP38;
    mk_dis386 (Some "xchgS") [RMeCX; eAX];
    mk_dis386 (Some "xchgS") [RMeDX; eAX];
    mk_dis386 (Some "xchgS") [RMeBX; eAX];
    mk_dis386 (Some "xchgS") [RMeSP; eAX];
    mk_dis386 (Some "xchgS") [RMeBP; eAX];
    mk_dis386 (Some "xchgS") [RMeSI; eAX];
    mk_dis386 (Some "xchgS") [RMeDI; eAX];
    mk_dis386 (Some "cW{t||t|}R") [XX];
    mk_dis386 (Some "cR{t||t|}O") [XX];
    mk_dis386 (Some "Jcall{T|}") [Ap];
    mk_dis386 (Some "(bad)") [XX];
    mk_dis386 (Some "pushfT") [XX];
    mk_dis386 (Some "popfT") [XX];
    mk_dis386 (Some "sahf{|}") [XX];
    mk_dis386 (Some "lahf{|}") [XX];
    mk_dis386 (Some "movB") [AL; Ob];
    mk_dis386 (Some "movS") [eAX; Ov];
    mk_dis386 (Some "movB") [Ob; AL];
    mk_dis386 (Some "movS") [Ov; eAX];
    mk_dis386 (Some "movs{b||b|}") [Ybr; Xb];
    mk_dis386 (Some "movs{R||R|}") [Yvr; Xv];
    mk_dis386 (Some "cmps{b||b|}") [Xb; Yb];
    mk_dis386 (Some "cmps{R||R|}") [Xv; Yv];
    mk_dis386 (Some "testB") [AL; Ib];
    mk_dis386 (Some "testS") [eAX; Iv];
    mk_dis386 (Some "stosB") [Ybr; AL];
    mk_dis386 (Some "stosS") [Yvr; eAX];
    mk_dis386 (Some "lodsB") [ALr; Xb];
    mk_dis386 (Some "lodsS") [eAXr; Xv];
    mk_dis386 (Some "scasB") [AL; Yb];
    mk_dis386 (Some "scasS") [eAX; Yv];
    mk_dis386 (Some "movB") [RMAL; Ib];
    mk_dis386 (Some "movB") [RMCL; Ib];
    mk_dis386 (Some "movB") [RMDL; Ib];
    mk_dis386 (Some "movB") [RMBL; Ib];
    mk_dis386 (Some "movB") [RMAH; Ib];
    mk_dis386 (Some "movB") [RMCH; Ib];
    mk_dis386 (Some "movB") [RMDH; Ib];
    mk_dis386 (Some "movB") [RMBH; Ib];
    mk_dis386 (Some "movS") [RMeAX; Iv64];
    mk_dis386 (Some "movS") [RMeCX; Iv64];
    mk_dis386 (Some "movS") [RMeDX; Iv64];
    mk_dis386 (Some "movS") [RMeBX; Iv64];
    mk_dis386 (Some "movS") [RMeSP; Iv64];
    mk_dis386 (Some "movS") [RMeBP; Iv64];
    mk_dis386 (Some "movS") [RMeSI; Iv64];
    mk_dis386 (Some "movS") [RMeDI; Iv64];
    GRP2b;
    GRP2S;
    mk_dis386 (Some "retT") [Iw];
    mk_dis386 (Some "retT") [XX];
    mk_dis386 (Some "les{S|}") [Gv; Mp];
    mk_dis386 (Some "ldsS") [Gv; Mp];
    GRP11_C6;
    GRP11_C7;
    mk_dis386 (Some "enterT") [Iw; Ib];
    mk_dis386 (Some "leaveT") [XX];
    mk_dis386 (Some "lretP") [Iw];
    mk_dis386 (Some "lretP") [XX];
    mk_dis386 (Some "int3") [XX];
    mk_dis386 (Some "int") [Ib];
    mk_dis386 (Some "into{|}") [XX];
    mk_dis386 (Some "iretP") [XX];
    GRP2b_one;
    GRP2S_one;
    GRP2b_cl;
    GRP2S_cl;
    mk_dis386 (Some "aam{|}") [sIb];
    mk_dis386 (Some "aad{|}") [sIb];
    mk_dis386 (Some "(bad)") [XX];
    mk_dis386 (Some "xlat") [DSBX];
    FLOAT;
    FLOAT;
    FLOAT;
    FLOAT;
    FLOAT;
    FLOAT;
    FLOAT;
    FLOAT;
    mk_dis386 (Some "loopneFH") [Jb; XX; loop_jcxz_flag];
    mk_dis386 (Some "loopeFH") [Jb; XX; loop_jcxz_flag];
    mk_dis386 (Some "loopFH") [Jb; XX; loop_jcxz_flag];
    mk_dis386 (Some "jEcxzH") [Jb; XX; loop_jcxz_flag];
    mk_dis386 (Some "inB") [AL; Ib];
    mk_dis386 (Some "inG") [zAX; Ib];
    mk_dis386 (Some "outB") [Ib; AL];
    mk_dis386 (Some "outG") [Ib; zAX];
    mk_dis386 (Some "callT") [Jv];
    mk_dis386 (Some "jmpT") [Jv];
    mk_dis386 (Some "Jjmp{T|}") [Ap];
    mk_dis386 (Some "jmp") [Jb];
    mk_dis386 (Some "inB") [AL; indirDX];
    mk_dis386 (Some "inG") [zAX; indirDX];
    mk_dis386 (Some "outB") [indirDX; AL];
    mk_dis386 (Some "outG") [indirDX; zAX];
    mk_dis386 (Some "(bad)") [XX];
    mk_dis386 (Some "icebp") [XX];
    mk_dis386 (Some "(bad)") [XX];
    mk_dis386 (Some "(bad)") [XX];
    mk_dis386 (Some "hlt") [XX];
    mk_dis386 (Some "cmc") [XX];
    GRP3b;
    GRP3S ].

Definition dis386_2 : list dis386_t :=
  [ mk_dis386 (Some "clc") [XX];
    mk_dis386 (Some "stc") [XX];
    mk_dis386 (Some "cli") [XX];
    mk_dis386 (Some "sti") [XX];
    mk_dis386 (Some "cld") [XX];
    mk_dis386 (Some "std") [XX];
    GRP4;
    GRP5 ].

Definition dis386 : list dis386_t := dis386_0 ++ dis386_1 ++ dis386_2.

(** ** Two-byte opcodes (0f xx) *)

Definition dis386_twobyte_0 : list dis386_t :=
  [ GRP6;
    GRP7;
    mk_dis386 (Some "larS") [Gv; Ew];
    mk_dis386 (Some "lslS") [Gv; Ew];
    mk_dis386 (Some "(bad)") [XX];
    mk_dis386 (Some "syscall") [XX];
    mk_dis386 (Some "clts") [XX];
    mk_dis386 (Some "sysretP") [XX];
    mk_dis386 (Some "invd") [XX];
    mk_dis386 (Some "wbinvd") [XX];
    mk_dis386 (Some "(bad)") [XX];
    mk_dis386 (Some "ud2a") [XX];
    mk_dis386 (Some "(bad)") [XX];
    GRPAMD;
    mk_dis386 (Some "femms") [XX];
    mk_dis386 (Some EmptyString) [MX; EM; OPSUF];
    PREGRP8;
    PREGRP9;
    PREGRP30;
    mk_dis386 (Some "movlpX") [EXq; XM; (Some SIMD_Fixup_rtn, 104)];
    mk_dis386 (Some "unpcklpX") [XM; EXq];
    mk_dis386 (Some "unpckhpX") [XM; EXq];
    PREGRP31;
    mk_dis386 (Some "movhpX") [EXq; XM; (Some SIMD_Fixup_rtn, 108)];
    GRP16;
    mk_dis386 (Some "(bad)") [XX];
    mk_dis386 (Some "(bad)") [XX];
    mk_dis386 (Some "(bad)") [XX];
    mk_dis386 (Some "(bad)") [XX];
    mk_dis386 (Some "(bad)") [XX];
    mk_dis386 (Some "(bad)") [XX];
    mk_dis386 (Some "nopQ") [Ev];
    mk_dis386 (Some "movZ") [Rm; Cm];
    mk_dis386 (Some "movZ") [Rm; Dm];
    mk_dis386 (Some "movZ") [Cm; Rm];
    mk_dis386 (Some "movZ") [Dm; Rm];
    mk_dis386 (Some "movL") [Rd; Td];
    mk_dis386 (Some "(bad)") [XX];
    mk_dis386 (Some "movL") [Td; Rd];
    mk_dis386 (Some "(bad)") [XX];
    mk_dis386 (Some "movapX") [XM; EXx];
    mk_dis386 (Some "movapX") [EXx; XM];
    PREGRP2;
    PREGRP33;
    PREGRP4;
    PREGRP3;
    PREGRP93;
    PREGRP94;
    mk_dis386 (Some "wrmsr") [XX];
    mk_dis386 (Some "rdtsc") [XX];
    mk_dis386 (Some "rdmsr") [XX];
    mk_dis386 (Some "rdpmc") [XX];
    mk_dis386 (Some "sysenter") [XX];
    mk_dis386 (Some "sysexit") [XX];
    mk_dis386 (Some "(bad)") [XX];
    mk_dis386 (Some "(bad)") [XX];
    THREE_BYTE_0;
    mk_dis386 (Some "(bad)") [XX];
    THREE_BYTE_1;
    mk_dis386 (Some "(bad)") [XX];
    mk_dis386 (Some "(bad)") [XX];
    mk_dis386 (Some "(bad)") [XX];
    mk_dis386 (Some "(bad)") [XX];
    mk_dis386 (Some "(bad)") [XX];
    mk_dis386 (Some "cmovo") [Gv; Ev];
    mk_dis386 (Some "cmovno") [Gv; Ev];
    mk_dis386 (Some "cmovb") [Gv; Ev];
    mk_dis386 (Some "cmovae") [Gv; Ev];
    mk_dis386 (Some "cmove") [Gv; Ev];
    mk_dis386 (Some "cmovne") [Gv; Ev];
    mk_dis386 (Some "cmovbe") [Gv; Ev];
    mk_dis386 (Some "cmova") [Gv; Ev];
    mk_dis386 (Some "cmovs") [Gv; Ev];
    mk_dis386 (Some "cmovns") [Gv; Ev];
    mk_dis386 (Some "cmovp") [Gv; Ev];
    mk_dis386 (Some "cmovnp") [Gv; Ev];
    mk_dis386 (Some "cmovl") [Gv; Ev];
    mk_dis386 (Some "cmovge") [Gv; Ev];
    mk_dis386 (Some "cmovle") [Gv; Ev];
    mk_dis386 (Some "cmovg") [Gv; Ev];
    mk_dis386 (Some "movmskpX") [Gdq; XS];
    PREGRP13;
    PREGRP12;
    PREGRP11;
    mk_dis386 (Some "andpX") [XM; EXx];
    mk_dis386 (Some "andnpX") [XM; EXx];
    mk_dis386 (Some "orpX") [XM; EXx];
    mk_dis386 (Some "xorpX") [XM; EXx];
    PREGRP0;
    PREGRP10;
    PREGRP17;
    PREGRP16;
    PREGRP14;
    PREGRP7;
    PREGRP5;
    PREGRP6;
    PREGRP95;
    PREGRP96;
    PREGRP97;
    mk_dis386 (Some "packsswb") [MX; EM];
    mk_dis386 (Some "pcmpgtb") [MX; EM];
    mk_dis386 (Some "pcmpgtw") [MX; EM];
    mk_dis386 (Some "pcmpgtd") [MX; EM];
    mk_dis386 (Some "packuswb") [MX; EM];
    mk_dis386 (Some "punpckhbw") [MX; EM];
    mk_dis386 (Some "punpckhwd") [MX; EM];
    mk_dis386 (Some "punpckhdq") [MX; EM];
    mk_dis386 (Some "packssdw") [MX; EM];
    PREGRP26;
    PREGRP24;
    mk_dis386 (Some "movd") [MX; Edq];
    PREGRP19;
    PREGRP22;
    GRP12;
    GRP13;
    GRP14;
    mk_dis386 (Some "pcmpeqb") [MX; EM];
    mk_dis386 (Some "pcmpeqw") [MX; EM];
    mk_dis386 (Some "pcmpeqd") [MX; EM];
    mk_dis386 (Some "emms") [XX];
    PREGRP34;
    PREGRP35;
    mk_dis386 (Some "(bad)") [XX] ].

Definition dis386_twobyte_1 : list dis386_t :=
  [ mk_dis386 (Some "(bad)") [XX];
    PREGRP28;
    PREGRP29;
    PREGRP23;
    PREGRP20;
    mk_dis386 (Some "joH") [Jv; XX; cond_jump_flag];
    mk_dis386 (Some "jnoH") [Jv; XX; cond_jump_flag];
    mk_dis386 (Some "jbH") [Jv; XX; cond_jump_flag];
    mk_dis386 (Some "jaeH") [Jv; XX; cond_jump_flag];
    mk_dis386 (Some "jeH") [Jv; XX; cond_jump_flag];
    mk_dis386 (Some "jneH") [Jv; XX; cond_jump_flag];
    mk_dis386 (Some "jbeH") [Jv; XX; cond_jump_flag];
    mk_dis386 (Some "jaH") [Jv; XX; cond_jump_flag];
    mk_dis386 (Some "jsH") [Jv; XX; cond_jump_flag];
    mk_dis386 (Some "jnsH") [Jv; XX; cond_jump_flag];
    mk_dis386 (Some "jpH") [Jv; XX; cond_jump_flag];
    mk_dis386 (Some "jnpH") [Jv; XX; cond_jump_flag];
    mk_dis386 (Some "jlH") [Jv; XX; cond_jump_flag];
    mk_dis386 (Some "jgeH") [Jv; XX; cond_jump_flag];
    mk_dis386 (Some "jleH") [Jv; XX; cond_jump_flag];
    mk_dis386 (Some "jgH") [Jv; XX; cond_jump_flag];
    mk_dis386 (Some "seto") [Eb];
    mk_dis386 (Some "setno") [Eb];
    mk_dis386 (Some "setb") [Eb];
    mk_dis386 (Some "setae") [Eb];
    mk_dis386 (Some "sete") [Eb];
    mk_dis386 (Some "setne") [Eb];
    mk_dis386 (Some "setbe") [Eb];
    mk_dis386 (Some "seta") [Eb];
    mk_dis386 (Some "sets") [Eb];
    mk_dis386 (Some "setns") [Eb];
    mk_dis386 (Some "setp") [Eb];
    mk_dis386 (Some "setnp") [Eb];
    mk_dis386 (Some "setl") [Eb];
    mk_dis386 (Some "setge") [Eb];
    mk_dis386 (Some "setle") [Eb];
    mk_dis386 (Some "setg") [Eb];
    mk_dis386 (Some "pushT") [fs];
    mk_dis386 (Some "popT") [fs];
    mk_dis386 (Some "cpuid") [XX];
    mk_dis386 (Some "btS") [Ev; Gv];
    mk_dis386 (Some "shldS") [Ev; Gv; Ib];
    mk_dis386 (Some "shldS") [Ev; Gv; CL];
    GRPPADLCK2;
    GRPPADLCK1;
    mk_dis386 (Some "pushT") [gs];
    mk_dis386 (Some "popT") [gs];
    mk_dis386 (Some "rsm") [XX];
    mk_dis386 (Some "btsS") [Ev; Gv];
    mk_dis386 (Some "shrdS") [Ev; Gv; Ib];
    mk_dis386 (Some "shrdS") [Ev; Gv; CL];
    GRP15;
    mk_dis386 (Some "imulS") [Gv; Ev];
    mk_dis386 (Some "cmpxchgB") [Eb; Gb];
    mk_dis386 (Some "cmpxchgS") [Ev; Gv];
    mk_dis386 (Some "lssS") [Gv; Mp];
    mk_dis386 (Some "btrS") [Ev; Gv];
    mk_dis386 (Some "lfsS") [Gv; Mp];
    mk_dis386 (Some "lgsS") [Gv; Mp];
    mk_dis386 (Some "movz{bR|x|bR|x}") [Gv; Eb];
    mk_dis386 (Some "movz{wR|x|wR|x}") [Gv; Ew];
    PREGRP37;
    mk_dis386 (Some "ud2b") [XX];
    GRP8;
    mk_dis386 (Some "btcS") [Ev; Gv];
    mk_dis386 (Some "bsfS") [Gv; Ev];
    PREGRP36;
    mk_dis386 (Some "movs{bR|x|bR|x}") [Gv; Eb];
    mk_dis386 (Some "movs{wR|x|wR|x}") [Gv; Ew];
    mk_dis386 (Some "xaddB") [Eb; Gb];
    mk_dis386 (Some "xaddS") [Ev; Gv];
    PREGRP1;
    mk_dis386 (Some "movntiS") [Ev; Gv];
    mk_dis386 (Some "pinsrw") [MX; Edqw; Ib];
    mk_dis386 (Some "pextrw") [Gdq; MS; Ib];
    mk_dis386 (Some "shufpX") [XM; EXx; Ib];
    GRP9;
    mk_dis386 (Some "bswap") [RMeAX];
    mk_dis386 (Some "bswap") [RMeCX];
    mk_dis386 (Some "bswap") [RMeDX];
    mk_dis386 (Some "bswap") [RMeBX];
    mk_dis386 (Some "bswap") [RMeSP];
    mk_dis386 (Some "bswap") [RMeBP];
    mk_dis386 (Some "bswap") [RMeSI];
    mk_dis386 (Some "bswap") [RMeDI];
    PREGRP27;
    mk_dis386 (Some "psrlw") [MX; EM];
    mk_dis386 (Some "psrld") [MX; EM];
    mk_dis386 (Some "psrlq") [MX; EM];
    mk_dis386 (Some "paddq") [MX; EM];
    mk_dis386 (Some "pmullw") [MX; EM];
    PREGRP21;
    mk_dis386 (Some "pmovmskb") [Gdq; MS];
    mk_dis386 (Some "psubusb") [MX; EM];
    mk_dis386 (Some "psubusw") [MX; EM];
    mk_dis386 (Some "pminub") [MX; EM];
    mk_dis386 (Some "pand") [MX; EM];
    mk_dis386 (Some "paddusb") [MX; EM];
    mk_dis386 (Some "paddusw") [MX; EM];
    mk_dis386 (Some "pmaxub") [MX; EM];
    mk_dis386 (Some "pandn") [MX; EM];
    mk_dis386 (Some "pavgb") [MX; EM];
    mk_dis386 (Some "psraw") [MX; EM];
    mk_dis386 (Some "psrad") [MX; EM];
    mk_dis386 (Some "pavgw") [MX; EM];
    mk_dis386 (Some "pmulhuw") [MX; EM];
    mk_dis386 (Some "pmulhw") [MX; EM];
    PREGRP15;
    PREGRP25;
    mk_dis386 (Some "psubsb") [MX; EM];
    mk_dis386 (Some "psubsw") [MX; EM];
    mk_dis386 (Some "pminsw") [MX; EM];
    mk_dis386 (Some "por") [MX; EM];
    mk_dis386 (Some "paddsb") [MX; EM];
    mk_dis386 (Some "paddsw") [MX; EM];
    mk_dis386 (Some "pmaxsw") [MX; EM];
    mk_dis386 (Some "pxor") [MX; EM];
    PREGRP32;
    mk_dis386 (Some "psllw") [MX; EM];
    mk_dis386 (Some "pslld") [MX; EM];
    mk_dis386 (Some "psllq") [MX; EM];
    mk_dis386 (Some "pmuludq") [MX; EM];
    mk_dis386 (Some "pmaddwd") [MX; EM];
    mk_dis386 (Some "psadbw") [MX; EM];
    PREGRP18 ].

Definition dis386_twobyte_2 : list dis386_t :=
  [ mk_dis386 (Some "psubb") [MX; EM];
    mk_dis386 (Some "psubw") [MX; EM];
    mk_dis386 (Some "psubd") [MX; EM];
    mk_dis386 (Some "psubq") [MX; EM];
    mk_dis386 (Some "paddb") [MX; EM];
    mk_dis386 (Some "paddw") [MX; EM];
    mk_dis386 (Some "paddd") [MX; EM];
    mk_dis386 (Some "(bad)") [XX] ].

Definition dis386_twobyte : list dis386_t := dis386_twobyte_0 ++ dis386_twobyte_1 ++ dis386_twobyte_2.

(** ** Use of the mod/rm byte and of the prefixes *)

Definition onebyte_has_modrm : list Z :=
  [ 1; 1; 1; 1; 0; 0; 0; 0; 1; 1; 1; 1; 0; 0; 0; 0;
    1; 1; 1; 1; 0; 0; 0; 0; 1; 1; 1; 1; 0; 0; 0; 0;
    1; 1; 1; 1; 0; 0; 0; 0; 1; 1; 1; 1; 0; 0; 0; 0;
    1; 1; 1; 1; 0; 0; 0; 0; 1; 1; 1; 1; 0; 0; 0; 0;
    0; 0; 0; 0; 0; 0; 0; 0; 0; 0; 0; 0; 0; 0; 0; 0;
    0; 0; 0; 0; 0; 0; 0; 0; 0; 0; 0; 0; 0; 0; 0; 0;
    0; 0; 1; 1; 0; 0; 0; 0; 0; 1; 0; 1; 0; 0; 0; 0;
    0; 0; 0; 0; 0; 0; 0; 0; 0; 0; 0; 0; 0; 0; 0; 0;
    1; 1; 1; 1; 1; 1; 1; 1; 1; 1; 1; 1; 1; 1; 1; 1;
    0; 0; 0; 0; 0; 0; 0; 0; 0; 0; 0; 0; 0; 0; 0; 0;
    0; 0; 0; 0; 0; 0; 0; 0; 0; 0; 0; 0; 0; 0; 0; 0;
    0; 0; 0; 0; 0; 0; 0; 0; 0; 0; 0; 0; 0; 0; 0; 0;
    1; 1; 0; 0; 1; 1; 1; 1; 0; 0; 0; 0; 0; 0; 0; 0;
    1; 1; 1; 1; 0; 0; 0; 0; 1; 1; 1; 1; 1; 1; 1; 1;
    0; 0; 0; 0; 0; 0; 0; 0; 0; 0; 0; 0; 0; 0; 0; 0;
    0; 0; 0; 0; 0; 0; 1; 1; 0; 0; 0; 0; 0; 0; 1; 1 ].

Definition twobyte_has_modrm : list Z :=
  [ 1; 1; 1; 1; 0; 0; 0; 0; 0; 0; 0; 0; 0; 1; 0; 1;
    1; 1; 1; 1; 1; 1; 1; 1; 1; 0; 0; 0; 0; 0; 0; 1;
    1; 1; 1; 1; 1; 0; 1; 0; 1; 1; 1; 1; 1; 1; 1; 1;
    0; 0; 0; 0; 0; 0; 0; 0; 1; 0; 1; 0; 0; 0; 0; 0;
    1; 1; 1; 1; 1; 1; 1; 1; 1; 1; 1; 1; 1; 1; 1; 1;
    1; 1; 1; 1; 1; 1; 1; 1; 1; 1; 1; 1; 1; 1; 1; 1;
    1; 1; 1; 1; 1; 1; 1; 1; 1; 1; 1; 1; 1; 1; 1; 1;
    1; 1; 1; 1; 1; 1; 1; 0; 1; 1; 0; 0; 1; 1; 1; 1;
    0; 0; 0; 0; 0; 0; 0; 0; 0; 0; 0; 0; 0; 0; 0; 0;
    1; 1; 1; 1; 1; 1; 1; 1; 1; 1; 1; 1; 1; 1; 1; 1;
    0; 0; 0; 1; 1; 1; 1; 1; 0; 0; 0; 1; 1; 1; 1; 1;
    1; 1; 1; 1; 1; 1; 1; 1; 1; 0; 1; 1; 1; 1; 1; 1;
    1; 1; 1; 1; 1; 1; 1; 1; 0; 0; 0; 0; 0; 0; 0; 0;
    1; 1; 1; 1; 1; 1; 1; 1; 1; 1; 1; 1; 1; 1; 1; 1;
    1; 1; 1; 1; 1; 1; 1; 1; 1; 1; 1; 1; 1; 1; 1; 1;
    1; 1; 1; 1; 1; 1; 1; 1; 1; 1; 1; 1; 1; 1; 1; 0 ].

Definition twobyte_uses_DATA_prefix : list Z :=
  [ 0; 0; 0; 0; 0; 0; 0; 0; 0; 0; 0; 0; 0; 0; 0; 0;
    1; 1; 1; 0; 0; 0; 1; 0; 0; 0; 0; 0; 0; 0; 0; 0;
    0; 0; 0; 0; 0; 0; 0; 0; 0; 0; 1; 1; 1; 1; 0; 0;
    0; 0; 0; 0; 0; 0; 0; 0; 1; 0; 1; 0; 0; 0; 0; 0;
    0; 0; 0; 0; 0; 0; 0; 0; 0; 0; 0; 0; 0; 0; 0; 0;
    0; 1; 1; 1; 0; 0; 0; 0; 1; 1; 1; 1; 1; 1; 1; 1;
    0; 0; 0; 0; 0; 0; 0; 0; 0; 0; 0; 0; 0; 1; 0; 1;
    1; 0; 0; 0; 0; 0; 0; 0; 1; 1; 0; 0; 1; 1; 1; 1;
    0; 0; 0; 0; 0; 0; 0; 0; 0; 0; 0; 0; 0; 0; 0; 0;
    0; 0; 0; 0; 0; 0; 0; 0; 0; 0; 0; 0; 0; 0; 0; 0;
    0; 0; 0; 0; 0; 0; 0; 0; 0; 0; 0; 0; 0; 0; 0; 0;
    0; 0; 0; 0; 0; 0; 0; 0; 0; 0; 0; 0; 0; 0; 0; 0;
    0; 0; 1; 0; 0; 0; 0; 0; 0; 0; 0; 0; 0; 0; 0; 0;
    1; 0; 0; 0; 0; 0; 1; 0; 0; 0; 0; 0; 0; 0; 0; 0;
    0; 0; 0; 0; 0; 0; 1; 0; 0; 0; 0; 0; 0; 0; 0; 0;
    1; 0; 0; 0; 0; 0; 0; 1; 0; 0; 0; 0; 0; 0; 0; 0 ].

Definition twobyte_uses_REPNZ_prefix : list Z :=
  [ 0; 0; 0; 0; 0; 0; 0; 0; 0; 0; 0; 0; 0; 0; 0; 0;
    1; 1; 1; 0; 0; 0; 0; 0; 0; 0; 0; 0; 0; 0; 0; 0;
    0; 0; 0; 0; 0; 0; 0; 0; 0; 0; 1; 1; 1; 1; 0; 0;
    0; 0; 0; 0; 0; 0; 0; 0; 0; 0; 0; 0; 0; 0; 0; 0;
    0; 0; 0; 0; 0; 0; 0; 0; 0; 0; 0; 0; 0; 0; 0; 0;
    0; 1; 0; 0; 0; 0; 0; 0; 1; 1; 1; 0; 1; 1; 1; 1;
    0; 0; 0; 0; 0; 0; 0; 0; 0; 0; 0; 0; 0; 0; 0; 0;
    1; 0; 0; 0; 0; 0; 0; 0; 1; 1; 0; 0; 1; 1; 0; 0;
    0; 0; 0; 0; 0; 0; 0; 0; 0; 0; 0; 0; 0; 0; 0; 0;
    0; 0; 0; 0; 0; 0; 0; 0; 0; 0; 0; 0; 0; 0; 0; 0;
    0; 0; 0; 0; 0; 0; 0; 0; 0; 0; 0; 0; 0; 0; 0; 0;
    0; 0; 0; 0; 0; 0; 0; 0; 0; 0; 0; 0; 0; 0; 0; 0;
    0; 0; 1; 0; 0; 0; 0; 0; 0; 0; 0; 0; 0; 0; 0; 0;
    1; 0; 0; 0; 0; 0; 1; 0; 0; 0; 0; 0; 0; 0; 0; 0;
    0; 0; 0; 0; 0; 0; 1; 0; 0; 0; 0; 0; 0; 0; 0; 0;
    1; 0; 0; 0; 0; 0; 0; 0; 0; 0; 0; 0; 0; 0; 0; 0 ].

Definition twobyte_uses_REPZ_prefix : list Z :=
  [ 0; 0; 0; 0; 0; 0; 0; 0; 0; 0; 0; 0; 0; 0; 0; 0;
    1; 1; 1; 0; 0; 0; 1; 0; 0; 0; 0; 0; 0; 0; 0; 0;
    0; 0; 0; 0; 0; 0; 0; 0; 0; 0; 1; 1; 1; 1; 0; 0;
    0; 0; 0; 0; 0; 0; 0; 0; 0; 0; 0; 0; 0; 0; 0; 0;
    0; 0; 0; 0; 0; 0; 0; 0; 0; 0; 0; 0; 0; 0; 0; 0;
    0; 1; 1; 1; 0; 0; 0; 0; 1; 1; 1; 1; 1; 1; 1; 1;
    0; 0; 0; 0; 0; 0; 0; 0; 0; 0; 0; 0; 0; 0; 0; 1;
    1; 0; 0; 0; 0; 0; 0; 0; 0; 0; 0; 0; 0; 0; 1; 1;
    0; 0; 0; 0; 0; 0; 0; 0; 0; 0; 0; 0; 0; 0; 0; 0;
    0; 0; 0; 0; 0; 0; 0; 0; 0; 0; 0; 0; 0; 0; 0; 0;
    0; 0; 0; 0; 0; 0; 0; 0; 0; 0; 0; 0; 0; 0; 0; 0;
    0; 0; 0; 0; 0; 0; 0; 0; 1; 0; 0; 0; 0; 1; 0; 0;
    0; 0; 1; 0; 0; 0; 0; 0; 0; 0; 0; 0; 0; 0; 0; 0;
    0; 0; 0; 0; 0; 0; 1; 0; 0; 0; 0; 0; 0; 0; 0; 0;
    0; 0; 0; 0; 0; 0; 1; 0; 0; 0; 0; 0; 0; 0; 0; 0;
    0; 0; 0; 0; 0; 0; 0; 0; 0; 0; 0; 0; 0; 0; 0; 0 ].

Definition threebyte_0x38_uses_DATA_prefix : list Z :=
  [ 1; 1; 1; 1; 1; 1; 1; 1; 1; 1; 1; 1; 0; 0; 0; 0;
    1; 0; 0; 0; 1; 1; 0; 1; 0; 0; 0; 0; 1; 1; 1; 0;
    1; 1; 1; 1; 1; 1; 0; 0; 1; 1; 1; 1; 0; 0; 0; 0;
    1; 1; 1; 1; 1; 1; 0; 1; 1; 1; 1; 1; 1; 1; 1; 1;
    1; 1; 0; 0; 0; 0; 0; 0; 0; 0; 0; 0; 0; 0; 0; 0;
    0; 0; 0; 0; 0; 0; 0; 0; 0; 0; 0; 0; 0; 0; 0; 0;
    0; 0; 0; 0; 0; 0; 0; 0; 0; 0; 0; 0; 0; 0; 0; 0;
    0; 0; 0; 0; 0; 0; 0; 0; 0; 0; 0; 0; 0; 0; 0; 0;
    0; 0; 0; 0; 0; 0; 0; 0; 0; 0; 0; 0; 0; 0; 0; 0;
    0; 0; 0; 0; 0; 0; 0; 0; 0; 0; 0; 0; 0; 0; 0; 0;
    0; 0; 0; 0; 0; 0; 0; 0; 0; 0; 0; 0; 0; 0; 0; 0;
    0; 0; 0; 0; 0; 0; 0; 0; 0; 0; 0; 0; 0; 0; 0; 0;
    0; 0; 0; 0; 0; 0; 0; 0; 0; 0; 0; 0; 0; 0; 0; 0;
    0; 0; 0; 0; 0; 0; 0; 0; 0; 0; 0; 1; 1; 1; 1; 1;
    0; 0; 0; 0; 0; 0; 0; 0; 0; 0; 0; 0; 0; 0; 0; 0;
    0; 0; 0; 0; 0; 0; 0; 1; 0; 0; 0; 0; 0; 0; 0; 0 ].

Definition threebyte_0x38_uses_REPNZ_prefix : list Z :=
  [ 0; 0; 0; 0; 0; 0; 0; 0; 0; 0; 0; 0; 0; 0; 0; 0;
    0; 0; 0; 0; 0; 0; 0; 0; 0; 0; 0; 0; 0; 0; 0; 0;
    0; 0; 0; 0; 0; 0; 0; 0; 0; 0; 0; 0; 0; 0; 0; 0;
    0; 0; 0; 0; 0; 0; 0; 0; 0; 0; 0; 0; 0; 0; 0; 0;
    0; 0; 0; 0; 0; 0; 0; 0; 0; 0; 0; 0; 0; 0; 0; 0;
    0; 0; 0; 0; 0; 0; 0; 0; 0; 0; 0; 0; 0; 0; 0; 0;
    0; 0; 0; 0; 0; 0; 0; 0; 0; 0; 0; 0; 0; 0; 0; 0;
    0; 0; 0; 0; 0; 0; 0; 0; 0; 0; 0; 0; 0; 0; 0; 0;
    0; 0; 0; 0; 0; 0; 0; 0; 0; 0; 0; 0; 0; 0; 0; 0;
    0; 0; 0; 0; 0; 0; 0; 0; 0; 0; 0; 0; 0; 0; 0; 0;
    0; 0; 0; 0; 0; 0; 0; 0; 0; 0; 0; 0; 0; 0; 0; 0;
    0; 0; 0; 0; 0; 0; 0; 0; 0; 0; 0; 0; 0; 0; 0; 0;
    0; 0; 0; 0; 0; 0; 0; 0; 0; 0; 0; 0; 0; 0; 0; 0;
    0; 0; 0; 0; 0; 0; 0; 0; 0; 0; 0; 0; 0; 0; 0; 0;
    0; 0; 0; 0; 0; 0; 0; 0; 0; 0; 0; 0; 0; 0; 0; 0;
    1; 1; 0; 0; 0; 0; 0; 1; 0; 0; 0; 0; 0; 0; 0; 0 ].

Definition threebyte_0x38_uses_REPZ_prefix : list Z :=
  [ 0; 0; 0; 0; 0; 0; 0; 0; 0; 0; 0; 0; 0; 0; 0; 0;
    0; 0; 0; 0; 0; 0; 0; 0; 0; 0; 0; 0; 0; 0; 0; 0;
    0; 0; 0; 0; 0; 0; 0; 0; 0; 0; 0; 0; 0; 0; 0; 0;
    0; 0; 0; 0; 0; 0; 0; 0; 0; 0; 0; 0; 0; 0; 0; 0;
    0; 0; 0; 0; 0; 0; 0; 0; 0; 0; 0; 0; 0; 0; 0; 0;
    0; 0; 0; 0; 0; 0; 0; 0; 0; 0; 0; 0; 0; 0; 0; 0;
    0; 0; 0; 0; 0; 0; 0; 0; 0; 0; 0; 0; 0; 0; 0; 0;
    0; 0; 0; 0; 0; 0; 0; 0; 0; 0; 0; 0; 0; 0; 0; 0;
    0; 0; 0; 0; 0; 0; 0; 0; 0; 0; 0; 0; 0; 0; 0; 0;
    0; 0; 0; 0; 0; 0; 0; 0; 0; 0; 0; 0; 0; 0; 0; 0;
    0; 0; 0; 0; 0; 0; 0; 0; 0; 0; 0; 0; 0; 0; 0; 0;
    0; 0; 0; 0; 0; 0; 0; 0; 0; 0; 0; 0; 0; 0; 0; 0;
    0; 0; 0; 0; 0; 0; 0; 0; 0; 0; 0; 0; 0; 0; 0; 0;
    0; 0; 0; 0; 0; 0; 0; 0; 0; 0; 0; 0; 0; 0; 0; 0;
    0; 0; 0; 0; 0; 0; 0; 0; 0; 0; 0; 0; 0; 0; 0; 0;
    0; 0; 0; 0; 0; 0; 0; 1; 0; 0; 0; 0; 0; 0; 0; 0 ].

Definition threebyte_0x3a_uses_DATA_prefix : list Z :=
  [ 0; 0; 0; 0; 0; 0; 0; 0; 1; 1; 1; 1; 1; 1; 1; 1;
    0; 0; 0; 0; 1; 1; 1; 1; 0; 0; 0; 0; 0; 0; 0; 0;
    1; 1; 1; 0; 0; 0; 0; 0; 0; 0; 0; 0; 0; 0; 0; 0;
    0; 0; 0; 0; 0; 0; 0; 0; 0; 0; 0; 0; 0; 0; 0; 0;
    1; 1; 1; 0; 1; 0; 0; 0; 0; 0; 0; 0; 0; 0; 0; 0;
    0; 0; 0; 0; 0; 0; 0; 0; 0; 0; 0; 0; 0; 0; 0; 0;
    1; 1; 1; 1; 0; 0; 0; 0; 0; 0; 0; 0; 0; 0; 0; 0;
    0; 0; 0; 0; 0; 0; 0; 0; 0; 0; 0; 0; 0; 0; 0; 0;
    0; 0; 0; 0; 0; 0; 0; 0; 0; 0; 0; 0; 0; 0; 0; 0;
    0; 0; 0; 0; 0; 0; 0; 0; 0; 0; 0; 0; 0; 0; 0; 0;
    0; 0; 0; 0; 0; 0; 0; 0; 0; 0; 0; 0; 0; 0; 0; 0;
    0; 0; 0; 0; 0; 0; 0; 0; 0; 0; 0; 0; 0; 0; 0; 0;
    0; 0; 0; 0; 0; 0; 0; 0; 0; 0; 0; 0; 0; 0; 0; 0;
    0; 0; 0; 0; 0; 0; 0; 0; 0; 0; 0; 0; 0; 0; 0; 1;
    0; 0; 0; 0; 0; 0; 0; 0; 0; 0; 0; 0; 0; 0; 0; 0;
    0; 0; 0; 0; 0; 0; 0; 0; 0; 0; 0; 0; 0; 0; 0; 0 ].

Definition threebyte_0x3a_uses_REPNZ_prefix : list Z :=
  [ 0; 0; 0; 0; 0; 0; 0; 0; 0; 0; 0; 0; 0; 0; 0; 0;
    0; 0; 0; 0; 0; 0; 0; 0; 0; 0; 0; 0; 0; 0; 0; 0;
    0; 0; 0; 0; 0; 0; 0; 0; 0; 0; 0; 0; 0; 0; 0; 0;
    0; 0; 0; 0; 0; 0; 0; 0; 0; 0; 0; 0; 0; 0; 0; 0;
    0; 0; 0; 0; 0; 0; 0; 0; 0; 0; 0; 0; 0; 0; 0; 0;
    0; 0; 0; 0; 0; 0; 0; 0; 0; 0; 0; 0; 0; 0; 0; 0;
    0; 0; 0; 0; 0; 0; 0; 0; 0; 0; 0; 0; 0; 0; 0; 0;
    0; 0; 0; 0; 0; 0; 0; 0; 0; 0; 0; 0; 0; 0; 0; 0;
    0; 0; 0; 0; 0; 0; 0; 0; 0; 0; 0; 0; 0; 0; 0; 0;
    0; 0; 0; 0; 0; 0; 0; 0; 0; 0; 0; 0; 0; 0; 0; 0;
    0; 0; 0; 0; 0; 0; 0; 0; 0; 0; 0; 0; 0; 0; 0; 0;
    0; 0; 0; 0; 0; 0; 0; 0; 0; 0; 0; 0; 0; 0; 0; 0;
    0; 0; 0; 0; 0; 0; 0; 0; 0; 0; 0; 0; 0; 0; 0; 0;
    0; 0; 0; 0; 0; 0; 0; 0; 0; 0; 0; 0; 0; 0; 0; 0;
    0; 0; 0; 0; 0; 0; 0; 0; 0; 0; 0; 0; 0; 0; 0; 0;
    0; 0; 0; 0; 0; 0; 0; 0; 0; 0; 0; 0; 0; 0; 0; 0 ].

Definition threebyte_0x3a_uses_REPZ_prefix : list Z :=
  [ 0; 0; 0; 0; 0; 0; 0; 0; 0; 0; 0; 0; 0; 0; 0; 0;
    0; 0; 0; 0; 0; 0; 0; 0; 0; 0; 0; 0; 0; 0; 0; 0;
    0; 0; 0; 0; 0; 0; 0; 0; 0; 0; 0; 0; 0; 0; 0; 0;
    0; 0; 0; 0; 0; 0; 0; 0; 0; 0; 0; 0; 0; 0; 0; 0;
    0; 0; 0; 0; 0; 0; 0; 0; 0; 0; 0; 0; 0; 0; 0; 0;
    0; 0; 0; 0; 0; 0; 0; 0; 0; 0; 0; 0; 0; 0; 0; 0;
    0; 0; 0; 0; 0; 0; 0; 0; 0; 0; 0; 0; 0; 0; 0; 0;
    0; 0; 0; 0; 0; 0; 0; 0; 0; 0; 0; 0; 0; 0; 0; 0;
    0; 0; 0; 0; 0; 0; 0; 0; 0; 0; 0; 0; 0; 0; 0; 0;
    0; 0; 0; 0; 0; 0; 0; 0; 0; 0; 0; 0; 0; 0; 0; 0;
    0; 0; 0; 0; 0; 0; 0; 0; 0; 0; 0; 0; 0; 0; 0; 0;
    0; 0; 0; 0; 0; 0; 0; 0; 0; 0; 0; 0; 0; 0; 0; 0;
    0; 0; 0; 0; 0; 0; 0; 0; 0; 0; 0; 0; 0; 0; 0; 0;
    0; 0; 0; 0; 0; 0; 0; 0; 0; 0; 0; 0; 0; 0; 0; 0;
    0; 0; 0; 0; 0; 0; 0; 0; 0; 0; 0; 0; 0; 0; 0; 0;
    0; 0; 0; 0; 0; 0; 0; 0; 0; 0; 0; 0; 0; 0; 0; 0 ].

(** ** Register names *)

Definition intel_names64 : list string :=
  [ "rax"; "rcx"; "rdx"; "rbx"; "rsp"; "rbp"; "rsi"; "rdi"; "r8"; "r9"; "r10"; "r11"; "r12"; "r13"; "r14"; "r15" ].

Definition intel_names32 : list string :=
  [ "eax"; "ecx"; "edx"; "ebx"; "esp"; "ebp"; "esi"; "edi"; "r8d"; "r9d"; "r10d"; "r11d"; "r12d"; "r13d"; "r14d"; "r15d" ].

Definition intel_names16 : list string :=
  [ "ax"; "cx"; "dx"; "bx"; "sp"; "bp"; "si"; "di"; "r8w"; "r9w"; "r10w"; "r11w"; "r12w"; "r13w"; "r14w"; "r15w" ].

Definition intel_names8 : list string :=
  [ "al"; "cl"; "dl"; "bl"; "ah"; "ch"; "dh"; "bh" ].

Definition intel_names8rex : list string :=
  [ "al"; "cl"; "dl"; "bl"; "spl"; "bpl"; "sil"; "dil"; "r8b"; "r9b"; "r10b"; "r11b"; "r12b"; "r13b"; "r14b"; "r15b" ].

Definition intel_names_seg : list string :=
  [ "es"; "cs"; "ss"; "ds"; "fs"; "gs"; "?"; "?" ].

Definition intel_index16 : list string :=
  [ "bx+si"; "bx+di"; "bp+si"; "bp+di"; "si"; "di"; "bp"; "bx" ].

Definition att_names64 : list string :=
  [ "%rax"; "%rcx"; "%rdx"; "%rbx"; "%rsp"; "%rbp"; "%rsi"; "%rdi"; "%r8"; "%r9"; "%r10"; "%r11"; "%r12"; "%r13"; "%r14"; "%r15" ].

Definition att_names32 : list string :=
  [ "%eax"; "%ecx"; "%edx"; "%ebx"; "%esp"; "%ebp"; "%esi"; "%edi"; "%r8d"; "%r9d"; "%r10d"; "%r11d"; "%r12d"; "%r13d"; "%r14d"; "%r15d" ].

Definition att_names16 : list string :=
  [ "%ax"; "%cx"; "%dx"; "%bx"; "%sp"; "%bp"; "%si"; "%di"; "%r8w"; "%r9w"; "%r10w"; "%r11w"; "%r12w"; "%r13w"; "%r14w"; "%r15w" ].

Definition att_names8 : list string :=
  [ "%al"; "%cl"; "%dl"; "%bl"; "%ah"; "%ch"; "%dh"; "%bh" ].

Definition att_names8rex : list string :=
  [ "%al"; "%cl"; "%dl"; "%bl"; "%spl"; "%bpl"; "%sil"; "%dil"; "%r8b"; "%r9b"; "%r10b"; "%r11b"; "%r12b"; "%r13b"; "%r14b"; "%r15b" ].

Definition att_names_seg : list string :=
  [ "%es"; "%cs"; "%ss"; "%ds"; "%fs"; "%gs"; "%?"; "%?" ].

Definition att_index16 : list string :=
  [ "%bx,%si"; "%bx,%di"; "%bp,%si"; "%bp,%di"; "%si"; "%di"; "%bp"; "%bx" ].

(** ** Opcode groups selected by modrm.reg *)

Definition grps_0 : list (list dis386_t) :=
  [ [ mk_dis386 (Some "popU") [stackEv];
      mk_dis386 (Some "(bad)") [XX];
      mk_dis386 (Some "(bad)") [XX];
      mk_dis386 (Some "(bad)") [XX];
      mk_dis386 (Some "(bad)") [XX];
      mk_dis386 (Some "(bad)") [XX];
      mk_dis386 (Some "(bad)") [XX];
      mk_dis386 (Some "(bad)") [XX] ];
    [ mk_dis386 (Some "addA") [Eb; Ib];
      mk_dis386 (Some "orA") [Eb; Ib];
      mk_dis386 (Some "adcA") [Eb; Ib];
      mk_dis386 (Some "sbbA") [Eb; Ib];
      mk_dis386 (Some "andA") [Eb; Ib];
      mk_dis386 (Some "subA") [Eb; Ib];
      mk_dis386 (Some "xorA") [Eb; Ib];
      mk_dis386 (Some "cmpA") [Eb; Ib] ];
    [ mk_dis386 (Some "addQ") [Ev; Iv];
      mk_dis386 (Some "orQ") [Ev; Iv];
      mk_dis386 (Some "adcQ") [Ev; Iv];
      mk_dis386 (Some "sbbQ") [Ev; Iv];
      mk_dis386 (Some "andQ") [Ev; Iv];
      mk_dis386 (Some "subQ") [Ev; Iv];
      mk_dis386 (Some "xorQ") [Ev; Iv];
      mk_dis386 (Some "cmpQ") [Ev; Iv] ];
    [ mk_dis386 (Some "addQ") [Ev; sIb];
      mk_dis386 (Some "orQ") [Ev; sIb];
      mk_dis386 (Some "adcQ") [Ev; sIb];
      mk_dis386 (Some "sbbQ") [Ev; sIb];
      mk_dis386 (Some "andQ") [Ev; sIb];
      mk_dis386 (Some "subQ") [Ev; sIb];
      mk_dis386 (Some "xorQ") [Ev; sIb];
      mk_dis386 (Some "cmpQ") [Ev; sIb] ];
    [ mk_dis386 (Some "rolA") [Eb; Ib];
      mk_dis386 (Some "rorA") [Eb; Ib];
      mk_dis386 (Some "rclA") [Eb; Ib];
      mk_dis386 (Some "rcrA") [Eb; Ib];
      mk_dis386 (Some "shlA") [Eb; Ib];
      mk_dis386 (Some "shrA") [Eb; Ib];
      mk_dis386 (Some "(bad)") [XX];
      mk_dis386 (Some "sarA") [Eb; Ib] ];
    [ mk_dis386 (Some "rolQ") [Ev; Ib];
      mk_dis386 (Some "rorQ") [Ev; Ib];
      mk_dis386 (Some "rclQ") [Ev; Ib];
      mk_dis386 (Some "rcrQ") [Ev; Ib];
      mk_dis386 (Some "shlQ") [Ev; Ib];
      mk_dis386 (Some "shrQ") [Ev; Ib];
      mk_dis386 (Some "(bad)") [XX];
      mk_dis386 (Some "sarQ") [Ev; Ib] ];
    [ mk_dis386 (Some "rolA") [Eb; I1];
      mk_dis386 (Some "rorA") [Eb; I1];
      mk_dis386 (Some "rclA") [Eb; I1];
      mk_dis386 (Some "rcrA") [Eb; I1];
      mk_dis386 (Some "shlA") [Eb; I1];
      mk_dis386 (Some "shrA") [Eb; I1];
      mk_dis386 (Some "(bad)") [XX];
      mk_dis386 (Some "sarA") [Eb; I1] ];
    [ mk_dis386 (Some "rolQ") [Ev; I1];
      mk_dis386 (Some "rorQ") [Ev; I1];
      mk_dis386 (Some "rclQ") [Ev; I1];
      mk_dis386 (Some "rcrQ") [Ev; I1];
      mk_dis386 (Some "shlQ") [Ev; I1];
      mk_dis386 (Some "shrQ") [Ev; I1];
      mk_dis386 (Some "(bad)") [XX];
      mk_dis386 (Some "sarQ") [Ev; I1] ];
    [ mk_dis386 (Some "rolA") [Eb; CL];
      mk_dis386 (Some "rorA") [Eb; CL];
      mk_dis386 (Some "rclA") [Eb; CL];
      mk_dis386 (Some "rcrA") [Eb; CL];
      mk_dis386 (Some "shlA") [Eb; CL];
      mk_dis386 (Some "shrA") [Eb; CL];
      mk_dis386 (Some "(bad)") [XX];
      mk_dis386 (Some "sarA") [Eb; CL] ];
    [ mk_dis386 (Some "rolQ") [Ev; CL];
      mk_dis386 (Some "rorQ") [Ev; CL];
      mk_dis386 (Some "rclQ") [Ev; CL];
      mk_dis386 (Some "rcrQ") [Ev; CL];
      mk_dis386 (Some "shlQ") [Ev; CL];
      mk_dis386 (Some "shrQ") [Ev; CL];
      mk_dis386 (Some "(bad)") [XX];
      mk_dis386 (Some "sarQ") [Ev; CL] ];
    [ mk_dis386 (Some "testA") [Eb; Ib];
      mk_dis386 (Some "(bad)") [Eb];
      mk_dis386 (Some "notA") [Eb];
      mk_dis386 (Some "negA") [Eb];
      mk_dis386 (Some "mulA") [Eb];
      mk_dis386 (Some "imulA") [Eb];
      mk_dis386 (Some "divA") [Eb];
      mk_dis386 (Some "idivA") [Eb] ];
    [ mk_dis386 (Some "testQ") [Ev; Iv];
      mk_dis386 (Some "(bad)") [XX];
      mk_dis386 (Some "notQ") [Ev];
      mk_dis386 (Some "negQ") [Ev];
      mk_dis386 (Some "mulQ") [Ev];
      mk_dis386 (Some "imulQ") [Ev];
      mk_dis386 (Some "divQ") [Ev];
      mk_dis386 (Some "idivQ") [Ev] ] ].

Definition grps_1 : list (list dis386_t) :=
  [ [ mk_dis386 (Some "incA") [Eb];
      mk_dis386 (Some "decA") [Eb];
      mk_dis386 (Some "(bad)") [XX];
      mk_dis386 (Some "(bad)") [XX];
      mk_dis386 (Some "(bad)") [XX];
      mk_dis386 (Some "(bad)") [XX];
      mk_dis386 (Some "(bad)") [XX];
      mk_dis386 (Some "(bad)") [XX] ];
    [ mk_dis386 (Some "incQ") [Ev];
      mk_dis386 (Some "decQ") [Ev];
      mk_dis386 (Some "callT") [indirEv];
      mk_dis386 (Some "JcallT") [indirEp];
      mk_dis386 (Some "jmpT") [indirEv];
      mk_dis386 (Some "JjmpT") [indirEp];
      mk_dis386 (Some "pushU") [stackEv];
      mk_dis386 (Some "(bad)") [XX] ];
    [ mk_dis386 (Some "sldtD") [Sv];
      mk_dis386 (Some "strD") [Sv];
      mk_dis386 (Some "lldt") [Ew];
      mk_dis386 (Some "ltr") [Ew];
      mk_dis386 (Some "verr") [Ew];
      mk_dis386 (Some "verw") [Ew];
      mk_dis386 (Some "(bad)") [XX];
      mk_dis386 (Some "(bad)") [XX] ];
    [ mk_dis386 (Some "sgdt{Q|IQ||}") [(Some VMX_Fixup_rtn, 0)];
      mk_dis386 (Some "sidt{Q|IQ||}") [(Some PNI_Fixup_rtn, 0)];
      mk_dis386 (Some "lgdt{Q|Q||}") [M];
      mk_dis386 (Some "lidt{Q|Q||}") [(Some SVME_Fixup_rtn, 0)];
      mk_dis386 (Some "smswD") [Sv];
      mk_dis386 (Some "(bad)") [XX];
      mk_dis386 (Some "lmsw") [Ew];
      mk_dis386 (Some "invlpg") [(Some INVLPG_Fixup_rtn, w_mode)] ];
    [ mk_dis386 (Some "(bad)") [XX];
      mk_dis386 (Some "(bad)") [XX];
      mk_dis386 (Some "(bad)") [XX];
      mk_dis386 (Some "(bad)") [XX];
      mk_dis386 (Some "btQ") [Ev; Ib];
      mk_dis386 (Some "btsQ") [Ev; Ib];
      mk_dis386 (Some "btrQ") [Ev; Ib];
      mk_dis386 (Some "btcQ") [Ev; Ib] ];
    [ mk_dis386 (Some "(bad)") [XX];
      mk_dis386 (Some "cmpxchg8b") [(Some CMPXCHG8B_Fixup_rtn, q_mode)];
      mk_dis386 (Some "(bad)") [XX];
      mk_dis386 (Some "(bad)") [XX];
      mk_dis386 (Some "(bad)") [XX];
      mk_dis386 (Some "(bad)") [XX];
      mk_dis386 (Some EmptyString) [VM];
      mk_dis386 (Some "vmptrst") [Mq] ];
    [ mk_dis386 (Some "movA") [Eb; Ib];
      mk_dis386 (Some "(bad)") [XX];
      mk_dis386 (Some "(bad)") [XX];
      mk_dis386 (Some "(bad)") [XX];
      mk_dis386 (Some "(bad)") [XX];
      mk_dis386 (Some "(bad)") [XX];
      mk_dis386 (Some "(bad)") [XX];
      mk_dis386 (Some "(bad)") [XX] ];
    [ mk_dis386 (Some "movQ") [Ev; Iv];
      mk_dis386 (Some "(bad)") [XX];
      mk_dis386 (Some "(bad)") [XX];
      mk_dis386 (Some "(bad)") [XX];
      mk_dis386 (Some "(bad)") [XX];
      mk_dis386 (Some "(bad)") [XX];
      mk_dis386 (Some "(bad)") [XX];
      mk_dis386 (Some "(bad)") [XX] ];
    [ mk_dis386 (Some "(bad)") [XX];
      mk_dis386 (Some "(bad)") [XX];
      mk_dis386 (Some "psrlw") [MS; Ib];
      mk_dis386 (Some "(bad)") [XX];
      mk_dis386 (Some "psraw") [MS; Ib];
      mk_dis386 (Some "(bad)") [XX];
      mk_dis386 (Some "psllw") [MS; Ib];
      mk_dis386 (Some "(bad)") [XX] ];
    [ mk_dis386 (Some "(bad)") [XX];
      mk_dis386 (Some "(bad)") [XX];
      mk_dis386 (Some "psrld") [MS; Ib];
      mk_dis386 (Some "(bad)") [XX];
      mk_dis386 (Some "psrad") [MS; Ib];
      mk_dis386 (Some "(bad)") [XX];
      mk_dis386 (Some "pslld") [MS; Ib];
      mk_dis386 (Some "(bad)") [XX] ];
    [ mk_dis386 (Some "(bad)") [XX];
      mk_dis386 (Some "(bad)") [XX];
      mk_dis386 (Some "psrlq") [MS; Ib];
      mk_dis386 (Some "psrldq") [MS; Ib];
      mk_dis386 (Some "(bad)") [XX];
      mk_dis386 (Some "(bad)") [XX];
      mk_dis386 (Some "psllq") [MS; Ib];
      mk_dis386 (Some "pslldq") [MS; Ib] ];
    [ mk_dis386 (Some "fxsave") [Ev];
      mk_dis386 (Some "fxrstor") [Ev];
      mk_dis386 (Some "ldmxcsr") [Ev];
      mk_dis386 (Some "stmxcsr") [Ev];
      mk_dis386 (Some "(bad)") [XX];
      mk_dis386 (Some "lfence") [(Some OP_0fae_rtn, 0)];
      mk_dis386 (Some "mfence") [(Some OP_0fae_rtn, 0)];
      mk_dis386 (Some "clflush") [(Some OP_0fae_rtn, 0)] ] ].

Definition grps_2 : list (list dis386_t) :=
  [ [ mk_dis386 (Some "prefetchnta") [Ev];
      mk_dis386 (Some "prefetcht0") [Ev];
      mk_dis386 (Some "prefetcht1") [Ev];
      mk_dis386 (Some "prefetcht2") [Ev];
      mk_dis386 (Some "(bad)") [XX];
      mk_dis386 (Some "(bad)") [XX];
      mk_dis386 (Some "(bad)") [XX];
      mk_dis386 (Some "(bad)") [XX] ];
    [ mk_dis386 (Some "prefetch") [Eb];
      mk_dis386 (Some "prefetchw") [Eb];
      mk_dis386 (Some "(bad)") [XX];
      mk_dis386 (Some "(bad)") [XX];
      mk_dis386 (Some "(bad)") [XX];
      mk_dis386 (Some "(bad)") [XX];
      mk_dis386 (Some "(bad)") [XX];
      mk_dis386 (Some "(bad)") [XX] ];
    [ mk_dis386 (Some "xstore-rng") [(Some OP_0f07_rtn, 0)];
      mk_dis386 (Some "xcrypt-ecb") [(Some OP_0f07_rtn, 0)];
      mk_dis386 (Some "xcrypt-cbc") [(Some OP_0f07_rtn, 0)];
      mk_dis386 (Some "xcrypt-ctr") [(Some OP_0f07_rtn, 0)];
      mk_dis386 (Some "xcrypt-cfb") [(Some OP_0f07_rtn, 0)];
      mk_dis386 (Some "xcrypt-ofb") [(Some OP_0f07_rtn, 0)];
      mk_dis386 (Some "(bad)") [(Some OP_0f07_rtn, 0)];
      mk_dis386 (Some "(bad)") [(Some OP_0f07_rtn, 0)] ];
    [ mk_dis386 (Some "montmul") [(Some OP_0f07_rtn, 0)];
      mk_dis386 (Some "xsha1") [(Some OP_0f07_rtn, 0)];
      mk_dis386 (Some "xsha256") [(Some OP_0f07_rtn, 0)];
      mk_dis386 (Some "(bad)") [(Some OP_0f07_rtn, 0)];
      mk_dis386 (Some "(bad)") [(Some OP_0f07_rtn, 0)];
      mk_dis386 (Some "(bad)") [(Some OP_0f07_rtn, 0)];
      mk_dis386 (Some "(bad)") [(Some OP_0f07_rtn, 0)];
      mk_dis386 (Some "(bad)") [(Some OP_0f07_rtn, 0)] ] ].

Definition grps : list (list dis386_t) := grps_0 ++ grps_1 ++ grps_2.

(** ** Entries selected by the mandatory prefix *)

Definition prefix_user_table_0 : list (list dis386_t) :=
  [ [ mk_dis386 (Some "addps") [XM; EXx];
      mk_dis386 (Some "addss") [XM; EXd];
      mk_dis386 (Some "addpd") [XM; EXx];
      mk_dis386 (Some "addsd") [XM; EXq] ];
    [ mk_dis386 (Some EmptyString) [XM; EXx; OPSIMD];
      mk_dis386 (Some EmptyString) [XM; EXx; OPSIMD];
      mk_dis386 (Some EmptyString) [XM; EXx; OPSIMD];
      mk_dis386 (Some EmptyString) [XM; EXx; OPSIMD] ];
    [ mk_dis386 (Some "cvtpi2ps") [XM; EMC];
      mk_dis386 (Some "cvtsi2ssY") [XM; Ev];
      mk_dis386 (Some "cvtpi2pd") [XM; EMC];
      mk_dis386 (Some "cvtsi2sdY") [XM; Ev] ];
    [ mk_dis386 (Some "cvtps2pi") [MXC; EXx];
      mk_dis386 (Some "cvtss2siY") [Gv; EXx];
      mk_dis386 (Some "cvtpd2pi") [MXC; EXx];
      mk_dis386 (Some "cvtsd2siY") [Gv; EXx] ];
    [ mk_dis386 (Some "cvttps2pi") [MXC; EXx];
      mk_dis386 (Some "cvttss2siY") [Gv; EXx];
      mk_dis386 (Some "cvttpd2pi") [MXC; EXx];
      mk_dis386 (Some "cvttsd2siY") [Gv; EXx] ];
    [ mk_dis386 (Some "divps") [XM; EXx];
      mk_dis386 (Some "divss") [XM; EXx];
      mk_dis386 (Some "divpd") [XM; EXx];
      mk_dis386 (Some "divsd") [XM; EXx] ];
    [ mk_dis386 (Some "maxps") [XM; EXx];
      mk_dis386 (Some "maxss") [XM; EXx];
      mk_dis386 (Some "maxpd") [XM; EXx];
      mk_dis386 (Some "maxsd") [XM; EXx] ];
    [ mk_dis386 (Some "minps") [XM; EXx];
      mk_dis386 (Some "minss") [XM; EXx];
      mk_dis386 (Some "minpd") [XM; EXx];
      mk_dis386 (Some "minsd") [XM; EXx] ];
    [ mk_dis386 (Some "movups") [XM; EXx];
      mk_dis386 (Some "movss") [XM; EXx];
      mk_dis386 (Some "movupd") [XM; EXx];
      mk_dis386 (Some "movsd") [XM; EXx] ];
    [ mk_dis386 (Some "movups") [EXx; XM];
      mk_dis386 (Some "movss") [EXx; XM];
      mk_dis386 (Some "movupd") [EXx; XM];
      mk_dis386 (Some "movsd") [EXx; XM] ];
    [ mk_dis386 (Some "mulps") [XM; EXx];
      mk_dis386 (Some "mulss") [XM; EXx];
      mk_dis386 (Some "mulpd") [XM; EXx];
      mk_dis386 (Some "mulsd") [XM; EXx] ];
    [ mk_dis386 (Some "rcpps") [XM; EXx];
      mk_dis386 (Some "rcpss") [XM; EXx];
      mk_dis386 (Some "(bad)") [XM; EXx];
      mk_dis386 (Some "(bad)") [XM; EXx] ];
    [ mk_dis386 (Some "rsqrtps") [XM; EXx];
      mk_dis386 (Some "rsqrtss") [XM; EXx];
      mk_dis386 (Some "(bad)") [XM; EXx];
      mk_dis386 (Some "(bad)") [XM; EXx] ];
    [ mk_dis386 (Some "sqrtps") [XM; EXx];
      mk_dis386 (Some "sqrtss") [XM; EXx];
      mk_dis386 (Some "sqrtpd") [XM; EXx];
      mk_dis386 (Some "sqrtsd") [XM; EXx] ];
    [ mk_dis386 (Some "subps") [XM; EXx];
      mk_dis386 (Some "subss") [XM; EXx];
      mk_dis386 (Some "subpd") [XM; EXx];
      mk_dis386 (Some "subsd") [XM; EXx] ];
    [ mk_dis386 (Some "(bad)") [XM; EXx];
      mk_dis386 (Some "cvtdq2pd") [XM; EXq];
      mk_dis386 (Some "cvttpd2dq") [XM; EXx];
      mk_dis386 (Some "cvtpd2dq") [XM; EXx] ];
    [ mk_dis386 (Some "cvtdq2ps") [XM; EXx];
      mk_dis386 (Some "cvttps2dq") [XM; EXx];
      mk_dis386 (Some "cvtps2dq") [XM; EXx];
      mk_dis386 (Some "(bad)") [XM; EXx] ];
    [ mk_dis386 (Some "cvtps2pd") [XM; EXq];
      mk_dis386 (Some "cvtss2sd") [XM; EXx];
      mk_dis386 (Some "cvtpd2ps") [XM; EXx];
      mk_dis386 (Some "cvtsd2ss") [XM; EXx] ];
    [ mk_dis386 (Some "maskmovq") [MX; MS];
      mk_dis386 (Some "(bad)") [XM; EXx];
      mk_dis386 (Some "maskmovdqu") [XM; XS];
      mk_dis386 (Some "(bad)") [XM; EXx] ] ].

Definition prefix_user_table_1 : list (list dis386_t) :=
  [ [ mk_dis386 (Some "movq") [MX; EM];
      mk_dis386 (Some "movdqu") [XM; EXx];
      mk_dis386 (Some "movdqa") [XM; EXx];
      mk_dis386 (Some "(bad)") [XM; EXx] ];
    [ mk_dis386 (Some "movq") [EM; MX];
      mk_dis386 (Some "movdqu") [EXx; XM];
      mk_dis386 (Some "movdqa") [EXx; XM];
      mk_dis386 (Some "(bad)") [EXx; XM] ];
    [ mk_dis386 (Some "(bad)") [EXx; XM];
      mk_dis386 (Some "movq2dq") [XM; MS];
      mk_dis386 (Some "movq") [EXx; XM];
      mk_dis386 (Some "movdq2q") [MX; XS] ];
    [ mk_dis386 (Some "pshufw") [MX; EM; Ib];
      mk_dis386 (Some "pshufhw") [XM; EXx; Ib];
      mk_dis386 (Some "pshufd") [XM; EXx; Ib];
      mk_dis386 (Some "pshuflw") [XM; EXx; Ib] ];
    [ mk_dis386 (Some "movd") [Edq; MX];
      mk_dis386 (Some "movq") [XM; EXx];
      mk_dis386 (Some "movd") [Edq; XM];
      mk_dis386 (Some "(bad)") [Ed; XM] ];
    [ mk_dis386 (Some "(bad)") [MX; EXx];
      mk_dis386 (Some "(bad)") [XM; EXx];
      mk_dis386 (Some "punpckhqdq") [XM; EXx];
      mk_dis386 (Some "(bad)") [XM; EXx] ];
    [ mk_dis386 (Some "movntq") [EM; MX];
      mk_dis386 (Some "(bad)") [EM; XM];
      mk_dis386 (Some "movntdq") [EM; XM];
      mk_dis386 (Some "(bad)") [EM; XM] ];
    [ mk_dis386 (Some "(bad)") [MX; EXx];
      mk_dis386 (Some "(bad)") [XM; EXx];
      mk_dis386 (Some "punpcklqdq") [XM; EXx];
      mk_dis386 (Some "(bad)") [XM; EXx] ];
    [ mk_dis386 (Some "(bad)") [MX; EXx];
      mk_dis386 (Some "(bad)") [XM; EXx];
      mk_dis386 (Some "addsubpd") [XM; EXx];
      mk_dis386 (Some "addsubps") [XM; EXx] ];
    [ mk_dis386 (Some "(bad)") [MX; EXx];
      mk_dis386 (Some "(bad)") [XM; EXx];
      mk_dis386 (Some "haddpd") [XM; EXx];
      mk_dis386 (Some "haddps") [XM; EXx] ];
    [ mk_dis386 (Some "(bad)") [MX; EXx];
      mk_dis386 (Some "(bad)") [XM; EXx];
      mk_dis386 (Some "hsubpd") [XM; EXx];
      mk_dis386 (Some "hsubps") [XM; EXx] ];
    [ mk_dis386 (Some "movlpX") [XM; EXq; (Some SIMD_Fixup_rtn, 104)];
      mk_dis386 (Some "movsldup") [XM; EXx];
      mk_dis386 (Some "movlpd") [XM; EXq];
      mk_dis386 (Some "movddup") [XM; EXq] ];
    [ mk_dis386 (Some "movhpX") [XM; EXq; (Some SIMD_Fixup_rtn, 108)];
      mk_dis386 (Some "movshdup") [XM; EXx];
      mk_dis386 (Some "movhpd") [XM; EXq];
      mk_dis386 (Some "(bad)") [XM; EXq] ];
    [ mk_dis386 (Some "(bad)") [XM; EXx];
      mk_dis386 (Some "(bad)") [XM; EXx];
      mk_dis386 (Some "(bad)") [XM; EXx];
      mk_dis386 (Some "lddqu") [XM; M] ];
    [ mk_dis386 (Some "movntps") [Ev; XM];
      mk_dis386 (Some "movntss") [Ev; XM];
      mk_dis386 (Some "movntpd") [Ev; XM];
      mk_dis386 (Some "movntsd") [Ev; XM] ];
    [ mk_dis386 (Some "vmread") [Em; Gm];
      mk_dis386 (Some "(bad)") [XX];
      mk_dis386 (Some "extrq") [XS; Ib; Ib];
      mk_dis386 (Some "insertq") [XM; XS; Ib; Ib] ];
    [ mk_dis386 (Some "vmwrite") [Gm; Em];
      mk_dis386 (Some "(bad)") [XX];
      mk_dis386 (Some "extrq") [XM; XS];
      mk_dis386 (Some "insertq") [XM; XS] ];
    [ mk_dis386 (Some "bsrS") [Gv; Ev];
      mk_dis386 (Some "lzcntS") [Gv; Ev];
      mk_dis386 (Some "bsrS") [Gv; Ev];
      mk_dis386 (Some "(bad)") [XX] ];
    [ mk_dis386 (Some "(bad)") [XX];
      mk_dis386 (Some "popcntS") [Gv; Ev];
      mk_dis386 (Some "(bad)") [XX];
      mk_dis386 (Some "(bad)") [XX] ] ].

Definition prefix_user_table_2 : list (list dis386_t) :=
  [ [ mk_dis386 (Some "xchgS") [(Some NOP_Fixup1_rtn, eAX_reg); (Some NOP_Fixup2_rtn, eAX_reg)];
      mk_dis386 (Some "pause") [XX];
      mk_dis386 (Some "xchgS") [(Some NOP_Fixup1_rtn, eAX_reg); (Some NOP_Fixup2_rtn, eAX_reg)];
      mk_dis386 (Some "(bad)") [XX] ];
    [ mk_dis386 (Some "(bad)") [XX];
      mk_dis386 (Some "(bad)") [XX];
      mk_dis386 (Some "pblendvb") [XM; EXx; XMM0];
      mk_dis386 (Some "(bad)") [XX] ];
    [ mk_dis386 (Some "(bad)") [XX];
      mk_dis386 (Some "(bad)") [XX];
      mk_dis386 (Some "blendvps") [XM; EXx; XMM0];
      mk_dis386 (Some "(bad)") [XX] ];
    [ mk_dis386 (Some "(bad)") [XX];
      mk_dis386 (Some "(bad)") [XX];
      mk_dis386 (Some "blendvpd") [XM; EXx; XMM0];
      mk_dis386 (Some "(bad)") [XX] ];
    [ mk_dis386 (Some "(bad)") [XX];
      mk_dis386 (Some "(bad)") [XX];
      mk_dis386 (Some "ptest") [XM; EXx];
      mk_dis386 (Some "(bad)") [XX] ];
    [ mk_dis386 (Some "(bad)") [XX];
      mk_dis386 (Some "(bad)") [XX];
      mk_dis386 (Some "pmovsxbw") [XM; EXx];
      mk_dis386 (Some "(bad)") [XX] ];
    [ mk_dis386 (Some "(bad)") [XX];
      mk_dis386 (Some "(bad)") [XX];
      mk_dis386 (Some "pmovsxbd") [XM; EXx];
      mk_dis386 (Some "(bad)") [XX] ];
    [ mk_dis386 (Some "(bad)") [XX];
      mk_dis386 (Some "(bad)") [XX];
      mk_dis386 (Some "pmovsxbq") [XM; EXx];
      mk_dis386 (Some "(bad)") [XX] ];
    [ mk_dis386 (Some "(bad)") [XX];
      mk_dis386 (Some "(bad)") [XX];
      mk_dis386 (Some "pmovsxwd") [XM; EXx];
      mk_dis386 (Some "(bad)") [XX] ];
    [ mk_dis386 (Some "(bad)") [XX];
      mk_dis386 (Some "(bad)") [XX];
      mk_dis386 (Some "pmovsxwq") [XM; EXx];
      mk_dis386 (Some "(bad)") [XX] ];
    [ mk_dis386 (Some "(bad)") [XX];
      mk_dis386 (Some "(bad)") [XX];
      mk_dis386 (Some "pmovsxdq") [XM; EXx];
      mk_dis386 (Some "(bad)") [XX] ];
    [ mk_dis386 (Some "(bad)") [XX];
      mk_dis386 (Some "(bad)") [XX];
      mk_dis386 (Some "pmuldq") [XM; EXx];
      mk_dis386 (Some "(bad)") [XX] ];
    [ mk_dis386 (Some "(bad)") [XX];
      mk_dis386 (Some "(bad)") [XX];
      mk_dis386 (Some "pcmpeqq") [XM; EXx];
      mk_dis386 (Some "(bad)") [XX] ];
    [ mk_dis386 (Some "(bad)") [XX];
      mk_dis386 (Some "(bad)") [XX];
      mk_dis386 (Some "movntdqa") [XM; EM];
      mk_dis386 (Some "(bad)") [XX] ];
    [ mk_dis386 (Some "(bad)") [XX];
      mk_dis386 (Some "(bad)") [XX];
      mk_dis386 (Some "packusdw") [XM; EXx];
      mk_dis386 (Some "(bad)") [XX] ];
    [ mk_dis386 (Some "(bad)") [XX];
      mk_dis386 (Some "(bad)") [XX];
      mk_dis386 (Some "pmovzxbw") [XM; EXx];
      mk_dis386 (Some "(bad)") [XX] ];
    [ mk_dis386 (Some "(bad)") [XX];
      mk_dis386 (Some "(bad)") [XX];
      mk_dis386 (Some "pmovzxbd") [XM; EXx];
      mk_dis386 (Some "(bad)") [XX] ] ].

Definition prefix_user_table_3 : list (list dis386_t) :=
  [ [ mk_dis386 (Some "(bad)") [XX];
      mk_dis386 (Some "(bad)") [XX];
      mk_dis386 (Some "pmovzxbq") [XM; EXx];
      mk_dis386 (Some "(bad)") [XX] ];
    [ mk_dis386 (Some "(bad)") [XX];
      mk_dis386 (Some "(bad)") [XX];
      mk_dis386 (Some "pmovzxwd") [XM; EXx];
      mk_dis386 (Some "(bad)") [XX] ];
    [ mk_dis386 (Some "(bad)") [XX];
      mk_dis386 (Some "(bad)") [XX];
      mk_dis386 (Some "pmovzxwq") [XM; EXx];
      mk_dis386 (Some "(bad)") [XX] ];
    [ mk_dis386 (Some "(bad)") [XX];
      mk_dis386 (Some "(bad)") [XX];
      mk_dis386 (Some "pmovzxdq") [XM; EXx];
      mk_dis386 (Some "(bad)") [XX] ];
    [ mk_dis386 (Some "(bad)") [XX];
      mk_dis386 (Some "(bad)") [XX];
      mk_dis386 (Some "pminsb") [XM; EXx];
      mk_dis386 (Some "(bad)") [XX] ];
    [ mk_dis386 (Some "(bad)") [XX];
      mk_dis386 (Some "(bad)") [XX];
      mk_dis386 (Some "pminsd") [XM; EXx];
      mk_dis386 (Some "(bad)") [XX] ];
    [ mk_dis386 (Some "(bad)") [XX];
      mk_dis386 (Some "(bad)") [XX];
      mk_dis386 (Some "pminuw") [XM; EXx];
      mk_dis386 (Some "(bad)") [XX] ];
    [ mk_dis386 (Some "(bad)") [XX];
      mk_dis386 (Some "(bad)") [XX];
      mk_dis386 (Some "pminud") [XM; EXx];
      mk_dis386 (Some "(bad)") [XX] ];
    [ mk_dis386 (Some "(bad)") [XX];
      mk_dis386 (Some "(bad)") [XX];
      mk_dis386 (Some "pmaxsb") [XM; EXx];
      mk_dis386 (Some "(bad)") [XX] ];
    [ mk_dis386 (Some "(bad)") [XX];
      mk_dis386 (Some "(bad)") [XX];
      mk_dis386 (Some "pmaxsd") [XM; EXx];
      mk_dis386 (Some "(bad)") [XX] ];
    [ mk_dis386 (Some "(bad)") [XX];
      mk_dis386 (Some "(bad)") [XX];
      mk_dis386 (Some "pmaxuw") [XM; EXx];
      mk_dis386 (Some "(bad)") [XX] ];
    [ mk_dis386 (Some "(bad)") [XX];
      mk_dis386 (Some "(bad)") [XX];
      mk_dis386 (Some "pmaxud") [XM; EXx];
      mk_dis386 (Some "(bad)") [XX] ];
    [ mk_dis386 (Some "(bad)") [XX];
      mk_dis386 (Some "(bad)") [XX];
      mk_dis386 (Some "pmulld") [XM; EXx];
      mk_dis386 (Some "(bad)") [XX] ];
    [ mk_dis386 (Some "(bad)") [XX];
      mk_dis386 (Some "(bad)") [XX];
      mk_dis386 (Some "phminposuw") [XM; EXx];
      mk_dis386 (Some "(bad)") [XX] ];
    [ mk_dis386 (Some "(bad)") [XX];
      mk_dis386 (Some "(bad)") [XX];
      mk_dis386 (Some "roundps") [XM; EXx; Ib];
      mk_dis386 (Some "(bad)") [XX] ];
    [ mk_dis386 (Some "(bad)") [XX];
      mk_dis386 (Some "(bad)") [XX];
      mk_dis386 (Some "roundpd") [XM; EXx; Ib];
      mk_dis386 (Some "(bad)") [XX] ];
    [ mk_dis386 (Some "(bad)") [XX];
      mk_dis386 (Some "(bad)") [XX];
      mk_dis386 (Some "roundss") [XM; EXx; Ib];
      mk_dis386 (Some "(bad)") [XX] ] ].

Definition prefix_user_table_4 : list (list dis386_t) :=
  [ [ mk_dis386 (Some "(bad)") [XX];
      mk_dis386 (Some "(bad)") [XX];
      mk_dis386 (Some "roundsd") [XM; EXx; Ib];
      mk_dis386 (Some "(bad)") [XX] ];
    [ mk_dis386 (Some "(bad)") [XX];
      mk_dis386 (Some "(bad)") [XX];
      mk_dis386 (Some "blendps") [XM; EXx; Ib];
      mk_dis386 (Some "(bad)") [XX] ];
    [ mk_dis386 (Some "(bad)") [XX];
      mk_dis386 (Some "(bad)") [XX];
      mk_dis386 (Some "blendpd") [XM; EXx; Ib];
      mk_dis386 (Some "(bad)") [XX] ];
    [ mk_dis386 (Some "(bad)") [XX];
      mk_dis386 (Some "(bad)") [XX];
      mk_dis386 (Some "pblendw") [XM; EXx; Ib];
      mk_dis386 (Some "(bad)") [XX] ];
    [ mk_dis386 (Some "(bad)") [XX];
      mk_dis386 (Some "(bad)") [XX];
      mk_dis386 (Some "pextrb") [Edqb; XM; Ib];
      mk_dis386 (Some "(bad)") [XX] ];
    [ mk_dis386 (Some "(bad)") [XX];
      mk_dis386 (Some "(bad)") [XX];
      mk_dis386 (Some "pextrw") [Edqw; XM; Ib];
      mk_dis386 (Some "(bad)") [XX] ];
    [ mk_dis386 (Some "(bad)") [XX];
      mk_dis386 (Some "(bad)") [XX];
      mk_dis386 (Some "pextrK") [Edq; XM; Ib];
      mk_dis386 (Some "(bad)") [XX] ];
    [ mk_dis386 (Some "(bad)") [XX];
      mk_dis386 (Some "(bad)") [XX];
      mk_dis386 (Some "extractps") [Edqd; XM; Ib];
      mk_dis386 (Some "(bad)") [XX] ];
    [ mk_dis386 (Some "(bad)") [XX];
      mk_dis386 (Some "(bad)") [XX];
      mk_dis386 (Some "pinsrb") [XM; Edqb; Ib];
      mk_dis386 (Some "(bad)") [XX] ];
    [ mk_dis386 (Some "(bad)") [XX];
      mk_dis386 (Some "(bad)") [XX];
      mk_dis386 (Some "insertps") [XM; EXx; Ib];
      mk_dis386 (Some "(bad)") [XX] ];
    [ mk_dis386 (Some "(bad)") [XX];
      mk_dis386 (Some "(bad)") [XX];
      mk_dis386 (Some "pinsrK") [XM; Edq; Ib];
      mk_dis386 (Some "(bad)") [XX] ];
    [ mk_dis386 (Some "(bad)") [XX];
      mk_dis386 (Some "(bad)") [XX];
      mk_dis386 (Some "dpps") [XM; EXx; Ib];
      mk_dis386 (Some "(bad)") [XX] ];
    [ mk_dis386 (Some "(bad)") [XX];
      mk_dis386 (Some "(bad)") [XX];
      mk_dis386 (Some "dppd") [XM; EXx; Ib];
      mk_dis386 (Some "(bad)") [XX] ];
    [ mk_dis386 (Some "(bad)") [XX];
      mk_dis386 (Some "(bad)") [XX];
      mk_dis386 (Some "mpsadbw") [XM; EXx; Ib];
      mk_dis386 (Some "(bad)") [XX] ];
    [ mk_dis386 (Some "(bad)") [XX];
      mk_dis386 (Some "(bad)") [XX];
      mk_dis386 (Some "pcmpgtq") [XM; EXx];
      mk_dis386 (Some "(bad)") [XX] ];
    [ mk_dis386 (Some "movbe") [Gv; Ev];
      mk_dis386 (Some "(bad)") [XX];
      mk_dis386 (Some "movbe") [Gv; Ev];
      mk_dis386 (Some "crc32") [Gdq; (Some CRC32_Fixup_rtn, b_mode)] ];
    [ mk_dis386 (Some "movbe") [Ev; Gv];
      mk_dis386 (Some "(bad)") [XX];
      mk_dis386 (Some "movbe") [Ev; Gv];
      mk_dis386 (Some "crc32") [Gdq; (Some CRC32_Fixup_rtn, v_mode)] ] ].

Definition prefix_user_table_5 : list (list dis386_t) :=
  [ [ mk_dis386 (Some "(bad)") [XX];
      mk_dis386 (Some "(bad)") [XX];
      mk_dis386 (Some "pcmpestrm") [XM; EXx; Ib];
      mk_dis386 (Some "(bad)") [XX] ];
    [ mk_dis386 (Some "(bad)") [XX];
      mk_dis386 (Some "(bad)") [XX];
      mk_dis386 (Some "pcmpestri") [XM; EXx; Ib];
      mk_dis386 (Some "(bad)") [XX] ];
    [ mk_dis386 (Some "(bad)") [XX];
      mk_dis386 (Some "(bad)") [XX];
      mk_dis386 (Some "pcmpistrm") [XM; EXx; Ib];
      mk_dis386 (Some "(bad)") [XX] ];
    [ mk_dis386 (Some "(bad)") [XX];
      mk_dis386 (Some "(bad)") [XX];
      mk_dis386 (Some "pcmpistri") [XM; EXx; Ib];
      mk_dis386 (Some "(bad)") [XX] ];
    [ mk_dis386 (Some "ucomiss") [XM; EXd];
      mk_dis386 (Some "(bad)") [XX];
      mk_dis386 (Some "ucomisd") [XM; EXq];
      mk_dis386 (Some "(bad)") [XX] ];
    [ mk_dis386 (Some "comiss") [XM; EXd];
      mk_dis386 (Some "(bad)") [XX];
      mk_dis386 (Some "comisd") [XM; EXq];
      mk_dis386 (Some "(bad)") [XX] ];
    [ mk_dis386 (Some "punpcklbw") [MX; EMd];
      mk_dis386 (Some "(bad)") [XX];
      mk_dis386 (Some "punpcklbw") [MX; EMq];
      mk_dis386 (Some "(bad)") [XX] ];
    [ mk_dis386 (Some "punpcklwd") [MX; EMd];
      mk_dis386 (Some "(bad)") [XX];
      mk_dis386 (Some "punpcklwd") [MX; EMq];
      mk_dis386 (Some "(bad)") [XX] ];
    [ mk_dis386 (Some "punpckldq") [MX; EMd];
      mk_dis386 (Some "(bad)") [XX];
      mk_dis386 (Some "punpckldq") [MX; EMq];
      mk_dis386 (Some "(bad)") [XX] ];
    [ mk_dis386 (Some "(bad)") [XX];
      mk_dis386 (Some "(bad)") [XX];
      mk_dis386 (Some "pclmulqdq") [XM; EXx; Ib];
      mk_dis386 (Some "(bad)") [XX] ];
    [ mk_dis386 (Some "(bad)") [XX];
      mk_dis386 (Some "(bad)") [XX];
      mk_dis386 (Some "aesimc") [XM; EXx];
      mk_dis386 (Some "(bad)") [XX] ];
    [ mk_dis386 (Some "(bad)") [XX];
      mk_dis386 (Some "(bad)") [XX];
      mk_dis386 (Some "aesenc") [XM; EXx];
      mk_dis386 (Some "(bad)") [XX] ];
    [ mk_dis386 (Some "(bad)") [XX];
      mk_dis386 (Some "(bad)") [XX];
      mk_dis386 (Some "aesenclast") [XM; EXx];
      mk_dis386 (Some "(bad)") [XX] ];
    [ mk_dis386 (Some "(bad)") [XX];
      mk_dis386 (Some "(bad)") [XX];
      mk_dis386 (Some "aesdec") [XM; EXx];
      mk_dis386 (Some "(bad)") [XX] ];
    [ mk_dis386 (Some "(bad)") [XX];
      mk_dis386 (Some "(bad)") [XX];
      mk_dis386 (Some "aesdeclast") [XM; EXx];
      mk_dis386 (Some "(bad)") [XX] ];
    [ mk_dis386 (Some "(bad)") [XX];
      mk_dis386 (Some "(bad)") [XX];
      mk_dis386 (Some "aeskeygenassist") [XM; EXx; Ib];
      mk_dis386 (Some "(bad)") [XX] ];
    [ mk_dis386 (Some "andnS") [Gv; Bv; Ev];
      mk_dis386 (Some "(bad)") [XX];
      mk_dis386 (Some "(bad)") [XX];
      mk_dis386 (Some "(bad)") [XX] ] ].

Definition prefix_user_table_6 : list (list dis386_t) :=
  [ [ mk_dis386 (Some "bextrS") [Gv; Ev; Bv];
      mk_dis386 (Some "sarxS") [Gv; Ev; Bv];
      mk_dis386 (Some "shlxS") [Gv; Ev; Bv];
      mk_dis386 (Some "shrxS") [Gv; Ev; Bv] ] ].

Definition prefix_user_table : list (list dis386_t) := prefix_user_table_0 ++ prefix_user_table_1 ++ prefix_user_table_2 ++ prefix_user_table_3 ++ prefix_user_table_4 ++ prefix_user_table_5 ++ prefix_user_table_6.

(** ** Entries selected by 64-bit mode *)

Definition x86_64_table : list (list dis386_t) :=
  [ [ mk_dis386 (Some "pusha{P|}") [XX];
      mk_dis386 (Some "(bad)") [XX] ];
    [ mk_dis386 (Some "popa{P|}") [XX];
      mk_dis386 (Some "(bad)") [XX] ];
    [ mk_dis386 (Some "bound{S|}") [Gv; Ma];
      mk_dis386 (Some "(bad)") [XX] ];
    [ mk_dis386 (Some "arpl") [Ew; Gw];
      mk_dis386 (Some "movs{||lq|xd}") [Gv; Ed] ] ].

(** ** Three-byte opcodes (0f 38 xx, 0f 3a xx) *)

Definition three_byte_table_0_0 : list dis386_t :=
  [ mk_dis386 (Some "pshufb") [MX; EM];
    mk_dis386 (Some "phaddw") [MX; EM];
    mk_dis386 (Some "phaddd") [MX; EM];
    mk_dis386 (Some "phaddsw") [MX; EM];
    mk_dis386 (Some "pmaddubsw") [MX; EM];
    mk_dis386 (Some "phsubw") [MX; EM];
    mk_dis386 (Some "phsubd") [MX; EM];
    mk_dis386 (Some "phsubsw") [MX; EM];
    mk_dis386 (Some "psignb") [MX; EM];
    mk_dis386 (Some "psignw") [MX; EM];
    mk_dis386 (Some "psignd") [MX; EM];
    mk_dis386 (Some "pmulhrsw") [MX; EM];
    mk_dis386 (Some "(bad)") [XX];
    mk_dis386 (Some "(bad)") [XX];
    mk_dis386 (Some "(bad)") [XX];
    mk_dis386 (Some "(bad)") [XX];
    PREGRP39;
    mk_dis386 (Some "(bad)") [XX];
    mk_dis386 (Some "(bad)") [XX];
    mk_dis386 (Some "(bad)") [XX];
    PREGRP40;
    PREGRP41;
    mk_dis386 (Some "(bad)") [XX];
    PREGRP42;
    mk_dis386 (Some "(bad)") [XX];
    mk_dis386 (Some "(bad)") [XX];
    mk_dis386 (Some "(bad)") [XX];
    mk_dis386 (Some "(bad)") [XX];
    mk_dis386 (Some "pabsb") [MX; EM];
    mk_dis386 (Some "pabsw") [MX; EM];
    mk_dis386 (Some "pabsd") [MX; EM];
    mk_dis386 (Some "(bad)") [XX];
    PREGRP43;
    PREGRP44;
    PREGRP45;
    PREGRP46;
    PREGRP47;
    PREGRP48;
    mk_dis386 (Some "(bad)") [XX];
    mk_dis386 (Some "(bad)") [XX];
    PREGRP49;
    PREGRP50;
    PREGRP51;
    PREGRP52;
    mk_dis386 (Some "(bad)") [XX];
    mk_dis386 (Some "(bad)") [XX];
    mk_dis386 (Some "(bad)") [XX];
    mk_dis386 (Some "(bad)") [XX];
    PREGRP53;
    PREGRP54;
    PREGRP55;
    PREGRP56;
    PREGRP57;
    PREGRP58;
    mk_dis386 (Some "(bad)") [XX];
    PREGRP86;
    PREGRP59;
    PREGRP60;
    PREGRP61;
    PREGRP62;
    PREGRP63;
    PREGRP64;
    PREGRP65;
    PREGRP66;
    PREGRP67;
    PREGRP68;
    mk_dis386 (Some "(bad)") [XX];
    mk_dis386 (Some "(bad)") [XX];
    mk_dis386 (Some "(bad)") [XX];
    mk_dis386 (Some "(bad)") [XX];
    mk_dis386 (Some "(bad)") [XX];
    mk_dis386 (Some "(bad)") [XX];
    mk_dis386 (Some "(bad)") [XX];
    mk_dis386 (Some "(bad)") [XX];
    mk_dis386 (Some "(bad)") [XX];
    mk_dis386 (Some "(bad)") [XX];
    mk_dis386 (Some "(bad)") [XX];
    mk_dis386 (Some "(bad)") [XX];
    mk_dis386 (Some "(bad)") [XX];
    mk_dis386 (Some "(bad)") [XX];
    mk_dis386 (Some "(bad)") [XX];
    mk_dis386 (Some "(bad)") [XX];
    mk_dis386 (Some "(bad)") [XX];
    mk_dis386 (Some "(bad)") [XX];
    mk_dis386 (Some "(bad)") [XX];
    mk_dis386 (Some "(bad)") [XX];
    mk_dis386 (Some "(bad)") [XX];
    mk_dis386 (Some "(bad)") [XX];
    mk_dis386 (Some "(bad)") [XX];
    mk_dis386 (Some "(bad)") [XX];
    mk_dis386 (Some "(bad)") [XX];
    mk_dis386 (Some "(bad)") [XX];
    mk_dis386 (Some "(bad)") [XX];
    mk_dis386 (Some "(bad)") [XX];
    mk_dis386 (Some "(bad)") [XX];
    mk_dis386 (Some "(bad)") [XX];
    mk_dis386 (Some "(bad)") [XX];
    mk_dis386 (Some "(bad)") [XX];
    mk_dis386 (Some "(bad)") [XX];
    mk_dis386 (Some "(bad)") [XX];
    mk_dis386 (Some "(bad)") [XX];
    mk_dis386 (Some "(bad)") [XX];
    mk_dis386 (Some "(bad)") [XX];
    mk_dis386 (Some "(bad)") [XX];
    mk_dis386 (Some "(bad)") [XX];
    mk_dis386 (Some "(bad)") [XX];
    mk_dis386 (Some "(bad)") [XX];
    mk_dis386 (Some "(bad)") [XX];
    mk_dis386 (Some "(bad)") [XX];
    mk_dis386 (Some "(bad)") [XX];
    mk_dis386 (Some "(bad)") [XX];
    mk_dis386 (Some "(bad)") [XX];
    mk_dis386 (Some "(bad)") [XX];
    mk_dis386 (Some "(bad)") [XX];
    mk_dis386 (Some "(bad)") [XX];
    mk_dis386 (Some "(bad)") [XX];
    mk_dis386 (Some "(bad)") [XX];
    mk_dis386 (Some "(bad)") [XX];
    mk_dis386 (Some "(bad)") [XX];
    mk_dis386 (Some "(bad)") [XX];
    mk_dis386 (Some "(bad)") [XX];
    mk_dis386 (Some "(bad)") [XX];
    mk_dis386 (Some "(bad)") [XX] ].

Definition three_byte_table_0_1 : list dis386_t :=
  [ mk_dis386 (Some "(bad)") [XX];
    mk_dis386 (Some "(bad)") [XX];
    mk_dis386 (Some "(bad)") [XX];
    mk_dis386 (Some "(bad)") [XX];
    mk_dis386 (Some "(bad)") [XX];
    mk_dis386 (Some "(bad)") [XX];
    mk_dis386 (Some "(bad)") [XX];
    mk_dis386 (Some "(bad)") [XX];
    mk_dis386 (Some "(bad)") [XX];
    mk_dis386 (Some "(bad)") [XX];
    mk_dis386 (Some "(bad)") [XX];
    mk_dis386 (Some "(bad)") [XX];
    mk_dis386 (Some "(bad)") [XX];
    mk_dis386 (Some "(bad)") [XX];
    mk_dis386 (Some "(bad)") [XX];
    mk_dis386 (Some "(bad)") [XX];
    mk_dis386 (Some "(bad)") [XX];
    mk_dis386 (Some "(bad)") [XX];
    mk_dis386 (Some "(bad)") [XX];
    mk_dis386 (Some "(bad)") [XX];
    mk_dis386 (Some "(bad)") [XX];
    mk_dis386 (Some "(bad)") [XX];
    mk_dis386 (Some "(bad)") [XX];
    mk_dis386 (Some "(bad)") [XX];
    mk_dis386 (Some "(bad)") [XX];
    mk_dis386 (Some "(bad)") [XX];
    mk_dis386 (Some "(bad)") [XX];
    mk_dis386 (Some "(bad)") [XX];
    mk_dis386 (Some "(bad)") [XX];
    mk_dis386 (Some "(bad)") [XX];
    mk_dis386 (Some "(bad)") [XX];
    mk_dis386 (Some "(bad)") [XX];
    mk_dis386 (Some "(bad)") [XX];
    mk_dis386 (Some "(bad)") [XX];
    mk_dis386 (Some "(bad)") [XX];
    mk_dis386 (Some "(bad)") [XX];
    mk_dis386 (Some "(bad)") [XX];
    mk_dis386 (Some "(bad)") [XX];
    mk_dis386 (Some "(bad)") [XX];
    mk_dis386 (Some "(bad)") [XX];
    mk_dis386 (Some "(bad)") [XX];
    mk_dis386 (Some "(bad)") [XX];
    mk_dis386 (Some "(bad)") [XX];
    mk_dis386 (Some "(bad)") [XX];
    mk_dis386 (Some "(bad)") [XX];
    mk_dis386 (Some "(bad)") [XX];
    mk_dis386 (Some "(bad)") [XX];
    mk_dis386 (Some "(bad)") [XX];
    mk_dis386 (Some "(bad)") [XX];
    mk_dis386 (Some "(bad)") [XX];
    mk_dis386 (Some "(bad)") [XX];
    mk_dis386 (Some "(bad)") [XX];
    mk_dis386 (Some "(bad)") [XX];
    mk_dis386 (Some "(bad)") [XX];
    mk_dis386 (Some "(bad)") [XX];
    mk_dis386 (Some "(bad)") [XX];
    mk_dis386 (Some "(bad)") [XX];
    mk_dis386 (Some "(bad)") [XX];
    mk_dis386 (Some "(bad)") [XX];
    mk_dis386 (Some "(bad)") [XX];
    mk_dis386 (Some "(bad)") [XX];
    mk_dis386 (Some "(bad)") [XX];
    mk_dis386 (Some "(bad)") [XX];
    mk_dis386 (Some "(bad)") [XX];
    mk_dis386 (Some "(bad)") [XX];
    mk_dis386 (Some "(bad)") [XX];
    mk_dis386 (Some "(bad)") [XX];
    mk_dis386 (Some "(bad)") [XX];
    mk_dis386 (Some "(bad)") [XX];
    mk_dis386 (Some "(bad)") [XX];
    mk_dis386 (Some "(bad)") [XX];
    mk_dis386 (Some "(bad)") [XX];
    mk_dis386 (Some "(bad)") [XX];
    mk_dis386 (Some "(bad)") [XX];
    mk_dis386 (Some "(bad)") [XX];
    mk_dis386 (Some "(bad)") [XX];
    mk_dis386 (Some "(bad)") [XX];
    mk_dis386 (Some "(bad)") [XX];
    mk_dis386 (Some "(bad)") [XX];
    mk_dis386 (Some "(bad)") [XX];
    mk_dis386 (Some "(bad)") [XX];
    mk_dis386 (Some "(bad)") [XX];
    mk_dis386 (Some "(bad)") [XX];
    mk_dis386 (Some "(bad)") [XX];
    mk_dis386 (Some "(bad)") [XX];
    mk_dis386 (Some "(bad)") [XX];
    mk_dis386 (Some "(bad)") [XX];
    mk_dis386 (Some "(bad)") [XX];
    mk_dis386 (Some "(bad)") [XX];
    mk_dis386 (Some "(bad)") [XX];
    mk_dis386 (Some "(bad)") [XX];
    mk_dis386 (Some "(bad)") [XX];
    mk_dis386 (Some "(bad)") [XX];
    mk_dis386 (Some "(bad)") [XX];
    mk_dis386 (Some "(bad)") [XX];
    mk_dis386 (Some "(bad)") [XX];
    PREGRP99;
    PREGRP100;
    PREGRP101;
    PREGRP102;
    PREGRP103;
    mk_dis386 (Some "(bad)") [XX];
    mk_dis386 (Some "(bad)") [XX];
    mk_dis386 (Some "(bad)") [XX];
    mk_dis386 (Some "(bad)") [XX];
    mk_dis386 (Some "(bad)") [XX];
    mk_dis386 (Some "(bad)") [XX];
    mk_dis386 (Some "(bad)") [XX];
    mk_dis386 (Some "(bad)") [XX];
    mk_dis386 (Some "(bad)") [XX];
    mk_dis386 (Some "(bad)") [XX];
    mk_dis386 (Some "(bad)") [XX];
    mk_dis386 (Some "(bad)") [XX];
    mk_dis386 (Some "(bad)") [XX];
    mk_dis386 (Some "(bad)") [XX];
    mk_dis386 (Some "(bad)") [XX];
    mk_dis386 (Some "(bad)") [XX];
    PREGRP87;
    PREGRP88;
    PREGRP105;
    mk_dis386 (Some "(bad)") [XX];
    mk_dis386 (Some "(bad)") [XX];
    mk_dis386 (Some "(bad)") [XX];
    mk_dis386 (Some "(bad)") [XX];
    PREGRP106 ].

Definition three_byte_table_0_2 : list dis386_t :=
  [ mk_dis386 (Some "(bad)") [XX];
    mk_dis386 (Some "(bad)") [XX];
    mk_dis386 (Some "(bad)") [XX];
    mk_dis386 (Some "(bad)") [XX];
    mk_dis386 (Some "(bad)") [XX];
    mk_dis386 (Some "(bad)") [XX];
    mk_dis386 (Some "(bad)") [XX];
    mk_dis386 (Some "(bad)") [XX] ].

Definition three_byte_table_1_0 : list dis386_t :=
  [ mk_dis386 (Some "(bad)") [XX];
    mk_dis386 (Some "(bad)") [XX];
    mk_dis386 (Some "(bad)") [XX];
    mk_dis386 (Some "(bad)") [XX];
    mk_dis386 (Some "(bad)") [XX];
    mk_dis386 (Some "(bad)") [XX];
    mk_dis386 (Some "(bad)") [XX];
    mk_dis386 (Some "(bad)") [XX];
    PREGRP69;
    PREGRP70;
    PREGRP71;
    PREGRP72;
    PREGRP73;
    PREGRP74;
    PREGRP75;
    mk_dis386 (Some "palignr") [MX; EM; Ib];
    mk_dis386 (Some "(bad)") [XX];
    mk_dis386 (Some "(bad)") [XX];
    mk_dis386 (Some "(bad)") [XX];
    mk_dis386 (Some "(bad)") [XX];
    PREGRP76;
    PREGRP77;
    PREGRP78;
    PREGRP79;
    mk_dis386 (Some "(bad)") [XX];
    mk_dis386 (Some "(bad)") [XX];
    mk_dis386 (Some "(bad)") [XX];
    mk_dis386 (Some "(bad)") [XX];
    mk_dis386 (Some "(bad)") [XX];
    mk_dis386 (Some "(bad)") [XX];
    mk_dis386 (Some "(bad)") [XX];
    mk_dis386 (Some "(bad)") [XX];
    PREGRP80;
    PREGRP81;
    PREGRP82;
    mk_dis386 (Some "(bad)") [XX];
    mk_dis386 (Some "(bad)") [XX];
    mk_dis386 (Some "(bad)") [XX];
    mk_dis386 (Some "(bad)") [XX];
    mk_dis386 (Some "(bad)") [XX];
    mk_dis386 (Some "(bad)") [XX];
    mk_dis386 (Some "(bad)") [XX];
    mk_dis386 (Some "(bad)") [XX];
    mk_dis386 (Some "(bad)") [XX];
    mk_dis386 (Some "(bad)") [XX];
    mk_dis386 (Some "(bad)") [XX];
    mk_dis386 (Some "(bad)") [XX];
    mk_dis386 (Some "(bad)") [XX];
    mk_dis386 (Some "(bad)") [XX];
    mk_dis386 (Some "(bad)") [XX];
    mk_dis386 (Some "(bad)") [XX];
    mk_dis386 (Some "(bad)") [XX];
    mk_dis386 (Some "(bad)") [XX];
    mk_dis386 (Some "(bad)") [XX];
    mk_dis386 (Some "(bad)") [XX];
    mk_dis386 (Some "(bad)") [XX];
    mk_dis386 (Some "(bad)") [XX];
    mk_dis386 (Some "(bad)") [XX];
    mk_dis386 (Some "(bad)") [XX];
    mk_dis386 (Some "(bad)") [XX];
    mk_dis386 (Some "(bad)") [XX];
    mk_dis386 (Some "(bad)") [XX];
    mk_dis386 (Some "(bad)") [XX];
    mk_dis386 (Some "(bad)") [XX];
    PREGRP83;
    PREGRP84;
    PREGRP85;
    mk_dis386 (Some "(bad)") [XX];
    PREGRP98;
    mk_dis386 (Some "(bad)") [XX];
    mk_dis386 (Some "(bad)") [XX];
    mk_dis386 (Some "(bad)") [XX];
    mk_dis386 (Some "(bad)") [XX];
    mk_dis386 (Some "(bad)") [XX];
    mk_dis386 (Some "(bad)") [XX];
    mk_dis386 (Some "(bad)") [XX];
    mk_dis386 (Some "(bad)") [XX];
    mk_dis386 (Some "(bad)") [XX];
    mk_dis386 (Some "(bad)") [XX];
    mk_dis386 (Some "(bad)") [XX];
    mk_dis386 (Some "(bad)") [XX];
    mk_dis386 (Some "(bad)") [XX];
    mk_dis386 (Some "(bad)") [XX];
    mk_dis386 (Some "(bad)") [XX];
    mk_dis386 (Some "(bad)") [XX];
    mk_dis386 (Some "(bad)") [XX];
    mk_dis386 (Some "(bad)") [XX];
    mk_dis386 (Some "(bad)") [XX];
    mk_dis386 (Some "(bad)") [XX];
    mk_dis386 (Some "(bad)") [XX];
    mk_dis386 (Some "(bad)") [XX];
    mk_dis386 (Some "(bad)") [XX];
    mk_dis386 (Some "(bad)") [XX];
    mk_dis386 (Some "(bad)") [XX];
    mk_dis386 (Some "(bad)") [XX];
    mk_dis386 (Some "(bad)") [XX];
    PREGRP89;
    PREGRP90;
    PREGRP91;
    PREGRP92;
    mk_dis386 (Some "(bad)") [XX];
    mk_dis386 (Some "(bad)") [XX];
    mk_dis386 (Some "(bad)") [XX];
    mk_dis386 (Some "(bad)") [XX];
    mk_dis386 (Some "(bad)") [XX];
    mk_dis386 (Some "(bad)") [XX];
    mk_dis386 (Some "(bad)") [XX];
    mk_dis386 (Some "(bad)") [XX];
    mk_dis386 (Some "(bad)") [XX];
    mk_dis386 (Some "(bad)") [XX];
    mk_dis386 (Some "(bad)") [XX];
    mk_dis386 (Some "(bad)") [XX];
    mk_dis386 (Some "(bad)") [XX];
    mk_dis386 (Some "(bad)") [XX];
    mk_dis386 (Some "(bad)") [XX];
    mk_dis386 (Some "(bad)") [XX];
    mk_dis386 (Some "(bad)") [XX];
    mk_dis386 (Some "(bad)") [XX];
    mk_dis386 (Some "(bad)") [XX];
    mk_dis386 (Some "(bad)") [XX];
    mk_dis386 (Some "(bad)") [XX];
    mk_dis386 (Some "(bad)") [XX];
    mk_dis386 (Some "(bad)") [XX] ].

Definition three_byte_table_1_1 : list dis386_t :=
  [ mk_dis386 (Some "(bad)") [XX];
    mk_dis386 (Some "(bad)") [XX];
    mk_dis386 (Some "(bad)") [XX];
    mk_dis386 (Some "(bad)") [XX];
    mk_dis386 (Some "(bad)") [XX];
    mk_dis386 (Some "(bad)") [XX];
    mk_dis386 (Some "(bad)") [XX];
    mk_dis386 (Some "(bad)") [XX];
    mk_dis386 (Some "(bad)") [XX];
    mk_dis386 (Some "(bad)") [XX];
    mk_dis386 (Some "(bad)") [XX];
    mk_dis386 (Some "(bad)") [XX];
    mk_dis386 (Some "(bad)") [XX];
    mk_dis386 (Some "(bad)") [XX];
    mk_dis386 (Some "(bad)") [XX];
    mk_dis386 (Some "(bad)") [XX];
    mk_dis386 (Some "(bad)") [XX];
    mk_dis386 (Some "(bad)") [XX];
    mk_dis386 (Some "(bad)") [XX];
    mk_dis386 (Some "(bad)") [XX];
    mk_dis386 (Some "(bad)") [XX];
    mk_dis386 (Some "(bad)") [XX];
    mk_dis386 (Some "(bad)") [XX];
    mk_dis386 (Some "(bad)") [XX];
    mk_dis386 (Some "(bad)") [XX];
    mk_dis386 (Some "(bad)") [XX];
    mk_dis386 (Some "(bad)") [XX];
    mk_dis386 (Some "(bad)") [XX];
    mk_dis386 (Some "(bad)") [XX];
    mk_dis386 (Some "(bad)") [XX];
    mk_dis386 (Some "(bad)") [XX];
    mk_dis386 (Some "(bad)") [XX];
    mk_dis386 (Some "(bad)") [XX];
    mk_dis386 (Some "(bad)") [XX];
    mk_dis386 (Some "(bad)") [XX];
    mk_dis386 (Some "(bad)") [XX];
    mk_dis386 (Some "(bad)") [XX];
    mk_dis386 (Some "(bad)") [XX];
    mk_dis386 (Some "(bad)") [XX];
    mk_dis386 (Some "(bad)") [XX];
    mk_dis386 (Some "(bad)") [XX];
    mk_dis386 (Some "(bad)") [XX];
    mk_dis386 (Some "(bad)") [XX];
    mk_dis386 (Some "(bad)") [XX];
    mk_dis386 (Some "(bad)") [XX];
    mk_dis386 (Some "(bad)") [XX];
    mk_dis386 (Some "(bad)") [XX];
    mk_dis386 (Some "(bad)") [XX];
    mk_dis386 (Some "(bad)") [XX];
    mk_dis386 (Some "(bad)") [XX];
    mk_dis386 (Some "(bad)") [XX];
    mk_dis386 (Some "(bad)") [XX];
    mk_dis386 (Some "(bad)") [XX];
    mk_dis386 (Some "(bad)") [XX];
    mk_dis386 (Some "(bad)") [XX];
    mk_dis386 (Some "(bad)") [XX];
    mk_dis386 (Some "(bad)") [XX];
    mk_dis386 (Some "(bad)") [XX];
    mk_dis386 (Some "(bad)") [XX];
    mk_dis386 (Some "(bad)") [XX];
    mk_dis386 (Some "(bad)") [XX];
    mk_dis386 (Some "(bad)") [XX];
    mk_dis386 (Some "(bad)") [XX];
    mk_dis386 (Some "(bad)") [XX];
    mk_dis386 (Some "(bad)") [XX];
    mk_dis386 (Some "(bad)") [XX];
    mk_dis386 (Some "(bad)") [XX];
    mk_dis386 (Some "(bad)") [XX];
    mk_dis386 (Some "(bad)") [XX];
    mk_dis386 (Some "(bad)") [XX];
    mk_dis386 (Some "(bad)") [XX];
    mk_dis386 (Some "(bad)") [XX];
    mk_dis386 (Some "(bad)") [XX];
    mk_dis386 (Some "(bad)") [XX];
    mk_dis386 (Some "(bad)") [XX];
    mk_dis386 (Some "(bad)") [XX];
    mk_dis386 (Some "(bad)") [XX];
    mk_dis386 (Some "(bad)") [XX];
    mk_dis386 (Some "(bad)") [XX];
    mk_dis386 (Some "(bad)") [XX];
    mk_dis386 (Some "(bad)") [XX];
    mk_dis386 (Some "(bad)") [XX];
    mk_dis386 (Some "(bad)") [XX];
    mk_dis386 (Some "(bad)") [XX];
    mk_dis386 (Some "(bad)") [XX];
    mk_dis386 (Some "(bad)") [XX];
    mk_dis386 (Some "(bad)") [XX];
    mk_dis386 (Some "(bad)") [XX];
    mk_dis386 (Some "(bad)") [XX];
    mk_dis386 (Some "(bad)") [XX];
    mk_dis386 (Some "(bad)") [XX];
    mk_dis386 (Some "(bad)") [XX];
    mk_dis386 (Some "(bad)") [XX];
    mk_dis386 (Some "(bad)") [XX];
    mk_dis386 (Some "(bad)") [XX];
    mk_dis386 (Some "(bad)") [XX];
    mk_dis386 (Some "(bad)") [XX];
    mk_dis386 (Some "(bad)") [XX];
    mk_dis386 (Some "(bad)") [XX];
    mk_dis386 (Some "(bad)") [XX];
    PREGRP104;
    mk_dis386 (Some "(bad)") [XX];
    mk_dis386 (Some "(bad)") [XX];
    mk_dis386 (Some "(bad)") [XX];
    mk_dis386 (Some "(bad)") [XX];
    mk_dis386 (Some "(bad)") [XX];
    mk_dis386 (Some "(bad)") [XX];
    mk_dis386 (Some "(bad)") [XX];
    mk_dis386 (Some "(bad)") [XX];
    mk_dis386 (Some "(bad)") [XX];
    mk_dis386 (Some "(bad)") [XX];
    mk_dis386 (Some "(bad)") [XX];
    mk_dis386 (Some "(bad)") [XX];
    mk_dis386 (Some "(bad)") [XX];
    mk_dis386 (Some "(bad)") [XX];
    mk_dis386 (Some "(bad)") [XX];
    mk_dis386 (Some "(bad)") [XX];
    mk_dis386 (Some "(bad)") [XX];
    mk_dis386 (Some "(bad)") [XX];
    mk_dis386 (Some "(bad)") [XX];
    mk_dis386 (Some "(bad)") [XX];
    mk_dis386 (Some "(bad)") [XX];
    mk_dis386 (Some "(bad)") [XX];
    mk_dis386 (Some "(bad)") [XX];
    mk_dis386 (Some "(bad)") [XX] ].

Definition three_byte_table_1_2 : list dis386_t :=
  [ mk_dis386 (Some "(bad)") [XX];
    mk_dis386 (Some "(bad)") [XX];
    mk_dis386 (Some "(bad)") [XX];
    mk_dis386 (Some "(bad)") [XX];
    mk_dis386 (Some "(bad)") [XX];
    mk_dis386 (Some "(bad)") [XX];
    mk_dis386 (Some "(bad)") [XX];
    mk_dis386 (Some "(bad)") [XX] ].

Definition three_byte_table : list (list dis386_t) := [(three_byte_table_0_0 ++ three_byte_table_0_1 ++ three_byte_table_0_2); (three_byte_table_1_0 ++ three_byte_table_1_1 ++ three_byte_table_1_2)].

(** ** x87 register forms *)

Definition float_reg : list (list dis386_t) :=
  [ [ mk_dis386 (Some "fadd") [ST; STi];
      mk_dis386 (Some "fmul") [ST; STi];
      mk_dis386 (Some "fcom") [STi];
      mk_dis386 (Some "fcomp") [STi];
      mk_dis386 (Some "fsub") [ST; STi];
      mk_dis386 (Some "fsubr") [ST; STi];
      mk_dis386 (Some "fdiv") [ST; STi];
      mk_dis386 (Some "fdivr") [ST; STi] ];
    [ mk_dis386 (Some "fld") [STi];
      mk_dis386 (Some "fxch") [STi];
      FGRPd9_2;
      mk_dis386 (Some "(bad)") [XX];
      FGRPd9_4;
      FGRPd9_5;
      FGRPd9_6;
      FGRPd9_7 ];
    [ mk_dis386 (Some "fcmovb") [ST; STi];
      mk_dis386 (Some "fcmove") [ST; STi];
      mk_dis386 (Some "fcmovbe") [ST; STi];
      mk_dis386 (Some "fcmovu") [ST; STi];
      mk_dis386 (Some "(bad)") [XX];
      FGRPda_5;
      mk_dis386 (Some "(bad)") [XX];
      mk_dis386 (Some "(bad)") [XX] ];
    [ mk_dis386 (Some "fcmovnb") [ST; STi];
      mk_dis386 (Some "fcmovne") [ST; STi];
      mk_dis386 (Some "fcmovnbe") [ST; STi];
      mk_dis386 (Some "fcmovnu") [ST; STi];
      FGRPdb_4;
      mk_dis386 (Some "fucomi") [ST; STi];
      mk_dis386 (Some "fcomi") [ST; STi];
      mk_dis386 (Some "(bad)") [XX] ];
    [ mk_dis386 (Some "fadd") [STi; ST];
      mk_dis386 (Some "fmul") [STi; ST];
      mk_dis386 (Some "(bad)") [XX];
      mk_dis386 (Some "(bad)") [XX];
      mk_dis386 (Some "fsub") [STi; ST];
      mk_dis386 (Some "fsubr") [STi; ST];
      mk_dis386 (Some "fdiv") [STi; ST];
      mk_dis386 (Some "fdivr") [STi; ST] ];
    [ mk_dis386 (Some "ffree") [STi];
      mk_dis386 (Some "(bad)") [XX];
      mk_dis386 (Some "fst") [STi];
      mk_dis386 (Some "fstp") [STi];
      mk_dis386 (Some "fucom") [STi];
      mk_dis386 (Some "fucomp") [STi];
      mk_dis386 (Some "(bad)") [XX];
      mk_dis386 (Some "(bad)") [XX] ];
    [ mk_dis386 (Some "faddp") [STi; ST];
      mk_dis386 (Some "fmulp") [STi; ST];
      mk_dis386 (Some "(bad)") [XX];
      FGRPde_3;
      mk_dis386 (Some "fsubp") [STi; ST];
      mk_dis386 (Some "fsubrp") [STi; ST];
      mk_dis386 (Some "fdivp") [STi; ST];
      mk_dis386 (Some "fdivrp") [STi; ST] ];
    [ mk_dis386 (Some "ffreep") [STi];
      mk_dis386 (Some "(bad)") [XX];
      mk_dis386 (Some "(bad)") [XX];
      mk_dis386 (Some "(bad)") [XX];
      FGRPdf_4;
      mk_dis386 (Some "fucomip") [ST; STi];
      mk_dis386 (Some "fcomip") [ST; STi];
      mk_dis386 (Some "(bad)") [XX] ] ].

Definition float_mem : list string :=
  [ "fadd{s||s|}"; "fmul{s||s|}"; "fcom{s||s|}"; "fcomp{s||s|}"; "fsub{s||s|}"; "fsubr{s||s|}"; "fdiv{s||s|}"; "fdivr{s||s|}";
    "fld{s||s|}"; "(bad)"; "fst{s||s|}"; "fstp{s||s|}"; "fldenvIC"; "fldcw"; "fNstenvIC"; "fNstcw";
    "fiadd{l||l|}"; "fimul{l||l|}"; "ficom{l||l|}"; "ficomp{l||l|}"; "fisub{l||l|}"; "fisubr{l||l|}"; "fidiv{l||l|}"; "fidivr{l||l|}";
    "fild{l||l|}"; "fisttp{l||l|}"; "fist{l||l|}"; "fistp{l||l|}"; "(bad)"; "fld{t||t|}"; "(bad)"; "fstp{t||t|}";
    "fadd{l||l|}"; "fmul{l||l|}"; "fcom{l||l|}"; "fcomp{l||l|}"; "fsub{l||l|}"; "fsubr{l||l|}"; "fdiv{l||l|}"; "fdivr{l||l|}";
    "fld{l||l|}"; "fisttp{ll||ll|}"; "fst{l||l|}"; "fstp{l||l|}"; "frstorIC"; "(bad)"; "fNsaveIC"; "fNstsw";
    "fiadd"; "fimul"; "ficom"; "ficomp"; "fisub"; "fisubr"; "fidiv"; "fidivr";
    "fild"; "fisttp"; "fist"; "fistp"; "fbld"; "fild{ll||ll|}"; "fbstp"; "fistp{ll||ll|}" ].

Definition float_mem_mode : list Z :=
  [ d_mode; d_mode; d_mode; d_mode; d_mode; d_mode; d_mode; d_mode;
    d_mode; 0; d_mode; d_mode; 0; w_mode; 0; w_mode;
    d_mode; d_mode; d_mode; d_mode; d_mode; d_mode; d_mode; d_mode;
    d_mode; d_mode; d_mode; d_mode; 0; t_mode; 0; t_mode;
    q_mode; q_mode; q_mode; q_mode; q_mode; q_mode; q_mode; q_mode;
    q_mode; q_mode; q_mode; q_mode; 0; 0; 0; w_mode;
    w_mode; w_mode; w_mode; w_mode; w_mode; w_mode; w_mode; w_mode;
    w_mode; w_mode; w_mode; w_mode; t_mode; q_mode; t_mode; q_mode ].

Definition fgrps : list (list string) :=
  [ ["fnop"; "(bad)"; "(bad)"; "(bad)"; "(bad)"; "(bad)"; "(bad)"; "(bad)"];
    ["fchs"; "fabs"; "(bad)"; "(bad)"; "ftst"; "fxam"; "(bad)"; "(bad)"];
    ["fld1"; "fldl2t"; "fldl2e"; "fldpi"; "fldlg2"; "fldln2"; "fldz"; "(bad)"];
    ["f2xm1"; "fyl2x"; "fptan"; "fpatan"; "fxtract"; "fprem1"; "fdecstp"; "fincstp"];
    ["fprem"; "fyl2xp1"; "fsqrt"; "fsincos"; "frndint"; "fscale"; "fsin"; "fcos"];
    ["(bad)"; "fucompp"; "(bad)"; "(bad)"; "(bad)"; "(bad)"; "(bad)"; "(bad)"];
    ["feni(287 only)"; "fdisi(287 only)"; "fNclex"; "fNinit"; "fNsetpm(287 only)"; "(bad)"; "(bad)"; "(bad)"];
    ["(bad)"; "fcompp"; "(bad)"; "(bad)"; "(bad)"; "(bad)"; "(bad)"; "(bad)"];
    ["fNstsw"; "(bad)"; "(bad)"; "(bad)"; "(bad)"; "(bad)"; "(bad)"; "(bad)"] ].

Definition Suffix3DNow : list (option string) :=
  [ None; None; None; None; None; None; None; None;
    None; None; None; None; Some "pi2fw"; Some "pi2fd"; None; None;
    None; None; None; None; None; None; None; None;
    None; None; None; None; Some "pf2iw"; Some "pf2id"; None; None;
    None; None; None; None; None; None; None; None;
    None; None; None; None; None; None; None; None;
    None; None; None; None; None; None; None; None;
    None; None; None; None; None; None; None; None;
    None; None; None; None; None; None; None; None;
    None; None; None; None; None; None; None; None;
    None; None; None; None; None; None; None; None;
    None; None; None; None; None; None; None; None;
    None; None; None; None; None; None; None; None;
    None; None; None; None; None; None; None; None;
    None; None; None; None; None; None; None; None;
    None; None; None; None; None; None; None; None;
    None; None; None; None; None; None; None; None;
    None; None; Some "pfnacc"; None; None; None; Some "pfpnacc"; None;
    Some "pfcmpge"; None; None; None; Some "pfmin"; None; Some "pfrcp"; Some "pfrsqrt";
    None; None; Some "pfsub"; None; None; None; Some "pfadd"; None;
    Some "pfcmpgt"; None; None; None; Some "pfmax"; None; Some "pfrcpit1"; Some "pfrsqit1";
    None; None; Some "pfsubr"; None; None; None; Some "pfacc"; None;
    Some "pfcmpeq"; None; None; None; Some "pfmul"; None; Some "pfrcpit2"; Some "pmulhrw";
    None; None; None; Some "pswapd"; None; None; None; Some "pavgusb";
    None; None; None; None; None; None; None; None;
    None; None; None; None; None; None; None; None;
    None; None; None; None; None; None; None; None;
    None; None; None; None; None; None; None; None;
    None; None; None; None; None; None; None; None;
    None; None; None; None; None; None; None; None;
    None; None; None; None; None; None; None; None;
    None; None; None; None; None; None; None; None ].

Definition simd_cmp_op : list string :=
  [ "eq"; "lt"; "le"; "unord"; "neq"; "nlt"; "nle"; "ord" ].

(** The two syntaxes the entry points select. *)
Definition att_syntax : syntax :=
  mk_syntax false att_names64 att_names32 att_names16 att_names8 att_names8rex
    att_names_seg att_index16 "(" ")" "," ",".
