(* ===== verification/DisasOps.v ===== *)
(** * Operand printing functions of the x86 disassembler (disas/i386.c)

    One definition per function of disas/i386.c, in the monad [DM] of
    [DisasTypes].  Fall-through [case]s become shared helpers, [*codep++] is
    [next], and the tests [sizeflag & X], [rex & X], [prefixes & X] are [bits].
    [OP_E] is cut at its own seams: the register form, the decoding of the
    32/64-bit address, the printing of it, and the 16-bit address forms. *)

From Stdlib Require Import ZArith Lia Bool Ascii String.
From stdpp Require Import base list.
From S2P Require Import Prelude DisasTypes DisasTables.

Open Scope string_scope.
Open Scope Z_scope.
Open Scope dm_scope.

Infix "==" := Z.eqb (at level 70, no associativity) : dm_scope.
Infix "!=" := (fun a b => negb (Z.eqb a b)) (at level 70, no associativity) : dm_scope.
Infix "&" := bits (at level 65, no associativity) : dm_scope.

(** ** Numbers in the instruction stream *)

Definition get64 : DM Z :=
  fetch_data 8 ;;
  a0 <- next ;; a1 <- next ;; a2 <- next ;; a3 <- next ;;
  b0 <- next ;; b1 <- next ;; b2 <- next ;; b3 <- next ;;
  let a := Z.lor (Z.lor (Z.lor a0 (Z.shiftl a1 8)) (Z.shiftl a2 16)) (Z.shiftl a3 24) in
  let b := Z.lor (Z.lor (Z.lor b0 (Z.shiftl b1 8)) (Z.shiftl b2 16)) (Z.shiftl b3 24) in
  dret (u64 (a + Z.shiftl b 32)).

Definition get32 : DM Z :=
  fetch_data 4 ;;
  x0 <- next ;; x1 <- next ;; x2 <- next ;; x3 <- next ;;
  dret (Z.lor (Z.lor (Z.lor x0 (Z.shiftl x1 8)) (Z.shiftl x2 16)) (Z.shiftl x3 24)).

Definition get32s : DM Z :=
  fetch_data 4 ;;
  x0 <- next ;; x1 <- next ;; x2 <- next ;; x3 <- next ;;
  let x := Z.lor (Z.lor (Z.lor x0 (Z.shiftl x1 8)) (Z.shiftl x2 16)) (Z.shiftl x3 24) in
  dret (Z.lxor x (Z.shiftl 1 31) - Z.shiftl 1 31).

Definition get16 : DM Z :=
  fetch_data 2 ;;
  x0 <- next ;; x1 <- next ;;
  dret (Z.lor x0 (Z.shiftl x1 8)).

(** Sign extension by [if (x & sign) x -= 2 * sign]. *)
Definition sext (sign x : Z) : Z := if x & sign then x - 2 * sign else x.

(** [disp = *codep++; if (disp & 0x80) disp -= 0x100] *)
Definition get8s : DM Z := fetch_data 1 ;; b <- next ;; dret (sext 0x80 b).
Definition get16s : DM Z := x <- get16 ;; dret (sext 0x8000 x).

Definition set_op (op riprel : Z) : DM unit :=
  ad <- gets op_ad ;;
  m <- mode64 ;;
  modify (fun s => set_op_index (<[ad := Z.of_nat ad]> (op_index s)) s) ;;
  modify (fun s => set_op_address (<[ad := if m : bool then op else Z.land op 0xffffffff]> (op_address s)) s) ;;
  modify (fun s => set_op_riprel (<[ad := if m : bool then riprel else Z.land riprel 0xffffffff]> (op_riprel s)) s).

(** ** Printing numbers *)

(** Skips the leading zeros, keeping the last character. *)
Fixpoint strip_keep (t : string) : string :=
  match t with
  | String c r =>
      if Ascii.eqb c "0" && negb (String.eqb r EmptyString) then strip_keep r else t
  | EmptyString => EmptyString
  end.

(** Skips the leading zeros, going back by one when nothing is left. *)
Fixpoint strip_all (t : string) : string :=
  match t with
  | String c r =>
      if Ascii.eqb c "0" then (if String.eqb r EmptyString then t else strip_all r) else t
  | EmptyString => EmptyString
  end.

Definition print_operand_value (m : amode) (hex : bool) (disp : Z) : string :=
  match m with
  | mode_64bit =>
      if hex then "0x" ++ strip_keep (hex_string disp)
      else
        let v := s64 disp in
        if v <? 0 then
          let v' := s64 (- disp) in
          if v' <? 0 then "-9223372036854775808"
          else "-" ++ dec_string v'
        else dec_string v
  | _ =>
      if hex then "0x" ++ hex_string (u32 disp)
      else let v := s32 disp in if v <? 0 then "-" ++ dec_string (- v) else dec_string v
  end.

Definition print_displacement (m : amode) (disp : Z) : string :=
  let val := s64 disp in
  if val <? 0 then
    let val' := s64 (- disp) in
    if val' <? 0 then
      "-" ++ match m with
             | mode_64bit => "0x8000000000000000"
             | mode_32bit => "0x80000000"
             | mode_16bit => "0x8000"
             end
    else "-0x" ++ strip_all (hex_string val')
  else "0x" ++ strip_all (hex_string val).

(** ** Segments and Intel size keywords *)

Definition append_seg1 (p : Z) (name : string) : DM unit :=
  b <- prefix p ;; when b (use_mask p ;; oappend_att name).

Definition append_seg : DM unit :=
  append_seg1 PREFIX_CS "%cs:" ;; append_seg1 PREFIX_DS "%ds:" ;;
  append_seg1 PREFIX_SS "%ss:" ;; append_seg1 PREFIX_ES "%es:" ;;
  append_seg1 PREFIX_FS "%fs:" ;; append_seg1 PREFIX_GS "%gs:".

(** The [v_mode]/[dq_mode] case, also reached from [stack_v_mode]. *)
Definition intel_size_v (bytemode sizeflag : Z) : DM unit :=
  USED_REX REX_W ;;
  w <- rex_has REX_W ;;
  oappend (if w : bool then "QWORD PTR "
           else if (sizeflag & DFLAG) || (bytemode == dq_mode) then "DWORD PTR "
           else "WORD PTR ") ;;
  use_prefix PREFIX_DATA.

Definition intel_operand_size (bytemode sizeflag : Z) : DM unit :=
  m <- mode64 ;;
  if (bytemode == b_mode) || (bytemode == dqb_mode) then oappend "BYTE PTR "
  else if (bytemode == w_mode) || (bytemode == dqw_mode) then oappend "WORD PTR "
  else if bytemode == stack_v_mode then
    if m && (sizeflag & DFLAG) then oappend "QWORD PTR " ;; use_prefix PREFIX_DATA
    else intel_size_v bytemode sizeflag
  else if (bytemode == v_mode) || (bytemode == dq_mode) then intel_size_v bytemode sizeflag
  else if bytemode == z_mode then
    w <- rex_has REX_W ;;
    when (w || (sizeflag & DFLAG)) (emit "D") ;;
    oappend "WORD PTR " ;;
    when (negb w) (use_prefix PREFIX_DATA)
  else if (bytemode == d_mode) || (bytemode == dqd_mode) then oappend "DWORD PTR "
  else if bytemode == q_mode then oappend "QWORD PTR "
  else if bytemode == m_mode then oappend (if m : bool then "QWORD PTR " else "DWORD PTR ")
  else if bytemode == f_mode then
    oappend (if sizeflag & DFLAG then "FWORD PTR " else "DWORD PTR ") ;; use_prefix PREFIX_DATA
  else if bytemode == t_mode then oappend "TBYTE PTR "
  else if bytemode == x_mode then oappend "XMMWORD PTR "
  else if bytemode == o_mode then oappend "OWORD PTR "
  else dret tt.

(** ** OP_E: a register or memory operand given by the mod/rm byte *)

(** A general register of the size selected by REX.W and the data-size flag. *)
Definition reg_v (bytemode sizeflag r : Z) : DM unit :=
  USED_REX REX_W ;;
  w <- rex_has REX_W ;;
  (if w : bool then oappend_name names64 r
   else if (sizeflag & DFLAG) || (bytemode != v_mode) then oappend_name names32 r
   else oappend_name names16 r) ;;
  use_prefix PREFIX_DATA.

Definition reg_b (r : Z) : DM unit :=
  USED_REX 0 ;;
  x <- gets rex ;;
  if x != 0 then oappend_name names8rex r else oappend_name names8 r.

(** [modrm.mod == 3] *)
Definition OP_E_reg (bytemode sizeflag r : Z) : DM unit :=
  m <- mode64 ;;
  if bytemode == b_mode then reg_b r
  else if bytemode == w_mode then oappend_name names16 r
  else if bytemode == d_mode then oappend_name names32 r
  else if bytemode == q_mode then oappend_name names64 r
  else if bytemode == m_mode then
    if m : bool then oappend_name names64 r else oappend_name names32 r
  else if bytemode == stack_v_mode then
    if m && (sizeflag & DFLAG) then oappend_name names64 r ;; use_prefix PREFIX_DATA
    else reg_v v_mode sizeflag r
  else if (bytemode == v_mode) || (bytemode == dq_mode) || (bytemode == dqb_mode)
          || (bytemode == dqd_mode) || (bytemode == dqw_mode) then reg_v bytemode sizeflag r
  else if bytemode == 0 then dret tt
  else oappend INTERNAL_DISASSEMBLER_ERROR.

(** The locals of the 32/64-bit address mode. *)
Record ea := mk_ea {
  ea_havesib : bool; ea_havebase : bool;
  ea_base : Z; ea_index : Z; ea_scale : Z;
  ea_disp : Z; ea_riprel : bool }.

(** The SIB byte: [(base, index, scale)]. *)
Definition OP_E_sib : DM (Z * Z * Z) :=
  fetch_data 1 ;;
  sib <- peek ;;
  m <- mode64 ;;
  let index := Z.land (Z.shiftr sib 3) 7 in
  let scale := if m || (index != 4) then Z.land (Z.shiftr sib 6) 3 else 0 in
  let base := Z.land sib 7 in
  USED_REX REX_X ;;
  x <- rex_has REX_X ;;
  advance 1 ;;
  dret (base, if x : bool then index + 8 else index, scale).

Definition OP_E_decode (add : Z) : DM ea :=
  rm <- gets modrm_rm ;;
  md <- gets modrm_mod ;;
  m <- mode64 ;;
  let havesib := rm == 4 in
  bis <- (if havesib then OP_E_sib else dret (rm, 0, 0)) ;;
  let '(base0, index, scale) := bis in
  let base := base0 + add in
  let nobase := (md == 0) && (Z.land base 7 == 5) in
  disp <- (if md == 0 then (if nobase then get32s else dret 0)
           else if md == 1 then get8s
           else if md == 2 then get32s
           else dret 0) ;;
  dret (mk_ea havesib (negb nobase) base index scale (u64 disp)
              (nobase && m && negb havesib)).

Definition ea_havedisp (e : ea) : bool :=
  ea_havebase e || (ea_havesib e && ((ea_index e != 4) || (ea_scale e != 0))).

(** The name of an address register. *)
Definition addr_name (sizeflag r : Z) : DM unit :=
  m <- mode64 ;;
  if m && (sizeflag & AFLAG) then oappend_name names64 r else oappend_name names32 r.

Definition SEG_PREFIXES : Z :=
  Z.lor PREFIX_CS (Z.lor PREFIX_SS (Z.lor PREFIX_DS (Z.lor PREFIX_ES (Z.lor PREFIX_FS PREFIX_GS)))).

(** ["ds:"] in front of an absolute address without a segment prefix (Intel). *)
Definition default_seg : DM unit :=
  p <- prefix SEG_PREFIXES ;;
  when (negb p) (oappend_name names_seg (ds_reg - es_reg) ;; oappend ":").

(** The sign and magnitude of a displacement inside Intel brackets. *)
Definition intel_disp (md disp : Z) : DM unit :=
  m <- gets address_mode ;;
  (if 0 <=? s64 disp then emit "+" ;; terminate ;; oappend (print_displacement m disp)
   else if md != 1 then emit "-" ;; terminate ;; oappend (print_displacement m (u64 (- s64 disp)))
   else oappend (print_displacement m disp)).

(** The displacement in front of the parentheses (AT&T). *)
Definition OP_E_disp (e : ea) : DM unit :=
  it <- intel ;;
  md <- gets modrm_mod ;;
  m <- gets address_mode ;;
  when (negb it && ((md != 0) || (Z.land (ea_base e) 7 == 5)))
    (oappend (if ea_havedisp e || ea_riprel e then print_displacement m (ea_disp e)
              else print_operand_value m true (ea_disp e)) ;;
     when (ea_riprel e) (set_op (ea_disp e) 1 ;; oappend "(%rip)")).

(** The index and scale inside the parentheses. *)
Definition OP_E_index (sizeflag : Z) (e : ea) : DM unit :=
  it <- intel ;;
  sy <- gets syn ;;
  when (ea_havesib e)
    (when (ea_index e != 4)
       (when (negb it || ea_havebase e) (emit (separator_char sy) ;; terminate) ;;
        addr_name sizeflag (ea_index e)) ;;
     when ((ea_scale e != 0) || (negb it && (ea_index e != 4)))
       (emit (scale_char sy) ;; terminate ;; oappend (dec_string (Z.shiftl 1 (ea_scale e))))).

Definition OP_E_print (sizeflag : Z) (e : ea) : DM unit :=
  it <- intel ;;
  sy <- gets syn ;;
  md <- gets modrm_mod ;;
  m <- gets address_mode ;;
  OP_E_disp e ;;
  if ea_havedisp e || (it && ea_riprel e) then
    emit (open_char sy) ;;
    when (it && ea_riprel e) (set_op (ea_disp e) 1 ;; oappend "rip") ;;
    terminate ;;
    when (ea_havebase e) (addr_name sizeflag (ea_base e)) ;;
    OP_E_index sizeflag e ;;
    when (it && ((ea_disp e != 0) || (md != 0) || (Z.land (ea_base e) 7 == 5)))
      (intel_disp md (ea_disp e)) ;;
    emit (close_char sy) ;; terminate
  else
    when (it && ((md != 0) || (Z.land (ea_base e) 7 == 5)))
      (default_seg ;; oappend (print_operand_value m true (ea_disp e))).

(** 16-bit address mode *)
Definition OP_E_16 : DM unit :=
  it <- intel ;;
  sy <- gets syn ;;
  md <- gets modrm_mod ;;
  rm <- gets modrm_rm ;;
  m <- gets address_mode ;;
  disp0 <- (if md == 0 then (if rm == 6 then get16s else dret 0)
            else if md == 1 then get8s
            else if md == 2 then get16s
            else dret 0) ;;
  let disp := u64 disp0 in
  when (negb it && ((md != 0) || (rm == 6))) (oappend (print_displacement m disp)) ;;
  if (md != 0) || (rm != 6) then
    emit (open_char sy) ;; terminate ;;
    oappend_name index16 rm ;;
    when (it && ((disp != 0) || (md != 0) || (rm == 6))) (intel_disp md disp) ;;
    emit (close_char sy) ;; terminate
  else
    when it (default_seg ;; oappend (print_operand_value m true (Z.land disp 0xffff))).

Definition OP_E (bytemode sizeflag : Z) : DM unit :=
  USED_REX REX_B ;;
  b <- rex_has REX_B ;;
  let add := if b : bool then 8 else 0 in
  MODRM_CHECK ;;
  advance 1 ;;
  md <- gets modrm_mod ;;
  rm <- gets modrm_rm ;;
  if md == 3 then OP_E_reg bytemode sizeflag (rm + add)
  else
    it <- intel ;;
    when it (intel_operand_size bytemode sizeflag) ;;
    append_seg ;;
    m <- mode64 ;;
    if (sizeflag & AFLAG) || m then e <- OP_E_decode add ;; OP_E_print sizeflag e
    else OP_E_16.
