(* ===== verification/DisasOperands.v ===== *)
(** * The remaining operand functions and the mnemonic printer (disas/i386.c)

    Register, immediate, jump, string, control-register and SIMD operands, the
    fix-up routines that rewrite the mnemonic after the operand is known, the
    template interpreter [putop] and the x87 printer [dofloat].  [run_op] is the
    call through the function pointer of a [struct dis386] operand. *)

From Stdlib Require Import ZArith Lia Bool Ascii String.
From stdpp Require Import base list.
From S2P Require Import Prelude DisasTypes DisasTables DisasOps.

Open Scope string_scope.
Open Scope Z_scope.
Open Scope dm_scope.

(** Throw away prefixes and first opcode byte. *)
Definition BadOp : DM unit :=
  modify (fun s => set_codep (S (insn_codep s)) s) ;; oappend "(bad)".

Definition OP_indirE (bytemode sizeflag : Z) : DM unit :=
  it <- intel ;; when (negb it) (oappend "*") ;; OP_E bytemode sizeflag.

Definition OP_ST (bytemode sizeflag : Z) : DM unit := oappend_att "%st".

Definition OP_STi (bytemode sizeflag : Z) : DM unit :=
  rm <- gets modrm_rm ;; oappend_att ("%st(" ++ dec_string rm ++ ")").

(** The mod/rm register number extended by a REX bit. *)
Definition rex_add (b : Z) : DM Z :=
  USED_REX b ;; x <- rex_has b ;; dret (if x : bool then 8 else 0).

Definition OP_G (bytemode sizeflag : Z) : DM unit :=
  add <- rex_add REX_R ;;
  rg <- gets modrm_reg ;;
  m <- mode64 ;;
  let r := rg + add in
  if bytemode == b_mode then reg_b r
  else if bytemode == w_mode then oappend_name names16 r
  else if bytemode == d_mode then oappend_name names32 r
  else if bytemode == q_mode then oappend_name names64 r
  else if (bytemode == v_mode) || (bytemode == dq_mode) || (bytemode == dqb_mode)
          || (bytemode == dqd_mode) || (bytemode == dqw_mode) then reg_v bytemode sizeflag r
  else if bytemode == m_mode then
    if m : bool then oappend_name names64 r else oappend_name names32 r
  else oappend INTERNAL_DISASSEMBLER_ERROR.

Definition OP_vvvv (bytemode sizeflag : Z) : DM unit :=
  USED_REX REX_W ;;
  w <- rex_has REX_W ;;
  v <- gets vex_reg ;;
  if w : bool then oappend_name names64 v else oappend_name names32 v.

(** [lo <= c <= hi], for the runs of [case] labels. *)
Definition within (c lo hi : Z) : bool := (lo <=? c) && (c <=? hi).

(** A register [eAX_reg .. eDI_reg] whose size follows REX.W and the data flag. *)
Definition reg_e (sizeflag r : Z) : DM unit :=
  USED_REX REX_W ;;
  w <- rex_has REX_W ;;
  (if w : bool then oappend_name names64 r
   else if sizeflag & DFLAG then oappend_name names32 r
   else oappend_name names16 r) ;;
  use_prefix PREFIX_DATA.

Definition OP_REG (code sizeflag : Z) : DM unit :=
  add <- rex_add REX_B ;;
  m <- mode64 ;;
  if within code ax_reg di_reg then oappend_name names16 (code - ax_reg + add)
  else if within code es_reg gs_reg then oappend_name names_seg (code - es_reg + add)
  else if within code al_reg bh_reg then
    USED_REX 0 ;;
    x <- gets rex ;;
    if x != 0 then oappend_name names8rex (code - al_reg + add)
    else oappend_name names8 (code - al_reg)
  else if within code rAX_reg rDI_reg then
    if m && (sizeflag & DFLAG) then oappend_name names64 (code - rAX_reg + add)
    else reg_e sizeflag (code - rAX_reg + add)
  else if within code eAX_reg eDI_reg then reg_e sizeflag (code - eAX_reg + add)
  else oappend INTERNAL_DISASSEMBLER_ERROR.

Definition OP_IMREG (code sizeflag : Z) : DM unit :=
  it <- intel ;;
  if code == indir_dx_reg then oappend (if it : bool then "dx" else "(%dx)")
  else if within code ax_reg di_reg then oappend_name names16 (code - ax_reg)
  else if within code es_reg gs_reg then oappend_name names_seg (code - es_reg)
  else if within code al_reg bh_reg then
    USED_REX 0 ;;
    x <- gets rex ;;
    if x != 0 then oappend_name names8rex (code - al_reg)
    else oappend_name names8 (code - al_reg)
  else if within code eAX_reg eDI_reg then reg_e sizeflag (code - eAX_reg)
  else if code == z_mode_ax_reg then
    w <- rex_has REX_W ;;
    (if w || (sizeflag & DFLAG) then oappend_name names32 0 else oappend_name names16 0) ;;
    when (negb w) (use_prefix PREFIX_DATA)
  else oappend INTERNAL_DISASSEMBLER_ERROR.

(** ["$0x.."], without the ["$"] in Intel syntax. *)
Definition oappend_imm (op : Z) : DM unit :=
  m <- gets address_mode ;; oappend_att ("$" ++ print_operand_value m true (u64 op)).

(** The [v_mode] and [w_mode] immediates, with the mask each is printed under. *)
Definition imm_dw (sizeflag : Z) : DM Z :=
  if sizeflag & DFLAG then x <- get32 ;; dret (Z.land x 0xffffffff)
  else x <- get16 ;; dret (Z.land x 0xfffff).

(** The [v_mode] case of OP_I. *)
Definition OP_I_v (sizeflag : Z) : DM unit :=
  USED_REX REX_W ;;
  w <- rex_has REX_W ;;
  op <- (if w : bool then get32s else imm_dw sizeflag) ;;
  use_prefix PREFIX_DATA ;;
  oappend_imm op.

Definition OP_I (bytemode sizeflag : Z) : DM unit :=
  m <- mode64 ;;
  it <- intel ;;
  if bytemode == b_mode then
    fetch_data 1 ;; op <- next ;; oappend_imm (Z.land op 0xff)
  else if bytemode == q_mode then
    if m : bool then op <- get32s ;; oappend_imm op else OP_I_v sizeflag
  else if bytemode == v_mode then OP_I_v sizeflag
  else if bytemode == w_mode then op <- get16 ;; oappend_imm (Z.land op 0xfffff)
  else if bytemode == const_1_mode then when it (oappend "1")
  else oappend INTERNAL_DISASSEMBLER_ERROR.

Definition OP_I64 (bytemode sizeflag : Z) : DM unit :=
  m <- mode64 ;;
  if negb m then OP_I bytemode sizeflag
  else if bytemode == b_mode then
    fetch_data 1 ;; op <- next ;; oappend_imm (Z.land op 0xff)
  else if bytemode == v_mode then
    USED_REX REX_W ;;
    w <- rex_has REX_W ;;
    op <- (if w : bool then get64 else imm_dw sizeflag) ;;
    use_prefix PREFIX_DATA ;;
    oappend_imm op
  else if bytemode == w_mode then op <- get16 ;; oappend_imm (Z.land op 0xfffff)
  else oappend INTERNAL_DISASSEMBLER_ERROR.

Definition OP_sI (bytemode sizeflag : Z) : DM unit :=
  if bytemode == b_mode then op <- get8s ;; oappend_imm op
  else if bytemode == v_mode then
    USED_REX REX_W ;;
    w <- rex_has REX_W ;;
    op <- (if w : bool then get32s else if sizeflag & DFLAG then get32s else get16s) ;;
    use_prefix PREFIX_DATA ;;
    oappend_imm op
  else if bytemode == w_mode then op <- get16s ;; oappend_imm op
  else oappend INTERNAL_DISASSEMBLER_ERROR.

(** [start_pc + codep - start_codep] *)
Definition here : DM Z := gets (fun s => u64 (start_pc s + Z.of_nat (codep s))).

(** Prints the target of a jump and records it for the address printer. *)
Definition jump_target (disp mask segment : Z) : DM unit :=
  pc <- here ;;
  m <- gets address_mode ;;
  let d := Z.lor (Z.land (u64 (pc + disp)) mask) segment in
  set_op d 0 ;; oappend (print_operand_value m true d).

Definition OP_J (bytemode sizeflag : Z) : DM unit :=
  if bytemode == b_mode then
    disp <- get8s ;; jump_target disp (2 ^ 64 - 1) 0
  else if bytemode == v_mode then
    w <- rex_has REX_W ;;
    if (sizeflag & DFLAG) || w then
      disp <- get32s ;; use_prefix PREFIX_DATA ;; jump_target disp (2 ^ 64 - 1) 0
    else
      disp <- get16s ;;
      d <- prefix PREFIX_DATA ;;
      pc <- here ;;
      use_prefix PREFIX_DATA ;;
      jump_target disp 0xffff (if d : bool then 0 else Z.land pc (2 ^ 64 - 1 - 0xffff))
  else oappend INTERNAL_DISASSEMBLER_ERROR.

Definition OP_SEG (bytemode sizeflag : Z) : DM unit :=
  rg <- gets modrm_reg ;;
  md <- gets modrm_mod ;;
  if bytemode == w_mode then oappend_name names_seg rg
  else OP_E (if md == 3 then bytemode else w_mode) sizeflag.

Definition OP_DIR (dummy sizeflag : Z) : DM unit :=
  it <- intel ;;
  offset <- (if sizeflag & DFLAG then get32 else get16) ;;
  seg <- get16 ;;
  use_prefix PREFIX_DATA ;;
  if it : bool then oappend ("0x" ++ hex_string (u32 seg) ++ ":0x" ++ hex_string (u32 offset))
  else oappend ("$0x" ++ hex_string (u32 seg) ++ ",$0x" ++ hex_string (u32 offset)).

(** The common end of OP_OFF and OP_OFF64. *)
Definition print_off (off : Z) : DM unit :=
  it <- intel ;;
  m <- gets address_mode ;;
  when it default_seg ;; oappend (print_operand_value m true (u64 off)).

Definition OP_OFF (bytemode sizeflag : Z) : DM unit :=
  it <- intel ;;
  m <- mode64 ;;
  when (it && (sizeflag & SUFFIX_ALWAYS)) (intel_operand_size bytemode sizeflag) ;;
  append_seg ;;
  off <- (if (sizeflag & AFLAG) || m then get32 else get16) ;;
  print_off off.

Definition OP_OFF64 (bytemode sizeflag : Z) : DM unit :=
  it <- intel ;;
  m <- mode64 ;;
  a <- prefix PREFIX_ADDR ;;
  if negb m || a then OP_OFF bytemode sizeflag
  else
    when (it && (sizeflag & SUFFIX_ALWAYS)) (intel_operand_size bytemode sizeflag) ;;
    append_seg ;;
    off <- get64 ;;
    print_off off.

Definition ptr_reg (code sizeflag : Z) : DM unit :=
  sy <- gets syn ;;
  m <- mode64 ;;
  emit (open_char sy) ;;
  use_prefix PREFIX_ADDR ;;
  let r := code - eAX_reg in
  (if m : bool then
     if negb (sizeflag & AFLAG) then oappend_name names32 r else oappend_name names64 r
   else if sizeflag & AFLAG then oappend_name names32 r
   else oappend_name names16 r) ;;
  emit (close_char sy) ;; terminate.

Definition OP_ESreg (code sizeflag : Z) : DM unit :=
  it <- intel ;;
  (if it : bool then
     b <- prev_byte ;;
     if b == 0x6d then intel_operand_size z_mode sizeflag
     else if (b == 0xa5) || (b == 0xa7) || (b == 0xab) || (b == 0xaf)
     then intel_operand_size v_mode sizeflag
     else intel_operand_size b_mode sizeflag
   else dret tt) ;;
  oappend_att "%es:" ;;
  ptr_reg code sizeflag.

Definition OP_DSreg (code sizeflag : Z) : DM unit :=
  it <- intel ;;
  (if it : bool then
     b <- prev_byte ;;
     if b == 0x6f then intel_operand_size z_mode sizeflag
     else if (b == 0xa5) || (b == 0xa7) || (b == 0xad)
     then intel_operand_size v_mode sizeflag
     else intel_operand_size b_mode sizeflag
   else dret tt) ;;
  p <- prefix SEG_PREFIXES ;;
  when (negb p) (modify (fun s => set_prefixes (Z.lor (prefixes s) PREFIX_DS) s)) ;;
  append_seg ;;
  ptr_reg code sizeflag.

(** ** Control, debug, test and SIMD registers *)

Definition OP_C (dummy sizeflag : Z) : DM unit :=
  r <- rex_has REX_R ;;
  m <- mode64 ;;
  l <- prefix PREFIX_LOCK ;;
  rg <- gets modrm_reg ;;
  add <- (if r : bool then USED_REX REX_R ;; dret 8
          else if negb m && l then use_mask PREFIX_LOCK ;; dret 8
          else dret 0) ;;
  oappend_att ("%cr" ++ dec_string (rg + add)).

Definition OP_D (dummy sizeflag : Z) : DM unit :=
  it <- intel ;;
  add <- rex_add REX_R ;;
  rg <- gets modrm_reg ;;
  oappend ((if it : bool then "db" else "%db") ++ dec_string (rg + add)).

Definition OP_T (dummy sizeflag : Z) : DM unit :=
  rg <- gets modrm_reg ;; oappend_att ("%tr" ++ dec_string rg).

Definition OP_R (bytemode sizeflag : Z) : DM unit :=
  md <- gets modrm_mod ;; if md == 3 then OP_E bytemode sizeflag else BadOp.

Definition xmm_name (r : Z) : string := "%xmm" ++ dec_string r.
Definition mm_name (r : Z) : string := "%mm" ++ dec_string r.

Definition OP_MMX (bytemode sizeflag : Z) : DM unit :=
  use_prefix PREFIX_DATA ;;
  d <- prefix PREFIX_DATA ;;
  rg <- gets modrm_reg ;;
  if d : bool then add <- rex_add REX_R ;; oappend_att (xmm_name (rg + add))
  else oappend_att (mm_name rg).

Definition OP_XMM (bytemode sizeflag : Z) : DM unit :=
  add <- rex_add REX_R ;; rg <- gets modrm_reg ;; oappend_att (xmm_name (rg + add)).

(** The memory form of OP_EM and OP_EMC. *)
Definition OP_EM_mem (bytemode sizeflag : Z) : DM unit :=
  it <- intel ;;
  if it && (bytemode == v_mode) then
    d <- prefix PREFIX_DATA ;;
    use_prefix PREFIX_DATA ;;
    OP_E (if d : bool then x_mode else q_mode) sizeflag
  else OP_E bytemode sizeflag.

Definition OP_EM (bytemode sizeflag : Z) : DM unit :=
  md <- gets modrm_mod ;;
  rm <- gets modrm_rm ;;
  if md != 3 then OP_EM_mem bytemode sizeflag
  else
    MODRM_CHECK ;; advance 1 ;;
    use_prefix PREFIX_DATA ;;
    d <- prefix PREFIX_DATA ;;
    if d : bool then add <- rex_add REX_B ;; oappend_att (xmm_name (rm + add))
    else oappend_att (mm_name rm).

Definition OP_EMC (bytemode sizeflag : Z) : DM unit :=
  md <- gets modrm_mod ;;
  rm <- gets modrm_rm ;;
  if md != 3 then OP_EM_mem bytemode sizeflag
  else
    MODRM_CHECK ;; advance 1 ;;
    use_prefix PREFIX_DATA ;;
    oappend_att (mm_name rm).

Definition OP_MXC (bytemode sizeflag : Z) : DM unit :=
  use_prefix PREFIX_DATA ;; rg <- gets modrm_reg ;; oappend_att (mm_name rg).

Definition OP_EX (bytemode sizeflag : Z) : DM unit :=
  md <- gets modrm_mod ;;
  rm <- gets modrm_rm ;;
  if md != 3 then OP_E bytemode sizeflag
  else add <- rex_add REX_B ;; MODRM_CHECK ;; advance 1 ;; oappend_att (xmm_name (rm + add)).

Definition OP_MS (bytemode sizeflag : Z) : DM unit :=
  md <- gets modrm_mod ;; if md == 3 then OP_EM bytemode sizeflag else BadOp.

Definition OP_XS (bytemode sizeflag : Z) : DM unit :=
  md <- gets modrm_mod ;; if md == 3 then OP_EX bytemode sizeflag else BadOp.

(** bad bound, lea, lds, les, lfs, lgs, lss, cmpxchg8b, vmptrst modrm *)
Definition OP_M (bytemode sizeflag : Z) : DM unit :=
  md <- gets modrm_mod ;; if md == 3 then BadOp else OP_E bytemode sizeflag.

Definition OP_0f07 (bytemode sizeflag : Z) : DM unit :=
  md <- gets modrm_mod ;;
  rm <- gets modrm_rm ;;
  if (md != 3) || (rm != 0) then BadOp else OP_E bytemode sizeflag.

Definition OP_0fae (bytemode sizeflag : Z) : DM unit :=
  md <- gets modrm_mod ;;
  rg <- gets modrm_reg ;;
  rm <- gets modrm_rm ;;
  if md == 3 then
    when (rg == 7) (obuf_overwrite_tail 7 "sfence") ;;
    if (rg <? 5) || (rm != 0) then BadOp else OP_E bytemode sizeflag
  else if rg != 7 then BadOp
  else OP_E bytemode sizeflag.

(** ** Fix-ups of the mnemonic *)

(** xchg %ax,%ax with a prefix that makes it more than a nop. *)
Definition nop_is_xchg : DM bool :=
  d <- prefix PREFIX_DATA ;;
  x <- gets rex ;;
  m <- mode64 ;;
  dret (d || ((x != 0) && (x != 0x48) && m)).

Definition NOP_Fixup1 (bytemode sizeflag : Z) : DM unit :=
  x <- nop_is_xchg ;;
  if x : bool then OP_REG bytemode sizeflag else modify (set_obuf "nop").

Definition NOP_Fixup2 (bytemode sizeflag : Z) : DM unit :=
  x <- nop_is_xchg ;; when x (OP_IMREG bytemode sizeflag).

(** Undoes the two operands printed before a bad suffix byte. *)
Definition clear_two_operands : DM unit :=
  strcpy_op_out 0 EmptyString ;; strcpy_op_out 1 EmptyString ;; BadOp.

Definition OP_3DNowSuffix (bytemode sizeflag : Z) : DM unit :=
  fetch_data 1 ;;
  obufp_to_end ;;
  b <- next ;;
  match Suffix3DNow !! Z.to_nat (Z.land b 0xff) with
  | Some (Some mnemonic) => oappend mnemonic
  | Some None => clear_two_operands
  | None => dfail OutOfBounds
  end.

Definition OP_SIMD_Suffix (bytemode sizeflag : Z) : DM unit :=
  fetch_data 1 ;;
  obufp_to_end ;;
  b <- next ;;
  let cmp_type := Z.land b 0xff in
  if cmp_type <? 8 then
    use_prefix PREFIX_REPZ ;;
    z <- prefix PREFIX_REPZ ;;
    suffix <- (if z : bool then dret "ss"
               else
                 use_prefix PREFIX_DATA ;;
                 d <- prefix PREFIX_DATA ;;
                 if d : bool then dret "pd"
                 else
                   use_prefix PREFIX_REPNZ ;;
                   n <- prefix PREFIX_REPNZ ;;
                   dret (if n : bool then "sd" else "ps")) ;;
    use_prefix PREFIX_REPZ ;;
    match simd_cmp_op !! Z.to_nat cmp_type with
    | Some op => oappend ("cmp" ++ op ++ suffix)
    | None => dfail OutOfBounds
    end
  else clear_two_operands.

(** movlps/movhps become movhlps/movlhps in the two-register forms. *)
Definition SIMD_Fixup (extrachar sizeflag : Z) : DM unit := fun s =>
  if modrm_mod s == 3 then
    let len := String.length (obuf s) in
    if (len <? 3)%nat then Err OutOfBounds
    else Ok (tt, set_obuf (stake (len - 3) (obuf s)
                  ++ String (ascii_of_N (Z.to_N extrachar)) (sdrop (len - 3) (obuf s))) s)
  else Ok (tt, s).

(** The position of the four-letter mnemonic at the end of [obuf], one earlier
    when the suffix letter [c] is found there. *)
Definition tail_position (c : ascii) : DM nat := fun s =>
  let olen := String.length (obuf s) in
  if (olen <? 4)%nat then Err OutOfBounds
  else
    let p := (olen - 4)%nat in
    if Ascii.eqb (head (sdrop p (obuf s))) c
    then match p with O => Err OutOfBounds | S q => Ok (q, s) end
    else Ok (p, s).

(** [strcpy (obuf + p, t)] *)
Definition obuf_strcpy_at (p : nat) (t : string) : DM unit :=
  modify (fun s => set_obuf (stake p (obuf s) ++ t) s).

(** The name tables PNI_Fixup chooses between. *)
Definition pni_names : DM (syntax -> list string) :=
  m <- mode64 ;; dret (if m : bool then names64 else names32).

(** Skips an "addr16 "/"addr32 " in front of the mnemonic at [p]. *)
Definition pni_skip_addr (p : nat) : DM nat := fun s =>
  let olen := String.length (obuf s) in
  if negb (intel_syntax (syn s)) && (prefixes s & PREFIX_ADDR) && (11 <=? olen)%nat
     && Ascii.eqb (head (sdrop (p - 1) (obuf s))) " "
  then
    if (p <? 7)%nat then Err OutOfBounds
    else if String.eqb (stake 4 (sdrop (p - 7) (obuf s))) "addr"
            && (String.eqb (stake 2 (sdrop (p - 3) (obuf s))) "16"
                || String.eqb (stake 2 (sdrop (p - 3) (obuf s))) "32")
    then Ok ((p - 7)%nat, s) else Ok (p, s)
  else Ok (p, s).

(** The operands of monitor. *)
Definition pni_monitor_operands : DM unit :=
  names <- pni_names ;;
  a <- prefix PREFIX_ADDR ;;
  m <- gets address_mode ;;
  n0 <- (if a : bool then
           use_mask PREFIX_ADDR ;;
           match m with mode_32bit => name_at names16 0 | _ => name_at names32 0 end
         else match m with mode_16bit => name_at names16 0 | _ => name_at names 0 end) ;;
  strcpy_op_out 0 n0 ;;
  n2 <- name_at names 2 ;;
  strcpy_op_out 2 n2.

Definition PNI_Fixup (extrachar sizeflag : Z) : DM unit :=
  md <- gets modrm_mod ;;
  rg <- gets modrm_reg ;;
  rm <- gets modrm_rm ;;
  it <- intel ;;
  if (md == 3) && (rg == 1) && (rm <=? 1) then
    names <- pni_names ;;
    p0 <- tail_position "i" ;;
    p <- pni_skip_addr p0 ;;
    (if rm != 0 then
       obuf_strcpy_at p "mwait" ;;
       when (negb it) (n0 <- name_at names 0 ;; strcpy_op_out 0 n0)
     else
       obuf_strcpy_at p "monitor" ;;
       when (negb it) pni_monitor_operands) ;;
    when (negb it)
      (n1 <- name_at names 1 ;; strcpy_op_out 1 n1 ;; modify (set_two_source_ops true)) ;;
    advance 1
  else OP_M 0 sizeflag.

(** The SVM instruction encoded by a mod/rm byte. *)
Definition svme_name (b : Z) : option string :=
  if b == 0xd8 then Some "vmrun" else if b == 0xd9 then Some "vmmcall"
  else if b == 0xda then Some "vmload" else if b == 0xdb then Some "vmsave"
  else if b == 0xdc then Some "stgi" else if b == 0xdd then Some "clgi"
  else if b == 0xde then Some "skinit" else if b == 0xdf then Some "invlpga"
  else None.

Definition SVME_Fixup (bytemode sizeflag : Z) : DM unit :=
  b <- peek ;;
  match svme_name b with
  | None => OP_M bytemode sizeflag
  | Some alt =>
      p <- tail_position "i" ;;
      obuf_strcpy_at p alt ;;
      a <- prefix PREFIX_ADDR ;;
      if negb a then advance 1
      else
        use_mask PREFIX_ADDR ;;
        advance 1 ;;
        sy <- gets syn ;;
        m <- mode64 ;;
        when (b == 0xdf)
          (n <- name_at names32 1 ;; strcpy_op_out 1 n ;; modify (set_two_source_ops true)) ;;
        when ((b == 0xdf) || (b == 0xd8) || (b == 0xda) || (b == 0xdb))
          (emit (open_char sy) ;;
           (if m || (sizeflag & AFLAG) then oappend_name names32 0 else oappend_name names16 0) ;;
           emit (close_char sy) ;; terminate)
  end.

Definition INVLPG_Fixup (bytemode sizeflag : Z) : DM unit :=
  b <- peek ;;
  if b == 0xf8 then obuf_overwrite_tail 6 "swapgs" ;; advance 1
  else if b == 0xf9 then obuf_overwrite_tail 6 "rdtscp" ;; advance 1
  else OP_M bytemode sizeflag.

Definition VMX_Fixup (extrachar sizeflag : Z) : DM unit :=
  md <- gets modrm_mod ;;
  rg <- gets modrm_reg ;;
  rm <- gets modrm_rm ;;
  if (md == 3) && (rg == 0) && within rm 1 4 then
    p <- tail_position "g" ;;
    obuf_strcpy_at p (if rm == 1 then "vmcall" else if rm == 2 then "vmlaunch"
                      else if rm == 3 then "vmresume" else "vmxoff") ;;
    advance 1
  else OP_E 0 sizeflag.

Definition OP_VMX (bytemode sizeflag : Z) : DM unit :=
  use_prefix (Z.lor PREFIX_DATA PREFIX_REPZ) ;;
  d <- prefix PREFIX_DATA ;;
  z <- prefix PREFIX_REPZ ;;
  modify (set_obuf (if d : bool then "vmclear" else if z : bool then "vmxon" else "vmptrld")) ;;
  OP_E bytemode sizeflag.

(** The length of the mnemonic after a "repz " that is shortened to "rep ". *)
Definition rep_ilen (op sizeflag : Z) : DM nat :=
  it <- intel ;;
  if (op == 0x6e) || (op == 0x6f) || (op == 0xa4) || (op == 0xa5)
  then dret (if negb it then 5%nat else 4%nat)
  else if within op 0xaa 0xad
  then dret (if negb it && (sizeflag & SUFFIX_ALWAYS) then 5%nat else 4%nat)
  else if (op == 0x6c) || (op == 0x6d) then dret (if negb it then 4%nat else 3%nat)
  else dfail Aborted.

(** Removes the 'z' of "repz ". *)
Definition rep_remove_z (ilen : nat) : DM unit := fun s =>
  let olen := String.length (obuf s) in
  let back := (ilen + 1 + 4 + (if prefixes s & PREFIX_ADDR then 7 else 0))%nat in
  if (olen <? back)%nat then Err OutOfBounds
  else
    let p := (olen - back)%nat in
    Ok (tt, set_obuf (stake (p + 3) (obuf s) ++ sdrop (p + 4) (obuf s)) s).

Definition REP_Fixup (bytemode sizeflag : Z) : DM unit :=
  z <- prefix PREFIX_REPZ ;;
  when z
    (i <- gets insn_codep ;;
     op <- getb i ;;
     ilen <- rep_ilen op sizeflag ;;
     rep_remove_z ilen) ;;
  if (bytemode == al_reg) || (bytemode == eAX_reg) || (bytemode == indir_dx_reg)
  then OP_IMREG bytemode sizeflag
  else if bytemode == eDI_reg then OP_ESreg bytemode sizeflag
  else if bytemode == eSI_reg then OP_DSreg bytemode sizeflag
  else dfail Aborted.

Definition CMPXCHG8B_Fixup (bytemode sizeflag : Z) : DM unit :=
  USED_REX REX_W ;;
  w <- rex_has REX_W ;;
  if w : bool then obuf_overwrite_tail 2 "16b" ;; OP_M o_mode sizeflag
  else OP_M bytemode sizeflag.

Definition XMM_Fixup (reg sizeflag : Z) : DM unit := oappend_att (xmm_name reg).

(** [*p++ = c; *p = 0] at the end of [obuf] *)
Definition obuf_append_char (c : ascii) : DM unit :=
  modify (fun s => set_obuf (obuf s ++ String c EmptyString) s).

Definition CRC32_suffix (bytemode sizeflag : Z) : DM unit :=
  it <- intel ;;
  if bytemode == b_mode then when (negb it) (obuf_append_char "b")
  else if bytemode == v_mode then
    when (negb it)
      (USED_REX REX_W ;;
       w <- rex_has REX_W ;;
       obuf_append_char (if w : bool then "q" else if sizeflag & DFLAG then "l" else "w")%char ;;
       use_prefix PREFIX_DATA)
  else oappend INTERNAL_DISASSEMBLER_ERROR.

Definition CRC32_Fixup (bytemode sizeflag : Z) : DM unit :=
  CRC32_suffix bytemode sizeflag ;;
  md <- gets modrm_mod ;;
  rm <- gets modrm_rm ;;
  if md == 3 then
    MODRM_CHECK ;; advance 1 ;;
    add <- rex_add REX_B ;;
    if bytemode == b_mode then reg_b (rm + add)
    else
      USED_REX REX_W ;;
      w <- rex_has REX_W ;;
      d <- prefix PREFIX_DATA ;;
      if w : bool then oappend_name names64 (rm + add)
      else if d : bool then oappend_name names16 (rm + add)
      else oappend_name names32 (rm + add)
  else OP_E bytemode sizeflag.

(** ** The call through an operand's function pointer *)

Definition run_op (r : op_rtn) : Z -> Z -> DM unit :=
  match r with
  | OP_ST_rtn => OP_ST | OP_STi_rtn => OP_STi | OP_indirE_rtn => OP_indirE
  | OP_E_rtn => OP_E | OP_G_rtn => OP_G | OP_vvvv_rtn => OP_vvvv
  | OP_REG_rtn => OP_REG | OP_IMREG_rtn => OP_IMREG | OP_I_rtn => OP_I
  | OP_I64_rtn => OP_I64 | OP_sI_rtn => OP_sI | OP_J_rtn => OP_J
  | OP_SEG_rtn => OP_SEG | OP_DIR_rtn => OP_DIR | OP_OFF_rtn => OP_OFF
  | OP_OFF64_rtn => OP_OFF64 | OP_ESreg_rtn => OP_ESreg | OP_DSreg_rtn => OP_DSreg
  | OP_C_rtn => OP_C | OP_D_rtn => OP_D | OP_T_rtn => OP_T | OP_R_rtn => OP_R
  | OP_MMX_rtn => OP_MMX | OP_XMM_rtn => OP_XMM | OP_EM_rtn => OP_EM
  | OP_EX_rtn => OP_EX | OP_EMC_rtn => OP_EMC | OP_MXC_rtn => OP_MXC
  | OP_MS_rtn => OP_MS | OP_XS_rtn => OP_XS | OP_M_rtn => OP_M | OP_VMX_rtn => OP_VMX
  | OP_0fae_rtn => OP_0fae | OP_0f07_rtn => OP_0f07
  | NOP_Fixup1_rtn => NOP_Fixup1 | NOP_Fixup2_rtn => NOP_Fixup2
  | OP_3DNowSuffix_rtn => OP_3DNowSuffix | OP_SIMD_Suffix_rtn => OP_SIMD_Suffix
  | SIMD_Fixup_rtn => SIMD_Fixup | PNI_Fixup_rtn => PNI_Fixup
  | SVME_Fixup_rtn => SVME_Fixup | INVLPG_Fixup_rtn => INVLPG_Fixup
  | VMX_Fixup_rtn => VMX_Fixup | REP_Fixup_rtn => REP_Fixup
  | CMPXCHG8B_Fixup_rtn => CMPXCHG8B_Fixup | XMM_Fixup_rtn => XMM_Fixup
  | CRC32_Fixup_rtn => CRC32_Fixup
  end.
