(* ===== verification/Disas.v ===== *)
(** * Decoding one instruction (disas/i386.c)

    The mnemonic templates ([putop]), the prefix scanners ([ckprefix],
    [ckvexprefix]) and the two printers of x87 instructions and whole
    instructions.  [disas_get_mem] is the entry point Razzer added: it decodes the
    instruction at the guest's rip from a 15-byte buffer and leaves the text of
    each operand in the caller's array.

    The file-level variables keep their values between calls, so [disas_get_mem]
    runs on the state left by the previous one. *)

From Stdlib Require Import ZArith Lia Bool Ascii String.
From stdpp Require Import base list.
From S2P Require Import Prelude DisasTypes DisasTables DisasOps DisasOperands.

Open Scope string_scope.
Open Scope Z_scope.
Open Scope dm_scope.

(** ** Mnemonic templates *)

(** The result of skipping [n] alternatives of a template. *)
Inductive skip_result := SkipOk (rest : string) | SkipBad | SkipAbort.

Fixpoint skip_alts (n : nat) (p : string) : skip_result :=
  match n, p with
  | O, _ => SkipOk p
  | S _, EmptyString => SkipAbort
  | S n', String c r =>
      if Ascii.eqb c "|" then skip_alts n' r
      else if Ascii.eqb c "}" then SkipBad
      else skip_alts n r
  end.

(** The text after the next closing brace. *)
Fixpoint skip_brace (p : string) : option string :=
  match p with
  | EmptyString => None
  | String c r => if Ascii.eqb c "}" then Some r else skip_brace r
  end.

(** The size letter under REX.W and the data flag. *)
Definition size_letter (w it : bool) (sizeflag : Z) : ascii :=
  if w then "q" else if sizeflag & DFLAG then (if it then "d" else "l") else "w".

Definition not_reg_or_suffix (sizeflag : Z) : DM bool :=
  md <- gets modrm_mod ;; dret ((md != 3) || (sizeflag & SUFFIX_ALWAYS)).

Definition putop_L (sizeflag : Z) : DM unit :=
  it <- intel ;; when (negb it && (sizeflag & SUFFIX_ALWAYS)) (emit "l").

Definition putop_P (sizeflag : Z) : DM unit :=
  it <- intel ;;
  d <- prefix PREFIX_DATA ;;
  w <- rex_has REX_W ;;
  when (negb it && (d || w || (sizeflag & SUFFIX_ALWAYS)))
    (USED_REX REX_W ;; emit (size_letter w false sizeflag) ;; use_prefix PREFIX_DATA).

Definition putop_Q (alt : bool) (sizeflag : Z) : DM unit :=
  it <- intel ;;
  w <- rex_has REX_W ;;
  n <- not_reg_or_suffix sizeflag ;;
  when (negb (it && negb alt))
    (USED_REX REX_W ;;
     when n (emit (size_letter w it sizeflag) ;; use_prefix PREFIX_DATA)).

Definition putop_S (sizeflag : Z) : DM unit :=
  it <- intel ;;
  w <- rex_has REX_W ;;
  when (negb it && (sizeflag & SUFFIX_ALWAYS))
    (emit (size_letter w false sizeflag) ;; when (negb w) (use_prefix PREFIX_DATA)).

(** One letter of a template; [last] says that it is the final character. *)
Definition putop_letter (c : ascii) (alt last : bool) (sizeflag : Z) : DM unit :=
  it <- intel ;;
  m <- mode64 ;;
  md <- gets modrm_mod ;;
  w <- rex_has REX_W ;;
  let on k := Ascii.eqb c k in
  if on "A"%char then
    n <- not_reg_or_suffix sizeflag ;; when (negb it && n) (emit "b")
  else if on "B"%char then when (negb it && (sizeflag & SUFFIX_ALWAYS)) (emit "b")
  else if on "C"%char then
    d <- prefix PREFIX_DATA ;;
    when (negb (it && negb alt) && (d || (sizeflag & SUFFIX_ALWAYS)))
      (emit (if sizeflag & DFLAG then (if it : bool then "d" else "l")
             else (if it : bool then "w" else "s"))%char ;;
       use_prefix PREFIX_DATA)
  else if on "D"%char then
    when (negb it && (sizeflag & SUFFIX_ALWAYS))
      (USED_REX REX_W ;;
       if md == 3 then emit (size_letter w it sizeflag) ;; use_prefix PREFIX_DATA
       else emit "w")
  else if on "E"%char then
    (if m : bool then emit (if sizeflag & AFLAG then "r" else "e")%char
     else when (sizeflag & AFLAG) (emit "e")) ;;
    use_prefix PREFIX_ADDR
  else if on "F"%char then
    a <- prefix PREFIX_ADDR ;;
    when (negb it && (a || (sizeflag & SUFFIX_ALWAYS)))
      (emit (if sizeflag & AFLAG then (if m : bool then "q" else "l")
             else (if m : bool then "l" else "w"))%char ;;
       use_prefix PREFIX_ADDR)
  else if on "G"%char then
    cur <- gets obufp ;;
    let '(b, off) := cur in
    match off with
    | O => dfail OutOfBounds
    | S q =>
        t <- gets (buf_get b) ;;
        when (negb (it || (negb (Ascii.eqb (head (sdrop q t)) "s") && negb (sizeflag & SUFFIX_ALWAYS))))
          (emit (if w || (sizeflag & DFLAG) then "l" else "w")%char ;;
           when (negb w) (use_prefix PREFIX_DATA))
    end
  else if on "H"%char then
    p <- gets prefixes ;;
    let cd := Z.land p (Z.lor PREFIX_CS PREFIX_DS) in
    when (negb it && ((cd == PREFIX_CS) || (cd == PREFIX_DS)))
      (use_prefix (Z.lor PREFIX_CS PREFIX_DS) ;;
       emit "," ;; emit "p" ;; emit (if p & PREFIX_DS then "t" else "n")%char)
  else if on "J"%char then when (negb it) (emit "l")
  else if on "K"%char then USED_REX REX_W ;; emit (if w : bool then "q" else "d")%char
  else if on "Z"%char then
    when (negb it)
      (if m && (sizeflag & SUFFIX_ALWAYS) then emit "q" else putop_L sizeflag)
  else if on "L"%char then putop_L sizeflag
  else if on "N"%char then
    f <- prefix PREFIX_FWAIT ;;
    if f : bool then use_mask PREFIX_FWAIT else emit "n"
  else if on "O"%char then
    USED_REX REX_W ;;
    emit (if w : bool then "o" else if it && (sizeflag & DFLAG) then "q" else "d")%char ;;
    when (negb w) (use_prefix PREFIX_DATA)
  else if on "T"%char then
    when (negb it) (if m && (sizeflag & DFLAG) then emit "q" else putop_P sizeflag)
  else if on "P"%char then putop_P sizeflag
  else if on "U"%char then
    when (negb it)
      (if m && (sizeflag & DFLAG)
       then n <- not_reg_or_suffix sizeflag ;; when n (emit "q")
       else putop_Q alt sizeflag)
  else if on "Q"%char then putop_Q alt sizeflag
  else if on "R"%char then
    USED_REX REX_W ;;
    emit (size_letter w it sizeflag) ;;
    when (it && last && (w || (sizeflag & DFLAG))) (emit "e") ;;
    when (negb w) (use_prefix PREFIX_DATA)
  else if on "V"%char then
    when (negb it)
      (if m && (sizeflag & DFLAG) then when (sizeflag & SUFFIX_ALWAYS) (emit "q")
       else putop_S sizeflag)
  else if on "S"%char then putop_S sizeflag
  else if on "X"%char then
    d <- prefix PREFIX_DATA ;;
    emit (if d : bool then "d" else "s")%char ;; use_prefix PREFIX_DATA
  else if on "Y"%char then when (negb it && w) (USED_REX REX_W ;; emit "q")
  else if on "W"%char then
    USED_REX REX_W ;;
    emit (if w : bool then (if it : bool then "d" else "l")
          else if sizeflag & DFLAG then "w" else "b")%char ;;
    when (negb w) (use_prefix PREFIX_DATA)
  else emit c.

(** The loop over the template; returns whether the alternative for this mode
    does not exist. *)
Fixpoint putop_loop (fuel : nat) (p : string) (alt : bool) (sizeflag : Z) : DM bool :=
  match fuel with
  | O => dfail OutOfFuel
  | S fuel =>
      match p with
      | EmptyString => terminate ;; dret false
      | String c r =>
          if Ascii.eqb c "{" then
            it <- intel ;;
            m <- mode64 ;;
            let n := ((if it : bool then 1 else 0) + (if m : bool then 2 else 0))%nat in
            match skip_alts n r with
            | SkipOk r' => putop_loop fuel r' true sizeflag
            | SkipBad =>
                modify (set_obuf "(bad)") ;; modify (set_obufp (Obuf, 5%nat)) ;; dret true
            | SkipAbort => dfail Aborted
            end
          else if Ascii.eqb c "I" then putop_loop fuel r true sizeflag
          else if Ascii.eqb c "|" then
            match skip_brace r with
            | Some r' => putop_loop fuel r' false sizeflag
            | None => dfail Aborted
            end
          else if Ascii.eqb c "}" then putop_loop fuel r false sizeflag
          else
            putop_letter c alt (String.eqb r EmptyString) sizeflag ;;
            putop_loop fuel r false sizeflag
      end
  end.

Definition putop (template : option string) (sizeflag : Z) : DM bool :=
  match template with
  | None => dfail NullDeref
  | Some t => putop_loop (S (String.length t)) t false sizeflag
  end.

(** ** Prefixes *)

(** What a byte means to the prefix scanner. *)
Inductive prefix_kind := PRex | PFlag (p : Z) | PFwait | PNone.

Definition classify_prefix (b : Z) : prefix_kind :=
  if within b 0x40 0x4f then PRex
  else if b == 0xf3 then PFlag PREFIX_REPZ else if b == 0xf2 then PFlag PREFIX_REPNZ
  else if b == 0xf0 then PFlag PREFIX_LOCK else if b == 0x2e then PFlag PREFIX_CS
  else if b == 0x36 then PFlag PREFIX_SS else if b == 0x3e then PFlag PREFIX_DS
  else if b == 0x26 then PFlag PREFIX_ES else if b == 0x64 then PFlag PREFIX_FS
  else if b == 0x65 then PFlag PREFIX_GS else if b == 0x66 then PFlag PREFIX_DATA
  else if b == 0x67 then PFlag PREFIX_ADDR
  else if b == FWAIT_OPCODE then PFwait
  else PNone.

(** A REX prefix followed by another prefix is ignored: the scan stops there. *)
Definition ckprefix_tail (newrex : Z) (continue : DM unit) : DM unit :=
  x <- gets rex ;;
  if x != 0 then modify (set_rex_used x)
  else modify (set_rex newrex) ;; advance 1 ;; continue.

Fixpoint ckprefix_loop (fuel : nat) : DM unit :=
  match fuel with
  | O => dfail OutOfFuel
  | S fuel =>
      fetch_data 1 ;;
      b <- peek ;;
      m <- mode64 ;;
      match classify_prefix b with
      | PRex => if m : bool then ckprefix_tail b (ckprefix_loop fuel) else dret tt
      | PFlag p =>
          modify (fun s => set_prefixes (Z.lor (prefixes s) p) s) ;;
          ckprefix_tail 0 (ckprefix_loop fuel)
      | PFwait =>
          p <- gets prefixes ;;
          x <- gets rex ;;
          if (p != 0) || (x != 0) then
            modify (fun s => set_prefixes (Z.lor (prefixes s) PREFIX_FWAIT) s) ;; advance 1
          else
            modify (set_prefixes PREFIX_FWAIT) ;; ckprefix_tail 0 (ckprefix_loop fuel)
      | PNone => dret tt
      end
  end.

(** Each round but the last consumes a byte of the 16-byte buffer. *)
Definition ckprefix : DM unit :=
  modify (fun s => set_rex_used 0 (set_used_prefixes 0 (set_prefixes 0 (set_rex 0 s)))) ;;
  ckprefix_loop (S MAX_MNEM_SIZE).

(** The REX bits of the second byte of a VEX prefix are stored inverted. *)
Definition vex_not (b m r : Z) : Z := if b & m then 0 else r.

Definition vex_map_prefixes (mmmmm : Z) : Z :=
  if mmmmm == 1 then PREFIX_VEX_0F
  else if mmmmm == 2 then Z.lor PREFIX_VEX_0F PREFIX_VEX_0F38
  else if mmmmm == 3 then Z.lor PREFIX_VEX_0F PREFIX_VEX_0F3A
  else 0.

Definition vex_pp_prefix (pp : Z) : Z :=
  if pp == 1 then PREFIX_DATA else if pp == 2 then PREFIX_REPZ
  else if pp == 3 then PREFIX_REPNZ else 0.

(** The part common to both VEX forms: VEX.vvvv, VEX.pp. *)
Definition vex_finish (vex2 newrex newpfx : Z) : DM unit :=
  modify (set_vex_reg (Z.land (Z.shiftr (Z.lnot vex2) 3) 15)) ;;
  modify (set_rex newrex) ;;
  modify (set_prefixes (Z.lor newpfx (vex_pp_prefix (Z.land vex2 3)))).

Definition ckvexprefix : DM unit :=
  m <- gets address_mode ;;
  pfx <- gets prefixes ;;
  match m with
  | mode_16bit => dret tt
  | _ =>
      fetch_data 1 ;;
      op <- peek ;;
      if (op != 0xc4) && (op != 0xc5) then dret tt
      else
        fetch_data 2 ;;
        i <- gets codep ;;
        vex2 <- getb (i + 1) ;;
        if negb (is64 m) && (Z.land vex2 0xc0 != 0xc0) then dret tt
        else if op == 0xc4 then
          fetch_data 3 ;;
          vex3 <- getb (i + 2) ;;
          let newrex := Z.lor (Z.lor (Z.lor (vex_not vex2 0x80 REX_R) (vex_not vex2 0x40 REX_X))
                                     (vex_not vex2 0x20 REX_B)) (if vex3 & 0x80 then REX_W else 0) in
          let newpfx := Z.lor pfx (vex_map_prefixes (Z.land vex2 0x1f)) in
          advance 3 ;; vex_finish vex3 newrex newpfx
        else
          advance 2 ;; vex_finish vex2 (vex_not vex2 0x80 REX_R) pfx
  end.

Definition rexes : list string :=
  [ "rex"; "rex.B"; "rex.X"; "rex.XB"; "rex.R"; "rex.RB"; "rex.RX"; "rex.RXB";
    "rex.W"; "rex.WB"; "rex.WX"; "rex.WXB"; "rex.WR"; "rex.WRB"; "rex.WRX"; "rex.WRXB" ].

Definition prefix_name (m : amode) (pref sizeflag : Z) : option string :=
  if within pref 0x40 0x4f then rexes !! Z.to_nat (pref - 0x40)
  else if pref == 0xf3 then Some "repz" else if pref == 0xf2 then Some "repnz"
  else if pref == 0xf0 then Some "lock" else if pref == 0x2e then Some "cs"
  else if pref == 0x36 then Some "ss" else if pref == 0x3e then Some "ds"
  else if pref == 0x26 then Some "es" else if pref == 0x64 then Some "fs"
  else if pref == 0x65 then Some "gs"
  else if pref == 0x66 then Some (if sizeflag & DFLAG then "data16" else "data32")
  else if pref == 0x67 then
    Some (if is64 m then (if sizeflag & AFLAG then "addr32" else "addr64")
          else (if sizeflag & AFLAG then "addr16" else "addr32"))
  else if pref == FWAIT_OPCODE then Some "fwait"
  else None.

(** ** x87 instructions *)

(** An entry of a two-dimensional table. *)
Definition at2 {A} (t : list (list A)) (i j : Z) : DM A :=
  if (i <? 0) || (j <? 0) then dfail OutOfBounds
  else match t !! Z.to_nat i with
       | Some r => match r !! Z.to_nat j with Some e => dret e | None => dfail OutOfBounds end
       | None => dfail OutOfBounds
       end.

Definition at1 {A} (t : list A) (i : Z) : DM A :=
  if i <? 0 then dfail OutOfBounds
  else match t !! Z.to_nat i with Some e => dret e | None => dfail OutOfBounds end.

(** [obufp = op_out[i]; op_ad = ad] *)
Definition start_operand (i ad : nat) : DM unit :=
  modify (fun s => set_op_ad ad (set_obufp (OpOut i, 0%nat) s)).

Definition call_op (o : operand) (sizeflag : Z) : DM unit :=
  match o.1 with None => dret tt | Some r => run_op r o.2 sizeflag end.

Definition dofloat (sizeflag : Z) : DM unit :=
  floatop <- prev_byte ;;
  md <- gets modrm_mod ;;
  rg <- gets modrm_reg ;;
  rm <- gets modrm_rm ;;
  if md != 3 then
    let fp_indx := (floatop - 0xd8) * 8 + rg in
    t <- at1 float_mem fp_indx ;;
    fm <- at1 float_mem_mode fp_indx ;;
    putop (Some t) sizeflag ;;
    start_operand 0 2 ;;
    OP_E fm sizeflag
  else
    MODRM_CHECK ;;
    advance 1 ;;
    dp <- at2 float_reg (floatop - 0xd8) rg ;;
    match di_name dp with
    | None =>
        t <- at2 fgrps (di_op dp 0).2 rm ;;
        putop (Some t) sizeflag ;;
        b <- prev_byte ;;
        when ((floatop == 0xdf) && (b == 0xe0))
          (n <- name_at names16 0 ;; strcpy_op_out 0 n)
    | Some t =>
        putop (Some t) sizeflag ;;
        start_operand 0 2 ;; call_op (di_op dp 0) sizeflag ;;
        start_operand 1 1 ;; call_op (di_op dp 1) sizeflag
    end.

(** ** Whole instructions *)

Definition modrm_from (b : Z) : DM unit :=
  modify (fun s => set_modrm_rm (Z.land b 7)
                  (set_modrm_reg (Z.land (Z.shiftr b 3) 7)
                  (set_modrm_mod (Z.land (Z.shiftr b 6) 3) s))).

(** The opcode as first looked up: its entry, the third opcode byte, and which
    prefixes the instruction uses itself. *)
Record opcode := mk_opcode {
  oc_dp : dis386_t; oc_op : Z;
  oc_data : bool; oc_repnz : bool; oc_repz : bool; oc_lock : bool }.

Definition is_three_byte (dp : dis386_t) : bool :=
  match di_name dp with None => (di_op dp 0).2 == IS_3BYTE_OPCODE | Some _ => false end.

(** The label [vex_opcode]. *)
Definition twobyte_opcode (threebyte : Z) : DM opcode :=
  dp <- at1 dis386_twobyte threebyte ;;
  nm <- at1 twobyte_has_modrm threebyte ;;
  ud <- at1 twobyte_uses_DATA_prefix threebyte ;;
  un <- at1 twobyte_uses_REPNZ_prefix threebyte ;;
  uz <- at1 twobyte_uses_REPZ_prefix threebyte ;;
  modify (set_need_modrm (nm != 0)) ;;
  let ul := Z.land threebyte (Z.lnot 2) == 0x20 in
  if is_three_byte dp then
    op <- next ;;
    if threebyte == 0x38 then
      ud <- at1 threebyte_0x38_uses_DATA_prefix op ;;
      un <- at1 threebyte_0x38_uses_REPNZ_prefix op ;;
      uz <- at1 threebyte_0x38_uses_REPZ_prefix op ;;
      dret (mk_opcode dp op (ud != 0) (un != 0) (uz != 0) ul)
    else if threebyte == 0x3a then
      ud <- at1 threebyte_0x3a_uses_DATA_prefix op ;;
      un <- at1 threebyte_0x3a_uses_REPNZ_prefix op ;;
      uz <- at1 threebyte_0x3a_uses_REPZ_prefix op ;;
      dret (mk_opcode dp op (ud != 0) (un != 0) (uz != 0) ul)
    else dret (mk_opcode dp op (ud != 0) (un != 0) (uz != 0) ul)
  else dret (mk_opcode dp 0 (ud != 0) (un != 0) (uz != 0) ul).

Definition fetch_opcode : DM opcode :=
  v <- prefix PREFIX_VEX_0F ;;
  if v : bool then
    use_mask (Z.lor PREFIX_VEX_0F (Z.lor PREFIX_VEX_0F38 PREFIX_VEX_0F3A)) ;;
    v38 <- prefix PREFIX_VEX_0F38 ;;
    v3a <- prefix PREFIX_VEX_0F3A ;;
    tb <- (if v38 : bool then dret 0x38 else if v3a : bool then dret 0x3a else next) ;;
    twobyte_opcode tb
  else
    b <- peek ;;
    if b == 0x0f then
      i <- gets codep ;;
      tb <- getb (i + 1) ;;
      advance 2 ;;
      twobyte_opcode tb
    else
      dp <- at1 dis386 b ;;
      nm <- at1 onebyte_has_modrm b ;;
      modify (set_need_modrm (nm != 0)) ;;
      advance 1 ;;
      dret (mk_opcode dp 0 false false (b == 0x90) false).

(** Prefixes the instruction does not use are printed in front of it; the size
    prefixes change [sizeflag], which is returned. *)
Definition print_prefixes (oc : opcode) (sizeflag : Z) : DM Z :=
  it <- intel ;;
  m <- mode64 ;;
  z <- prefix PREFIX_REPZ ;;
  when (negb (oc_repz oc) && z) (oappend "repz " ;; use_mask PREFIX_REPZ) ;;
  n <- prefix PREFIX_REPNZ ;;
  when (negb (oc_repnz oc) && n) (oappend "repnz " ;; use_mask PREFIX_REPNZ) ;;
  l <- prefix PREFIX_LOCK ;;
  when (negb (oc_lock oc) && l) (oappend "lock " ;; use_mask PREFIX_LOCK) ;;
  a <- prefix PREFIX_ADDR ;;
  let sizeflag := if a : bool then Z.lxor sizeflag AFLAG else sizeflag in
  when (a && (((di_op (oc_dp oc) 2).2 != loop_jcxz_mode) || it))
    (oappend (if (sizeflag & AFLAG) || m then "addr32 " else "addr16 ") ;;
     use_mask PREFIX_ADDR) ;;
  d <- prefix PREFIX_DATA ;;
  let da := negb (oc_data oc) && d in
  let sizeflag := if da : bool then Z.lxor sizeflag DFLAG else sizeflag in
  when (da && ((di_op (oc_dp oc) 2).2 == cond_jump_mode) && ((di_op (oc_dp oc) 0).2 == v_mode)
        && negb it)
    (oappend (if sizeflag & DFLAG then "data32 " else "data16 ") ;; use_mask PREFIX_DATA) ;;
  dret sizeflag.

(** The row of [prefix_user_table] selected by the mandatory prefix. *)
Definition user_table_index : DM Z :=
  use_prefix PREFIX_REPZ ;;
  z <- prefix PREFIX_REPZ ;;
  if z : bool then dret 1
  else
    use_prefix PREFIX_REPNZ ;;
    n <- prefix PREFIX_REPNZ ;;
    if n : bool then dret 3
    else
      use_prefix PREFIX_DATA ;;
      d <- prefix PREFIX_DATA ;;
      dret (if d : bool then 2 else 0).

(** Follows an entry without a name to the table it stands for. *)
Definition resolve_entry (dp : dis386_t) : DM dis386_t :=
  match di_name dp with
  | Some _ => dret dp
  | None =>
      let k := (di_op dp 0).2 in
      let n := (di_op dp 1).2 in
      rg <- gets modrm_reg ;;
      m <- mode64 ;;
      if k == USE_GROUPS then at2 grps n rg
      else if k == USE_PREFIX_USER_TABLE then
        index <- user_table_index ;; at2 prefix_user_table n index
      else if k == X86_64_SPECIAL then at2 x86_64_table n (if m : bool then 1 else 0)
      else oappend INTERNAL_DISASSEMBLER_ERROR ;; dret dp
  end.

(** The mod/rm byte, after the three-byte opcodes have found their entry. *)
Definition read_modrm (oc : opcode) : DM dis386_t :=
  nm <- gets need_modrm ;;
  if is_three_byte (oc_dp oc) then
    dp <- at2 three_byte_table (di_op (oc_dp oc) 1).2 (oc_op oc) ;;
    b <- peek ;; modrm_from b ;; dret dp
  else if nm : bool then b <- peek ;; modrm_from b ;; dret (oc_dp oc)
  else dret (oc_dp oc).

(** The operand loop: operands [i ..] of the entry. *)
Fixpoint print_operands (n i : nat) (dp : dis386_t) (sizeflag : Z) : DM unit :=
  match n with
  | O => dret tt
  | S n =>
      start_operand i (MAX_OPERANDS - 1 - i) ;;
      call_op (di_op dp i) sizeflag ;;
      print_operands n (S i) dp sizeflag
  end.

(** The text of operand slot [i] handed to the caller. *)
Definition operand_text (s : dis_state) (op_txt : list string) (i : nat) : string :=
  let t := default EmptyString (op_txt !! i) in
  let k := default (-1) (op_index s !! i) in
  if String.eqb t EmptyString then EmptyString
  else if (k != -1) && (default 0 (op_riprel s !! i) == 0)
  then "0x" ++ hex_string (default 0 (op_address s !! Z.to_nat k))
  else t.

(** Operands are handed out in AT&T order; enter and bound keep theirs, and the
    per-operand records are swapped instead (the loop that swaps the four entries
    reverses the arrays; it uses op_ad as its scratch variable). *)
Definition export_operands : DM (list (option string)) :=
  it <- intel ;;
  two <- gets two_source_ops ;;
  (if it || two
   then modify (fun s => set_op_index (rev (op_index s)) (set_op_riprel (rev (op_riprel s)) s))
   else dret tt) ;;
  s <- gets (fun s => s) ;;
  let op_txt := if it || two then op_out s else rev (op_out s) in
  dret (map (fun i => Some (operand_text s op_txt i)) (seq 0 MAX_OPERANDS)).

(** The state at the first byte of the instruction. *)
Definition init_insn (pc : Z) (buf : list Z) (s : dis_state) : dis_state :=
  set_fetch false
  (set_address_mode mode_64bit
  (set_syn att_syntax
  (set_max_fetched 0
  (set_insn_start pc
  (set_obuf EmptyString
  (set_op_out (replicate MAX_OPERANDS EmptyString)
  (set_op_index (replicate MAX_OPERANDS (-1))
  (set_the_buffer (map Some (take 15 buf) ++ [None])%list
  (set_start_pc pc
  (set_codep 0
  (set_obufp (Obuf, 0%nat) s))))))))))).

(** The mnemonic is padded to a column before the operands. *)
Definition pad_mnemonic : DM unit :=
  obufp_to_end ;;
  n <- gets (fun s => String.length (obuf s)) ;;
  oappend (stake (6 - n) "      ") ;; oappend " ".

(** No operand text is written on the early returns. *)
Definition no_operands : list (option string) := replicate MAX_OPERANDS None.

(** The instruction after its prefixes. *)
Definition decode_insn : DM (Z * list (option string)) :=
  oc <- fetch_opcode ;;
  sizeflag <- print_prefixes oc (Z.lor AFLAG DFLAG) ;;
  dp0 <- read_modrm oc ;;
  dp <- resolve_entry dp0 ;;
  bad <- putop (di_name dp) sizeflag ;;
  when (negb bad) (print_operands MAX_OPERANDS 0 dp sizeflag) ;;
  unused <- gets (fun s => Z.land (prefixes s) (Z.lnot (used_prefixes s)) != 0) ;;
  if unused : bool then dret (1, no_operands)
  else
    pad_mnemonic ;;
    ops <- export_operands ;;
    size <- gets (fun s => Z.of_nat (codep s)) ;;
    dret (size, ops).

(** Returns the instruction's size and, for each of the four operand slots, the
    text written to it, or [None] when the slot is left as it was. *)
Definition disas_get_mem (pc : Z) (buf : list Z) : DM (Z * list (option string)) :=
  modify (init_insn pc buf) ;;
  ckprefix ;;
  ckvexprefix ;;
  modify (fun s => set_insn_codep (codep s) s) ;;
  b <- peek ;;
  modify (set_two_source_ops ((b == 0x62) || (b == 0xc8))) ;;
  fw <- prefix PREFIX_FWAIT ;;
  x <- gets rex ;;
  xu <- gets rex_used ;;
  if (fw && negb (within b 0xd8 0xdf)) || ((x != 0) && (xu != 0)) then dret (1, no_operands)
  else decode_insn.

(** The variables before the first call. *)
Definition dis_init : dis_state :=
  mk_dis mode_16bit 0 0 0 0 0 EmptyString (replicate MAX_OPERANDS EmptyString) (Obuf, 0%nat)
    [] 0 0 0 0 0 false att_syntax 0 (replicate MAX_OPERANDS 0) (replicate MAX_OPERANDS 0)
    (replicate MAX_OPERANDS 0) false 0 false 0 0 (fun _ _ => None).
