(* ===== verification/DisasFacts.v ===== *)
(** * The disassembler terminates and keeps its arrays

    Every function of disas/i386.c reachable from [disas_get_mem] either returns,
    with the per-operand arrays still of four entries, or stops in one of the ways
    listed by [disas_error]: abort(), the NULL mnemonic of an x87 opcode, or an
    access outside the instruction bytes or a table.  In particular the bounds the
    models of its loops carry are never exhausted, and it never jumps to the
    bailout point, whose buffer [disas_get_mem] does not set up.

    [Safe] is the postcondition, with one lemma per way of combining computations
    and one hint per function. *)

From Stdlib Require Import ZArith Lia Bool Ascii String.
From stdpp Require Import base list.
From S2P Require Import Prelude DisasTypes DisasTables DisasOps DisasOperands Disas.

Open Scope string_scope.
Open Scope Z_scope.
Open Scope dm_scope.

(** ** The invariant and the postcondition *)

(** The arrays of four entries; [disas_get_mem] reads from the buffer. *)
Record arrays (s : dis_state) : Prop := {
  ar_fetch : fetch s = false;
  ar_out : length (op_out s) = MAX_OPERANDS;
  ar_index : length (op_index s) = MAX_OPERANDS;
  ar_address : length (op_address s) = MAX_OPERANDS;
  ar_riprel : length (op_riprel s) = MAX_OPERANDS }.

(** The ways in which the disassembler can stop. *)
Definition disas_error (e : error) : bool :=
  match e with Aborted | NullDeref | OutOfBounds | Uninit => true | _ => false end.

Definition safe_result {A} (r : res (A * dis_state)) : Prop :=
  match r with Ok (_, s') => arrays s' | Err e => disas_error e = true end.

Definition Safe {A} (m : DM A) : Prop := forall s, arrays s -> safe_result (m s).

Create HintDb safe.

Section rules.
Context {A B : Type}.

Lemma safe_ret (a : A) : Safe (dret a).
Proof. intros s H. exact H. Qed.

Lemma safe_fail e : disas_error e = true -> Safe (@dfail A e).
Proof. intros H s _. exact H. Qed.

Lemma safe_gets (f : dis_state -> A) : Safe (gets f).
Proof. intros s H. exact H. Qed.

Lemma safe_bind (m : DM A) (f : A -> DM B) : Safe m -> (forall a, Safe (f a)) -> Safe (dbind m f).
Proof.
  intros Hm Hf s H. unfold dbind. specialize (Hm s H). destruct (m s) as [[a s1]|e]; [apply Hf, Hm | exact Hm].
Qed.

Lemma safe_modify f : (forall s, arrays s -> arrays (f s)) -> Safe (modify f).
Proof. intros Hf s H. apply Hf, H. Qed.
End rules.

(** A change outside the fields of [arrays]. *)
Lemma arrays_same s s' : fetch s' = fetch s -> op_out s' = op_out s -> op_index s' = op_index s ->
  op_address s' = op_address s -> op_riprel s' = op_riprel s -> arrays s -> arrays s'.
Proof. intros E1 E2 E3 E4 E5 []. split; congruence. Qed.

Lemma safe_modify_same f : (forall s, fetch (f s) = fetch s /\ op_out (f s) = op_out s /\ op_index (f s) = op_index s /\
  op_address (f s) = op_address s /\ op_riprel (f s) = op_riprel s) -> Safe (modify f).
Proof. intros Hf. apply safe_modify. intros s. destruct (Hf s) as (? & ? & ? & ? & ?). apply arrays_same; assumption. Qed.

Ltac same_arrays := apply safe_modify_same; intros []; repeat split; reflexivity.

#[export] Hint Resolve safe_ret safe_gets : safe.

(** Follows the structure of a computation down to the functions it calls. *)
Ltac safe_step :=
  match goal with
  | |- Safe (dbind _ _) => apply safe_bind; [|intros ?]
  | |- Safe (dfail _) => apply safe_fail; reflexivity
  | |- Safe (when ?b _) => unfold when
  | |- Safe (if ?b then _ else _) => destruct b
  | |- Safe (let '(_, _) := ?p in _) => destruct p
  | |- Safe (match ?x with _ => _ end) => destruct x
  | |- Safe (modify _) => solve [same_arrays]
  | |- Safe _ => solve [auto with safe]
  end.
Ltac safe := cbv zeta; repeat safe_step.

(** ** Primitives *)

Lemma safe_getb i : Safe (getb i).
Proof. intros s H. unfold getb. destruct (the_buffer s !! i) as [[]|]; [exact H | reflexivity..]. Qed.
#[export] Hint Resolve safe_getb : safe.

Lemma safe_advance n : Safe (advance n).
Proof. same_arrays. Qed.
#[export] Hint Resolve safe_advance : safe.

Lemma safe_peek : Safe peek.
Proof. unfold peek. safe. Qed.
#[export] Hint Resolve safe_peek : safe.

Lemma safe_next : Safe next.
Proof. unfold next. safe. Qed.

Lemma safe_prev_byte : Safe prev_byte.
Proof. unfold prev_byte. safe. Qed.

Lemma safe_fetch_data n : Safe (fetch_data n).
Proof. intros s H. unfold fetch_data. rewrite (ar_fetch _ H). exact H. Qed.
#[export] Hint Resolve safe_next safe_prev_byte safe_fetch_data : safe.

Lemma arrays_buf_set b t s p : arrays s -> arrays (set_obufp p (buf_set b t s)).
Proof. intros []. destruct b; split; cbn; rewrite ?length_insert; assumption. Qed.

Lemma safe_oappend t : Safe (oappend t).
Proof. intros s H. unfold oappend. destruct (obufp s). apply arrays_buf_set, H. Qed.
#[export] Hint Resolve safe_oappend : safe.

Lemma safe_emit c : Safe (emit c).
Proof. apply safe_oappend. Qed.

Lemma safe_terminate : Safe terminate.
Proof. apply safe_oappend. Qed.

Lemma safe_oappend_att t : Safe (oappend_att t).
Proof. unfold oappend_att. safe. Qed.

Lemma safe_name_at t i : Safe (name_at t i).
Proof.
  intros s H. unfold name_at. destruct (i <? 0); [reflexivity|].
  destruct (t (syn s) !! _); [exact H | reflexivity].
Qed.
#[export] Hint Resolve safe_emit safe_terminate safe_oappend_att safe_name_at : safe.

Lemma safe_oappend_name t i : Safe (oappend_name t i).
Proof. unfold oappend_name. safe. Qed.

Lemma safe_tail n t : Safe (obuf_overwrite_tail n t).
Proof. intros s H. unfold obuf_overwrite_tail. destruct (_ <? _)%nat; [reflexivity|]. destruct H; split; assumption. Qed.

Lemma safe_strcpy i t : Safe (strcpy_op_out i t).
Proof. apply safe_modify. intros s []. split; cbn; rewrite ?length_insert; assumption. Qed.

Lemma safe_to_end : Safe obufp_to_end.
Proof. same_arrays. Qed.

Lemma safe_prefix m : Safe (prefix m).
Proof. apply safe_gets. Qed.

Lemma safe_rex_has m : Safe (rex_has m).
Proof. apply safe_gets. Qed.

Lemma safe_use_mask m : Safe (use_mask m).
Proof. same_arrays. Qed.

Lemma safe_use_prefix m : Safe (use_prefix m).
Proof. same_arrays. Qed.

Lemma safe_USED_REX v : Safe (USED_REX v).
Proof. apply safe_modify. intros s H. destruct (negb _); [destruct (bits _ _)|]; try exact H; destruct H; split; assumption. Qed.

Lemma safe_mode64 : Safe mode64.
Proof. apply safe_gets. Qed.

Lemma safe_intel : Safe intel.
Proof. apply safe_gets. Qed.
#[export] Hint Resolve safe_oappend_name safe_tail safe_strcpy safe_to_end safe_prefix safe_rex_has safe_use_mask
  safe_use_prefix safe_USED_REX safe_mode64 safe_intel : safe.

Lemma safe_MODRM_CHECK : Safe MODRM_CHECK.
Proof. unfold MODRM_CHECK. safe. Qed.
#[export] Hint Resolve safe_MODRM_CHECK : safe.

(** A function written on the state itself: its results keep the arrays. *)
Ltac raw_safe f :=
  intros s H; unfold f; cbv zeta; repeat case_goal;
  try reflexivity; try exact H; destruct H; split; assumption.

(** ** Operands given by the mod/rm byte *)

Lemma safe_get64 : Safe get64.
Proof. unfold get64. safe. Qed.
#[export] Hint Resolve safe_get64 : safe.

Lemma safe_get32 : Safe get32.
Proof. unfold get32. safe. Qed.
#[export] Hint Resolve safe_get32 : safe.

Lemma safe_get32s : Safe get32s.
Proof. unfold get32s. safe. Qed.
#[export] Hint Resolve safe_get32s : safe.

Lemma safe_get16 : Safe get16.
Proof. unfold get16. safe. Qed.
#[export] Hint Resolve safe_get16 : safe.

Lemma safe_get8s : Safe get8s.
Proof. unfold get8s. safe. Qed.
#[export] Hint Resolve safe_get8s : safe.

Lemma safe_get16s : Safe get16s.
Proof. unfold get16s. safe. Qed.
#[export] Hint Resolve safe_get16s : safe.

Lemma safe_set_op op riprel : Safe (set_op op riprel).
Proof.
  unfold set_op. safe; apply safe_modify; intros s []; split; cbn; rewrite ?length_insert; assumption.
Qed.
#[export] Hint Resolve safe_set_op : safe.

Lemma safe_append_seg1 p name : Safe (append_seg1 p name).
Proof. unfold append_seg1. safe. Qed.
#[export] Hint Resolve safe_append_seg1 : safe.

Lemma safe_append_seg : Safe append_seg.
Proof. unfold append_seg. safe. Qed.
#[export] Hint Resolve safe_append_seg : safe.

Lemma safe_intel_size_v bytemode sizeflag : Safe (intel_size_v bytemode sizeflag).
Proof. unfold intel_size_v. safe. Qed.
#[export] Hint Resolve safe_intel_size_v : safe.

Lemma safe_intel_operand_size bytemode sizeflag : Safe (intel_operand_size bytemode sizeflag).
Proof. unfold intel_operand_size. safe. Qed.
#[export] Hint Resolve safe_intel_operand_size : safe.

Lemma safe_reg_v bytemode sizeflag r : Safe (reg_v bytemode sizeflag r).
Proof. unfold reg_v. safe. Qed.
#[export] Hint Resolve safe_reg_v : safe.

Lemma safe_reg_b r : Safe (reg_b r).
Proof. unfold reg_b. safe. Qed.
#[export] Hint Resolve safe_reg_b : safe.

Lemma safe_OP_E_reg bytemode sizeflag r : Safe (OP_E_reg bytemode sizeflag r).
Proof. unfold OP_E_reg. safe. Qed.
#[export] Hint Resolve safe_OP_E_reg : safe.

Lemma safe_OP_E_sib : Safe OP_E_sib.
Proof. unfold OP_E_sib. safe. Qed.
#[export] Hint Resolve safe_OP_E_sib : safe.

Lemma safe_OP_E_decode add : Safe (OP_E_decode add).
Proof. unfold OP_E_decode. safe. Qed.
#[export] Hint Resolve safe_OP_E_decode : safe.

Lemma safe_addr_name sizeflag r : Safe (addr_name sizeflag r).
Proof. unfold addr_name. safe. Qed.
#[export] Hint Resolve safe_addr_name : safe.

Lemma safe_default_seg : Safe default_seg.
Proof. unfold default_seg. safe. Qed.
#[export] Hint Resolve safe_default_seg : safe.

Lemma safe_intel_disp md disp : Safe (intel_disp md disp).
Proof. unfold intel_disp. safe. Qed.
#[export] Hint Resolve safe_intel_disp : safe.

Lemma safe_OP_E_disp e : Safe (OP_E_disp e).
Proof. unfold OP_E_disp. safe. Qed.
#[export] Hint Resolve safe_OP_E_disp : safe.

Lemma safe_OP_E_index sizeflag e : Safe (OP_E_index sizeflag e).
Proof. unfold OP_E_index. safe. Qed.
#[export] Hint Resolve safe_OP_E_index : safe.

Lemma safe_OP_E_print sizeflag e : Safe (OP_E_print sizeflag e).
Proof. unfold OP_E_print. safe. Qed.
#[export] Hint Resolve safe_OP_E_print : safe.

Lemma safe_OP_E_16 : Safe OP_E_16.
Proof. unfold OP_E_16. safe. Qed.
#[export] Hint Resolve safe_OP_E_16 : safe.

Lemma safe_OP_E bytemode sizeflag : Safe (OP_E bytemode sizeflag).
Proof. unfold OP_E. safe. Qed.
#[export] Hint Resolve safe_OP_E : safe.


(** ** The other operands and the fix-ups *)

Lemma safe_BadOp : Safe BadOp.
Proof. unfold BadOp. safe. Qed.
#[export] Hint Resolve safe_BadOp : safe.

Lemma safe_OP_indirE bytemode sizeflag : Safe (OP_indirE bytemode sizeflag).
Proof. unfold OP_indirE. safe. Qed.
#[export] Hint Resolve safe_OP_indirE : safe.

Lemma safe_OP_ST bytemode sizeflag : Safe (OP_ST bytemode sizeflag).
Proof. unfold OP_ST. safe. Qed.
#[export] Hint Resolve safe_OP_ST : safe.

Lemma safe_OP_STi bytemode sizeflag : Safe (OP_STi bytemode sizeflag).
Proof. unfold OP_STi. safe. Qed.
#[export] Hint Resolve safe_OP_STi : safe.

Lemma safe_rex_add b : Safe (rex_add b).
Proof. unfold rex_add. safe. Qed.
#[export] Hint Resolve safe_rex_add : safe.

Lemma safe_OP_G bytemode sizeflag : Safe (OP_G bytemode sizeflag).
Proof. unfold OP_G. safe. Qed.
#[export] Hint Resolve safe_OP_G : safe.

Lemma safe_OP_vvvv bytemode sizeflag : Safe (OP_vvvv bytemode sizeflag).
Proof. unfold OP_vvvv. safe. Qed.
#[export] Hint Resolve safe_OP_vvvv : safe.

Lemma safe_reg_e sizeflag r : Safe (reg_e sizeflag r).
Proof. unfold reg_e. safe. Qed.
#[export] Hint Resolve safe_reg_e : safe.

Lemma safe_OP_REG code sizeflag : Safe (OP_REG code sizeflag).
Proof. unfold OP_REG. safe. Qed.
#[export] Hint Resolve safe_OP_REG : safe.

Lemma safe_OP_IMREG code sizeflag : Safe (OP_IMREG code sizeflag).
Proof. unfold OP_IMREG. safe. Qed.
#[export] Hint Resolve safe_OP_IMREG : safe.

Lemma safe_oappend_imm op : Safe (oappend_imm op).
Proof. unfold oappend_imm. safe. Qed.
#[export] Hint Resolve safe_oappend_imm : safe.

Lemma safe_imm_dw sizeflag : Safe (imm_dw sizeflag).
Proof. unfold imm_dw. safe. Qed.
#[export] Hint Resolve safe_imm_dw : safe.

Lemma safe_OP_I_v sizeflag : Safe (OP_I_v sizeflag).
Proof. unfold OP_I_v. safe. Qed.
#[export] Hint Resolve safe_OP_I_v : safe.

Lemma safe_OP_I bytemode sizeflag : Safe (OP_I bytemode sizeflag).
Proof. unfold OP_I. safe. Qed.
#[export] Hint Resolve safe_OP_I : safe.

Lemma safe_OP_I64 bytemode sizeflag : Safe (OP_I64 bytemode sizeflag).
Proof. unfold OP_I64. safe. Qed.
#[export] Hint Resolve safe_OP_I64 : safe.

Lemma safe_OP_sI bytemode sizeflag : Safe (OP_sI bytemode sizeflag).
Proof. unfold OP_sI. safe. Qed.
#[export] Hint Resolve safe_OP_sI : safe.

Lemma safe_here : Safe here.
Proof. unfold here. safe. Qed.
#[export] Hint Resolve safe_here : safe.

Lemma safe_jump_target disp mask segment : Safe (jump_target disp mask segment).
Proof. unfold jump_target. safe. Qed.
#[export] Hint Resolve safe_jump_target : safe.

Lemma safe_OP_J bytemode sizeflag : Safe (OP_J bytemode sizeflag).
Proof. unfold OP_J. safe. Qed.
#[export] Hint Resolve safe_OP_J : safe.

Lemma safe_OP_SEG bytemode sizeflag : Safe (OP_SEG bytemode sizeflag).
Proof. unfold OP_SEG. safe. Qed.
#[export] Hint Resolve safe_OP_SEG : safe.

Lemma safe_OP_DIR dummy sizeflag : Safe (OP_DIR dummy sizeflag).
Proof. unfold OP_DIR. safe. Qed.
#[export] Hint Resolve safe_OP_DIR : safe.

Lemma safe_print_off off : Safe (print_off off).
Proof. unfold print_off. safe. Qed.
#[export] Hint Resolve safe_print_off : safe.

Lemma safe_OP_OFF bytemode sizeflag : Safe (OP_OFF bytemode sizeflag).
Proof. unfold OP_OFF. safe. Qed.
#[export] Hint Resolve safe_OP_OFF : safe.

Lemma safe_OP_OFF64 bytemode sizeflag : Safe (OP_OFF64 bytemode sizeflag).
Proof. unfold OP_OFF64. safe. Qed.
#[export] Hint Resolve safe_OP_OFF64 : safe.

Lemma safe_ptr_reg code sizeflag : Safe (ptr_reg code sizeflag).
Proof. unfold ptr_reg. safe. Qed.
#[export] Hint Resolve safe_ptr_reg : safe.

Lemma safe_OP_ESreg code sizeflag : Safe (OP_ESreg code sizeflag).
Proof. unfold OP_ESreg. safe. Qed.
#[export] Hint Resolve safe_OP_ESreg : safe.

Lemma safe_OP_DSreg code sizeflag : Safe (OP_DSreg code sizeflag).
Proof. unfold OP_DSreg. safe. Qed.
#[export] Hint Resolve safe_OP_DSreg : safe.

Lemma safe_OP_C dummy sizeflag : Safe (OP_C dummy sizeflag).
Proof. unfold OP_C. safe. Qed.
#[export] Hint Resolve safe_OP_C : safe.

Lemma safe_OP_D dummy sizeflag : Safe (OP_D dummy sizeflag).
Proof. unfold OP_D. safe. Qed.
#[export] Hint Resolve safe_OP_D : safe.

Lemma safe_OP_T dummy sizeflag : Safe (OP_T dummy sizeflag).
Proof. unfold OP_T. safe. Qed.
#[export] Hint Resolve safe_OP_T : safe.

Lemma safe_OP_R bytemode sizeflag : Safe (OP_R bytemode sizeflag).
Proof. unfold OP_R. safe. Qed.
#[export] Hint Resolve safe_OP_R : safe.

Lemma safe_OP_MMX bytemode sizeflag : Safe (OP_MMX bytemode sizeflag).
Proof. unfold OP_MMX. safe. Qed.
#[export] Hint Resolve safe_OP_MMX : safe.

Lemma safe_OP_XMM bytemode sizeflag : Safe (OP_XMM bytemode sizeflag).
Proof. unfold OP_XMM. safe. Qed.
#[export] Hint Resolve safe_OP_XMM : safe.

Lemma safe_OP_EM_mem bytemode sizeflag : Safe (OP_EM_mem bytemode sizeflag).
Proof. unfold OP_EM_mem. safe. Qed.
#[export] Hint Resolve safe_OP_EM_mem : safe.

Lemma safe_OP_EM bytemode sizeflag : Safe (OP_EM bytemode sizeflag).
Proof. unfold OP_EM. safe. Qed.
#[export] Hint Resolve safe_OP_EM : safe.

Lemma safe_OP_EMC bytemode sizeflag : Safe (OP_EMC bytemode sizeflag).
Proof. unfold OP_EMC. safe. Qed.
#[export] Hint Resolve safe_OP_EMC : safe.

Lemma safe_OP_MXC bytemode sizeflag : Safe (OP_MXC bytemode sizeflag).
Proof. unfold OP_MXC. safe. Qed.
#[export] Hint Resolve safe_OP_MXC : safe.

Lemma safe_OP_EX bytemode sizeflag : Safe (OP_EX bytemode sizeflag).
Proof. unfold OP_EX. safe. Qed.
#[export] Hint Resolve safe_OP_EX : safe.

Lemma safe_OP_MS bytemode sizeflag : Safe (OP_MS bytemode sizeflag).
Proof. unfold OP_MS. safe. Qed.
#[export] Hint Resolve safe_OP_MS : safe.

Lemma safe_OP_XS bytemode sizeflag : Safe (OP_XS bytemode sizeflag).
Proof. unfold OP_XS. safe. Qed.
#[export] Hint Resolve safe_OP_XS : safe.

Lemma safe_OP_M bytemode sizeflag : Safe (OP_M bytemode sizeflag).
Proof. unfold OP_M. safe. Qed.
#[export] Hint Resolve safe_OP_M : safe.

Lemma safe_OP_0f07 bytemode sizeflag : Safe (OP_0f07 bytemode sizeflag).
Proof. unfold OP_0f07. safe. Qed.
#[export] Hint Resolve safe_OP_0f07 : safe.

Lemma safe_OP_0fae bytemode sizeflag : Safe (OP_0fae bytemode sizeflag).
Proof. unfold OP_0fae. safe. Qed.
#[export] Hint Resolve safe_OP_0fae : safe.

Lemma safe_nop_is_xchg : Safe nop_is_xchg.
Proof. unfold nop_is_xchg. safe. Qed.
#[export] Hint Resolve safe_nop_is_xchg : safe.

Lemma safe_NOP_Fixup1 bytemode sizeflag : Safe (NOP_Fixup1 bytemode sizeflag).
Proof. unfold NOP_Fixup1. safe. Qed.
#[export] Hint Resolve safe_NOP_Fixup1 : safe.

Lemma safe_NOP_Fixup2 bytemode sizeflag : Safe (NOP_Fixup2 bytemode sizeflag).
Proof. unfold NOP_Fixup2. safe. Qed.
#[export] Hint Resolve safe_NOP_Fixup2 : safe.

Lemma safe_clear_two_operands : Safe clear_two_operands.
Proof. unfold clear_two_operands. safe. Qed.
#[export] Hint Resolve safe_clear_two_operands : safe.

Lemma safe_OP_3DNowSuffix bytemode sizeflag : Safe (OP_3DNowSuffix bytemode sizeflag).
Proof. unfold OP_3DNowSuffix. safe. Qed.
#[export] Hint Resolve safe_OP_3DNowSuffix : safe.

Lemma safe_OP_SIMD_Suffix bytemode sizeflag : Safe (OP_SIMD_Suffix bytemode sizeflag).
Proof. unfold OP_SIMD_Suffix. safe. Qed.
#[export] Hint Resolve safe_OP_SIMD_Suffix : safe.

Lemma safe_SIMD_Fixup extrachar sizeflag : Safe (SIMD_Fixup extrachar sizeflag).
Proof. raw_safe SIMD_Fixup. Qed.
#[export] Hint Resolve safe_SIMD_Fixup : safe.

Lemma safe_tail_position c : Safe (tail_position c).
Proof. raw_safe tail_position. Qed.
#[export] Hint Resolve safe_tail_position : safe.

Lemma safe_obuf_strcpy_at p t : Safe (obuf_strcpy_at p t).
Proof. unfold obuf_strcpy_at. safe. Qed.
#[export] Hint Resolve safe_obuf_strcpy_at : safe.

Lemma safe_pni_names : Safe pni_names.
Proof. unfold pni_names. safe. Qed.
#[export] Hint Resolve safe_pni_names : safe.

Lemma safe_pni_skip_addr p : Safe (pni_skip_addr p).
Proof. raw_safe pni_skip_addr. Qed.
#[export] Hint Resolve safe_pni_skip_addr : safe.

Lemma safe_pni_monitor_operands : Safe pni_monitor_operands.
Proof. unfold pni_monitor_operands. safe. Qed.
#[export] Hint Resolve safe_pni_monitor_operands : safe.

Lemma safe_PNI_Fixup extrachar sizeflag : Safe (PNI_Fixup extrachar sizeflag).
Proof. unfold PNI_Fixup. safe. Qed.
#[export] Hint Resolve safe_PNI_Fixup : safe.

Lemma safe_SVME_Fixup bytemode sizeflag : Safe (SVME_Fixup bytemode sizeflag).
Proof. unfold SVME_Fixup. safe. Qed.
#[export] Hint Resolve safe_SVME_Fixup : safe.

Lemma safe_INVLPG_Fixup bytemode sizeflag : Safe (INVLPG_Fixup bytemode sizeflag).
Proof. unfold INVLPG_Fixup. safe. Qed.
#[export] Hint Resolve safe_INVLPG_Fixup : safe.

Lemma safe_VMX_Fixup extrachar sizeflag : Safe (VMX_Fixup extrachar sizeflag).
Proof. unfold VMX_Fixup. safe. Qed.
#[export] Hint Resolve safe_VMX_Fixup : safe.

Lemma safe_OP_VMX bytemode sizeflag : Safe (OP_VMX bytemode sizeflag).
Proof. unfold OP_VMX. safe. Qed.
#[export] Hint Resolve safe_OP_VMX : safe.

Lemma safe_rep_ilen op sizeflag : Safe (rep_ilen op sizeflag).
Proof. unfold rep_ilen. safe. Qed.
#[export] Hint Resolve safe_rep_ilen : safe.

Lemma safe_rep_remove_z ilen : Safe (rep_remove_z ilen).
Proof. raw_safe rep_remove_z. Qed.
#[export] Hint Resolve safe_rep_remove_z : safe.

Lemma safe_REP_Fixup bytemode sizeflag : Safe (REP_Fixup bytemode sizeflag).
Proof. unfold REP_Fixup. safe. Qed.
#[export] Hint Resolve safe_REP_Fixup : safe.

Lemma safe_CMPXCHG8B_Fixup bytemode sizeflag : Safe (CMPXCHG8B_Fixup bytemode sizeflag).
Proof. unfold CMPXCHG8B_Fixup. safe. Qed.
#[export] Hint Resolve safe_CMPXCHG8B_Fixup : safe.

Lemma safe_XMM_Fixup reg sizeflag : Safe (XMM_Fixup reg sizeflag).
Proof. unfold XMM_Fixup. safe. Qed.
#[export] Hint Resolve safe_XMM_Fixup : safe.

Lemma safe_obuf_append_char c : Safe (obuf_append_char c).
Proof. unfold obuf_append_char. safe. Qed.
#[export] Hint Resolve safe_obuf_append_char : safe.

Lemma safe_CRC32_suffix bytemode sizeflag : Safe (CRC32_suffix bytemode sizeflag).
Proof. unfold CRC32_suffix. safe. Qed.
#[export] Hint Resolve safe_CRC32_suffix : safe.

Lemma safe_CRC32_Fixup bytemode sizeflag : Safe (CRC32_Fixup bytemode sizeflag).
Proof. unfold CRC32_Fixup. safe. Qed.
#[export] Hint Resolve safe_CRC32_Fixup : safe.

Lemma safe_run_op r bytemode sizeflag : Safe (run_op r bytemode sizeflag).
Proof. destruct r; cbn [run_op]; auto with safe. Qed.
#[export] Hint Resolve safe_run_op : safe.

(** ** Mnemonics *)

Lemma skip_alts_shorter p : forall n r, skip_alts n p = SkipOk r -> (String.length r <= String.length p)%nat.
Proof.
  induction p as [|c p IH]; intros [|n] r; cbn [skip_alts]; intros E; try (injection E as <-; lia); try discriminate.
  destruct (Ascii.eqb c "|"); [|destruct (Ascii.eqb c "}"); [discriminate|]];
    apply IH in E; cbn [String.length]; lia.
Qed.

Lemma skip_brace_shorter p : forall r, skip_brace p = Some r -> (String.length r <= String.length p)%nat.
Proof.
  induction p as [|c p IH]; intros r; cbn [skip_brace]; [discriminate|].
  destruct (Ascii.eqb c "}"); intros E; [injection E as <- | apply IH in E]; cbn [String.length]; lia.
Qed.

Lemma safe_not_reg sf : Safe (not_reg_or_suffix sf).
Proof. unfold not_reg_or_suffix. safe. Qed.

Lemma safe_putop_L sf : Safe (putop_L sf).
Proof. unfold putop_L. safe. Qed.

Lemma safe_putop_P sf : Safe (putop_P sf).
Proof. unfold putop_P. safe. Qed.
#[export] Hint Resolve safe_not_reg safe_putop_L safe_putop_P : safe.

Lemma safe_putop_Q alt sf : Safe (putop_Q alt sf).
Proof. unfold putop_Q. safe. Qed.

Lemma safe_putop_S sf : Safe (putop_S sf).
Proof. unfold putop_S. safe. Qed.
#[export] Hint Resolve safe_putop_Q safe_putop_S : safe.

Lemma safe_putop_letter c alt l sf : Safe (putop_letter c alt l sf).
Proof. unfold putop_letter. safe. Qed.
#[export] Hint Resolve safe_putop_letter : safe.

(** Every round consumes a character of the template. *)
Lemma safe_putop_loop fuel : forall p alt sf, (String.length p < fuel)%nat -> Safe (putop_loop fuel p alt sf).
Proof.
  induction fuel as [|fuel IH]; intros p alt sf H; [lia|]. cbn [putop_loop].
  destruct p as [|c r]; [safe|]. cbn [String.length] in H.
  destruct (Ascii.eqb c "{").
  { apply safe_bind; [auto with safe|intros it]. apply safe_bind; [auto with safe|intros m]. cbv zeta.
    destruct (skip_alts _ r) eqn:E; [apply IH; apply skip_alts_shorter in E; lia | safe | safe]. }
  destruct (Ascii.eqb c "I"); [apply IH; lia|].
  destruct (Ascii.eqb c "|").
  { destruct (skip_brace r) eqn:E; [apply IH; apply skip_brace_shorter in E; lia | safe]. }
  destruct (Ascii.eqb c "}"); [apply IH; lia|].
  apply safe_bind; [auto with safe|]. intros _. apply IH. lia.
Qed.

Lemma safe_putop t sf : Safe (putop t sf).
Proof. destruct t as [t|]; cbn [putop]; [apply safe_putop_loop; lia | safe]. Qed.
#[export] Hint Resolve safe_putop : safe.

(** ** Prefixes *)

(** The prefix scanner stops within the sixteen bytes of the buffer: each round
    but the last moves the cursor, and reading past the buffer stops it. *)
Lemma ckprefix_loop_safe fuel : forall s, arrays s -> length (the_buffer s) = MAX_MNEM_SIZE ->
  (codep s <= MAX_MNEM_SIZE)%nat -> (MAX_MNEM_SIZE < codep s + fuel)%nat ->
  safe_result (ckprefix_loop fuel s).
Proof.
  assert (K : forall (m : DM unit) (s : dis_state), arrays s -> Safe m -> safe_result (m s)) by (intros m s Ha Hm; exact (Hm s Ha)).
  induction fuel as [|fuel IH]; intros s Ha Hl Hc Hf; [lia|]. cbn [ckprefix_loop].
  unfold dbind at 1, fetch_data. rewrite (ar_fetch _ Ha). cbn [negb].
  unfold dbind at 1, peek, dbind at 1, gets at 1, getb.
  destruct (the_buffer s !! codep s) as [[b|]|] eqn:E; [|reflexivity..].
  apply lookup_lt_Some in E. rewrite Hl in E.
  unfold dbind at 1, mode64, gets at 1.
  assert (T : forall nr s', arrays s' -> length (the_buffer s') = MAX_MNEM_SIZE -> codep s' = codep s ->
            safe_result (ckprefix_tail nr (ckprefix_loop fuel) s')).
  { intros nr s' Ha' Hl' Hc'. unfold ckprefix_tail, dbind, gets, modify, advance.
    destruct (negb _).
    - destruct Ha'; split; assumption.
    - apply IH; [destruct Ha'; split; assumption | exact Hl' | cbn; lia | cbn; lia]. }
  destruct (classify_prefix b).
  - destruct (is64 _); [apply T; auto | exact Ha].
  - unfold dbind at 1, modify at 1. apply T; [destruct Ha; split; assumption | exact Hl | reflexivity].
  - unfold dbind at 1 2, gets. destruct (orb _ _).
    + apply K; [exact Ha|]. safe.
    + unfold dbind at 1, modify at 1. apply T; [destruct Ha; split; assumption | exact Hl | reflexivity].
  - exact Ha.
Qed.

Lemma safe_vex_finish a b c : Safe (vex_finish a b c).
Proof. unfold vex_finish. safe. Qed.
#[export] Hint Resolve safe_vex_finish : safe.

Lemma safe_ckvexprefix : Safe ckvexprefix.
Proof. unfold ckvexprefix. safe. Qed.
#[export] Hint Resolve safe_ckvexprefix : safe.

(** ** Whole instructions *)

Lemma safe_at1 {A} (t : list A) i : Safe (at1 t i).
Proof. unfold at1. safe. Qed.

Lemma safe_at2 {A} (t : list (list A)) i j : Safe (at2 t i j).
Proof. unfold at2. safe. Qed.

Lemma safe_start_operand i ad : Safe (start_operand i ad).
Proof. unfold start_operand. safe. Qed.

Lemma safe_call_op o sf : Safe (call_op o sf).
Proof. unfold call_op. safe. Qed.

Lemma safe_modrm_from b : Safe (modrm_from b).
Proof. unfold modrm_from. safe. Qed.
#[export] Hint Resolve safe_at1 safe_at2 safe_start_operand safe_call_op safe_modrm_from : safe.

Lemma safe_twobyte b : Safe (twobyte_opcode b).
Proof. unfold twobyte_opcode. safe. Qed.
#[export] Hint Resolve safe_twobyte : safe.

Lemma safe_fetch_opcode : Safe fetch_opcode.
Proof. unfold fetch_opcode. safe. Qed.

Lemma safe_print_prefixes oc sf : Safe (print_prefixes oc sf).
Proof. unfold print_prefixes. safe. Qed.

Lemma safe_user_table : Safe user_table_index.
Proof. unfold user_table_index. safe. Qed.
#[export] Hint Resolve safe_fetch_opcode safe_print_prefixes safe_user_table : safe.

Lemma safe_resolve dp : Safe (resolve_entry dp).
Proof. unfold resolve_entry. safe. Qed.

Lemma safe_read_modrm oc : Safe (read_modrm oc).
Proof. unfold read_modrm. safe. Qed.

Lemma safe_print_operands n : forall i dp sf, Safe (print_operands n i dp sf).
Proof. induction n; intros; cbn [print_operands]; safe. Qed.

Lemma safe_export : Safe export_operands.
Proof.
  unfold export_operands. safe; apply safe_modify; intros s []; split; cbn; rewrite ?length_rev; assumption.
Qed.

Lemma safe_pad : Safe pad_mnemonic.
Proof. unfold pad_mnemonic. safe. Qed.
#[export] Hint Resolve safe_resolve safe_read_modrm safe_print_operands safe_export safe_pad : safe.

Lemma safe_decode_insn : Safe decode_insn.
Proof. unfold decode_insn. safe. Qed.
#[export] Hint Resolve safe_decode_insn : safe.

(** The arrays that [disas_get_mem] does not initialise. *)
Definition dis_wf (s : dis_state) : Prop :=
  length (op_address s) = MAX_OPERANDS /\ length (op_riprel s) = MAX_OPERANDS.

Lemma init_arrays pc buf s : dis_wf s -> arrays (init_insn pc buf s).
Proof. intros [Ha Hr]. split; [reflexivity | reflexivity | reflexivity | exact Ha | exact Hr]. Qed.

Lemma init_buffer_length pc buf s : (15 <= length buf)%nat ->
  length (the_buffer (init_insn pc buf s)) = MAX_MNEM_SIZE.
Proof.
  intros H. change (the_buffer (init_insn pc buf s)) with (map Some (take 15 buf) ++ [None])%list.
  rewrite length_app, length_map, length_take, Nat.min_l by exact H. reflexivity.
Qed.

(** What follows the prefixes. *)
Definition after_scan : DM (Z * list (option string)) :=
  ckvexprefix ;;
  modify (fun s => set_insn_codep (codep s) s) ;;
  b <- peek ;;
  modify (set_two_source_ops ((b == 0x62) || (b == 0xc8))) ;;
  fw <- prefix PREFIX_FWAIT ;;
  x <- gets rex ;;
  xu <- gets rex_used ;;
  if (fw && negb (within b 0xd8 0xdf)) || ((x != 0) && (xu != 0)) then dret (1, no_operands)
  else decode_insn.

Lemma disas_split pc buf s :
  disas_get_mem pc buf s = dbind ckprefix (fun _ => after_scan) (init_insn pc buf s).
Proof. reflexivity. Qed.

Lemma safe_after_scan : Safe after_scan.
Proof. unfold after_scan. safe. Qed.

Lemma ckprefix_safe s : arrays s -> length (the_buffer s) = MAX_MNEM_SIZE -> codep s = 0%nat ->
  safe_result (ckprefix s).
Proof.
  intros Ha Hl Hc. unfold ckprefix, dbind at 1, modify at 1.
  apply ckprefix_loop_safe; [destruct Ha; split; assumption | exact Hl | cbn; rewrite Hc; unfold MAX_MNEM_SIZE; lia..].
Qed.

Lemma disas_get_mem_safe pc buf s : dis_wf s -> (15 <= length buf)%nat ->
  match disas_get_mem pc buf s with Ok (_, s') => dis_wf s' | Err e => disas_error e = true end.
Proof.
  intros Hs Hb. rewrite disas_split.
  pose proof (ckprefix_safe (init_insn pc buf s) (init_arrays pc buf s Hs) (init_buffer_length pc buf s Hb) eq_refl) as C.
  unfold dbind. destruct (ckprefix _) as [[[] s1]|e]; [|exact C].
  pose proof (safe_after_scan s1 C) as R. destruct (after_scan s1) as [[r s2]|e]; [|exact R].
  destruct R. split; assumption.
Qed.

(** C6: the disassembler always comes to an end: on any fifteen bytes at rip it
    returns, keeping its arrays of four entries (the lengths of the lists) for the next call,
    or stops by
    abort(), at a NULL mnemonic, or at an access outside its tables and bytes.  The
    bounds of the modelled loops are enough, and the bailout point that this entry
    does not set up is never jumped to. *)
Theorem disas_terminates pc buf s : dis_wf s -> (15 <= length buf)%nat ->
  match disas_get_mem pc buf s with
  | Ok (_, s') => dis_wf s'
  | Err e => e = Aborted \/ e = NullDeref \/ e = OutOfBounds \/ e = Uninit
  end.
Proof.
  intros Hs Hb. pose proof (disas_get_mem_safe pc buf s Hs Hb) as R.
  destruct (disas_get_mem pc buf s) as [[r s']|e]; [exact R | destruct e; try discriminate R; auto].
Qed.

(** mov %rax,0x10(%rbx), followed by nops. *)
Lemma disas_terminates_witness :
  match disas_get_mem 0xffffffff81000000 ([0x48; 0x89; 0x43; 0x10] ++ replicate 11 0x90) dis_init with
  | Ok (_, s') => dis_wf s'
  | Err e => e = Aborted \/ e = NullDeref \/ e = OutOfBounds \/ e = Uninit
  end.
Proof.
  apply disas_terminates; [split; reflexivity | vm_compute; lia].
Defined.

(** ** x87 instructions *)

Lemma x87_opcode b : within b 0xd8 0xdf = true -> exists k, (k < 8)%nat /\ b = 0xd8 + Z.of_nat k.
Proof.
  unfold within. intros H. bool_props. exists (Z.to_nat (b - 0xd8)). lia.
Qed.

(** An x87 instruction dereferences NULL: unlike the printer of whole
    instructions, this entry does not hand opcodes d8 to df to [dofloat], but passes
    the missing name of their table entry to the template interpreter. *)
Theorem x87_null_name pc b m rest s : within b 0xd8 0xdf = true ->
  disas_get_mem pc (b :: m :: rest) s = Err NullDeref.
Proof.
  intros H. destruct (x87_opcode b H) as (k & Hk & ->). destruct s.
  do 8 (destruct k as [|k]; [lazy; reflexivity|]). lia.
Qed.

(** fldl (%rax) *)
Lemma x87_null_name_witness : disas_get_mem 0xffffffff81000000 [0xdd; 0x00; 0x90] dis_init = Err NullDeref.
Proof. exact (x87_null_name 0xffffffff81000000 0xdd 0x00 [0x90] dis_init eq_refl). Defined.
