(* ===== verification/OperandText.v ===== *)
(** * From instruction bytes to the accessed address

    [OP_E] prints the memory operand of the mod/rm byte as text and
    [get_mem_addr] evaluates that text on the guest registers.  This file relates
    the two: [ea_text] is the text of a decoded address, [OP_E_print] prints it
    (AT&T syntax, 64-bit mode), and evaluating it yields the effective address
    [ea_value] of the x86-64 addressing mode, except where the two disagree on
    the syntax, which is stated as well. *)

From Stdlib Require Import ZArith Lia Bool Ascii String.
From stdpp Require Import base list.
From S2P Require Import Prelude MemOperand DisasTypes DisasTables DisasOps.

Open Scope string_scope.
Open Scope Z_scope.
Open Scope dm_scope.

(** ** Printed numbers *)

Lemma digit_char_nonzero d : 0 < d < 16 -> Ascii.eqb (digit_char d) "0" = false.
Proof.
  intros H. replace d with (Z.of_nat (Z.to_nat d)) by lia.
  assert (K : (0 < Z.to_nat d < 16)%nat) by lia. revert K. generalize (Z.to_nat d) as k. intros k K.
  do 16 (try destruct k as [|k]); try reflexivity; exfalso; lia.
Qed.

(** No leading zero in the digits of a positive number. *)
Lemma digits_head fuel : forall n acc, 0 < n < 16 ^ Z.of_nat fuel ->
  exists c r, digits_aux 16 fuel n acc = String c r /\ Ascii.eqb c "0" = false.
Proof.
  induction fuel as [|fuel IH]; intros n acc Hn; [simpl in Hn; lia|].
  cbn [digits_aux].
  pose proof (Z.div_mod n 16 ltac:(lia)) as Hd.
  pose proof (Z.mod_pos_bound n 16 ltac:(lia)) as Hm.
  destruct (Z.eqb_spec (n / 16) 0) as [Hz|Hz].
  - do 2 eexists. split; [reflexivity|]. apply digit_char_nonzero. lia.
  - apply IH. rewrite Nat2Z.inj_succ, Z.pow_succ_r in Hn by lia.
    split; [pose proof (Z.div_pos n 16); lia | apply Z.div_lt_upper_bound; lia].
Qed.

Lemma hex_string_head n : u64 n <> 0 ->
  exists c r, hex_string n = String c r /\ Ascii.eqb c "0" = false.
Proof.
  intros H. pose proof (u64_range n). apply digits_head.
  change (16 ^ Z.of_nat 16) with (2 ^ 64). lia.
Qed.

Lemma strip_all_hex n : strip_all (hex_string n) = hex_string n.
Proof.
  destruct (Z.eq_dec (u64 n) 0) as [E|E].
  - unfold hex_string. rewrite E. reflexivity.
  - destruct (hex_string_head n E) as (c & r & -> & Hc). simpl. rewrite Hc. reflexivity.
Qed.

Lemma strip_keep_hex n : strip_keep (hex_string n) = hex_string n.
Proof.
  destruct (Z.eq_dec (u64 n) 0) as [E|E].
  - unfold hex_string. rewrite E. reflexivity.
  - destruct (hex_string_head n E) as (c & r & -> & Hc). simpl. rewrite Hc. reflexivity.
Qed.

Lemma hex_string_u64 a b : u64 a = u64 b -> hex_string a = hex_string b.
Proof. unfold hex_string. intros ->. reflexivity. Qed.

Lemma s64_neg_min d : s64 d < 0 -> s64 (- d) < 0 -> s64 d = - 2 ^ 63 /\ u64 (- d) = 2 ^ 63.
Proof.
  unfold s64. pose proof (u64_range d) as H1. pose proof (u64_range (- d)) as H2.
  assert (E : u64 (- d) = u64 (2 ^ 64 - u64 d)).
  { rewrite <- u64_opp. unfold u64 at 1 3. rewrite <- (Z.mod_add _ 1) by lia. f_equal. lia. }
  destruct (Z.ltb_spec (u64 d) (2 ^ 63)); [lia|].
  rewrite (u64_small (2 ^ 64 - u64 d)) in E by lia. rewrite E.
  destruct (Z.ltb_spec (2 ^ 64 - u64 d) (2 ^ 63)); lia.
Qed.

(** print_displacement prints the signed value of its argument. *)
Lemma print_displacement_64 d : print_displacement mode_64bit d = disp_text (s64 d).
Proof.
  unfold print_displacement, disp_text.
  destruct (Z.ltb_spec (s64 d) 0) as [H|H].
  - destruct (Z.ltb_spec (s64 (- d)) 0) as [H'|H'].
    + destruct (s64_neg_min d H H') as [-> _]. reflexivity.
    + rewrite strip_all_hex. cbn [String.append]. do 3 f_equal. apply hex_string_u64.
      rewrite u64_s64, <- (u64_opp (s64 d)), u64_s64, u64_opp. reflexivity.
  - rewrite strip_all_hex. reflexivity.
Qed.

Lemma print_operand_value_64 d :
  print_operand_value mode_64bit true d = String "0" (String "x" (hex_string d)).
Proof. unfold print_operand_value. rewrite strip_keep_hex. reflexivity. Qed.

(** ** Registers *)

Definition regs_ok (r : kvm_regs) : Prop :=
  Forall (fun v => 0 <= v < 2 ^ 64)
    [rax r; rbx r; rcx r; rdx r; rsi r; rdi r; rsp r; rbp r;
     r8 r; r9 r; r10 r; r11 r; r12 r; r13 r; r14 r; r15 r; rip r].

(** The general registers in encoding order. *)
Definition gpr (r : kvm_regs) (n : Z) : Z :=
  nth (Z.to_nat n)
    [rax r; rcx r; rdx r; rbx r; rsp r; rbp r; rsi r; rdi r;
     r8 r; r9 r; r10 r; r11 r; r12 r; r13 r; r14 r; r15 r] 0.

(** The name of a register without its ['%']. *)
Definition reg_tail (n : Z) : string := sdrop 1 (nth (Z.to_nat n) att_names64 EmptyString).

(** %r8 and %r9 are the two names of one character after the width prefix; the
    evaluator always skips two. *)
Definition short_name (n : Z) : bool := (n =? 8) || (n =? 9).

Lemma land_mask64 v : 0 <= v < 2 ^ 64 -> Z.land v 0xffffffffffffffff = v.
Proof.
  intros H. change 0xffffffffffffffff with (Z.ones 64).
  rewrite Z.land_ones by lia. apply Z.mod_small. exact H.
Qed.

Lemma reg_index n : 0 <= n < 16 -> exists k, (k < 16)%nat /\ n = Z.of_nat k.
Proof. intros H. exists (Z.to_nat n). lia. Qed.

(** One goal for each of the sixteen registers. *)
Ltac each_reg H :=
  let k := fresh "k" in
  let Hk := fresh "Hk" in
  destruct (reg_index _ H) as (k & Hk & ->); clear H;
  do 16 (try destruct k as [|k]); try (exfalso; lia); clear Hk;
  cbn [Z.of_nat Pos.of_succ_nat Pos.succ].

Lemma get_reg_val_reg n regs k c rest : 0 <= n < 16 -> regs_ok regs ->
  get_reg_val (reg_tail n ++ String c rest) regs k
  = Ok (gpr regs n, if short_name n then rest else String c rest).
Proof.
  intros Hn Hr. unfold regs_ok in Hr. rewrite !Forall_cons in Hr. destruct_and! Hr.
  each_reg Hn;
    lazy -[Z.land rax rbx rcx rdx rsi rdi rsp rbp r8 r9 r10 r11 r12 r13 r14 r15];
    rewrite land_mask64 by (split; assumption); reflexivity.
Qed.

(** ** The text of an address and its value *)

Definition reg_name (n : Z) : string := String "%" (reg_tail n).

Definition disp_part (md : Z) (e : ea) : string :=
  if (md != 0) || (Z.land (ea_base e) 7 == 5) then
    (if ea_havedisp e || ea_riprel e then disp_text (s64 (ea_disp e))
     else "0x" ++ hex_string (ea_disp e)) ++ (if ea_riprel e then "(%rip)" else EmptyString)
  else EmptyString.

Definition index_part (e : ea) : string :=
  if ea_havesib e then
    (if ea_index e != 4 then "," ++ reg_name (ea_index e) else EmptyString) ++
    (if (ea_scale e != 0) || (ea_index e != 4) then "," ++ dec_string (Z.shiftl 1 (ea_scale e)) else EmptyString)
  else EmptyString.

Definition paren_part (e : ea) : string :=
  if ea_havedisp e then
    "(" ++ (if ea_havebase e then reg_name (ea_base e) else EmptyString) ++ index_part e ++ ")"
  else EmptyString.

(** What [OP_E] prints for the decoded address [e] (AT&T syntax, 64-bit mode). *)
Definition ea_text (md : Z) (e : ea) : string := disp_part md e ++ paren_part e.

(** What the processor accesses: base, scaled index and displacement, or the
    displacement from the next instruction. *)
Definition ea_value (regs : kvm_regs) (insn_size : Z) (e : ea) : Z :=
  u64 ((if ea_havebase e then gpr regs (ea_base e) else 0)
       + (if ea_havesib e && (ea_index e != 4) then gpr regs (ea_index e) * 2 ^ ea_scale e else 0)
       + (if ea_riprel e then rip regs + insn_size else 0)
       + ea_disp e).

(** What [OP_E_decode] guarantees of its result. *)
Record ea_wf (md : Z) (e : ea) : Prop := {
  wf_base : 0 <= ea_base e < 16;
  wf_index : 0 <= ea_index e < 16;
  wf_scale : 0 <= ea_scale e < 4;
  wf_disp : 0 <= ea_disp e < 2 ^ 64;
  wf_nobase : ea_havebase e = negb ((md == 0) && (Z.land (ea_base e) 7 == 5));
  wf_riprel : ea_riprel e = negb (ea_havebase e) && negb (ea_havesib e);
  wf_nodisp : md = 0 -> Z.land (ea_base e) 7 <> 5 -> ea_disp e = 0 }.

Lemma not_hex_paren e : not_hex_head (paren_part e).
Proof. unfold paren_part. destruct (ea_havedisp e); [reflexivity | exact I]. Qed.

Lemma run_loop_name n rest c m regs k : 0 <= n < 16 -> regs_ok regs ->
  run_loop (reg_name n ++ String c rest) m regs k
  = run_loop (if short_name n then rest else String c rest)
      (mk_ma (m_val m) (m_off m) (gpr regs n) (m_base m) (m_idx m) (m_base_flag m) (m_sign m)) regs k.
Proof.
  intros Hn Hr. unfold reg_name. cbn [String.append].
  apply run_loop_reg; [apply get_reg_val_reg; assumption|].
  rewrite length_append. destruct (short_name n); simpl; lia.
Qed.

(** The scale factor, between the index and the closing parenthesis. *)
Lemma run_loop_scale sc m regs k : 0 <= sc < 4 -> m_base_flag m = true -> m_sign m = 1 ->
  run_loop (dec_string (Z.shiftl 1 sc) ++ ")") m regs k
  = Ok (u64 (m_base m + m_reg m * 2 ^ sc + m_off m)).
Proof.
  intros Hs Hf Hg. destruct m as [v o r b i f g]; simpl in Hf, Hg; subst.
  assert (C : sc = 0 \/ sc = 1 \/ sc = 2 \/ sc = 3) by lia.
  destruct C as [-> | [-> | [-> | ->]]]; reflexivity.
Qed.

(** The index register and the scale factor. *)
Lemma run_loop_index n sc m regs k : 0 <= n < 16 -> 0 <= sc < 4 -> regs_ok regs ->
  m_base_flag m = false -> m_sign m = 1 ->
  run_loop ("," ++ reg_name n ++ "," ++ dec_string (Z.shiftl 1 sc) ++ ")") m regs k
  = Ok (u64 (m_reg m + gpr regs n * 2 ^ sc + m_off m)).
Proof.
  intros Hn Hs Hr Hf Hg. cbn [String.append]. rewrite run_loop_comma, Hf.
  rewrite run_loop_name by assumption.
  destruct (short_name n).
  - rewrite run_loop_scale by (first [assumption | reflexivity]). reflexivity.
  - rewrite run_loop_comma. cbn [m_base_flag].
    rewrite run_loop_scale by (first [assumption | reflexivity]). reflexivity.
Qed.

Definition base_ok (e : ea) : Prop := ea_havebase e = true -> short_name (ea_base e) = false.
Definition scale_ok (e : ea) : Prop := ea_havesib e = true -> ea_index e = 4 -> ea_scale e = 0.

(** Evaluation of the parenthesised part after a displacement [d]. *)
Lemma run_loop_paren md e d regs k : ea_wf md e -> regs_ok regs -> base_ok e -> scale_ok e ->
  ea_havedisp e = true ->
  run_loop (paren_part e) (mk_ma d 0 0 0 1 false 1) regs k
  = Ok (u64 ((if ea_havebase e then gpr regs (ea_base e) else 0)
       + (if ea_havesib e && (ea_index e != 4) then gpr regs (ea_index e) * 2 ^ ea_scale e else 0) + d)).
Proof.
  intros [Hb Hi Hs _ _ _ _] Hr Bok Sok Hd. unfold paren_part. rewrite Hd. cbn [String.append].
  rewrite run_loop_open. cbn [m_val m_off m_reg m_base m_idx m_base_flag m_sign].
  unfold index_part, base_ok, scale_ok, ea_havedisp in *.
  destruct (ea_havesib e) eqn:Es; cbn [andb].
  - destruct (Z.eqb_spec (ea_index e) 4) as [E4|E4]; cbn [negb].
    + rewrite (Sok eq_refl E4) in *. rewrite Z.eqb_refl in *. cbn [negb orb andb String.append] in *.
      rewrite orb_false_r in Hd. rewrite Hd in *.
      rewrite run_loop_name by assumption. rewrite (Bok eq_refl). rewrite run_loop_close.
      f_equal. cbn. f_equal. ring.
    + rewrite orb_true_r. rewrite !append_assoc.
      destruct (ea_havebase e).
      * cbn [String.append]. rewrite run_loop_name by assumption. rewrite (Bok eq_refl).
        rewrite (run_loop_index (ea_index e) (ea_scale e)) by (first [assumption | reflexivity]).
        f_equal.
      * cbn [String.append].
        rewrite (run_loop_index (ea_index e) (ea_scale e)) by (first [assumption | reflexivity]).
        f_equal.
  - cbn [String.append]. rewrite orb_false_r in Hd. rewrite Hd in *.
    rewrite run_loop_name by assumption. rewrite (Bok eq_refl). rewrite run_loop_close.
    f_equal. cbn. f_equal. ring.
Qed.

Lemma get_mem_addr_run c t regs k :
  ceq c "*" = false -> ceq c "%" = false -> ceq c "$" = false ->
  get_mem_addr (String c t) regs k = run_loop (String c t) ma_init regs k.
Proof. intros H1 H2 H3. unfold get_mem_addr. cbn [head]. rewrite H1. cbn [head]. rewrite H2, H3. reflexivity. Qed.

(** The text of an address starts with a digit, a minus sign or a parenthesis. *)
Lemma ea_text_head md e : ea_wf md e ->
  exists c t, ea_text md e = String c t /\ (c = "0" \/ c = "-" \/ c = "(")%char.
Proof.
  intros [_ _ _ _ Hb Hr _]. unfold ea_text, disp_part, paren_part, disp_text.
  destruct ((md != 0) || (Z.land (ea_base e) 7 == 5)) eqn:E.
  - destruct (_ || ea_riprel e); [destruct (_ <? 0)|]; cbn [String.append]; eauto 6.
  - apply orb_false_iff in E as [_ E]. rewrite E, andb_false_r in Hb.
    unfold ea_havedisp. rewrite Hb. cbn [String.append orb]. eauto 6.
Qed.

Lemma run_loop_rip d regs k : regs_ok regs ->
  run_loop "(%rip)" (mk_ma d 0 0 0 1 false 1) regs k = Ok (u64 (rip regs + k + d)).
Proof.
  intros Hr. rewrite run_loop_open, (run_loop_reg _ _ _ _ (u64 (rip regs + k)) ")").
  - rewrite run_loop_close. f_equal. cbn [m_base m_reg m_idx m_off m_val].
    replace (0 + u64 (rip regs + k) * 1 + d) with (u64 (rip regs + k) + d) by ring.
    apply u64_add_l.
  - unfold get_reg_val. cbn -[Z.land u64]. rewrite land_mask64 by apply u64_range. reflexivity.
  - simpl. lia.
Qed.

(** The evaluation of a printed address, with the displacement already read. *)
Lemma run_loop_ea md e regs k : ea_wf md e -> regs_ok regs -> base_ok e -> scale_ok e ->
  run_loop (ea_text md e) ma_init regs k = Ok (ea_value regs k e).
Proof.
  intros W Hr Bok Sok. pose proof W as [Hb _ _ Hd Hnb Hrip Hnd].
  unfold ea_text, disp_part, ea_value.
  destruct ((md != 0) || (Z.land (ea_base e) 7 == 5)) eqn:E.
  - destruct (ea_riprel e) eqn:R.
    + symmetry in Hrip. apply andb_true_iff in Hrip as [Hb0 Hs0].
      apply negb_true_iff in Hb0, Hs0.
      unfold paren_part, ea_havedisp. rewrite Hb0, Hs0. cbn [andb orb].
      rewrite append_nil_r, run_loop_disp by (first [reflexivity | apply s64_range]).
      cbn [m_off m_reg m_base m_idx ma_init]. rewrite run_loop_rip by assumption.
      f_equal. rewrite u64_s64. wrap_ring.
    + rewrite append_nil_r. destruct (ea_havedisp e) eqn:D; cbn [orb].
      * rewrite run_loop_disp by (first [apply not_hex_paren | apply s64_range | reflexivity]).
        cbn [m_off m_reg m_base m_idx ma_init].
        rewrite (run_loop_paren md) by assumption. f_equal. rewrite u64_s64. wrap_ring.
      * unfold paren_part. rewrite D. cbn [String.append].
        unfold ea_havedisp in D. apply orb_false_iff in D as [D1 D2]. rewrite D1 in *.
        cbn [negb andb] in Hrip. symmetry in Hrip. apply negb_false_iff in Hrip. rewrite Hrip in *.
        cbn [andb] in D2. apply orb_false_iff in D2 as [D2 _]. rewrite D2. cbn [andb].
        rewrite run_loop_number by exact I. unfold run_loop. cbn -[u64]. f_equal.
        wrap_ring.
  - apply orb_false_iff in E as [E1 E2]. rewrite E2, andb_false_r in Hnb. cbn [negb] in Hnb.
    rewrite Hnb in Hrip. cbn [negb andb] in Hrip. rewrite Hrip, Hnb. cbn [String.append].
    change ma_init with (mk_ma 0 0 0 0 1 false 1). rewrite (run_loop_paren md) by (auto; unfold ea_havedisp; rewrite Hnb; reflexivity).
    rewrite Hnb. bool_props. rewrite (Hnd E1 E2). f_equal. f_equal. ring.
Qed.

(** ** Printing: [OP_E_print] writes exactly [ea_text] *)

(** The state while operand [i] holds the text [t] and the cursor is at its end. *)
Definition put (i : nat) (t : string) (s : dis_state) : dis_state :=
  set_obufp (OpOut i, String.length t) (set_op_out (<[i := t]> (op_out s)) s).

(** AT&T syntax in 64-bit mode, with operand slot [i] present. *)
Record att64 (i : nat) (s : dis_state) : Prop := {
  att_syn : syn s = att_syntax;
  att_mode : address_mode s = mode_64bit;
  att_slot : (i < length (op_out s))%nat }.

Lemma oappend_put i t u s : (i < length (op_out s))%nat ->
  oappend u (put i t s) = Ok (tt, put i (t ++ u) s).
Proof.
  intros H. unfold oappend, put. cbn.
  rewrite list_lookup_insert_eq by assumption. cbn.
  rewrite stake_all, list_insert_insert_eq, length_append. reflexivity.
Qed.

Lemma dbind_ok {A B} (m : DM A) (f : A -> DM B) s a s' :
  m s = Ok (a, s') -> dbind m f s = f a s'.
Proof. intros H. unfold dbind. rewrite H. reflexivity. Qed.

Lemma oappend_name_put i t s n : att64 i s -> 0 <= n < 16 ->
  oappend_name names64 n (put i t s) = Ok (tt, put i (t ++ reg_name n) s).
Proof.
  intros [Hs _ Hl] Hn. unfold oappend_name.
  rewrite (dbind_ok _ _ _ (reg_name n) (put i t s)); [apply oappend_put, Hl|].
  unfold name_at. cbn. rewrite Hs. each_reg Hn; reflexivity.
Qed.

(** Equations that run the monad on a state of the form [put i t s]. *)

Lemma dbind_gets {A B} (f : dis_state -> A) (k : A -> DM B) s : dbind (gets f) k s = k (f s) s.
Proof. reflexivity. Qed.

Lemma dbind_ret {A B} (a : A) (k : A -> DM B) s : dbind (dret a) k s = k a s.
Proof. reflexivity. Qed.

Lemma dbind_assoc {A B C} (m : DM A) (f : A -> DM B) (k : B -> DM C) s :
  dbind (dbind m f) k s = dbind m (fun a => dbind (f a) k) s.
Proof. unfold dbind. destruct (m s) as [[a s']|]; reflexivity. Qed.

Lemma intel_put i t s : att64 i s -> intel (put i t s) = Ok (false, put i t s).
Proof. intros [H _ _]. unfold intel, gets. cbn. rewrite H. reflexivity. Qed.

Lemma mode64_put i t s : att64 i s -> mode64 (put i t s) = Ok (true, put i t s).
Proof. intros [_ H _]. unfold mode64, gets. cbn. rewrite H. reflexivity. Qed.

Lemma addr_name_put i t s sf n : att64 i s -> sf & AFLAG = true -> 0 <= n < 16 ->
  addr_name sf n (put i t s) = Ok (tt, put i (t ++ reg_name n) s).
Proof.
  intros H Hf Hn. unfold addr_name. rewrite (dbind_ok _ _ _ _ _ (mode64_put i t s H)).
  rewrite Hf. apply oappend_name_put; assumption.
Qed.

(** The record a rip-relative operand leaves for the address printer. *)
Definition rec_riprel (d : Z) (s : dis_state) : dis_state :=
  set_op_riprel (<[op_ad s := 1]> (op_riprel s))
  (set_op_address (<[op_ad s := d]> (op_address s))
  (set_op_index (<[op_ad s := Z.of_nat (op_ad s)]> (op_index s)) s)).

Lemma set_op_put i t s d : att64 i s -> set_op d 1 (put i t s) = Ok (tt, put i t (rec_riprel d s)).
Proof.
  intros H. unfold set_op. rewrite dbind_gets. rewrite (dbind_ok _ _ _ _ _ (mode64_put i t s H)).
  reflexivity.
Qed.

Lemma att64_rec i d s : att64 i s -> att64 i (rec_riprel d s).
Proof. intros [H1 H2 H3]. constructor; assumption. Qed.

Lemma append_empty_l t : EmptyString ++ t = t.
Proof. reflexivity. Qed.

(** What the state is after the displacement part. *)
Definition after_ea (e : ea) (s : dis_state) : dis_state :=
  if ea_riprel e then rec_riprel (ea_disp e) s else s.

Lemma att64_after i e s : att64 i s -> att64 i (after_ea e s).
Proof. unfold after_ea. destruct (ea_riprel e); auto using att64_rec. Qed.

Lemma OP_E_disp_put i t s e md : att64 i s -> modrm_mod s = md -> ea_wf md e ->
  OP_E_disp e (put i t s) = Ok (tt, put i (t ++ disp_part md e) (after_ea e s)).
Proof.
  intros H Hm W. pose proof H as [_ Hmode Hl].
  unfold OP_E_disp, disp_part, after_ea.
  rewrite (dbind_ok _ _ _ _ _ (intel_put i t s H)), !dbind_gets.
  change (modrm_mod (put i t s)) with (modrm_mod s).
  change (address_mode (put i t s)) with (address_mode s).
  rewrite Hm, Hmode. cbn [negb andb]. unfold when.
  destruct ((md != 0) || (Z.land (ea_base e) 7 == 5)) eqn:E.
  - rewrite print_displacement_64, print_operand_value_64.
    rewrite (dbind_ok _ _ _ _ _ (oappend_put i t _ s Hl)).
    destruct (ea_riprel e).
    + rewrite (dbind_ok _ _ _ _ _ (set_op_put i _ s (ea_disp e) H)).
      rewrite (oappend_put i) by assumption. rewrite append_assoc. reflexivity.
    + rewrite append_nil_r. reflexivity.
  - destruct W as [_ _ _ _ Hnb Hrip _]. apply orb_false_iff in E as [_ E].
    rewrite E, andb_false_r in Hnb. rewrite Hnb in Hrip. cbn in Hrip. rewrite Hrip, append_nil_r.
    reflexivity.
Qed.

Lemma OP_E_index_put i t s e sf : att64 i s -> sf & AFLAG = true -> 0 <= ea_index e < 16 ->
  OP_E_index sf e (put i t s) = Ok (tt, put i (t ++ index_part e) s).
Proof.
  intros H Hf Hi. pose proof H as [Hsy _ Hl]. unfold OP_E_index, index_part.
  rewrite (dbind_ok _ _ _ _ _ (intel_put i t s H)), dbind_gets.
  change (syn (put i t s)) with (syn s). rewrite Hsy. unfold when, emit, terminate. cbn [negb orb andb].
  destruct (ea_havesib e); [|rewrite append_nil_r; reflexivity].
  destruct (ea_index e != 4); cbn [orb].
  - rewrite orb_true_r, !dbind_assoc.
    rewrite (dbind_ok _ _ _ _ _ (oappend_put i t _ s Hl)).
    rewrite (dbind_ok _ _ _ _ _ (oappend_put i _ _ s Hl)), append_nil_r.
    rewrite (dbind_ok _ _ _ _ _ (addr_name_put i _ s sf _ H Hf Hi)).
    rewrite (dbind_ok _ _ _ _ _ (oappend_put i _ _ s Hl)).
    rewrite (dbind_ok _ _ _ _ _ (oappend_put i _ _ s Hl)), append_nil_r.
    rewrite oappend_put by assumption. rewrite !append_assoc. reflexivity.
  - rewrite orb_false_r. rewrite dbind_ret. destruct (ea_scale e != 0).
    + rewrite (dbind_ok _ _ _ _ _ (oappend_put i _ _ s Hl)).
      rewrite (dbind_ok _ _ _ _ _ (oappend_put i _ _ s Hl)), append_nil_r.
      rewrite oappend_put by assumption. rewrite !append_assoc. reflexivity.
    + rewrite append_nil_r. reflexivity.
Qed.

(** The printer writes the text of the address and nothing else. *)
Lemma OP_E_print_put i t s e sf md : att64 i s -> sf & AFLAG = true -> modrm_mod s = md -> ea_wf md e ->
  OP_E_print sf e (put i t s) = Ok (tt, put i (t ++ ea_text md e) (after_ea e s)).
Proof.
  intros H Hf Hm W. pose proof (att64_after i e s H) as H'. pose proof H as [Hsy _ _].
  pose proof H' as [_ _ Hl']. unfold OP_E_print.
  rewrite (dbind_ok _ _ _ _ _ (intel_put i t s H)), !dbind_gets.
  rewrite (dbind_ok _ _ _ _ _ (OP_E_disp_put i t s e md H Hm W)).
  change (syn (put i t s)) with (syn s). rewrite Hsy. cbn [andb]. rewrite orb_false_r.
  unfold ea_text, paren_part. destruct (ea_havedisp e).
  - unfold when, emit, terminate.
    rewrite (dbind_ok _ _ _ _ _ (oappend_put i _ _ _ Hl')), dbind_ret.
    rewrite (dbind_ok _ _ _ _ _ (oappend_put i _ _ _ Hl')), append_nil_r.
    destruct (ea_havebase e).
    + rewrite (dbind_ok _ _ _ _ _ (addr_name_put i _ _ sf _ H' Hf (wf_base _ _ W))).
      rewrite (dbind_ok _ _ _ _ _ (OP_E_index_put i _ _ e sf H' Hf (wf_index _ _ W))), dbind_ret.
      rewrite (dbind_ok _ _ _ _ _ (oappend_put i _ _ _ Hl')), oappend_put by assumption.
      rewrite append_nil_r, !append_assoc. reflexivity.
    + rewrite dbind_ret.
      rewrite (dbind_ok _ _ _ _ _ (OP_E_index_put i _ _ e sf H' Hf (wf_index _ _ W))), dbind_ret.
      rewrite (dbind_ok _ _ _ _ _ (oappend_put i _ _ _ Hl')), oappend_put by assumption.
      rewrite append_nil_r, !append_assoc. reflexivity.
  - rewrite append_nil_r. reflexivity.
Qed.

(** ** Decoding leaves the output alone *)

(** The part of the state that reading the instruction bytes does not change. *)
Record ctx_eq (s s' : dis_state) : Prop := {
  ce_mode : address_mode s' = address_mode s;
  ce_prefixes : prefixes s' = prefixes s;
  ce_used : used_prefixes s' = used_prefixes s;
  ce_rex : rex s' = rex s;
  ce_obuf : obuf s' = obuf s;
  ce_out : op_out s' = op_out s;
  ce_obufp : obufp s' = obufp s;
  ce_mod : modrm_mod s' = modrm_mod s;
  ce_reg : modrm_reg s' = modrm_reg s;
  ce_rm : modrm_rm s' = modrm_rm s;
  ce_need : need_modrm s' = need_modrm s;
  ce_syn : syn s' = syn s;
  ce_ad : op_ad s' = op_ad s;
  ce_index : op_index s' = op_index s;
  ce_address : op_address s' = op_address s;
  ce_riprel : op_riprel s' = op_riprel s;
  ce_insn : insn_codep s' = insn_codep s;
  ce_pc : start_pc s' = start_pc s;
  ce_two : two_source_ops s' = two_source_ops s;
  ce_fetch : fetch s' = fetch s }.

#[export] Instance ctx_eq_refl : Reflexive ctx_eq.
Proof. intros s. constructor; reflexivity. Qed.

#[export] Instance ctx_eq_trans : Transitive ctx_eq.
Proof. intros s1 s2 s3 [] []. constructor; congruence. Qed.

(** Computations that neither read nor write the output buffers nor the rest of
    the context. *)
Class Quiet {A} (m : DM A) : Prop := {
  quiet_ctx : forall s a s', m s = Ok (a, s') -> ctx_eq s s';
  quiet_put : forall i t s,
    m (put i t s) = match m s with Ok (a, s') => Ok (a, put i t s') | Err e => Err e end }.

Lemma dbind_inv {A B} (m : DM A) (f : A -> DM B) s r :
  dbind m f s = Ok r -> exists a s1, m s = Ok (a, s1) /\ f a s1 = Ok r.
Proof. unfold dbind. destruct (m s) as [[a s1]|]; [eauto | discriminate]. Qed.

#[export] Instance quiet_ret {A} (a : A) : Quiet (dret a).
Proof. split; [intros s ? ? [= _ <-]; reflexivity | reflexivity]. Qed.

#[export] Instance quiet_fail {A} e : Quiet (@dfail A e).
Proof. split; [discriminate | reflexivity]. Qed.

#[export] Instance quiet_bind {A B} (m : DM A) (f : A -> DM B) :
  Quiet m -> (forall a, Quiet (f a)) -> Quiet (dbind m f).
Proof.
  intros [C1 P1] Hf. split.
  - intros s b s' (a & s1 & E1 & E2)%dbind_inv. etrans; [eapply C1, E1 | eapply Hf, E2].
  - intros i t s. unfold dbind. rewrite P1. destruct (m s) as [[a s1]|]; [apply Hf | reflexivity].
Qed.

#[export] Instance quiet_if {A} (b : bool) (m n : DM A) : Quiet m -> Quiet n -> Quiet (if b then m else n).
Proof. destruct b; auto. Qed.

#[export] Instance quiet_when b m : Quiet m -> Quiet (when b m).
Proof. unfold when. apply _. Qed.

Ltac solve_quiet := split; [intros s ? ? [= _ <-]; constructor; reflexivity | reflexivity].

#[export] Instance quiet_codep : Quiet (gets codep).
Proof. solve_quiet. Qed.
#[export] Instance quiet_rm : Quiet (gets modrm_rm).
Proof. solve_quiet. Qed.
#[export] Instance quiet_mod : Quiet (gets modrm_mod).
Proof. solve_quiet. Qed.
#[export] Instance quiet_mode64 : Quiet mode64.
Proof. solve_quiet. Qed.
#[export] Instance quiet_rex_has b : Quiet (rex_has b).
Proof. solve_quiet. Qed.
#[export] Instance quiet_advance n : Quiet (advance n).
Proof. solve_quiet. Qed.

#[export] Instance quiet_USED_REX v : Quiet (USED_REX v).
Proof.
  split.
  - intros s ? ? [= _ <-]. destruct (negb _); [destruct (bits _ _)|]; constructor; reflexivity.
  - intros i t s. unfold USED_REX, modify. cbn.
    destruct (negb _); [destruct (bits _ _)|]; reflexivity.
Qed.

#[export] Instance quiet_getb i : Quiet (getb i).
Proof.
  unfold getb. split.
  - intros s a s' E. repeat (case_hyp E; try discriminate). injection E as _ <-. reflexivity.
  - intros j t s. change (the_buffer (put j t s)) with (the_buffer s).
    destruct (the_buffer s !! i) as [[b|]|]; reflexivity.
Qed.

#[export] Instance quiet_peek : Quiet peek.
Proof. unfold peek. apply _. Qed.
#[export] Instance quiet_next : Quiet next.
Proof. unfold next. apply _. Qed.

#[export] Instance quiet_fetch_data n : Quiet (fetch_data n).
Proof.
  unfold fetch_data, fetch_data2. split.
  - intros s a s' E. repeat (case_hyp E; try discriminate); injection E as _ <-;
      constructor; reflexivity.
  - intros j t s.
    change (fetch (put j t s)) with (fetch s). change (codep (put j t s)) with (codep s).
    change (max_fetched (put j t s)) with (max_fetched s).
    change (insn_start (put j t s)) with (insn_start s).
    change (read_memory_func (put j t s)) with (read_memory_func s).
    repeat case_goal; try reflexivity; congruence.
Qed.

#[export] Instance quiet_get32s : Quiet get32s.
Proof. unfold get32s. apply _. Qed.
#[export] Instance quiet_get8s : Quiet get8s.
Proof. unfold get8s. apply _. Qed.
#[export] Instance quiet_sib : Quiet OP_E_sib.
Proof. unfold OP_E_sib. apply _. Qed.

#[export] Instance quiet_decode add : Quiet (OP_E_decode add).
Proof.
  unfold OP_E_decode. do 3 (apply quiet_bind; [apply _ | intros ?]).
  apply quiet_bind; [apply _ | intros [[? ?] ?]]. apply _.
Qed.
