(* ===== verification/EffectiveAddr.v ===== *)
(** * The accessed address, from the bytes of the instruction

    [isa_address] is the effective address of a mod/rm operand in 64-bit mode as
    the processor computes it, written directly on the instruction bytes.  The
    theorems follow an operand through the code: [OP_E] decodes the bytes and
    prints a text, [get_mem_addr] evaluates the text on the guest registers, and
    the result is the effective address, for every operand without a segment
    prefix whose base register is not %r8 or %r9 and whose SIB byte does not name
    a scale without an index.  The two exceptions are shown to be wrong. *)

From Stdlib Require Import ZArith Lia Bool Ascii String.
From stdpp Require Import base list.
From S2P Require Import Prelude MemOperand DisasTypes DisasTables DisasOps OperandText.

Open Scope string_scope.
Open Scope Z_scope.
Open Scope dm_scope.

(** ** The addressing modes of the processor *)

(** A two's-complement number of [w] bits. *)
Definition signed (w : Z) (x : Z) : Z := if x <? 2 ^ (w - 1) then x else x - 2 ^ w.

(** A little-endian number of four bytes. *)
Definition le32 (b : nat -> Z) (j : nat) : Z :=
  b j + 2 ^ 8 * b (j + 1)%nat + 2 ^ 16 * b (j + 2)%nat + 2 ^ 24 * b (j + 3)%nat.

Section isa.
(** The bytes from the mod/rm byte on, and the bits B and X of the REX prefix. *)
Variables (b : nat -> Z) (rexb rexx : bool).

Definition isa_mod : Z := b 0%nat / 64.
Definition isa_rm : Z := b 0%nat mod 8.
Definition isa_sib : bool := isa_rm =? 4.
Definition isa_ext (r : bool) : Z := if r then 8 else 0.
Definition isa_base3 : Z := if isa_sib then b 1%nat mod 8 else isa_rm.
Definition isa_base : Z := isa_base3 + isa_ext rexb.
Definition isa_index : Z := if isa_sib then (b 1%nat / 8) mod 8 + isa_ext rexx else 0.
Definition isa_scale : Z := if isa_sib then b 1%nat / 64 else 0.
Definition isa_nobase : bool := (isa_mod =? 0) && (isa_base3 =? 5).
Definition isa_disp_at : nat := if isa_sib then 2 else 1.
Definition isa_disp_len : nat :=
  if isa_mod =? 1 then 1 else if (isa_mod =? 2) || isa_nobase then 4 else 0.
Definition isa_disp : Z :=
  if isa_mod =? 1 then signed 8 (b isa_disp_at)
  else if (isa_mod =? 2) || isa_nobase then signed 32 (le32 b isa_disp_at)
  else 0.

(** The number of bytes of the operand. *)
Definition isa_length : nat := (isa_disp_at + isa_disp_len)%nat.

(** The address, given the registers and the address of the next instruction. *)
Definition isa_address (regs : kvm_regs) (next_rip : Z) : Z :=
  u64 ((if isa_nobase then (if isa_sib then 0 else next_rip) else gpr regs isa_base)
       + (if isa_sib && negb (isa_index =? 4) then gpr regs isa_index * 2 ^ isa_scale else 0)
       + isa_disp).
End isa.

(** ** Decoding *)

Definition is_byte (x : Z) : Prop := 0 <= x < 256.

(** The sign bit of a number of [k + 1] bits. *)
Lemma land_sign x k : 0 <= k -> 0 <= x < 2 ^ (k + 1) ->
  Z.land x (2 ^ k) = if x <? 2 ^ k then 0 else 2 ^ k.
Proof.
  intros Hk Hx. rewrite Z.pow_add_r in Hx by lia. change (2 ^ 1) with 2 in Hx.
  destruct (Z.ltb_spec x (2 ^ k)) as [H|H].
  - rewrite <- (Z.mul_1_l (2 ^ k)). apply land_disjoint; lia.
  - replace x with ((x - 2 ^ k) + 2 ^ k * 1) by ring.
    rewrite <- lor_add, Z.shiftl_mul_pow2, Z.mul_1_l by lia.
    rewrite Z.land_lor_distr_l, Z.land_diag.
    rewrite <- (Z.mul_1_l (2 ^ k)) at 2. rewrite land_disjoint by lia. apply Z.lor_0_l.
Qed.

(** The two forms of sign extension in the code. *)
Lemma sext_signed8 x : is_byte x -> sext 0x80 x = signed 8 x.
Proof.
  intros H. unfold sext, signed, bits. change 0x80 with (2 ^ 7). change (8 - 1) with 7.
  rewrite land_sign by (unfold is_byte in H; lia). destruct (x <? 2 ^ 7); reflexivity.
Qed.

Lemma lxor_signed32 x : 0 <= x < 2 ^ 32 ->
  Z.lxor x (Z.shiftl 1 31) - Z.shiftl 1 31 = signed 32 x.
Proof.
  intros H. change (Z.shiftl 1 31) with (1 * 2 ^ 31). unfold signed. change (32 - 1) with 31.
  destruct (Z.ltb_spec x (2 ^ 31)) as [Hx|Hx].
  - rewrite <- Z.add_nocarry_lxor by (apply land_disjoint; lia). lia.
  - replace x with ((x - 2 ^ 31) + 1 * 2 ^ 31) at 1 by lia.
    rewrite Z.add_nocarry_lxor by (apply land_disjoint; lia).
    rewrite Z.lxor_assoc, Z.lxor_nilpotent, Z.lxor_0_r. lia.
Qed.

(** The bytes [b] lie at the cursor. *)
Definition bytes_at (s : dis_state) (b : nat -> Z) (n : nat) : Prop :=
  forall j, (j < n)%nat -> the_buffer s !! (codep s + j)%nat = Some (Some (b j)) /\ is_byte (b j).

Definition adv (n : nat) (s : dis_state) : dis_state := set_codep (codep s + n)%nat s.

Lemma adv_adv n m s : adv n (adv m s) = adv (m + n) s.
Proof. unfold adv. cbn. rewrite Nat.add_assoc. reflexivity. Qed.

Lemma bytes_at_adv s b n m : bytes_at s b (m + n) -> bytes_at (adv m s) (fun j => b (m + j)%nat) n.
Proof.
  intros H j Hj. destruct (H (m + j)%nat ltac:(lia)) as [H1 H2]. split; [|exact H2].
  rewrite <- H1. cbn. f_equal. lia.
Qed.

Lemma peek_ok s b n : bytes_at s b n -> (0 < n)%nat -> peek s = Ok (b 0%nat, s).
Proof.
  intros H Hn. destruct (H 0%nat Hn) as [H1 _]. rewrite Nat.add_0_r in H1.
  unfold peek, dbind, gets, getb. rewrite H1. reflexivity.
Qed.

Lemma next_ok s b n : bytes_at s b (S n) ->
  next s = Ok (b 0%nat, adv 1 s) /\ bytes_at (adv 1 s) (fun j => b (S j)) n.
Proof.
  intros H. split; [|apply (bytes_at_adv s b n 1 H)].
  unfold next. rewrite (dbind_ok _ _ _ _ _ (peek_ok s b (S n) H ltac:(lia))). reflexivity.
Qed.

Lemma fetch_off n s : fetch s = false -> fetch_data n s = Ok (tt, s).
Proof. intros H. unfold fetch_data. rewrite H. reflexivity. Qed.

Lemma get8s_ok s b : fetch s = false -> bytes_at s b 1 ->
  get8s s = Ok (signed 8 (b 0%nat), adv 1 s).
Proof.
  intros Hf H. unfold get8s. rewrite (dbind_ok _ _ _ _ _ (fetch_off 1 s Hf)).
  rewrite (dbind_ok _ _ _ _ _ (proj1 (next_ok s b 0 H))), sext_signed8; [reflexivity|].
  apply (H 0%nat). lia.
Qed.

Lemma get32s_ok s b : fetch s = false -> bytes_at s b 4 ->
  get32s s = Ok (signed 32 (le32 b 0), adv 4 s).
Proof.
  intros Hf H. unfold get32s. rewrite (dbind_ok _ _ _ _ _ (fetch_off 4 s Hf)).
  assert (R : forall j, (j < 4)%nat -> is_byte (b j)) by (intros j Hj; apply (H j Hj)).
  pose proof (R 0%nat ltac:(lia)) as R0. pose proof (R 1%nat ltac:(lia)) as R1.
  pose proof (R 2%nat ltac:(lia)) as R2. pose proof (R 3%nat ltac:(lia)) as R3.
  unfold is_byte in *.
  destruct (next_ok _ _ _ H) as [E1 H1]. destruct (next_ok _ _ _ H1) as [E2 H2].
  destruct (next_ok _ _ _ H2) as [E3 H3]. destruct (next_ok _ _ _ H3) as [E4 _].
  rewrite (dbind_ok _ _ _ _ _ E1), (dbind_ok _ _ _ _ _ E2), (dbind_ok _ _ _ _ _ E3),
    (dbind_ok _ _ _ _ _ E4).
  cbv beta zeta.
  rewrite (lor_add _ _ 8), (lor_add _ _ 16), (lor_add _ _ 24) by lia.
  unfold dret. rewrite lxor_signed32 by lia.
  rewrite !adv_adv. reflexivity.
Qed.

(** The state after [USED_REX]. *)
Definition mark_rex (v : Z) (s : dis_state) : dis_state :=
  set_rex_used (if negb (v =? 0)
                then if bits (rex s) v then Z.lor (rex_used s) (Z.lor v REX_OPCODE) else rex_used s
                else Z.lor (rex_used s) REX_OPCODE) s.

Lemma USED_REX_ok v s : USED_REX v s = Ok (tt, mark_rex v s).
Proof.
  unfold USED_REX, modify, mark_rex. destruct s. cbn.
  destruct (negb _); [destruct (bits _ _)|]; reflexivity.
Qed.

Definition ext (r : bool) : Z := if r then 8 else 0.

(** The decoded address the processor's rules prescribe. *)
Definition isa_ea (b : nat -> Z) (rexb rexx : bool) : ea :=
  mk_ea (isa_sib b) (negb (isa_nobase b)) (isa_base b rexb) (isa_index b rexx) (isa_scale b)
        (u64 (isa_disp b)) (isa_nobase b && negb (isa_sib b)).

(** The mod/rm fields the decoder works with are those of the byte at the cursor. *)
Definition modrm_is (s : dis_state) (x : Z) : Prop :=
  modrm_mod s = x / 64 /\ modrm_reg s = (x / 8) mod 8 /\ modrm_rm s = x mod 8.

Lemma OP_E_sib_ok s b n : fetch s = false -> address_mode s = mode_64bit -> bytes_at s b (S n) ->
  OP_E_sib s = Ok (b 0%nat mod 8, (b 0%nat / 8) mod 8 + ext (bits (rex s) REX_X), b 0%nat / 64,
                   adv 1 (mark_rex REX_X s)).
Proof.
  intros Hf Hm H. pose proof (proj2 (H 0%nat ltac:(lia))) as Hb. unfold is_byte in Hb.
  unfold OP_E_sib. rewrite (dbind_ok _ _ _ _ _ (fetch_off 1 s Hf)).
  rewrite (dbind_ok _ _ _ _ _ (peek_ok s b _ H ltac:(lia))).
  unfold mode64. rewrite dbind_gets, Hm. cbn [is64 orb].
  rewrite (dbind_ok _ _ _ _ _ (USED_REX_ok REX_X s)). unfold rex_has. rewrite dbind_gets.
  change (rex (mark_rex REX_X s)) with (rex s). unfold advance, dbind, modify, dret.
  rewrite !land7, land3, !shiftr_div by lia. change (2 ^ 3) with 8. change (2 ^ 6) with 64.
  rewrite (Z.mod_small (b 0%nat / 64) 4)
    by (split; [apply Z.div_pos | apply (Z.div_lt_upper_bound (b 0%nat) 64 4)]; lia).
  unfold ext. destruct (bits (rex s) REX_X); [reflexivity | rewrite Z.add_0_r; reflexivity].
Qed.

(** The displacement, after the mod/rm and SIB bytes. *)
Lemma disp_ok b s : fetch s = false ->
  (let j := isa_disp_at b in bytes_at s (fun i => b (j + i)%nat) (isa_disp_len b)) ->
  (if isa_mod b == 0 then (if isa_nobase b then get32s else dret 0)
   else if isa_mod b == 1 then get8s else if isa_mod b == 2 then get32s else dret 0) s
  = Ok (isa_disp b, adv (isa_disp_len b) s).
Proof.
  intros Hf. unfold isa_disp_len, isa_disp. cbv zeta.
  assert (Z0 : forall t : dis_state, t = adv 0 t) by (intros []; unfold adv; cbn; rewrite Nat.add_0_r; reflexivity).
  assert (L : le32 (fun i => b (isa_disp_at b + i)%nat) 0 = le32 b (isa_disp_at b))
    by (unfold le32; rewrite !Nat.add_0_l, Nat.add_0_r; reflexivity).
  destruct (Z.eqb_spec (isa_mod b) 1) as [E1|E1].
  - rewrite E1. cbn [Z.eqb Pos.eqb]. intros H.
    pose proof (get8s_ok _ _ Hf H) as E. cbv beta in E. rewrite Nat.add_0_r in E. exact E.
  - destruct (Z.eqb_spec (isa_mod b) 2) as [E2|E2]; cbn [orb].
    + rewrite E2. cbn [Z.eqb Pos.eqb]. intros H. rewrite (get32s_ok _ _ Hf H), L. reflexivity.
    + unfold isa_nobase. destruct (isa_mod b =? 0); cbn [andb]; [|intros _; rewrite <- Z0; reflexivity].
      destruct (isa_base3 b =? 5); [|intros _; rewrite <- Z0; reflexivity].
      intros H. rewrite (get32s_ok _ _ Hf H), L. reflexivity.
Qed.

Lemma nobase_low b rexb : is_byte (b 0%nat) -> is_byte (b 1%nat) ->
  Z.land (isa_base3 b + ext rexb) 7 = isa_base3 b.
Proof.
  intros H0 H1. rewrite land7. unfold isa_base3, isa_rm.
  assert (R : forall x, (x mod 8 + ext rexb) mod 8 = x mod 8).
  { intros x. unfold ext. destruct rexb; rewrite ?Z.add_0_r; [|apply Z.mod_mod; lia].
    rewrite <- (Z.mul_1_l 8) at 2. rewrite Z.mod_add by lia. apply Z.mod_mod; lia. }
  destruct (isa_sib b); apply R.
Qed.

(** What the operand needs of the state: the disassembler reads from the buffer,
    in 64-bit mode, and stands at the mod/rm byte of the operand [b]. *)
Record at_operand (s : dis_state) (b : nat -> Z) : Prop := {
  ao_fetch : fetch s = false;
  ao_mode : address_mode s = mode_64bit;
  ao_bytes : bytes_at s b (isa_length b);
  ao_modrm : modrm_is s (b 0%nat) }.

Lemma isa_length_pos b : (isa_length b = isa_disp_at b + isa_disp_len b)%nat /\ (1 <= isa_disp_at b)%nat.
Proof. split; [reflexivity|]. unfold isa_disp_at. destruct (isa_sib b); lia. Qed.

(** The bytes of the displacement. *)
Lemma disp_bytes s b : bytes_at s b (isa_length b) ->
  bytes_at (adv (isa_disp_at b) s) (fun i => b (isa_disp_at b + i)%nat) (isa_disp_len b).
Proof. intros H. apply bytes_at_adv. exact H. Qed.

Lemma decode_tail b rexb rexx s : fetch s = false ->
  Z.land (isa_base3 b + ext rexb) 7 = isa_base3 b ->
  bytes_at s (fun i => b (isa_disp_at b + i)%nat) (isa_disp_len b) ->
  (let base := isa_base3 b + ext rexb in
   let nobase := (isa_mod b == 0) && (Z.land base 7 == 5) in
   disp <- (if isa_mod b == 0 then (if nobase then get32s else dret 0)
            else if isa_mod b == 1 then get8s else if isa_mod b == 2 then get32s else dret 0) ;;
   dret (mk_ea (isa_sib b) (negb nobase) base (isa_index b rexx) (isa_scale b) (u64 disp)
               (nobase && true && negb (isa_sib b)))) s
  = Ok (isa_ea b rexb rexx, adv (isa_disp_len b) s).
Proof.
  intros Hf Hl H. cbv zeta. rewrite Hl.
  change ((isa_mod b == 0) && (isa_base3 b == 5)) with (isa_nobase b).
  rewrite (dbind_ok _ _ _ _ _ (disp_ok b s Hf H)), andb_true_r. reflexivity.
Qed.

Lemma OP_E_decode_ok s b : at_operand s b -> is_byte (b 0%nat) -> is_byte (b 1%nat) ->
  exists s', OP_E_decode (ext (bits (rex s) REX_B)) (adv 1 s)
             = Ok (isa_ea b (bits (rex s) REX_B) (bits (rex s) REX_X), s')
             /\ codep s' = (codep s + isa_length b)%nat.
Proof.
  intros [Hf Hm Hb (M1 & _ & M3)] B0 B1. unfold OP_E_decode. rewrite !dbind_gets.
  unfold mode64. rewrite dbind_gets.
  change (address_mode (adv 1 s)) with (address_mode s). rewrite Hm. cbn [is64].
  change (modrm_rm (adv 1 s)) with (modrm_rm s). change (modrm_mod (adv 1 s)) with (modrm_mod s).
  rewrite M1, M3. change (b 0%nat / 64) with (isa_mod b). change (b 0%nat mod 8) with (isa_rm b).
  pose proof (nobase_low b (bits (rex s) REX_B) B0 B1) as Hl.
  pose proof (disp_bytes s b Hb) as Hd. unfold isa_length.
  change (isa_rm b == 4) with (isa_sib b).
  destruct (isa_sib b) eqn:Es.
  - assert (D : isa_disp_at b = 2%nat) by (unfold isa_disp_at; rewrite Es; reflexivity).
    assert (Hb' : bytes_at (adv 1 s) (fun j => b (S j)) (S (isa_disp_len b)))
      by (apply (bytes_at_adv s b (S (isa_disp_len b)) 1); unfold isa_length in Hb; rewrite D in Hb; exact Hb).
    rewrite (dbind_ok _ _ _ _ _ (OP_E_sib_ok (adv 1 s) _ _ Hf Hm Hb')).
    pose proof (decode_tail b (bits (rex s) REX_B) (bits (rex s) REX_X)
                  (adv 1 (mark_rex REX_X (adv 1 s))) Hf Hl) as T.
    unfold isa_base3, isa_index, isa_scale in T. rewrite Es, D in *.
    eexists. split; [apply T|].
    + intros j Hj. specialize (Hd j Hj). cbn in *. rewrite <- (Nat.add_assoc (codep s) 1 1). exact Hd.
    + cbn. lia.
  - assert (D : isa_disp_at b = 1%nat) by (unfold isa_disp_at; rewrite Es; reflexivity).
    rewrite dbind_ret.
    pose proof (decode_tail b (bits (rex s) REX_B) (bits (rex s) REX_X) (adv 1 s) Hf Hl) as T.
    unfold isa_base3, isa_index, isa_scale in T. rewrite Es, D in *.
    eexists. split; [apply T, Hd|]. cbn. lia.
Qed.

(** The decoded address is well formed and its value is the effective address. *)
Lemma isa_ea_wf b rexb rexx : is_byte (b 0%nat) -> is_byte (b 1%nat) -> isa_mod b <> 3 ->
  ea_wf (isa_mod b) (isa_ea b rexb rexx).
Proof.
  intros B0 B1 H3. pose proof (nobase_low b rexb B0 B1) as Hl. unfold is_byte in *.
  pose proof (Z.mod_pos_bound (b 0%nat) 8 ltac:(lia)).
  pose proof (Z.mod_pos_bound (b 1%nat) 8 ltac:(lia)).
  pose proof (Z.mod_pos_bound (b 1%nat / 8) 8 ltac:(lia)).
  pose proof (Z.div_pos (b 1%nat) 64 ltac:(lia) ltac:(lia)).
  pose proof (Z.div_lt_upper_bound (b 1%nat) 64 4 ltac:(lia) ltac:(lia)).
  constructor; unfold isa_ea; cbn [ea_base ea_index ea_scale ea_disp ea_havebase ea_havesib ea_riprel].
  - unfold isa_base, isa_base3, isa_rm, isa_ext. destruct (isa_sib b), rexb; lia.
  - unfold isa_index, isa_ext. destruct (isa_sib b), rexx; lia.
  - unfold isa_scale. destruct (isa_sib b); lia.
  - apply u64_range.
  - unfold isa_base, isa_nobase. change (isa_ext rexb) with (ext rexb). rewrite Hl. reflexivity.
  - rewrite negb_involutive. reflexivity.
  - unfold isa_base. change (isa_ext rexb) with (ext rexb). rewrite Hl. intros Hm Hn.
    unfold isa_disp, isa_nobase. rewrite Hm. cbn.
    apply Z.eqb_neq in Hn. rewrite Hn. reflexivity.
Qed.

Lemma isa_ea_value b rexb rexx regs k :
  ea_value regs k (isa_ea b rexb rexx) = isa_address b rexb rexx regs (rip regs + k).
Proof.
  unfold ea_value, isa_address, isa_ea.
  cbn [ea_base ea_index ea_scale ea_disp ea_havebase ea_havesib ea_riprel].
  destruct (isa_nobase b); cbn [negb andb]; [destruct (isa_sib b); cbn [negb andb]|]; wrap_ring.
Qed.

(** ** Printing *)

(** The operand slot [i] is empty and the cursor at its start. *)
Definition at_slot (i : nat) (s : dis_state) : Prop :=
  obufp s = (OpOut i, 0%nat) /\ op_out s !! i = Some EmptyString.

Lemma at_slot_put i s : at_slot i s -> s = put i EmptyString s.
Proof.
  intros [H1 H2]. unfold put. rewrite list_insert_id by exact H2.
  cbn [String.length]. rewrite <- H1. destruct s; reflexivity.
Qed.

Lemma at_slot_bound i s : at_slot i s -> (i < length (op_out s))%nat.
Proof. intros [_ H]. apply lookup_lt_Some in H. exact H. Qed.

Lemma bits_sub p m n : bits p m = false -> Z.land m n = n -> bits p n = false.
Proof.
  unfold bits. rewrite !negb_false_iff, !Z.eqb_eq. intros H <-.
  rewrite Z.land_assoc, H. apply Z.land_0_l.
Qed.

Lemma append_seg_none s : bits (prefixes s) SEG_PREFIXES = false -> append_seg s = Ok (tt, s).
Proof.
  intros H.
  assert (S1 : forall p n, Z.land SEG_PREFIXES p = p -> append_seg1 p n s = Ok (tt, s)).
  { intros p n Hp. unfold append_seg1, prefix. rewrite dbind_gets, (bits_sub _ _ _ H Hp). reflexivity. }
  unfold append_seg. rewrite !(dbind_ok _ _ s _ _ (S1 _ _ eq_refl)). apply S1. reflexivity.
Qed.

(** An operand of the form mod/rm in memory: the flags under which [OP_E] takes
    the 64-bit address path without a segment prefix. *)
Record mem_operand (i : nat) (sizeflag : Z) (b : nat -> Z) (s : dis_state) : Prop := {
  mo_at : at_operand s b;
  mo_slot : at_slot i s;
  mo_syn : syn s = att_syntax;
  mo_need : need_modrm s = true;
  mo_mem : isa_mod b <> 3;
  mo_seg : bits (prefixes s) SEG_PREFIXES = false;
  mo_asize : bits sizeflag AFLAG = true;
  mo_b0 : is_byte (b 0%nat);
  mo_b1 : is_byte (b 1%nat) }.

Definition rex_b (s : dis_state) : bool := bits (rex s) REX_B.
Definition rex_x (s : dis_state) : bool := bits (rex s) REX_X.

(** [OP_E] writes the text of the operand's address and consumes its bytes. *)
Lemma OP_E_mem i sf b s bm : mem_operand i sf b s ->
  exists s1, OP_E bm sf s
             = Ok (tt, put i (ea_text (isa_mod b) (isa_ea b (rex_b s) (rex_x s)))
                         (after_ea (isa_ea b (rex_b s) (rex_x s)) s1))
             /\ ctx_eq s s1 /\ codep s1 = (codep s + isa_length b)%nat.
Proof.
  intros [Ha Hs Hy Hn H3 Hg Hf B0 B1]. pose proof Ha as [_ Hm _ (M1 & _ & _)].
  unfold OP_E. rewrite (dbind_ok _ _ _ _ _ (USED_REX_ok REX_B s)).
  unfold rex_has. rewrite dbind_gets. change (rex (mark_rex REX_B s)) with (rex s).
  unfold MODRM_CHECK. rewrite dbind_assoc, dbind_gets.
  change (need_modrm (mark_rex REX_B s)) with (need_modrm s). rewrite Hn, dbind_ret.
  set (s0 := mark_rex REX_B s).
  rewrite (dbind_ok (advance 1) _ s0 tt (adv 1 s0) eq_refl), !dbind_gets.
  change (modrm_mod (adv 1 s0)) with (modrm_mod s). rewrite M1.
  change (b 0%nat / 64) with (isa_mod b). rewrite (proj2 (Z.eqb_neq _ _) H3).
  assert (A0 : at_operand s0 b) by (destruct Ha; constructor; assumption).
  assert (Hi : intel (adv 1 s0) = Ok (false, adv 1 s0))
    by (unfold intel, gets; change (syn (adv 1 s0)) with (syn s); rewrite Hy; reflexivity).
  rewrite (dbind_ok _ _ _ _ _ Hi). unfold when. rewrite dbind_ret.
  rewrite (dbind_ok _ _ _ _ _ (append_seg_none (adv 1 s0) Hg)).
  unfold mode64. rewrite dbind_gets, Hf. cbn [orb].
  destruct (OP_E_decode_ok s0 b A0 B0 B1) as (s1 & E & Hc).
  pose proof (quiet_ctx _ _ _ E) as C. change (rex s0) with (rex s) in E.
  change (if bits (rex s) REX_B then 8 else 0) with (ext (bits (rex s) REX_B)).
  rewrite (dbind_ok _ _ _ _ _ E).
  assert (C' : ctx_eq s s1) by (etrans; [|exact C]; constructor; reflexivity).
  pose proof C' as [].
  assert (S1 : at_slot i s1) by (destruct Hs; split; congruence).
  assert (A1 : att64 i s1) by (constructor; [congruence | congruence | apply at_slot_bound, S1]).
  pose proof (OP_E_print_put i EmptyString s1 (isa_ea b (rex_b s) (rex_x s)) sf (isa_mod b) A1 Hf
                ltac:(rewrite ce_mod; exact M1) ltac:(apply isa_ea_wf; assumption)) as P.
  rewrite <- (at_slot_put i s1 S1) in P. exists s1. split; [exact P | split; [exact C' | exact Hc]].
Qed.

Lemma get_mem_addr_ea md e regs k : ea_wf md e -> regs_ok regs -> base_ok e -> scale_ok e ->
  get_mem_addr (ea_text md e) regs k = Ok (ea_value regs k e).
Proof.
  intros W R B S. destruct (ea_text_head md e W) as (c & t & E & Hc).
  rewrite E, get_mem_addr_run by (destruct Hc as [->|[->| ->]]; reflexivity).
  rewrite <- E. apply run_loop_ea; assumption.
Qed.

(** The operands for which text and evaluation agree. *)
Definition evaluable (b : nat -> Z) (rexb rexx : bool) : bool :=
  (isa_nobase b || negb (short_name (isa_base b rexb)))
  && negb (isa_sib b && (isa_index b rexx =? 4) && negb (isa_scale b =? 0)).

Lemma evaluable_ok b rexb rexx : evaluable b rexb rexx = true ->
  base_ok (isa_ea b rexb rexx) /\ scale_ok (isa_ea b rexb rexx).
Proof.
  unfold evaluable, base_ok, scale_ok, isa_ea.
  cbn [ea_base ea_index ea_scale ea_havebase ea_havesib]. intros [H1 H2]%andb_true_iff. split.
  - intros E. apply negb_true_iff in E. rewrite E in H1. apply negb_true_iff, H1.
  - intros E1 E2. rewrite E1, E2 in H2. cbn [andb Z.eqb Pos.eqb] in H2.
    rewrite negb_involutive in H2. apply Z.eqb_eq, H2.
Qed.

(** ** Results *)

(** C2: for a memory operand in 64-bit addressing (no address-size prefix), without a
    segment prefix, whose base register is not %r8 or %r9 and that has no scale without an
    index register ([evaluable]), the text [OP_E] prints in AT&T syntax evaluates (with
    [get_mem_addr], on the guest's registers and the size of the instruction) to the
    effective address the processor computes from the operand's bytes, and [OP_E] consumes
    exactly these bytes.  The two excluded operands are evaluated to wrong addresses, see
    [short_base_lost] and [scale_without_index]. *)
Theorem operand_address i sf b s bm regs k :
  mem_operand i sf b s -> evaluable b (rex_b s) (rex_x s) = true -> regs_ok regs ->
  exists t s', OP_E bm sf s = Ok (tt, s') /\ op_out s' !! i = Some t /\
    codep s' = (codep s + isa_length b)%nat /\
    get_mem_addr t regs k = Ok (isa_address b (rex_b s) (rex_x s) regs (rip regs + k)).
Proof.
  intros M Ev R. destruct (OP_E_mem i sf b s bm M) as (s1 & E & C & Hc).
  destruct (evaluable_ok _ _ _ Ev) as [Hb Hs]. destruct M as [_ Hslot _ _ H3 _ _ B0 B1].
  assert (L : (i < length (op_out s1))%nat)
    by (rewrite (ce_out _ _ C); apply at_slot_bound, Hslot).
  do 2 eexists. split; [exact E|]. split; [|split].
  - unfold after_ea. destruct (ea_riprel _); cbn; apply list_lookup_insert_eq, L.
  - unfold after_ea. destruct (ea_riprel _); cbn; exact Hc.
  - rewrite get_mem_addr_ea, isa_ea_value by (try apply isa_ea_wf; assumption). reflexivity.
Qed.

(** A mod/rm byte with fields read from a list of bytes. *)
Definition bytes_fun (l : list Z) (j : nat) : Z := nth j l 0.

(** A state standing at the mod/rm byte of an operand. *)
Definition operand_state (rexv : Z) (l : list Z) : dis_state :=
  let m := nth 0 l 0 in
  mk_dis mode_64bit 0 rexv 0 0 0 EmptyString (replicate MAX_OPERANDS EmptyString) (OpOut 0, 0%nat)
    (map Some l) 0 0 (m / 64) ((m / 8) mod 8) (m mod 8) true att_syntax 3
    (replicate MAX_OPERANDS (-1)) (replicate MAX_OPERANDS 0) (replicate MAX_OPERANDS 0)
    false 0 false 0 0 (fun _ _ => None).

Definition sample_regs : kvm_regs :=
  mk_kvm_regs 0xffff880012340000 3 0 0 0 0 0xffffc90000000f00 0 0xffff880000000000 0 0 0 0 0 0 0
    0xffffffff81001000 0.

(** [0x10(%rax,%rbx,8)], bytes 44 d8 10 under REX.W. *)
Definition sample_operand : list Z := [0x44; 0xd8; 0x10].

(** A sample operand stands at its mod/rm byte. *)
Ltac sample_operand_at :=
  constructor; try reflexivity; try (split; vm_compute; congruence); try discriminate;
  constructor; try reflexivity; [| repeat split];
  intros [|[|[|j]]] Hj; [split; [reflexivity | split; vm_compute; congruence] .. |];
  vm_compute in Hj; lia.

Lemma sample_mem_operand : mem_operand 0 AFLAG (bytes_fun sample_operand) (operand_state 0x48 sample_operand).
Proof. sample_operand_at. Qed.

Lemma sample_regs_ok : regs_ok sample_regs.
Proof. repeat constructor; vm_compute; congruence. Qed.

Lemma operand_address_witness :
  exists t s', OP_E v_mode AFLAG (operand_state 0x48 sample_operand) = Ok (tt, s') /\
    op_out s' !! 0%nat = Some t /\ codep s' = 3%nat /\
    get_mem_addr t sample_regs 5 = Ok 0xffff880012340028.
Proof.
  exact (operand_address 0 AFLAG (bytes_fun sample_operand) (operand_state 0x48 sample_operand)
           v_mode sample_regs 5 sample_mem_operand eq_refl sample_regs_ok).
Defined.

(** ** The operands whose text and evaluation disagree *)

(** The displacement in front of the parenthesis is read into [off]. *)
Lemma run_loop_disp_part md e regs k : ea_wf md e -> ea_havebase e = true ->
  run_loop (ea_text md e) ma_init regs k
  = run_loop (paren_part e) (mk_ma (u64 (ea_disp e)) 0 0 0 1 false 1) regs k.
Proof.
  intros [_ _ _ Hd Hnb Hrip Hnd] Hb. rewrite Hb in *. cbn [negb andb] in Hrip.
  unfold ea_text, disp_part. unfold ea_havedisp at 1. rewrite Hb, Hrip, !append_nil_r. cbn [orb].
  destruct ((md != 0) || (Z.land (ea_base e) 7 == 5)) eqn:E.
  - rewrite run_loop_disp by (first [apply not_hex_paren | apply s64_range | reflexivity]).
    cbn [m_off m_reg m_base m_idx ma_init]. rewrite u64_s64. reflexivity.
  - bool_props. rewrite (Hnd H H0). reflexivity.
Qed.

(** The text of an operand based on %r8 or %r9 without a SIB byte. *)
Lemma short_base_text md e regs k : ea_wf md e -> regs_ok regs ->
  ea_havesib e = false -> ea_havebase e = true -> short_name (ea_base e) = true ->
  get_mem_addr (ea_text md e) regs k = Ok 0.
Proof.
  intros W R Hs Hb Hn. destruct (ea_text_head md e W) as (c & t & E & Hc).
  rewrite E, get_mem_addr_run by (destruct Hc as [->|[->| ->]]; reflexivity). rewrite <- E.
  rewrite (run_loop_disp_part md) by assumption.
  unfold paren_part, index_part, ea_havedisp. rewrite Hb, Hs. cbn [orb String.append].
  rewrite run_loop_open, run_loop_name by (try assumption; apply (wf_base _ _ W)).
  rewrite Hn. reflexivity.
Qed.

(** The text of an operand with a scale but no index. *)
Lemma scale_text md e regs k : ea_wf md e -> regs_ok regs ->
  ea_havesib e = true -> ea_index e = 4 -> ea_scale e <> 0 ->
  ea_havebase e = true -> short_name (ea_base e) = false ->
  get_mem_addr (ea_text md e) regs k
  = Ok (u64 (gpr regs (ea_base e) + gpr regs (ea_base e) * 2 ^ ea_scale e + ea_disp e)).
Proof.
  intros W R Hs Hi Hsc Hb Hn. destruct (ea_text_head md e W) as (c & t & E & Hc).
  rewrite E, get_mem_addr_run by (destruct Hc as [->|[->| ->]]; reflexivity). rewrite <- E.
  rewrite (run_loop_disp_part md) by assumption.
  unfold paren_part, index_part, ea_havedisp. rewrite Hb, Hs, Hi. cbn [orb].
  rewrite (proj2 (Z.eqb_neq _ _) Hsc). cbn [negb orb Z.eqb Pos.eqb String.append].
  rewrite run_loop_open, run_loop_name by (try assumption; apply (wf_base _ _ W)).
  rewrite Hn, run_loop_comma. cbn [m_base_flag].
  rewrite run_loop_scale by (first [apply (wf_scale _ _ W) | reflexivity]).
  cbn [m_base m_reg m_off m_val]. f_equal. wrap_ring.
Qed.

(** The text [OP_E] leaves in its slot, and its shape. *)
Lemma OP_E_text i sf b s bm : mem_operand i sf b s ->
  exists s', OP_E bm sf s = Ok (tt, s') /\
    op_out s' !! i = Some (ea_text (isa_mod b) (isa_ea b (rex_b s) (rex_x s))) /\
    ea_wf (isa_mod b) (isa_ea b (rex_b s) (rex_x s)).
Proof.
  intros M. destruct (OP_E_mem i sf b s bm M) as (s1 & E & C & _). destruct M as [_ Hslot _ _ H3 _ _ B0 B1].
  eexists. split; [exact E|]. split; [|apply isa_ea_wf; assumption].
  assert (L : (i < length (op_out s1))%nat) by (rewrite (ce_out _ _ C); apply at_slot_bound, Hslot).
  unfold after_ea. destruct (ea_riprel _); cbn; apply list_lookup_insert_eq, L.
Qed.

(** An operand based on %r8 or %r9 without a SIB byte always evaluates to 0:
    the two characters skipped for the register's name include the closing
    parenthesis, so the sum is never formed. *)
Theorem short_base_lost i sf b s bm regs k : mem_operand i sf b s -> regs_ok regs ->
  isa_sib b = false -> isa_nobase b = false -> short_name (isa_base b (rex_b s)) = true ->
  exists t s', OP_E bm sf s = Ok (tt, s') /\ op_out s' !! i = Some t /\ get_mem_addr t regs k = Ok 0.
Proof.
  intros M R Hs Hb Hn. destruct (OP_E_text i sf b s bm M) as (s' & E & T & W).
  do 2 eexists. split; [exact E|]. split; [exact T|].
  apply short_base_text; [exact W | exact R | exact Hs | cbn; rewrite Hb; reflexivity | exact Hn].
Qed.

(** [0x10(%r8)], bytes 40 10 under REX.B. *)
Lemma r8_operand : mem_operand 0 AFLAG (bytes_fun [0x40; 0x10; 0]) (operand_state 0x49 [0x40; 0x10; 0]).
Proof. sample_operand_at. Qed.

Lemma short_base_lost_witness :
  exists t s', OP_E v_mode AFLAG (operand_state 0x49 [0x40; 0x10; 0]) = Ok (tt, s') /\
    op_out s' !! 0%nat = Some t /\ get_mem_addr t sample_regs 4 = Ok 0.
Proof.
  exact (short_base_lost 0 AFLAG _ _ v_mode sample_regs 4 r8_operand sample_regs_ok eq_refl eq_refl eq_refl).
Defined.

(** A SIB byte with a scale but no index (encoding 4) is printed with the
    scale, as in "(%rsp,2)", and evaluation then scales the base register instead. *)
Theorem scale_without_index i sf b s bm regs k : mem_operand i sf b s -> regs_ok regs ->
  isa_sib b = true -> isa_index b (rex_x s) = 4 -> isa_scale b <> 0 ->
  isa_nobase b = false -> short_name (isa_base b (rex_b s)) = false ->
  exists t s', OP_E bm sf s = Ok (tt, s') /\ op_out s' !! i = Some t /\
    get_mem_addr t regs k
    = Ok (u64 (gpr regs (isa_base b (rex_b s)) + gpr regs (isa_base b (rex_b s)) * 2 ^ isa_scale b + isa_disp b)).
Proof.
  intros M R Hs Hi Hc Hb Hn. destruct (OP_E_text i sf b s bm M) as (s' & E & T & W).
  do 2 eexists. split; [exact E|]. split; [exact T|].
  rewrite (scale_text _ _ _ _ W R Hs Hi Hc) by (cbn; rewrite ?Hb; assumption || reflexivity).
  cbn [isa_ea ea_base ea_scale ea_disp]. f_equal. wrap_ring.
Qed.

(** [(%rsp,2)], bytes 04 64. *)
Lemma rsp2_operand : mem_operand 0 AFLAG (bytes_fun [0x04; 0x64; 0]) (operand_state 0x48 [0x04; 0x64; 0]).
Proof. sample_operand_at. Qed.

Lemma scale_without_index_witness :
  exists t s', OP_E v_mode AFLAG (operand_state 0x48 [0x04; 0x64; 0]) = Ok (tt, s') /\
    op_out s' !! 0%nat = Some t /\
    get_mem_addr t sample_regs 4 = Ok (u64 (0xffffc90000000f00 + 0xffffc90000000f00 * 2)).
Proof.
  destruct (scale_without_index 0 AFLAG _ _ v_mode sample_regs 4 rsp2_operand sample_regs_ok eq_refl eq_refl
    ltac:(discriminate) eq_refl eq_refl) as (t & s' & E & T & G).
  exists t, s'. split; [exact E|]. split; [exact T | exact G].
Defined.
