(* ===== verification/CpuState.v ===== *)
(** * The virtual CPU and its debug registers

    [CPUState] is the part of struct CPUState (include/qom/cpu.h) that Razzer's
    code reads or writes, with two of the fields of the x86 environment that
    [kvm_handle_debug] sets.  Two fields stand for what the kernel holds for the
    virtual CPU: [kvm_debug], the argument of the last KVM_SET_GUEST_DEBUG, and
    [vcpu_regs], the general registers that KVM_GET_REGS and KVM_SET_REGS move.

    Razzer's arrays over CPUs have two entries and its virtual machines two
    processors (-smp 2), so [cpu_index] is a [bool]: 0 is [false], 1 is [true]. *)

From Stdlib Require Import ZArith Lia Bool.
From stdpp Require Import base list.
From S2P Require Import Prelude MemOperand.

Open Scope Z_scope.

(** ** Breakpoints *)

Definition GDB_BREAKPOINT_SW : Z := 0.
Definition GDB_BREAKPOINT_HW : Z := 1.
Definition GDB_WATCHPOINT_WRITE : Z := 2.
Definition GDB_WATCHPOINT_READ : Z := 3.
Definition GDB_WATCHPOINT_ACCESS : Z := 4.

Record hw_bp := mk_bp { bp_addr : Z; bp_len : Z; bp_type : Z }.

#[export] Instance hw_bp_eq_dec : EqDecision hw_bp.
Proof. solve_decision. Defined.

(** An entry of an array that is statically zero. *)
Definition zero_bp : hw_bp := mk_bp 0 0 0.

(** ** struct kvm_guest_debug

    [None] is a field the code has not written. *)

Record guest_debug := mk_dbg { dbg_control : option Z; debugreg : list (option Z) }.

Definition KVM_GUESTDBG_ENABLE : Z := 0x00000001.
Definition KVM_GUESTDBG_SINGLESTEP : Z := 0x00000002.
Definition KVM_GUESTDBG_USE_SW_BP : Z := 0x00010000.
Definition KVM_GUESTDBG_USE_HW_BP : Z := 0x00020000.

(** A local [struct kvm_set_guest_debug_data] whose control is set or not. *)
Definition fresh_dbg (control : option Z) : guest_debug := mk_dbg control (replicate 8 None).

(** [dbg->control |= m] *)
Definition or_control (m : Z) (d : guest_debug) : guest_debug :=
  mk_dbg ((fun c => Z.lor c m) <$> dbg_control d) (debugreg d).

(** ** CPUState *)

Record CPUState := mk_cpu {
  cpu_index : bool;
  wait_race_flag : bool;
  go_first : bool;
  wake_up : bool;
  done : bool;
  bp_count : Z;
  singlestep_enabled : Z;
  exit_request : bool;
  kvm_vcpu_dirty : bool;
  hw_bps : list hw_bp;
  nb_hw_bps : nat;
  watchpoint_hit : option (Z * Z);
  guest_tid : Z;
  inserted_breakpoint : Z;
  is_race : Z;
  race_id : Z;
  sched : Z;
  regs : option kvm_regs;
  update_regs : bool;
  skipping : bool;
  exception_injected : Z;
  has_error_code : Z;
  kvm_debug : guest_debug;
  vcpu_regs : kvm_regs }.

Definition set_cpu_index (v : bool) (c : CPUState) : CPUState :=
  mk_cpu
    v (wait_race_flag c) (go_first c) (wake_up c) (done c) (bp_count c) (singlestep_enabled c)
    (exit_request c) (kvm_vcpu_dirty c) (hw_bps c) (nb_hw_bps c) (watchpoint_hit c) (guest_tid
    c) (inserted_breakpoint c) (is_race c) (race_id c) (sched c) (regs c) (update_regs c)
    (skipping c) (exception_injected c) (has_error_code c) (kvm_debug c) (vcpu_regs c).
Definition set_wait_race_flag (v : bool) (c : CPUState) : CPUState :=
  mk_cpu
    (cpu_index c) v (go_first c) (wake_up c) (done c) (bp_count c) (singlestep_enabled c)
    (exit_request c) (kvm_vcpu_dirty c) (hw_bps c) (nb_hw_bps c) (watchpoint_hit c) (guest_tid
    c) (inserted_breakpoint c) (is_race c) (race_id c) (sched c) (regs c) (update_regs c)
    (skipping c) (exception_injected c) (has_error_code c) (kvm_debug c) (vcpu_regs c).
Definition set_go_first (v : bool) (c : CPUState) : CPUState :=
  mk_cpu
    (cpu_index c) (wait_race_flag c) v (wake_up c) (done c) (bp_count c) (singlestep_enabled c)
    (exit_request c) (kvm_vcpu_dirty c) (hw_bps c) (nb_hw_bps c) (watchpoint_hit c) (guest_tid
    c) (inserted_breakpoint c) (is_race c) (race_id c) (sched c) (regs c) (update_regs c)
    (skipping c) (exception_injected c) (has_error_code c) (kvm_debug c) (vcpu_regs c).
Definition set_wake_up (v : bool) (c : CPUState) : CPUState :=
  mk_cpu
    (cpu_index c) (wait_race_flag c) (go_first c) v (done c) (bp_count c) (singlestep_enabled c)
    (exit_request c) (kvm_vcpu_dirty c) (hw_bps c) (nb_hw_bps c) (watchpoint_hit c) (guest_tid
    c) (inserted_breakpoint c) (is_race c) (race_id c) (sched c) (regs c) (update_regs c)
    (skipping c) (exception_injected c) (has_error_code c) (kvm_debug c) (vcpu_regs c).
Definition set_done (v : bool) (c : CPUState) : CPUState :=
  mk_cpu
    (cpu_index c) (wait_race_flag c) (go_first c) (wake_up c) v (bp_count c) (singlestep_enabled
    c) (exit_request c) (kvm_vcpu_dirty c) (hw_bps c) (nb_hw_bps c) (watchpoint_hit c)
    (guest_tid c) (inserted_breakpoint c) (is_race c) (race_id c) (sched c) (regs c)
    (update_regs c) (skipping c) (exception_injected c) (has_error_code c) (kvm_debug c)
    (vcpu_regs c).
Definition set_bp_count (v : Z) (c : CPUState) : CPUState :=
  mk_cpu
    (cpu_index c) (wait_race_flag c) (go_first c) (wake_up c) (done c) v (singlestep_enabled c)
    (exit_request c) (kvm_vcpu_dirty c) (hw_bps c) (nb_hw_bps c) (watchpoint_hit c) (guest_tid
    c) (inserted_breakpoint c) (is_race c) (race_id c) (sched c) (regs c) (update_regs c)
    (skipping c) (exception_injected c) (has_error_code c) (kvm_debug c) (vcpu_regs c).
Definition set_singlestep_enabled (v : Z) (c : CPUState) : CPUState :=
  mk_cpu
    (cpu_index c) (wait_race_flag c) (go_first c) (wake_up c) (done c) (bp_count c) v
    (exit_request c) (kvm_vcpu_dirty c) (hw_bps c) (nb_hw_bps c) (watchpoint_hit c) (guest_tid
    c) (inserted_breakpoint c) (is_race c) (race_id c) (sched c) (regs c) (update_regs c)
    (skipping c) (exception_injected c) (has_error_code c) (kvm_debug c) (vcpu_regs c).
Definition set_exit_request (v : bool) (c : CPUState) : CPUState :=
  mk_cpu
    (cpu_index c) (wait_race_flag c) (go_first c) (wake_up c) (done c) (bp_count c)
    (singlestep_enabled c) v (kvm_vcpu_dirty c) (hw_bps c) (nb_hw_bps c) (watchpoint_hit c)
    (guest_tid c) (inserted_breakpoint c) (is_race c) (race_id c) (sched c) (regs c)
    (update_regs c) (skipping c) (exception_injected c) (has_error_code c) (kvm_debug c)
    (vcpu_regs c).
Definition set_kvm_vcpu_dirty (v : bool) (c : CPUState) : CPUState :=
  mk_cpu
    (cpu_index c) (wait_race_flag c) (go_first c) (wake_up c) (done c) (bp_count c)
    (singlestep_enabled c) (exit_request c) v (hw_bps c) (nb_hw_bps c) (watchpoint_hit c)
    (guest_tid c) (inserted_breakpoint c) (is_race c) (race_id c) (sched c) (regs c)
    (update_regs c) (skipping c) (exception_injected c) (has_error_code c) (kvm_debug c)
    (vcpu_regs c).
Definition set_hw_bps (v : list hw_bp) (c : CPUState) : CPUState :=
  mk_cpu
    (cpu_index c) (wait_race_flag c) (go_first c) (wake_up c) (done c) (bp_count c)
    (singlestep_enabled c) (exit_request c) (kvm_vcpu_dirty c) v (nb_hw_bps c) (watchpoint_hit
    c) (guest_tid c) (inserted_breakpoint c) (is_race c) (race_id c) (sched c) (regs c)
    (update_regs c) (skipping c) (exception_injected c) (has_error_code c) (kvm_debug c)
    (vcpu_regs c).
Definition set_nb_hw_bps (v : nat) (c : CPUState) : CPUState :=
  mk_cpu
    (cpu_index c) (wait_race_flag c) (go_first c) (wake_up c) (done c) (bp_count c)
    (singlestep_enabled c) (exit_request c) (kvm_vcpu_dirty c) (hw_bps c) v (watchpoint_hit c)
    (guest_tid c) (inserted_breakpoint c) (is_race c) (race_id c) (sched c) (regs c)
    (update_regs c) (skipping c) (exception_injected c) (has_error_code c) (kvm_debug c)
    (vcpu_regs c).
Definition set_watchpoint_hit (v : option (Z * Z)) (c : CPUState) : CPUState :=
  mk_cpu
    (cpu_index c) (wait_race_flag c) (go_first c) (wake_up c) (done c) (bp_count c)
    (singlestep_enabled c) (exit_request c) (kvm_vcpu_dirty c) (hw_bps c) (nb_hw_bps c) v
    (guest_tid c) (inserted_breakpoint c) (is_race c) (race_id c) (sched c) (regs c)
    (update_regs c) (skipping c) (exception_injected c) (has_error_code c) (kvm_debug c)
    (vcpu_regs c).
Definition set_guest_tid (v : Z) (c : CPUState) : CPUState :=
  mk_cpu
    (cpu_index c) (wait_race_flag c) (go_first c) (wake_up c) (done c) (bp_count c)
    (singlestep_enabled c) (exit_request c) (kvm_vcpu_dirty c) (hw_bps c) (nb_hw_bps c)
    (watchpoint_hit c) v (inserted_breakpoint c) (is_race c) (race_id c) (sched c) (regs c)
    (update_regs c) (skipping c) (exception_injected c) (has_error_code c) (kvm_debug c)
    (vcpu_regs c).
Definition set_inserted_breakpoint (v : Z) (c : CPUState) : CPUState :=
  mk_cpu
    (cpu_index c) (wait_race_flag c) (go_first c) (wake_up c) (done c) (bp_count c)
    (singlestep_enabled c) (exit_request c) (kvm_vcpu_dirty c) (hw_bps c) (nb_hw_bps c)
    (watchpoint_hit c) (guest_tid c) v (is_race c) (race_id c) (sched c) (regs c) (update_regs
    c) (skipping c) (exception_injected c) (has_error_code c) (kvm_debug c) (vcpu_regs c).
Definition set_is_race (v : Z) (c : CPUState) : CPUState :=
  mk_cpu
    (cpu_index c) (wait_race_flag c) (go_first c) (wake_up c) (done c) (bp_count c)
    (singlestep_enabled c) (exit_request c) (kvm_vcpu_dirty c) (hw_bps c) (nb_hw_bps c)
    (watchpoint_hit c) (guest_tid c) (inserted_breakpoint c) v (race_id c) (sched c) (regs c)
    (update_regs c) (skipping c) (exception_injected c) (has_error_code c) (kvm_debug c)
    (vcpu_regs c).
Definition set_race_id (v : Z) (c : CPUState) : CPUState :=
  mk_cpu
    (cpu_index c) (wait_race_flag c) (go_first c) (wake_up c) (done c) (bp_count c)
    (singlestep_enabled c) (exit_request c) (kvm_vcpu_dirty c) (hw_bps c) (nb_hw_bps c)
    (watchpoint_hit c) (guest_tid c) (inserted_breakpoint c) (is_race c) v (sched c) (regs c)
    (update_regs c) (skipping c) (exception_injected c) (has_error_code c) (kvm_debug c)
    (vcpu_regs c).
Definition set_sched (v : Z) (c : CPUState) : CPUState :=
  mk_cpu
    (cpu_index c) (wait_race_flag c) (go_first c) (wake_up c) (done c) (bp_count c)
    (singlestep_enabled c) (exit_request c) (kvm_vcpu_dirty c) (hw_bps c) (nb_hw_bps c)
    (watchpoint_hit c) (guest_tid c) (inserted_breakpoint c) (is_race c) (race_id c) v (regs c)
    (update_regs c) (skipping c) (exception_injected c) (has_error_code c) (kvm_debug c)
    (vcpu_regs c).
Definition set_regs (v : option kvm_regs) (c : CPUState) : CPUState :=
  mk_cpu
    (cpu_index c) (wait_race_flag c) (go_first c) (wake_up c) (done c) (bp_count c)
    (singlestep_enabled c) (exit_request c) (kvm_vcpu_dirty c) (hw_bps c) (nb_hw_bps c)
    (watchpoint_hit c) (guest_tid c) (inserted_breakpoint c) (is_race c) (race_id c) (sched c) v
    (update_regs c) (skipping c) (exception_injected c) (has_error_code c) (kvm_debug c)
    (vcpu_regs c).
Definition set_update_regs (v : bool) (c : CPUState) : CPUState :=
  mk_cpu
    (cpu_index c) (wait_race_flag c) (go_first c) (wake_up c) (done c) (bp_count c)
    (singlestep_enabled c) (exit_request c) (kvm_vcpu_dirty c) (hw_bps c) (nb_hw_bps c)
    (watchpoint_hit c) (guest_tid c) (inserted_breakpoint c) (is_race c) (race_id c) (sched c)
    (regs c) v (skipping c) (exception_injected c) (has_error_code c) (kvm_debug c) (vcpu_regs
    c).
Definition set_skipping (v : bool) (c : CPUState) : CPUState :=
  mk_cpu
    (cpu_index c) (wait_race_flag c) (go_first c) (wake_up c) (done c) (bp_count c)
    (singlestep_enabled c) (exit_request c) (kvm_vcpu_dirty c) (hw_bps c) (nb_hw_bps c)
    (watchpoint_hit c) (guest_tid c) (inserted_breakpoint c) (is_race c) (race_id c) (sched c)
    (regs c) (update_regs c) v (exception_injected c) (has_error_code c) (kvm_debug c)
    (vcpu_regs c).
Definition set_exception_injected (v : Z) (c : CPUState) : CPUState :=
  mk_cpu
    (cpu_index c) (wait_race_flag c) (go_first c) (wake_up c) (done c) (bp_count c)
    (singlestep_enabled c) (exit_request c) (kvm_vcpu_dirty c) (hw_bps c) (nb_hw_bps c)
    (watchpoint_hit c) (guest_tid c) (inserted_breakpoint c) (is_race c) (race_id c) (sched c)
    (regs c) (update_regs c) (skipping c) v (has_error_code c) (kvm_debug c) (vcpu_regs c).
Definition set_has_error_code (v : Z) (c : CPUState) : CPUState :=
  mk_cpu
    (cpu_index c) (wait_race_flag c) (go_first c) (wake_up c) (done c) (bp_count c)
    (singlestep_enabled c) (exit_request c) (kvm_vcpu_dirty c) (hw_bps c) (nb_hw_bps c)
    (watchpoint_hit c) (guest_tid c) (inserted_breakpoint c) (is_race c) (race_id c) (sched c)
    (regs c) (update_regs c) (skipping c) (exception_injected c) v (kvm_debug c) (vcpu_regs c).
Definition set_kvm_debug (v : guest_debug) (c : CPUState) : CPUState :=
  mk_cpu
    (cpu_index c) (wait_race_flag c) (go_first c) (wake_up c) (done c) (bp_count c)
    (singlestep_enabled c) (exit_request c) (kvm_vcpu_dirty c) (hw_bps c) (nb_hw_bps c)
    (watchpoint_hit c) (guest_tid c) (inserted_breakpoint c) (is_race c) (race_id c) (sched c)
    (regs c) (update_regs c) (skipping c) (exception_injected c) (has_error_code c) v (vcpu_regs
    c).
Definition set_vcpu_regs (v : kvm_regs) (c : CPUState) : CPUState :=
  mk_cpu
    (cpu_index c) (wait_race_flag c) (go_first c) (wake_up c) (done c) (bp_count c)
    (singlestep_enabled c) (exit_request c) (kvm_vcpu_dirty c) (hw_bps c) (nb_hw_bps c)
    (watchpoint_hit c) (guest_tid c) (inserted_breakpoint c) (is_race c) (race_id c) (sched c)
    (regs c) (update_regs c) (skipping c) (exception_injected c) (has_error_code c) (kvm_debug
    c) v.
