(* ===== verification/HwBreakpoint.v ===== *)
(** * Hardware and software breakpoints (target-i386/kvm.c, kvm-all.c)

    Razzer gives every virtual CPU its own table of four hardware breakpoints
    ([hw_bps], [nb_hw_bps]) next to QEMU's global one; [kvm_arch_update_guest_debug]
    translates the table of the CPU into debug registers, which KVM_SET_GUEST_DEBUG
    hands to the kernel.  The ioctl itself is the kernel's: its return value is the
    parameter [set_guest_debug_err], and its argument is kept in [kvm_debug].

    The theorems relate the tables to the set of addresses they stand for, and the
    debug registers to that set: what a caller inserts is what the processor is
    told to stop at. *)

From Stdlib Require Import ZArith Lia Bool.
From stdpp Require Import base list gmap sets.
From S2P Require Import Prelude MemOperand CpuState.

Open Scope Z_scope.
Open Scope rz.

(** ** Tables of breakpoints *)

(** [for (n = 0; n < nb; n++) if (p (slots[n])) return n; return -1;] *)
Fixpoint find_loop (p : hw_bp -> bool) (slots : list hw_bp) (n rest : nat) : res (option nat) :=
  match rest with
  | O => Ok None
  | S rest =>
      match slots !! n with
      | None => Err OutOfBounds
      | Some b => if p b then Ok (Some n) else find_loop p slots (S n) rest
      end
  end.

(** [slots[nb] = b; nb++;] *)
Definition table_add (slots : list hw_bp) (nb : nat) (b : hw_bp) : res (list hw_bp * nat) :=
  if (nb <? length slots)%nat then Ok (<[nb := b]> slots, S nb) else Err OutOfBounds.

(** [nb--; slots[n] = slots[nb];] *)
Definition table_del (slots : list hw_bp) (nb n : nat) : res (list hw_bp * nat) :=
  match nb with
  | O => Err OutOfBounds
  | S k =>
      match slots !! k with
      | Some b => if (n <? length slots)%nat then Ok (<[n := b]> slots, k) else Err OutOfBounds
      | None => Err OutOfBounds
      end
  end.

(** The entries in use. *)
Definition live (slots : list hw_bp) (nb : nat) : list hw_bp := take nb slots.

(** *** The table of a virtual CPU *)

Definition matches (addr len type : Z) (b : hw_bp) : bool :=
  (bp_addr b =? addr) && (bp_type b =? type) && ((bp_len b =? len) || (len =? -1)).

Definition find_hw_breakpoint_per_cpu (c : CPUState) (addr : Z) : res (option nat) :=
  find_loop (matches addr 1 GDB_BREAKPOINT_HW) (hw_bps c) 0 (nb_hw_bps c).

Definition set_bps (t : list hw_bp * nat) (c : CPUState) : CPUState :=
  set_hw_bps t.1 (set_nb_hw_bps t.2 c).

Definition kvm_arch_insert_hw_breakpoint_per_cpu (c : CPUState) (addr : Z) : res (Z * CPUState) :=
  if (nb_hw_bps c =? 4)%nat then Ok (- ENOBUFS, c)
  else
    let? f := find_hw_breakpoint_per_cpu c addr in
    match f with
    | Some _ => Ok (- EEXIST, c)
    | None =>
        let? t := table_add (hw_bps c) (nb_hw_bps c) (mk_bp addr 1 GDB_BREAKPOINT_HW) in
        Ok (0, set_bps t c)
    end.

Definition kvm_arch_remove_hw_breakpoint_per_cpu (c : CPUState) (addr : Z) : res (Z * CPUState) :=
  let? f := find_hw_breakpoint_per_cpu c addr in
  match f with
  | None => Ok (- ENOENT, c)
  | Some n =>
      let? t := table_del (hw_bps c) (nb_hw_bps c) n in
      Ok (0, set_bps t c)
  end.

(** *** The global table *)

Record hw_globals := mk_hwg { hw_breakpoint : list hw_bp; nb_hw_breakpoint : nat }.

(** The parameter [len] is an int. *)
Definition find_hw_breakpoint (g : hw_globals) (addr len type : Z) : res (option nat) :=
  find_loop (matches addr (s32 len) type) (hw_breakpoint g) 0 (nb_hw_breakpoint g).

(** The switch over the type: the length to use, or the error. *)
Definition hw_breakpoint_len (addr len type : Z) : Z + Z :=
  if type =? GDB_BREAKPOINT_HW then inl 1
  else if (type =? GDB_WATCHPOINT_WRITE) || (type =? GDB_WATCHPOINT_ACCESS) then
    if len =? 1 then inl len
    else if (len =? 2) || (len =? 4) || (len =? 8) then
      if bits addr (len - 1) then inr (- EINVAL) else inl len
    else inr (- EINVAL)
  else inr (- ENOSYS).

Definition kvm_arch_insert_hw_breakpoint (g : hw_globals) (addr len type : Z) : res (Z * hw_globals) :=
  match hw_breakpoint_len addr len type with
  | inr err => Ok (err, g)
  | inl len =>
      if (nb_hw_breakpoint g =? 4)%nat then Ok (- ENOBUFS, g)
      else
        let? f := find_hw_breakpoint g addr len type in
        match f with
        | Some _ => Ok (- EEXIST, g)
        | None =>
            let? t := table_add (hw_breakpoint g) (nb_hw_breakpoint g) (mk_bp addr (s32 len) type) in
            Ok (0, mk_hwg t.1 t.2)
        end
  end.

Definition kvm_arch_remove_hw_breakpoint (g : hw_globals) (addr len type : Z) : res (Z * hw_globals) :=
  let? f := find_hw_breakpoint g addr (if type =? GDB_BREAKPOINT_HW then 1 else len) type in
  match f with
  | None => Ok (- ENOENT, g)
  | Some n =>
      let? t := table_del (hw_breakpoint g) (nb_hw_breakpoint g) n in
      Ok (0, mk_hwg t.1 t.2)
  end.

Definition kvm_arch_remove_all_hw_breakpoints (g : hw_globals) : hw_globals :=
  mk_hwg (hw_breakpoint g) 0.

(** ** Properties of tables *)

Lemma find_loop_spec p slots : forall rest n, (n + rest <= length slots)%nat ->
  find_loop p slots n rest
  = Ok ((fun r => n + r.1)%nat <$> list_find (fun b => p b = true) (take rest (drop n slots))).
Proof.
  induction rest as [|rest IH]; intros n Hn; [reflexivity|]. simpl.
  destruct (slots !! n) as [b|] eqn:E; [|apply lookup_ge_None in E; lia].
  rewrite (drop_S slots b n E). cbn [take list_find].
  destruct (decide (p b = true)) as [D|D].
  - rewrite D. cbn. rewrite Nat.add_0_r. reflexivity.
  - apply not_true_is_false in D. rewrite D, IH by lia. f_equal.
    destruct (list_find _ _) as [[i x]|]; cbn; [f_equal; lia | reflexivity].
Qed.

Lemma live_add slots nb b : (nb < length slots)%nat ->
  table_add slots nb b = Ok (<[nb := b]> slots, S nb)
  /\ live (<[nb := b]> slots) (S nb) = live slots nb ++ [b].
Proof.
  intros H. unfold table_add. rewrite (proj2 (Nat.ltb_lt _ _) H). split; [reflexivity|].
  unfold live. rewrite (take_S_r _ _ b) by (apply list_lookup_insert_eq, H).
  rewrite take_insert_ge by lia. reflexivity.
Qed.

(** Removal moves the last entry in use to the hole. *)
Lemma live_del slots nb n x : (nb <= length slots)%nat -> live slots nb !! n = Some x ->
  exists slots' k, table_del slots nb n = Ok (slots', k) /\ nb = S k /\ length slots' = length slots /\
    x :: live slots' k ≡ₚ live slots nb.
Proof.
  intros Hl Hx. pose proof (lookup_lt_Some _ _ _ Hx) as Hn. unfold live in *. rewrite length_take in Hn.
  destruct nb as [|k]; [lia|]. unfold table_del.
  destruct (slots !! k) as [b|] eqn:Eb; [|apply lookup_ge_None in Eb; lia].
  rewrite (proj2 (Nat.ltb_lt n (length slots))) by lia.
  do 2 eexists. split; [reflexivity|]. split; [reflexivity|]. split; [apply length_insert|].
  rewrite (take_S_r _ _ _ Eb). rewrite (take_S_r _ _ _ Eb) in Hx.
  destruct (decide (n = k)) as [->|Hne].
  - rewrite take_insert_ge by lia.
    rewrite lookup_app_r in Hx by (rewrite length_take; lia).
    rewrite length_take, Nat.min_l, Nat.sub_diag in Hx by lia. injection Hx as ->.
    apply Permutation_cons_append.
  - rewrite lookup_app_l in Hx by (rewrite length_take; lia).
    rewrite take_insert_lt by lia.
    rewrite (insert_take_drop _ n b) by (rewrite length_take; lia).
    rewrite <- (take_drop_middle (take k slots) n x Hx) at 3. solve_Permutation.
Qed.

(** ** Refinement of sets

    [Refines inv abs impl spec]: on concrete states that satisfy [inv], the
    operation [impl] returns the code that [spec] returns on the abstraction, keeps
    [inv] and ends in a state whose abstraction is the one of [spec]. *)

Class Refines {C A : Type} (inv : C -> Prop) (abs : C -> A)
    (impl : C -> res (Z * C)) (spec : A -> Z * A) : Prop :=
  refines : forall c, inv c ->
    exists c', impl c = Ok ((spec (abs c)).1, c') /\ inv c' /\ abs c' = (spec (abs c)).2.

(** A sequence of operations, with the list of their return codes. *)
Fixpoint run_ops {C} (ops : list (C -> res (Z * C))) (c : C) : res (list Z * C) :=
  match ops with
  | [] => Ok ([], c)
  | op :: ops =>
      let? (e, c1) := op c in
      let? (es, c2) := run_ops ops c1 in
      Ok (e :: es, c2)
  end.

Fixpoint run_spec {A} (ops : list (A -> Z * A)) (a : A) : list Z * A :=
  match ops with
  | [] => ([], a)
  | op :: ops =>
      let r1 := op a in
      let r2 := run_spec ops r1.2 in
      (r1.1 :: r2.1, r2.2)
  end.

Lemma run_refines {C A} (inv : C -> Prop) (abs : C -> A) impls specs :
  Forall2 (fun i s => Refines inv abs i s) impls specs ->
  forall c, inv c ->
    exists c', run_ops impls c = Ok ((run_spec specs (abs c)).1, c') /\ inv c' /\
               abs c' = (run_spec specs (abs c)).2.
Proof.
  induction 1 as [|i s impls specs R _ IH]; intros c Hc; [eexists; repeat split; eauto|].
  destruct (R c Hc) as (c1 & E1 & I1 & A1). destruct (IH c1 I1) as (c2 & E2 & I2 & A2).
  exists c2. cbn [run_ops run_spec]. rewrite E1. cbn [rbind]. rewrite E2. cbn [rbind].
  rewrite A1 in *. auto.
Qed.

(** *** The table of a virtual CPU as a set of addresses *)

Definition entries (c : CPUState) : list hw_bp := live (hw_bps c) (nb_hw_bps c).
Definition bp_addrs (c : CPUState) : list Z := bp_addr <$> entries c.
Definition bp_set (c : CPUState) : gset Z := list_to_set (bp_addrs c).

(** Breakpoints on execution, of length one. *)
Definition exec_bp (b : hw_bp) : Prop := bp_len b = 1 /\ bp_type b = GDB_BREAKPOINT_HW.

Record bps_ok (c : CPUState) : Prop := {
  bo_length : length (hw_bps c) = 4%nat;
  bo_nb : (nb_hw_bps c <= 4)%nat;
  bo_nodup : NoDup (bp_addrs c);
  bo_exec : Forall exec_bp (entries c) }.

(** The specification: a set of at most four addresses. *)
Definition spec_insert {K} `{Countable K} (k : K) (s : gset K) : Z * gset K :=
  if decide (size s = 4%nat) then (- ENOBUFS, s)
  else if decide (k ∈ s) then (- EEXIST, s)
  else (0, {[k]} ∪ s).

Definition spec_remove {K} `{Countable K} (k : K) (s : gset K) : Z * gset K :=
  if decide (k ∈ s) then (0, s ∖ {[k]}) else (- ENOENT, s).

Lemma size_live slots nb : length slots = 4%nat -> (nb <= 4)%nat -> length (live slots nb) = nb.
Proof. intros Hs Hn. unfold live. rewrite length_take. lia. Qed.

Lemma bp_set_size c : bps_ok c -> size (bp_set c) = nb_hw_bps c.
Proof.
  intros [H1 H2 H3 _]. unfold bp_set. rewrite size_list_to_set by exact H3.
  unfold bp_addrs. rewrite length_fmap. apply size_live; assumption.
Qed.

Lemma matches_exec a b : exec_bp b -> matches a 1 GDB_BREAKPOINT_HW b = true <-> bp_addr b = a.
Proof.
  intros [L T]. unfold matches. rewrite L, T. cbn. rewrite !andb_true_r. apply Z.eqb_eq.
Qed.

(** The search finds an entry exactly when the address is in the set. *)
Lemma find_per_cpu c a : bps_ok c ->
  (exists n b, find_hw_breakpoint_per_cpu c a = Ok (Some n) /\ entries c !! n = Some b /\ bp_addr b = a)
  \/ (find_hw_breakpoint_per_cpu c a = Ok None /\ a ∉ bp_set c).
Proof.
  intros [H1 H2 H3 H4]. unfold find_hw_breakpoint_per_cpu.
  rewrite find_loop_spec by (rewrite H1; lia). rewrite drop_0.
  change (take (nb_hw_bps c) (hw_bps c)) with (entries c).
  destruct (list_find _ _) as [[n b]|] eqn:E; [left | right].
  - apply list_find_Some in E as (E1 & E2 & _). exists n, b. split; [reflexivity|]. split; [exact E1|].
    apply (matches_exec a b); [|exact E2]. eapply Forall_lookup_1; eassumption.
  - split; [reflexivity|]. apply list_find_None in E.
    unfold bp_set, bp_addrs. rewrite elem_of_list_to_set, list_elem_of_fmap.
    intros (b & -> & Hb). rewrite Forall_forall in E, H4.
    apply (E b Hb), matches_exec; [apply H4, Hb | reflexivity].
Qed.

(** Only the table of [c] differs. *)
Definition same_but_bps (c c' : CPUState) : Prop :=
  c' = set_bps (hw_bps c', nb_hw_bps c') c.

Lemma insert_per_cpu a c : bps_ok c ->
  exists c', kvm_arch_insert_hw_breakpoint_per_cpu c a = Ok ((spec_insert a (bp_set c)).1, c') /\
             bps_ok c' /\ bp_set c' = (spec_insert a (bp_set c)).2 /\ same_but_bps c c'.
Proof.
  intros Ok0. pose proof Ok0 as [H1 H2 H3 H4]. unfold kvm_arch_insert_hw_breakpoint_per_cpu, spec_insert.
  assert (Hself : same_but_bps c c) by (destruct c; reflexivity).
  rewrite bp_set_size by exact Ok0.
  destruct (Nat.eqb_spec (nb_hw_bps c) 4) as [E|E].
  { rewrite decide_True by exact E. eauto. }
  rewrite decide_False by exact E.
  destruct (find_per_cpu c a Ok0) as [(n & b & F & L & Eb)|[F N]]; rewrite F; cbn [rbind].
  - rewrite decide_True; [eauto|]. unfold bp_set, bp_addrs.
    rewrite elem_of_list_to_set, list_elem_of_fmap. eauto using list_elem_of_lookup_2.
  - rewrite decide_False by exact N.
    destruct (live_add (hw_bps c) (nb_hw_bps c) (mk_bp a 1 GDB_BREAKPOINT_HW) ltac:(lia)) as [T L].
    rewrite T. cbn [rbind]. eexists. split; [reflexivity|].
    set (c' := set_bps _ c).
    assert (Ent : entries c' = entries c ++ [mk_bp a 1 GDB_BREAKPOINT_HW]) by exact L.
    split; [|split; [|reflexivity]].
    + constructor; [unfold c'; cbn; rewrite length_insert; exact H1 | unfold c'; cbn; lia | |].
      * unfold bp_addrs. rewrite Ent, fmap_app. cbn. apply NoDup_app. split; [exact H3|].
        split; [|apply NoDup_singleton]. intros x Hx ->%list_elem_of_singleton.
        apply N. unfold bp_set. rewrite elem_of_list_to_set. exact Hx.
      * rewrite Ent, Forall_app, Forall_singleton. repeat split; assumption.
    + unfold bp_set at 1, bp_addrs. rewrite Ent, fmap_app, list_to_set_app_L. cbn.
      unfold bp_set. set_solver.
Qed.

Lemma remove_per_cpu a c : bps_ok c ->
  exists c', kvm_arch_remove_hw_breakpoint_per_cpu c a = Ok ((spec_remove a (bp_set c)).1, c') /\
             bps_ok c' /\ bp_set c' = (spec_remove a (bp_set c)).2 /\ same_but_bps c c'.
Proof.
  intros Ok0. pose proof Ok0 as [H1 H2 H3 H4]. unfold kvm_arch_remove_hw_breakpoint_per_cpu, spec_remove.
  assert (Hself : same_but_bps c c) by (destruct c; reflexivity).
  destruct (find_per_cpu c a Ok0) as [(n & b & F & L & Eb)|[F N]]; rewrite F; cbn [rbind].
  - rewrite decide_True; cycle 1.
    { unfold bp_set, bp_addrs. rewrite elem_of_list_to_set, list_elem_of_fmap.
      eauto using list_elem_of_lookup_2. }
    destruct (live_del (hw_bps c) (nb_hw_bps c) n b ltac:(lia) L) as (sl & k & T & Ek & Hl & P).
    rewrite T. cbn [rbind]. eexists. split; [reflexivity|].
    set (c' := set_bps (sl, k) c). change (live sl k) with (entries c') in P.
    change (live (hw_bps c) (nb_hw_bps c)) with (entries c) in P.
    assert (Q : a :: bp_addrs c' ≡ₚ bp_addrs c)
      by (unfold bp_addrs; rewrite <- P; cbn; rewrite Eb; reflexivity).
    assert (ND : NoDup (a :: bp_addrs c')) by (rewrite Q; exact H3).
    apply NoDup_cons in ND as [Na Nd].
    split; [|split; [|reflexivity]].
    + constructor; [unfold c'; cbn; congruence | unfold c'; cbn; lia | exact Nd |].
      rewrite <- P in H4. apply Forall_cons in H4 as [_ H4]. exact H4.
    + unfold bp_set. rewrite <- Q. cbn. set_solver.
  - rewrite decide_False by exact N. eauto.
Qed.

#[export] Instance insert_per_cpu_refines a :
  Refines bps_ok bp_set (fun c => kvm_arch_insert_hw_breakpoint_per_cpu c a) (spec_insert a).
Proof. intros c Hc. destruct (insert_per_cpu a c Hc) as (c' & ? & ? & ? & _). eauto. Qed.

#[export] Instance remove_per_cpu_refines a :
  Refines bps_ok bp_set (fun c => kvm_arch_remove_hw_breakpoint_per_cpu c a) (spec_remove a).
Proof. intros c Hc. destruct (remove_per_cpu a c Hc) as (c' & ? & ? & ? & _). eauto. Qed.

(** ** Debug registers *)

(** [type_code] and [len_code] of [kvm_arch_update_guest_debug]; unnamed entries of
    the designated initialisers are zero. *)
Definition type_code : list Z := [0; 0x0; 0x1; 0; 0x3].
Definition len_code : list Z := [0; 0x0; 0x1; 0; 0x3; 0; 0; 0; 0x2].

Definition code_at (t : list Z) (i : Z) : res Z :=
  if i <? 0 then Err OutOfBounds else of_option OutOfBounds (t !! Z.to_nat i).

(** The bits of debug register 7 for breakpoint [n]. *)
Definition dr7_bits (n : nat) (b : hw_bp) : res Z :=
  let k := Z.of_nat n in
  let? tc := code_at type_code (bp_type b) in
  let? lc := code_at len_code (bp_len b) in
  Ok (Z.lor (Z.lor (Z.shiftl 2 (k * 2)) (Z.shiftl tc (16 + k * 4))) (u32 (Z.shiftl lc (18 + k * 4)))).

(** [for (n = 0; n < cpu->nb_hw_bps; n++) ...] *)
Fixpoint debugreg_loop (slots : list hw_bp) (n left : nat) (dr7 : Z) (regs : list (option Z)) :
    res (Z * list (option Z)) :=
  match left with
  | O => Ok (dr7, regs)
  | S left' =>
      let? b := of_option OutOfBounds (slots !! n) in
      let? m := dr7_bits n b in
      debugreg_loop slots (S n) left' (Z.lor dr7 m) (<[n := Some (bp_addr b)]> regs)
  end.

(** [sw_active] is the result of [kvm_sw_breakpoints_active]. *)
Definition kvm_arch_update_guest_debug (sw_active : bool) (c : CPUState) (d : guest_debug) :
    res guest_debug :=
  let d := if sw_active then or_control (Z.lor KVM_GUESTDBG_ENABLE KVM_GUESTDBG_USE_SW_BP) d else d in
  if (0 <? nb_hw_bps c)%nat then
    let d := or_control (Z.lor KVM_GUESTDBG_ENABLE KVM_GUESTDBG_USE_HW_BP) d in
    let? (dr7, regs) := debugreg_loop (hw_bps c) 0 (nb_hw_bps c) 0x0600 (debugreg d) in
    Ok (mk_dbg (dbg_control d) (<[7%nat := Some dr7]> regs))
  else Ok d.

(** *** What the processor makes of them (Intel SDM, debug registers) *)

(** Breakpoint [n] is enabled, locally or globally. *)
Definition dr7_enabled (dr7 : Z) (n : nat) : bool :=
  Z.testbit dr7 (2 * Z.of_nat n) || Z.testbit dr7 (2 * Z.of_nat n + 1).

(** The fields R/W and LEN of breakpoint [n]. *)
Definition dr7_rw (dr7 : Z) (n : nat) : Z := Z.land (Z.shiftr dr7 (16 + 4 * Z.of_nat n)) 3.
Definition dr7_len (dr7 : Z) (n : nat) : Z := Z.land (Z.shiftr dr7 (18 + 4 * Z.of_nat n)) 3.

(** The addresses at which execution stops: enabled breakpoints with R/W and LEN
    zero; [None] when a register that matters was never written. *)
Definition armed (d : guest_debug) : option (list Z) :=
  c ← dbg_control d;
  if bits c KVM_GUESTDBG_ENABLE && bits c KVM_GUESTDBG_USE_HW_BP then
    dr7 ← mjoin (debugreg d !! 7%nat);
    mapM (fun n => mjoin (debugreg d !! n))
      (filter (fun n => dr7_enabled dr7 n && (dr7_rw dr7 n =? 0) && (dr7_len dr7 n =? 0) = true)
              (seq 0 4))
  else Some [].

Definition stepping (d : guest_debug) : bool :=
  match dbg_control d with
  | Some c => bits c KVM_GUESTDBG_ENABLE && bits c KVM_GUESTDBG_SINGLESTEP
  | None => false
  end.

(** The table, case by case on the number of entries. *)
Lemma bps_ok_cases c : bps_ok c ->
  exists a0 a1 a2 a3, exists b0 b1 b2 b3, hw_bps c = [b0; b1; b2; b3] /\
    match nb_hw_bps c with
    | 0 => True
    | 1 => b0 = mk_bp a0 1 1
    | 2 => b0 = mk_bp a0 1 1 /\ b1 = mk_bp a1 1 1
    | 3 => b0 = mk_bp a0 1 1 /\ b1 = mk_bp a1 1 1 /\ b2 = mk_bp a2 1 1
    | _ => nb_hw_bps c = 4 /\ b0 = mk_bp a0 1 1 /\ b1 = mk_bp a1 1 1 /\ b2 = mk_bp a2 1 1 /\ b3 = mk_bp a3 1 1
    end%nat.
Proof.
  intros [H1 H2 _ H4]. unfold entries, live in H4.
  destruct (hw_bps c) as [|[a0 l0 t0] [|[a1 l1 t1] [|[a2 l2 t2] [|[a3 l3 t3] [|]]]]]; try discriminate.
  exists a0, a1, a2, a3. do 4 eexists. split; [reflexivity|]. revert H4.
  unfold exec_bp.
  destruct (nb_hw_bps c) as [|[|[|[|[|]]]]]; cbn [take]; [| | | | |lia];
    rewrite ?Forall_cons; cbn; intuition subst; reflexivity.
Qed.

Lemma bits_lor a b m : bits (Z.lor a b) m = bits a m || bits b m.
Proof.
  unfold bits. rewrite Z.land_lor_distr_l.
  destruct (Z.eqb_spec (Z.land a m) 0) as [->|Ha]; [reflexivity|]. cbn [negb orb].
  apply negb_true_iff, Z.eqb_neq. rewrite Z.lor_eq_0_iff. tauto.
Qed.

(** The control word after the update. *)
Definition debug_control (sw : bool) (nb : nat) (ctl : Z) : Z :=
  let c := if sw then Z.lor ctl (Z.lor KVM_GUESTDBG_ENABLE KVM_GUESTDBG_USE_SW_BP) else ctl in
  if (0 <? nb)%nat then Z.lor c (Z.lor KVM_GUESTDBG_ENABLE KVM_GUESTDBG_USE_HW_BP) else c.

Lemma debug_control_hw sw n ctl :
  bits (debug_control sw (S n) ctl) KVM_GUESTDBG_ENABLE
  && bits (debug_control sw (S n) ctl) KVM_GUESTDBG_USE_HW_BP = true.
Proof. unfold debug_control. cbn [Nat.ltb Nat.leb]. rewrite !bits_lor, !orb_true_r. reflexivity. Qed.

Lemma debug_control_step sw nb ctl :
  bits (debug_control sw nb ctl) KVM_GUESTDBG_SINGLESTEP = bits ctl KVM_GUESTDBG_SINGLESTEP.
Proof.
  unfold debug_control. destruct sw, (0 <? nb)%nat; rewrite ?bits_lor; cbn;
    rewrite ?orb_false_r; reflexivity.
Qed.

Lemma debug_control_enable sw nb ctl :
  bits ctl KVM_GUESTDBG_ENABLE = true -> bits (debug_control sw nb ctl) KVM_GUESTDBG_ENABLE = true.
Proof.
  intros H. unfold debug_control. destruct sw, (0 <? nb)%nat; rewrite ?bits_lor, ?H; reflexivity.
Qed.

(** With a defined control word, exactly the addresses of the table are armed. *)
Lemma update_guest_debug_armed sw c ctl : bps_ok c -> bits ctl KVM_GUESTDBG_USE_HW_BP = false ->
  exists d, kvm_arch_update_guest_debug sw c (fresh_dbg (Some ctl)) = Ok d /\
            armed d = Some (bp_addrs c) /\
            dbg_control d = Some (debug_control sw (nb_hw_bps c) ctl).
Proof.
  intros Hc Hctl. destruct (bps_ok_cases c Hc) as (a0 & a1 & a2 & a3 & b0 & b1 & b2 & b3 & Eb & Hn).
  unfold kvm_arch_update_guest_debug, bp_addrs, entries. rewrite Eb.
  destruct (nb_hw_bps c) as [|[|[|[|n]]]]; cbn [Nat.ltb Nat.leb].
  { eexists. split; [reflexivity|]. unfold armed, debug_control. destruct sw; cbn -[bits].
    - rewrite !bits_lor, Hctl, andb_false_r. auto.
    - rewrite Hctl, andb_false_r. auto. }
  all: destruct_and?; subst; try (injection H as ->).
  all: destruct sw; eexists; (split; [reflexivity | split; [|reflexivity]]).
  all: match goal with |- armed (mk_dbg _ _) = _ => unfold armed; cbn -[bits mapM seq] end.
  all: rewrite !bits_lor, !orb_true_r; reflexivity.
Qed.

(** ** Breakpoints of a virtual CPU and KVM (kvm-all.c) *)

(** KVM_SET_GUEST_DEBUG: from the settings in force and the argument, the return
    value of the ioctl and the settings in force afterwards. *)
Class KVM := kvm_set_guest_debug : guest_debug -> guest_debug -> Z * guest_debug.

(** The documented behaviour: on success the argument is in force. *)
Class KVMLaws `{KVM} : Prop :=
  set_guest_debug_ok : forall old new,
    (kvm_set_guest_debug old new).1 = 0 -> (kvm_set_guest_debug old new).2 = new.

(** The kernel accepts every setting. *)
Definition accepts_all `{KVM} : Prop := forall old new, (kvm_set_guest_debug old new).1 = 0.

Section percpu.
Context `{KVM}.
(** [kvm_sw_breakpoints_active] *)
Variable sw : bool.

Definition kvm_invoke_set_guest_debug (c : CPUState) (d : guest_debug) : Z * CPUState :=
  let r := kvm_set_guest_debug (kvm_debug c) d in (r.1, set_kvm_debug r.2 c).

(** [data.dbg.control = reinject_trap; if (cpu->singlestep_enabled) ...] *)
Definition step_control (c : CPUState) (reinject_trap : Z) : Z :=
  let ctl := u32 reinject_trap in
  if negb (singlestep_enabled c =? 0)
  then Z.lor ctl (Z.lor KVM_GUESTDBG_ENABLE KVM_GUESTDBG_SINGLESTEP) else ctl.

Definition kvm_update_guest_debug_per_cpu (c : CPUState) (reinject_trap : Z) : res (Z * CPUState) :=
  let? d := kvm_arch_update_guest_debug sw c (fresh_dbg (Some (step_control c reinject_trap))) in
  Ok (kvm_invoke_set_guest_debug c d).

(** The common end of insertion and removal; the control word starts at 0. *)
Definition reload_debug (r : res (Z * CPUState)) : res (Z * CPUState) :=
  let? (err, c) := r in
  if negb (err =? 0) then Ok (err, c)
  else
    let? d := kvm_arch_update_guest_debug sw c (fresh_dbg (Some 0)) in
    Ok (kvm_invoke_set_guest_debug c d).

Definition kvm_insert_breakpoint_per_cpu (c : CPUState) (addr : Z) : res (Z * CPUState) :=
  reload_debug (kvm_arch_insert_hw_breakpoint_per_cpu c addr).

Definition kvm_remove_breakpoint_per_cpu (c : CPUState) (addr : Z) : res (Z * CPUState) :=
  reload_debug (kvm_arch_remove_hw_breakpoint_per_cpu c addr).

(** The control word of the local is never set, and the error is dropped. *)
Definition kvm_remove_all_breakpoints_per_cpu (c : CPUState) : res CPUState :=
  let c := set_nb_hw_bps 0 c in
  let? d := kvm_arch_update_guest_debug sw c (fresh_dbg None) in
  Ok (kvm_invoke_set_guest_debug c d).2.
End percpu.

(** What the processor is told agrees with the table of the CPU. *)
Definition in_force (c : CPUState) : Prop := armed (kvm_debug c) = Some (bp_addrs c).

Section percpu_facts.
Context `{KL : KVMLaws} (sw : bool).

(** Only the table and the debug settings of [c] differ. *)
Definition same_but_debug (c c' : CPUState) : Prop :=
  c' = set_kvm_debug (kvm_debug c') (set_bps (hw_bps c', nb_hw_bps c') c).

Lemma same_bps_debug c c1 : same_but_bps c c1 ->
  (forall v, same_but_debug c (set_kvm_debug v c1)) /\ same_but_debug c c1 /\ kvm_debug c1 = kvm_debug c.
Proof.
  destruct c, c1. unfold same_but_bps, same_but_debug, set_bps. cbn. intros [=]. subst. auto.
Qed.

Lemma bps_ok_ext c c' : hw_bps c' = hw_bps c -> nb_hw_bps c' = nb_hw_bps c ->
  bps_ok c -> bps_ok c' /\ bp_addrs c' = bp_addrs c /\ bp_set c' = bp_set c.
Proof.
  intros E1 E2 [H1 H2 H3 H4]. unfold bp_set, bp_addrs, entries in *. rewrite E1, E2.
  split; [|split; reflexivity]. constructor; unfold bp_addrs, entries; rewrite ?E1, ?E2; assumption.
Qed.

Lemma reload_ok c1 : bps_ok c1 ->
  exists d, reload_debug sw (Ok (0, c1)) = Ok (kvm_invoke_set_guest_debug c1 d) /\
            armed d = Some (bp_addrs c1) /\ stepping d = false.
Proof.
  intros Hc. destruct (update_guest_debug_armed sw c1 0 Hc eq_refl) as (d & E & A & C).
  exists d. unfold reload_debug. cbn [rbind]. rewrite Z.eqb_refl. cbn [negb]. rewrite E.
  split; [reflexivity|]. split; [exact A|]. unfold stepping. rewrite C, debug_control_step.
  apply andb_false_r.
Qed.

(** An operation that refines a set operation and then reloads the registers. *)
Lemma reload_refines r (c : CPUState) (spec : gset Z -> Z * gset Z) :
  (exists c1, r = Ok ((spec (bp_set c)).1, c1) /\ bps_ok c1 /\ bp_set c1 = (spec (bp_set c)).2 /\
              same_but_bps c c1) ->
  exists err c', reload_debug sw r = Ok (err, c') /\ bps_ok c' /\ same_but_debug c c' /\
    bp_set c' = (spec (bp_set c)).2 /\
    ((spec (bp_set c)).1 <> 0 -> err = (spec (bp_set c)).1 /\ kvm_debug c' = kvm_debug c) /\
    ((spec (bp_set c)).1 = 0 -> err = 0 -> in_force c' /\ stepping (kvm_debug c') = false) /\
    (accepts_all -> err = (spec (bp_set c)).1).
Proof.
  intros (c1 & -> & H1 & S1 & D1). destruct (same_bps_debug c c1 D1) as (D2 & D3 & D4).
  destruct (Z.eq_dec (spec (bp_set c)).1 0) as [E|E].
  - rewrite E. destruct (reload_ok c1 H1) as (d & -> & A & St).
    unfold kvm_invoke_set_guest_debug. do 2 eexists. split; [reflexivity|].
    set (r := kvm_set_guest_debug (kvm_debug c1) d).
    destruct (bps_ok_ext c1 (set_kvm_debug r.2 c1) eq_refl eq_refl H1) as (O & Ad & Se).
    split; [exact O|]. split; [apply D2|].
    split; [rewrite Se; exact S1|]. split; [congruence|]. split; [|intros Acc; apply Acc]. intros _ Er.
    pose proof (set_guest_debug_ok _ _ Er : r.2 = d) as Er'.
    unfold in_force. rewrite Ad. cbn [kvm_debug set_kvm_debug]. rewrite Er'. auto.
  - unfold reload_debug. cbn [rbind]. rewrite (proj2 (Z.eqb_neq _ _) E). cbn [negb].
    do 2 eexists. split; [reflexivity|]. split; [exact H1|].
    split; [exact D3|].
    split; [exact S1|]. split; [|split; [congruence | reflexivity]]. intros _. split; [reflexivity | exact D4].
Qed.

Lemma kvm_insert_per_cpu c a : bps_ok c ->
  exists err c', kvm_insert_breakpoint_per_cpu sw c a = Ok (err, c') /\ bps_ok c' /\ same_but_debug c c' /\
    bp_set c' = (spec_insert a (bp_set c)).2 /\
    ((spec_insert a (bp_set c)).1 <> 0 -> err = (spec_insert a (bp_set c)).1 /\ kvm_debug c' = kvm_debug c) /\
    ((spec_insert a (bp_set c)).1 = 0 -> err = 0 -> in_force c' /\ stepping (kvm_debug c') = false) /\
    (accepts_all -> err = (spec_insert a (bp_set c)).1).
Proof. intros Hc. apply reload_refines, insert_per_cpu, Hc. Qed.

Lemma kvm_remove_per_cpu c a : bps_ok c ->
  exists err c', kvm_remove_breakpoint_per_cpu sw c a = Ok (err, c') /\ bps_ok c' /\ same_but_debug c c' /\
    bp_set c' = (spec_remove a (bp_set c)).2 /\
    ((spec_remove a (bp_set c)).1 <> 0 -> err = (spec_remove a (bp_set c)).1 /\ kvm_debug c' = kvm_debug c) /\
    ((spec_remove a (bp_set c)).1 = 0 -> err = 0 -> in_force c' /\ stepping (kvm_debug c') = false) /\
    (accepts_all -> err = (spec_remove a (bp_set c)).1).
Proof. intros Hc. apply reload_refines, remove_per_cpu, Hc. Qed.

(** The update on behalf of single stepping. *)
Lemma kvm_update_per_cpu c : bps_ok c ->
  exists err c', kvm_update_guest_debug_per_cpu sw c 0 = Ok (err, c') /\ bps_ok c' /\
    bp_addrs c' = bp_addrs c /\ bp_set c' = bp_set c /\
    c' = set_kvm_debug (kvm_debug c') c /\
    (err = 0 -> in_force c' /\ stepping (kvm_debug c') = negb (singlestep_enabled c =? 0)) /\
    (accepts_all -> err = 0).
Proof.
  intros Hc. unfold kvm_update_guest_debug_per_cpu.
  assert (Hh : bits (step_control c 0) KVM_GUESTDBG_USE_HW_BP = false)
    by (unfold step_control; destruct (singlestep_enabled c =? 0); reflexivity).
  destruct (update_guest_debug_armed sw c _ Hc Hh) as (d & -> & A & C). cbn [rbind].
  unfold kvm_invoke_set_guest_debug. do 2 eexists. split; [reflexivity|].
  set (r := kvm_set_guest_debug (kvm_debug c) d).
  destruct (bps_ok_ext c (set_kvm_debug r.2 c) eq_refl eq_refl Hc) as (O & Ad & Se).
  split; [exact O|]. split; [exact Ad|]. split; [exact Se|]. split; [reflexivity|]. split; [|intros Acc; apply Acc]. intros Er.
  pose proof (set_guest_debug_ok _ _ Er : r.2 = d) as Er'.
  unfold in_force. rewrite Ad. cbn [kvm_debug set_kvm_debug]. rewrite Er'. split; [exact A|].
  unfold stepping. rewrite C, debug_control_step. unfold step_control.
  destruct (singlestep_enabled c =? 0); cbn [negb]; [apply andb_false_r|].
  rewrite debug_control_enable; reflexivity.
Qed.

Lemma kvm_remove_all_per_cpu c : length (hw_bps c) = 4%nat ->
  exists c', kvm_remove_all_breakpoints_per_cpu sw c = Ok c' /\ bps_ok c' /\ bp_set c' = ∅ /\
    same_but_debug c c' /\
    kvm_debug c' = (kvm_set_guest_debug (kvm_debug c) (fresh_dbg None)).2.
Proof.
  intros Hl. unfold kvm_remove_all_breakpoints_per_cpu, kvm_arch_update_guest_debug.
  cbn [nb_hw_bps set_nb_hw_bps Nat.ltb Nat.leb rbind].
  assert (E : (if sw then or_control (Z.lor KVM_GUESTDBG_ENABLE KVM_GUESTDBG_USE_SW_BP) (fresh_dbg None)
               else fresh_dbg None) = fresh_dbg None) by (destruct sw; reflexivity).
  rewrite E. cbn [rbind]. unfold kvm_invoke_set_guest_debug. cbn [fst snd].
  eexists. split; [reflexivity|]. split; [|split; [|split]]; try reflexivity.
  constructor; cbn; [exact Hl | lia | apply NoDup_nil_2 | apply Forall_nil_2].
Qed.
End percpu_facts.

(** ** Results *)

(** An operation on the table of a virtual CPU. *)
Inductive bp_op := Insert (a : Z) | Remove (a : Z).

Definition bp_impl (o : bp_op) : CPUState -> res (Z * CPUState) :=
  match o with
  | Insert a => fun c => kvm_arch_insert_hw_breakpoint_per_cpu c a
  | Remove a => fun c => kvm_arch_remove_hw_breakpoint_per_cpu c a
  end.

Definition bp_spec (o : bp_op) : gset Z -> Z * gset Z :=
  match o with Insert a => spec_insert a | Remove a => spec_remove a end.

#[export] Instance bp_op_refines o : Refines bps_ok bp_set (bp_impl o) (bp_spec o).
Proof. destruct o; apply _. Qed.

(** C5: the table of a virtual CPU implements a set of at most four addresses: any
    sequence of insertions and removals returns the error codes of the set
    operations (no space, already there, not there), never leaves the array, and
    ends with the same set, without duplicates. *)
Theorem percpu_table_is_a_set ops c : bps_ok c ->
  exists c', run_ops (bp_impl <$> ops) c = Ok ((run_spec (bp_spec <$> ops) (bp_set c)).1, c') /\
             bps_ok c' /\ bp_set c' = (run_spec (bp_spec <$> ops) (bp_set c)).2.
Proof.
  intros Hc. apply run_refines; [|exact Hc].
  induction ops; cbn; constructor; [apply _ | assumption].
Qed.

(** A CPU whose table is empty. *)
Definition cpu_zero : CPUState :=
  mk_cpu false false false false false 0 0 false false (replicate 4 zero_bp) 0 None 0 0 0 0 0 None false
    false (-1) 0 (fresh_dbg (Some 0)) (mk_kvm_regs 0 0 0 0 0 0 0 0 0 0 0 0 0 0 0 0 0 0).

Lemma cpu_zero_ok : bps_ok cpu_zero.
Proof. constructor; cbn; [reflexivity | lia | apply NoDup_nil_2 | apply Forall_nil_2]. Qed.

Lemma percpu_table_is_a_set_witness :
  exists c', run_ops (bp_impl <$> [Insert 1; Insert 2; Insert 1; Insert 3; Insert 4; Insert 5; Remove 1; Remove 1])
               cpu_zero = Ok ([0; 0; - EEXIST; 0; 0; - ENOBUFS; 0; - ENOENT], c') /\ bps_ok c' /\
             bp_set c' = {[2; 3; 4]}.
Proof.
  destruct (percpu_table_is_a_set
    [Insert 1; Insert 2; Insert 1; Insert 3; Insert 4; Insert 5; Remove 1; Remove 1] cpu_zero cpu_zero_ok)
    as (c' & E & I & S).
  exists c'. split; [|split; [exact I|]].
  - rewrite E. vm_compute. reflexivity.
  - rewrite S. vm_compute. reflexivity.
Defined.

(** A successful insertion for a virtual CPU arms exactly the addresses of its
    table, the new one included, as execution breakpoints; a failed table insertion
    leaves the debug registers alone.  Nothing else of the CPU changes. *)
Theorem insert_arms `{KVMLaws} sw c a : bps_ok c -> in_force c ->
  exists err c', kvm_insert_breakpoint_per_cpu sw c a = Ok (err, c') /\ bps_ok c' /\ same_but_debug c c' /\
    (err = 0 -> in_force c' /\ bp_set c' = {[a]} ∪ bp_set c) /\
    (size (bp_set c) = 4%nat -> err = - ENOBUFS /\ c' = c) /\
    (size (bp_set c) <> 4%nat -> a ∈ bp_set c -> err = - EEXIST /\ in_force c' /\ bp_set c' = bp_set c).
Proof.
  intros Hc Hf. destruct (kvm_insert_per_cpu sw c a Hc) as (err & c' & E & O & D & S & F1 & F0 & _).
  exists err, c'. split; [exact E|]. split; [exact O|]. split; [exact D|].
  revert S F1 F0. unfold spec_insert.
  destruct (decide (size (bp_set c) = 4%nat)) as [D4|D4]; cbn [fst snd].
  - intros S F1 _. destruct (F1 ltac:(discriminate)) as [-> _].
    split; [discriminate|]. split; [|congruence]. intros _. split; [reflexivity|].
    unfold kvm_insert_breakpoint_per_cpu, reload_debug, kvm_arch_insert_hw_breakpoint_per_cpu in E.
    rewrite bp_set_size in D4 by exact Hc. rewrite D4 in E. cbn [rbind Nat.eqb] in E. change (- ENOBUFS =? 0) with false in E. cbn [negb] in E. congruence.
  - destruct (decide (a ∈ bp_set c)) as [Da|Da]; cbn [fst snd].
    + intros S F1 _. destruct (F1 ltac:(discriminate)) as [-> K].
      split; [discriminate|]. split; [congruence|]. intros _ _. split; [reflexivity|].
      split; [|exact S]. unfold in_force in *. rewrite K, Hf. f_equal.
      unfold kvm_insert_breakpoint_per_cpu, reload_debug, kvm_arch_insert_hw_breakpoint_per_cpu in E.
      rewrite bp_set_size in D4 by exact Hc. rewrite (proj2 (Nat.eqb_neq _ _) D4) in E.
      destruct (find_per_cpu c a Hc) as [(n & b & Fi & _)|[_ N]]; [|contradiction].
      rewrite Fi in E. cbn [rbind] in E. change (- EEXIST =? 0) with false in E. cbn [negb] in E. congruence.
    + intros S _ F0. split; [intros ->; destruct (F0 eq_refl eq_refl); auto|].
      split; [congruence|]. contradiction.
Qed.

(** A kernel that accepts every setting. *)
Definition kvm_accepts : KVM := fun _ new => (0, new).

Lemma kvm_accepts_laws : @KVMLaws kvm_accepts.
Proof. intros old new _. reflexivity. Qed.

Lemma insert_arms_witness :
  exists err c', @kvm_insert_breakpoint_per_cpu kvm_accepts false cpu_zero 0xffffffff81002000 = Ok (err, c') /\
    bps_ok c' /\ same_but_debug cpu_zero c' /\
    (err = 0 -> in_force c' /\ bp_set c' = {[0xffffffff81002000]} ∪ bp_set cpu_zero).
Proof.
  destruct (@insert_arms kvm_accepts kvm_accepts_laws false cpu_zero 0xffffffff81002000 cpu_zero_ok eq_refl)
    as (err & c' & E & O & D & F & _).
  exists err, c'. auto.
Defined.

(** A successful removal for a virtual CPU leaves exactly the other addresses
    armed; removing an address that is not in the table reports -ENOENT and changes
    nothing. *)
Theorem remove_disarms `{KVMLaws} sw c a : bps_ok c ->
  exists err c', kvm_remove_breakpoint_per_cpu sw c a = Ok (err, c') /\ bps_ok c' /\ same_but_debug c c' /\
    bp_set c' = bp_set c ∖ {[a]} /\ (a ∉ bp_set c -> err = - ENOENT /\ kvm_debug c' = kvm_debug c) /\
    (a ∈ bp_set c -> err = 0 -> in_force c').
Proof.
  intros Hc. destruct (kvm_remove_per_cpu sw c a Hc) as (err & c' & E & O & D & S & F1 & F0 & _).
  exists err, c'. split; [exact E|]. split; [exact O|]. split; [exact D|].
  revert S F1 F0. unfold spec_remove. destruct (decide (a ∈ bp_set c)) as [Da|Da]; cbn [fst snd]; intros S F1 F0.
  - split; [exact S|]. split; [contradiction|]. intros _ Er. apply (F0 eq_refl Er).
  - split; [rewrite S; set_solver|]. split; [intros _; apply F1; discriminate | contradiction].
Qed.

Lemma remove_disarms_witness :
  exists err c', @kvm_remove_breakpoint_per_cpu kvm_accepts false cpu_zero 0x1000 = Ok (err, c') /\
    bps_ok c' /\ err = - ENOENT.
Proof.
  destruct (@remove_disarms kvm_accepts kvm_accepts_laws false cpu_zero 0x1000 cpu_zero_ok)
    as (err & c' & E & O & _ & _ & F & _).
  exists err, c'. split; [exact E|]. split; [exact O|]. apply F. vm_compute. discriminate.
Defined.
