(* ===== verification/KvmBreakpoint.v ===== *)
(** * Software breakpoints and the debugger's entry points (kvm-all.c, target-i386/kvm.c)

    Besides the per-CPU hardware breakpoints Razzer works with, QEMU keeps the
    breakpoints of an attached debugger: software breakpoints, a list of patched
    instruction bytes with use counts shared by all CPUs, and a global table of
    hardware breakpoints.  [kvm_insert_breakpoint], [kvm_remove_breakpoint] and
    [kvm_remove_all_breakpoints] are modelled on a state that holds the list, guest
    memory, the global table and the CPUs.

    The list is a tail queue of heap cells; a cell is identified by its position.
    Patching goes through [cpu_memory_rw_debug], so it changes guest memory.  The
    page tables are those of the CPU the debugger has selected.  run_on_cpu is its
    effect: the function runs once, before the caller continues. *)

From Stdlib Require Import ZArith Lia Bool.
From stdpp Require Import base list gmap fin_maps.
From S2P Require Import Prelude MemOperand PageWalk CpuState HwBreakpoint.

Open Scope Z_scope.

(** struct kvm_sw_breakpoint; one byte of [saved_insn] is used.  [use_count], an int, is kept
    without a bound: it counts the insertions of one address, and 2^31 of them do not occur. *)
Record sw_bp := mk_sw { sw_pc : Z; saved_insn : Z; use_count : Z }.

Record machine := mk_machine {
  sw_breakpoints : list sw_bp;
  guest_mem : mem;
  hw_table : hw_globals;
  cpus : list CPUState }.

Definition kvm_find_sw_breakpoint (l : list sw_bp) (pc : Z) : option (nat * sw_bp) :=
  list_find (fun b => sw_pc b = pc) l.

Definition kvm_sw_breakpoints_active (l : list sw_bp) : bool :=
  match l with [] => false | _ => true end.

Definition INT3 : Z := 0xcc.

Section gdb.
Context `{KVM}.
(** The paging registers of the selected CPU. *)
Variable env : paging.

(** [cpu_memory_rw_debug] reports a failure by a non-zero value. *)
Definition kvm_arch_insert_sw_breakpoint (m : mem) (bp : sw_bp) : res (Z * sw_bp * mem) :=
  (let? (r, m1) := cpu_memory_rw_debug env m (sw_pc bp) [0] false in
  if negb (r.1 =? 0) then Ok (- EINVAL, bp, m1)
  else
    let bp := mk_sw (sw_pc bp) (default 0 (r.2 !! 0%nat)) (use_count bp) in
    let? (r, m2) := cpu_memory_rw_debug env m1 (sw_pc bp) [INT3] true in
    if negb (r.1 =? 0) then Ok (- EINVAL, bp, m2) else Ok (0, bp, m2))%rz.

Definition kvm_arch_remove_sw_breakpoint (m : mem) (bp : sw_bp) : res (Z * mem) :=
  (let? (r, m1) := cpu_memory_rw_debug env m (sw_pc bp) [0] false in
  if negb (r.1 =? 0) || negb (default 0 (r.2 !! 0%nat) =? INT3) then Ok (- EINVAL, m1)
  else
    let? (r, m2) := cpu_memory_rw_debug env m1 (sw_pc bp) [saved_insn bp] true in
    if negb (r.1 =? 0) then Ok (- EINVAL, m2) else Ok (0, m2))%rz.

(** [kvm_update_guest_debug]: as the per-CPU function, on the CPU's own thread. *)
Definition kvm_update_guest_debug (sw : bool) (c : CPUState) (reinject_trap : Z) : res (Z * CPUState) :=
  kvm_update_guest_debug_per_cpu sw c reinject_trap.

(** [CPU_FOREACH(cpu) { err = kvm_update_guest_debug(cpu, 0); ... }] *)
Fixpoint update_each (sw : bool) (l : list CPUState) : res (Z * list CPUState) :=
  match l with
  | [] => Ok (0, [])
  | c :: l =>
      let? (err, c') := kvm_update_guest_debug sw c 0 in
      if negb (err =? 0) then Ok (err, c' :: l)
      else let? (err, l') := update_each sw l in Ok (err, c' :: l')
  end%rz.

Definition update_cpus (s : machine) : res (Z * machine) :=
  (let? (err, l) := update_each (kvm_sw_breakpoints_active (sw_breakpoints s)) (cpus s) in
  Ok (err, mk_machine (sw_breakpoints s) (guest_mem s) (hw_table s) l))%rz.

Definition set_sw (l : list sw_bp) (s : machine) : machine := mk_machine l (guest_mem s) (hw_table s) (cpus s).
Definition set_mem (m : mem) (s : machine) : machine := mk_machine (sw_breakpoints s) m (hw_table s) (cpus s).
Definition set_table (t : hw_globals) (s : machine) : machine :=
  mk_machine (sw_breakpoints s) (guest_mem s) t (cpus s).

Definition kvm_insert_breakpoint (s : machine) (addr len type : Z) : res (Z * machine) :=
  if type =? GDB_BREAKPOINT_SW then
    match kvm_find_sw_breakpoint (sw_breakpoints s) addr with
    | Some (i, bp) =>
        Ok (0, set_sw (<[i := mk_sw (sw_pc bp) (saved_insn bp) (use_count bp + 1)]> (sw_breakpoints s)) s)
    | None =>
        let? (r, m) := kvm_arch_insert_sw_breakpoint (guest_mem s) (mk_sw addr 0 1) in
        if negb (r.1 =? 0) then Ok (r.1, set_mem m s)
        else update_cpus (set_sw (r.2 :: sw_breakpoints s) (set_mem m s))
    end
  else
    let? (err, t) := kvm_arch_insert_hw_breakpoint (hw_table s) addr len type in
    if negb (err =? 0) then Ok (err, set_table t s) else update_cpus (set_table t s).

Definition kvm_remove_breakpoint (s : machine) (addr len type : Z) : res (Z * machine) :=
  if type =? GDB_BREAKPOINT_SW then
    match kvm_find_sw_breakpoint (sw_breakpoints s) addr with
    | None => Ok (- ENOENT, s)
    | Some (i, bp) =>
        if 1 <? use_count bp then
          Ok (0, set_sw (<[i := mk_sw (sw_pc bp) (saved_insn bp) (use_count bp - 1)]> (sw_breakpoints s)) s)
        else
          let? (err, m) := kvm_arch_remove_sw_breakpoint (guest_mem s) bp in
          if negb (err =? 0) then Ok (err, set_mem m s)
          else update_cpus (set_sw (delete i (sw_breakpoints s)) (set_mem m s))
    end
  else
    let? (err, t) := kvm_arch_remove_hw_breakpoint (hw_table s) addr len type in
    if negb (err =? 0) then Ok (err, set_table t s) else update_cpus (set_table t s).

(** Only the global table and the selected CPU [k]: the code for the software
    breakpoints and for the other CPUs is compiled out. *)
Definition kvm_remove_all_breakpoints (s : machine) (k : nat) : res machine :=
  match cpus s !! k with
  | None => Err OutOfBounds
  | Some c =>
      let s := set_table (kvm_arch_remove_all_hw_breakpoints (hw_table s)) s in
      let? (_, c') := kvm_update_guest_debug (kvm_sw_breakpoints_active (sw_breakpoints s)) c 0 in
      Ok (mk_machine (sw_breakpoints s) (guest_mem s) (hw_table s) (<[k := c']> (cpus s)))
  end.
End gdb.

(** ** Accesses of one byte *)

Lemma rw_debug_one env m pc b w : 0 <= pc < 2 ^ 64 ->
  cpu_memory_rw_debug env m pc [b] w
  = Ok match vphys env m pc with
       | Some p => (0, [if w then b else m p], if w then store m p b else m)
       | None => (-1, [b], m)
       end.
Proof.
  intros Hpc. unfold cpu_memory_rw_debug, vphys. cbn [length rw_debug_loop].
  rewrite page_mask, page_offset_mask. fold (page_of pc).
  destruct (Z.eqb_spec (x86_cpu_get_phys_page_debug env m (page_of pc)) NO_PAGE) as [E|E]; [reflexivity|].
  destruct (walk_page env m (page_of pc)) as [W|[Wr _]]; [contradiction|].
  pose proof (Z.mod_pos_bound pc 4096 ltac:(lia)).
  rewrite chunk_ok, Nat.min_l by lia. rewrite u64_small by lia.
  destruct w; cbn [drop rw_debug_loop rbind fst snd take app write_bytes]; [reflexivity|].
  rewrite read_bytes_S. reflexivity.
Qed.

(** ** Software breakpoints as a map of use counts *)

(** The CPUs' debug settings are refreshed; their tables stay. *)
Lemma update_each_ok `{KL : KVMLaws} sw l : Forall bps_ok l ->
  exists err l', update_each sw l = Ok (err, l') /\ Forall bps_ok l' /\
    Forall2 (fun c c' => c' = set_kvm_debug (kvm_debug c') c) l l' /\
    (err = 0 -> Forall in_force l') /\ (accepts_all -> err = 0).
Proof.
  induction 1 as [|c l Hc Hl IH]; [exists 0, []; cbn; auto 6|].
  destruct (kvm_update_per_cpu sw c Hc) as (err & c' & E & O & _ & _ & D & F & A).
  cbn [update_each]. unfold kvm_update_guest_debug. rewrite E. cbn [rbind].
  destruct (Z.eqb_spec err 0) as [->|N]; cbn [negb].
  - destruct IH as (err' & l' & E' & O' & D' & F' & A'). rewrite E'. cbn [rbind].
    exists err', (c' :: l'). split; [reflexivity|]. split; [constructor; assumption|].
    split; [constructor; assumption|]. split; [|exact A'].
    intros Z0. constructor; [apply F; reflexivity | apply F', Z0].
  - exists err, (c' :: l). split; [reflexivity|]. split; [constructor; assumption|].
    split; [constructor; [exact D|]|].
    + clear. induction l as [|[] l IH]; constructor; [reflexivity | exact IH].
    + split; [intros ->; contradiction | intros Ac; specialize (A Ac); contradiction].
Qed.

Definition counts (l : list sw_bp) : gmap Z nat :=
  list_to_map ((fun b => (sw_pc b, Z.to_nat (use_count b))) <$> l).

Definition pcs (l : list sw_bp) : list Z := sw_pc <$> l.

Lemma counts_keys l : ((fun b => (sw_pc b, Z.to_nat (use_count b))) <$> l).*1 = pcs l.
Proof. unfold pcs. rewrite <- list_fmap_compose. reflexivity. Qed.

Lemma counts_perm l l' : NoDup (pcs l) -> l ≡ₚ l' -> counts l = counts l'.
Proof. intros N E. apply list_to_map_proper; [rewrite counts_keys; exact N | rewrite E; reflexivity]. Qed.

Lemma counts_cons b l : counts (b :: l) = <[sw_pc b := Z.to_nat (use_count b)]> (counts l).
Proof. reflexivity. Qed.

Lemma counts_None l pc : pc ∉ pcs l -> counts l !! pc = None.
Proof. intros N. apply not_elem_of_list_to_map_1. rewrite counts_keys. exact N. Qed.

Lemma delete_insert_same {A} (l : list A) i x : delete i (<[i := x]> l) = delete i l.
Proof. revert i. induction l as [|y l IH]; intros [|i]; cbn; f_equal; auto. Qed.

(** The cell found is the only one for its address. *)
Lemma find_sw_Some l pc i b : kvm_find_sw_breakpoint l pc = Some (i, b) ->
  sw_pc b = pc /\ l ≡ₚ b :: delete i l /\ forall b', <[i := b']> l ≡ₚ b' :: delete i l.
Proof.
  intros E. apply list_find_Some in E as (L & Hb & _). split; [exact Hb|].
  split; [apply delete_Permutation, L|]. intros b'.
  pose proof (lookup_lt_Some _ _ _ L) as Hi.
  rewrite (delete_Permutation (<[i := b']> l) i b') by (apply list_lookup_insert_eq, Hi).
  rewrite delete_insert_same. reflexivity.
Qed.

Lemma find_sw_None l pc : kvm_find_sw_breakpoint l pc = None -> pc ∉ pcs l.
Proof.
  intros E%list_find_None. unfold pcs. rewrite list_elem_of_fmap. intros (b & -> & Hb).
  rewrite Forall_forall in E. exact (E b Hb eq_refl).
Qed.

(** Insertion and removal on the map: a page that is not mapped cannot be patched. *)
Section spec.
Variable tr : Z -> option Z.

Definition spec_insert_sw (pc : Z) (d : gmap Z nat) : Z * gmap Z nat :=
  match d !! pc with
  | Some n => (0, <[pc := S n]> d)
  | None => match tr pc with Some _ => (0, <[pc := 1%nat]> d) | None => (- EINVAL, d) end
  end.

Definition spec_remove_sw (pc : Z) (d : gmap Z nat) : Z * gmap Z nat :=
  match d !! pc with
  | None => (- ENOENT, d)
  | Some n => (0, if (1 <? n)%nat then <[pc := (n - 1)%nat]> d else delete pc d)
  end.
End spec.

Section refinement.
Context `{KL : KVMLaws}.
(** The selected CPU's registers, the unpatched memory, and where it maps addresses. *)
Variables (env : paging) (m0 : mem) (tr : Z -> option Z).
(** The addresses the debugger uses, and the physical bytes they reach. *)
Variables (text : Z -> Prop) (code : Z -> Prop).

(** Patching these bytes does not change the translation of these addresses, and no
    two of them share a byte. *)
Record patchable : Prop := {
  pa_range : forall pc, text pc -> 0 <= pc < 2 ^ 64;
  pa_tr : forall m pc, (forall a, code a \/ m a = m0 a) -> text pc -> vphys env m pc = tr pc;
  pa_code : forall pc p, text pc -> tr pc = Some p -> code p;
  pa_inj : forall pc pc' p, text pc -> text pc' -> tr pc = Some p -> tr pc' = Some p -> pc = pc' }.

(** The list, the memory it has patched, and the map it stands for. *)
Record list_ok (l : list sw_bp) (m : mem) : Prop := {
  lo_nodup : NoDup (pcs l);
  lo_text : Forall text (pcs l);
  lo_count : Forall (fun b => 0 < use_count b) l;
  lo_saved : Forall (fun b => exists p, tr (sw_pc b) = Some p /\ saved_insn b = m0 p) l;
  lo_mem : forall a, m a = if decide (Exists (fun pc => tr pc = Some a) (pcs l)) then INT3 else m0 a }.

#[local] Instance list_ok_proper : Proper ((≡ₚ) ==> eq ==> impl) list_ok.
Proof.
  intros l l' E m ? <- [N T C S M]. assert (Ep : pcs l ≡ₚ pcs l') by (unfold pcs; rewrite E; reflexivity).
  split; [rewrite <- Ep; exact N | rewrite <- Ep; exact T | rewrite <- E; exact C | rewrite <- E; exact S |].
  intros a. rewrite M. apply decide_ext. rewrite Ep. reflexivity.
Qed.

Hypothesis P : patchable.

Lemma vphys_tr l m pc : list_ok l m -> text pc -> vphys env m pc = tr pc.
Proof.
  intros [_ T _ _ M] Ht. apply (pa_tr P); [|exact Ht]. intros a. rewrite M.
  destruct (decide _) as [E|E]; [left | right; reflexivity].
  apply Exists_exists in E as (pc' & Hpc & Htr). rewrite Forall_forall in T. apply (pa_code P pc'); auto.
Qed.

Lemma recount b l m n : list_ok (b :: l) m -> 0 < n -> list_ok (mk_sw (sw_pc b) (saved_insn b) n :: l) m.
Proof.
  intros [N T C S M] Hn. split; [exact N | exact T | | | exact M]; inversion C; inversion S; subst; constructor; assumption.
Qed.

Lemma patch l m pc p : list_ok l m -> text pc -> pc ∉ pcs l -> tr pc = Some p ->
  list_ok (mk_sw pc (m p) 1 :: l) (store m p INT3).
Proof.
  intros [N T C S M] Ht Hn Hp.
  assert (Hm : m p = m0 p).
  { rewrite M. destruct (decide _) as [E|E]; [|reflexivity]. apply Exists_exists in E as (pc' & Hpc & Htr).
    rewrite Forall_forall in T. rewrite (pa_inj P pc pc' p Ht (T _ Hpc) Hp Htr) in Hn. contradiction. }
  split; [constructor; assumption | constructor; assumption | constructor; [cbn; lia | assumption] |
          constructor; [exists p; auto | assumption] |].
  intros a. unfold store. rewrite M. destruct (Z.eqb_spec a p) as [->|Na].
  - rewrite decide_True by (constructor; exact Hp). reflexivity.
  - apply decide_ext. cbn [pcs fmap list_fmap sw_pc]. rewrite Exists_cons. intuition congruence.
Qed.

Lemma unpatch b l m p : list_ok (b :: l) m -> tr (sw_pc b) = Some p ->
  m p = INT3 /\ list_ok l (store m p (saved_insn b)).
Proof.
  intros [N T C S M] Hp. cbn [pcs fmap list_fmap] in *.
  inversion N as [|? ? Hn N']; subst. inversion T as [|? ? Ht T']; subst. inversion C; subst.
  inversion S as [|? ? (q & Hq & Hs) S']; subst. assert (q = p) as -> by congruence.
  split; [rewrite M, decide_True by (constructor; exact Hp); reflexivity|].
  split; try assumption. intros a. unfold store. rewrite M. destruct (Z.eqb_spec a p) as [->|Na].
  - rewrite decide_False; [exact Hs|]. intros (pc' & Hpc & Htr)%Exists_exists.
    rewrite Forall_forall in T'. rewrite (pa_inj P _ pc' p Ht (T' _ Hpc) Hp Htr) in Hn. contradiction.
  - apply decide_ext. rewrite Exists_cons. intuition congruence.
Qed.

(** The invariant of the whole state. *)
Record sw_inv (s : machine) : Prop := {
  si_list : list_ok (sw_breakpoints s) (guest_mem s);
  si_cpus : Forall bps_ok (cpus s) }.

Definition sw_counts (s : machine) : gmap Z nat := counts (sw_breakpoints s).

Lemma arch_insert_ok l m pc : list_ok l m -> text pc ->
  kvm_arch_insert_sw_breakpoint env m (mk_sw pc 0 1)
  = Ok match tr pc with
       | Some p => (0, mk_sw pc (m p) 1, store m p INT3)
       | None => (- EINVAL, mk_sw pc 0 1, m)
       end.
Proof.
  intros L Ht. unfold kvm_arch_insert_sw_breakpoint. cbn [sw_pc].
  rewrite rw_debug_one by exact (pa_range P pc Ht). rewrite (vphys_tr l m pc L Ht).
  destruct (tr pc) as [p|] eqn:Hp; [|reflexivity]. cbn [rbind fst snd sw_pc use_count Z.eqb negb].
  rewrite rw_debug_one by exact (pa_range P pc Ht). rewrite (vphys_tr l m pc L Ht), Hp. reflexivity.
Qed.

Lemma arch_remove_ok b l m p : list_ok (b :: l) m -> tr (sw_pc b) = Some p ->
  kvm_arch_remove_sw_breakpoint env m b = Ok (0, store m p (saved_insn b)).
Proof.
  intros L Hp. assert (Ht : text (sw_pc b)) by (destruct L as [_ T _ _ _]; inversion T; assumption).
  unfold kvm_arch_remove_sw_breakpoint.
  rewrite rw_debug_one by exact (pa_range P _ Ht). rewrite (vphys_tr _ m _ L Ht), Hp. cbn [rbind fst snd].
  rewrite (proj1 (unpatch b l m p L Hp)). change (default 0 ([INT3] !! 0%nat)) with INT3.
  rewrite Z.eqb_refl. cbn [Z.eqb negb orb].
  rewrite rw_debug_one by exact (pa_range P _ Ht). rewrite (vphys_tr _ m _ L Ht), Hp. reflexivity.
Qed.

Hypothesis Acc : accepts_all.

Lemma update_cpus_ok s : sw_inv s -> exists s', update_cpus s = Ok (0, s') /\ sw_inv s' /\ sw_counts s' = sw_counts s.
Proof.
  intros [L C]. destruct (update_each_ok (kvm_sw_breakpoints_active (sw_breakpoints s)) (cpus s) C)
    as (err & l' & E & O & _ & _ & A).
  unfold update_cpus. rewrite E, (A Acc). cbn [rbind]. eexists. split; [reflexivity|]. split; [split; assumption|reflexivity].
Qed.

Lemma counts_found l pc i b : NoDup (pcs l) -> kvm_find_sw_breakpoint l pc = Some (i, b) ->
  counts l = <[pc := Z.to_nat (use_count b)]> (counts (delete i l)) /\ pc ∉ pcs (delete i l).
Proof.
  intros N E. destruct (find_sw_Some l pc i b E) as (<- & Pl & _). split.
  - rewrite (counts_perm l _ N Pl). reflexivity.
  - assert (N' : NoDup (pcs (b :: delete i l))) by (unfold pcs in *; rewrite <- Pl; exact N). inversion N'; assumption.
Qed.

Lemma counts_lookup s pc i b : list_ok (sw_breakpoints s) (guest_mem s) ->
  kvm_find_sw_breakpoint (sw_breakpoints s) pc = Some (i, b) -> sw_counts s !! pc = Some (Z.to_nat (use_count b)).
Proof.
  intros L E. unfold sw_counts. rewrite (proj1 (counts_found _ pc i b (lo_nodup _ _ L) E)). apply lookup_insert_eq.
Qed.

(** An exchange of the count of a found cell. *)
Lemma recount_found s pc i b n : sw_inv s -> kvm_find_sw_breakpoint (sw_breakpoints s) pc = Some (i, b) -> 0 < n ->
  let s' := set_sw (<[i := mk_sw (sw_pc b) (saved_insn b) n]> (sw_breakpoints s)) s in
  sw_inv s' /\ sw_counts s' = <[pc := Z.to_nat n]> (sw_counts s).
Proof.
  intros [L C] E Hn s'. destruct (find_sw_Some _ _ _ _ E) as (Hpc & Pl & Pi).
  assert (L' : list_ok (b :: delete i (sw_breakpoints s)) (guest_mem s)) by (rewrite <- Pl; exact L).
  specialize (Pi (mk_sw (sw_pc b) (saved_insn b) n)).
  assert (Ls : list_ok (sw_breakpoints s') (guest_mem s')) by (cbn [s' sw_breakpoints set_sw guest_mem]; rewrite Pi; apply recount; assumption).
  split; [split; [exact Ls | exact C]|]. unfold sw_counts.
  rewrite (counts_perm _ _ (lo_nodup _ _ Ls) Pi), counts_cons. cbn [sw_pc use_count]. rewrite Hpc.
  rewrite (proj1 (counts_found _ pc i b (lo_nodup _ _ L) E)), insert_insert_eq. reflexivity.
Qed.

#[export] Instance insert_sw_refines pc len : text pc ->
  Refines sw_inv sw_counts (fun s => kvm_insert_breakpoint env s pc len GDB_BREAKPOINT_SW) (spec_insert_sw tr pc).
Proof.
  intros Ht s I. destruct (I) as [L C]. unfold kvm_insert_breakpoint. rewrite Z.eqb_refl. unfold spec_insert_sw.
  destruct (kvm_find_sw_breakpoint (sw_breakpoints s) pc) as [[i b]|] eqn:E.
  - assert (Hb : 0 < use_count b).
    { apply list_find_Some in E as (Lk & _). exact (Forall_lookup_1 _ _ _ _ (lo_count _ _ L) Lk). }
    rewrite (counts_lookup s pc i b L E).
    destruct (recount_found s pc i b (use_count b + 1) I E ltac:(lia)) as [I' A'].
    eexists. split; [reflexivity|]. split; [exact I'|]. rewrite A'. cbn [snd]. f_equal. lia.
  - pose proof (find_sw_None _ _ E) as Hn. assert (H0 : sw_counts s !! pc = None) by apply counts_None, Hn. rewrite H0.
    rewrite (arch_insert_ok _ _ _ L Ht). destruct (tr pc) as [p|] eqn:Hp; cbn [rbind fst snd Z.eqb negb].
    + apply (update_cpus_ok (set_sw (mk_sw pc (guest_mem s p) 1 :: sw_breakpoints s) (set_mem (store (guest_mem s) p INT3) s))).
      split; [apply patch; assumption | exact C].
    + eexists. split; [reflexivity|]. split; [split; assumption | reflexivity].
Qed.

#[export] Instance remove_sw_refines pc len : text pc ->
  Refines sw_inv sw_counts (fun s => kvm_remove_breakpoint env s pc len GDB_BREAKPOINT_SW) (spec_remove_sw pc).
Proof.
  intros Ht s I. destruct (I) as [L C]. unfold kvm_remove_breakpoint. rewrite Z.eqb_refl. unfold spec_remove_sw.
  destruct (kvm_find_sw_breakpoint (sw_breakpoints s) pc) as [[i b]|] eqn:E.
  2:{ assert (H0 : sw_counts s !! pc = None) by apply counts_None, find_sw_None, E. rewrite H0. eexists. split; [reflexivity|]. auto. }
  destruct (counts_found _ pc i b (lo_nodup _ _ L) E) as [Hc Hn].
  assert (Hb : 0 < use_count b).
  { apply list_find_Some in E as (Lk & _). exact (Forall_lookup_1 _ _ _ _ (lo_count _ _ L) Lk). }
  rewrite (counts_lookup s pc i b L E).
  destruct (Z.ltb_spec 1 (use_count b)) as [Hu|Hu].
  - rewrite (proj2 (Nat.ltb_lt _ _)) by lia.
    destruct (recount_found s pc i b (use_count b - 1) I E ltac:(lia)) as [I' A'].
    eexists. split; [reflexivity|]. split; [exact I'|]. rewrite A'. cbn [snd]. f_equal. lia.
  - rewrite (proj2 (Nat.ltb_ge _ _)) by lia. destruct (find_sw_Some _ _ _ _ E) as (Hpc & Pl & _).
    assert (L' : list_ok (b :: delete i (sw_breakpoints s)) (guest_mem s)) by (rewrite <- Pl; exact L).
    destruct (Forall_inv (lo_saved _ _ L')) as (p & Hp & _).
    rewrite (arch_remove_ok b _ _ p L' Hp). cbn [rbind fst snd Z.eqb negb].
    destruct (update_cpus_ok (set_sw (delete i (sw_breakpoints s)) (set_mem (store (guest_mem s) p (saved_insn b)) s)))
      as (s' & Eu & I' & A'); [split; [apply (unpatch b _ _ p L' Hp) | exact C]|].
    exists s'. split; [exact Eu|]. split; [exact I'|]. rewrite A'. unfold sw_counts. cbn [sw_breakpoints set_sw set_mem snd].
    rewrite Hc, delete_insert_id; [reflexivity | apply counts_None, Hn].
Qed.
End refinement.

(** *** Kernel text can be patched

    The hypotheses of the refinement hold for the text of a kernel that is not
    relocated, when its page tables lie outside the text. *)
Section kernel_text.
Variables (env : paging) (m0 : mem) (e4 e3 lo hi : Z).

Definition text_range (pc : Z) : Prop := KERNEL_MAP + lo <= pc < KERNEL_MAP + hi.
Definition code_range (p : Z) : Prop := lo <= p < hi.
Definition linear (pc : Z) : option Z := Some (pc - KERNEL_MAP).
Definition apart (a n : Z) : Prop := a + n <= lo \/ hi <= a.

Record tables_apart : Prop := {
  ta_bounds : 0 <= lo /\ hi <= 2 ^ 29;
  ta_e4 : apart (frame (cr3 env) 12) 4096;
  ta_e3 : apart (frame e4 12) 4096;
  ta_e2 : apart (frame e3 12) 4096 }.

Lemma le_apart m a : (forall x, code_range x \/ m x = m0 x) -> apart a 8 -> le m a 8 = le m0 a 8.
Proof.
  intros M A. assert (E : forall k, 0 <= k < 8 -> m (a + k) = m0 (a + k)).
  { intros k Hk. destruct (M (a + k)) as [R|E]; [|exact E]. unfold code_range, apart in *. lia. }
  cbn [le]. rewrite <- !Z.add_assoc. cbn [Z.add Pos.add Pos.succ].
  rewrite <- (Z.add_0_r a) at 1 9. rewrite !E by lia. reflexivity.
Qed.

Lemma kernel_patchable : long_mode env -> kernel_tables m0 (cr3 env) e4 e3 -> tables_apart ->
  patchable env m0 linear text_range code_range.
Proof.
  intros L [[T4 O4] (T3 & O3 & N3) T2] [[Lo Hi] A4 A3 A2].
  assert (Hr : forall pc, text_range pc -> KERNEL_MAP <= pc < KERNEL_MAP + 2 ^ 29) by (unfold text_range; lia).
  split.
  - intros pc Ht. specialize (Hr pc Ht). unfold KERNEL_MAP in Hr. lia.
  - intros m pc M Ht. apply (kernel_vphys env m e4 e3 pc L); [|exact (Hr pc Ht)].
    split; [rewrite (le_apart m _ M); [auto | unfold apart in *; lia] ..|].
    intros i Hi'. rewrite (le_apart m _ M) by (unfold apart in *; lia). apply T2, Hi'.
  - intros pc p Ht [= <-]. unfold text_range, code_range in *. lia.
  - intros pc pc' p _ _ [= <-] [= E]. lia.
Qed.
End kernel_text.

(** ** The global table of hardware breakpoints as a set *)

Definition bp_key (b : hw_bp) : Z * Z * Z := (bp_addr b, bp_len b, bp_type b).

Definition hw_keys (t : hw_globals) : list (Z * Z * Z) := bp_key <$> live (hw_breakpoint t) (nb_hw_breakpoint t).

Definition hw_set (t : hw_globals) : gset (Z * Z * Z) := list_to_set (hw_keys t).

Record table_ok (t : hw_globals) : Prop := {
  tk_length : length (hw_breakpoint t) = 4%nat;
  tk_nb : (nb_hw_breakpoint t <= 4)%nat;
  tk_nodup : NoDup (hw_keys t) }.

(** What the switch over the type makes of a request. *)
Definition spec_insert_hw (addr len type : Z) (d : gset (Z * Z * Z)) : Z * gset (Z * Z * Z) :=
  match hw_breakpoint_len addr len type with
  | inr err => (err, d)
  | inl len => spec_insert (addr, len, type) d
  end.

Definition spec_remove_hw (addr len type : Z) : gset (Z * Z * Z) -> Z * gset (Z * Z * Z) :=
  spec_remove (addr, if type =? GDB_BREAKPOINT_HW then 1 else len, type).

Lemma matches_key addr len type b : len <> -1 -> matches addr len type b = true <-> bp_key b = (addr, len, type).
Proof.
  intros Hl. unfold matches, bp_key. rewrite (proj2 (Z.eqb_neq len (-1)) Hl), orb_false_r, !andb_true_iff, !Z.eqb_eq.
  split; [intros [[-> ->] ->] | intros [= -> -> ->]]; auto.
Qed.

Lemma hw_set_size t : table_ok t -> size (hw_set t) = nb_hw_breakpoint t.
Proof.
  intros [L N D]. unfold hw_set. rewrite size_list_to_set by exact D.
  unfold hw_keys. rewrite length_fmap. apply size_live; assumption.
Qed.

(** A length that is not the wildcard -1. *)
Lemma find_hw_ok t addr len type : table_ok t -> 0 < len < 2 ^ 31 ->
  (exists n b, find_hw_breakpoint t addr len type = Ok (Some n) /\
     live (hw_breakpoint t) (nb_hw_breakpoint t) !! n = Some b /\ bp_key b = (addr, len, type))
  \/ (find_hw_breakpoint t addr len type = Ok None /\ (addr, len, type) ∉ hw_set t).
Proof.
  intros [L N D] Hl. unfold find_hw_breakpoint. rewrite s32_small by lia.
  rewrite find_loop_spec by (rewrite L; lia). rewrite drop_0.
  change (take (nb_hw_breakpoint t) (hw_breakpoint t)) with (live (hw_breakpoint t) (nb_hw_breakpoint t)).
  destruct (list_find _ _) as [[n b]|] eqn:E; [left | right].
  - apply list_find_Some in E as (E1 & E2 & _). exists n, b. split; [reflexivity|]. split; [exact E1|].
    apply matches_key in E2; [exact E2 | lia].
  - split; [reflexivity|]. apply list_find_None in E. unfold hw_set, hw_keys.
    rewrite elem_of_list_to_set, list_elem_of_fmap. intros (b & Eb & Hb). rewrite Forall_forall in E.
    apply (E b Hb), matches_key; [lia | symmetry; exact Eb].
Qed.

Lemma hw_len_cases addr len type l : hw_breakpoint_len addr len type = inl l -> 0 < l < 2 ^ 31.
Proof.
  unfold hw_breakpoint_len.
  destruct (type =? GDB_BREAKPOINT_HW); [intros [= <-]; lia|].
  destruct (_ || _); [|discriminate]. destruct (Z.eqb_spec len 1) as [->|_]; [intros [= <-]; lia|].
  destruct (_ || _) eqn:E; [|discriminate]. destruct (bits _ _); [discriminate|]. intros [= <-].
  repeat rewrite orb_true_iff, Z.eqb_eq in E. rewrite ?Z.eqb_eq in E. lia.
Qed.

Lemma key_in_set t n b k : live (hw_breakpoint t) (nb_hw_breakpoint t) !! n = Some b -> bp_key b = k -> k ∈ hw_set t.
Proof.
  intros L <-. unfold hw_set, hw_keys. rewrite elem_of_list_to_set, list_elem_of_fmap.
  eauto using list_elem_of_lookup_2.
Qed.

#[export] Instance insert_hw_refines addr len type :
  Refines table_ok hw_set (fun t => kvm_arch_insert_hw_breakpoint t addr len type) (spec_insert_hw addr len type).
Proof.
  intros t T. unfold kvm_arch_insert_hw_breakpoint, spec_insert_hw.
  destruct (hw_breakpoint_len addr len type) as [l|err] eqn:El; [|eauto].
  pose proof (hw_len_cases _ _ _ _ El) as Hl. unfold spec_insert. rewrite hw_set_size by exact T.
  destruct (Nat.eqb_spec (nb_hw_breakpoint t) 4) as [E|E]; [rewrite decide_True by exact E; eauto|].
  rewrite decide_False by exact E.
  destruct (find_hw_ok t addr l type T Hl) as [(n & b & F & Lk & K)|[F N]]; rewrite F; cbn [rbind].
  { rewrite decide_True; [eauto | eapply key_in_set; eassumption]. }
  rewrite decide_False by exact N. destruct T as [L Nb D]. rewrite s32_small by lia.
  destruct (live_add (hw_breakpoint t) (nb_hw_breakpoint t) (mk_bp addr l type) ltac:(lia)) as [-> Lv].
  cbn [rbind fst snd]. eexists. split; [reflexivity|].
  assert (K : hw_keys (mk_hwg (<[nb_hw_breakpoint t := mk_bp addr l type]> (hw_breakpoint t)) (S (nb_hw_breakpoint t)))
              = hw_keys t ++ [(addr, l, type)]).
  { unfold hw_keys. cbn [hw_breakpoint nb_hw_breakpoint]. rewrite Lv, fmap_app. reflexivity. }
  split; [split; [cbn; rewrite length_insert; exact L | cbn; lia |] |].
  - rewrite K. apply NoDup_app. split; [exact D|]. split; [|apply NoDup_singleton].
    intros x Hx ->%list_elem_of_singleton. apply N. unfold hw_set. rewrite elem_of_list_to_set. exact Hx.
  - unfold hw_set at 1. rewrite K, list_to_set_app_L. unfold hw_set. set_solver.
Qed.

#[export] Instance remove_hw_refines addr len type : type = GDB_BREAKPOINT_HW \/ 0 < len < 2 ^ 31 ->
  Refines table_ok hw_set (fun t => kvm_arch_remove_hw_breakpoint t addr len type) (spec_remove_hw addr len type).
Proof.
  intros Hlen t T. unfold kvm_arch_remove_hw_breakpoint, spec_remove_hw, spec_remove.
  set (l := if type =? GDB_BREAKPOINT_HW then 1 else len).
  assert (Hl : 0 < l < 2 ^ 31) by (unfold l; destruct (Z.eqb_spec type GDB_BREAKPOINT_HW); [lia | tauto]).
  destruct (find_hw_ok t addr l type T Hl) as [(n & b & F & Lk & K)|[F N]]; rewrite F; cbn [rbind].
  2:{ rewrite decide_False by exact N. eauto. }
  rewrite decide_True by (eapply key_in_set; eassumption). destruct T as [L Nb D].
  destruct (live_del (hw_breakpoint t) (nb_hw_breakpoint t) n b ltac:(lia) Lk) as (sl & k & -> & Ek & Hs & P).
  cbn [rbind fst snd]. eexists. split; [reflexivity|].
  assert (Q : (addr, l, type) :: hw_keys (mk_hwg sl k) ≡ₚ hw_keys t)
    by (unfold hw_keys; rewrite <- P; cbn [fmap list_fmap]; rewrite K; reflexivity).
  assert (ND : NoDup ((addr, l, type) :: hw_keys (mk_hwg sl k))) by (rewrite Q; exact D).
  apply NoDup_cons in ND as [Na Nd].
  split; [split; [cbn; congruence | cbn; lia | exact Nd]|].
  unfold hw_set. rewrite <- Q. cbn [list_to_set]. set_solver.
Qed.

(** ** Properties *)

Inductive sw_op := SwInsert (pc : Z) | SwRemove (pc : Z).

Definition op_pc (o : sw_op) : Z := match o with SwInsert pc | SwRemove pc => pc end.

Definition sw_impl `{KVM} (env : paging) (len : Z) (o : sw_op) (s : machine) : res (Z * machine) :=
  match o with
  | SwInsert pc => kvm_insert_breakpoint env s pc len GDB_BREAKPOINT_SW
  | SwRemove pc => kvm_remove_breakpoint env s pc len GDB_BREAKPOINT_SW
  end.

Definition sw_spec (tr : Z -> option Z) (o : sw_op) : gmap Z nat -> Z * gmap Z nat :=
  match o with SwInsert pc => spec_insert_sw tr pc | SwRemove pc => spec_remove_sw pc end.

Lemma counts_dom l : dom (counts l) = list_to_set (pcs l).
Proof. unfold counts. rewrite dom_list_to_map_L, counts_keys. reflexivity. Qed.

(** C8: the software breakpoints of a debugger are a map from addresses to use
    counts, on a kernel that accepts every KVM_SET_GUEST_DEBUG and for addresses in patchable
    text: patching it does not change the translation of these addresses, and no two of them
    are mapped to one physical byte.  Then over any sequence of insertions and removals, every
    return code is the one of the map, the list of cells is the map's, and guest
    memory is the original one with 0xcc exactly at the addresses of the map, so the
    last removal of a breakpoint brings its instruction byte back. *)
Theorem sw_breakpoints_refine `{KVMLaws} env m0 tr text code len ops t cs :
  accepts_all -> patchable env m0 tr text code -> Forall (fun o => text (op_pc o)) ops -> Forall bps_ok cs ->
  exists s, run_ops (sw_impl env len <$> ops) (mk_machine [] m0 t cs)
              = Ok ((run_spec (sw_spec tr <$> ops) ∅).1, s) /\
    let d := (run_spec (sw_spec tr <$> ops) ∅).2 in
    sw_counts s = d /\ Forall bps_ok (cpus s) /\
    forall a, ((exists pc, pc ∈ dom d /\ tr pc = Some a) -> guest_mem s a = INT3) /\
              (~ (exists pc, pc ∈ dom d /\ tr pc = Some a) -> guest_mem s a = m0 a).
Proof.
  intros Acc P Ht Hc.
  destruct (run_refines (sw_inv m0 tr text) sw_counts (sw_impl env len <$> ops) (sw_spec tr <$> ops))
    with (c := mk_machine [] m0 t cs) as (s & E & [L C] & A).
  { apply Forall2_fmap, Forall_Forall2_diag. eapply Forall_impl; [exact Ht|]. intros [pc|pc] Hp; cbn.
    - apply (insert_sw_refines env m0 tr text code P Acc), Hp.
    - apply (remove_sw_refines env m0 tr text code P Acc), Hp. }
  { split; [split; cbn; constructor | exact Hc]. }
  change (sw_counts (mk_machine [] m0 t cs)) with (∅ : gmap Z nat) in *.
  exists s. split; [exact E|]. cbv zeta. split; [exact A|]. split; [exact C|]. intros a.
  rewrite (lo_mem _ _ _ _ _ L a), <- A. unfold sw_counts.
  assert (X : Exists (fun pc => tr pc = Some a) (pcs (sw_breakpoints s)) <->
              exists pc, pc ∈ dom (counts (sw_breakpoints s)) /\ tr pc = Some a).
  { rewrite Exists_exists, counts_dom. setoid_rewrite elem_of_list_to_set. reflexivity. }
  split; intros Y; [rewrite decide_True by (apply X, Y) | rewrite decide_False by (rewrite X; exact Y)]; reflexivity.
Qed.

Lemma kernel_mem_apart : tables_apart kernel_env 0x2063 0x3063 0x1000000 0x2000000.
Proof. split; [lia | left; vm_compute; congruence ..]. Qed.

(** Two users of one breakpoint, one of another; a removal too many. *)
Definition sample_ops : list sw_op :=
  [SwInsert 0xffffffff81001234; SwInsert 0xffffffff81001300; SwInsert 0xffffffff81001234;
   SwRemove 0xffffffff81001234; SwRemove 0xffffffff81001300; SwRemove 0xffffffff81001300].

Lemma sw_breakpoints_refine_witness :
  exists s, run_ops (@sw_impl kvm_accepts kernel_env 1 <$> sample_ops)
              (mk_machine [] kernel_mem (mk_hwg [] 0) [cpu_zero])
              = Ok ([0; 0; 0; 0; 0; - ENOENT], s) /\
    sw_counts s = {[0xffffffff81001234 := 1%nat]} /\ guest_mem s 0x1001234 = INT3 /\ guest_mem s 0x1001300 = 0.
Proof.
  destruct (@sw_breakpoints_refine kvm_accepts kvm_accepts_laws kernel_env kernel_mem linear
    (text_range 0x1000000 0x2000000) (code_range 0x1000000 0x2000000) 1 sample_ops (mk_hwg [] 0) [cpu_zero])
    as (s & E & D & _ & M).
  - intros old new. reflexivity.
  - apply (kernel_patchable _ _ 0x2063 0x3063 _ _ kernel_env_long kernel_mem_tables kernel_mem_apart).
  - repeat constructor; vm_compute; congruence.
  - constructor; [apply cpu_zero_ok | constructor].
  - assert (R : (run_spec (sw_spec linear <$> sample_ops) ∅).2 = {[0xffffffff81001234 := 1%nat]})
      by (apply (bool_decide_eq_true_1 _); vm_compute; reflexivity).
    rewrite R in D, M. exists s. split; [rewrite E; f_equal; f_equal; vm_compute; reflexivity|].
    split; [exact D|]. rewrite dom_singleton_L in M. split.
    + apply M. exists 0xffffffff81001234. split; [apply elem_of_singleton; reflexivity | reflexivity].
    + transitivity (kernel_mem 0x1001300); [|vm_compute; reflexivity].
      apply M. intros (pc & ->%elem_of_singleton & [=]).
Defined.

(** *** Hardware breakpoints of the debugger *)

Inductive hw_op := HwInsert (addr len type : Z) | HwRemove (addr len type : Z).

(** Not a software breakpoint; a removal does not use the wildcard length -1. *)
Definition hw_op_ok (o : hw_op) : Prop :=
  match o with
  | HwInsert _ _ type => type <> GDB_BREAKPOINT_SW
  | HwRemove _ len type => type = GDB_BREAKPOINT_HW \/ type <> GDB_BREAKPOINT_SW /\ 0 < len < 2 ^ 31
  end.

Definition hw_impl `{KVM} (env : paging) (o : hw_op) (s : machine) : res (Z * machine) :=
  match o with
  | HwInsert addr len type => kvm_insert_breakpoint env s addr len type
  | HwRemove addr len type => kvm_remove_breakpoint env s addr len type
  end.

Definition hw_spec (o : hw_op) : gset (Z * Z * Z) -> Z * gset (Z * Z * Z) :=
  match o with
  | HwInsert addr len type => spec_insert_hw addr len type
  | HwRemove addr len type => spec_remove_hw addr len type
  end.

Section global_table.
Context `{KL : KVMLaws}.
Variables (env : paging) (m0 : mem) (sw0 : list sw_bp) (cs0 : list CPUState).
Hypothesis Acc : accepts_all.

(** The table is sound and the rest is as at the start, but for debug settings that
    agree with the per-CPU tables. *)
Record hw_inv (s : machine) : Prop := {
  hi_table : table_ok (hw_table s);
  hi_sw : sw_breakpoints s = sw0;
  hi_mem : guest_mem s = m0;
  hi_ok : Forall bps_ok (cpus s);
  hi_cpus : Forall2 (fun c c' => c' = set_kvm_debug (kvm_debug c') c /\ in_force c') cs0 (cpus s) }.

Lemma update_cpus_hw s t : hw_inv s -> table_ok t ->
  exists s', update_cpus (set_table t s) = Ok (0, s') /\ hw_inv s' /\ hw_set (hw_table s') = hw_set t.
Proof.
  intros [T S M O C] Ht.
  destruct (update_each_ok (kvm_sw_breakpoints_active (sw_breakpoints s)) (cpus s) O) as (err & l' & E & O' & D & F & A).
  unfold update_cpus, set_table. cbn [sw_breakpoints cpus guest_mem hw_table]. rewrite E, (A Acc). cbn [rbind].
  eexists. split; [reflexivity|]. split; [|reflexivity]. split; cbn; try assumption.
  specialize (F (A Acc)). clear -C D F. revert l' D F. induction C as [|c c1 cs l [E _] C IH]; intros l' D F.
  - inversion D. constructor.
  - inversion D as [|? c2 ? l2 E2 D2]; subst. inversion F as [|? ? F1 F2]; subst.
    constructor; [split; [|exact F1] | apply IH; assumption].
    rewrite E2, E. destruct c; reflexivity.
Qed.

(** Both operations: the table's operation, then the update of every CPU. *)
Lemma table_op_refines (op : hw_globals -> res (Z * hw_globals)) spec :
  Refines table_ok hw_set op spec ->
  Refines hw_inv (fun s => hw_set (hw_table s))
    (fun s => let? (err, t) := op (hw_table s) in
              if negb (err =? 0) then Ok (err, set_table t s) else update_cpus (set_table t s))%rz spec.
Proof.
  intros R s I. destruct (R (hw_table s) (hi_table s I)) as (t & E & T & At). rewrite E. cbn [rbind].
  destruct (Z.eqb_spec (spec (hw_set (hw_table s))).1 0) as [->|N]; cbn [negb].
  - destruct (update_cpus_hw s t I T) as (s' & Eu & I' & A'). exists s'. rewrite A'. auto.
  - exists (set_table t s). split; [reflexivity|]. split; [destruct I; split; assumption | exact At].
Qed.

#[export] Instance hw_op_refines o : hw_op_ok o ->
  Refines hw_inv (fun s => hw_set (hw_table s)) (hw_impl env o) (hw_spec o).
Proof.
  destruct o as [a len ty|a len ty]; cbn [hw_op_ok hw_spec]; intros Ho;
    cbv beta iota delta [hw_impl kvm_insert_breakpoint kvm_remove_breakpoint].
  - rewrite (proj2 (Z.eqb_neq ty GDB_BREAKPOINT_SW)) by exact Ho.
    exact (table_op_refines _ _ (insert_hw_refines a len ty)).
  - rewrite (proj2 (Z.eqb_neq ty GDB_BREAKPOINT_SW)) by (destruct Ho as [->|[Ho _]]; [discriminate | exact Ho]).
    refine (table_op_refines _ _ (remove_hw_refines a len ty _)). tauto.
Qed.
End global_table.

(** The hardware breakpoints a debugger sets are kept, and never armed.  Over any
    sequence of insertions and removals the global table is a set of at most four
    (address, length, type) triples with the return codes of that set; but the debug
    settings each CPU runs with list its own per-CPU breakpoints and nothing else,
    and software breakpoints and guest memory stay as they were. *)
Theorem gdb_hw_breakpoints_unarmed `{KVMLaws} env ops s :
  accepts_all -> Forall hw_op_ok ops -> table_ok (hw_table s) -> Forall bps_ok (cpus s) -> Forall in_force (cpus s) ->
  exists s', run_ops (hw_impl env <$> ops) s = Ok ((run_spec (hw_spec <$> ops) (hw_set (hw_table s))).1, s') /\
    hw_set (hw_table s') = (run_spec (hw_spec <$> ops) (hw_set (hw_table s))).2 /\
    Forall2 (fun c c' => armed (kvm_debug c') = Some (bp_addrs c)) (cpus s) (cpus s') /\
    sw_breakpoints s' = sw_breakpoints s /\ guest_mem s' = guest_mem s.
Proof.
  intros Acc Ho T O F.
  destruct (run_refines (hw_inv (guest_mem s) (sw_breakpoints s) (cpus s)) (fun s => hw_set (hw_table s))
              (hw_impl env <$> ops) (hw_spec <$> ops)) with (c := s) as (s' & E & I & A).
  - apply Forall2_fmap, Forall_Forall2_diag. eapply Forall_impl; [exact Ho|]. intros o Hp.
    apply hw_op_refines; assumption.
  - split; try assumption; [reflexivity ..|]. apply Forall_Forall2_diag.
    eapply Forall_impl; [exact F|]. intros []; split; [reflexivity | assumption].
  - destruct I as [_ S M _ C]. exists s'. split; [exact E|]. split; [exact A|]. split; [|auto].
    eapply Forall2_impl; [exact C|]. intros c c' [Ec Hf]. unfold in_force in Hf. rewrite Hf, Ec. reflexivity.
Qed.

(** A watchpoint, a misaligned one, the same again, and its removal. *)
Definition sample_hw_ops : list hw_op :=
  [HwInsert 0x1000 4 GDB_WATCHPOINT_WRITE; HwInsert 0x1001 4 GDB_WATCHPOINT_WRITE;
   HwInsert 0x1000 4 GDB_WATCHPOINT_WRITE; HwInsert 0x2000 7 GDB_BREAKPOINT_HW;
   HwRemove 0x1000 4 GDB_WATCHPOINT_WRITE].

Definition gdb_machine : machine :=
  mk_machine [] kernel_mem (mk_hwg (replicate 4 (mk_bp 0 0 0)) 0) [cpu_zero; cpu_zero].

Lemma gdb_hw_breakpoints_unarmed_witness :
  exists s', run_ops (@hw_impl kvm_accepts kernel_env <$> sample_hw_ops) gdb_machine
             = Ok ([0; - EINVAL; - EEXIST; 0; 0], s') /\
    hw_set (hw_table s') = {[ (0x2000, 1, GDB_BREAKPOINT_HW) ]} /\
    Forall2 (fun c c' => armed (kvm_debug c') = Some []) (cpus gdb_machine) (cpus s').
Proof.
  destruct (@gdb_hw_breakpoints_unarmed kvm_accepts kvm_accepts_laws kernel_env sample_hw_ops gdb_machine)
    as (s' & E & A & C & _).
  - intros old new. reflexivity.
  - repeat (apply Forall_cons; split; [try (cbn; discriminate)|]); [|apply Forall_nil; exact I].
    right. split; [discriminate | lia].
  - split; [reflexivity | cbn; lia | constructor].
  - repeat (constructor; [apply cpu_zero_ok|]). constructor.
  - repeat (constructor; [reflexivity|]). constructor.
  - exists s'. split; [rewrite E; f_equal; f_equal; vm_compute; reflexivity|].
    split; [rewrite A; apply (bool_decide_eq_true_1 _); vm_compute; reflexivity|].
    change (Forall2 (fun c c' => armed (kvm_debug c') = Some (bp_addrs c)) [cpu_zero; cpu_zero] (cpus s')) in C.
    cbn [cpus gdb_machine]. inversion C as [|? ? ? ? C1 C2]; subst. inversion C2 as [|? ? ? ? C3 C4]; subst.
    inversion C4. repeat constructor; assumption.
Defined.

(** Removing all breakpoints does not remove the software breakpoints: the
    patched bytes stay in guest memory and the cells stay in the list, and a later
    removal of one of them still succeeds. *)
Theorem remove_all_keeps_sw `{KVMLaws} env m0 tr text code s k pc len :
  accepts_all -> patchable env m0 tr text code -> sw_inv m0 tr text s -> (k < length (cpus s))%nat ->
  text pc -> pc ∈ dom (sw_counts s) ->
  exists s1, kvm_remove_all_breakpoints s k = Ok s1 /\ hw_set (hw_table s1) = ∅ /\
    sw_breakpoints s1 = sw_breakpoints s /\ guest_mem s1 = guest_mem s /\
    (forall p, tr pc = Some p -> guest_mem s1 p = INT3) /\
    exists s2, kvm_remove_breakpoint env s1 pc len GDB_BREAKPOINT_SW = Ok (0, s2).
Proof.
  intros Acc P [L C] Hk Ht Hd. destruct (lookup_lt_is_Some_2 _ _ Hk) as [c Ec].
  destruct (kvm_update_per_cpu (kvm_sw_breakpoints_active (sw_breakpoints s)) c (Forall_lookup_1 _ _ _ _ C Ec))
    as (err & c' & E & O & _).
  unfold kvm_remove_all_breakpoints. rewrite Ec. unfold kvm_update_guest_debug. cbn [sw_breakpoints set_table].
  rewrite E. cbn [rbind]. eexists. split; [reflexivity|]. split; [reflexivity|]. split; [reflexivity|].
  split; [reflexivity|]. split.
  - intros p Hp. cbn [guest_mem set_table]. rewrite (lo_mem _ _ _ _ _ L p), decide_True; [reflexivity|].
    apply Exists_exists. exists pc. split; [|exact Hp]. unfold sw_counts in Hd. rewrite counts_dom in Hd.
    apply elem_of_list_to_set in Hd. exact Hd.
  - match goal with |- context [kvm_remove_breakpoint env ?s0] =>
      destruct (remove_sw_refines env m0 tr text code P Acc pc len Ht s0) as (s2 & E2 & _) end.
    { split; [exact L | apply Forall_insert; assumption]. }
    exists s2. rewrite E2. f_equal. f_equal. unfold spec_remove_sw.
    change (sw_counts s) with (counts (sw_breakpoints s)) in Hd. apply elem_of_dom in Hd as [n Hn].
    unfold sw_counts. cbn [sw_breakpoints set_table]. rewrite Hn. reflexivity.
Qed.

Definition one_sw_machine : machine :=
  mk_machine [mk_sw 0xffffffff81001234 0 1] (store kernel_mem 0x1001234 INT3) (mk_hwg [] 0) [cpu_zero].

Lemma remove_all_keeps_sw_witness :
  exists s1, @kvm_remove_all_breakpoints kvm_accepts one_sw_machine 0 = Ok s1 /\ guest_mem s1 0x1001234 = INT3.
Proof.
  destruct (@remove_all_keeps_sw kvm_accepts kvm_accepts_laws kernel_env kernel_mem linear
    (text_range 0x1000000 0x2000000) (code_range 0x1000000 0x2000000) one_sw_machine 0 0xffffffff81001234 1)
    as (s1 & E & _ & _ & _ & M & _).
  - intros old new. reflexivity.
  - apply (kernel_patchable _ _ 0x2063 0x3063 _ _ kernel_env_long kernel_mem_tables kernel_mem_apart).
  - split; [|constructor; [apply cpu_zero_ok | constructor]].
    split; [apply NoDup_singleton | constructor; [vm_compute; split; congruence | constructor] |
            constructor; [reflexivity | constructor] |
            constructor; [exists 0x1001234; split; reflexivity | constructor] |].
    intros a. cbn [guest_mem one_sw_machine sw_breakpoints pcs fmap list_fmap sw_pc]. unfold store.
    destruct (Z.eqb_spec a 0x1001234) as [->|N].
    + rewrite decide_True; [reflexivity | constructor; reflexivity].
    + rewrite decide_False; [reflexivity|]. inversion 1 as [? ? [= Ea]|? ? Ex]; [unfold KERNEL_MAP in Ea; lia | inversion Ex].
  - cbn. lia.
  - vm_compute. split; congruence.
  - vm_compute. reflexivity.
  - exists s1. split; [exact E|]. apply M. reflexivity.
Defined.
