(* ===== verification/RegState.v ===== *)
(** * Registers and pending events between QEMU and the kernel (target-i386/kvm.c)

    The structures of the ioctls for general, segment, control and debug registers and for
    pending events, filled from QEMU's copy of the register file and read back into it.

    [x86_env] has the fields of CPUX86State (target-i386/cpu.h) these functions use;
    exception_injected and has_error_code are in [CPUState].  Arrays are lists of their
    length ([env_ok]).  The padding fields of the structures are left out. *)

From Stdlib Require Import ZArith Lia Bool.
From stdpp Require Import base list.
From S2P Require Import Prelude MemOperand MsrSync ByteLayout XSave Apic CpuState.

Open Scope Z_scope.
Open Scope rz.

(** ** Segments *)

Record SegmentCache := mk_seg { selector : Z; base : Z; limit : Z; flags : Z }.

Record kvm_segment := mk_kseg {
  k_base : Z; k_limit : Z; k_selector : Z; k_type : Z; k_present : Z; k_dpl : Z; k_db : Z; k_s : Z;
  k_l : Z; k_g : Z; k_avl : Z; k_unusable : Z }.

Definition DESC_G_MASK : Z := Z.shiftl 1 23.
Definition DESC_B_SHIFT : Z := 22.
Definition DESC_B_MASK : Z := Z.shiftl 1 22.
Definition DESC_L_SHIFT : Z := 21.
Definition DESC_L_MASK : Z := Z.shiftl 1 21.
Definition DESC_AVL_MASK : Z := Z.shiftl 1 20.
Definition DESC_P_MASK : Z := Z.shiftl 1 15.
Definition DESC_DPL_SHIFT : Z := 13.
Definition DESC_S_MASK : Z := Z.shiftl 1 12.
Definition DESC_TYPE_SHIFT : Z := 8.

Definition u16 (z : Z) : Z := z mod 2 ^ 16.

(** [!= 0] as a number *)
Definition nonzero (z : Z) : Z := if z =? 0 then 0 else 1.

Definition set_v8086_seg (rhs : SegmentCache) : kvm_segment :=
  mk_kseg (base rhs) (limit rhs) (u16 (selector rhs)) 3 1 3 0 1 0 0 0 0.

Definition set_seg (rhs : SegmentCache) : kvm_segment :=
  let flags := flags rhs in
  mk_kseg (base rhs) (limit rhs) (u16 (selector rhs))
    (Z.land (Z.shiftr flags DESC_TYPE_SHIFT) 15)
    (nonzero (Z.land flags DESC_P_MASK))
    (Z.land (Z.shiftr flags DESC_DPL_SHIFT) 3)
    (Z.land (Z.shiftr flags DESC_B_SHIFT) 1)
    (nonzero (Z.land flags DESC_S_MASK))
    (Z.land (Z.shiftr flags DESC_L_SHIFT) 1)
    (nonzero (Z.land flags DESC_G_MASK))
    (nonzero (Z.land flags DESC_AVL_MASK)) 0.

Definition get_seg (rhs : kvm_segment) : SegmentCache :=
  mk_seg (k_selector rhs) (k_base rhs) (k_limit rhs)
    (u32 (Z.lor (Z.lor (Z.lor (Z.lor (Z.lor (Z.lor (Z.lor
      (Z.shiftl (k_type rhs) DESC_TYPE_SHIFT)
      (k_present rhs * DESC_P_MASK))
      (Z.shiftl (k_dpl rhs) DESC_DPL_SHIFT))
      (Z.shiftl (k_db rhs) DESC_B_SHIFT))
      (k_s rhs * DESC_S_MASK))
      (Z.shiftl (k_l rhs) DESC_L_SHIFT))
      (k_g rhs * DESC_G_MASK))
      (k_avl rhs * DESC_AVL_MASK))).

(** ** The register file *)

Definition R_EAX : nat := 0.
Definition R_ECX : nat := 1.
Definition R_EDX : nat := 2.
Definition R_EBX : nat := 3.
Definition R_ESP : nat := 4.
Definition R_EBP : nat := 5.
Definition R_ESI : nat := 6.
Definition R_EDI : nat := 7.
Definition R_ES : nat := 0.
Definition R_CS : nat := 1.
Definition R_SS : nat := 2.
Definition R_DS : nat := 3.
Definition R_FS : nat := 4.
Definition R_GS : nat := 5.

Record x86_env := mk_env {
  env_regs : list Z; eip : Z; eflags : Z; hflags : Z; hflags2 : Z;
  segs : list SegmentCache; ldt : SegmentCache; tr : SegmentCache; gdt : SegmentCache; idt : SegmentCache;
  cr : list Z; efer : Z; dr : list Z; xcr0 : Z; mp_state : Z;
  error_code : Z; interrupt_injected : Z; soft_interrupt : Z; nmi_injected : Z; nmi_pending : Z; sipi_vector : Z }.

Definition zero_seg : SegmentCache := mk_seg 0 0 0 0.

(** [env->regs[i]], [env->segs[i]], [env->cr[i]], [env->dr[i]] *)
Definition reg (e : x86_env) (i : nat) : Z := nth i (env_regs e) 0.
Definition seg (e : x86_env) (i : nat) : SegmentCache := nth i (segs e) zero_seg.
Definition CR (e : x86_env) (i : nat) : Z := nth i (cr e) 0.
Definition DR (e : x86_env) (i : nat) : Z := nth i (dr e) 0.

(** *** General registers *)

Definition kvm_put_regs (e : x86_env) : kvm_regs :=
  mk_kvm_regs (reg e R_EAX) (reg e R_EBX) (reg e R_ECX) (reg e R_EDX)
    (reg e R_ESI) (reg e R_EDI) (reg e R_ESP) (reg e R_EBP)
    (reg e 8) (reg e 9) (reg e 10) (reg e 11) (reg e 12) (reg e 13) (reg e 14) (reg e 15)
    (eip e) (eflags e).

Definition set_regs_env (r : kvm_regs) (e : x86_env) : x86_env :=
  mk_env [rax r; rcx r; rdx r; rbx r; rsp r; rbp r; rsi r; rdi r;
          r8 r; r9 r; r10 r; r11 r; r12 r; r13 r; r14 r; r15 r] (rip r) (rflags r) (hflags e) (hflags2 e)
    (segs e) (ldt e) (tr e) (gdt e) (idt e) (cr e) (efer e) (dr e) (xcr0 e) (mp_state e)
    (error_code e) (interrupt_injected e) (soft_interrupt e) (nmi_injected e) (nmi_pending e) (sipi_vector e).

(** [kvm_getput_regs (cpu, 0)] on the answer to KVM_GET_REGS *)
Definition kvm_get_regs (answer : Z * kvm_regs) (e : x86_env) : Z * x86_env :=
  let '(ret, r) := answer in
  if ret <? 0 then (ret, e) else (ret, set_regs_env r e).

(** *** Segment and control registers *)

Record kvm_sregs := mk_sregs {
  s_cs : kvm_segment; s_ds : kvm_segment; s_es : kvm_segment; s_fs : kvm_segment; s_gs : kvm_segment;
  s_ss : kvm_segment; s_tr : kvm_segment; s_ldt : kvm_segment;
  s_gdt : Z * Z; s_idt : Z * Z; (* limit, base *)
  s_cr0 : Z; s_cr2 : Z; s_cr3 : Z; s_cr4 : Z; s_cr8 : Z; s_efer : Z; s_apic_base : Z; interrupt_bitmap : list Z }.

Definition VM_MASK : Z := 0x20000.
Definition IF_MASK : Z := 0x200.

(** [sregs.interrupt_bitmap[n / 64] |= (uint64_t)1 << (n % 64)] on the zeroed bitmap *)
Definition put_bitmap (n : Z) : res (list Z) :=
  if 0 <=? n then
    if n <? 256
    then Ok (<[Z.to_nat (n / 64) := Z.lor 0 (Z.shiftl 1 (n mod 64))]> (replicate 4 0))
    else Err OutOfBounds
  else Ok (replicate 4 0).

Definition kvm_put_sregs (e : x86_env) (apic : option APICCommonState) : res kvm_sregs :=
  let? bitmap := put_bitmap (interrupt_injected e) in
  let conv := if bits (eflags e) VM_MASK then set_v8086_seg else set_seg in
  Ok (mk_sregs (conv (seg e R_CS)) (conv (seg e R_DS)) (conv (seg e R_ES)) (conv (seg e R_FS)) (conv (seg e R_GS))
        (conv (seg e R_SS)) (set_seg (tr e)) (set_seg (ldt e))
        (u16 (limit (gdt e)), base (gdt e)) (u16 (limit (idt e)), base (idt e))
        (CR e 0) (CR e 2) (CR e 3) (CR e 4) (cpu_get_apic_tpr apic) (efer e) (cpu_get_apic_base apic) bitmap).

(** [ctz64] of a non-zero number *)
Fixpoint ctz (fuel : nat) (v : Z) : Z :=
  match fuel with
  | O => 0
  | S fuel => if Z.odd v then 0 else 1 + ctz fuel (Z.shiftr v 1)
  end.

(** The first word of the bitmap that is not zero. *)
Fixpoint find_interrupt (i : Z) (bitmap : list Z) : Z :=
  match bitmap with
  | [] => -1
  | w :: bitmap => if w =? 0 then find_interrupt (i + 1) bitmap else i * 64 + ctz 64 w
  end.

Definition HF_CPL_MASK : Z := 3.
Definition HF_CS32_SHIFT : Z := 4.
Definition HF_CS32_MASK : Z := Z.shiftl 1 4.
Definition HF_SS32_SHIFT : Z := 5.
Definition HF_SS32_MASK : Z := Z.shiftl 1 5.
Definition HF_ADDSEG_SHIFT : Z := 6.
Definition HF_ADDSEG_MASK : Z := Z.shiftl 1 6.
Definition HF_PE_SHIFT : Z := 7.
Definition HF_PE_MASK : Z := Z.shiftl 1 7.
Definition HF_TF_MASK : Z := Z.shiftl 1 8.
Definition HF_MP_SHIFT : Z := 9.
Definition HF_MP_MASK : Z := Z.shiftl 1 9.
Definition HF_EM_MASK : Z := Z.shiftl 1 10.
Definition HF_TS_MASK : Z := Z.shiftl 1 11.
Definition HF_IOPL_MASK : Z := Z.shiftl 3 12.
Definition HF_LMA_MASK : Z := Z.shiftl 1 14.
Definition HF_CS64_MASK : Z := Z.shiftl 1 15.
Definition HF_VM_MASK : Z := Z.shiftl 1 17.
Definition HF_SMM_MASK : Z := Z.shiftl 1 19.
Definition HF_OSFXSR_SHIFT : Z := 22.
Definition HF_OSFXSR_MASK : Z := Z.shiftl 1 22.
Definition HF2_NMI_MASK : Z := Z.shiftl 1 2.
Definition HF2_SMM_INSIDE_NMI_MASK : Z := Z.shiftl 1 4.
Definition CR0_PE_SHIFT : Z := 0.
Definition CR0_PE_MASK : Z := 1.
Definition CR0_MP_SHIFT : Z := 1.
Definition CR4_OSFXSR_SHIFT : Z := 9.
Definition CR4_OSFXSR_MASK : Z := Z.shiftl 1 9.
Definition MSR_EFER_LMA : Z := Z.shiftl 1 10.

Definition HFLAG_COPY_MASK : Z :=
  Z.lnot (Z.lor (Z.lor (Z.lor (Z.lor (Z.lor (Z.lor (Z.lor (Z.lor (Z.lor (Z.lor (Z.lor (Z.lor (Z.lor
    HF_CPL_MASK HF_PE_MASK) HF_MP_MASK) HF_EM_MASK) HF_TS_MASK) HF_TF_MASK) HF_VM_MASK) HF_IOPL_MASK)
    HF_OSFXSR_MASK) HF_LMA_MASK) HF_CS32_MASK) HF_SS32_MASK) HF_CS64_MASK) HF_ADDSEG_MASK).

(** The flags up to the code segment; a uint32_t. *)
Definition hflags_mode (e : x86_env) : Z :=
  let h := Z.land (Z.shiftr (flags (seg e R_SS)) DESC_DPL_SHIFT) HF_CPL_MASK in
  let h := u32 (Z.lor h (Z.shiftl (Z.land (CR e 0) CR0_PE_MASK) (HF_PE_SHIFT - CR0_PE_SHIFT))) in
  let h := u32 (Z.lor h (Z.land (u64 (Z.shiftl (CR e 0) (HF_MP_SHIFT - CR0_MP_SHIFT)))
                           (Z.lor (Z.lor HF_MP_MASK HF_EM_MASK) HF_TS_MASK))) in
  let h := u32 (Z.lor h (Z.land (eflags e) (Z.lor (Z.lor HF_TF_MASK HF_VM_MASK) HF_IOPL_MASK))) in
  let h := u32 (Z.lor h (Z.shiftl (Z.land (CR e 4) CR4_OSFXSR_MASK) (HF_OSFXSR_SHIFT - CR4_OSFXSR_SHIFT))) in
  if bits (efer e) MSR_EFER_LMA then Z.lor h HF_LMA_MASK else h.

Definition kvm_hflags (e : x86_env) : Z :=
  let h := hflags_mode e in
  if bits h HF_LMA_MASK && bits (flags (seg e R_CS)) DESC_L_MASK
  then Z.lor h (Z.lor (Z.lor HF_CS32_MASK HF_SS32_MASK) HF_CS64_MASK)
  else
    let h := Z.lor h (Z.shiftr (Z.land (flags (seg e R_CS)) DESC_B_MASK) (DESC_B_SHIFT - HF_CS32_SHIFT)) in
    let h := Z.lor h (Z.shiftr (Z.land (flags (seg e R_SS)) DESC_B_MASK) (DESC_B_SHIFT - HF_SS32_SHIFT)) in
    if negb (bits (CR e 0) CR0_PE_MASK) || bits (eflags e) VM_MASK || negb (bits h HF_CS32_MASK)
    then Z.lor h HF_ADDSEG_MASK
    else Z.lor h (Z.shiftl (nonzero (Z.lor (Z.lor (base (seg e R_DS)) (base (seg e R_ES))) (base (seg e R_SS)))) HF_ADDSEG_SHIFT).

Definition set_hflags (h h2 : Z) (e : x86_env) : x86_env :=
  mk_env (env_regs e) (eip e) (eflags e) h h2 (segs e) (ldt e) (tr e) (gdt e) (idt e) (cr e) (efer e) (dr e)
    (xcr0 e) (mp_state e) (error_code e) (interrupt_injected e) (soft_interrupt e) (nmi_injected e) (nmi_pending e)
    (sipi_vector e).

(** The fields of idt and gdt other than limit and base stay. *)
Definition get_table (old : SegmentCache) (t : Z * Z) : SegmentCache := mk_seg (selector old) t.2 t.1 (flags old).

Definition copy_sregs (s : kvm_sregs) (e : x86_env) : x86_env :=
  mk_env (env_regs e) (eip e) (eflags e) (hflags e) (hflags2 e)
    [get_seg (s_es s); get_seg (s_cs s); get_seg (s_ss s); get_seg (s_ds s); get_seg (s_fs s); get_seg (s_gs s)]
    (get_seg (s_ldt s)) (get_seg (s_tr s)) (get_table (gdt e) (s_gdt s)) (get_table (idt e) (s_idt s))
    [s_cr0 s; CR e 1; s_cr2 s; s_cr3 s; s_cr4 s] (s_efer s) (dr e) (xcr0 e) (mp_state e) (error_code e)
    (find_interrupt 0 (interrupt_bitmap s)) (soft_interrupt e) (nmi_injected e) (nmi_pending e) (sipi_vector e).

Definition kvm_get_sregs (answer : Z * kvm_sregs) (e : x86_env) : Z * x86_env :=
  let '(ret, s) := answer in
  if ret <? 0 then (ret, e)
  else
    let e := copy_sregs s e in
    (0, set_hflags (Z.lor (u32 (Z.land (hflags e) HFLAG_COPY_MASK)) (kvm_hflags e)) (hflags2 e) e).

(** *** Extended control register, debug registers, run state *)

Definition set_xcr0 (v : Z) (e : x86_env) : x86_env :=
  mk_env (env_regs e) (eip e) (eflags e) (hflags e) (hflags2 e) (segs e) (ldt e) (tr e) (gdt e) (idt e) (cr e)
    (efer e) (dr e) v (mp_state e) (error_code e) (interrupt_injected e) (soft_interrupt e) (nmi_injected e)
    (nmi_pending e) (sipi_vector e).

(** struct kvm_xcrs: the pairs of register number and value in use. *)
Definition kvm_put_xcrs (e : x86_env) : list (Z * Z) := [(0, xcr0 e)].

Fixpoint find_xcr0 (xcrs : list (Z * Z)) (e : x86_env) : x86_env :=
  match xcrs with
  | [] => e
  | (xcr, value) :: xcrs => if xcr =? 0 then set_xcr0 value e else find_xcr0 xcrs e
  end.

Definition kvm_get_xcrs (has_xcrs : bool) (answer : Z * list (Z * Z)) (e : x86_env) : Z * x86_env :=
  if negb has_xcrs then (0, e) else
  let '(ret, xcrs) := answer in
  if ret <? 0 then (ret, e) else (0, find_xcr0 xcrs e).

Record kvm_debugregs := mk_kdr { db : list Z; kdr6 : Z; kdr7 : Z; kdr_flags : Z }.

Definition kvm_put_debugregs (e : x86_env) : kvm_debugregs :=
  mk_kdr (DR e <$> seq 0 4) (DR e 6) (DR e 7) 0.

Definition set_dr (v : list Z) (e : x86_env) : x86_env :=
  mk_env (env_regs e) (eip e) (eflags e) (hflags e) (hflags2 e) (segs e) (ldt e) (tr e) (gdt e) (idt e) (cr e)
    (efer e) v (xcr0 e) (mp_state e) (error_code e) (interrupt_injected e) (soft_interrupt e) (nmi_injected e)
    (nmi_pending e) (sipi_vector e).

Definition kvm_get_debugregs (has_debugregs : bool) (answer : Z * kvm_debugregs) (e : x86_env) : Z * x86_env :=
  if negb has_debugregs then (0, e) else
  let '(ret, d) := answer in
  if ret <? 0 then (ret, e)
  else (0, set_dr [nth 0 (db d) 0; nth 1 (db d) 0; nth 2 (db d) 0; nth 3 (db d) 0; kdr6 d; kdr7 d; kdr6 d; kdr7 d] e).

(** ** The whole virtual CPU

    [interrupt_request] and [halted] are fields of struct CPUState, [apic_state] of
    struct X86CPU. *)
Record X86CPU := mk_x86 {
  cs : CPUState; env : x86_env; fpu : fpu_env; msrs : msr_env; apic_state : option APICCommonState;
  interrupt_request : Z; halted : bool }.

Definition set_cs (v : CPUState) (x : X86CPU) : X86CPU :=
  mk_x86 v (env x) (fpu x) (msrs x) (apic_state x) (interrupt_request x) (halted x).
Definition set_env (v : x86_env) (x : X86CPU) : X86CPU :=
  mk_x86 (cs x) v (fpu x) (msrs x) (apic_state x) (interrupt_request x) (halted x).
Definition set_fpu (v : fpu_env) (x : X86CPU) : X86CPU :=
  mk_x86 (cs x) (env x) v (msrs x) (apic_state x) (interrupt_request x) (halted x).
Definition set_msrs (v : msr_env) (x : X86CPU) : X86CPU :=
  mk_x86 (cs x) (env x) (fpu x) v (apic_state x) (interrupt_request x) (halted x).
Definition set_apic_state (v : option APICCommonState) (x : X86CPU) : X86CPU :=
  mk_x86 (cs x) (env x) (fpu x) (msrs x) v (interrupt_request x) (halted x).
Definition set_interrupt_request (v : Z) (x : X86CPU) : X86CPU :=
  mk_x86 (cs x) (env x) (fpu x) (msrs x) (apic_state x) v (halted x).
Definition set_halted (v : bool) (x : X86CPU) : X86CPU :=
  mk_x86 (cs x) (env x) (fpu x) (msrs x) (apic_state x) (interrupt_request x) v.

(** What the kernel can do: flags set once at start-up. *)
Record kvm_config := mk_config {
  msr_caps : caps; has_xsave : bool; has_xcrs : bool; has_vcpu_events : bool; has_debugregs : bool;
  has_robust_singlestep : bool; irqchip_in_kernel : bool }.

(** *** Run state *)

Definition KVM_MP_STATE_RUNNABLE : Z := 0.
Definition KVM_MP_STATE_UNINITIALIZED : Z := 1.
Definition KVM_MP_STATE_INIT_RECEIVED : Z := 2.
Definition KVM_MP_STATE_HALTED : Z := 3.

Definition set_mp_state (v : Z) (e : x86_env) : x86_env :=
  mk_env (env_regs e) (eip e) (eflags e) (hflags e) (hflags2 e) (segs e) (ldt e) (tr e) (gdt e) (idt e) (cr e)
    (efer e) (dr e) (xcr0 e) v (error_code e) (interrupt_injected e) (soft_interrupt e) (nmi_injected e)
    (nmi_pending e) (sipi_vector e).

Definition kvm_put_mp_state (e : x86_env) : Z := mp_state e.

Definition kvm_get_mp_state (c : kvm_config) (answer : Z * Z) (x : X86CPU) : Z * X86CPU :=
  let '(ret, s) := answer in
  if ret <? 0 then (ret, x)
  else
    let x := set_env (set_mp_state s (env x)) x in
    (0, if irqchip_in_kernel c then set_halted (s =? KVM_MP_STATE_HALTED) x else x).

(** *** Pending events *)

Definition CPU_INTERRUPT_HARD : Z := 0x0002.
Definition CPU_INTERRUPT_POLL : Z := 0x0010.
Definition CPU_INTERRUPT_SMI : Z := 0x0040.
Definition CPU_INTERRUPT_NMI : Z := 0x0200.
Definition CPU_INTERRUPT_INIT : Z := 0x0400.
Definition CPU_INTERRUPT_SIPI : Z := 0x0800.
Definition CPU_INTERRUPT_MCE : Z := 0x1000.
Definition CPU_INTERRUPT_TPR : Z := 0x2000.
Definition KVM_VCPUEVENT_VALID_NMI_PENDING : Z := 1.
Definition KVM_VCPUEVENT_VALID_SIPI_VECTOR : Z := 2.
Definition KVM_VCPUEVENT_VALID_SMM : Z := 8.

Record kvm_vcpu_events := mk_events {
  ev_exc_injected : Z; ev_exc_nr : Z; ev_has_error_code : Z; ev_error_code : Z;
  ev_int_injected : Z; ev_int_nr : Z; ev_int_soft : Z;
  ev_nmi_injected : Z; ev_nmi_pending : Z; ev_nmi_masked : Z;
  ev_sipi_vector : Z; ev_flags : Z;
  ev_smm : Z; ev_smi_pending : Z; ev_smm_inside_nmi : Z; ev_latched_init : Z }.

(** [cpu_interrupt] from the CPU's own thread ([kvm_handle_interrupt]), [cpu_reset_interrupt] *)
Definition cpu_interrupt (mask : Z) (x : X86CPU) : X86CPU := set_interrupt_request (Z.lor (interrupt_request x) mask) x.
Definition cpu_reset_interrupt (mask : Z) (x : X86CPU) : X86CPU :=
  set_interrupt_request (Z.land (interrupt_request x) (Z.lnot mask)) x.

(** The structure passed to KVM_SET_VCPU_EVENTS and the CPU afterwards.  The flags set in
    the branch on has_msr_smbase are overwritten by the assignment that follows it. *)
Definition kvm_put_vcpu_events (c : kvm_config) (level : Z) (x : X86CPU) : kvm_vcpu_events * X86CPU :=
  let e := env x in
  let smbase := has_msr_smbase (msr_caps c) in
  let in_kernel := smbase && irqchip_in_kernel c in
  let flags := if KVM_PUT_RESET_STATE <=? level
               then Z.lor KVM_VCPUEVENT_VALID_NMI_PENDING KVM_VCPUEVENT_VALID_SIPI_VECTOR else 0 in
  (mk_events
     (if 0 <=? exception_injected (cs x) then 1 else 0) (u8 (exception_injected (cs x)))
     (u8 (has_error_code (cs x))) (u32 (error_code e))
     (if 0 <=? interrupt_injected e then 1 else 0) (u8 (interrupt_injected e)) (soft_interrupt e)
     (nmi_injected e) (nmi_pending e) (nonzero (Z.land (hflags2 e) HF2_NMI_MASK))
     (sipi_vector e) flags
     (if smbase then nonzero (Z.land (hflags e) HF_SMM_MASK) else 0)
     (if in_kernel then u8 (Z.land (interrupt_request x) CPU_INTERRUPT_SMI) else 0)
     (if smbase then nonzero (Z.land (hflags2 e) HF2_SMM_INSIDE_NMI_MASK) else 0)
     (if in_kernel then u8 (Z.land (interrupt_request x) CPU_INTERRUPT_INIT) else 0),
   if in_kernel then cpu_reset_interrupt (Z.lor CPU_INTERRUPT_INIT CPU_INTERRUPT_SMI) x else x).

(** [h |= mask] or [h &= ~mask] *)
Definition set_flag (b : bool) (mask h : Z) : Z := if b then Z.lor h mask else Z.land h (Z.lnot mask).

Definition set_events (ev : kvm_vcpu_events) (h h2 : Z) (e : x86_env) : x86_env :=
  mk_env (env_regs e) (eip e) (eflags e) h h2 (segs e) (ldt e) (tr e) (gdt e) (idt e) (cr e) (efer e) (dr e)
    (xcr0 e) (mp_state e) (s32 (ev_error_code ev)) (if ev_int_injected ev =? 0 then -1 else ev_int_nr ev)
    (ev_int_soft ev) (ev_nmi_injected ev) (ev_nmi_pending ev) (ev_sipi_vector ev).

Definition kvm_get_vcpu_events (c : kvm_config) (answer : Z * kvm_vcpu_events) (x : X86CPU) : Z * X86CPU :=
  if negb (has_vcpu_events c) then (0, x) else
  let '(ret, ev) := answer in
  if ret <? 0 then (ret, x)
  else
    let exc := if ev_exc_injected ev =? 0 then -1 else ev_exc_nr ev in
    let x := set_cs (set_has_error_code (ev_has_error_code ev) (set_exception_injected exc (cs x))) x in
    let h2 := set_flag (negb (ev_nmi_masked ev =? 0)) HF2_NMI_MASK (hflags2 (env x)) in
    if bits (ev_flags ev) KVM_VCPUEVENT_VALID_SMM then
      let h := set_flag (negb (ev_smm ev =? 0)) HF_SMM_MASK (hflags (env x)) in
      let h2 := set_flag (negb (ev_smm_inside_nmi ev =? 0)) HF2_SMM_INSIDE_NMI_MASK h2 in
      let x := if negb (ev_smi_pending ev =? 0) then cpu_interrupt CPU_INTERRUPT_SMI x
               else cpu_reset_interrupt CPU_INTERRUPT_SMI x in
      let x := if negb (ev_latched_init ev =? 0) then cpu_interrupt CPU_INTERRUPT_INIT x
               else cpu_reset_interrupt CPU_INTERRUPT_INIT x in
      (0, set_env (set_events ev h h2 (env x)) x)
    else (0, set_env (set_events ev (hflags (env x)) h2 (env x)) x).

(** ** Bits *)

Lemma bits_testbit x k : 0 <= k -> bits x (Z.shiftl 1 k) = Z.testbit x k.
Proof.
  intros Hk. unfold bits. rewrite Z.shiftl_mul_pow2, Z.mul_1_l by exact Hk.
  destruct (Z.testbit x k) eqn:E.
  - destruct (Z.eqb_spec (Z.land x (2 ^ k)) 0) as [H | H]; [|reflexivity].
    apply (f_equal (fun v => Z.testbit v k)) in H.
    rewrite Z.land_spec, Z.pow2_bits_true, E, Z.bits_0 in H by exact Hk. discriminate.
  - replace (Z.land x (2 ^ k)) with 0; [reflexivity|]. symmetry. apply Z.bits_inj'. intros i Hi.
    rewrite Z.land_spec, Z.bits_0, Z.pow2_bits_eqb by exact Hk.
    destruct (Z.eqb_spec k i) as [<- | _]; [rewrite E; reflexivity | apply andb_false_r].
Qed.

(** Taking a field out and putting it back masks the number. *)
Lemma field_back x m k : 0 <= k -> Z.shiftl (Z.land (Z.shiftr x k) m) k = Z.land x (Z.shiftl m k).
Proof.
  intros Hk. apply Z.bits_inj'. intros i Hi. rewrite Z.shiftl_spec, !Z.land_spec, Z.shiftl_spec by lia.
  destruct (Z.lt_ge_cases i k).
  - rewrite !(Z.testbit_neg_r _ (i - k)) by lia. rewrite !andb_false_r. reflexivity.
  - rewrite Z.shiftr_spec by lia. do 2 f_equal. lia.
Qed.

Lemma bit_back x k : 0 <= k -> nonzero (Z.land x (Z.shiftl 1 k)) * Z.shiftl 1 k = Z.land x (Z.shiftl 1 k).
Proof.
  intros Hk. pose proof (bits_testbit x k Hk) as E. unfold bits in E. unfold nonzero.
  destruct (Z.eqb_spec (Z.land x (Z.shiftl 1 k)) 0) as [H | H]; [lia|]. cbn in E.
  rewrite Z.mul_1_l. apply Z.bits_inj'. intros i Hi. rewrite Z.land_spec, Z.shiftl_mul_pow2, Z.mul_1_l, Z.pow2_bits_eqb by exact Hk.
  destruct (Z.eqb_spec k i) as [<- | _]; [rewrite <- E; reflexivity | rewrite andb_false_r; reflexivity].
Qed.

Lemma nonzero_bit x k : 0 <= k -> nonzero (Z.land x (Z.shiftl 1 k)) = Z.b2z (Z.testbit x k).
Proof.
  intros Hk. rewrite <- bits_testbit by exact Hk. unfold bits, nonzero. destruct (_ =? 0); reflexivity.
Qed.

Lemma land_range x m n : 0 <= n -> 0 <= m < 2 ^ n -> 0 <= Z.land x m < 2 ^ n.
Proof.
  intros Hn Hm. apply bits_below; [exact Hn|]. intros i Hi. rewrite Z.land_spec, (testbit_above n m) by assumption.
  apply andb_false_r.
Qed.

Lemma lor_range x y n : 0 <= n -> 0 <= x < 2 ^ n -> 0 <= y < 2 ^ n -> 0 <= Z.lor x y < 2 ^ n.
Proof.
  intros Hn Hx Hy. apply bits_below; [exact Hn|]. intros i Hi.
  rewrite Z.lor_spec, (testbit_above n x), (testbit_above n y) by assumption. reflexivity.
Qed.

(** ** Segments survive a transfer *)

(** The bits of the descriptor that struct kvm_segment has: type, S, DPL, P, AVL, L, B, G. *)
Definition DESC_KEPT : Z := 0xf0ff00.

Definition seg_kept (s : SegmentCache) : SegmentCache := mk_seg (u16 (selector s)) (base s) (limit s) (Z.land (flags s) DESC_KEPT).

Lemma seg_back s : get_seg (set_seg s) = seg_kept s.
Proof.
  unfold get_seg, set_seg, seg_kept. cbn [k_selector k_base k_limit k_type k_present k_dpl k_db k_s k_l k_g k_avl]. f_equal.
  unfold DESC_P_MASK, DESC_S_MASK, DESC_G_MASK, DESC_AVL_MASK, DESC_TYPE_SHIFT, DESC_DPL_SHIFT, DESC_B_SHIFT, DESC_L_SHIFT.
  rewrite !field_back, !bit_back by lia. rewrite <- !Z.land_lor_distr_r.
  set (m := Z.lor _ _). assert (m = DESC_KEPT) as -> by reflexivity.
  unfold u32. apply Z.mod_small, (land_range _ _ 32); unfold DESC_KEPT; lia.
Qed.

(** In virtual-8086 mode the attributes are those of a ring 3 data segment. *)
Lemma v8086_seg_back s : get_seg (set_v8086_seg s) = mk_seg (u16 (selector s)) (base s) (limit s) 0xf300.
Proof. reflexivity. Qed.

(** ** The pending interrupt survives a transfer *)

Lemma bitmap_back n : -1 <= n < 256 -> exists l, put_bitmap n = Ok l /\ find_interrupt 0 l = n.
Proof.
  intros Hn. destruct (Z.eq_dec n (-1)) as [-> | Hz]; [eexists; split; reflexivity|].
  unfold put_bitmap. rewrite (proj2 (Z.leb_le _ _)), (proj2 (Z.ltb_lt _ _)) by lia. eexists. split; [reflexivity|].
  assert (forallb (fun n => find_interrupt 0 (<[Z.to_nat (Z.of_nat n / 64) := Z.lor 0 (Z.shiftl 1 (Z.of_nat n mod 64))]> (replicate 4 0))
    =? Z.of_nat n) (seq 0 256) = true) as H by (vm_compute; reflexivity).
  rewrite forallb_forall in H. specialize (H (Z.to_nat n) ltac:(apply in_seq; lia)).
  rewrite Z2Nat.id in H by lia. apply Z.eqb_eq, H.
Qed.

(** ** The mode flags

    The mode of the processor as the manual defines it, bit by bit. *)

Section Mode.
Context (e : x86_env).
Definition long_mode : bool := Z.testbit (efer e) 10.
Definition protected_mode : bool := Z.testbit (CR e 0) 0.
Definition virtual_8086 : bool := Z.testbit (eflags e) 17.
Definition cs_L : bool := Z.testbit (flags (seg e R_CS)) 21.
Definition cs_D : bool := Z.testbit (flags (seg e R_CS)) 22.
Definition ss_B : bool := Z.testbit (flags (seg e R_SS)) 22.
Definition code64 : bool := long_mode && cs_L.
Definition flat : bool :=
  (base (seg e R_DS) =? 0) && (base (seg e R_ES) =? 0) && (base (seg e R_SS) =? 0).

(** Segment bases have to be added unless the code is 64-bit, or 32-bit in protected
    mode with flat data segments. *)
Definition mode_bit (i : Z) : bool :=
  if i <=? 1 then Z.testbit (flags (seg e R_SS)) (13 + i)               (* CPL *)
  else if i =? 4 then code64 || cs_D                                     (* 32-bit code *)
  else if i =? 5 then code64 || ss_B                                     (* 32-bit stack *)
  else if i =? 6 then negb code64 && (negb protected_mode || virtual_8086 || negb cs_D || negb flat)
  else if i =? 7 then protected_mode
  else if (9 <=? i) && (i <=? 11) then Z.testbit (CR e 0) (i - 8)        (* MP, EM, TS *)
  else if (i =? 8) || (12 <=? i) && (i <=? 13) || (i =? 17) then Z.testbit (eflags e) i  (* TF, IOPL, VM *)
  else if i =? 14 then long_mode
  else if i =? 15 then code64
  else if i =? 22 then Z.testbit (CR e 4) 9                              (* OSFXSR *)
  else false.
End Mode.

Lemma testbit_u32 x i : 0 <= i -> Z.testbit (u32 x) i = (i <? 32) && Z.testbit x i.
Proof.
  intros Hi. unfold u32. destruct (Z.ltb_spec i 32).
  - rewrite Z.mod_pow2_bits_low by lia. reflexivity.
  - rewrite Z.mod_pow2_bits_high by lia. reflexivity.
Qed.

Lemma testbit_u64 x i : 0 <= i -> Z.testbit (u64 x) i = (i <? 64) && Z.testbit x i.
Proof.
  intros Hi. unfold u64. destruct (Z.ltb_spec i 64).
  - rewrite Z.mod_pow2_bits_low by lia. reflexivity.
  - rewrite Z.mod_pow2_bits_high by lia. reflexivity.
Qed.

Lemma u32_range x n : 0 <= n <= 32 -> 0 <= x < 2 ^ n -> 0 <= u32 x < 2 ^ n.
Proof.
  intros Hn Hx. unfold u32. rewrite Z.mod_small; [exact Hx|]. pose proof (Z.pow_le_mono_r 2 n 32). lia.
Qed.

Lemma shiftl_range x k n : 0 <= k <= n -> 0 <= x < 2 ^ (n - k) -> 0 <= Z.shiftl x k < 2 ^ n.
Proof.
  intros Hk Hx. rewrite Z.shiftl_mul_pow2 by lia. replace (2 ^ n) with (2 ^ (n - k) * 2 ^ k) by (rewrite <- Z.pow_add_r by lia; f_equal; lia).
  pose proof (Z.pow_pos_nonneg 2 k). nia.
Qed.

Lemma shiftr_range x k n : 0 <= k -> 0 <= x < 2 ^ n -> 0 <= Z.shiftr x k < 2 ^ n.
Proof.
  intros Hk Hx. rewrite Z.shiftr_div_pow2 by lia. pose proof (Z.pow_pos_nonneg 2 k).
  split; [apply Z.div_pos; lia|]. apply Z.div_lt_upper_bound; nia.
Qed.

Lemma hflags_mode_range e : 0 <= hflags_mode e < 2 ^ 23.
Proof.
  unfold hflags_mode. cbv zeta.
  set (h1 := Z.land _ HF_CPL_MASK). set (h2 := u32 (Z.lor h1 _)). set (h3 := u32 (Z.lor h2 _)).
  set (h4 := u32 (Z.lor h3 _)). set (h5 := u32 (Z.lor h4 _)).
  assert (0 <= h5 < 2 ^ 23) as H5.
  { unfold h5, h4, h3, h2, h1.
    repeat first [apply u32_range; [lia|] | apply lor_range; [lia | |] |
                  apply (land_range _ _ 23); [lia | cbv; split; [discriminate | reflexivity]] |
                  apply shiftl_range; [cbv; split; discriminate|]].
    - apply land_range; [cbv; discriminate | cbv; split; [discriminate | reflexivity]].
    - apply land_range; [cbv; discriminate | cbv; split; [discriminate | reflexivity]]. }
  destruct (bits _ _); [apply lor_range; [lia | exact H5 | cbv; split; [discriminate | reflexivity]] | exact H5].
Qed.

Lemma kvm_hflags_range e : 0 <= kvm_hflags e < 2 ^ 23.
Proof.
  unfold kvm_hflags. cbv zeta. pose proof (hflags_mode_range e) as H.
  assert (forall x k, 0 <= k -> 0 <= Z.shiftr (Z.land x DESC_B_MASK) k < 2 ^ 23) as Hs.
  { intros x k Hk. apply shiftr_range; [exact Hk|]. apply land_range; [lia | cbv; split; [discriminate | reflexivity]]. }
  set (h := hflags_mode e) in *. clearbody h.
  destruct (_ && _); [apply lor_range; [lia | exact H | cbv; split; [discriminate | reflexivity]]|].
  set (h1 := Z.lor h _). assert (0 <= h1 < 2 ^ 23) as H1 by (apply lor_range; [lia | exact H | apply Hs; cbv; discriminate]).
  clearbody h1. set (h2 := Z.lor h1 _).
  assert (0 <= h2 < 2 ^ 23) as H2 by (apply lor_range; [lia | exact H1 | apply Hs; cbv; discriminate]). clearbody h2.
  destruct (_ || _); (apply lor_range; [lia | exact H2|]); [cbv; split; [discriminate | reflexivity]|].
  unfold nonzero. destruct (_ =? 0); cbv; split; discriminate || reflexivity.
Qed.

(** A property of all numbers below a bound, one by one. *)
Lemma z_below (P : Z -> Prop) n : Forall P (Z.of_nat <$> seq 0 n) -> forall i, 0 <= i < Z.of_nat n -> P i.
Proof.
  intros H i Hi. rewrite Forall_forall in H. apply H, list_elem_of_fmap.
  exists (Z.to_nat i). split; [lia | apply elem_of_seq; lia].
Qed.

(** Evaluates the bits of constants. *)
Ltac const_bits :=
  repeat match goal with
  | |- context [Z.testbit ?m ?k] =>
      let b := eval vm_compute in (Z.testbit m k) in
      match b with true => idtac | false => idtac end; change (Z.testbit m k) with b
  end.

Ltac fixed_bit :=
  repeat first [rewrite Z.lor_spec | rewrite Z.land_spec | rewrite testbit_u32 by (cbv; discriminate)
               | rewrite testbit_u64 by (cbv; discriminate)
               | rewrite Z.shiftl_spec by (cbv; discriminate) | rewrite Z.shiftr_spec by (cbv; discriminate)];
  const_bits; rewrite ?andb_false_r, ?andb_true_r, ?orb_false_r, ?orb_true_r.

Lemma hflags_mode_bits e i : 0 <= i < 23 -> Z.testbit (hflags_mode e) i =
  if (i =? 4) || (i =? 5) || (i =? 6) || (i =? 15) then false else mode_bit e i.
Proof.
  revert i. apply (z_below _ 23). unfold hflags_mode. cbv zeta. change MSR_EFER_LMA with (Z.shiftl 1 10). rewrite bits_testbit by lia.
  fold (long_mode e). rewrite Forall_fmap. repeat constructor; cbn [compose Z.of_nat Pos.of_succ_nat Pos.succ].
  all: destruct (long_mode e) eqn:E; fixed_bit.
  all: first [reflexivity | change (mode_bit e (Z.of_nat 14)) with (long_mode e); rewrite E; reflexivity].
Qed.

Lemma copied_not_mode e i : 0 <= i < 23 -> Z.testbit HFLAG_COPY_MASK i = true -> mode_bit e i = false.
Proof.
  revert i. apply (z_below (fun i => Z.testbit HFLAG_COPY_MASK i = true -> mode_bit e i = false) 23).
  rewrite Forall_fmap. repeat constructor; cbn [compose]; intros H; first [discriminate H | reflexivity].
Qed.

Lemma nonzero_flat e : nonzero (Z.lor (Z.lor (base (seg e R_DS)) (base (seg e R_ES))) (base (seg e R_SS))) = Z.b2z (negb (flat e)).
Proof.
  unfold nonzero, flat. set (a := base (seg e R_DS)). set (b := base (seg e R_ES)). set (c := base (seg e R_SS)).
  destruct (Z.eqb_spec (Z.lor (Z.lor a b) c) 0) as [H | H].
  - apply Z.lor_eq_0_iff in H as [[-> ->]%Z.lor_eq_0_iff ->]. reflexivity.
  - destruct (Z.eqb_spec a 0) as [-> |], (Z.eqb_spec b 0) as [-> |], (Z.eqb_spec c 0) as [-> |]; try reflexivity.
    contradiction H. reflexivity.
Qed.

Lemma mode_bit_high e i : 23 <= i -> mode_bit e i = false.
Proof.
  intros Hi. unfold mode_bit.
  repeat match goal with |- context [?a =? ?b] => rewrite (proj2 (Z.eqb_neq a b)) by lia end.
  rewrite (proj2 (Z.leb_gt i 1)), (proj2 (Z.leb_gt i 11)), (proj2 (Z.leb_gt i 13)) by lia.
  rewrite !andb_false_r. reflexivity.
Qed.

Lemma kvm_hflags_low e i : 0 <= i < 23 -> Z.testbit (kvm_hflags e) i = mode_bit e i.
Proof.
  intros Hi. unfold kvm_hflags. cbv zeta.
  change HF_LMA_MASK with (Z.shiftl 1 14). change DESC_L_MASK with (Z.shiftl 1 21). rewrite !bits_testbit by lia.
  rewrite hflags_mode_bits by lia. change (mode_bit e 14) with (long_mode e). fold (cs_L e).
  change ((14 =? 4) || (14 =? 5) || (14 =? 6) || (14 =? 15)) with false. cbv iota. fold (code64 e).
  change CR0_PE_MASK with (Z.shiftl 1 0). change VM_MASK with (Z.shiftl 1 17). change HF_CS32_MASK with (Z.shiftl 1 4).
  rewrite !bits_testbit by lia.
  set (h1 := Z.lor (hflags_mode e) (Z.shiftr _ (DESC_B_SHIFT - HF_CS32_SHIFT))).
  set (h2 := Z.lor h1 _).
  assert (forall j, 0 <= j < 23 -> Z.testbit h2 j =
    Z.testbit (hflags_mode e) j || ((j =? 4) && cs_D e) || ((j =? 5) && ss_B e)) as H2.
  { apply (z_below _ 23). unfold h2, h1. generalize (hflags_mode e). intros h. rewrite Forall_fmap.
    repeat constructor; cbn [compose]; fixed_bit; reflexivity. }
  clearbody h2. clear h1. rewrite (H2 4) by lia. rewrite hflags_mode_bits by lia.
  change ((if (4 =? 4) || (4 =? 5) || (4 =? 6) || (4 =? 15) then false else mode_bit e 4)
    || (4 =? 4) && cs_D e || (4 =? 5) && ss_B e) with (cs_D e || false).
  rewrite orb_false_r, nonzero_flat. fold (protected_mode e) (virtual_8086 e).
  set (add := negb (protected_mode e) || virtual_8086 e || negb (cs_D e)).
  replace (if add then Z.lor h2 HF_ADDSEG_MASK else Z.lor h2 (Z.shiftl (Z.b2z (negb (flat e))) HF_ADDSEG_SHIFT))
    with (Z.lor h2 (Z.shiftl (Z.b2z (add || negb (flat e))) 6)) by (destruct add; reflexivity).
  assert (forall j, 0 <= j < 23 -> Z.testbit (Z.shiftl (Z.b2z (add || negb (flat e))) 6) j
    = (j =? 6) && (add || negb (flat e))) as Ha.
  { apply (z_below _ 23). rewrite Forall_fmap. destruct (add || negb (flat e)); repeat constructor. }
  assert (forall j, 0 <= j < 23 -> Z.testbit (Z.lor (Z.lor (Z.shiftl 1 4) HF_SS32_MASK) HF_CS64_MASK) j
    = (j =? 4) || (j =? 5) || (j =? 15)) as Hc by (apply (z_below _ 23); rewrite Forall_fmap; repeat constructor).
  destruct (code64 e) eqn:Ec; rewrite Z.lor_spec, ?(H2 i), ?(Ha i), ?(Hc i), hflags_mode_bits by lia.
  - destruct (Z.eqb_spec i 4) as [-> | ]; [unfold mode_bit; cbn; rewrite Ec; reflexivity|].
    destruct (Z.eqb_spec i 5) as [-> | ]; [unfold mode_bit; cbn; rewrite Ec; reflexivity|].
    destruct (Z.eqb_spec i 6) as [-> | ]; [unfold mode_bit; cbn; rewrite Ec; reflexivity|].
    destruct (Z.eqb_spec i 15) as [-> | ]; [unfold mode_bit; cbn; rewrite Ec; reflexivity|].
    cbn. rewrite orb_false_r. reflexivity.
  - destruct (Z.eqb_spec i 4) as [-> | ]; [unfold mode_bit; cbn; rewrite Ec, !orb_false_r; reflexivity|].
    destruct (Z.eqb_spec i 5) as [-> | ]; [unfold mode_bit; cbn; rewrite Ec, !orb_false_r; reflexivity|].
    destruct (Z.eqb_spec i 6) as [-> | ]; [unfold mode_bit; cbn; rewrite Ec; reflexivity|].
    destruct (Z.eqb_spec i 15) as [-> | ]; [unfold mode_bit; cbn; rewrite Ec; reflexivity|].
    cbn. rewrite !orb_false_r. reflexivity.
Qed.

Lemma kvm_hflags_bits e i : 0 <= i -> Z.testbit (kvm_hflags e) i = mode_bit e i.
Proof.
  intros Hi. destruct (Z.lt_ge_cases i 23); [apply kvm_hflags_low; lia|].
  rewrite (testbit_above 23), mode_bit_high by (apply kvm_hflags_range || lia). reflexivity.
Qed.

(** The bits that [kvm_get_sregs] computes. *)
Definition computed_bit (i : Z) : bool := negb (Z.testbit HFLAG_COPY_MASK i).

(** Kvm_get_sregs leaves the mode flags QEMU works with in agreement with the registers it has
    read: privilege level, protected, virtual-8086 and long mode, the sizes of code and stack,
    whether segment bases count, and the copies of TF, IOPL, MP, EM, TS and OSFXSR; every other
    flag keeps its value. *)
Theorem hflags_agree ret s e i : 0 <= ret -> 0 <= hflags e < 2 ^ 32 -> 0 <= i ->
  let e' := snd (kvm_get_sregs (ret, s) e) in
  Z.testbit (hflags e') i = if computed_bit i then mode_bit e' i else Z.testbit (hflags e) i.
Proof.
  intros Hr Hh Hi. cbn [kvm_get_sregs]. rewrite (proj2 (Z.ltb_ge _ _) Hr). cbn [snd].
  set (c := copy_sregs s e). change (hflags c) with (hflags e). set (e' := set_hflags _ _ c).
  assert (forall i, mode_bit e' i = mode_bit c i) as Hm by reflexivity.
  cbv zeta. unfold e' at 1. cbn [hflags set_hflags].
  rewrite Z.lor_spec, testbit_u32, Z.land_spec, kvm_hflags_bits, Hm by exact Hi. unfold computed_bit.
  destruct (Z.ltb_spec i 32) as [H32 | H32].
  - cbn [andb]. destruct (Z.testbit HFLAG_COPY_MASK i) eqn:E; cbn [negb]; [|rewrite andb_false_r; reflexivity].
    rewrite andb_true_r. replace (mode_bit c i) with false; [apply orb_false_r|].
    symmetry. destruct (Z.lt_ge_cases i 23); [|apply mode_bit_high; lia]. apply copied_not_mode; [lia | exact E].
  - rewrite mode_bit_high, (testbit_above 32 (hflags e)) by lia. destruct (negb _); reflexivity.
Qed.

(** ** Types *)

Record seg_ok (s : SegmentCache) : Prop := {
  so_selector : 0 <= selector s < 2 ^ 32; so_base : 0 <= base s < 2 ^ 64;
  so_limit : 0 <= limit s < 2 ^ 32; so_flags : 0 <= flags s < 2 ^ 32 }.

Record x86_ok (e : x86_env) : Prop := {
  xo_regs : length (env_regs e) = 16%nat /\ u64s (env_regs e);
  xo_eip : 0 <= eip e < 2 ^ 64;
  xo_eflags : 0 <= eflags e < 2 ^ 64;
  xo_hflags : 0 <= hflags e < 2 ^ 32;
  xo_hflags2 : 0 <= hflags2 e < 2 ^ 32;
  xo_segs : length (segs e) = 6%nat /\ Forall seg_ok (segs e);
  xo_ldt : seg_ok (ldt e);
  xo_tr : seg_ok (tr e);
  xo_gdt : seg_ok (gdt e);
  xo_idt : seg_ok (idt e);
  xo_cr : length (cr e) = 5%nat /\ u64s (cr e);
  xo_efer : 0 <= efer e < 2 ^ 64;
  xo_dr : length (dr e) = 8%nat /\ u64s (dr e);
  xo_xcr0 : 0 <= xcr0 e < 2 ^ 64;
  xo_mp : 0 <= mp_state e < 2 ^ 32;
  xo_error : - 2 ^ 31 <= error_code e < 2 ^ 31;
  xo_int : - 2 ^ 31 <= interrupt_injected e < 2 ^ 31;
  xo_soft : 0 <= soft_interrupt e < 2 ^ 8;
  xo_nmi : 0 <= nmi_injected e < 2 ^ 8;
  xo_nmip : 0 <= nmi_pending e < 2 ^ 8;
  xo_sipi : 0 <= sipi_vector e < 2 ^ 32 }.

(** A 64-bit kernel in long mode at privilege level 0. *)
Definition kernel_cs : SegmentCache := mk_seg 0x10 0 0xffffffff 0xa09b00.
Definition kernel_ds : SegmentCache := mk_seg 0x18 0 0xffffffff 0xc09300.
Definition env_example : x86_env :=
  mk_env [1; 2; 3; 4; 5; 6; 7; 8; 9; 10; 11; 12; 13; 14; 15; 16] 0xffffffff81000000 0x246 4 1
    [kernel_ds; kernel_cs; kernel_ds; kernel_ds; kernel_ds; kernel_ds] (mk_seg 0 0 0xffff 0x8200)
    (mk_seg 0x40 0xffff88007fc10000 0x2087 0x8b00) (mk_seg 0 0xffff88007fc09000 0x7f 0)
    (mk_seg 0 0xffffffffff578000 0xfff 0) [0x80050033; 0; 0x7fff1234; 0x1000; 0x406e0] 0xd01
    [0; 0; 0; 0; 0xffff0ff0; 0x400; 0xffff0ff0; 0x400] 7 0 0 (-1) 0 0 0 0.

Lemma env_example_ok : x86_ok env_example.
Proof.
  constructor; try (cbn; lia); try (constructor; cbn; lia);
    (split; [reflexivity|]); try (apply u64s_bool; reflexivity).
  repeat (apply Forall_cons; split; [constructor; cbn; lia|]). rewrite Forall_nil. exact I.
Qed.

Definition sregs_example : kvm_sregs :=
  match kvm_put_sregs env_example None with Ok s => s | Err _ => mk_sregs (set_seg zero_seg) (set_seg zero_seg)
    (set_seg zero_seg) (set_seg zero_seg) (set_seg zero_seg) (set_seg zero_seg) (set_seg zero_seg) (set_seg zero_seg)
    (0, 0) (0, 0) 0 0 0 0 0 0 0 [] end.

Lemma hflags_agree_witness :
  Z.testbit (hflags (snd (kvm_get_sregs (0, sregs_example) env_example))) 15 = true /\
  Z.testbit (hflags (snd (kvm_get_sregs (0, sregs_example) env_example))) 0 = false.
Proof.
  split.
  - rewrite (hflags_agree 0 sregs_example env_example 15) by (cbn; lia). reflexivity.
  - rewrite (hflags_agree 0 sregs_example env_example 0) by (cbn; lia). reflexivity.
Defined.
