(* ===== verification/RegSync.v ===== *)
(** * Moving the register file between QEMU and the kernel (target-i386/kvm.c, kvm-all.c)

    [kvm_arch_put_registers] makes a sequence of ioctls and stops at the first that fails;
    [kvm_arch_get_registers] reads the state back in the same way.  The flag kvm_vcpu_dirty
    says that QEMU's copy is the valid one: [kvm_cpu_synchronize_state] fetches the state
    once and sets it, the state is written back before the guest runs.

    An ioctl is represented by its argument.  The kernel is the function [code] from the
    ioctls made so far, the latest first, to the result of the latest, and the record
    [answers] for those that read.  The general registers the kernel holds are in
    [CPUState]; so is the argument of KVM_SET_GUEST_DEBUG. *)

From Stdlib Require Import ZArith Lia Bool.
From stdpp Require Import base list.
From S2P Require Import Prelude MemOperand PageWalk MsrSync ByteLayout XSave Apic CpuState HwBreakpoint KvmBreakpoint RegState.

Open Scope Z_scope.
Open Scope rz.

(** ** Sequences of calls *)

(** [ret = call; if (ret < 0) return ret;] for each call, then [return 0]. *)
Fixpoint run_calls {S} (l : list (S -> res (Z * S))) (s : S) : res (Z * S) :=
  match l with
  | [] => Ok (0, s)
  | call :: l => let? (ret, s) := call s in if ret <? 0 then Ok (ret, s) else run_calls l s
  end.

(** ** Writing *)

Record kvm_x86_mce := mk_mce { mce_status : Z; mce_addr : Z; mce_misc : Z; mce_mcg_status : Z; mce_bank : Z }.

Inductive ioctl :=
  | SET_REGS (r : kvm_regs)
  | SET_FPU_STATE (s : fpu_set)
  | SET_XCRS (l : list (Z * Z))
  | SET_SREGS (s : kvm_sregs)
  | X86_SET_MCE (m : kvm_x86_mce)
  | SET_MSRS (l : list (Z * Z))
  | SET_MP_STATE (s : Z)
  | SET_LAPIC (kapic : mem)
  | SET_VCPU_EVENTS (ev : kvm_vcpu_events)
  | SET_DEBUGREGS (d : kvm_debugregs).

Definition MCI_STATUS_VAL : Z := 2 ^ 63.
Definition EXCP08_DBLE : Z := 8.
Definition EXCP12_MCHK : Z := 18.
Definition KVM_GUESTDBG_INJECT_DB : Z := 0x00040000.
Definition KVM_GUESTDBG_INJECT_BP : Z := 0x00080000.

(** [env->mce_banks[i]] *)
Definition mce_bank_reg (e : msr_env) (i : nat) : res Z :=
  if in_array (mce_banks i) then Ok (msr e (mce_banks i)) else Err OutOfBounds.

(** The loop over the banks and the assertion after it: the first bank in use. *)
Fixpoint find_bank (fuel bank : nat) (e : msr_env) : res nat :=
  match fuel with
  | O => Err AssertFail
  | S fuel =>
      let? v := mce_bank_reg e (bank * 4 + 1) in
      if bits v MCI_STATUS_VAL then Ok bank else find_bank fuel (S bank) e
  end.

Definition mce_of (e : msr_env) (bank : nat) : res kvm_x86_mce :=
  let? status := mce_bank_reg e (bank * 4 + 1) in
  let? addr := mce_bank_reg e (bank * 4 + 2) in
  let? misc := mce_bank_reg e (bank * 4 + 3) in
  Ok (mk_mce status addr misc (msr e mcg_status) (Z.of_nat bank)).

(** The CPU and the ioctls made. *)
Definition pstate : Type := X86CPU * list ioctl.

Section put.
Context `{KVM} (c : kvm_config) (code : list ioctl -> Z) (sw : bool).

Definition do_ioctl (i : ioctl) (s : pstate) : Z * pstate := (code (i :: s.2), (s.1, i :: s.2)).

Definition call_put_msr_feature_control (s : pstate) : res (Z * pstate) :=
  Ok (do_ioctl (SET_MSRS (kvm_put_msr_feature_control (msrs s.1))) s).

(** [kvm_getput_regs (cpu, 1)] *)
Definition call_put_regs (s : pstate) : res (Z * pstate) :=
  let r := kvm_put_regs (env s.1) in
  let '(ret, (x, t)) := do_ioctl (SET_REGS r) s in
  Ok (ret, (if ret <? 0 then x else set_cs (set_vcpu_regs r (cs x)) x, t)).

Definition call_put_xsave (s : pstate) : res (Z * pstate) :=
  Ok (do_ioctl (SET_FPU_STATE (kvm_put_xsave (has_xsave c) (fpu s.1))) s).

Definition call_put_xcrs (s : pstate) : res (Z * pstate) :=
  if negb (has_xcrs c) then Ok (0, s) else Ok (do_ioctl (SET_XCRS (kvm_put_xcrs (env s.1))) s).

Definition call_put_sregs (s : pstate) : res (Z * pstate) :=
  let? sregs := kvm_put_sregs (env s.1) (apic_state s.1) in Ok (do_ioctl (SET_SREGS sregs) s).

Definition kvm_inject_mce_oldstyle (s : pstate) : res (Z * pstate) :=
  let x := s.1 in
  if negb (has_vcpu_events c) && (exception_injected (cs x) =? EXCP12_MCHK) then
    let x := set_cs (set_exception_injected (-1) (cs x)) x in
    let bank_num := Z.to_nat (Z.land (mcg_cap (msrs x)) 0xff) in
    let? bank := find_bank bank_num 0 (msrs x) in
    let? mce := mce_of (msrs x) bank in
    Ok (do_ioctl (X86_SET_MCE mce) (x, s.2))
  else Ok (0, s).

Definition call_put_msrs (level : Z) (s : pstate) : res (Z * pstate) :=
  let? l := kvm_put_msrs (msr_caps c) (msrs s.1) level in Ok (do_ioctl (SET_MSRS l) s).

Definition call_put_mp_state (s : pstate) : res (Z * pstate) :=
  Ok (do_ioctl (SET_MP_STATE (kvm_put_mp_state (env s.1))) s).

Definition kvm_put_apic (s : pstate) : res (Z * pstate) :=
  match apic_state s.1 with
  | Some apic => if irqchip_in_kernel c then Ok (do_ioctl (SET_LAPIC (kvm_put_apic_state apic)) s) else Ok (0, s)
  | None => Ok (0, s)
  end.

Definition call_put_tscdeadline_msr (s : pstate) : res (Z * pstate) :=
  match kvm_put_tscdeadline_msr (msr_caps c) (msrs s.1) with
  | [] => Ok (0, s)
  | l => Ok (do_ioctl (SET_MSRS l) s)
  end.

Definition call_put_vcpu_events (level : Z) (s : pstate) : res (Z * pstate) :=
  if negb (has_vcpu_events c) then Ok (0, s)
  else let '(ev, x) := kvm_put_vcpu_events c level s.1 in Ok (do_ioctl (SET_VCPU_EVENTS ev) (x, s.2)).

Definition call_put_debugregs (s : pstate) : res (Z * pstate) :=
  if negb (has_debugregs c) then Ok (0, s) else Ok (do_ioctl (SET_DEBUGREGS (kvm_put_debugregs (env s.1))) s).

(** A pending debug trap is handed over with KVM_SET_GUEST_DEBUG on kernels without
    KVM_SET_VCPU_EVENTS. *)
Definition kvm_guest_debug_workarounds (s : pstate) : res (Z * pstate) :=
  let x := s.1 in
  let '(trap, x) :=
    if negb (has_vcpu_events c) then
      (if exception_injected (cs x) =? 1 then KVM_GUESTDBG_INJECT_DB
       else if exception_injected (cs x) =? 3 then KVM_GUESTDBG_INJECT_BP else 0,
       set_cs (set_exception_injected (-1) (cs x)) x)
    else (0, x) in
  if negb (trap =? 0) || (negb (has_robust_singlestep c) && negb (singlestep_enabled (cs x) =? 0)) then
    let? (ret, cs') := kvm_update_guest_debug sw (cs x) trap in Ok (ret, (set_cs cs' x, s.2))
  else Ok (0, (x, s.2)).

Definition put_calls (level : Z) : list (pstate -> res (Z * pstate)) :=
  let reset := KVM_PUT_RESET_STATE <=? level in
  when (reset && has_msr_feature_control (msr_caps c)) [call_put_msr_feature_control] ++
  [call_put_regs; call_put_xsave; call_put_xcrs; call_put_sregs; kvm_inject_mce_oldstyle; call_put_msrs level] ++
  when reset [call_put_mp_state; kvm_put_apic] ++
  [call_put_tscdeadline_msr; call_put_vcpu_events level; call_put_debugregs; kvm_guest_debug_workarounds].

(** [own_thread]: the CPU is stopped or the caller is its thread. *)
Definition kvm_arch_put_registers (own_thread : bool) (level : Z) (s : pstate) : res (Z * pstate) :=
  if negb own_thread then Err AssertFail else run_calls (put_calls level) s.
End put.

(** ** Reading *)

(** What the kernel answers.  KVM_GET_REGS returns [a_regs] and the registers of the
    virtual CPU; [now] is the virtual clock, [running] whether the machine runs. *)
Record answers := mk_answers {
  a_regs : Z; a_fpu : fpu_kernel; a_xcrs : Z * list (Z * Z); a_sregs : Z * kvm_sregs;
  a_msrs : list Z -> Z * list Z; a_mp : Z * Z; a_lapic : Z * mem; a_events : Z * kvm_vcpu_events;
  a_debugregs : Z * kvm_debugregs; now : Z; running : bool }.

Section get.
Variables (c : kvm_config) (a : answers).

(** A function on the register file as one on the CPU. *)
Definition on_env (f : x86_env -> Z * x86_env) (x : X86CPU) : res (Z * X86CPU) :=
  let '(ret, e) := f (env x) in Ok (ret, set_env e x).

Definition call_get_regs (x : X86CPU) : res (Z * X86CPU) := on_env (kvm_get_regs (a_regs a, vcpu_regs (cs x))) x.

Definition call_get_xsave (x : X86CPU) : res (Z * X86CPU) :=
  let '(ret, f) := kvm_get_xsave (has_xsave c) (a_fpu a) (fpu x) in Ok (ret, set_fpu f x).

Definition call_get_xcrs (x : X86CPU) : res (Z * X86CPU) := on_env (kvm_get_xcrs (has_xcrs c) (a_xcrs a)) x.

Definition call_get_sregs (x : X86CPU) : res (Z * X86CPU) := on_env (kvm_get_sregs (a_sregs a)) x.

Definition call_get_msrs (x : X86CPU) : res (Z * X86CPU) :=
  let? (ret, m) := kvm_get_msrs (msr_caps c) (running a) (a_msrs a) (msrs x) in Ok (ret, set_msrs m x).

Definition call_get_mp_state (x : X86CPU) : res (Z * X86CPU) := Ok (kvm_get_mp_state c (a_mp a) x).

Definition kvm_get_apic (x : X86CPU) : res (Z * X86CPU) :=
  match apic_state x with
  | Some s =>
      if irqchip_in_kernel c then
        let '(ret, kapic) := a_lapic a in
        if ret <? 0 then Ok (ret, x)
        else Ok (0, set_apic_state (Some (kvm_get_apic_state s kapic (now a))) x)
      else Ok (0, x)
  | None => Ok (0, x)
  end.

Definition call_get_vcpu_events (x : X86CPU) : res (Z * X86CPU) := Ok (kvm_get_vcpu_events c (a_events a) x).

Definition call_get_debugregs (x : X86CPU) : res (Z * X86CPU) :=
  on_env (kvm_get_debugregs (has_debugregs c) (a_debugregs a)) x.

Definition get_calls : list (X86CPU -> res (Z * X86CPU)) :=
  [call_get_regs; call_get_xsave; call_get_xcrs; call_get_sregs; call_get_msrs; call_get_mp_state; kvm_get_apic;
   call_get_vcpu_events; call_get_debugregs].

Definition kvm_arch_get_registers (own_thread : bool) (x : X86CPU) : res (Z * X86CPU) :=
  if negb own_thread then Err AssertFail else run_calls get_calls x.

(** ** Which copy is valid *)

Definition set_dirty (v : bool) (x : X86CPU) : X86CPU := set_cs (set_kvm_vcpu_dirty v (cs x)) x.

(** The result of reading the registers is not looked at. *)
Definition do_kvm_cpu_synchronize_state (x : X86CPU) : res X86CPU :=
  if negb (kvm_vcpu_dirty (cs x)) then
    let? (_, x) := kvm_arch_get_registers true x in Ok (set_dirty true x)
  else Ok x.

(** On the thread of the CPU, where run_on_cpu is a call. *)
Definition kvm_cpu_synchronize_state (x : X86CPU) : res X86CPU :=
  if negb (kvm_vcpu_dirty (cs x)) then do_kvm_cpu_synchronize_state x else Ok x.
End get.

Section reset.
Context `{KVM} (c : kvm_config) (code : list ioctl -> Z) (sw : bool).

Definition do_kvm_cpu_synchronize_post_reset (s : pstate) : res pstate :=
  let? (_, (x, t)) := kvm_arch_put_registers c code sw true KVM_PUT_RESET_STATE s in Ok (set_dirty false x, t).

Definition do_kvm_cpu_synchronize_post_init (s : pstate) : res pstate :=
  let? (_, (x, t)) := kvm_arch_put_registers c code sw true KVM_PUT_FULL_STATE s in Ok (set_dirty false x, t).
End reset.

(** ** Sequences stop at the first failure *)

Lemma run_calls_app {S} (l k : list (S -> res (Z * S))) s :
  run_calls (l ++ k) s = let? (ret, s) := run_calls l s in if ret <? 0 then Ok (ret, s) else run_calls k s.
Proof.
  revert s. induction l as [|f l IH]; intros s; [reflexivity|]. cbn [app run_calls].
  destruct (f s) as [[ret s']|]; cbn [rbind]; [|reflexivity].
  destruct (ret <? 0) eqn:E; cbn [rbind]; [rewrite E; reflexivity | apply IH].
Qed.

(** A property of the state that every successful call keeps. *)
Lemma run_calls_inv {S} (P : S -> Prop) (l : list (S -> res (Z * S))) s ret s' :
  Forall (fun f => forall s ret s', P s -> f s = Ok (ret, s') -> P s') l -> P s -> run_calls l s = Ok (ret, s') -> P s'.
Proof.
  intros H. revert s. induction H as [|f l Hf _ IH]; intros s Hs E; cbn in E; [injection E as _ <-; exact Hs|].
  destruct (f s) as [[r s1]|] eqn:Ef; cbn in E; [|discriminate].
  assert (P s1) by (apply (Hf s r); assumption).
  destruct (r <? 0); [injection E as _ <-; assumption | apply (IH s1); assumption].
Qed.

Lemma run_calls_result {S} (l : list (S -> res (Z * S))) s ret s' : run_calls l s = Ok (ret, s') -> ret <= 0.
Proof.
  revert s. induction l as [|f l IH]; intros s E; cbn in E; [injection E as <- _; lia|].
  destruct (f s) as [[r s1]|]; cbn in E; [|discriminate].
  destruct (Z.ltb_spec r 0); [injection E as <- _; lia | apply (IH s1), E].
Qed.

(** ** The ioctls that are made *)

Section plan.
Context `{KVM} (c : kvm_config) (code : list ioctl -> Z) (sw : bool) (level : Z) (x0 : X86CPU).

(** Issuing a list of ioctls up to the first that fails. *)
Fixpoint issue (plan : list ioctl) (t : list ioctl) : Z * list ioctl :=
  match plan with
  | [] => (0, t)
  | i :: plan => let t := i :: t in if code t <? 0 then (code t, t) else issue plan t
  end.

(** A machine check is pending and has to be injected in the old way. *)
Definition mce_pending : bool := negb (has_vcpu_events c) && (exception_injected (cs x0) =? EXCP12_MCHK).

(** The structures for segment registers, MSRs and machine check, whose construction can
    leave an array. *)
Record payloads (sregs : kvm_sregs) (l : list (Z * Z)) (mce : kvm_x86_mce) : Prop := {
  pl_sregs : kvm_put_sregs (env x0) (apic_state x0) = Ok sregs;
  pl_msrs : kvm_put_msrs (msr_caps c) (msrs x0) level = Ok l;
  pl_mce : mce_pending = true -> exists bank,
    find_bank (Z.to_nat (Z.land (mcg_cap (msrs x0)) 0xff)) 0 (msrs x0) = Ok bank /\ mce_of (msrs x0) bank = Ok mce }.

Definition apic_ioctl : list ioctl :=
  match apic_state x0 with
  | Some s => when (irqchip_in_kernel c) [SET_LAPIC (kvm_put_apic_state s)]
  | None => []
  end.

(** All ioctls in their order. *)
Definition plan (sregs : kvm_sregs) (l : list (Z * Z)) (mce : kvm_x86_mce) : list ioctl :=
  let reset := KVM_PUT_RESET_STATE <=? level in
  when (reset && has_msr_feature_control (msr_caps c))
    [SET_MSRS [(MSR_IA32_FEATURE_CONTROL, msr (msrs x0) msr_ia32_feature_control)]] ++
  [SET_REGS (kvm_put_regs (env x0))] ++
  [SET_FPU_STATE (kvm_put_xsave (has_xsave c) (fpu x0))] ++
  when (has_xcrs c) [SET_XCRS [(0, xcr0 (env x0))]] ++
  [SET_SREGS sregs] ++
  when mce_pending [X86_SET_MCE mce] ++
  [SET_MSRS l] ++
  when reset ([SET_MP_STATE (mp_state (env x0))] ++ apic_ioctl) ++
  when (has_msr_tsc_deadline (msr_caps c)) [SET_MSRS [(MSR_IA32_TSCDEADLINE, msr (msrs x0) tsc_deadline)]] ++
  when (has_vcpu_events c) [SET_VCPU_EVENTS (fst (kvm_put_vcpu_events c level x0))] ++
  when (has_debugregs c) [SET_DEBUGREGS (kvm_put_debugregs (env x0))].

Lemma issue_app p q t : issue (p ++ q) t = if (issue p t).1 <? 0 then issue p t else issue q (issue p t).2.
Proof.
  revert t. induction p as [|i p IH]; intros t; [reflexivity|]. cbn [app issue]. cbv zeta.
  destruct (code (i :: t) <? 0) eqn:E; [cbn [fst]; rewrite E; reflexivity | apply IH].
Qed.

(** A call makes the given ioctls and keeps the properties of the CPU that later ones need. *)
Definition implements (P : X86CPU -> Prop) (f : pstate -> res (Z * pstate)) (p : list ioctl) (Q : X86CPU -> Prop) : Prop :=
  forall x t, P x -> exists r x', f (x, t) = Ok (r, (x', (issue p t).2)) /\ Q x' /\
    (if (issue p t).1 <? 0 then r = (issue p t).1 else 0 <= r).

Lemma implements_nil P : implements P (run_calls []) [] P.
Proof. intros x t Hx. exists 0, x. cbn. auto with lia. Qed.

Lemma implements_cons P Q R f fs p q : implements P f p Q -> implements Q (run_calls fs) q R ->
  (forall x, Q x -> R x) -> implements P (run_calls (f :: fs)) (p ++ q) R.
Proof.
  intros Hf Hfs HR x t Hx. destruct (Hf x t Hx) as (r & x' & E & Hx' & Hr).
  rewrite issue_app. cbn [run_calls]. rewrite E. cbn [rbind].
  destruct ((issue p t).1 <? 0) eqn:Ei.
  - subst r. rewrite Ei. exists (issue p t).1, x'. split; [reflexivity|]. split; [apply HR, Hx'|]. reflexivity.
  - rewrite (proj2 (Z.ltb_ge _ _) Hr). apply Hfs, Hx'.
Qed.

(** What every call but the last ones keeps. *)
Record same (x : X86CPU) : Prop := {
  sm_env : env x = env x0; sm_fpu : fpu x = fpu x0; sm_msrs : msrs x = msrs x0; sm_apic : apic_state x = apic_state x0;
  sm_int : interrupt_request x = interrupt_request x0;
  sm_error : has_error_code (cs x) = has_error_code (cs x0);
  sm_exc : has_vcpu_events c = true -> exception_injected (cs x) = exception_injected (cs x0) }.

Lemma implements_ioctl P f i : (forall x t, P x -> f (x, t) = Ok (do_ioctl code i (x, t))) -> implements P f [i] P.
Proof.
  intros Hf x t Hx. exists (code (i :: t)), x. rewrite (Hf x t Hx). unfold do_ioctl. cbn [fst snd issue]. cbv zeta.
  destruct (code (i :: t) <? 0) eqn:E; cbn [fst snd]; (split; [reflexivity|]; split; [exact Hx|]); [rewrite E; reflexivity|].
  apply Z.ltb_ge in E. exact E.
Qed.

Lemma implements_skip P (f : pstate -> res (Z * pstate)) : (forall x t, P x -> f (x, t) = Ok (0, (x, t))) -> implements P f [] P.
Proof. intros Hf x t Hx. exists 0, x. rewrite (Hf x t Hx). cbn. auto with lia. Qed.

(** Before the machine check is injected. *)
Definition same0 (x : X86CPU) : Prop := same x /\ exception_injected (cs x) = exception_injected (cs x0).

Lemma put_regs_implements : implements same0 (call_put_regs code) [SET_REGS (kvm_put_regs (env x0))] same0.
Proof.
  intros x t [Hx He]. unfold call_put_regs, do_ioctl. cbn [fst snd issue]. cbv zeta. rewrite (sm_env x Hx).
  set (r := kvm_put_regs (env x0)). destruct (code (SET_REGS r :: t) <? 0) eqn:E; cbn [fst snd]; do 2 eexists;
    (split; [reflexivity|]; split).
  - split; assumption.
  - rewrite E. reflexivity.
  - destruct Hx. split; [constructor; cbn; assumption | exact He].
  - apply Z.ltb_ge in E. exact E.
Qed.

Lemma inject_mce_implements sregs l mce : payloads sregs l mce ->
  implements same0 (kvm_inject_mce_oldstyle c code) (when mce_pending [X86_SET_MCE mce]) same.
Proof.
  intros [_ _ Hm] x t [Hx He]. unfold kvm_inject_mce_oldstyle. cbn [fst snd]. rewrite He. fold mce_pending.
  destruct mce_pending eqn:Ep; cbn [when issue fst snd].
  - destruct (Hm eq_refl) as (bank & Eb & Em). cbv zeta. cbn [msrs set_cs]. rewrite (sm_msrs x Hx), Eb. cbn [rbind]. rewrite Em. cbn [rbind].
    unfold do_ioctl. cbn [fst snd]. do 2 eexists. destruct (code (X86_SET_MCE mce :: t) <? 0) eqn:E; cbn [fst snd].
    all: split; [reflexivity|]; split; [|rewrite ?E; try reflexivity; apply Z.ltb_ge in E; exact E].
    all: destruct Hx; constructor; cbn; try assumption; unfold mce_pending in Ep; intros Hv; rewrite Hv in Ep; discriminate.
  - exists 0, x. cbn. split; [reflexivity|]. split; [exact Hx | lia].
Qed.

Lemma put_events_implements :
  implements same (call_put_vcpu_events c code level)
    (when (has_vcpu_events c) [SET_VCPU_EVENTS (fst (kvm_put_vcpu_events c level x0))]) (fun x => env x = env x0).
Proof.
  intros x t Hx. unfold call_put_vcpu_events. destruct (has_vcpu_events c) eqn:Ev; cbn [negb when issue fst snd].
  - assert (fst (kvm_put_vcpu_events c level x) = fst (kvm_put_vcpu_events c level x0)) as E.
    { destruct Hx. unfold kvm_put_vcpu_events. cbn [fst]. rewrite sm_env0, sm_int0, sm_error0, sm_exc0 by exact Ev. reflexivity. }
    rewrite (surjective_pairing (kvm_put_vcpu_events c level x)). rewrite E. unfold do_ioctl. cbn [fst snd]. cbv zeta.
    assert (env (snd (kvm_put_vcpu_events c level x)) = env x0) as En.
    { cbn [kvm_put_vcpu_events snd]. destruct (_ && _); cbn; apply Hx. }
    destruct (code _ <? 0) eqn:Ec; cbn [fst snd]; do 2 eexists; (split; [reflexivity|]; split; [exact En|]).
    + rewrite Ec. reflexivity.
    + apply Z.ltb_ge in Ec. exact Ec.
  - exists 0, x. cbn. split; [reflexivity|]. split; [apply Hx | lia].
Qed.

Lemma same_plain f i : (forall x t, same x -> f (x, t) = Ok (do_ioctl code i (x, t))) ->
  implements same f [i] same /\ implements same0 f [i] same0.
Proof.
  intros Hf. split; apply implements_ioctl; [exact Hf|]. intros x t [Hx _]. apply Hf, Hx.
Qed.

Lemma implements_app P Q fs gs p q : implements P (run_calls fs) p Q -> implements Q (run_calls gs) q Q ->
  implements P (run_calls (fs ++ gs)) (p ++ q) Q.
Proof.
  intros Hf Hg x t Hx. destruct (Hf x t Hx) as (r & x' & E & Hx' & Hr).
  rewrite issue_app, run_calls_app, E. cbn [rbind].
  destruct ((issue p t).1 <? 0) eqn:Ei.
  - subst r. rewrite Ei. exists (issue p t).1, x'. split; [reflexivity|]. split; [exact Hx' | reflexivity].
  - rewrite (proj2 (Z.ltb_ge _ _) Hr). apply Hg, Hx'.
Qed.

Lemma implements_when P f b p : implements P (run_calls f) p P -> implements P (run_calls (when b f)) (when b p) P.
Proof. destruct b; [auto | intros _; apply implements_nil]. Qed.

Lemma implements_one P Q f p : implements P f p Q -> (forall x, Q x -> P x) -> implements P (run_calls [f]) p P.
Proof.
  intros Hf HQ. rewrite <- (app_nil_r p). eapply implements_cons; [exact Hf | | exact HQ].
  intros x t Hx. destruct (implements_nil P x t (HQ x Hx)) as (r & x' & E). eauto.
Qed.

(** The calls up to the registers of the interrupt controller. *)
Lemma first_calls sregs l mce : payloads sregs l mce ->
  implements same0
    (run_calls [call_put_regs code; call_put_xsave c code; call_put_xcrs c code; call_put_sregs code;
                kvm_inject_mce_oldstyle c code; call_put_msrs c code level])
    ([SET_REGS (kvm_put_regs (env x0))] ++ [SET_FPU_STATE (kvm_put_xsave (has_xsave c) (fpu x0))] ++
     when (has_xcrs c) [SET_XCRS [(0, xcr0 (env x0))]] ++ [SET_SREGS sregs] ++ when mce_pending [X86_SET_MCE mce] ++
     [SET_MSRS l]) same.
Proof.
  intros PL. pose proof (fun x (H : same0 x) => proj1 H) as weak.
  eapply implements_cons; [apply put_regs_implements | | exact weak].
  eapply implements_cons; [apply (same_plain (call_put_xsave c code)) | | exact weak].
  { intros x t Hx. unfold call_put_xsave. cbn [fst]. rewrite (sm_fpu x Hx). reflexivity. }
  eapply implements_cons; [| | exact weak].
  { unfold call_put_xcrs. destruct (has_xcrs c); [apply same_plain | apply implements_skip; reflexivity].
    intros x t Hx. unfold kvm_put_xcrs. cbn [fst]. rewrite (sm_env x Hx). reflexivity. }
  eapply implements_cons; [apply (same_plain (call_put_sregs code)) | | exact weak].
  { intros x t Hx. unfold call_put_sregs. cbn [fst]. rewrite (sm_env x Hx), (sm_apic x Hx), (pl_sregs _ _ _ PL). reflexivity. }
  eapply implements_cons; [apply (inject_mce_implements _ _ _ PL) | | auto].
  apply (implements_one same same); [|auto]. apply same_plain.
  intros x t Hx. unfold call_put_msrs. cbn [fst]. rewrite (sm_msrs x Hx), (pl_msrs _ _ _ PL). reflexivity.
Qed.

Lemma feature_control_call : implements same0 (run_calls [call_put_msr_feature_control code])
  [SET_MSRS [(MSR_IA32_FEATURE_CONTROL, msr (msrs x0) msr_ia32_feature_control)]] same0.
Proof.
  apply (implements_one same0 same0); [|auto]. apply same_plain. intros x t Hx.
  unfold call_put_msr_feature_control. cbn [fst]. rewrite (sm_msrs x Hx). reflexivity.
Qed.

Lemma reset_calls : implements same (run_calls [call_put_mp_state code; kvm_put_apic c code])
  ([SET_MP_STATE (mp_state (env x0))] ++ apic_ioctl) same.
Proof.
  eapply implements_cons; [apply (same_plain (call_put_mp_state code)) | | auto].
  { intros x t Hx. unfold call_put_mp_state, kvm_put_mp_state. cbn [fst]. rewrite (sm_env x Hx). reflexivity. }
  apply (implements_one same same); [|auto]. unfold apic_ioctl, kvm_put_apic.
  destruct (apic_state x0) as [s|] eqn:Ea.
  - destruct (irqchip_in_kernel c).
    + apply same_plain. intros x t Hx. cbn [fst]. rewrite (sm_apic x Hx), Ea. reflexivity.
    + apply implements_skip. intros x t Hx. cbn [fst]. rewrite (sm_apic x Hx), Ea. reflexivity.
  - apply implements_skip. intros x t Hx. cbn [fst]. rewrite (sm_apic x Hx), Ea. reflexivity.
Qed.

(** The calls before the last one. *)
Lemma late_calls : implements same
  (run_calls [call_put_tscdeadline_msr c code; call_put_vcpu_events c code level; call_put_debugregs c code])
  (when (has_msr_tsc_deadline (msr_caps c)) [SET_MSRS [(MSR_IA32_TSCDEADLINE, msr (msrs x0) tsc_deadline)]] ++
   when (has_vcpu_events c) [SET_VCPU_EVENTS (fst (kvm_put_vcpu_events c level x0))] ++
   when (has_debugregs c) [SET_DEBUGREGS (kvm_put_debugregs (env x0))]) (fun x => env x = env x0).
Proof.
  eapply (implements_cons _ same); [| | apply sm_env].
  { unfold call_put_tscdeadline_msr, kvm_put_tscdeadline_msr. destruct (has_msr_tsc_deadline (msr_caps c)).
    - apply same_plain. intros x t Hx. cbn [fst when]. rewrite (sm_msrs x Hx). reflexivity.
    - apply implements_skip. reflexivity. }
  eapply implements_cons; [apply put_events_implements | | auto].
  apply (implements_one _ (fun x => env x = env x0)); [|auto]. unfold call_put_debugregs. destruct (has_debugregs c).
  - apply implements_ioctl. intros x t Hx. cbn [fst]. rewrite Hx. reflexivity.
  - apply implements_skip. reflexivity.
Qed.

Lemma implements_seq P Q R fs gs p q : implements P (run_calls fs) p Q -> implements Q (run_calls gs) q R ->
  (forall x, Q x -> R x) -> implements P (run_calls (fs ++ gs)) (p ++ q) R.
Proof.
  intros Hf Hg HR x t Hx. destruct (Hf x t Hx) as (r & x' & E & Hx' & Hr).
  rewrite issue_app, run_calls_app, E. cbn [rbind].
  destruct ((issue p t).1 <? 0) eqn:Ei.
  - subst r. rewrite Ei. exists (issue p t).1, x'. split; [reflexivity|]. split; [apply HR, Hx' | reflexivity].
  - rewrite (proj2 (Z.ltb_ge _ _) Hr). apply Hg, Hx'.
Qed.

Lemma all_but_last sregs l mce : payloads sregs l mce ->
  implements same0
    (run_calls (when ((KVM_PUT_RESET_STATE <=? level) && has_msr_feature_control (msr_caps c)) [call_put_msr_feature_control code] ++
     [call_put_regs code; call_put_xsave c code; call_put_xcrs c code; call_put_sregs code;
      kvm_inject_mce_oldstyle c code; call_put_msrs c code level] ++
     when (KVM_PUT_RESET_STATE <=? level) [call_put_mp_state code; kvm_put_apic c code] ++
     [call_put_tscdeadline_msr c code; call_put_vcpu_events c code level; call_put_debugregs c code]))
    (plan sregs l mce) (fun x => env x = env x0).
Proof.
  intros PL. unfold plan. cbv zeta.
  apply (implements_seq _ same0); [apply implements_when, feature_control_call | | intros x Hx; apply Hx].
  match goal with |- implements _ _ (?a ++ ?b ++ ?c ++ ?d ++ ?e ++ ?f ++ ?g ++ ?h) _ =>
    replace (a ++ b ++ c ++ d ++ e ++ f ++ g ++ h) with ((a ++ b ++ c ++ d ++ e ++ f) ++ g ++ h)
      by (rewrite <- !app_assoc; reflexivity) end.
  apply (implements_seq _ same); [apply first_calls, PL | | apply sm_env].
  apply (implements_seq _ same); [apply implements_when, reset_calls | apply late_calls | apply sm_env].
Qed.
End plan.

(** C18: kvm_arch_put_registers makes the ioctls of the plan for its level in their order - the
    feature control register first at reset, the machine check before the model-specific
    registers - with the contents of QEMU's register file, and stops at the first that the kernel
    rejects, whose error it returns; if none is rejected the debug registers are programmed
    again last, where that is needed. *)
Theorem put_follows_plan `{KVM} c code sw level x0 sregs l mce : payloads c level x0 sregs l mce ->
  let r := (issue code (plan c level x0 sregs l mce) []).1 in
  let t := (issue code (plan c level x0 sregs l mce) []).2 in
  exists x, env x = env x0 /\
    kvm_arch_put_registers c code sw true level (x0, []) =
      if r <? 0 then Ok (r, (x, t))
      else let? (ret, s) := kvm_guest_debug_workarounds c sw (x, t) in Ok (if ret <? 0 then ret else 0, s).
Proof.
  intros PL. assert (same0 c x0 x0) as H0 by (split; [constructor; auto | reflexivity]).
  destruct (all_but_last c code level x0 sregs l mce PL x0 [] H0) as (r & x & E & Hx & Hr).
  exists x. split; [exact Hx|]. unfold kvm_arch_put_registers, put_calls. cbn [negb].
  match goal with |- run_calls (?a ++ ?b ++ ?c ++ [?d; ?e; ?f; ?g]) _ = _ =>
    replace (a ++ b ++ c ++ [d; e; f; g]) with ((a ++ b ++ c ++ [d; e; f]) ++ [g])
      by (rewrite <- !app_assoc; reflexivity) end.
  rewrite run_calls_app, E. cbn [rbind].
  destruct ((issue code _ []).1 <? 0) eqn:Ei; [subst r; rewrite Ei; reflexivity|].
  rewrite (proj2 (Z.ltb_ge _ _) Hr). cbn [run_calls].
  destruct (kvm_guest_debug_workarounds c sw _) as [[ret s]|]; cbn [rbind]; [|reflexivity].
  destruct (ret <? 0); reflexivity.
Qed.

(** ** Round trip *)

(** A segment as struct kvm_segment keeps it; in virtual-8086 mode QEMU hands over the attributes
    of a ring 3 data segment. *)
Definition seg_through (e : x86_env) (s : SegmentCache) : SegmentCache :=
  if bits (eflags e) VM_MASK then mk_seg (u16 (selector s)) (base s) (limit s) 0xf300 else seg_kept s.

(** The register file [e] as the kernel's structures keep it, with the rest of [e0]: what the
    kernel has no ioctl for stays as it is there. *)
Definition env_fields (c : kvm_config) (e e0 : x86_env) : x86_env :=
  let ev := if has_vcpu_events c then e else e0 in
  mk_env (env_regs e) (eip e) (eflags e) (hflags e0) (hflags2 e0) (seg_through e <$> segs e) (seg_kept (ldt e))
    (seg_kept (tr e)) (mk_seg (selector (gdt e0)) (base (gdt e)) (u16 (limit (gdt e))) (flags (gdt e0)))
    (mk_seg (selector (idt e0)) (base (idt e)) (u16 (limit (idt e))) (flags (idt e0)))
    [CR e 0; CR e0 1; CR e 2; CR e 3; CR e 4] (efer e)
    (if has_debugregs c then [DR e 0; DR e 1; DR e 2; DR e 3; DR e 6; DR e 7; DR e 6; DR e 7] else dr e0)
    (if has_xcrs c then xcr0 e else xcr0 e0) (mp_state e) (error_code ev)
    (interrupt_injected e) (soft_interrupt ev) (nmi_injected ev) (nmi_pending ev) (sipi_vector ev).

(** The mode flags are computed, the flag for a masked NMI is transferred. *)
Definition env_transferred (c : kvm_config) (e e0 : x86_env) : x86_env :=
  set_hflags (Z.lor (u32 (Z.land (hflags e0) HFLAG_COPY_MASK)) (kvm_hflags (env_fields c e e0)))
    (if has_vcpu_events c then set_flag (bits (hflags2 e) HF2_NMI_MASK) HF2_NMI_MASK (hflags2 e0) else hflags2 e0)
    (env_fields c e e0).

Lemma hflags_ext e e' : segs e = segs e' -> cr e = cr e' -> eflags e = eflags e' -> efer e = efer e' ->
  kvm_hflags e = kvm_hflags e'.
Proof.
  intros H1 H2 H3 H4. unfold kvm_hflags, hflags_mode, seg, CR. rewrite H1, H2, H3, H4. reflexivity.
Qed.

(** The answers to a transfer of [x] at [level]: the structures that were built for it; [m] are
    the model-specific registers that are read. *)
Record returns_last (c : kvm_config) (level : Z) (x y : X86CPU) (a : answers) (m : msr_env) : Prop := {
  rl_regs : a_regs a = 0 /\ vcpu_regs (cs y) = kvm_put_regs (env x);
  rl_fpu : fpu_returned (kvm_put_xsave (has_xsave c) (fpu x)) (a_fpu a);
  rl_xcrs : has_xcrs c = true -> a_xcrs a = (0, kvm_put_xcrs (env x));
  rl_sregs : exists s, kvm_put_sregs (env x) (apic_state x) = Ok s /\ a_sregs a = (0, s);
  rl_msrs : kvm_get_msrs (msr_caps c) (running a) (a_msrs a) (msrs y) = Ok (0, m);
  rl_mp : a_mp a = (0, kvm_put_mp_state (env x));
  rl_lapic : is_Some (apic_state y) -> irqchip_in_kernel c = true -> (a_lapic a).1 = 0;
  rl_events : has_vcpu_events c = true -> a_events a = (0, fst (kvm_put_vcpu_events c level x));
  rl_debugregs : has_debugregs c = true -> a_debugregs a = (0, kvm_put_debugregs (env x)) }.

(** The CPU [y] after reading: the controller is [s'], the model-specific registers are [m]. *)
Definition transferred (c : kvm_config) (x y : X86CPU) (m : msr_env) (s' : option APICCommonState) : X86CPU :=
  mk_x86 (if has_vcpu_events c
          then set_has_error_code (has_error_code (cs x)) (set_exception_injected (exception_injected (cs x)) (cs y)) else cs y)
    (env_transferred c (env x) (env y))
    (if has_xsave c then with_status (fpu x) else legacy_part (fpu x) (fpu y)) m s' (interrupt_request y)
    (if irqchip_in_kernel c then mp_state (env x) =? KVM_MP_STATE_HALTED else halted y).

Lemma regs_list16 l : length l = 16%nat ->
  [nth 0 l 0; nth 1 l 0; nth 2 l 0; nth 3 l 0; nth 4 l 0; nth 5 l 0; nth 6 l 0; nth 7 l 0;
   nth 8 l 0; nth 9 l 0; nth 10 l 0; nth 11 l 0; nth 12 l 0; nth 13 l 0; nth 14 l 0; nth 15 l 0] = l.
Proof. intros Hl. do 16 (destruct l as [|? l]; [discriminate|]). destruct l; [reflexivity | discriminate]. Qed.

Lemma segs_list6 (f : SegmentCache -> SegmentCache) l d : length l = 6%nat ->
  [f (nth 0 l d); f (nth 1 l d); f (nth 2 l d); f (nth 3 l d); f (nth 4 l d); f (nth 5 l d)] = f <$> l.
Proof. intros Hl. do 6 (destruct l as [|? l]; [discriminate|]). destruct l; [reflexivity | discriminate]. Qed.

Lemma s32_u32 z : - 2 ^ 31 <= z < 2 ^ 31 -> s32 (u32 z) = z.
Proof.
  intros Hz. unfold s32, u32. rewrite Z.mod_mod by lia. destruct (Z.lt_ge_cases z 0).
  - replace (z mod 2 ^ 32) with (z + 2 ^ 32) by (symmetry; rewrite <- (Z.mod_add z 1) by lia; apply Z.mod_small; lia).
    rewrite (proj2 (Z.ltb_ge _ _)) by lia. lia.
  - rewrite Z.mod_small by lia. rewrite (proj2 (Z.ltb_lt _ _)) by lia. reflexivity.
Qed.

(** A vector or -1 through the flag and the byte of struct kvm_vcpu_events. *)
Lemma vector_back n : -1 <= n < 256 -> (if (if 0 <=? n then 1 else 0) =? 0 then -1 else u8 n) = n.
Proof.
  intros Hn. destruct (Z.leb_spec 0 n); cbn; [apply Z.mod_small | ]; lia.
Qed.

Lemma x86_ext x y : cs x = cs y -> env x = env y -> fpu x = fpu y -> msrs x = msrs y -> apic_state x = apic_state y ->
  interrupt_request x = interrupt_request y -> halted x = halted y -> x = y.
Proof. destruct x, y. cbn. intros. subst. reflexivity. Qed.

Lemma env_ext e e' : env_regs e = env_regs e' -> eip e = eip e' -> eflags e = eflags e' -> hflags e = hflags e' ->
  hflags2 e = hflags2 e' -> segs e = segs e' -> ldt e = ldt e' -> tr e = tr e' -> gdt e = gdt e' -> idt e = idt e' ->
  cr e = cr e' -> efer e = efer e' -> dr e = dr e' -> xcr0 e = xcr0 e' -> mp_state e = mp_state e' ->
  error_code e = error_code e' -> interrupt_injected e = interrupt_injected e' -> soft_interrupt e = soft_interrupt e' ->
  nmi_injected e = nmi_injected e' -> nmi_pending e = nmi_pending e' -> sipi_vector e = sipi_vector e' -> e = e'.
Proof. destruct e, e'. cbn. intros. subst. reflexivity. Qed.

Lemma run_step {S} (f : S -> res (Z * S)) l s s' : f s = Ok (0, s') -> run_calls (f :: l) s = run_calls l s'.
Proof. intros E. cbn [run_calls]. rewrite E. reflexivity. Qed.

Lemma sregs_back e apic e0 : x86_ok e -> -1 <= interrupt_injected e < 256 ->
  eflags e0 = eflags e ->
  exists s, kvm_put_sregs e apic = Ok s /\
    copy_sregs s e0 = mk_env (env_regs e0) (eip e0) (eflags e0) (hflags e0) (hflags2 e0) (seg_through e <$> segs e)
      (seg_kept (ldt e)) (seg_kept (tr e)) (mk_seg (selector (gdt e0)) (base (gdt e)) (u16 (limit (gdt e))) (flags (gdt e0)))
      (mk_seg (selector (idt e0)) (base (idt e)) (u16 (limit (idt e))) (flags (idt e0)))
      [CR e 0; CR e0 1; CR e 2; CR e 3; CR e 4] (efer e) (dr e0) (xcr0 e0) (mp_state e0) (error_code e0)
      (interrupt_injected e) (soft_interrupt e0) (nmi_injected e0) (nmi_pending e0) (sipi_vector e0).
Proof.
  intros OK Hi He. destruct (bitmap_back _ Hi) as (l & El & Ef). unfold kvm_put_sregs. rewrite El. cbn [rbind].
  eexists. split; [reflexivity|]. unfold copy_sregs.
  cbn [s_es s_cs s_ss s_ds s_fs s_gs s_ldt s_tr s_gdt s_idt s_cr0 s_cr2 s_cr3 s_cr4 s_efer interrupt_bitmap].
  assert (forall s, get_seg ((if bits (eflags e) VM_MASK then set_v8086_seg else set_seg) s) = seg_through e s) as Es.
  { intros s. unfold seg_through. destruct (bits _ _); [apply v8086_seg_back | apply seg_back]. }
  rewrite !Es, !seg_back, Ef. unfold get_table. cbn [fst snd].
  destruct (xo_segs e OK) as [Hl _]. rewrite <- (segs_list6 (seg_through e) (segs e) zero_seg Hl). reflexivity.
Qed.

Section RoundTrip.
Context (c : kvm_config) (level : Z) (x y : X86CPU) (a : answers) (m : msr_env).
Context (RL : returns_last c level x y a m) (OKx : x86_ok (env x)) (OKf : fpu_ok (fpu x)) (OKg : fpu_ok (fpu y)).
Context (Hint : -1 <= interrupt_injected (env x) < 256).
Context (Hexc : -1 <= exception_injected (cs x) < 256) (Herr : 0 <= has_error_code (cs x) < 256).

Lemma get_regs_step : call_get_regs a y = Ok (0, set_env (set_regs_env (kvm_put_regs (env x)) (env y)) y).
Proof using RL.
  unfold call_get_regs, on_env, kvm_get_regs. destruct (rl_regs _ _ _ _ _ _ RL) as [-> ->]. reflexivity.
Qed.

Lemma get_xsave_step z : fpu z = fpu y ->
  call_get_xsave c a z = Ok (0, set_fpu (if has_xsave c then with_status (fpu x) else legacy_part (fpu x) (fpu y)) z).
Proof using RL OKf OKg.
  intros Hz. unfold call_get_xsave. rewrite Hz, (xsave_back (has_xsave c) (fpu x) (fpu y)); [reflexivity | assumption | assumption | apply RL].
Qed.

Lemma get_xcrs_step z : call_get_xcrs c a z = Ok (0, set_env (set_xcr0 (if has_xcrs c then xcr0 (env x) else xcr0 (env z)) (env z)) z).
Proof using RL.
  unfold call_get_xcrs, on_env, kvm_get_xcrs. pose proof (rl_xcrs _ _ _ _ _ _ RL) as E.
  destruct (has_xcrs c); [rewrite E by reflexivity; reflexivity | destruct z as [? [] ? ? ? ? ?]; reflexivity].
Qed.

Lemma get_debugregs_step z :
  call_get_debugregs c a z = Ok (0, set_env (set_dr (if has_debugregs c then [DR (env x) 0; DR (env x) 1; DR (env x) 2; DR (env x) 3;
    DR (env x) 6; DR (env x) 7; DR (env x) 6; DR (env x) 7] else dr (env z)) (env z)) z).
Proof using RL.
  unfold call_get_debugregs, on_env, kvm_get_debugregs. pose proof (rl_debugregs _ _ _ _ _ _ RL) as E.
  destruct (has_debugregs c); [rewrite E by reflexivity; reflexivity | destruct z as [? [] ? ? ? ? ?]; reflexivity].
Qed.

(** The pending events of the CPU, if the kernel has them. *)
Definition with_events (z : X86CPU) : X86CPU :=
  if has_vcpu_events c then
    set_env (set_events (fst (kvm_put_vcpu_events c level x)) (hflags (env z))
              (set_flag (bits (hflags2 (env x)) HF2_NMI_MASK) HF2_NMI_MASK (hflags2 (env z))) (env z))
      (set_cs (set_has_error_code (has_error_code (cs x)) (set_exception_injected (exception_injected (cs x)) (cs z))) z)
  else z.

Lemma get_events_step z : call_get_vcpu_events c a z = Ok (0, with_events z).
Proof using RL Hexc Herr.
  unfold call_get_vcpu_events, kvm_get_vcpu_events, with_events. pose proof (rl_events _ _ _ _ _ _ RL) as Ee.
  destruct (has_vcpu_events c); [|reflexivity]. rewrite Ee by reflexivity. cbn [negb].
  change (0 <? 0) with false. cbv iota. set (ev := fst _).
  assert (bits (ev_flags ev) KVM_VCPUEVENT_VALID_SMM = false) as -> by (cbn; destruct (_ <=? level); reflexivity).
  assert ((if ev_exc_injected ev =? 0 then -1 else ev_exc_nr ev) = exception_injected (cs x)) as ->
    by exact (vector_back _ Hexc).
  assert (ev_has_error_code ev = has_error_code (cs x)) as -> by (apply u8_small; lia).
  assert (negb (ev_nmi_masked ev =? 0) = bits (hflags2 (env x)) HF2_NMI_MASK) as ->
    by (cbn; unfold nonzero, bits; destruct (Z.land (hflags2 (env x)) HF2_NMI_MASK =? 0); reflexivity).
  reflexivity.
Qed.

Lemma set_events_back h h2 e : set_events (fst (kvm_put_vcpu_events c level x)) h h2 e =
  mk_env (env_regs e) (eip e) (eflags e) h h2 (segs e) (ldt e) (tr e) (gdt e) (idt e) (cr e) (efer e) (dr e)
    (xcr0 e) (mp_state e) (error_code (env x)) (interrupt_injected (env x)) (soft_interrupt (env x))
    (nmi_injected (env x)) (nmi_pending (env x)) (sipi_vector (env x)).
Proof using OKx Hint.
  unfold set_events. cbn [fst kvm_put_vcpu_events ev_error_code ev_int_injected ev_int_nr ev_int_soft ev_nmi_injected
    ev_nmi_pending ev_sipi_vector]. rewrite (s32_u32 _ (xo_error _ OKx)), (vector_back _ Hint). reflexivity.
Qed.

(** The controller after reading, [y]'s own if it is not in the kernel. *)
Definition apic_read : option APICCommonState :=
  match apic_state y with
  | Some s => if irqchip_in_kernel c then Some (kvm_get_apic_state s (a_lapic a).2 (now a)) else Some s
  | None => None
  end.

Lemma get_apic_step z : apic_state z = apic_state y -> kvm_get_apic c a z = Ok (0, set_apic_state apic_read z).
Proof using RL.
  intros Hz. unfold kvm_get_apic, apic_read. rewrite Hz. pose proof (rl_lapic _ _ _ _ _ _ RL) as Hl.
  destruct (a_lapic a) as [ret k]. cbn in Hl. destruct z. cbn in *. subst.
  destruct (apic_state y); [destruct (irqchip_in_kernel c)|]; try reflexivity. rewrite Hl by eauto. reflexivity.
Qed.

Lemma get_all : kvm_arch_get_registers c a true y = Ok (0, transferred c x y m apic_read).
Proof using All.
  unfold kvm_arch_get_registers, get_calls. cbn [negb].
  rewrite (run_step _ _ _ _ get_regs_step). erewrite (run_step (call_get_xsave c a)) by (apply get_xsave_step; reflexivity).
  rewrite (run_step _ _ _ _ (get_xcrs_step _)).
  set (z := set_env (set_xcr0 _ _) _).
  destruct (rl_sregs _ _ _ _ _ _ RL) as (s & Es & Ea).
  destruct (sregs_back (env x) (apic_state x) (env z) OKx Hint eq_refl) as (s' & Es' & Ec).
  assert (s' = s) as -> by congruence.
  assert (call_get_sregs a z = Ok (0, set_env (set_hflags (Z.lor (u32 (Z.land (hflags (copy_sregs s (env z))) HFLAG_COPY_MASK))
    (kvm_hflags (copy_sregs s (env z)))) (hflags2 (copy_sregs s (env z))) (copy_sregs s (env z))) z)) as E4
    by (unfold call_get_sregs, on_env, kvm_get_sregs; rewrite Ea; reflexivity).
  rewrite (run_step _ _ _ _ E4). clear E4.
  rewrite (hflags_ext (copy_sregs s (env z)) (env_fields c (env x) (env y))) by (rewrite Ec; reflexivity).
  set (h := kvm_hflags _). rewrite Ec. set (w := set_env _ z).
  assert (call_get_msrs c a w = Ok (0, set_msrs m w)) as E5
    by (unfold call_get_msrs; change (msrs w) with (msrs y); rewrite (rl_msrs _ _ _ _ _ _ RL); reflexivity).
  rewrite (run_step _ _ _ _ E5). clear E5.
  assert (call_get_mp_state c a (set_msrs m w) = Ok (0, let v := set_env (set_mp_state (mp_state (env x)) (env w)) (set_msrs m w) in
    if irqchip_in_kernel c then set_halted (mp_state (env x) =? KVM_MP_STATE_HALTED) v else v)) as E6
    by (unfold call_get_mp_state, kvm_get_mp_state; rewrite (rl_mp _ _ _ _ _ _ RL); reflexivity).
  rewrite (run_step _ _ _ _ E6). clear E6. cbv zeta.
  erewrite (run_step (kvm_get_apic c a)) by (apply get_apic_step; destruct (irqchip_in_kernel c); reflexivity).
  rewrite (run_step _ _ _ _ (get_events_step _)), (run_step _ _ _ _ (get_debugregs_step _)).
  cbn [run_calls]. do 2 f_equal. unfold with_events.
  apply x86_ext; unfold transferred; cbn [cs env fpu msrs apic_state interrupt_request halted];
    try (destruct (has_vcpu_events c), (irqchip_in_kernel c); reflexivity).
  pose proof (regs_list16 _ (proj1 (xo_regs _ OKx))) as R16.
  unfold env_transferred. destruct (has_vcpu_events c) eqn:Hev.
  - transitivity (set_dr (dr (env_fields c (env x) (env y))) (set_events (fst (kvm_put_vcpu_events c level x))
      (Z.lor (u32 (Z.land (hflags (env y)) HFLAG_COPY_MASK)) h)
      (set_flag (bits (hflags2 (env x)) HF2_NMI_MASK) HF2_NMI_MASK (hflags2 (env y))) (set_mp_state (mp_state (env x)) (env w)))).
    { unfold env_fields. destruct (irqchip_in_kernel c), (has_debugregs c); reflexivity. }
    rewrite set_events_back. unfold env_fields. rewrite Hev. apply env_ext; try reflexivity. exact R16.
  - transitivity (set_dr (dr (env_fields c (env x) (env y))) (set_mp_state (mp_state (env x)) (env w))).
    { unfold env_fields. destruct (irqchip_in_kernel c), (has_debugregs c); reflexivity. }
    unfold env_fields. rewrite Hev. apply env_ext; try reflexivity. exact R16.
Qed.
End RoundTrip.

(** ** What the kernel was given *)

(** The last ioctl of a kind in a trace, newest first. *)
Definition last_given {A} (f : ioctl -> option A) (t : list ioctl) : option A := hd_error (omap f t).
Definition given_regs (i : ioctl) : option kvm_regs := match i with SET_REGS r => Some r | _ => None end.
Definition given_fpu (i : ioctl) : option fpu_set := match i with SET_FPU_STATE s => Some s | _ => None end.
Definition given_xcrs (i : ioctl) : option (list (Z * Z)) := match i with SET_XCRS l => Some l | _ => None end.
Definition given_sregs (i : ioctl) : option kvm_sregs := match i with SET_SREGS s => Some s | _ => None end.
Definition given_mp (i : ioctl) : option Z := match i with SET_MP_STATE s => Some s | _ => None end.
Definition given_lapic (i : ioctl) : option mem := match i with SET_LAPIC p => Some p | _ => None end.
Definition given_events (i : ioctl) : option kvm_vcpu_events := match i with SET_VCPU_EVENTS ev => Some ev | _ => None end.
Definition given_debugregs (i : ioctl) : option kvm_debugregs := match i with SET_DEBUGREGS d => Some d | _ => None end.

(** The model-specific registers of a kernel that had [k]. *)
Definition msrs_given (t : list ioctl) (k : Z -> Z) : Z -> Z :=
  foldr (fun i k => match i with SET_MSRS l => apply_msrs l k | _ => k end) k t.

(** A kernel that answers with what it was last given in the trace [t]; [k] are the
    model-specific registers before.  KVM_GET_REGS copies the registers of the virtual CPU. *)
Record recalls (t : list ioctl) (k : Z -> Z) (y : X86CPU) (a : answers) : Prop := {
  rc_regs : forall r, last_given given_regs t = Some r -> a_regs a = 0 /\ vcpu_regs (cs y) = r;
  rc_fpu : forall s, last_given given_fpu t = Some s -> fpu_returned s (a_fpu a);
  rc_xcrs : forall l, last_given given_xcrs t = Some l -> a_xcrs a = (0, l);
  rc_sregs : forall s, last_given given_sregs t = Some s -> a_sregs a = (0, s);
  rc_msrs : a_msrs a = answer (msrs_given t k);
  rc_mp : forall v, last_given given_mp t = Some v -> a_mp a = (0, v);
  rc_lapic : forall p, last_given given_lapic t = Some p ->
    (a_lapic a).1 = 0 /\ forall i, 0 <= i < KVM_APIC_REG_SIZE -> (a_lapic a).2 i = p i;
  rc_events : forall ev, last_given given_events t = Some ev -> a_events a = (0, ev);
  rc_debugregs : forall d, last_given given_debugregs t = Some d -> a_debugregs a = (0, d) }.

(** [x] is written and [y] read into: fields of their widths, vectors that are -1 or a vector, the
    same number of machine check banks, and both with an interrupt controller or both without. *)
Record transfer_ok (c : kvm_config) (x y : X86CPU) : Prop := {
  to_env : x86_ok (env x);
  to_fpu : fpu_ok (fpu x) /\ fpu_ok (fpu y);
  to_msrs : config_ok (msr_caps c) (msrs x) /\ env_ok (msrs x) /\ mcg_cap (msrs y) = mcg_cap (msrs x);
  to_apic : match apic_state x, apic_state y with
            | Some s, Some s0 => apic_ok s /\ apic_ok s0
            | None, None => True
            | _, _ => False
            end;
  to_int : -1 <= interrupt_injected (env x) < 256;
  to_exc : -1 <= exception_injected (cs x) < 256;
  to_error : 0 <= has_error_code (cs x) < 256 }.

(** The model-specific registers and the controller after the transfer. *)
Definition msrs_transferred (c : kvm_config) (x y : X86CPU) (m : msr_env) : Prop :=
  forall f, field_ok (msrs x) f ->
    msr m f = if decide (msr_index f ∈ get_plan (msr_caps c) (msrs y)) then msr (msrs x) f else msr (msrs y) f.

Definition apic_transferred (c : kvm_config) (x y : X86CPU) (now : Z) (s' : option APICCommonState) : Prop :=
  match apic_state x, apic_state y with
  | Some s, Some s0 =>
      if irqchip_in_kernel c then exists next, s' = Some (set_timer next (fires_at s now) (apic_copy s s0 now)) else s' = Some s0
  | _, _ => s' = apic_state y
  end.

(** A transfer in which nothing is refused makes all ioctls of its plan. *)
Lemma issue_all code p : forall t, (issue code p t).1 <? 0 = false -> (issue code p t).2 = rev p ++ t.
Proof.
  induction p as [|i p IH]; intros t; [reflexivity|]. cbn [issue rev]. cbv zeta.
  destruct (code (i :: t) <? 0) eqn:E; [cbn [fst]; congruence|]. intros H. rewrite IH by exact H. rewrite <- app_assoc. reflexivity.
Qed.

Lemma workarounds_trace `{KVM} c sw s r s' : kvm_guest_debug_workarounds c sw s = Ok (r, s') -> s'.2 = s.2.
Proof.
  unfold kvm_guest_debug_workarounds. cbv zeta. destruct (if negb (has_vcpu_events c) then _ else _) as [trap z].
  destruct (_ || _); [|intros [= <- <-]; reflexivity].
  destruct (kvm_update_guest_debug _ _ _) as [[ret cs']|]; cbn [rbind]; [|discriminate]. intros [= <- <-]. reflexivity.
Qed.

Lemma put_trace `{KVM} c code sw level x sregs l mce x' t : payloads c level x sregs l mce ->
  kvm_arch_put_registers c code sw true level (x, []) = Ok (0, (x', t)) -> t = rev (plan c level x sregs l mce).
Proof.
  intros PL. assert (same0 c x x) as H0 by (split; [constructor; auto | reflexivity]).
  destruct (all_but_last c code level x sregs l mce PL x [] H0) as (r & x1 & E & _ & Hr).
  unfold kvm_arch_put_registers, put_calls. cbn [negb].
  match goal with |- run_calls (?a ++ ?b ++ ?c ++ [?d; ?e; ?f; ?g]) _ = _ -> _ =>
    replace (a ++ b ++ c ++ [d; e; f; g]) with ((a ++ b ++ c ++ [d; e; f]) ++ [g])
      by (rewrite <- !app_assoc; reflexivity) end.
  rewrite run_calls_app, E. cbn [rbind].
  destruct ((issue code _ []).1 <? 0) eqn:Ei.
  - rewrite Hr, Ei. intros [= Hz _]. rewrite Hz in Ei. discriminate.
  - rewrite (proj2 (Z.ltb_ge _ _) Hr). cbn [run_calls].
    destruct (kvm_guest_debug_workarounds c sw _) as [[ret s]|] eqn:Ew; cbn [rbind]; [|discriminate].
    apply workarounds_trace in Ew. cbn [snd] in Ew. rewrite issue_all, app_nil_r in Ew by exact Ei.
    destruct (ret <? 0); [intros [= _ ->] | intros [= ->]]; exact Ew.
Qed.

(** The last ioctl of each kind in a transfer at reset level or above. *)
Lemma plan_given c level x sregs l mce : KVM_PUT_RESET_STATE <= level -> let t := rev (plan c level x sregs l mce) in
  last_given given_regs t = Some (kvm_put_regs (env x)) /\
  last_given given_fpu t = Some (kvm_put_xsave (has_xsave c) (fpu x)) /\
  last_given given_xcrs t = (if has_xcrs c then Some (kvm_put_xcrs (env x)) else None) /\
  last_given given_sregs t = Some sregs /\
  last_given given_mp t = Some (kvm_put_mp_state (env x)) /\
  last_given given_lapic t = (if irqchip_in_kernel c then kvm_put_apic_state <$> apic_state x else None) /\
  last_given given_events t = (if has_vcpu_events c then Some (fst (kvm_put_vcpu_events c level x)) else None) /\
  last_given given_debugregs t = (if has_debugregs c then Some (kvm_put_debugregs (env x)) else None).
Proof.
  intros L t. unfold t, plan, apic_ioctl. rewrite (proj2 (Z.leb_le _ _) L). cbn [andb].
  destruct (has_msr_feature_control (msr_caps c)), (has_xcrs c), (mce_pending c x), (irqchip_in_kernel c), (apic_state x),
    (has_msr_tsc_deadline (msr_caps c)), (has_vcpu_events c), (has_debugregs c); repeat split; reflexivity.
Qed.

Lemma plan_msrs c level x sregs l mce k : KVM_PUT_RESET_STATE <= level -> kvm_put_msrs (msr_caps c) (msrs x) level = Ok l ->
  put_all (msr_caps c) (msrs x) level k = Ok (msrs_given (rev (plan c level x sregs l mce)) k).
Proof.
  intros L E. unfold put_all, plan, apic_ioctl. rewrite E, (proj2 (Z.leb_le _ _) L). cbn [rbind andb]. f_equal.
  unfold kvm_put_tscdeadline_msr, kvm_put_msr_feature_control.
  destruct (has_msr_feature_control (msr_caps c)), (has_xcrs c), (mce_pending c x), (irqchip_in_kernel c), (apic_state x),
    (has_msr_tsc_deadline (msr_caps c)), (has_vcpu_events c), (has_debugregs c); reflexivity.
Qed.

(** The kernel's answers are the structures of the transfer. *)
Lemma recalls_returns c level x y a k sregs l mce : KVM_PUT_RESET_STATE <= level -> payloads c level x sregs l mce ->
  transfer_ok c x y -> recalls (rev (plan c level x sregs l mce)) k y a ->
  exists m, returns_last c level x y a m /\ msrs_transferred c x y m.
Proof.
  intros L PL [_ _ (Hc & He & Hm) Ha _ _ _] R. destruct PL as [Ps Pm _].
  destruct (plan_given c level x sregs l mce L) as (G1 & G2 & G3 & G4 & G5 & G6 & G7 & G8).
  destruct (msrs_back (msr_caps c) (msrs x) (msrs y) level k (running a) Hc He Hm L) as (k' & m & E1 & E2 & V).
  rewrite (plan_msrs c level x sregs l mce k L Pm) in E1. injection E1 as <-.
  exists m. split; [|exact V]. destruct R as [R1 R2 R3 R4 R5 R6 R7 R8 R9]. split.
  - apply R1, G1.
  - apply R2, G2.
  - intros H. apply R3. rewrite G3, H. reflexivity.
  - exists sregs. split; [exact Ps | apply R4, G4].
  - rewrite R5. exact E2.
  - apply R6, G5.
  - intros [s0 Hs] Hk. rewrite Hs in Ha. destruct (apic_state x) as [s|]; [|contradiction].
    apply (R7 (kvm_put_apic_state s)). rewrite G6, Hk. reflexivity.
  - intros H. apply R8. rewrite G7, H. reflexivity.
  - intros H. apply R9. rewrite G8, H. reflexivity.
Qed.

Lemma apic_read_back c level x y a k sregs l mce : KVM_PUT_RESET_STATE <= level -> transfer_ok c x y -> 0 <= now a < 2 ^ 62 ->
  recalls (rev (plan c level x sregs l mce)) k y a -> apic_transferred c x y (now a) (apic_read c y a).
Proof.
  intros L T Hn R. destruct (plan_given c level x sregs l mce L) as (_ & _ & _ & _ & _ & G6 & _ & _).
  unfold apic_transferred, apic_read. pose proof (to_apic c x y T) as Ha. pose proof (rc_lapic _ _ _ _ R) as Rl.
  destruct (apic_state x) as [s|], (apic_state y) as [s0|]; try contradiction; try reflexivity.
  destruct (irqchip_in_kernel c); [|reflexivity]. destruct Ha as [A A0].
  destruct (Rl _ G6) as [_ Hp]. destruct (apic_roundtrip s s0 (a_lapic a).2 (now a) A A0 Hn Hp) as [next E].
  exists next. rewrite E. reflexivity.
Qed.


(** A kernel with all features, and a CPU of it. *)
Definition config_example : kvm_config := mk_config all_caps true true true true true true.
Definition x86_example : X86CPU :=
  mk_x86 (set_vcpu_regs (kvm_put_regs env_example) cpu_zero) env_example fpu_example (sample_msrs 5) (Some apic_example) 0x42 false.

(** The structures of this transfer. *)
Definition sregs_given : kvm_sregs :=
  match kvm_put_sregs env_example (Some apic_example) with Ok s => s | Err _ => sregs_example end.
Definition msrs_list : list (Z * Z) :=
  match kvm_put_msrs all_caps (sample_msrs 5) KVM_PUT_FULL_STATE with Ok l => l | Err _ => [] end.
Definition plan_example : list ioctl := plan config_example KVM_PUT_FULL_STATE x86_example sregs_given msrs_list (mk_mce 0 0 0 0 0).

Lemma payloads_example : payloads config_example KVM_PUT_FULL_STATE x86_example sregs_given msrs_list (mk_mce 0 0 0 0 0).
Proof.
  constructor; [reflexivity | | discriminate]. unfold msrs_list. cbn [msr_caps config_example msrs x86_example].
  rewrite kvm_put_msrs_ok by apply sample_config. reflexivity.
Qed.

Lemma transfer_example : transfer_ok config_example x86_example x86_example.
Proof.
  split; try (cbn; lia); try apply env_example_ok; try (split; apply fpu_example_ok); try (split; apply apic_example_ok).
  split; [apply sample_config|]. split; [intros []; reflexivity | reflexivity].
Qed.

(** The answers of a kernel that had 9 in every model-specific register. *)
Definition answers_example : answers :=
  mk_answers 0 {| GET_FPU := (0, kvm_put_fpu fpu_example); GET_XSAVE := (0, xsave_area fpu_example) |}
    (0, kvm_put_xcrs env_example) (0, sregs_given)
    (answer (msrs_given (rev plan_example) (fun _ => 9))) (0, mp_state env_example) (0, kvm_put_apic_state apic_example)
    (0, fst (kvm_put_vcpu_events config_example KVM_PUT_FULL_STATE x86_example)) (0, kvm_put_debugregs env_example) 7000 true.

Lemma recalls_example : recalls (rev plan_example) (fun _ => 9) x86_example answers_example.
Proof.
  destruct (plan_given config_example KVM_PUT_FULL_STATE x86_example sregs_given msrs_list (mk_mce 0 0 0 0 0) ltac:(vm_compute; discriminate))
    as (G1 & G2 & G3 & G4 & G5 & G6 & G7 & G8). fold plan_example in *.
  constructor; rewrite ?G1, ?G2, ?G3, ?G4, ?G5, ?G6, ?G7, ?G8; try (intros ? [= <-]; reflexivity); try reflexivity.
  - intros ? [= <-]. split; reflexivity.
  - intros ? [= <-]. split; [reflexivity | intros v _; reflexivity].
  - intros ? [= <-]. split; [reflexivity | intros i _; reflexivity].
Qed.

Lemma put_example : exists x', @kvm_arch_put_registers kvm_accepts config_example (fun _ => 0) false true KVM_PUT_FULL_STATE (x86_example, [])
  = Ok (0, (x', rev plan_example)).
Proof.
  assert (same0 config_example x86_example x86_example) as H0 by (split; [constructor; auto | reflexivity]).
  destruct (kvm_put_msrs all_caps (sample_msrs 5) KVM_PUT_FULL_STATE) as [l|] eqn:El;
    [|rewrite kvm_put_msrs_ok in El by apply sample_config; discriminate El].
  assert (msrs_list = l) as Em by (unfold msrs_list; rewrite El; reflexivity).
  unfold plan_example. rewrite Em. eexists. unfold kvm_arch_put_registers, put_calls. cbn [negb]. 
  cbn [run_calls app when]. unfold call_put_msrs. cbn. rewrite El. reflexivity.
Qed.


(** A kernel that rejects the segment registers. *)
Definition code_example (t : list ioctl) : Z := match t with SET_SREGS _ :: _ => - EINVAL | _ => 0 end.

Lemma put_follows_plan_witness :
  exists x t, @kvm_arch_put_registers kvm_accepts config_example code_example false true KVM_PUT_RUNTIME_STATE (x86_example, [])
    = Ok (- EINVAL, (x, t)) /\ length t = 4%nat.
Proof.
  destruct (kvm_put_msrs all_caps (sample_msrs 5) KVM_PUT_RUNTIME_STATE) as [l|] eqn:El;
    [|rewrite kvm_put_msrs_ok in El by apply sample_config; discriminate El].
  destruct (@put_follows_plan kvm_accepts config_example code_example false KVM_PUT_RUNTIME_STATE x86_example
    (match kvm_put_sregs env_example (Some apic_example) with Ok s => s | Err _ => sregs_example end) l (mk_mce 0 0 0 0 0)) as (x & _ & E).
  { constructor; [reflexivity | exact El | discriminate]. }
  exists x, (issue code_example (plan config_example KVM_PUT_RUNTIME_STATE x86_example
    (match kvm_put_sregs env_example (Some apic_example) with Ok s => s | Err _ => sregs_example end) l (mk_mce 0 0 0 0 0)) []).2.
  split; [exact E | reflexivity].
Defined.

(** ** Pending SMI and INIT *)

(** When kvm_put_vcpu_events hands a pending SMI or INIT over to the kernel it removes the request
    from interrupt_request, but the structure does not have KVM_VCPUEVENT_VALID_SMM in its flags, so
    the kernel is told not to look at it, and a pending INIT, bit 10, does not even fit the byte: the
    request is lost.  Other requests are kept. *)
Theorem pending_smi_dropped c level x :
  has_msr_smbase (msr_caps c) = true -> irqchip_in_kernel c = true -> 0 <= interrupt_request x < 2 ^ 32 ->
  let '(ev, x') := kvm_put_vcpu_events c level x in
  bits (ev_flags ev) KVM_VCPUEVENT_VALID_SMM = false /\ ev_latched_init ev = 0 /\
  bits (interrupt_request x') CPU_INTERRUPT_SMI = false /\ bits (interrupt_request x') CPU_INTERRUPT_INIT = false /\
  forall i, 0 <= i -> i <> 6 -> i <> 10 -> Z.testbit (interrupt_request x') i = Z.testbit (interrupt_request x) i.
Proof.
  intros Hs Hi Hr. unfold kvm_put_vcpu_events. rewrite Hs, Hi. cbn [andb ev_flags ev_latched_init].
  unfold cpu_reset_interrupt. cbn [interrupt_request set_interrupt_request].
  assert (forall i, 0 <= i -> Z.testbit (Z.land (interrupt_request x) (Z.lnot (Z.lor CPU_INTERRUPT_INIT CPU_INTERRUPT_SMI))) i
    = Z.testbit (interrupt_request x) i && negb ((i =? 6) || (i =? 10))) as H.
  { intros i H0. rewrite Z.land_spec, Z.lnot_spec, Z.lor_spec by exact H0.
    change CPU_INTERRUPT_INIT with (2 ^ 10). change CPU_INTERRUPT_SMI with (2 ^ 6). rewrite !Z.pow2_bits_eqb by lia.
    rewrite (Z.eqb_sym i 6), (Z.eqb_sym i 10), (orb_comm (6 =? i)). reflexivity. }
  split; [destruct (_ <=? level); reflexivity|]. split.
  - change CPU_INTERRUPT_INIT with (Z.shiftl 1 10). unfold u8. rewrite <- Z.land_ones by lia.
    rewrite <- Z.land_assoc. apply Z.land_0_r.
  - change CPU_INTERRUPT_SMI with (Z.shiftl 1 6) at 2. change CPU_INTERRUPT_INIT with (Z.shiftl 1 10) at 3.
    rewrite !bits_testbit by lia. split; [rewrite H by lia; apply andb_false_r|].
    split; [rewrite H by lia; apply andb_false_r|]. intros i H0 H6 H10. rewrite H by exact H0.
    rewrite (proj2 (Z.eqb_neq i 6) H6), (proj2 (Z.eqb_neq i 10) H10). apply andb_true_r.
Qed.

Lemma pending_smi_dropped_witness :
  let '(ev, x') := kvm_put_vcpu_events config_example KVM_PUT_RUNTIME_STATE (set_interrupt_request 0x642 x86_example) in
  bits (ev_flags ev) KVM_VCPUEVENT_VALID_SMM = false /\ Z.testbit (interrupt_request x') 9 = true.
Proof.
  pose proof (pending_smi_dropped config_example KVM_PUT_RUNTIME_STATE (set_interrupt_request 0x642 x86_example)
    eq_refl eq_refl ltac:(cbn; lia)) as H.
  split; [apply H | exact (proj2 (proj2 (proj2 (proj2 H))) 9 ltac:(lia) ltac:(lia) ltac:(lia))].
Defined.
