(* ===== verification/RegTypes.v ===== *)
(** * The register file keeps its types (target-i386/kvm.c)

    Whatever values of their types the kernel's structures hold, reading them leaves the
    fields of QEMU's register file within their types and arrays, also when one of the
    ioctls fails half-way. *)

From Stdlib Require Import ZArith Lia Bool.
From stdpp Require Import base list.
From S2P Require Import Prelude MemOperand PageWalk MsrSync ByteLayout XSave Apic CpuState HwBreakpoint RegState RegSync.

Open Scope Z_scope.

(** ** Values of the kernel's types *)

Definition byte (v : Z) : Prop := 0 <= v < 2 ^ 8.
Definition word (v : Z) : Prop := 0 <= v < 2 ^ 16.
Definition dword (v : Z) : Prop := 0 <= v < 2 ^ 32.
Definition qword (v : Z) : Prop := 0 <= v < 2 ^ 64.

Definition bytes (m : mem) : Prop := forall x, byte (m x).

Record regs_typed (r : kvm_regs) : Prop := {
  rt_list : Forall qword [rax r; rcx r; rdx r; rbx r; rsp r; rbp r; rsi r; rdi r;
                          r8 r; r9 r; r10 r; r11 r; r12 r; r13 r; r14 r; r15 r];
  rt_rip : qword (rip r); rt_rflags : qword (rflags r) }.

Record kvm_fpu_typed (f : kvm_fpu) : Prop := {
  ft_fpr : length (fpr f) = 128%nat; ft_fcw : word (fcw f); ft_fsw : word (fsw f);
  ft_opcode : word (last_opcode f); ft_ip : qword (last_ip f); ft_dp : qword (last_dp f); ft_mxcsr : dword (k_mxcsr f);
  ft_xmm : Forall (Forall byte) (xmm f) }.

Record kseg_typed (s : kvm_segment) : Prop := {
  kt_base : qword (k_base s); kt_limit : dword (k_limit s); kt_selector : word (k_selector s) }.

Record sregs_typed (s : kvm_sregs) : Prop := {
  st_segs : Forall kseg_typed [s_es s; s_cs s; s_ss s; s_ds s; s_fs s; s_gs s];
  st_ldt : kseg_typed (s_ldt s); st_tr : kseg_typed (s_tr s);
  st_gdt : word (s_gdt s).1 /\ qword (s_gdt s).2; st_idt : word (s_idt s).1 /\ qword (s_idt s).2;
  st_cr : Forall qword [s_cr0 s; s_cr2 s; s_cr3 s; s_cr4 s]; st_efer : qword (s_efer s);
  st_bitmap : length (interrupt_bitmap s) = 4%nat }.

Record events_typed (ev : kvm_vcpu_events) : Prop := {
  et_exc : byte (ev_exc_nr ev); et_has : byte (ev_has_error_code ev); et_err : dword (ev_error_code ev);
  et_int : byte (ev_int_nr ev); et_soft : byte (ev_int_soft ev); et_nmi : byte (ev_nmi_injected ev);
  et_nmip : byte (ev_nmi_pending ev); et_sipi : dword (ev_sipi_vector ev) }.

Record answers_typed (a : answers) : Prop := {
  an_fpu : kvm_fpu_typed (GET_FPU (a_fpu a)).2;
  an_xsave : bytes (GET_XSAVE (a_fpu a)).2;
  an_xcrs : Forall (fun p => qword p.2) (a_xcrs a).2;
  an_sregs : sregs_typed (a_sregs a).2;
  an_mp : dword (a_mp a).2;
  an_lapic : bytes (a_lapic a).2;
  an_events : events_typed (a_events a).2;
  an_debug : Forall qword (db (a_debugregs a).2) /\ qword (kdr6 (a_debugregs a).2) /\ qword (kdr7 (a_debugregs a).2) }.

(** ** Well-typed CPUs *)

Record cpu_typed (x : X86CPU) : Prop := {
  ct_env : x86_ok (env x);
  ct_fpu : fpu_ok (fpu x);
  ct_msrs : env_ok (msrs x);
  ct_apic : match apic_state x with Some s => apic_ok s | None => True end;
  ct_exc : -1 <= exception_injected (cs x) < 256;
  ct_err : 0 <= has_error_code (cs x) < 256;
  ct_int : 0 <= interrupt_request x < 2 ^ 32;
  ct_regs : regs_typed (vcpu_regs (cs x)) }.

Lemma of_le_range l : Forall byte l -> 0 <= of_le l < 256 ^ Z.of_nat (length l).
Proof.
  induction 1 as [|b l Hb _ IH]; [cbn; lia|]. cbn [of_le length]. unfold byte in Hb.
  rewrite Nat2Z.inj_succ, Z.pow_succ_r by lia. lia.
Qed.

Lemma read_bytes_typed m o n : bytes m -> Forall byte (read_bytes m o n) /\ length (read_bytes m o n) = n.
Proof.
  intros Hm. unfold read_bytes. rewrite length_fmap, length_seq. split; [|reflexivity].
  apply Forall_fmap, Forall_forall. intros i _. apply Hm.
Qed.

Lemma ldq_typed m o : bytes m -> qword (ldq m o).
Proof.
  intros Hm. destruct (read_bytes_typed m o 8 Hm) as [H E]. unfold qword, ldq.
  pose proof (of_le_range _ H) as R. rewrite E in R. exact R.
Qed.

Lemma ldl_typed m o : bytes m -> dword (ldl m o).
Proof.
  intros Hm. destruct (read_bytes_typed m o 4 Hm) as [H E]. unfold dword, ldl.
  pose proof (of_le_range _ H) as R. rewrite E in R. exact R.
Qed.

Lemma ldqs_typed m o n : bytes m -> length (ldqs m o n) = n /\ u64s (ldqs m o n).
Proof.
  intros Hm. unfold ldqs. rewrite length_fmap, length_seq. split; [reflexivity|].
  apply Forall_fmap, Forall_forall. intros i _. apply (ldq_typed _ _ Hm).
Qed.

Lemma tags_typed w : length (tags_of w) = 8%nat /\ Forall (fun t => t = 0 \/ t = 1) (tags_of w).
Proof.
  unfold tags_of. rewrite length_fmap, length_seq. split; [reflexivity|]. apply Forall_fmap, Forall_forall.
  intros i _. cbn [compose]. destruct (_ =? 0); auto.
Qed.

Lemma word_land x : word (Z.land x 0xffff).
Proof. rewrite land_ffff. apply Z.mod_pos_bound. lia. Qed.

Lemma land7_range x : 0 <= Z.land x 7 < 8.
Proof. rewrite land7. apply Z.mod_pos_bound. lia. Qed.

Lemma xsave_env_typed m : bytes m -> fpu_ok (xsave_env m).
Proof.
  intros Hm. constructor; unfold xsave_env; cbn [fpstt fpus fpuc fptags fpregs fpop fpip fpdp mxcsr xmm_regs xstate_bv
    bnd_regs bndcs_regs opmask_regs]; try apply land7_range; try apply word_land; try apply tags_typed;
    try apply (ldq_typed _ _ Hm); try apply (ldl_typed _ _ Hm); try apply (ldqs_typed _ _ _ Hm).
  - apply (read_bytes_typed _ _ _ Hm).
  - rewrite length_app, !length_fmap, !length_seq. split; [reflexivity|]. apply Forall_app. split.
    + apply Forall_fmap, Forall_forall. intros i _. split; [reflexivity|]. unfold u64s, compose, xmm_loads.
      rewrite !Forall_cons. repeat split; try apply (ldq_typed _ _ Hm); apply Forall_nil; exact I.
    + apply Forall_fmap, Forall_forall. intros i _. apply (ldqs_typed _ _ _ Hm).
Qed.

Lemma take_typed n l : Forall byte l -> 0 <= of_le (take n l) < 256 ^ Z.of_nat n.
Proof.
  intros H. pose proof (of_le_range _ (Forall_take _ n l H)) as R. rewrite length_take in R.
  pose proof (Z.pow_le_mono_r 256 (Z.of_nat (n `min` length l)) (Z.of_nat n)). lia.
Qed.

Lemma nth_typed i (l : list (list Z)) : Forall (Forall byte) l -> Forall byte (nth i l []).
Proof.
  intros H. destruct (nth_in_or_default i l []) as [Hi | ->]; [|apply Forall_nil; exact I].
  rewrite Forall_forall in H. apply H, list_elem_of_In, Hi.
Qed.

Lemma set_low_typed q0 q1 r : qword q0 -> qword q1 -> length r = 8%nat /\ u64s r -> length (set_low q0 q1 r) = 8%nat /\ u64s (set_low q0 q1 r).
Proof.
  intros H0 H1 [Hl Hr]. unfold set_low. rewrite !length_insert. split; [exact Hl|].
  apply Forall_insert; [apply Forall_insert|]; assumption.
Qed.

Lemma kvm_get_fpu_typed ret f e ret' e' : kvm_fpu_typed f -> fpu_ok e -> kvm_get_fpu (ret, f) e = (ret', e') -> fpu_ok e'.
Proof.
  intros Hf He E. unfold kvm_get_fpu in E. destruct (ret <? 0); injection E as _ <-; [exact He|].
  destruct He. destruct Hf. constructor; cbn [fpstt fpus fpuc fptags fpregs fpop fpip fpdp mxcsr xmm_regs xstate_bv
    bnd_regs bndcs_regs opmask_regs]; try apply land7_range; try apply tags_typed; try assumption.
  destruct fo_xmm as [Hl Hr]. rewrite length_imap. split; [exact Hl|]. apply Forall_lookup. intros i r' Hi.
  rewrite list_lookup_imap in Hi. destruct (xmm_regs e !! i) as [r|] eqn:Er; [|discriminate]. injection Hi as <-.
  pose proof (Forall_lookup_1 _ _ _ _ Hr Er) as Hrow. cbv beta in Hrow. destruct (_ <? _)%nat; [|exact Hrow].
  apply set_low_typed; [| |exact Hrow]; unfold qword; change (2 ^ 64) with (256 ^ Z.of_nat 8); apply take_typed;
    [|apply Forall_drop]; apply nth_typed; assumption.
Qed.

Lemma kvm_get_xsave_typed h k e ret e' : kvm_fpu_typed (GET_FPU k).2 -> bytes (GET_XSAVE k).2 -> fpu_ok e ->
  kvm_get_xsave h k e = (ret, e') -> fpu_ok e'.
Proof.
  intros Hf Hx He E. unfold kvm_get_xsave in E. destruct h; cbn [negb] in E.
  - destruct (GET_XSAVE k) as [r m]. destruct (r <? 0); injection E as _ <-; [exact He | apply xsave_env_typed, Hx].
  - destruct (GET_FPU k) as [r f]. eapply kvm_get_fpu_typed; eassumption.
Qed.

(** ** The register file *)

Lemma get_seg_typed s : kseg_typed s -> seg_ok (get_seg s).
Proof.
  intros [Hb Hl Hs]. unfold word in Hs. constructor; cbn [get_seg selector base limit flags]; try assumption; [lia|].
  unfold u32. apply Z.mod_pos_bound. lia.
Qed.

Lemma ctz_range fuel v : 0 <= ctz fuel v <= Z.of_nat fuel.
Proof. revert v. induction fuel as [|f IH]; intros v; cbn [ctz]; [lia|]. destruct (Z.odd v); [lia | specialize (IH (Z.shiftr v 1)); lia]. Qed.

Lemma find_interrupt_range i l : 0 <= i -> -1 <= find_interrupt i l <= (i + Z.of_nat (length l)) * 64.
Proof.
  revert i. induction l as [|w l IH]; intros i Hi; cbn [find_interrupt length]; [lia|].
  destruct (w =? 0); [specialize (IH (i + 1)); lia | pose proof (ctz_range 64 w); lia].
Qed.

Lemma set_flag_range b m h : 0 <= m < 2 ^ 32 -> 0 <= h < 2 ^ 32 -> 0 <= set_flag b m h < 2 ^ 32.
Proof.
  intros Hm Hh. unfold set_flag. destruct b; [apply lor_range; lia|]. rewrite Z.land_comm. apply land_range; lia.
Qed.

Lemma nth_qword i l : Forall qword l -> qword (nth i l 0).
Proof.
  intros H. destruct (nth_in_or_default i l 0) as [Hi | ->]; [|unfold qword; lia].
  rewrite Forall_forall in H. apply H, list_elem_of_In, Hi.
Qed.

Lemma set_hflags_typed h h2 e : dword h -> dword h2 -> x86_ok e -> x86_ok (set_hflags h h2 e).
Proof. intros H1 H2 []. constructor; assumption. Qed.

Lemma copy_sregs_typed s e : sregs_typed s -> x86_ok e -> x86_ok (copy_sregs s e).
Proof.
  intros [Hs Hl Ht Hg Hi Hc He Hb] []. unfold word in *. rewrite !Forall_cons in Hs. rewrite !Forall_cons in Hc.
  constructor; unfold copy_sregs; cbn [env_regs eip eflags hflags hflags2 segs ldt tr gdt idt cr efer dr xcr0 mp_state error_code
    interrupt_injected soft_interrupt nmi_injected nmi_pending sipi_vector]; try assumption; try (apply get_seg_typed; assumption).
  - split; [reflexivity|]. rewrite !Forall_cons. repeat split; try (apply get_seg_typed; tauto); try (apply Forall_nil; exact I);
      apply get_seg_typed; tauto.
  - destruct xo_gdt. constructor; cbn; try assumption; try apply Hg. destruct Hg; lia.
  - destruct xo_idt. constructor; cbn; try assumption; try apply Hi. destruct Hi; lia.
  - split; [reflexivity|]. unfold u64s. rewrite !Forall_cons. unfold CR.
    pose proof (nth_qword 1 (cr e) (proj2 xo_cr)). unfold qword in *. repeat split; try lia. apply Forall_nil; exact I.
  - pose proof (find_interrupt_range 0 (interrupt_bitmap s)) as R. rewrite Hb in R. lia.
Qed.

Lemma kvm_get_sregs_typed ret s e ret' e' : sregs_typed s -> x86_ok e -> kvm_get_sregs (ret, s) e = (ret', e') -> x86_ok e'.
Proof.
  intros Hs He E. unfold kvm_get_sregs in E. destruct (ret <? 0); injection E as _ <-; [exact He|].
  pose proof (copy_sregs_typed s e Hs He) as Hc. apply set_hflags_typed; [| apply Hc | exact Hc].
  pose proof (kvm_hflags_range (copy_sregs s e)). apply lor_range; [lia | unfold u32; apply Z.mod_pos_bound; lia | lia].
Qed.

Lemma kvm_get_regs_typed ret r e ret' e' : regs_typed r -> x86_ok e -> kvm_get_regs (ret, r) e = (ret', e') -> x86_ok e'.
Proof.
  intros [Hr H1 H2] He E. unfold kvm_get_regs in E. destruct (ret <? 0); injection E as _ <-; [exact He|].
  destruct He. constructor; unfold set_regs_env; cbn [env_regs eip eflags hflags hflags2 segs ldt tr gdt idt cr efer dr xcr0
    mp_state error_code interrupt_injected soft_interrupt nmi_injected nmi_pending sipi_vector]; try assumption.
  split; [reflexivity | exact Hr].
Qed.

Lemma kvm_get_xcrs_typed h a e ret e' : Forall (fun p => qword p.2) a.2 -> x86_ok e -> kvm_get_xcrs h a e = (ret, e') -> x86_ok e'.
Proof.
  intros Ha He E. unfold kvm_get_xcrs in E. destruct h; cbn [negb] in E; [|injection E as _ <-; exact He].
  destruct a as [r l]. cbn in Ha. destruct (r <? 0); injection E as _ <-; [exact He|].
  induction Ha as [|[i v] l Hv _ IH]; cbn [find_xcr0]; [exact He|]. destruct (i =? 0); [|exact IH].
  destruct He. constructor; assumption.
Qed.

Lemma kvm_get_debugregs_typed h a e ret e' : Forall qword (db a.2) /\ qword (kdr6 a.2) /\ qword (kdr7 a.2) -> x86_ok e ->
  kvm_get_debugregs h a e = (ret, e') -> x86_ok e'.
Proof.
  intros (Hd & H6 & H7) He E. unfold kvm_get_debugregs in E. destruct h; cbn [negb] in E; [|injection E as _ <-; exact He].
  destruct a as [r d]. destruct (r <? 0); injection E as _ <-; [exact He|]. cbn in Hd, H6, H7.
  destruct He. constructor; unfold set_dr; cbn [env_regs eip eflags hflags hflags2 segs ldt tr gdt idt cr efer dr xcr0
    mp_state error_code interrupt_injected soft_interrupt nmi_injected nmi_pending sipi_vector]; try assumption.
  split; [reflexivity|]. unfold u64s. rewrite !Forall_cons.
  repeat split; try apply H6; try apply H7; try apply (nth_qword _ _ Hd); apply Forall_nil; exact I.
Qed.

Lemma to_field_idemp f v : to_field f (to_field f v) = to_field f v.
Proof. destruct f; unfold to_field, u32, u64; apply Z.mod_mod; lia. Qed.

Lemma store_msrs_typed l e e' : env_ok e -> store_msrs l e = Ok e' -> env_ok e'.
Proof.
  revert e. induction l as [|[i v] l IH]; intros e He E; cbn [store_msrs] in E; [injection E as <-; exact He|].
  destruct (msr_switch e i) as [f|]; [|apply (IH e); assumption].
  unfold set_msr in E. destruct (in_array f); cbn [rbind] in E; [|discriminate]. eapply IH; [|exact E].
  intros g. cbn [msr]. destruct (decide (g = f)) as [-> |]; [apply to_field_idemp | apply He].
Qed.

Lemma kvm_get_msrs_typed c r a e ret e' : env_ok e -> kvm_get_msrs c r a e = Ok (ret, e') -> env_ok e'.
Proof.
  intros He E. unfold kvm_get_msrs in E. destruct (_ <? _)%nat; [discriminate|]. destruct (a _) as [n data].
  destruct (n <? 0); [injection E as _ <-; exact He|].
  destruct (store_msrs _ _) as [e1|] eqn:Es; cbn [rbind] in E; [|discriminate]. injection E as _ <-.
  eapply store_msrs_typed; [|exact Es]. exact He.
Qed.

Lemma next_timer_typed s t : apic_ok s -> apic_ok (apic_next_timer s t).2.
Proof.
  intros OK. assert (forall n e, apic_ok (set_timer n e s)) as H by (intros n e; destruct OK; constructor; assumption).
  unfold apic_next_timer, arm_timer. cbv zeta. repeat case_match; cbn [snd]; apply H.
Qed.

Lemma kvm_get_apic_typed s k t : apic_ok s -> bytes k -> apic_ok (kvm_get_apic_state s k t).
Proof.
  intros OK Hk. unfold kvm_get_apic_state. cbv zeta. apply next_timer_typed.
  assert (forall r, dword (kvm_apic_get_reg k r)) as Hr by (intros r; apply ldl_typed, Hk).
  assert (forall f n, u32s n ((fun i : nat => kvm_apic_get_reg k (f i)) <$> seq 0 n)) as Hl.
  { intros f n. split; [rewrite length_fmap, length_seq; reflexivity|]. apply Forall_fmap, Forall_forall. intros i _. apply Hr. }
  assert (forall v, 0 <= u8 v < 2 ^ 8) as H8 by (intros v; apply Z.mod_pos_bound; lia).
  destruct OK. constructor; cbn [apicbase apic_id arb_id tpr spurious_vec log_dest dest_mode isr tmr irr lvt esr icr divide_conf
    count_shift initial_count]; try assumption; try apply H8; try apply Hr; try apply (Hl (fun i => _ + Z.of_nat i)).
  - split; [reflexivity|]. rewrite !Forall_cons. split; [apply Hr|]. split; [apply Hr | apply Forall_nil; exact I].
  - apply shift_of_range.
Qed.

(** ** Every call keeps the types *)

Lemma set_env_typed e x : cpu_typed x -> x86_ok e -> cpu_typed (set_env e x).
Proof. intros [] He. constructor; assumption. Qed.

Lemma on_env_typed f x ret x' : cpu_typed x -> (forall r e', f (env x) = (r, e') -> x86_ok e') ->
  on_env f x = Ok (ret, x') -> cpu_typed x'.
Proof.
  intros Hx Hf E. unfold on_env in E. destruct (f (env x)) as [r e] eqn:Ef. injection E as _ <-.
  apply set_env_typed; [exact Hx | eapply Hf, eq_refl].
Qed.

Lemma events_env_typed ev h h2 e : events_typed ev -> dword h -> dword h2 -> x86_ok e -> x86_ok (set_events ev h h2 e).
Proof.
  intros [] Hh Hh2 []. unfold byte, dword in *. constructor; unfold set_events; cbn [env_regs eip eflags hflags hflags2 segs ldt tr gdt idt
    cr efer dr xcr0 mp_state error_code interrupt_injected soft_interrupt nmi_injected nmi_pending sipi_vector]; try assumption.
  - unfold s32, u32. pose proof (Z.mod_pos_bound (ev_error_code ev) (2 ^ 32)).
    destruct (Z.ltb_spec (ev_error_code ev mod 2 ^ 32) (2 ^ 31)); lia.
  - destruct (_ =? 0); lia.
Qed.

Lemma interrupt_typed (b : bool) m x : cpu_typed x -> 0 <= m < 2 ^ 32 ->
  cpu_typed (if b then cpu_interrupt m x else cpu_reset_interrupt m x).
Proof.
  intros [] Hm. destruct b; constructor; cbn; try assumption; [apply lor_range; lia|].
  rewrite Z.land_comm. apply land_range; lia.
Qed.

Lemma kvm_get_events_typed c a x ret x' : events_typed a.2 -> cpu_typed x -> kvm_get_vcpu_events c a x = (ret, x') -> cpu_typed x'.
Proof.
  intros Ha Hx E. unfold kvm_get_vcpu_events in E. destruct (has_vcpu_events c); cbn [negb] in E; [|injection E as _ <-; exact Hx].
  destruct a as [r ev]. cbn in Ha. destruct (r <? 0); [injection E as _ <-; exact Hx|]. cbv zeta in E.
  set (x1 := set_cs _ x) in E.
  assert (cpu_typed x1) as Hx1.
  { unfold x1. destruct Hx, Ha. unfold byte in *. constructor; cbn; try assumption. destruct (_ =? 0); lia. }
  clearbody x1. set (h2 := set_flag _ HF2_NMI_MASK _) in E.
  assert (dword h2) as H2 by (apply set_flag_range; [cbv; split; [discriminate | reflexivity] | apply Hx1]). clearbody h2.
  destruct (bits (ev_flags ev) _); [|injection E as _ <-; apply set_env_typed; [exact Hx1|];
    apply events_env_typed; [exact Ha | apply Hx1 | exact H2 | apply Hx1]].
  set (x2 := if negb (ev_smi_pending ev =? 0) then _ else _) in E.
  assert (cpu_typed x2) as Hx2 by (apply interrupt_typed; [exact Hx1 | cbv; split; [discriminate | reflexivity]]). clearbody x2.
  set (x3 := if negb (ev_latched_init ev =? 0) then _ else _) in E.
  assert (cpu_typed x3) as Hx3 by (apply interrupt_typed; [exact Hx2 | cbv; split; [discriminate | reflexivity]]). clearbody x3.
  injection E as _ <-. apply set_env_typed; [exact Hx3|]. apply events_env_typed; [exact Ha | | | apply Hx3].
  - apply set_flag_range; [cbv; split; [discriminate | reflexivity] | apply Hx1].
  - apply set_flag_range; [cbv; split; [discriminate | reflexivity] | exact H2].
Qed.

Lemma get_calls_typed c a : answers_typed a ->
  Forall (fun f => forall x ret x', cpu_typed x -> f x = Ok (ret, x') -> cpu_typed x') (get_calls c a).
Proof.
  intros [Hf Hxs Hxc Hsr Hmp Hla Hev Hdb]. unfold get_calls.
  repeat (apply Forall_cons; split); [..|apply Forall_nil; exact I]; intros x ret x' Hx E.
  - eapply on_env_typed; [exact Hx | | exact E]. intros r e. apply kvm_get_regs_typed; apply Hx.
  - unfold call_get_xsave in E. destruct (kvm_get_xsave _ _ _) as [r f] eqn:Ef. injection E as _ <-.
    apply kvm_get_xsave_typed in Ef; [|assumption|assumption|apply Hx]. destruct Hx. constructor; assumption.
  - eapply on_env_typed; [exact Hx | | exact E]. intros r e. apply kvm_get_xcrs_typed; [exact Hxc | apply Hx].
  - eapply on_env_typed; [exact Hx | | exact E]. intros r e. destruct (a_sregs a) as [q s]. apply kvm_get_sregs_typed; [exact Hsr | apply Hx].
  - unfold call_get_msrs in E. destruct (kvm_get_msrs _ _ _ _) as [[r m]|] eqn:Em; cbn [rbind] in E; [|discriminate].
    injection E as _ <-. apply kvm_get_msrs_typed in Em; [|apply Hx]. destruct Hx. constructor; assumption.
  - unfold call_get_mp_state, kvm_get_mp_state in E. destruct (a_mp a) as [r s]. cbn in Hmp.
    destruct (r <? 0); injection E as _ <-; [exact Hx|].
    assert (cpu_typed (set_env (set_mp_state s (env x)) x)) as H by (apply set_env_typed; [exact Hx|]; destruct (ct_env _ Hx); constructor; assumption).
    destruct (irqchip_in_kernel c); [destruct H; constructor; assumption | exact H].
  - unfold kvm_get_apic in E. destruct (apic_state x) as [s|] eqn:Es; [|injection E as _ <-; exact Hx].
    destruct (irqchip_in_kernel c); [|injection E as _ <-; exact Hx]. destruct (a_lapic a) as [r k]. cbn in Hla.
    destruct (r <? 0); injection E as _ <-; [exact Hx|]. destruct Hx. rewrite Es in *.
    constructor; try assumption. cbn. apply kvm_get_apic_typed; assumption.
  - injection E as E. eapply kvm_get_events_typed; eassumption.
  - eapply on_env_typed; [exact Hx | | exact E]. intros r e. apply kvm_get_debugregs_typed; [exact Hdb | apply Hx].
Qed.

(** C27: Reading the registers keeps the register file well typed: whatever values of their C types
    the kernel returns, every field of QEMU's copy stays in the range of its type and every array
    keeps its length, also when an ioctl fails and the copy is only partly updated. *)
Theorem get_registers_typed c a x ret x' : answers_typed a -> cpu_typed x ->
  kvm_arch_get_registers c a true x = Ok (ret, x') -> cpu_typed x' /\ ret <= 0.
Proof.
  intros Ha Hx E. unfold kvm_arch_get_registers in E. cbn [negb] in E. split.
  - eapply (run_calls_inv cpu_typed); [apply get_calls_typed, Ha | exact Hx | exact E].
  - eapply run_calls_result, E.
Qed.

(** An area of ones, and segment registers that cannot be read. *)
Definition typed_answers : answers :=
  mk_answers 0 {| GET_FPU := (0, kvm_put_fpu fpu_example); GET_XSAVE := (0, fun _ => 255) |} (0, [(0, 7)])
    (- EINVAL, sregs_example) (answer (fun _ => 5)) (0, 3) (0, fun _ => 255)
    (0, fst (kvm_put_vcpu_events config_example KVM_PUT_FULL_STATE x86_example)) (0, kvm_put_debugregs env_example) 7000 true.

Definition byteb (v : Z) : bool := (0 <=? v) && (v <? 2 ^ 8).

Lemma sregs_example_typed : sregs_typed sregs_example.
Proof.
  replace sregs_example with ltac:(let t := eval vm_compute in sregs_example in exact t) by (vm_compute; reflexivity).
  assert (forall b l q t p d x s y g v u, qword b -> dword l -> word q -> kseg_typed (mk_kseg b l q t p d x s y g v u)) as K
    by (intros; constructor; assumption).
  unfold qword, dword, word in K.
  constructor; cbn [s_es s_cs s_ss s_ds s_fs s_gs s_ldt s_tr s_gdt s_idt s_cr0 s_cr2 s_cr3 s_cr4 s_efer fst snd interrupt_bitmap];
    unfold word, qword; try (apply K; lia); try lia; [| |reflexivity].
  - repeat (apply Forall_cons; split; [apply K; lia|]). apply Forall_nil; exact I.
  - repeat (apply Forall_cons; split; [lia|]). apply Forall_nil; exact I.
Qed.

Lemma typed_answers_ok : answers_typed typed_answers.
Proof.
  assert (bytes (fun _ => 255)) by (intros v; unfold byte; lia).
  constructor; try assumption; try (cbn; unfold dword; lia).
  - constructor; try reflexivity; try (cbv; split; [discriminate | reflexivity]).
    apply (forall_bool (forallb byteb)); [|vm_compute; reflexivity].
    intros l. apply forall_bool. unfold byteb, byte. intros v Hv. lia.
  - apply Forall_cons. split; [cbn; unfold qword; lia | apply Forall_nil; exact I].
  - exact sregs_example_typed.
  - constructor; cbv; split; discriminate || reflexivity.
  - split; [apply u64s_bool; reflexivity | split; cbv; split; discriminate || reflexivity].
Qed.

Lemma x86_example_typed : cpu_typed x86_example.
Proof.
  constructor; try (cbn; lia); try apply env_example_ok; try apply fpu_example_ok; try apply apic_example_ok.
  - intros []; reflexivity.
  - constructor; [apply u64s_bool; reflexivity | cbv; split; [discriminate | reflexivity] | cbv; split; [discriminate | reflexivity]].
Qed.

Lemma get_registers_typed_witness :
  exists x', kvm_arch_get_registers config_example typed_answers true x86_example = Ok (- EINVAL, x') /\ cpu_typed x' /\
    mxcsr (fpu x') = 0xffffffff.
Proof.
  eexists. split; [reflexivity|]. split; [|vm_compute; reflexivity].
  eapply (proj1 (get_registers_typed config_example typed_answers x86_example (- EINVAL) _ typed_answers_ok x86_example_typed eq_refl)).
Defined.
