(* ===== verification/CpuReset.v ===== *)
(** * Reset and INIT of a virtual CPU (target-i386/cpu.c, helper.c, kvm.c)

    [x86_cpu_reset] brings the register file into the state after power-on, [do_cpu_init]
    into the one after an INIT, which keeps the floating-point state and most of the
    model-specific registers.  The fields of CPUX86State up to cpuid_level are zeroed by a
    memset; which of the modelled fields these are is written out. *)

From Stdlib Require Import ZArith Lia Bool.
From stdpp Require Import base list.
From S2P Require Import Prelude MemOperand MsrSync ByteLayout XSave Apic CpuState HwBreakpoint RegState RegSync.

Open Scope Z_scope.

Definition CR0_ET_MASK : Z := Z.shiftl 1 4.
Definition CR0_PG_MASK : Z := Z.shiftl 1 31.
Definition CR4_PAE_MASK : Z := Z.shiftl 1 5.
Definition MSR_EFER_LME : Z := Z.shiftl 1 8.
Definition DESC_CS_MASK : Z := Z.shiftl 1 11.
Definition DESC_R_MASK : Z := Z.shiftl 1 9.
Definition DESC_W_MASK : Z := Z.shiftl 1 9.
Definition DESC_A_MASK : Z := Z.shiftl 1 8.
Definition HF_SOFTMMU_MASK : Z := Z.shiftl 1 2.
Definition HF2_GIF_MASK : Z := 1.
Definition DR6_FIXED_1 : Z := 0xffff0ff0.
Definition DR7_FIXED_1 : Z := 0x400.
Definition MSR_IA32_MISC_ENABLE_DEFAULT : Z := 1.

(** ** Control register 0 *)

Definition set_mode (eip' efer' h : Z) (cr' : list Z) (e : x86_env) : x86_env :=
  mk_env (env_regs e) eip' (eflags e) h (hflags2 e) (segs e) (ldt e) (tr e) (gdt e) (idt e) cr' efer' (dr e)
    (xcr0 e) (mp_state e) (error_code e) (interrupt_injected e) (soft_interrupt e) (nmi_injected e) (nmi_pending e)
    (sipi_vector e).

(** The end of [cpu_x86_update_cr0]: CR0 itself and its copies in the mode flags. *)
Definition store_cr0 (new_cr0 : Z) (e : x86_env) : x86_env :=
  let c0 := Z.lor new_cr0 CR0_ET_MASK in
  let pe_state := Z.land c0 CR0_PE_MASK in
  let h := Z.lor (Z.land (hflags e) (Z.lnot HF_PE_MASK)) (Z.shiftl pe_state HF_PE_SHIFT) in
  let h := Z.lor h (Z.shiftl (Z.lxor pe_state 1) HF_ADDSEG_SHIFT) in
  let fpu := Z.lor (Z.lor HF_MP_MASK HF_EM_MASK) HF_TS_MASK in
  let h := Z.lor (Z.land h (Z.lnot fpu)) (Z.land (u32 (Z.shiftl new_cr0 (HF_MP_SHIFT - 1))) fpu) in
  set_mode (eip e) (efer e) h (<[0%nat := c0]> (cr e)) e.

Definition cpu_x86_update_cr0 (new_cr0 : Z) (e : x86_env) : x86_env :=
  if negb (bits (CR e 0) CR0_PG_MASK) && bits new_cr0 CR0_PG_MASK && bits (efer e) MSR_EFER_LME then
    if negb (bits (CR e 4) CR4_PAE_MASK) then e
    else store_cr0 new_cr0 (set_mode (eip e) (Z.lor (efer e) MSR_EFER_LMA) (Z.lor (hflags e) HF_LMA_MASK) (cr e) e)
  else if bits (CR e 0) CR0_PG_MASK && negb (bits new_cr0 CR0_PG_MASK) && bits (efer e) MSR_EFER_LMA then
    store_cr0 new_cr0 (set_mode (Z.land (eip e) 0xffffffff) (Z.land (efer e) (Z.lnot MSR_EFER_LMA))
                         (Z.land (hflags e) (Z.lnot (Z.lor HF_LMA_MASK HF_CS64_MASK))) (cr e) e)
  else store_cr0 new_cr0 e.

(** ** Segment registers *)

Definition set_segs (l : list SegmentCache) (h : Z) (e : x86_env) : x86_env :=
  mk_env (env_regs e) (eip e) (eflags e) h (hflags2 e) l (ldt e) (tr e) (gdt e) (idt e) (cr e) (efer e) (dr e)
    (xcr0 e) (mp_state e) (error_code e) (interrupt_injected e) (soft_interrupt e) (nmi_injected e) (nmi_pending e)
    (sipi_vector e).

Definition cpu_x86_load_seg_cache (seg_reg : nat) (sc : SegmentCache) (e : x86_env) : x86_env :=
  let e := set_segs (<[seg_reg := sc]> (segs e)) (hflags e) e in
  let h := hflags e in
  let h :=
    if (seg_reg =? R_CS)%nat then
      if bits h HF_LMA_MASK && bits (flags sc) DESC_L_MASK
      then Z.land (Z.lor h (Z.lor (Z.lor HF_CS32_MASK HF_SS32_MASK) HF_CS64_MASK)) (Z.lnot HF_ADDSEG_MASK)
      else Z.lor (Z.land h (Z.lnot (Z.lor HF_CS32_MASK HF_CS64_MASK)))
             (Z.shiftr (Z.land (flags (seg e R_CS)) DESC_B_MASK) (DESC_B_SHIFT - HF_CS32_SHIFT))
    else h in
  let h :=
    if (seg_reg =? R_SS)%nat
    then Z.lor (Z.land h (Z.lnot HF_CPL_MASK)) (Z.land (Z.shiftr (flags sc) DESC_DPL_SHIFT) 3) else h in
  let new := Z.shiftr (Z.land (flags (seg e R_SS)) DESC_B_MASK) (DESC_B_SHIFT - HF_SS32_SHIFT) in
  let new :=
    if bits h HF_CS64_MASK then new
    else if negb (bits (CR e 0) CR0_PE_MASK) || bits (eflags e) VM_MASK || negb (bits h HF_CS32_MASK)
    then Z.lor new HF_ADDSEG_MASK
    else Z.lor new (Z.shiftl (nonzero (Z.lor (Z.lor (base (seg e R_DS)) (base (seg e R_ES))) (base (seg e R_SS)))) HF_ADDSEG_SHIFT) in
  set_segs (segs e) (Z.lor (Z.land h (Z.lnot (Z.lor HF_SS32_MASK HF_ADDSEG_MASK))) new) e.

(** ** Reset *)

(** The fields of the register file before cpuid_level are zero; mp_state, the pending
    exception and interrupt, soft_interrupt, sipi_vector and xcr0 are behind it. *)
Definition env_zeroed (e : x86_env) : x86_env :=
  mk_env (replicate 16 0) 0 0 0 0 (replicate 6 zero_seg) zero_seg zero_seg zero_seg zero_seg (replicate 5 0) 0
    (replicate 8 0) (xcr0 e) (mp_state e) 0 (interrupt_injected e) (soft_interrupt e) 0 0 (sipi_vector e).

(** The model-specific registers behind cpuid_level. *)
Definition msr_kept (f : msr_field) : bool :=
  match f with
  | mtrr_deftype | mtrr_fixed _ | mtrr_var_base _ | mtrr_var_mask _ | mcg_ctl | mce_banks _ | tsc_aux | xss => true
  | _ => false
  end.

(** Zeroed, and what the function sets afterwards; the range registers are zeroed as well. *)
Definition msrs_reset (m : msr_env) : msr_env :=
  mk_msr (fun f =>
    match f with
    | pat => 0x0007040600070406
    | msr_ia32_misc_enable => MSR_IA32_MISC_ENABLE_DEFAULT
    | smbase => 0x30000
    | mtrr_deftype | mtrr_fixed _ | mtrr_var_base _ | mtrr_var_mask _ => 0
    | f => if msr_kept f then msr m f else 0
    end) (mcg_cap m) (tsc_valid m).

(** [xstate_bv] is set to XSTATE_FP | XSTATE_SSE. *)
Definition fpu_reset : fpu_env :=
  mk_fpu_env 0 0 0x37f (replicate 8 1) (replicate 128 0) 0 0 0 0x1f80 (replicate 32 (replicate 8 0)) 3 (replicate 8 0)
    (replicate 2 0) (replicate 8 0).

Definition data_segment : SegmentCache :=
  mk_seg 0 0 0xffff (Z.lor (Z.lor (Z.lor DESC_P_MASK DESC_S_MASK) DESC_W_MASK) DESC_A_MASK).
Definition code_segment : SegmentCache :=
  mk_seg 0xf000 0xffff0000 0xffff
    (Z.lor (Z.lor (Z.lor (Z.lor DESC_P_MASK DESC_S_MASK) DESC_CS_MASK) DESC_R_MASK) DESC_A_MASK).

(** The tables, the instruction pointer, eflags and the debug registers. *)
Definition set_tables (version : Z) (e : x86_env) : x86_env :=
  mk_env (<[R_EDX := version]> (env_regs e)) 0xfff0 0x2 (hflags e) (hflags2 e) (segs e)
    (mk_seg 0 0 0xffff (Z.lor DESC_P_MASK (Z.shiftl 2 DESC_TYPE_SHIFT)))
    (mk_seg 0 0 0xffff (Z.lor DESC_P_MASK (Z.shiftl 11 DESC_TYPE_SHIFT)))
    (mk_seg 0 0 0xffff 0) (mk_seg 0 0 0xffff 0) (cr e) (efer e) [0; 0; 0; 0; 0; 0; DR6_FIXED_1; DR7_FIXED_1] 1
    (mp_state e) (error_code e) (interrupt_injected e) (soft_interrupt e) (nmi_injected e) (nmi_pending e) (sipi_vector e).

(** The register file after reset; [version] is cpuid_version. *)
Definition env_reset (version : Z) (e : x86_env) : x86_env :=
  let e := env_zeroed e in
  let e := set_hflags (Z.lor (hflags e) HF_SOFTMMU_MASK) (Z.lor (hflags2 e) HF2_GIF_MASK) e in
  let e := cpu_x86_update_cr0 0x60000010 e in
  let e := cpu_x86_load_seg_cache R_CS code_segment e in
  let e := cpu_x86_load_seg_cache R_DS data_segment e in
  let e := cpu_x86_load_seg_cache R_ES data_segment e in
  let e := cpu_x86_load_seg_cache R_SS data_segment e in
  let e := cpu_x86_load_seg_cache R_FS data_segment e in
  let e := cpu_x86_load_seg_cache R_GS data_segment e in
  set_tables version e.

Definition set_pending_interrupt (v : Z) (e : x86_env) : x86_env :=
  mk_env (env_regs e) (eip e) (eflags e) (hflags e) (hflags2 e) (segs e) (ldt e) (tr e) (gdt e) (idt e) (cr e)
    (efer e) (dr e) (xcr0 e) (mp_state e) (error_code e) v (soft_interrupt e) (nmi_injected e) (nmi_pending e) (sipi_vector e).

Definition kvm_arch_reset_vcpu (c : kvm_config) (x : X86CPU) : X86CPU :=
  let mp := if irqchip_in_kernel c
            then (if cpu_is_bsp (apic_state x) then KVM_MP_STATE_RUNNABLE else KVM_MP_STATE_UNINITIALIZED)
            else KVM_MP_STATE_RUNNABLE in
  set_env (set_mp_state mp (set_xcr0 1 (set_pending_interrupt (-1) (env x))))
    (set_cs (set_exception_injected (-1) (cs x)) x).

(** [cpu_common_reset] clears the requests and the halted flag first. *)
Definition x86_cpu_reset (c : kvm_config) (version : Z) (x : X86CPU) : X86CPU :=
  let x := set_halted false (set_interrupt_request 0 x) in
  let x := set_env (env_reset version (env x)) x in
  let x := set_fpu fpu_reset (set_msrs (msrs_reset (msrs x)) x) in
  let x := set_apic_state (apic_designate_bsp (negb (cpu_index (cs x))) (apic_state x)) x in
  let x := set_halted (negb (cpu_is_bsp (apic_state x))) x in
  kvm_arch_reset_vcpu c x.

Definition kvm_arch_do_init_vcpu (x : X86CPU) : X86CPU :=
  if mp_state (env x) =? KVM_MP_STATE_UNINITIALIZED
  then set_env (set_mp_state KVM_MP_STATE_INIT_RECEIVED (env x)) x else x.

(** ** INIT *)

(** The registers between start_init_save and end_init_save. *)
Definition init_saved (f : msr_field) : bool :=
  match f with
  | sysenter_cs | sysenter_esp | sysenter_eip | star | vm_hsave | lstar | cstar | fmask | kernelgsbase | tsc | tsc_adjust
  | tsc_deadline | mcg_status | msr_ia32_misc_enable | msr_ia32_feature_control | msr_fixed_ctr_ctrl | msr_global_ctrl
  | msr_global_status | msr_global_ovf_ctrl | msr_fixed_counters _ | msr_gp_counters _ | msr_gp_evtsel _ | pat | smbase => true
  | _ => false
  end.

(** The floating-point state is restored except the bounds registers, which are before
    the range, and xstate_bv, which is behind it. *)
Definition restore_fpu (f saved : fpu_env) : fpu_env :=
  mk_fpu_env (fpstt saved) (fpus saved) (fpuc saved) (fptags saved) (fpregs saved) (fpop saved) (fpip saved) (fpdp saved)
    (mxcsr saved) (xmm_regs saved) (xstate_bv f) (bnd_regs f) (bndcs_regs f) (opmask_regs saved).

(** [do_cpu_init] from the return of cpu_reset on; [save] is the copy taken before. *)
Definition finish_init (save x : X86CPU) : X86CPU :=
  let sipi := Z.land (interrupt_request save) CPU_INTERRUPT_SIPI in
  let x := set_interrupt_request sipi x in
  let x := set_fpu (restore_fpu (fpu x) (fpu save)) x in
  let m := msrs x in
  let x := set_msrs (mk_msr (fun f => if init_saved f then msr (msrs save) f else msr m f) (mcg_cap m) (tsc_valid m)) x in
  let x := kvm_arch_do_init_vcpu x in
  set_apic_state (apic_init_reset (apic_state x)) x.

Definition do_cpu_init (c : kvm_config) (version : Z) (x : X86CPU) : X86CPU :=
  finish_init x (x86_cpu_reset c version x).

(** ** Facts *)

Lemma reset_hflags version e : hflags (env_reset version e) = 0x44.
Proof. vm_compute. reflexivity. Qed.

Lemma reset_mode version e i : 0 <= i -> computed_bit i = true ->
  Z.testbit (hflags (env_reset version e)) i = mode_bit (env_reset version e) i.
Proof.
  intros Hi Hc. rewrite reset_hflags. destruct (Z.lt_ge_cases i 23) as [H | H].
  - revert i Hi Hc H. intros i Hi Hc H. assert (0 <= i < 23) as Hr by lia. clear Hi H. revert i Hr Hc.
    apply (z_below (fun i => computed_bit i = true -> Z.testbit 0x44 i = mode_bit (env_reset version e) i) 23).
    rewrite Forall_fmap. repeat constructor; cbn [compose]; intros Hc; first [discriminate Hc | vm_compute; reflexivity].
  - rewrite mode_bit_high, (testbit_above 23) by lia. reflexivity.
Qed.

Lemma reset_regs version e (r := env_reset version e) :
  protected_mode r = false /\ mode_bit r 0 = false /\ mode_bit r 1 = false /\ base (seg r R_CS) + eip r = 0xfffffff0 /\
  reg r R_EDX = version /\ bits (eflags r) IF_MASK = false.
Proof. subst r. do 4 (split; [vm_compute; reflexivity|]). split; vm_compute; reflexivity. Qed.

#[local] Opaque env_reset.

(** The boot flag of the controller. *)
Lemma designated_bsp b s : cpu_is_bsp (apic_designate_bsp b (Some s)) = b.
Proof.
  unfold cpu_is_bsp, cpu_get_apic_base, apic_designate_bsp. cbn [fmap option_fmap option_map apicbase set_base_tpr].
  change MSR_IA32_APICBASE_BSP with (Z.shiftl 1 8). rewrite bits_testbit by lia. destruct b.
  - rewrite Z.lor_spec. apply orb_true_r.
  - rewrite testbit_u32, Z.land_spec by lia. rewrite andb_false_r. reflexivity.
Qed.

Lemma reset_env c version x s : apic_state x = Some s -> env (x86_cpu_reset c version x) =
  set_mp_state (if irqchip_in_kernel c && cpu_index (cs x) then KVM_MP_STATE_UNINITIALIZED else KVM_MP_STATE_RUNNABLE)
    (set_xcr0 1 (set_pending_interrupt (-1) (env_reset version (env x)))).
Proof.
  intros Hs. unfold x86_cpu_reset, kvm_arch_reset_vcpu.
  cbn [apic_state set_apic_state set_msrs set_fpu set_env set_halted set_interrupt_request set_cs cs env].
  rewrite Hs, designated_bsp. destruct (irqchip_in_kernel c), (cpu_index (cs x)); reflexivity.
Qed.

Lemma reset_apic c version x s : apic_state x = Some s ->
  cpu_is_bsp (apic_state (x86_cpu_reset c version x)) = negb (cpu_index (cs x)) /\
  halted (x86_cpu_reset c version x) = cpu_index (cs x).
Proof.
  intros Hs. unfold x86_cpu_reset, kvm_arch_reset_vcpu.
  cbn [apic_state set_apic_state set_msrs set_fpu set_env set_halted set_interrupt_request set_cs cs halted].
  rewrite Hs, designated_bsp. split; [reflexivity | apply negb_involutive].
Qed.

Lemma mode_bit_ext e e' i : segs e = segs e' -> cr e = cr e' -> eflags e = eflags e' -> efer e = efer e' -> mode_bit e i = mode_bit e' i.
Proof.
  intros H1 H2 H3 H4.
  unfold mode_bit, code64, cs_D, cs_L, ss_B, protected_mode, virtual_8086, long_mode, flat, seg, CR. rewrite H1, H2, H3, H4. reflexivity.
Qed.

(** What the later steps of the reset keep. *)
Lemma wrap_reset version mp e (e' := set_mp_state mp (set_xcr0 1 (set_pending_interrupt (-1) e))) :
  (forall i, 0 <= i -> computed_bit i = true -> Z.testbit (hflags e) i = mode_bit e i) ->
  protected_mode e = false /\ mode_bit e 0 = false /\ mode_bit e 1 = false /\ base (seg e R_CS) + eip e = 0xfffffff0 /\
  reg e R_EDX = version /\ bits (eflags e) IF_MASK = false ->
  (forall i, 0 <= i -> computed_bit i = true -> Z.testbit (hflags e') i = mode_bit e' i) /\
  protected_mode e' = false /\ mode_bit e' 0 = false /\ mode_bit e' 1 = false /\ base (seg e' R_CS) + eip e' = 0xfffffff0 /\
  reg e' R_EDX = version /\ bits (eflags e') IF_MASK = false /\ interrupt_injected e' = -1 /\ mp_state e' = mp.
Proof.
  intros Hm (H1 & H2 & H3 & H4 & H5 & H6).
  assert (forall i, mode_bit e' i = mode_bit e i) as Hb by (intros i; apply mode_bit_ext; reflexivity).
  split; [intros i Hi Hc; rewrite Hb; exact (Hm i Hi Hc)|]. rewrite !Hb. auto 10.
Qed.

(** After x86_cpu_reset the processor is in the state of the manual: real mode at privilege level
    0 with mode flags that belong to it, the first instruction at 0xfffffff0, interrupts disabled,
    no event pending; exactly the first CPU is the boot processor and runs, the others are halted
    and, with the controller in the kernel, uninitialised. *)
Theorem reset_state c version x s : apic_state x = Some s ->
  let x' := x86_cpu_reset c version x in
  let e := env x' in
  (forall i, 0 <= i -> computed_bit i = true -> Z.testbit (hflags e) i = mode_bit e i) /\
  protected_mode e = false /\ mode_bit e 0 = false /\ mode_bit e 1 = false /\
  base (seg e R_CS) + eip e = 0xfffffff0 /\ reg e R_EDX = version /\ bits (eflags e) IF_MASK = false /\
  interrupt_request x' = 0 /\ exception_injected (cs x') = -1 /\ interrupt_injected e = -1 /\
  cpu_is_bsp (apic_state x') = negb (cpu_index (cs x)) /\ halted x' = cpu_index (cs x) /\
  mp_state e = (if irqchip_in_kernel c && cpu_index (cs x) then KVM_MP_STATE_UNINITIALIZED else KVM_MP_STATE_RUNNABLE).
Proof.
  intros Hs. cbv zeta. rewrite (reset_env c version x s Hs). destruct (reset_apic c version x s Hs) as [Ha Hh].
  destruct (wrap_reset version (if irqchip_in_kernel c && cpu_index (cs x) then KVM_MP_STATE_UNINITIALIZED else KVM_MP_STATE_RUNNABLE)
    (env_reset version (env x)) (reset_mode version (env x)) (reset_regs version (env x)))
    as (H0 & H1 & H2 & H3 & H4 & H5 & H6 & H7 & H8).
  split_and!; try assumption; reflexivity.
Qed.

Lemma reset_boot c version x s : apic_state x = Some s -> let r := x86_cpu_reset c version x in
  exception_injected (cs r) = -1 /\ base (seg (env r) R_CS) + eip (env r) = 0xfffffff0 /\
  mp_state (env r) = if irqchip_in_kernel c && cpu_index (cs x) then KVM_MP_STATE_UNINITIALIZED else KVM_MP_STATE_RUNNABLE.
Proof.
  intros Hs. cbv zeta. rewrite (reset_env c version x s Hs). split; [reflexivity|].
  destruct (wrap_reset version (if irqchip_in_kernel c && cpu_index (cs x) then KVM_MP_STATE_UNINITIALIZED else KVM_MP_STATE_RUNNABLE)
    (env_reset version (env x)) (reset_mode version (env x)) (reset_regs version (env x)))
    as (_ & _ & _ & _ & H4 & _ & _ & _ & Hm).
  split; assumption.
Qed.

Lemma finish_init_keeps (uninit : bool) x r (x' := finish_init x r) :
  exception_injected (cs r) = -1 -> base (seg (env r) R_CS) + eip (env r) = 0xfffffff0 ->
  mp_state (env r) = (if uninit then KVM_MP_STATE_UNINITIALIZED else KVM_MP_STATE_RUNNABLE) ->
  xmm_regs (fpu x') = xmm_regs (fpu x) /\ fpregs (fpu x') = fpregs (fpu x) /\ mxcsr (fpu x') = mxcsr (fpu x) /\
  (forall f, msr (msrs x') f = if init_saved f then msr (msrs x) f else msr (msrs r) f) /\
  interrupt_request x' = Z.land (interrupt_request x) CPU_INTERRUPT_SIPI /\
  base (seg (env x') R_CS) + eip (env x') = 0xfffffff0 /\ exception_injected (cs x') = -1 /\
  mp_state (env x') = (if uninit then KVM_MP_STATE_INIT_RECEIVED else KVM_MP_STATE_RUNNABLE).
Proof.
  intros Hx Hb Hm. subst x'. unfold finish_init, kvm_arch_do_init_vcpu. cbv zeta. cbn [env set_msrs set_fpu set_interrupt_request].
  rewrite Hm. destruct uninit.
  - change (KVM_MP_STATE_UNINITIALIZED =? KVM_MP_STATE_UNINITIALIZED) with true. cbv iota. split_and!; try reflexivity; assumption.
  - change (KVM_MP_STATE_RUNNABLE =? KVM_MP_STATE_UNINITIALIZED) with false. cbv iota. split_and!; try reflexivity; assumption.
Qed.

(** An INIT resets the CPU but keeps its floating-point registers, its system call, time stamp and
    performance monitoring registers; a start-up request that came with it is kept and all other
    requests are dropped; a CPU that is not the boot processor then waits for the start-up request. *)
Theorem init_preserves c version x s : apic_state x = Some s ->
  let x' := do_cpu_init c version x in
  xmm_regs (fpu x') = xmm_regs (fpu x) /\ fpregs (fpu x') = fpregs (fpu x) /\ mxcsr (fpu x') = mxcsr (fpu x) /\
  (forall f, msr (msrs x') f = if init_saved f then msr (msrs x) f
                               else msr (msrs (x86_cpu_reset c version x)) f) /\
  interrupt_request x' = Z.land (interrupt_request x) CPU_INTERRUPT_SIPI /\
  base (seg (env x') R_CS) + eip (env x') = 0xfffffff0 /\ exception_injected (cs x') = -1 /\
  mp_state (env x') = (if irqchip_in_kernel c && cpu_index (cs x) then KVM_MP_STATE_INIT_RECEIVED else KVM_MP_STATE_RUNNABLE).
Proof.
  intros Hs. cbv zeta. unfold do_cpu_init. destruct (reset_boot c version x s Hs) as (H1 & H2 & H3).
  apply finish_init_keeps; assumption.
Qed.

Lemma reset_state_witness :
  base (seg (env (x86_cpu_reset config_example 0x6f1 x86_example)) R_CS) + eip (env (x86_cpu_reset config_example 0x6f1 x86_example))
  = 0xfffffff0 /\ halted (x86_cpu_reset config_example 0x6f1 x86_example) = false.
Proof. pose proof (reset_state config_example 0x6f1 x86_example apic_example eq_refl) as H. split; apply H. Defined.

Lemma init_preserves_witness :
  mxcsr (fpu (do_cpu_init config_example 0x6f1 x86_example)) = 0x1f80 /\
  msr (msrs (do_cpu_init config_example 0x6f1 x86_example)) lstar = 5.
Proof.
  pose proof (init_preserves config_example 0x6f1 x86_example apic_example eq_refl) as H. split; [apply H|].
  apply (proj1 (proj2 (proj2 (proj2 H)))).
Defined.
