(* ===== verification/WorkQueue.v ===== *)
(** * Work for another CPU's thread (cpus.c, include/qemu-common.h)

    [run_on_cpu] and [async_run_on_cpu] hand a function to the thread of a virtual
    CPU: the item is linked into a queue of the CPU, and the thread takes the items
    out in [flush_queued_work].  The queue is a singly linked list with pointers to
    both ends.  The item of [run_on_cpu] lives in the stack frame of the caller,
    which returns as soon as it sees [done]; the item of [async_run_on_cpu] is freed
    by the CPU's thread.

    The items are cells of a heap; a cell that is gone must not be accessed any more.
    A critical section under [work_mutex] is one step, and so is a call of an item's
    function, which runs outside of it.  The caller's test of [done] and its sleep in
    [qemu_cond_wait] are one step under the global mutex.  The CPU's thread holds the
    global mutex outside of the calls, so the last item's [done] and the broadcast are
    one step as well; a called function may give the mutex away.  A call from the CPU's
    own thread is a plain call of the function and does not touch the queue. *)

From Stdlib Require Import Lia Bool.
From stdpp Require Import base list gmap relations.
From S2P Require Import Prelude.

Open Scope rz.

Section queue.
(** Functions and their arguments. *)
Context {F D : Type}.

Abbreviation ptr := positive.

(** struct qemu_work_item *)
Record work_item := mk_item {
  next : option ptr;
  func : F;
  data : D;
  done : bool;
  free : bool }.

Abbreviation heap := (gmap ptr work_item).

Definition set_next (n : option ptr) (w : work_item) : work_item := mk_item n (func w) (data w) (done w) (free w).
Definition set_done (b : bool) (w : work_item) : work_item := mk_item (next w) (func w) (data w) b (free w).

(** The fields [queued_work_first] and [queued_work_last] of a CPU, and the heap. *)
Record wq := mk_wq {
  items : heap;
  queued_work_first : option ptr;
  queued_work_last : option ptr }.

Definition load (p : ptr) (q : wq) : res work_item := of_option OutOfBounds (items q !! p).

(** [*p] changed by [f] *)
Definition modify (p : ptr) (f : work_item -> work_item) (q : wq) : res wq :=
  let? w := load p q in
  Ok (mk_wq (<[p := f w]> (items q)) (queued_work_first q) (queued_work_last q)).

(** The critical section of [run_on_cpu] and [async_run_on_cpu]. *)
Definition enqueue (wi : ptr) (q : wq) : res wq :=
  let? q :=
    match queued_work_first q with
    | None => Ok (mk_wq (items q) (Some wi) (queued_work_last q))
    | Some _ =>
        match queued_work_last q with
        | None => Err NullDeref
        | Some l => modify l (set_next (Some wi)) q
        end
    end in
  let q := mk_wq (items q) (queued_work_first q) (Some wi) in
  let? q := modify wi (set_next None) q in
  modify wi (set_done false) q.

(** The item as it is before it is linked; the fields not yet set hold [n] and [b]. *)
Definition new_item (n : option ptr) (b : bool) (f : F) (d : D) (is_async : bool) : work_item :=
  mk_item n f d b is_async.

Definition alloc (wi : ptr) (w : work_item) (q : wq) : wq :=
  mk_wq (<[wi := w]> (items q)) (queued_work_first q) (queued_work_last q).

Definition dealloc (wi : ptr) (q : wq) : wq :=
  mk_wq (delete wi (items q)) (queued_work_first q) (queued_work_last q).

(** [wi = first; first = wi->next; if (!first) last = NULL;] *)
Definition take_first (q : wq) : res (option ptr * wq) :=
  match queued_work_first q with
  | None => Ok (None, q)
  | Some wi =>
      let? w := load wi q in
      Ok (Some wi, mk_wq (items q) (next w)
                     (match next w with None => None | Some _ => queued_work_last q end))
  end.

(** [if (wi->free) g_free(wi); else atomic_mb_set(&wi->done, true);] *)
Definition finish (wi : ptr) (q : wq) : res wq :=
  let? w := load wi q in
  if free w then Ok (dealloc wi q) else modify wi (set_done true) q.

(** The loop of [flush_queued_work] when nobody interferes; the calls are listed. *)
Fixpoint flush_loop (fuel : nat) (q : wq) (calls : list (F * D)) : res (wq * list (F * D)) :=
  let? (o, q) := take_first q in
  match o with
  | None => Ok (q, calls)
  | Some wi =>
      match fuel with
      | O => Err OutOfFuel
      | S fuel =>
          let? w := load wi q in
          let calls := (calls ++ [(func w, data w)])%list in
          let? q := finish wi q in
          flush_loop fuel q calls
      end
  end.

(** The flag tells whether [qemu_work_cond] is broadcast. *)
Definition flush_queued_work (fuel : nat) (q : wq) : res (wq * list (F * D) * bool) :=
  match queued_work_first q with
  | None => Ok (q, [], false)
  | Some _ => let? r := flush_loop fuel q [] in Ok (r, true)
  end.

(** ** The threads *)

(** Where the CPU's thread is. *)
Inductive worker :=
  | Idle                  (* outside of flush_queued_work *)
  | Taken (wi : ptr)      (* past the unlock, before the call *)
  | Called (wi : ptr).    (* after the call, before the lock *)

(** Where a caller of [run_on_cpu] is. *)
Inductive caller :=
  | Testing               (* before the test of wi.done *)
  | Sleeping.             (* in qemu_cond_wait *)

(** [asked] and [ran] are the work handed over and the work called, in order; a caller
    carries the number of its item in [asked]. *)
Record state := mk_state {
  queue : wq;
  at_work : worker;
  callers : gmap ptr (nat * caller);
  asked : list (F * D);
  ran : list (F * D) }.

Definition wake_all (cs : gmap ptr (nat * caller)) : gmap ptr (nat * caller) :=
  (fun c => (c.1, Testing)) <$> cs.

(** The thread goes on with the item it took, or leaves with a broadcast. *)
Definition continue (o : option ptr) (q : wq) (s : state) : state :=
  match o with
  | Some wi => mk_state q (Taken wi) (callers s) (asked s) (ran s)
  | None => mk_state q Idle (wake_all (callers s)) (asked s) (ran s)
  end.

(** Steps of the CPU's thread.  The first test of [queued_work_first] is made without
    the lock; only this thread takes items out, so it still holds under the lock. *)
Inductive work_step : state -> state -> Prop :=
  | step_start s wi q : at_work s = Idle -> queued_work_first (queue s) <> None ->
      take_first (queue s) = Ok (Some wi, q) ->
      work_step s (mk_state q (Taken wi) (callers s) (asked s) (ran s))
  | step_call s wi w : at_work s = Taken wi -> load wi (queue s) = Ok w ->
      work_step s (mk_state (queue s) (Called wi) (callers s) (asked s) (ran s ++ [(func w, data w)])%list)
  | step_finish s wi q1 o q2 : at_work s = Called wi -> finish wi (queue s) = Ok q1 -> take_first q1 = Ok (o, q2) ->
      work_step s (continue o q2 s).

(** Steps of the other threads. *)
Inductive call_step : state -> state -> Prop :=
  | step_run_on s wi n b f d q : items (queue s) !! wi = None ->
      enqueue wi (alloc wi (new_item n b f d false) (queue s)) = Ok q ->
      call_step s (mk_state q (at_work s) (<[wi := (length (asked s), Testing)]> (callers s))
                     (asked s ++ [(f, d)])%list (ran s))
  | step_async s wi f d q : items (queue s) !! wi = None ->
      enqueue wi (alloc wi (new_item None false f d true) (queue s)) = Ok q ->
      call_step s (mk_state q (at_work s) (callers s) (asked s ++ [(f, d)])%list (ran s))
  | step_sleep s wi n w : callers s !! wi = Some (n, Testing) ->
      load wi (queue s) = Ok w -> done w = false ->
      call_step s (mk_state (queue s) (at_work s) (<[wi := (n, Sleeping)]> (callers s)) (asked s) (ran s))
  | step_spurious s wi n : callers s !! wi = Some (n, Sleeping) ->
      call_step s (mk_state (queue s) (at_work s) (<[wi := (n, Testing)]> (callers s)) (asked s) (ran s)).

(** The return of [run_on_cpu]: its stack frame, and with it the item, is gone. *)
Inductive return_step (wi : ptr) (n : nat) : state -> state -> Prop :=
  | step_return s w : callers s !! wi = Some (n, Testing) ->
      load wi (queue s) = Ok w -> done w = true ->
      return_step wi n s (mk_state (dealloc wi (queue s)) (at_work s) (delete wi (callers s)) (asked s) (ran s)).

Definition any_step (s s' : state) : Prop :=
  work_step s s' \/ call_step s s' \/ exists wi n, return_step wi n s s'.

Definition empty_state : state := mk_state (mk_wq ∅ None None) Idle ∅ [] [].

(** ** The queue as a list *)

(** The cells from [o] on are those of [l]. *)
Fixpoint chain (h : heap) (o : option ptr) (l : list ptr) : Prop :=
  match l with
  | [] => o = None
  | p :: l => o = Some p /\ exists w, h !! p = Some w /\ chain h (next w) l
  end.

Record is_queue (q : wq) (l : list ptr) : Prop := {
  iq_chain : chain (items q) (queued_work_first q) l;
  iq_last : queued_work_last q = last l;
  iq_nodup : NoDup l }.

Lemma chain_ext h h' o l : (forall p w, p ∈ l -> h !! p = Some w -> exists w', h' !! p = Some w' /\ next w' = next w) ->
  chain h o l -> chain h' o l.
Proof.
  revert o. induction l as [|p l IH]; intros o E; [trivial|]. intros (-> & w & Hw & C). split; [reflexivity|].
  destruct (E p w (list_elem_of_here _ _) Hw) as (w' & Hw' & N). exists w'. split; [exact Hw'|]. rewrite N.
  apply IH; [|exact C]. intros p' w1 Hp. apply E, list_elem_of_further, Hp.
Qed.

Lemma chain_in h o l p : chain h o l -> p ∈ l -> exists w, h !! p = Some w.
Proof.
  revert o. induction l as [|x l IH]; intros o C Hp; [apply elem_of_nil in Hp; contradiction|].
  destruct C as (_ & w & Hw & C). apply elem_of_cons in Hp as [->|Hp]; eauto.
Qed.

Lemma chain_frame h o l p w : p ∉ l -> chain h o l -> chain (<[p := w]> h) o l.
Proof.
  intros N. apply chain_ext. intros x w' Hx Hw. exists w'. split; [|reflexivity].
  rewrite lookup_insert_ne; [exact Hw | congruence].
Qed.

Lemma chain_delete h o l p : p ∉ l -> chain h o l -> chain (delete p h) o l.
Proof.
  intros N. apply chain_ext. intros x w' Hx Hw. exists w'. split; [|reflexivity].
  rewrite lookup_delete_ne; [exact Hw | congruence].
Qed.

(** Linking a cell after the last one. *)
Lemma chain_snoc h o l z w p wp : chain h o (l ++ [z]) -> NoDup (l ++ [z]) -> p ∉ l ++ [z] ->
  h !! z = Some w -> next wp = None ->
  chain (<[p := wp]> (<[z := set_next (Some p) w]> h)) o ((l ++ [z]) ++ [p]).
Proof.
  revert o. induction l as [|x l IH]; intros o C N Hp Hz Hn.
  - destruct C as (-> & w0 & Hw0 & C). cbn in C. cbn [app chain]. split; [reflexivity|].
    exists (set_next (Some p) w). rewrite lookup_insert_ne, lookup_insert_eq by set_solver. split; [reflexivity|].
    split; [reflexivity|]. exists wp. rewrite lookup_insert_eq. auto.
  - cbn [app] in *. destruct C as (-> & w0 & Hw0 & C). apply NoDup_cons in N as [Nx N].
    cbn [chain app]. split; [reflexivity|]. exists w0.
    rewrite lookup_insert_ne, lookup_insert_ne by set_solver. split; [exact Hw0|]. apply IH; set_solver.
Qed.

Definition core (w : work_item) : F * D * bool * bool := (func w, data w, done w, free w).
Definition work (w : work_item) : F * D := (func w, data w).

(** Everything but the links of the cells. *)
Definition cores (q : wq) (p : ptr) : option (F * D * bool * bool) := core <$> items q !! p.

Lemma enqueue_ok q l wi w : is_queue q l -> wi ∉ l -> items q !! wi = Some w ->
  exists q', enqueue wi q = Ok q' /\ is_queue q' (l ++ [wi]) /\
    cores q' wi = Some (func w, data w, false, free w) /\ forall p, p <> wi -> cores q' p = cores q p.
Proof.
  intros [C L N] Hn Hw. unfold enqueue.
  assert (Nd : NoDup (l ++ [wi])) by (apply NoDup_app; split; [exact N|]; split; [set_solver | apply NoDup_singleton]).
  destruct l as [|x l'] using rev_ind; [|clear IHl'].
  - cbn in C, L. rewrite C. cbn [rbind items queued_work_first queued_work_last]. unfold modify, load. cbn [items].
    rewrite Hw. cbn [of_option rbind items]. rewrite lookup_insert_eq. cbn [of_option rbind].
    eexists. split; [reflexivity|]. split; [|split].
    + split; [|reflexivity | exact Nd]. cbn [chain app items queued_work_first]. split; [reflexivity|].
      eexists. rewrite lookup_insert_eq. split; reflexivity.
    + unfold cores. cbn [items]. rewrite lookup_insert_eq. reflexivity.
    + intros p Hp. unfold cores. cbn [items]. rewrite !lookup_insert_ne by congruence. reflexivity.
  - rewrite last_snoc in L. destruct (chain_in _ _ _ x C ltac:(set_solver)) as [wx Hx].
    destruct (queued_work_first q) as [f|] eqn:E; [|destruct l'; cbn in C; destruct C; discriminate].
    rewrite L. unfold modify at 1, load. rewrite Hx. cbn [of_option rbind items queued_work_first].
    assert (Hne : wi <> x) by set_solver.
    unfold modify, load. cbn [items]. rewrite lookup_insert_ne, Hw by congruence. cbn [of_option rbind items].
    rewrite lookup_insert_eq. cbn [of_option rbind].
    eexists. split; [reflexivity|]. split; [|split].
    + split; [|rewrite last_snoc; reflexivity | exact Nd]. cbn [items queued_work_first]. rewrite insert_insert_eq, E.
      apply chain_snoc; [exact C | exact N | exact Hn | exact Hx | reflexivity].
    + unfold cores. cbn [items]. rewrite lookup_insert_eq. reflexivity.
    + intros p Hp. unfold cores. cbn [items]. rewrite !(lookup_insert_ne _ wi) by congruence.
      destruct (decide (p = x)) as [->|Np]; [rewrite lookup_insert_eq, Hx | rewrite lookup_insert_ne by congruence]; reflexivity.
Qed.

Lemma take_first_ok q l : is_queue q l ->
  exists q', take_first q = Ok (hd_error l, q') /\ items q' = items q /\ is_queue q' (tl l).
Proof.
  intros [C L N]. unfold take_first. destruct l as [|p l]; cbn in C.
  - rewrite C. exists q. split; [reflexivity|]. split; [reflexivity|]. split; assumption.
  - destruct C as (-> & w & Hw & C). unfold load. rewrite Hw. cbn [of_option rbind hd_error].
    eexists. split; [reflexivity|]. split; [reflexivity|]. apply NoDup_cons in N as [_ N].
    split; [exact C | | exact N]. cbn [queued_work_last tl].
    destruct l as [|p' l]; cbn in C; [rewrite C; reflexivity|]. destruct C as (-> & _). exact L.
Qed.

Lemma finish_ok q l wi w : is_queue q l -> wi ∉ l -> items q !! wi = Some w ->
  exists q', finish wi q = Ok q' /\ is_queue q' l /\
    cores q' wi = (if free w then None else Some (func w, data w, true, free w)) /\
    forall p, p <> wi -> cores q' p = cores q p.
Proof.
  intros [C L N] Hn Hw. unfold finish, modify, load. rewrite Hw. cbn [of_option rbind].
  destruct (free w) eqn:Ef; cbn [rbind]; (eexists; split; [reflexivity|]; split; [split; [|exact L | exact N]|split]).
  - apply chain_delete; assumption.
  - unfold cores, dealloc. cbn [items]. rewrite lookup_delete_eq. reflexivity.
  - intros p Hp. unfold cores, dealloc. cbn [items]. rewrite lookup_delete_ne by congruence. reflexivity.
  - apply chain_frame; assumption.
  - unfold cores. cbn [items]. rewrite lookup_insert_eq. cbn. unfold core. cbn. rewrite Ef. reflexivity.
  - intros p Hp. unfold cores. cbn [items]. rewrite lookup_insert_ne by congruence. reflexivity.
Qed.

(** ** The invariant *)

(** The items not yet called, and those not yet finished. *)
Definition unrun (s : state) (l : list ptr) : list ptr := match at_work s with Taken p => p :: l | _ => l end.
Definition todo (s : state) (l : list ptr) : list ptr :=
  match at_work s with Idle => l | Taken p | Called p => p :: l end.

Definition caller_ok (s : state) (l : list ptr) (p : ptr) (n : nat) (c : caller) : Prop :=
  exists f d b, cores (queue s) p = Some (f, d, b, false) /\
    if b : bool then ran s !! n = Some (f, d) /\ (c = Sleeping -> at_work s <> Idle)
    else (exists k, unrun s l !! k = Some p /\ n = (length (ran s) + k)%nat)
         \/ (at_work s = Called p /\ ran s !! n = Some (f, d)).

Definition pending (q : wq) (p : ptr) (fd : F * D) : Prop := exists fr, cores q p = Some (fd, false, fr).

Record inv (s : state) (l : list ptr) : Prop := {
  in_queue : is_queue (queue s) l;
  in_nodup : NoDup (todo s l);
  in_live : forall p, p ∈ todo s l -> exists fd, pending (queue s) p fd;
  in_fifo : exists ws, asked s = (ran s ++ ws)%list /\ Forall2 (pending (queue s)) (unrun s l) ws;
  in_callers : forall p n c, callers s !! p = Some (n, c) -> caller_ok s l p n c }.

Lemma unrun_todo s l p : p ∈ unrun s l -> p ∈ todo s l.
Proof. unfold unrun, todo. destruct (at_work s); set_solver. Qed.

Lemma queue_todo s l p : p ∈ l -> p ∈ todo s l.
Proof. unfold todo. destruct (at_work s); set_solver. Qed.

Lemma pending_frame q q' p fd : cores q' p = cores q p -> pending q p fd -> pending q' p fd.
Proof. intros E [fr H]. exists fr. rewrite E. exact H. Qed.

Lemma fifo_frame q q' us ws : (forall p, p ∈ us -> cores q' p = cores q p) ->
  Forall2 (pending q) us ws -> Forall2 (pending q') us ws.
Proof.
  intros E H. induction H as [|p fd us ws Hp H IH]; constructor.
  - apply (pending_frame q); [apply E, list_elem_of_here | exact Hp].
  - apply IH. intros x Hx. apply E, list_elem_of_further, Hx.
Qed.

Lemma cores_load s wi w : load wi (queue s) = Ok w -> cores (queue s) wi = Some (core w).
Proof. unfold load, cores. destruct (items (queue s) !! wi); cbn; congruence. Qed.

Lemma cores_items q q' : items q' = items q -> forall p, cores q' p = cores q p.
Proof. intros E p. unfold cores. rewrite E. reflexivity. Qed.

(** The CPU's thread. *)
Lemma start_inv s l wi q : inv s l -> at_work s = Idle -> take_first (queue s) = Ok (Some wi, q) ->
  inv (mk_state q (Taken wi) (callers s) (asked s) (ran s)) (tl l).
Proof.
  intros [Q N L X C] Hi T. destruct (take_first_ok _ _ Q) as (q' & T' & I & Q'). rewrite T' in T.
  destruct l as [|p l]; [discriminate|]. injection T as -> ->. cbn [tl] in *.
  pose proof (cores_items _ _ I) as E. unfold caller_ok, unrun, todo in *. rewrite Hi in *.
  split; unfold caller_ok, unrun, todo; cbn [at_work queue callers asked ran].
  - exact Q'.
  - exact N.
  - intros x Hx. destruct (L x Hx) as [fd Hp]. exists fd. exact (pending_frame _ _ _ _ (E x) Hp).
  - destruct X as (ws & Ea & Fw). exists ws. split; [exact Ea|]. exact (fifo_frame _ _ _ _ (fun x _ => E x) Fw).
  - intros x n c Hc. destruct (C x n c Hc) as (f & d & b & Hx & Hb). exists f, d, b. rewrite E. split; [exact Hx|].
    destruct b; [destruct Hb as [Hr _]; split; [exact Hr | discriminate]|].
    destruct Hb as [Hb|[Hb _]]; [left; exact Hb | discriminate].
Qed.

Lemma call_inv s l wi w : inv s l -> at_work s = Taken wi -> load wi (queue s) = Ok w ->
  inv (mk_state (queue s) (Called wi) (callers s) (asked s) (ran s ++ [work w])%list) l.
Proof.
  intros [Q N L X C] Ht Hw. apply cores_load in Hw. unfold caller_ok, unrun, todo in *. rewrite Ht in *.
  split; unfold caller_ok, unrun, todo; cbn [at_work queue callers asked ran]; [exact Q | exact N | exact L | |].
  - destruct X as (ws & Ea & Fw). inversion Fw as [|? fd ? ws' [fr Hp] Fw']; subst. exists ws'. split; [|exact Fw'].
    rewrite Ea, <- app_assoc. f_equal. cbn. f_equal. rewrite Hw in Hp. unfold core in Hp. unfold work. congruence.
  - intros x n c Hc. destruct (C x n c Hc) as (f & d & b & Hx & Hb). exists f, d, b. split; [exact Hx|].
    destruct b.
    { destruct Hb as [Hr _]. split; [apply lookup_app_l_Some, Hr | discriminate]. }
    destruct Hb as [([|k] & Hk & ->)|[Hb _]]; [| |discriminate].
    + cbn in Hk. injection Hk as <-. right. split; [reflexivity|]. rewrite Nat.add_0_r, list_lookup_middle by reflexivity.
      rewrite Hw in Hx. unfold core in Hx. unfold work. congruence.
    + left. exists k. split; [exact Hk|]. rewrite length_app. cbn. lia.
Qed.

Lemma finish_inv s l wi q1 o q2 : inv s l -> at_work s = Called wi -> finish wi (queue s) = Ok q1 ->
  take_first q1 = Ok (o, q2) -> inv (continue o q2 s) (tl l).
Proof.
  intros [Q N L X C] Ht Hf Hk. unfold caller_ok, unrun, todo in *. rewrite Ht in *. apply NoDup_cons in N as [Nw N].
  destruct (L wi (list_elem_of_here _ _)) as (fd & fr & Hw).
  assert (exists w, items (queue s) !! wi = Some w /\ core w = (fd, false, fr)) as (w & Hi & Hc).
  { unfold cores in Hw. destruct (items (queue s) !! wi) as [w|]; cbn in Hw; [|discriminate]. exists w. split; congruence. }
  destruct (finish_ok _ l wi w Q Nw Hi) as (q1' & Hf' & Q1 & E1 & E2). rewrite Hf' in Hf. injection Hf as ->.
  destruct (take_first_ok _ _ Q1) as (q2' & T & I & Q2). rewrite T in Hk. injection Hk as <- ->.
  pose proof (cores_items _ _ I) as E.
  assert (Eo : forall p, p <> wi -> cores q2 p = cores (queue s) p) by (intros p Hp; rewrite E; apply E2, Hp).
  assert (St : unrun (continue (hd_error l) q2 s) (tl l) = l /\ todo (continue (hd_error l) q2 s) (tl l) = l)
    by (destruct l; split; reflexivity). destruct St as [Su Sd].
  assert (Sq : queue (continue (hd_error l) q2 s) = q2 /\ asked (continue (hd_error l) q2 s) = asked s /\
               ran (continue (hd_error l) q2 s) = ran s) by (destruct l; auto). destruct Sq as (Sq & Sa & Sr).
  split; unfold caller_ok; rewrite ?Su, ?Sd, ?Sq, ?Sa, ?Sr; [exact Q2 | exact N | | |].
  - intros p Hp. destruct (L p (list_elem_of_further _ _ _ Hp)) as [fd' Hp']. exists fd'.
    apply (pending_frame (queue s)); [apply Eo; set_solver | exact Hp'].
  - destruct X as (ws & Ea & Fw). exists ws. split; [exact Ea|].
    apply (fifo_frame (queue s)); [|exact Fw]. intros p Hp. apply Eo. set_solver.
  - intros p n c Hc'.
    assert (exists c0, callers s !! p = Some (n, c0) /\ (c = Sleeping -> at_work (continue (hd_error l) q2 s) <> Idle)) as (c0 & H0 & Hs).
    { destruct l as [|x l]; cbn [hd_error continue callers at_work] in *; [|exists c; split; [exact Hc' | discriminate]].
      unfold wake_all in Hc'. rewrite lookup_fmap in Hc'. destruct (callers s !! p) as [[n0 c0]|]; cbn in Hc'; [|discriminate].
      injection Hc' as <- <-. exists c0. split; [reflexivity | discriminate]. }
    destruct (C p n c0 H0) as (f & d & b & Hx & Hb). destruct (decide (p = wi)) as [->|Np].
    + exists f, d, true. rewrite E, E1. assert (b = false) as -> by congruence.
      assert (free w = false) as -> by (unfold core in Hc; congruence). unfold core in Hc.
      split; [congruence|]. split; [|exact Hs]. destruct Hb as [(k & Hk & _)|[_ Hr]]; [|exact Hr].
      apply list_elem_of_lookup_2 in Hk. contradiction.
    + exists f, d, b. rewrite Eo by exact Np. split; [exact Hx|]. destruct b; [split; [apply Hb | exact Hs]|].
      destruct Hb as [Hb|[Hb _]]; [left; exact Hb | congruence].
Qed.

(** The other threads.  Linking an item that is not in use yet. *)
Lemma enqueue_new s l wi w : inv s l -> items (queue s) !! wi = None ->
  exists q, enqueue wi (alloc wi w (queue s)) = Ok q /\ is_queue q (l ++ [wi]) /\
    cores q wi = Some (work w, false, free w) /\ (forall p, p <> wi -> cores q p = cores (queue s) p) /\
    wi ∉ todo s l.
Proof.
  intros [Q N L _ _] Hn.
  assert (Nt : wi ∉ todo s l) by (intros Hp; destruct (L wi Hp) as (fd & fr & Hc); unfold cores in Hc; rewrite Hn in Hc; discriminate).
  assert (Nl : wi ∉ l) by (intros Hp; apply Nt, queue_todo, Hp).
  destruct (enqueue_ok (alloc wi w (queue s)) l wi w) as (q & E & Q' & C1 & C2).
  - destruct Q as [C La Nd]. split; [apply chain_frame; assumption | exact La | exact Nd].
  - exact Nl.
  - apply lookup_insert_eq.
  - exists q. split; [exact E|]. split; [exact Q'|]. split; [exact C1|]. split; [|exact Nt]. intros p Hp. rewrite C2 by exact Hp.
    unfold cores, alloc. cbn [items]. rewrite lookup_insert_ne by congruence. reflexivity.
Qed.

Lemma enqueue_inv s l wi w q cs : inv s l -> items (queue s) !! wi = None ->
  enqueue wi (alloc wi w (queue s)) = Ok q ->
  (forall p n c, cs !! p = Some (n, c) -> p <> wi /\ callers s !! p = Some (n, c)
     \/ p = wi /\ n = length (asked s) /\ free w = false) ->
  inv (mk_state q (at_work s) cs (asked s ++ [work w])%list (ran s)) (l ++ [wi]).
Proof.
  intros I Hn He Hcs. destruct (enqueue_new s l wi w I Hn) as (q' & E & Q' & C1 & C2 & Nt).
  rewrite E in He. injection He as ->. destruct I as [Q N L (ws & Ea & Fw) C].
  set (s' := mk_state _ _ _ _ _).
  assert (St : todo s' (l ++ [wi]) = todo s l ++ [wi] /\ unrun s' (l ++ [wi]) = unrun s l ++ [wi])
    by (unfold todo, unrun; cbn; destruct (at_work s); auto). destruct St as [Sd Su].
  split; unfold caller_ok; rewrite ?Sd, ?Su; cbn [s' queue callers asked ran at_work].
  - exact Q'.
  - apply NoDup_app. split; [exact N|]. split; [set_solver | apply NoDup_singleton].
  - intros p [Hp| ->%list_elem_of_singleton]%elem_of_app; [|exists (work w), (free w); exact C1].
    destruct (L p Hp) as [fd Hf]. exists fd. apply (pending_frame (queue s)); [apply C2; congruence | exact Hf].
  - exists (ws ++ [work w])%list. split; [rewrite Ea, app_assoc; reflexivity|]. apply Forall2_app.
    + apply (fifo_frame (queue s)); [|exact Fw]. intros p Hp. apply C2. intros ->. apply Nt, unrun_todo, Hp.
    + constructor; [|constructor]. exists (free w). exact C1.
  - intros p n c Hc. destruct (Hcs p n c Hc) as [[Np Hp]|(-> & -> & Hf)].
    + destruct (C p n c Hp) as (f & d & b & Hx & Hb). exists f, d, b. rewrite C2 by exact Np. split; [exact Hx|].
      destruct b; [exact Hb|]. destruct Hb as [(k & Hk & ->)|Hb]; [left | right; exact Hb].
      exists k. split; [apply lookup_app_l_Some, Hk | reflexivity].
    + exists (func w), (data w), false. rewrite C1, Hf. split; [reflexivity|]. left. exists (length (unrun s l)).
      split; [apply list_lookup_middle; reflexivity|]. rewrite Ea, length_app, (Forall2_length _ _ _ Fw). reflexivity.
Qed.

(** Cells of callers are in the heap. *)
Lemma caller_live s l wi n c : inv s l -> callers s !! wi = Some (n, c) -> items (queue s) !! wi <> None.
Proof.
  intros I Hc. destruct (in_callers s l I wi n c Hc) as (f & d & b & Hx & _). unfold cores in Hx.
  destruct (items (queue s) !! wi); [congruence | discriminate].
Qed.

Lemma place_inv s l wi n c c' : inv s l -> callers s !! wi = Some (n, c) ->
  (c' = Testing \/ exists w, load wi (queue s) = Ok w /\ done w = false) ->
  inv (mk_state (queue s) (at_work s) (<[wi := (n, c')]> (callers s)) (asked s) (ran s)) l.
Proof.
  intros [Q N L X C] Hc Hw. split; [exact Q | exact N | exact L | exact X |].
  intros p m k Hk. cbn [callers] in Hk. destruct (decide (p = wi)) as [->|Np].
  - rewrite lookup_insert_eq in Hk. injection Hk as <- <-.
    destruct (C wi n c Hc) as (f & d & b & Hx & Hb). exists f, d, b. split; [exact Hx|]. destruct b; [|exact Hb].
    split; [apply Hb|]. cbn [at_work]. intros ->. destruct Hw as [|(w & Hl & Hd)]; [discriminate|].
    apply cores_load in Hl. unfold core in Hl. congruence.
  - rewrite lookup_insert_ne in Hk by congruence. apply (C p m k Hk).
Qed.

Lemma return_inv s l wi n w : inv s l -> callers s !! wi = Some (n, Testing) ->
  load wi (queue s) = Ok w -> done w = true ->
  inv (mk_state (dealloc wi (queue s)) (at_work s) (delete wi (callers s)) (asked s) (ran s)) l.
Proof.
  intros [Q N L (ws & Ea & Fw) C] Hc Hl Hd. apply cores_load in Hl.
  assert (Nt : wi ∉ todo s l) by (intros Hp; destruct (L wi Hp) as (fd & fr & Hp'); unfold core in Hl; congruence).
  assert (E : forall p, p <> wi -> cores (dealloc wi (queue s)) p = cores (queue s) p)
    by (intros p Hp; unfold cores, dealloc; cbn [items]; rewrite lookup_delete_ne by congruence; reflexivity).
  split; cbn [queue callers asked ran].
  - destruct Q as [Ch La Nd]. split; [|exact La | exact Nd]. apply chain_delete; [|exact Ch].
    intros Hp. apply Nt, queue_todo, Hp.
  - exact N.
  - intros p Hp. destruct (L p Hp) as [fd Hf]. exists fd. apply (pending_frame (queue s)); [|exact Hf].
    apply E. intros ->. contradiction.
  - exists ws. split; [exact Ea|]. apply (fifo_frame (queue s)); [|exact Fw].
    intros p Hp. apply E. intros ->. apply Nt, unrun_todo, Hp.
  - intros p m c Hp. apply lookup_delete_Some in Hp as [Np Hp]. destruct (C p m c Hp) as (f & d & b & Hx & Hb).
    exists f, d, b. cbn [queue]. rewrite E by congruence. split; [exact Hx | exact Hb].
Qed.

Lemma empty_inv : inv empty_state [].
Proof.
  split; cbn; [split; constructor | constructor | intros p Hp; apply elem_of_nil in Hp; contradiction | |].
  - exists []. split; [reflexivity | constructor].
  - intros p n c Hc. rewrite lookup_empty in Hc. discriminate.
Qed.

Lemma any_step_inv s s' l : inv s l -> any_step s s' -> exists l', inv s' l'.
Proof.
  intros I [W|[C|(wi & n & R)]].
  - destruct W; eauto using start_inv, call_inv, finish_inv.
  - destruct C as [s wi n b f d q Hn He|s wi f d q Hn He|s wi n w Hc Hl Hd|s wi n Hc]; eexists.
    + apply (enqueue_inv s l wi (new_item n b f d false)); [exact I | exact Hn | exact He|].
      intros p m c Hp. destruct (decide (p = wi)) as [->|Np].
      * rewrite lookup_insert_eq in Hp. injection Hp as <- <-. auto.
      * rewrite lookup_insert_ne in Hp by congruence. auto.
    + apply (enqueue_inv s l wi (new_item None false f d true)); [exact I | exact Hn | exact He|].
      intros p m c Hp. left. split; [|exact Hp]. intros ->. exact (caller_live s l wi m c I Hp Hn).
    + apply (place_inv s l wi n Testing Sleeping I Hc). eauto.
    + apply (place_inv s l wi n Sleeping Testing I Hc). auto.
  - destruct R as [s w Hc Hl Hd]. eexists. apply (return_inv s l wi n w); assumption.
Qed.

Lemma work_reachable s : rtc any_step empty_state s -> exists l, inv s l.
Proof.
  intros R. assert (G : forall a b, rtc any_step a b -> (exists l, inv a l) -> exists l, inv b l).
  { induction 1 as [|a b c S _ IH]; [auto|]. intros [l I]. apply IH, (any_step_inv a b l I S). }
  apply (G _ _ R). exists []. apply empty_inv.
Qed.

(** ** A whole flush *)

(** The body of the loop for the item [wi] that was taken, and the rounds after it. *)
Definition flush_rest (fuel : nat) (wi : ptr) (q : wq) (calls : list (F * D)) : res (wq * list (F * D)) :=
  let? w := load wi q in
  let? q := finish wi q in
  flush_loop fuel q (calls ++ [(func w, data w)])%list.

Lemma pending_load q p fd : pending q p fd -> exists w, load p q = Ok w /\ items q !! p = Some w /\ work w = fd /\ done w = false.
Proof.
  intros [fr H]. unfold cores, load in *. destruct (items q !! p) as [w|]; cbn in H; [|discriminate].
  exists w. unfold core, work in *. cbn. split; [reflexivity|]. split; [reflexivity|]. split; congruence.
Qed.

(** One round: the call, then the end of the item. *)
Lemma round_steps s l wi : inv s l -> at_work s = Taken wi ->
  exists w q1 q2, load wi (queue s) = Ok w /\ finish wi (queue s) = Ok q1 /\ take_first q1 = Ok (hd_error l, q2) /\
    let s1 := mk_state (queue s) (Called wi) (callers s) (asked s) (ran s ++ [work w])%list in
    work_step s s1 /\ work_step s1 (continue (hd_error l) q2 s1) /\ inv (continue (hd_error l) q2 s1) (tl l).
Proof.
  intros I Ht. pose proof (in_live s l I wi) as Lw. unfold todo in Lw. rewrite Ht in Lw.
  destruct (Lw (list_elem_of_here _ _)) as [fd Hp]. destruct (pending_load _ _ _ Hp) as (w & Hl & Hi & _ & _).
  pose proof (call_inv s l wi w I Ht Hl) as I1.
  assert (Nw : wi ∉ l) by (pose proof (in_nodup s l I) as N; unfold todo in N; rewrite Ht in N; apply NoDup_cons in N; tauto).
  destruct (finish_ok _ l wi w (in_queue s l I) Nw Hi) as (q1 & Hf & Q1 & _).
  destruct (take_first_ok _ _ Q1) as (q2 & T & _). exists w, q1, q2. split; [exact Hl|]. split; [exact Hf|]. split; [exact T|].
  intros s1. split; [exact (step_call s wi w Ht Hl)|].
  split; [exact (step_finish s1 wi q1 (hd_error l) q2 eq_refl Hf T)|].
  exact (finish_inv s1 l wi q1 (hd_error l) q2 I1 eq_refl Hf T).
Qed.

Lemma taken_flush l : forall s wi, inv s l -> at_work s = Taken wi ->
  exists s', rtc work_step s s' /\ at_work s' = Idle /\ (exists l', inv s' l') /\ asked s' = asked s /\ ran s' = asked s /\
    forall fuel calls, (length l <= fuel)%nat ->
      flush_rest fuel wi (queue s) calls = Ok (queue s', calls ++ drop (length (ran s)) (asked s))%list.
Proof.
  induction l as [|p l IH]; intros s wi I Ht.
  all: destruct (round_steps s _ wi I Ht) as (w & q1 & q2 & Hl & Hf & T & S1 & S2 & I2).
  all: destruct (in_fifo s _ I) as (ws & Ea & Fw); unfold unrun in Fw; rewrite Ht in Fw.
  all: inversion Fw as [|? fd ? ws' Hp Fw']; subst; destruct (pending_load _ _ _ Hp) as (w' & Hl' & _ & <- & _).
  all: rewrite Hl in Hl'; injection Hl' as <-.
  - inversion Fw'; subst. set (s1 := mk_state _ _ _ _ _) in *. exists (continue None q2 s1).
    split; [eapply rtc_l; [exact S1 | apply rtc_once, S2]|]. split; [reflexivity|]. split; [eauto|].
    split; [reflexivity|]. split; [cbn; congruence|]. intros fuel calls _. unfold flush_rest.
    rewrite Hl, Hf. cbn [rbind]. destruct fuel; cbn [flush_loop]; rewrite T; cbn [rbind hd_error queue continue];
      rewrite Ea, drop_app_length; reflexivity.
  - set (s1 := mk_state _ _ _ _ _) in *. cbn [hd_error tl] in *.
    destruct (IH (continue (Some p) q2 s1) p I2 eq_refl) as (s' & R & Hs & I' & Ea' & Er & Hfl).
    exists s'. split; [eapply rtc_l; [exact S1|]; eapply rtc_l; [exact S2 | exact R]|].
    split; [exact Hs|]. split; [exact I'|]. split; [exact Ea'|]. split; [exact Er|]. intros fuel calls Hn.
    unfold flush_rest. rewrite Hl, Hf. cbn [rbind]. change (func w, data w) with (work w).
    destruct fuel as [|fuel]; [cbn in Hn; lia|].
    cbn [flush_loop]. rewrite T. cbn [rbind hd_error].
    specialize (Hfl fuel (calls ++ [work w])%list ltac:(cbn in Hn; lia)). unfold flush_rest in Hfl.
    assert (Ea2 : asked s = ((ran s ++ [work w]) ++ ws')%list) by (rewrite <- app_assoc; exact Ea).
    cbn [continue queue ran asked s1] in Hfl. rewrite Hfl. rewrite Ea2 at 1. rewrite Ea, !drop_app_length, <- app_assoc.
    reflexivity.
Qed.

(** With nothing left to call, nobody sleeps. *)
Lemma served s l : inv s l -> at_work s = Idle -> ran s = asked s -> forall wi n c, callers s !! wi = Some (n, c) ->
  c = Testing /\ exists w, load wi (queue s) = Ok w /\ done w = true.
Proof.
  intros I Hi Er wi n c Hc. destruct (in_fifo s l I) as (ws & Ea & Fw).
  assert (ws = []) as -> by (rewrite Er in Ea; rewrite <- (app_nil_r (asked s)) in Ea at 1; apply app_inv_head in Ea; congruence).
  inversion Fw as [E|]. destruct (in_callers s l I wi n c Hc) as (f & d & b & Hx & Hb). destruct b.
  - destruct Hb as [_ Hs]. split; [destruct c; [reflexivity | exfalso; exact (Hs eq_refl Hi)]|].
    unfold cores, load in *. destruct (items (queue s) !! wi) as [w|]; cbn in Hx; [|discriminate].
    exists w. split; [reflexivity|]. unfold core in Hx. congruence.
  - destruct Hb as [(k & Hk & _)|[Hb _]]; [|congruence]. rewrite <- E in Hk. discriminate.
Qed.

(** All work has been called and nobody waits for more: the end of a flush from [s]. *)
Definition flushed (s s' : state) : Prop :=
  rtc work_step s s' /\ at_work s' = Idle /\ asked s' = asked s /\ ran s' = asked s /\
  forall wi n c, callers s' !! wi = Some (n, c) -> c = Testing /\ exists w, load wi (queue s') = Ok w /\ done w = true.

Lemma flushed_here s l : inv s l -> at_work s = Idle -> ran s = asked s -> flushed s s.
Proof.
  intros I Hi Er. split; [reflexivity|]. split; [exact Hi|]. split; [reflexivity|]. split; [exact Er|].
  exact (served s l I Hi Er).
Qed.

Lemma flushed_step s s1 s' : work_step s s1 -> asked s1 = asked s -> flushed s1 s' -> flushed s s'.
Proof.
  intros W Ea (R & Hi & E1 & E2 & C). split; [eapply rtc_l; [exact W | exact R]|].
  split; [exact Hi|]. split; [congruence|]. split; [congruence | exact C].
Qed.

Lemma flushed_taken s l wi : inv s l -> at_work s = Taken wi ->
  exists s', flushed s s' /\ forall fuel calls, (length l <= fuel)%nat ->
    flush_rest fuel wi (queue s) calls = Ok (queue s', calls ++ drop (length (ran s)) (asked s))%list.
Proof.
  intros I Ht. destruct (taken_flush l s wi I Ht) as (s' & R & Hs & [l' I'] & Ea & Er & Hfl). exists s'.
  split; [|exact Hfl]. split; [exact R|]. split; [exact Hs|]. split; [exact Ea|]. split; [exact Er|].
  apply (served s' l' I' Hs). congruence.
Qed.

(** After the call of the item [wi]: its end, and the rounds that are left. *)
Lemma flushed_called s l wi : inv s l -> at_work s = Called wi -> exists s', flushed s s'.
Proof.
  intros I Ht. pose proof (in_live s l I wi) as Lw. pose proof (in_nodup s l I) as N. unfold todo in Lw, N. rewrite Ht in Lw, N.
  apply NoDup_cons in N as [Nw _]. destruct (Lw (list_elem_of_here _ _)) as [fd Hp].
  destruct (pending_load _ _ _ Hp) as (w & _ & Hi & _ & _).
  destruct (finish_ok _ l wi w (in_queue s l I) Nw Hi) as (q1 & Hf & Q1 & _).
  destruct (take_first_ok _ _ Q1) as (q2 & T & _).
  pose proof (finish_inv s l wi q1 (hd_error l) q2 I Ht Hf T) as I2.
  pose proof (step_finish s wi q1 (hd_error l) q2 Ht Hf T) as W.
  destruct l as [|p l]; cbn [hd_error tl] in *.
  - destruct (in_fifo s [] I) as (ws & Ea & Fw). unfold unrun in Fw. rewrite Ht in Fw. inversion Fw; subst. rewrite app_nil_r in Ea.
    eexists. apply (flushed_step _ _ _ W eq_refl), (flushed_here _ _ I2); [reflexivity | cbn; congruence].
  - destruct (flushed_taken _ l p I2 eq_refl) as (s' & H & _). exists s'. exact (flushed_step _ _ _ W eq_refl H).
Qed.

(** Outside of [flush_queued_work]: the steps of the thread, and the loop run at one go. *)
Lemma flushed_idle s l : inv s l -> at_work s = Idle ->
  exists s', flushed s s' /\ forall fuel, (length (asked s) - length (ran s) <= fuel)%nat ->
    exists b, flush_queued_work fuel (queue s) = Ok (queue s', drop (length (ran s)) (asked s), b).
Proof.
  intros I Hi. destruct (in_fifo s l I) as (ws & Ea & Fw).
  pose proof (in_queue s l I) as Q. unfold unrun in Fw. rewrite Hi in Fw.
  destruct (take_first_ok _ _ Q) as (q & T & Iq & _). unfold flush_queued_work.
  pose proof (iq_chain _ _ Q) as C. destruct l as [|p l]; cbn in C.
  - inversion Fw; subst. rewrite app_nil_r in Ea. exists s. split; [exact (flushed_here s [] I Hi (eq_sym Ea))|].
    intros fuel _. rewrite C, Ea, drop_all. eexists. reflexivity.
  - destruct C as [Hf _]. cbn [hd_error] in T. pose proof (start_inv s (p :: l) p q I Hi T) as I1. cbn [tl] in I1.
    destruct (flushed_taken _ l p I1 eq_refl) as (s' & H & Hfl). exists s'.
    split; [exact (flushed_step _ _ _ (step_start s p q Hi ltac:(congruence) T) eq_refl H)|].
    intros fuel Hn. rewrite Hf. exists true. apply Forall2_length in Fw. rewrite Ea, length_app in Hn. cbn in Fw.
    destruct fuel as [|fuel]; [lia|]. cbn [flush_loop]. rewrite T. cbn [rbind].
    specialize (Hfl fuel [] ltac:(lia)). unfold flush_rest in Hfl. cbn [queue ran asked app] in *. rewrite Hfl. reflexivity.
Qed.

(** ** Properties *)

(** However callers and the CPU's thread interleave, the functions handed over are
    called once each, in the order in which they were handed over, and when the thread
    is outside of flush_queued_work with an empty queue, all of them have been. *)
Theorem work_in_order s : rtc any_step empty_state s ->
  exists ws, asked s = (ran s ++ ws)%list /\
    (at_work s = Idle -> queued_work_first (queue s) = None -> ws = []).
Proof.
  intros R. destruct (work_reachable s R) as [l I]. destruct (in_fifo s l I) as (ws & Ea & Fw). exists ws.
  split; [exact Ea|]. intros Hi Hf. pose proof (iq_chain _ _ (in_queue s l I)) as C. rewrite Hf in C.
  unfold unrun in Fw. rewrite Hi in Fw. destruct l as [|p l]; [inversion Fw; reflexivity|]. destruct C. discriminate.
Qed.

(** C21: no thread touches an item that is gone, although a caller of run_on_cpu takes its
    item away with its stack frame as soon as it sees done and asynchronous items are
    freed: in every reachable state the next action of the CPU's thread, the linking of
    a new item and the test of each caller find their cells. *)
Theorem no_dangling_item s : rtc any_step empty_state s ->
  match at_work s with
  | Idle => exists r, take_first (queue s) = Ok r
  | Taken wi => exists w, load wi (queue s) = Ok w
  | Called wi => exists q1 r, finish wi (queue s) = Ok q1 /\ take_first q1 = Ok r
  end /\
  (forall wi w, items (queue s) !! wi = None -> exists q, enqueue wi (alloc wi w (queue s)) = Ok q) /\
  (forall wi n c, callers s !! wi = Some (n, c) -> exists w, load wi (queue s) = Ok w).
Proof.
  intros R. destruct (work_reachable s R) as [l I]. split; [|split].
  - pose proof (in_live s l I) as L. pose proof (in_nodup s l I) as N. unfold todo in L, N. destruct (at_work s) as [|wi|wi].
    + destruct (take_first_ok _ _ (in_queue s l I)) as (q & T & _). eauto.
    + destruct (L wi (list_elem_of_here _ _)) as [fd Hp]. destruct (pending_load _ _ _ Hp) as (w & Hl & _). eauto.
    + destruct (L wi (list_elem_of_here _ _)) as [fd Hp]. destruct (pending_load _ _ _ Hp) as (w & _ & Hi & _).
      apply NoDup_cons in N as [Nw _]. destruct (finish_ok _ l wi w (in_queue s l I) Nw Hi) as (q1 & Hf & Q1 & _).
      destruct (take_first_ok _ _ Q1) as (q2 & T & _). eauto.
  - intros wi w Hn. destruct (enqueue_new s l wi w I Hn) as (q & E & _). eauto.
  - intros wi n c Hc. pose proof (caller_live s l wi n c I Hc) as Hi. unfold load.
    destruct (items (queue s) !! wi) as [w|]; [eauto | contradiction].
Qed.

(** Run_on_cpu returns only after its function has been called: the item whose done
    flag lets the caller out is the caller's own, and its function is the one that was
    called for it. *)
Theorem returns_after_call s wi n s' : rtc any_step empty_state s -> return_step wi n s s' ->
  exists w, load wi (queue s) = Ok w /\ asked s !! n = Some (func w, data w) /\ ran s !! n = Some (func w, data w) /\
    load wi (queue s') = Err OutOfBounds.
Proof.
  intros R. destruct (work_reachable s R) as [l I]. destruct 1 as [s w Hc Hl Hd].
  exists w. split; [exact Hl|]. destruct (in_callers s l I wi n _ Hc) as (f & d & b & Hx & Hb).
  rewrite (cores_load s wi w Hl) in Hx. unfold core in Hx. assert (b = true) as -> by congruence.
  destruct Hb as [Hr _]. assert (E : (f, d) = (func w, data w)) by congruence. rewrite E in Hr.
  destruct (in_fifo s l I) as (ws & Ea & _). rewrite Ea. split; [apply lookup_app_l_Some, Hr|]. split; [exact Hr|].
  unfold load, dealloc. cbn [queue items]. rewrite lookup_delete_eq. reflexivity.
Qed.

(** C22: no wake-up is lost and a flush ends.  From every reachable state, the CPU's thread
    outside of flush_queued_work, about to call an item it took or about to finish one,
    this thread alone reaches a state in which all work has been called in order, no
    caller sleeps and every caller finds its done flag set; and outside of it
    flush_queued_work with as much fuel as there is work not yet called returns with
    exactly these calls. *)
Theorem flush_serves_all s : rtc any_step empty_state s ->
  exists s', rtc work_step s s' /\ at_work s' = Idle /\ asked s' = asked s /\ ran s' = asked s /\
    (forall wi n c, callers s' !! wi = Some (n, c) ->
       c = Testing /\ exists w, load wi (queue s') = Ok w /\ done w = true) /\
    (at_work s = Idle -> forall fuel, (length (asked s) - length (ran s) <= fuel)%nat ->
      exists b, flush_queued_work fuel (queue s) = Ok (queue s', drop (length (ran s)) (asked s), b)).
Proof.
  intros R. destruct (work_reachable s R) as [l I].
  assert (exists s', flushed s s' /\ (at_work s = Idle -> forall fuel, (length (asked s) - length (ran s) <= fuel)%nat ->
    exists b, flush_queued_work fuel (queue s) = Ok (queue s', drop (length (ran s)) (asked s), b))) as (s' & H & Hfl).
  { destruct (at_work s) as [|wi|wi] eqn:Hw.
    - destruct (flushed_idle s l I Hw) as (s' & H & Hfl). eauto.
    - destruct (flushed_taken s l wi I Hw) as (s' & H & _). exists s'. split; [exact H | discriminate].
    - destruct (flushed_called s l wi I Hw) as (s' & H). exists s'. split; [exact H | discriminate]. }
  exists s'. destruct H as (H1 & H2 & H3 & H4 & H5). auto 6.
Qed.
End queue.

(** ** A run: one caller waits, another does not *)

Definition sync_item (n : option positive) (b : bool) : @work_item nat nat := (mk_item n 7 1 b false)%nat.
Definition async_item : @work_item nat nat := (mk_item None 9 2 false true)%nat.

(** Both items are linked, the caller sleeps. *)
Definition demo_asked : @state nat nat :=
  mk_state (mk_wq (<[2%positive := async_item]> {[1%positive := sync_item (Some 2%positive) false]}) (Some 1%positive) (Some 2%positive))
    Idle {[1%positive := (0%nat, Sleeping)]} [(7, 1); (9, 2)]%nat [].

(** The first item is done, the second one taken; the caller woke up by itself. *)
Definition demo_done : @state nat nat :=
  mk_state (mk_wq (<[2%positive := async_item]> {[1%positive := sync_item (Some 2%positive) true]}) None None)
    (Taken 2%positive) {[1%positive := (0%nat, Testing)]} [(7, 1); (9, 2)]%nat [(7, 1)]%nat.

Lemma demo_asked_reachable : rtc any_step empty_state demo_asked.
Proof.
  eapply rtc_l; [right; left; apply (step_run_on _ 1%positive (Some 5%positive) true 7%nat 1%nat); reflexivity|].
  eapply rtc_l; [right; left; apply (step_async _ 2%positive 9%nat 2%nat); reflexivity|].
  eapply rtc_l; [right; left; eapply (step_sleep _ 1%positive 0%nat); reflexivity|]. reflexivity.
Qed.

Lemma demo_done_reachable : rtc any_step empty_state demo_done.
Proof.
  etransitivity; [exact demo_asked_reachable|].
  eapply rtc_l; [left; eapply (step_start _ 1%positive); [reflexivity | discriminate | reflexivity]|].
  eapply rtc_l; [left; eapply (step_call _ 1%positive); reflexivity|].
  eapply rtc_l; [left; eapply (step_finish _ 1%positive); reflexivity|].
  eapply rtc_l; [right; left; apply (step_spurious _ 1%positive 0%nat); reflexivity|]. reflexivity.
Qed.

Lemma work_in_order_witness : exists ws, asked demo_done = (ran demo_done ++ ws)%list.
Proof. destruct (work_in_order demo_done demo_done_reachable) as (ws & E & _). exists ws. exact E. Defined.

Lemma no_dangling_item_witness : exists w, load 1%positive (queue demo_done) = Ok w.
Proof.
  apply (proj2 (proj2 (no_dangling_item demo_done demo_done_reachable)) 1%positive 0%nat Testing). reflexivity.
Defined.

Lemma returns_after_call_witness :
  exists w, load 1%positive (queue demo_done) = Ok w /\ ran demo_done !! 0%nat = Some (func w, data w).
Proof.
  destruct (returns_after_call demo_done 1%positive 0%nat _ demo_done_reachable
    (step_return 1%positive 0%nat demo_done (sync_item (Some 2%positive) true) eq_refl eq_refl eq_refl))
    as (w & L & _ & E & _).
  exists w. auto.
Defined.

(** Once from outside of the loop, once from within it. *)
Lemma flush_serves_all_witness :
  (exists s', rtc work_step demo_asked s' /\ ran s' = [(7, 1); (9, 2)]%nat /\
     callers s' !! 1%positive <> Some (0%nat, Sleeping)) /\
  exists s', rtc work_step demo_done s' /\ ran s' = [(7, 1); (9, 2)]%nat.
Proof.
  split.
  - destruct (flush_serves_all demo_asked demo_asked_reachable) as (s' & R & _ & _ & E & C & _).
    exists s'. split; [exact R|]. split; [exact E|]. intros Hc. destruct (C _ _ _ Hc) as [? _]. discriminate.
  - destruct (flush_serves_all demo_done demo_done_reachable) as (s' & R & _ & _ & E & _). exists s'. auto.
Defined.
