(* ===== verification/VcpuThread.v ===== *)
(** * The threads of the virtual CPUs: run, wait, pause, resume (cpus.c)

    The loop of [qemu_kvm_cpu_thread_fn] and the protocol by which the main thread
    stops all CPUs ([pause_all_vcpus]) and lets them go on ([resume_all_vcpus]).  The
    requests are the flags [stop] and [stopped] of a CPU, condition variables and a
    signal that makes KVM_RUN return.

    All of it runs under the global mutex, except [kvm_cpu_exec], which gives it away;
    the code between two points where the mutex is given away is one step.  SIG_IPI is
    blocked but in KVM_RUN, so a signal that was sent stays pending until
    [qemu_kvm_eat_signals] takes it; [ipi] is whether one is pending.  What
    [kvm_cpu_exec] does is modelled elsewhere; here it is a place, left with the
    result EXCP_DEBUG or another one.  [queued_work_first] is kept as a flag, the queue
    itself is modelled in its own file; pause and resume are called from the main
    thread. *)

From Stdlib Require Import Lia Bool.
From stdpp Require Import base list relations.
From S2P Require Import Prelude.

(** Where a CPU's thread is. *)
Inductive vplace :=
  | AtLoop     (* at the top of while (1) *)
  | InExec     (* in kvm_cpu_exec *)
  | AtWait     (* at the test of qemu_kvm_wait_io_event *)
  | InHalt.    (* in qemu_cond_wait (cpu->halt_cond) *)

#[export] Instance vplace_eq_dec : EqDecision vplace.
Proof. solve_decision. Defined.

Record vcpu := mk_vcpu {
  stop : bool;
  stopped : bool;
  halted : bool;
  has_work : bool;
  queued : bool;
  thread_kicked : bool;
  ipi : bool;
  vplace_of : vplace }.

Definition set_place (p : vplace) (c : vcpu) : vcpu :=
  mk_vcpu (stop c) (stopped c) (halted c) (has_work c) (queued c) (thread_kicked c) (ipi c) p.
Definition set_stop (b1 b2 : bool) (c : vcpu) : vcpu :=
  mk_vcpu b1 b2 (halted c) (has_work c) (queued c) (thread_kicked c) (ipi c) (vplace_of c).
Definition set_queued (b : bool) (c : vcpu) : vcpu :=
  mk_vcpu (stop c) (stopped c) (halted c) (has_work c) b (thread_kicked c) (ipi c) (vplace_of c).
Definition set_kick (k i : bool) (c : vcpu) : vcpu :=
  mk_vcpu (stop c) (stopped c) (halted c) (has_work c) (queued c) k i (vplace_of c).
Definition set_event (h w : bool) (c : vcpu) : vcpu :=
  mk_vcpu (stop c) (stopped c) h w (queued c) (thread_kicked c) (ipi c) (vplace_of c).

Section thread.
(** [kvm_halt_in_kernel ()] *)
Variable kvm_halt_in_kernel : bool.

Definition cpu_is_stopped (running : bool) (c : vcpu) : bool := stopped c || negb running.

Definition cpu_thread_is_idle (running : bool) (c : vcpu) : bool :=
  if stop c || queued c then false
  else if cpu_is_stopped running c then true
  else if negb (halted c) || has_work c || kvm_halt_in_kernel then false
  else true.

Definition cpu_can_run (running : bool) (c : vcpu) : bool :=
  if stop c then false else if cpu_is_stopped running c then false else true.

Definition cpu_handle_guest_debug (c : vcpu) : vcpu := set_stop (stop c) true c.

(** [pthread_kill (SIG_IPI)], once until the thread has seen it. *)
Definition qemu_cpu_kick_thread (c : vcpu) : vcpu :=
  if thread_kicked c then c else set_kick true true c.

(** The broadcast of [halt_cond] takes the thread out of its wait. *)
Definition qemu_cpu_kick (c : vcpu) : vcpu :=
  qemu_cpu_kick_thread (match vplace_of c with InHalt => set_place AtWait c | _ => c end).

(** The second component: whether [qemu_pause_cond] is signalled. *)
Definition qemu_wait_io_event_common (c : vcpu) : vcpu * bool :=
  let sig := stop c in
  let c := if stop c then set_stop false true c else c in
  let c := set_queued false c in
  (set_kick false (ipi c) c, sig).

Definition qemu_kvm_eat_signals (c : vcpu) : vcpu := set_kick (thread_kicked c) false c.

(** From the test of the wait on: the thread sleeps or goes back to the loop. *)
Definition qemu_kvm_wait_io_event (running : bool) (c : vcpu) : vcpu * bool :=
  if cpu_thread_is_idle running c then (set_place InHalt c, false)
  else
    let '(c, sig) := qemu_wait_io_event_common (qemu_kvm_eat_signals c) in
    (set_place AtLoop c, sig).

(** [if (cpu_can_run (cpu)) r = kvm_cpu_exec (cpu); ...] *)
Definition thread_loop (running : bool) (c : vcpu) : vcpu :=
  set_place (if cpu_can_run running c then InExec else AtWait) c.

Definition exec_return (debug : bool) (c : vcpu) : vcpu :=
  set_place AtWait (if debug then cpu_handle_guest_debug c else c).

(** ** The main thread *)

Definition all_vcpus_paused (l : list vcpu) : bool := forallb stopped l.

Definition pause_request (c : vcpu) : vcpu := qemu_cpu_kick (set_stop true (stopped c) c).

Definition cpu_resume (c : vcpu) : vcpu := qemu_cpu_kick (set_stop false false c).

Inductive pauser :=
  | Away                      (* not in pause_all_vcpus *)
  | Waiting (signalled : bool) (* in qemu_cond_wait (&qemu_pause_cond) *)
  | Paused.                   (* pause_all_vcpus has returned *)

Record vm := mk_vm { vcpus : list vcpu; running : bool; main : pauser }.

(** The test of the loop of [pause_all_vcpus]. *)
Definition pause_test (l : list vcpu) (r : bool) : vm :=
  mk_vm l r (if all_vcpus_paused l then Paused else Waiting false).

(** From the main thread: [qemu_in_vcpu_thread ()] is false. *)
Definition pause_all_vcpus (s : vm) : vm := pause_test (pause_request <$> vcpus s) (running s).
Definition pause_woken (s : vm) : vm := pause_test (qemu_cpu_kick <$> vcpus s) (running s).
Definition resume_all_vcpus (s : vm) : vm := mk_vm (cpu_resume <$> vcpus s) (running s) Away.

Definition signal_pause (b : bool) (m : pauser) : pauser :=
  match m with Waiting false => Waiting b | _ => m end.

(** CPU [i] replaced by [c]. *)
Definition put (i : nat) (c : vcpu) (sig : bool) (s : vm) : vm :=
  mk_vm (<[i := c]> (vcpus s)) (running s) (signal_pause sig (main s)).

(** Steps of the thread of CPU [i]. *)
Inductive vcpu_step (i : nat) : vm -> vm -> Prop :=
  | vs_loop s c : vcpus s !! i = Some c -> vplace_of c = AtLoop ->
      vcpu_step i s (put i (thread_loop (running s) c) false s)
  | vs_return s c debug : vcpus s !! i = Some c -> vplace_of c = InExec ->
      vcpu_step i s (put i (exec_return debug c) false s)
  | vs_wait s c : vcpus s !! i = Some c -> vplace_of c = AtWait ->
      vcpu_step i s (put i (qemu_kvm_wait_io_event (running s) c).1 (qemu_kvm_wait_io_event (running s) c).2 s)
  | vs_spurious s c : vcpus s !! i = Some c -> vplace_of c = InHalt ->
      vcpu_step i s (put i (set_place AtWait c) false s).

(** Steps of the main thread and of devices. *)
Inductive main_step : vm -> vm -> Prop :=
  | ms_pause s : main s <> Waiting true -> main s <> Waiting false -> main_step s (pause_all_vcpus s)
  | ms_woken s b : main s = Waiting b -> main_step s (pause_woken s)
  | ms_runstate s r : main s = Paused -> main_step s (mk_vm (vcpus s) r Paused)
  | ms_resume s : main s = Paused -> main_step s (resume_all_vcpus s)
  | ms_queue s i c : vcpus s !! i = Some c -> main_step s (put i (qemu_cpu_kick (set_queued true c)) false s)
  | ms_event s i c h w : vcpus s !! i = Some c -> main_step s (put i (qemu_cpu_kick (set_event h w c)) false s).

Definition vm_step (s s' : vm) : Prop := main_step s s' \/ exists i, vcpu_step i s s'.

(** After [qemu_init_vcpu]: created and stopped. *)
Definition fresh_vcpu : vcpu := mk_vcpu false true false false false false false AtLoop.
Definition initial_vm (n : nat) : vm := mk_vm (replicate n fresh_vcpu) false Paused.

(** ** The invariant *)

(** A CPU: requests have their signal pending, a stopped CPU is not in kvm_cpu_exec and
    a sleeping one has no request. *)
Record vcpu_ok (c : vcpu) : Prop := {
  vo_kicked : thread_kicked c = true -> ipi c = true;
  vo_request : stop c = true \/ queued c = true -> ipi c = true;
  vo_stopped : stopped c = true -> vplace_of c <> InExec;
  vo_halt : vplace_of c = InHalt -> stop c = false /\ queued c = false }.

Definition main_ok (l : list vcpu) (m : pauser) : Prop :=
  match m with
  | Away => True
  | Paused => Forall (fun c => stopped c = true) l
  | Waiting b => Forall (fun c => stopped c = true \/ stop c = true) l /\
                 (b = false -> Exists (fun c => stop c = true) l)
  end.

Record vm_ok (s : vm) : Prop := {
  vk_cpus : Forall vcpu_ok (vcpus s);
  vk_main : main_ok (vcpus s) (main s) }.

Lemma kick_request_ok c c' : vcpu_ok c ->
  c' = set_stop (stop c') (stopped c') (set_queued (queued c') (set_event (halted c') (has_work c') c)) ->
  (stopped c' = true -> stopped c = true) -> vcpu_ok (qemu_cpu_kick c').
Proof.
  intros [K R S H] E Hs. rewrite E in *. clear E. destruct c as [st sd ha hw qu tk ip pl]. cbn in *.
  unfold qemu_cpu_kick, qemu_cpu_kick_thread.
  destruct pl, tk; cbn in *; split; cbn; intuition (try congruence).
Qed.

Lemma kick_flags c : stop (qemu_cpu_kick c) = stop c /\ stopped (qemu_cpu_kick c) = stopped c.
Proof. destruct c as [? ? ? ? ? [] ? []]; split; reflexivity. Qed.

Lemma kick_ok c : vcpu_ok c -> vcpu_ok (qemu_cpu_kick c).
Proof. intros O. apply (kick_request_ok c c O); [destruct c; reflexivity | auto]. Qed.

Lemma pause_request_ok c : vcpu_ok c -> vcpu_ok (pause_request c).
Proof. intros O. apply (kick_request_ok c _ O); [destruct c; reflexivity | auto]. Qed.

Lemma resume_ok c : vcpu_ok c -> vcpu_ok (cpu_resume c).
Proof. intros O. apply (kick_request_ok c _ O); [destruct c; reflexivity | discriminate]. Qed.

Lemma loop_ok r c : vcpu_ok c -> vplace_of c = AtLoop -> vcpu_ok (thread_loop r c).
Proof.
  intros [K R S H] P. unfold thread_loop, cpu_can_run, cpu_is_stopped. destruct c as [st sd ha hw qu tk ip pl]. cbn in *.
  split; cbn; try assumption; destruct st, sd, r; cbn; congruence.
Qed.

Lemma return_ok d c : vcpu_ok c -> vplace_of c = InExec -> vcpu_ok (exec_return d c).
Proof.
  intros [K R S H] P. unfold exec_return, cpu_handle_guest_debug. destruct c as [st sd ha hw qu tk ip pl]. cbn in *.
  destruct d; split; cbn; try assumption; congruence.
Qed.

Lemma wait_ok r c : vcpu_ok c -> vplace_of c = AtWait -> vcpu_ok (qemu_kvm_wait_io_event r c).1.
Proof.
  intros [K R S H] P. unfold qemu_kvm_wait_io_event, cpu_thread_is_idle.
  destruct c as [st sd ha hw qu tk ip pl]. cbn in *.
  destruct st, qu; cbn; try (split; cbn; intuition congruence).
  destruct (cpu_is_stopped _ _); [split; cbn; intuition congruence|].
  destruct (_ || _); split; cbn; intuition congruence.
Qed.

(** The flags after a turn of the wait, and whether the main thread is told. *)
Lemma wait_flags r c : let r' := qemu_kvm_wait_io_event r c in
  r'.2 = stop c /\ stop r'.1 = false /\ stopped r'.1 = stopped c || stop c.
Proof.
  unfold qemu_kvm_wait_io_event, cpu_thread_is_idle. destruct c as [st sd ha hw qu tk ip pl]. cbn.
  destruct st; cbn; [rewrite orb_true_r; auto|]. rewrite orb_false_r.
  destruct qu; cbn; [auto|]. destruct (cpu_is_stopped _ _); cbn; [auto|]. destruct (_ || _); cbn; auto.
Qed.

Lemma all_paused_spec l : all_vcpus_paused l = true <-> Forall (fun c => stopped c = true) l.
Proof. unfold all_vcpus_paused. rewrite forallb_forall, Forall_forall. setoid_rewrite list_elem_of_In. reflexivity. Qed.

Lemma not_paused l : all_vcpus_paused l = false -> Exists (fun c => stopped c = false) l.
Proof.
  unfold all_vcpus_paused. induction l as [|c l IH]; cbn; [discriminate|].
  destruct (stopped c) eqn:E; cbn; [right; auto | left; exact E].
Qed.

Lemma test_ok l r : Forall vcpu_ok l -> Forall (fun c => stopped c = true \/ stop c = true) l -> vm_ok (pause_test l r).
Proof.
  intros O A. split; [exact O|]. unfold pause_test. cbn [main vcpus].
  destruct (all_vcpus_paused l) eqn:E; cbn [main_ok]; [apply all_paused_spec, E|]. split; [exact A|]. intros _.
  apply not_paused, Exists_exists in E as (c & Hc & Es). apply Exists_exists. exists c. split; [exact Hc|].
  rewrite Forall_forall in A. destruct (A c Hc); congruence.
Qed.

(** One CPU is replaced: it keeps or gains [stopped], and a request is dropped only
    with a signal. *)
Lemma put_ok s i c c' sig : vm_ok s -> vcpus s !! i = Some c -> vcpu_ok c' ->
  (stopped c = true -> stopped c' = true) ->
  (stop c = true -> stopped c' = true /\ sig = true \/ stop c' = true) -> vm_ok (put i c' sig s).
Proof.
  intros [O M] L O' S T. split; [apply Forall_insert; assumption|].
  unfold put. cbn [vcpus main]. unfold main_ok in *. destruct (main s) as [|b|]; cbn [signal_pause].
  - exact I.
  - assert (G : Forall (fun c => stopped c = true \/ stop c = true) (<[i := c']> (vcpus s)) /\
                (b = false -> sig = false -> Exists (fun c => stop c = true) (<[i := c']> (vcpus s)))).
    { destruct M as [A E]. pose proof (Forall_lookup_1 _ _ _ _ A L) as Ac. cbn in Ac. split.
      - apply Forall_insert; [exact A|]. tauto.
      - intros Hb ->. specialize (E Hb). apply Exists_exists in E as (x & Hx & Ex).
        apply Exists_exists. apply list_elem_of_lookup in Hx as [j Hj]. destruct (decide (j = i)) as [->|Nj].
        + exists c'. assert (x = c) by congruence. subst x. destruct (T Ex) as [[_ ?]|T']; [discriminate|].
          split; [|exact T']. apply list_elem_of_lookup. exists i. apply list_lookup_insert_eq, (lookup_lt_Some _ _ _ L).
        + exists x. split; [|exact Ex]. apply list_elem_of_lookup. exists j. rewrite list_lookup_insert_ne by congruence. exact Hj. }
    destruct G as [G1 G2]. destruct b; (split; [exact G1|]); [discriminate | intros ->; apply G2; reflexivity].
  - pose proof (Forall_lookup_1 _ _ _ _ M L). apply Forall_insert; auto.
Qed.

Lemma vcpu_step_ok i s s' : vm_ok s -> vcpu_step i s s' -> vm_ok s'.
Proof.
  intros V St. destruct St as [s c L P|s c d L P|s c L P|s c L P]; pose proof (Forall_lookup_1 _ _ _ _ (vk_cpus s V) L) as O;
    cbn in O; apply (put_ok s i c); try assumption.
  - apply loop_ok; assumption.
  - auto.
  - auto.
  - apply return_ok; assumption.
  - destruct d; cbn; auto.
  - destruct d; cbn; auto.
  - apply wait_ok; assumption.
  - destruct (wait_flags (running s) c) as (_ & _ & ->). intros ->. reflexivity.
  - destruct (wait_flags (running s) c) as (-> & _ & ->). intros E. left. rewrite E, orb_true_r. auto.
  - destruct O as [K R S H]. split; cbn; try assumption; discriminate.
  - auto.
  - auto.
Qed.

Lemma main_step_ok s s' : vm_ok s -> main_step s s' -> vm_ok s'.
Proof.
  intros V St. pose proof V as [O M]. destruct St as [s _ _|s b Hb|s r Hm|s Hm|s i c L|s i c h w L].
  - apply test_ok; apply Forall_fmap; (eapply Forall_impl; [exact O|]); intros c Oc; cbn.
    + apply pause_request_ok, Oc.
    + right. apply kick_flags.
  - rewrite Hb in M. destruct M as [A _]. apply test_ok; apply Forall_fmap.
    + eapply Forall_impl; [exact O|]. intros c Oc. apply kick_ok, Oc.
    + eapply Forall_impl; [exact A|]. intros c Ac. cbn. destruct (kick_flags c) as [-> ->]. exact Ac.
  - split; [exact O|]. rewrite Hm in M. exact M.
  - split; [|exact I]. cbn [vcpus resume_all_vcpus]. apply Forall_fmap. eapply Forall_impl; [exact O|].
    intros c Oc. apply resume_ok, Oc.
  - apply (put_ok s i c _ _ V L).
    + apply (kick_request_ok c _ (Forall_lookup_1 _ _ _ _ O L)); [destruct c; reflexivity | auto].
    + destruct (kick_flags (set_queued true c)) as [_ ->]. auto.
    + destruct (kick_flags (set_queued true c)) as [-> ->]. auto.
  - apply (put_ok s i c _ _ V L).
    + apply (kick_request_ok c _ (Forall_lookup_1 _ _ _ _ O L)); [destruct c; reflexivity | auto].
    + destruct (kick_flags (set_event h w c)) as [_ ->]. auto.
    + destruct (kick_flags (set_event h w c)) as [-> ->]. auto.
Qed.

Lemma reachable_ok n s : rtc vm_step (initial_vm n) s -> vm_ok s.
Proof.
  intros R. assert (G : forall a b, rtc vm_step a b -> vm_ok a -> vm_ok b).
  { induction 1 as [|a b c [St|[i St]] _ IH]; [auto | |]; intros V; apply IH.
    - exact (main_step_ok a b V St).
    - exact (vcpu_step_ok i a b V St). }
  apply (G _ _ R). split; cbn; apply Forall_replicate; [|reflexivity].
  split; cbn; intuition congruence.
Qed.

(** ** A request is answered *)

(** Steps that need no luck: a thread in KVM_RUN returns only when SIG_IPI is pending, a
    thread that waits on [halt_cond] is woken only by a broadcast ([qemu_cpu_kick] takes
    it out of the wait), and the main thread leaves [qemu_cond_wait] only when
    [qemu_pause_cond] was signalled. *)
Definition compelled (c : vcpu) : bool :=
  match vplace_of c with
  | AtLoop | AtWait => true
  | InExec => ipi c
  | InHalt => false
  end.

Inductive forced : vm -> vm -> Prop :=
  | fo_vcpu i s s' c : vcpus s !! i = Some c -> compelled c = true -> vcpu_step i s s' -> forced s s'
  | fo_woken s : main s = Waiting true -> forced s (pause_woken s).

(** All CPUs have stopped or are asked to, and the main thread is in [pause_all_vcpus] or
    has left it. *)
Definition pausing (s : vm) : Prop :=
  vm_ok s /\ main s <> Away /\ Forall (fun c => stopped c = true \/ stop c = true) (vcpus s).

Lemma main_pausing s : vm_ok s -> main s <> Away -> pausing s.
Proof.
  intros V M. split; [exact V|]. split; [exact M|]. pose proof (vk_main s V) as K. unfold main_ok in K.
  destruct (main s) as [|b|]; [congruence | exact (proj1 K) | eapply Forall_impl; [exact K | auto]].
Qed.

Lemma forced_main s s' : forced s s' -> main s <> Away -> main s' <> Away.
Proof.
  intros [i s0 s0' c _ _ St|s0 _] M; [destruct St; cbn; destruct (main _) as [|[]|]; cbn; congruence|].
  unfold pause_woken, pause_test. cbn. destruct (all_vcpus_paused _); discriminate.
Qed.

Lemma forced_pausing s s' : pausing s -> forced s s' -> pausing s'.
Proof.
  intros (V & M & _) F. apply main_pausing; [|exact (forced_main s s' F M)].
  destruct F as [i s s' c _ _ St|s Hm]; [exact (vcpu_step_ok i s s' V St) | exact (main_step_ok s _ V (ms_woken s true Hm))].
Qed.

(** What a CPU has left to do: a pass through the wait answers its requests, a second one
    ends in the wait for [halt_cond].  An answer is worth [n] + 2 turns, since it lets
    the main thread kick all [n] CPUs once more. *)
Definition turns (n : nat) (c : vcpu) : nat :=
  (match vplace_of c, stop c || queued c with
   | AtLoop, true | InExec, true => 5
   | AtWait, true => 4
   | InHalt, true => 3
   | AtLoop, false | InExec, false => 2
   | AtWait, false => 1
   | InHalt, false => 0
   end + if stop c then n + 2 else 0)%nat.

Definition main_turns (n : nat) (m : pauser) : nat := match m with Waiting true => S n | _ => 0%nat end.

Definition turns_left (s : vm) : nat :=
  (sum_list_with (turns (length (vcpus s))) (vcpus s) + main_turns (length (vcpus s)) (main s))%nat.

Lemma put_turns s i c c' (sig : bool) : vcpus s !! i = Some c ->
  (turns (length (vcpus s)) c' + (if sig then S (length (vcpus s)) else 0) < turns (length (vcpus s)) c)%nat ->
  (turns_left (put i c' sig s) < turns_left s)%nat.
Proof.
  intros L H. unfold turns_left, put. cbn [vcpus main]. rewrite length_insert.
  pose proof (sum_insert (turns (length (vcpus s))) (vcpus s) i c c' L) as E.
  assert (main_turns (length (vcpus s)) (signal_pause sig (main s)) <=
          main_turns (length (vcpus s)) (main s) + (if sig then S (length (vcpus s)) else 0))%nat
    by (destruct (main s) as [|[]|], sig; cbn; lia).
  lia.
Qed.

Lemma loop_turns n r c : vplace_of c = AtLoop -> stopped c = true \/ stop c = true ->
  (turns n (thread_loop r c) < turns n c)%nat.
Proof.
  unfold thread_loop, cpu_can_run, cpu_is_stopped, turns. destruct c as [st sd ha hw qu tk ip pl]. cbn.
  intros -> H. destruct st, sd, qu; cbn; destruct H; try discriminate; lia.
Qed.

Lemma return_turns n d c : vplace_of c = InExec -> (turns n (exec_return d c) < turns n c)%nat.
Proof.
  unfold exec_return, cpu_handle_guest_debug, turns. destruct c as [st sd ha hw qu tk ip pl]. cbn.
  intros ->. destruct d, st, qu; cbn; lia.
Qed.

Lemma wait_turns n r c : vplace_of c = AtWait -> stopped c = true \/ stop c = true ->
  (turns n (qemu_kvm_wait_io_event r c).1 + (if (qemu_kvm_wait_io_event r c).2 then S n else 0) < turns n c)%nat.
Proof.
  unfold qemu_kvm_wait_io_event, cpu_thread_is_idle, cpu_is_stopped, turns. destruct c as [st sd ha hw qu tk ip pl]. cbn.
  intros -> H. destruct st, sd, qu; cbn; destruct H; try discriminate; cbn; lia.
Qed.

Lemma kick_turns n c : (turns n (qemu_cpu_kick c) <= S (turns n c))%nat.
Proof. unfold turns. destruct c as [[] ? ? ? [] [] ? []]; cbn; lia. Qed.

Lemma kick_turns_all n l : (sum_list_with (turns n) (qemu_cpu_kick <$> l) <= length l + sum_list_with (turns n) l)%nat.
Proof. induction l as [|c l IH]; cbn; [lia|]. pose proof (kick_turns n c). cbn in IH. lia. Qed.

Lemma forced_turns s s' : pausing s -> forced s s' -> (turns_left s' < turns_left s)%nat.
Proof.
  intros (V & M & A) F. destruct F as [i s s' c0 L0 Cm St|s Hm].
  - destruct St as [s c L P|s c d L P|s c L P|s c L P]; assert (c0 = c) as -> by congruence;
      pose proof (Forall_lookup_1 _ _ _ _ A L) as Ac; cbn in Ac; apply (put_turns _ _ c); try assumption.
    + pose proof (loop_turns (length (vcpus s)) (running s) c P Ac). lia.
    + pose proof (return_turns (length (vcpus s)) d c P). lia.
    + apply wait_turns; assumption.
    + unfold compelled in Cm. rewrite P in Cm. discriminate.
  - unfold turns_left. rewrite Hm. unfold pause_woken, pause_test. cbn [vcpus main].
    rewrite length_fmap. pose proof (kick_turns_all (length (vcpus s)) (vcpus s)).
    destruct (all_vcpus_paused _); cbn [main_turns]; lia.
Qed.

Lemma pausing_acc s : pausing s -> Acc (flip forced) s.
Proof.
  induction s as [s IH] using (induction_ltof1 _ turns_left). intros P. constructor. intros s' F.
  apply IH; [exact (forced_turns s s' P F) | exact (forced_pausing s s' P F)].
Qed.

(** While the main thread waits, some step is forced. *)
Lemma waiting_forced s b : vm_ok s -> main s = Waiting b -> exists s', forced s s'.
Proof.
  intros V M. pose proof (vk_main s V) as K. rewrite M in K. destruct b; [eexists; apply fo_woken, M|].
  destruct K as [_ K]. specialize (K eq_refl). apply Exists_exists in K as (c & Hc & St).
  apply list_elem_of_lookup in Hc as [i L]. pose proof (Forall_lookup_1 _ _ _ _ (vk_cpus s V) L) as O. cbn in O.
  destruct (vplace_of c) eqn:P.
  - eexists. apply (fo_vcpu i s _ c L); [unfold compelled; rewrite P; reflexivity | exact (vs_loop i s c L P)].
  - eexists. apply (fo_vcpu i s _ c L); [unfold compelled; rewrite P; apply (vo_request c O); auto | exact (vs_return i s c false L P)].
  - eexists. apply (fo_vcpu i s _ c L); [unfold compelled; rewrite P; reflexivity | exact (vs_wait i s c L P)].
  - destruct (vo_halt c O P). congruence.
Qed.

(** ** Properties *)


(** No request is lost: a CPU that is asked to stop or has work queued is not asleep
    and has the signal pending that makes KVM_RUN return, wherever its thread is; and
    while the main thread waits unsignalled, some CPU still has to answer it. *)
Theorem requests_pending n s : rtc vm_step (initial_vm n) s ->
  Forall (fun c => stop c = true \/ queued c = true -> ipi c = true /\ vplace_of c <> InHalt) (vcpus s) /\
  (main s = Waiting false -> Exists (fun c => stop c = true) (vcpus s)).
Proof.
  intros R. destruct (reachable_ok n s R) as [O M]. split.
  - eapply Forall_impl; [exact O|]. intros c [K Q S H] Hr. split; [apply Q, Hr|]. intros P. destruct (H P), Hr; congruence.
  - intros Hm. rewrite Hm in M. apply M. reflexivity.
Qed.

(** C24: pause_all_vcpus finishes: take a reachable state in which it waits for
    qemu_pause_cond, and only steps that need no luck, so that KVM_RUN returns only for a
    pending SIG_IPI, a halted thread wakes only by the broadcast of a kick and the main
    thread only by a signal of the condition.  Every execution by such steps is finite,
    and wherever it cannot go on pause_all_vcpus has returned. *)
Theorem pause_completes n s b : rtc vm_step (initial_vm n) s -> main s = Waiting b ->
  Acc (flip forced) s /\
  forall s', rtc forced s s' -> (forall s'', ~ forced s' s'') -> main s' = Paused.
Proof.
  intros R M. assert (P : pausing s) by (apply main_pausing; [exact (reachable_ok n s R) | congruence]).
  split; [exact (pausing_acc s P)|]. intros s' F. clear R M.
  induction F as [s|s s1 s' St _ IH]; [|exact (IH (forced_pausing s s1 P St))].
  intros Q. destruct P as (V & A & _). destruct (main s) as [|w|] eqn:M; [congruence | | reflexivity].
  destruct (waiting_forced s w V M) as [s2 F]. destruct (Q s2 F).
Qed.
End thread.

(** ** A run of two CPUs: one in the guest, one asleep *)

(** CPU 0 runs, CPU 1 has halted, and the main thread asks them to stop. *)
Definition demo_pausing : vm :=
  mk_vm [mk_vcpu true false false false false true true InExec; mk_vcpu true false true false false true true AtWait]
    true (Waiting false).

Lemma demo_pausing_reachable : rtc (vm_step false) (initial_vm 2) demo_pausing.
Proof.
  apply rtc_l with (mk_vm (replicate 2 fresh_vcpu) true Paused); [left; exact (ms_runstate (initial_vm 2) true eq_refl)|].
  eapply rtc_l; [left; apply ms_resume; reflexivity|].
  eapply rtc_l; [right; exists 0%nat; eapply vs_loop; reflexivity|].
  eapply rtc_l; [left; eapply (ms_event _ 1%nat _ true false); reflexivity|].
  eapply rtc_l; [right; exists 1%nat; eapply vs_loop; reflexivity|].
  eapply rtc_l; [right; exists 1%nat; eapply (vs_return false 1%nat _ _ false); reflexivity|].
  eapply rtc_l; [right; exists 1%nat; eapply vs_wait; reflexivity|].
  eapply rtc_l; [left; apply ms_pause; discriminate|]. reflexivity.
Qed.

Lemma requests_pending_witness : Exists (fun c => stop c = true) (vcpus demo_pausing).
Proof. exact (proj2 (requests_pending false 2 demo_pausing demo_pausing_reachable) eq_refl). Defined.

(** The run of [demo_pausing] to its end: the signal takes CPU 0 out of KVM_RUN, both
    answer, the main thread is woken, and the threads go to sleep. *)
Definition demo_asleep : vcpu := mk_vcpu false true false false false true true InHalt.
Definition demo_paused : vm :=
  mk_vm [demo_asleep; mk_vcpu false true true false false true true InHalt] true Paused.

Ltac forced_at i := eapply rtc_l; [eapply (fo_vcpu false i); [reflexivity | reflexivity |];
  (eapply vs_loop; reflexivity) || (eapply vs_wait; reflexivity) || (eapply (vs_return false i _ _ false); reflexivity)|].

Lemma demo_pausing_runs : rtc (forced false) demo_pausing demo_paused.
Proof.
  forced_at 0%nat. forced_at 0%nat. forced_at 1%nat.
  eapply rtc_l; [apply fo_woken; reflexivity|].
  forced_at 0%nat. forced_at 0%nat. forced_at 1%nat. forced_at 1%nat. reflexivity.
Qed.

Lemma demo_paused_quiet s : ~ forced false demo_paused s.
Proof.
  inversion 1 as [i s0 s1 c L Cm St|s0 Hm]; [|discriminate].
  destruct i as [|[|i]]; cbn in L; [| |discriminate]; injection L as <-; discriminate.
Qed.

Lemma pause_completes_witness : Acc (flip (forced false)) demo_pausing /\ main demo_paused = Paused.
Proof.
  destruct (pause_completes false 2 demo_pausing false demo_pausing_reachable eq_refl) as [A F].
  split; [exact A | exact (F demo_paused demo_pausing_runs demo_paused_quiet)].
Defined.

Lemma forced_vm s s' : forced false s s' -> vm_step false s s'.
Proof. intros [i t t' c _ _ St|t Hm]; [right; eauto | left; exact (ms_woken t true Hm)]. Qed.

(** Paused, after both CPUs have run and were asked to stop. *)
Lemma demo_paused_reachable : rtc (vm_step false) (initial_vm 2) demo_paused.
Proof.
  etransitivity; [exact demo_pausing_reachable|]. eapply rtc_subrel; [|exact demo_pausing_runs]. exact forced_vm.
Qed.

