(* ===== verification/Hypercall.v ===== *)
(** * The hypercall interface (hypercall.c)

    The guest's executor talks to the hypervisor by stopping at a fixed kernel
    address with a command in its registers; the other debug stops are the
    breakpoints it asked for.  A handler works on the state of its own virtual CPU
    and on the globals below, under [qemu_race_mutex]; it is a function of both.

    [wait_race] gives the mutex up in its timed wait and sleeps on a futex after the
    critical section, so it is cut there: [wait_race_enter] runs to the first place
    where the thread may block, [wait_race_resume] continues after the timed wait,
    [wait_race_tail] is the part after the critical section.  [RaceSched] composes
    the pieces of two threads. *)

From Stdlib Require Import ZArith Lia Bool Ascii String.
From stdpp Require Import base list gmap sets.
From S2P Require Import Prelude MemOperand DisasTypes DisasTables DisasOps DisasOperands Disas.
From S2P Require Import CpuState HwBreakpoint.

Open Scope Z_scope.
Open Scope rz.

(** ** Globals *)

(** An array indexed by the two virtual CPUs. *)
Record two (A : Type) := mk2 { e0 : A; e1 : A }.
Arguments mk2 {A} _ _.
Arguments e0 {A} _.
Arguments e1 {A} _.

Definition sel {A} (i : bool) (t : two A) : A := if i then e1 t else e0 t.
Definition upd {A} (i : bool) (v : A) (t : two A) : two A :=
  if i then mk2 (e0 t) v else mk2 v (e1 t).

Lemma sel_upd {A} i j (v : A) t : sel i (upd j v t) = if Bool.eqb i j then v else sel i t.
Proof. destruct i, j; reflexivity. Qed.

Lemma sel_upd_same {A} i (v : A) t : sel i (upd i v t) = v.
Proof. destruct i; reflexivity. Qed.

Lemma sel_upd_other {A} i (v : A) t : sel (negb i) (upd i v t) = sel (negb i) t.
Proof. destruct i; reflexivity. Qed.

Lemma sel_upd_other' {A} i (v : A) t : sel i (upd (negb i) v t) = sel i t.
Proof. destruct i; reflexivity. Qed.

Create Rewrite HintDb two.
#[export] Hint Rewrite @sel_upd_same @sel_upd_other @sel_upd_other' : two.

Inductive STATE := PHASE_UNREACHED | PHASE_SLEEPING | PHASE_PASSED.
Inductive STATUS := STATUS_READY | STATUS_RUNNING.

#[export] Instance STATE_eq_dec : EqDecision STATE.
Proof. solve_decision. Defined.
#[export] Instance STATUS_eq_dec : EqDecision STATUS.
Proof. solve_decision. Defined.

(** The file-level variables of hypercall.c, and those of the disassembler, which
    is only called under the mutex. *)
Record race_globals := mk_rg {
  phase : two STATE;
  can_go : Z;
  writing_addr : two Z;
  reading_addr : two Z;
  race_addr : two Z;
  status : two STATUS;
  is_refresh : two bool;
  dis : dis_state }.

Definition set_phase (i : bool) (v : STATE) (g : race_globals) : race_globals :=
  mk_rg (upd i v (phase g)) (can_go g) (writing_addr g) (reading_addr g) (race_addr g) (status g)
    (is_refresh g) (dis g).
Definition set_can_go (v : Z) (g : race_globals) : race_globals :=
  mk_rg (phase g) v (writing_addr g) (reading_addr g) (race_addr g) (status g) (is_refresh g) (dis g).
(** The addresses CPU [i] writes and reads. *)
Definition set_access (i : bool) (w r : Z) (g : race_globals) : race_globals :=
  mk_rg (phase g) (can_go g) (upd i w (writing_addr g)) (upd i r (reading_addr g)) (race_addr g)
    (status g) (is_refresh g) (dis g).
Definition set_race_addr (v : two Z) (g : race_globals) : race_globals :=
  mk_rg (phase g) (can_go g) (writing_addr g) (reading_addr g) v (status g) (is_refresh g) (dis g).
Definition set_status (i : bool) (v : STATUS) (g : race_globals) : race_globals :=
  mk_rg (phase g) (can_go g) (writing_addr g) (reading_addr g) (race_addr g) (upd i v (status g))
    (is_refresh g) (dis g).
Definition set_is_refresh (i : bool) (v : bool) (g : race_globals) : race_globals :=
  mk_rg (phase g) (can_go g) (writing_addr g) (reading_addr g) (race_addr g) (status g)
    (upd i v (is_refresh g)) (dis g).
Definition set_dis (v : dis_state) (g : race_globals) : race_globals :=
  mk_rg (phase g) (can_go g) (writing_addr g) (reading_addr g) (race_addr g) (status g)
    (is_refresh g) v.

(** [a && b && a == b] *)
Definition nz_eq (a b : Z) : bool := negb (a =? 0) && negb (b =? 0) && (a =? b).

Definition is_same_address (g : race_globals) : bool * race_globals :=
  let w0 := e0 (writing_addr g) in let w1 := e1 (writing_addr g) in
  let r0 := e0 (reading_addr g) in let r1 := e1 (reading_addr g) in
  if nz_eq w0 w1 then (true, set_race_addr (mk2 w0 w1) g)
  else if nz_eq w0 r1 then (true, set_race_addr (mk2 w0 r1) g)
  else if nz_eq r0 w1 then (true, set_race_addr (mk2 r0 w1) g)
  else (false, set_race_addr (mk2 0 0) g).

Inductive access_type := Read | Write | NA.

(** The text of the log line. *)
Definition accessType (i : bool) (g : race_globals) : access_type :=
  if sel i (race_addr g) =? sel i (reading_addr g) then Read
  else if sel i (race_addr g) =? sel i (writing_addr g) then Write
  else NA.

(** ** Guest threads and commands *)

(** [_NONZERO (cpu->regs)] *)
Definition nonzero_regs (c : CPUState) : res kvm_regs := of_option Panic (regs c).

Definition THREAD_SIZE : Z := Z.shiftl (Z.shiftl 1 12) 3.

Definition guest_gettid (c : CPUState) : res Z :=
  let? r := nonzero_regs c in
  Ok (Z.land (rsp r) (u64 (Z.lnot (THREAD_SIZE - 1)))).

Inductive hcall_type_t := HYPERCALL_IOCTL_ERR | HYPERCALL_UNEXPECTED | HYPERCALL_BREAKPOINT
  | HYPERCALL_COMMAND | HYPERCALL_NOPE.

Definition CMD_START : Z := 0.
Definition CMD_END : Z := 1.
Definition CMD_REFRESH : Z := 2.

Record hcall_arg := mk_arg { arg_addr : Z; arg_cmd : Z; arg_sched : Z; arg_race_id : Z }.

Definition set_rip (v : Z) (r : kvm_regs) : kvm_regs :=
  mk_kvm_regs (rax r) (rbx r) (rcx r) (rdx r) (rsi r) (rdi r) (rsp r) (rbp r) (r8 r) (r9 r) (r10 r)
    (r11 r) (r12 r) (r13 r) (r14 r) (r15 r) v (rflags r).
Definition set_rax (v : Z) (r : kvm_regs) : kvm_regs :=
  mk_kvm_regs v (rbx r) (rcx r) (rdx r) (rsi r) (rdi r) (rsp r) (rbp r) (r8 r) (r9 r) (r10 r)
    (r11 r) (r12 r) (r13 r) (r14 r) (r15 r) (rip r) (rflags r).

Section hypercall.
Context `{KVM}.
(** [kvm_sw_breakpoints_active], the build-time address of the hypercall
    instruction, and the guest's physical memory as [cpu_physical_memory_read]
    returns it. *)
Variables (sw : bool) (HYPERCALL_ADDR : Z) (phys_read : Z -> nat -> list Z).

Definition kvm_init_hypercall (c : CPUState) : res (Z * CPUState) :=
  kvm_insert_breakpoint_per_cpu sw c HYPERCALL_ADDR.

Definition init_hypercall (c : CPUState) (g : race_globals) : res (CPUState * race_globals) :=
  let? (_, c) := kvm_init_hypercall c in
  let i := cpu_index c in
  Ok (set_inserted_breakpoint 0 (set_bp_count 0 c), set_is_refresh i false (set_status i STATUS_READY g)).

(** A hypercall instruction is skipped by advancing rip. *)
Definition check_hypercall (c : CPUState) : hcall_type_t * CPUState :=
  match regs c with
  | None => (HYPERCALL_NOPE, c)
  | Some r =>
      if rip r =? HYPERCALL_ADDR then
        let r := set_rip (u64 (rip r + 1)) r in
        let c := set_update_regs true (set_regs (Some r) c) in
        let cmd := u32 (rbx r) in
        if (cmd =? CMD_START) || (cmd =? CMD_END) || (cmd =? CMD_REFRESH)
        then (HYPERCALL_COMMAND, c)
        else (HYPERCALL_UNEXPECTED, c)
      else (HYPERCALL_BREAKPOINT, c)
  end.

Definition get_command (c : CPUState) : res hcall_arg :=
  let? r := nonzero_regs c in
  Ok (mk_arg (rcx r) (u32 (rbx r)) (u32 (rdx r)) (u32 (rax r))).

(** [regs->rax = v] *)
Definition return_rax (v : Z) (c : CPUState) : CPUState :=
  set_regs (set_rax (u64 v) <$> regs c) c.

Definition hypercall_command_start (c : CPUState) (g : race_globals) (arg : hcall_arg) :
    res (CPUState * race_globals) :=
  let? _ := nonzero_regs c in
  let i := cpu_index c in
  match sel i (status g) with
  | STATUS_RUNNING => Ok (set_update_regs true (return_rax (-1) c), g)
  | STATUS_READY =>
      let c := set_is_race 0 c in
      let addr := Z.lor (arg_addr arg) 0xffffffff00000000 in
      let? (_, c) := kvm_insert_breakpoint_per_cpu sw c addr in
      let g := set_phase i PHASE_UNREACHED g in
      let c := set_sched (s32 (arg_sched arg)) (set_race_id (s32 (arg_race_id arg))
               (set_inserted_breakpoint addr c)) in
      Ok (c, set_status i STATUS_RUNNING g)
  end.

Definition hypercall_command_end (c : CPUState) (g : race_globals) (arg : hcall_arg) :
    res (CPUState * race_globals) :=
  let? _ := nonzero_regs c in
  let i := cpu_index c in
  match sel i (status g) with
  | STATUS_READY => Ok (set_update_regs true (return_rax (-1) c), g)
  | STATUS_RUNNING =>
      let? (_, c) := kvm_remove_breakpoint_per_cpu sw c (inserted_breakpoint c) in
      let c := set_inserted_breakpoint 0 c in
      Ok (set_update_regs true (return_rax (is_race c) c), set_status i STATUS_READY g)
  end.

Definition hypercall_command_refresh (c : CPUState) (g : race_globals) (arg : hcall_arg) :
    res (CPUState * race_globals) :=
  let i := cpu_index c in
  let g := set_status i STATUS_READY g in
  let c := set_wake_up false (set_wait_race_flag false (set_skipping false (set_go_first false
           (set_guest_tid 0 c)))) in
  let g := set_is_refresh i true g in
  let? c := kvm_remove_all_breakpoints_per_cpu sw c in
  let? (_, c) := kvm_init_hypercall c in
  Ok (c, g).

Definition handle_hypercall_command (c : CPUState) (g : race_globals) : res (CPUState * race_globals) :=
  let? tid := guest_gettid c in
  let c := set_guest_tid tid c in
  if tid =? 0 then Err Panic
  else
    let? arg := get_command c in
    if arg_cmd arg =? CMD_START then hypercall_command_start c g arg
    else if arg_cmd arg =? CMD_END then hypercall_command_end c g arg
    else if arg_cmd arg =? CMD_REFRESH then hypercall_command_refresh c g arg
    else Err Panic.

(** The stop after a single step. *)
Definition breakpoint_step (c : CPUState) : res CPUState :=
  let c := set_singlestep_enabled 0 c in
  let? c :=
    if skipping c then
      let? (_, c) := kvm_insert_breakpoint_per_cpu sw c (singlestep_enabled c) in
      Ok (set_skipping false c)
    else Ok (set_wake_up true c) in
  let? (_, c) := kvm_update_guest_debug_per_cpu sw c 0 in
  Ok c.

(** The stop at the breakpoint asked for, in guest thread [tid]; [rnd] is the value
    of rand (). *)
Definition breakpoint_hit (c : CPUState) (r : kvm_regs) (tid rnd : Z) : res CPUState :=
  let c := set_bp_count (bp_count c + 1) c in
  let c := set_skipping (95 <=? Z.rem rnd 100) c in
  let c := if (tid =? guest_tid c) && negb (skipping c)
           then set_go_first (race_id c =? sched c) (set_wait_race_flag true c) else c in
  let? (err, c) := kvm_remove_breakpoint_per_cpu sw c (rip r) in
  if negb (err =? 0) then Err Exited
  else
    let c := if negb (skipping c) then set_inserted_breakpoint 0 c else set_singlestep_enabled 1 c in
    if go_first c then
      let? (_, c) := kvm_update_guest_debug_per_cpu sw (set_singlestep_enabled 1 c) 0 in
      Ok (set_wake_up false c)
    else Ok c.

Definition handle_hypercall_breakpoint (c : CPUState) (rnd : Z) : res CPUState :=
  let? r := nonzero_regs c in
  let? tid := guest_gettid c in
  if tid =? 0 then Err Panic
  else if negb (singlestep_enabled c =? 0) then breakpoint_step c
  else if inserted_breakpoint c =? rip r then breakpoint_hit c r tid rnd
  else Ok c.

(** ** wait_race *)

(** The first operand with a non-zero address.  A slot the disassembler left
    unwritten holds an indeterminate text. *)
Fixpoint scan_operands (i : nat) (param : list (option string)) (r : kvm_regs) (insn_size : Z) :
    res (option (nat * Z)) :=
  match param with
  | [] => Ok None
  | p :: param =>
      let? t := of_option Uninit p in
      let? a := get_mem_addr t r insn_size in
      if negb (a =? 0) then Ok (Some (i, a)) else scan_operands (S i) param r insn_size
  end.

(** The access of the instruction at rip: the last operand is the one written. *)
Definition locate_access (i : bool) (r : kvm_regs) (g : race_globals) : res race_globals :=
  let buf := phys_read (get_phys_addr (rip r)) 15 in
  let? (o, d) := disas_get_mem (rip r) buf (dis g) in
  let? f := scan_operands 0 o.2 r o.1 in
  let g := set_dis d g in
  Ok match f with
     | Some (k, a) => if (k =? MAX_OPERANDS - 1)%nat then set_access i a 0 g else set_access i 0 a g
     | None => g
     end.

Inductive wr_outcome :=
  | WR_return      (* no registers: the function returns at once *)
  | WR_sleep       (* in qemu_cond_timedwait *)
  | WR_broadcast   (* past the critical section, after waking the other thread *)
  | WR_tail.       (* past the critical section *)

Definition refresh (c : CPUState) (g : race_globals) : CPUState * race_globals :=
  let i := cpu_index c in
  if sel i (is_refresh g) then
    let g := set_is_refresh i false g in
    let g := set_race_addr (upd i 0 (race_addr g)) (set_access i 0 0 g) in
    (set_done false c, set_phase i PHASE_UNREACHED g)
  else (c, g).

(** The verdict, at the end of the critical section. *)
Definition verdict (c : CPUState) (both_bp_hit same_addr : bool) : res CPUState :=
  if negb (wait_race_flag c) then Err AssertFail
  else Ok (set_is_race (if both_bp_hit && same_addr then 1 else 0)
          (set_done false (set_wait_race_flag false c))).

Definition wait_race_enter (c : CPUState) (g : race_globals) :
    res (CPUState * race_globals * wr_outcome) :=
  match regs c with
  | None => Ok (c, g, WR_return)
  | Some r =>
      let '(c, g) := refresh c g in
      let i := cpu_index c in
      if wait_race_flag c then
        let? g := locate_access i r g in
        match sel (negb i) (phase g) with
        | PHASE_SLEEPING =>
            let '(same, g) := is_same_address g in
            let g := set_can_go 0 (set_phase i PHASE_PASSED g) in
            let? c := verdict c true same in
            Ok (c, g, WR_broadcast)
        | PHASE_PASSED =>
            let '(same, g) := is_same_address (set_phase i PHASE_PASSED g) in
            let? c := verdict c false same in
            Ok (c, g, WR_tail)
        | PHASE_UNREACHED => Ok (c, set_phase i PHASE_SLEEPING g, WR_sleep)
        end
      else Ok (c, g, WR_tail)
  end.

(** After qemu_cond_timedwait, which returned [signalled]. *)
Definition wait_race_resume (signalled : bool) (c : CPUState) (g : race_globals) :
    res (CPUState * race_globals) :=
  let i := cpu_index c in
  let both := signalled || bool_decide (sel (negb i) (phase g) = PHASE_PASSED) in
  let '(same, g) := is_same_address g in
  let g := set_phase i PHASE_PASSED g in
  let? c := verdict c both same in
  Ok (c, g).

(** The second thread waits on the futex [can_go] ... *)
Definition waits_on_futex (c : CPUState) : bool :=
  negb (is_race c =? 0) && negb (go_first c) && negb (done c).

(** ... and the first one, after its single step, wakes it. *)
Definition wakes_futex (c : CPUState) : bool :=
  negb (is_race c =? 0) && go_first c && wake_up c && negb (done c).

(** The rest of wait_race; the futex call has returned when [waits_on_futex]. *)
Definition wait_race_tail (c : CPUState) (g : race_globals) : CPUState * race_globals :=
  let c := if waits_on_futex c then set_done true c else c in
  if wakes_futex c then (set_done true c, set_can_go 1 g) else (c, g).

End hypercall.

(** ** Conflicting accesses *)

(** CPU [i] accesses address [a]. *)
Definition accesses (g : race_globals) (i : bool) (a : Z) : Prop :=
  sel i (writing_addr g) = a \/ sel i (reading_addr g) = a.

(** Both CPUs access [a] and at least one of them writes it. *)
Definition conflict (g : race_globals) (a : Z) : Prop :=
  a <> 0 /\ accesses g false a /\ accesses g true a /\
  (sel false (writing_addr g) = a \/ sel true (writing_addr g) = a).

Lemma nz_eq_true a b : nz_eq a b = true <-> a <> 0 /\ a = b.
Proof.
  unfold nz_eq. rewrite !andb_true_iff, !negb_true_iff, !Z.eqb_neq, Z.eqb_eq. intuition congruence.
Qed.

Lemma nz_eq_false a b : nz_eq a b = false <-> (a = 0 \/ a <> b).
Proof.
  rewrite <- not_true_iff_false, nz_eq_true. destruct (Z.eq_dec a 0), (Z.eq_dec a b); intuition congruence.
Qed.

Lemma is_same_address_cases g :
  (exists a, is_same_address g = (true, set_race_addr (mk2 a a) g) /\ conflict g a)
  \/ (is_same_address g = (false, set_race_addr (mk2 0 0) g) /\ forall a, ~ conflict g a).
Proof.
  unfold is_same_address, conflict, accesses, sel.
  destruct (nz_eq (e0 (writing_addr g)) (e1 (writing_addr g))) eqn:E1;
    [apply nz_eq_true in E1 as [N E]; left; exists (e0 (writing_addr g)); rewrite <- E; tauto|].
  destruct (nz_eq (e0 (writing_addr g)) (e1 (reading_addr g))) eqn:E2;
    [apply nz_eq_true in E2 as [N E]; left; exists (e0 (writing_addr g)); rewrite <- E; tauto|].
  destruct (nz_eq (e0 (reading_addr g)) (e1 (writing_addr g))) eqn:E3;
    [apply nz_eq_true in E3 as [N E]; left; exists (e0 (reading_addr g)); rewrite <- E; tauto|].
  right. split; [reflexivity|]. rewrite nz_eq_false in *. intros a. intuition congruence.
Qed.

(** [is_same_address] decides conflict: it reports true exactly when both CPUs
    access one non-zero address that at least one of them writes, it then stores
    that address for both CPUs, and stores 0 otherwise. *)
Theorem is_same_address_conflict g :
  ((is_same_address g).1 = true <-> exists a, conflict g a) /\
  (let g' := (is_same_address g).2 in
   e0 (race_addr g') = e1 (race_addr g') /\
   ((is_same_address g).1 = true -> conflict g (e0 (race_addr g'))) /\
   ((is_same_address g).1 = false -> e0 (race_addr g') = 0)).
Proof.
  destruct (is_same_address_cases g) as [(a & -> & C)|[-> N]]; cbn.
  - split; [split; eauto|]. split; [reflexivity|]. split; [intros _; exact C | discriminate].
  - split; [split; [discriminate | intros (a & C); destruct (N a C)]|]. split; [reflexivity|]. split; [discriminate | reflexivity].
Qed.

(** Each CPU has at most one of the two addresses, as [locate_access] leaves them. *)
Definition one_access (g : race_globals) : Prop :=
  forall i, sel i (writing_addr g) = 0 \/ sel i (reading_addr g) = 0.

(** For a race, the logged access type of each CPU is its actual one; without a
    race the log is inverted: a CPU that only writes is reported to read and one
    that only reads is reported to write, and "N/A" is never reported. *)
Theorem access_type_logged g i : one_access g ->
  let r := is_same_address g in
  let t := accessType i r.2 in
  (r.1 = true -> t = if sel i (writing_addr g) =? 0 then Read else Write) /\
  (r.1 = false -> t = if sel i (reading_addr g) =? 0 then Read else Write).
Proof.
  intros O. specialize (O i). unfold accessType.
  destruct (is_same_address_cases g) as [(a & -> & Ha & A0 & A1 & _)|[-> N]]; cbn [fst snd set_race_addr race_addr
    reading_addr writing_addr].
  - split; [intros _ | discriminate].
    assert (A : accesses g i a) by (destruct i; assumption).
    replace (sel i (mk2 a a)) with a by (destruct i; reflexivity). unfold accesses in A.
    destruct (Z.eqb_spec a (sel i (reading_addr g))), (Z.eqb_spec (sel i (writing_addr g)) 0),
      (Z.eqb_spec a (sel i (writing_addr g))); try reflexivity; intuition congruence.
  - split; [discriminate | intros _]. replace (sel i (mk2 0 0)) with 0 by (destruct i; reflexivity).
    rewrite (Z.eqb_sym (sel i (reading_addr g)) 0).
    destruct (Z.eqb_spec 0 (sel i (reading_addr g))); [reflexivity|].
    destruct (Z.eqb_spec 0 (sel i (writing_addr g))); [reflexivity | intuition congruence].
Qed.

(** The globals before the first call. *)
Definition rg_zero : race_globals :=
  mk_rg (mk2 PHASE_UNREACHED PHASE_UNREACHED) 0 (mk2 0 0) (mk2 0 0) (mk2 0 0)
    (mk2 STATUS_READY STATUS_READY) (mk2 false false) dis_init.

Lemma access_type_logged_witness :
  accessType true (is_same_address (set_access false 0x10 0 (set_access true 0 0x10 rg_zero))).2 = Read.
Proof.
  refine (proj1 (access_type_logged (set_access false 0x10 0 (set_access true 0 0x10 rg_zero)) true _) _);
    [intros []; cbn; auto | reflexivity].
Defined.

(** ** The commands *)

(** The address at which CMD_START plants the breakpoint. *)
Definition start_addr (a : Z) : Z := Z.lor a 0xffffffff00000000.

(** Replaces every field of [c'] by that of [c] under [same_but_debug c c']. *)
Ltac use_same_debug D :=
  let E := fresh in
  match type of D with
  | same_but_debug ?c ?c' =>
      assert (E : cpu_index c' = cpu_index c /\ wait_race_flag c' = wait_race_flag c /\ go_first c' = go_first c
        /\ wake_up c' = wake_up c /\ done c' = done c /\ singlestep_enabled c' = singlestep_enabled c
        /\ guest_tid c' = guest_tid c /\ inserted_breakpoint c' = inserted_breakpoint c
        /\ is_race c' = is_race c /\ race_id c' = race_id c /\ sched c' = sched c /\ regs c' = regs c
        /\ update_regs c' = update_regs c /\ skipping c' = skipping c
        /\ kvm_vcpu_dirty c' = kvm_vcpu_dirty c)
      by (rewrite D; repeat split); destruct_and! E
  end.

(** Rewrites with the equations on the fields of [c]. *)
Ltac rewrite_fields c := repeat match goal with E : ?f c = _ |- context [?f c] => rewrite E end.

Section command_facts.
Context `{KL : KVMLaws} (sw : bool) (HYPERCALL_ADDR : Z).

(** What CMD_START does to a ready CPU. *)
Lemma command_start_ready c g arg r : bps_ok c -> regs c = Some r ->
  sel (cpu_index c) (status g) = STATUS_READY ->
  exists c', hypercall_command_start sw c g arg
             = Ok (c', set_status (cpu_index c) STATUS_RUNNING (set_phase (cpu_index c) PHASE_UNREACHED g)) /\
    bps_ok c' /\ bp_set c' = (spec_insert (start_addr (arg_addr arg)) (bp_set c)).2 /\
    inserted_breakpoint c' = start_addr (arg_addr arg) /\ is_race c' = 0 /\
    race_id c' = s32 (arg_race_id arg) /\ sched c' = s32 (arg_sched arg) /\
    regs c' = Some r /\ cpu_index c' = cpu_index c.
Proof.
  intros Hc Hr Hs. unfold hypercall_command_start, nonzero_regs. rewrite Hr. cbn [of_option rbind].
  rewrite Hs. destruct (bps_ok_ext c (set_is_race 0 c) eq_refl eq_refl Hc) as (H1 & _ & S1).
  destruct (kvm_insert_per_cpu sw _ (start_addr (arg_addr arg)) H1) as (err & c1 & E & O & D & S & _).
  unfold start_addr in E. rewrite E. cbn [rbind].
  eexists. split; [reflexivity|]. rewrite S1 in S.
  set (c' := set_sched _ _). destruct (bps_ok_ext c1 c' eq_refl eq_refl O) as (O' & _ & S').
  split; [exact O'|]. split; [rewrite S'; exact S|]. use_same_debug D. cbn in *. auto 10 with congruence.
Qed.

(** What CMD_END does to a running CPU. *)
Lemma command_end_running c g arg r : bps_ok c -> regs c = Some r ->
  sel (cpu_index c) (status g) = STATUS_RUNNING ->
  exists c', hypercall_command_end sw c g arg = Ok (c', set_status (cpu_index c) STATUS_READY g) /\
    bps_ok c' /\ bp_set c' = bp_set c ∖ {[inserted_breakpoint c]} /\ inserted_breakpoint c' = 0 /\
    regs c' = Some (set_rax (u64 (is_race c)) r) /\ update_regs c' = true /\ cpu_index c' = cpu_index c /\
    wait_race_flag c' = wait_race_flag c /\ kvm_vcpu_dirty c' = kvm_vcpu_dirty c.
Proof.
  intros Hc Hr Hs. unfold hypercall_command_end, nonzero_regs. rewrite Hr. cbn [of_option rbind]. rewrite Hs.
  destruct (kvm_remove_per_cpu sw c (inserted_breakpoint c) Hc) as (err & c1 & E & O & D & S & _).
  rewrite E. cbn [rbind]. eexists. split; [reflexivity|].
  set (c' := set_update_regs _ _). destruct (bps_ok_ext c1 c' eq_refl eq_refl O) as (O' & _ & S').
  split; [exact O'|]. split.
  { rewrite S', S. unfold spec_remove. destruct (decide _); cbn [snd]; [reflexivity | set_solver]. }
  use_same_debug D. cbn. split; [reflexivity|]. rewrite_fields c1. rewrite Hr. auto 10.
Qed.

(** What CMD_REFRESH does. *)
Lemma command_refresh_ok c g arg : length (hw_bps c) = 4%nat ->
  exists c', hypercall_command_refresh sw HYPERCALL_ADDR c g arg
    = Ok (c', set_is_refresh (cpu_index c) true (set_status (cpu_index c) STATUS_READY g)) /\
    bps_ok c' /\ bp_set c' = {[HYPERCALL_ADDR]} /\
    guest_tid c' = 0 /\ go_first c' = false /\ skipping c' = false /\ wait_race_flag c' = false /\
    wake_up c' = false /\ cpu_index c' = cpu_index c /\ inserted_breakpoint c' = inserted_breakpoint c /\
    singlestep_enabled c' = singlestep_enabled c /\
    (accepts_all -> in_force c' /\ stepping (kvm_debug c') = false).
Proof.
  intros Hl. unfold hypercall_command_refresh.
  set (c0 := set_wake_up _ _).
  destruct (kvm_remove_all_per_cpu sw c0 Hl) as (c1 & E1 & O1 & S1 & D1 & _). rewrite E1. cbn [rbind].
  unfold kvm_init_hypercall.
  destruct (kvm_insert_per_cpu sw c1 HYPERCALL_ADDR O1) as (err & c2 & E2 & O2 & D2 & S2 & _ & F & A).
  rewrite E2. cbn [rbind]. exists c2. rewrite S1 in S2, F, A.
  unfold spec_insert in S2, F, A. rewrite size_empty in S2, F, A.
  rewrite decide_False in S2, F, A by discriminate.
  rewrite decide_False in S2, F, A by set_solver. cbn [fst snd] in S2, F, A. rewrite union_empty_r_L in S2.
  split; [reflexivity|]. split; [exact O2|]. split; [exact S2|].
  use_same_debug D2. rewrite_fields c2. use_same_debug D1. rewrite_fields c1. cbn.
  repeat (split; [reflexivity|]). auto.
Qed.

(** A guest thread with a stack. *)
Definition has_tid (r : kvm_regs) : Prop := Z.land (rsp r) (u64 (Z.lnot (THREAD_SIZE - 1))) <> 0.

Definition tid_of (r : kvm_regs) : Z := Z.land (rsp r) (u64 (Z.lnot (THREAD_SIZE - 1))).

Lemma handle_command c g r : regs c = Some r -> has_tid r ->
  handle_hypercall_command sw HYPERCALL_ADDR c g =
  let c := set_guest_tid (tid_of r) c in
  let arg := mk_arg (rcx r) (u32 (rbx r)) (u32 (rdx r)) (u32 (rax r)) in
  if u32 (rbx r) =? CMD_START then hypercall_command_start sw c g arg
  else if u32 (rbx r) =? CMD_END then hypercall_command_end sw c g arg
  else if u32 (rbx r) =? CMD_REFRESH then hypercall_command_refresh sw HYPERCALL_ADDR c g arg
  else Err Panic.
Proof.
  intros Hr Ht. unfold handle_hypercall_command, guest_gettid, get_command, nonzero_regs.
  cbn [regs set_guest_tid]. rewrite Hr. cbn [of_option rbind].
  rewrite (proj2 (Z.eqb_neq _ _) Ht). reflexivity.
Qed.
End command_facts.

(** *** Results on commands *)

(** A thread that asks for a breakpoint at [a] as CPU [i] of the schedule [s]. *)
Definition start_regs (r : kvm_regs) : Prop := u32 (rbx r) = CMD_START /\ has_tid r.
Definition end_regs (r : kvm_regs) : Prop := u32 (rbx r) = CMD_END /\ has_tid r.

(** CMD_START on a ready CPU plants the breakpoint (in the upper half of the
    kernel's addresses), resets the verdict and the phase and marks the CPU running;
    CMD_END then takes the breakpoint away, leaves the table as before the start,
    returns the verdict in rax and makes the CPU ready again. *)
Theorem start_end_round_trip `{KVMLaws} sw hyp c g r r' :
  bps_ok c -> regs c = Some r -> start_regs r -> sel (cpu_index c) (status g) = STATUS_READY ->
  size (bp_set c) <> 4%nat -> start_addr (rcx r) ∉ bp_set c -> end_regs r' ->
  exists c1 g1, handle_hypercall_command sw hyp c g = Ok (c1, g1) /\
    sel (cpu_index c) (status g1) = STATUS_RUNNING /\ sel (cpu_index c) (phase g1) = PHASE_UNREACHED /\
    bp_set c1 = {[start_addr (rcx r)]} ∪ bp_set c /\ is_race c1 = 0 /\
    exists c2 g2, handle_hypercall_command sw hyp (set_regs (Some r') c1) g1 = Ok (c2, g2) /\
      sel (cpu_index c) (status g2) = STATUS_READY /\ bp_set c2 = bp_set c /\ bps_ok c2 /\
      regs c2 = Some (set_rax 0 r') /\ update_regs c2 = true.
Proof.
  intros Hc Hr [Cs Ts] Hs Hn Ha [Ce Te].
  rewrite (handle_command sw hyp c g r Hr Ts), Cs. cbn [Z.eqb CMD_START].
  destruct (bps_ok_ext c (set_guest_tid (tid_of r) c) eq_refl eq_refl Hc) as (O & _ & S).
  destruct (command_start_ready sw _ g (mk_arg (rcx r) CMD_START (u32 (rdx r)) (u32 (rax r))) r O Hr Hs)
    as (c1 & E1 & O1 & S1 & I1 & Z1 & _ & _ & _ & X1).
  change (CMD_START =? CMD_START) with true. cbv iota zeta. rewrite E1.
  do 2 eexists. split; [reflexivity|].
  cbn [status phase set_status set_phase cpu_index set_guest_tid arg_addr] in *.
  rewrite !sel_upd, eqb_reflx.
  rewrite S in S1. unfold spec_insert in S1. rewrite decide_False in S1 by exact Hn.
  rewrite decide_False in S1 by exact Ha. cbn [snd] in S1.
  repeat (split; [auto; fail|]).
  destruct (bps_ok_ext c1 (set_guest_tid (tid_of r') (set_regs (Some r') c1)) eq_refl eq_refl O1) as (O1' & _ & S1').
  rewrite (handle_command sw hyp (set_regs (Some r') c1) _ r' eq_refl Te), Ce.
  change (CMD_END =? CMD_START) with false. change (CMD_END =? CMD_END) with true. cbv iota zeta.
  destruct (command_end_running sw _ (set_status (cpu_index c) STATUS_RUNNING (set_phase (cpu_index c) PHASE_UNREACHED g))
    (mk_arg (rcx r') CMD_END (u32 (rdx r')) (u32 (rax r'))) r' O1' eq_refl) as (c2 & E2 & O2 & S2 & _ & R2 & U2 & X2 & _).
  { cbn. rewrite X1, sel_upd, eqb_reflx. reflexivity. }
  rewrite E2. do 2 eexists. split; [reflexivity|].
  cbn [status set_status cpu_index set_guest_tid set_regs inserted_breakpoint is_race] in *.
  rewrite X1, sel_upd, eqb_reflx. split; [reflexivity|].
  split; [rewrite S2, S1', S1, I1; set_solver|]. split; [exact O2|].
  split; [rewrite R2, Z1; reflexivity | exact U2].
Qed.

(** The registers of a hypercall: command [cmd], with rax, rcx, rdx. *)
Definition call_regs (cmd ra rc rd : Z) : kvm_regs :=
  mk_kvm_regs ra cmd rc rd 0 0 0xffff880012345678 0 0 0 0 0 0 0 0 0 0xffffffff8117e7d1 0.

Definition cpu_at (r : kvm_regs) : CPUState := set_regs (Some r) cpu_zero.

Lemma cpu_at_ok r : bps_ok (cpu_at r).
Proof. exact (proj1 (bps_ok_ext cpu_zero (cpu_at r) eq_refl eq_refl cpu_zero_ok)). Qed.

Lemma start_end_round_trip_witness :
  exists c1 g1, @handle_hypercall_command kvm_accepts false 0xffffffff8117e7d1
                  (cpu_at (call_regs CMD_START 0 0x81002000 0)) rg_zero = Ok (c1, g1) /\
    exists c2 g2, @handle_hypercall_command kvm_accepts false 0xffffffff8117e7d1
                    (set_regs (Some (call_regs CMD_END 0 0 0)) c1) g1 = Ok (c2, g2) /\
      regs c2 = Some (set_rax 0 (call_regs CMD_END 0 0 0)).
Proof.
  destruct (@start_end_round_trip kvm_accepts kvm_accepts_laws false 0xffffffff8117e7d1
    (cpu_at (call_regs CMD_START 0 0x81002000 0)) rg_zero (call_regs CMD_START 0 0x81002000 0)
    (call_regs CMD_END 0 0 0) (cpu_at_ok _) eq_refl) as (c1 & g1 & E1 & _ & _ & _ & _ & c2 & g2 & E2 & _ & _ & _ & R & _);
    [split; [reflexivity | vm_compute; discriminate] | reflexivity | vm_compute; discriminate
    | vm_compute; discriminate | split; [reflexivity | vm_compute; discriminate] |].
  exists c1, g1. split; [exact E1|]. exists c2, g2. split; [exact E2 | exact R].
Defined.

(** A command in the wrong status (CMD_START while running, CMD_END while not)
    returns -1 in rax and changes nothing else but the thread id and the request to
    write the registers back. *)
Theorem wrong_status_rejected `{KVMLaws} sw hyp c g r :
  regs c = Some r -> has_tid r ->
  (u32 (rbx r) = CMD_START /\ sel (cpu_index c) (status g) = STATUS_RUNNING) \/
  (u32 (rbx r) = CMD_END /\ sel (cpu_index c) (status g) = STATUS_READY) ->
  handle_hypercall_command sw hyp c g
  = Ok (set_update_regs true (set_regs (Some (set_rax (2 ^ 64 - 1) r)) (set_guest_tid (tid_of r) c)), g).
Proof.
  intros Hr Ht Hs. rewrite (handle_command sw hyp c g r Hr Ht).
  unfold hypercall_command_start, hypercall_command_end, return_rax, nonzero_regs.
  cbn [regs set_guest_tid cpu_index]. rewrite Hr. cbn [of_option rbind].
  destruct Hs as [[E Hs]|[E Hs]]; rewrite E, Hs; reflexivity.
Qed.

Lemma wrong_status_rejected_witness :
  @handle_hypercall_command kvm_accepts false 0 (cpu_at (call_regs CMD_END 0 0 0)) rg_zero
  = Ok (set_update_regs true (set_regs (Some (set_rax (2 ^ 64 - 1) (call_regs CMD_END 0 0 0)))
          (set_guest_tid 0xffff880012340000 (cpu_at (call_regs CMD_END 0 0 0)))), rg_zero).
Proof.
  refine (@wrong_status_rejected kvm_accepts kvm_accepts_laws false 0 (cpu_at (call_regs CMD_END 0 0 0)) rg_zero
            (call_regs CMD_END 0 0 0) eq_refl _ (or_intror (conj eq_refl eq_refl))).
  vm_compute. discriminate.
Defined.

(** CMD_REFRESH brings the CPU back to the state after start-up: the hypercall
    address is the only breakpoint, and the one in force when the kernel accepts it;
    the CPU is ready, waits for nothing, and the next [wait_race] will clear its
    recorded access and phase.  (The planted address and a pending single step are
    not reset.) *)
Theorem refresh_resets `{KVMLaws} sw hyp c g r :
  length (hw_bps c) = 4%nat -> regs c = Some r -> has_tid r -> u32 (rbx r) = CMD_REFRESH ->
  exists c' g', handle_hypercall_command sw hyp c g = Ok (c', g') /\
    bps_ok c' /\ bp_set c' = {[hyp]} /\ (accepts_all -> in_force c' /\ stepping (kvm_debug c') = false) /\
    sel (cpu_index c) (status g') = STATUS_READY /\ wait_race_flag c' = false /\ go_first c' = false /\
    skipping c' = false /\ inserted_breakpoint c' = inserted_breakpoint c /\
    singlestep_enabled c' = singlestep_enabled c /\
    (let '(c2, g2) := refresh c' g' in
     done c2 = false /\ sel (cpu_index c) (phase g2) = PHASE_UNREACHED /\
     sel (cpu_index c) (writing_addr g2) = 0 /\ sel (cpu_index c) (reading_addr g2) = 0).
Proof.
  intros Hl Hr Ht Hcmd. rewrite (handle_command sw hyp c g r Hr Ht), Hcmd.
  change (CMD_REFRESH =? CMD_START) with false. change (CMD_REFRESH =? CMD_END) with false.
  change (CMD_REFRESH =? CMD_REFRESH) with true. cbv iota zeta.
  destruct (command_refresh_ok sw hyp (set_guest_tid (tid_of r) c) g
              (mk_arg (rcx r) CMD_REFRESH (u32 (rdx r)) (u32 (rax r))) Hl)
    as (c' & E & O & S & _ & Gf & Sk & W & _ & X & I & St & F).
  rewrite E. do 2 eexists. split; [reflexivity|].
  cbn [cpu_index set_guest_tid inserted_breakpoint singlestep_enabled] in *.
  repeat (split; [first [assumption | cbn; rewrite sel_upd, eqb_reflx; reflexivity]|]).
  unfold refresh. rewrite X. cbn. rewrite sel_upd, eqb_reflx. cbn. rewrite !sel_upd, eqb_reflx. auto.
Qed.

Lemma refresh_resets_witness :
  exists c' g', @handle_hypercall_command kvm_accepts false 0xffffffff8117e7d1
      (cpu_at (call_regs CMD_REFRESH 0 0 0)) rg_zero = Ok (c', g') /\
    bp_set c' = {[0xffffffff8117e7d1]} /\ in_force c'.
Proof.
  destruct (@refresh_resets kvm_accepts kvm_accepts_laws false 0xffffffff8117e7d1
    (cpu_at (call_regs CMD_REFRESH 0 0 0)) rg_zero (call_regs CMD_REFRESH 0 0 0) eq_refl eq_refl)
    as (c' & g' & E & _ & S & F & _); [vm_compute; discriminate | reflexivity |].
  exists c', g'. split; [exact E|]. split; [exact S|]. apply F. intros ? ?. reflexivity.
Defined.

(** ** Breakpoints *)

Section breakpoint_facts.
Context `{KL : KVMLaws} (sw : bool).

(** Removal when the address is there and the kernel accepts. *)
Lemma remove_accepted c a : bps_ok c -> accepts_all -> a ∈ bp_set c ->
  exists c', kvm_remove_breakpoint_per_cpu sw c a = Ok (0, c') /\ bps_ok c' /\ same_but_debug c c' /\
    bp_set c' = bp_set c ∖ {[a]} /\ in_force c' /\ stepping (kvm_debug c') = false.
Proof.
  intros Hc Acc Ha. destruct (kvm_remove_per_cpu sw c a Hc) as (err & c' & E & O & D & S & _ & F & A).
  unfold spec_remove in S, F, A. rewrite decide_True in S, F, A by exact Ha. cbn [fst snd] in S, F, A.
  specialize (A Acc). subst err. exists c'. destruct (F eq_refl eq_refl). repeat (split; [assumption|]). assumption.
Qed.

Lemma handle_breakpoint c r rnd : regs c = Some r -> has_tid r ->
  handle_hypercall_breakpoint sw c rnd =
  if negb (singlestep_enabled c =? 0) then breakpoint_step sw c
  else if inserted_breakpoint c =? rip r then breakpoint_hit sw c r (tid_of r) rnd
  else Ok c.
Proof.
  intros Hr Ht. unfold handle_hypercall_breakpoint, guest_gettid, nonzero_regs. rewrite Hr.
  cbn [of_option rbind]. rewrite (proj2 (Z.eqb_neq _ _) Ht). reflexivity.
Qed.

(** The part of [breakpoint_hit] before the removal. *)
Definition hit_prep (c : CPUState) (tid rnd : Z) : CPUState :=
  let c := set_skipping (95 <=? Z.rem rnd 100) (set_bp_count (bp_count c + 1) c) in
  if (tid =? guest_tid c) && negb (skipping c)
  then set_go_first (race_id c =? sched c) (set_wait_race_flag true c) else c.

Lemma hit_prep_fields c tid rnd : let c' := hit_prep c tid rnd in
  hw_bps c' = hw_bps c /\ nb_hw_bps c' = nb_hw_bps c /\ skipping c' = (95 <=? Z.rem rnd 100) /\
  singlestep_enabled c' = singlestep_enabled c /\ inserted_breakpoint c' = inserted_breakpoint c /\
  regs c' = regs c /\ kvm_debug c' = kvm_debug c /\ guest_tid c' = guest_tid c /\ cpu_index c' = cpu_index c /\
  is_race c' = is_race c /\ done c' = done c.
Proof. unfold hit_prep. cbn. destruct (_ && _); cbn; repeat split. Qed.

(** [breakpoint_hit] when the removal succeeds. *)
Lemma breakpoint_hit_ok c r tid rnd : bps_ok c -> accepts_all -> rip r ∈ bp_set c ->
  exists c', breakpoint_hit sw c r tid rnd = Ok c' /\ bps_ok c' /\ bp_set c' = bp_set c ∖ {[rip r]} /\
    in_force c' /\
    let p := hit_prep c tid rnd in
    wait_race_flag c' = wait_race_flag p /\ go_first c' = go_first p /\ skipping c' = skipping p /\
    stepping (kvm_debug c') = go_first p /\ regs c' = regs c /\ cpu_index c' = cpu_index c /\
    guest_tid c' = guest_tid c /\
    inserted_breakpoint c' = (if skipping p then inserted_breakpoint c else 0) /\
    singlestep_enabled c' = (if skipping p || go_first p then 1 else singlestep_enabled c) /\
    wake_up c' = (if go_first p then false else wake_up p).
Proof.
  intros Hc Acc Ha. unfold breakpoint_hit. cbv zeta.
  change (if (tid =? _) && _ then _ else _) with (hit_prep c tid rnd).
  destruct (hit_prep_fields c tid rnd) as (P1 & P2 & _ & P4 & P5 & P6 & _ & P8 & P9 & _). cbv zeta in *.
  set (p := hit_prep c tid rnd) in *.
  destruct (bps_ok_ext c p P1 P2 Hc) as (O & _ & S). rewrite <- S in Ha.
  destruct (remove_accepted p (rip r) O Acc Ha) as (c1 & E & O1 & D1 & S1 & F1 & St1).
  rewrite E. cbn [rbind Z.eqb negb]. use_same_debug D1.
  set (c2 := if negb (skipping c1) then _ else _).
  assert (C2 : hw_bps c2 = hw_bps c1 /\ nb_hw_bps c2 = nb_hw_bps c1 /\ kvm_debug c2 = kvm_debug c1
    /\ wait_race_flag c2 = wait_race_flag p /\ go_first c2 = go_first p /\ skipping c2 = skipping p
    /\ regs c2 = regs c /\ cpu_index c2 = cpu_index c /\ guest_tid c2 = guest_tid c /\ wake_up c2 = wake_up p
    /\ inserted_breakpoint c2 = (if skipping p then inserted_breakpoint c else 0)
    /\ singlestep_enabled c2 = (if skipping p then 1 else singlestep_enabled c)).
  { unfold c2. rewrite_fields c1. destruct (skipping p); cbn; rewrite_fields c1; rewrite_fields p; repeat split; auto. }
  destruct_and! C2. clearbody c2.
  destruct (bps_ok_ext c1 c2) as (O2 & A2 & S2); [assumption .. |].
  destruct (go_first c2) eqn:G.
  - destruct (bps_ok_ext c2 (set_singlestep_enabled 1 c2) eq_refl eq_refl O2) as (O3 & A3 & S3).
    destruct (kvm_update_per_cpu sw _ O3) as (err & c3 & E3 & O3' & A3' & S3' & D3 & F3 & Er).
    rewrite E3. cbn [rbind]. eexists. split; [reflexivity|]. destruct (F3 (Er Acc)) as [F3a F3b].
    destruct (bps_ok_ext c3 (set_wake_up false c3) eq_refl eq_refl O3') as (O4 & A4 & S4).
    split; [exact O4|]. split; [congruence|].
    split; [unfold in_force in *; cbn [kvm_debug set_wake_up]; congruence|].
    cbn [kvm_debug set_wake_up wait_race_flag go_first skipping regs cpu_index guest_tid inserted_breakpoint
      singlestep_enabled wake_up]. rewrite F3b. rewrite D3. cbn. rewrite_fields c2.
    replace (go_first p) with true. rewrite orb_true_r. repeat split.
  - eexists. split; [reflexivity|]. split; [exact O2|]. split; [congruence|].
    split; [unfold in_force in *; congruence|]. rewrite G. rewrite_fields c2.
    replace (go_first p) with false. rewrite orb_false_r. rewrite St1. repeat split.
Qed.

(** The stop after a single step: the table is in force again and stepping is off. *)
Lemma breakpoint_step_ok c : bps_ok c -> accepts_all ->
  exists c', breakpoint_step sw c = Ok c' /\ bps_ok c' /\ in_force c' /\ stepping (kvm_debug c') = false /\
    singlestep_enabled c' = 0 /\ skipping c' = false /\
    wake_up c' = (if skipping c then wake_up c else true) /\
    bp_set c' = (if skipping c then (spec_insert 0 (bp_set c)).2 else bp_set c) /\
    inserted_breakpoint c' = inserted_breakpoint c /\ wait_race_flag c' = wait_race_flag c /\
    go_first c' = go_first c /\ regs c' = regs c /\ cpu_index c' = cpu_index c /\ guest_tid c' = guest_tid c.
Proof.
  intros Hc Acc. unfold breakpoint_step. cbv zeta. cbn [skipping set_singlestep_enabled].
  destruct (bps_ok_ext c (set_singlestep_enabled 0 c) eq_refl eq_refl Hc) as (O0 & A0 & S0).
  destruct (skipping c) eqn:Sk.
  - destruct (kvm_insert_per_cpu sw _ (singlestep_enabled (set_singlestep_enabled 0 c)) O0)
      as (err & c1 & E1 & O1 & D1 & S1 & _).
    change (singlestep_enabled (set_singlestep_enabled 0 c)) with 0 in *.
    rewrite E1. cbn [rbind].
    destruct (bps_ok_ext c1 (set_skipping false c1) eq_refl eq_refl O1) as (O2 & A2 & S2).
    destruct (kvm_update_per_cpu sw _ O2) as (e3 & c3 & E3 & O3 & A3 & S3 & D3 & F3 & Er).
    rewrite E3. cbn [rbind]. eexists. split; [reflexivity|]. destruct (F3 (Er Acc)) as [F3a F3b].
    split; [exact O3|]. split; [exact F3a|]. rewrite F3b.
    rewrite S3, S2, S1, S0. rewrite D3. cbn [set_kvm_debug set_skipping singlestep_enabled skipping wake_up
      inserted_breakpoint wait_race_flag go_first regs cpu_index guest_tid].
    use_same_debug D1. rewrite_fields c1. cbn. auto 20.
  - destruct (bps_ok_ext c (set_wake_up true (set_singlestep_enabled 0 c)) eq_refl eq_refl Hc) as (O2 & A2 & S2).
    cbn [rbind].
    destruct (kvm_update_per_cpu sw _ O2) as (e3 & c3 & E3 & O3 & A3 & S3 & D3 & F3 & Er).
    rewrite E3. cbn [rbind]. eexists. split; [reflexivity|]. destruct (F3 (Er Acc)) as [F3a F3b].
    split; [exact O3|]. split; [exact F3a|]. rewrite F3b. rewrite S3, S2. rewrite D3. cbn. auto 20.
Qed.
End breakpoint_facts.

(** *** Results on breakpoints *)

(** The CPU stops at the breakpoint it asked for. *)
Record at_breakpoint (c : CPUState) (r : kvm_regs) : Prop := {
  ab_ok : bps_ok c;
  ab_regs : regs c = Some r;
  ab_tid : has_tid r;
  ab_step : singlestep_enabled c = 0;
  ab_here : inserted_breakpoint c = rip r;
  ab_set : rip r ∈ bp_set c }.

Lemma handle_at_breakpoint `{KVM} sw c r rnd : at_breakpoint c r ->
  handle_hypercall_breakpoint sw c rnd = breakpoint_hit sw c r (tid_of r) rnd.
Proof.
  intros [_ Hr Ht Hs Hh _]. rewrite (handle_breakpoint sw c r rnd Hr Ht), Hs, Hh, !Z.eqb_refl. reflexivity.
Qed.

(** When the worker thread stops at its breakpoint and the hit is not skipped,
    the breakpoint is removed (the other ones stay in force), the CPU will wait for
    its opponent, it goes first exactly when the schedule names it, and the kernel
    single-steps exactly the CPU that goes first. *)
Theorem worker_hit `{KVMLaws} sw c r rnd : at_breakpoint c r -> accepts_all ->
  tid_of r = guest_tid c -> Z.rem rnd 100 < 95 ->
  exists c', handle_hypercall_breakpoint sw c rnd = Ok c' /\ bps_ok c' /\ in_force c' /\
    bp_set c' = bp_set c ∖ {[rip r]} /\ inserted_breakpoint c' = 0 /\ wait_race_flag c' = true /\
    go_first c' = (race_id c =? sched c) /\ stepping (kvm_debug c') = go_first c' /\
    singlestep_enabled c' = (if go_first c' then 1 else 0).
Proof.
  intros A Acc Ht Hk. rewrite (handle_at_breakpoint sw c r rnd A). pose proof A as [Hc _ _ Hs _ Hin].
  destruct (breakpoint_hit_ok sw c r (tid_of r) rnd Hc Acc Hin) as (c' & E & O & S & F & W & G & _ & St & _ & _ & _ & I & SS & _).
  exists c'. split; [exact E|]. split; [exact O|]. split; [exact F|]. split; [exact S|].
  rewrite I, W, G, St, SS, Hs. unfold hit_prep. cbn [guest_tid skipping set_skipping set_bp_count].
  rewrite Ht, Z.eqb_refl, (proj2 (Z.leb_gt _ _) Hk). cbn. auto.
Qed.

(** When a different guest thread runs into the breakpoint, it is consumed all
    the same: the breakpoint is gone, nobody waits, and the worker will not stop. *)
Theorem foreign_hit `{KVMLaws} sw c r rnd : at_breakpoint c r -> accepts_all ->
  tid_of r <> guest_tid c -> Z.rem rnd 100 < 95 ->
  exists c', handle_hypercall_breakpoint sw c rnd = Ok c' /\
    bp_set c' = bp_set c ∖ {[rip r]} /\ inserted_breakpoint c' = 0 /\ wait_race_flag c' = wait_race_flag c.
Proof.
  intros A Acc Ht Hk. rewrite (handle_at_breakpoint sw c r rnd A). pose proof A as [Hc _ _ Hs _ Hin].
  destruct (breakpoint_hit_ok sw c r (tid_of r) rnd Hc Acc Hin) as (c' & E & O & S & F & W & _ & _ & _ & _ & _ & _ & I & _).
  exists c'. split; [exact E|]. split; [exact S|]. rewrite I, W. unfold hit_prep.
  cbn [guest_tid skipping set_skipping set_bp_count].
  rewrite (proj2 (Z.eqb_neq _ _) Ht), (proj2 (Z.leb_gt _ _) Hk). cbn. auto.
Qed.

(** A skipped hit is lost.  The breakpoint is removed and single stepping is
    recorded in the CPU but never requested from the kernel; at the next stop the
    breakpoint is planted at address 0 instead of where it was. *)
Theorem skipped_hit_lost `{KVMLaws} sw c r rnd r2 rnd2 : at_breakpoint c r -> accepts_all ->
  go_first c = false -> 95 <= Z.rem rnd 100 -> has_tid r2 -> rip r <> 0 -> (size (bp_set c) < 4)%nat ->
  exists c1, handle_hypercall_breakpoint sw c rnd = Ok c1 /\
    rip r ∉ bp_set c1 /\ singlestep_enabled c1 = 1 /\ stepping (kvm_debug c1) = false /\
    inserted_breakpoint c1 = rip r /\
    exists c2, handle_hypercall_breakpoint sw (set_regs (Some r2) c1) rnd2 = Ok c2 /\
      rip r ∉ bp_set c2 /\ 0 ∈ bp_set c2 /\ in_force c2 /\ inserted_breakpoint c2 = rip r /\
      wait_race_flag c2 = wait_race_flag c.
Proof.
  intros A Acc Hg Hk Ht2 Hnz Hsz. rewrite (handle_at_breakpoint sw c r rnd A). pose proof A as [Hc _ _ Hs Hh Hin].
  destruct (breakpoint_hit_ok sw c r (tid_of r) rnd Hc Acc Hin)
    as (c1 & E & O & S & F & W & G & K & St & _ & _ & _ & I & SS & _).
  assert (P : hit_prep c (tid_of r) rnd = set_skipping true (set_bp_count (bp_count c + 1) c)).
  { unfold hit_prep. cbn [guest_tid skipping set_skipping set_bp_count].
    rewrite (proj2 (Z.leb_le _ _) Hk), andb_false_r. reflexivity. }
  rewrite P in *. cbn [skipping set_skipping set_bp_count go_first wait_race_flag] in *. rewrite Hg in *.
  cbn [orb] in *. exists c1. split; [exact E|]. split; [rewrite S; set_solver|]. split; [exact SS|].
  split; [exact St|]. split; [congruence|].
  rewrite (handle_breakpoint sw (set_regs (Some r2) c1) r2 rnd2 eq_refl Ht2).
  cbn [singlestep_enabled set_regs]. rewrite SS. cbn [Z.eqb negb].
  destruct (bps_ok_ext c1 (set_regs (Some r2) c1) eq_refl eq_refl O) as (O1 & _ & S1).
  destruct (breakpoint_step_ok sw _ O1 Acc) as (c2 & E2 & _ & F2 & _ & _ & _ & _ & S2 & I2 & W2 & _).
  cbn [skipping set_regs inserted_breakpoint wait_race_flag] in *. rewrite K in S2. rewrite S1 in S2.
  assert (Sz : size (bp_set c1) <> 4%nat).
  { rewrite S. pose proof (subseteq_size (bp_set c ∖ {[rip r]}) (bp_set c) ltac:(set_solver)). lia. }
  assert (S2' : bp_set c2 = {[0]} ∪ bp_set c1).
  { rewrite S2. unfold spec_insert. rewrite decide_False by exact Sz.
    destruct (decide _); cbn [snd]; [set_solver | reflexivity]. }
  exists c2. split; [exact E2|]. rewrite S2', S, I2, W2, W, I. split; [set_solver|]. split; [set_solver|]. auto.
Qed.

(** A CPU stopped at [a], with [a] and the hypercall address planted. *)
Definition stopped_regs : kvm_regs :=
  mk_kvm_regs 0 0 0 0 0 0 0xffff880012345678 0 0 0 0 0 0 0 0 0 0xffffffff81002000 0.
Definition stopped_cpu (tid : Z) : CPUState :=
  set_guest_tid tid (set_inserted_breakpoint 0xffffffff81002000 (set_regs (Some stopped_regs)
    (set_bps ([mk_bp 0xffffffff8117e7d1 1 1; mk_bp 0xffffffff81002000 1 1; zero_bp; zero_bp], 2%nat) cpu_zero))).

Lemma stopped_at_breakpoint tid : at_breakpoint (stopped_cpu tid) stopped_regs.
Proof.
  constructor; [| reflexivity | vm_compute; discriminate | reflexivity | reflexivity |].
  - constructor; [reflexivity | cbn; lia | | repeat constructor].
    cbn. apply NoDup_cons. split; [set_solver|]. apply NoDup_singleton.
  - unfold bp_set, bp_addrs. cbn. set_solver.
Qed.

Lemma worker_hit_witness :
  exists c', @handle_hypercall_breakpoint kvm_accepts false (stopped_cpu 0xffff880012340000) 17 = Ok c' /\
    wait_race_flag c' = true /\ go_first c' = true.
Proof.
  destruct (@worker_hit kvm_accepts kvm_accepts_laws false (stopped_cpu 0xffff880012340000) stopped_regs 17
    (stopped_at_breakpoint _) (fun _ _ => eq_refl) eq_refl ltac:(reflexivity))
    as (c' & E & _ & _ & _ & _ & W & G & _).
  exists c'. auto.
Defined.

Lemma foreign_hit_witness :
  exists c', @handle_hypercall_breakpoint kvm_accepts false (stopped_cpu 0x5000) 17 = Ok c' /\
    wait_race_flag c' = false.
Proof.
  destruct (@foreign_hit kvm_accepts kvm_accepts_laws false (stopped_cpu 0x5000) stopped_regs 17
    (stopped_at_breakpoint _) (fun _ _ => eq_refl) ltac:(vm_compute; discriminate) ltac:(reflexivity))
    as (c' & E & _ & _ & W).
  exists c'. auto.
Defined.

Lemma skipped_hit_lost_witness :
  exists c1, @handle_hypercall_breakpoint kvm_accepts false (stopped_cpu 0x5000) 97 = Ok c1 /\
    exists c2, @handle_hypercall_breakpoint kvm_accepts false (set_regs (Some stopped_regs) c1) 0 = Ok c2 /\
      0 ∈ bp_set c2.
Proof.
  destruct (@skipped_hit_lost kvm_accepts kvm_accepts_laws false (stopped_cpu 0x5000) stopped_regs 97 stopped_regs 0
    (stopped_at_breakpoint _) (fun _ _ => eq_refl) eq_refl ltac:(discriminate) ltac:(vm_compute; discriminate)
    ltac:(discriminate) ltac:(vm_compute; lia)) as (c1 & E1 & _ & _ & _ & _ & c2 & E2 & _ & Z2 & _).
  exists c1. split; [exact E1|]. exists c2. auto.
Defined.
