(* ===== verification/InsnAccess.v ===== *)
(** * Whole instructions: the access wait_race records

    [EffectiveAddr] follows one operand; this file follows the whole instruction
    at rip through [disas_get_mem] and [locate_access]: prefixes, opcode, mod/rm
    byte, mnemonic template, the operands in the order the caller receives them
    and their evaluation.  It covers every opcode of the one- and two-byte tables
    whose entry is a plain mnemonic with a memory operand and a general register
    (mov, the arithmetic group, cmp, test, xchg, cmov, cmpxchg, xadd, imul, bts,
    ...), with an optional lock prefix, operand-size prefix and REX prefix. *)

From Stdlib Require Import ZArith Lia Bool Ascii String.
From stdpp Require Import base list.
From S2P Require Import Prelude MemOperand DisasTypes DisasTables DisasOps DisasOperands Disas.
From S2P Require Import DisasFacts OperandText EffectiveAddr CpuState HwBreakpoint Hypercall.

Open Scope string_scope.
Open Scope Z_scope.
Open Scope dm_scope.

(** ** Mnemonics that print themselves *)

Definition is_lower (c : ascii) : bool := (code "a" <=? code c) && (code c <=? code "z").

(** Lower-case letters and the two suffix letters that print nothing here. *)
Fixpoint plain (t : string) : bool :=
  match t with
  | EmptyString => true
  | String c r => (is_lower c || Ascii.eqb c "B" || Ascii.eqb c "S") && plain r
  end.

Lemma lower_neq c k : is_lower c = true -> is_lower k = false -> Ascii.eqb c k = false.
Proof. intros H K. apply Ascii.eqb_neq. intros ->. congruence. Qed.

(** The states a mnemonic can leave: its text, nothing else. *)
Definition mnem (o : string) (p : nat) (s : dis_state) : dis_state := set_obuf o (set_obufp (Obuf, p) s).

Lemma mnem_mnem o p o' p' s : mnem o p (mnem o' p' s) = mnem o p s.
Proof. reflexivity. Qed.

Lemma oappend_mnem t o p s : exists o' p', oappend t (mnem o p s) = Ok (tt, mnem o' p' s).
Proof. do 2 eexists. reflexivity. Qed.

Lemma putop_letter_lower c alt l sf s : is_lower c = true -> putop_letter c alt l sf s = emit c s.
Proof.
  intros H. unfold putop_letter, intel, mode64, rex_has. rewrite !dbind_gets. cbv zeta.
  assert (K : forall k, is_lower k = false -> Ascii.eqb c k = false) by (intros k; apply lower_neq, H).
  rewrite !K by reflexivity. reflexivity.
Qed.

Lemma putop_letter_suffix c alt l sf s : c = "B"%char \/ c = "S"%char -> sf & SUFFIX_ALWAYS = false ->
  putop_letter c alt l sf s = Ok (tt, s).
Proof.
  intros H Hs. destruct H as [->| ->]; unfold putop_letter, putop_S, intel, mode64, rex_has;
    rewrite !dbind_gets; cbn [Ascii.eqb Bool.eqb]; rewrite ?dbind_gets, Hs, andb_false_r; reflexivity.
Qed.

Lemma putop_loop_plain t : forall fuel sf o p s, plain t = true -> sf & SUFFIX_ALWAYS = false ->
  (String.length t < fuel)%nat ->
  exists o' p', putop_loop fuel t false sf (mnem o p s) = Ok (false, mnem o' p' s).
Proof.
  induction t as [|c t IH]; intros [|fuel] sf o p s Hp Hs Hf; cbn [String.length] in Hf; try lia.
  - do 2 eexists. reflexivity.
  - cbn [plain] in Hp. apply andb_prop in Hp as [Hc Hp]. cbn [putop_loop].
    assert (B : forall k, k = "{"%char \/ k = "I"%char \/ k = "|"%char \/ k = "}"%char -> Ascii.eqb c k = false).
    { intros k Hk. apply orb_prop in Hc as [Hc|Hc]; [apply orb_prop in Hc as [Hc|Hc]|].
      - apply (lower_neq c k Hc). destruct Hk as [->|[->|[->| ->]]]; reflexivity.
      - apply Ascii.eqb_eq in Hc as ->. destruct Hk as [->|[->|[->| ->]]]; reflexivity.
      - apply Ascii.eqb_eq in Hc as ->. destruct Hk as [->|[->|[->| ->]]]; reflexivity. }
    rewrite !B by tauto.
    apply orb_prop in Hc as [Hc|Hc]; [apply orb_prop in Hc as [Hc|Hc]|].
    + destruct (oappend_mnem (String c EmptyString) o p s) as (o' & p' & E).
      rewrite (dbind_ok _ _ _ tt (mnem o' p' s)) by (rewrite putop_letter_lower by exact Hc; exact E).
      apply IH; auto; lia.
    + apply Ascii.eqb_eq in Hc as ->.
      rewrite (dbind_ok _ _ _ tt (mnem o p s)) by (apply putop_letter_suffix; auto). apply IH; auto; lia.
    + apply Ascii.eqb_eq in Hc as ->.
      rewrite (dbind_ok _ _ _ tt (mnem o p s)) by (apply putop_letter_suffix; auto). apply IH; auto; lia.
Qed.

(** ** The register operand *)

(** Bookkeeping of the REX bits and prefixes that were used. *)
Definition touch (ru up : Z) (s : dis_state) : dis_state := set_rex_used ru (set_used_prefixes up s).

(** No prefix is left unused. *)
Definition leftover (p u : Z) : Z := Z.land p (Z.lnot u).

Lemma leftover_lor p u k : leftover p (Z.lor u k) = Z.land (leftover p u) (Z.lnot k).
Proof.
  unfold leftover. apply Z.bits_inj'. intros n Hn.
  rewrite !Z.land_spec, !Z.lnot_spec, Z.lor_spec, negb_orb by lia. apply andb_assoc.
Qed.

Lemma leftover_used p k : leftover (Z.land p k) (Z.land p k) = 0.
Proof. unfold leftover. rewrite Z.land_lnot_diag. reflexivity. Qed.

(** [name_at] and [oappend_name] on the register tables. *)
Lemma oappend_name_at i s t n x : syn s = att_syntax -> at_slot i s -> 0 <= n ->
  t att_syntax !! Z.to_nat n = Some x -> oappend_name t n s = Ok (tt, put i x s).
Proof.
  intros Hy Hs Hn Hx. unfold oappend_name, name_at.
  rewrite (dbind_ok _ _ s x s)
    by (rewrite Hy, Hx; destruct (Z.ltb_spec n 0); [lia | reflexivity]).
  rewrite (at_slot_put i s Hs) at 1. rewrite oappend_put by (apply at_slot_bound, Hs).
  reflexivity.
Qed.

(** The names begin with a percent sign. *)
Definition percent (x : string) : Prop := exists r, x = String "%" r.

Lemma names_percent (t : list string) n k : Forall percent t -> 0 <= n < k ->
  (Z.to_nat k <= length t)%nat -> exists x, t !! Z.to_nat n = Some x /\ percent x.
Proof.
  intros Ht Hn Hk. destruct (lookup_lt_is_Some_2 t (Z.to_nat n)) as [x Hx]; [lia|].
  exists x. split; [exact Hx|]. eapply Forall_lookup_1; eassumption.
Qed.

Lemma at_slot_touch i s ru up : at_slot i s -> at_slot i (touch ru up s).
Proof. intros []. split; assumption. Qed.

(** A general register in an operand slot: a name, and bookkeeping. *)
Definition prints_reg (i : nat) (m : DM unit) (s : dis_state) (data : bool) : Prop :=
  exists x ru k, percent x /\
    m s = Ok (tt, put i x (touch ru (Z.lor (used_prefixes s) k) s)) /\
    (data = true -> Z.land k PREFIX_DATA = Z.land (prefixes s) PREFIX_DATA).

Lemma name_list_percent (f : syntax -> list string) :
  f = names64 \/ f = names32 \/ f = names16 \/ f = names8rex \/ f = names8 -> Forall percent (f att_syntax).
Proof.
  intros [->|[->|[->|[->| ->]]]]; cbn; repeat constructor; eexists; reflexivity.
Qed.

Lemma touch_touch ru up ru' up' s : touch ru up (touch ru' up' s) = touch ru up s.
Proof. reflexivity. Qed.

Lemma mark_rex_touch v s : exists ru, mark_rex v s = touch ru (used_prefixes s) s.
Proof. eexists. destruct s; reflexivity. Qed.

Lemma reg_name_ok i f r k s :
  f = names64 \/ f = names32 \/ f = names16 \/ f = names8rex \/ f = names8 ->
  syn s = att_syntax -> at_slot i s -> 0 <= r < k -> (Z.to_nat k <= length (f att_syntax))%nat ->
  exists x, percent x /\ oappend_name f r s = Ok (tt, put i x s).
Proof.
  intros Hf Hy Hs Hr Hk.
  destruct (names_percent (f att_syntax) r k (name_list_percent f Hf) Hr Hk) as (x & Hx & Px).
  exists x. split; [exact Px|]. apply oappend_name_at; [exact Hy | exact Hs | lia | exact Hx].
Qed.

Lemma reg_v_ok i s sf r ru : syn s = att_syntax -> at_slot i s -> 0 <= r < 16 ->
  prints_reg i (fun _ => reg_v v_mode sf r (touch ru (used_prefixes s) s)) s true.
Proof.
  intros Hy Hs Hr. unfold reg_v.
  set (s0 := touch ru (used_prefixes s) s).
  destruct (mark_rex_touch REX_W s0) as (ru' & Em).
  assert (A : exists x, percent x /\
     (if bits (rex s0) REX_W then oappend_name names64 r
      else if (sf & DFLAG) || (v_mode != v_mode) then oappend_name names32 r else oappend_name names16 r)
       (mark_rex REX_W s0) = Ok (tt, put i x (mark_rex REX_W s0))).
  { pose proof (at_slot_touch i _ ru' (used_prefixes s0) (at_slot_touch i s ru (used_prefixes s) Hs)) as Hs'.
    rewrite Em. destruct (bits (rex s0) REX_W); [|destruct ((sf & DFLAG) || _)];
      apply (reg_name_ok i _ r 16); solve [tauto | exact Hy | exact Hs' | exact Hr | cbn; lia]. }
  destruct A as (x & Px & Ex). exists x, ru', (Z.land (prefixes s) PREFIX_DATA).
  split; [exact Px|]. split.
  - rewrite (dbind_ok _ _ _ _ _ (USED_REX_ok REX_W s0)). unfold rex_has. rewrite dbind_gets.
    change (rex (mark_rex REX_W s0)) with (rex s0). rewrite (dbind_ok _ _ _ _ _ Ex), Em. reflexivity.
  - intros _. rewrite <- Z.land_assoc, Z.land_diag. reflexivity.
Qed.

Lemma reg_b_ok i s r ru : syn s = att_syntax -> at_slot i s ->
  0 <= r < (if rex s =? 0 then 8 else 16) ->
  prints_reg i (fun _ => reg_b r (touch ru (used_prefixes s) s)) s false.
Proof.
  intros Hy Hs Hr. set (s0 := touch ru (used_prefixes s) s). unfold reg_b.
  destruct (mark_rex_touch 0 s0) as (ru' & Em).
  assert (A : exists x, percent x /\
     (if rex s0 != 0 then oappend_name names8rex r else oappend_name names8 r) (mark_rex 0 s0)
     = Ok (tt, put i x (mark_rex 0 s0))).
  { pose proof (at_slot_touch i _ ru' (used_prefixes s0) (at_slot_touch i s ru (used_prefixes s) Hs)) as Hs'.
    rewrite Em. change (rex s0) with (rex s). destruct (rex s =? 0); cbn [negb].
    - apply (reg_name_ok i _ r 8); solve [tauto | exact Hy | exact Hs' | exact Hr | cbn; lia].
    - apply (reg_name_ok i _ r 16); solve [tauto | exact Hy | exact Hs' | exact Hr | cbn; lia]. }
  destruct A as (x & Px & Ex). exists x, ru', 0. split; [exact Px|]. split; [|discriminate].
  rewrite (dbind_ok _ _ _ _ _ (USED_REX_ok 0 s0)), dbind_gets.
  change (rex (mark_rex 0 s0)) with (rex s0). rewrite Ex, Em, Z.lor_0_r. reflexivity.
Qed.

Definition gpr_mode (m : Z) : bool := (m =? b_mode) || (m =? v_mode).

(** The register operand prints a register name into its slot. *)
Lemma OP_G_ok i s bm sf : syn s = att_syntax -> at_slot i s -> gpr_mode bm = true -> 0 <= modrm_reg s < 8 ->
  prints_reg i (OP_G bm sf) s (bm =? v_mode).
Proof.
  intros Hy Hs Hm Hr. unfold OP_G, rex_add.
  destruct (mark_rex_touch REX_R s) as (ru & Em).
  assert (E : forall k : Z -> DM unit, (add <- (USED_REX REX_R ;; x <- rex_has REX_R ;; dret (if x : bool then 8 else 0)) ;; k add) s
                = k (ext (bits (rex s) REX_R)) (touch ru (used_prefixes s) s)).
  { intros k. rewrite dbind_assoc, (dbind_ok _ _ _ _ _ (USED_REX_ok REX_R s)), dbind_assoc.
    unfold rex_has. rewrite dbind_gets, dbind_ret, Em. reflexivity. }
  assert (Rg : 0 <= modrm_reg s + ext (bits (rex s) REX_R) < 16) by (unfold ext; destruct (bits _ _); lia).
  unfold gpr_mode in Hm. apply orb_prop in Hm as [Hm|Hm]; apply Z.eqb_eq in Hm as ->.
  - destruct (reg_b_ok i s (modrm_reg s + ext (bits (rex s) REX_R)) ru Hy Hs) as (x & ru' & k & Px & Ex & Dx).
    { destruct (Z.eqb_spec (rex s) 0) as [E0|_]; [|exact Rg]. rewrite E0. change (ext (bits 0 REX_R)) with 0. lia. }
    exists x, ru', k. split; [exact Px|]. split; [|exact Dx].
    rewrite E, dbind_gets. unfold mode64. rewrite dbind_gets. exact Ex.
  - destruct (reg_v_ok i s sf (modrm_reg s + ext (bits (rex s) REX_R)) ru Hy Hs Rg) as (x & ru' & k & Px & Ex & Dx).
    exists x, ru', k. split; [exact Px|]. split; [|exact Dx].
    rewrite E, dbind_gets. unfold mode64. rewrite dbind_gets. exact Ex.
Qed.

(** ** The two operands *)

(** The state in front of the operand loop of an instruction with the mod/rm
    operand [b]. *)
Record ready (sf : Z) (b : nat -> Z) (s : dis_state) : Prop := {
  rd_at : at_operand s b;
  rd_out : op_out s = replicate MAX_OPERANDS EmptyString;
  rd_index : op_index s = replicate MAX_OPERANDS (-1);
  rd_riprel : length (op_riprel s) = MAX_OPERANDS;
  rd_syn : syn s = att_syntax;
  rd_need : need_modrm s = true;
  rd_mem : isa_mod b <> 3;
  rd_seg : bits (prefixes s) SEG_PREFIXES = false;
  rd_asize : bits sf AFLAG = true;
  rd_b0 : is_byte (b 0%nat);
  rd_b1 : is_byte (b 1%nat) }.

(** Where the entry has its memory operand: first (printed last, the destination)
    or second, and the mode of the register operand. *)
Inductive form := MemFirst (m : Z) | MemSecond (m : Z).

Definition form_mode (f : form) : Z := match f with MemFirst m | MemSecond m => m end.

Definition form_ops (f : form) (me : Z) : list operand :=
  match f with
  | MemFirst m => [(Some OP_E_rtn, me); (Some OP_G_rtn, m)]
  | MemSecond m => [(Some OP_G_rtn, m); (Some OP_E_rtn, me)]
  end.

(** The slots after the loop. *)
Definition form_out (f : form) (mem reg : string) : list string :=
  match f with
  | MemFirst _ => [mem; reg; EmptyString; EmptyString]
  | MemSecond _ => [reg; mem; EmptyString; EmptyString]
  end.

(** No operand text is replaced by a number. *)
Definition texts_kept (s : dis_state) : Prop :=
  forall i, default (-1) (op_index s !! i) = -1 \/ default 0 (op_riprel s !! i) <> 0.

(** What the loop leaves. *)
Record printed (f : form) (b : nat -> Z) (s s' : dis_state) : Prop := {
  pr_out : exists x, percent x /\
    op_out s' = form_out f (ea_text (isa_mod b) (isa_ea b (rex_b s) (rex_x s))) x;
  pr_codep : codep s' = (codep s + isa_length b)%nat;
  pr_texts : texts_kept s';
  pr_syn : syn s' = syn s;
  pr_two : two_source_ops s' = two_source_ops s;
  pr_prefixes : prefixes s' = prefixes s;
  pr_used : exists k, used_prefixes s' = Z.lor (used_prefixes s) k /\
    (form_mode f = v_mode -> Z.land k PREFIX_DATA = Z.land (prefixes s) PREFIX_DATA) }.

Definition started (i ad : nat) (s : dis_state) : dis_state := set_op_ad ad (set_obufp (OpOut i, 0%nat) s).

Lemma start_operand_ok i ad s : start_operand i ad s = Ok (tt, started i ad s).
Proof. reflexivity. Qed.

Lemma after_ea_texts i b rexb rexx s : (i < MAX_OPERANDS)%nat -> op_ad s = i ->
  op_index s = replicate MAX_OPERANDS (-1) -> length (op_riprel s) = MAX_OPERANDS ->
  address_mode s = mode_64bit -> texts_kept (after_ea (isa_ea b rexb rexx) s).
Proof.
  intros Hi Ha Hx Hr Hm j. unfold after_ea. destruct (ea_riprel _).
  - unfold rec_riprel. cbn. rewrite Ha, Hx. destruct (decide (i = j)) as [<-|N].
    + right. rewrite list_lookup_insert_eq by lia. discriminate.
    + left. rewrite list_lookup_insert_ne by congruence.
      destruct (replicate MAX_OPERANDS (-1) !! j) eqn:E; [|reflexivity].
      apply lookup_replicate in E as [-> _]. reflexivity.
  - left. rewrite Hx. destruct (replicate MAX_OPERANDS (-1) !! j) eqn:E; [|reflexivity].
    apply lookup_replicate in E as [-> _]. reflexivity.
Qed.

Lemma ready_mem_operand i ad sf b s : ready sf b s -> (i < MAX_OPERANDS)%nat ->
  op_out s !! i = Some EmptyString -> mem_operand i sf b (started i ad s).
Proof.
  intros [Ha Ho _ _ Hy Hn H3 Hg Hf B0 B1] Hi. constructor; try assumption.
  - destruct Ha. constructor; assumption.
  - split; [reflexivity|]. assumption.
Qed.

Lemma ready_reg sf b s : ready sf b s -> 0 <= modrm_reg s < 8.
Proof. intros [Ha]. destruct Ha as [_ _ _ (_ & -> & _)]. apply Z.mod_pos_bound. lia. Qed.

Lemma ready_slot sf b s i : ready sf b s -> (i < MAX_OPERANDS)%nat -> op_out s !! i = Some EmptyString.
Proof. intros R Hi. rewrite (rd_out _ _ _ R). apply lookup_replicate_2, Hi. Qed.

(** The state after a memory operand in slot [i], in the terms of [printed]. *)
Record mem_printed (i : nat) (b : nat -> Z) (s s' : dis_state) : Prop := {
  mp_out : op_out s' = <[i := ea_text (isa_mod b) (isa_ea b (rex_b s) (rex_x s))]> (op_out s);
  mp_codep : codep s' = (codep s + isa_length b)%nat;
  mp_texts : texts_kept s';
  mp_syn : syn s' = syn s;
  mp_reg : modrm_reg s' = modrm_reg s;
  mp_two : two_source_ops s' = two_source_ops s;
  mp_prefixes : prefixes s' = prefixes s;
  mp_used : used_prefixes s' = used_prefixes s }.

Lemma OP_E_printed i ad sf b s me : mem_operand i sf b (started i ad s) -> (ad < MAX_OPERANDS)%nat ->
  op_index s = replicate MAX_OPERANDS (-1) -> length (op_riprel s) = MAX_OPERANDS ->
  exists s', OP_E me sf (started i ad s) = Ok (tt, s') /\ mem_printed i b s s'.
Proof.
  intros M Had Hi Hr. destruct (OP_E_mem i sf b _ me M) as (s1 & E1 & C & Hc).
  eexists. split; [exact E1|]. destruct C. destruct M as [[_ Hm _ _] _ _ _ _ _ _ _ _].
  change (rex_b (started i ad s)) with (rex_b s) in *. change (rex_x (started i ad s)) with (rex_x s) in *.
  set (e := isa_ea b (rex_b s) (rex_x s)).
  assert (T : texts_kept (after_ea e s1)).
  { apply (after_ea_texts ad); [exact Had | exact ce_ad | rewrite ce_index; exact Hi |
      rewrite ce_riprel; exact Hr | rewrite ce_mode; exact Hm]. }
  constructor; try exact T; unfold after_ea; destruct (ea_riprel e); cbn; try assumption;
    rewrite ce_out; reflexivity.
Qed.

Lemma mem_first_ok sf b s me m : ready sf b s -> gpr_mode m = true ->
  exists s', (start_operand 0 3 ;; OP_E me sf ;; start_operand 1 2 ;; OP_G m sf ;;
              start_operand 2 1 ;; start_operand 3 0) s = Ok (tt, s')
             /\ printed (MemFirst m) b s s'.
Proof.
  intros R Hm.
  destruct (OP_E_printed 0 3 sf b s me) as (s1 & E1 & [P1 P2 P3 P4 P5 P6 P7 P8]);
    [apply ready_mem_operand; [exact R | unfold MAX_OPERANDS; lia | apply (ready_slot _ _ _ _ R); unfold MAX_OPERANDS; lia]
    | unfold MAX_OPERANDS; lia | apply R | apply R |].
  destruct (OP_G_ok 1 (started 1 2 s1) m sf) as (x & ru & k & Px & E2 & D2).
  - cbn. rewrite P4. apply R.
  - split; [reflexivity|]. cbn. rewrite P1, (rd_out _ _ _ R). reflexivity.
  - exact Hm.
  - cbn. rewrite P5. apply (ready_reg _ _ _ R).
  - eexists. split.
    + rewrite (dbind_ok _ _ _ _ _ (start_operand_ok 0 3 s)), (dbind_ok _ _ _ _ _ E1).
      rewrite (dbind_ok _ _ _ _ _ (start_operand_ok 1 2 _)), (dbind_ok _ _ _ _ _ E2). reflexivity.
    + constructor; cbn; try assumption.
      * exists x. split; [exact Px|]. rewrite P1, (rd_out _ _ _ R). reflexivity.
      * exists k. split; [rewrite P8; reflexivity|]. intros ->. rewrite (D2 eq_refl). cbn. rewrite P7. reflexivity.
Qed.

Lemma mem_second_ok sf b s me m : ready sf b s -> gpr_mode m = true ->
  exists s', (start_operand 0 3 ;; OP_G m sf ;; start_operand 1 2 ;; OP_E me sf ;;
              start_operand 2 1 ;; start_operand 3 0) s = Ok (tt, s')
             /\ printed (MemSecond m) b s s'.
Proof.
  intros R Hm. pose proof R as [[Hf Hmd Hb Hmr] Ho Hi Hr Hy Hn H3 Hg Ha B0 B1].
  destruct (OP_G_ok 0 (started 0 3 s) m sf) as (x & ru & k & Px & E1 & D1);
    [exact Hy | split; [reflexivity | apply (ready_slot _ _ _ _ R); unfold MAX_OPERANDS; lia] | exact Hm | apply (ready_reg _ _ _ R) |].
  set (s1 := put 0 x _) in E1.
  destruct (OP_E_printed 1 2 sf b s1 me) as (s2 & E2 & [P1 P2 P3 P4 P5 P6 P7 P8]);
    [| unfold MAX_OPERANDS; lia | exact Hi | exact Hr |].
  { constructor; try assumption; [constructor; assumption|]. split; [reflexivity|]. cbn. rewrite Ho. reflexivity. }
  eexists. split.
  - rewrite (dbind_ok _ _ _ _ _ (start_operand_ok 0 3 s)), (dbind_ok _ _ _ _ _ E1).
    rewrite (dbind_ok _ _ _ _ _ (start_operand_ok 1 2 _)), (dbind_ok _ _ _ _ _ E2). reflexivity.
  - constructor; cbn; try assumption.
    + exists x. split; [exact Px|]. rewrite P1. cbn. rewrite Ho. reflexivity.
    + exists k. split; [rewrite P8; reflexivity|]. intros ->. apply (D1 eq_refl).
Qed.

(** The operand loop on an entry of either form. *)
Lemma print_operands_ok sf b s f me name : ready sf b s -> gpr_mode (form_mode f) = true ->
  exists s', print_operands MAX_OPERANDS 0 (mk_dis386 name (form_ops f me)) sf s = Ok (tt, s')
             /\ printed f b s s'.
Proof.
  intros R Hm. destruct f as [m|m]; cbn [form_mode] in Hm.
  - exact (mem_first_ok sf b s me m R Hm).
  - exact (mem_second_ok sf b s me m R Hm).
Qed.

(** ** The instruction *)

(** An instruction: optional lock, operand-size and REX prefixes, a one-byte or
    two-byte opcode, and the bytes from the mod/rm byte on. *)
Record insn := mk_insn {
  in_lock : bool; in_data : bool; in_rex : option Z; in_two : bool; in_op : Z; in_rest : list Z }.

Definition prefix_bytes (n : insn) : list Z :=
  (if in_lock n then [0xf0] else []) ++ (if in_data n then [0x66] else [])
  ++ match in_rex n with Some r => [r] | None => [] end.
Definition opcode_bytes (n : insn) : list Z := if in_two n then [0x0f; in_op n] else [in_op n].
Definition insn_bytes (n : insn) : list Z := prefix_bytes n ++ opcode_bytes n ++ in_rest n.

(** The position of the mod/rm byte. *)
Definition modrm_at (n : insn) : nat := (length (prefix_bytes n) + length (opcode_bytes n))%nat.

Definition insn_rex (n : insn) : Z := default 0 (in_rex n).
Definition insn_prefixes (n : insn) : Z :=
  Z.lor (if in_lock n then PREFIX_LOCK else 0) (if in_data n then PREFIX_DATA else 0).

Definition entry (two : bool) (op : Z) : option dis386_t :=
  (if two then dis386_twobyte else dis386) !! Z.to_nat op.

Definition entry_form (dp : dis386_t) : option (form * Z) :=
  match di_name dp, di_ops dp with
  | Some t, [(Some OP_E_rtn, me); (Some OP_G_rtn, m)] =>
      if plain t && gpr_mode m then Some (MemFirst m, me) else None
  | Some t, [(Some OP_G_rtn, m); (Some OP_E_rtn, me)] =>
      if plain t && gpr_mode m then Some (MemSecond m, me) else None
  | _, _ => None
  end.

(** The opcodes covered, with the place of their memory operand. *)
Definition opcode_form (two : bool) (op : Z) : option (form * Z) := entry two op ≫= entry_form.

Lemma entry_form_inv dp f me : entry_form dp = Some (f, me) ->
  exists t, dp = mk_dis386 (Some t) (form_ops f me) /\ plain t = true /\ gpr_mode (form_mode f) = true.
Proof.
  destruct dp as [[t|] ops]; cbn; [|discriminate]. intros H.
  repeat match goal with
  | H : context [match ?l with [] => _ | _ :: _ => _ end] |- _ => destruct l as [|[[[]|] ?] ?]; try discriminate
  end;
  destruct (plain t && gpr_mode _) eqn:E; try discriminate; injection H as <- <-;
  apply andb_prop in E as [? ?]; eauto.
Qed.

(** What the tables say of these opcodes besides. *)
Definition opcode_regular (two : bool) (op : Z) : bool :=
  if two then
    (default 0 (twobyte_has_modrm !! Z.to_nat op) =? 1)
    && (default 1 (twobyte_uses_DATA_prefix !! Z.to_nat op) =? 0)
    && bool_decide (is_Some (twobyte_uses_REPNZ_prefix !! Z.to_nat op))
    && bool_decide (is_Some (twobyte_uses_REPZ_prefix !! Z.to_nat op))
    && negb (Z.land op (Z.lnot 2) =? 0x20)
  else
    (default 0 (onebyte_has_modrm !! Z.to_nat op) =? 1)
    && negb (existsb (Z.eqb op) [0x0f; 0xc4; 0xc5; 0x62; 0xc8])
    && negb (within op 0xd8 0xdf)
    && match classify_prefix op with PNone => true | _ => false end.

Lemma opcodes_regular :
  forallb (fun two => forallb (fun k => let op := Z.of_nat k in
     match opcode_form two op with Some _ => opcode_regular two op | None => true end) (seq 0 256)) [true; false]
  = true.
Proof. vm_compute. reflexivity. Qed.

Lemma opcode_form_regular two op f : is_byte op -> opcode_form two op = Some f -> opcode_regular two op = true.
Proof.
  intros Hb Hf. pose proof opcodes_regular as A. rewrite forallb_forall in A.
  specialize (A two ltac:(destruct two; cbn; tauto)). rewrite forallb_forall in A.
  specialize (A (Z.to_nat op)). unfold is_byte in Hb. cbv zeta in A.
  rewrite Z2Nat.id, Hf in A by lia. apply A, in_seq. lia.
Qed.

(** ** Prefixes *)

Lemma peek_at s b : the_buffer s !! codep s = Some (Some b) -> peek s = Ok (b, s).
Proof. intros E. unfold peek, dbind, gets, getb. rewrite E. reflexivity. Qed.

Lemma dbind_modify {B} (f : dis_state -> dis_state) (k : unit -> DM B) s :
  dbind (modify f) k s = k tt (f s).
Proof. reflexivity. Qed.

Section scan.
Variables (fuel : nat) (s : dis_state) (b : Z).
Hypotheses (Hf : fetch s = false) (Hb : the_buffer s !! codep s = Some (Some b)).

Lemma ckprefix_none : classify_prefix b = PNone -> ckprefix_loop (S fuel) s = Ok (tt, s).
Proof.
  intros E. cbn [ckprefix_loop]. rewrite (dbind_ok _ _ _ _ _ (fetch_off 1 s Hf)).
  rewrite (dbind_ok _ _ _ _ _ (peek_at s b Hb)). unfold mode64. rewrite dbind_gets, E. reflexivity.
Qed.

Lemma ckprefix_flag p : classify_prefix b = PFlag p -> rex s = 0 ->
  ckprefix_loop (S fuel) s
  = ckprefix_loop fuel (adv 1 (set_rex 0 (set_prefixes (Z.lor (prefixes s) p) s))).
Proof.
  intros E R. cbn [ckprefix_loop]. rewrite (dbind_ok _ _ _ _ _ (fetch_off 1 s Hf)).
  rewrite (dbind_ok _ _ _ _ _ (peek_at s b Hb)). unfold mode64. rewrite dbind_gets, E.
  unfold ckprefix_tail. rewrite dbind_modify, dbind_gets. cbn [rex set_prefixes]. rewrite R. reflexivity.
Qed.

Lemma ckprefix_rex : classify_prefix b = PRex -> address_mode s = mode_64bit -> rex s = 0 ->
  ckprefix_loop (S fuel) s = ckprefix_loop fuel (adv 1 (set_rex b s)).
Proof.
  intros E M R. cbn [ckprefix_loop]. rewrite (dbind_ok _ _ _ _ _ (fetch_off 1 s Hf)).
  rewrite (dbind_ok _ _ _ _ _ (peek_at s b Hb)). unfold mode64. rewrite dbind_gets, M, E. cbn [is64].
  unfold ckprefix_tail. rewrite dbind_gets, R. reflexivity.
Qed.
End scan.

(** The instruction buffer as [disas_get_mem] fills it. *)
Definition insn_buffer (n : insn) : list (option Z) := (map Some (insn_bytes n) ++ [None])%list.

Lemma insn_buffer_at n i x : insn_bytes n !! i = Some x -> insn_buffer n !! i = Some (Some x).
Proof.
  intros E. unfold insn_buffer. rewrite lookup_app_l by (rewrite length_map; eapply lookup_lt_Some, E).
  rewrite list_lookup_fmap, E. reflexivity.
Qed.

(** A well-formed instruction: fifteen bytes are read, and a REX prefix is one. *)
Record insn_ok (n : insn) : Prop := {
  io_length : length (insn_bytes n) = 15%nat;
  io_bytes : Forall is_byte (insn_bytes n);
  io_rex : match in_rex n with Some r => within r 0x40 0x4f = true | None => True end }.

Definition first_opcode (n : insn) : Z := if in_two n then 0x0f else in_op n.

Lemma init_buffer pc n s : insn_ok n -> the_buffer (init_insn pc (insn_bytes n) s) = insn_buffer n.
Proof. intros H. cbn. rewrite firstn_all2 by (rewrite (io_length n H); lia). reflexivity. Qed.

Lemma rex_class r : within r 0x40 0x4f = true -> classify_prefix r = PRex.
Proof. intros H. unfold classify_prefix. rewrite H. reflexivity. Qed.

Lemma state_eta s : set_codep (codep s) (set_rex (rex s) (set_prefixes (prefixes s) s)) = s.
Proof. destruct s. reflexivity. Qed.

(** The scan over each of the prefixes, on any state that holds the bytes. *)
Lemma ckprefix_scan n s : insn_ok n -> classify_prefix (first_opcode n) = PNone ->
  the_buffer s = insn_buffer n -> codep s = 0%nat -> fetch s = false -> address_mode s = mode_64bit ->
  rex s = 0 -> prefixes s = 0 ->
  ckprefix_loop 17 s
  = Ok (tt, set_codep (length (prefix_bytes n)) (set_rex (insn_rex n) (set_prefixes (insn_prefixes n) s))).
Proof.
  intros Hn Ho Hb Hc Hf Hm Hx Hp. pose proof (io_rex n Hn) as Hr.
  assert (B : forall i x, insn_bytes n !! i = Some x -> the_buffer s !! i = Some (Some x))
    by (intros i x E; rewrite Hb; apply insn_buffer_at, E).
  clear Hn Hb. unfold insn_rex, insn_prefixes, insn_bytes, prefix_bytes, opcode_bytes, first_opcode in *.
  destruct n as [[] [] [r|] two o rest];
    cbn [in_lock in_data in_rex in_two in_op in_rest app length default] in *;
    repeat first
    [ rewrite (ckprefix_none _ _ (if two then 0x0f else o)) by
        first [exact Hf | exact Ho | cbn [adv codep the_buffer set_codep set_rex set_prefixes];
               rewrite Hc; apply B; destruct two; reflexivity]
    | erewrite ckprefix_flag by
        first [exact Hf | exact Hx | cbn [adv codep the_buffer set_codep set_rex set_prefixes];
               rewrite Hc; apply B; reflexivity | reflexivity]
    | erewrite ckprefix_rex by
        first [exact Hf | exact Hm | exact Hx | apply rex_class, Hr |
               cbn [adv codep the_buffer set_codep set_rex set_prefixes]; rewrite Hc; apply B; reflexivity
               | reflexivity] ].
  all: rewrite <- (state_eta s), Hc, Hx, Hp; reflexivity.
Qed.

(** ** Opcode and mnemonic *)

(** The bytes from the mod/rm byte on. *)
Definition insn_operand (n : insn) (j : nat) : Z := nth j (in_rest n) 0.

Lemma insn_byte_op n i x : opcode_bytes n !! i = Some x ->
  insn_bytes n !! (length (prefix_bytes n) + i)%nat = Some x.
Proof.
  intros E. unfold insn_bytes. rewrite lookup_app_r by lia. rewrite Nat.add_comm, Nat.add_sub.
  apply lookup_app_l_Some, E.
Qed.

Lemma insn_byte_rest n j : (modrm_at n + j < length (insn_bytes n))%nat ->
  insn_bytes n !! (modrm_at n + j)%nat = Some (insn_operand n j).
Proof.
  unfold modrm_at, insn_bytes. rewrite !length_app. intros H.
  rewrite app_assoc, lookup_app_r by (rewrite length_app; lia). rewrite length_app.
  replace (_ + j - _)%nat with j by lia. unfold insn_operand.
  destruct (in_rest n !! j) eqn:E; [|apply lookup_ge_None in E; lia].
  f_equal. symmetry. apply nth_lookup_Some, E.
Qed.

Lemma at1_ok {A} (t : list A) i x s : 0 <= i -> t !! Z.to_nat i = Some x -> at1 t i s = Ok (x, s).
Proof. intros Hi E. unfold at1. destruct (Z.ltb_spec i 0); [lia|]. rewrite E. reflexivity. Qed.

Lemma getb_at i b s : the_buffer s !! i = Some (Some b) -> getb i s = Ok (b, s).
Proof. intros E. unfold getb. rewrite E. reflexivity. Qed.

(** What [fetch_opcode] needs of the state. *)
Record at_opcode (n : insn) (s : dis_state) : Prop := {
  ac_buffer : the_buffer s = insn_buffer n;
  ac_codep : codep s = length (prefix_bytes n);
  ac_prefixes : prefixes s = insn_prefixes n }.

(** The entry, and the prefixes the instruction does not claim for itself. *)
Definition plain_opcode (oc : opcode) (dp : dis386_t) : Prop :=
  oc_dp oc = dp /\ oc_data oc = false /\ oc_lock oc = false.

Lemma entry_lookup n dp : entry (in_two n) (in_op n) = Some dp -> is_byte (in_op n) ->
  forall s, at1 (if in_two n then dis386_twobyte else dis386) (in_op n) s = Ok (dp, s).
Proof. intros E B s. apply at1_ok; [apply B|]. unfold entry in E. destruct (in_two n); exact E. Qed.

Lemma insn_prefixes_vex n : bits (insn_prefixes n) PREFIX_VEX_0F = false.
Proof. unfold insn_prefixes. destruct (in_lock n), (in_data n); reflexivity. Qed.

Lemma fetch_opcode_ok n s dp t : at_opcode n s -> entry (in_two n) (in_op n) = Some dp ->
  di_name dp = Some t -> opcode_regular (in_two n) (in_op n) = true -> is_byte (in_op n) ->
  exists oc, fetch_opcode s = Ok (oc, set_need_modrm true (adv (length (opcode_bytes n)) s))
             /\ plain_opcode oc dp.
Proof.
  intros [Hb Hc Hp] E Ht R B. pose proof (entry_lookup n dp E B) as L. clear E.
  assert (Ib : forall i x, opcode_bytes n !! i = Some x ->
            the_buffer s !! (codep s + i)%nat = Some (Some x))
    by (intros i x Ei; rewrite Hb, Hc; apply insn_buffer_at, insn_byte_op, Ei).
  unfold fetch_opcode, prefix. rewrite dbind_gets, Hp, insn_prefixes_vex.
  unfold opcode_bytes, opcode_regular in *. destruct B as [B0 B1].
  destruct (in_two n); bool_props.
  - rewrite (dbind_ok _ _ _ _ _ (peek_at s 0x0f ltac:(rewrite <- (Nat.add_0_r (codep s)); apply Ib; reflexivity))).
    cbn [Z.eqb Pos.eqb]. rewrite dbind_gets.
    rewrite (dbind_ok _ _ _ _ _ (getb_at _ (in_op n) s (Ib 1%nat _ eq_refl))).
    unfold advance. rewrite dbind_modify. unfold twobyte_opcode. rewrite (dbind_ok _ _ _ _ _ (L _)).
    destruct (twobyte_has_modrm !! Z.to_nat (in_op n)) as [x1|] eqn:E1; [|discriminate].
    destruct (twobyte_uses_DATA_prefix !! Z.to_nat (in_op n)) as [x2|] eqn:E2; [|discriminate].
    repeat match goal with X : bool_decide (is_Some _) = true |- _ => apply bool_decide_eq_true in X as [? ?] end.
    cbn [default] in *. unfold id in *. subst.
    do 4 (erewrite dbind_ok by (apply at1_ok; eassumption)). rewrite dbind_modify. cbv zeta.
    unfold is_three_byte. rewrite Ht. eexists. split; [reflexivity|].
    split; [reflexivity|]. split; [reflexivity|]. cbn. apply Z.eqb_neq. assumption.
  - rewrite (dbind_ok _ _ _ _ _ (peek_at s (in_op n) ltac:(rewrite <- (Nat.add_0_r (codep s)); apply Ib; reflexivity))).
    cbn [existsb] in *. bool_props. rewrite (proj2 (Z.eqb_neq _ _)) by assumption.
    rewrite (dbind_ok _ _ _ _ _ (L _)).
    destruct (onebyte_has_modrm !! Z.to_nat (in_op n)) as [x1|] eqn:E1; [|discriminate].
    cbn [default] in *. unfold id in *. subst.
    erewrite dbind_ok by (apply at1_ok; eassumption). rewrite dbind_modify. unfold advance. rewrite dbind_modify.
    eexists. split; [reflexivity|]. repeat split; reflexivity.
Qed.

Definition insn_sizeflag (n : insn) : Z := if in_data n then AFLAG else Z.lor AFLAG DFLAG.
Definition lock_used (n : insn) : Z := if in_lock n then PREFIX_LOCK else 0.

(** The state in which the prefixes are printed. *)
Record fresh_text (n : insn) (s : dis_state) : Prop := {
  ft_syn : syn s = att_syntax;
  ft_prefixes : prefixes s = insn_prefixes n;
  ft_used : used_prefixes s = 0;
  ft_obufp : obufp s = (Obuf, 0%nat) }.

Lemma mnem_id s p : obufp s = (Obuf, p) -> s = mnem (obuf s) p s.
Proof. intros E. unfold mnem. rewrite <- E. destruct s; reflexivity. Qed.

Lemma used_eta s : s = set_used_prefixes (used_prefixes s) s.
Proof. destruct s. reflexivity. Qed.

Lemma text_eta n s : fresh_text n s ->
  s = mnem (obuf s) 0 (set_syn att_syntax (set_prefixes (insn_prefixes n) (set_used_prefixes 0 s))).
Proof. intros [<- <- <- E]. unfold mnem. rewrite <- E. destruct s; reflexivity. Qed.

Lemma print_prefixes_ok n oc dp s : fresh_text n s -> plain_opcode oc dp -> di_op dp 2 = (None, 0) ->
  exists o p, print_prefixes oc (Z.lor AFLAG DFLAG) s
              = Ok (insn_sizeflag n, mnem o p (set_used_prefixes (lock_used n) s)).
Proof.
  intros F (Ed & Dd & Ld) H2. rewrite (text_eta n s F).
  unfold insn_prefixes, insn_sizeflag, lock_used, print_prefixes.
  rewrite Ed, Dd, Ld, H2. generalize (oc_repz oc) (oc_repnz oc). intros rz rn. clear. destruct s.
  destruct (in_lock n), (in_data n), rz, rn; do 2 eexists; lazy; reflexivity.
Qed.

(** The mod/rm byte is read into its fields. *)
Definition with_modrm (x : Z) (s : dis_state) : dis_state :=
  set_modrm_rm (Z.land x 7) (set_modrm_reg (Z.land (Z.shiftr x 3) 7) (set_modrm_mod (Z.land (Z.shiftr x 6) 3) s)).

Lemma with_modrm_is x s : is_byte x -> modrm_is (with_modrm x s) x.
Proof.
  intros [H0 H1]. unfold modrm_is. cbn. rewrite !land7, land3, !shiftr_div by lia.
  change (2 ^ 3) with 8. change (2 ^ 6) with 64.
  rewrite (Z.mod_small (x / 64) 4) by (split; [apply Z.div_pos | apply (Z.div_lt_upper_bound x 64 4)]; lia).
  auto.
Qed.

Lemma read_modrm_ok oc dp t s x : plain_opcode oc dp -> di_name dp = Some t -> need_modrm s = true ->
  the_buffer s !! codep s = Some (Some x) -> read_modrm oc s = Ok (dp, with_modrm x s).
Proof.
  intros (E & _ & _) Ht Hn Hx. unfold read_modrm, is_three_byte. rewrite dbind_gets, E, Ht, Hn.
  rewrite (dbind_ok _ _ _ _ _ (peek_at s x Hx)). unfold modrm_from. rewrite dbind_modify. reflexivity.
Qed.

(** The mnemonic is padded; the operands are handed out in reverse. *)
Lemma pad_mnemonic_ok s : exists o p, pad_mnemonic s = Ok (tt, mnem o p s).
Proof. do 2 eexists. reflexivity. Qed.

Lemma operand_text_kept s l i : texts_kept s -> operand_text s l i = default EmptyString (l !! i).
Proof.
  intros K. unfold operand_text. cbv zeta.
  destruct (String.eqb_spec (default EmptyString (l !! i)) EmptyString) as [E|_]; [congruence|].
  destruct (K i) as [->|N]; [reflexivity|].
  rewrite (proj2 (Z.eqb_neq _ _) N), andb_false_r. reflexivity.
Qed.

Lemma export_operands_ok s a b c d : syn s = att_syntax -> two_source_ops s = false -> texts_kept s ->
  op_out s = [a; b; c; d] -> export_operands s = Ok (Some <$> [d; c; b; a], s).
Proof.
  intros Hy Ht K Ho. unfold export_operands, intel. rewrite !dbind_gets, Hy, Ht.
  cbn [intel_syntax att_syntax orb]. rewrite dbind_ret, dbind_gets, Ho.
  cbn [map seq MAX_OPERANDS]. rewrite !operand_text_kept by exact K. reflexivity.
Qed.

Lemma no_leftover n k : (in_data n = true -> Z.land k PREFIX_DATA = Z.land (insn_prefixes n) PREFIX_DATA) ->
  Z.land (insn_prefixes n) (Z.lnot (Z.lor (lock_used n) k)) = 0.
Proof.
  intros H. apply Z.bits_inj'. intros j Hj. rewrite Z.land_spec, Z.lnot_spec, Z.lor_spec, Z.bits_0 by lia.
  unfold insn_prefixes, lock_used in *. rewrite Z.lor_spec.
  destruct (in_data n).
  - apply (f_equal (fun z => Z.testbit z j)) in H; [|reflexivity]. rewrite !Z.land_spec, Z.lor_spec in H.
    destruct (Z.testbit (if in_lock n then PREFIX_LOCK else 0) j) eqn:E1, (Z.testbit PREFIX_DATA j) eqn:E2,
      (Z.testbit k j); try reflexivity; cbn in *; congruence.
  - rewrite Z.bits_0, orb_false_r. destruct (Z.testbit _ j); reflexivity.
Qed.

(** ** The instruction as a whole *)

(** The state in front of the opcode. *)
Record opened (n : insn) (s : dis_state) : Prop := {
  op_at : at_opcode n s;
  op_text : fresh_text n s;
  op_fetch : fetch s = false;
  op_mode : address_mode s = mode_64bit;
  op_rex : rex s = insn_rex n;
  op_slots : op_out s = replicate MAX_OPERANDS EmptyString;
  op_noindex : op_index s = replicate MAX_OPERANDS (-1);
  op_rip : length (op_riprel s) = MAX_OPERANDS;
  op_two : two_source_ops s = false }.

(** A memory operand that fits into the bytes read; the operand-size prefix is
    used by the instruction. *)
Record mem_insn (n : insn) (f : form) : Prop := {
  mi_ok : insn_ok n;
  mi_mem : isa_mod (insn_operand n) <> 3;
  mi_fits : (modrm_at n + isa_length (insn_operand n) <= 15)%nat;
  mi_data : in_data n = true -> form_mode f = v_mode }.

Definition insn_b (n : insn) : bool := bits (insn_rex n) REX_B.
Definition insn_x (n : insn) : bool := bits (insn_rex n) REX_X.
Definition insn_text (n : insn) : string :=
  ea_text (isa_mod (insn_operand n)) (isa_ea (insn_operand n) (insn_b n) (insn_x n)).
Definition insn_size (n : insn) : Z := Z.of_nat (modrm_at n + isa_length (insn_operand n)).

Lemma insn_byte_ok n j : insn_ok n -> is_byte (insn_operand n j).
Proof.
  intros H. unfold insn_operand. destruct (decide (j < length (in_rest n))%nat) as [L|L].
  - assert (A : Forall is_byte (in_rest n)).
    { pose proof (io_bytes n H) as B. unfold insn_bytes in B. rewrite !Forall_app in B. apply B. }
    rewrite List.Forall_forall in A. apply A, nth_In, L.
  - rewrite nth_overflow by lia. split; cbn; lia.
Qed.

Lemma insn_op_byte n : insn_ok n -> is_byte (in_op n).
Proof.
  intros H. pose proof (io_bytes n H) as B. unfold insn_bytes, opcode_bytes in B.
  rewrite !Forall_app in B. destruct B as (_ & B & _). destruct (in_two n); rewrite !Forall_cons in B; apply B.
Qed.

(** Mnemonic text and mod/rm fields are no concern of [ready]'s other conditions. *)
Lemma ready_mnem sf b o p s : ready sf b s -> ready sf b (mnem o p s).
Proof. intros [[? ? ? ?] ? ? ? ? ? ? ? ? ? ?]. destruct s. constructor; try assumption. constructor; assumption. Qed.

Lemma ready_with_modrm sf b s :
  fetch s = false -> address_mode s = mode_64bit -> bytes_at s b (isa_length b) ->
  op_out s = replicate MAX_OPERANDS EmptyString -> op_index s = replicate MAX_OPERANDS (-1) ->
  length (op_riprel s) = MAX_OPERANDS -> syn s = att_syntax -> need_modrm s = true -> isa_mod b <> 3 ->
  bits (prefixes s) SEG_PREFIXES = false -> bits sf AFLAG = true -> is_byte (b 0%nat) -> is_byte (b 1%nat) ->
  ready sf b (with_modrm (b 0%nat) s).
Proof.
  intros. pose proof (with_modrm_is (b 0%nat) s ltac:(assumption)). destruct s.
  constructor; try assumption. constructor; assumption.
Qed.

(** At the operands: the state after opcode, prefixes and mod/rm byte. *)
Lemma opened_ready n f s : opened n s -> mem_insn n f -> forall o p,
  ready (insn_sizeflag n) (insn_operand n) (with_modrm (insn_operand n 0)
    (mnem o p (set_used_prefixes (lock_used n) (set_need_modrm true (adv (length (opcode_bytes n)) s))))).
Proof.
  intros [[Hb Hc Hp] [Hy _ _ _] Hf Hm Hx Ho Hi Hr Ht] [Hn H3 Hl _] o p.
  assert (B : forall j, (j < isa_length (insn_operand n))%nat ->
            the_buffer s !! (codep s + length (opcode_bytes n) + j)%nat = Some (Some (insn_operand n j))).
  { intros j Hj. rewrite Hb, Hc. apply insn_buffer_at, (insn_byte_rest n j). rewrite (io_length n Hn). lia. }
  destruct s. apply ready_with_modrm; try assumption; try apply (insn_byte_ok n _ Hn); try reflexivity.
  - intros j Hj. split; [apply (B j Hj) | apply (insn_byte_ok n _ Hn)].
  - cbn in *. rewrite Hp. unfold insn_prefixes. destruct (in_lock n), (in_data n); reflexivity.
  - unfold insn_sizeflag. destruct (in_data n); reflexivity.
Qed.

Lemma decode_insn_ok n s f me : opened n s -> mem_insn n f ->
  opcode_form (in_two n) (in_op n) = Some (f, me) ->
  exists x s', percent x /\
    decode_insn s = Ok (insn_size n, Some <$> rev (form_out f (insn_text n) x), s').
Proof.
  intros O M F. pose proof M as [Hn H3 Hl Hd]. pose proof (insn_op_byte n Hn) as Bo.
  pose proof (opcode_form_regular _ _ _ Bo F) as R. unfold opcode_form in F.
  destruct (entry (in_two n) (in_op n)) as [dp|] eqn:En; [|discriminate].
  apply entry_form_inv in F as (t & Edp & Pt & Gm).
  assert (Nm : di_name dp = Some t) by (rewrite Edp; reflexivity).
  assert (D2 : di_op dp 2 = (None, 0)) by (rewrite Edp; destruct f; reflexivity).
  destruct (fetch_opcode_ok n s dp t (op_at _ _ O) En Nm R Bo) as (oc & E1 & Po).
  set (s1 := set_need_modrm true (adv (length (opcode_bytes n)) s)) in *.
  assert (F1 : fresh_text n s1) by (destruct O as [_ [? ? ? ?]]; constructor; assumption).
  destruct (print_prefixes_ok n oc dp s1 F1 Po D2) as (o & p & E2).
  set (s2 := set_used_prefixes (lock_used n) s1) in *.
  assert (Bm : the_buffer (mnem o p s2) !! codep (mnem o p s2) = Some (Some (insn_operand n 0))).
  { destruct O as [[Hb Hc _] _ _ _ _ _ _ _ _]. cbn. rewrite Hb, Hc. apply insn_buffer_at.
    pose proof (insn_byte_rest n 0) as I. unfold modrm_at in I, Hl. rewrite Nat.add_0_r in I. apply I.
    rewrite (io_length n Hn). pose proof (isa_length_pos (insn_operand n)). lia. }
  pose proof (read_modrm_ok oc dp t (mnem o p s2) _ Po Nm eq_refl Bm) as E3.
  pose proof (opened_ready n f s O M o p) as Rd. fold s1 s2 in Rd.
  set (s3 := with_modrm (insn_operand n 0) s2).
  assert (Es : with_modrm (insn_operand n 0) (mnem o p s2) = mnem o p s3) by reflexivity.
  rewrite Es in E3, Rd. clear Es.
  destruct (putop_loop_plain t (S (String.length t)) (insn_sizeflag n) o p s3 Pt) as (o' & p' & E4);
    [unfold insn_sizeflag; destruct (in_data n); reflexivity | lia |].
  apply (ready_mnem _ _ o' p') in Rd. rewrite mnem_mnem in Rd.
  destruct (print_operands_ok _ _ _ f me (Some t) Rd Gm) as (s5 & E5 & [(x & Px & Po5) Pc Pk Py Pw Pp (k & Pu & Pd)]).
  destruct (pad_mnemonic_ok s5) as (o6 & p6 & E6).
  exists x. eexists. split; [exact Px|].
  unfold decode_insn. rewrite (dbind_ok _ _ _ _ _ E1), (dbind_ok _ _ _ _ _ E2), (dbind_ok _ _ _ _ _ E3).
  unfold resolve_entry at 1. rewrite Nm, dbind_ret. rewrite Nm.
  change (putop (Some t)) with (putop_loop (S (String.length t)) t false). rewrite (dbind_ok _ _ _ _ _ E4).
  cbn [negb when]. rewrite Edp, (dbind_ok _ _ _ _ _ E5), dbind_gets, Pp, Pu.
  assert (Pn : prefixes (mnem o' p' s3) = insn_prefixes n) by apply (ac_prefixes _ _ (op_at _ _ O)).
  assert (Un : used_prefixes (mnem o' p' s3) = lock_used n) by reflexivity.
  rewrite Pn, Un, no_leftover by (intros D; rewrite Pd, Pn by (apply Hd, D); reflexivity).
  cbn [Z.eqb negb]. rewrite (dbind_ok _ _ _ _ _ E6).
  assert (Rx : rex (mnem o' p' s3) = insn_rex n) by apply (op_rex _ _ O).
  unfold rex_b, rex_x in Po5. rewrite Rx in Po5. fold (insn_b n) (insn_x n) (insn_text n) in Po5.
  assert (Out : export_operands (mnem o6 p6 s5) = Ok (Some <$> rev (form_out f (insn_text n) x), mnem o6 p6 s5)).
  { assert (Hy : syn s5 = att_syntax) by (rewrite Py; apply (ft_syn _ _ (op_text _ _ O))).
    assert (Hw : two_source_ops s5 = false) by (rewrite Pw; apply (op_two _ _ O)).
    destruct f; cbn [form_out] in *; apply export_operands_ok; assumption. }
  rewrite (dbind_ok _ _ _ _ _ Out), dbind_gets. unfold dret. do 3 f_equal.
  change (codep (mnem o6 p6 s5)) with (codep s5). rewrite Pc.
  change (codep (mnem o' p' s3)) with (codep s + length (opcode_bytes n))%nat.
  rewrite (ac_codep _ _ (op_at _ _ O)). reflexivity.
Qed.

Lemma first_opcode_facts n : opcode_regular (in_two n) (in_op n) = true ->
  classify_prefix (first_opcode n) = PNone /\ (first_opcode n =? 0xc4) = false /\
  (first_opcode n =? 0xc5) = false /\ (first_opcode n =? 0x62) = false /\ (first_opcode n =? 0xc8) = false.
Proof.
  unfold opcode_regular, first_opcode. destruct (in_two n); [intros _; repeat split|].
  intros H. bool_props. cbn [existsb] in *. bool_props.
  destruct (classify_prefix (in_op n)); try discriminate.
  repeat split; apply Z.eqb_neq; assumption.
Qed.

Lemma insn_first_byte n : insn_bytes n !! length (prefix_bytes n) = Some (first_opcode n).
Proof.
  pose proof (insn_byte_op n 0 (first_opcode n)) as H. rewrite Nat.add_0_r in H. apply H.
  unfold opcode_bytes, first_opcode. destruct (in_two n); reflexivity.
Qed.

Lemma ckvexprefix_none s b : fetch s = false -> address_mode s = mode_64bit ->
  the_buffer s !! codep s = Some (Some b) -> (b =? 0xc4) = false -> (b =? 0xc5) = false ->
  ckvexprefix s = Ok (tt, s).
Proof.
  intros Hf Hm Hb H4 H5. unfold ckvexprefix. rewrite !dbind_gets, Hm, (dbind_ok _ _ _ _ _ (fetch_off 1 s Hf)).
  rewrite (dbind_ok _ _ _ _ _ (peek_at s b Hb)), H4, H5. reflexivity.
Qed.

(** The state in front of the opcode, with the variables [disas_get_mem] sets there. *)
Definition scanned (n : insn) (s : dis_state) : dis_state :=
  set_codep (length (prefix_bytes n)) (set_rex (insn_rex n) (set_prefixes (insn_prefixes n)
  (set_rex_used 0 (set_used_prefixes 0 s)))).
Definition at_insn (n : insn) (s : dis_state) : dis_state :=
  set_two_source_ops false (set_insn_codep (length (prefix_bytes n)) (scanned n s)).

(** What [init_insn] establishes. *)
Record initialised (n : insn) (s : dis_state) : Prop := {
  ii_buffer : the_buffer s = insn_buffer n;
  ii_fetch : fetch s = false;
  ii_mode : address_mode s = mode_64bit;
  ii_syn : syn s = att_syntax;
  ii_out : op_out s = replicate MAX_OPERANDS EmptyString;
  ii_index : op_index s = replicate MAX_OPERANDS (-1);
  ii_codep : codep s = 0%nat;
  ii_obufp : obufp s = (Obuf, 0%nat);
  ii_riprel : length (op_riprel s) = MAX_OPERANDS }.

Lemma init_initialised pc n s : insn_ok n -> length (op_riprel s) = MAX_OPERANDS ->
  initialised n (init_insn pc (insn_bytes n) s).
Proof. intros Hn Hr. split; try reflexivity; [apply init_buffer, Hn | exact Hr]. Qed.

Lemma at_insn_opened n s : initialised n s -> opened n (at_insn n s).
Proof.
  intros []. destruct s. cbn in *. constructor; try assumption; try reflexivity; constructor; cbn; assumption || reflexivity.
Qed.

Lemma ckprefix_ok n s : insn_ok n -> initialised n s -> classify_prefix (first_opcode n) = PNone ->
  ckprefix s = Ok (tt, scanned n s).
Proof.
  intros Hn [Hb Hf Hm _ _ _ Hc _ _] C. unfold ckprefix. rewrite dbind_modify.
  change (S MAX_MNEM_SIZE) with 17%nat.
  rewrite (ckprefix_scan n) by (destruct s; first [exact Hn | exact C | exact Hb | exact Hc | exact Hf | exact Hm | reflexivity]).
  destruct s. reflexivity.
Qed.

(** From the scanned prefixes to the opcode. *)
Lemma disas_after_scan n s r : initialised n s ->
  classify_prefix (first_opcode n) = PNone /\ (first_opcode n =? 0xc4) = false /\
  (first_opcode n =? 0xc5) = false /\ (first_opcode n =? 0x62) = false /\ (first_opcode n =? 0xc8) = false ->
  decode_insn (at_insn n s) = r ->
  after_scan (scanned n s) = r.
Proof.
  intros [Hb Hf Hm _ _ _ _ _ _] (C & N4 & N5 & N62 & Nc8) <-.
  assert (Pk : the_buffer s !! length (prefix_bytes n) = Some (Some (first_opcode n)))
    by (rewrite Hb; apply insn_buffer_at, insn_first_byte).
  unfold at_insn, after_scan. set (s1 := scanned n s).
  assert (P1 : the_buffer s1 !! codep s1 = Some (Some (first_opcode n))) by (destruct s; exact Pk).
  assert (Fw : bits (prefixes s1) PREFIX_FWAIT = false)
    by (destruct s; unfold s1, scanned, insn_prefixes; cbn; destruct (in_lock n), (in_data n); reflexivity).
  assert (Hu : rex_used s1 = 0) by (destruct s; reflexivity).
  assert (Hc : codep s1 = length (prefix_bytes n)) by (destruct s; reflexivity).
  rewrite (dbind_ok _ _ _ _ _ (ckvexprefix_none s1 (first_opcode n)
            ltac:(destruct s; exact Hf) ltac:(destruct s; exact Hm) P1 N4 N5)), dbind_modify, Hc.
  clearbody s1. set (s2 := set_insn_codep _ s1).
  assert (P2 : the_buffer s2 !! codep s2 = Some (Some (first_opcode n))) by (destruct s1; exact P1).
  rewrite (dbind_ok _ _ _ _ _ (peek_at s2 _ P2)), N62, Nc8, dbind_modify. cbn [orb].
  unfold prefix. rewrite !dbind_gets.
  assert (F2 : bits (prefixes (set_two_source_ops false s2)) PREFIX_FWAIT = false) by (destruct s1; exact Fw).
  assert (U2 : rex_used (set_two_source_ops false s2) = 0) by (destruct s1; exact Hu).
  rewrite F2, U2. cbn [andb Z.eqb negb]. rewrite andb_false_r. reflexivity.
Qed.

Lemma disas_get_mem_ok pc n s f me : length (op_riprel s) = MAX_OPERANDS -> mem_insn n f ->
  opcode_form (in_two n) (in_op n) = Some (f, me) ->
  exists x s', percent x /\
    disas_get_mem pc (insn_bytes n) s = Ok (insn_size n, Some <$> rev (form_out f (insn_text n) x), s').
Proof.
  intros Hr M F. pose proof (mi_ok _ _ M) as Hn.
  pose proof (first_opcode_facts n (opcode_form_regular _ _ _ (insn_op_byte n Hn) F)) as N.
  pose proof (init_initialised pc n s Hn Hr) as I.
  destruct (decode_insn_ok n _ f me (at_insn_opened n _ I) M F) as (x & s' & Px & E).
  exists x, s'. split; [exact Px|]. rewrite disas_split.
  rewrite (dbind_ok _ _ _ _ _ (ckprefix_ok n _ Hn I (proj1 N))). exact (disas_after_scan n _ _ I N E).
Qed.

(** ** The recorded access *)

(** The address the processor accesses. *)
Definition insn_address (n : insn) (r : kvm_regs) : Z :=
  isa_address (insn_operand n) (insn_b n) (insn_x n) r (rip r + insn_size n).

(** The instruction at rip is [n], and its operand is one that can be evaluated. *)
Record at_rip (phys_read : Z -> nat -> list Z) (n : insn) (f : form) (r : kvm_regs) : Prop := {
  rip_bytes : phys_read (get_phys_addr (rip r)) 15%nat = insn_bytes n;
  rip_mem : mem_insn n f;
  rip_form : exists me, opcode_form (in_two n) (in_op n) = Some (f, me);
  rip_eval : evaluable (insn_operand n) (insn_b n) (insn_x n) = true;
  rip_regs : regs_ok r }.

Lemma insn_text_value n f r : mem_insn n f -> evaluable (insn_operand n) (insn_b n) (insn_x n) = true ->
  regs_ok r -> get_mem_addr (insn_text n) r (insn_size n) = Ok (insn_address n r).
Proof.
  intros M Ev R. destruct (evaluable_ok _ _ _ Ev) as [Hb Hs]. destruct M as [Hn H3 _ _].
  unfold insn_text, insn_address.
  rewrite get_mem_addr_ea, isa_ea_value by (try apply isa_ea_wf; try apply (insn_byte_ok n _ Hn); assumption).
  reflexivity.
Qed.

Lemma get_mem_addr_percent x r k : percent x -> get_mem_addr x r k = Ok 0.
Proof. intros (t & ->). reflexivity. Qed.

(** The first operand of the printed order with an address. *)
Lemma scan_form f t x r k a : percent x -> get_mem_addr t r k = Ok a -> a <> 0 ->
  scan_operands 0 (Some <$> rev (form_out f t x)) r k
  = Ok (Some (match f with MemFirst _ => 3%nat | MemSecond _ => 2%nat end, a)).
Proof.
  intros Px Et Ha. apply Z.eqb_neq in Ha.
  assert (E0 : get_mem_addr EmptyString r k = Ok 0) by reflexivity.
  destruct f; cbn [form_out rev app fmap list_fmap scan_operands of_option rbind];
    rewrite !E0; cbn [rbind negb Z.eqb];
    rewrite ?(get_mem_addr_percent x r k Px); cbn [rbind negb Z.eqb]; rewrite Et; cbn [rbind]; rewrite Ha; reflexivity.
Qed.

(** The access CPU [i] is recorded with. *)
Definition recorded (f : form) (i : bool) (a : Z) (g : race_globals) : race_globals :=
  match f with MemFirst _ => set_access i a 0 g | MemSecond _ => set_access i 0 a g end.

Lemma locate_access_ok phys_read i r g n f : at_rip phys_read n f r -> dis_wf (dis g) ->
  insn_address n r <> 0 ->
  exists d, dis_wf d /\ locate_access phys_read i r g = Ok (recorded f i (insn_address n r) (set_dis d g)).
Proof.
  intros [Hb M (me & F) Ev R] W Ha. unfold locate_access. rewrite Hb.
  destruct (disas_get_mem_ok (rip r) n (dis g) f me (proj2 W) M F) as (x & d & Px & E).
  pose proof (disas_get_mem_safe (rip r) (insn_bytes n) (dis g) W ltac:(rewrite (io_length _ (mi_ok _ _ M)); lia)) as T.
  rewrite E in T. exists d. split; [exact T|]. rewrite E. cbn [rbind fst snd].
  rewrite (scan_form f _ x r _ _ Px (insn_text_value n f r M Ev R) Ha). destruct f; reflexivity.
Qed.

(** C3: the access recorded for a whole instruction: for every opcode whose entry is
    a plain mnemonic with a memory operand and a general register, with any of the lock and
    REX prefixes, and the operand-size prefix where the operand has its size from it, no other
    prefix, a memory operand whose base register is not %r8 or %r9 and that has no scale
    without an index register, and an effective address other than 0, [locate_access] decodes
    the bytes at rip and records the effective address of the processor; as written when the
    memory operand comes last in the printed order, as read otherwise. *)
Theorem access_recorded phys_read i r g n f : at_rip phys_read n f r -> dis_wf (dis g) ->
  insn_address n r <> 0 ->
  exists g', locate_access phys_read i r g = Ok g' /\
    sel i (writing_addr g') = (match f with MemFirst _ => insn_address n r | MemSecond _ => 0 end) /\
    sel i (reading_addr g') = (match f with MemFirst _ => 0 | MemSecond _ => insn_address n r end) /\
    sel (negb i) (writing_addr g') = sel (negb i) (writing_addr g) /\
    sel (negb i) (reading_addr g') = sel (negb i) (reading_addr g).
Proof.
  intros A W Ha. destruct (locate_access_ok phys_read i r g n f A W Ha) as (d & _ & E).
  eexists. split; [exact E|]. destruct f, i; repeat split; reflexivity.
Qed.

(** lock xadd %eax,0x10(%rbx,%rcx,4): f0 0f c1 44 8b 10, and nops. *)
Definition sample_xadd : insn := mk_insn true false None true 0xc1 ([0x44; 0x8b; 0x10] ++ replicate 9 0x90).
Definition sample_xadd_regs : kvm_regs :=
  mk_kvm_regs 1 0xffff880012340000 3 0 0 0 0 0 0 0 0 0 0 0 0 0 0xffffffff81001000 0.
Definition sample_globals : race_globals :=
  mk_rg (mk2 PHASE_UNREACHED PHASE_UNREACHED) 0 (mk2 0 0) (mk2 0 0) (mk2 0 0) (mk2 STATUS_READY STATUS_READY)
    (mk2 false false) dis_init.

Ltac check_bytes := repeat first [apply Forall_nil_2 | apply Forall_cons_2; [split; vm_compute; congruence|]].

Ltac sample_at_rip :=
  constructor; [reflexivity | | exists v_mode; reflexivity | reflexivity |
                repeat constructor; vm_compute; congruence];
  constructor; [| vm_compute; congruence | vm_compute; lia | reflexivity];
  constructor; [reflexivity | vm_compute insn_bytes; check_bytes | exact I].

Lemma sample_xadd_at_rip : at_rip (fun _ _ => insn_bytes sample_xadd) sample_xadd (MemFirst v_mode) sample_xadd_regs.
Proof. sample_at_rip. Qed.

Lemma access_recorded_witness :
  exists g', locate_access (fun _ _ => insn_bytes sample_xadd) false sample_xadd_regs sample_globals = Ok g' /\
    e0 (writing_addr g') = 0xffff88001234001c /\ e0 (reading_addr g') = 0.
Proof.
  destruct (access_recorded (fun _ _ => insn_bytes sample_xadd) false sample_xadd_regs sample_globals sample_xadd
    (MemFirst v_mode) sample_xadd_at_rip ltac:(split; reflexivity) ltac:(vm_compute; congruence)) as (g' & E & Hw & Hr & _).
  exists g'. split; [exact E|]. split; [exact Hw | exact Hr].
Defined.

(** ** Compares *)

(** cmp and test with their memory operand first: the processor only reads it. *)
Definition compares (n : insn) : bool :=
  negb (in_two n) && existsb (Z.eqb (in_op n)) [0x38; 0x39; 0x84; 0x85].

Lemma compares_form n f me : compares n = true -> opcode_form (in_two n) (in_op n) = Some (f, me) ->
  exists m, f = MemFirst m.
Proof.
  unfold compares. intros [Ht H]%andb_prop. apply negb_true_iff in Ht. rewrite Ht.
  apply existsb_exists in H as (o & Ho & ->%Z.eqb_eq). cbn in Ho.
  repeat destruct Ho as [<-|Ho]; try contradiction; intros [= <- _]; eauto.
Qed.

(** Two compares of one address are taken for a conflict although neither CPU
    writes: the memory operand of cmp and test is the last one printed, and
    wait_race takes the last operand for the one written. *)
Theorem two_compares_conflict phys_read r0 r1 g n0 n1 f0 f1 :
  at_rip phys_read n0 f0 r0 -> at_rip phys_read n1 f1 r1 -> dis_wf (dis g) ->
  compares n0 = true -> compares n1 = true ->
  insn_address n0 r0 <> 0 -> insn_address n1 r1 = insn_address n0 r0 ->
  exists g1 g2, locate_access phys_read false r0 g = Ok g1 /\ locate_access phys_read true r1 g1 = Ok g2 /\
    (is_same_address g2).1 = true.
Proof.
  intros A0 A1 W C0 C1 Ha E.
  destruct (rip_form _ _ _ _ A0) as (m0 & F0). destruct (compares_form _ _ _ C0 F0) as (k0 & ->).
  destruct (rip_form _ _ _ _ A1) as (m1 & F1). destruct (compares_form _ _ _ C1 F1) as (k1 & ->).
  destruct (locate_access_ok phys_read false r0 g n0 _ A0 W Ha) as (d0 & W0 & E0).
  destruct (locate_access_ok phys_read true r1 (recorded (MemFirst k0) false (insn_address n0 r0) (set_dis d0 g))
              n1 _ A1 W0 ltac:(rewrite E; exact Ha)) as (d1 & _ & E1).
  do 2 eexists. split; [exact E0|]. split; [exact E1|]. rewrite E.
  unfold is_same_address, nz_eq. cbn. rewrite (proj2 (Z.eqb_neq _ _) Ha), Z.eqb_refl. reflexivity.
Qed.

(** cmp %ecx,0x10(%rbx) *)
Definition sample_cmp : insn := mk_insn false false None false 0x39 ([0x4b; 0x10] ++ replicate 12 0x90).

Lemma sample_cmp_at_rip : at_rip (fun _ _ => insn_bytes sample_cmp) sample_cmp (MemFirst v_mode) sample_xadd_regs.
Proof. sample_at_rip. Qed.

Lemma two_compares_conflict_witness :
  exists g1 g2, locate_access (fun _ _ => insn_bytes sample_cmp) false sample_xadd_regs sample_globals = Ok g1 /\
    locate_access (fun _ _ => insn_bytes sample_cmp) true sample_xadd_regs g1 = Ok g2 /\ (is_same_address g2).1 = true.
Proof.
  exact (two_compares_conflict (fun _ _ => insn_bytes sample_cmp) sample_xadd_regs sample_xadd_regs sample_globals
    sample_cmp sample_cmp (MemFirst v_mode) (MemFirst v_mode) sample_cmp_at_rip sample_cmp_at_rip
    ltac:(split; reflexivity) eq_refl eq_refl ltac:(vm_compute; congruence) eq_refl).
Defined.
