(* ===== verification/KvmExec.v ===== *)
(** * The execution loop of a virtual CPU (kvm-all.c, target-i386/kvm.c)

    One round of [kvm_cpu_exec] after [wait_race]: the registers a handler changed
    are written back, the guest runs, its registers are read, and the reason of the
    exit is dispatched; a debug exit that is Razzer's goes to the hypercall handlers.

    What the guest and the kernel do in KVM_RUN is the argument [guest_run].
    Synchronisation of QEMU's own copy of the registers ([cpu_synchronize_state],
    [kvm_arch_put_registers]) is a parameter. *)

From Stdlib Require Import ZArith Lia Bool.
From stdpp Require Import base list gmap sets.
From S2P Require Import Prelude MemOperand CpuState HwBreakpoint Hypercall.

Open Scope Z_scope.
Open Scope rz.

Definition EXCP_INTERRUPT : Z := 0x10000.
Definition EXCP_HLT : Z := 0x10001.
Definition EXCP_DEBUG : Z := 0x10002.
Definition BP_MEM_WRITE : Z := 2.
Definition BP_MEM_ACCESS : Z := 3.

(** struct kvm_debug_exit_arch *)
Record debug_exit_arch := mk_dea { dea_exception : Z; dea_pc : Z; dea_dr6 : Z; dea_dr7 : Z }.

Inductive system_event := EVENT_SHUTDOWN | EVENT_RESET | EVENT_CRASH | EVENT_OTHER.

(** The exits the loop distinguishes, with the data it looks at.  [EXIT_HLT] carries
    whether an interrupt can be delivered, [EXIT_INTERNAL_ERROR] whether it is an
    emulation failure and whether to stop on it. *)
Inductive kvm_exit :=
  | EXIT_IO | EXIT_MMIO | EXIT_IRQ_WINDOW_OPEN | EXIT_SHUTDOWN | EXIT_UNKNOWN
  | EXIT_INTERNAL_ERROR (emulation stop : bool)
  | EXIT_SYSTEM_EVENT (e : system_event)
  | EXIT_HLT (interruptible : bool)
  | EXIT_SET_TPR | EXIT_TPR_ACCESS | EXIT_FAIL_ENTRY | EXIT_EXCEPTION
  | EXIT_DEBUG (a : debug_exit_arch)
  | EXIT_OTHER.

(** One KVM_RUN: the guest's registers afterwards, the results of KVM_RUN and of
    KVM_GET_REGS, the exit, and the value rand () has if a handler asks for it. *)
Record guest_run := mk_run {
  gr_regs : kvm_regs; gr_ret : Z; gr_get_err : Z; gr_exit : kvm_exit; gr_rand : Z }.

(** ** Registers *)

(** The result of KVM_SET_REGS is not looked at by the code; here the ioctl is taken to succeed, so
    that the kernel has the registers that were handed to it. *)
Definition update_registers (c : CPUState) : CPUState :=
  if update_regs c then
    let c := match regs c with Some r => set_vcpu_regs r c | None => c end in
    set_regs None c
  else c.

Definition read_registers (err : Z) (c : CPUState) : res CPUState :=
  if err <? 0 then Err Panic
  else Ok (set_update_regs false (set_regs (Some (vcpu_regs c)) c)).

Section exec.
Context `{KVM}.
Variables (sw : bool) (HYPERCALL_ADDR : Z).
(** The global table, the addresses of software breakpoints, and the
    synchronisation of the registers. *)
Variables (hwg : hw_globals) (sw_breakpoint : Z -> bool).
Variables (cpu_synchronize_state kvm_arch_put_registers : CPUState -> CPUState).

(** ** Debug exits *)

(** The loop over the four breakpoints of debug register 6. *)
Fixpoint debug_loop (fuel n : nat) (a : debug_exit_arch) (ret : Z) (c : CPUState) : res (Z * CPUState) :=
  match fuel with
  | O => Ok (ret, c)
  | S fuel =>
      let k := Z.of_nat n in
      if bits (dea_dr6 a) (Z.shiftl 1 k) then
        let rw := Z.land (Z.shiftr (dea_dr7 a) (16 + k * 4)) 3 in
        if rw =? 0 then debug_loop fuel (S n) a EXCP_DEBUG c
        else if (rw =? 1) || (rw =? 3) then
          let? b := of_option OutOfBounds (hw_breakpoint hwg !! n) in
          debug_loop fuel (S n) a EXCP_DEBUG
            (set_watchpoint_hit (Some (bp_addr b, if rw =? 1 then BP_MEM_WRITE else BP_MEM_ACCESS)) c)
        else debug_loop fuel (S n) a ret c
      else debug_loop fuel (S n) a ret c
  end.

(** Whether the exception is the debugger's: EXCP_DEBUG or 0. *)
Definition debug_reason (c : CPUState) (a : debug_exit_arch) : res (Z * CPUState) :=
  if dea_exception a =? 1 then
    if bits (dea_dr6 a) (Z.shiftl 1 14)
    then Ok (if negb (singlestep_enabled c =? 0) then EXCP_DEBUG else 0, c)
    else debug_loop 4 0 a 0 c
  else Ok (if sw_breakpoint (dea_pc a) then EXCP_DEBUG else 0, c).

Definition kvm_handle_debug (c : CPUState) (a : debug_exit_arch) : res (Z * CPUState) :=
  let? (ret, c) := debug_reason c a in
  if ret =? 0 then
    let c := cpu_synchronize_state c in
    if negb (exception_injected c =? -1) then Err AssertFail
    else Ok (ret, set_has_error_code 0 (set_exception_injected (dea_exception a) c))
  else Ok (ret, c).

Definition kvm_handle_halt (interruptible : bool) : Z := if interruptible then 0 else EXCP_HLT.

Definition kvm_arch_handle_exit (c : CPUState) (e : kvm_exit) : res (Z * CPUState) :=
  match e with
  | EXIT_HLT i => Ok (kvm_handle_halt i, c)
  | EXIT_SET_TPR => Ok (0, c)
  | EXIT_TPR_ACCESS => Ok (1, cpu_synchronize_state c)
  | EXIT_FAIL_ENTRY | EXIT_EXCEPTION => Ok (-1, c)
  | EXIT_DEBUG a => kvm_handle_debug c a
  | _ => Ok (-1, c)
  end.

Definition kvm_handle_internal_error (emulation stop : bool) : Z :=
  if emulation && negb stop then EXCP_INTERRUPT else -1.

(** The switch over the exit reason. *)
Definition handle_exit (c : CPUState) (e : kvm_exit) : res (Z * CPUState) :=
  match e with
  | EXIT_IO | EXIT_MMIO => Ok (0, c)
  | EXIT_IRQ_WINDOW_OPEN | EXIT_SHUTDOWN => Ok (EXCP_INTERRUPT, c)
  | EXIT_UNKNOWN => Ok (-1, c)
  | EXIT_INTERNAL_ERROR em st => Ok (kvm_handle_internal_error em st, if em then cpu_synchronize_state c else c)
  | EXIT_SYSTEM_EVENT EVENT_SHUTDOWN | EXIT_SYSTEM_EVENT EVENT_RESET => Ok (EXCP_INTERRUPT, c)
  | EXIT_SYSTEM_EVENT EVENT_CRASH => Ok (0, c)
  | _ => kvm_arch_handle_exit c e
  end.

(** [if (ret == EXCP_DEBUG) ...] *)
Definition dispatch_hypercall (ret : Z) (c : CPUState) (g : race_globals) (rnd : Z) :
    res (Z * CPUState * race_globals) :=
  if ret =? EXCP_DEBUG then
    let '(type, c) := check_hypercall HYPERCALL_ADDR c in
    match type with
    | HYPERCALL_COMMAND =>
        let? (c, g) := handle_hypercall_command sw HYPERCALL_ADDR c g in Ok (0, c, g)
    | HYPERCALL_BREAKPOINT =>
        let? c := handle_hypercall_breakpoint sw c rnd in Ok (0, c, g)
    | HYPERCALL_UNEXPECTED => Err Panic
    | _ => Ok (ret, c, g)
    end
  else Ok (ret, c, g).

(** ** A round of the loop *)

(** From the return of [wait_race] to KVM_RUN; [exit] is whether kvm_arch_pre_run asks the
    thread to leave. *)
Definition enter_guest (exit : bool) (c : CPUState) : res CPUState :=
  let c := if kvm_vcpu_dirty c then set_kvm_vcpu_dirty false (kvm_arch_put_registers c) else c in
  let c := if exit then set_exit_request true c else c in
  if wait_race_flag c then Err AssertFail
  else Ok (update_registers c).

(** From KVM_RUN to the end of the round: the value of [ret]; the loop goes on when
    it is 0.  The call of [kvm_arch_post_run], which touches no field of this state, is part of
    [leave_x86] in [KvmRun]. *)
Definition leave_guest (c : CPUState) (g : race_globals) (gr : guest_run) :
    res (Z * CPUState * race_globals) :=
  let? c := read_registers (gr_get_err gr) (set_vcpu_regs (gr_regs gr) c) in
  if gr_ret gr <? 0 then
    Ok (if (gr_ret gr =? - EINTR) || (gr_ret gr =? - EAGAIN) then EXCP_INTERRUPT else -1, c, g)
  else
    let? (ret, c) := handle_exit c (gr_exit gr) in
    dispatch_hypercall ret c g (gr_rand gr).

End exec.

(** ** Facts *)

Section exec_facts.
Context `{KL : KVMLaws} (sw : bool) (HYPERCALL_ADDR : Z) (hwg : hw_globals) (sw_breakpoint : Z -> bool).
Variables (sync put : CPUState -> CPUState).

(** The stop is at an execution breakpoint: one of the bits 0..3 of debug register 6
    is set, and every breakpoint is one on execution, as the per-CPU tables make
    them. *)
Definition exec_stop (a : debug_exit_arch) : Prop :=
  dea_exception a = 1 /\ bits (dea_dr6 a) (Z.shiftl 1 14) = false /\
  (forall n, (n < 4)%nat -> Z.land (Z.shiftr (dea_dr7 a) (16 + Z.of_nat n * 4)) 3 = 0) /\
  exists n, (n < 4)%nat /\ bits (dea_dr6 a) (Z.shiftl 1 (Z.of_nat n)) = true.

Lemma debug_loop_exec fuel : forall n a ret c, (n + fuel = 4)%nat ->
  (forall k, (k < 4)%nat -> Z.land (Z.shiftr (dea_dr7 a) (16 + Z.of_nat k * 4)) 3 = 0) ->
  ret = EXCP_DEBUG \/ (exists k, (n <= k < 4)%nat /\ bits (dea_dr6 a) (Z.shiftl 1 (Z.of_nat k)) = true) ->
  debug_loop hwg fuel n a ret c = Ok (EXCP_DEBUG, c).
Proof.
  induction fuel as [|fuel IH]; intros n a ret c Hn Hrw Hk; cbn [debug_loop].
  - destruct Hk as [-> | (k & ? & _)]; [reflexivity | lia].
  - rewrite (Hrw n ltac:(lia)), Z.eqb_refl.
    destruct (bits (dea_dr6 a) (Z.shiftl 1 (Z.of_nat n))) eqn:E; apply IH; auto; try lia.
    destruct Hk as [-> | (k & ? & Hb)]; [auto|]. right. exists k. split; [|exact Hb].
    assert (k <> n) by congruence. lia.
Qed.

Lemma handle_exec_stop c a : exec_stop a ->
  kvm_handle_debug hwg sw_breakpoint sync c a = Ok (EXCP_DEBUG, c).
Proof.
  intros (He & Hb & Hrw & n & Hn & Hs). unfold kvm_handle_debug, debug_reason. rewrite He, Hb, Z.eqb_refl.
  rewrite debug_loop_exec; [reflexivity | reflexivity | exact Hrw | right; exists n; split; [lia | exact Hs]].
Qed.

(** The end of the round for a stop at an execution breakpoint. *)
Lemma leave_exec_stop c g gr a : 0 <= gr_get_err gr -> 0 <= gr_ret gr -> gr_exit gr = EXIT_DEBUG a -> exec_stop a ->
  leave_guest sw HYPERCALL_ADDR hwg sw_breakpoint sync c g gr
  = dispatch_hypercall sw HYPERCALL_ADDR EXCP_DEBUG
      (set_update_regs false (set_regs (Some (gr_regs gr)) (set_vcpu_regs (gr_regs gr) c))) g (gr_rand gr).
Proof.
  intros H1 H2 He Ha. unfold leave_guest, read_registers.
  rewrite (proj2 (Z.ltb_ge _ _) H1), (proj2 (Z.ltb_ge _ _) H2). cbn [rbind]. rewrite He.
  cbn [handle_exit kvm_arch_handle_exit]. rewrite handle_exec_stop by exact Ha. reflexivity.
Qed.
End exec_facts.

(** A round in which the guest executes the hypercall instruction. *)
Record hypercall_stop (hyp cmd : Z) (gr : guest_run) : Prop := {
  hs_get : 0 <= gr_get_err gr;
  hs_ret : 0 <= gr_ret gr;
  hs_exit : exists a, gr_exit gr = EXIT_DEBUG a /\ exec_stop a;
  hs_rip : rip (gr_regs gr) = hyp;
  hs_cmd : u32 (rbx (gr_regs gr)) = cmd;
  hs_tid : has_tid (gr_regs gr) }.

(** C29: the answer to CMD_END reaches the guest: after the round in which a running
    CPU stops at the hypercall instruction, the registers the guest resumes with are
    those of the stop with rip past the instruction and the verdict in rax.  The
    KVM_SET_REGS of [update_registers], whose result the code ignores, is taken to succeed. *)
Theorem verdict_reaches_guest `{KVMLaws} sw hyp hwg sb sync put exit c g gr :
  bps_ok c -> hypercall_stop hyp CMD_END gr -> sel (cpu_index c) (status g) = STATUS_RUNNING ->
  kvm_vcpu_dirty c = false -> wait_race_flag c = false ->
  exists c1 g1 c2, leave_guest sw hyp hwg sb sync c g gr = Ok (0, c1, g1) /\
    sel (cpu_index c) (status g1) = STATUS_READY /\
    enter_guest put exit c1 = Ok c2 /\
    vcpu_regs c2 = set_rax (u64 (is_race c)) (set_rip (u64 (hyp + 1)) (gr_regs gr)).
Proof.
  intros Hc [H1 H2 (a & He & Ha) Hr Hm Ht] Hs Hd Hw.
  rewrite (leave_exec_stop sw hyp hwg sb sync c g gr a H1 H2 He Ha).
  unfold dispatch_hypercall, check_hypercall. rewrite Z.eqb_refl. cbn [regs set_update_regs set_regs].
  rewrite Hr, Z.eqb_refl. cbv zeta. change (rbx (set_rip _ _)) with (rbx (gr_regs gr)). rewrite Hm.
  change ((CMD_END =? CMD_START) || (CMD_END =? CMD_END) || (CMD_END =? CMD_REFRESH)) with true. cbv iota.
  set (r1 := set_rip _ _). set (c0 := set_update_regs true _).
  rewrite (handle_command sw hyp c0 g r1 eq_refl) by exact Ht.
  change (rbx r1) with (rbx (gr_regs gr)). rewrite Hm. cbv zeta.
  change (CMD_END =? CMD_START) with false. change (CMD_END =? CMD_END) with true. cbv iota.
  destruct (bps_ok_ext c (set_guest_tid (tid_of r1) c0) eq_refl eq_refl Hc) as (O & _ & _).
  destruct (command_end_running sw _ g (mk_arg (rcx r1) CMD_END (u32 (rdx r1)) (u32 (rax r1))) r1 O eq_refl Hs)
    as (c1 & E & O1 & _ & _ & R1 & U1 & X1 & W1 & D1).
  rewrite E. cbn [rbind]. do 2 eexists. exists (update_registers (if exit then set_exit_request true c1 else c1)). split; [reflexivity|]. cbn in X1, W1, D1.
  split; [cbn; rewrite sel_upd, eqb_reflx; reflexivity|].
  unfold enter_guest. rewrite D1, Hd. destruct exit; cbn [wait_race_flag set_exit_request]; rewrite W1, Hw;
    (split; [reflexivity|]); unfold update_registers; cbn [update_regs regs set_exit_request]; rewrite U1, R1; reflexivity.
Qed.

(** A hypercall stop with command [cmd], and a CPU that runs a program. *)
Definition hcall_run (cmd : Z) : guest_run :=
  mk_run (call_regs cmd 0 0x81002000 0) 0 0 (EXIT_DEBUG (mk_dea 1 0xffffffff8117e7d1 1 0x602)) 0.

Lemma hcall_run_stop cmd : u32 cmd = cmd -> hypercall_stop 0xffffffff8117e7d1 cmd (hcall_run cmd).
Proof.
  intros Hc. constructor; [discriminate | discriminate | | reflexivity | exact Hc | vm_compute; discriminate].
  eexists. split; [reflexivity|]. repeat split.
  - intros [|[|[|[|n]]]] Hn; try reflexivity. lia.
  - exists 0%nat. split; [lia | reflexivity].
Qed.

Lemma verdict_reaches_guest_witness :
  exists c1 g1 c2, @leave_guest kvm_accepts false 0xffffffff8117e7d1 (mk_hwg [] 0) (fun _ => false) id
      (set_is_race 1 cpu_zero) (set_status false STATUS_RUNNING rg_zero) (hcall_run CMD_END) = Ok (0, c1, g1) /\
    enter_guest id false c1 = Ok c2 /\ rax (vcpu_regs c2) = 1 /\ rip (vcpu_regs c2) = 0xffffffff8117e7d2.
Proof.
  destruct (@verdict_reaches_guest kvm_accepts kvm_accepts_laws false 0xffffffff8117e7d1 (mk_hwg [] 0) (fun _ => false)
    id id false (set_is_race 1 cpu_zero) (set_status false STATUS_RUNNING rg_zero) (hcall_run CMD_END)
    (proj1 (bps_ok_ext cpu_zero (set_is_race 1 cpu_zero) eq_refl eq_refl cpu_zero_ok)) (hcall_run_stop CMD_END eq_refl) eq_refl eq_refl eq_refl)
    as (c1 & g1 & c2 & E1 & _ & E2 & V).
  exists c1, g1, c2. split; [exact E1|]. split; [exact E2|]. rewrite V. split; reflexivity.
Defined.

