(* ===== verification/RaceSched.v ===== *)
(** * Two virtual CPUs (hypercall.c, kvm-all.c)

    The threads of the two virtual CPUs run the loop of [kvm_cpu_exec] and meet in
    [wait_race].  The system is a transition relation over the states of both CPUs,
    the globals and the place where each thread is; a critical section under
    [qemu_race_mutex] is one step, the timed wait and the futex are places where a
    thread blocks.  A step exists only where the code does not end the process. *)

From Stdlib Require Import ZArith Lia Bool String.
From stdpp Require Import base list gmap sets relations.
From S2P Require Import Prelude MemOperand CpuState HwBreakpoint Hypercall KvmExec.

Open Scope Z_scope.
Open Scope rz.

(** ** What the handlers leave alone *)

Lemma reload_frame `{KVM} sw c r e c' :
  (forall e1 c1, r = Ok (e1, c1) -> same_but_bps c c1) ->
  reload_debug sw r = Ok (e, c') -> same_but_debug c c'.
Proof.
  intros Hr. unfold reload_debug. destruct r as [[e1 c1]|]; cbn [rbind]; [|discriminate].
  destruct (same_bps_debug c c1 (Hr e1 c1 eq_refl)) as (D2 & D3 & _).
  destruct (negb (e1 =? 0)); [intros [= _ <-]; exact D3|].
  destruct (kvm_arch_update_guest_debug _ _ _); cbn [rbind]; [|discriminate].
  unfold kvm_invoke_set_guest_debug. intros [= _ <-]. apply D2.
Qed.

Lemma same_but_bps_refl c : same_but_bps c c.
Proof. destruct c; reflexivity. Qed.

Lemma insert_frame `{KVM} sw c a e c' :
  kvm_insert_breakpoint_per_cpu sw c a = Ok (e, c') -> same_but_debug c c'.
Proof.
  apply reload_frame. intros e1 c1. unfold kvm_arch_insert_hw_breakpoint_per_cpu.
  destruct (_ =? 4)%nat; [intros [= _ <-]; apply same_but_bps_refl|].
  destruct (find_hw_breakpoint_per_cpu c a) as [[n|]|]; cbn [rbind]; [| | discriminate].
  - intros [= _ <-]. apply same_but_bps_refl.
  - destruct (table_add _ _ _); cbn [rbind]; [|discriminate]. intros [= _ <-]. reflexivity.
Qed.

Lemma remove_frame `{KVM} sw c a e c' :
  kvm_remove_breakpoint_per_cpu sw c a = Ok (e, c') -> same_but_debug c c'.
Proof.
  apply reload_frame. intros e1 c1. unfold kvm_arch_remove_hw_breakpoint_per_cpu.
  destruct (find_hw_breakpoint_per_cpu c a) as [[n|]|]; cbn [rbind]; [| | discriminate].
  - destruct (table_del _ _ _); cbn [rbind]; [|discriminate]. intros [= _ <-]. reflexivity.
  - intros [= _ <-]. apply same_but_bps_refl.
Qed.

Lemma update_frame `{KVM} sw c k e c' :
  kvm_update_guest_debug_per_cpu sw c k = Ok (e, c') -> same_but_debug c c'.
Proof.
  unfold kvm_update_guest_debug_per_cpu. destruct (kvm_arch_update_guest_debug _ _ _); cbn [rbind]; [|discriminate].
  unfold kvm_invoke_set_guest_debug. intros [= _ <-]. destruct c; reflexivity.
Qed.

Lemma remove_all_frame `{KVM} sw c c' :
  kvm_remove_all_breakpoints_per_cpu sw c = Ok c' -> same_but_debug c c'.
Proof.
  unfold kvm_remove_all_breakpoints_per_cpu. destruct (kvm_arch_update_guest_debug _ _ _); cbn [rbind]; [|discriminate].
  unfold kvm_invoke_set_guest_debug. intros [= <-]. destruct c; reflexivity.
Qed.

(** The identity of the CPU and the presence of its registers. *)
Definition same_self (c c' : CPUState) : Prop :=
  cpu_index c' = cpu_index c /\ (regs c <> None -> regs c' <> None).

#[export] Instance same_self_refl : Reflexive same_self.
Proof. intros c. split; auto. Qed.

#[export] Instance same_self_trans : Transitive same_self.
Proof. intros a b c [H1 H2] [H3 H4]. split; [congruence | auto]. Qed.

Lemma debug_self c c' : same_but_debug c c' -> same_self c c'.
Proof. intros D. use_same_debug D. split; congruence. Qed.

(** Globals that differ at most in CPU [i]'s phase, status and refresh flag. *)
Record same_races (i : bool) (g g' : race_globals) : Prop := {
  sr_phase : sel (negb i) (phase g') = sel (negb i) (phase g);
  sr_mine : sel i (phase g') = sel i (phase g) \/ sel i (phase g') = PHASE_UNREACHED;
  sr_go : can_go g' = can_go g;
  sr_w : writing_addr g' = writing_addr g;
  sr_r : reading_addr g' = reading_addr g }.

Lemma same_races_refl i g : same_races i g g.
Proof. constructor; auto. Qed.

Lemma same_races_set_status i j st g : same_races i g (set_status j st g).
Proof. constructor; auto. Qed.

Lemma command_frame `{KVM} sw hyp c g c' g' :
  handle_hypercall_command sw hyp c g = Ok (c', g') ->
  same_self c c' /\ same_races (cpu_index c) g g'.
Proof.
  unfold handle_hypercall_command, guest_gettid, get_command, nonzero_regs.
  cbn [regs set_guest_tid]. destruct (regs c) as [r|] eqn:Er; cbn [of_option rbind]; [|discriminate].
  destruct (_ =? 0); [discriminate|]. cbn [arg_cmd].
  set (c0 := set_guest_tid _ c). assert (S0 : same_self c c0) by (split; cbn; auto).
  set (arg := mk_arg _ _ _ _). assert (R0 : regs c0 = Some r) by exact Er.
  assert (X0 : cpu_index c0 = cpu_index c) by reflexivity. clearbody c0 arg.
  destruct (_ =? CMD_START); [|destruct (_ =? CMD_END); [|destruct (_ =? CMD_REFRESH); [|discriminate]]].
  - unfold hypercall_command_start, nonzero_regs, return_rax. rewrite R0. cbn [of_option rbind].
    destruct (sel (cpu_index c0) (status g)).
    + destruct (kvm_insert_breakpoint_per_cpu _ _ _) as [[e c1]|] eqn:E; cbn [rbind]; [|discriminate].
      intros [= <- <-]. apply insert_frame in E. apply debug_self in E as [E1 E2]. cbn in E1, E2. split.
      * split; cbn; [congruence | intros _; apply E2; congruence].
      * rewrite X0. constructor; cbn; rewrite ?sel_upd; auto.
        -- destruct (cpu_index c); reflexivity.
        -- rewrite eqb_reflx. auto.
    + intros [= <- <-]. split; [split; cbn; congruence | apply same_races_refl].
  - unfold hypercall_command_end, nonzero_regs, return_rax. rewrite R0. cbn [of_option rbind].
    destruct (sel (cpu_index c0) (status g)).
    + intros [= <- <-]. split; [split; cbn; congruence | apply same_races_refl].
    + destruct (kvm_remove_breakpoint_per_cpu _ _ _) as [[e c1]|] eqn:E; cbn [rbind]; [|discriminate].
      intros [= <- <-]. apply remove_frame in E. apply debug_self in E as [E1 E2]. split; [|apply same_races_set_status].
      split; cbn; [congruence|]. intros _. destruct (regs c1) eqn:Ec; [discriminate | exfalso; apply E2; congruence].
  - unfold hypercall_command_refresh, kvm_init_hypercall.
    destruct (kvm_remove_all_breakpoints_per_cpu _ _) as [c1|] eqn:E1; cbn [rbind]; [|discriminate].
    destruct (kvm_insert_breakpoint_per_cpu _ _ _) as [[e c2]|] eqn:E2; cbn [rbind]; [|discriminate].
    intros [= <- <-]. apply remove_all_frame, debug_self in E1. apply insert_frame, debug_self in E2.
    split; [|constructor; auto]. etrans; [exact S0|]. etrans; [|exact E2]. etrans; [|exact E1].
    split; cbn; auto.
Qed.

Lemma breakpoint_frame `{KVM} sw c rnd c' :
  handle_hypercall_breakpoint sw c rnd = Ok c' -> same_self c c'.
Proof.
  unfold handle_hypercall_breakpoint, guest_gettid, nonzero_regs.
  destruct (regs c) as [r|] eqn:Er; cbn [of_option rbind]; [|discriminate].
  destruct (_ =? 0); [discriminate|].
  destruct (negb (singlestep_enabled c =? 0)).
  - unfold breakpoint_step. cbv zeta. intros E.
    destruct (skipping _).
    + destruct (kvm_insert_breakpoint_per_cpu _ _ _) as [[e c1]|] eqn:E1; cbn [rbind] in E; [|discriminate].
      destruct (kvm_update_guest_debug_per_cpu _ _ _) as [[e2 c2]|] eqn:E2; cbn [rbind] in E; [|discriminate].
      injection E as <-. apply insert_frame, debug_self in E1. apply update_frame, debug_self in E2.
      destruct E1 as [A1 A2], E2 as [B1 B2]. cbn in *. split; [congruence | auto].
    + cbn [rbind] in E. destruct (kvm_update_guest_debug_per_cpu _ _ _) as [[e2 c2]|] eqn:E2; cbn [rbind] in E; [|discriminate].
      injection E as <-. apply update_frame, debug_self in E2. destruct E2 as [B1 B2]. cbn in *. split; [congruence | auto].
  - destruct (_ =? rip r); [|intros [= <-]; reflexivity].
    unfold breakpoint_hit. cbv zeta. set (p := if (_ =? _) && _ then _ else _).
    assert (P : same_self c p) by (unfold p; destruct (_ && _); split; cbn; auto). clearbody p.
    destruct (kvm_remove_breakpoint_per_cpu _ _ _) as [[e c1]|] eqn:E1; cbn [rbind]; [|discriminate].
    destruct (negb (e =? 0)); [discriminate|]. apply remove_frame, debug_self in E1.
    set (c2 := if negb (skipping c1) then _ else _).
    assert (C2 : same_self c c2) by (etrans; [exact P|]; etrans; [exact E1|]; unfold c2;
                                     destruct (skipping c1); split; cbn; auto). clearbody c2.
    destruct (go_first c2); [|intros [= <-]; exact C2].
    destruct (kvm_update_guest_debug_per_cpu _ _ _) as [[e3 c3]|] eqn:E3; cbn [rbind]; [|discriminate].
    intros [= <-]. apply update_frame, debug_self in E3. etrans; [exact C2|].
    destruct E3 as [A1 A2]. split; cbn in *; auto.
Qed.

(** ** The system *)

(** Where a thread is. *)
Inductive place :=
  | AtWait                    (* about to call wait_race *)
  | InCond (signalled : bool) (* in qemu_cond_timedwait; the condition was broadcast *)
  | Unlocked                  (* past the critical section of wait_race *)
  | InFutex (woken : bool)    (* in FUTEX_WAIT; a FUTEX_WAKE has reached it *)
  | ToGuest                   (* wait_race has returned *)
  | InGuest.                  (* in KVM_RUN *)

Record sys := mk_sys { cpus : two CPUState; glob : race_globals; places : two place }.

Definition cpu (i : bool) (s : sys) : CPUState := sel i (cpus s).
Definition at_place (i : bool) (s : sys) : place := sel i (places s).

(** Thread [i] moves: its CPU, the globals and its place. *)
Definition move (i : bool) (c : CPUState) (g : race_globals) (p : place) (s : sys) : sys :=
  mk_sys (upd i c (cpus s)) g (upd i p (places s)).

(** The other thread hears of a broadcast or of a FUTEX_WAKE. *)
Definition notify (f : place -> place) (i : bool) (s : sys) : sys :=
  mk_sys (cpus s) (glob s) (upd i (f (sel i (places s))) (places s)).

Definition signal (p : place) : place := match p with InCond _ => InCond true | _ => p end.
Definition wake (p : place) : place := match p with InFutex _ => InFutex true | _ => p end.

Inductive event :=
  | Enter (o : wr_outcome)     (* the critical section of wait_race *)
  | CondReturn (signalled : bool)
  | CondSpurious               (* the timed wait returns without a broadcast *)
  | Tail (wakes : bool)
  | FutexBlock | FutexPass | FutexWoken | FutexTimeout
  | Run | Exit
  | Outside.                   (* other work of the thread outside the loop *)

(** The parts of QEMU that know nothing of Razzer, such as the synchronisation of the
    registers, do not touch its fields. *)
Definition keeps_race (f : CPUState -> CPUState) : Prop :=
  forall c, cpu_index (f c) = cpu_index c /\ regs (f c) = regs c /\ wait_race_flag (f c) = wait_race_flag c.

Section system.
Context `{KVM}.
Variables (sw : bool) (HYPERCALL_ADDR : Z) (phys_read : Z -> nat -> list Z).
Variables (hwg : hw_globals) (sw_breakpoint : Z -> bool).

(** In [step_tail] the store [can_go = 1] and the FUTEX_WAKE behind it are one step: in between,
    the other thread can only find [can_go] set and not block, which it can do after the step as
    well, or be asleep already, when it is woken. *)
Inductive step (i : bool) : event -> sys -> sys -> Prop :=
  | step_enter s c g o : at_place i s = AtWait ->
      wait_race_enter phys_read (cpu i s) (glob s) = Ok (c, g, o) ->
      step i (Enter o) s
        (match o with
         | WR_return => move i c g ToGuest s
         | WR_sleep => move i c g (InCond false) s
         | WR_broadcast => notify signal (negb i) (move i c g Unlocked s)
         | WR_tail => move i c g Unlocked s
         end)
  | step_signalled s c g : at_place i s = InCond true ->
      wait_race_resume true (cpu i s) (glob s) = Ok (c, g) ->
      step i (CondReturn true) s (move i c g Unlocked s)
  | step_timeout s b c g : at_place i s = InCond b ->
      wait_race_resume false (cpu i s) (glob s) = Ok (c, g) ->
      step i (CondReturn false) s (move i c g Unlocked s)
  | step_spurious s c g : at_place i s = InCond false ->
      wait_race_resume true (cpu i s) (glob s) = Ok (c, g) ->
      step i CondSpurious s (move i c g Unlocked s)
  | step_tail s c g : at_place i s = Unlocked -> waits_on_futex (cpu i s) = false ->
      wait_race_tail (cpu i s) (glob s) = (c, g) ->
      step i (Tail (wakes_futex (cpu i s))) s
        (if wakes_futex (cpu i s) then notify wake (negb i) (move i c g ToGuest s) else move i c g ToGuest s)
  | step_futex_block s : at_place i s = Unlocked -> waits_on_futex (cpu i s) = true -> can_go (glob s) = 0 ->
      step i FutexBlock s (move i (cpu i s) (glob s) (InFutex false) s)
  | step_futex_pass s c g : at_place i s = Unlocked -> waits_on_futex (cpu i s) = true -> can_go (glob s) <> 0 ->
      wait_race_tail (cpu i s) (glob s) = (c, g) ->
      step i FutexPass s (move i c g ToGuest s)
  | step_futex_woken s c g : at_place i s = InFutex true -> wait_race_tail (cpu i s) (glob s) = (c, g) ->
      step i FutexWoken s (move i c g ToGuest s)
  | step_futex_timeout s b c g : at_place i s = InFutex b -> wait_race_tail (cpu i s) (glob s) = (c, g) ->
      step i FutexTimeout s (move i c g ToGuest s)
  | step_run s put exit c : at_place i s = ToGuest -> keeps_race put -> enter_guest put exit (cpu i s) = Ok c ->
      step i Run s (move i c (glob s) InGuest s)
  | step_exit s sync gr ret c g : at_place i s = InGuest -> keeps_race sync ->
      leave_guest sw HYPERCALL_ADDR hwg sw_breakpoint sync (cpu i s) (glob s) gr = Ok (ret, c, g) ->
      step i Exit s (move i c g AtWait s)
  | step_outside s f : at_place i s = AtWait -> keeps_race f ->
      step i Outside s (move i (f (cpu i s)) (glob s) AtWait s).

Definition any_step (s s' : sys) : Prop := exists i e, step i e s s'.

(** After [init_hypercall] of both CPUs. *)
Record initial (s : sys) : Prop := {
  init_index : forall i, cpu_index (cpu i s) = i;
  init_flag : forall i, wait_race_flag (cpu i s) = false;
  init_phase : forall i, sel i (phase (glob s)) = PHASE_UNREACHED;
  init_place : forall i, at_place i s = AtWait }.

Definition reachable (s : sys) : Prop := exists s0, initial s0 /\ rtc any_step s0 s.
End system.

(** ** The pieces of wait_race *)

Lemma locate_frame phys_read i r g g' : locate_access phys_read i r g = Ok g' ->
  phase g' = phase g /\ can_go g' = can_go g.
Proof.
  unfold locate_access. destruct (Disas.disas_get_mem _ _ _) as [[o d]|]; cbn [rbind]; [|discriminate].
  destruct (scan_operands _ _ _ _) as [[[k a]|]|]; cbn [rbind]; [| |discriminate]; intros [= <-];
    [destruct (_ =? _)%nat|]; split; reflexivity.
Qed.

Lemma same_address_frame g : let r := is_same_address g in
  phase r.2 = phase g /\ can_go r.2 = can_go g /\ writing_addr r.2 = writing_addr g /\ reading_addr r.2 = reading_addr g.
Proof. destruct (is_same_address_cases g) as [(a & -> & _)|[-> _]]; repeat split. Qed.

(** The verdict depends on the recorded accesses only. *)
Lemma same_address_ext g g' : writing_addr g' = writing_addr g -> reading_addr g' = reading_addr g ->
  (is_same_address g').1 = (is_same_address g).1 /\
  race_addr (is_same_address g').2 = race_addr (is_same_address g).2.
Proof. intros Ew Er. unfold is_same_address. rewrite Ew, Er. repeat case_goal; split; reflexivity. Qed.

Lemma verdict_ok c both same c' : verdict c both same = Ok c' ->
  wait_race_flag c = true /\ wait_race_flag c' = false /\ cpu_index c' = cpu_index c /\ regs c' = regs c /\
  is_race c' = (if both && same then 1 else 0).
Proof. unfold verdict. destruct (wait_race_flag c); cbn; [|discriminate]. intros [= <-]. auto. Qed.

(** What the critical section does, for CPU [i]. *)
Inductive entered (i : bool) (c : CPUState) (g : race_globals) (c' : CPUState) (g' : race_globals) : wr_outcome -> Prop :=
  | entered_return : regs c = None -> c' = c -> g' = g -> entered i c g c' g' WR_return
  | entered_sleep : sel (negb i) (phase g) = PHASE_UNREACHED -> sel i (phase g') = PHASE_SLEEPING ->
      wait_race_flag c' = true -> can_go g' = can_go g -> entered i c g c' g' WR_sleep
  | entered_broadcast : sel (negb i) (phase g) = PHASE_SLEEPING -> sel i (phase g') = PHASE_PASSED ->
      wait_race_flag c' = false -> can_go g' = 0 ->
      is_race c' = (if (is_same_address g').1 then 1 else 0) ->
      race_addr g' = race_addr (is_same_address g').2 -> entered i c g c' g' WR_broadcast
  | entered_late : sel (negb i) (phase g) = PHASE_PASSED -> sel i (phase g') = PHASE_PASSED ->
      wait_race_flag c' = false -> can_go g' = can_go g -> is_race c' = 0 -> entered i c g c' g' WR_tail
  | entered_idle : wait_race_flag c' = false ->
      sel i (phase g') = sel i (phase g) \/ sel i (phase g') = PHASE_UNREACHED ->
      can_go g' = can_go g -> entered i c g c' g' WR_tail.

Lemma wait_race_enter_spec phys_read c g c' g' o :
  wait_race_enter phys_read c g = Ok (c', g', o) ->
  cpu_index c' = cpu_index c /\ sel (negb (cpu_index c)) (phase g') = sel (negb (cpu_index c)) (phase g) /\
  entered (cpu_index c) c g c' g' o.
Proof.
  unfold wait_race_enter. destruct (regs c) as [r|] eqn:Er; cycle 1.
  { intros [= <- <- <-]. repeat split; auto. constructor; auto. }
  destruct (refresh c g) as [c0 g0] eqn:Ef.
  assert (F : cpu_index c0 = cpu_index c /\ sel (negb (cpu_index c)) (phase g0) = sel (negb (cpu_index c)) (phase g)
    /\ (sel (cpu_index c) (phase g0) = sel (cpu_index c) (phase g) \/ sel (cpu_index c) (phase g0) = PHASE_UNREACHED)
    /\ can_go g0 = can_go g).
  { revert Ef. unfold refresh. destruct (sel _ (is_refresh g)); intros [= <- <-]; [|auto].
    cbn. destruct (cpu_index c); cbn; auto. }
  destruct F as (F1 & F2 & F3 & F4). clear Ef. cbv zeta. rewrite F1.
  destruct (wait_race_flag c0) eqn:Ew; cycle 1.
  { intros [= <- <- <-]. split; [exact F1|]. split; [exact F2|]. apply entered_idle; assumption. }
  destruct (locate_access _ _ _ _) as [g1|] eqn:El; cbn [rbind]; [|discriminate].
  apply locate_frame in El as [L1 L2]. rewrite L1.
  destruct (sel (negb (cpu_index c)) (phase g0)) eqn:Ep.
  - intros [= <- <- <-]. split; [exact F1|]. cbn. rewrite sel_upd_other, L1.
    split; [congruence|]. constructor; cbn; autorewrite with two; congruence.
  - destruct (same_address_frame g1) as (A1 & A2 & A3 & A4). cbv zeta in *.
    destruct (is_same_address g1) as [same g2] eqn:Es. cbn [fst snd] in *.
    destruct (verdict c0 true same) as [c1|] eqn:Ev; cbn [rbind]; [|discriminate].
    apply verdict_ok in Ev as (V1 & V2 & V3 & V4 & V5). intros [= <- <- <-].
    split; [congruence|]. cbn. rewrite sel_upd_other, A1, L1.
    split; [congruence|]. apply entered_broadcast; cbn; autorewrite with two; auto; try congruence.
    all: destruct (same_address_ext g1 (set_can_go 0 (set_phase (cpu_index c) PHASE_PASSED g2)) A3 A4) as [X1 X2].
    + rewrite V5, X1, Es. reflexivity.
    + rewrite X2, Es. reflexivity.
  - destruct (same_address_frame (set_phase (cpu_index c) PHASE_PASSED g1)) as (A1 & A2 & A3 & A4). cbv zeta in *.
    destruct (is_same_address (set_phase _ _ g1)) as [same g2] eqn:Es. cbn [fst snd] in *.
    destruct (verdict c0 false same) as [c1|] eqn:Ev; cbn [rbind]; [|discriminate].
    apply verdict_ok in Ev as (V1 & V2 & V3 & V4 & V5). intros [= <- <- <-].
    split; [congruence|]. rewrite A1. cbn. rewrite sel_upd_other, L1.
    cbn [andb] in V5. split; [congruence|]. apply entered_late; rewrite ?A1, ?A2; cbn; autorewrite with two; congruence.
Qed.

Lemma wait_race_resume_spec b c g c' g' : wait_race_resume b c g = Ok (c', g') ->
  cpu_index c' = cpu_index c /\ sel (negb (cpu_index c)) (phase g') = sel (negb (cpu_index c)) (phase g) /\
  sel (cpu_index c) (phase g') = PHASE_PASSED /\ wait_race_flag c' = false /\ can_go g' = can_go g /\
  writing_addr g' = writing_addr g /\ reading_addr g' = reading_addr g /\
  is_race c' = (if (b || bool_decide (sel (negb (cpu_index c)) (phase g) = PHASE_PASSED))
                   && (is_same_address g).1 then 1 else 0) /\
  race_addr g' = race_addr (is_same_address g).2.
Proof.
  unfold wait_race_resume. cbv zeta. destruct (same_address_frame g) as (A1 & A2 & A3 & A4). cbv zeta in *.
  destruct (is_same_address g) as [same g2] eqn:Es. cbn [fst snd] in *.
  destruct (verdict c _ same) as [c1|] eqn:Ev; cbn [rbind]; [|discriminate].
  apply verdict_ok in Ev as (V1 & V2 & V3 & V4 & V5). intros [= <- <-]. cbn.
  autorewrite with two. rewrite A1. auto 12.
Qed.

Lemma wait_race_tail_spec c g : let r := wait_race_tail c g in
  cpu_index r.1 = cpu_index c /\ regs r.1 = regs c /\ wait_race_flag r.1 = wait_race_flag c /\
  is_race r.1 = is_race c /\ phase r.2 = phase g /\ writing_addr r.2 = writing_addr g /\ reading_addr r.2 = reading_addr g /\
  (waits_on_futex c = true -> can_go r.2 = can_go g) /\
  (waits_on_futex c = false -> can_go r.2 = if wakes_futex c then 1 else can_go g).
Proof.
  unfold wait_race_tail, wakes_futex, waits_on_futex. cbv zeta.
  destruct (is_race c =? 0) eqn:E0, (go_first c) eqn:E1, (done c) eqn:E2, (wake_up c) eqn:E3;
    cbn; rewrite ?E0, ?E1, ?E2, ?E3; cbn; auto 12; repeat split; auto; discriminate.
Qed.

Section invariant.
Context `{KVM}.
Variables (sw : bool) (HYPERCALL_ADDR : Z) (phys_read : Z -> nat -> list Z).
Variables (hwg : hw_globals) (sw_breakpoint : Z -> bool).

Lemma debug_loop_self fuel : forall n a ret c ret' c',
  debug_loop hwg fuel n a ret c = Ok (ret', c') -> cpu_index c' = cpu_index c /\ regs c' = regs c.
Proof.
  induction fuel as [|fuel IH]; intros n a ret c ret' c'; cbn [debug_loop]; [intros [= _ <-]; auto|].
  destruct (bits _ _); [|apply IH]. destruct (_ =? 0); [apply IH|].
  destruct (_ || _); [|apply IH]. destruct (hw_breakpoint hwg !! n); cbn [of_option rbind]; [|discriminate].
  intros E. apply IH in E. exact E.
Qed.

Lemma handle_debug_self sync c a ret c' : keeps_race sync ->
  kvm_handle_debug hwg sw_breakpoint sync c a = Ok (ret, c') -> cpu_index c' = cpu_index c /\ regs c' = regs c.
Proof.
  unfold kvm_handle_debug, debug_reason. intros sync_keeps E.
  assert (R : forall r c1, (if r =? 0 then
      if negb (exception_injected (sync c1) =? -1) then Err AssertFail
      else Ok (r, set_has_error_code 0 (set_exception_injected (dea_exception a) (sync c1)))
      else Ok (r, c1)) = Ok (ret, c') -> cpu_index c' = cpu_index c1 /\ regs c' = regs c1).
  { intros r c1. destruct (sync_keeps c1) as (K1 & K2 & _). destruct (r =? 0); [|intros [= _ <-]; auto].
    intros E1. destruct (negb (exception_injected (sync c1) =? -1)); [discriminate E1|].
    injection E1 as _ <-. auto. }
  destruct (dea_exception a =? 1); [destruct (bits _ _)|].
  - cbn [rbind] in E. apply R in E. exact E.
  - destruct (debug_loop hwg 4 0 a 0 c) as [[r c1]|] eqn:El; cbn [rbind] in E; [|discriminate].
    apply debug_loop_self in El as [L1 L2]. apply R in E as [E1 E2]. split; congruence.
  - cbn [rbind] in E. apply R in E. exact E.
Qed.

Lemma handle_exit_self sync c e ret c' : keeps_race sync ->
  handle_exit hwg sw_breakpoint sync c e = Ok (ret, c') -> cpu_index c' = cpu_index c /\ regs c' = regs c.
Proof.
  intros K. destruct (K c) as (K1 & K2 & _). destruct e as [| | | | |em st|ev|i| | | | |a|]; cbn; try (intros [= _ <-]; auto; fail).
  - destruct em; intros [= _ <-]; auto.
  - destruct ev; intros [= _ <-]; auto.
  - apply handle_debug_self, K.
Qed.

Lemma leave_guest_spec sync c g gr ret c' g' : keeps_race sync ->
  leave_guest sw HYPERCALL_ADDR hwg sw_breakpoint sync c g gr = Ok (ret, c', g') ->
  cpu_index c' = cpu_index c /\ regs c' <> None /\ same_races (cpu_index c) g g'.
Proof.
  intros K. unfold leave_guest, read_registers. destruct (gr_get_err gr <? 0); cbn [rbind]; [discriminate|].
  destruct (gr_ret gr <? 0).
  { intros [= _ <- <-]. cbn. split; [reflexivity|]. split; [discriminate | apply same_races_refl]. }
  destruct (handle_exit _ _ _ _ _) as [[r c1]|] eqn:E; cbn [rbind]; [|discriminate].
  apply handle_exit_self in E as [E1 E2]; [|exact K]. cbn in E1, E2.
  unfold dispatch_hypercall. destruct (r =? EXCP_DEBUG); cycle 1.
  { intros [= _ <- <-]. split; [exact E1|]. split; [congruence | apply same_races_refl]. }
  destruct (check_hypercall HYPERCALL_ADDR c1) as [ty c2] eqn:Ec.
  assert (S2 : same_self c1 c2).
  { revert Ec. unfold check_hypercall. rewrite E2. destruct (_ =? HYPERCALL_ADDR).
    - destruct (_ || _); intros [= _ <-]; split; cbn; congruence.
    - intros [= _ <-]. reflexivity. }
  destruct S2 as [S2a S2b]. rewrite <- E1, <- S2a.
  destruct ty; try discriminate.
  - intros [= _ <- <-]. split; [reflexivity|]. split; [apply S2b; congruence | apply same_races_refl].
  - destruct (handle_hypercall_breakpoint sw c2 _) as [c3|] eqn:Eb; cbn [rbind]; [|discriminate].
    intros [= _ <- <-]. apply breakpoint_frame in Eb as [B1 B2].
    split; [exact B1|]. split; [apply B2, S2b; congruence | apply same_races_refl].
  - destruct (handle_hypercall_command sw HYPERCALL_ADDR c2 g) as [[c3 g3]|] eqn:Eb; cbn [rbind]; [|discriminate].
    intros [= _ <- <-]. apply command_frame in Eb as [[B1 B2] B3].
    split; [exact B1|]. split; [apply B2, S2b; congruence | exact B3].
  - intros [= _ <- <-]. split; [reflexivity|]. split; [apply S2b; congruence | apply same_races_refl].
Qed.

Lemma enter_guest_spec put exit c c' : keeps_race put -> enter_guest put exit c = Ok c' ->
  cpu_index c' = cpu_index c /\ wait_race_flag c = false.
Proof.
  intros K. destruct (K c) as (K1 & _ & K3). unfold enter_guest.
  set (d := if kvm_vcpu_dirty c then _ else c).
  assert (cpu_index d = cpu_index c /\ wait_race_flag d = wait_race_flag c) as [D1 D2]
    by (unfold d; destruct (kvm_vcpu_dirty c); cbn; auto). clearbody d.
  set (f := if exit then _ else d).
  assert (cpu_index f = cpu_index c /\ wait_race_flag f = wait_race_flag c) as [F1 F2]
    by (unfold f; destruct exit; cbn; auto). clearbody f.
  destruct (wait_race_flag f); [discriminate|]. intros [= <-]. unfold update_registers.
  split; [|congruence]. destruct (update_regs f); cbn; [destruct (regs f); cbn|]; auto.
Qed.

(** ** The invariant *)

Definition waiting (p : place) : bool := match p with InCond _ => true | _ => false end.

Definition flag_ok (c : CPUState) (p : place) : Prop :=
  match p with
  | AtWait => regs c = None -> wait_race_flag c = false
  | InCond _ => wait_race_flag c = true
  | Unlocked | ToGuest => wait_race_flag c = false
  | InFutex _ => wait_race_flag c = false /\ waits_on_futex c = true
  | InGuest => True
  end.

Record inv (s : sys) : Prop := {
  inv_index : forall i, cpu_index (cpu i s) = i;
  inv_sleep : forall i, waiting (at_place i s) = true <-> sel i (phase (glob s)) = PHASE_SLEEPING;
  inv_flag : forall i, flag_ok (cpu i s) (at_place i s);
  inv_one : forall i, waiting (at_place i s) = true -> waiting (at_place (negb i) s) = false }.

Lemma initial_inv s : initial s -> inv s.
Proof.
  intros [I1 I2 I3 I4]. constructor; intros i; rewrite ?I4; cbn; auto; try discriminate.
  rewrite I3. split; discriminate.
Qed.

(** Thread [i] moves within the invariant when the other thread's phase is kept. *)
Lemma inv_move i c g p s : inv s ->
  cpu_index c = i -> sel (negb i) (phase g) = sel (negb i) (phase (glob s)) -> flag_ok c p ->
  (waiting p = true <-> sel i (phase g) = PHASE_SLEEPING) ->
  (waiting p = true -> waiting (at_place (negb i) s) = false) -> inv (move i c g p s).
Proof.
  intros [I1 I2 I3 I4] Hc Hg Hf Hw Ho.
  assert (T : forall j, j = i \/ j = negb i) by (intros j; destruct i, j; auto).
  constructor; intros j; unfold cpu, at_place, move; cbn [cpus places glob]; destruct (T j) as [-> | ->];
    rewrite ?negb_involutive; autorewrite with two; auto.
  - apply (I1 (negb i)).
  - rewrite Hg. apply (I2 (negb i)).
  - apply (I3 (negb i)).
  - intros W. destruct (waiting p) eqn:E; [|reflexivity]. specialize (Ho eq_refl). unfold at_place in Ho. congruence.
Qed.

(** A notification changes only a flag of the place. *)
Lemma inv_notify f i s : (forall p, waiting (f p) = waiting p /\ forall c, flag_ok c p -> flag_ok c (f p)) ->
  inv s -> inv (notify f i s).
Proof.
  intros Hf [I1 I2 I3 I4].
  assert (T : forall j, j = i \/ j = negb i) by (intros j; destruct i, j; auto).
  constructor; intros j; unfold cpu, at_place, notify; cbn [cpus places glob]; [apply I1 | | |].
  - destruct (T j) as [-> | ->]; autorewrite with two; [rewrite (proj1 (Hf _)) |]; apply I2.
  - destruct (T j) as [-> | ->]; autorewrite with two; [apply Hf |]; apply I3.
  - destruct (T j) as [-> | ->]; rewrite ?negb_involutive; autorewrite with two; rewrite (proj1 (Hf _)).
    + apply (I4 i).
    + intros W. specialize (I4 (negb i) W). rewrite negb_involutive in I4. exact I4.
Qed.

Lemma signal_ok p : waiting (signal p) = waiting p /\ forall c, flag_ok c p -> flag_ok c (signal p).
Proof. destruct p; cbn; auto. Qed.

Lemma wake_ok p : waiting (wake p) = waiting p /\ forall c, flag_ok c p -> flag_ok c (wake p).
Proof. destruct p; cbn; auto. Qed.

Notation istep := (step sw HYPERCALL_ADDR phys_read hwg sw_breakpoint).

Lemma step_enter_inv i s c g o : inv s -> at_place i s = AtWait ->
  wait_race_enter phys_read (cpu i s) (glob s) = Ok (c, g, o) ->
  inv (match o with
       | WR_return => move i c g ToGuest s
       | WR_sleep => move i c g (InCond false) s
       | WR_broadcast => notify signal (negb i) (move i c g Unlocked s)
       | WR_tail => move i c g Unlocked s
       end).
Proof.
  intros I Hp E. pose proof I as [I1 I2 I3 I4].
  apply wait_race_enter_spec in E as (E1 & E2 & E3). rewrite I1 in *.
  specialize (I3 i). rewrite Hp in I3. cbn in I3.
  assert (Hns : sel i (phase (glob s)) <> PHASE_SLEEPING) by (intros X; apply I2 in X; rewrite Hp in X; discriminate).
  destruct E3 as [R -> -> | Ho Hs Hf _ | Ho Hs Hf _ _ _ | Ho Hs Hf _ _ | Hf Hs _].
  - apply inv_move; [exact I | exact E1 | exact E2 | exact (I3 R) | | discriminate].
    split; [discriminate | congruence].
  - apply inv_move; [exact I | exact E1 | exact E2 | exact Hf | cbn; tauto |]. intros _.
    destruct (waiting (at_place (negb i) s)) eqn:W; [|reflexivity]. apply I2 in W. congruence.
  - apply inv_notify; [apply signal_ok|].
    apply inv_move; [exact I | exact E1 | exact E2 | exact Hf | split; [discriminate | congruence] | discriminate].
  - apply inv_move; [exact I | exact E1 | exact E2 | exact Hf | split; [discriminate | congruence] | discriminate].
  - apply inv_move; [exact I | exact E1 | exact E2 | exact Hf | | discriminate].
    split; [discriminate | destruct Hs; congruence].
Qed.

Lemma resume_inv i b s c g : inv s -> waiting (at_place i s) = true ->
  wait_race_resume b (cpu i s) (glob s) = Ok (c, g) -> inv (move i c g Unlocked s).
Proof.
  intros I Hw E. pose proof I as [I1 _ _ _].
  apply wait_race_resume_spec in E as (E1 & E2 & E3 & E4 & _). rewrite I1 in *.
  apply inv_move; [exact I | exact E1 | exact E2 | exact E4 | split; [discriminate | congruence] | discriminate].
Qed.

Lemma tail_inv i s c g : inv s -> waiting (at_place i s) = false -> wait_race_flag (cpu i s) = false ->
  wait_race_tail (cpu i s) (glob s) = (c, g) -> inv (move i c g ToGuest s).
Proof.
  intros I Hw Hf E. pose proof I as [I1 I2 _ _].
  destruct (wait_race_tail_spec (cpu i s) (glob s)) as (T1 & _ & T3 & _ & T5 & _). cbv zeta in *.
  rewrite E in *. cbn [fst snd] in *.
  apply inv_move; [exact I | congruence | congruence | cbn; congruence | | discriminate].
  rewrite T5. rewrite <- I2, Hw. tauto.
Qed.

Lemma step_inv i e s s' : istep i e s s' -> inv s -> inv s'.
Proof.
  intros St I. pose proof I as [I1 I2 I3 I4]. specialize (I3 i).
  destruct St as [s c g o Hp E | s c g Hp E | s b c g Hp E | s c g Hp E | s c g Hp Hw E | s Hp Hw Hg
                 | s c g Hp Hw Hg E | s c g Hp E | s b c g Hp E | s put ex c Hp Kf E | s sync gr ret c g Hp Kf E | s f Hp Kf];
    rewrite Hp in I3; cbn in I3.
  - apply step_enter_inv; assumption.
  - eapply resume_inv; [assumption | rewrite Hp; reflexivity | exact E].
  - eapply resume_inv; [assumption | rewrite Hp; reflexivity | exact E].
  - eapply resume_inv; [assumption | rewrite Hp; reflexivity | exact E].
  - assert (J : inv (move i c g ToGuest s)) by (eapply tail_inv; [assumption | rewrite Hp; reflexivity | assumption | exact E]).
    destruct (wakes_futex _); [apply inv_notify; [apply wake_ok | exact J] | exact J].
  - apply inv_move; [exact I | apply I1 | reflexivity | exact (conj I3 Hw) | | discriminate].
    rewrite <- I2, Hp. cbn. tauto.
  - eapply tail_inv; [assumption | rewrite Hp; reflexivity | assumption | exact E].
  - eapply tail_inv; [assumption | rewrite Hp; reflexivity | apply I3 | exact E].
  - eapply tail_inv; [assumption | rewrite Hp; reflexivity | apply I3 | exact E].
  - apply enter_guest_spec in E as [E1 _]; [|exact Kf]. rewrite I1 in E1.
    apply inv_move; [exact I | exact E1 | reflexivity | exact Logic.I | | discriminate].
    rewrite <- I2, Hp. cbn. tauto.
  - apply leave_guest_spec in E as (E1 & E2 & [F1 F2 _ _ _]); [|exact Kf]. rewrite I1 in *.
    apply inv_move; [exact I | exact E1 | exact F1 | cbn; congruence | | discriminate].
    split; [discriminate|]. intros X. exfalso. destruct F2 as [F2|F2]; rewrite F2 in X; [|discriminate].
    apply I2 in X. rewrite Hp in X. discriminate.
  - destruct (Kf (cpu i s)) as (K1 & K2 & K3). rewrite I1 in K1.
    apply inv_move; [exact I | exact K1 | reflexivity | cbn; rewrite K2, K3; exact I3 | | discriminate].
    rewrite <- I2, Hp. cbn. tauto.
Qed.

Lemma reachable_inv s :
  reachable sw HYPERCALL_ADDR phys_read hwg sw_breakpoint s -> inv s.
Proof.
  intros (s0 & I0 & R). apply initial_inv in I0. induction R as [|s0 s1 s2 (i & e & St) _ IH]; [exact I0|].
  apply IH. eapply step_inv; eassumption.
Qed.
End invariant.

(** ** Results *)

Section results.
Context `{KVM}.
Variables (sw : bool) (HYPERCALL_ADDR : Z) (phys_read : Z -> nat -> list Z).
Variables (hwg : hw_globals) (sw_breakpoint : Z -> bool).

Notation sstep := (step sw HYPERCALL_ADDR phys_read hwg sw_breakpoint).
Notation sreachable := (reachable sw HYPERCALL_ADDR phys_read hwg sw_breakpoint).

(** The two threads never wait for each other at the same time: a thread is in
    the timed wait exactly when its phase is "sleeping", and then the other one is
    not. *)
Theorem one_sleeper s i : sreachable s ->
  (waiting (at_place i s) = true <-> sel i (phase (glob s)) = PHASE_SLEEPING) /\
  (waiting (at_place i s) = true -> waiting (at_place (negb i) s) = false).
Proof.
  intros R. destruct (reachable_inv _ _ _ _ _ s R) as [_ I2 _ I4]. split; [apply I2 | apply I4].
Qed.

(** C20: none of the assertions on the wait flag can fail, and no thread is stuck in
    its timed wait: in every reachable state a waiting thread can leave the wait by
    timeout, and a thread whose [wait_race] has returned can enter the guest. *)
Theorem no_stuck_waiter s i : sreachable s ->
  (waiting (at_place i s) = true -> exists s', sstep i (CondReturn false) s s' /\ at_place i s' = Unlocked) /\
  (at_place i s = ToGuest -> forall put exit, keeps_race put ->
    exists c, enter_guest put exit (cpu i s) = Ok c /\ sstep i Run s (move i c (glob s) InGuest s)).
Proof.
  intros R. destruct (reachable_inv _ _ _ _ _ s R) as [_ _ I3 _]. specialize (I3 i). split.
  - intros W. destruct (at_place i s) as [|b| | | |] eqn:Ep; try discriminate. cbn in I3.
    unfold waiting in W. clear W.
    assert (exists c g, wait_race_resume false (cpu i s) (glob s) = Ok (c, g)) as (c & g & E).
    { unfold wait_race_resume, verdict. cbv zeta. destruct (is_same_address (glob s)).
      rewrite I3. cbn. eauto. }
    eexists. split; [eapply step_timeout; eassumption|]. unfold at_place, move. cbn. apply sel_upd_same.
  - intros Ep put exit K. rewrite Ep in I3. cbn in I3.
    assert (exists c, enter_guest put exit (cpu i s) = Ok c) as (c & E).
    { unfold enter_guest. destruct (K (cpu i s)) as (_ & _ & K3).
      destruct (kvm_vcpu_dirty (cpu i s)), exit; cbn; rewrite ?K3, I3; eauto. }
    exists c. split; [exact E | eapply step_run; eassumption].
Qed.

(** The steps that give a verdict. *)
Definition gives_verdict (e : event) : Prop :=
  e = Enter WR_broadcast \/ (exists b, e = CondReturn b) \/ e = CondSpurious.

(** C19: a reported race is a conflict: whenever a step makes a thread report a race,
    the recorded accesses of the two CPUs conflict at one non-zero address, which is
    the address logged for both. *)
Theorem race_is_conflict s s' i e : sreachable s ->
  sstep i e s s' -> gives_verdict e -> is_race (cpu i s') <> 0 ->
  exists a, conflict (glob s') a /\ race_addr (glob s') = mk2 a a.
Proof.
  intros R St Hv Hr. destruct (reachable_inv _ _ _ _ _ s R) as [I1 _ _ _].
  assert (K : forall g', race_addr g' = race_addr (is_same_address g').2 -> (is_same_address g').1 = true ->
            exists a, conflict g' a /\ race_addr g' = mk2 a a).
  { intros g' E1 E2. destruct (is_same_address_cases g') as [(a & E & C)|[E _]]; rewrite E in *; [|discriminate].
    exists a. split; [exact C | exact E1]. }
  assert (Res : forall b c g, wait_race_resume b (cpu i s) (glob s) = Ok (c, g) ->
            is_race c <> 0 -> exists a, conflict g a /\ race_addr g = mk2 a a).
  { intros b c g E Hn. apply wait_race_resume_spec in E as (_ & _ & _ & _ & _ & W & Rd & V & Ra).
    destruct (same_address_ext (glob s) g W Rd) as [X1 X2]. apply K; [congruence|].
    rewrite X1. destruct ((is_same_address (glob s)).1); [reflexivity|]. rewrite andb_false_r in V. congruence. }
  destruct St as [s c g o Hp E | s c g Hp E | s b c g Hp E | s c g Hp E | s c g Hp Hw E | s Hp Hw Hg
                 | s c g Hp Hw Hg E | s c g Hp E | s b c g Hp E | s put ex c Hp Kf E | s sync gr ret c g Hp Kf E | s f Hp Kf];
    try (destruct Hv as [Hv|[(b' & Hv)|Hv]]; discriminate).
  - destruct Hv as [[= ->]|[(b' & Hv)|Hv]]; [|discriminate|discriminate].
    apply wait_race_enter_spec in E as (_ & _ & E3). rewrite I1 in E3. inversion E3; subst.
    unfold notify, move, cpu in *. cbn in *. rewrite sel_upd_same in Hr. apply K; [assumption|].
    destruct ((is_same_address g).1); congruence.
  - apply (Res true c g E). unfold cpu, move in Hr. cbn in Hr. rewrite sel_upd_same in Hr. exact Hr.
  - apply (Res false c g E). unfold cpu, move in Hr. cbn in Hr. rewrite sel_upd_same in Hr. exact Hr.
  - apply (Res true c g E). unfold cpu, move in Hr. cbn in Hr. rewrite sel_upd_same in Hr. exact Hr.
Qed.

(** *** Agreement of the two verdicts *)

(** Thread [j] goes on without a new arrival in [wait_race] and without starting a
    new program (which resets its phase). *)
Definition goes_on (j : bool) (s s' : sys) : Prop :=
  exists e, sstep j e s s' /\ (forall o, e <> Enter o) /\ sel j (phase (glob s')) = PHASE_PASSED.

(** What such steps leave alone. *)
Record undisturbed (j : bool) (s s' : sys) : Prop := {
  un_w : writing_addr (glob s') = writing_addr (glob s);
  un_r : reading_addr (glob s') = reading_addr (glob s);
  un_cpu : cpu (negb j) s' = cpu (negb j) s }.

Lemma goes_on_undisturbed j s s' : inv s -> at_place j s <> InCond true -> at_place j s <> InCond false ->
  goes_on j s s' -> undisturbed j s s'.
Proof.
  intros [I1 _ _ _] N1 N2 (e & St & Ne & _).
  assert (M : forall c g p, writing_addr g = writing_addr (glob s) -> reading_addr g = reading_addr (glob s) ->
    undisturbed j s (move j c g p s)).
  { intros c g p E1 E2. constructor; [exact E1 | exact E2 |]. unfold cpu, move. cbn. apply sel_upd_other. }
  assert (T : forall c g p, wait_race_tail (cpu j s) (glob s) = (c, g) -> undisturbed j s (move j c g p s)).
  { intros c g p E. destruct (wait_race_tail_spec (cpu j s) (glob s)) as (_ & _ & _ & _ & _ & T6 & T7 & _).
    cbv zeta in *. rewrite E in *. apply M; assumption. }
  destruct St as [s c g o Hp E | s c g Hp E | s b c g Hp E | s c g Hp E | s c g Hp Hw E | s Hp Hw Hg
                 | s c g Hp Hw Hg E | s c g Hp E | s b c g Hp E | s put ex c Hp Kf E | s sync gr ret c g Hp Kf E | s f Hp Kf].
  - exfalso. exact (Ne o eq_refl).
  - contradiction.
  - destruct b; contradiction.
  - contradiction.
  - destruct (wakes_futex _); [|apply T, E].
    destruct (T c g ToGuest E) as [T1 T2 T3]. constructor; [exact T1 | exact T2 | exact T3].
  - apply M; reflexivity.
  - apply T, E.
  - apply T, E.
  - apply T, E.
  - apply M; reflexivity.
  - apply leave_guest_spec in E as (_ & _ & [_ _ _ F1 F2]); [apply M; assumption | exact Kf].
  - apply M; reflexivity.
Qed.

(** The places a thread passes through between two arrivals in [wait_race]. *)
Lemma goes_on_not_waiting j s s' : goes_on j s s' -> waiting (at_place j s') = false.
Proof.
  intros (e & St & Ne & _).
  destruct St as [s c g o Hp E | s c g Hp E | s b c g Hp E | s c g Hp E | s c g Hp Hw E | s Hp Hw Hg
                 | s c g Hp Hw Hg E | s c g Hp E | s b c g Hp E | s put ex c Hp Kf E | s sync gr ret c g Hp Kf E | s f Hp Kf];
    [destruct (Ne o eq_refl) | ..]; try destruct (wakes_futex _); unfold at_place, notify, move; cbn;
    rewrite ?sel_upd_other', ?sel_upd_same; reflexivity.
Qed.

Lemma goes_on_run j s s' : inv s -> waiting (at_place j s) = false ->
  rtc (goes_on j) s s' -> inv s' /\ undisturbed j s s'.
Proof.
  intros I W R. revert I W. induction R as [s|s s1 s2 G _ IH]; intros I W.
  - split; [exact I|]. constructor; reflexivity.
  - pose proof G as (e & St & _).
    assert (I1 : inv s1) by (eapply step_inv; [exact St | exact I]).
    destruct (IH I1 (goes_on_not_waiting j s s1 G)) as [I2 [U1 U2 U3]].
    destruct (goes_on_undisturbed j s s1 I) as [V1 V2 V3]; [| | exact G |].
    1,2: intros X; rewrite X in W; discriminate.
    split; [exact I2|]. constructor; congruence.
Qed.

Lemma goes_on_phase j s s' : rtc (goes_on j) s s' -> sel j (phase (glob s)) = PHASE_PASSED ->
  sel j (phase (glob s')) = PHASE_PASSED.
Proof. induction 1 as [s|s s1 s2 (e & _ & _ & P) _ IH]; auto. Qed.

(** C1: the threads agree: when the second thread [j] arrives while the first is
    waiting, and goes on without arriving again or starting a new program, the first
    thread's verdict, given when its wait ends by the broadcast or by timeout, is
    the one the second thread gave. *)
Theorem verdicts_agree j s0 s1 s2 s3 b : sreachable s0 ->
  sstep j (Enter WR_broadcast) s0 s1 -> rtc (goes_on j) s1 s2 ->
  sstep (negb j) (CondReturn b) s2 s3 ->
  is_race (cpu (negb j) s3) = is_race (cpu j s1).
Proof.
  intros R St1 Run St3. pose proof (reachable_inv _ _ _ _ _ s0 R) as I0.
  assert (I1 : inv s1) by (eapply step_inv; [exact St1 | exact I0]).
  inversion St1 as [s c g o Hp E| | | | | | | | | | |]; subst; clear St1.
  apply wait_race_enter_spec in E as (_ & _ & E3). rewrite (inv_index _ I0) in E3. inversion E3; subst. clear E3.
  set (s1 := notify signal (negb j) (move j c g Unlocked s0)) in *.
  assert (W1 : waiting (at_place j s1) = false)
    by (unfold at_place, s1, notify, move; cbn; rewrite sel_upd_other', sel_upd_same; reflexivity).
  destruct (goes_on_run j s1 s2 I1 W1 Run) as [I2 [U1 U2 U3]].
  pose proof (goes_on_phase j s1 s2 Run ltac:(assumption)) as P2.
  assert (C1 : is_race (cpu j s1) = if (is_same_address g).1 then 1 else 0)
    by (unfold cpu, s1, notify, move; cbn; rewrite sel_upd_same; assumption).
  rewrite C1.
  assert (Rs : forall b c' g', wait_race_resume b (cpu (negb j) s2) (glob s2) = Ok (c', g') ->
            is_race c' = if (is_same_address g).1 then 1 else 0).
  { intros b' c' g' E. apply wait_race_resume_spec in E as (_ & _ & _ & _ & _ & _ & _ & V & _).
    rewrite (inv_index _ I2), negb_involutive, P2 in V. rewrite bool_decide_eq_true_2, orb_true_r in V by reflexivity.
    cbn [andb] in V. rewrite V. destruct (same_address_ext g (glob s2) U1 U2) as [-> _]. reflexivity. }
  inversion St3; subst; unfold cpu, move; cbn; rewrite sel_upd_same; eapply Rs; eassumption.
Qed.

(** *** Order of the two accesses *)

(** Any thread moves, but none announces its access. *)
Definition no_wake (s s' : sys) : Prop := exists i e, sstep i e s s' /\ e <> Tail true.

(** Nobody may pass the futex. *)
Definition closed (s : sys) : Prop := can_go (glob s) = 0 /\ forall i, at_place i s <> InFutex true.

Lemma closed_move i c g p s : closed s -> can_go g = 0 -> p <> InFutex true -> closed (move i c g p s).
Proof.
  intros [_ C2] Hg Hp. split; [exact Hg|]. intros j. specialize (C2 j). unfold at_place, move in *. cbn.
  rewrite sel_upd. destruct (Bool.eqb j i); assumption.
Qed.

Lemma closed_signal i s : closed s -> closed (notify signal i s).
Proof.
  intros [C1 C2]. split; [exact C1|]. intros j. unfold at_place, notify in *. cbn. rewrite sel_upd.
  pose proof (C2 i) as Ci. destruct (Bool.eqb j i); [|apply C2]. destruct (sel i (places s)); cbn; congruence.
Qed.

Lemma closed_step s s' : inv s -> closed s -> no_wake s s' -> closed s'.
Proof.
  intros [_ _ I3 _] C (i & e & St & Ne). pose proof C as [C1 C2]. specialize (I3 i).
  destruct St as [s c g o Hp E | s c g Hp E | s b c g Hp E | s c g Hp E | s c g Hp Hw E | s Hp Hw Hg
                 | s c g Hp Hw Hg E | s c g Hp E | s b c g Hp E | s put ex c Hp Kf E | s sync gr ret c g Hp Kf E | s f Hp Kf].
  - apply wait_race_enter_spec in E as (_ & _ & E3). inversion E3; subst;
      try apply closed_signal; apply closed_move; congruence.
  - apply wait_race_resume_spec in E as (_ & _ & _ & _ & E & _). apply closed_move; congruence.
  - apply wait_race_resume_spec in E as (_ & _ & _ & _ & E & _). apply closed_move; congruence.
  - apply wait_race_resume_spec in E as (_ & _ & _ & _ & E & _). apply closed_move; congruence.
  - destruct (wait_race_tail_spec (cpu i s) (glob s)) as (_ & _ & _ & _ & _ & _ & _ & _ & T). cbv zeta in T.
    rewrite E in T. specialize (T Hw). cbn in T. destruct (wakes_futex _); [contradiction|].
    apply closed_move; congruence.
  - apply closed_move; congruence.
  - congruence.
  - destruct (C2 i Hp).
  - rewrite Hp in I3. destruct I3 as [_ Hw].
    destruct (wait_race_tail_spec (cpu i s) (glob s)) as (_ & _ & _ & _ & _ & _ & _ & T & _). cbv zeta in T.
    rewrite E in T. cbn in T. apply closed_move; [exact C | rewrite (T Hw); exact C1 | discriminate].
  - apply closed_move; congruence.
  - apply leave_guest_spec in E as (_ & _ & [_ _ F _ _]); [apply closed_move; congruence | exact Kf].
  - apply closed_move; congruence.
Qed.

Lemma closed_run s s' : inv s -> closed s -> rtc no_wake s s' -> closed s'.
Proof.
  intros I C R. revert I C. induction R as [|s s1 s2 N _ IH]; intros I C; [exact C|].
  pose proof N as (i & e & St & _).
  apply IH; [eapply step_inv; [exact St | exact I] | eapply closed_step; eassumption].
Qed.

(** C4: the order of the two accesses: from the arrival of the second thread on, and
    until the thread that goes first has made its single step and announced it, the
    other thread leaves the futex only by its timeout. *)
Theorem second_waits_for_first j s0 s1 s2 s3 i e : sreachable s0 ->
  sstep j (Enter WR_broadcast) s0 s1 -> rtc no_wake s1 s2 -> sstep i e s2 s3 ->
  e <> FutexPass /\ e <> FutexWoken /\
  (e = Tail true -> go_first (cpu i s2) = true /\ wake_up (cpu i s2) = true /\ is_race (cpu i s2) <> 0).
Proof.
  intros R St1 Run St3. pose proof (reachable_inv _ _ _ _ _ s0 R) as I0.
  assert (I1 : inv s1) by (eapply step_inv; [exact St1 | exact I0]).
  assert (C1 : closed s1).
  { inversion St1 as [s c g o Hp E| | | | | | | | | | |]; subst.
    apply wait_race_enter_spec in E as (_ & _ & E3). rewrite (inv_index _ I0) in E3. inversion E3; subst.
    pose proof (proj2 (inv_sleep _ I0 (negb j)) ltac:(assumption)) as Ws.
    split; [assumption|]. intros k. unfold at_place, notify, move in *. cbn.
    destruct (eqb k j) eqn:Ek.
    - apply eqb_prop in Ek. subst k. rewrite sel_upd_other', sel_upd_same. discriminate.
    - assert (k = negb j) as -> by (destruct k, j; auto; discriminate).
      rewrite sel_upd_same, sel_upd_other. destruct (sel (negb j) (places s0)); discriminate. }
  destruct (closed_run s1 s2 I1 C1 Run) as [G F].
  destruct St3; try (split; [discriminate | split; [discriminate | discriminate]]).
  - split; [discriminate|]. split; [discriminate|]. intros [= W]. unfold wakes_futex in W.
    rewrite !andb_true_iff, negb_true_iff, Z.eqb_neq in W. tauto.
  - contradiction.
  - destruct (F i). assumption.
Qed.
End results.

(** ** Executions *)

(** The choices of a scheduler. *)
Inductive action :=
  | AEnter | ACond (signalled : bool) | ATail | AFutexBlock | AFutexPass | AFutexWoken | AFutexTimeout
  | ARun | AExit (gr : guest_run).

Lemma id_keeps : keeps_race id.
Proof. intros c. auto. Qed.

Section runner.
Context `{KVM}.
Variables (sw : bool) (HYPERCALL_ADDR : Z) (phys_read : Z -> nat -> list Z).
Variables (hwg : hw_globals) (sw_breakpoint : Z -> bool).

Definition exec_action (i : bool) (a : action) (s : sys) : option (event * sys) :=
  let c := cpu i s in
  let g := glob s in
  let tail := wait_race_tail c g in
  match a, at_place i s with
  | AEnter, AtWait =>
      match wait_race_enter phys_read c g with
      | Ok (c, g, o) =>
          Some (Enter o,
            match o with
            | WR_return => move i c g ToGuest s
            | WR_sleep => move i c g (InCond false) s
            | WR_broadcast => notify signal (negb i) (move i c g Unlocked s)
            | WR_tail => move i c g Unlocked s
            end)
      | Err _ => None
      end
  | ACond true, InCond true =>
      match wait_race_resume true c g with Ok (c, g) => Some (CondReturn true, move i c g Unlocked s) | Err _ => None end
  | ACond false, InCond _ =>
      match wait_race_resume false c g with Ok (c, g) => Some (CondReturn false, move i c g Unlocked s) | Err _ => None end
  | ATail, Unlocked =>
      if waits_on_futex c then None
      else Some (Tail (wakes_futex c),
             if wakes_futex c then notify wake (negb i) (move i tail.1 tail.2 ToGuest s)
             else move i tail.1 tail.2 ToGuest s)
  | AFutexBlock, Unlocked =>
      if waits_on_futex c && (can_go g =? 0) then Some (FutexBlock, move i c g (InFutex false) s) else None
  | AFutexPass, Unlocked =>
      if waits_on_futex c && negb (can_go g =? 0) then Some (FutexPass, move i tail.1 tail.2 ToGuest s) else None
  | AFutexWoken, InFutex true => Some (FutexWoken, move i tail.1 tail.2 ToGuest s)
  | AFutexTimeout, InFutex _ => Some (FutexTimeout, move i tail.1 tail.2 ToGuest s)
  | ARun, ToGuest =>
      match enter_guest id false c with Ok c => Some (Run, move i c g InGuest s) | Err _ => None end
  | AExit gr, InGuest =>
      match leave_guest sw HYPERCALL_ADDR hwg sw_breakpoint id c g gr with
      | Ok (_, c, g) => Some (Exit, move i c g AtWait s)
      | Err _ => None
      end
  | _, _ => None
  end.

Lemma exec_action_sound i a s e s' : exec_action i a s = Some (e, s') ->
  step sw HYPERCALL_ADDR phys_read hwg sw_breakpoint i e s s'.
Proof.
  unfold exec_action. destruct (wait_race_tail (cpu i s) (glob s)) as [ct gt] eqn:Et. cbv zeta. cbn [fst snd].
  destruct a as [|b| | | | | | |gr]; destruct (at_place i s) as [|sg| |wk| |] eqn:Ep; try discriminate;
    try destruct b; try destruct sg; try destruct wk; try discriminate.
  - destruct (wait_race_enter _ _ _) as [[[c g] o]|] eqn:E; [|discriminate]. intros [= <- <-]. apply step_enter; assumption.
  - destruct (wait_race_resume _ _ _) as [[c g]|] eqn:E; [|discriminate]. intros [= <- <-]. apply step_signalled; assumption.
  - destruct (wait_race_resume _ _ _) as [[c g]|] eqn:E; [|discriminate]. intros [= <- <-]. eapply step_timeout; eassumption.
  - destruct (wait_race_resume _ _ _) as [[c g]|] eqn:E; [|discriminate]. intros [= <- <-]. eapply step_timeout; eassumption.
  - destruct (waits_on_futex _) eqn:Ew; [discriminate|]. intros [= <- <-]. apply step_tail; assumption.
  - destruct (waits_on_futex _) eqn:Ew; [|discriminate]. cbn [andb]. destruct (Z.eqb_spec (can_go (glob s)) 0); [|discriminate].
    intros [= <- <-]. apply step_futex_block; assumption.
  - destruct (waits_on_futex _) eqn:Ew; [|discriminate]. cbn [andb]. destruct (Z.eqb_spec (can_go (glob s)) 0); [discriminate|].
    intros [= <- <-]. apply step_futex_pass; assumption.
  - intros [= <- <-]. apply step_futex_woken; assumption.
  - intros [= <- <-]. eapply step_futex_timeout; eassumption.
  - intros [= <- <-]. eapply step_futex_timeout; eassumption.
  - destruct (enter_guest _ _) as [c|] eqn:E; [|discriminate]. intros [= <- <-]. eapply step_run; [assumption | exact id_keeps | exact E].
  - destruct (leave_guest _ _ _ _ _ _ _ _) as [[[r c] g]|] eqn:E; [|discriminate]. intros [= <- <-]. eapply step_exit; [assumption | exact id_keeps | exact E].
Qed.

Fixpoint run_actions (l : list (bool * action)) (s : sys) : option sys :=
  match l with
  | [] => Some s
  | (i, a) :: l => match exec_action i a s with Some (_, s) => run_actions l s | None => None end
  end.

Lemma run_actions_sound l : forall s s', run_actions l s = Some s' ->
  rtc (any_step sw HYPERCALL_ADDR phys_read hwg sw_breakpoint) s s'.
Proof.
  induction l as [|[i a] l IH]; intros s s'; cbn; [intros [= <-]; reflexivity|].
  destruct (exec_action i a s) as [[e s1]|] eqn:E; [|discriminate]. intros R.
  eapply rtc_l; [exists i, e; apply exec_action_sound in E; exact E | apply IH, R].
Qed.
End runner.

(** *** A race between a store and a load

    CPU 0 stops at [mov %rax,(%rbx)], CPU 1 at [mov (%rbx),%rax], with the same
    address in rbx; the schedule lets CPU 0 go first. *)

Definition demo_hyp : Z := 0xffffffff8117e7d1.
Definition demo_addr (i : bool) : Z := if i then 0xffffffff81003000 else 0xffffffff81002000.

Definition demo_read (paddr : Z) (n : nat) : list Z :=
  take n ((if paddr =? get_phys_addr (demo_addr false) then [0x48; 0x89; 0x03] else [0x48; 0x8b; 0x03])
          ++ replicate 12 0x90).

Definition demo_regs (i : bool) (ra rb rc rd pc : Z) : kvm_regs :=
  mk_kvm_regs ra rb rc rd 0 0 (if i then 0xffff880000018f00 else 0xffff880000028f00) 0 0 0 0 0 0 0 0 0 pc 0.

Definition demo_exit (r : kvm_regs) : guest_run := mk_run r 0 0 (EXIT_DEBUG (mk_dea 1 (rip r) 1 0x602)) 0.

(** CMD_START for CPU [i], and the stop at its breakpoint. *)
Definition demo_start (i : bool) : guest_run :=
  demo_exit (demo_regs i (if i then 1 else 0) CMD_START (Z.land (demo_addr i) 0xffffffff) 0 demo_hyp).
Definition demo_hit (i : bool) : guest_run :=
  demo_exit (demo_regs i 7 0xffff880012340000 0 0 (demo_addr i)).

Definition demo_init : sys :=
  mk_sys (mk2 cpu_zero (set_cpu_index true cpu_zero)) rg_zero (mk2 AtWait AtWait).

Definition demo_prologue (i : bool) : list (bool * action) :=
  [(i, AEnter); (i, ARun); (i, AExit (demo_start i)); (i, AEnter); (i, ATail); (i, ARun); (i, AExit (demo_hit i))].

Definition demo_run (l : list (bool * action)) : option sys :=
  @run_actions kvm_accepts false demo_hyp demo_read (mk_hwg [] 0) (fun _ => false) l demo_init.

(** Both threads are stopped, and CPU 0 has arrived first. *)
Definition demo_schedule : list (bool * action) :=
  demo_prologue false ++ demo_prologue true ++ [(false, AEnter)].

Definition demo_state (l : list (bool * action)) : sys := default demo_init (demo_run l).

Definition demo_meet : sys := demo_state (demo_schedule ++ [(true, AEnter)]).

Notation demo_reachable := (@reachable kvm_accepts false demo_hyp demo_read (mk_hwg [] 0) (fun _ => false)).
Notation demo_step := (@step kvm_accepts false demo_hyp demo_read (mk_hwg [] 0) (fun _ => false)).
Notation demo_sound := (@exec_action_sound kvm_accepts false demo_hyp demo_read (mk_hwg [] 0) (fun _ => false)).

Lemma demo_initial : initial demo_init.
Proof. constructor; intros []; reflexivity. Qed.

Lemma demo_reach l : is_Some (demo_run l) -> demo_reachable (demo_state l).
Proof.
  intros [s E]. unfold demo_state. rewrite E. cbn. exists demo_init. split; [exact demo_initial|].
  exact (run_actions_sound false demo_hyp demo_read (mk_hwg [] 0) (fun _ => false) l demo_init s E).
Qed.

Lemma demo_meet_step : demo_step true (Enter WR_broadcast) (demo_state demo_schedule) demo_meet.
Proof. apply demo_sound with (a := AEnter). vm_compute. reflexivity. Qed.

Lemma demo_schedule_runs : is_Some (demo_run demo_schedule).
Proof. eexists. vm_compute. reflexivity. Qed.

(** After the meeting, CPU 1 blocks on the futex. *)
Definition demo_blocked : sys := demo_state (demo_schedule ++ [(true, AEnter); (true, AFutexBlock)]).

Lemma demo_block_step : demo_step true FutexBlock demo_meet demo_blocked.
Proof. apply demo_sound with (a := AFutexBlock). vm_compute. reflexivity. Qed.

(** CPU 0's wait ends. *)
Definition demo_back : sys :=
  demo_state (demo_schedule ++ [(true, AEnter); (true, AFutexBlock); (false, ACond true)]).

Lemma demo_back_step : demo_step false (CondReturn true) demo_blocked demo_back.
Proof. apply demo_sound with (a := ACond true). vm_compute. reflexivity. Qed.

Lemma one_sleeper_witness :
  waiting (at_place false (demo_state demo_schedule)) = true /\ waiting (at_place true (demo_state demo_schedule)) = false.
Proof.
  pose proof (@one_sleeper kvm_accepts false demo_hyp demo_read (mk_hwg [] 0) (fun _ => false)
    (demo_state demo_schedule) false (demo_reach demo_schedule demo_schedule_runs)) as [_ W].
  split; [vm_compute; reflexivity | apply W; vm_compute; reflexivity].
Defined.

Lemma no_stuck_waiter_witness :
  exists s', demo_step false (CondReturn false) (demo_state demo_schedule) s' /\ at_place false s' = Unlocked.
Proof.
  apply (@no_stuck_waiter kvm_accepts false demo_hyp demo_read (mk_hwg [] 0) (fun _ => false)
    (demo_state demo_schedule) false (demo_reach demo_schedule demo_schedule_runs)).
  vm_compute. reflexivity.
Defined.

Lemma race_is_conflict_witness :
  exists a, conflict (glob demo_meet) a /\ race_addr (glob demo_meet) = mk2 a a.
Proof.
  apply (@race_is_conflict kvm_accepts false demo_hyp demo_read (mk_hwg [] 0) (fun _ => false)
    (demo_state demo_schedule) demo_meet true (Enter WR_broadcast)
    (demo_reach demo_schedule demo_schedule_runs) demo_meet_step); [left; reflexivity|].
  vm_compute. discriminate.
Defined.

Lemma verdicts_agree_witness : is_race (cpu false demo_back) = is_race (cpu true demo_meet).
Proof.
  apply (@verdicts_agree kvm_accepts false demo_hyp demo_read (mk_hwg [] 0) (fun _ => false)
    true (demo_state demo_schedule) demo_meet demo_blocked demo_back true
    (demo_reach demo_schedule demo_schedule_runs) demo_meet_step); [|exact demo_back_step].
  apply rtc_once. exists FutexBlock. split; [exact demo_block_step|]. split; [discriminate|]. vm_compute. reflexivity.
Defined.

Lemma second_waits_for_first_witness :
  CondReturn true <> FutexPass /\ CondReturn true <> FutexWoken.
Proof.
  destruct (@second_waits_for_first kvm_accepts false demo_hyp demo_read (mk_hwg [] 0) (fun _ => false)
    true (demo_state demo_schedule) demo_meet demo_blocked demo_back false (CondReturn true)
    (demo_reach demo_schedule demo_schedule_runs) demo_meet_step) as (W1 & W2 & _); [|exact demo_back_step|auto].
  apply rtc_once. exists true, FutexBlock. split; [exact demo_block_step | discriminate].
Defined.

(** The whole pipeline on a store and a load of one address: from the start
    hypercalls on, both threads stop, both report a race at that address, the second
    thread is held on the futex, and the first one wakes it after its single step. *)
Theorem store_load_race_detected :
  match demo_run (demo_schedule ++ [(true, AEnter); (true, AFutexBlock); (false, ACond true); (false, ATail);
                  (false, ARun);
                  (false, AExit (mk_run (demo_regs false 7 0xffff880012340000 0 0 0xffffffff81002003) 0 0
                                   (EXIT_DEBUG (mk_dea 1 0xffffffff81002003 0x4000 0x602)) 0));
                  (false, AEnter); (false, ATail); (true, AFutexWoken)]) with
  | Some s => is_race (cpu false s) = 1 /\ is_race (cpu true s) = 1 /\
              race_addr (glob s) = mk2 0xffff880012340000 0xffff880012340000 /\
              accessType false (glob s) = Write /\ accessType true (glob s) = Read /\
              go_first (cpu false s) = true /\ go_first (cpu true s) = false
  | None => False
  end.
Proof. vm_compute. repeat split. Qed.
