(* ===== verification/KvmRun.v ===== *)
(** * Around KVM_RUN: interrupts, synchronisation and the whole loop (kvm-all.c, target-i386/kvm.c)

    [kvm_cpu_exec] with everything it does to the virtual CPU: requests that arrived while
    the CPU was outside the guest ([kvm_arch_process_async_events]), the register file
    written back and interrupts injected before KVM_RUN ([kvm_arch_pre_run]), flags taken
    over after it ([kvm_arch_post_run]), and the dispatch of the exit.

    Arguments are: what KVM_RUN leaves in struct kvm_run, the answers of the other ioctls,
    the interrupt the interrupt controller in QEMU has, what that controller does with
    requests meant for it, and what [wait_race], modelled elsewhere, does to the CPU. *)

From Stdlib Require Import ZArith Lia Bool.
From stdpp Require Import base list.
From S2P Require Import Prelude MemOperand MsrSync ByteLayout XSave Apic CpuState HwBreakpoint KvmBreakpoint.
From S2P Require Import RegState RegSync CpuReset Hypercall KvmExec RaceSched.

Open Scope Z_scope.
Open Scope rz.

Definition KVM_RUN_X86_SMM : Z := 1.

(** The fields of struct kvm_run that the architecture code uses. *)
Record kvm_run := mk_kvm_run {
  run_flags : Z; if_flag : bool; ready_for_interrupt_injection : bool; request_interrupt_window : bool;
  run_cr8 : Z; run_apic_base : Z }.

(** The ioctls that inject an event. *)
Inductive injection := KVM_NMI | KVM_SMI | KVM_INTERRUPT (irq : Z).

(** ** Before and after KVM_RUN *)

Definition request_exit (x : X86CPU) : X86CPU := set_cs (set_exit_request true (cs x)) x.

(** NMI and SMI are handed over whatever the state of the guest. *)
Definition inject_nmi_smi (x : X86CPU) : X86CPU * list injection :=
  if bits (interrupt_request x) (Z.lor CPU_INTERRUPT_NMI CPU_INTERRUPT_SMI) then
    let '(x, i) := if bits (interrupt_request x) CPU_INTERRUPT_NMI
                   then (cpu_reset_interrupt CPU_INTERRUPT_NMI x, [KVM_NMI]) else (x, []) in
    if bits (interrupt_request x) CPU_INTERRUPT_SMI
    then (cpu_reset_interrupt CPU_INTERRUPT_SMI x, i ++ [KVM_SMI]) else (x, i)
  else (x, []).

(** INIT and TPR access reports need the thread to leave the inner loop. *)
Definition force_exit (x : X86CPU) : X86CPU :=
  if bits (interrupt_request x) (Z.lor CPU_INTERRUPT_INIT CPU_INTERRUPT_TPR) then
    let x := if bits (interrupt_request x) CPU_INTERRUPT_INIT && negb (bits (hflags (env x)) HF_SMM_MASK)
             then request_exit x else x in
    if bits (interrupt_request x) CPU_INTERRUPT_TPR then request_exit x else x
  else x.

(** With the interrupt controller in QEMU; [pic] is the result of [cpu_get_pic_interrupt]. *)
Definition inject_hard (pic : Z) (x : X86CPU) (run : kvm_run) : X86CPU * kvm_run * list injection :=
  let '(x, i) :=
    if ready_for_interrupt_injection run && bits (interrupt_request x) CPU_INTERRUPT_HARD && bits (eflags (env x)) IF_MASK
    then (cpu_reset_interrupt CPU_INTERRUPT_HARD x, if 0 <=? pic then [KVM_INTERRUPT pic] else [])
    else (x, []) in
  (x, mk_kvm_run (run_flags run) (if_flag run) (ready_for_interrupt_injection run)
        (bits (interrupt_request x) CPU_INTERRUPT_HARD) (cpu_get_apic_tpr (apic_state x)) (run_apic_base run), i).

Definition kvm_arch_pre_run (c : kvm_config) (pic : Z) (x : X86CPU) (run : kvm_run) : X86CPU * kvm_run * list injection :=
  let '(x, i) := inject_nmi_smi x in
  let x := force_exit x in
  if negb (irqchip_in_kernel c) then
    let '(x, run, j) := inject_hard pic x run in (x, run, i ++ j)
  else (x, run, i).

Definition set_eflags (v h : Z) (e : x86_env) : x86_env :=
  mk_env (env_regs e) (eip e) v h (hflags2 e) (segs e) (ldt e) (tr e) (gdt e) (idt e) (cr e) (efer e) (dr e)
    (xcr0 e) (mp_state e) (error_code e) (interrupt_injected e) (soft_interrupt e) (nmi_injected e) (nmi_pending e)
    (sipi_vector e).

(** The result is the attribute of memory accesses, whether the CPU is in system
    management mode. *)
Definition kvm_arch_post_run (run : kvm_run) (x : X86CPU) : bool * X86CPU :=
  let e := env x in
  let h := if bits (run_flags run) KVM_RUN_X86_SMM then Z.lor (hflags e) HF_SMM_MASK else Z.land (hflags e) HF_SMM_MASK in
  let fl := if if_flag run then Z.lor (eflags e) IF_MASK else u64 (Z.land (eflags e) (Z.lnot IF_MASK)) in
  let x := set_env (set_eflags fl h e) x in
  let x := set_apic_state (cpu_set_apic_base (run_apic_base run) (cpu_set_apic_tpr (u8 (run_cr8 run)) (apic_state x))) x in
  (bits (hflags (env x)) HF_SMM_MASK, x).

(** ** Requests *)

Definition exit_int (b : bool) : Z := if b then 1 else 0.

Section events.
Variables (c : kvm_config) (version : Z) (a : answers).
(** The controller in QEMU: [apic_poll_irq], [do_cpu_sipi], [apic_handle_tpr_access_report]. *)
Variables (apic_poll_irq do_cpu_sipi report_tpr : X86CPU -> X86CPU).

(** [CPU_INTERRUPT_MCE]; the second result is that the function returns. *)
Definition async_mce (x : X86CPU) : res (X86CPU * bool) :=
  if bits (interrupt_request x) CPU_INTERRUPT_MCE then
    if mcg_cap (msrs x) =? 0 then Err AssertFail
    else
      let x := cpu_reset_interrupt CPU_INTERRUPT_MCE x in
      let? x := kvm_cpu_synchronize_state c a x in
      if exception_injected (cs x) =? EXCP08_DBLE then Ok (request_exit x, true)
      else
        let x := set_cs (set_has_error_code 0 (set_exception_injected EXCP12_MCHK (cs x))) x in
        let x := set_halted false x in
        Ok (if irqchip_in_kernel c && (mp_state (env x) =? KVM_MP_STATE_HALTED)
            then set_env (set_mp_state KVM_MP_STATE_RUNNABLE (env x)) x else x, false)
  else Ok (x, false).

Definition async_init (x : X86CPU) : res X86CPU :=
  if bits (interrupt_request x) CPU_INTERRUPT_INIT && negb (bits (hflags (env x)) HF_SMM_MASK) then
    let? x := kvm_cpu_synchronize_state c a x in Ok (do_cpu_init c version x)
  else Ok x.

(** A pending interrupt that can be taken, or an NMI. *)
Definition interruptible (x : X86CPU) : bool :=
  bits (interrupt_request x) CPU_INTERRUPT_HARD && bits (eflags (env x)) IF_MASK || bits (interrupt_request x) CPU_INTERRUPT_NMI.

Definition async_user (x : X86CPU) : res X86CPU :=
  let x := if bits (interrupt_request x) CPU_INTERRUPT_POLL
           then apic_poll_irq (cpu_reset_interrupt CPU_INTERRUPT_POLL x) else x in
  let x := if interruptible x then set_halted false x else x in
  let? x := if bits (interrupt_request x) CPU_INTERRUPT_SIPI
            then let? x := kvm_cpu_synchronize_state c a x in Ok (do_cpu_sipi x) else Ok x in
  if bits (interrupt_request x) CPU_INTERRUPT_TPR then
    let x := cpu_reset_interrupt CPU_INTERRUPT_TPR x in
    let? x := kvm_cpu_synchronize_state c a x in Ok (report_tpr x)
  else Ok x.

Definition kvm_arch_process_async_events (x : X86CPU) : res (Z * X86CPU) :=
  let? (x, stop) := async_mce x in
  if (stop : bool) then Ok (0, x)
  else
    let? x := async_init x in
    if irqchip_in_kernel c then Ok (0, x)
    else let? x := async_user x in Ok (exit_int (halted x), x).
End events.

(** [kvm_handle_halt] *)
Definition handle_halt (x : X86CPU) : Z * X86CPU :=
  if negb (interruptible x) then (EXCP_HLT, set_halted true x) else (0, x).

(** ** The loop *)

(** What the other CPU's thread does to the globals around [wait_race]: until the lock is
    taken, in the timed wait, and after the lock is released. *)
Record interference := mk_interference {
  before_lock : race_globals -> race_globals; in_wait : race_globals -> race_globals; signalled : bool;
  after_unlock : race_globals -> race_globals }.

(** [wait_race], from the pieces of its critical section. *)
Definition wait_race (phys_read : Z -> nat -> list Z) (o : interference) (c : CPUState) (g : race_globals) :
    res (CPUState * race_globals) :=
  let? (c, g, w) := wait_race_enter phys_read c (before_lock o g) in
  match w with
  | WR_return => Ok (c, g)
  | WR_sleep =>
      let? (c, g) := wait_race_resume (signalled o) c (in_wait o g) in Ok (wait_race_tail c (after_unlock o g))
  | WR_broadcast | WR_tail => Ok (wait_race_tail c (after_unlock o g))
  end.

(** One round: what the other CPU does before it, the results of the ioctls, the
    controller's interrupt, and what KVM_RUN leaves. *)
Record round := mk_round {
  rd_other : interference;
  rd_code : list ioctl -> Z; rd_pic : Z; rd_before : kvm_run; rd_gr : guest_run; rd_after : kvm_run; rd_answers : answers }.

Section loop.
Context `{KVM} (c : kvm_config) (sw : bool) (version HYPERCALL_ADDR : Z).
Variables (phys_read : Z -> nat -> list Z) (hwg : hw_globals) (sw_breakpoint : Z -> bool).
Variables (apic_poll_irq do_cpu_sipi report_tpr : X86CPU -> X86CPU).

(** [kvm_handle_debug] on the whole CPU. *)
Definition handle_debug (a : answers) (x : X86CPU) (d : debug_exit_arch) : res (Z * X86CPU) :=
  let? (ret, cs') := debug_reason hwg sw_breakpoint (cs x) d in
  let x := set_cs cs' x in
  if ret =? 0 then
    let? x := kvm_cpu_synchronize_state c a x in
    if negb (exception_injected (cs x) =? -1) then Err AssertFail
    else Ok (ret, set_cs (set_has_error_code 0 (set_exception_injected (dea_exception d) (cs x))) x)
  else Ok (ret, x).

Definition kvm_arch_stop_on_emulation_error (a : answers) (x : X86CPU) : res (bool * X86CPU) :=
  let? x := kvm_cpu_synchronize_state c a x in
  Ok (negb (bits (CR (env x) 0) CR0_PE_MASK) || negb (Z.land (selector (seg (env x) R_CS)) 3 =? 3), x).

(** [kvm_handle_internal_error]; writing out the state synchronises it as well. *)
Definition handle_internal_error (a : answers) (emulation : bool) (x : X86CPU) : res (Z * X86CPU) :=
  if emulation then
    let? (stop, x) := kvm_arch_stop_on_emulation_error a x in
    if negb stop then let? x := kvm_cpu_synchronize_state c a x in Ok (EXCP_INTERRUPT, x) else Ok (-1, x)
  else Ok (-1, x).

(** The switch over the exit reason, with [kvm_arch_handle_exit]. *)
Definition handle_exit_x86 (a : answers) (x : X86CPU) (e : kvm_exit) : res (Z * X86CPU) :=
  match e with
  | EXIT_HLT _ => Ok (handle_halt x)
  | EXIT_TPR_ACCESS => Ok (1, report_tpr x)
  | EXIT_DEBUG d => handle_debug a x d
  | EXIT_INTERNAL_ERROR emulation _ => handle_internal_error a emulation x
  | EXIT_IO | EXIT_MMIO | EXIT_SET_TPR | EXIT_SYSTEM_EVENT EVENT_CRASH => Ok (0, x)
  | EXIT_IRQ_WINDOW_OPEN | EXIT_SHUTDOWN | EXIT_SYSTEM_EVENT EVENT_SHUTDOWN | EXIT_SYSTEM_EVENT EVENT_RESET =>
      Ok (EXCP_INTERRUPT, x)
  | EXIT_UNKNOWN | EXIT_FAIL_ENTRY | EXIT_EXCEPTION | EXIT_OTHER | EXIT_SYSTEM_EVENT EVENT_OTHER => Ok (-1, x)
  end.

(** From the return of [wait_race] to KVM_RUN, with the ioctls made. *)
Definition enter_x86 (r : round) (x : X86CPU) : res (X86CPU * list ioctl * list injection) :=
  let? (x, t) :=
    if kvm_vcpu_dirty (cs x) then
      let? (_, (x, t)) := kvm_arch_put_registers c (rd_code r) sw true KVM_PUT_RUNTIME_STATE (x, []) in
      Ok (set_dirty false x, t)
    else Ok (x, []) in
  let '(x, _, i) := kvm_arch_pre_run c (rd_pic r) x (rd_before r) in
  if wait_race_flag (cs x) then Err AssertFail
  else Ok (set_cs (update_registers (cs x)) x, t, i).

(** From KVM_RUN to the test of the loop. *)
Definition leave_x86 (r : round) (x : X86CPU) (g : race_globals) : res (Z * X86CPU * race_globals) :=
  let gr := rd_gr r in
  let? cs' := read_registers (gr_get_err gr) (set_vcpu_regs (gr_regs gr) (cs x)) in
  let '(_, x) := kvm_arch_post_run (rd_after r) (set_cs cs' x) in
  if gr_ret gr <? 0 then
    Ok (if (gr_ret gr =? - EINTR) || (gr_ret gr =? - EAGAIN) then EXCP_INTERRUPT else -1, x, g)
  else
    let? (ret, x) := handle_exit_x86 (rd_answers r) x (gr_exit gr) in
    let? (ret, cs', g) := dispatch_hypercall sw HYPERCALL_ADDR ret (cs x) g (gr_rand gr) in
    Ok (ret, set_cs cs' x, g).

Definition wait_x86 (r : round) (x : X86CPU) (g : race_globals) : res (X86CPU * race_globals) :=
  let? (cs', g) := wait_race phys_read (rd_other r) (cs x) g in Ok (set_cs cs' x, g).

Definition do_round (r : round) (x : X86CPU) (g : race_globals) : res (Z * X86CPU * race_globals) :=
  let? (x, g) := wait_x86 r x g in
  let? (x, _, _) := enter_x86 r x in
  leave_x86 r x g.

(** The loop on a sequence of rounds; [None]: it has not ended within them. *)
Fixpoint exec_loop (l : list round) (x : X86CPU) (g : race_globals) : res (option Z * X86CPU * race_globals) :=
  match l with
  | [] => Ok (None, x, g)
  | r :: l =>
      let? (ret, x, g) := do_round r x g in
      if ret =? 0 then exec_loop l x g else Ok (Some ret, x, g)
  end.

Definition clear_exit (x : X86CPU) : X86CPU := set_cs (set_exit_request false (cs x)) x.

(** [a] answers the ioctls before the loop, [b] those after it. *)
Definition kvm_cpu_exec (a b : answers) (l : list round) (x : X86CPU) (g : race_globals) :
    res (option Z * X86CPU * race_globals) :=
  let? (h, x) := kvm_arch_process_async_events c version a apic_poll_irq do_cpu_sipi report_tpr x in
  if negb (h =? 0) then Ok (Some EXCP_HLT, clear_exit x, g)
  else
    let? (ret, x, g) := exec_loop l x g in
    match ret with
    | None => Ok (None, x, g)
    | Some ret =>
        let? x := if ret <? 0 then kvm_cpu_synchronize_state c b x else Ok x in
        Ok (Some ret, clear_exit x, g)
    end.

(** The states at the head of the loop. *)
Inductive loop_head (a : answers) (x0 : X86CPU) (g0 : race_globals) : X86CPU -> race_globals -> Prop :=
  | head_start x : kvm_arch_process_async_events c version a apic_poll_irq do_cpu_sipi report_tpr x0 = Ok (0, x) ->
      loop_head a x0 g0 x g0
  | head_next r x g x' g' : loop_head a x0 g0 x g -> do_round r x g = Ok (0, x', g') -> loop_head a x0 g0 x' g'.
End loop.

(** ** The handlers leave the synchronisation alone *)

Lemma debug_dirty c c' : same_but_debug c c' -> kvm_vcpu_dirty c' = kvm_vcpu_dirty c.
Proof. intros D. rewrite D. reflexivity. Qed.

Lemma command_dirty `{KVM} sw hyp c g c' g' : handle_hypercall_command sw hyp c g = Ok (c', g') ->
  kvm_vcpu_dirty c' = kvm_vcpu_dirty c.
Proof.
  unfold handle_hypercall_command, guest_gettid, get_command, nonzero_regs.
  cbn [regs set_guest_tid]. destruct (regs c) as [r|] eqn:Er; cbn [of_option rbind]; [|discriminate].
  destruct (_ =? 0); [discriminate|]. set (arg := mk_arg _ _ _ _). clearbody arg.
  destruct (_ =? CMD_START); [|destruct (_ =? CMD_END); [|destruct (_ =? CMD_REFRESH); [|discriminate]]].
  - unfold hypercall_command_start, nonzero_regs. cbn [regs set_guest_tid]. rewrite Er. cbn [of_option rbind].
    destruct (sel _ _); [|intros [= <- <-]; reflexivity].
    destruct (kvm_insert_breakpoint_per_cpu _ _ _) as [[e c1]|] eqn:E; cbn [rbind]; [|discriminate].
    intros [= <- <-]. apply insert_frame, debug_dirty in E. exact E.
  - unfold hypercall_command_end, nonzero_regs. cbn [regs set_guest_tid]. rewrite Er. cbn [of_option rbind].
    destruct (sel _ _); [intros [= <- <-]; reflexivity|].
    destruct (kvm_remove_breakpoint_per_cpu _ _ _) as [[e c1]|] eqn:E; cbn [rbind]; [|discriminate].
    intros [= <- <-]. apply remove_frame, debug_dirty in E. exact E.
  - unfold hypercall_command_refresh, kvm_init_hypercall.
    destruct (kvm_remove_all_breakpoints_per_cpu _ _) as [c1|] eqn:E1; cbn [rbind]; [|discriminate].
    destruct (kvm_insert_breakpoint_per_cpu _ _ _) as [[e c2]|] eqn:E2; cbn [rbind]; [|discriminate].
    intros [= <- <-]. apply remove_all_frame, debug_dirty in E1. apply insert_frame, debug_dirty in E2. cbn in E1. congruence.
Qed.

Lemma breakpoint_dirty `{KVM} sw c rnd c' : handle_hypercall_breakpoint sw c rnd = Ok c' ->
  kvm_vcpu_dirty c' = kvm_vcpu_dirty c.
Proof.
  unfold handle_hypercall_breakpoint, guest_gettid, nonzero_regs.
  destruct (regs c) as [r|] eqn:Er; cbn [of_option rbind]; [|discriminate].
  destruct (_ =? 0); [discriminate|].
  destruct (negb (singlestep_enabled c =? 0)).
  - unfold breakpoint_step. cbv zeta. intros E. destruct (skipping _).
    + destruct (kvm_insert_breakpoint_per_cpu _ _ _) as [[e c1]|] eqn:E1; cbn [rbind] in E; [|discriminate].
      destruct (kvm_update_guest_debug_per_cpu _ _ _) as [[e2 c2]|] eqn:E2; cbn [rbind] in E; [|discriminate].
      injection E as <-. apply insert_frame, debug_dirty in E1. apply update_frame, debug_dirty in E2. cbn in *. congruence.
    + cbn [rbind] in E. destruct (kvm_update_guest_debug_per_cpu _ _ _) as [[e2 c2]|] eqn:E2; cbn [rbind] in E; [|discriminate].
      injection E as <-. apply update_frame, debug_dirty in E2. exact E2.
  - destruct (_ =? rip r); [|intros [= <-]; reflexivity].
    unfold breakpoint_hit. cbv zeta. set (p := if (_ =? _) && _ then _ else _).
    assert (P : kvm_vcpu_dirty p = kvm_vcpu_dirty c) by (unfold p; destruct (_ && _); reflexivity). clearbody p.
    destruct (kvm_remove_breakpoint_per_cpu _ _ _) as [[e c1]|] eqn:E1; cbn [rbind]; [|discriminate].
    destruct (negb (e =? 0)); [discriminate|]. apply remove_frame, debug_dirty in E1.
    set (c2 := if negb (skipping c1) then _ else _).
    assert (C2 : kvm_vcpu_dirty c2 = kvm_vcpu_dirty c) by (unfold c2; destruct (skipping c1); cbn; congruence). clearbody c2.
    destruct (go_first c2); [|intros [= <-]; exact C2].
    destruct (kvm_update_guest_debug_per_cpu _ _ _) as [[e3 c3]|] eqn:E3; cbn [rbind]; [|discriminate].
    intros [= <-]. apply update_frame, debug_dirty in E3. cbn in *. congruence.
Qed.

Lemma dispatch_frame `{KVM} sw hyp ret c g rnd ret' c' g' :
  dispatch_hypercall sw hyp ret c g rnd = Ok (ret', c', g') ->
  kvm_vcpu_dirty c' = kvm_vcpu_dirty c /\ (ret <> EXCP_DEBUG -> ret' = ret /\ c' = c) /\
  (ret = EXCP_DEBUG -> regs c <> None -> ret' = 0) /\ (regs c <> None -> regs c' <> None).
Proof.
  unfold dispatch_hypercall. destruct (Z.eqb_spec ret EXCP_DEBUG) as [-> | Hne].
  2: { intros [= <- <- <-]. split; [reflexivity|]. split; [auto | split; [contradiction | auto]]. }
  destruct (check_hypercall hyp c) as [ty c2] eqn:Ec.
  assert (kvm_vcpu_dirty c2 = kvm_vcpu_dirty c /\ (regs c <> None -> regs c2 <> None) /\
    (regs c <> None -> ty <> HYPERCALL_NOPE /\ ty <> HYPERCALL_IOCTL_ERR)) as (E2 & R2 & Hty).
  { revert Ec. unfold check_hypercall. destruct (regs c) as [r|] eqn:Er; [|intros [= <- <-]; split; [reflexivity | split; congruence]].
    destruct (rip r =? hyp); [|intros [= <- <-]; split; [reflexivity | split; [congruence | split; discriminate]]].
    destruct (_ || _); intros [= <- <-]; (split; [reflexivity | split; [discriminate | split; discriminate]]). }
  destruct ty; try discriminate.
  - intros [= <- <- <-]. split; [exact E2|]. split; [contradiction|]. split; [|exact R2]. intros _ Hr. destruct (Hty Hr). contradiction.
  - destruct (handle_hypercall_breakpoint sw c2 _) as [c3|] eqn:Eb; cbn [rbind]; [|discriminate].
    intros [= <- <- <-]. pose proof (breakpoint_frame _ _ _ _ Eb) as [_ F]. apply breakpoint_dirty in Eb.
    split; [congruence|]. split; [contradiction | auto].
  - destruct (handle_hypercall_command sw hyp c2 g) as [[c3 g3]|] eqn:Eb; cbn [rbind]; [|discriminate].
    intros [= <- <- <-]. pose proof (command_frame _ _ _ _ _ _ Eb) as [[_ F] _]. apply command_dirty in Eb.
    split; [congruence|]. split; [contradiction | auto].
  - intros [= <- <- <-]. split; [exact E2|]. split; [contradiction|]. split; [|exact R2]. intros _ Hr. destruct (Hty Hr). contradiction.
Qed.

(** ** Synchronisation leaves Razzer's fields alone *)

Record same_race_fields (c c' : CPUState) : Prop := {
  rf_index : cpu_index c' = cpu_index c; rf_flag : wait_race_flag c' = wait_race_flag c; rf_regs : regs c' = regs c;
  rf_update : update_regs c' = update_regs c; rf_dirty : kvm_vcpu_dirty c' = kvm_vcpu_dirty c;
  rf_exit : exit_request c' = exit_request c }.

#[export] Instance same_race_fields_refl : Reflexive same_race_fields.
Proof. intros c. constructor; reflexivity. Qed.

#[export] Instance same_race_fields_trans : Transitive same_race_fields.
Proof. intros a b c [] []. constructor; congruence. Qed.

Lemma get_cs_frame c a : Forall (fun f => forall x ret x', True -> f x = Ok (ret, x') ->
  same_race_fields (cs x) (cs x') /\ vcpu_regs (cs x') = vcpu_regs (cs x)) (get_calls c a).
Proof.
  assert (forall f x ret x', on_env f x = Ok (ret, x') -> same_race_fields (cs x) (cs x') /\ vcpu_regs (cs x') = vcpu_regs (cs x)) as He.
  { intros f x ret x' E. unfold on_env in E. destruct (f (env x)). injection E as _ <-. split; reflexivity. }
  unfold get_calls. repeat (apply Forall_cons; split); [..|apply Forall_nil; exact I]; intros x ret x' _ E; try (eapply He, E).
  - unfold call_get_xsave in E. destruct (kvm_get_xsave _ _ _). injection E as _ <-. split; reflexivity.
  - unfold call_get_msrs in E. destruct (kvm_get_msrs _ _ _ _) as [[r m]|]; cbn [rbind] in E; [|discriminate].
    injection E as _ <-. split; reflexivity.
  - unfold call_get_mp_state, kvm_get_mp_state in E. destruct (a_mp a) as [r s]. destruct (r <? 0); injection E as _ <-; [split; reflexivity|].
    destruct (irqchip_in_kernel c); split; reflexivity.
  - unfold kvm_get_apic in E. repeat case_match; simplify_eq; split; reflexivity.
  - unfold call_get_vcpu_events, kvm_get_vcpu_events in E. destruct (negb (has_vcpu_events c)); [injection E as _ <-; split; reflexivity|].
    destruct (a_events a) as [r ev]. destruct (r <? 0); [injection E as _ <-; split; reflexivity|]. cbv zeta in E.
    destruct (bits (ev_flags ev) _); [|injection E as _ <-; split; [constructor|]; reflexivity].
    destruct (negb (ev_smi_pending ev =? 0)), (negb (ev_latched_init ev =? 0)); injection E as _ <-; (split; [constructor|]; reflexivity).
Qed.

Lemma get_frame c a x ret x' : kvm_arch_get_registers c a true x = Ok (ret, x') ->
  same_race_fields (cs x) (cs x') /\ vcpu_regs (cs x') = vcpu_regs (cs x).
Proof.
  unfold kvm_arch_get_registers. cbn [negb].
  apply (run_calls_inv (fun y => same_race_fields (cs x) (cs y) /\ vcpu_regs (cs y) = vcpu_regs (cs x))); [|split; reflexivity].
  eapply Forall_impl; [apply get_cs_frame|]. intros f Hf s r s' [H1 H2] E. destruct (Hf s r s' I E) as [H3 H4].
  split; [etrans; eassumption | congruence].
Qed.

(** After synchronisation QEMU's copy is the valid one. *)
Lemma sync_frame c a x x' : kvm_cpu_synchronize_state c a x = Ok x' ->
  kvm_vcpu_dirty (cs x') = true /\ update_regs (cs x') = update_regs (cs x) /\ regs (cs x') = regs (cs x) /\
  wait_race_flag (cs x') = wait_race_flag (cs x) /\ vcpu_regs (cs x') = vcpu_regs (cs x) /\ cpu_index (cs x') = cpu_index (cs x).
Proof.
  unfold kvm_cpu_synchronize_state, do_kvm_cpu_synchronize_state.
  destruct (kvm_vcpu_dirty (cs x)) eqn:Ed; cbn [negb]; [intros [= <-]; auto 10|].
  destruct (kvm_arch_get_registers c a true x) as [[r y]|] eqn:E; cbn [rbind]; [|discriminate]. intros [= <-].
  apply get_frame in E as [[] Hv]. cbn. auto 10.
Qed.

Lemma put_cs_frame `{KVM} c code sw level : Forall (fun f => forall s ret s', True -> f s = Ok (ret, s') ->
  same_race_fields (cs s.1) (cs s'.1)) (put_calls c code sw level).
Proof.
  unfold put_calls, when.
  repeat first [apply Forall_app; split | apply Forall_cons; split | apply Forall_nil; exact I | case_match];
    intros [x t] ret s' _ E; try (injection E as _ <-; reflexivity).
  all: try (unfold call_put_regs, do_ioctl in E; cbn [fst snd] in E; destruct (_ <? 0); injection E as _ <-;
            (reflexivity || (constructor; reflexivity))).
  all: try (unfold call_put_xcrs, call_put_debugregs in E; destruct (negb _); injection E as _ <-; reflexivity).
  all: try (unfold call_put_sregs in E; destruct (kvm_put_sregs _ _); cbn [rbind] in E; [|discriminate]; injection E as _ <-; reflexivity).
  all: try (unfold call_put_msrs in E; destruct (kvm_put_msrs _ _ _); cbn [rbind] in E; [|discriminate]; injection E as _ <-; reflexivity).
  all: try (unfold kvm_put_apic in E; repeat case_match; injection E as _ <-; reflexivity).
  all: try (unfold call_put_tscdeadline_msr in E; destruct (kvm_put_tscdeadline_msr _ _); injection E as _ <-; reflexivity).
  - unfold kvm_inject_mce_oldstyle in E. cbn [fst snd] in E. destruct (_ && _); [|injection E as _ <-; reflexivity].
    destruct (find_bank _ _ _) as [b|]; cbn [rbind] in E; [|discriminate].
    destruct (mce_of _ _) as [m|]; cbn [rbind] in E; [|discriminate]. injection E as _ <-. constructor; reflexivity.
  - unfold call_put_vcpu_events in E. destruct (negb _); [injection E as _ <-; reflexivity|].
    cbn [kvm_put_vcpu_events fst] in E. injection E as _ <-. cbn [fst do_ioctl]. destruct (_ && _); reflexivity.
  - unfold kvm_guest_debug_workarounds in E. cbn [fst snd] in E.
    set (p := if negb (has_vcpu_events c) then _ else _) in E.
    assert (same_race_fields (cs x) (cs p.2)) as Hp by (unfold p; destruct (negb _); [constructor; reflexivity | reflexivity]).
    destruct p as [trap y]. cbn [snd] in Hp. destruct (_ || _); [|injection E as _ <-; exact Hp].
    destruct (kvm_update_guest_debug sw (cs y) trap) as [[r d]|] eqn:Eu; cbn [rbind] in E; [|discriminate]. injection E as _ <-.
    unfold kvm_update_guest_debug in Eu. apply update_frame in Eu. etrans; [exact Hp|]. cbn.
    rewrite Eu. constructor; reflexivity.
Qed.

Lemma put_frame `{KVM} c code sw level s ret s' : kvm_arch_put_registers c code sw true level s = Ok (ret, s') ->
  same_race_fields (cs s.1) (cs s'.1).
Proof.
  unfold kvm_arch_put_registers. cbn [negb].
  apply (run_calls_inv (fun y => same_race_fields (cs s.1) (cs y.1))); [|reflexivity].
  eapply Forall_impl; [apply put_cs_frame|]. intros f Hf y r y' H1 E. etrans; [exact H1 | exact (Hf y r y' I E)].
Qed.

(** Every call but the first leaves the kernel's general registers alone. *)
Lemma rest_vcpu_regs `{KVM} c code sw : Forall (fun f => forall s ret s', True -> f s = Ok (ret, s') ->
  vcpu_regs (cs s'.1) = vcpu_regs (cs s.1)) (tail (put_calls c code sw KVM_PUT_RUNTIME_STATE)).
Proof.
  change (tail (put_calls c code sw KVM_PUT_RUNTIME_STATE)) with
    [call_put_xsave c code; call_put_xcrs c code; call_put_sregs code; kvm_inject_mce_oldstyle c code;
     call_put_msrs c code KVM_PUT_RUNTIME_STATE; call_put_tscdeadline_msr c code; call_put_vcpu_events c code KVM_PUT_RUNTIME_STATE;
     call_put_debugregs c code; kvm_guest_debug_workarounds c sw].
  repeat (apply Forall_cons; split); [..|apply Forall_nil; exact I]; intros [x t] ret s' _ E.
  - injection E as _ <-. reflexivity.
  - unfold call_put_xcrs in E. destruct (negb _); injection E as _ <-; reflexivity.
  - unfold call_put_sregs in E. destruct (kvm_put_sregs _ _); cbn [rbind] in E; [|discriminate]. injection E as _ <-. reflexivity.
  - unfold kvm_inject_mce_oldstyle in E. cbn [fst snd] in E. destruct (_ && _); [|injection E as _ <-; reflexivity].
    destruct (find_bank _ _ _) as [b|]; cbn [rbind] in E; [|discriminate].
    destruct (mce_of _ _) as [m|]; cbn [rbind] in E; [|discriminate]. injection E as _ <-. reflexivity.
  - unfold call_put_msrs in E. destruct (kvm_put_msrs _ _ _); cbn [rbind] in E; [|discriminate]. injection E as _ <-. reflexivity.
  - unfold call_put_tscdeadline_msr in E. destruct (kvm_put_tscdeadline_msr _ _); injection E as _ <-; reflexivity.
  - unfold call_put_vcpu_events in E. destruct (negb _); [injection E as _ <-; reflexivity|].
    cbn [kvm_put_vcpu_events fst] in E. injection E as _ <-. cbn [fst do_ioctl]. destruct (_ && _); reflexivity.
  - unfold call_put_debugregs in E. destruct (negb _); injection E as _ <-; reflexivity.
  - unfold kvm_guest_debug_workarounds in E. cbn [fst snd] in E.
    set (p := if negb (has_vcpu_events c) then _ else _) in E.
    assert (vcpu_regs (cs p.2) = vcpu_regs (cs x)) as Hp by (unfold p; destruct (negb _); reflexivity).
    destruct p as [trap y]. cbn [snd] in Hp. destruct (_ || _); [|injection E as _ <-; exact Hp].
    destruct (kvm_update_guest_debug sw (cs y) trap) as [[r d]|] eqn:Eu; cbn [rbind] in E; [|discriminate]. injection E as _ <-.
    unfold kvm_update_guest_debug in Eu. apply update_frame in Eu. cbn. rewrite Eu. exact Hp.
Qed.

(** The general registers the kernel has after a transfer before KVM_RUN. *)
Lemma put_vcpu_regs `{KVM} c code sw x ret x' t :
  kvm_arch_put_registers c code sw true KVM_PUT_RUNTIME_STATE (x, []) = Ok (ret, (x', t)) ->
  vcpu_regs (cs x') = if code [SET_REGS (kvm_put_regs (env x))] <? 0 then vcpu_regs (cs x) else kvm_put_regs (env x).
Proof.
  unfold kvm_arch_put_registers. cbn [negb].
  change (put_calls c code sw KVM_PUT_RUNTIME_STATE) with (call_put_regs code :: tail (put_calls c code sw KVM_PUT_RUNTIME_STATE)).
  cbn [run_calls]. unfold call_put_regs at 1, do_ioctl. cbn [fst snd rbind].
  destruct (code [SET_REGS (kvm_put_regs (env x))] <? 0); [intros [= _ <- _]; reflexivity|].
  intros E. apply (run_calls_inv (fun s => vcpu_regs (cs s.1) = kvm_put_regs (env x))) in E; [exact E | | reflexivity].
  eapply Forall_impl; [apply rest_vcpu_regs|]. intros f Hf s r s' H1 E1. rewrite (Hf s r s' I E1). exact H1.
Qed.

Lemma pre_run_cs c pic x run : let y := (kvm_arch_pre_run c pic x run).1.1 in
  kvm_vcpu_dirty (cs y) = kvm_vcpu_dirty (cs x) /\ update_regs (cs y) = update_regs (cs x) /\ regs (cs y) = regs (cs x) /\
  wait_race_flag (cs y) = wait_race_flag (cs x) /\ vcpu_regs (cs y) = vcpu_regs (cs x).
Proof.
  unfold kvm_arch_pre_run.
  assert (cs (inject_nmi_smi x).1 = cs x) as H1.
  { unfold inject_nmi_smi. destruct (bits _ (Z.lor _ _)); [|reflexivity].
    destruct (bits (interrupt_request x) CPU_INTERRUPT_NMI); destruct (bits _ CPU_INTERRUPT_SMI); reflexivity. }
  destruct (inject_nmi_smi x) as [x1 i]. cbn [fst] in H1. cbv zeta.
  assert (exists b, cs (force_exit x1) = set_exit_request b (cs x1)) as [b H2].
  { exists (exit_request (cs (force_exit x1))). unfold force_exit.
    destruct x1 as [[] ? ? ? ? ? ?]. cbn. repeat case_match; reflexivity. }
  assert (forall y, cs y = set_exit_request b (cs x) -> kvm_vcpu_dirty (cs y) = kvm_vcpu_dirty (cs x) /\
    update_regs (cs y) = update_regs (cs x) /\ regs (cs y) = regs (cs x) /\
    wait_race_flag (cs y) = wait_race_flag (cs x) /\ vcpu_regs (cs y) = vcpu_regs (cs x)) as H3
    by (intros y ->; repeat split).
  rewrite H1 in H2. destruct (negb (irqchip_in_kernel c)); [|apply H3, H2].
  unfold inject_hard. destruct (_ && _ && _); cbn [fst]; apply H3, H2.
Qed.

(** ** The two copies of the general registers *)

(** Razzer's copy of the registers, its wait flag and the identity of the CPU are unchanged. *)
Record kept (k k' : CPUState) : Prop := {
  kept_update : update_regs k' = update_regs k; kept_regs : regs k' = regs k;
  kept_index : cpu_index k' = cpu_index k; kept_flag : wait_race_flag k' = wait_race_flag k }.

#[export] Instance kept_refl : Reflexive kept.
Proof. intros k. constructor; reflexivity. Qed.

#[export] Instance kept_trans : Transitive kept.
Proof. intros a b d [] []. constructor; congruence. Qed.

Lemma sync_kept c a x x' : kvm_cpu_synchronize_state c a x = Ok x' -> kept (cs x) (cs x').
Proof. intros (_ & H1 & H2 & H3 & _ & H4)%sync_frame. constructor; assumption. Qed.

(** A part of the controller in QEMU may have the register file fetched, but has nothing to
    do with Razzer's fields. *)
Definition keeps_update (f : X86CPU -> X86CPU) : Prop := forall x, kept (cs x) (cs (f x)).

(** [wait_race] changes neither copy. *)
Lemma wait_race_copies phys_read o k g k' g' : wait_race phys_read o k g = Ok (k', g') ->
  update_regs k' = update_regs k /\ kvm_vcpu_dirty k' = kvm_vcpu_dirty k /\ regs k' = regs k /\ vcpu_regs k' = vcpu_regs k.
Proof.
  set (same := fun k k' => update_regs k' = update_regs k /\ kvm_vcpu_dirty k' = kvm_vcpu_dirty k /\
    regs k' = regs k /\ vcpu_regs k' = vcpu_regs k).
  assert (forall k b s k', verdict k b s = Ok k' -> same k k') as Hv.
  { intros k0 b s k1. unfold verdict. destruct (negb _); [discriminate|]. intros [= <-]. repeat split. }
  assert (forall k g, same k (wait_race_tail k g).1) as Ht.
  { intros k0 g0. unfold wait_race_tail. cbv zeta. destruct (waits_on_futex k0), (wakes_futex _); repeat split. }
  assert (forall g, same k (refresh k g).1) as Hr.
  { intros g0. unfold refresh. destruct (sel _ _); repeat split. }
  assert (forall a b d, same a b -> same b d -> same a d) as Htr.
  { intros a b d (A1 & A2 & A3 & A4) (B1 & B2 & B3 & B4). repeat split; congruence. }
  unfold wait_race. destruct (wait_race_enter _ _ _) as [[[k1 g1] w]|] eqn:E; cbn [rbind]; [|discriminate].
  assert (same k k1) as H1.
  { revert E. unfold wait_race_enter. destruct (regs k) as [r|]; [|intros [= <- _ _]; repeat split].
    specialize (Hr (before_lock o g)). destruct (refresh k _) as [k0 g0]. cbn [fst] in Hr. cbv zeta.
    destruct (wait_race_flag k0); [|intros [= <- _ _]; exact Hr].
    destruct (locate_access _ _ _ _) as [g2|]; cbn [rbind]; [|discriminate].
    destruct (sel _ (phase g2)); [intros [= <- _ _]; exact Hr|..]; destruct (is_same_address _) as [s g3];
      (destruct (verdict k0 _ s) as [k2|] eqn:Ev; cbn [rbind]; [|discriminate]); intros [= <- _ _]; eapply Htr; eauto. }
  assert (forall k g, (wait_race_tail k g) = (k', g') -> same k k') as Ht'.
  { intros k0 g0 E0. specialize (Ht k0 g0). rewrite E0 in Ht. exact Ht. }
  destruct w; [intros [= <- _]; exact H1 | | intros [= E0]; eapply Htr; [exact H1 | eapply Ht', E0] ..].
  destruct (wait_race_resume _ _ _) as [[k2 g2]|] eqn:Ew; cbn [rbind]; [|discriminate].
  intros [= E0]. eapply Htr; [exact H1|]. eapply Htr; [|eapply Ht', E0].
  revert Ew. unfold wait_race_resume. cbv zeta. destruct (is_same_address _) as [s g3].
  destruct (verdict k1 _ s) as [k3|] eqn:Ev; cbn [rbind]; [|discriminate]. intros [= <- _]. eapply Hv, Ev.
Qed.

Section copies.
Context `{KVM} (c : kvm_config) (sw : bool) (version HYPERCALL_ADDR : Z) (phys_read : Z -> nat -> list Z).
Context (hwg : hw_globals) (sw_breakpoint : Z -> bool).
Context (apic_poll_irq do_cpu_sipi report_tpr : X86CPU -> X86CPU).
Context (Kpoll : keeps_update apic_poll_irq) (Ksipi : keeps_update do_cpu_sipi) (Ktpr : keeps_update report_tpr).

Lemma debug_loop_frame fuel : forall n d ret k ret' k', debug_loop hwg fuel n d ret k = Ok (ret', k') ->
  update_regs k' = update_regs k /\ regs k' = regs k /\ kvm_vcpu_dirty k' = kvm_vcpu_dirty k.
Proof.
  induction fuel as [|fuel IH]; intros n d ret k ret' k'; cbn [debug_loop]; [intros [= _ <-]; auto|].
  destruct (bits _ _); [|apply IH]. destruct (_ =? 0); [apply IH|].
  destruct (_ || _); [|apply IH]. destruct (hw_breakpoint hwg !! n); cbn [of_option rbind]; [|discriminate].
  intros E. apply IH in E. exact E.
Qed.

Lemma debug_reason_frame k d ret k' : debug_reason hwg sw_breakpoint k d = Ok (ret, k') ->
  update_regs k' = update_regs k /\ regs k' = regs k /\ kvm_vcpu_dirty k' = kvm_vcpu_dirty k.
Proof.
  unfold debug_reason. destruct (_ =? 1); [|intros [= _ <-]; auto].
  destruct (bits _ _); [intros [= _ <-]; auto | apply debug_loop_frame].
Qed.

(** An exit handler leaves Razzer's copy, and a debug exit that is dispatched QEMU's too. *)
Lemma exit_frame a x e ret x' : handle_exit_x86 c hwg sw_breakpoint report_tpr a x e = Ok (ret, x') ->
  update_regs (cs x') = update_regs (cs x) /\ regs (cs x') = regs (cs x) /\
  (ret = EXCP_DEBUG -> kvm_vcpu_dirty (cs x') = kvm_vcpu_dirty (cs x)).
Proof using Ktpr.
  intros E. destruct e as [| | | | |em st|ev|i| | | | |d|]; cbn [handle_exit_x86] in E; try (injection E as <- <-; auto; fail).
  - unfold handle_internal_error, kvm_arch_stop_on_emulation_error in E.
    destruct em; [|injection E as <- <-; split; [|split; [|discriminate]]; reflexivity].
    destruct (kvm_cpu_synchronize_state c a x) as [y|] eqn:Ey; cbn [rbind] in E; [|discriminate].
    apply sync_frame in Ey as (_ & Y1 & Y2 & _).
    destruct (negb _); [|injection E as <- <-; split; [exact Y1|]; split; [exact Y2 | discriminate]].
    destruct (kvm_cpu_synchronize_state c a y) as [z|] eqn:Ez; cbn [rbind] in E; [|discriminate].
    apply sync_frame in Ez as (_ & Z1 & Z2 & _). injection E as <- <-. split; [congruence|]. split; [congruence | discriminate].
  - destruct ev; injection E as <- <-; auto.
  - unfold handle_halt in E. destruct (negb _); injection E as <- <-; auto.
  - injection E as <- <-. destruct (Ktpr x) as [K1 K2 _ _]. split; [exact K1|]. split; [exact K2 | discriminate].
  - unfold handle_debug in E.
    destruct (debug_reason hwg sw_breakpoint (cs x) d) as [[r k]|] eqn:Er; cbn [rbind] in E; [|discriminate].
    apply debug_reason_frame in Er as (R1 & R2 & R3).
    destruct (Z.eqb_spec r 0) as [-> | Hr]; [|injection E as <- <-; auto].
    destruct (kvm_cpu_synchronize_state c a (set_cs k x)) as [y|] eqn:Ey; cbn [rbind] in E; [|discriminate].
    destruct (negb _); [discriminate|]. injection E as <- <-. apply sync_frame in Ey as (_ & Y1 & Y2 & _).
    cbn in *. split; [congruence|]. split; [congruence | discriminate].
Qed.

(** What the kernel has when the guest is resumed, unless both copies claim to be the
    valid one. *)
Lemma enter_frame r x x' t i : enter_x86 c sw r x = Ok (x', t, i) ->
  kvm_vcpu_dirty (cs x') = false /\
  (vcpu_regs (cs x') =
    (if update_regs (cs x) then default (vcpu_regs (cs x)) (regs (cs x))
     else if kvm_vcpu_dirty (cs x) then
       (if rd_code r [SET_REGS (kvm_put_regs (env x))] <? 0 then vcpu_regs (cs x) else kvm_put_regs (env x))
     else vcpu_regs (cs x)) \/ (update_regs (cs x) = true /\ regs (cs x) = None)).
Proof using.
  intros E. unfold enter_x86 in E.
  set (p := if kvm_vcpu_dirty (cs x) then _ else _) in E. destruct p as [[y t']|] eqn:Ep; cbn [rbind] in E; [|discriminate].
  assert (kvm_vcpu_dirty (cs y) = false /\ update_regs (cs y) = update_regs (cs x) /\ regs (cs y) = regs (cs x) /\
    vcpu_regs (cs y) = if kvm_vcpu_dirty (cs x) then
       (if rd_code r [SET_REGS (kvm_put_regs (env x))] <? 0 then vcpu_regs (cs x) else kvm_put_regs (env x))
     else vcpu_regs (cs x)) as (Y1 & Y2 & Y3 & Y4).
  { subst p. destruct (kvm_vcpu_dirty (cs x)) eqn:Ed; [|injection Ep as <- <-; auto].
    destruct (kvm_arch_put_registers c (rd_code r) sw true KVM_PUT_RUNTIME_STATE (x, [])) as [[q [z u]]|] eqn:Eq; cbn [rbind] in Ep; [|discriminate].
    injection Ep as <- <-. pose proof (put_vcpu_regs _ _ _ _ _ _ _ Eq) as Hv. apply put_frame in Eq as []. cbn in *. auto. }
  pose proof (pre_run_cs c (rd_pic r) y (rd_before r)) as Hp. destruct (kvm_arch_pre_run c (rd_pic r) y (rd_before r)) as [[z b] j].
  cbv zeta in Hp. cbn [fst] in Hp. destruct Hp as (P1 & P2 & P3 & P4 & P5).
  destruct (wait_race_flag (cs z)); [discriminate|]. injection E as <- _ _. cbn [cs set_cs].
  split; [unfold update_registers; destruct (update_regs (cs z)); [destruct (regs (cs z))|]; cbn; congruence|].
  unfold update_registers. rewrite P2, P3, Y2, Y3. destruct (update_regs (cs x)) eqn:Eu; [|left; cbn; congruence].
  destruct (regs (cs x)) eqn:Er; [left; reflexivity | right; auto].
Qed.

(** The exit is handled with the registers KVM_RUN left. *)
Lemma leave_frame r x g ret x' g' :
  leave_x86 c sw HYPERCALL_ADDR hwg sw_breakpoint report_tpr r x g = Ok (ret, x', g') ->
  regs (cs x') <> None /\ ret <> EXCP_DEBUG /\ (ret <> 0 -> update_regs (cs x') = false) /\
  (kvm_vcpu_dirty (cs x) = false -> kvm_vcpu_dirty (cs x') = true -> update_regs (cs x') = false).
Proof using Ktpr.
  unfold leave_x86, read_registers. cbv zeta. destruct (gr_get_err _ <? 0); cbn [rbind]; [discriminate|].
  set (k := set_update_regs _ _). cbn [vcpu_regs set_vcpu_regs] in k.
  destruct (kvm_arch_post_run (rd_after r) (set_cs k x)) as [smm y] eqn:Ey.
  assert (cs y = k) as Hk by (unfold kvm_arch_post_run in Ey; injection Ey as _ <-; reflexivity).
  assert (update_regs (cs y) = false /\ regs (cs y) <> None /\ kvm_vcpu_dirty (cs y) = kvm_vcpu_dirty (cs x)) as (Y1 & Y2 & Y3)
    by (rewrite Hk; split; [reflexivity|]; split; [discriminate | reflexivity]). clear Ey Hk.
  destruct (gr_ret _ <? 0).
  { destruct (_ || _); intros [= <- <- _]; (split; [exact Y2|]); (split; [discriminate | auto]). }
  destruct (handle_exit_x86 _ _ _ _ _ y _) as [[q z]|] eqn:Ez; cbn [rbind]; [|discriminate].
  apply exit_frame in Ez as (Z1 & Z2 & Z3).
  destruct (dispatch_hypercall _ _ q (cs z) g _) as [[[q' k'] g2]|] eqn:Ed; cbn [rbind]; [|discriminate].
  intros [= <- <- _]. apply dispatch_frame in Ed as (D1 & D2 & D3 & D4). rewrite Z2 in *. cbn [cs set_cs].
  destruct (Z.eq_dec q EXCP_DEBUG) as [-> | Hq].
  - rewrite (D3 eq_refl Y2). split; [exact (D4 Y2)|]. split; [discriminate|]. split; [contradiction|].
    intros Hd. rewrite D1, (Z3 eq_refl), Y3, Hd. discriminate.
  - destruct (D2 Hq) as [-> ->]. split; [congruence|]. split; [exact Hq|]. split; congruence.
Qed.

Lemma init_kept x : kept (cs x) (cs (do_cpu_init c version x)).
Proof using.
  assert (forall y, cs (kvm_arch_do_init_vcpu y) = cs y) as Hi by (intros y; unfold kvm_arch_do_init_vcpu; destruct (_ =? _); reflexivity).
  unfold do_cpu_init, finish_init. cbv zeta. cbn [cs set_apic_state]. rewrite Hi. constructor; reflexivity.
Qed.

Lemma async_mce_kept a x y stop : async_mce c a x = Ok (y, stop) -> kept (cs x) (cs y).
Proof using.
  unfold async_mce. destruct (bits _ _); [|intros [= <- _]; reflexivity]. destruct (_ =? 0); [discriminate|].
  destruct (kvm_cpu_synchronize_state _ _ _) as [z|] eqn:Ez; cbn [rbind]; [|discriminate]. apply sync_kept in Ez.
  destruct (_ =? EXCP08_DBLE); intros [= <- _]; [etrans; [exact Ez|]; constructor; reflexivity|].
  destruct (_ && _); (etrans; [exact Ez|]; constructor; reflexivity).
Qed.

Lemma async_init_kept a x y : async_init c version a x = Ok y -> kept (cs x) (cs y).
Proof using.
  unfold async_init. destruct (_ && _); [|intros [= <-]; reflexivity].
  destruct (kvm_cpu_synchronize_state _ _ _) as [w|] eqn:Ew; cbn [rbind]; [|discriminate]. apply sync_kept in Ew.
  intros [= <-]. etrans; [exact Ew | apply init_kept].
Qed.

(** A request served by [f] after a synchronisation. *)
Lemma served_kept a f x y : keeps_update f ->
  (let? x := kvm_cpu_synchronize_state c a x in Ok (f x)) = Ok y -> kept (cs x) (cs y).
Proof using.
  intros Kf. destruct (kvm_cpu_synchronize_state c a x) as [z|] eqn:Ez; cbn [rbind]; [|discriminate].
  intros [= <-]. etrans; [eapply sync_kept, Ez | apply Kf].
Qed.

Lemma async_user_kept a x y : async_user c a apic_poll_irq do_cpu_sipi report_tpr x = Ok y -> kept (cs x) (cs y).
Proof using Kpoll Ksipi Ktpr.
  unfold async_user. cbv zeta. set (p := if bits (interrupt_request x) CPU_INTERRUPT_POLL then _ else x).
  assert (kept (cs x) (cs p)) as Hp by (unfold p; destruct (bits _ _); [exact (Kpoll (cpu_reset_interrupt CPU_INTERRUPT_POLL x)) | reflexivity]).
  clearbody p. set (q := if interruptible p then _ else p).
  assert (kept (cs x) (cs q)) as Hq by (unfold q; destruct (interruptible p); exact Hp). clearbody q.
  match goal with |- context [if bits (interrupt_request q) CPU_INTERRUPT_SIPI then ?A else ?B] =>
    destruct (if bits (interrupt_request q) CPU_INTERRUPT_SIPI then A else B) as [v|] eqn:Eo end; cbn [rbind]; [|discriminate].
  assert (kept (cs x) (cs v)) as Hv.
  { destruct (bits (interrupt_request q) _) in Eo; [|injection Eo as <-; exact Hq].
    etrans; [exact Hq | eapply served_kept; [exact Ksipi | exact Eo]]. }
  destruct (bits (interrupt_request v) _); [|intros E; injection E as <-; exact Hv].
  intros E. etrans; [exact Hv|]. apply served_kept in E; [exact E | exact Ktpr].
Qed.

Lemma async_kept a x h x' :
  kvm_arch_process_async_events c version a apic_poll_irq do_cpu_sipi report_tpr x = Ok (h, x') -> kept (cs x) (cs x').
Proof using Kpoll Ksipi Ktpr.
  unfold kvm_arch_process_async_events. destruct (async_mce c a x) as [[y stop]|] eqn:Em; cbn [rbind]; [|discriminate].
  apply async_mce_kept in Em. destruct stop; [intros [= _ <-]; exact Em|].
  destruct (async_init c version a y) as [z|] eqn:Ei; cbn [rbind]; [|discriminate]. apply async_init_kept in Ei.
  destruct (irqchip_in_kernel c); [intros [= _ <-]; etrans; eassumption|].
  destruct (async_user c a _ _ _ z) as [w|] eqn:Eu; cbn [rbind]; [|discriminate]. intros [= _ <-].
  apply async_user_kept in Eu. etrans; [exact Em|]. etrans; eassumption.
Qed.

Notation head := (loop_head c sw version HYPERCALL_ADDR phys_read hwg sw_breakpoint apic_poll_irq do_cpu_sipi report_tpr).
Notation one_round := (do_round c sw HYPERCALL_ADDR phys_read hwg sw_breakpoint report_tpr).

(** Never both copies of the registers are ahead of the kernel's. *)
Definition copies_ok (k : CPUState) : Prop :=
  (kvm_vcpu_dirty k = true -> update_regs k = false) /\ (update_regs k = true -> regs k <> None).

Lemma round_copies r x g ret x' g' : one_round r x g = Ok (ret, x', g') ->
  copies_ok (cs x') /\ ret <> EXCP_DEBUG /\ (ret <> 0 -> update_regs (cs x') = false).
Proof using Ktpr.
  unfold do_round. destruct (wait_x86 phys_read r x g) as [[y g1]|]; cbn [rbind]; [|discriminate].
  destruct (enter_x86 c sw r y) as [[[z t] i]|] eqn:Ee; cbn [rbind]; [|discriminate].
  apply enter_frame in Ee as [Hd _]. intros E. apply leave_frame in E as (L1 & L2 & L3 & L4).
  unfold copies_ok. auto.
Qed.

Lemma head_copies a x0 g0 x g : update_regs (cs x0) = false -> head a x0 g0 x g -> copies_ok (cs x).
Proof using Kpoll Ksipi Ktpr.
  intros H0. induction 1 as [x E | r x g x' g' _ _ E].
  - apply async_kept in E as []. split; congruence.
  - apply round_copies in E. apply E.
Qed.

Lemma loop_copies l : forall x g ret x' g',
  exec_loop c sw HYPERCALL_ADDR phys_read hwg sw_breakpoint report_tpr l x g = Ok (Some ret, x', g') ->
  update_regs (cs x') = false /\ ret <> EXCP_DEBUG.
Proof using Ktpr.
  induction l as [|r l IH]; intros x g ret x' g'; cbn [exec_loop]; [discriminate|].
  destruct (one_round r x g) as [[[q y] g1]|] eqn:E; cbn [rbind]; [|discriminate].
  destruct (Z.eqb_spec q 0) as [-> | Hq]; [apply IH|]. intros [= <- <- <-].
  apply round_copies in E as (_ & R1 & R2). auto.
Qed.
End copies.

(** ** Interrupts before KVM_RUN *)

Lemma reset_testbit m x k : 0 <= k ->
  Z.testbit (interrupt_request (cpu_reset_interrupt m x)) k = Z.testbit (interrupt_request x) k && negb (Z.testbit m k).
Proof. intros Hk. cbn [interrupt_request cpu_reset_interrupt set_interrupt_request]. rewrite Z.land_spec, Z.lnot_spec by lia. reflexivity. Qed.

Lemma bits_mask_lor x m n : bits x (Z.lor m n) = bits x m || bits x n.
Proof. unfold bits. rewrite !(Z.land_comm x). apply bits_lor. Qed.

(** The request, with one bit of it cleared. *)
Definition cleared (b : bool) (m q : Z) : Z := if b then Z.land q (Z.lnot m) else q.

Lemma cleared_testbit b n q k : 0 <= n -> 0 <= k ->
  Z.testbit (cleared b (Z.shiftl 1 n) q) k = Z.testbit q k && negb (b && (k =? n)).
Proof.
  intros Hn Hk. unfold cleared. destruct b; cbn [andb]; [|symmetry; apply andb_true_r].
  rewrite Z.land_spec, Z.lnot_spec by lia. do 2 f_equal. rewrite Z.shiftl_1_l, Z.pow2_bits_eqb by lia. apply Z.eqb_sym.
Qed.

(** The requests other than NMI and SMI. *)
Lemma remaining_testbit q k : 0 <= k ->
  Z.testbit (cleared (bits q CPU_INTERRUPT_SMI) CPU_INTERRUPT_SMI (cleared (bits q CPU_INTERRUPT_NMI) CPU_INTERRUPT_NMI q)) k =
  Z.testbit q k && negb (k =? 9) && negb (k =? 6).
Proof.
  intros Hk. change CPU_INTERRUPT_SMI with (Z.shiftl 1 6). change CPU_INTERRUPT_NMI with (Z.shiftl 1 9).
  rewrite !cleared_testbit, !bits_testbit by lia.
  destruct (Z.eqb_spec k 9) as [Ek | H9]; [rewrite Ek; destruct (Z.testbit q 9), (Z.testbit q 6); reflexivity|].
  destruct (Z.eqb_spec k 6) as [Ek | H6]; [rewrite Ek; destruct (Z.testbit q 6), (Z.testbit q 9); reflexivity|].
  rewrite !andb_false_r. reflexivity.
Qed.

Lemma remaining_bits q k : 0 <= k -> k <> 9 -> k <> 6 ->
  bits (cleared (bits q CPU_INTERRUPT_SMI) CPU_INTERRUPT_SMI (cleared (bits q CPU_INTERRUPT_NMI) CPU_INTERRUPT_NMI q)) (Z.shiftl 1 k) =
  bits q (Z.shiftl 1 k).
Proof.
  intros H0 H9 H6. rewrite !bits_testbit, remaining_testbit by lia. apply Z.eqb_neq in H9, H6. rewrite H9, H6. cbn [negb].
  rewrite !andb_true_r. reflexivity.
Qed.

Lemma inject_nmi_smi_spec x (q := interrupt_request x) :
  inject_nmi_smi x =
    (set_interrupt_request (cleared (bits q CPU_INTERRUPT_SMI) CPU_INTERRUPT_SMI (cleared (bits q CPU_INTERRUPT_NMI) CPU_INTERRUPT_NMI q)) x,
     (if bits q CPU_INTERRUPT_NMI then [KVM_NMI] else []) ++ (if bits q CPU_INTERRUPT_SMI then [KVM_SMI] else [])).
Proof.
  unfold inject_nmi_smi. rewrite bits_mask_lor. subst q.
  assert (forall b, bits (cleared b CPU_INTERRUPT_NMI (interrupt_request x)) CPU_INTERRUPT_SMI = bits (interrupt_request x) CPU_INTERRUPT_SMI) as H.
  { intros []; [|reflexivity]. change CPU_INTERRUPT_SMI with (Z.shiftl 1 6). rewrite !bits_testbit by lia. cbn [cleared].
    rewrite Z.land_spec, Z.lnot_spec by lia. apply andb_true_r. }
  destruct (bits (interrupt_request x) CPU_INTERRUPT_NMI) eqn:En; cbn [orb].
  - specialize (H true). cbn [cleared] in H.
    change (interrupt_request (cpu_reset_interrupt CPU_INTERRUPT_NMI x)) with (Z.land (interrupt_request x) (Z.lnot CPU_INTERRUPT_NMI)).
    rewrite H. destruct (bits (interrupt_request x) CPU_INTERRUPT_SMI); destruct x; reflexivity.
  - destruct (bits (interrupt_request x) CPU_INTERRUPT_SMI) eqn:Es; cbn [orb]; rewrite ?Es; destruct x; reflexivity.
Qed.

Lemma force_exit_spec x : force_exit x =
  set_cs (set_exit_request (exit_request (cs x) || bits (interrupt_request x) CPU_INTERRUPT_TPR ||
    (bits (interrupt_request x) CPU_INTERRUPT_INIT && negb (bits (hflags (env x)) HF_SMM_MASK))) (cs x)) x.
Proof.
  unfold force_exit. rewrite bits_mask_lor. destruct x as [k e f m a q h]. cbn [interrupt_request env cs].
  destruct (bits q CPU_INTERRUPT_INIT) eqn:Ei, (bits q CPU_INTERRUPT_TPR) eqn:Et, (bits (hflags e) HF_SMM_MASK) eqn:Es;
    cbn [orb andb negb request_exit set_cs interrupt_request]; rewrite ?Ei, ?Et, ?orb_true_r, ?orb_false_r; destruct k; reflexivity.
Qed.

(** Before each KVM_RUN a pending NMI and a pending SMI are injected exactly once, NMI
    first, and their requests are cleared; with the interrupt controller in QEMU an
    external interrupt is taken exactly when the kernel is ready for one and the guest has
    interrupts enabled, it is injected unless the controller withdrew it, and a window is
    requested exactly when a request stays pending; no other request is lost; the thread is
    told to leave the loop for a TPR report or an INIT outside system management mode. *)
Theorem pre_run_injects c pic x run (p := kvm_arch_pre_run c pic x run) (q := interrupt_request x)
    (taken := negb (irqchip_in_kernel c) && ready_for_interrupt_injection run && bits q CPU_INTERRUPT_HARD && bits (eflags (env x)) IF_MASK) :
  p.2 = (if bits q CPU_INTERRUPT_NMI then [KVM_NMI] else []) ++ (if bits q CPU_INTERRUPT_SMI then [KVM_SMI] else []) ++
    (if taken && (0 <=? pic) then [KVM_INTERRUPT pic] else []) /\
  (forall k, 0 <= k -> Z.testbit (interrupt_request p.1.1) k =
    Z.testbit q k && negb (k =? 9) && negb (k =? 6) && negb (taken && (k =? 1))) /\
  exit_request (cs p.1.1) = exit_request (cs x) || bits q CPU_INTERRUPT_TPR ||
    (bits q CPU_INTERRUPT_INIT && negb (bits (hflags (env x)) HF_SMM_MASK)) /\
  (irqchip_in_kernel c = false -> request_interrupt_window p.1.2 = bits q CPU_INTERRUPT_HARD && negb taken) /\
  env p.1.1 = env x.
Proof.
  subst p. unfold kvm_arch_pre_run. rewrite inject_nmi_smi_spec. cbv zeta. rewrite force_exit_spec. fold q.
  pose proof (remaining_testbit q) as Hq. pose proof (remaining_bits q 1 ltac:(lia) ltac:(lia) ltac:(lia)) as H1.
  pose proof (remaining_bits q 10 ltac:(lia) ltac:(lia) ltac:(lia)) as H10.
  pose proof (remaining_bits q 13 ltac:(lia) ltac:(lia) ltac:(lia)) as H13.
  set (q1 := cleared _ _ (cleared _ _ q)) in *. clearbody q1.
  change (Z.shiftl 1 1) with CPU_INTERRUPT_HARD in H1. change (Z.shiftl 1 10) with CPU_INTERRUPT_INIT in H10.
  change (Z.shiftl 1 13) with CPU_INTERRUPT_TPR in H13.
  cbn [interrupt_request set_interrupt_request cs env]. rewrite H10, H13.
  set (x1 := set_cs _ _). subst taken. destruct (irqchip_in_kernel c); cbn [negb andb fst snd].
  { rewrite app_nil_r. split; [reflexivity|]. split; [|split; [reflexivity | split; [discriminate | reflexivity]]].
    intros k Hk. rewrite andb_true_r. exact (Hq k Hk). }
  unfold inject_hard. change (interrupt_request x1) with q1. change (env x1) with (env x). rewrite H1.
  destruct (ready_for_interrupt_injection run && bits q CPU_INTERRUPT_HARD && bits (eflags (env x)) IF_MASK) eqn:Et;
    cbn [fst snd andb negb interrupt_request request_interrupt_window]; rewrite <- ?app_assoc.
  - split; [reflexivity|]. split; [|split; [reflexivity | split; [|reflexivity]]].
    + intros k Hk. rewrite reset_testbit by lia. change (interrupt_request x1) with q1. rewrite (Hq k Hk).
      change CPU_INTERRUPT_HARD with (Z.shiftl 1 1). rewrite Z.shiftl_1_l, Z.pow2_bits_eqb by lia. rewrite (Z.eqb_sym k 1). reflexivity.
    + intros _. rewrite andb_false_r. change CPU_INTERRUPT_HARD with (Z.shiftl 1 1). rewrite bits_testbit, reset_testbit by lia. apply andb_false_r.
  - rewrite app_nil_r. split; [reflexivity|]. split; [|split; [reflexivity | split; [|reflexivity]]].
    + intros k Hk. rewrite andb_true_r. exact (Hq k Hk).
    + intros _. change (interrupt_request x1) with q1. rewrite H1, andb_true_r. reflexivity.
Qed.

(** ** What the guest sees *)

Section claims.
Context `{KVM} (c : kvm_config) (sw : bool) (version HYPERCALL_ADDR : Z) (phys_read : Z -> nat -> list Z).
Context (hwg : hw_globals) (sw_breakpoint : Z -> bool).
Context (apic_poll_irq do_cpu_sipi report_tpr : X86CPU -> X86CPU).
Context (Kpoll : keeps_update apic_poll_irq) (Ksipi : keeps_update do_cpu_sipi) (Ktpr : keeps_update report_tpr).

(** C16: the general registers are kept in two places outside the kernel, QEMU's register
    file and the copy Razzer takes after every KVM_RUN.  At every iteration of the loop at
    most one of them is ahead of the kernel, and the guest resumes with it: with the result
    of a hypercall, with QEMU's file if it was synchronised (unless the kernel refuses the
    registers), and otherwise with the registers the kernel had.  The KVM_SET_REGS of
    [update_registers], whose result the code ignores, is taken to succeed. *)
Theorem guest_registers a x0 g0 x g r y g' z t i :
  update_regs (cs x0) = false ->
  loop_head c sw version HYPERCALL_ADDR phys_read hwg sw_breakpoint apic_poll_irq do_cpu_sipi report_tpr a x0 g0 x g ->
  wait_x86 phys_read r x g = Ok (y, g') -> enter_x86 c sw r y = Ok (z, t, i) ->
  match update_regs (cs x), kvm_vcpu_dirty (cs x) with
  | true, true => False
  | true, false => regs (cs x) = Some (vcpu_regs (cs z))
  | false, true => vcpu_regs (cs z) = if rd_code r [SET_REGS (kvm_put_regs (env x))] <? 0 then vcpu_regs (cs x) else kvm_put_regs (env x)
  | false, false => vcpu_regs (cs z) = vcpu_regs (cs x)
  end.
Proof using Kpoll Ksipi Ktpr.
  intros H0 Hh. eapply (head_copies c sw version HYPERCALL_ADDR phys_read hwg sw_breakpoint) in Hh as [C1 C2]; [|eassumption..].
  unfold wait_x86. destruct (wait_race _ _ _ _) as [[k g1]|] eqn:Ew; cbn [rbind]; [|discriminate].
  intros [= <- _] Ee. apply wait_race_copies in Ew as (W1 & W2 & W3 & W4).
  apply enter_frame in Ee as [_ Ee]. cbn [cs set_cs env] in Ee. rewrite W1, W2, W3, W4 in Ee.
  destruct (update_regs (cs x)); cycle 1.
  { destruct Ee as [Ee | [? _]]; [|discriminate]. destruct (kvm_vcpu_dirty (cs x)); exact Ee. }
  destruct (kvm_vcpu_dirty (cs x)); [discriminate (C1 eq_refl)|].
  specialize (C2 eq_refl). destruct (regs (cs x)) as [q|]; [|contradiction].
  destruct Ee as [Ee | [_ ?]]; [rewrite Ee; reflexivity | discriminate].
Qed.

(** C28: when [kvm_cpu_exec] returns, no result of a hypercall is left to be delivered and no
    request to leave is left over; on an error the register file has been synchronised, and
    the caller is never told of a debug exit: every one is taken for a hypercall or one of
    its breakpoints. *)
Theorem exec_hands_over a b l x g ret x' g' :
  update_regs (cs x) = false ->
  kvm_cpu_exec c sw version HYPERCALL_ADDR phys_read hwg sw_breakpoint apic_poll_irq do_cpu_sipi report_tpr a b l x g
    = Ok (Some ret, x', g') ->
  update_regs (cs x') = false /\ exit_request (cs x') = false /\ ret <> EXCP_DEBUG /\
  (ret < 0 -> kvm_vcpu_dirty (cs x') = true).
Proof using Kpoll Ksipi Ktpr.
  intros H0. unfold kvm_cpu_exec.
  destruct (kvm_arch_process_async_events _ _ _ _ _ _ x) as [[h y]|] eqn:Ea; cbn [rbind]; [|discriminate].
  eapply async_kept in Ea as [Ea _ _ _]; [|eassumption..].
  destruct (negb (h =? 0)); [intros [= <- <- _]; split; [cbn; congruence|]; split; [reflexivity|]; split; [discriminate | intros ?; discriminate]|].
  destruct (exec_loop _ _ _ _ _ _ _ l y g) as [[[[q|] z] g1]|] eqn:El; cbn [rbind]; [|discriminate..].
  eapply loop_copies in El as [L1 L2]; [|eassumption].
  destruct (Z.ltb_spec q 0) as [Hq | Hq]; cbn [rbind].
  - destruct (kvm_cpu_synchronize_state c b z) as [w|] eqn:Es; cbn [rbind]; [|discriminate].
    apply sync_frame in Es as (S1 & S2 & _). intros [= <- <- _]. cbn. split; [congruence|]. auto.
  - intros [= <- <- _]. cbn. split; [exact L1|]. split; [reflexivity|]. split; [exact L2 | lia].
Qed.
End claims.

(** Outside system management mode every flag of the execution mode is lost from QEMU's
    copy after each KVM_RUN: the mask that should drop the one flag is not complemented. *)
Theorem post_run_drops_mode run x i : bits (run_flags run) KVM_RUN_X86_SMM = false -> 0 <= i -> i <> 19 ->
  Z.testbit (hflags (env (kvm_arch_post_run run x).2)) i = false.
Proof.
  intros Hf H0 Hi. unfold kvm_arch_post_run. cbv zeta. cbn [snd env set_apic_state set_env hflags set_eflags].
  rewrite Hf, Z.land_spec. change HF_SMM_MASK with (Z.shiftl 1 19). rewrite Z.shiftl_1_l, Z.pow2_bits_eqb by lia.
  apply andb_false_iff. right. apply Z.eqb_neq. lia.
Qed.

(** ** Concrete runs *)

Lemma id_keeps_update : keeps_update id.
Proof. intros x. reflexivity. Qed.

Definition no_interference : interference := mk_interference id id false id.
Definition run_example : kvm_run := mk_kvm_run 0 true true false 0 0xfee00900.

(** A round that ends with [gr]. *)
Definition round_example (gr : guest_run) : round :=
  mk_round no_interference (fun _ => 0) (-1) run_example gr run_example answers_example.

(** A CPU in a racing pair, about to run the guest up to the end of the hypercall. *)
Definition racing_cpu : X86CPU := set_cs (set_is_race 1 cpu_zero) x86_example.

Definition example_round (gr : guest_run) (s : X86CPU * race_globals) : res (Z * X86CPU * race_globals) :=
  @do_round kvm_accepts config_example false 0xffffffff8117e7d1 (fun _ _ => []) (mk_hwg [] 0) (fun _ => false) id
    (round_example gr) s.1 s.2.

(** Exit for a shutdown. *)
Definition shutdown_run : guest_run := mk_run (kvm_put_regs env_example) 0 0 EXIT_SHUTDOWN 0.

Definition after_end : X86CPU * race_globals :=
  match example_round (hcall_run CMD_END) (racing_cpu, set_status false STATUS_RUNNING rg_zero) with
  | Ok (_, x, g) => (x, g) | Err _ => (racing_cpu, rg_zero) end.

Definition after_wait : X86CPU * race_globals :=
  match wait_x86 (fun _ _ => []) (round_example shutdown_run) after_end.1 after_end.2 with
  | Ok s => s | Err _ => (racing_cpu, rg_zero) end.

(** The verdict is in the register the guest resumes with. *)
Lemma guest_registers_witness : exists z t i,
  @enter_x86 kvm_accepts config_example false (round_example shutdown_run) after_wait.1 = Ok (z, t, i) /\
  rax (vcpu_regs (cs z)) = 1.
Proof.
  destruct (@enter_x86 kvm_accepts config_example false (round_example shutdown_run) after_wait.1) as [[[z t] i]|] eqn:E;
    [|vm_compute in E; discriminate].
  exists z, t, i. split; [reflexivity|].
  assert (regs (cs after_end.1) = Some (vcpu_regs (cs z))) as Hr.
  { refine (@guest_registers kvm_accepts config_example false 0x6f1 0xffffffff8117e7d1 (fun _ _ => []) (mk_hwg [] 0) (fun _ => false)
      id id id id_keeps_update id_keeps_update id_keeps_update
      answers_example racing_cpu (set_status false STATUS_RUNNING rg_zero) after_end.1 after_end.2
      (round_example shutdown_run) after_wait.1 after_wait.2 z t i eq_refl _ _ E).
    - eapply (head_next _ _ _ _ _ _ _ _ _ _ _ _ _ (round_example (hcall_run CMD_END)) racing_cpu (set_status false STATUS_RUNNING rg_zero)).
      + apply head_start. vm_compute. reflexivity.
      + vm_compute. reflexivity.
    - vm_compute. reflexivity. }
  assert (rax <$> regs (cs after_end.1) = Some 1) as H1 by (vm_compute; reflexivity).
  rewrite Hr in H1. cbn in H1. congruence.
Defined.

Notation exec_example := (
  @kvm_cpu_exec kvm_accepts config_example false 0x6f1 0xffffffff8117e7d1 (fun _ _ => []) (mk_hwg [] 0) (fun _ => false) id id id
    answers_example answers_example [round_example (hcall_run CMD_END); round_example shutdown_run]
    racing_cpu (set_status false STATUS_RUNNING rg_zero)).

Lemma exec_hands_over_witness : exists x' g', exec_example = Ok (Some EXCP_INTERRUPT, x', g') /\ update_regs (cs x') = false.
Proof.
  destruct exec_example as [[[ret x'] g']|] eqn:E; [|vm_compute in E; discriminate].
  assert (ret = Some EXCP_INTERRUPT) as ->.
  { assert (match exec_example with Ok (r, _, _) => r | Err _ => None end = Some EXCP_INTERRUPT) as H by (vm_compute; reflexivity).
    rewrite E in H. exact H. }
  exists x', g'. split; [reflexivity|].
  eapply proj1, (@exec_hands_over kvm_accepts config_example false 0x6f1 0xffffffff8117e7d1 (fun _ _ => []) (mk_hwg [] 0) (fun _ => false)
    id id id id_keeps_update id_keeps_update id_keeps_update
    answers_example answers_example [round_example (hcall_run CMD_END); round_example shutdown_run] racing_cpu
    (set_status false STATUS_RUNNING rg_zero) EXCP_INTERRUPT x' g' eq_refl). exact E.
Defined.

(** Protection is on in the example, but not in QEMU's copy of the mode. *)
Lemma post_run_drops_mode_witness :
  bits (CR (env x86_example) 0) CR0_PE_MASK = true /\ Z.testbit (hflags (env (kvm_arch_post_run run_example x86_example).2)) 7 = false.
Proof.
  split; [vm_compute; reflexivity|]. apply (post_run_drops_mode run_example x86_example 7 eq_refl); lia.
Defined.
