(* ===== verification/Machine.v ===== *)
(** * Two virtual CPUs in full

    The two threads with their whole virtual CPUs: the pieces of [wait_race], the round
    of the loop of [KvmRun] with register transfer, injection and exits, and what a thread
    does between two calls of [kvm_cpu_exec].  The system refines the one of [RaceSched],
    which sees only struct CPUState and leaves the rest of QEMU open: what is proved there
    of the interleaving of the two threads holds here. *)

From Stdlib Require Import ZArith Lia Bool.
From stdpp Require Import base list relations.
From S2P Require Import Prelude MemOperand MsrSync ByteLayout XSave Apic CpuState HwBreakpoint KvmBreakpoint.
From S2P Require Import RegState RegSync CpuReset Hypercall KvmExec RaceSched KvmRun.

Open Scope Z_scope.
Open Scope rz.

(** ** The system *)

(** A thread is in the loop of [kvm_cpu_exec], about to return from it, or outside. *)
Inductive where_ := InLoop (p : place) | Leaving (ret : Z) | Idle.

Record machine2 := mk_machine { m_cpus : two X86CPU; m_glob : race_globals; m_at : two where_ }.

Definition m_cpu (i : bool) (s : machine2) : X86CPU := sel i (m_cpus s).

Definition m_move (i : bool) (x : X86CPU) (g : race_globals) (w : where_) (s : machine2) : machine2 :=
  mk_machine (upd i x (m_cpus s)) g (upd i w (m_at s)).

Inductive m_event := Loop (e : event) | Return | Call | Work.

(** The view of [RaceSched]; outside the loop a thread is about to call [wait_race]. *)
Definition view_place (w : where_) : place := match w with InLoop p => p | _ => AtWait end.
Definition view (s : machine2) : sys :=
  mk_sys (mk2 (cs (e0 (m_cpus s))) (cs (e1 (m_cpus s)))) (m_glob s) (mk2 (view_place (e0 (m_at s))) (view_place (e1 (m_at s)))).

Definition view_event (e : m_event) : event := match e with Loop e => e | _ => Outside end.

Section system.
Context `{KVM} (c : kvm_config) (sw : bool) (version HYPERCALL_ADDR : Z) (phys_read : Z -> nat -> list Z).
Variables (hwg : hw_globals) (sw_breakpoint : Z -> bool).
Variables (apic_poll_irq do_cpu_sipi report_tpr : X86CPU -> X86CPU).

(** The effect of a broadcast or a wake-up on a thread in the loop. *)
Definition on_place (f : place -> place) (w : where_) : where_ := match w with InLoop p => InLoop (f p) | _ => w end.
Definition m_notify (f : place -> place) (i : bool) (s : machine2) : machine2 :=
  mk_machine (m_cpus s) (m_glob s) (upd i (on_place f (sel i (m_at s))) (m_at s)).

(** [wait_race] works on the CPUState part. *)
Definition m_wait (i : bool) (k : CPUState) (g : race_globals) (p : place) (s : machine2) : machine2 :=
  m_move i (set_cs k (m_cpu i s)) g (InLoop p) s.

Inductive m_step (i : bool) : m_event -> machine2 -> machine2 -> Prop :=
  | m_enter s k g o : sel i (m_at s) = InLoop AtWait ->
      wait_race_enter phys_read (cs (m_cpu i s)) (m_glob s) = Ok (k, g, o) ->
      m_step i (Loop (Enter o)) s
        (match o with
         | WR_return => m_wait i k g ToGuest s
         | WR_sleep => m_wait i k g (InCond false) s
         | WR_broadcast => m_notify signal (negb i) (m_wait i k g Unlocked s)
         | WR_tail => m_wait i k g Unlocked s
         end)
  | m_signalled s k g : sel i (m_at s) = InLoop (InCond true) ->
      wait_race_resume true (cs (m_cpu i s)) (m_glob s) = Ok (k, g) ->
      m_step i (Loop (CondReturn true)) s (m_wait i k g Unlocked s)
  | m_timeout s b k g : sel i (m_at s) = InLoop (InCond b) ->
      wait_race_resume false (cs (m_cpu i s)) (m_glob s) = Ok (k, g) ->
      m_step i (Loop (CondReturn false)) s (m_wait i k g Unlocked s)
  | m_spurious s k g : sel i (m_at s) = InLoop (InCond false) ->
      wait_race_resume true (cs (m_cpu i s)) (m_glob s) = Ok (k, g) ->
      m_step i (Loop CondSpurious) s (m_wait i k g Unlocked s)
  | m_tail s k g : sel i (m_at s) = InLoop Unlocked -> waits_on_futex (cs (m_cpu i s)) = false ->
      wait_race_tail (cs (m_cpu i s)) (m_glob s) = (k, g) ->
      m_step i (Loop (Tail (wakes_futex (cs (m_cpu i s))))) s
        (if wakes_futex (cs (m_cpu i s)) then m_notify wake (negb i) (m_wait i k g ToGuest s) else m_wait i k g ToGuest s)
  | m_futex_block s : sel i (m_at s) = InLoop Unlocked -> waits_on_futex (cs (m_cpu i s)) = true -> can_go (m_glob s) = 0 ->
      m_step i (Loop FutexBlock) s (m_wait i (cs (m_cpu i s)) (m_glob s) (InFutex false) s)
  | m_futex_pass s k g : sel i (m_at s) = InLoop Unlocked -> waits_on_futex (cs (m_cpu i s)) = true -> can_go (m_glob s) <> 0 ->
      wait_race_tail (cs (m_cpu i s)) (m_glob s) = (k, g) ->
      m_step i (Loop FutexPass) s (m_wait i k g ToGuest s)
  | m_futex_woken s k g : sel i (m_at s) = InLoop (InFutex true) ->
      wait_race_tail (cs (m_cpu i s)) (m_glob s) = (k, g) ->
      m_step i (Loop FutexWoken) s (m_wait i k g ToGuest s)
  | m_futex_timeout s b k g : sel i (m_at s) = InLoop (InFutex b) ->
      wait_race_tail (cs (m_cpu i s)) (m_glob s) = (k, g) ->
      m_step i (Loop FutexTimeout) s (m_wait i k g ToGuest s)
  | m_run s r x t j : sel i (m_at s) = InLoop ToGuest -> enter_x86 c sw r (m_cpu i s) = Ok (x, t, j) ->
      m_step i (Loop Run) s (m_move i x (m_glob s) (InLoop InGuest) s)
  | m_exit s r ret x g : sel i (m_at s) = InLoop InGuest ->
      leave_x86 c sw HYPERCALL_ADDR hwg sw_breakpoint report_tpr r (m_cpu i s) (m_glob s) = Ok (ret, x, g) ->
      m_step i (Loop Exit) s (m_move i x g (if ret =? 0 then InLoop AtWait else Leaving ret) s)
  | m_return s ret b x : sel i (m_at s) = Leaving ret ->
      (if ret <? 0 then kvm_cpu_synchronize_state c b (m_cpu i s) else Ok (m_cpu i s)) = Ok x ->
      m_step i Return s (m_move i (clear_exit x) (m_glob s) Idle s)
  | m_call s a h x : sel i (m_at s) = Idle ->
      kvm_arch_process_async_events c version a apic_poll_irq do_cpu_sipi report_tpr (m_cpu i s) = Ok (h, x) ->
      m_step i Call s (if h =? 0 then m_move i x (m_glob s) (InLoop AtWait) s else m_move i (clear_exit x) (m_glob s) Idle s)
  | m_work s f : sel i (m_at s) = Idle -> keeps_update f ->
      m_step i Work s (m_move i (f (m_cpu i s)) (m_glob s) Idle s).

Definition m_any (s s' : machine2) : Prop := exists i e, m_step i e s s'.

(** Both threads are outside, and Razzer's state is the one after [init_hypercall]. *)
Definition m_initial (s : machine2) : Prop := initial (view s) /\ forall i, sel i (m_at s) = Idle.
Definition m_reachable (s : machine2) : Prop := exists s0, m_initial s0 /\ rtc m_any s0 s.
End system.

(** ** The view of a step *)

Lemma view_cpu i s : cpu i (view s) = cs (m_cpu i s).
Proof. destruct i; reflexivity. Qed.

Lemma view_at i s : at_place i (view s) = view_place (sel i (m_at s)).
Proof. destruct i; reflexivity. Qed.

Lemma view_move i x g w s : view (m_move i x g w s) = move i (cs x) g (view_place w) (view s).
Proof. destruct i; reflexivity. Qed.

Lemma view_wait i k g p s : view (m_wait i k g p s) = move i k g p (view s).
Proof. apply view_move. Qed.

Lemma view_notify f i s : f AtWait = AtWait -> view (m_notify f i s) = notify f i (view s).
Proof.
  intros Hf. destruct s as [xs g [w0 w1]]. unfold m_notify, notify, view. cbn.
  destruct i; cbn; do 2 f_equal; [destruct w1 | destruct w0]; cbn; rewrite ?Hf; reflexivity.
Qed.

(** What is kept of one state can be extended to a function that keeps it of all. *)
Lemma kept_function k k' : kept k k' -> exists f, keeps_race f /\ f k = k'.
Proof.
  intros [_ Hr Hi Hf].
  exists (fun d => set_cpu_index (cpu_index d) (set_regs (regs d) (set_wait_race_flag (wait_race_flag d) k'))).
  split; [intros d; split; [reflexivity|]; split; reflexivity|].
  rewrite <- Hr, <- Hi, <- Hf. destruct k'. reflexivity.
Qed.

Lemma kept_outside `{KVM} sw hyp phys hwg sb i k' s : at_place i s = AtWait -> kept (cpu i s) k' ->
  step sw hyp phys hwg sb i Outside s (move i k' (glob s) AtWait s).
Proof. intros Hp (f & Kf & <-)%kept_function. apply step_outside; assumption. Qed.

Lemma set_exit_or (b : bool) k : set_exit_request (exit_request k || b) k = if b then set_exit_request true k else k.
Proof. destruct b; [rewrite orb_true_r; reflexivity|]. rewrite orb_false_r. destruct k. reflexivity. Qed.

(** The CPUState part of [kvm_arch_pre_run]. *)
Lemma pre_run_exit c pic x run : exists b : bool,
  cs (kvm_arch_pre_run c pic x run).1.1 = if b then set_exit_request true (cs x) else cs x.
Proof.
  unfold kvm_arch_pre_run. rewrite inject_nmi_smi_spec. cbv zeta. rewrite force_exit_spec. cbn [cs set_interrupt_request].
  rewrite <- orb_assoc, set_exit_or. eexists. set (k := if _ || _ then _ else _).
  destruct (negb (irqchip_in_kernel c)); [|reflexivity].
  unfold inject_hard. destruct (_ && _ && _); reflexivity.
Qed.

Lemma id_kept_race : keeps_race id.
Proof. intros k. auto. Qed.

Lemma race_kept k k' : same_race_fields k k' -> kept k k'.
Proof. intros []. constructor; assumption. Qed.

(** Entering the guest is the abstract step, for some transfer of the registers. *)
Lemma enter_view `{KVM} c sw r x x' t j : enter_x86 c sw r x = Ok (x', t, j) ->
  exists put b, keeps_race put /\ enter_guest put b (cs x) = Ok (cs x').
Proof.
  unfold enter_x86.
  set (p := if kvm_vcpu_dirty (cs x) then _ else _). destruct p as [[y u]|] eqn:Ep; cbn [rbind]; [|discriminate].
  assert (exists put, keeps_race put /\ cs y = if kvm_vcpu_dirty (cs x) then set_kvm_vcpu_dirty false (put (cs x)) else cs x) as (put & Kp & Hy).
  { subst p. destruct (kvm_vcpu_dirty (cs x)); [|injection Ep as <- <-; exists id; split; [exact id_kept_race | reflexivity]].
    destruct (kvm_arch_put_registers c (rd_code r) sw true KVM_PUT_RUNTIME_STATE (x, [])) as [[q [z v]]|] eqn:Eq; cbn [rbind] in Ep; [|discriminate].
    injection Ep as <- <-. apply put_frame, race_kept, kept_function in Eq as (f & Kf & Hf). exists f. split; [exact Kf|].
    cbn in *. rewrite Hf. reflexivity. }
  clear Ep p. pose proof (pre_run_exit c (rd_pic r) y (rd_before r)) as [b Hb].
  destruct (kvm_arch_pre_run c (rd_pic r) y (rd_before r)) as [[z u'] j']. cbn [fst] in Hb.
  destruct (wait_race_flag (cs z)) eqn:Ef; [discriminate|]. intros [= <- _ _].
  exists put, b. split; [exact Kp|]. unfold enter_guest. cbv zeta. rewrite <- Hy, <- Hb, Ef. reflexivity.
Qed.

Section exits.
Context `{KVM} (c : kvm_config) (sw : bool) (HYPERCALL_ADDR : Z) (hwg : hw_globals) (sw_breakpoint : Z -> bool).
Context (report_tpr : X86CPU -> X86CPU) (Ktpr : keeps_update report_tpr).

(** So is the handling of an exit, for some synchronisation and some outcome of the tests
    the abstract exit carries. *)
Lemma exit_view a y e ret z : handle_exit_x86 c hwg sw_breakpoint report_tpr a y e = Ok (ret, z) ->
  exists sync e', keeps_race sync /\ handle_exit hwg sw_breakpoint sync (cs y) e' = Ok (ret, cs z).
Proof using Ktpr.
  assert (forall f, keeps_update f -> ret = 1 -> z = f y ->
    exists sync e', keeps_race sync /\ handle_exit hwg sw_breakpoint sync (cs y) e' = Ok (ret, cs z)) as Ht.
  { intros f Kf -> ->. destruct (kept_function _ _ (Kf y)) as (s & Ks & Hs). exists s, EXIT_TPR_ACCESS.
    split; [exact Ks|]. cbn. rewrite Hs. reflexivity. }
  destruct e as [| | | | |em st|ev|i| | | | |d|]; cbn [handle_exit_x86]; intros E.
  all: try (injection E as <- <-; eexists id, _; split; [exact id_kept_race|];
            first [exact (eq_refl (handle_exit hwg sw_breakpoint id (cs y) EXIT_IO))
                  | exact (eq_refl (handle_exit hwg sw_breakpoint id (cs y) EXIT_SHUTDOWN))
                  | exact (eq_refl (handle_exit hwg sw_breakpoint id (cs y) EXIT_UNKNOWN))]; fail).
  - unfold handle_internal_error, kvm_arch_stop_on_emulation_error in E. destruct em.
    2: { injection E as <- <-. exists id, (EXIT_INTERNAL_ERROR false false). split; [exact id_kept_race | reflexivity]. }
    destruct (kvm_cpu_synchronize_state c a y) as [u|] eqn:Eu; cbn [rbind] in E; [|discriminate]. apply sync_kept in Eu.
    set (stop := negb _ || _) in E. clearbody stop.
    assert (kept (cs y) (cs z) /\ ret = kvm_handle_internal_error true stop) as [Kz ->].
    { destruct stop; cbn [negb] in E; [injection E as <- <-; split; [exact Eu | reflexivity]|].
      destruct (kvm_cpu_synchronize_state c a u) as [v|] eqn:Ev; cbn [rbind] in E; [|discriminate]. apply sync_kept in Ev.
      injection E as <- <-. split; [etrans; eassumption | reflexivity]. }
    destruct (kept_function _ _ Kz) as (s & Ks & Hs). exists s, (EXIT_INTERNAL_ERROR true stop). split; [exact Ks|].
    cbn. rewrite Hs. reflexivity.
  - exists id, (EXIT_SYSTEM_EVENT ev). split; [exact id_kept_race|]. destruct ev; injection E as <- <-; reflexivity.
  - unfold handle_halt in E. exists id, (EXIT_HLT (interruptible y)). split; [exact id_kept_race|]. cbn. unfold kvm_handle_halt.
    destruct (interruptible y); cbn [negb] in E; injection E as <- <-; reflexivity.
  - injection E as <- <-. apply (Ht report_tpr Ktpr); reflexivity.
  - unfold handle_debug in E. destruct (debug_reason hwg sw_breakpoint (cs y) d) as [[q k]|] eqn:Er; cbn [rbind] in E; [|discriminate].
    destruct (Z.eqb_spec q 0) as [-> | Hq].
    + destruct (kvm_cpu_synchronize_state c a (set_cs k y)) as [u|] eqn:Eu; cbn [rbind] in E; [|discriminate].
      apply sync_kept, kept_function in Eu as (s & Ks & Hs). cbn [cs set_cs] in Hs. exists s, (EXIT_DEBUG d). split; [exact Ks|].
      cbn [handle_exit kvm_arch_handle_exit]. unfold kvm_handle_debug. rewrite Er. cbn [rbind]. rewrite Z.eqb_refl, Hs.
      destruct (negb _); [discriminate|]. injection E as <- <-. reflexivity.
    + injection E as <- <-. exists id, (EXIT_DEBUG d). split; [exact id_kept_race|].
      cbn [handle_exit kvm_arch_handle_exit]. unfold kvm_handle_debug. rewrite Er. cbn [rbind].
      apply Z.eqb_neq in Hq. rewrite Hq. reflexivity.
Qed.

Lemma leave_view r x g ret x' g' :
  leave_x86 c sw HYPERCALL_ADDR hwg sw_breakpoint report_tpr r x g = Ok (ret, x', g') ->
  exists sync gr, keeps_race sync /\ leave_guest sw HYPERCALL_ADDR hwg sw_breakpoint sync (cs x) g gr = Ok (ret, cs x', g').
Proof using Ktpr.
  unfold leave_x86. cbv zeta.
  destruct (read_registers (gr_get_err (rd_gr r)) (set_vcpu_regs (gr_regs (rd_gr r)) (cs x))) as [k|] eqn:Ek; cbn [rbind]; [|discriminate].
  destruct (kvm_arch_post_run (rd_after r) (set_cs k x)) as [m y] eqn:Ey.
  assert (cs y = k) as <- by (unfold kvm_arch_post_run in Ey; injection Ey as _ <-; reflexivity). clear Ey.
  destruct (gr_ret (rd_gr r) <? 0) eqn:Er.
  - intros [= <- <- <-]. exists id, (rd_gr r). split; [exact id_kept_race|]. unfold leave_guest. rewrite Ek, Er. reflexivity.
  - destruct (handle_exit_x86 _ _ _ _ _ y _) as [[q z]|] eqn:Ez; cbn [rbind]; [|discriminate].
    apply exit_view in Ez as (s & e & Ks & He).
    destruct (dispatch_hypercall _ _ q (cs z) g _) as [[[q' k'] g2]|] eqn:Ed; cbn [rbind]; [|discriminate].
    intros [= <- <- <-]. exists s, (mk_run (gr_regs (rd_gr r)) (gr_ret (rd_gr r)) (gr_get_err (rd_gr r)) e (gr_rand (rd_gr r))).
    split; [exact Ks|]. unfold leave_guest. cbn [gr_regs gr_ret gr_get_err gr_exit gr_rand]. rewrite Ek. cbn [rbind].
    rewrite Er, He. cbn [rbind]. exact Ed.
Qed.
End exits.

(** ** Refinement *)

Section refinement.
Context `{KVM} (c : kvm_config) (sw : bool) (version HYPERCALL_ADDR : Z) (phys_read : Z -> nat -> list Z).
Context (hwg : hw_globals) (sw_breakpoint : Z -> bool).
Context (apic_poll_irq do_cpu_sipi report_tpr : X86CPU -> X86CPU).
Context (Kpoll : keeps_update apic_poll_irq) (Ksipi : keeps_update do_cpu_sipi) (Ktpr : keeps_update report_tpr).

Notation mstep := (m_step c sw version HYPERCALL_ADDR phys_read hwg sw_breakpoint apic_poll_irq do_cpu_sipi report_tpr).
Notation astep := (step sw HYPERCALL_ADDR phys_read hwg sw_breakpoint).

(** Work outside the loop. *)
Lemma outside_view i x w s : view_place w = AtWait -> view_place (sel i (m_at s)) = AtWait ->
  kept (cs (m_cpu i s)) (cs x) -> astep i Outside (view s) (view (m_move i x (m_glob s) w s)).
Proof using.
  intros Hw Hp K. rewrite view_move, Hw. apply (kept_outside sw HYPERCALL_ADDR phys_read hwg sw_breakpoint i (cs x) (view s)).
  - rewrite view_at. exact Hp.
  - rewrite view_cpu. exact K.
Qed.

Lemma step_view i e s s' : mstep i e s s' -> astep i (view_event e) (view s) (view s').
Proof using Kpoll Ksipi Ktpr.
  intros St. destruct St as [s k g o Hp E | s k g Hp E | s b k g Hp E | s k g Hp E | s k g Hp Hw E | s Hp Hw Hg
    | s k g Hp Hw Hg E | s k g Hp E | s b k g Hp E | s r x t j Hp E | s r ret x g Hp E | s ret b x Hp E | s a h x Hp E | s f Hp Kf];
    cbn [view_event]; pose proof (f_equal view_place Hp) as Hv; rewrite <- view_at in Hv; cbn [view_place] in Hv;
    try rewrite <- (view_cpu i s) in *; change (m_glob s) with (glob (view s)) in *.
  - pose proof (step_enter sw HYPERCALL_ADDR phys_read hwg sw_breakpoint i (view s) k g o Hv E) as St.
    destruct o; rewrite ?view_notify, ?view_wait by reflexivity; exact St.
  - rewrite view_wait. apply step_signalled; assumption.
  - rewrite view_wait. eapply step_timeout; eassumption.
  - rewrite view_wait. apply step_spurious; assumption.
  - pose proof (step_tail sw HYPERCALL_ADDR phys_read hwg sw_breakpoint i (view s) k g Hv Hw E) as St.
    destruct (wakes_futex _); rewrite ?view_notify, ?view_wait by reflexivity; exact St.
  - rewrite view_wait. apply step_futex_block; assumption.
  - rewrite view_wait. apply step_futex_pass; assumption.
  - rewrite view_wait. apply step_futex_woken; assumption.
  - rewrite view_wait. eapply step_futex_timeout; eassumption.
  - rewrite view_move. apply enter_view in E as (put & b & Kp & E). rewrite <- view_cpu in E.
    eapply step_run; eassumption.
  - rewrite view_move. apply leave_view in E as (sync & gr & Ks & E); [|exact Ktpr]. rewrite <- view_cpu in E.
    replace (view_place (if ret =? 0 then InLoop AtWait else Leaving ret)) with AtWait by (destruct (ret =? 0); reflexivity).
    eapply step_exit; eassumption.
  - apply outside_view; [reflexivity | rewrite Hp; reflexivity|].
    destruct (ret <? 0); [apply sync_kept in E; etrans; [exact E|] | injection E as <-]; constructor; reflexivity.
  - apply async_kept in E; [|assumption..].
    destruct (h =? 0); (apply outside_view; [reflexivity | rewrite Hp; reflexivity|]); [exact E|].
    etrans; [exact E|]. constructor; reflexivity.
  - apply outside_view; [reflexivity | rewrite Hp; reflexivity | apply Kf].
Qed.
End refinement.

(** C15: the machine with its whole virtual CPUs, register transfer, interrupt injection, INIT
    and machine-check requests, and the code around [kvm_cpu_exec], refines the system in
    which the interleaving of the two threads is analysed: every step of it is a step
    there, and its reachable states are reachable there. *)
Theorem machine_refines `{KVM} c sw version hyp phys hwg sb poll sipi tpr :
  keeps_update poll -> keeps_update sipi -> keeps_update tpr ->
  (forall i e s s', m_step c sw version hyp phys hwg sb poll sipi tpr i e s s' ->
     step sw hyp phys hwg sb i (view_event e) (view s) (view s')) /\
  (forall s, m_reachable c sw version hyp phys hwg sb poll sipi tpr s -> reachable sw hyp phys hwg sb (view s)).
Proof.
  intros Kp Ks Kt.
  assert (forall i e s s', m_step c sw version hyp phys hwg sb poll sipi tpr i e s s' ->
     step sw hyp phys hwg sb i (view_event e) (view s) (view s')) as Hs
    by (intros i e s s'; apply step_view; assumption).
  split; [exact Hs|]. intros s (s0 & [I0 _] & R). exists (view s0). split; [exact I0|]. clear I0.
  induction R as [s0|s0 s1 s2 (i & e & St) _ IH]; [reflexivity|].
  eapply rtc_l; [|exact IH]. exists i, (view_event e). apply Hs, St.
Qed.

(** Both CPUs idle, and CPU 0 calls [kvm_cpu_exec]. *)
Definition machine_example : machine2 :=
  mk_machine (mk2 (set_cs cpu_zero x86_example) (set_cs (set_cpu_index true cpu_zero) x86_example)) rg_zero (mk2 Idle Idle).

Lemma machine_refines_witness :
  @reachable kvm_accepts false demo_hyp demo_read (mk_hwg [] 0) (fun _ => false)
    (view (m_move false (set_cs cpu_zero x86_example) rg_zero (InLoop AtWait) machine_example)).
Proof.
  apply (@machine_refines kvm_accepts config_example false 0x6f1 demo_hyp demo_read (mk_hwg [] 0) (fun _ => false) id id id
    id_keeps_update id_keeps_update id_keeps_update).
  exists machine_example. split.
  - split; [constructor; intros []; reflexivity | intros []; reflexivity].
  - apply rtc_once. exists false, Call.
    apply (m_call config_example false 0x6f1 demo_hyp demo_read (mk_hwg [] 0) (fun _ => false) id id id false machine_example
      answers_example 0 (set_cs cpu_zero x86_example)); [reflexivity | vm_compute; reflexivity].
Defined.
