(* ===== verification/ExecRace.v ===== *)
(** * The guest executor: two threads that race (executor/executor.h, executor/common.h)

    A test program is a list of system calls.  When it is run to provoke a race, the main thread
    hands the calls to two worker threads: those up to the first racing call to worker 0, the
    others to worker 1.  A worker asks the hypervisor for its breakpoint (CMD_START) before its
    racing call, meets the other worker at a barrier, makes the call, and fetches the verdict
    (CMD_END).  The main thread waits for both verdicts and combines them.

    The first part translates the functions around the race; in the second the main thread and
    the workers are a transition system.  An event (ready, done) is its state; a thread that
    waits for one makes no step until it is set.  The verdict of CMD_END is chosen by the
    environment.  [race_step] is a step of the threads in which every hypercall succeeds;
    [process_step] adds the end of the whole process by [doexit(kHypercallFail)] after a failed
    CMD_START or CMD_END.  A worker inside a system call need not ever return from it: this is a
    state of which the step from [W_call] is not taken.  The kill of the process by its parent
    after 3 seconds is part of [loop_turn] (no verdict is stored); a system call that ends the
    process is not modelled.  FUTEX_WAKE on [race_done] is called without its count; Linux wakes
    at least one waiter, and only the main thread waits for this word.  The main
    thread goes through the program twice, as [execute_one] does for a race: first without
    hypercalls, all calls on worker 0, where it waits for a call a limited time and goes on, then
    with them.  What [handle_completion] reports to the fuzzer (results, coverage) is left out. *)

From Stdlib Require Import ZArith Lia Bool.
From stdpp Require Import base list relations.
From S2P Require Import Prelude Hypercall.

Open Scope Z_scope.

(** ** Requests and verdicts *)

Record raceinfo_per_thread_t := mk_ri { bp : Z; race_index : Z; ri_sched : Z }.

(** The part of execute_req about the race. *)
Record execute_req := mk_req { exec_flags : Z; bp0 : Z; bp1 : Z; race_index0 : Z; race_index1 : Z; req_sched : Z }.

Definition flag_threaded (req : execute_req) : bool := bits (exec_flags req) (Z.shiftl 1 4).
Definition flag_collide (req : execute_req) : bool := flag_threaded req && bits (exec_flags req) (Z.shiftl 1 5).

(** [race_info] after [receive_execute]; [old] are the values before. *)
Definition receive_race_info (req : execute_req) (old : raceinfo_per_thread_t * raceinfo_per_thread_t) :
    raceinfo_per_thread_t * raceinfo_per_thread_t :=
  if flag_collide req
  then (mk_ri (bp0 req) (race_index0 req) (req_sched req), mk_ri (bp1 req) (race_index1 req) (req_sched req)) else old.

(** [prepare_race]: the smaller index comes first.  The variable of [swap] is an unsigned int. *)
Definition prepare_race (collide : bool) (ri : raceinfo_per_thread_t * raceinfo_per_thread_t) :
    raceinfo_per_thread_t * raceinfo_per_thread_t :=
  let '(a, b) := ri in
  if negb collide then ri
  else if race_index b <? race_index a
  then (mk_ri (bp b) (race_index b) (ri_sched a), mk_ri (u32 (bp a)) (u32 (race_index a)) (ri_sched b))
  else ri.

Inductive race_verdict := NO_RACE | TRUE_RACE | RACE_RETRY.

Definition verdict_code (v : race_verdict) : Z := match v with NO_RACE => 0 | TRUE_RACE => 1 | RACE_RETRY => 2 end.

(** The end of [finish_race]. *)
Definition finish_race (race_result : bool * bool) : race_verdict :=
  if negb (Bool.eqb race_result.1 race_result.2) then RACE_RETRY
  else if race_result.1 then TRUE_RACE else NO_RACE.

(** The verdict goes through a page shared with the parent process. *)
Definition RACE_RESULT : Z := 3.
Definition send_race_result (collide : bool) (result race_pos : Z) : Z := if negb collide then race_pos else u32 result.
Definition recv_race_result (collide : bool) (race_pos : Z) : Z :=
  if negb collide then 0
  else let result := s32 race_pos in if (result <? 0) || (RACE_RESULT <=? result) then 0 else result.

(** The status of the test process: [WEXITSTATUS] as seen by [loop]. *)
Definition kFailStatus : Z := 67.
Definition kErrorStatus : Z := 68.
Definition kRetryStatus : Z := 69.
Definition kHypercallFail : Z := 70.

(** What [loop] does with the status of the test process and the shared word: the process
    stops, or the result of [reply_execute]. *)
Definition loop_reply (collide : bool) (status race_pos : Z) : res Z :=
  if (status =? kFailStatus) || (status =? kErrorStatus) then Err Exited else Ok (recv_race_result collide race_pos).

(** One turn of [loop]: the child runs [execute_one] and stores its verdict, or ends before
    ([None]: it exits, or is killed after 3 seconds); then the parent replies.  The result is the
    reply and the shared word, which no turn resets. *)
Definition loop_turn (collide : bool) (child : option race_verdict) (status race_pos : Z) : res (Z * Z) :=
  let race_pos := match child with Some v => send_race_result collide (verdict_code v) race_pos | None => race_pos end in
  match loop_reply collide status race_pos with Ok reply => Ok (reply, race_pos) | Err e => Err e end.

(** The verdict of the reproducer, [race_hcall_mark_and_check]: [None] is an error. *)
Definition RACE_FAIL : Z := 0.
Definition RACE_OK : Z := 1.
Definition repro_verdict (is_race : Z * Z) : option bool :=
  if (is_race.1 =? RACE_FAIL) && (is_race.1 =? RACE_FAIL) then Some false
  else if (is_race.1 =? RACE_OK) || (is_race.2 =? RACE_OK) then Some true
  else None.

(** ** The threads *)

(** Where a worker is: before the wait for [ready], CMD_REFRESH, [execute_call], CMD_START, the
    barrier, the system call, CMD_END, and [event_set(&th->done)]. *)
Inductive worker_pc := W_ready | W_refresh | W_enter | W_start | W_barrier | W_call | W_end | W_done.

#[export] Instance worker_pc_eq_dec : EqDecision worker_pc.
Proof. solve_decision. Defined.

Record thread_t := mk_th { pc : worker_pc; ready : bool; done : bool; handled : bool; call_index : nat; init : bool; racy : bool; colliding : bool }.

(** The main thread: before [schedule_call] of a call in the first and in the second pass, in the
    two waits of [finish_race], and after it. *)
Inductive main_pc := M_first (k : nat) | M_call (k : nat) | M_wait (i : bool) | M_finished.

(** [Ev_first] is a call of the first pass. *)
Inductive event := Ev_first (i : bool) (k : nat) | Ev_refresh (i : bool) | Ev_start (i : bool) | Ev_barrier | Ev_call (i : bool) (k : nat) | Ev_end (i : bool) (r : bool).

#[export] Instance event_eq_dec : EqDecision event.
Proof. solve_decision. Defined.

(** [false] is worker 0, [true] is worker 1; the events are newest first. *)
Record exec := mk_exec { main : main_pc; th0 : thread_t; th1 : thread_t; race_done : bool * bool; race_result : bool * bool; trace : list event }.

Definition th (i : bool) (s : exec) : thread_t := if i then th1 s else th0 s.
Definition pick {A} (i : bool) (p : A * A) : A := if i then p.2 else p.1.
Definition put {A} (i : bool) (x : A) (p : A * A) : A * A := if i then (p.1, x) else (x, p.2).

Definition set_th (i : bool) (t : thread_t) (s : exec) : exec :=
  if i then mk_exec (main s) (th0 s) t (race_done s) (race_result s) (trace s)
  else mk_exec (main s) t (th1 s) (race_done s) (race_result s) (trace s).
Definition set_main (m : main_pc) (s : exec) : exec := mk_exec m (th0 s) (th1 s) (race_done s) (race_result s) (trace s).
Definition note (e : event) (s : exec) : exec := mk_exec (main s) (th0 s) (th1 s) (race_done s) (race_result s) (e :: trace s).
Definition set_race (i r : bool) (s : exec) : exec :=
  mk_exec (main s) (th0 s) (th1 s) (put i true (race_done s)) (put i r (race_result s)) (trace s).

Definition goto (p : worker_pc) (t : thread_t) : thread_t := mk_th p (ready t) (done t) (handled t) (call_index t) (init t) (racy t) (colliding t).

Section race.
(** The number of calls, and the index of the racing call of each worker. *)
Variables (ncalls r0 r1 : nat).

Definition idx (i : bool) : nat := if i then r1 else r0.

(** The worker of a call, and the first call it gets. *)
Definition worker_of (c : bool) (k : nat) : bool := c && (r0 <? k)%nat.
Definition first_call_index (i : bool) : nat := if i then S r0 else 0%nat.
Definition thread_of : nat -> bool := worker_of true.

(** The check in [handle_completion], and what it does to the thread. *)
Definition handle_completion (t : thread_t) : res thread_t :=
  if ready t || negb (done t) || handled t then Err Exited
  else Ok (mk_th (pc t) (ready t) (done t) true (call_index t) (init t) (racy t) (colliding t)).

Open Scope rz.

(** [schedule_call] after [event_wait(&th->done)]; [c] is colliding. *)
Definition schedule_call (c : bool) (k : nat) (s : exec) : res exec :=
  let i := worker_of c k in
  let t := th i s in
  let? t := if negb (handled t) then handle_completion t else Ok t in
  if ready t || negb (done t) || negb (handled t) then Err Exited
  else Ok (set_th i (mk_th (pc t) true false false k ((k =? first_call_index i)%nat && c) (c && (idx i =? k)%nat) c) s).

(** A step of a worker other than the barrier; [r] is the verdict of CMD_END.  [event_set] on an
    event that is set is an error. *)
Definition worker_step (i r : bool) (s : exec) : option (res exec) :=
  let t := th i s in
  match pc t with
  | W_ready => if ready t then Some (Ok (set_th i (goto (if init t then W_refresh else W_enter) t) s)) else None
  | W_refresh => Some (Ok (note (Ev_refresh i) (set_th i (goto W_enter t) s)))
  | W_enter => Some (Ok (set_th i (mk_th (if racy t then W_start else W_call) false (done t) (handled t) (call_index t) (init t) (racy t) (colliding t)) s))
  | W_start => Some (Ok (note (Ev_start i) (set_th i (goto W_barrier t) s)))
  | W_barrier => None
  | W_call => Some (Ok (note (if colliding t then Ev_call i (call_index t) else Ev_first i (call_index t)) (set_th i (goto (if racy t then W_end else W_done) t) s)))
  | W_end => Some (Ok (note (Ev_end i r) (set_race i r (set_th i (goto W_done t) s))))
  | W_done => Some (if done t then Err Exited
                    else Ok (set_th i (mk_th W_ready (ready t) true (handled t) (call_index t) (init t) (racy t) (colliding t)) s))
  end.

(** The place of the main thread in the pass [c]. *)
Definition at_call (c : bool) (k : nat) : main_pc := if c then M_call k else M_first k.

(** In the first pass a call that is done is completed ([event_timedwait] or the loop after it),
    or the main thread goes on without waiting longer. *)
Inductive race_step (s : exec) : exec -> Prop :=
  | rs_schedule c k s' : main s = at_call c k -> (k < ncalls)%nat -> done (th (worker_of c k) s) = true -> schedule_call c k s = Ok s' ->
      race_step s (set_main (at_call c (S k)) s')
  | rs_complete i k t : main s = M_first k -> done (th i s) = true -> handled (th i s) = false -> handle_completion (th i s) = Ok t ->
      race_step s (set_th i t s)
  | rs_retry : main s = M_first ncalls -> race_step s (set_main (M_call 0) s)
  | rs_eof : main s = M_call ncalls -> race_step s (set_main (M_wait false) s)
  | rs_wait i : main s = M_wait i -> pick i (race_done s) = true -> race_step s (set_main (if i then M_finished else M_wait true) s)
  | rs_worker i r s' : worker_step i r s = Some (Ok s') -> race_step s s'
  | rs_barrier : pc (th0 s) = W_barrier -> pc (th1 s) = W_barrier ->
      race_step s (note Ev_barrier (set_th true (goto W_call (th1 s)) (set_th false (goto W_call (th0 s)) s))).

(** The process: it runs, or has ended with a status. *)
Inductive process := Live (s : exec) | Gone (status : Z) (s : exec).

(** [if (res == (uint64)-1) doexit(kHypercallFail);] after CMD_START and after CMD_END. *)
Inductive process_step : process -> process -> Prop :=
  | ps_live s s' : race_step s s' -> process_step (Live s) (Live s')
  | ps_start_fails i s : pc (th i s) = W_start -> process_step (Live s) (Gone kHypercallFail s)
  | ps_end_fails i s : pc (th i s) = W_end -> process_step (Live s) (Gone kHypercallFail s).

(** A worker is inside [execute_syscall], and the step in which it returns from there. *)
Definition in_call (s : exec) : Prop := exists i, pc (th i s) = W_call.
Inductive call_returns : process -> process -> Prop :=
  | cr_worker i r s s' : pc (th i s) = W_call -> worker_step i r s = Some (Ok s') -> call_returns (Live s) (Live s').

(** [thread_create] *)
Definition new_thread : thread_t := mk_th W_ready false true true 0 false false false.
Definition race_start : exec := mk_exec (M_first 0) new_thread new_thread (false, false) (false, false) [].
Definition race_reach : exec -> Prop := rtc race_step race_start.

(** ** The protocol *)

(** The calls that a worker has made in the second pass, in their order, and those it is given. *)
Definition calls_of (i : bool) (l : list event) : list nat :=
  rev (omap (fun e => match e with Ev_call j k => if Bool.eqb i j then Some k else None | _ => None end) l).
Definition assigned (i : bool) (n : nat) : list nat := filter (fun k => thread_of k = i) (seq 0 n).
Definition scheduled (s : exec) : nat := match main s with M_first _ => 0%nat | M_call k => k | _ => ncalls end.

(** The racing calls are made between the barrier and CMD_END, the barrier is passed after both
    CMD_START; the events are newest first. *)
Fixpoint race_protocol (l : list event) : Prop :=
  match l with
  | [] => True
  | e :: l =>
      match e with
      | Ev_call i k => k = idx i -> Ev_barrier ∈ l
      | Ev_barrier => Ev_start false ∈ l /\ Ev_start true ∈ l
      | Ev_end i _ => Ev_call i (idx i) ∈ l
      | _ => True
      end /\ race_protocol l
  end.

(** The call of the worker is one of the second pass, still to be made. *)
Definition to_call (t : thread_t) : bool :=
  colliding t && negb (done t) && match pc t with W_end | W_done => false | _ => true end.
(** It is the racing call, before the barrier. *)
Definition before_barrier (t : thread_t) : bool :=
  negb (done t) && racy t && match pc t with W_call | W_end | W_done => false | _ => true end.

Record worker_ok (i : bool) (s : exec) : Prop := {
  wo_state : (done (th i s) = true /\ ready (th i s) = false /\ pc (th i s) = W_ready) \/
    (done (th i s) = false /\ handled (th i s) = false /\
     ((ready (th i s) = true /\ (pc (th i s) = W_ready \/ pc (th i s) = W_refresh \/ pc (th i s) = W_enter)) \/
      (ready (th i s) = false /\ pc (th i s) <> W_ready /\ pc (th i s) <> W_refresh /\ pc (th i s) <> W_enter)));
  wo_racy : pc (th i s) = W_start \/ pc (th i s) = W_barrier \/ pc (th i s) = W_end -> racy (th i s) = true;
  wo_index : done (th i s) = false -> racy (th i s) = colliding (th i s) && (idx i =? call_index (th i s))%nat;
  wo_calls : calls_of i (trace s) ++ (if to_call (th i s) then [call_index (th i s)] else []) = assigned i (scheduled s);
  wo_start : pc (th i s) = W_barrier -> Ev_start i ∈ trace s;
  wo_passed : pc (th i s) = W_call -> racy (th i s) = true -> Ev_barrier ∈ trace s;
  wo_called : pc (th i s) = W_end -> Ev_call i (idx i) ∈ trace s;
  wo_end : pick i (race_done s) = true -> Ev_end i (pick i (race_result s)) ∈ trace s }.

Lemma calls_of_other i e l : (forall k, e <> Ev_call i k) -> calls_of i (e :: l) = calls_of i l.
Proof.
  intros H. unfold calls_of. cbn [omap list_omap]. destruct e as [| | | |j k|]; try reflexivity.
  destruct (Bool.eqb i j) eqn:E; [|reflexivity]. apply eqb_prop in E as ->. destruct (H k eq_refl).
Qed.

Lemma calls_of_call i k l : calls_of i (Ev_call i k :: l) = calls_of i l ++ [k].
Proof. unfold calls_of. cbn [omap list_omap]. rewrite Bool.eqb_reflx. reflexivity. Qed.

Lemma assigned_S i k : assigned i (S k) = assigned i k ++ (if Bool.eqb (thread_of k) i then [k] else []).
Proof.
  unfold assigned. rewrite seq_S, filter_app, filter_cons, Nat.add_0_l. f_equal.
  destruct (decide (thread_of k = i)) as [-> | N]; [rewrite Bool.eqb_reflx; reflexivity|].
  destruct (Bool.eqb (thread_of k) i) eqn:E; [apply eqb_prop in E; contradiction | reflexivity].
Qed.

Lemma th_set_eq i t s : th i (set_th i t s) = t.
Proof. destruct i; reflexivity. Qed.
Lemma th_set_ne i j t s : i <> j -> th j (set_th i t s) = th j s.
Proof. destruct i, j; intros N; congruence || reflexivity. Qed.
Lemma th_note i e s : th i (note e s) = th i s.
Proof. destruct i; reflexivity. Qed.
Lemma th_main i m s : th i (set_main m s) = th i s.
Proof. destruct i; reflexivity. Qed.
Lemma th_race i j r s : th i (set_race j r s) = th i s.
Proof. destruct i; reflexivity. Qed.
Lemma pick_put_ne {A} i j (x : A) p : i <> j -> pick j (put i x p) = pick j p.
Proof. destruct i, j; intros N; congruence || reflexivity. Qed.
Lemma pick_put_eq {A} i (x : A) p : pick i (put i x p) = x.
Proof. destruct i; reflexivity. Qed.

(** A step that leaves worker [j] alone. *)
Lemma worker_frame j s s' es : worker_ok j s -> th j s' = th j s -> trace s' = es ++ trace s -> calls_of j (trace s') = calls_of j (trace s) ->
  pick j (race_done s') = pick j (race_done s) -> pick j (race_result s') = pick j (race_result s) ->
  assigned j (scheduled s') = assigned j (scheduled s) -> worker_ok j s'.
Proof.
  intros [] Et El Ec Ed Er Ea. split; rewrite ?Et, ?Ec, ?Ea, ?Ed, ?Er; auto; intros; rewrite El, elem_of_app; right; auto.
Qed.

(** A worker changes, and adds at most one event that is not a call. *)
Lemma worker_update j s s' es : worker_ok j s -> trace s' = es ++ trace s -> scheduled s' = scheduled s ->
  done (th j s') = done (th j s) -> handled (th j s') = handled (th j s) -> call_index (th j s') = call_index (th j s) -> racy (th j s') = racy (th j s) -> colliding (th j s') = colliding (th j s) ->
  done (th j s) = false ->
  (ready (th j s') = true /\ (pc (th j s') = W_ready \/ pc (th j s') = W_refresh \/ pc (th j s') = W_enter)) \/
    (ready (th j s') = false /\ pc (th j s') <> W_ready /\ pc (th j s') <> W_refresh /\ pc (th j s') <> W_enter) ->
  (pc (th j s') = W_start \/ pc (th j s') = W_barrier \/ pc (th j s') = W_end -> racy (th j s) = true) ->
  calls_of j (trace s') ++ (if to_call (th j s') then [call_index (th j s)] else []) = calls_of j (trace s) ++ (if to_call (th j s) then [call_index (th j s)] else []) ->
  (pc (th j s') = W_barrier -> Ev_start j ∈ trace s') -> (pc (th j s') = W_call -> racy (th j s) = true -> Ev_barrier ∈ trace s') ->
  (pc (th j s') = W_end -> Ev_call j (idx j) ∈ trace s') ->
  (pick j (race_done s') = true -> Ev_end j (pick j (race_result s')) ∈ trace s') -> worker_ok j s'.
Proof.
  intros [W1 W2 W3 W4 W5 W6 W7 W8] El Es Ed Eh Ec Er Eg Hd Hs Hr Hc H1 H2 H3 H4.
  assert (handled (th j s) = false) as Hh by (destruct W1 as [[E _] | (_ & ? & _)]; [congruence | assumption]).
  split; rewrite ?Ed, ?Eh, ?Ec, ?Er, ?Eg, ?Es; auto. rewrite Hc. exact W4.
Qed.

(** ** Every step keeps the invariant *)

Record race_inv (s : exec) : Prop := { ri_worker : forall i, worker_ok i s; ri_protocol : race_protocol (trace s) }.

Lemma busy i s : worker_ok i s -> pc (th i s) <> W_ready \/ ready (th i s) = true -> done (th i s) = false.
Proof. intros W H. destruct (wo_state i s W) as [(_ & R & P) | [? _]]; [|assumption]. destruct H; congruence. Qed.

(** The state after a step of worker [i]: its new state, the new events, the new verdicts. *)
Lemma worker_case i s s1 es : race_inv s -> trace s1 = es ++ trace s -> main s1 = main s -> th (negb i) s1 = th (negb i) s ->
  calls_of (negb i) (trace s1) = calls_of (negb i) (trace s) ->
  pick (negb i) (race_done s1) = pick (negb i) (race_done s) -> pick (negb i) (race_result s1) = pick (negb i) (race_result s) ->
  worker_ok i s1 -> race_protocol (trace s1) -> race_inv s1.
Proof.
  intros [W P] El Em H1 H2 H3 H4 W1 P1. split; [|exact P1]. intros j. destruct (decide (j = i)) as [-> | N]; [exact W1|].
  assert (j = negb i) as -> by (destruct i, j; reflexivity || congruence). eapply worker_frame; eauto. unfold scheduled. rewrite Em. reflexivity.
Qed.

Lemma calls_not_call j e l : match e with Ev_call _ _ => False | _ => True end -> calls_of j (e :: l) = calls_of j l.
Proof. intros H. apply calls_of_other. intros k ->. exact H. Qed.

(** The events of the worker, and of the other, when one is added. *)
Ltac worker_event i es := eapply (worker_case i _ _ es); eauto;
  [ destruct i; reflexivity | destruct i; reflexivity | destruct i; reflexivity | | destruct i; reflexivity | destruct i; reflexivity | | ].

(** The system call, in the second and in the first pass. *)
Lemma second_call_inv i s : race_inv s -> pc (th i s) = W_call -> done (th i s) = false -> colliding (th i s) = true ->
  race_inv (note (Ev_call i (call_index (th i s))) (set_th i (goto (if racy (th i s) then W_end else W_done) (th i s)) s)).
Proof.
  intros K Ep Bd Cg. pose proof K as [W P]. pose proof (W i) as Wi.
  set (k := call_index (th i s)). worker_event i [Ev_call i k].
  { destruct i; apply calls_of_other; discriminate. }
  2: { assert (k = idx i -> Ev_barrier ∈ trace s) as X; [|destruct i; exact (conj X P)].
       intros Ek. apply (wo_passed i s Wi Ep). rewrite (wo_index i s Wi Bd), Cg. apply Nat.eqb_eq. exact (eq_sym Ek). }
  apply (worker_update i s _ [Ev_call i k]); auto; rewrite ?th_note, ?th_set_eq; try (destruct i; reflexivity); cbn [pc goto ready].
  - right. destruct (wo_state i s Wi) as [(_ & _ & X) | (_ & _ & [(_ & [X | [X | X]]) | (R & _)])]; try congruence.
    destruct (racy _); repeat split; auto; discriminate.
  - destruct (racy _); [reflexivity | intros [|[|]]; discriminate].
  - replace (calls_of i (trace (note _ _))) with (calls_of i (trace s) ++ [k]) by (destruct i; symmetry; apply calls_of_call).
    unfold to_call. cbn [pc goto done colliding]. rewrite Bd, Ep, Cg. destruct (racy _); apply app_nil_r.
  - destruct (racy _); discriminate.
  - destruct (racy _); intros; discriminate.
  - destruct (racy (th i s)) eqn:Er; [|discriminate]. intros _. rewrite (wo_index i s Wi Bd), Cg in Er. apply Nat.eqb_eq in Er. rewrite Er. destruct i; left.
  - intros D. pose proof (wo_end i s Wi) as En. destruct i; right; apply En, D.
Qed.

Lemma first_call_inv i s : race_inv s -> pc (th i s) = W_call -> done (th i s) = false -> colliding (th i s) = false ->
  race_inv (note (Ev_first i (call_index (th i s))) (set_th i (goto (if racy (th i s) then W_end else W_done) (th i s)) s)).
Proof.
  intros K Ep Bd Cg. pose proof K as [W P]. pose proof (W i) as Wi.
  assert (racy (th i s) = false) as R by (rewrite (wo_index i s Wi Bd), Cg; reflexivity). rewrite R.
  worker_event i [Ev_first i (call_index (th i s))]; [destruct i; apply calls_not_call, I | |].
  2: { destruct i; exact (conj I P). }
  apply (worker_update i s _ [Ev_first i (call_index (th i s))]); auto; rewrite ?th_note, ?th_set_eq; try (destruct i; reflexivity);
    cbn [pc goto ready]; try discriminate.
  - right. destruct (wo_state i s Wi) as [(_ & _ & X) | (_ & _ & [(_ & [X | [X | X]]) | (Rd & _)])]; try congruence. repeat split; auto; discriminate.
  - intros [|[|]]; discriminate.
  - replace (calls_of i (trace (note _ _))) with (calls_of i (trace s)) by (destruct i; symmetry; apply calls_not_call, I).
    unfold to_call. cbn [pc goto done colliding]. rewrite Cg. reflexivity.
  - intros D. pose proof (wo_end i s Wi) as En. destruct i; right; apply En, D.
Qed.

(** The worker has not made its call yet, up to CMD_START. *)
Definition early (p : worker_pc) : bool := match p with W_ready | W_refresh | W_enter | W_start => true | _ => false end.

Lemma early_step_inv i r s s' : early (pc (th i s)) = true -> race_inv s -> worker_step i r s = Some (Ok s') -> race_inv s'.
Proof.
  intros Hp K E. pose proof K as [W P]. pose proof (W i) as Wi. unfold worker_step in E.
  assert (pc (th i s) <> W_ready -> done (th i s) = false) as Bd by (intros; apply (busy i s Wi); auto).
  assert (pick i (race_done s) = true -> forall es, Ev_end i (pick i (race_result s)) ∈ es ++ trace s) as En.
  { intros D es. apply elem_of_app. right. apply (wo_end i s Wi D). }
  destruct (pc (th i s)) eqn:Ep; try discriminate E; try discriminate Hp; try specialize (Bd ltac:(discriminate)).
  - destruct (ready (th i s)) eqn:Er; [|discriminate]. injection E as <-. clear Bd. pose proof (busy i s Wi (or_intror Er)) as Bd.
    worker_event i (@nil event); [destruct i; reflexivity | | destruct i; exact P].
    apply (worker_update i s _ []); auto; rewrite ?th_set_eq; try (destruct i; reflexivity); cbn [pc goto ready];
      try (destruct (init (th i s)); discriminate).
    + left. split; [exact Er|]. destruct (init _); auto.
    + destruct (init _); intros [|[|]]; discriminate.
    + unfold to_call. cbn [pc goto done colliding]. rewrite Bd, Ep. destruct (init _), i; reflexivity.
    + destruct i; apply (wo_end _ s Wi).
  - injection E as <-. worker_event i [Ev_refresh i]; [destruct i; apply calls_not_call, I | |].
    2: { destruct i; exact (conj I P). }
    apply (worker_update i s _ [Ev_refresh i]); auto; rewrite ?th_note, ?th_set_eq; try (destruct i; reflexivity); cbn [pc goto ready]; try discriminate.
    + left. destruct (wo_state i s Wi) as [(_ & _ & X) | (_ & _ & [[R _] | (_ & _ & X & _)])]; [congruence | auto | congruence].
    + intros [|[|]]; discriminate.
    + replace (calls_of i (trace (note _ _))) with (calls_of i (trace s)) by (destruct i; symmetry; apply calls_not_call, I).
      unfold to_call. cbn [pc goto done colliding]. rewrite Bd, Ep. reflexivity.
    + intros D. destruct i; apply (En D [_]).
  - injection E as <-. worker_event i (@nil event); [destruct i; reflexivity | | destruct i; exact P].
    apply (worker_update i s _ []); auto; rewrite ?th_set_eq; try (destruct i; reflexivity); cbn [pc ready].
    + right. split; [reflexivity|]. destruct (racy _); repeat split; discriminate.
    + destruct (racy _); [reflexivity | intros [|[|]]; discriminate].
    + unfold to_call. cbn [pc done colliding]. rewrite Bd, Ep. destruct (racy _), i; reflexivity.
    + destruct (racy _); discriminate.
    + destruct (racy _); intros; discriminate.
    + destruct (racy _); discriminate.
    + destruct i; apply (wo_end _ s Wi).
  - injection E as <-. worker_event i [Ev_start i]; [destruct i; apply calls_not_call, I | |].
    2: { destruct i; exact (conj I P). }
    apply (worker_update i s _ [Ev_start i]); auto; rewrite ?th_note, ?th_set_eq; try (destruct i; reflexivity); cbn [pc goto ready]; try discriminate.
    + right. destruct (wo_state i s Wi) as [(_ & _ & X) | (_ & _ & [(_ & [X | [X | X]]) | (R & _)])]; try congruence. repeat split; auto; discriminate.
    + intros _. apply (wo_racy i s Wi). auto.
    + replace (calls_of i (trace (note _ _))) with (calls_of i (trace s)) by (destruct i; symmetry; apply calls_not_call, I).
      unfold to_call. cbn [pc goto done colliding]. rewrite Bd, Ep. reflexivity.
    + intros _. destruct i; left.
    + intros D. destruct i; apply (En D [_]).
Qed.

Lemma late_step_inv i r s s' : early (pc (th i s)) = false -> race_inv s -> worker_step i r s = Some (Ok s') -> race_inv s'.
Proof.
  intros Hp K E. pose proof K as [W P]. pose proof (W i) as Wi. unfold worker_step in E.
  assert (pc (th i s) <> W_ready -> done (th i s) = false) as Bd by (intros; apply (busy i s Wi); auto).
  assert (pick i (race_done s) = true -> forall es, Ev_end i (pick i (race_result s)) ∈ es ++ trace s) as En.
  { intros D es. apply elem_of_app. right. apply (wo_end i s Wi D). }
  destruct (pc (th i s)) eqn:Ep; try discriminate E; try discriminate Hp; try specialize (Bd ltac:(discriminate)).
  - injection E as <-. destruct (colliding (th i s)) eqn:Cg; [apply second_call_inv | apply first_call_inv]; assumption.
  - injection E as <-. worker_event i [Ev_end i r]; [destruct i; apply calls_not_call, I | |].
    2: { destruct i; exact (conj (wo_called _ s Wi Ep) P). }
    apply (worker_update i s _ [Ev_end i r]); auto; rewrite ?th_note, ?th_race, ?th_set_eq; try (destruct i; reflexivity); cbn [pc goto ready]; try discriminate.
    + right. destruct (wo_state i s Wi) as [(_ & _ & X) | (_ & _ & [(_ & [X | [X | X]]) | (R & _)])]; try congruence. repeat split; auto; discriminate.
    + intros [|[|]]; discriminate.
    + replace (calls_of i (trace (note _ _))) with (calls_of i (trace s)) by (destruct i; symmetry; apply calls_not_call, I).
      unfold to_call. cbn [pc goto done colliding]. rewrite Bd, Ep. reflexivity.
    + intros _. destruct i; left.
  - destruct (done (th i s)) eqn:Dn; [discriminate|]. injection E as <-.
    worker_event i (@nil event); [destruct i; reflexivity | | destruct i; exact P].
    destruct Wi as [W1 W2 W3 W4 W5 W6 W7 W8]. split; rewrite ?th_set_eq; cbn [pc ready done handled call_index racy]; try discriminate.
    + left. destruct W1 as [(_ & R & X) | (_ & _ & [(_ & [X | [X | X]]) | (R & _)])]; try congruence; auto.
    + intros [|[|]]; discriminate.
    + unfold to_call in *. rewrite Ep, Dn in W4. cbn [pc done colliding] in *. rewrite andb_false_r. rewrite andb_false_r in W4. destruct i; exact W4.
    + destruct i; exact W8.
Qed.

Lemma worker_step_inv i r s s' : race_inv s -> worker_step i r s = Some (Ok s') -> race_inv s'.
Proof. destruct (early (pc (th i s))) eqn:E; [apply early_step_inv | apply late_step_inv]; exact E. Qed.

(** The worker of call [k] in pass [c] when it has been given the call. *)
Definition given (c : bool) (k : nat) : thread_t :=
  mk_th W_ready true false false k ((k =? first_call_index (worker_of c k))%nat && c) (c && (idx (worker_of c k) =? k)%nat) c.

(** The checks of [schedule_call] and [handle_completion] never fail. *)
Lemma schedule_ok c k s : worker_ok (worker_of c k) s -> done (th (worker_of c k) s) = true ->
  schedule_call c k s = Ok (set_th (worker_of c k) (given c k) s).
Proof.
  intros W D. destruct (wo_state _ s W) as [(_ & R & P) | [? _]]; [|congruence]. unfold schedule_call, handle_completion, given.
  destruct (handled (th (worker_of c k) s)) eqn:H; cbn [negb]; rewrite ?R, ?D, ?H, ?P; cbn [orb negb rbind ready done handled pc]; rewrite ?R, ?D, ?P, ?H; reflexivity.
Qed.

Lemma schedule_inv c k s : race_inv s -> main s = at_call c k -> done (th (worker_of c k) s) = true ->
  race_inv (set_main (at_call c (S k)) (set_th (worker_of c k) (given c k) s)).
Proof.
  intros [W P] Hm D. set (i := worker_of c k) in *. set (s1 := set_main _ _).
  assert (trace s1 = trace s) as Et by (unfold s1; destruct i; reflexivity).
  assert (race_done s1 = race_done s /\ race_result s1 = race_result s) as [Ed Er] by (unfold s1; destruct i; auto).
  assert (scheduled s = if c then k else 0%nat) as Es by (unfold scheduled; rewrite Hm; destruct c; reflexivity).
  assert (scheduled s1 = if c then S k else 0%nat) as Es1 by (unfold scheduled, s1; destruct c; reflexivity).
  split; [|rewrite Et; exact P]. intros j. destruct (decide (i = j)) as [<- | N].
  - destruct (W i) as [W1 W2 W3 W4 W5 W6 W7 W8]. assert (th i s1 = given c k) as Eh by (unfold s1; rewrite th_main, th_set_eq; reflexivity).
    split; rewrite ?Eh, ?Et, ?Ed, ?Er; cbn [pc ready done handled call_index racy colliding given]; try discriminate; auto 10.
    + intros [|[|]]; discriminate.
    + rewrite Es1. unfold to_call in *. cbn [done pc colliding given negb andb]. rewrite D, Es in W4. rewrite andb_false_r in W4. cbn [negb andb] in W4.
      rewrite app_nil_r in W4. rewrite W4. destruct c; [|reflexivity]. rewrite assigned_S. fold (worker_of true k) in i. unfold thread_of. fold i.
      rewrite Bool.eqb_reflx. reflexivity.
  - apply (worker_frame j s s1 []); auto; rewrite ?Et, ?Ed, ?Er; auto.
    + unfold s1. rewrite th_main. apply th_set_ne, N.
    + rewrite Es1, Es. destruct c; [|reflexivity]. rewrite assigned_S. unfold thread_of. fold i.
      destruct (Bool.eqb i j) eqn:E; [apply eqb_prop in E; contradiction | apply app_nil_r].
Qed.

(** A call of the first pass is completed. *)
Definition completed (t : thread_t) : thread_t := mk_th (pc t) (ready t) (done t) true (call_index t) (init t) (racy t) (colliding t).

Lemma completion_ok t t' : handle_completion t = Ok t' -> t' = completed t.
Proof. unfold handle_completion. destruct (_ || _ || _); intros [= <-]. reflexivity. Qed.

Lemma complete_inv i s : race_inv s -> done (th i s) = true -> race_inv (set_th i (completed (th i s)) s).
Proof.
  intros K D. pose proof (ri_worker s K i) as Wi.
  eapply (worker_case i s _ []); eauto; try (destruct i; reflexivity); [|destruct i; apply K].
  destruct Wi as [W1 W2 W3 W4 W5 W6 W7 W8]. split; rewrite ?th_set_eq; unfold completed; cbn [pc ready done handled call_index racy colliding];
    try (destruct i; assumption).
  - left. destruct W1 as [? | [? _]]; [assumption | congruence].
Qed.

(** The main thread moves on. *)
Lemma main_inv m s : race_inv s -> scheduled (set_main m s) = scheduled s -> race_inv (set_main m s).
Proof.
  intros [W P] Es. split; [|exact P]. intros j. apply (worker_frame j s _ []); auto; try apply th_main; rewrite Es; reflexivity.
Qed.

Lemma barrier_inv s : race_inv s -> pc (th0 s) = W_barrier -> pc (th1 s) = W_barrier ->
  race_inv (note Ev_barrier (set_th true (goto W_call (th1 s)) (set_th false (goto W_call (th0 s)) s))).
Proof.
  intros [W P] H0 H1. set (s1 := note _ _).
  assert (forall i, pc (th i s) = W_barrier) as Hp by (intros []; assumption).
  split; [|exact (conj (conj (wo_start false s (W false) H0) (wo_start true s (W true) H1)) P)].
  intros j. assert (pc (th j s) <> W_ready) as Np by (rewrite Hp; discriminate). pose proof (busy j s (W j) (or_introl Np)) as D.
  assert (th j s1 = goto W_call (th j s)) as Eh by (destruct j; reflexivity).
  apply (worker_update j s s1 [Ev_barrier]); auto; rewrite ?Eh; cbn [pc goto ready done handled call_index racy]; auto; try discriminate.
  - right. destruct (wo_state j s (W j)) as [(_ & _ & X) | (_ & _ & [(_ & [X | [X | X]]) | (R & _)])];
      try (rewrite Hp in X; discriminate). repeat split; auto; discriminate.
  - intros [|[|]]; discriminate.
  - unfold s1. cbn [trace note]. rewrite (calls_not_call j Ev_barrier) by exact I. unfold to_call. cbn [pc goto done]. rewrite D, Hp.
    destruct j; reflexivity.
  - intros _ _. left.
  - intros X. right. apply (wo_end j s (W j) X).
Qed.

Lemma race_step_inv s s' : race_step s s' -> race_inv s -> race_inv s'.
Proof.
  intros [c k s1 Hm Hk Hd E | i k t Hm Hd Hh E | Hm | Hm | i Hm Hd | i r s1 E | H0 H1] K.
  - rewrite (schedule_ok c k s (ri_worker s K _) Hd) in E. injection E as <-. apply schedule_inv; assumption.
  - apply completion_ok in E as ->. apply complete_inv; assumption.
  - apply main_inv; [exact K|]. unfold scheduled. rewrite Hm. reflexivity.
  - apply main_inv; [exact K|]. unfold scheduled. rewrite Hm. reflexivity.
  - apply main_inv; [exact K|]. unfold scheduled. rewrite Hm. destruct i; reflexivity.
  - eapply worker_step_inv; eassumption.
  - apply barrier_inv; assumption.
Qed.

Lemma race_start_inv : race_inv race_start.
Proof.
  split; [|exact I]. intros i. split; destruct i; simpl; auto; try discriminate; intros [|[|]]; discriminate.
Qed.

Lemma race_reach_inv s : race_reach s -> race_inv s.
Proof.
  intros H. apply (rtc_ind_r (R := race_step) race_inv race_start); [apply race_start_inv | | exact H].
  intros s1 s2 _ Hs K. eapply race_step_inv; eassumption.
Qed.

Lemma worker_step_main i r s s' : worker_step i r s = Some (Ok s') -> main s' = main s.
Proof.
  unfold worker_step. destruct (pc (th i s)); try destruct (ready (th i s)); try destruct (done (th i s)); intros E; try discriminate E;
    injection E as <-; destruct i; reflexivity.
Qed.

Lemma scheduled_le s : race_reach s -> (scheduled s <= ncalls)%nat.
Proof.
  intros H. apply (rtc_ind_r (R := race_step) (fun s => scheduled s <= ncalls)%nat race_start); [unfold scheduled; simpl; lia | | exact H].
  intros s1 s2 _ [c k s3 _ Hk _ _ | j k t _ _ _ _ | _ | _ | j _ _ | j r s3 E | _ _] Hs; try exact Hs; try (unfold scheduled; simpl; lia).
  - unfold scheduled. destruct c; simpl; lia.
  - destruct j; exact Hs.
  - destruct j; unfold scheduled; simpl; lia.
  - unfold scheduled in *. rewrite (worker_step_main _ _ _ _ E). exact Hs.
Qed.

(** C32: in every interleaving a worker makes its racing call only when both workers have their
    breakpoints: the call comes after the barrier and the barrier after both CMD_START, and the
    verdict is fetched after the call. *)
Theorem race_calls_bracketed s : race_reach s -> race_protocol (trace s).
Proof. intros H. apply (ri_protocol s (race_reach_inv s H)). Qed.

(** C34: the workers make their calls in the order of the program: what worker [i] has made in the
    second pass is a beginning of the calls up to the first racing call, or of those behind it; and no check of
    the executor on the state of its threads fails. *)
Theorem workers_in_order s i : race_reach s ->
  (exists rest, calls_of i (trace s) ++ rest = assigned i ncalls) /\
  (forall c k, main s = at_call c k -> done (th (worker_of c k) s) = true -> exists s', schedule_call c k s = Ok s') /\
  (forall r, worker_step i r s <> Some (Err Exited)).
Proof.
  intros H. pose proof (race_reach_inv s H) as [W _]. split; [|split].
  - pose proof (scheduled_le s H) as Hs.
    assert (exists l, assigned i ncalls = assigned i (scheduled s) ++ l) as [l ->].
    { unfold assigned. replace ncalls with (scheduled s + (ncalls - scheduled s))%nat by lia. rewrite seq_app, filter_app. eauto. }
    rewrite <- (wo_calls i s (W i)), <- app_assoc. eauto.
  - intros c k _ D. eexists. apply schedule_ok; auto.
  - intros r E. unfold worker_step in E. destruct (pc (th i s)) eqn:Ep; repeat case_match; try discriminate E.
    rewrite (busy i s (W i)) in *; [discriminate | left; congruence].
Qed.

(** ** Verdicts and progress *)

Record verdict_inv (s : exec) : Prop := {
  v_end : forall i r, Ev_end i r ∈ trace s -> pick i (race_done s) = true /\ pick i (race_result s) = r;
  v_once : forall i, racy (th i s) = true -> done (th i s) = false -> pc (th i s) <> W_done -> pick i (race_done s) = false;
  v_main : match main s with M_first _ | M_call _ | M_wait false => True | M_wait true => pick false (race_done s) = true
           | M_finished => forall i, pick i (race_done s) = true end;
  v_before : forall i, (idx i < scheduled s)%nat -> thread_of (idx i) = i -> before_barrier (th i s) = true \/ Ev_barrier ∈ trace s;
  v_after : Ev_barrier ∈ trace s -> forall i, before_barrier (th i s) = false /\
    ((racy (th i s) = true /\ done (th i s) = false /\ (pc (th i s) = W_call \/ pc (th i s) = W_end)) \/ pick i (race_done s) = true) }.

Lemma calls_of_elem i k l : k ∈ calls_of i l <-> Ev_call i k ∈ l.
Proof.
  unfold calls_of. rewrite list_elem_of_In, <- in_rev, <- list_elem_of_In, list_elem_of_omap. split.
  - intros (e & He & Ee). destruct e as [| | | |j k'|]; try discriminate. destruct (Bool.eqb i j) eqn:E; [|discriminate].
    apply eqb_prop in E as ->. injection Ee as ->. exact He.
  - intros He. exists (Ev_call i k). split; [exact He|]. cbn. rewrite Bool.eqb_reflx. reflexivity.
Qed.

Lemma protocol_end l i r : race_protocol l -> Ev_end i r ∈ l -> Ev_call i (idx i) ∈ l.
Proof.
  induction l as [|e l IH]; intros P H; [inversion H|]. apply elem_of_cons in H as [<- | H]; [|right; apply IH; [apply P | exact H]].
  right. apply P.
Qed.

(** The racing call was made when there is a verdict, so it is not made again. *)
Lemma verdict_called s i : race_inv s -> pick i (race_done s) = true -> idx i ∈ calls_of i (trace s).
Proof. intros [W P] D. apply calls_of_elem. apply (protocol_end _ i (pick i (race_result s)) P), (wo_end i s (W i) D). Qed.

Lemma assigned_lt i k n : k ∈ assigned i n -> (k < n)%nat.
Proof. unfold assigned. rewrite list_elem_of_filter, elem_of_seq. lia. Qed.

Lemma verdict_scheduled s i : race_inv s -> pick i (race_done s) = true -> (idx i < scheduled s)%nat.
Proof.
  intros K D. apply (assigned_lt i). rewrite <- (wo_calls i s (ri_worker s K i)). apply elem_of_app. left. apply verdict_called; assumption.
Qed.

Lemma schedule_verdict c k s : race_inv s -> verdict_inv s -> main s = at_call c k -> done (th (worker_of c k) s) = true ->
  verdict_inv (set_main (at_call c (S k)) (set_th (worker_of c k) (given c k) s)).
Proof.
  intros K [V1 V2 V3 V4 V5] Hm D. set (i := worker_of c k) in *. set (s1 := set_main _ _).
  assert (trace s1 = trace s /\ race_done s1 = race_done s /\ race_result s1 = race_result s) as (Et & Ed & Er) by (unfold s1; destruct i; auto).
  assert (scheduled s = if c then k else 0%nat) as Es by (unfold scheduled; rewrite Hm; destruct c; reflexivity).
  assert (scheduled s1 = if c then S k else 0%nat) as Es1 by (unfold scheduled, s1; destruct c; reflexivity).
  assert (th i s1 = given c k) as Eh by (unfold s1; rewrite th_main, th_set_eq; reflexivity).
  assert (forall j, i <> j -> th j s1 = th j s) as Eo by (intros j N; unfold s1; rewrite th_main; apply th_set_ne, N).
  assert (pick i (race_done s) = true -> racy (given c k) = false) as Nr.
  { intros X. pose proof (verdict_scheduled s i K X) as Y. rewrite Es in Y. cbn [racy given]. fold i.
    destruct c; [apply Nat.eqb_neq; lia | lia]. }
  assert (before_barrier (given c k) = racy (given c k)) as Bt by (unfold before_barrier; cbn [done pc given negb andb]; apply andb_true_r).
  assert (before_barrier (th i s) = false) as B0 by (unfold before_barrier; rewrite D; reflexivity).
  split; rewrite ?Et, ?Ed, ?Er; auto.
  - intros j. destruct (decide (i = j)) as [<- | N]; [|rewrite (Eo j N); apply V2]. rewrite Eh. intros R _ _.
    destruct (pick i (race_done s)) eqn:X; [rewrite (Nr eq_refl) in R; discriminate | reflexivity].
  - destruct c; exact I.
  - rewrite Es1. destruct c; [|lia]. intros j Hj Tj. destruct (decide (i = j)) as [<- | N].
    + rewrite Eh, Bt. cbn [racy given]. fold i. destruct (Nat.eqb_spec (idx i) k) as [|Ne]; [auto|]. right.
      destruct (V4 i ltac:(lia) Tj) as [X | X]; [congruence | exact X].
    + rewrite (Eo j N). apply V4; [|exact Tj]. enough (idx j <> k) by lia. intros Ek. apply N. unfold i. rewrite <- Ek. exact Tj.
  - intros Hb j. specialize (V5 Hb j). destruct (decide (i = j)) as [<- | N]; [|rewrite (Eo j N); exact V5].
    destruct V5 as [_ [(_ & X & _) | X]]; [congruence|]. rewrite Eh, Bt. auto.
Qed.

(** A worker moves and fetches no verdict. *)
Lemma verdict_set i t s : verdict_inv s -> racy t = racy (th i s) -> before_barrier t = before_barrier (th i s) ->
  (done t = false -> pc t <> W_done -> done (th i s) = false /\ pc (th i s) <> W_done) ->
  (racy (th i s) = true -> done (th i s) = false -> pc (th i s) = W_call \/ pc (th i s) = W_end ->
   done t = false /\ (pc t = W_call \/ pc t = W_end)) -> verdict_inv (set_th i t s).
Proof.
  intros [V1 V2 V3 V4 V5] Ec Eb Hd Hp. set (s' := set_th i t s).
  assert (th i s' = t) as Ei by apply th_set_eq.
  assert (th (negb i) s' = th (negb i) s) as Eo by (apply th_set_ne; destruct i; discriminate).
  assert (main s' = main s /\ race_done s' = race_done s /\ race_result s' = race_result s /\ trace s' = trace s) as (Em & Ed & Er & Et)
    by (unfold s'; destruct i; auto).
  assert (scheduled s' = scheduled s) as Es by (unfold scheduled; rewrite Em; reflexivity).
  assert (forall j, j = i \/ j = negb i) as Two by (intros []; destruct i; auto).
  clearbody s'. split; rewrite ?Em, ?Ed, ?Er, ?Es, ?Et; auto.
  - intros j. destruct (Two j) as [-> | ->]; [|rewrite Eo; apply V2]. rewrite Ei, Ec. intros R D N. destruct (Hd D N). auto.
  - intros j Hj Tj. destruct (Two j) as [-> | ->]; [rewrite Ei, Eb | rewrite Eo]; auto.
  - intros Hb j. specialize (V5 Hb j). destruct (Two j) as [-> | ->]; [|rewrite Eo; exact V5].
    rewrite Ei, Eb, Ec. destruct V5 as [B [(R & D & Q) | X]]; [|auto]. destruct (Hp R D Q). auto.
Qed.

Lemma verdict_note e s : match e with Ev_end _ _ | Ev_barrier => False | _ => True end -> verdict_inv s -> verdict_inv (note e s).
Proof.
  intros He [V1 V2 V3 V4 V5].
  assert (Ev_barrier ∈ e :: trace s -> Ev_barrier ∈ trace s) as Hb by (intros H; apply elem_of_cons in H as [<- | H]; [destruct He | exact H]).
  split; auto.
  - intros i r H. apply V1. apply elem_of_cons in H as [<- | H]; [destruct He | exact H].
  - intros i Hi Ti. destruct (V4 i Hi Ti) as [X | X]; [left; destruct i; exact X | right; right; exact X].
  - intros H i. rewrite th_note. exact (V5 (Hb H) i).
Qed.

Lemma verdict_fetched i r s : race_inv s -> verdict_inv s -> pc (th i s) = W_end ->
  verdict_inv (note (Ev_end i r) (set_race i r (set_th i (goto W_done (th i s)) s))).
Proof.
  intros K [V1 V2 V3 V4 V5] Ep. set (s' := note _ _). pose proof (ri_worker s K i) as Wi.
  assert (done (th i s) = false) as D by (apply (busy i s Wi); left; congruence).
  assert (racy (th i s) = true) as R by (apply (wo_racy i s Wi); auto).
  assert (pick i (race_done s) = false) as N by (apply V2; congruence).
  assert (forall j, j = i \/ j = negb i) as Two by (intros []; destruct i; auto).
  assert (th i s' = goto W_done (th i s)) as Ei by (unfold s'; rewrite th_note, th_race, th_set_eq; reflexivity).
  assert (th (negb i) s' = th (negb i) s) as Eo by (unfold s'; rewrite th_note, th_race, th_set_ne; [reflexivity | destruct i; discriminate]).
  assert (race_done s' = put i true (race_done s) /\ race_result s' = put i r (race_result s) /\ trace s' = Ev_end i r :: trace s /\ main s' = main s)
    as (Ed & Er & Et & Em) by (unfold s'; destruct i; auto).
  assert (scheduled s' = scheduled s) as Es by (unfold scheduled; rewrite Em; reflexivity).
  assert (i <> negb i) as Ne by (destruct i; discriminate).
  assert (Ev_barrier ∈ trace s' <-> Ev_barrier ∈ trace s) as Eb.
  { rewrite Et, elem_of_cons. split; [intros [|]; [discriminate | assumption] | auto]. }
  assert (before_barrier (th i s) = false) as Bf by (unfold before_barrier; rewrite Ep; apply andb_false_r).
  split; rewrite ?Ed, ?Er, ?Es, ?Em.
  - intros j r'. rewrite Et, elem_of_cons. intros [[= -> ->] | H]; [rewrite !pick_put_eq; auto|].
    destruct (V1 _ _ H) as [V X]. destruct (Two j) as [-> | ->]; [congruence|]. rewrite !pick_put_ne by exact Ne. auto.
  - intros j. destruct (Two j) as [-> | ->]; [rewrite Ei; intros _ _ []; reflexivity|]. rewrite Eo, pick_put_ne by exact Ne. apply V2.
  - destruct (main s) as [| |[]|]; auto; [destruct i; [exact V3 | reflexivity]|]. rewrite (V3 i) in N. discriminate.
  - intros j Hj Tj. rewrite Eb. destruct (V4 j Hj Tj) as [X | X]; [|auto]. destruct (Two j) as [-> | ->]; [congruence | rewrite Eo; auto].
  - rewrite Eb. intros Hb j. destruct (Two j) as [-> | ->]; [|rewrite Eo, pick_put_ne by exact Ne; auto].
    rewrite Ei, pick_put_eq. split; [unfold before_barrier; apply andb_false_r | auto].
Qed.

(** The conditions of [verdict_set] at a worker whose place is known. *)
Ltac moved Ep :=
  apply verdict_set; unfold before_barrier; cbn [pc goto done racy]; rewrite ?Ep;
  [ assumption
  | reflexivity
  | try reflexivity; try (destruct (init _); reflexivity); try (destruct (racy _); rewrite ?andb_false_r; reflexivity); rewrite ?andb_false_r; reflexivity
  | intros; split; (discriminate || congruence)
  | first [intros _ _ [|]; discriminate | intros R D _; rewrite R; auto] ].

Lemma worker_verdict i r s s' : race_inv s -> verdict_inv s -> worker_step i r s = Some (Ok s') -> verdict_inv s'.
Proof.
  intros K V E. pose proof (busy i s (ri_worker s K i)) as Bd. unfold worker_step in E.
  destruct (pc (th i s)) eqn:Ep; try discriminate E.
  - destruct (ready (th i s)); [|discriminate E]. injection E as <-. moved Ep.
  - injection E as <-. apply verdict_note; [exact I|]. moved Ep.
  - injection E as <-. moved Ep.
  - injection E as <-. apply verdict_note; [exact I|]. moved Ep.
  - injection E as <-. apply verdict_note; [destruct (colliding _); exact I|]. moved Ep.
  - injection E as <-. apply verdict_fetched; assumption.
  - destruct (done (th i s)) eqn:Dn; [discriminate E|]. injection E as <-. moved Ep.
Qed.

Lemma complete_verdict i s : verdict_inv s -> done (th i s) = true -> verdict_inv (set_th i (completed (th i s)) s).
Proof. intros V D. apply verdict_set; cbn [completed pc done racy]; auto; rewrite D; discriminate. Qed.

Lemma verdict_main m s : verdict_inv s -> scheduled (set_main m s) = scheduled s ->
  match m with M_first _ | M_call _ | M_wait false => True | M_wait true => pick false (race_done s) = true
  | M_finished => forall i, pick i (race_done s) = true end -> verdict_inv (set_main m s).
Proof. intros [V1 V2 V3 V4 V5] Es Hm. split; rewrite ?Es; auto. Qed.

Lemma verdict_barrier s : race_inv s -> verdict_inv s -> pc (th0 s) = W_barrier -> pc (th1 s) = W_barrier ->
  verdict_inv (note Ev_barrier (set_th true (goto W_call (th1 s)) (set_th false (goto W_call (th0 s)) s))).
Proof.
  intros [W P] [V1 V2 V3 V4 V5] H0 H1. set (s' := note _ _).
  assert (forall j, pc (th j s) = W_barrier) as Hp by (intros []; assumption).
  assert (forall j, th j s' = goto W_call (th j s)) as Eh by (intros []; reflexivity).
  assert (forall j, racy (th j s) = true /\ done (th j s) = false) as Hr.
  { intros j. split; [apply (wo_racy j s (W j)); auto | apply (busy j s (W j)); left; rewrite Hp; discriminate]. }
  split; auto.
  - intros i r H. apply V1. apply elem_of_cons in H as [[=] | H]. exact H.
  - intros j. destruct (Hr j) as [R D]. intros _ _ _. apply V2; auto. rewrite Hp. discriminate.
  - intros i _ _. right. left.
  - intros _ j. rewrite Eh. destruct (Hr j) as [R D]. split; [unfold before_barrier; apply andb_false_r|]. left. cbn [racy done pc goto]. auto.
Qed.

Lemma race_start_verdict : verdict_inv race_start.
Proof.
  split; simpl; auto.
  - intros i r H. inversion H.
  - intros [] H; discriminate H.
  - intros i H. exfalso. revert H. unfold scheduled. simpl. lia.
  - intros H. inversion H.
Qed.

Lemma race_step_verdict s s' : race_step s s' -> race_inv s -> verdict_inv s -> verdict_inv s'.
Proof.
  intros [c k s1 Hm Hk Hd E | i k t Hm Hd Hh E | Hm | Hm | i Hm Hd | i r s1 E | H0 H1] K V.
  - rewrite (schedule_ok c k s (ri_worker s K _) Hd) in E. injection E as <-. apply schedule_verdict; assumption.
  - apply completion_ok in E as ->. apply complete_verdict; assumption.
  - apply verdict_main; [exact V | unfold scheduled; rewrite Hm; reflexivity | exact I].
  - apply verdict_main; [exact V | unfold scheduled; rewrite Hm; reflexivity | exact I].
  - pose proof (v_main s V) as V3. rewrite Hm in V3.
    apply verdict_main; [exact V | unfold scheduled; rewrite Hm; destruct i; reflexivity |]. destruct i; [|exact Hd]. intros []; assumption.
  - eapply worker_verdict; eassumption.
  - apply verdict_barrier; assumption.
Qed.

Lemma race_reach_verdict s : race_reach s -> verdict_inv s.
Proof.
  intros H. apply (rtc_ind_r (R := race_step) (fun s => race_inv s /\ verdict_inv s) race_start) in H; [apply H | |].
  - split; [apply race_start_inv | apply race_start_verdict].
  - intros s1 s2 _ Hs [K V]. split; [eapply race_step_inv | eapply race_step_verdict]; eassumption.
Qed.

(** C33: when the main thread has passed [finish_race], each worker has fetched exactly one verdict
    for its racing call; the outcome is a race when both are, no race when neither is, and a
    retry when they differ. *)
Theorem verdict_of_both s : race_reach s -> main s = M_finished ->
  exists a b, Ev_end false a ∈ trace s /\ Ev_end true b ∈ trace s /\
    (forall r, Ev_end false r ∈ trace s -> r = a) /\ (forall r, Ev_end true r ∈ trace s -> r = b) /\
    Ev_call false r0 ∈ trace s /\ Ev_call true r1 ∈ trace s /\
    finish_race (race_result s) = match a, b with true, true => TRUE_RACE | false, false => NO_RACE | _, _ => RACE_RETRY end.
Proof.
  intros H Hm. pose proof (race_reach_inv s H) as [W P]. destruct (race_reach_verdict s H) as [V1 _ V3 _ _]. rewrite Hm in V3.
  pose proof (wo_end false s (W false) (V3 false)) as E0. pose proof (wo_end true s (W true) (V3 true)) as E1.
  exists (race_result s).1, (race_result s).2. repeat split; auto.
  - intros r Hr. symmetry. apply (V1 false r Hr).
  - intros r Hr. symmetry. apply (V1 true r Hr).
  - apply (protocol_end _ false _ P E0).
  - apply (protocol_end _ true _ P E1).
  - destruct (race_result s) as [[] []]; reflexivity.
Qed.

(** ** Progress *)

Definition worker_rank (t : thread_t) : nat :=
  if done t then (if handled t then 0 else 1) else match pc t with
  | W_ready => 9 | W_refresh => 8 | W_enter => 7 | W_start => 6 | W_barrier => 5 | W_call => 4 | W_end => 3 | W_done => 2 end.
Definition main_rank (m : main_pc) : nat :=
  match m with M_first k => 10 * (ncalls - k) + (10 * ncalls + 4) | M_call k => 10 * (ncalls - k) + 3 | M_wait false => 2 | M_wait true => 1 | M_finished => 0 end.
Definition race_rank (s : exec) : nat := main_rank (main s) + worker_rank (th0 s) + worker_rank (th1 s).

Lemma rank_set i t s : (worker_rank t < worker_rank (th i s))%nat -> (race_rank (set_th i t s) < race_rank s)%nat.
Proof. destruct i; unfold race_rank; cbn [set_th th0 th1 main th]; lia. Qed.

Lemma rank_race i r s : race_rank (set_race i r s) = race_rank s.
Proof. reflexivity. Qed.
Lemma rank_note e s : race_rank (note e s) = race_rank s.
Proof. reflexivity. Qed.

Ltac ranked i s Rk Bd E :=
  let B := fresh in assert (done (th i s) = false) as B by (apply Bd; left; discriminate);
  rewrite B in Rk; injection E as <-; try rewrite rank_note; apply Rk;
  unfold worker_rank; cbn [goto pc done]; rewrite B; try destruct (racy (th i s)); lia.

Lemma worker_step_rank i r s s' : race_inv s -> worker_step i r s = Some (Ok s') -> (race_rank s' < race_rank s)%nat.
Proof.
  intros K E. pose proof (busy i s (ri_worker s K i)) as Bd. unfold worker_step in E.
  assert (forall t, worker_rank t < worker_rank (th i s) -> race_rank (set_th i t s) < race_rank s)%nat as Rk by (intros t; apply rank_set).
  unfold worker_rank at 2 in Rk. destruct (pc (th i s)); try discriminate E.
  - destruct (ready (th i s)); [|discriminate E]. injection E as <-. rewrite (Bd (or_intror eq_refl)) in Rk.
    apply Rk. unfold worker_rank. cbn [goto pc done handled]. rewrite (Bd (or_intror eq_refl)). destruct (init (th i s)); lia.
  - ranked i s Rk Bd E.
  - ranked i s Rk Bd E.
  - ranked i s Rk Bd E.
  - ranked i s Rk Bd E.
  - assert (done (th i s) = false) as B by (apply Bd; left; discriminate). rewrite B in Rk. injection E as <-.
    change (race_rank (note _ _)) with (race_rank (set_race i r (set_th i (goto W_done (th i s)) s))). rewrite rank_race.
    apply Rk. unfold worker_rank. cbn [goto pc done]. rewrite B. lia.
  - destruct (done (th i s)); [discriminate E|]. injection E as <-. apply Rk. unfold worker_rank. cbn [pc done handled]. destruct (handled _); lia.
Qed.

(** Every step uses up some of a finite budget. *)
Lemma race_step_rank s s' : race_inv s -> race_step s s' -> (race_rank s' < race_rank s)%nat.
Proof.
  intros K [c k s1 Hm Hk Hd E | i k t Hm Hd Hh E | Hm | Hm | i Hm Hd | i r s1 E | H0 H1].
  - rewrite (schedule_ok c k s (ri_worker s K _) Hd) in E. injection E as <-. unfold race_rank. rewrite Hm.
    assert (main_rank (at_call c (S k)) + 10 = main_rank (at_call c k))%nat as Em by (destruct c; cbn [at_call main_rank]; lia).
    destruct (worker_of c k); cbn [set_main set_th main th0 th1 th] in *; unfold worker_rank; cbn [done pc given]; lia.
  - apply completion_ok in E as ->. apply rank_set. unfold worker_rank. cbn [completed done handled]. rewrite Hd, Hh. lia.
  - unfold race_rank. rewrite Hm. cbn [set_main main th0 th1 main_rank]. lia.
  - unfold race_rank. rewrite Hm. cbn [set_main main th0 th1 main_rank]. lia.
  - unfold race_rank. rewrite Hm. destruct i; cbn [set_main main th0 th1 main_rank]; lia.
  - eapply worker_step_rank; eassumption.
  - pose proof (busy false s (ri_worker s K false)) as B0. pose proof (busy true s (ri_worker s K true)) as B1.
    cbn [th] in *. assert (done (th0 s) = false) as D0 by (apply B0; left; congruence). assert (done (th1 s) = false) as D1 by (apply B1; left; congruence).
    unfold race_rank, worker_rank. cbn [note set_th goto main th0 th1 pc done]. rewrite D0, D1, H0, H1. lia.
Qed.

(** ** The end of the race *)

(** A worker that can make no step is idle, or waits at the barrier. *)
Lemma worker_stuck i s : worker_ok i s -> (forall s', worker_step i false s <> Some (Ok s')) ->
  done (th i s) = true \/ pc (th i s) = W_barrier.
Proof.
  intros W H. destruct (done (th i s)) eqn:D; [auto|]. right. unfold worker_step in H. rewrite D in H.
  destruct (pc (th i s)) eqn:Ep; try (destruct (H _ eq_refl)); try reflexivity.
  destruct (ready (th i s)) eqn:R; [destruct (H _ eq_refl)|].
  destruct (wo_state i s W) as [[X _] | (_ & _ & [[X _] | (_ & X & _)])]; congruence.
Qed.

Lemma at_barrier i s : worker_ok i s -> pc (th i s) = W_barrier ->
  done (th i s) = false /\ before_barrier (th i s) = true /\ (idx i < scheduled s)%nat.
Proof.
  intros W Ep. assert (done (th i s) = false) as D by (apply (busy i s W); left; congruence).
  assert (racy (th i s) = true) as R by (apply (wo_racy i s W); auto).
  split; [exact D|]. split; [unfold before_barrier; rewrite D, R, Ep; reflexivity|].
  pose proof (wo_index i s W D) as X. rewrite R in X. symmetry in X. apply andb_true_iff in X as [Cg X]. apply Nat.eqb_eq in X. rewrite X.
  apply (assigned_lt i). rewrite <- (wo_calls i s W). apply elem_of_app. right. unfold to_call. rewrite D, Ep, Cg. left.
Qed.

Definition idle_or_waiting (s : exec) : Prop := forall i, done (th i s) = true \/ pc (th i s) = W_barrier.

(** With different racing calls, no state but the last is stuck: not both workers wait at the
    barrier, and one that waits there alone is met. *)
Lemma stuck_call c k s : (r0 < r1)%nat -> race_inv s -> verdict_inv s -> idle_or_waiting s ->
  ~ (pc (th0 s) = W_barrier /\ pc (th1 s) = W_barrier) -> main s = at_call c k -> done (th (worker_of c k) s) = true.
Proof.
  intros Hr [W P] [_ _ _ V4 V5] Hi Nb Hm. destruct (done (th (worker_of c k) s)) eqn:D; [reflexivity|]. exfalso.
  destruct (Hi (worker_of c k)) as [X | Ep]; [congruence|]. destruct (at_barrier _ s (W _) Ep) as (_ & Bb & Hk).
  unfold scheduled in *. rewrite Hm in *. unfold worker_of in *. destruct c; cbn [at_call andb] in *; [|lia].
  destruct (Nat.ltb_spec r0 k) as [Lt | Ge]; [|simpl in Hk; lia].
  destruct (Hi false) as [D0 | E0]; [|apply Nb; auto].
  destruct (V4 false ltac:(simpl; lia)) as [X | X].
  - unfold thread_of, worker_of. simpl. apply Nat.ltb_irrefl.
  - unfold before_barrier in X. rewrite D0 in X. discriminate.
  - destruct (V5 X true) as [Y _]. congruence.
Qed.

Lemma stuck_wait i s : (r0 < r1 < ncalls)%nat -> race_inv s -> verdict_inv s -> idle_or_waiting s ->
  ~ (pc (th0 s) = W_barrier /\ pc (th1 s) = W_barrier) -> scheduled s = ncalls -> pick i (race_done s) = true.
Proof.
  intros Hr [W P] [_ _ _ V4 V5] Hi Nb Hs.
  assert (forall j, before_barrier (th j s) = true \/ Ev_barrier ∈ trace s) as H4.
  { intros j. apply V4; rewrite ?Hs; destruct j; unfold thread_of, worker_of; simpl; try lia; [apply Nat.ltb_lt; lia | apply Nat.ltb_irrefl]. }
  assert (Ev_barrier ∈ trace s -> pick i (race_done s) = true) as H5.
  { intros X. destruct (V5 X i) as [_ [(_ & D & [Y | Y]) | Y]]; [..|exact Y]; destruct (Hi i); congruence. }
  destruct (H4 false) as [B0 |]; [|auto]. destruct (H4 true) as [B1 |]; [|auto]. exfalso. apply Nb.
  unfold before_barrier in *. destruct (Hi false) as [X | X]; [rewrite X in B0; discriminate|].
  destruct (Hi true) as [Y | Y]; [rewrite Y in B1; discriminate | auto].
Qed.

Lemma first_pass_le s : race_reach s -> match main s with M_first k => (k <= ncalls)%nat | _ => True end.
Proof.
  intros H. apply (rtc_ind_r (R := race_step) (fun s => match main s with M_first k => (k <= ncalls)%nat | _ => True end) race_start);
    [simpl; lia | | exact H].
  intros s1 s2 _ [c k s3 _ Hk _ _ | j k t _ _ _ _ | _ | _ | j _ _ | j r s3 E | _ _] Hs; try exact Hs; try exact I.
  - destruct c; simpl; [exact I | lia].
  - destruct j; exact Hs.
  - destruct j; exact I.
  - rewrite (worker_step_main _ _ _ _ E). exact Hs.
Qed.

Lemma stuck_finished s : (r0 < r1 < ncalls)%nat -> race_reach s -> (forall s', ~ race_step s s') -> main s = M_finished.
Proof.
  intros Hr H St. pose proof (race_reach_inv s H) as K. pose proof (race_reach_verdict s H) as V.
  assert (idle_or_waiting s) as Hi.
  { intros i. apply worker_stuck; [apply K|]. intros s' E. apply (St s'), (rs_worker s i false s' E). }
  assert (~ (pc (th0 s) = W_barrier /\ pc (th1 s) = W_barrier)) as Nb by (intros [X Y]; apply (St _ (rs_barrier s X Y))).
  pose proof (scheduled_le s H) as Hs. assert (forall c k, main s = at_call c k -> (ncalls <= k)%nat) as Hc.
  { intros c k Hm. destruct (Nat.le_gt_cases ncalls k) as [L | L]; [exact L|]. exfalso.
    assert (done (th (worker_of c k) s) = true) as D by (apply stuck_call; auto; lia).
    refine (St _ (rs_schedule s c k _ Hm L D (schedule_ok c k s _ D))). apply K. }
  pose proof (first_pass_le s H) as Hf. destruct (main s) as [k | k | i |] eqn:Hm; [..|reflexivity]; exfalso.
  - pose proof (Hc false k eq_refl). assert (k = ncalls) as -> by lia. apply (St _ (rs_retry s Hm)).
  - pose proof (Hc true k eq_refl). unfold scheduled in Hs. rewrite Hm in Hs. assert (k = ncalls) as -> by lia. apply (St _ (rs_eof s Hm)).
  - refine (St _ (rs_wait s i Hm (stuck_wait i s Hr K V Hi Nb _))). unfold scheduled. rewrite Hm. reflexivity.
Qed.

Lemma race_step_acc s : race_reach s -> Acc (flip race_step) s.
Proof.
  induction s as [s IH] using (induction_ltof1 _ race_rank). intros H. constructor. intros s' Hs.
  apply IH; [exact (race_step_rank s s' (race_reach_inv s H) Hs) | eapply rtc_r; eassumption].
Qed.

(** The threads of a process run as in [race_step] until it ends. *)
Lemma process_reach p : rtc process_step (Live race_start) p ->
  match p with Live s => race_reach s | Gone st s => race_reach s /\ st = kHypercallFail end.
Proof.
  intros H. apply (rtc_ind_r (R := process_step)
    (fun p => match p with Live s => race_reach s | Gone st s => race_reach s /\ st = kHypercallFail end) (Live race_start));
    [apply rtc_refl | | exact H].
  intros p1 p2 _ [s s' S1|i s _|i s _] R; [eapply rtc_r; eassumption | auto | auto].
Qed.

Lemma gone_acc st s : Acc (flip process_step) (Gone st s).
Proof. constructor. intros p H. inversion H. Qed.

Lemma process_acc s : Acc (flip race_step) s -> Acc (flip process_step) (Live s).
Proof.
  induction 1 as [s _ IH]. constructor. intros p Hp. inversion Hp as [s0 s' S1|i s0 _|i s0 _]; subst; [exact (IH s' S1) | apply gone_acc..].
Qed.

Lemma call_step i s : pc (th i s) = W_call -> exists s', process_step (Live s) (Live s').
Proof.
  intros E. eexists. apply ps_live, (rs_worker s i false). unfold worker_step. rewrite E. reflexivity.
Qed.

(** When nobody is inside a system call, a process that waits for none makes no step at all. *)
Lemma blocked_finished s : (r0 < r1 < ncalls)%nat -> race_reach s ->
  (forall p, process_step (Live s) p -> call_returns (Live s) p) -> main s = M_finished \/ in_call s.
Proof.
  intros Hr H St. destruct (decide (pc (th false s) = W_call)) as [E | N0]; [right; exists false; exact E|].
  destruct (decide (pc (th true s) = W_call)) as [E | N1]; [right; exists true; exact E|].
  left. apply stuck_finished; [exact Hr | exact H|]. intros s' S1. specialize (St _ (ps_live s s' S1)).
  inversion St as [i r s0 s1 Ep _]. destruct i; contradiction.
Qed.

(** C10: when the racing calls are two different calls of the program, every execution of the
    process that runs the race is finite, a failed hypercall included, which ends the process
    with kHypercallFail at any CMD_START or CMD_END.  A process that can go on only by the return
    of a system call has passed [finish_race], has ended after a failed hypercall, or has a
    worker inside a system call; and one that cannot go on at all has passed [finish_race] or
    ended after a failed hypercall.  So only a system call that does not return leaves a worker
    at the barrier or the main thread waiting for a verdict, no schedule of the threads does. *)
Theorem race_finishes p : (r0 < r1 < ncalls)%nat -> rtc process_step (Live race_start) p ->
  Acc (flip process_step) p /\
  match p with
  | Live s =>
      ((forall p', process_step p p' -> call_returns p p') -> main s = M_finished \/ in_call s) /\
      ((forall p', ~ process_step p p') -> main s = M_finished)
  | Gone status s => status = kHypercallFail
  end.
Proof.
  intros Hr H. apply process_reach in H. destruct p as [s | st s]; [|split; [apply gone_acc | apply H]].
  split; [apply process_acc, race_step_acc, H|]. split; [apply blocked_finished; assumption|].
  intros St. destruct (blocked_finished s Hr H) as [E | [i E]]; [intros p Hp; destruct (St p Hp) | exact E|].
  destruct (call_step i s E) as [s' S1]. destruct (St _ S1).
Qed.

Lemma assigned_thread i k n : k ∈ assigned i n -> thread_of k = i.
Proof. unfold assigned. rewrite list_elem_of_filter. tauto. Qed.

(** The converse: [finish_race] is passed only when the second index is the larger one and both
    are calls of the program; with equal indices worker 1 has no racing call and the main thread
    waits for its verdict. *)
Lemma finished_indices s : race_reach s -> main s = M_finished -> (r0 < r1 < ncalls)%nat.
Proof.
  intros H Hm. pose proof (race_reach_inv s H) as K. pose proof (v_main s (race_reach_verdict s H)) as V. rewrite Hm in V.
  pose proof (verdict_scheduled s true K (V true)) as Hs. pose proof (verdict_called s true K (V true)) as Hc.
  assert (idx true ∈ assigned true (scheduled s)) as Ha.
  { rewrite <- (wo_calls true s (ri_worker s K true)). apply elem_of_app. auto. }
  apply assigned_thread in Ha. unfold thread_of, worker_of in Ha. simpl in Ha. apply Nat.ltb_lt in Ha. pose proof (scheduled_le s H). simpl in *. lia.
Qed.

(** ** An executable step *)

Inductive choice := C_schedule | C_complete (i : bool) | C_eof | C_wait | C_worker (i r : bool) | C_barrier.

(** [schedule_call] in pass [c], or the end of the program there. *)
Definition next_call (c : bool) (k : nat) (s : exec) : option exec :=
  if (k <? ncalls)%nat && done (th (worker_of c k) s)
  then match schedule_call c k s with Ok s' => Some (set_main (at_call c (S k)) s') | Err _ => None end else None.

Definition race_next (ch : choice) (s : exec) : option exec :=
  match ch, main s with
  | C_schedule, M_first k => next_call false k s
  | C_schedule, M_call k => next_call true k s
  | C_complete i, M_first k =>
      if done (th i s) && negb (handled (th i s))
      then match handle_completion (th i s) with Ok t => Some (set_th i t s) | Err _ => None end else None
  | C_eof, M_first k => if (k =? ncalls)%nat then Some (set_main (M_call 0) s) else None
  | C_eof, M_call k => if (k =? ncalls)%nat then Some (set_main (M_wait false) s) else None
  | C_wait, M_wait i => if pick i (race_done s) then Some (set_main (if i then M_finished else M_wait true) s) else None
  | C_worker i r, _ => match worker_step i r s with Some (Ok s') => Some s' | _ => None end
  | C_barrier, _ =>
      if bool_decide (pc (th0 s) = W_barrier) && bool_decide (pc (th1 s) = W_barrier)
      then Some (note Ev_barrier (set_th true (goto W_call (th1 s)) (set_th false (goto W_call (th0 s)) s))) else None
  | _, _ => None
  end.

Lemma next_call_step c k s s' : main s = at_call c k -> next_call c k s = Some s' -> race_step s s'.
Proof.
  intros Hm. unfold next_call. destruct (Nat.ltb_spec k ncalls); [|discriminate]. destruct (done _) eqn:D; [|discriminate].
  cbn [andb]. destruct (schedule_call c k s) as [s1|] eqn:E; [|discriminate]. intros [= <-]. eapply rs_schedule; eauto.
Qed.

Lemma next_worker_step i r s s' : match worker_step i r s with Some (Ok s1) => Some s1 | _ => None end = Some s' -> race_step s s'.
Proof. destruct (worker_step i r s) as [[s1|]|] eqn:E; intros [= <-]. eapply rs_worker, E. Qed.

Lemma next_barrier_step s s' : (if bool_decide (pc (th0 s) = W_barrier) && bool_decide (pc (th1 s) = W_barrier)
  then Some (note Ev_barrier (set_th true (goto W_call (th1 s)) (set_th false (goto W_call (th0 s)) s))) else None) = Some s' -> race_step s s'.
Proof. do 2 (case_bool_decide; [|discriminate]). intros [= <-]. apply rs_barrier; assumption. Qed.

Lemma race_next_step ch s s' : race_next ch s = Some s' -> race_step s s'.
Proof.
  destruct ch as [|i| | |i r|]; cbn [race_next]; destruct (main s) as [k|k|j|] eqn:Hm; try discriminate;
    try apply next_worker_step; try apply next_barrier_step.
  - apply next_call_step, Hm.
  - apply next_call_step, Hm.
  - destruct (done (th i s)) eqn:D; [|discriminate]. destruct (handled (th i s)) eqn:Hh; [discriminate|]. cbn [andb negb].
    destruct (handle_completion (th i s)) as [t|] eqn:E; [|discriminate]. intros [= <-]. eapply rs_complete; eauto.
  - destruct (Nat.eqb_spec k ncalls) as [->|]; [|discriminate]. intros [= <-]. apply rs_retry, Hm.
  - destruct (Nat.eqb_spec k ncalls) as [->|]; [|discriminate]. intros [= <-]. apply rs_eof, Hm.
  - destruct (pick j (race_done s)) eqn:E; [|discriminate]. intros [= <-]. apply rs_wait; assumption.
Qed.

Fixpoint race_run (l : list choice) (s : exec) : option exec :=
  match l with [] => Some s | c :: l => match race_next c s with Some s' => race_run l s' | None => None end end.

Lemma race_run_rtc l s s' : race_run l s = Some s' -> rtc race_step s s'.
Proof.
  revert s. induction l as [|c l IH]; cbn [race_run]; intros s; [intros [= ->]; constructor|].
  destruct (race_next c s) as [s1|] eqn:E; [|discriminate]. intros H. eapply rtc_l; [eapply race_next_step, E | apply IH, H].
Qed.

Lemma race_run_reach l s : race_run l race_start = Some s -> race_reach s.
Proof. apply race_run_rtc. Qed.
End race.

(** ** A run: three calls, the first and the last race *)

Definition work (i : bool) (n : nat) : list choice := replicate n (C_worker i true).
Definition sample_run : list choice :=
  [C_schedule] ++ work false 4 ++ [C_complete false; C_schedule] ++ work false 4 ++ [C_schedule] ++ work false 2 ++ [C_eof] ++ work false 2 ++ [C_schedule] ++ work false 4 ++ [C_schedule] ++ work true 5 ++ [C_schedule; C_eof] ++ work true 3 ++ [C_barrier] ++
  work true 3 ++ [C_worker false true; C_worker false true; C_wait; C_wait].
Definition sample_end : exec :=
  match race_run 3 0 2 sample_run race_start with Some s => s | None => race_start end.

Example sample_reach : race_reach 3 0 2 sample_end.
Proof. apply (race_run_reach 3 0 2 sample_run). vm_compute. reflexivity. Qed.

Example sample_trace : rev (trace sample_end) =
  [Ev_first false 0; Ev_first false 1; Ev_first false 2; Ev_refresh false; Ev_start false; Ev_refresh true; Ev_call true 1; Ev_start true; Ev_barrier; Ev_call true 2; Ev_end true true;
   Ev_call false 0; Ev_end false true] /\ main sample_end = M_finished /\ finish_race (race_result sample_end) = TRUE_RACE.
Proof. vm_compute. auto. Qed.

Lemma race_calls_bracketed_witness : race_reach 3 0 2 sample_end /\ race_protocol 0 2 (trace sample_end).
Proof. split; [apply sample_reach | apply (race_calls_bracketed 3 0 2), sample_reach]. Defined.

Lemma workers_in_order_witness : race_reach 3 0 2 sample_end /\ calls_of true (trace sample_end) = [1%nat; 2%nat] /\
  exists rest, calls_of true (trace sample_end) ++ rest = assigned 0 true 3.
Proof. split; [apply sample_reach|]. split; [vm_compute; reflexivity|]. apply (workers_in_order 3 0 2), sample_reach. Defined.

Lemma verdict_of_both_witness : main sample_end = M_finished /\ exists a b, Ev_end false a ∈ trace sample_end /\ Ev_end true b ∈ trace sample_end.
Proof.
  split; [vm_compute; reflexivity|].
  destruct (verdict_of_both 3 0 2 sample_end sample_reach ltac:(vm_compute; reflexivity)) as (a & b & Ha & Hb & _). eauto.
Defined.

Lemma live_rtc n r0 r1 s s' : rtc (race_step n r0 r1) s s' -> rtc (process_step n r0 r1) (Live s) (Live s').
Proof. induction 1 as [|s s1 s' S1 _ IH]; [apply rtc_refl|]. eapply rtc_l; [apply ps_live, S1 | exact IH]. Qed.

(** Worker 1 does not return from the call before its racing call: worker 0 stays at the barrier
    and the main thread waits for worker 1. *)
Definition blocked_run : list choice :=
  [C_schedule] ++ work false 4 ++ [C_complete false; C_schedule] ++ work false 4 ++ [C_schedule] ++ work false 2 ++ [C_eof] ++ work false 2 ++ [C_schedule] ++ work false 4 ++ [C_schedule] ++ work true 3.
Definition blocked_end : exec :=
  match race_run 3 0 2 blocked_run race_start with Some s => s | None => race_start end.

Example blocked_reach : race_reach 3 0 2 blocked_end.
Proof. apply (race_run_reach 3 0 2 blocked_run). vm_compute. reflexivity. Qed.

Lemma waits_for_call n r0 r1 k s p : main s = M_call k -> (k < n)%nat -> worker_of r0 true k = true ->
  pc (th0 s) = W_barrier -> pc (th1 s) = W_call -> done (th1 s) = false ->
  process_step n r0 r1 (Live s) p -> call_returns (Live s) p.
Proof.
  intros Hm Hk Hw E0 E1 D1 Hp. inversion Hp as [s0 s' S1 X Y|i s0 E|i s0 E]; [|destruct i; cbn [th] in E; congruence..].
  destruct S1 as [c j s' Hm' _ Hd _ | i j t Hm' _ _ _ | Hm' | Hm' | i Hm' _ | i r s' E | _ H1]; try congruence.
  - destruct c; cbn [at_call] in Hm'; [|congruence]. assert (j = k) as -> by congruence. rewrite Hw in Hd. cbn [th] in Hd. congruence.
  - assert (n = k) by congruence. lia.
  - destruct i; [apply (cr_worker true r); [exact E1 | exact E]|]. unfold worker_step in E. cbn [th] in E. rewrite E0 in E. discriminate.
Qed.

Lemma blocked_waits p : process_step 3 0 2 (Live blocked_end) p -> call_returns (Live blocked_end) p.
Proof. apply (waits_for_call 3 0 2 2); vm_compute; reflexivity. Qed.

(** The complete run ends; the other one waits for a system call. *)
Lemma race_finishes_witness : Acc (flip (process_step 3 0 2)) (Live sample_end) /\
  (main blocked_end = M_finished \/ in_call blocked_end).
Proof.
  split.
  - apply (race_finishes 3 0 2 (Live sample_end)); [lia | apply live_rtc, sample_reach].
  - destruct (race_finishes 3 0 2 (Live blocked_end)) as [_ [B _]]; [lia | apply live_rtc, blocked_reach|].
    exact (B blocked_waits).
Defined.

(** ** The request and the verdict *)

Lemma start_addr_u32 a : 0 <= a < 2 ^ 64 -> start_addr (u32 a) = start_addr a.
Proof.
  intros Ha. unfold start_addr, u32. apply Z.bits_inj'. intros n Hn. rewrite !Z.lor_spec.
  destruct (Z.lt_ge_cases n 32) as [L | G].
  - rewrite Z.mod_pow2_bits_low by lia. reflexivity.
  - destruct (Z.lt_ge_cases n 64) as [L | G'].
    + replace (Z.testbit 0xffffffff00000000 n) with true; [rewrite !orb_true_r; reflexivity|].
      change 0xffffffff00000000 with (Z.shiftl (Z.ones 32) 32). rewrite Z.shiftl_spec, Z.ones_spec_low by lia. reflexivity.
    + rewrite Z.mod_pow2_bits_high by lia. rewrite <- (Z.mod_small a (2 ^ 64)) by lia. rewrite Z.mod_pow2_bits_high by lia. reflexivity.
Qed.

(** What a worker of the race asks the hypervisor for: the index of its call and the address of
    the breakpoint the hypervisor installs. *)
Definition race_side (r : raceinfo_per_thread_t) : Z * Z := (race_index r, start_addr (bp r)).

Definition request_ok (req : execute_req) : Prop :=
  0 <= bp0 req < 2 ^ 64 /\ 0 <= bp1 req < 2 ^ 64 /\ 0 <= race_index0 req < 2 ^ 32 /\ 0 <= race_index1 req < 2 ^ 32.

(** The two sides of a race request reach the workers with their breakpoints: after
    [prepare_race] the smaller index is first, and the call of each index still gets the
    breakpoint of the request, although the exchange truncates addresses to 32 bits, because the
    hypervisor sets the upper half of the address. *)
Theorem prepare_race_sides req old a b : flag_collide req = true -> request_ok req ->
  prepare_race true (receive_race_info req old) = (a, b) ->
  race_index a <= race_index b /\
  ((race_side a = (race_index0 req, start_addr (bp0 req)) /\ race_side b = (race_index1 req, start_addr (bp1 req))) \/
   (race_side a = (race_index1 req, start_addr (bp1 req)) /\ race_side b = (race_index0 req, start_addr (bp0 req)))).
Proof.
  intros C (B0 & B1 & I0 & I1) E. unfold receive_race_info, prepare_race in E. rewrite C in E. cbn [negb race_index bp ri_sched] in E.
  unfold race_side. destruct (Z.ltb_spec (race_index1 req) (race_index0 req)); injection E as <- <-; cbn [race_index bp].
  - assert (u32 (race_index0 req) = race_index0 req) as -> by (apply Z.mod_small; lia). rewrite start_addr_u32 by exact B0. split; [lia | auto].
  - split; [lia | auto].
Qed.

Definition sample_req : execute_req := mk_req 0x30 0xffffffff81234567 0x81abcdef 5 2 1.

Lemma prepare_race_sides_witness : flag_collide sample_req = true /\ request_ok sample_req /\
  exists a b, prepare_race true (receive_race_info sample_req (mk_ri 0 0 0, mk_ri 0 0 0)) = (a, b) /\ race_index a <= race_index b.
Proof.
  assert (request_ok sample_req) as R by (unfold request_ok; simpl; lia).
  split; [reflexivity|]. split; [exact R|]. do 2 eexists. split; [reflexivity|].
  apply (prepare_race_sides sample_req (mk_ri 0 0 0, mk_ri 0 0 0)); [reflexivity | exact R | reflexivity].
Defined.

(** The breakpoints are exchanged and [sched] is not: it names a worker, and the side that the
    request lets go first goes second. *)
Example swap_inverts_order :
  let '(a, b) := prepare_race true (receive_race_info sample_req (mk_ri 0 0 0, mk_ri 0 0 0)) in
  race_side b = (race_index0 sample_req, start_addr (bp0 sample_req)) /\ ri_sched b = 1 /\ req_sched sample_req = 1.
Proof. vm_compute. auto. Qed.

(** The reply of a turn in which the child finishes is the verdict of that child, whatever
    the turns before have left in the shared word.  A turn in which the child ends early, because
    a hypercall failed or it was killed, replies with the verdict of the last child that
    finished. *)
Theorem loop_turn_verdict v status w : status <> kFailStatus -> status <> kErrorStatus ->
  loop_turn true (Some v) status w = Ok (verdict_code v, verdict_code v) /\
  loop_turn true None status (verdict_code v) = Ok (verdict_code v, verdict_code v).
Proof.
  intros H1 H2. unfold loop_turn, loop_reply. apply Z.eqb_neq in H1, H2. rewrite H1, H2. destruct v; split; reflexivity.
Qed.

Lemma loop_turn_verdict_witness : kHypercallFail <> kFailStatus /\ kHypercallFail <> kErrorStatus /\
  loop_turn true None kHypercallFail (verdict_code TRUE_RACE) = Ok (1, 1).
Proof.
  split; [discriminate|]. split; [discriminate|]. apply (loop_turn_verdict TRUE_RACE kHypercallFail 0); discriminate.
Defined.

(** The reproducer tests the first result twice: when only the second call saw the race, it
    reports that there is none. *)
Lemma repro_second_only : repro_verdict (RACE_FAIL, RACE_OK) = Some false /\ repro_verdict (RACE_OK, RACE_FAIL) = Some true.
Proof. split; reflexivity. Qed.
