(* ===== verification/ExecProg.v ===== *)
(** * The guest executor: test programs (executor/executor.h, executor/common.h)

    The fuzzer sends a program as 64-bit words: instructions that fill memory, system calls, and
    instructions that save what a call has left in memory.  The executor decodes and runs them one
    by one; later arguments refer to saved results.  This file translates the decoding, the stores
    with bit fields, the Internet checksum, the results, and the coverage signals that are sent
    back.  Calls are made by the thread that decodes them, as the executor does without
    [flag_threaded].

    Memory is a function from addresses to bytes with a predicate that says which are mapped: an
    access to other memory is abandoned ([NONFAILING]).  [fail] is [Err Exited].  The input is the
    list of words from the current position to the end of [input_data]. *)

From Stdlib Require Import ZArith Lia Bool.
From stdpp Require Import base list sorting.
From S2P Require Import Prelude PageWalk ByteLayout.

Open Scope Z_scope.
Open Scope rz.

Definition kMaxArgs : Z := 9.
Definition kMaxCommands : Z := 1000.

Definition instr_eof : Z := u64 (-1).
Definition instr_copyin : Z := u64 (-2).
Definition instr_copyout : Z := u64 (-3).
Definition arg_const : Z := 0.
Definition arg_result : Z := 1.
Definition arg_data : Z := 2.
Definition arg_csum : Z := 3.
Definition arg_csum_inet : Z := 0.
Definition arg_csum_chunk_data : Z := 0.
Definition arg_csum_chunk_const : Z := 1.
Definition no_copyout : Z := u64 (-1).

(** ** The Internet checksum *)

(** Two bytes at a time; a last odd byte counts as a word. *)
Fixpoint csum_words (acc : Z) (data : list Z) : Z :=
  match data with
  | a :: b :: data => csum_words (u32 (acc + of_le [a; b])) data
  | [a] => u32 (acc + a)
  | [] => acc
  end.

(** [while (csum->acc > 0xffff)] *)
Fixpoint csum_carry (fuel : nat) (acc : Z) : res Z :=
  if 0xffff <? acc then
    match fuel with O => Err OutOfFuel | S fuel => csum_carry fuel (u32 (Z.land acc 0xffff + Z.shiftr acc 16)) end
  else Ok acc.

Definition csum_inet_init : Z := 0.
Definition csum_inet_update (acc : Z) (data : list Z) : res Z :=
  if bool_decide (data = []) then Ok acc else csum_carry 2 (csum_words acc data).
Definition csum_inet_digest (acc : Z) : Z := (Z.lnot acc) mod 2 ^ 16.

Lemma word32_range z : 0 <= u32 z < 2 ^ 32.
Proof. apply Z.mod_pos_bound. lia. Qed.

Lemma csum_words_range data acc : 0 <= acc < 2 ^ 32 -> 0 <= csum_words acc data < 2 ^ 32.
Proof.
  revert acc. induction data as [data IH] using (induction_ltof1 _ (@length Z)). unfold ltof in IH.
  intros acc H. destruct data as [|a [|b data]]; [exact H | apply word32_range |]. cbn [csum_words]. apply IH; [cbn; lia | apply word32_range].
Qed.

(** Two rounds fold the carries of 32 bits. *)
Lemma csum_carry_ends acc : 0 <= acc < 2 ^ 32 -> exists x, csum_carry 2 acc = Ok x /\ 0 <= x <= 0xffff.
Proof.
  assert (forall x, 0 <= x < 2 ^ 32 -> u32 (Z.land x 65535 + Z.shiftr x 16) = x mod 65536 + x / 65536) as Hf.
  { intros x Hx. rewrite land_ffff, Z.shiftr_div_pow2 by lia. apply Z.mod_small. change (2 ^ 16) with 65536.
    Z.to_euclidean_division_equations. lia. }
  intros H. cbn [csum_carry]. destruct (Z.ltb_spec 0xffff acc); [|exists acc; split; [reflexivity | lia]].
  rewrite Hf by lia. set (y := acc mod 65536 + acc / 65536).
  assert (0 <= y <= 131070) by (unfold y; Z.to_euclidean_division_equations; lia).
  destruct (Z.ltb_spec 0xffff y); [|exists y; split; [reflexivity | lia]].
  rewrite Hf by lia. set (z := y mod 65536 + y / 65536). assert (0 <= z <= 65535) by (unfold z; Z.to_euclidean_division_equations; lia).
  destruct (Z.ltb_spec 0xffff z); [lia|]. exists z. split; [reflexivity | lia].
Qed.

Lemma csum_words_cons_range acc data : data <> [] -> 0 <= csum_words acc data < 2 ^ 32.
Proof.
  intros H. destruct data as [|a [|b data]]; [destruct (H eq_refl) | apply word32_range |]. cbn [csum_words]. apply csum_words_range, word32_range.
Qed.

(** ** Stores into bit fields *)

Section bitmask.
(** A shift by the width of its operand or more. *)
Variable shift_past : Z -> Z -> Z.

Definition shift_left (width x n : Z) : Z := if n <? width then Z.shiftl x n else shift_past x n.

(** Operands of less than 32 bits are promoted to int. *)
Definition promoted (w : Z) : Z := Z.max w 32.

Definition BITMASK_LEN (w bf_len : Z) : Z := (u64 (shift_left 64 1 bf_len) - 1) mod 2 ^ w.
Definition BITMASK_LEN_OFF (w bf_off bf_len : Z) : Z := (shift_left (promoted w) (BITMASK_LEN w bf_len) bf_off) mod 2 ^ w.

(** The new value of a field of [w] bits that holds [old]. *)
Definition STORE_BY_BITMASK (w old val bf_off bf_len : Z) : Z :=
  if (bf_off =? 0) && (bf_len =? 0) then val mod 2 ^ w
  else
    let new_val := (Z.land old (Z.lnot (BITMASK_LEN_OFF w bf_off bf_len))) mod 2 ^ w in
    (Z.lor new_val (shift_left (promoted w) (Z.land (val mod 2 ^ w) (BITMASK_LEN w bf_len)) bf_off)) mod 2 ^ w.

(** ** Arguments *)

Definition res_t : Type := bool * Z.

Definition read_input (l : list Z) : res (Z * list Z) := match l with [] => Err Exited | w :: l => Ok (w, l) end.

(** [htobe16], [htobe32] and [htobe64] *)
Definition htobe (n : nat) (v : Z) : Z := of_le (rev (to_le n v)).

Variable procid : Z.

(** The value and the size, offset and length of the field. *)
Definition read_const_arg (l : list Z) : res (Z * (Z * Z * Z) * list Z) :=
  let? (meta, l) := read_input l in
  let? (val, l) := read_input l in
  let size := Z.land meta 0xff in
  let be := bits meta (Z.shiftl 1 8) in
  let bf_off := Z.land (Z.shiftr meta 16) 0xff in
  let bf_len := Z.land (Z.shiftr meta 24) 0xff in
  let pid_stride := Z.shiftr meta 32 in
  let val := u64 (val + u64 (pid_stride * procid)) in
  let? val := if be then
      if size =? 2 then Ok (htobe 2 val) else if size =? 4 then Ok (htobe 4 val) else if size =? 8 then Ok (htobe 8 val) else Err Exited
    else Ok val in
  Ok (val, (size, bf_off, bf_len), l).

Definition read_result (results : list res_t) (l : list Z) : res (Z * list Z) :=
  let? (idx, l) := read_input l in
  let? (op_div, l) := read_input l in
  let? (op_add, l) := read_input l in
  let? (arg, l) := read_input l in
  if kMaxCommands <=? idx then Err Exited else
  let? (executed, val) := of_option OutOfBounds (results !! Z.to_nat idx : option (bool * Z)) in
  Ok (if executed then u64 ((if negb (op_div =? 0) then val / op_div else val) + op_add) else arg, l).

Definition read_arg (results : list res_t) (l : list Z) : res (Z * list Z) :=
  let? (typ, l) := read_input l in
  if typ =? arg_const then let? (val, _, l) := read_const_arg l in Ok (val, l)
  else if typ =? arg_result then let? (_, l) := read_input l in read_result results l
  else Err Exited.

Fixpoint read_args (n : nat) (results : list res_t) (l : list Z) : res (list Z * list Z) :=
  match n with
  | O => Ok ([], l)
  | S n => let? (arg, l) := read_arg results l in let? (args, l) := read_args n results l in Ok (arg :: args, l)
  end.

(** ** Memory *)

(** The memory left by a [memcpy] that hits unmapped memory, and the sum left by a checksum that
    does. *)
Variables (mapped : Z -> bool) (memcpy_fault : mem -> Z -> list Z -> mem) (csum_fault : mem -> Z -> Z -> Z -> Z).

Definition all_mapped (a : Z) (n : nat) : bool := forallb (fun i => mapped (a + Z.of_nat i)) (seq 0 n).

Definition field_size (size : Z) : option nat :=
  if size =? 1 then Some 1%nat else if size =? 2 then Some 2%nat else if size =? 4 then Some 4%nat
  else if size =? 8 then Some 8%nat else None.

Definition copyin (addr val size bf_off bf_len : Z) (m : mem) : res mem :=
  let? n := of_option Exited (field_size size) in
  Ok (if all_mapped addr n
      then write_bytes m addr (to_le n (STORE_BY_BITMASK (8 * Z.of_nat n) (of_le (read_bytes m addr n)) val bf_off bf_len)) else m).

Definition copyout (addr size : Z) (m : mem) : res (option Z) :=
  let? n := of_option Exited (field_size size) in
  Ok (if all_mapped addr n then Some (of_le (read_bytes m addr n)) else None).

(** The bytes at the current position. *)
Definition bytes_of (l : list Z) : list Z := concat (to_le 8 <$> l).

Definition copy_data (addr size : Z) (m : mem) (l : list Z) : res (mem * list Z) :=
  if 8 * Z.of_nat (length l) <? size then Err OutOfBounds else
  let data := take (Z.to_nat size) (bytes_of l) in
  Ok (if all_mapped addr (length data) then write_bytes m addr data else memcpy_fault m addr data, drop (Z.to_nat ((size + 7) / 8)) l).

Fixpoint csum_chunks (n : nat) (m : mem) (acc : Z) (l : list Z) : res (Z * list Z) :=
  match n with
  | O => Ok (acc, l)
  | S n =>
      let? (kind, l) := read_input l in
      let? (value, l) := read_input l in
      let? (size, l) := read_input l in
      let? acc :=
        if kind =? arg_csum_chunk_data then
          if all_mapped value (Z.to_nat size) then csum_inet_update acc (read_bytes m value (Z.to_nat size))
          else Ok (csum_fault m acc value size)
        else if kind =? arg_csum_chunk_const then
          if negb (size =? 2) && negb (size =? 4) && negb (size =? 8) then Err Exited
          else csum_inet_update acc (to_le (Z.to_nat size) value)
        else Err Exited in
      csum_chunks n m acc l
  end.

(** The [instr_copyin] case. *)
Definition run_copyin (results : list res_t) (m : mem) (l : list Z) : res (mem * list Z) :=
  let? (addr, l) := read_input l in
  let? (typ, l) := read_input l in
  if typ =? arg_const then
    let? (arg, (size, bf_off, bf_len), l) := read_const_arg l in
    let? m := copyin addr arg size bf_off bf_len m in Ok (m, l)
  else if typ =? arg_result then
    let? (size, l) := read_input l in
    let? (val, l) := read_result results l in
    let? m := copyin addr val size 0 0 m in Ok (m, l)
  else if typ =? arg_data then let? (size, l) := read_input l in copy_data addr size m l
  else if typ =? arg_csum then
    let? (size, l) := read_input l in
    let? (kind, l) := read_input l in
    if negb (kind =? arg_csum_inet) then Err Exited
    else if negb (size =? 2) then Err Exited
    else
      let? (chunks, l) := read_input l in
      let? (acc, l) := csum_chunks (Z.to_nat chunks) m csum_inet_init l in
      let? m := copyin addr (csum_inet_digest acc) 2 0 0 m in Ok (m, l)
  else Err Exited.

(** ** Calls *)

(** The system calls: their number, and what one returns and leaves in memory. *)
Variables (syscall_count : Z) (execute_syscall : Z -> list Z -> mem -> Z * mem).

(** [made] are the calls made, newest first. *)
Record prog_state := mk_ps { memory : mem; results : list res_t; made : list (Z * list Z) }.

Definition set_result (i v : Z) (s : prog_state) : prog_state :=
  mk_ps (memory s) (<[Z.to_nat i := (true, v)]> (results s)) (made s).

(** The loop of [handle_completion] over the copyouts behind the call. *)
Fixpoint run_copyouts (l : list Z) (s : prog_state) : res prog_state :=
  match l with
  | [] => Err Exited
  | instr :: l =>
      if instr =? instr_copyout then
        match l with
        | [] => Err Exited
        | index :: l =>
            if kMaxCommands <=? index then Err Exited
            else match l with
                 | addr :: size :: l =>
                     let? v := copyout addr size (memory s) in
                     run_copyouts l (match v with Some v => set_result index v s | None => s end)
                 | _ => Err Exited
                 end
        end
      else Ok s
  end.

(** [handle_completion]; the result of the call is a long. *)
Definition complete_call (copyout_index ret : Z) (l : list Z) (s : prog_state) : res prog_state :=
  if ret =? -1 then Ok s
  else
    let? s := if negb (copyout_index =? no_copyout)
              then if kMaxCommands <=? copyout_index then Err Exited else Ok (set_result copyout_index (u64 ret) s)
              else Ok s in
    run_copyouts l s.

(** The array of arguments, with zeros behind those given. *)
Definition call_args (args : list Z) : list Z := args ++ replicate (Z.to_nat kMaxArgs - length args) 0.

Definition run_call (call_num : Z) (l : list Z) (s : prog_state) : res (prog_state * list Z) :=
  if syscall_count <=? call_num then Err Exited else
  let? (copyout_index, l) := read_input l in
  let? (num_args, l) := read_input l in
  if kMaxArgs <? num_args then Err Exited else
  let? (args, l) := read_args (Z.to_nat num_args) (results s) l in
  let '(ret, m) := execute_syscall call_num (call_args args) (memory s) in
  let? s := complete_call copyout_index ret l (mk_ps m (results s) ((call_num, args) :: made s)) in
  Ok (s, l).

(** The loop of [execute_one]. *)
Fixpoint run_prog (fuel : nat) (l : list Z) (s : prog_state) : res prog_state :=
  match fuel with
  | O => Err OutOfFuel
  | S fuel =>
      let? (call_num, l) := read_input l in
      if call_num =? instr_eof then Ok s
      else if call_num =? instr_copyin then
        let? (m, l) := run_copyin (results s) (memory s) l in run_prog fuel l (mk_ps m (results s) (made s))
      else if call_num =? instr_copyout then
        let? (_, l) := read_input l in let? (_, l) := read_input l in let? (_, l) := read_input l in run_prog fuel l s
      else let? (s, l) := run_call call_num l s in run_prog fuel l s
  end.

(** Every turn reads a word. *)
Definition execute_one (l : list Z) (s : prog_state) : res prog_state := run_prog (S (length l)) l s.

(** ** Every program ends *)

Definition ends {A} (r : res A) : Prop := r <> Err OutOfFuel.

Lemma ends_ok {A} (a : A) : ends (Ok a).
Proof. discriminate. Qed.
Lemma ends_exited {A} : @ends A (Err Exited).
Proof. discriminate. Qed.
Lemma ends_bind {A B} (r : res A) (f : A -> res B) : ends r -> (forall a, r = Ok a -> ends (f a)) -> ends (rbind r f).
Proof. intros H1 H2. destruct r as [a|e]; [apply H2; reflexivity|]. intros [= ->]. apply H1. reflexivity. Qed.
Lemma ends_of_option {A} e (o : option A) : e <> OutOfFuel -> ends (of_option e o).
Proof. intros H. destruct o; unfold ends; cbn; congruence. Qed.
Lemma ends_read l : ends (read_input l).
Proof. destruct l; discriminate. Qed.

#[local] Hint Resolve ends_ok ends_exited ends_read : core.

(** Goes through the binds and tests of a function. *)
Ltac ending :=
  repeat first [ progress auto
    | apply ends_of_option; discriminate
    | match goal with
      | |- ends (if ?b then _ else _) => destruct b eqn:?
      | |- ends (rbind _ _) => apply ends_bind; [|intros ? ?]
      | |- context [let '(_, _) := ?p in _] => destruct p
      end ].

Lemma read_input_length l w l' : read_input l = Ok (w, l') -> length l = S (length l').
Proof. destruct l; intros [= <- <-]. reflexivity. Qed.

Lemma csum_update_ends acc data : ends (csum_inet_update acc data).
Proof.
  unfold csum_inet_update. case_bool_decide as E; [auto|].
  destruct (csum_carry_ends (csum_words acc data) (csum_words_cons_range acc data E)) as (x & -> & _). auto.
Qed.

Lemma const_arg_ends l : ends (read_const_arg l).
Proof. unfold read_const_arg. ending. Qed.
Lemma result_ends r l : ends (read_result r l).
Proof. unfold read_result. ending. Qed.
#[local] Hint Resolve csum_update_ends const_arg_ends result_ends : core.

Lemma read_args_ends n r l : ends (read_args n r l).
Proof. revert l. induction n as [|n IH]; intros l; cbn [read_args]; [auto|]. unfold read_arg. ending. Qed.
Lemma copyin_ends a v sz o ln m : ends (copyin a v sz o ln m).
Proof. unfold copyin. ending. Qed.
Lemma copyout_ends a sz m : ends (copyout a sz m).
Proof. unfold copyout. ending. Qed.
Lemma csum_chunks_ends n m acc l : ends (csum_chunks n m acc l).
Proof. revert acc l. induction n as [|n IH]; intros acc l; cbn [csum_chunks]; ending. Qed.
Lemma copy_data_ends a sz m l : ends (copy_data a sz m l).
Proof. unfold copy_data. destruct (_ <? _); discriminate. Qed.
#[local] Hint Resolve read_args_ends copyin_ends copyout_ends csum_chunks_ends copy_data_ends : core.

Lemma run_copyin_ends r m l : ends (run_copyin r m l).
Proof. unfold run_copyin. ending. Qed.

Lemma run_copyouts_ends l s : ends (run_copyouts l s).
Proof.
  revert s. induction l as [l IH] using (induction_ltof1 _ (@length Z)). unfold ltof in IH. intros s.
  destruct l as [|instr [|index [|addr [|size l]]]]; cbn [run_copyouts]; ending.
  apply IH. cbn. lia.
Qed.

Lemma run_call_ends n l s : ends (run_call n l s).
Proof. unfold run_call, complete_call. pose proof run_copyouts_ends. ending. Qed.

(** What is left of the input is not more than there was. *)
Definition shrinks {A} (l : list Z) (r : res (A * list Z)) : Prop := forall a l', r = Ok (a, l') -> (length l' <= length l)%nat.

Lemma shrinks_ok {A} l (a : A) : shrinks l (Ok (a, l)).
Proof. intros ? ? [= -> ->]. lia. Qed.
Lemma shrinks_err {A} l e : @shrinks A l (Err e).
Proof. discriminate 1. Qed.
Lemma shrinks_read l : shrinks l (read_input l).
Proof. intros w l' H. apply read_input_length in H. lia. Qed.
Lemma shrinks_bind {A B} l (r : res (A * list Z)) (f : A * list Z -> res (B * list Z)) :
  shrinks l r -> (forall a l', shrinks l' (f (a, l'))) -> shrinks l (rbind r f).
Proof.
  intros H1 H2 b l'' E. apply rbind_ok in E as ([a l'] & E1 & E2). apply H1 in E1. apply H2 in E2. lia.
Qed.
Lemma shrinks_skip {A B} l (r : res A) (f : A -> res (B * list Z)) : (forall a, shrinks l (f a)) -> shrinks l (rbind r f).
Proof. intros H b l' E. apply rbind_ok in E as (a & _ & E). apply H in E. exact E. Qed.

#[local] Hint Resolve shrinks_ok shrinks_err shrinks_read : core.

Ltac shrinking :=
  repeat first [ progress auto
    | match goal with
      | |- shrinks _ (if ?b then _ else _) => destruct b
      | |- shrinks _ (rbind ?r _) =>
          lazymatch type of r with res (_ * list Z) => apply shrinks_bind; [|intros ? ?] | _ => apply shrinks_skip; intros ? end
      | |- context [let '(_, _) := ?p in _] => destruct p
      end ].

Lemma const_arg_shrinks l : shrinks l (read_const_arg l).
Proof. unfold read_const_arg. shrinking. Qed.
Lemma result_shrinks r l : shrinks l (read_result r l).
Proof. unfold read_result. shrinking. Qed.
#[local] Hint Resolve const_arg_shrinks result_shrinks : core.

Lemma read_args_shrinks n r l : shrinks l (read_args n r l).
Proof. revert l. induction n as [|n IH]; intros l; cbn [read_args]; [auto|]. unfold read_arg. shrinking. Qed.
Lemma csum_chunks_shrinks n m acc l : shrinks l (csum_chunks n m acc l).
Proof. revert acc l. induction n as [|n IH]; intros acc l; cbn [csum_chunks]; shrinking. Qed.
Lemma copy_data_shrinks a sz m l : shrinks l (copy_data a sz m l).
Proof. unfold copy_data. destruct (_ <? _); [auto|]. intros ? ? [= _ <-]. rewrite length_drop. lia. Qed.
#[local] Hint Resolve read_args_shrinks csum_chunks_shrinks copy_data_shrinks : core.

Lemma run_copyin_shrinks r m l : shrinks l (run_copyin r m l).
Proof. unfold run_copyin. shrinking. Qed.

Lemma run_call_shrinks n l s : shrinks l (run_call n l s).
Proof. unfold run_call. shrinking. Qed.

Lemma run_prog_ends fuel l s : (length l < fuel)%nat -> ends (run_prog fuel l s).
Proof.
  revert l s. induction fuel as [|fuel IH]; intros l s H; [lia|]. cbn [run_prog]. apply ends_bind; [auto|].
  intros [n l1] E1. apply read_input_length in E1. destruct (n =? instr_eof); [auto|]. destruct (n =? instr_copyin).
  - apply ends_bind; [apply run_copyin_ends|]. intros [m l2] E2. apply run_copyin_shrinks in E2. apply IH. lia.
  - destruct (n =? instr_copyout).
    + do 3 (apply ends_bind; [auto|]; let H := fresh in intros [? ?] H; apply read_input_length in H). apply IH. lia.
    + apply ends_bind; [apply run_call_ends|]. intros [s2 l2] E2. apply run_call_shrinks in E2. apply IH. lia.
Qed.

(** Whatever words it is given, [execute_one] comes to an end. *)
Theorem execute_one_ends l s : execute_one l s <> Err OutOfFuel.
Proof. apply run_prog_ends. lia. Qed.

(** ** Programs and their encoding (SerializeForExec in prog/encodingexec.go)

    A program is the list of instructions that SerializeForExec writes.  How it derives them
    from the calls of a Prog (the order of the arguments and checksums, their addresses and the
    numbers of saved results) is not modelled; the theorems hold for any list. *)

Inductive prog_arg :=
  | A_const (size val bf_off bf_len stride : Z) (be : bool)
  | A_result (size idx op_div op_add dflt : Z).
Inductive prog_chunk := K_data (addr size : Z) | K_const (value size : Z).
Inductive prog_instr :=
  | I_fill (addr : Z) (a : prog_arg)
  | I_data (addr : Z) (bytes pad : list Z)
  | I_csum (addr : Z) (chunks : list prog_chunk)
  | I_save (idx addr size : Z)
  | I_call (num copyout : Z) (args : list prog_arg).

Definition writeConstArg_meta (size bf_off bf_len stride : Z) (be : bool) : Z :=
  let meta := Z.lor (Z.lor (Z.lor size (Z.shiftl bf_off 16)) (Z.shiftl bf_len 24)) (Z.shiftl stride 32) in
  if be then Z.lor meta (Z.shiftl 1 8) else meta.

Definition writeArg (a : prog_arg) : list Z :=
  match a with
  | A_const size val bf_off bf_len stride be => [arg_const; writeConstArg_meta size bf_off bf_len stride be; val]
  | A_result size idx op_div op_add dflt => [arg_result; size; idx; op_div; op_add; dflt]
  end.

(** The bytes in words, least significant byte first. *)
Fixpoint words_of (n : nat) (bytes : list Z) : list Z :=
  match n with O => [] | S n => of_le (take 8 bytes) :: words_of n (drop 8 bytes) end.
Definition words (bytes : list Z) : nat := ((length bytes + 7) / 8)%nat.

Definition write_chunk (c : prog_chunk) : list Z :=
  match c with K_data addr size => [arg_csum_chunk_data; addr; size] | K_const value size => [arg_csum_chunk_const; value; size] end.

(** The words that are written for an instruction: a filled argument, the bytes of a DataArg, a
    checksum, a copyout and a call.  [pad] is what the buffer held behind the bytes, up to the
    end of the last word: it is skipped and not cleared. *)
Definition write_instr (i : prog_instr) : list Z :=
  match i with
  | I_fill addr a => instr_copyin :: addr :: writeArg a
  | I_data addr bytes pad => instr_copyin :: addr :: arg_data :: Z.of_nat (length bytes) :: words_of (words bytes) (bytes ++ pad)
  | I_csum addr chunks => [instr_copyin; addr; arg_csum; 2; arg_csum_inet; Z.of_nat (length chunks)] ++ concat (write_chunk <$> chunks)
  | I_save idx addr size => [instr_copyout; idx; addr; size]
  | I_call num co args => num :: co :: Z.of_nat (length args) :: concat (writeArg <$> args)
  end.
Definition SerializeForExec (p : list prog_instr) : list Z := concat (write_instr <$> p) ++ [instr_eof].

(** ** What a program means *)

Definition arg_value (rs : list res_t) (a : prog_arg) : Z :=
  match a with
  | A_const size val _ _ stride be =>
      let v := u64 (val + stride * procid) in if be then htobe (Z.to_nat size) v else v
  | A_result _ idx op_div op_add dflt =>
      match rs !! Z.to_nat idx with
      | Some (true, v) => u64 ((if op_div =? 0 then v else v / op_div) + op_add)
      | _ => dflt
      end
  end.

Definition fill (rs : list res_t) (addr : Z) (a : prog_arg) (m : mem) : res mem :=
  match a with
  | A_const size _ bf_off bf_len _ _ => copyin addr (arg_value rs a) size bf_off bf_len m
  | A_result size _ _ _ _ => copyin addr (arg_value rs a) size 0 0 m
  end.

Fixpoint sum_chunks (m : mem) (acc : Z) (l : list prog_chunk) : res Z :=
  match l with
  | [] => Ok acc
  | K_data addr size :: l =>
      let? acc := if all_mapped addr (Z.to_nat size) then csum_inet_update acc (read_bytes m addr (Z.to_nat size))
                  else Ok (csum_fault m acc addr size) in sum_chunks m acc l
  | K_const value size :: l => let? acc := csum_inet_update acc (to_le (Z.to_nat size) value) in sum_chunks m acc l
  end.

(** What is saved behind a call. *)
Fixpoint run_saves (p : list prog_instr) (s : prog_state) : res prog_state :=
  match p with
  | I_save idx addr size :: p =>
      let? v := copyout addr size (memory s) in run_saves p (match v with Some v => set_result idx v s | None => s end)
  | _ => Ok s
  end.

Definition with_memory (m : mem) (s : prog_state) : prog_state := mk_ps m (results s) (made s).

Fixpoint run_instrs (p : list prog_instr) (s : prog_state) : res prog_state :=
  match p with
  | [] => Ok s
  | I_fill addr a :: p => let? m := fill (results s) addr a (memory s) in run_instrs p (with_memory m s)
  | I_data addr bytes _ :: p =>
      let m := memory s in
      run_instrs p (with_memory (if all_mapped addr (length bytes) then write_bytes m addr bytes else memcpy_fault m addr bytes) s)
  | I_csum addr chunks :: p =>
      let? acc := sum_chunks (memory s) csum_inet_init chunks in
      let? m := copyin addr (csum_inet_digest acc) 2 0 0 (memory s) in run_instrs p (with_memory m s)
  | I_save _ _ _ :: p => run_instrs p s
  | I_call num co args :: p =>
      let vals := arg_value (results s) <$> args in
      let '(ret, m) := execute_syscall num (call_args vals) (memory s) in
      let s := mk_ps m (results s) ((num, vals) :: made s) in
      let? s := if ret =? -1 then Ok s else run_saves p (if co =? no_copyout then s else set_result co (u64 ret) s) in
      run_instrs p s
  end.

(** ** Decoding is the inverse of encoding *)

Definition byte_size (size : Z) : Prop := size = 2 \/ size = 4 \/ size = 8.

Definition arg_ok (a : prog_arg) : Prop :=
  match a with
  | A_const size val bf_off bf_len stride be =>
      0 <= size < 256 /\ 0 <= bf_off < 256 /\ 0 <= bf_len < 256 /\ 0 <= stride < 2 ^ 32 /\ (be = true -> byte_size size)
  | A_result _ idx _ _ _ => 0 <= idx < kMaxCommands
  end.
Definition chunk_ok (c : prog_chunk) : Prop := match c with K_data _ _ => True | K_const _ size => byte_size size end.
Definition instr_ok (i : prog_instr) : Prop :=
  match i with
  | I_fill _ a => arg_ok a
  | I_data _ bytes pad => Forall (fun b => 0 <= b < 256) (bytes ++ pad) /\ length (bytes ++ pad) = (8 * words bytes)%nat
  | I_csum _ chunks => Forall chunk_ok chunks
  | I_save idx _ _ => 0 <= idx < kMaxCommands
  | I_call num co args => 0 <= num < syscall_count /\ (co = no_copyout \/ 0 <= co < kMaxCommands) /\ (length args <= 9)%nat /\ Forall arg_ok args
  end.

Lemma meta_sum size bf_off bf_len stride be : 0 <= size < 256 -> 0 <= bf_off < 256 -> 0 <= bf_len < 256 ->
  writeConstArg_meta size bf_off bf_len stride be = size + 256 * (Z.b2z be + 256 * (bf_off + 256 * (bf_len + 256 * stride))).
Proof.
  intros H1 H2 H3. unfold writeConstArg_meta.
  replace (if be then _ else _) with (Z.lor (Z.lor (Z.lor (Z.lor size (Z.shiftl (Z.b2z be) 8)) (Z.shiftl bf_off 16)) (Z.shiftl bf_len 24)) (Z.shiftl stride 32)).
  - rewrite (lor_add size _ 8) by lia. destruct be; cbn [Z.b2z]; rewrite (lor_add _ _ 16), (lor_add _ _ 24), (lor_add _ _ 32) by lia; lia.
  - destruct be; [|rewrite Z.shiftl_0_l, Z.lor_0_r; reflexivity]. change (Z.b2z true) with 1.
    rewrite <- !Z.lor_assoc. f_equal. rewrite (Z.lor_comm (Z.shiftl 1 8)). rewrite <- !Z.lor_assoc. reflexivity.
Qed.

Lemma land_ff x : Z.land x 0xff = x mod 256.
Proof. change 0xff with (Z.ones 8). apply Z.land_ones. lia. Qed.

Lemma bits_8 x : bits x (Z.shiftl 1 8) = Z.odd (x / 256).
Proof.
  unfold bits. change (Z.shiftl 1 8) with (Z.shiftl (Z.ones 1) 8).
  replace (Z.land x (Z.shiftl (Z.ones 1) 8)) with (Z.shiftl (Z.land (Z.shiftr x 8) (Z.ones 1)) 8).
  - rewrite Z.land_ones, Z.shiftr_div_pow2, Z.shiftl_mul_pow2 by lia. change (2 ^ 8) with 256. change (2 ^ 1) with 2. rewrite Zmod_odd.
    destruct (Z.odd (x / 256)); reflexivity.
  - apply Z.bits_inj'. intros n Hn. rewrite Z.land_spec. destruct (Z.lt_ge_cases n 8).
    + rewrite !Z.shiftl_spec_low by lia. rewrite andb_false_r. reflexivity.
    + rewrite !Z.shiftl_spec, Z.land_spec, Z.shiftr_spec by lia. rewrite Z.sub_add. reflexivity.
Qed.

Lemma meta_fields size bf_off bf_len stride be : 0 <= size < 256 -> 0 <= bf_off < 256 -> 0 <= bf_len < 256 ->
  let meta := writeConstArg_meta size bf_off bf_len stride be in
  Z.land meta 0xff = size /\ bits meta (Z.shiftl 1 8) = be /\ Z.land (Z.shiftr meta 16) 0xff = bf_off /\
  Z.land (Z.shiftr meta 24) 0xff = bf_len /\ Z.shiftr meta 32 = stride.
Proof.
  intros H1 H2 H3 meta. unfold meta. rewrite meta_sum, bits_8, !land_ff, !Z.shiftr_div_pow2 by lia. clear meta.
  assert (0 <= Z.b2z be < 256) by (destruct be; cbn; lia). set (b := Z.b2z be) in *. set (m := size + _).
  change (2 ^ 16) with (256 * 256). change (2 ^ 24) with (256 * 256 * 256). change (2 ^ 32) with (256 * 256 * 256 * 256).
  assert (m / 256 = b + 256 * (bf_off + 256 * (bf_len + 256 * stride))) as E1 by (unfold m; Z.to_euclidean_division_equations; lia).
  assert ((b + 256 * (bf_off + 256 * (bf_len + 256 * stride))) / 256 = bf_off + 256 * (bf_len + 256 * stride)) as E2 by (Z.to_euclidean_division_equations; lia).
  assert ((bf_off + 256 * (bf_len + 256 * stride)) / 256 = bf_len + 256 * stride) as E3 by (Z.to_euclidean_division_equations; lia).
  rewrite <- !Z.div_div by lia. rewrite E1, E2, E3.
  split_and!; try (unfold m; Z.to_euclidean_division_equations; lia).
  rewrite Z.odd_add, Z.odd_mul. cbn [Z.odd andb]. rewrite xorb_false_r. unfold b. destruct be; reflexivity.
Qed.

Lemma read_const_ok rs size val bf_off bf_len stride be l : arg_ok (A_const size val bf_off bf_len stride be) ->
  read_const_arg (writeConstArg_meta size bf_off bf_len stride be :: val :: l) =
  Ok (arg_value rs (A_const size val bf_off bf_len stride be), (size, bf_off, bf_len), l).
Proof.
  intros (H1 & H2 & H3 & H4 & H5). unfold read_const_arg. cbn [read_input rbind].
  destruct (meta_fields size bf_off bf_len stride be H1 H2 H3) as (-> & -> & -> & -> & ->). cbn [arg_value]. rewrite u64_add_r.
  destruct be; [|reflexivity]. destruct (H5 eq_refl) as [-> | [-> | ->]]; reflexivity.
Qed.

Lemma read_result_ok rs size idx op_div op_add dflt l : arg_ok (A_result size idx op_div op_add dflt) -> length rs = Z.to_nat kMaxCommands ->
  read_result rs (idx :: op_div :: op_add :: dflt :: l) = Ok (arg_value rs (A_result size idx op_div op_add dflt), l).
Proof.
  intros H Hl. cbn [arg_ok] in H. unfold read_result. cbn [read_input rbind arg_value]. rewrite (proj2 (Z.leb_gt _ _)) by lia.
  destruct (rs !! Z.to_nat idx) as [[[] v]|] eqn:E; cbn [of_option rbind].
  - destruct (op_div =? 0); reflexivity.
  - reflexivity.
  - apply lookup_ge_None in E. unfold kMaxCommands, res_t in *. lia.
Qed.

Lemma read_arg_ok rs a l : arg_ok a -> length rs = Z.to_nat kMaxCommands -> read_arg rs (writeArg a ++ l) = Ok (arg_value rs a, l).
Proof.
  intros H Hl. unfold read_arg. destruct a as [size val o ln st be | size idx d ad df]; cbn [writeArg app read_input rbind].
  - change (arg_const =? arg_const) with true. cbv iota. rewrite (read_const_ok rs) by exact H. reflexivity.
  - change (arg_result =? arg_const) with false. change (arg_result =? arg_result) with true. cbv iota. apply read_result_ok; assumption.
Qed.

Lemma read_args_ok rs args l : Forall arg_ok args -> length rs = Z.to_nat kMaxCommands ->
  read_args (length args) rs (concat (writeArg <$> args) ++ l) = Ok (arg_value rs <$> args, l).
Proof.
  intros H Hl. induction H as [|a args Ha _ IH]; [reflexivity|]. cbn [length read_args fmap list_fmap concat]. rewrite <- app_assoc.
  rewrite read_arg_ok by assumption. cbn [rbind]. change (list_fmap prog_arg (list Z) writeArg args) with (writeArg <$> args). rewrite IH. reflexivity.
Qed.

Lemma csum_chunks_ok m cs acc l : Forall chunk_ok cs ->
  csum_chunks (length cs) m acc (concat (write_chunk <$> cs) ++ l) = rbind (sum_chunks m acc cs) (fun acc => Ok (acc, l)).
Proof.
  intros H. revert acc. induction H as [|c cs Hc _ IH]; intros acc; [reflexivity|].
  destruct c as [addr size | v size]; cbn [length csum_chunks fmap list_fmap concat write_chunk app read_input rbind sum_chunks].
  - change (arg_csum_chunk_data =? arg_csum_chunk_data) with true. cbv iota.
    destruct (if all_mapped addr _ then _ else _) as [x|e]; [apply IH | reflexivity].
  - change (arg_csum_chunk_const =? arg_csum_chunk_data) with false. change (arg_csum_chunk_const =? arg_csum_chunk_const) with true. cbv iota.
    replace (_ && _) with false by (destruct Hc as [-> | [-> | ->]]; reflexivity).
    destruct (csum_inet_update _ _) as [x|e]; [apply IH | reflexivity].
Qed.

Lemma to_of_le n l : Forall (fun b => 0 <= b < 256) l -> (length l <= n)%nat -> to_le n (of_le l) = l ++ replicate (n - length l) 0.
Proof.
  intros H. revert n. induction H as [|b l Hb _ IH]; intros n Hn.
  - cbn [of_le length app]. rewrite Nat.sub_0_r. clear Hn. induction n as [|n IHn]; [reflexivity|]. cbn. f_equal. exact IHn.
  - destruct n as [|n]; [cbn in Hn; lia|]. cbn [of_le to_le length app Nat.sub].
    replace ((b + 256 * of_le l) mod 256) with b by (Z.to_euclidean_division_equations; lia).
    replace ((b + 256 * of_le l) / 256) with (of_le l) by (Z.to_euclidean_division_equations; lia).
    rewrite IH by (cbn in Hn; lia). reflexivity.
Qed.

Lemma words_of_length n bytes : length (words_of n bytes) = n.
Proof. revert bytes. induction n as [|n IH]; intros bytes; cbn [words_of length]; [reflexivity | rewrite IH; reflexivity]. Qed.

(** The bytes come back out of the words. *)
Lemma bytes_of_words n bytes l : Forall (fun b => 0 <= b < 256) bytes -> (length bytes <= 8 * n)%nat ->
  take (length bytes) (bytes_of (words_of n bytes ++ l)) = bytes.
Proof.
  revert bytes. induction n as [|n IH]; intros bytes H Hn; [destruct bytes; [reflexivity | cbn in Hn; lia]|].
  cbn [words_of app]. unfold bytes_of. cbn [fmap list_fmap concat]. fold (bytes_of (words_of n (drop 8 bytes) ++ l)).
  rewrite to_of_le by (apply Forall_take, H || (rewrite length_take; lia)). rewrite length_take.
  destruct (Nat.le_gt_cases 8 (length bytes)) as [G | L].
  - replace (8 - _)%nat with 0%nat by lia. cbn [replicate]. rewrite app_nil_r, take_app, take_take, length_take.
    replace (length bytes `min` 8)%nat with 8%nat by lia. replace (8 `min` length bytes)%nat with 8%nat by lia.
    rewrite <- (length_drop bytes 8) at 1. rewrite IH by (try apply Forall_drop, H; rewrite length_drop; lia). apply take_drop.
  - rewrite (take_ge bytes 8) by lia. rewrite <- app_assoc, take_app_length. reflexivity.
Qed.

Lemma words_enough bytes : (length bytes <= 8 * words bytes)%nat /\ Z.to_nat ((Z.of_nat (length bytes) + 7) / 8) = words bytes.
Proof.
  unfold words. split.
  - pose proof (Nat.div_mod_eq (length bytes + 7) 8). pose proof (Nat.mod_upper_bound (length bytes + 7) 8). lia.
  - rewrite <- (Nat2Z.id ((length bytes + 7) / 8)). f_equal. rewrite Nat2Z.inj_div, Nat2Z.inj_add. reflexivity.
Qed.

Lemma copy_data_ok addr bytes pad m l : Forall (fun b => 0 <= b < 256) (bytes ++ pad) -> length (bytes ++ pad) = (8 * words bytes)%nat ->
  copy_data addr (Z.of_nat (length bytes)) m (words_of (words bytes) (bytes ++ pad) ++ l) =
  Ok (if all_mapped addr (length bytes) then write_bytes m addr bytes else memcpy_fault m addr bytes, l).
Proof.
  intros H Hp. destruct (words_enough bytes) as [W1 W2]. unfold copy_data. rewrite (proj2 (Z.ltb_ge _ _)).
  - assert (take (length bytes) (bytes_of (words_of (words bytes) (bytes ++ pad) ++ l)) = bytes) as Et.
    { pose proof (bytes_of_words (words bytes) (bytes ++ pad) l H ltac:(lia)) as E. apply (f_equal (take (length bytes))) in E.
      rewrite take_take, take_app_length in E. rewrite Nat.min_l in E by (rewrite length_app; lia). exact E. }
    rewrite Nat2Z.id, Et, W2. rewrite drop_app_length' by (symmetry; apply words_of_length). reflexivity.
  - rewrite length_app, words_of_length. lia.
Qed.

Lemma run_fill_ok rs addr a m l : arg_ok a -> length rs = Z.to_nat kMaxCommands ->
  run_copyin rs m (addr :: writeArg a ++ l) = rbind (fill rs addr a m) (fun m => Ok (m, l)).
Proof.
  intros H Hl. unfold run_copyin. cbn [read_input rbind]. destruct a as [size val o ln st be | size idx d ad df]; cbn [writeArg app read_input rbind].
  - change (arg_const =? arg_const) with true. cbv iota. rewrite (read_const_ok rs) by exact H. reflexivity.
  - change (arg_result =? arg_const) with false. change (arg_result =? arg_result) with true. cbv iota.
    rewrite (read_result_ok rs size) by assumption. reflexivity.
Qed.

Lemma rbind_assoc {A B C} (r : res A) (f : A -> res B) (g : B -> res C) : rbind (rbind r f) g = rbind r (fun a => rbind (f a) g).
Proof. destruct r; reflexivity. Qed.

Lemma run_csum_ok rs addr cs m l : Forall chunk_ok cs ->
  run_copyin rs m ([addr; arg_csum; 2; arg_csum_inet; Z.of_nat (length cs)] ++ concat (write_chunk <$> cs) ++ l) =
  rbind (sum_chunks m csum_inet_init cs) (fun acc => rbind (copyin addr (csum_inet_digest acc) 2 0 0 m) (fun m => Ok (m, l))).
Proof.
  intros H. unfold run_copyin. cbn [app read_input rbind]. change (arg_csum =? arg_const) with false. change (arg_csum =? arg_result) with false.
  change (arg_csum =? arg_data) with false. change (arg_csum =? arg_csum) with true. cbv iota. cbn [read_input rbind].
  change (negb (arg_csum_inet =? arg_csum_inet)) with false. change (negb (2 =? 2)) with false. cbv iota. rewrite Nat2Z.id, csum_chunks_ok by exact H.
  rewrite rbind_assoc. reflexivity.
Qed.

Hypothesis count_ok : syscall_count <= instr_copyout.

(** The first word of an instruction that is no copyout, or of the end. *)
Lemma saves_ok p s rest : Forall instr_ok p ->
  run_copyouts (SerializeForExec p ++ rest) s = run_saves p s.
Proof.
  intros H. revert s. unfold SerializeForExec. induction H as [|i p Hi _ IH]; intros s; [reflexivity|].
  cbn [fmap list_fmap concat]. rewrite <- !app_assoc in *. change (list_fmap _ _ write_instr p) with (write_instr <$> p).
  destruct i as [addr a | addr bytes pad | addr cs | idx addr size | num co args]; cbn [write_instr app run_copyouts run_saves]; try reflexivity.
  - change (instr_copyout =? instr_copyout) with true. cbv iota. destruct Hi. rewrite (proj2 (Z.leb_gt _ _)) by lia.
    destruct (copyout addr size (memory s)) as [v|e]; [|reflexivity]. cbn [rbind]. apply IH.
  - destruct Hi as [Hn _]. rewrite (proj2 (Z.eqb_neq _ _)) by lia. reflexivity.
Qed.

Lemma results_set i v s : length (results (set_result i v s)) = length (results s).
Proof. apply length_insert. Qed.

Lemma run_saves_results p s s' : run_saves p s = Ok s' -> length (results s') = length (results s).
Proof.
  revert s. induction p as [|i p IH]; intros s; [intros [= ->]; reflexivity|].
  destruct i; cbn [run_saves]; try (intros [= ->]; reflexivity). destruct (copyout _ _ _) as [v|]; [|discriminate]. cbn [rbind].
  intros E. rewrite (IH _ E). destruct v; [apply results_set | reflexivity].
Qed.

Lemma run_call_ok num co args p s rest : instr_ok (I_call num co args) -> Forall instr_ok p -> length (results s) = Z.to_nat kMaxCommands ->
  run_call num (co :: Z.of_nat (length args) :: concat (writeArg <$> args) ++ SerializeForExec p ++ rest) s =
  let vals := arg_value (results s) <$> args in
  let '(ret, m) := execute_syscall num (call_args vals) (memory s) in
  let s := mk_ps m (results s) ((num, vals) :: made s) in
  rbind (if ret =? -1 then Ok s else run_saves p (if co =? no_copyout then s else set_result co (u64 ret) s))
    (fun s => Ok (s, SerializeForExec p ++ rest)).
Proof.
  intros (Hn & Hc & Hl & Ha) Hp Hr. unfold run_call. rewrite (proj2 (Z.leb_gt _ _)) by lia. cbn [read_input rbind].
  rewrite (proj2 (Z.ltb_ge _ _)) by (unfold kMaxArgs; lia). rewrite Nat2Z.id, read_args_ok by assumption. cbn [rbind].
  destruct (execute_syscall _ _ _) as [ret m]. unfold complete_call. destruct (ret =? -1); [reflexivity|].
  destruct (Z.eqb_spec co no_copyout) as [E | E]; cbn [negb].
  - cbn [rbind]. rewrite saves_ok by exact Hp. reflexivity.
  - destruct Hc as [Hc | Hc]; [contradiction|]. rewrite (proj2 (Z.leb_gt _ _)) by lia. cbn [rbind]. rewrite saves_ok by exact Hp. reflexivity.
Qed.

Lemma serialize_cons i p rest : SerializeForExec (i :: p) ++ rest = write_instr i ++ SerializeForExec p ++ rest.
Proof. unfold SerializeForExec. cbn [fmap list_fmap concat]. rewrite <- !app_assoc. reflexivity. Qed.

Lemma call_words num : 0 <= num < syscall_count -> (num =? instr_eof) = false /\ (num =? instr_copyin) = false /\ (num =? instr_copyout) = false.
Proof.
  intros H. assert (instr_copyout < instr_copyin /\ instr_copyin < instr_eof) by (split; vm_compute; reflexivity).
  split_and!; apply Z.eqb_neq; lia.
Qed.

Lemma run_prog_ok p fuel s rest : (length p < fuel)%nat -> Forall instr_ok p -> length (results s) = Z.to_nat kMaxCommands ->
  run_prog fuel (SerializeForExec p ++ rest) s = run_instrs p s.
Proof.
  revert fuel s. induction p as [|i p IH]; intros fuel s Hf H Hr; (destruct fuel as [|fuel]; [cbn in Hf; lia|]); [reflexivity|].
  inversion_clear H as [|? ? Hi Hp]. cbn [length] in Hf. rewrite serialize_cons.
  destruct i as [addr a | addr bytes pad | addr cs | idx addr size | num co args]; cbn [run_prog write_instr app read_input rbind run_instrs].
  - change (instr_copyin =? instr_eof) with false. change (instr_copyin =? instr_copyin) with true. cbv iota.
    rewrite run_fill_ok, rbind_assoc by assumption. destruct (fill _ _ _ _) as [m|e]; [|reflexivity]. apply (IH fuel (with_memory m s)); [lia | assumption..].
  - change (instr_copyin =? instr_eof) with false. change (instr_copyin =? instr_copyin) with true. cbv iota.
    unfold run_copyin. cbn [read_input rbind]. change (arg_data =? arg_const) with false. change (arg_data =? arg_result) with false.
    change (arg_data =? arg_data) with true. cbv iota. cbn [read_input rbind]. rewrite copy_data_ok by apply Hi. cbn [rbind].
    apply (IH fuel (with_memory _ s)); [lia | assumption..].
  - change (instr_copyin =? instr_eof) with false. change (instr_copyin =? instr_copyin) with true. cbv iota.
    pose proof (run_csum_ok (results s) addr cs (memory s) (SerializeForExec p ++ rest) Hi) as E. cbn [app] in E. rewrite E.
    destruct (sum_chunks _ _ _) as [acc|e]; [|reflexivity]. cbn [rbind]. destruct (copyin _ _ _ _ _ _) as [m|e]; [|reflexivity].
    apply (IH fuel (with_memory m s)); [lia | assumption..].
  - change (instr_copyout =? instr_eof) with false. change (instr_copyout =? instr_copyin) with false. change (instr_copyout =? instr_copyout) with true.
    cbv iota. cbn [read_input rbind]. apply IH; [lia | assumption..].
  - pose proof Hi as [Hn _]. destruct (call_words num Hn) as (-> & -> & ->). rewrite run_call_ok by assumption. cbn zeta.
    destruct (execute_syscall _ _ _) as [ret m]. rewrite rbind_assoc. cbn [rbind].
    set (s1 := mk_ps m _ _). assert (length (results s1) = Z.to_nat kMaxCommands) as H1 by exact Hr.
    destruct (ret =? -1); [apply IH; [lia | assumption..]|].
    destruct (run_saves _ _) as [s2|e] eqn:E; [|reflexivity]. cbn [rbind]. apply IH; [lia | assumption|].
    apply run_saves_results in E. rewrite E. destruct (co =? no_copyout); [exact H1 | rewrite results_set; exact H1].
Qed.

(** C11: the executor runs the program that the fuzzer has encoded, with calls made directly by
    the thread that decodes them: on the words of a well-formed
    program, whatever is behind them in the buffer, [execute_one] has the effect of the
    instructions in their order, with the same errors: memory filled, results substituted,
    calls made with their arguments and zeros behind them, and what a successful call returns and
    leaves in memory saved. *)
Theorem execute_encoded p s rest : Forall instr_ok p -> length (results s) = Z.to_nat kMaxCommands ->
  execute_one (SerializeForExec p ++ rest) s = run_instrs p s.
Proof.
  intros H Hr. unfold execute_one. apply run_prog_ok; try assumption.
  assert (length p <= length (SerializeForExec p))%nat; [|rewrite length_app; lia].
  clear. unfold SerializeForExec. rewrite length_app. cbn [length]. induction p as [|i p IH]; [cbn; lia|].
  cbn [fmap list_fmap concat length]. rewrite length_app. change (list_fmap _ _ write_instr p) with (write_instr <$> p).
  assert (1 <= length (write_instr i))%nat by (destruct i; cbn; lia). lia.
Qed.

(** ** Bit fields *)

Lemma bitmask_ones w len : 0 <= len < 64 -> len <= w -> BITMASK_LEN w len = Z.ones len.
Proof.
  intros H Hw. unfold BITMASK_LEN, shift_left, u64. rewrite (proj2 (Z.ltb_lt _ _)) by lia. rewrite Z.shiftl_mul_pow2, Z.mul_1_l by lia.
  rewrite (Z.mod_small (2 ^ len)) by (split; [apply Z.pow_nonneg; lia | apply Z.pow_lt_mono_r; lia]). rewrite Z.ones_equiv.
  pose proof (Z.pow_pos_nonneg 2 len ltac:(lia) ltac:(lia)). pose proof (Z.pow_le_mono_r 2 len w ltac:(lia) Hw). apply Z.mod_small. lia.
Qed.

(** A field keeps its bits outside [bf_off, bf_off + bf_len) and gets the value inside. *)
Lemma store_bits w old val off len n : 0 <= old < 2 ^ w -> 0 <= off -> 0 < len < 64 -> off + len <= w -> 0 <= n ->
  Z.testbit (STORE_BY_BITMASK w old val off len) n =
  if (off <=? n) && (n <? off + len) then Z.testbit val (n - off) else Z.testbit old n.
Proof.
  intros Ho H1 H2 H3 Hn. unfold STORE_BY_BITMASK. rewrite (proj2 (Z.eqb_neq len 0)) by lia. rewrite andb_false_r.
  unfold BITMASK_LEN_OFF. rewrite bitmask_ones by lia. unfold shift_left, promoted. rewrite !(proj2 (Z.ltb_lt off _)) by lia. cbv zeta.
  destruct (Z.lt_ge_cases n w) as [Lw | Gw].
  - rewrite Z.mod_pow2_bits_low, Z.lor_spec, Z.mod_pow2_bits_low, Z.land_spec, Z.lnot_spec, Z.mod_pow2_bits_low by lia.
    rewrite !Z.shiftl_spec, Z.land_spec by lia. destruct (Z.leb_spec off n) as [L | G]; cbn [andb].
    + destruct (Z.ltb_spec n (off + len)).
      * rewrite Z.ones_spec_low, Z.mod_pow2_bits_low by lia. cbn. rewrite andb_false_r, andb_true_r. reflexivity.
      * rewrite Z.ones_spec_high by lia. cbn. rewrite andb_true_r, andb_false_r, orb_false_r. reflexivity.
    + rewrite !(Z.testbit_neg_r _ (n - off)) by lia. cbn. rewrite andb_true_r, orb_false_r. reflexivity.
  - rewrite Z.mod_pow2_bits_high by lia. rewrite (testbit_above w old n) by lia.
    destruct (Z.ltb_spec n (off + len)); [lia|]. rewrite andb_false_r. reflexivity.
Qed.

Lemma store_range w old val off len : 0 <= w -> 0 <= STORE_BY_BITMASK w old val off len < 2 ^ w.
Proof. intros H. unfold STORE_BY_BITMASK. destruct (_ && _); apply Z.mod_pos_bound; lia. Qed.

Lemma le_value_range l : Forall (fun b => 0 <= b < 256) l -> 0 <= of_le l < 2 ^ (8 * Z.of_nat (length l)).
Proof.
  induction 1 as [|b l Hb _ IH]; [cbn; lia|]. cbn [of_le length].
  replace (8 * Z.of_nat (S (length l))) with (8 + 8 * Z.of_nat (length l)) by lia. rewrite Z.pow_add_r by lia. change (2 ^ 8) with 256. lia.
Qed.

Lemma read_bytes_ok m a n : mem_ok m -> Forall (fun b => 0 <= b < 256) (read_bytes m a n).
Proof. intros H. unfold read_bytes. apply Forall_fmap, Forall_forall. intros i _. apply H. Qed.

Lemma read_bytes_length m a n : length (read_bytes m a n) = n.
Proof. unfold read_bytes. rewrite length_fmap, length_seq. reflexivity. Qed.

(** C35: a store into a bit field, of less than 64 bits, of mapped memory sets exactly the bits of the field, to the low
    bits of the value; the other bits and the other bytes stay, and [copyout] reads the result
    back. *)
Theorem copyin_field addr val n size off len m m' : field_size size = Some n -> all_mapped addr n = true -> mem_ok m ->
  0 <= off -> 0 < len < 64 -> off + len <= 8 * Z.of_nat n -> copyin addr val size off len m = Ok m' ->
  (forall a, a < addr \/ addr + Z.of_nat n <= a -> m' a = m a) /\
  exists v, copyout addr size m' = Ok (Some v) /\
    forall i, 0 <= i -> Z.testbit v i = if (off <=? i) && (i <? off + len) then Z.testbit val (i - off) else Z.testbit (of_le (read_bytes m addr n)) i.
Proof.
  intros Hs Hm Hok H1 H2 H3 E. unfold copyin in E. rewrite Hs in E. cbn [of_option rbind] in E. rewrite Hm in E. injection E as <-.
  set (v := STORE_BY_BITMASK _ _ _ _ _). assert (0 <= v < 2 ^ (8 * Z.of_nat n)) as Hv by (apply store_range; lia). split.
  - intros a Ha. apply write_bytes_other. rewrite length_to_le. exact Ha.
  - exists v. split.
    + unfold copyout. rewrite Hs. cbn [of_option rbind]. rewrite Hm. do 2 f_equal.
      rewrite <- (length_to_le n v) at 2. rewrite read_write. apply of_to_le_small.
      replace (256 ^ Z.of_nat n) with (2 ^ (8 * Z.of_nat n)); [exact Hv|]. change 256 with (2 ^ 8). rewrite <- Z.pow_mul_r by lia. reflexivity.
    + intros i Hi. apply store_bits; try assumption.
      pose proof (le_value_range _ (read_bytes_ok m addr n Hok)) as R. rewrite read_bytes_length in R. exact R.
Qed.
End bitmask.

(** ** The checksum *)

(** The sum of the 16-bit words of the data. *)
Fixpoint sum16 (data : list Z) : Z :=
  match data with a :: b :: data => of_le [a; b] + sum16 data | [a] => a | [] => 0 end.

(** The one's complement sum: the numbers 1 to 65535 for the residues, 0 for 0 only. *)
Definition ones_sum (n : Z) : Z := if n =? 0 then 0 else (n - 1) mod 65535 + 1.

Definition bytes_ok (data : list Z) : Prop := Forall (fun b => 0 <= b < 256) data.

Lemma pair_ind (P : list Z -> Prop) : P [] -> (forall a, P [a]) -> (forall a b l, P l -> P (a :: b :: l)) -> forall l, P l.
Proof.
  intros H0 H1 H2 l. induction l as [l IH] using (induction_ltof1 _ (@length Z)). unfold ltof in IH.
  destruct l as [|a [|b l]]; auto. apply H2, IH. cbn. lia.
Qed.

Lemma sum16_range data : bytes_ok data -> 0 <= sum16 data /\ 2 * sum16 data <= 65535 * (Z.of_nat (length data) + 1).
Proof.
  unfold bytes_ok. induction data as [|a|a b data IH] using pair_ind; intros H; [cbn; lia | inversion H; subst; cbn; lia |].
  rewrite !Forall_cons in H. destruct H as (Ha & Hb & H). specialize (IH H). cbn [sum16 length of_le]. lia.
Qed.

(** The accumulator of 32 bits does not overflow on up to 128 kB. *)
Lemma csum_words_sum data acc : bytes_ok data -> 0 <= acc -> acc + sum16 data < 2 ^ 32 -> csum_words acc data = acc + sum16 data.
Proof.
  revert acc. unfold bytes_ok. induction data as [|a|a b data IH] using pair_ind; intros acc H Ha Hs; [cbn; lia | apply Forall_cons in H as [H _]; cbn [csum_words sum16] in *; apply Z.mod_small; lia |].
  rewrite !Forall_cons in H. destruct H as (H1 & H2 & H). cbn [csum_words sum16] in *. pose proof (sum16_range data H) as [R _].
  assert (0 <= of_le [a; b]) by (cbn; lia). unfold u32. rewrite Z.mod_small by lia. rewrite IH by (assumption || lia). lia.
Qed.

Lemma ones_sum_fold x : 0xffff < x -> ones_sum (x mod 65536 + x / 65536) = ones_sum x.
Proof.
  intros H. unfold ones_sum. set (q := x / 65536). set (r := x mod 65536).
  assert (x = 65536 * q + r /\ 0 <= r < 65536 /\ 1 <= q) as (E & Hr & Hq) by (unfold q, r; Z.to_euclidean_division_equations; lia).
  rewrite !(proj2 (Z.eqb_neq _ _)) by lia. f_equal. replace (x - 1) with ((r + q - 1) + q * 65535) by lia. rewrite Z.mod_add by lia. reflexivity.
Qed.

Lemma ones_sum_small x : 0 <= x <= 65535 -> ones_sum x = x.
Proof. intros H. unfold ones_sum. destruct (Z.eqb_spec x 0); [lia|]. rewrite Z.mod_small by lia. lia. Qed.

Lemma ones_sum_range x : 0 <= x -> 0 <= ones_sum x <= 65535.
Proof. intros H. unfold ones_sum. destruct (_ =? _); [lia|]. pose proof (Z.mod_pos_bound (x - 1) 65535). lia. Qed.

Lemma ones_sum_add a b : 0 <= a -> 0 <= b -> ones_sum (ones_sum a + b) = ones_sum (a + b).
Proof.
  intros Ha Hb. unfold ones_sum at 2. destruct (Z.eqb_spec a 0) as [-> | Na]; [reflexivity|].
  pose proof (Z.mod_pos_bound (a - 1) 65535). unfold ones_sum. rewrite !(proj2 (Z.eqb_neq _ _)) by lia. f_equal.
  replace ((a - 1) mod 65535 + 1 + b - 1) with ((a - 1) mod 65535 + b) by lia. rewrite Zplus_mod_idemp_l. f_equal. lia.
Qed.

Lemma carry_round acc : 0 <= acc < 2 ^ 32 -> u32 (Z.land acc 0xffff + Z.shiftr acc 16) = acc mod 65536 + acc / 65536.
Proof.
  intros H. rewrite land_ffff, Z.shiftr_div_pow2 by lia. apply Z.mod_small. change (2 ^ 16) with 65536. Z.to_euclidean_division_equations. lia.
Qed.

Lemma csum_carry_value fuel acc x : 0 <= acc < 2 ^ 32 -> csum_carry fuel acc = Ok x -> x = ones_sum acc.
Proof.
  revert acc. induction fuel as [|fuel IH]; intros acc H; cbn [csum_carry]; destruct (Z.ltb_spec 0xffff acc) as [L | G];
    try discriminate; try (intros [= <-]; symmetry; apply ones_sum_small; lia).
  rewrite carry_round by exact H. intros E. apply IH in E; [|Z.to_euclidean_division_equations; lia]. rewrite ones_sum_fold in E by exact L. exact E.
Qed.

Lemma csum_update_value acc data : bytes_ok data -> 0 <= acc <= 65535 -> Z.of_nat (length data) < 2 ^ 17 ->
  csum_inet_update acc data = Ok (ones_sum (acc + sum16 data)).
Proof.
  intros H Ha Hl. destruct (sum16_range data H) as [R1 R2]. unfold csum_inet_update. case_bool_decide as E.
  - subst. cbn [sum16]. rewrite Z.add_0_r, ones_sum_small by lia. reflexivity.
  - rewrite csum_words_sum by (assumption || lia). destruct (csum_carry_ends (acc + sum16 data) ltac:(lia)) as (x & Ex & _).
    rewrite Ex. f_equal. apply (csum_carry_value 2); [lia | exact Ex].
Qed.

Lemma sum16_app a b : Nat.even (length a) = true -> sum16 (a ++ b) = sum16 a + sum16 b.
Proof.
  induction a as [|x|x y a IH] using pair_ind; intros H; [reflexivity | discriminate |]. cbn [app sum16]. rewrite IH by exact H. lia.
Qed.

(** The chunks one after the other. *)
Fixpoint csum_all (acc : Z) (chunks : list (list Z)) : res Z :=
  match chunks with [] => Ok acc | c :: cs => let? acc := csum_inet_update acc c in csum_all acc cs end.

(** Every chunk but the last has an even number of bytes. *)
Fixpoint even_but_last (chunks : list (list Z)) : Prop :=
  match chunks with [] => True | c :: cs => (cs = [] \/ Nat.even (length c) = true) /\ even_but_last cs end.

Lemma csum_all_value chunks acc : Forall bytes_ok chunks -> Forall (fun c => Z.of_nat (length c) < 2 ^ 17) chunks -> even_but_last chunks ->
  0 <= acc <= 65535 -> csum_all acc chunks = Ok (ones_sum (acc + sum16 (concat chunks))).
Proof.
  revert acc. induction chunks as [|c cs IH]; intros acc Hb Hl He Ha; cbn [csum_all concat even_but_last] in *.
  - cbn [sum16]. rewrite Z.add_0_r, ones_sum_small by lia. reflexivity.
  - apply Forall_cons in Hb as [Hc Hb], Hl as [Lc Hl]. destruct He as [E He]. rewrite csum_update_value by assumption. cbn [rbind].
    destruct (sum16_range c Hc) as [R _]. rewrite IH by (assumption || apply ones_sum_range; lia).
    assert (bytes_ok (concat cs)) as Hcs by (unfold bytes_ok; apply Forall_concat; exact Hb).
    destruct (sum16_range (concat cs) Hcs) as [R' _]. rewrite ones_sum_add by lia. do 2 f_equal.
    destruct E as [-> | E]; [cbn [concat sum16]; rewrite app_nil_r; lia | rewrite sum16_app by exact E; lia].
Qed.

Lemma ones_sum_mod n : 0 <= n -> ones_sum n mod 65535 = n mod 65535.
Proof.
  intros H. unfold ones_sum. destruct (Z.eqb_spec n 0) as [-> |]; [reflexivity|]. rewrite Zplus_mod_idemp_l. f_equal. lia.
Qed.

(** C36: the checksum that the executor writes is the Internet checksum of the concatenated chunks
    (all but the last of even length, each below 128 kB, where the 32-bit sum does not wrap): the one's complement of their one's complement sum, so
    that the 16-bit words with the checksum add up to zero modulo 65535. *)
Theorem checksum_correct chunks : Forall bytes_ok chunks -> Forall (fun c => Z.of_nat (length c) < 2 ^ 17) chunks -> even_but_last chunks ->
  exists acc, csum_all csum_inet_init chunks = Ok acc /\ acc = ones_sum (sum16 (concat chunks)) /\
    csum_inet_digest acc = 65535 - acc /\ (sum16 (concat chunks) + csum_inet_digest acc) mod 65535 = 0.
Proof.
  intros Hb Hl He. assert (bytes_ok (concat chunks)) as Hc by (unfold bytes_ok; apply Forall_concat; exact Hb).
  destruct (sum16_range _ Hc) as [R _]. set (n := sum16 (concat chunks)) in *. exists (ones_sum n).
  pose proof (ones_sum_range n R) as Ro.
  assert (csum_inet_digest (ones_sum n) = 65535 - ones_sum n) as Ed.
  { unfold csum_inet_digest, Z.lnot. rewrite <- (Z.mod_add _ 1) by lia. rewrite Z.mod_small; lia. }
  split; [apply csum_all_value; auto; unfold csum_inet_init; lia|]. split; [reflexivity|]. split; [exact Ed|].
  rewrite Ed. replace (n + (65535 - ones_sum n)) with (n - ones_sum n + 1 * 65535) by lia. rewrite Z.mod_add by lia.
  rewrite Zminus_mod, ones_sum_mod by lia. rewrite Z.sub_diag. reflexivity.
Qed.

(** ** Coverage signals *)

Definition hash (a : Z) : Z :=
  let a := Z.lxor (Z.lxor a 61) (Z.shiftr a 16) in
  let a := u32 (a + u32 (Z.shiftl a 3)) in
  let a := Z.lxor a (Z.shiftr a 4) in
  let a := u32 (a * 0x27d4eb2d) in
  Z.lxor a (Z.shiftr a 15).

Definition dedup_table_size : Z := 8 * 2 ^ 10.

(** The table after [4 - n] probes. *)
Fixpoint dedup_loop (n : nat) (i sig : Z) (t : list Z) : bool * list Z :=
  match n with
  | O => (false, <[Z.to_nat (sig mod dedup_table_size) := sig]> t)
  | S n =>
      let pos := Z.to_nat (u32 (sig + i) mod dedup_table_size) in
      if default 0 (t !! pos) =? sig then (true, t)
      else if default 0 (t !! pos) =? 0 then (false, <[pos := sig]> t)
      else dedup_loop n (i + 1) sig t
  end.
Definition dedup (sig : Z) (t : list Z) : bool * list Z := dedup_loop 4 0 sig t.

(** The first loop of [write_coverage_signal]: what is written, and the table. *)
Fixpoint write_signals (cover : list Z) (prev : Z) (t : list Z) : list Z * list Z :=
  match cover with
  | [] => ([], t)
  | pc :: cover =>
      let pc := u32 pc in
      let sig := Z.lxor pc prev in
      let '(known, t) := dedup sig t in
      let '(out, t) := write_signals cover (hash pc) t in
      (if known then out else sig :: out, t)
  end.

(** The signals of the calls of a program, one list per call; the table is shared. *)
Fixpoint write_calls (calls : list (list Z)) (t : list Z) : list (list Z) * list Z :=
  match calls with
  | [] => ([], t)
  | c :: calls => let '(out, t) := write_signals c 0 t in let '(outs, t) := write_calls calls t in (out :: outs, t)
  end.

(** The edges of a call. *)
Fixpoint edges (cover : list Z) (prev : Z) : list Z :=
  match cover with [] => [] | pc :: cover => Z.lxor (u32 pc) prev :: edges cover (hash (u32 pc)) end.

Lemma insert_elem (t : list Z) i x y : y ∈ <[i := x]> t -> y = x \/ y ∈ t.
Proof.
  intros H. apply list_elem_of_lookup in H as [j Hj]. apply list_lookup_insert_Some in Hj as [(_ & -> & _) | (_ & Hj)]; [auto|].
  right. apply list_elem_of_lookup. eauto.
Qed.

Lemma default_elem (t : list Z) i x : default 0 (t !! i) = x -> x <> 0 -> x ∈ t.
Proof.
  intros <- H. destruct (t !! i) eqn:E; [|destruct (H eq_refl)]. apply list_elem_of_lookup. eauto.
Qed.

(** A signal is taken for known only when the table has it, and the table gets no others. *)
Lemma dedup_loop_sound n i sig t k t' : dedup_loop n i sig t = (k, t') -> sig <> 0 ->
  (k = true -> sig ∈ t) /\ (forall x, x ∈ t' -> x ∈ t \/ x = sig).
Proof.
  revert i. induction n as [|n IH]; intros i E Hs; cbn [dedup_loop] in E.
  - injection E as <- <-. split; [discriminate|]. intros x Hx. apply insert_elem in Hx as [|]; auto.
  - destruct (Z.eqb_spec (default 0 (t !! Z.to_nat (u32 (sig + i) mod dedup_table_size))) sig) as [Ee | _].
    + injection E as <- <-. split; [|auto]. intros _. eapply default_elem; eassumption.
    + destruct (_ =? 0); [|eapply IH; eassumption]. injection E as <- <-. split; [discriminate|].
      intros x Hx. apply insert_elem in Hx as [|]; auto.
Qed.

Lemma dedup_zero n i t k t' : dedup_loop n i 0 t = (k, t') -> forall x, x ∈ t' -> x ∈ t \/ x = 0.
Proof.
  revert i. induction n as [|n IH]; intros i E; cbn [dedup_loop] in E.
  - injection E as <- <-. intros x Hx. apply insert_elem in Hx as [|]; auto.
  - destruct (_ =? 0); [injection E as <- <-; auto|]. eapply IH, E.
Qed.

Lemma write_signals_sound cover prev t out t' : write_signals cover prev t = (out, t') ->
  (forall x, x ∈ edges cover prev -> x <> 0 -> x ∈ out \/ x ∈ t) /\ (forall x, x ∈ t' -> x <> 0 -> x ∈ out \/ x ∈ t) /\
  (forall x, x ∈ out -> x ∈ edges cover prev).
Proof.
  revert prev t out t'. induction cover as [|pc cover IH]; intros prev t out t'; cbn [write_signals edges].
  { intros [= <- <-]. split_and!; auto; intros x H; inversion H. }
  set (sig := Z.lxor (u32 pc) prev). destruct (dedup sig t) as [k t1] eqn:Ed.
  destruct (write_signals cover (hash (u32 pc)) t1) as [o t2] eqn:Ew. intros [= <- <-]. destruct (IH _ _ _ _ Ew) as (I1 & I2 & I3).
  assert (forall x, x ∈ t1 -> x <> 0 -> x = sig \/ x ∈ t) as Ht.
  { intros x Hx Nx. destruct (Z.eq_dec sig 0) as [Z | N].
    - rewrite Z in Ed. destruct (dedup_zero _ _ _ _ _ Ed x Hx); [auto | contradiction].
    - destruct (dedup_loop_sound _ _ _ _ _ _ Ed N) as [_ D]. destruct (D x Hx); auto. }
  assert (sig <> 0 -> sig ∈ (if k then o else sig :: o) \/ sig ∈ t) as Hsig.
  { intros N. destruct k; [|left; left]. destruct (dedup_loop_sound _ _ _ _ _ _ Ed N) as [D _]. auto. }
  assert (forall x, x ∈ o -> x ∈ (if k then o else sig :: o)) as Ho by (intros x Hx; destruct k; [exact Hx | right; exact Hx]).
  assert (forall x, x <> 0 -> x ∈ o \/ x ∈ t1 -> x ∈ (if k then o else sig :: o) \/ x ∈ t) as Hx.
  { intros x N [H | H]; [auto|]. destruct (Ht x H N) as [-> | ?]; auto. }
  split_and!.
  - intros x H N. apply elem_of_cons in H as [-> | H]; [auto|]. apply Hx; auto.
  - intros x H N. apply Hx; auto.
  - intros x H. apply elem_of_cons. destruct k; [right; auto|]. apply elem_of_cons in H as [|]; auto.
Qed.

Lemma write_calls_sound calls t outs t' : write_calls calls t = (outs, t') ->
  length outs = length calls /\
  (forall i c, calls !! i = Some c ->
    (forall o, outs !! i = Some o -> forall x, x ∈ o -> x ∈ edges c 0) /\
    forall x, x ∈ edges c 0 -> x <> 0 -> x ∈ t \/ exists j o, (j <= i)%nat /\ outs !! j = Some o /\ x ∈ o) /\
  forall x, x ∈ t' -> x <> 0 -> x ∈ t \/ exists o, o ∈ outs /\ x ∈ o.
Proof.
  revert t outs t'. induction calls as [|c calls IH]; intros t outs t'; cbn [write_calls].
  { intros [= <- <-]. split_and!; auto. intros i c H. rewrite lookup_nil in H. discriminate. }
  destruct (write_signals c 0 t) as [out t1] eqn:E1. destruct (write_calls calls t1) as [outs1 t2] eqn:E2. intros [= <- <-].
  destruct (write_signals_sound _ _ _ _ _ E1) as (S1 & S2 & S3). destruct (IH _ _ _ E2) as (I1 & I2 & I3). split_and!.
  - cbn [length]. rewrite I1. reflexivity.
  - intros [|i] c' Hc; cbn [lookup list_lookup] in Hc.
    + injection Hc as <-. split; [intros o [= <-]; exact S3|]. intros x Hx N. destruct (S1 x Hx N) as [H | H]; [|auto].
      right. exists 0%nat, out. auto.
    + destruct (I2 i c' Hc) as [J1 J2]. split; [exact J1|]. intros x Hx N. destruct (J2 x Hx N) as [H | (j & o & Hj & Ho & Hxo)].
      * destruct (S2 x H N) as [H' | H']; [|auto]. right. exists 0%nat, out. split_and!; [lia | reflexivity | exact H'].
      * right. exists (S j), o. split_and!; [lia | exact Ho | exact Hxo].
  - intros x Hx N. destruct (I3 x Hx N) as [H | (o & Ho & Hxo)].
    + destruct (S2 x H N) as [H' | H']; [|auto]. right. exists out. split; [left | exact H'].
    + right. exists o. split; [right; exact Ho | exact Hxo].
Qed.

(** C37: no coverage is lost by the lossy table: starting with an empty table, every signal of a call
    other than 0 is written for that call or for one before it, and only signals of the call are
    written for it. *)
Theorem signals_not_lost calls outs t : write_calls calls (replicate (Z.to_nat dedup_table_size) 0) = (outs, t) ->
  length outs = length calls /\
  forall i c, calls !! i = Some c ->
    (forall o, outs !! i = Some o -> forall x, x ∈ o -> x ∈ edges c 0) /\
    forall x, x ∈ edges c 0 -> x <> 0 -> exists j o, (j <= i)%nat /\ outs !! j = Some o /\ x ∈ o.
Proof.
  assert (forall x, x ∈ replicate (Z.to_nat dedup_table_size) 0 -> x <> 0 -> False) as H0.
  { intros x Hx N. apply elem_of_replicate in Hx as [-> _]. contradiction. }
  revert H0. generalize (replicate (Z.to_nat dedup_table_size) 0) as t0. intros t0 H0 E.
  enough (length outs = length calls /\ forall i c, calls !! i = Some c ->
    (forall o, outs !! i = Some o -> forall x, x ∈ o -> x ∈ edges c 0) /\
    forall x, x ∈ edges c 0 -> x <> 0 -> x ∈ t0 \/ exists j o, (j <= i)%nat /\ outs !! j = Some o /\ x ∈ o) as [Hl H].
  { split; [exact Hl|]. intros i c Hc. destruct (H i c Hc) as [H1 H2]. split; [exact H1|]. intros x Hx N.
    destruct (H2 x Hx N) as [X | X]; [destruct (H0 x X N) | exact X]. }
  clear H0. apply write_calls_sound in E as (Hl & H & _). auto.
Qed.

(** The signal 0 is never written: it equals the mark of an empty entry. *)
Lemma zero_signal_dropped t : default 0 (t !! 0%nat) = 0 -> dedup 0 t = (true, t).
Proof. intros H. unfold dedup, dedup_loop. change (Z.to_nat (u32 (0 + 0) mod dedup_table_size)) with 0%nat. rewrite H. reflexivity. Qed.

(** ** Comparisons *)

Record kcov_comparison_t := mk_cmp { type : Z; arg1 : Z; arg2 : Z }.

Definition KCOV_CMP_CONST : Z := 1.
Definition KCOV_CMP_SIZE1 : Z := 0.
Definition KCOV_CMP_SIZE2 : Z := 2.
Definition KCOV_CMP_SIZE4 : Z := 4.
Definition KCOV_CMP_SIZE8 : Z := 6.
Definition KCOV_CMP_SIZE_MASK : Z := 6.

Definition cmp_eq (a b : kcov_comparison_t) : bool := (type a =? type b) && (arg1 a =? arg1 b) && (arg2 a =? arg2 b).
Definition cmp_lt (a b : kcov_comparison_t) : bool :=
  if negb (type a =? type b) then type a <? type b else if negb (arg1 a =? arg1 b) then arg1 a <? arg1 b else arg2 a <? arg2 b.

(** The sign extension of a value of [w] bits to 64. *)
Definition sext (w v : Z) : Z := let x := v mod 2 ^ w in u64 (if x <? 2 ^ (w - 1) then x else x - 2 ^ w).

Definition cmp_args (c : kcov_comparison_t) : Z * Z :=
  let size := Z.land (type c) KCOV_CMP_SIZE_MASK in
  let ext w := (sext w (arg1 c), sext w (arg2 c)) in
  if size =? KCOV_CMP_SIZE1 then ext 8 else if size =? KCOV_CMP_SIZE2 then ext 16 else if size =? KCOV_CMP_SIZE4 then ext 32
  else (arg1 c, arg2 c).

Definition cmp_write (c : kcov_comparison_t) : list Z :=
  let '(a, b) := cmp_args c in
  u32 (type c) ::
  if negb (Z.land (type c) KCOV_CMP_SIZE_MASK =? KCOV_CMP_SIZE8) then [u32 a; u32 b]
  else [u32 (Z.land a 0xffffffff); u32 (Z.shiftr a 32); u32 (Z.land b 0xffffffff); u32 (Z.shiftr b 32)].

(** The order by which comparisons are sorted is a strict total order up to the equality by which
    duplicates are dropped: sorting puts equal ones next to each other. *)
Lemma cmp_total a b : (cmp_eq a b = true /\ cmp_lt a b = false /\ cmp_lt b a = false) \/
  (cmp_eq a b = false /\ cmp_lt a b = negb (cmp_lt b a)).
Proof.
  unfold cmp_eq, cmp_lt. rewrite (Z.eqb_sym (type b)), (Z.eqb_sym (arg1 b)).
  destruct (Z.eqb_spec (type a) (type b)) as [-> |]; cbn [negb andb]; [destruct (Z.eqb_spec (arg1 a) (arg1 b)) as [-> |]; cbn [negb andb]|].
  - destruct (Z.eqb_spec (arg2 a) (arg2 b)) as [-> |]; [left; rewrite Z.ltb_irrefl; auto|]. right. split; [reflexivity|]. lia.
  - right. split; [reflexivity|]. lia.
  - right. split; [reflexivity|]. lia.
Qed.

Lemma cmp_trans a b c : cmp_lt a b = true -> cmp_lt b c = true -> cmp_lt a c = true.
Proof.
  unfold cmp_lt. destruct (Z.eqb_spec (type a) (type b)), (Z.eqb_spec (type b) (type c)), (Z.eqb_spec (type a) (type c));
    destruct (Z.eqb_spec (arg1 a) (arg1 b)), (Z.eqb_spec (arg1 b) (arg1 c)), (Z.eqb_spec (arg1 a) (arg1 c)); cbn [negb]; lia.
Qed.

(** ** A program: a buffer with a bit field and a checksum, and two calls *)

Definition no_shift : Z -> Z -> Z := fun x _ => x.
Definition demo_mapped (a : Z) : bool := (0x20000000 <=? a) && (a <? 0x20001000).
Definition demo_call (num : Z) (args : list Z) (m : mem) : Z * mem := if num =? 3 then (7, m) else (0, write_bytes m 0x20000100 [1; 2; 3; 4]).
Definition demo_prog : list prog_instr :=
  [I_data 0x20000000 [0x45; 0; 0; 0x1c; 9] [0xee; 0xff; 1]; I_fill 0x20000002 (A_const 2 0x1234 0 0 0 true); I_fill 0x20000004 (A_const 1 5 2 3 0 false);
   I_csum 0x20000010 [K_data 0x20000000 4; K_const 0x1100 2]; I_call 3 0 [A_const 8 0x20000000 0 0 0 false];
   I_call 4 no_copyout [A_result 4 0 0 1 99; A_result 4 1 0 0 99]; I_save 1 0x20000100 4; I_call 4 no_copyout [A_result 4 1 0 0 99]].
Definition demo_start : prog_state := mk_ps (fun _ => 0) (replicate (Z.to_nat kMaxCommands) (false, 0)) [].
Definition demo_run : res prog_state :=
  execute_one no_shift 1 demo_mapped (fun m _ _ => m) (fun _ acc _ _ => acc) 2000 demo_call (SerializeForExec demo_prog ++ [17; 18]) demo_start.

Example demo_effect : match demo_run with
  | Ok s => read_bytes (memory s) 0x20000000 5 = [0x45; 0; 0x12; 0x34; 21] /\
      read_bytes (memory s) 0x20000010 2 = [0xa8; 0xba] /\ rev (made s) = [(3, [0x20000000]); (4, [8; 99]); (4, [0x04030201])]
  | Err _ => False end.
Proof. vm_compute. auto. Qed.

Lemma demo_ok : Forall (instr_ok 2000) demo_prog.
Proof.
  assert (forall size val, 0 <= size < 256 -> arg_ok (A_const size val 0 0 0 false)) as Hc by (intros; cbn; repeat split; lia || discriminate).
  assert (forall size idx d a f, 0 <= idx < 1000 -> arg_ok (A_result size idx d a f)) as Hr by (intros; exact H).
  unfold demo_prog.
  apply Forall_cons_2; [cbn [instr_ok app]; split; [repeat (apply Forall_cons_2; [lia|]); apply Forall_nil_2 | reflexivity]|].
  apply Forall_cons_2; [cbn; unfold byte_size; repeat split; lia|].
  apply Forall_cons_2; [cbn; repeat split; lia || discriminate|].
  apply Forall_cons_2; [repeat constructor|].
  apply Forall_cons_2; [cbn [instr_ok]; split_and!; [lia | lia | right; unfold kMaxCommands; lia | cbn; lia | apply Forall_cons_2; [apply Hc; lia|]; apply Forall_nil_2]|].
  apply Forall_cons_2; [cbn [instr_ok]; split_and!; [lia | lia | left; reflexivity | cbn; lia | repeat (apply Forall_cons_2; [apply Hr; lia|]); apply Forall_nil_2]|].
  apply Forall_cons_2; [cbn [instr_ok]; unfold kMaxCommands; lia|].
  apply Forall_cons_2; [cbn [instr_ok]; split_and!; [lia | lia | left; reflexivity | cbn; lia | apply Forall_cons_2; [apply Hr; lia|]; apply Forall_nil_2]|].
  apply Forall_nil_2.
Qed.

Lemma execute_encoded_witness : 2000 <= instr_copyout /\ Forall (instr_ok 2000) demo_prog /\
  demo_run = run_instrs no_shift 1 demo_mapped (fun m _ _ => m) (fun _ acc _ _ => acc) demo_call demo_prog demo_start.
Proof.
  assert (2000 <= instr_copyout) as C by (vm_compute; discriminate). split; [exact C|]. split; [apply demo_ok|].
  apply (execute_encoded no_shift 1 demo_mapped (fun m _ _ => m) (fun _ acc _ _ => acc) 2000 demo_call C demo_prog demo_start [17; 18]);
    [apply demo_ok | vm_compute; reflexivity].
Defined.

Lemma copyin_field_witness : exists m', copyin no_shift demo_mapped 0x20000004 5 1 2 3 (fun _ => 0xff) = Ok m' /\
  exists v, copyout demo_mapped 0x20000004 1 m' = Ok (Some v).
Proof.
  eexists. split; [reflexivity|].
  destruct (copyin_field no_shift demo_mapped 0x20000004 5 1 1 2 3 (fun _ => 0xff) _ eq_refl eq_refl ltac:(intros a; lia) ltac:(lia) ltac:(lia) ltac:(lia) eq_refl)
    as (_ & v & Hv & _).
  exists v. exact Hv.
Defined.

Lemma checksum_correct_witness : exists acc, csum_all csum_inet_init [[0x45; 0; 0; 0x1c]; [0x11; 0; 9]] = Ok acc /\ csum_inet_digest acc = 65535 - acc.
Proof.
  assert (Forall bytes_ok [[0x45; 0; 0; 0x1c]; [0x11; 0; 9]]) as B.
  { repeat (apply Forall_cons_2; [unfold bytes_ok; repeat (apply Forall_cons_2; [lia|]); apply Forall_nil_2|]). apply Forall_nil_2. }
  assert (Forall (fun c => Z.of_nat (length c) < 2 ^ 17) [[0x45; 0; 0; 0x1c]; [0x11; 0; 9]]) as L.
  { repeat (apply Forall_cons_2; [cbn [length]; lia|]). apply Forall_nil_2. }
  destruct (checksum_correct [[0x45; 0; 0; 0x1c]; [0x11; 0; 9]] B L ltac:(cbn; auto)) as (acc & H1 & _ & H2 & _). exists acc. auto.
Defined.

Definition demo_cover : list (list Z) := [[0x81000010; 0x81000020; 0x81000010]; [0x81000010; 0x81000020; 0x81000030]].

Lemma signals_not_lost_witness : exists outs t, write_calls demo_cover (replicate (Z.to_nat dedup_table_size) 0) = (outs, t) /\
  length <$> outs = [3%nat; 1%nat] /\ length outs = length demo_cover.
Proof.
  destruct (write_calls demo_cover (replicate (Z.to_nat dedup_table_size) 0)) as [outs t] eqn:E. exists outs, t. split; [reflexivity|].
  split; [|apply (signals_not_lost demo_cover outs t E)].
  replace outs with (write_calls demo_cover (replicate (Z.to_nat dedup_table_size) 0)).1 by (rewrite E; reflexivity). vm_compute. reflexivity.
Defined.
